(* ===== verification/_CoqProject ===== *)
-Q . S2P
Prelude.v
Binary64.v
GoLib.v
GoText.v
AmountWords.v
Schema.v
World.v
Auth.v
Guards.v
Statements.v
Domain.v
RoomRepo.v
Ledger.v
VoucherSpec.v
Promo.v
Customers.v
FolioCharge.v
Pricing.v
Settlement.v
Reservations.v
FrontDesk.v
DeskSpec.v
Lifecycle.v
DineIn.v
Billing.v
BillSplit.v
Restaurant.v
PosInvariant.v
SplitSpec.v
BillSpec.v
PaySpec.v
Accounting.v
Documents.v
DocumentSpec.v
AccountingSpec.v
NightAudit.v
NightSpec.v
Housekeeping.v
HousekeepingSpec.v
UserRepo.v
AuthService.v
Users.v
UserSpec.v
Gates.v
GateSpec.v
WorkerPool.v
GoCrypto.v
GoAes.v
TaxInvoice.v
InvoiceSpec.v
ChannelIngest.v
ChannelSpec.v
PaymentRepo.v
Gateway.v
PaymentDesk.v
GatewaySpec.v
Booking.v
BookingSpec.v
FolioDesk.v
FolioSpec.v
Waitlist.v
Crm.v
CrmSpec.v
RoomDesk.v
RoomSpec.v
