(* ===== verification/Prelude.v ===== *)
(** * Serenentra hotel API: a verification development

    The program (src/) is the Go server of a hotel management product.  Its
    handlers (internal/handler) read a request, check roles and input, and run
    SQL through the repositories (internal/repository/postgres) and the payment
    service (internal/service/payment_service.go); slow work goes to a worker
    pool (internal/worker).  What makes it correct is money and occupancy: a room
    is not sold twice, a stay and a bill only move forward, and every amount that
    is taken is posted once, balanced, in whole paise.

    ** How the program is modelled

    A handler is a computation [M E A] on a [World] (World.v): the committed
    database, the open transaction, the traces of notifications and of calls to
    outside services, and counters of the statements, UUIDs and clock readings
    used.  The error side carries the early returns.  The database (Schema.v) is
    one list of row records per table, with the constraints each statement can
    violate written in the insert and update definitions.  [Env] is what the code
    does not control: which statement fails ([db_fault], an arbitrary function of
    the statement's number, so a theorem over all environments holds for every
    pattern of failures, including constraints that are not written out), UUIDs,
    clocks, and pgx's conversion of a float64 to NUMERIC.  [EnvLaws] states what
    is relied on: whole paise in the column's range survive the trip, other
    amounts are rounded to the nearest hundredth, fresh UUIDs are new.  Verifying
    a token ([Jwt]), decoding a channel's payload ([Json]), the answers of
    Stripe, Razorpay, the rate service and Redis ([Outside], [AuthCache],
    [RateCache]), the decoding of those answers ([GatewayJson]), bcrypt and the
    signing and reading of session tokens ([Credentials]), the struct validator
    ([Validator]), the QR encoder ([InvoiceLib]), JSON columns ([JsonColumn]),
    text read as a timestamp ([TimestampText]) and the cached JSON of rooms
    ([RoomCache], [RoomJson]) are parameters, because their code is not here.
    [db_shared] says whether the database is the one tenants share or one of a
    tenant's own, whose folios have a foreign key fewer.

    float64 is executable binary64 arithmetic on rationals (Binary64.v).  Times
    are instants in nanoseconds with an offset (GoLib.v).  SHA-256, HMAC, AES-256,
    GCM and base64 are executable (GoCrypto.v, GoAes.v) and checked on published
    vectors.

    ** Statements about computations

    - [runs c m d Q R]: m, started on a connection c that sees the database d,
      returns a value and leaves a database in [Q], or returns an error in [R],
      unless a statement failed and left the connection's transaction aborted;
    - [ensures m d Q R]: whatever statements fail, m leaves the committed database
      in [Q] when it returns and in [R] when it stops early, with no transaction
      left open;
    - [keeps], [guarded] (Guards.v): an invariant survives m whatever fails, with
      the facts a transaction has read and checked carried to its writes;
    - [inert]: m leaves a spoiled connection spoiled; [reads] and [learns]: m
      leaves the database alone, and what its result tells;
    - [goes] (RoomSpec.v): [ensures] with the calls made of the cache;
    - [tells] (Statements.v), [ends] (UserSpec.v): [ensures] with the statements
      sent, so that what a lost one explains is tied to the request that lost it;
    - [serves] (DeskSpec.v): the front desk's abstract contract, the answer and
      the database of every endpoint, which the endpoints refine.

    ** The files

    - Foundations: Prelude (tables as lists, tactics, hint databases [keeps] and
      [paise]), Binary64, GoLib, GoText, GoCrypto, GoAes, Schema, World, Auth
      (authz.go, authctx.go), Guards, Statements.
    - Front desk: Domain (internal/domain), RoomRepo (room_repository.go), Pricing
      and Reservations (reservation_handler.go), Settlement
      (reservation_settlement.go), Promo (promo.go and the promotion endpoints of
      booking_handler.go).  FrontDesk has the effect of every call
      and transaction as a function on the database, DeskSpec the contract and the
      refinement, Lifecycle the consequences for any sequence of
      requests: all or nothing, the life cycle of a stay, no double booking,
      tenants apart, unauthorised requests refused.  Booking (the rest of
      booking_handler.go) is what visitors ask: BookingSpec shows that a search
      offers exactly the rooms a booking would be accepted in, and what the
      availability of a day counts.  RoomDesk (room_handler.go) keeps lists of
      rooms in the cache: RoomSpec shows that a list served is the one the
      database holds, while the cache carries out every delete and nobody asks for
      the status "all".  Housekeeping (housekeeping_handler.go) returns rooms to
      sale; HousekeepingSpec says when.
    - Cashier: FolioDesk (billing_handler.go) has folios, charges, payments and
      folio invoices; FolioSpec shows that the list and the detail of a folio
      agree while its booking is paid to one hotel alone, and what a payment
      settles.  NightAudit (nightaudit_handler.go) closes
      the day; NightSpec compares the closing with the audit.
    - Guests: Crm (crm_handler.go) has the guest book, the loyalty scheme and
      campaigns; CrmSpec accounts for every point.
    - Books: Ledger (accounting_autopost.go: every posting balances, a reversal
      nets to zero), VoucherSpec (no voucher number is used twice, and only a
      posting that fails on the pool can leave one out of its series), Customers
      (pos_customer.go), FolioCharge (pos_room_charge.go), Accounting (the charts
      and journals of accounting_handler.go) and Documents (its invoices, notes,
      orders and receipts), with the claims in AccountingSpec and DocumentSpec.
    - Restaurant: DineIn and Billing (pos_dinein_handler.go), BillSplit
      (pos_split.go); Restaurant composes the routes (pos_handler.go) into one
      machine with its invariant, PosInvariant proves that every route keeps it
      and what follows for tables, tickets and bills; BillSpec, PaySpec and
      SplitSpec say what a bill, its payment, its refund and its shares amount to.
      TaxInvoice (pos_invoice.go) prints the GST invoice of a bill or a share, with
      the amount in words of AmountWords; InvoiceSpec shows that invoices add up,
      cover the bill, and read back as the amount.  Waitlist (pos_waitlist.go) is
      the queue for a table.
    - Channels: WorkerPool (worker/pool.go) is an interleaving of atomic events;
      ChannelIngest (channel_ingest.go) runs the webhook and its jobs on it;
      ChannelSpec has the claims about deliveries, signatures and bookings.
    - Online payment: PaymentRepo (payment_repository.go), Gateway
      (payment_service.go, encryptSetting of operations_handler.go), PaymentDesk
      (payment_handler.go); GatewaySpec has the claims about stored secrets,
      minor units, completion and whole bookings.

    - Accounts and access: UserRepo (user_repository.go), AuthService
      (auth_service.go, auth_handler.go, middleware/auth.go, pkg/validator), Users
      (user_handler.go); UserSpec shows that accounts keep their identities, who is
      signed in (and that the portal check is passed over when its lookup is lost),
      and that a refresh token is good once.  Gates (plan_catalog.go,
      plan_gate.go, plan_features_handler.go, feature_matrix.go,
      feature_matrix_handler.go, rate_limit.go, the masks of module_handler.go)
      decides which requests reach the staff handlers; GateSpec shows that the plan
      gate and the portal agree once the gate's memory has run out, that an edit of the role matrix is in force at
      once, and that each client gets exactly its quota.

    Components meet where the code calls: Reservations calls RoomRepo, Promo,
    Settlement, Ledger and FolioCharge on the transaction it opened; Billing calls
    Customers, Ledger and FolioCharge after the bill's transaction; ChannelIngest
    calls RoomRepo and Ledger inside a job; Gateway calls RoomRepo, PaymentRepo
    and the outside services; Crm and Booking read the stays that Reservations
    and ChannelIngest write, and FolioDesk posts through Ledger.

    ** Bounds and fuel

    Loops are structural on the data, apart from the days of a month
    ([Reservations.days_from], fuel 31, the longest month) and digit and word
    loops with a fixed count; an amount in words recurs once per factor of a crore
    (fuel 3, since an int64 is below 10^21).  WorkerPool has no fuel: termination after Shutdown
    is by a measure.  Amounts are bounded by [MAXC], 10^14 paise, in the lemmas
    that make float64 behave as paise; the restaurant's and the channels' columns
    refuse what NUMERIC(12,2) cannot hold.

    ** What the claims found

    Some theorems state behaviour the code's comments do not intend: a promotion
    without a limit never redeems (Promo), a redelivery can book again
    (ChannelSpec), one Stripe session can pay many payments and Stripe amounts are
    cut, not rounded (GatewaySpec), items ordered after the bill are not billed
    (BillSpec), no purchase order can be stored (AccountingSpec), staff can charge
    another hotel's folio and a guest of the guest book cannot be checked in on the
    shared database (FolioSpec), loyalty points can be overdrawn (CrmSpec), a room
    that turns over on the day is not offered (BookingSpec), a list of the status
    "all" empties the list of all rooms (RoomSpec), a closing at
    midnight mixes two days (NightSpec), a task can be marked inspected without an
    inspection (HousekeepingSpec), a request about another hotel's user is carried
    out behind its 404 (UserSpec), and a Basic client passes the gate of a Premium
    module (GateSpec).

    ** Not modelled

    Requests run one after another: row locks, the isolation of concurrent
    statements and the expiry of Redis locks are left out, and a background job
    acts in one step once a worker has it, without its deadline.  Parsing of
    request JSON (a handler takes the decoded body), verification of tokens, log
    lines and document rendering are left out.  Strings compare and fold case on
    ASCII; Sscanf reads plain decimals.  Foreign keys and NUMERIC overflow are
    checked where the tables named above say; elsewhere they are failures of
    [db_fault].  The constraint against overlapping stays, guest_stays_no_overlap,
    is taken to be installed on every database; a script adds it
    (scripts/add_guest_stays_overlap_constraint.sql), no migration.  The gates are composed
    on their own ([Gates.staff_gates]) and not repeated in front of each handler.
    The lengths of VARCHAR columns are checked in Housekeeping and Booking.  The
    remaining parts of the server are not modelled: tenant provisioning and pools,
    backups and monitoring drive outside services; dashboards and reports are
    read-only aggregations; the generic table endpoints, assets, procurement,
    revenue rules, branches, outlets and channel connections are read and written
    row by row with little logic of their own; schema migration is SQL text; the AI,
    e-mail, SMS and DNS clients call services whose code is not here. *)

From stdpp Require Export base list strings option numbers.
From Stdlib Require Export ZArith Lia.
From coqutil Require Export Datatypes.RecordSettersUsingExistingGetters.

#[global] Set Default Goal Selector "!".
#[global] Arguments RecordSettersUsingExistingGetters.const {_} _ _ /.

(** ** Automation shared by every file *)

(** Lemmas of the form "this computation preserves that invariant". *)
Create HintDb keeps discriminated.
(** Lemmas that bound an amount in paise. *)
Create HintDb paise.

(** ** Tables as lists of rows, in insertion order *)

Section Tables.
Context {R : Type}.
Implicit Types (p : R -> bool) (t : list R).

(** [SELECT * FROM t WHERE p] *)
Definition select p t : list R := List.filter p t.
(** [SELECT EXISTS (SELECT 1 FROM t WHERE p)] *)
Definition exists_row p t : bool := existsb p t.
(** [SELECT ... WHERE p LIMIT 1], and QueryRow on a keyed lookup *)
Definition find_row p t : option R := List.find p t.
(** [UPDATE t SET f WHERE p] *)
Definition update_rows p (f : R -> R) t : list R := map (fun r => if p r then f r else r) t.
(** the command tag's RowsAffected() *)
Definition rows_affected p t : nat := length (select p t).
(** [DELETE FROM t WHERE p] *)
Definition delete_rows p t : list R := List.filter (fun r => negb (p r)) t.
(** [SELECT COALESCE(SUM(f), 0) FROM t WHERE p] *)
Definition sum_rows p (f : R -> Z) t : Z := foldr (fun r acc => (f r + acc)%Z) 0%Z (select p t).
(** [INSERT INTO t VALUES (r)] *)
Definition insert_row (r : R) t : list R := t ++ [r].

Lemma in_select p t r : In r (select p t) <-> In r t /\ p r = true.
Proof. exact (List.filter_In p r t). Qed.

Lemma exists_row_true p t : exists_row p t = true <-> exists r, In r t /\ p r = true.
Proof. exact (List.existsb_exists p t). Qed.

Lemma exists_row_false p t : exists_row p t = false <-> forall r, In r t -> p r = false.
Proof.
  split.
  - intros H r Hr. destruct (p r) eqn:E; [|reflexivity].
    assert (exists_row p t = true) by (apply exists_row_true; eauto). congruence.
  - intros H. destruct (exists_row p t) eqn:E; [|reflexivity].
    apply exists_row_true in E as (r & Hr & E). rewrite H in E by assumption. discriminate.
Qed.

Lemma find_row_some p t r : find_row p t = Some r -> In r t /\ p r = true.
Proof. exact (fun H => List.find_some p t H). Qed.

Lemma find_row_none p t r : find_row p t = None -> In r t -> p r = false.
Proof. intros H. exact (List.find_none p t H r). Qed.

Lemma in_update_rows p f t r :
  In r (update_rows p f t) <-> exists r0, In r0 t /\ r = if p r0 then f r0 else r0.
Proof.
  unfold update_rows. rewrite List.in_map_iff.
  split; intros (r0 & H1 & H2); exists r0; auto.
Qed.

Lemma in_insert_row (r r0 : R) t : In r (insert_row r0 t) <-> In r t \/ r = r0.
Proof. unfold insert_row. rewrite List.in_app_iff. cbn. intuition congruence. Qed.

Lemma in_delete_rows p t r : In r (delete_rows p t) <-> In r t /\ p r = false.
Proof. unfold delete_rows. rewrite List.filter_In, negb_true_iff. reflexivity. Qed.

(** An update that touches no row is the identity. *)
Lemma update_rows_none p f t : rows_affected p t = 0 -> update_rows p f t = t.
Proof.
  unfold rows_affected, select, update_rows.
  induction t as [|r t IH]; cbn; [reflexivity|].
  destruct (p r); cbn; [discriminate|]. intros H. now rewrite IH.
Qed.

(** Deleting the row just inserted. *)
Lemma delete_rows_insert p r t : p r = true -> (forall o, In o t -> p o = false) -> delete_rows p (insert_row r t) = t.
Proof.
  intros Hr. unfold delete_rows, insert_row. rewrite List.filter_app. cbn. rewrite Hr, app_nil_r.
  induction t as [|o t IH]; intros H; cbn; [reflexivity|]. rewrite (H o) by now left. cbn. rewrite IH; [reflexivity|].
  intros o' Ho. apply H. now right.
Qed.

(** Updating the row just inserted. *)
Lemma update_rows_insert p f r t : p r = true -> (forall o, In o t -> p o = false) -> update_rows p f (insert_row r t) = insert_row (f r) t.
Proof.
  intros Hr. unfold update_rows, insert_row. rewrite map_app. cbn. rewrite Hr.
  induction t as [|o t IH]; intros H; cbn; [reflexivity|]. rewrite (H o) by now left. f_equal. apply IH.
  intros o' Ho. apply H. now right.
Qed.

Lemma rows_affected_pos p t : rows_affected p t <> 0 <-> exists r, In r t /\ p r = true.
Proof.
  unfold rows_affected. split.
  - intros H. destruct (select p t) as [|r l] eqn:E; [contradiction|].
    exists r. apply in_select. rewrite E. now left.
  - intros (r & H). apply in_select in H. destruct (select p t); [destruct H|discriminate].
Qed.

Lemma sum_rows_insert p f t r :
  sum_rows p f (insert_row r t) = (sum_rows p f t + if p r then f r else 0)%Z.
Proof.
  unfold sum_rows, insert_row, select. rewrite List.filter_app. cbn.
  induction (List.filter p t) as [|x l IH]; cbn; [|lia].
  destruct (p r); cbn; lia.
Qed.
End Tables.

(** [ORDER BY]: a stable insertion sort by a boolean order. *)
Fixpoint insert_by {R} (le : R -> R -> bool) (r : R) (t : list R) : list R :=
  match t with [] => [r] | x :: t' => if le r x then r :: t else x :: insert_by le r t' end.
Definition order_by {R} (le : R -> R -> bool) (t : list R) : list R := foldr (insert_by le) [] t.

Lemma in_insert_by {R} (le : R -> R -> bool) r t x : In x (insert_by le r t) <-> x = r \/ In x t.
Proof.
  induction t as [|y t IH]; cbn; [intuition congruence|].
  destruct (le r y); cbn; [intuition congruence | rewrite IH; intuition congruence].
Qed.

Lemma in_order_by {R} (le : R -> R -> bool) t x : In x (order_by le t) <-> In x t.
Proof.
  unfold order_by. induction t as [|y t IH]; cbn; [reflexivity|].
  rewrite in_insert_by, IH. intuition congruence.
Qed.

(** Lookups through an update that keeps the key columns. *)
Lemma find_row_update {R} (p q : R -> bool) f (t : list R) :
  (forall r, p (f r) = p r) ->
  find_row p (update_rows q f t) = (fun r => if q r then f r else r) <$> find_row p t.
Proof.
  intros Hk. unfold find_row, update_rows.
  induction t as [|r t IH]; cbn; [reflexivity|].
  assert (Hp : p (if q r then f r else r) = p r) by (destruct (q r); auto).
  rewrite Hp. destruct (p r); [reflexivity | exact IH].
Qed.

(** *** Two facts about a table as it changes

    [exclusive rel t]: no two rows of t are related (a unique key, a unique
    partial index).  [persists after t t']: every row of t is still in t', as a
    row that may come [after] it. *)
Section Evolution.
Context {R : Type}.
Implicit Types (rel : R -> R -> Prop) (after : R -> R -> Prop) (p : R -> bool) (t : list R).

Definition exclusive rel t : Prop := forall a b, In a t -> In b t -> rel a b -> a = b.
Definition persists after t t' : Prop := forall r, In r t -> exists r', In r' t' /\ after r r'.

Lemma exclusive_insert rel t r :
  exclusive rel t -> (forall o, In o t -> ~ rel o r /\ ~ rel r o) -> exclusive rel (insert_row r t).
Proof.
  intros H Hr a b [Ha| ->]%in_insert_row [Hb| ->]%in_insert_row Hab; auto;
    match goal with H1 : In ?o t |- _ => destruct (Hr o H1); contradiction end.
Qed.

Lemma exclusive_delete rel t p : exclusive rel t -> exclusive rel (delete_rows p t).
Proof. intros H a b [Ha _]%in_delete_rows [Hb _]%in_delete_rows. auto. Qed.

(** Related after the update means related before. *)
Lemma exclusive_update rel t p f :
  exclusive rel t ->
  (forall a b, In a t -> In b t -> rel (if p a then f a else a) (if p b then f b else b) -> rel a b) ->
  exclusive rel (update_rows p f t).
Proof.
  intros H Hf a b (a0 & Ha & ->)%in_update_rows (b0 & Hb & ->)%in_update_rows Hab.
  rewrite (H a0 b0 Ha Hb); auto.
Qed.

Lemma persists_refl after t : (forall r, after r r) -> persists after t t.
Proof. intros H r Hr. exists r. auto. Qed.
Lemma persists_trans after t1 t2 t3 :
  (forall a b c, after a b -> after b c -> after a c) -> persists after t1 t2 -> persists after t2 t3 -> persists after t1 t3.
Proof.
  intros Ht H1 H2 r Hr. destruct (H1 r Hr) as (r' & Hr' & E1). destruct (H2 r' Hr') as (r'' & Hr'' & E2). eauto.
Qed.
Lemma persists_insert after t r : (forall r, after r r) -> persists after t (insert_row r t).
Proof. intros H r0 Hr. exists r0. split; [apply in_insert_row; auto | apply H]. Qed.
Lemma persists_update after t p f :
  (forall r, after r r) -> (forall r, In r t -> p r = true -> after r (f r)) -> persists after t (update_rows p f t).
Proof.
  intros H Hf r Hr. exists (if p r then f r else r). split; [apply in_update_rows; eauto|].
  destruct (p r) eqn:E; auto.
Qed.

Lemma forall_update (P : R -> Prop) t p f :
  (forall r, In r t -> P r) -> (forall r, In r t -> p r = true -> P (f r)) -> forall r, In r (update_rows p f t) -> P r.
Proof. intros H Hf r (r0 & Hr & ->)%in_update_rows. destruct (p r0) eqn:E; auto. Qed.
Lemma forall_insert (P : R -> Prop) t r0 :
  (forall r, In r t -> P r) -> P r0 -> forall r, In r (insert_row r0 t) -> P r.
Proof. intros H H0 r [Hr| ->]%in_insert_row; auto. Qed.
End Evolution.

(** Sum of integers. *)
Definition sumZ (l : list Z) : Z := foldr Z.add 0%Z l.

Lemma sumZ_app l1 l2 : sumZ (l1 ++ l2) = (sumZ l1 + sumZ l2)%Z.
Proof. induction l1 as [|x l1 IH]; [reflexivity|]. unfold sumZ in *. cbn [app foldr]. rewrite IH. lia. Qed.

Lemma sumZ_replicate n x : sumZ (replicate n x) = (Z.of_nat n * x)%Z.
Proof. induction n as [|n IH]; [reflexivity|].
  rewrite Nat2Z.inj_succ. unfold sumZ in *. cbn [replicate foldr]. rewrite IH. lia.
Qed.

(** *** Sums *)

Local Open Scope Z_scope.

Lemma sumZ_nonneg l : Forall (fun x => 0 <= x) l -> 0 <= sumZ l.
Proof. induction 1; unfold sumZ in *; cbn; lia. Qed.
Lemma sumZ_map_add {R} (f g : R -> Z) l : sumZ (map (fun r => f r + g r) l) = sumZ (map f l) + sumZ (map g l).
Proof. induction l; unfold sumZ in *; cbn; lia. Qed.
Lemma sumZ_map_zero {R} (f : R -> Z) l : (forall r, In r l -> f r = 0) -> sumZ (map f l) = 0.
Proof.
  unfold sumZ. induction l as [|r l IH]; intros H; [reflexivity|]. cbn. rewrite (H r), IH; [reflexivity | | now left].
  intros r' Hr'. apply H. now right.
Qed.
(** Only one row of l counts. *)
Lemma sumZ_only {R} (f : R -> Z) l r :
  NoDup l -> In r l -> (forall r', In r' l -> r' <> r -> f r' = 0) -> sumZ (map f l) = f r.
Proof.
  induction 1 as [|x l Hx Hl IH]; [intros []|]. change (sumZ (map f (x :: l))) with (f x + sumZ (map f l)).
  intros [->|Hr] H.
  - rewrite (sumZ_map_zero f l); [lia|]. intros r' Hr'. apply H; [now right|]. intros ->. apply Hx. now apply list_elem_of_In.
  - rewrite (H x), IH; [lia | assumption | intros r' Hr' Hne; apply H; [now right | assumption] | now left |].
    intros ->. apply Hx. now apply list_elem_of_In.
Qed.
Lemma sum_rows_as_sum {R} (p : R -> bool) (f : R -> Z) t : sum_rows p f t = sumZ (map (fun r => if p r then f r else 0) t).
Proof.
  unfold sum_rows, select, sumZ. induction t as [|r t IH]; [reflexivity|]. cbn. destruct (p r); cbn; rewrite <- IH; lia.
Qed.
Lemma insert_by_Permutation {R} (le : R -> R -> bool) r t : Permutation (insert_by le r t) (r :: t).
Proof. induction t as [|x t IH]; cbn; [reflexivity|]. destruct (le r x); [reflexivity|]. rewrite IH. apply perm_swap. Qed.
Lemma order_by_Permutation {R} (le : R -> R -> bool) t : Permutation (order_by le t) t.
Proof. unfold order_by. induction t as [|x t IH]; cbn; [reflexivity|]. now rewrite insert_by_Permutation, IH. Qed.
Lemma sumZ_Permutation l l' : Permutation l l' -> sumZ l = sumZ l'.
Proof. induction 1; unfold sumZ in *; cbn; lia. Qed.
(** Two sums over two tables, taken in either order. *)
Lemma sumZ_swap {A B} (f : A -> B -> Z) (la : list A) (lb : list B) :
  sumZ (map (fun a => sumZ (map (f a) lb)) la) = sumZ (map (fun b => sumZ (map (fun a => f a b) la)) lb).
Proof.
  induction la as [|a la IH]; cbn [map].
  - symmetry. apply sumZ_map_zero. reflexivity.
  - change (sumZ (map (f a) lb) + sumZ (map (fun a => sumZ (map (f a) lb)) la) = sumZ (map (fun b => f a b + sumZ (map (fun a => f a b) la)) lb)).
    rewrite IH, sumZ_map_add. reflexivity.
Qed.
Lemma NoDup_map_inj {A B} (f : A -> B) l : NoDup (map f l) -> forall a b, In a l -> In b l -> f a = f b -> a = b.
Proof.
  induction l as [|x l IH]; [intros _ a b []|]. cbn. intros Hn0. inversion Hn0 as [|? ? Hx Hn]; subst.
  intros a b [->|Ha] [->|Hb] E; auto; exfalso; apply Hx, list_elem_of_In, in_map_iff; eauto.
Qed.

Lemma exclusive_one {R} (rel : R -> R -> Prop) t : length t = 1%nat -> exclusive rel t.
Proof. destruct t as [|r [|? ?]]; intros [=] a b [<-|[]] [<-|[]] _. reflexivity. Qed.
