(* ===== verification/Binary64.v ===== *)
(** Binary64: Go's [float64] as the code uses it for money.

    A finite float64 is represented by the rational it denotes, kept in lowest
    terms, and every arithmetic operation rounds its exact result to the nearest
    binary64 value, ties to even, with the 53-bit significand and the subnormal
    quantum of IEEE 754 ([rnd]).  Infinities, NaN and the sign of zero are not
    represented: JSON cannot carry them, and the modelled code divides only by
    constants or by operands it has tested to be positive.

    The second half is the theory of amounts in paise: [cents k] is the float64
    nearest to k/100 and [round2] is the function of pos_dinein_handler.go:33.
    The lemmas show that [round2] makes float64 behave as integer arithmetic on
    paise for every amount the NUMERIC(14,2) columns can hold. *)

From Stdlib Require Import ZArith QArith Qabs Qround Qcanon Lia Lqa List Permutation.
Local Close Scope Qc_scope.
Local Open Scope Z_scope.

(** ** Rounding to the nearest binary64 *)

(** Nearest integer to p/q for q > 0, ties to even. *)
Definition rne (p q : Z) : Z :=
  let f := p / q in
  let r := p mod q in
  if 2 * r <? q then f
  else if q <? 2 * r then f + 1
  else if Z.even f then f else f + 1.

(** Floor of the binary logarithm of a/d, for a, d > 0. *)
Definition ilog2 (a d : Z) : Z :=
  let e := Z.log2 a - Z.log2 d in
  if a * 2 ^ Z.max 0 (- e) <? d * 2 ^ Z.max 0 e then e - 1 else e.

(** Exponent of the last significand bit of the binary64 nearest to n/d. *)
Definition quantum (n d : Z) : Z := Z.max (ilog2 (Z.abs n) d - 52) (-1074).

Definition rnd (x : Q) : Q :=
  let n := Qnum (Qred x) in
  let d := Zpos (Qden (Qred x)) in
  if n =? 0 then 0%Q
  else
    let q := quantum n d in
    if 0 <=? q
    then inject_Z (rne n (d * 2 ^ q) * 2 ^ q)
    else Qred (rne (n * 2 ^ (- q)) d # Z.to_pos (2 ^ (- q))).

(** The four operations and the conversion [float64(n)]. *)
Definition fadd (x y : Q) : Q := rnd (x + y).
Definition fsub (x y : Q) : Q := rnd (x - y).
Definition fmul (x y : Q) : Q := rnd (x * y).
Definition fdiv (x y : Q) : Q := rnd (x / y).
Definition fneg (x : Q) : Q := Qred (- x).
Definition of_int (n : Z) : Q := rnd (inject_Z n).

(** Comparisons, as Go's [<], [<=] and [==] on finite values. *)
Definition fle (x y : Q) : bool := Qle_bool x y.
Definition flt (x y : Q) : bool := negb (Qle_bool y x).
Definition feq (x y : Q) : bool := Qeq_bool x y.

(** [math.Round]: to the nearest integer, halves away from zero. *)
Definition math_round (x : Q) : Z :=
  let n := Qnum (Qred x) in
  let d := Zpos (Qden (Qred x)) in
  if 0 <=? n then (2 * n + d) / (2 * d) else - ((2 * - n + d) / (2 * d)).

Definition to_cents (x : Q) : Z := math_round (fmul x 100).

(** [func round2(v float64) float64 { return math.Round(v*100) / 100 }] *)
Definition round2 (v : Q) : Q := fdiv (inject_Z (math_round (fmul v 100))) 100.

(** The float64 nearest to k hundredths: what scanning a NUMERIC(_,2) column
    into a float64 yields. *)
Definition cents (k : Z) : Q := rnd (inject_Z k / 100).

(** ** Error of one rounding *)

Lemma rne_spec p q : 0 < q -> 2 * Z.abs (q * rne p q - p) <= q.
Proof.
  intros Hq. unfold rne.
  pose proof (Z.div_mod p q ltac:(lia)) as Hdm.
  pose proof (Z.mod_pos_bound p q Hq) as Hr.
  set (f := p / q) in *. set (r := p mod q) in *.
  destruct (Z.ltb_spec (2 * r) q); [nia|].
  destruct (Z.ltb_spec q (2 * r)); [nia|].
  destruct (Z.even f); nia.
Qed.

Lemma ilog2_lower a d :
  0 < a -> 0 < d ->
  d * 2 ^ Z.max 0 (ilog2 a d) <= a * 2 ^ Z.max 0 (- ilog2 a d).
Proof.
  intros Ha Hd. unfold ilog2.
  set (e := Z.log2 a - Z.log2 d).
  destruct (Z.ltb_spec (a * 2 ^ Z.max 0 (- e)) (d * 2 ^ Z.max 0 e)) as [_|H]; [|exact H].
  pose proof (Z.log2_spec a Ha) as [Hal _].
  pose proof (Z.log2_spec d Hd) as [_ Hdu].
  pose proof (Z.log2_nonneg a). pose proof (Z.log2_nonneg d).
  set (la := Z.log2 a) in *. set (ld := Z.log2 d) in *.
  assert (Hsum : Z.succ ld + Z.max 0 (e - 1) = la + Z.max 0 (- (e - 1))) by lia.
  transitivity (2 ^ Z.succ ld * 2 ^ Z.max 0 (e - 1)).
  - apply Z.mul_le_mono_nonneg_r; [apply Z.pow_nonneg; lia | lia].
  - rewrite <- Z.pow_add_r, Hsum, Z.pow_add_r by lia.
    apply Z.mul_le_mono_nonneg_r; [apply Z.pow_nonneg; lia | exact Hal].
Qed.

Lemma frac_err_rel m P n d :
  Z.abs (m * Zpos d - n * Zpos P) * 2 ^ 53 <= Z.abs n * Zpos P ->
  (Qabs ((m # P) - (n # d)) <= Qabs (n # d) * (1 # 2 ^ 53))%Q.
Proof.
  intros H. unfold Qabs, Qminus, Qopp, Qplus, Qmult, Qle; cbn [Qnum Qden].
  rewrite Z.mul_1_r, !Pos2Z.inj_mul.
  replace (m * Zpos d + - n * Zpos P) with (m * Zpos d - n * Zpos P) by ring.
  change (Zpos (2 ^ 53)) with (2 ^ 53).
  replace (Z.abs (m * Zpos d - n * Zpos P) * (Zpos d * 2 ^ 53))
    with (Zpos d * (Z.abs (m * Zpos d - n * Zpos P) * 2 ^ 53)) by ring.
  replace (Z.abs n * (Zpos P * Zpos d)) with (Zpos d * (Z.abs n * Zpos P)) by ring.
  apply Z.mul_le_mono_nonneg_l; [lia | exact H].
Qed.

Lemma frac_err_abs m P n d :
  2 * Z.abs (Zpos d * m - n * Zpos P) <= Zpos d ->
  (Qabs ((m # P) - (n # d)) <= 1 # (2 * P))%Q.
Proof.
  intros H. unfold Qabs, Qminus, Qopp, Qplus, Qle; cbn [Qnum Qden].
  rewrite !Pos2Z.inj_mul, Z.mul_1_l.
  replace (m * Zpos d + - n * Zpos P) with (Zpos d * m - n * Zpos P) by ring.
  replace (Z.abs (Zpos d * m - n * Zpos P) * (2 * Zpos P))
    with (Zpos P * (2 * Z.abs (Zpos d * m - n * Zpos P))) by ring.
  apply Z.mul_le_mono_nonneg_l; [lia | exact H].
Qed.

(** An absolute slack that covers the subnormal range. *)
Definition tiny : Q := 1 # 2 ^ 100.

Lemma tiny_nonneg : (0 <= tiny)%Q.
Proof. vm_compute. discriminate. Qed.

Lemma le_add_tiny a : (a <= a + tiny)%Q.
Proof. pose proof tiny_nonneg. lra. Qed.

Lemma half_ulp_nonneg x : (0 <= Qabs x * (1 # 2 ^ 53))%Q.
Proof. apply Qmult_le_0_compat; [apply Qabs_nonneg | discriminate]. Qed.

Lemma rnd_big_err n d :
  n <> 0 -> 0 <= quantum n (Zpos d) ->
  (Qabs (inject_Z (rne n (Zpos d * 2 ^ quantum n (Zpos d)) * 2 ^ quantum n (Zpos d)) - (n # d))
   <= Qabs (n # d) * (1 # 2 ^ 53))%Q.
Proof.
  intros Hn Hq. pose proof (ilog2_lower (Z.abs n) (Zpos d) ltac:(lia) ltac:(lia)) as Hlow.
  unfold quantum in *. set (e := ilog2 (Z.abs n) (Zpos d)) in *.
  replace (Z.max (e - 52) (-1074)) with (e - 52) in * by lia.
  pose proof (rne_spec n (Zpos d * 2 ^ (e - 52)) ltac:(apply Z.mul_pos_pos; [lia|apply Z.pow_pos_nonneg; lia])) as Hr.
  apply (frac_err_rel _ 1). rewrite Z.mul_1_r.
  replace (Z.max 0 e) with ((e - 52) + 52) in Hlow by lia.
  replace (Z.max 0 (- e)) with 0 in Hlow by lia.
  rewrite Z.pow_add_r in Hlow by lia.
  set (M := rne n (Zpos d * 2 ^ (e - 52))) in *. set (T := 2 ^ (e - 52)) in *.
  replace (M * T * Zpos d - n) with (Zpos d * T * M - n) by ring.
  change (2 ^ 53) with (2 * 2 ^ 52). change (2 ^ 0) with 1 in Hlow. nia.
Qed.

Lemma rnd_small_err n d :
  n <> 0 -> quantum n (Zpos d) < 0 ->
  (Qabs ((rne (n * 2 ^ (- quantum n (Zpos d))) (Zpos d) # Z.to_pos (2 ^ (- quantum n (Zpos d)))) - (n # d))
   <= Qabs (n # d) * (1 # 2 ^ 53) + tiny)%Q.
Proof.
  intros Hn Hq. pose proof (ilog2_lower (Z.abs n) (Zpos d) ltac:(lia) ltac:(lia)) as Hlow.
  set (q := quantum n (Zpos d)) in *.
  assert (HP : 0 < 2 ^ (- q)) by (apply Z.pow_pos_nonneg; lia).
  pose proof (rne_spec (n * 2 ^ (- q)) (Zpos d) ltac:(lia)) as Hr.
  set (m := rne (n * 2 ^ (- q)) (Zpos d)) in *.
  assert (Hcase : q = ilog2 (Z.abs n) (Zpos d) - 52 \/ q = -1074)
    by (unfold q, quantum; lia).
  destruct Hcase as [He|He].
  - set (e := ilog2 (Z.abs n) (Zpos d)) in *.
    assert (Hbig : Zpos d * 2 ^ 52 <= Z.abs n * 2 ^ (- q)).
    { destruct (Z.le_gt_cases 0 e).
      - replace (Z.max 0 e) with e in Hlow by lia. replace (Z.max 0 (- e)) with 0 in Hlow by lia.
        replace (2 ^ 52) with (2 ^ e * 2 ^ (- q)) by (rewrite <- Z.pow_add_r by lia; f_equal; lia).
        change (2 ^ 0) with 1 in Hlow. nia.
      - replace (Z.max 0 e) with 0 in Hlow by lia. replace (Z.max 0 (- e)) with (- e) in Hlow by lia.
        replace (2 ^ (- q)) with (2 ^ (- e) * 2 ^ 52) by (rewrite <- Z.pow_add_r by lia; f_equal; lia).
        change (2 ^ 0) with 1 in Hlow. nia. }
    eapply Qle_trans; [apply frac_err_rel | apply le_add_tiny].
    rewrite Z2Pos.id by exact HP.
    replace (m * Zpos d - n * 2 ^ (- q)) with (Zpos d * m - n * 2 ^ (- q)) by ring.
    change (2 ^ 53) with (2 * 2 ^ 52). nia.
  - eapply Qle_trans; [apply frac_err_abs; rewrite Z2Pos.id by exact HP; exact Hr|].
    rewrite He. pose proof (half_ulp_nonneg (n # d)) as Hx.
    apply Qle_trans with tiny; [vm_compute; discriminate|]. lra.
Qed.

(** Every rounding is within half a unit in the last place. *)
Lemma rnd_err x : (Qabs (rnd x - x) <= Qabs x * (1 # 2 ^ 53) + tiny)%Q.
Proof.
  rewrite <- (Qred_correct x) at 2 3. unfold rnd.
  destruct (Qred x) as [n d]; cbn [Qnum Qden].
  destruct (Z.eqb_spec n 0) as [->|Hn].
  - replace (Qabs (0 - (0 # d))) with (0 # (1 * d)) by reflexivity.
    setoid_replace (0 # (1 * d))%Q with 0%Q by reflexivity.
    pose proof (half_ulp_nonneg (0 # d)). pose proof tiny_nonneg. lra.
  - destruct (Z.leb_spec 0 (quantum n (Zpos d))) as [Hq|Hq].
    + eapply Qle_trans; [exact (rnd_big_err n d Hn Hq) | apply le_add_tiny].
    + rewrite Qred_correct. exact (rnd_small_err n d Hn Hq).
Qed.

#[export] Instance rnd_Proper : Proper (Qeq ==> eq) rnd.
Proof. intros x y H. unfold rnd. now rewrite (Qred_complete _ _ H). Qed.

#[export] Instance math_round_Proper : Proper (Qeq ==> eq) math_round.
Proof. intros x y H. unfold math_round. now rewrite (Qred_complete _ _ H). Qed.

(** Results of operations are canonical, so [=] on them is numerical equality. *)
Lemma rnd_canon x : Qred (rnd x) = rnd x.
Proof.
  unfold rnd. destruct (Qnum (Qred x) =? 0); [reflexivity|].
  destruct (0 <=? _).
  - generalize (rne (Qnum (Qred x)) (Zpos (Qden (Qred x)) * 2 ^ quantum (Qnum (Qred x)) (Zpos (Qden (Qred x))))
       * 2 ^ quantum (Qnum (Qred x)) (Zpos (Qden (Qred x)))). intros z.
    apply Qcanon.Qred_identity. cbn [inject_Z Qnum Qden]. apply Z.gcd_1_r.
  - apply Qcanon.Qred_involutive.
Qed.

Lemma rne_1 p : rne p 1 = p.
Proof. unfold rne. rewrite Z.div_1_r, Z.mod_1_r. reflexivity. Qed.

(** float64(n) is exact for the counts that occur. *)
Lemma of_int_exact n : 0 <= n <= 10 ^ 14 -> (of_int n == inject_Z n)%Q.
Proof.
  intros Hn. unfold of_int, rnd. replace (Qred (inject_Z n)) with (inject_Z n).
  2:{ symmetry. unfold inject_Z. rewrite Qcanon.Qred_identity; [reflexivity|]. cbn. apply Z.gcd_1_r. }
  cbn [Qnum Qden inject_Z]. destruct (Z.eqb_spec n 0) as [->|Hn0]; [reflexivity|].
  assert (Hq : quantum n 1 <= 0).
  { unfold quantum, ilog2. rewrite Z.abs_eq by lia. change (Z.log2 1) with 0. rewrite Z.sub_0_r.
    assert (Z.log2 n <= 46) by (change 46 with (Z.log2 (10 ^ 14)); apply Z.log2_le_mono; lia).
    destruct (_ <? _); lia. }
  destruct (Z.leb_spec 0 (quantum n 1)) as [H0|H0].
  - replace (quantum n 1) with 0 by lia. rewrite rne_1. now rewrite Z.mul_1_r.
  - rewrite Qred_correct, rne_1. unfold Qeq, inject_Z; cbn [Qnum Qden].
    rewrite Z2Pos.id by (apply Z.pow_pos_nonneg; lia). lia.
Qed.

(** ** Amounts in paise *)

(** The largest amount, in paise, that a NUMERIC(14,2) column stores. *)
Definition MAXC : Z := 10 ^ 14.

(** [near n x k]: x is within n/5000 of k/100.  One rounding of an amount in
    the column range costs one unit of n, and anything below 12 units is still
    rounded to the right paisa. *)
Definition near (n : Z) (x : Q) (k : Z) : Prop :=
  (Qabs (x - inject_Z k / 100) <= inject_Z n * (1 # 5000))%Q.

Lemma Qabs_le_iff x y : (Qabs x <= y <-> - y <= x /\ x <= y)%Q.
Proof. apply Qabs_Qle_condition. Qed.

Lemma near_iff n x k :
  near n x k <->
  (inject_Z k * (1 # 100) - inject_Z n * (1 # 5000) <= x
   /\ x <= inject_Z k * (1 # 100) + inject_Z n * (1 # 5000))%Q.
Proof.
  unfold near. rewrite Qabs_le_iff. unfold Qdiv. change (/ 100)%Q with (1 # 100)%Q.
  split; intros [? ?]; split; lra.
Qed.

#[export] Instance near_Proper : Proper (eq ==> Qeq ==> eq ==> iff) near.
Proof. intros n1 n2 Hn x y Hxy k1 k2 Hk. subst. rewrite !near_iff, Hxy. reflexivity. Qed.

Lemma inject_le a b : a <= b -> (inject_Z a <= inject_Z b)%Q.
Proof. intros H. now rewrite <- Zle_Qle. Qed.

Lemma inject_abs_le k m : Z.abs k <= m -> (- inject_Z m <= inject_Z k /\ inject_Z k <= inject_Z m)%Q.
Proof. intros H. rewrite <- inject_Z_opp. split; apply inject_le; lia. Qed.

(** A rational bound on the rounding error from a bound on the argument. *)
Lemma rnd_err_le x b :
  (Qabs x <= b)%Q -> (Qabs (rnd x - x) <= b * (1 # 2 ^ 53) + tiny)%Q.
Proof.
  intros H. eapply Qle_trans; [apply rnd_err|].
  apply Qplus_le_l, Qmult_le_compat_r; [exact H | discriminate].
Qed.

Lemma rnd_near n x k :
  near n x k -> Z.abs k <= MAXC -> n <= 100 -> near (n + 1) (rnd x) k.
Proof.
  rewrite !near_iff. intros [Hl Hu] Hk Hn.
  apply inject_abs_le in Hk. apply inject_le in Hn. rewrite inject_Z_plus.
  assert (Hx : (Qabs x <= 1000000000001)%Q).
  { apply Qabs_le_iff. change (inject_Z MAXC) with 100000000000000%Q in Hk.
    change (inject_Z 100) with 100%Q in Hn. split; lra. }
  apply rnd_err_le in Hx.
  assert (Hc : (1000000000001 * (1 # 2 ^ 53) + tiny <= 1 # 5000)%Q) by (vm_compute; discriminate).
  apply (Qle_trans _ _ _ Hx), Qabs_le_iff in Hc as [? ?].
  change (inject_Z 1) with 1%Q. split; lra.
Qed.

Lemma near_add n m x y a b : near n x a -> near m y b -> near (n + m) (x + y) (a + b).
Proof.
  rewrite !near_iff, !inject_Z_plus. intros [? ?] [? ?]. split; lra.
Qed.

Lemma near_sub n m x y a b : near n x a -> near m y b -> near (n + m) (x - y) (a - b).
Proof.
  rewrite !near_iff. unfold Z.sub. rewrite !inject_Z_plus, inject_Z_opp.
  intros [? ?] [? ?]. split; lra.
Qed.

Lemma near_weaken n m x k : near n x k -> n <= m -> near m x k.
Proof.
  rewrite !near_iff. intros [Hl Hu] Hnm. apply inject_le in Hnm. split; lra.
Qed.

Lemma fadd_near n m x y a b :
  near n x a -> near m y b -> Z.abs (a + b) <= MAXC -> n + m <= 100 ->
  near (n + m + 1) (fadd x y) (a + b).
Proof. intros. apply rnd_near; [apply near_add; assumption | assumption | assumption]. Qed.

Lemma fsub_near n m x y a b :
  near n x a -> near m y b -> Z.abs (a - b) <= MAXC -> n + m <= 100 ->
  near (n + m + 1) (fsub x y) (a - b).
Proof. intros. apply rnd_near; [apply near_sub; assumption | assumption | assumption]. Qed.

Lemma exact_near k : near 0 (inject_Z k / 100) k.
Proof.
  apply near_iff. unfold Qdiv. change (/ 100)%Q with (1 # 100)%Q.
  change (inject_Z 0) with 0%Q. split; lra.
Qed.

Lemma cents_near k : Z.abs k <= MAXC -> near 1 (cents k) k.
Proof. intros H. apply (rnd_near 0); [apply exact_near | exact H | lia]. Qed.

Lemma zero_near : near 0 0 0.
Proof. apply near_iff. split; vm_compute; discriminate. Qed.

(** [math.Round] finds the integer that is strictly nearest. *)
Lemma math_round_near y k :
  (inject_Z k - (1 # 2) < y /\ y < inject_Z k + (1 # 2))%Q -> math_round y = k.
Proof.
  rewrite <- (Qred_correct y). unfold math_round.
  rewrite Qred_involutive. destruct (Qred y) as [n d]. cbn [Qnum Qden].
  unfold Qlt, Qminus, Qplus, Qopp, inject_Z; cbn [Qnum Qden].
  rewrite ?Pos2Z.inj_mul. intros [Hl Hu].
  destruct (Z.leb_spec 0 n).
  - symmetry. apply Z.div_unique with (r := 2 * n + Zpos d - 2 * Zpos d * k); lia.
  - enough ((2 * - n + Zpos d) / (2 * Zpos d) = - k) by lia.
    symmetry. apply Z.div_unique with (r := 2 * - n + Zpos d + 2 * Zpos d * k); lia.
Qed.

(** Anything within 12 units of a whole number of paise rounds to it. *)
Lemma to_cents_near n x k : near n x k -> n <= 12 -> Z.abs k <= MAXC -> to_cents x = k.
Proof.
  rewrite near_iff. intros [Hl Hu] Hn Hk. unfold to_cents, fmul.
  apply inject_le in Hn. apply inject_abs_le in Hk.
  change (inject_Z 12) with 12%Q in Hn. change (inject_Z MAXC) with 100000000000000%Q in Hk.
  assert (Hx : (Qabs (x * 100) <= 100000000000001)%Q) by (apply Qabs_le_iff; split; lra).
  apply rnd_err_le in Hx.
  assert (Hc : (100000000000001 * (1 # 2 ^ 53) + tiny <= 1 # 50)%Q) by (vm_compute; discriminate).
  apply (Qle_trans _ _ _ Hx), Qabs_le_iff in Hc as [? ?].
  apply math_round_near. split; lra.
Qed.

Lemma round2_to_cents v : round2 v = cents (to_cents v).
Proof. reflexivity. Qed.

Lemma round2_near n x k : near n x k -> n <= 12 -> Z.abs k <= MAXC -> round2 x = cents k.
Proof. intros. rewrite round2_to_cents. f_equal. eapply to_cents_near; eassumption. Qed.

Lemma to_cents_cents k : Z.abs k <= MAXC -> to_cents (cents k) = k.
Proof. intros H. apply (to_cents_near 1); [apply cents_near; exact H | lia | exact H]. Qed.

Lemma round2_cents k : Z.abs k <= MAXC -> round2 (cents k) = cents k.
Proof. intros H. now rewrite round2_to_cents, to_cents_cents. Qed.

Lemma round2_add a b :
  Z.abs a <= MAXC -> Z.abs b <= MAXC -> Z.abs (a + b) <= MAXC ->
  round2 (fadd (cents a) (cents b)) = cents (a + b).
Proof.
  intros. eapply (round2_near 3); [|lia|assumption].
  apply (fadd_near 1 1); [apply cents_near; assumption.. | assumption | lia].
Qed.

Lemma round2_sub a b :
  Z.abs a <= MAXC -> Z.abs b <= MAXC -> Z.abs (a - b) <= MAXC ->
  round2 (fsub (cents a) (cents b)) = cents (a - b).
Proof.
  intros. eapply (round2_near 3); [|lia|assumption].
  apply (fsub_near 1 1); [apply cents_near; assumption.. | assumption | lia].
Qed.

Lemma cents_0 : cents 0 = 0%Q.
Proof. reflexivity. Qed.

Lemma cents_inj a b : Z.abs a <= MAXC -> Z.abs b <= MAXC -> cents a = cents b -> a = b.
Proof. intros Ha Hb H. rewrite <- (to_cents_cents a Ha), <- (to_cents_cents b Hb). congruence. Qed.

(** ** Comparisons of amounts *)

Lemma near_lt n m x y a b :
  near n x a -> near m y b -> n + m <= 24 -> a < b -> (x < y)%Q.
Proof.
  rewrite !near_iff. intros [? ?] [? ?] Hnm Hab.
  apply inject_le in Hnm. rewrite inject_Z_plus in Hnm. change (inject_Z 24) with 24%Q in Hnm.
  assert (Hab' : (inject_Z (a + 1) <= inject_Z b)%Q) by (apply inject_le; lia).
  rewrite inject_Z_plus in Hab'. change (inject_Z 1) with 1%Q in Hab'. lra.
Qed.

Lemma flt_iff x y : flt x y = true <-> (x < y)%Q.
Proof.
  unfold flt. rewrite Bool.negb_true_iff. split.
  - intros H. apply Qnot_le_lt. intros Hle. apply Qle_bool_iff in Hle. congruence.
  - intros H. apply Bool.not_true_iff_false. intros Hle. apply Qle_bool_iff in Hle.
    exact (Qlt_not_le _ _ H Hle).
Qed.

Lemma fle_iff x y : fle x y = true <-> (x <= y)%Q.
Proof. apply Qle_bool_iff. Qed.

Lemma flt_fle x y : flt x y = negb (fle y x).
Proof. reflexivity. Qed.

Lemma fle_cents a b :
  Z.abs a <= MAXC -> Z.abs b <= MAXC -> fle (cents a) (cents b) = (a <=? b).
Proof.
  intros Ha Hb. pose proof (cents_near a Ha) as Na. pose proof (cents_near b Hb) as Nb.
  destruct (Z.leb_spec a b) as [H|H].
  - apply fle_iff. apply Z.le_lteq in H as [H| ->]; [|apply Qle_refl].
    apply Qlt_le_weak. eapply (near_lt 1 1); eauto; lia.
  - apply Bool.not_true_iff_false. rewrite fle_iff. apply Qlt_not_le.
    eapply (near_lt 1 1); eauto; lia.
Qed.

Lemma flt_cents a b :
  Z.abs a <= MAXC -> Z.abs b <= MAXC -> flt (cents a) (cents b) = (a <? b).
Proof. intros. rewrite flt_fle, fle_cents by assumption. rewrite Z.ltb_antisym. reflexivity. Qed.

Lemma feq_cents a b :
  Z.abs a <= MAXC -> Z.abs b <= MAXC -> feq (cents a) (cents b) = (a =? b).
Proof.
  intros Ha Hb. unfold feq. destruct (Z.eqb_spec a b) as [->|Hne].
  - apply Qeq_bool_iff. reflexivity.
  - apply Bool.not_true_iff_false. rewrite Qeq_bool_iff. intros Heq.
    apply Qred_complete in Heq. unfold cents in Heq. rewrite !rnd_canon in Heq.
    exact (Hne (cents_inj a b Ha Hb Heq)).
Qed.

(** ** Negation is exact *)

Lemma rne_opp p q : 0 < q -> rne (- p) q = - rne p q.
Proof.
  intros Hq. unfold rne. destruct (Z.eq_dec (p mod q) 0) as [H0|H0].
  - rewrite Z.div_opp_l_z, Z.mod_opp_l_z, H0 by lia. generalize (p / q). intros f. destruct (Z.ltb_spec (2 * 0) q); lia.
  - rewrite Z.div_opp_l_nz, Z.mod_opp_l_nz by lia. pose proof (Z.mod_pos_bound p q Hq).
    replace (Z.even (- (p / q) - 1)) with (negb (Z.even (p / q)))
      by (rewrite Z.even_sub, Z.even_opp; now destruct (Z.even (p / q))).
    generalize dependent (p mod q). generalize (p / q). intros f r H0 Hr.
    destruct (Z.ltb_spec (2 * r) q), (Z.ltb_spec q (2 * r)), (Z.ltb_spec (2 * (q - r)) q),
      (Z.ltb_spec q (2 * (q - r))), (Z.even f); cbn [negb]; lia.
Qed.

Lemma rnd_opp x : rnd (- x) = fneg (rnd x).
Proof.
  unfold fneg. rewrite <- (rnd_canon (- x)). apply Qred_complete. unfold rnd. rewrite Qred_opp.
  destruct (Qred x) as [n d]. unfold Qopp. cbn [Qnum Qden].
  destruct (Z.eqb_spec n 0) as [->|Hn]; [reflexivity|]. destruct (Z.eqb_spec (- n) 0); [lia|].
  unfold quantum. rewrite Z.abs_opp. set (q := Z.max _ _). destruct (Z.leb_spec 0 q) as [Hq|Hq].
  - rewrite rne_opp by (assert (0 < 2 ^ q) by (apply Z.pow_pos_nonneg; lia); lia).
    unfold inject_Z, Qeq. cbn [Qnum Qden]. lia.
  - rewrite Z.mul_opp_l, rne_opp by lia.
    match goal with |- (_ == - Qnum ?a # Qden ?a)%Q => change (- Qnum a # Qden a) with (- a)%Q end.
    rewrite !Qred_correct. reflexivity.
Qed.

Lemma fneg_cents k : fneg (cents k) = cents (- k).
Proof. unfold cents. rewrite <- rnd_opp. apply rnd_Proper. rewrite inject_Z_opp. unfold Qdiv. ring. Qed.

(** *** Rounding does not cross a whole number *)

Lemma rne_ge m p q : 0 < q -> m * q <= p -> m <= rne p q.
Proof.
  intros Hq H. unfold rne. assert (m <= p / q) by (apply Z.div_le_lower_bound; lia).
  destruct (_ <? _); [lia|]. destruct (_ <? _); [lia|]. destruct (Z.even _); lia.
Qed.
Lemma quantum_small n d : 0 < n -> 0 < d -> n < d * 2 ^ 52 -> quantum n d <= 0.
Proof.
  intros Hn Hd H. unfold quantum. rewrite Z.abs_eq by lia. pose proof (ilog2_lower n d Hn Hd) as Hl.
  destruct (Z.le_gt_cases (ilog2 n d) 52) as [|He]; [lia|]. exfalso.
  rewrite (Z.max_l 0 (- ilog2 n d)), (Z.max_r 0 (ilog2 n d)) in Hl by lia. rewrite Z.pow_0_r, Z.mul_1_r in Hl.
  assert (2 ^ 52 <= 2 ^ ilog2 n d) by (apply Z.pow_le_mono_r; lia). nia.
Qed.
Lemma rnd_ge r x : 0 <= r -> (inject_Z r <= x)%Q -> (x < inject_Z (2 ^ 52))%Q -> (inject_Z r <= rnd x)%Q.
Proof.
  intros Hr Hx Hb. rewrite <- (Qred_correct x) in Hx, Hb. unfold rnd. destruct (Qred x) as [n d]; cbn [Qnum Qden].
  unfold Qle, Qlt, inject_Z in Hx, Hb; cbn [Qnum Qden] in Hx, Hb. rewrite Z.mul_1_r in Hx, Hb.
  destruct (Z.eqb_spec n 0) as [->|Hn].
  { assert (r = 0) as -> by nia. apply Qle_refl. }
  assert (H0 : 0 < n) by nia. assert (Hq : quantum n (Zpos d) <= 0) by (apply quantum_small; lia).
  destruct (Z.leb_spec 0 (quantum n (Zpos d))) as [H|H].
  - replace (quantum n (Zpos d)) with 0 by lia. rewrite Z.pow_0_r, !Z.mul_1_r. rewrite <- Zle_Qle. apply rne_ge; lia.
  - rewrite Qred_correct. set (k := - quantum n (Zpos d)) in *. assert (Hk : 0 < 2 ^ k) by (apply Z.pow_pos_nonneg; lia).
    unfold Qle, inject_Z; cbn [Qnum Qden]. rewrite Z2Pos.id, Z.mul_1_r by exact Hk. apply rne_ge; [lia | nia].
Qed.

(** ** Rounding a general amount: within half a paisa *)

Lemma math_round_err y :
  (Qabs (inject_Z (math_round y) - y) <= 1 # 2)%Q.
Proof.
  rewrite <- (Qred_correct y) at 2. unfold math_round. destruct (Qred y) as [n d]; cbn [Qnum Qden].
  apply Qabs_le_iff. unfold Qle, Qminus, Qplus, Qopp, inject_Z; cbn [Qnum Qden].
  rewrite ?Pos2Z.inj_mul.
  destruct (Z.leb_spec 0 n).
  - pose proof (Z.div_mod (2 * n + Zpos d) (2 * Zpos d) ltac:(lia)).
    pose proof (Z.mod_pos_bound (2 * n + Zpos d) (2 * Zpos d) ltac:(lia)). split; nia.
  - pose proof (Z.div_mod (2 * - n + Zpos d) (2 * Zpos d) ltac:(lia)).
    pose proof (Z.mod_pos_bound (2 * - n + Zpos d) (2 * Zpos d) ltac:(lia)). split; nia.
Qed.

(** Every result of [round2] on amounts in range is within half a paisa (and
    the rounding slack) of its argument. *)
Lemma to_cents_err x :
  (Qabs x <= 1000000000000)%Q ->
  (Qabs (inject_Z (to_cents x) - x * 100) <= 52 # 100)%Q.
Proof.
  intros Hx. unfold to_cents, fmul.
  pose proof (math_round_err (rnd (x * 100))) as H1.
  assert (Hx' : (Qabs (x * 100) <= 100000000000000)%Q).
  { apply Qabs_le_iff in Hx as [? ?]. apply Qabs_le_iff. split; lra. }
  apply rnd_err_le in Hx'.
  assert (Hc : (100000000000000 * (1 # 2 ^ 53) + tiny <= 2 # 100)%Q) by (vm_compute; discriminate).
  apply (Qle_trans _ _ _ Hx'), Qabs_le_iff in Hc as [? ?].
  apply Qabs_le_iff in H1 as [? ?]. apply Qabs_le_iff. split; lra.
Qed.

(** The same without a bound on the amount. *)
Lemma to_cents_near_any x : (Qabs (inject_Z (to_cents x) - x * 100) <= (1 # 2) + tiny + Qabs x * (1 # 2 ^ 40))%Q.
Proof.
  unfold to_cents, fmul. pose proof (math_round_err (rnd (x * 100))) as H1. pose proof (rnd_err (x * 100)) as H2.
  rewrite Qabs_Qmult in H2. change (Qabs 100) with 100%Q in H2.
  pose proof (Qabs_nonneg x) as H0. set (a := Qabs x) in *. set (t := tiny) in *.
  change (1 # 2 ^ 53)%Q with (1 # 9007199254740992)%Q in H2. change (1 # 2 ^ 40)%Q with (1 # 1099511627776)%Q.
  apply Qabs_le_iff in H1 as [? ?], H2 as [? ?]. apply Qabs_le_iff. split; lra.
Qed.

(** *** Sums *)

(** for rows.Next() { total += x } *)
Definition total_of (l : list Q) : Q := fold_left fadd l 0%Q.
Definition sum_cents (l : list Z) : Z := fold_right Z.add 0 l.
Definition abs_cents (l : list Z) : Z := fold_right (fun k a => Z.abs k + a) 0 l.

(** [fine n x k]: x is within n/40,000,000 of k/100, the unit of one operation
    on amounts of up to ten crore rupees. *)
Definition fine (n : Z) (x : Q) (k : Z) : Prop :=
  (inject_Z k * (1 # 100) - inject_Z n * (1 # 40000000) <= x
   /\ x <= inject_Z k * (1 # 100) + inject_Z n * (1 # 40000000))%Q.
Definition SUMC : Z := 10 ^ 10.

Lemma fine_rnd n x k : fine n x k -> Z.abs k <= SUMC -> n <= 100000 -> fine (n + 1) (rnd x) k.
Proof.
  unfold fine. intros [Hl Hu] Hk Hn. apply inject_abs_le in Hk. apply inject_le in Hn. rewrite inject_Z_plus.
  change (inject_Z SUMC) with 10000000000%Q in Hk. change (inject_Z 100000) with 100000%Q in Hn.
  assert (Hx : (Qabs x <= 100000001)%Q) by (apply Qabs_le_iff; split; lra).
  apply rnd_err_le in Hx.
  assert (Hc : (100000001 * (1 # 2 ^ 53) + tiny <= 1 # 40000000)%Q) by (vm_compute; discriminate).
  apply (Qle_trans _ _ _ Hx), Qabs_le_iff in Hc as [? ?]. change (inject_Z 1) with 1%Q. split; lra.
Qed.
Lemma fine_cents k : Z.abs k <= SUMC -> fine 1 (cents k) k.
Proof.
  intros H. apply (fine_rnd 0); [|exact H | lia]. unfold fine, Qdiv. change (/ 100)%Q with (1 # 100)%Q.
  change (inject_Z 0) with 0%Q. split; lra.
Qed.
Lemma fine_add n m x y a b :
  fine n x a -> fine m y b -> Z.abs (a + b) <= SUMC -> n + m <= 100000 -> fine (n + m + 1) (fadd x y) (a + b).
Proof.
  intros [? ?] [? ?] Hk Hn. apply fine_rnd; [|exact Hk | exact Hn]. unfold fine. rewrite !inject_Z_plus. split; lra.
Qed.
Lemma fine_near n x k : fine n x k -> n <= 20000 -> near 3 x k.
Proof.
  unfold fine. rewrite near_iff. intros [? ?] Hn. apply inject_le in Hn. change (inject_Z 20000) with 20000%Q in Hn.
  change (inject_Z 3) with 3%Q. split; lra.
Qed.

Lemma abs_cents_cons a l : abs_cents (a :: l) = Z.abs a + abs_cents l.
Proof. reflexivity. Qed.
Lemma abs_cents_nonneg l : 0 <= abs_cents l.
Proof. induction l as [|a l IH]; [discriminate | rewrite abs_cents_cons; lia]. Qed.
(** A running total of at most ten thousand amounts, of ten crore in all. *)
Lemma fold_fine l : forall n x k, fine n x k -> Z.abs k + abs_cents l <= SUMC -> n + 2 * Z.of_nat (length l) <= 100000 ->
  fine (n + 2 * Z.of_nat (length l)) (fold_left fadd (map cents l) x) (k + sum_cents l).
Proof.
  induction l as [|a l IH]; intros n x k Hx Hs Hn; cbn [map fold_left length] in *.
  { replace (k + sum_cents nil) with k by (cbn; lia). replace (n + 2 * Z.of_nat 0) with n by lia. exact Hx. }
  change (abs_cents (a :: l)) with (Z.abs a + abs_cents l) in Hs. change (sum_cents (a :: l)) with (a + sum_cents l).
  pose proof (abs_cents_nonneg l).
  replace (k + (a + sum_cents l)) with (k + a + sum_cents l) by lia.
  replace (n + 2 * Z.of_nat (S (length l))) with (n + 1 + 1 + 2 * Z.of_nat (length l)) by lia.
  apply IH; [apply fine_add; [exact Hx | apply fine_cents; lia | lia | lia] | lia | lia].
Qed.
Lemma total_near l : abs_cents l <= SUMC -> Z.of_nat (length l) <= 10000 -> near 3 (total_of (map cents l)) (sum_cents l).
Proof.
  intros Hs Hn. apply (fine_near (0 + 2 * Z.of_nat (length l))); [|lia]. unfold total_of.
  change (sum_cents l) with (0 + sum_cents l). apply fold_fine; [|lia | lia].
  unfold fine. split; discriminate.
Qed.
Lemma sum_le_abs l : Z.abs (sum_cents l) <= abs_cents l.
Proof. induction l as [|a l IH]; [discriminate | rewrite abs_cents_cons; cbn [sum_cents fold_right]; fold (sum_cents l); lia]. Qed.
Lemma sum_cents_perm l l' : Permutation l l' -> sum_cents l = sum_cents l'.
Proof. induction 1; unfold sum_cents in *; cbn [fold_right]; lia. Qed.
Lemma abs_cents_perm l l' : Permutation l l' -> abs_cents l = abs_cents l'.
Proof. induction 1; rewrite ?abs_cents_cons; lia. Qed.

(** Rounding an amount between 0 and B paise stays between 0 and B. *)
Lemma round2_between x B :
  0 <= B <= 10 ^ 13 -> (0 <= x)%Q -> (x <= cents B)%Q -> exists k, round2 x = cents k /\ 0 <= k <= B.
Proof.
  intros HB H0 H1. exists (to_cents x). split; [apply round2_to_cents|].
  pose proof (proj1 (near_iff 1 (cents B) B) (cents_near B ltac:(unfold MAXC; lia))) as [_ Hc].
  assert (HB' : (inject_Z B <= inject_Z (10 ^ 13))%Q) by (apply inject_le; lia).
  change (inject_Z (10 ^ 13)) with 10000000000000%Q in HB'. change (inject_Z 1) with 1%Q in Hc.
  assert (Hx : (Qabs x <= 1000000000000)%Q) by (apply Qabs_le_iff; split; lra).
  pose proof (to_cents_err x Hx) as He. apply Qabs_le_iff in He as [He1 He2].
  split.
  - apply Z.lt_succ_r. apply Zlt_Qlt || (rewrite Zlt_Qlt). unfold Z.succ. rewrite inject_Z_plus. change (inject_Z 0) with 0%Q. change (inject_Z 1) with 1%Q. lra.
  - apply Z.lt_succ_r. rewrite Zlt_Qlt. unfold Z.succ. rewrite inject_Z_plus. change (inject_Z 1) with 1%Q. lra.
Qed.

(** Rounding keeps the sign. *)
Lemma rne_nonneg p q : 0 <= p -> 0 < q -> 0 <= rne p q.
Proof.
  intros Hp Hq. unfold rne. pose proof (Z.div_pos p q Hp Hq).
  repeat match goal with |- context [if ?b then _ else _] => destruct b end; lia.
Qed.

Lemma rnd_nonneg x : (0 <= x)%Q -> (0 <= rnd x)%Q.
Proof.
  intros Hx. rewrite <- (Qred_correct x) in Hx. unfold rnd. destruct (Qred x) as [n d]; cbn [Qnum Qden] in *.
  assert (Hn : 0 <= n) by (unfold Qle in Hx; cbn in Hx; lia).
  destruct (n =? 0); [apply Qle_refl|]. set (q := quantum n (Zpos d)). clearbody q.
  destruct (Z.leb_spec 0 q) as [Hq|Hq].
  - assert (0 < 2 ^ q) by (apply Z.pow_pos_nonneg; lia).
    change 0%Q with (inject_Z 0). apply inject_le. apply Z.mul_nonneg_nonneg; [|lia].
    apply rne_nonneg; lia.
  - rewrite Qred_correct. unfold Qle; cbn [Qnum Qden]. rewrite Z.mul_0_l, Z.mul_1_r.
    apply rne_nonneg; [|lia]. apply Z.mul_nonneg_nonneg; [exact Hn | apply Z.pow_nonneg; lia].
Qed.

Lemma fmul_nonneg x y : (0 <= x)%Q -> (0 <= y)%Q -> (0 <= fmul x y)%Q.
Proof. intros. apply rnd_nonneg, Qmult_le_0_compat; assumption. Qed.
Lemma fdiv_nonneg x y : (0 <= x)%Q -> (0 <= y)%Q -> (0 <= fdiv x y)%Q.
Proof. intros. apply rnd_nonneg, Qmult_le_0_compat; [assumption|]. now apply Qinv_le_0_compat. Qed.
Lemma cents_nonneg k : 0 <= k -> (0 <= cents k)%Q.
Proof. intros. apply rnd_nonneg, Qmult_le_0_compat; [change 0%Q with (inject_Z 0); now apply inject_le | easy]. Qed.
