(* ===== verification/GoLib.v ===== *)
(** GoLib: the parts of Go's standard library the modelled code calls, on the
    values it calls them with.

    Strings are byte strings; [TrimSpace], [ToLower], [ToUpper] and [EqualFold]
    act on ASCII bytes and leave the others alone.  A [time.Time] is an instant
    in nanoseconds with the fixed UTC offset of its location.  [time.Parse] is
    written out for the two layouts the code parses ("2006-01-02", "15:04"). *)

From S2P Require Import Prelude.
From stdpp Require Import pretty.
From Stdlib Require Import QArith.
From Stdlib Require Export Ascii.
Local Open Scope string_scope.
Local Open Scope Z_scope.

Declare Scope go_scope.
Delimit Scope go_scope with go.
Notation "a =s b" := (String.eqb a b) (at level 70, no associativity) : go_scope.
Notation "a !=s b" := (negb (String.eqb a b)) (at level 70, no associativity) : go_scope.
#[global] Open Scope go_scope.

(** ** strings *)

Definition is_space (c : ascii) : bool :=
  let n := N_of_ascii c in ((9 <=? n) && (n <=? 13) || (n =? 32))%N.
Definition is_digit (c : ascii) : bool :=
  let n := N_of_ascii c in ((48 <=? n) && (n <=? 57))%N.

Definition lower_ascii (c : ascii) : ascii :=
  let n := N_of_ascii c in
  if ((65 <=? n) && (n <=? 90))%N then ascii_of_N (n + 32) else c.
Definition upper_ascii (c : ascii) : ascii :=
  let n := N_of_ascii c in
  if ((97 <=? n) && (n <=? 122))%N then ascii_of_N (n - 32) else c.

Fixpoint map_string (f : ascii -> ascii) (s : string) : string :=
  match s with EmptyString => "" | String c s' => String (f c) (map_string f s') end.
Fixpoint filter_string (p : ascii -> bool) (s : string) : string :=
  match s with
  | EmptyString => ""
  | String c s' => if p c then String c (filter_string p s') else filter_string p s'
  end.
Fixpoint forall_string (p : ascii -> bool) (s : string) : bool :=
  match s with EmptyString => true | String c s' => p c && forall_string p s' end.
Fixpoint trim_left (s : string) : string :=
  match s with
  | String c s' => if is_space c then trim_left s' else s
  | EmptyString => ""
  end.
(** Drops the trailing spaces: a suffix made only of spaces disappears. *)
Fixpoint trim_right (s : string) : string :=
  match s with
  | EmptyString => ""
  | String c s' =>
      match trim_right s' with
      | EmptyString => if is_space c then "" else String c ""
      | t => String c t
      end
  end.

Definition TrimSpace (s : string) : string := trim_right (trim_left s).
Definition ToLower : string -> string := map_string lower_ascii.
Definition ToUpper : string -> string := map_string upper_ascii.
Definition EqualFold (a b : string) : bool := ToLower a =s ToLower b.
Definition HasPrefix (s p : string) : bool := String.prefix p s.
Definition Contains (s sub : string) : bool :=
  match String.index 0 sub s with Some _ => true | None => false end.
Definition slen (s : string) : Z := Z.of_nat (String.length s).
(** [s[n:]] and Postgres [right(s, n)] *)
Definition drop_str (n : nat) (s : string) : string := String.substring n (String.length s - n) s.
Definition right_str (n : nat) (s : string) : string := drop_str (String.length s - n) s.
Definition take_str (n : nat) (s : string) : string := String.substring 0 n s.

(** [NULLIF(s, '')] *)
Definition nullif (s : string) : option string := if s =s "" then None else Some s.
Definition opt_str (o : option string) : string := default "" o.
(** [COALESCE(NULLIF(a,''), NULLIF(b,''))] *)
Definition coalesce_blank (a : option string) (b : string) : option string :=
  match nullif (opt_str a) with Some x => Some x | None => nullif b end.

(** ** fmt *)

Definition digit_char (n : Z) : ascii := ascii_of_N (Z.to_N (48 + n)).
(** n in exactly k decimal digits (0 <= n < 10^k). *)
Fixpoint zpad (k : nat) (n : Z) : string :=
  match k with O => "" | S k' => zpad k' (n / 10) ++ String (digit_char (n mod 10)) "" end.
Definition fmt_d (n : Z) : string := pretty n.
(** [%0kd] of a non-negative number *)
Definition fmt_0d (k : nat) (n : Z) : string :=
  if n <? 10 ^ Z.of_nat k then zpad k n else fmt_d n.
(** [%.2f]: the exact value rounded to two decimals, ties to even *)
Definition fmt_2f (x : Q) : string :=
  let n := Qnum x * 100 in let d := Zpos (Qden x) in
  let f := n / d in let r := n mod d in
  let c := if 2 * r <? d then f else if d <? 2 * r then f + 1
           else if Z.even f then f else f + 1 in
  (if c <? 0 then "-" else "") ++ fmt_d (Z.abs c / 100) ++ "." ++ zpad 2 (Z.abs c mod 100).
Definition quote_char : ascii := "034"%char.
(** [%q] of a printable ASCII string *)
Fixpoint escape_q (s : string) : string :=
  match s with
  | EmptyString => ""
  | String c s' =>
      if Ascii.eqb c quote_char || Ascii.eqb c "\"%char
      then String "\"%char (String c (escape_q s')) else String c (escape_q s')
  end.
Definition fmt_q (s : string) : string :=
  String quote_char (escape_q s ++ String quote_char "").

(** ** time *)

Record Time := { t_ns : Z; t_off : Z }.

Definition ns_per_s : Z := 10 ^ 9.
Definition unix_sec (t : Time) : Z := t_ns t / ns_per_s.
Definition local_sec (t : Time) : Z := unix_sec t + t_off t.
Definition local_day (t : Time) : Z := local_sec t / 86400.
Definition sec_of_day (t : Time) : Z := local_sec t mod 86400.

Definition Before (a b : Time) : bool := t_ns a <? t_ns b.
Definition After (a b : Time) : bool := t_ns b <? t_ns a.
Definition TEqual (a b : Time) : bool := t_ns a =? t_ns b.

(** Day number (days since 1970-01-01) of a proleptic Gregorian date. *)
Definition days_of_civil (y m d : Z) : Z :=
  let y' := if m <=? 2 then y - 1 else y in
  let era := y' / 400 in
  let yoe := y' - era * 400 in
  let doy := (153 * (m + if 2 <? m then -3 else 9) + 2) / 5 + d - 1 in
  era * 146097 + (yoe * 365 + yoe / 4 - yoe / 100 + doy) - 719468.

Definition civil_of_days (z0 : Z) : Z * Z * Z :=
  let z := z0 + 719468 in
  let era := z / 146097 in
  let doe := z - era * 146097 in
  let yoe := (doe - doe / 1460 + doe / 36524 - doe / 146096) / 365 in
  let doy := doe - (365 * yoe + yoe / 4 - yoe / 100) in
  let mp := (5 * doy + 2) / 153 in
  let d := doy - (153 * mp + 2) / 5 + 1 in
  let m := if mp <? 10 then mp + 3 else mp - 9 in
  let y := yoe + era * 400 in
  (if m <=? 2 then y + 1 else y, m, d).

Definition Year (t : Time) : Z := fst (fst (civil_of_days (local_day t))).
Definition Month (t : Time) : Z := snd (fst (civil_of_days (local_day t))).
Definition Day (t : Time) : Z := snd (civil_of_days (local_day t)).

(** [time.Date(y, m, d, h, mi, 0, 0, loc)] *)
Definition Date (y m d h mi : Z) (off : Z) : Time :=
  {| t_ns := (days_of_civil y m d * 86400 + h * 3600 + mi * 60 - off) * ns_per_s; t_off := off |}.

(** A time.Time sent to a DATE column: its calendar date, as pgx encodes it. *)
Definition as_date (t : Time) : Time := Date (Year t) (Month t) (Day t) 0 0 0.
(** [t.AddDate(0, 0, n)] *)
Definition add_days (t : Time) (n : Z) : Time :=
  {| t_ns := t_ns t + n * 86400 * ns_per_s; t_off := t_off t |}.

(** [a.Sub(b)]: a saturating int64 Duration *)
Definition Sub (a b : Time) : Z :=
  Z.max (- 2 ^ 63) (Z.min (2 ^ 63 - 1) (t_ns a - t_ns b)).

(** [t.UTC()] *)
Definition UTC (t : Time) : Time := {| t_ns := t_ns t; t_off := 0 |}.

Definition fmt_date (t : Time) : string :=
  fmt_0d 4 (Year t) ++ "-" ++ zpad 2 (Month t) ++ "-" ++ zpad 2 (Day t).
Definition fmt_date_compact (t : Time) : string :=
  fmt_0d 4 (Year t) ++ zpad 2 (Month t) ++ zpad 2 (Day t).
Definition fmt_rfc3339 (t : Time) : string :=
  fmt_date t ++ "T" ++ zpad 2 (sec_of_day t / 3600) ++ ":"
  ++ zpad 2 (sec_of_day t / 60 mod 60) ++ ":" ++ zpad 2 (sec_of_day t mod 60)
  ++ (if t_off t =? 0 then "Z"
      else (if t_off t <? 0 then "-" else "+") ++ zpad 2 (Z.abs (t_off t) / 3600)
           ++ ":" ++ zpad 2 (Z.abs (t_off t) / 60 mod 60)).

Definition is_leap (y : Z) : bool :=
  (y mod 4 =? 0) && (negb (y mod 100 =? 0) || (y mod 400 =? 0)).
Definition days_in (m y : Z) : Z :=
  if m =? 2 then (if is_leap y then 29 else 28)
  else if (m =? 4) || (m =? 6) || (m =? 9) || (m =? 11) then 30 else 31.

Definition digit_val (c : ascii) : option Z :=
  if is_digit c then Some (Z.of_N (N_of_ascii c) - 48) else None.
(** Exactly k digits, accumulating into acc. *)
Fixpoint get_digits (k : nat) (acc : Z) (s : string) : option (Z * string) :=
  match k with
  | O => Some (acc, s)
  | S k' =>
      match s with
      | String c s' => match digit_val c with
                       | Some v => get_digits k' (acc * 10 + v) s'
                       | None => None
                       end
      | EmptyString => None
      end
  end.
Definition expect (c : ascii) (s : string) : option string :=
  match s with String c' s' => if Ascii.eqb c c' then Some s' else None | EmptyString => None end.

(** [time.Parse("2006-01-02", s)] *)
Definition parse_date (s : string) : option Time :=
  '(y, s1) ← get_digits 4 0 s; s2 ← expect "-" s1;
  '(m, s3) ← get_digits 2 0 s2; s4 ← expect "-" s3;
  '(d, s5) ← get_digits 2 0 s4;
  if (s5 =s "") && (1 <=? m) && (m <=? 12) && (1 <=? d) && (d <=? days_in m y)
  then Some (Date y m d 0 0 0) else None.

(** Go's getnum: two digits, or one when a non-digit follows. *)
Definition getnum (s : string) : option (Z * string) :=
  match get_digits 2 0 s with
  | Some r => Some r
  | None => get_digits 1 0 s
  end.

(** [time.Parse("15:04", s)]: the hour and the minute. *)
Definition parse_clock (s : string) : option (Z * Z) :=
  '(h, s1) ← getnum s; s2 ← expect ":" s1; '(mi, s3) ← get_digits 2 0 s2;
  if (s3 =s "") && (h <? 24) && (mi <? 60) then Some (h, mi) else None.

(** ** Lemmas *)

Lemma string_app_nil_r (s : string) : s ++ "" = s.
Proof. induction s as [|c s IH]; [reflexivity | exact (f_equal (String c) IH)]. Qed.

Lemma string_app_assoc (a b c : string) : (a ++ b) ++ c = a ++ (b ++ c).
Proof. induction a as [|x a IH]; [reflexivity | exact (f_equal (String x) IH)]. Qed.

Lemma filter_string_all p s : forall_string p s = true -> filter_string p s = s.
Proof.
  induction s as [|c s IH]; cbn; [reflexivity|]. rewrite andb_true_iff. intros [-> H]. now rewrite IH.
Qed.
Lemma forall_string_app p a b : forall_string p (a ++ b) = forall_string p a && forall_string p b.
Proof. induction a as [|c a IH]; [reflexivity|]. change (String c a ++ b) with (String c (a ++ b)). cbn [forall_string]. now rewrite IH, andb_assoc. Qed.

Lemma digit_val_char n : 0 <= n < 10 -> digit_val (digit_char n) = Some n.
Proof.
  intros H. destruct n as [|p|p]; [reflexivity| |lia].
  do 4 (destruct p as [p|p|]; try lia; try reflexivity).
Qed.

Lemma get_digits_app k1 k2 acc s :
  get_digits (k1 + k2) acc s =
  match get_digits k1 acc s with Some (a, s') => get_digits k2 a s' | None => None end.
Proof.
  revert acc s. induction k1 as [|k1 IH]; intros acc s; cbn; [reflexivity|].
  destruct s as [|c s]; [reflexivity|]. destruct (digit_val c); [apply IH | reflexivity].
Qed.

Lemma get_digits_zpad k n acc rest :
  0 <= n < 10 ^ Z.of_nat k ->
  get_digits k acc (zpad k n ++ rest) = Some (acc * 10 ^ Z.of_nat k + n, rest).
Proof.
  revert n acc rest. induction k as [|k IH]; intros n acc rest Hn.
  - change (10 ^ Z.of_nat 0) with 1 in *. cbn. f_equal. f_equal. lia.
  - rewrite Nat2Z.inj_succ, Z.pow_succ_r in Hn by lia.
    replace (S k) with (k + 1)%nat by lia. rewrite get_digits_app.
    replace (k + 1)%nat with (S k) by lia. cbn [zpad].
    rewrite string_app_assoc, IH by (split; [apply Z.div_pos; lia | apply Z.div_lt_upper_bound; lia]).
    change (String (digit_char (n mod 10)) "" ++ rest) with (String (digit_char (n mod 10)) rest).
    cbn [get_digits]. rewrite digit_val_char by (apply Z.mod_pos_bound; lia).
    rewrite Nat2Z.inj_succ, Z.pow_succ_r by lia.
    do 2 f_equal. pose proof (Z.div_mod n 10 ltac:(lia)). lia.
Qed.

Lemma expect_app c s : expect c (String c "" ++ s) = Some s.
Proof.
  change (String c "" ++ s) with (String c s). unfold expect. now rewrite Ascii.eqb_refl.
Qed.

(** One 400-year era: the year of the era is found from the day by a monotone
    function, which is checked at the two ends of each of the 400 years; the
    month and day are checked for each of the 366 days of a year. *)
Fixpoint all_below (n : nat) (k : Z) (p : Z -> bool) : bool :=
  match n with O => true | S n' => p k && all_below n' (k + 1) p end.

Lemma all_below_spec n k p i : all_below n k p = true -> k <= i < k + Z.of_nat n -> p i = true.
Proof.
  revert k. induction n as [|n IH]; intros k H Hi; cbn in H; [lia|].
  apply andb_true_iff in H as [H1 H2].
  destruct (Z.eq_dec i k) as [->|]; [exact H1 | apply (IH (k + 1)); [exact H2 | lia]].
Qed.

Definition yoe_num (doe : Z) : Z := doe - doe / 1460 + doe / 36524 - doe / 146096.
Definition year_start (y : Z) : Z := 365 * y + y / 4 - y / 100 + y / 400.
Definition year_check (y : Z) : bool :=
  (yoe_num (year_start y) / 365 =? y) && (yoe_num (year_start (y + 1) - 1) / 365 =? y)
  && (year_start (y + 1) - year_start y =? if is_leap (y + 1) then 366 else 365).
Definition doy_check (doy : Z) : bool :=
  let mp := (5 * doy + 2) / 153 in
  let d := doy - (153 * mp + 2) / 5 + 1 in
  let m := if mp <? 10 then mp + 3 else mp - 9 in
  ((153 * (m + if 2 <? m then -3 else 9) + 2) / 5 + d - 1 =? doy)
  && (1 <=? m) && (m <=? 12) && (1 <=? d)
  && (d <=? if m =? 2 then (if doy =? 365 then 29 else 28) else days_in m 1).

Lemma year_checks : all_below 400 0 year_check = true.
Proof. vm_compute. reflexivity. Qed.
Lemma doy_checks : all_below 366 0 doy_check = true.
Proof. vm_compute. reflexivity. Qed.

Lemma yoe_num_step x : 0 <= x < 146096 -> yoe_num x <= yoe_num (x + 1).
Proof. unfold yoe_num. intros. Z.to_euclidean_division_equations. lia. Qed.

Lemma yoe_num_mono x y : 0 <= x <= y -> y <= 146096 -> yoe_num x <= yoe_num y.
Proof.
  intros Hx Hy. replace y with (x + Z.of_nat (Z.to_nat (y - x))) in * by lia.
  induction (Z.to_nat (y - x)) as [|n IH]; [rewrite Z.add_0_r; lia|].
  rewrite Nat2Z.inj_succ in *. etransitivity; [apply IH; lia|].
  replace (x + Z.succ (Z.of_nat n)) with (x + Z.of_nat n + 1) by lia.
  apply yoe_num_step. lia.
Qed.

Lemma year_of_day (n : nat) doe :
  0 <= doe < year_start (Z.of_nat n) ->
  exists y, 0 <= y < Z.of_nat n /\ year_start y <= doe < year_start (y + 1).
Proof.
  induction n as [|n IH]; intros H; [change (year_start (Z.of_nat 0)) with 0 in H; lia|].
  rewrite Nat2Z.inj_succ in *. destruct (Z.lt_ge_cases doe (year_start (Z.of_nat n))) as [Hlt|Hge].
  - destruct IH as (y & Hy & Hd); [lia|]. exists y. lia.
  - exists (Z.of_nat n). unfold Z.succ in H. lia.
Qed.

Definition era_ok (doe : Z) : Prop :=
  match civil_of_days (doe - 719468) with
  | (y, m, d) => days_of_civil y m d = doe - 719468 /\ 1 <= m <= 12 /\ 1 <= d <= days_in m y
  end.

Lemma era_ok_at doe : 0 <= doe < 146097 -> era_ok doe.
Proof.
  intros Hd. destruct (year_of_day 400 doe Hd) as (y & Hy & Hys). change (Z.of_nat 400) with 400 in Hy.
  pose proof (all_below_spec _ 0 _ y year_checks ltac:(lia)) as Hc. unfold year_check in Hc.
  assert (Hlast : year_start (y + 1) <= 146097) by (unfold year_start; Z.to_euclidean_division_equations; lia).
  assert (0 <= year_start y) by (unfold year_start; Z.to_euclidean_division_equations; lia).
  rewrite !andb_true_iff, !Z.eqb_eq in Hc. destruct Hc as [[Hc1 Hc2] Hlen].
  assert (Hyoe : yoe_num doe / 365 = y).
  { pose proof (yoe_num_mono (year_start y) doe ltac:(lia) ltac:(lia)) as H1.
    pose proof (yoe_num_mono doe (year_start (y + 1) - 1) ltac:(lia) ltac:(lia)) as H2.
    apply (Z.div_le_mono _ _ 365) in H1, H2; lia. }
  unfold era_ok, civil_of_days.
  replace (doe - 719468 + 719468) with doe by lia.
  replace (doe / 146097) with 0 by (symmetry; apply Z.div_small; lia).
  rewrite Z.mul_0_l, Z.sub_0_r. fold (yoe_num doe). rewrite Hyoe, Z.add_0_r.
  assert (Hys' : 365 * y + y / 4 - y / 100 = year_start y)
    by (unfold year_start; rewrite (Z.div_small y 400) by lia; lia).
  rewrite Hys'. set (doy := doe - year_start y).
  assert (Hdoy : 0 <= doy < 366) by (destruct (is_leap (y + 1)); lia).
  pose proof (all_below_spec _ 0 _ doy doy_checks ltac:(lia)) as Hm. unfold doy_check in Hm.
  set (mp := (5 * doy + 2) / 153) in *. set (d := doy - (153 * mp + 2) / 5 + 1) in *.
  set (m := if mp <? 10 then mp + 3 else mp - 9) in *.
  rewrite !andb_true_iff, !Z.leb_le, Z.eqb_eq in Hm. destruct Hm as [[[[Hback Hm1] Hm2] Hd1] Hd2].
  split; [|split; [lia|split; [lia|]]].
  - unfold days_of_civil. rewrite Hback.
    replace (if m <=? 2 then (if m <=? 2 then y + 1 else y) - 1 else if m <=? 2 then y + 1 else y)
      with y by (destruct (m <=? 2); lia).
    rewrite (Z.div_small y 400) by lia. rewrite Z.mul_0_l, Z.sub_0_r. lia.
  - unfold days_in in *. destruct (Z.eqb_spec m 2) as [Em|Em].
    + rewrite Em. cbn [Z.leb Z.compare Pos.compare Pos.compare_cont].
      destruct (is_leap (y + 1)) eqn:El; destruct (Z.eqb_spec doy 365); lia.
    + exact Hd2.
Qed.

Lemma civil_of_days_shift z e :
  civil_of_days (z + e * 146097) =
  match civil_of_days z with (y, m, d) => (y + 400 * e, m, d) end.
Proof.
  unfold civil_of_days.
  replace (z + e * 146097 + 719468) with (z + 719468 + e * 146097) by lia.
  rewrite Z.div_add by lia. set (w := z + 719468).
  replace (w + e * 146097 - (w / 146097 + e) * 146097) with (w - w / 146097 * 146097) by lia.
  set (doe := w - w / 146097 * 146097).
  set (yoe := (doe - doe / 1460 + doe / 36524 - doe / 146096) / 365).
  set (mp := (5 * (doe - (365 * yoe + yoe / 4 - yoe / 100)) + 2) / 153).
  destruct ((if mp <? 10 then mp + 3 else mp - 9) <=? 2); f_equal; f_equal; lia.
Qed.

Lemma days_of_civil_shift y m d e :
  days_of_civil (y + 400 * e) m d = days_of_civil y m d + e * 146097.
Proof.
  unfold days_of_civil.
  destruct (m <=? 2).
  - replace (y + 400 * e - 1) with (y - 1 + e * 400) by lia. rewrite Z.div_add by lia.
    replace (y - 1 + e * 400 - ((y - 1) / 400 + e) * 400) with (y - 1 - (y - 1) / 400 * 400) by lia. lia.
  - replace (y + 400 * e) with (y + e * 400) by lia. rewrite Z.div_add by lia.
    replace (y + e * 400 - (y / 400 + e) * 400) with (y - y / 400 * 400) by lia. lia.
Qed.

Lemma era_split z : exists e doe, z = doe - 719468 + e * 146097 /\ 0 <= doe < 146097.
Proof.
  exists ((z + 719468) / 146097), ((z + 719468) mod 146097).
  pose proof (Z.div_mod (z + 719468) 146097 ltac:(lia)).
  split; [lia | apply Z.mod_pos_bound; lia].
Qed.

(** The calendar date of a day determines the day. *)
Lemma days_of_civil_of_days z :
  match civil_of_days z with (y, m, d) => days_of_civil y m d = z end.
Proof.
  destruct (era_split z) as (e & doe & -> & Hd).
  rewrite civil_of_days_shift. pose proof (era_ok_at doe Hd) as H. unfold era_ok in H.
  destruct (civil_of_days (doe - 719468)) as [[y m] d].
  rewrite days_of_civil_shift. lia.
Qed.

Lemma days_in_shift m y e : days_in m (y + 400 * e) = days_in m y.
Proof.
  unfold days_in, is_leap. replace (y + 400 * e) with (y + (100 * e) * 4) at 1 by lia.
  rewrite Z.mod_add by lia.
  replace (y + 400 * e) with (y + (4 * e) * 100) at 1 by lia. rewrite Z.mod_add by lia.
  replace (y + 400 * e) with (y + e * 400) by lia. rewrite Z.mod_add by lia. reflexivity.
Qed.

Lemma civil_of_days_valid z :
  match civil_of_days z with (y, m, d) => 1 <= m <= 12 /\ 1 <= d <= days_in m y end.
Proof.
  destruct (era_split z) as (e & doe & -> & Hd).
  rewrite civil_of_days_shift. pose proof (era_ok_at doe Hd) as H. unfold era_ok in H.
  destruct (civil_of_days (doe - 719468)) as [[y m] d].
  rewrite days_in_shift. lia.
Qed.

(** Midnight UTC of the calendar date of t. *)
Lemma date_of_parts t : Date (Year t) (Month t) (Day t) 0 0 0 = {| t_ns := local_day t * 86400 * ns_per_s; t_off := 0 |}.
Proof.
  unfold Date, Year, Month, Day. pose proof (days_of_civil_of_days (local_day t)) as H.
  destruct (civil_of_days (local_day t)) as [[y m] d]; cbn [fst snd]. rewrite H. f_equal. lia.
Qed.

(** Printing a date with layout 2006-01-02 and parsing it back. *)
Lemma parse_date_fmt t :
  0 <= Year t <= 9999 ->
  parse_date (fmt_date t) = Some {| t_ns := local_day t * 86400 * ns_per_s; t_off := 0 |}.
Proof.
  intros Hy. unfold parse_date, fmt_date, fmt_0d.
  replace (Year t <? 10 ^ Z.of_nat 4) with true by (symmetry; apply Z.ltb_lt; lia).
  pose proof (civil_of_days_valid (local_day t)) as Hv. rewrite <- date_of_parts.
  unfold Year, Month, Day in *. destruct (civil_of_days (local_day t)) as [[y m] d]; cbn [fst snd] in *.
  assert (days_in m y <= 31) by (unfold days_in; repeat case_match; lia).
  rewrite get_digits_zpad by (change (10 ^ Z.of_nat 4) with 10000; lia). cbn [mbind option_bind].
  rewrite expect_app. cbn [mbind option_bind].
  rewrite get_digits_zpad by (change (10 ^ Z.of_nat 2) with 100; lia). cbn [mbind option_bind].
  rewrite expect_app. cbn [mbind option_bind]. rewrite <- (string_app_nil_r (zpad 2 d)).
  rewrite get_digits_zpad by (change (10 ^ Z.of_nat 2) with 100; lia). cbn [mbind option_bind].
  rewrite !Z.mul_0_l, !Z.add_0_l.
  replace ((1 <=? m) && (m <=? 12) && (1 <=? d) && (d <=? days_in m y)) with true by lia.
  replace (_ && _) with true by (cbn [String.eqb]; lia). reflexivity.
Qed.

(** ** The value of a decimal string, for the injectivity of formatting *)

Fixpoint dec_val (acc : Z) (s : string) : Z :=
  match s with
  | EmptyString => acc
  | String c s' => dec_val (acc * 10 + (Z.of_N (N_of_ascii c) - 48)) s'
  end.

Lemma dec_val_app acc a b : dec_val acc (a ++ b) = dec_val (dec_val acc a) b.
Proof. revert acc. induction a as [|c a IH]; intros acc; [reflexivity | apply IH]. Qed.

Lemma dec_val_digit_char acc n : 0 <= n < 10 -> dec_val acc (String (digit_char n) "") = acc * 10 + n.
Proof.
  intros H. cbn [dec_val]. apply Z.add_cancel_l. destruct n as [|p|p]; [reflexivity| |lia].
  do 4 (destruct p as [p|p|]; try lia; try reflexivity).
Qed.

Lemma dec_val_zpad k n : 0 <= n < 10 ^ Z.of_nat k -> dec_val 0 (zpad k n) = n.
Proof.
  revert n. induction k as [|k IH]; intros n Hn; [change (10 ^ Z.of_nat 0) with 1 in Hn; cbn; lia|].
  rewrite Nat2Z.inj_succ, Z.pow_succ_r in Hn by lia. cbn [zpad].
  rewrite dec_val_app, IH by (split; [apply Z.div_pos; lia | apply Z.div_lt_upper_bound; lia]).
  rewrite dec_val_digit_char by (apply Z.mod_pos_bound; lia).
  pose proof (Z.div_mod n 10 ltac:(lia)). lia.
Qed.

Lemma dec_val_pretty_go (x : N) s : dec_val 0 (pretty_N_go x s) = dec_val (Z.of_N x) s.
Proof.
  revert s. induction x as [x IH] using (well_founded_induction N.lt_wf_0); intros s.
  destruct (decide (0 < x)%N) as [Hx|Hx].
  - rewrite pretty_N_go_step by exact Hx. rewrite IH by (apply N.div_lt; lia). cbn [dec_val].
    f_equal. pose proof (N.div_mod x 10 ltac:(lia)). pose proof (N.mod_lt x 10 ltac:(lia)).
    assert (Hc : Z.of_N (N_of_ascii (pretty_N_char (x mod 10))) - 48 = Z.of_N (x mod 10)).
    { revert H0. generalize (x mod 10)%N. intros r Hr.
      assert (r = 0 \/ r = 1 \/ r = 2 \/ r = 3 \/ r = 4 \/ r = 5 \/ r = 6 \/ r = 7 \/ r = 8 \/ r = 9)%N as Hn by lia.
      destruct Hn as [->|[->|[->|[->|[->|[->|[->|[->|[->| ->]]]]]]]]]; reflexivity. }
    rewrite Hc. lia.
  - replace x with 0%N by lia. rewrite pretty_N_go_0. reflexivity.
Qed.

Lemma dec_val_fmt_0d k n : 0 < n -> dec_val 0 (fmt_0d k n) = n.
Proof.
  intros Hn. unfold fmt_0d. destruct (Z.ltb_spec n (10 ^ Z.of_nat k)) as [H|H]; [apply dec_val_zpad; lia|].
  unfold fmt_d. destruct n as [|p|p]; [lia| |lia].
  change (pretty (Z.pos p)) with (pretty (N.pos p)). unfold pretty, pretty_N.
  rewrite decide_False by discriminate. rewrite dec_val_pretty_go. reflexivity.
Qed.

(** %0kd is injective on positive numbers. *)
Lemma fmt_0d_inj k n m : 0 < n -> 0 < m -> fmt_0d k n = fmt_0d k m -> n = m.
Proof. intros Hn Hm E. rewrite <- (dec_val_fmt_0d k n Hn), E. now apply dec_val_fmt_0d. Qed.
