(* ===== verification/GoText.v ===== *)
(** GoText: what the payment code uses of Go's strings, fmt and time beyond
    GoLib: Split, Fields, ReplaceAll of one character, six decimals printed and
    scanned, RFC 3339 times, and the conversion of a float64 to an int64. *)

From S2P Require Import Prelude GoLib Binary64.
From Stdlib Require Import QArith.
Local Open Scope string_scope.
Local Open Scope Z_scope.

(** strings.Split(s, sep) on a one-character separator: never empty *)
Fixpoint Split (c : ascii) (s : string) : list string :=
  match s with
  | EmptyString => [""]
  | String x s' =>
      if Ascii.eqb x c then "" :: Split c s'
      else match Split c s' with h :: t => String x h :: t | [] => [String x ""] end
  end.
Definition nonempty (s : string) : bool := s !=s "".
(** strings.Fields: the words between ASCII white space *)
Definition Fields (s : string) : list string :=
  List.filter nonempty (Split " " (map_string (fun c => if is_space c then " "%char else c) s)).
Definition replace_char (a b : ascii) : string -> string := map_string (fun c => if Ascii.eqb c a then b else c).
Definition Join (sep : string) (l : list string) : string := String.concat sep l.

(** [%.6f]: the exact value rounded to six decimals, ties to even *)
Definition fmt_6f (x : Q) : string :=
  let c := rne (Qnum x * 10 ^ 6) (Zpos (Qden x)) in
  (if c <? 0 then "-" else "") ++ fmt_d (Z.abs c / 10 ^ 6) ++ "." ++ zpad 6 (Z.abs c mod 10 ^ 6).

(** The digits at the start of a string: their value, how many, and what follows. *)
Fixpoint take_digits (acc : Z) (n : nat) (s : string) : Z * nat * string :=
  match s with
  | String c s' => match digit_val c with Some v => take_digits (acc * 10 + v) (S n) s' | None => (acc, n, s) end
  | EmptyString => (acc, n, s)
  end.
(** fmt.Sscanf(s, "%f", &x) on plain decimal notation: leading spaces, a sign,
    digits and a fraction; what follows the number is not read. *)
Definition Sscanf_f (s0 : string) : option Q :=
  let s1 := trim_left s0 in
  let neg := HasPrefix s1 "-" in
  let s2 := if neg || HasPrefix s1 "+" then drop_str 1 s1 else s1 in
  let '(w, n, s3) := take_digits 0 0 s2 in
  let '(v, n', k) := match expect "." s3 with
                     | Some s4 => let '(v, m, _) := take_digits w n s4 in (v, m, (m - n)%nat)
                     | None => (w, n, O) end in
  if Nat.eqb n' 0 then None
  else Some (rnd ((if neg then - v else v) # Z.to_pos (10 ^ Z.of_nat k))).

(** time.Format("150405") *)
Definition fmt_hms (t : Time) : string :=
  let s := sec_of_day t in fmt_0d 2 (s / 3600) ++ fmt_0d 2 (s / 60 mod 60) ++ fmt_0d 2 (s mod 60).

(** A fraction of a second: at most nine digits count. *)
Definition parse_fraction (s : string) : Z * string :=
  match s with
  | String c s' =>
      if Ascii.eqb c "." || Ascii.eqb c "," then
        match take_digits 0 0 s' with
        | (_, O, _) => (0, s)
        | (_, S n, rest) =>
            let k := Nat.min 9 (S n) in
            (fst (fst (take_digits 0 0 (take_str k s'))) * 10 ^ (9 - Z.of_nat k), rest)
        end
      else (0, s)
  | EmptyString => (0, s)
  end.
(** Z, or a signed offset hh:mm, in seconds *)
Definition parse_zone (s : string) : option Z :=
  if s =s "Z" then Some 0
  else match s with
       | String c s1 =>
           sign ← (if Ascii.eqb c "+" then Some 1 else if Ascii.eqb c "-" then Some (-1) else None);
           '(h, s2) ← get_digits 2 0 s1; s3 ← expect ":" s2; '(m, s4) ← get_digits 2 0 s3;
           if (s4 =s "") && (h <=? 24) && (m <=? 60) then Some (sign * (h * 3600 + m * 60)) else None
       | EmptyString => None
       end.
(** time.Parse(time.RFC3339, s) *)
Definition parse_rfc3339 (s : string) : option Time :=
  '(y, s1) ← get_digits 4 0 s; s2 ← expect "-" s1; '(mo, s3) ← get_digits 2 0 s2; s4 ← expect "-" s3;
  '(d, s5) ← get_digits 2 0 s4; s6 ← expect "T" s5; '(h, s7) ← getnum s6; s8 ← expect ":" s7;
  '(mi, s9) ← get_digits 2 0 s8; s10 ← expect ":" s9; '(se, s11) ← get_digits 2 0 s10;
  let '(frac, s12) := parse_fraction s11 in
  off ← parse_zone s12;
  if (1 <=? mo) && (mo <=? 12) && (1 <=? d) && (d <=? days_in mo y) && (h <? 24) && (mi <? 60) && (se <? 60)
  then Some {| t_ns := t_ns (Date y mo d h mi 0) + (se - off) * ns_per_s + frac; t_off := off |} else None.

(** int64(x): towards zero; the value amd64 gives when it does not fit *)
Definition to_int64 (x : Q) : Z :=
  let n := Z.quot (Qnum x) (Zpos (Qden x)) in
  if (- 2 ^ 63 <=? n) && (n <? 2 ^ 63) then n else - 2 ^ 63.

Example split_three : Split ":" "v1:abc:de" = ["v1"; "abc"; "de"]. Proof. reflexivity. Qed.
Example fields_two : Fields "  deluxe  suite " = ["deluxe"; "suite"]. Proof. reflexivity. Qed.
Example six_decimals : fmt_6f (83.25 : Q) = "83.250000". Proof. vm_compute. reflexivity. Qed.
Example scan_back : Sscanf_f "83.250000" = Some (rnd 83.25). Proof. vm_compute. reflexivity. Qed.
Example rfc3339_zone : fmt_rfc3339 <$> parse_rfc3339 "2026-03-10T23:30:00.5+05:30" = Some "2026-03-10T23:30:00+05:30".
Proof. vm_compute. reflexivity. Qed.
Example hms : fmt_hms (Date 2026 3 10 9 5 0) = "090500". Proof. vm_compute. reflexivity. Qed.

(** ** Splitting at a separator *)

Definition without (c : ascii) (s : string) : bool := forall_string (fun x => negb (Ascii.eqb x c)) s.
Lemma Split_without c s : without c s = true -> Split c s = [s].
Proof.
  unfold without. induction s as [|x s IH]; [reflexivity|]. cbn [forall_string Split]. intros [Hx%negb_true_iff Hs]%andb_true_iff.
  now rewrite Hx, IH.
Qed.
Lemma Split_app c a b : without c a = true -> Split c (a ++ String c b) = a :: Split c b.
Proof.
  unfold without. induction a as [|x a IH]; cbn [forall_string].
  - intros _. change ("" ++ String c b) with (String c b). cbn [Split]. now rewrite Ascii.eqb_refl.
  - intros [Hx%negb_true_iff Ha]%andb_true_iff. change (String x a ++ String c b) with (String x (a ++ String c b)).
    cbn [Split]. now rewrite Hx, IH.
Qed.
