(* ===== verification/AmountWords.v ===== *)
(** AmountWords: text of the tax invoice (internal/handler/pos_invoice.go): the first
    text that is not blank, and the amount in words (amountInWords and below), in the Indian system of crores, lakhs and thousands.
    A reader of such words, independent of the code that writes them, gets back
    the amount. *)

From S2P Require Import Prelude GoLib Binary64 GoText.
From Stdlib Require Import QArith Qabs Qround Lqa.
Local Open Scope string_scope.
Local Open Scope Z_scope.

(** the first value that is not blank, as sent *)
Fixpoint firstNonEmpty (vals : list string) : string :=
  match vals with [] => "" | v :: rest => if TrimSpace v !=s "" then v else firstNonEmpty rest end.

Definition invOnes : list string :=
  ["";"One";"Two";"Three";"Four";"Five";"Six";"Seven";"Eight";"Nine";"Ten";
   "Eleven";"Twelve";"Thirteen";"Fourteen";"Fifteen";"Sixteen";"Seventeen";"Eighteen";"Nineteen"].
Definition invTens : list string := ["";"";"Twenty";"Thirty";"Forty";"Fifty";"Sixty";"Seventy";"Eighty";"Ninety"].
Definition word_at (l : list string) (n : Z) : string := nth (Z.to_nat n) l "".

Definition invTwo (n : Z) : string :=
  if n <? 20 then word_at invOnes n
  else TrimSpace (word_at invTens (Z.quot n 10) ++ " " ++ word_at invOnes (Z.rem n 10)).

(** One scale: if q := n / scale; q > 0 { res += words + name; n %= scale } *)
Definition scale_word (words : Z -> string) (scale : Z) (name : string) (st : string * Z) : string * Z :=
  let '(res, n) := st in
  let q := Z.quot n scale in
  if 0 <? q then (res ++ words q ++ name, Z.rem n scale) else (res, n).

Fixpoint indian_words (fuel : nat) (n : Z) : string :=
  match fuel with
  | O => ""
  | S fuel' =>
      if n =? 0 then "Zero"
      else
        let st := scale_word (indian_words fuel') 10000000 " Crore " ("", n) in
        let st := scale_word invTwo 100000 " Lakh " st in
        let st := scale_word invTwo 1000 " Thousand " st in
        let '(res, n) := scale_word (word_at invOnes) 100 " Hundred " st in
        TrimSpace (if 0 <? n then res ++ invTwo n else res)
  end.
(** Each call divides by a crore, and an int64 is below 10^21. *)
Definition intToIndianWords (n : Z) : string := indian_words 3 n.

Definition floor_q (x : Q) : Z := Qfloor x.
Definition amountInWords (amount : Q) (currency : string) : string :=
  let usd := EqualFold currency "USD" in
  let unit := if usd then "Dollars" else "Rupees" in
  let sub := if usd then "Cents" else "Paisa" in
  let rupees0 := to_int64 (inject_Z (floor_q (fadd amount (rnd (1 # 1000000000))))) in
  let paisa0 := math_round (fmul (fsub amount (of_int rupees0)) 100) in
  let '(rupees, paisa) := if paisa0 =? 100 then (rupees0 + 1, 0) else (rupees0, paisa0) in
  let s := intToIndianWords rupees ++ " " ++ unit in
  (if 0 <? paisa then s ++ " And " ++ intToIndianWords paisa ++ " " ++ sub else s) ++ " Only".

Example words_lakh : intToIndianWords 1234567 = "Twelve Lakh Thirty Four Thousand Five Hundred Sixty Seven".
Proof. vm_compute. reflexivity. Qed.
Example words_crore_crore : intToIndianWords (10 ^ 14 + 5) = "One Crore Crore Five".
Proof. vm_compute. reflexivity. Qed.
Example words_amount : amountInWords (cents 123405) "INR" = "One Thousand Two Hundred Thirty Four Rupees And Five Paisa Only".
Proof. vm_compute. reflexivity. Qed.

(** ** Reading words *)

Definition small_words : list (string * Z) :=
  zip (tail invOnes) (seqZ 1 19) ++ zip (drop 2 invTens) (map (Z.mul 10) (seqZ 2 8)) ++ [("Zero", 0)].
Definition small_value (w : string) : option Z := snd <$> List.find (fun p => fst p =s w) small_words.

(** What has been closed off by a scale, and the number being read.  A currency
    turns what was read into hundredths; other words count for nothing. *)
Definition read_word (st : Z * Z) (w : string) : Z * Z :=
  let '(t, g) := st in
  if w =s "Hundred" then (t, g * 100)
  else if w =s "Thousand" then (t + g * 1000, 0)
  else if w =s "Lakh" then (t + g * 100000, 0)
  else if w =s "Crore" then ((t + g) * 10000000, 0)
  else if (w =s "Rupees") || (w =s "Dollars") then ((t + g) * 100, 0)
  else (t, g + default 0 (small_value w)).
Definition read_from (st : Z * Z) (l : list string) : Z * Z := foldl read_word st l.
Definition read_words (s : string) : Z := let '(t, g) := read_from (0, 0) (Fields s) in t + g.

(** *** Words of a concatenation *)

Lemma Split_join c a b : Split c (a ++ String c b) = (Split c a ++ Split c b)%list.
Proof.
  induction a as [|x a IH].
  - change ("" ++ String c b) with (String c b). cbn [Split]. now rewrite Ascii.eqb_refl.
  - change (String x a ++ String c b) with (String x (a ++ String c b)). cbn [Split]. rewrite IH.
    destruct (Ascii.eqb x c); [reflexivity|].
    destruct (Split c a) as [|h t] eqn:E; [|reflexivity]. exfalso. destruct a as [|y a]; cbn [Split] in E; [discriminate|].
    destruct (Ascii.eqb y c); [discriminate|]. now destruct (Split c a).
Qed.
Lemma map_string_app f a b : map_string f (a ++ b) = map_string f a ++ map_string f b.
Proof.
  induction a as [|x a IH]; [reflexivity|]. change (String x a ++ b) with (String x (a ++ b)). cbn [map_string]. now rewrite IH.
Qed.
Lemma Fields_space a b : Fields (a ++ " " ++ b) = (Fields a ++ Fields b)%list.
Proof.
  unfold Fields. rewrite map_string_app. set (f := fun c => if is_space c then " "%char else c).
  change (map_string f (" " ++ b)) with (String " " (map_string f b)). rewrite Split_join. apply List.filter_app.
Qed.
Lemma Fields_cons c s : is_space c = true -> Fields (String c s) = Fields s.
Proof. intros H. unfold Fields. cbn [map_string]. rewrite H. cbn [Split]. rewrite Ascii.eqb_refl. reflexivity. Qed.
Lemma Fields_trim_left s : Fields (trim_left s) = Fields s.
Proof. induction s as [|c s IH]; [reflexivity|]. cbn [trim_left]. destruct (is_space c) eqn:E; [|reflexivity]. rewrite IH. symmetry. now apply Fields_cons. Qed.

(** What is trimmed at the right is white space. *)
Lemma trim_right_tail s : exists t, s = trim_right s ++ t /\ forall_string is_space t = true.
Proof.
  induction s as [|c s (t & E & Ht)]; [exists ""; auto|]. cbn. destruct (trim_right s) as [|x r] eqn:Er.
  - destruct (is_space c) eqn:Ec.
    + exists (String c s). split; [reflexivity|]. cbn. rewrite Ec. rewrite E. exact Ht.
    + exists t. split; [|exact Ht]. now rewrite E at 1.
  - exists t. split; [|exact Ht]. now rewrite E at 1.
Qed.
Lemma Fields_spaces t : forall a, forall_string is_space t = true -> Fields (a ++ t) = Fields a.
Proof.
  induction t as [|c t IH]; intros a Ht; [now rewrite string_app_nil_r|]. cbn in Ht. apply andb_true_iff in Ht as [Hc Ht].
  assert (E : Fields (a ++ String c t) = Fields (a ++ " " ++ t)).
  { unfold Fields. rewrite !map_string_app. cbn. now rewrite Hc. }
  assert (Et : Fields t = []) by exact (IH "" Ht). rewrite E, Fields_space, Et. apply app_nil_r.
Qed.
Lemma Fields_trim s : Fields (TrimSpace s) = Fields s.
Proof.
  unfold TrimSpace. rewrite <- (Fields_trim_left s). destruct (trim_right_tail (trim_left s)) as (t & E & Ht).
  rewrite E at 2. symmetry. now apply Fields_spaces.
Qed.

(** Text that ends where a word ends. *)
Definition closed (r : string) : Prop := forall s, Fields (r ++ s) = (Fields r ++ Fields s)%list.
Lemma closed_empty : closed "".
Proof. intros s. reflexivity. Qed.
Lemma closed_scale r x name : closed r -> closed (r ++ x ++ " " ++ name ++ " ")
  /\ Fields (r ++ x ++ " " ++ name ++ " ") = (Fields r ++ Fields x ++ Fields name)%list.
Proof.
  intros Hr. assert (E : Fields (r ++ x ++ " " ++ name ++ " ") = (Fields r ++ Fields x ++ Fields name)%list).
  { rewrite Hr, Fields_space. change " " with (" " ++ "") at 1. rewrite Fields_space. change (Fields "") with (@nil string). now rewrite app_nil_r. }
  split; [|exact E]. intros s. rewrite E, !string_app_assoc, Hr, Fields_space.
  change (" " ++ s) with (" " ++ s). rewrite Fields_space. now rewrite <- !app_assoc.
Qed.

(** *** Reading what was written *)

Definition all_small (l : list string) : bool :=
  forallb (fun w => negb (existsb (String.eqb w) ["Hundred";"Thousand";"Lakh";"Crore";"Rupees";"Dollars"]) && bool_decide (is_Some (small_value w))) l.
Definition small_sum (l : list string) : Z := foldr (fun w a => default 0 (small_value w) + a) 0 l.
Lemma read_small l : all_small l = true -> forall t g, read_from (t, g) l = (t, g + small_sum l).
Proof.
  induction l as [|w l IH]; intros H t g; [unfold read_from, small_sum; cbn; f_equal; lia|].
  cbn in H. apply andb_true_iff in H as [[Hw _]%andb_true_iff Hl]. unfold read_from in *. cbn [foldl small_sum foldr].
  unfold read_word at 2. rewrite negb_true_iff in Hw. rewrite !orb_false_iff in Hw. destruct Hw as (-> & -> & -> & -> & -> & -> & _). cbn [orb].
  rewrite (IH Hl). f_equal. fold (small_sum l). lia.
Qed.

Definition two_ok (n : Z) : bool := all_small (Fields (invTwo n)) && (small_sum (Fields (invTwo n)) =? n).
Lemma two_checks : all_below 100 0 two_ok = true.
Proof. vm_compute. reflexivity. Qed.
Lemma read_two n t g : 0 <= n < 100 -> read_from (t, g) (Fields (invTwo n)) = (t, g + n).
Proof.
  intros Hn. pose proof (all_below_spec 100 0 two_ok n two_checks ltac:(lia)) as [H1 H2%Z.eqb_eq]%andb_true_iff.
  rewrite read_small by exact H1. now rewrite H2.
Qed.
Lemma one_is_two n : 0 <= n < 10 -> word_at invOnes n = invTwo n.
Proof. intros H. unfold invTwo. now rewrite (proj2 (Z.ltb_lt n 20)) by lia. Qed.

Lemma read_crore t g : read_from (t, g) (Fields "Crore") = ((t + g) * 10000000, 0).
Proof. reflexivity. Qed.
Lemma read_lakh t g : read_from (t, g) (Fields "Lakh") = (t + g * 100000, 0).
Proof. reflexivity. Qed.
Lemma read_thousand t g : read_from (t, g) (Fields "Thousand") = (t + g * 1000, 0).
Proof. reflexivity. Qed.
Lemma read_hundred t g : read_from (t, g) (Fields "Hundred") = (t, g * 100).
Proof. reflexivity. Qed.
Lemma read_app st a b : read_from st (a ++ b) = read_from (read_from st a) b.
Proof. apply foldl_app. Qed.

(** One scale read back: [v] is what the scale's words are worth. *)
Lemma scale_word_read words scale name v r n t : 0 < scale -> 0 <= n -> closed r ->
  (forall q, 0 < q -> q = n / scale -> read_from (read_from (0, 0) (Fields r)) (Fields (words q) ++ Fields name) = (t + v q, 0)) ->
  (n / scale = 0 -> read_from (0, 0) (Fields r) = (t, 0)) ->  v 0 = 0 ->
  let '(r', n') := scale_word words scale (" " ++ name ++ " ") (r, n) in
  closed r' /\ n' = n mod scale /\ read_from (0, 0) (Fields r') = (t + v (n / scale), 0).
Proof.
  intros Hs Hn Hr Hq H0 Hv. unfold scale_word. rewrite Z.quot_div_nonneg, Z.rem_mod_nonneg by lia.
  assert (Hd : 0 <= n / scale) by (apply Z.div_pos; lia). destruct (Z.ltb_spec 0 (n / scale)) as [Hp|Hp].
  - destruct (closed_scale r (words (n / scale)) name Hr) as [Hc E]. split; [exact Hc|]. split; [reflexivity|].
    rewrite E, read_app. now apply Hq.
  - assert (E : n / scale = 0) by lia. split; [exact Hr|]. split; [|rewrite E, Hv, Z.add_0_r; now apply H0].
    symmetry. apply Z.mod_small. apply Z.div_small_iff in E; lia.
Qed.

Lemma words_read fuel : forall n, 0 < n < 10 ^ (7 * Z.of_nat fuel) ->
  exists t g, read_from (0, 0) (Fields (indian_words fuel n)) = (t, g) /\ t + g = n.
Proof.
  induction fuel as [|fuel IH]; intros n Hn; [change (10 ^ (7 * Z.of_nat 0)) with 1 in Hn; lia|].
  cbn [indian_words]. destruct (Z.eqb_spec n 0) as [->|_]; [lia|].
  assert (Hpow : 10 ^ (7 * Z.of_nat (S fuel)) = 10 ^ (7 * Z.of_nat fuel) * 10000000)
    by (rewrite Nat2Z.inj_succ, <- Z.add_1_r, Z.mul_add_distr_l, Z.pow_add_r by lia; reflexivity).
  rewrite Hpow in Hn. (* crores *)
  pose proof (scale_word_read (indian_words fuel) 10000000 "Crore" (fun q => q * 10000000) "" n 0 ltac:(lia) ltac:(lia) closed_empty) as H1.
  change (" " ++ "Crore" ++ " ") with " Crore " in H1. cbv beta in H1. destruct (scale_word (indian_words fuel) 10000000 _ ("", n)) as [r1 n1] eqn:E1.
  destruct H1 as (C1 & N1 & R1).
  { intros q Hq Eq. assert (Bq : q < 10 ^ (7 * Z.of_nat fuel)) by (rewrite Eq; apply Z.div_lt_upper_bound; lia).
    destruct (IH q) as (t & g & E & Et); [lia|].
    rewrite read_app. change (read_from (0, 0) (Fields "")) with (0, 0). rewrite E, read_crore. f_equal. lia. }
  { intros _. reflexivity. }
  { reflexivity. }
  assert (B1 : 0 <= n1 < 10000000) by (rewrite N1; apply Z.mod_pos_bound; lia).
  (* lakhs *)
  pose proof (scale_word_read invTwo 100000 "Lakh" (fun q => q * 100000) r1 n1 (0 + n / 10000000 * 10000000) ltac:(lia) ltac:(lia) C1) as H2.
  change (" " ++ "Lakh" ++ " ") with " Lakh " in H2. cbv beta in H2. destruct (scale_word invTwo 100000 _ (r1, n1)) as [r2 n2] eqn:E2.
  destruct H2 as (C2 & N2 & R2).
  { intros q Hq ->. rewrite R1, read_app, read_two, read_lakh by (split; [lia|]; apply Z.div_lt_upper_bound; lia). reflexivity. }
  { intros _. exact R1. }
  { reflexivity. }
  assert (B2 : 0 <= n2 < 100000) by (rewrite N2; apply Z.mod_pos_bound; lia).
  (* thousands *)
  pose proof (scale_word_read invTwo 1000 "Thousand" (fun q => q * 1000) r2 n2 (0 + n / 10000000 * 10000000 + n1 / 100000 * 100000) ltac:(lia) ltac:(lia) C2) as H3.
  change (" " ++ "Thousand" ++ " ") with " Thousand " in H3. cbv beta in H3. destruct (scale_word invTwo 1000 _ (r2, n2)) as [r3 n3] eqn:E3.
  destruct H3 as (C3 & N3 & R3).
  { intros q Hq ->. rewrite R2, read_app, read_two, read_thousand by (split; [lia|]; apply Z.div_lt_upper_bound; lia). reflexivity. }
  { intros _. exact R2. }
  { reflexivity. }
  assert (B3 : 0 <= n3 < 1000) by (rewrite N3; apply Z.mod_pos_bound; lia).
  (* hundreds *)
  set (T := 0 + n / 10000000 * 10000000 + n1 / 100000 * 100000 + n2 / 1000 * 1000) in *.
  assert (HT : T + n3 = n).
  { unfold T. pose proof (Z.div_mod n 10000000 ltac:(lia)). pose proof (Z.div_mod n1 100000 ltac:(lia)). pose proof (Z.div_mod n2 1000 ltac:(lia)). lia. }
  unfold scale_word. rewrite Z.quot_div_nonneg, Z.rem_mod_nonneg by lia.
  assert (Hh : 0 <= n3 / 100 < 10) by (split; [apply Z.div_pos; lia | apply Z.div_lt_upper_bound; lia]).
  pose proof (Z.mod_pos_bound n3 100 ltac:(lia)). pose proof (Z.div_mod n3 100 ltac:(lia)).
  destruct (Z.ltb_spec 0 (n3 / 100)) as [Hp|Hp]; rewrite Fields_trim.
  - change " Hundred " with (" " ++ "Hundred" ++ " "). destruct (closed_scale r3 (word_at invOnes (n3 / 100)) "Hundred" C3) as [C4 E4].
    exists T, n3. split; [|exact HT].
    assert (R4 : read_from (0, 0) (Fields (r3 ++ word_at invOnes (n3 / 100) ++ " " ++ "Hundred" ++ " ")) = (T, n3 / 100 * 100)).
    { rewrite E4, read_app, R3, read_app, one_is_two, read_two, read_hundred by lia. reflexivity. }
    destruct (Z.ltb_spec 0 (n3 mod 100)); [rewrite C4, read_app, R4, read_two by lia | rewrite R4]; f_equal; lia.
  - exists T, n3. split; [|exact HT]. destruct (Z.ltb_spec 0 n3); [rewrite C3, read_app, R3, read_two by lia; f_equal; lia | rewrite R3; f_equal; lia].
Qed.

Lemma words_read_back n : 0 <= n < 2 ^ 63 -> read_words (intToIndianWords n) = n.
Proof.
  intros Hn. destruct (Z.eq_dec n 0) as [->|H0]; [reflexivity|].
  destruct (words_read 3 n) as (t & g & E & Et).
  { split; [lia|]. change (10 ^ (7 * Z.of_nat 3)) with (10 ^ 21). lia. }
  unfold read_words, intToIndianWords. rewrite E. exact Et.
Qed.

(** ** Amounts *)

(** The text states the rupees and the paise of the amount. *)
Definition stated (rupees paise : Z) (unit sub : string) : string :=
  (if 0 <? paise then (intToIndianWords rupees ++ " " ++ unit) ++ " And " ++ intToIndianWords paise ++ " " ++ sub
   else intToIndianWords rupees ++ " " ++ unit) ++ " Only".

Lemma whole_part k : 0 <= k <= MAXC -> Qfloor (fadd (cents k) (rnd (1 # 1000000000))) = k / 100.
Proof.
  intros Hk. pose proof (Z.div_mod k 100 ltac:(lia)) as Hd. pose proof (Z.mod_pos_bound k 100 ltac:(lia)) as Hm.
  set (r := k / 100) in *. assert (Hr : 0 <= r <= 10 ^ 12) by (unfold MAXC in *; lia).
  assert (He : (0 <= rnd (1 # 1000000000) /\ rnd (1 # 1000000000) <= 1 # 100000000)%Q) by (split; vm_compute; discriminate).
  pose proof (proj1 (near_iff 1 (cents k) k) (cents_near k ltac:(unfold MAXC in *; lia))) as [Hl Hu]. change (inject_Z 1) with 1%Q in *.
  assert (Hkr : (inject_Z k == 100 * inject_Z r + inject_Z (k mod 100))%Q).
  { rewrite Hd at 1. rewrite inject_Z_plus, inject_Z_mult. reflexivity. }
  assert (Hm' : (0 <= inject_Z (k mod 100) /\ inject_Z (k mod 100) <= 99)%Q) by (split; [change 0%Q with (inject_Z 0) | change 99%Q with (inject_Z 99)]; apply inject_le; lia).
  assert (Hr' : (0 <= inject_Z r /\ inject_Z r <= 1000000000000)%Q) by (split; [change 0%Q with (inject_Z 0) | change 1000000000000%Q with (inject_Z (10 ^ 12))]; apply inject_le; lia).
  assert (Hc : (inject_Z r <= cents k)%Q).
  { apply rnd_ge; [lia | |]; unfold Qdiv; change (/ 100)%Q with (1 # 100)%Q; change (inject_Z (2 ^ 52)) with 4503599627370496%Q; lra. }
  set (e := rnd (1 # 1000000000)) in *. set (y := (cents k + e)%Q).
  assert (Hy : (Qabs y <= 1000000000002)%Q) by (apply Qabs_le_iff; unfold y; split; lra).
  apply rnd_err_le in Hy. assert (Ht : (1000000000002 * (1 # 2 ^ 53) + tiny <= 1 # 5000)%Q) by (vm_compute; discriminate).
  apply (Qle_trans _ _ _ Hy), Qabs_le_iff in Ht as [Ht1 Ht2].
  assert (Hlow : (inject_Z r <= rnd y)%Q).
  { apply rnd_ge; [lia | unfold y; lra|]. unfold y. change (inject_Z (2 ^ 52)) with 4503599627370496%Q. lra. }
  assert (Hhigh : (rnd y < inject_Z (r + 1))%Q).
  { rewrite inject_Z_plus. change (inject_Z 1) with 1%Q. unfold y in *. lra. }
  unfold fadd. fold y. apply Z.le_antisymm.
  - apply Z.lt_succ_r. rewrite Zlt_Qlt. unfold Z.succ. eapply Qle_lt_trans; [apply Qfloor_le | exact Hhigh].
  - rewrite <- (Qfloor_Z r). now apply Qfloor_resp_le.
Qed.

Lemma amountInWords_cents k cur : 0 <= k <= MAXC ->
  amountInWords (cents k) cur
  = stated (k / 100) (k mod 100) (if EqualFold cur "USD" then "Dollars" else "Rupees") (if EqualFold cur "USD" then "Cents" else "Paisa").
Proof.
  intros Hk. pose proof (Z.div_mod k 100 ltac:(lia)) as Hd. pose proof (Z.mod_pos_bound k 100 ltac:(lia)) as Hm.
  assert (Hr : 0 <= k / 100 <= 10 ^ 12) by (unfold MAXC in *; lia).
  unfold amountInWords, floor_q. rewrite whole_part by exact Hk.
  assert (Ei : to_int64 (inject_Z (k / 100)) = k / 100).
  { unfold to_int64. cbn [inject_Z Qnum Qden]. rewrite Z.quot_1_r.
    rewrite (proj2 (Z.leb_le _ _)), (proj2 (Z.ltb_lt _ _)) by lia. reflexivity. }
  rewrite Ei. change (math_round (fmul (fsub (cents k) (of_int (k / 100))) 100)) with (to_cents (fsub (cents k) (of_int (k / 100)))).
  assert (Ep : to_cents (fsub (cents k) (of_int (k / 100))) = k mod 100).
  { apply (to_cents_near 2); [|lia | unfold MAXC; lia]. replace (k mod 100) with (k - 100 * (k / 100)) by lia.
    apply (fsub_near 1 0); [apply cents_near; unfold MAXC in *; lia | | unfold MAXC; lia | lia].
    apply near_iff. rewrite of_int_exact by lia. rewrite inject_Z_mult. change (inject_Z 100) with 100%Q. change (inject_Z 0) with 0%Q. split; lra. }
  rewrite Ep, (proj2 (Z.eqb_neq _ _)) by lia. reflexivity.
Qed.

Definition sub_words (sub : string) : Prop := sub = "Paisa" \/ sub = "Cents".
Lemma stated_read r p unit sub :
  0 <= r < 2 ^ 63 -> 0 <= p < 100 -> unit = "Rupees" \/ unit = "Dollars" -> sub_words sub ->
  read_words (stated r p unit sub) = r * 100 + p.
Proof.
  intros Hr Hp Hu Hs. pose proof (words_read_back r Hr) as Hw. unfold read_words in *.
  destruct (read_from (0, 0) (Fields (intToIndianWords r))) as [t g] eqn:E. change (t + g = r) in Hw.
  assert (Eu : read_from (t, g) (Fields unit) = (r * 100, 0)) by (rewrite <- Hw; destruct Hu as [-> | ->]; reflexivity).
  unfold stated. destruct (Z.ltb_spec 0 p) as [H0|H0].
  - assert (Ep : intToIndianWords p = invTwo p).
    { pose proof (all_below_spec 100 0 (fun n => (n =? 0) || (intToIndianWords n =s invTwo n)) p
        ltac:(vm_compute; reflexivity) ltac:(cbn; lia)) as H.
      apply orb_true_iff in H as [H%Z.eqb_eq | H%String.eqb_eq]; [lia | exact H]. }
    change (" And " ++ intToIndianWords p ++ " " ++ sub) with (" " ++ "And" ++ " " ++ intToIndianWords p ++ " " ++ sub).
    change " Only" with (" " ++ "Only"). rewrite !string_app_assoc, !Fields_space, Ep, !read_app, E, Eu.
    change (read_from (r * 100, 0) (Fields "And")) with (r * 100, 0). rewrite read_two by lia.
    destruct Hs as [-> | ->]; change (r * 100 + p + 0 = r * 100 + p) || change (r * 100 + (0 + p + 0 + 0) = r * 100 + p); lia.
  - change " Only" with (" " ++ "Only"). rewrite !string_app_assoc, !Fields_space, !read_app, E, Eu. change (r * 100 + (0 + 0) = r * 100 + p). lia.
Qed.

(** The words of an amount, read back, are the amount. *)
Lemma amount_read_back k cur : 0 <= k <= MAXC -> read_words (amountInWords (cents k) cur) = k.
Proof.
  intros Hk. rewrite amountInWords_cents by exact Hk. pose proof (Z.div_mod k 100 ltac:(lia)).
  pose proof (Z.mod_pos_bound k 100 ltac:(lia)). assert (0 <= k / 100 <= 10 ^ 12) by (unfold MAXC in *; lia).
  rewrite stated_read; [lia | lia | lia | destruct (EqualFold cur "USD"); tauto |].
  unfold sub_words. destruct (EqualFold cur "USD"); tauto.
Qed.
