(* ===== verification/Schema.v ===== *)
(** Schema: the database tables the modelled code reads and writes, one record
    per row with the columns the code uses.  NUMERIC(_,2) columns hold integers
    of hundredths (paise, or hundredths of a percent); UUIDs are natural numbers
    with [uuid_nil] the zero UUID; nullable columns are options.  A table is the
    list of its rows in insertion order. *)

From S2P Require Import Prelude GoLib.

Abbreviation uuid := N (only parsing).
Definition uuid_nil : uuid := 0%N.
Definition ueq (a b : uuid) : bool := N.eqb a b.
Definition oueq (a : option uuid) (b : uuid) : bool :=
  match a with Some x => N.eqb x b | None => false end.

(** [postgres.DemoHotelID] *)
Definition DemoHotelID : uuid := 1%N.

(** *** Front office *)

Record RoomRow := {
  rm_id : uuid; rm_hotel_id : uuid; rm_room_number : string; rm_room_type : string;
  rm_floor : Z; rm_capacity : Z; rm_price_per_night : Z; rm_status : string;
  rm_amenities : list string; rm_created_at : Time; rm_updated_at : Time }.

Record StayRow := {
  gs_id : uuid; gs_hotel_id : uuid; gs_guest_id : option uuid; gs_room_id : uuid;
  gs_guest_name : string; gs_guest_email : option string; gs_guest_phone : option string;
  gs_check_in_date : Time; gs_check_out_date : Time;
  gs_actual_check_in : option Time; gs_actual_check_out : option Time;
  gs_total_amount : option Z; gs_notes : option string; gs_source : option string;
  gs_created_by : option uuid; gs_created_at : Time; gs_updated_at : Time;
  gs_status : string; gs_confirmation_no : option string; gs_cancelled_at : option Time;
  gs_cancellation_reason : option string; gs_cancellation_fee : Z;
  gs_adults : Z; gs_children : Z; gs_approach_type : string;
  gs_discount_amount : Z; gs_tax_amount : Z; gs_promo_code : option string;
  gs_cancelled_by : option uuid }.

Record GuestRow := {
  gu_id : uuid; gu_hotel_id : uuid; gu_full_name : string;
  gu_email : option string; gu_phone : option string;
  gu_id_type : option string; gu_id_number : option string;
  gu_vip_status : option string; gu_preferences : option string; gu_notes : option string }.

(** *** Loyalty and marketing; preferences and benefits hold JSON *)

Record LoyaltyTierRow := {
  ty_id : uuid; ty_hotel_id : uuid; ty_name : string; ty_min_points : Z; ty_multiplier : Z; ty_benefits : option string;
  ty_created_at : Time }.
Record LoyaltyMemberRow := {
  lm_id : uuid; lm_hotel_id : uuid; lm_guest_id : uuid; lm_tier_id : option uuid; lm_points : Z; lm_lifetime_points : Z;
  lm_enrolled_at : Time }.
Record LoyaltyTransactionRow := {
  lx_id : uuid; lx_member_id : uuid; lx_type : string; lx_points : Z; lx_reference : option string;
  lx_description : option string; lx_created_at : Time }.
Record CampaignRow := {
  cm_id : uuid; cm_hotel_id : uuid; cm_name : string; cm_audience : option string; cm_channel : string; cm_status : string;
  cm_sent : Z; cm_opens : Z; cm_clicks : Z; cm_revenue : Z; cm_created_at : Time; cm_updated_at : Time }.

Record FolioRow := {
  fo_id : uuid; fo_hotel_id : uuid; fo_booking_id : uuid; fo_guest_id : option uuid;
  fo_status : string; fo_currency : string; fo_closed_at : option Time }.

Record FolioChargeRow := {
  fc_id : uuid; fc_folio_id : uuid; fc_hotel_id : uuid; fc_description : string;
  fc_charge_type : string; fc_amount : Z; fc_tax_amount : Z;
  fc_reference_id : option uuid; fc_posted_by : option uuid; fc_posted_at : Time }.

(** invoices: a folio's tax invoices (accounting_invoices are [InvoiceRow]s). *)
Record FolioInvoiceRow := {
  fi_id : uuid; fi_hotel_id : uuid; fi_folio_id : uuid; fi_number : string; fi_status : string;
  fi_subtotal : Z; fi_tax_total : Z; fi_total : Z; fi_currency : string; fi_notes : option string;
  fi_created_at : Time; fi_updated_at : Time; fi_sent_at : option Time; fi_paid_at : option Time }.

Record PaymentRow := {
  pay_id : uuid; pay_hotel_id : uuid; pay_number : string; pay_guest_stay_id : option uuid;
  pay_amount : Z; pay_method : string; pay_status : string;
  pay_upi_id : option string; pay_transaction_ref : option string;
  pay_card_last4 : option string; pay_auth_code : option string;
  pay_cash_received : option Z; pay_change_given : option Z;
  pay_processed_by : option uuid; pay_notes : option string; pay_category : option string }.

(** The identity printed on tax invoices, of a hotel or of one of its outlets. *)
Record GstIdentity := {
  gi_legal : option string; gi_name : option string; gi_address : option string; gi_gstin : option string;
  gi_fssai : option string; gi_state : option string; gi_place : option string; gi_hsn : option string }.
Definition no_identity : GstIdentity :=
  {| gi_legal := None; gi_name := None; gi_address := None; gi_gstin := None; gi_fssai := None; gi_state := None;
     gi_place := None; gi_hsn := None |}.

(** modules is a JSON object of booleans; settings is one too, of which the
    members that are strings are kept. *)
Record HotelRow := {
  ho_id : uuid; ho_name : string; ho_slug : string; ho_gst_rate : option Z; ho_is_active : bool; ho_plan_tier : string;
  ho_modules : list (string * bool); ho_address : option string; ho_settings : list (string * string);
  ho_identity : GstIdentity }.

Record HousekeepingRow := {
  hk_id : uuid; hk_hotel_id : uuid; hk_room_id : uuid; hk_assigned_to : option uuid; hk_task_type : string;
  hk_priority : string; hk_status : string; hk_notes : option string; hk_started_at : option Time;
  hk_completed_at : option Time; hk_inspected_by : option uuid; hk_inspected_at : option Time;
  hk_scheduled_for : option Time; hk_guest_stay_id : option uuid; hk_created_at : Time; hk_updated_at : Time }.

Record LostItemRow := {
  lo_id : uuid; lo_hotel_id : uuid; lo_room_id : option uuid; lo_guest_name : option string; lo_item_name : string;
  lo_description : option string; lo_found_by : option uuid; lo_found_at : Time; lo_status : string;
  lo_created_at : Time; lo_updated_at : Time }.

Record LinenRow := {
  li_id : uuid; li_hotel_id : uuid; li_item_name : string; li_total_count : Z; li_in_use : Z; li_in_laundry : Z;
  li_damaged : Z; li_created_at : Time; li_updated_at : Time }.

Record LinenTransactionRow := {
  lt_id : uuid; lt_hotel_id : uuid; lt_linen_id : uuid; lt_transaction_type : string; lt_quantity : Z; lt_damaged : Z;
  lt_issued_to : option string; lt_notes : option string; lt_created_at : Time }.

(** *** Identities *)

Record UserRow := {
  us_id : uuid; us_hotel_id : option uuid; us_email : string; us_password_hash : string; us_platform_admin : bool;
  us_created_at : Time; us_updated_at : Time }.
Record ProfileRow := {
  pf_id : uuid; pf_hotel_id : option uuid; pf_user_id : uuid; pf_full_name : string; pf_phone : option string;
  pf_avatar_url : option string; pf_created_at : Time; pf_updated_at : Time }.
Record UserRoleRow := {
  ur_id : uuid; ur_hotel_id : option uuid; ur_user_id : uuid; ur_role : string; ur_created_at : Time }.
Record PreferencesRow := {
  gp_id : uuid; gp_hotel_id : option uuid; gp_user_id : uuid; gp_dietary_restrictions : list string; gp_allergies : list string;
  gp_favorite_categories : list string; gp_notes : option string; gp_created_at : Time; gp_updated_at : Time }.

(** *** What a plan and a role may use *)

Record PlanFeatureRow := { pl_plan_tier : string; pl_feature_key : string; pl_enabled : bool; pl_updated_at : Time }.
Record RolePermissionRow := {
  cr_hotel_id : uuid; cr_role : string; cr_feature_key : string; cr_enabled : bool; cr_updated_at : Time }.

Record PromotionRow := {
  pr_id : uuid; pr_hotel_id : uuid; pr_code : string; pr_name : string;
  pr_discount_type : string; pr_discount_value : Z;
  pr_min_nights : option Z; pr_min_amount : option Z; pr_max_discount : option Z;
  pr_usage_limit : option Z; pr_used_count : Z;
  pr_valid_from : Time; pr_valid_to : Time; pr_active : bool; pr_created_at : Time }.

(** *** Accounting *)

Record CustomerRow := {
  cu_id : uuid; cu_hotel_id : uuid; cu_code : string; cu_name : string;
  cu_phone : option string; cu_email : option string; cu_gstin : option string;
  cu_address : option string; cu_credit_days : Z; cu_credit_limit : option Z; cu_is_active : bool }.

Record VendorRow := {
  ve_id : uuid; ve_hotel_id : uuid; ve_code : string; ve_name : string;
  ve_gstin : option string; ve_address : option string; ve_email : option string; ve_phone : option string;
  ve_credit_days : Z; ve_credit_limit : option Z; ve_is_active : bool }.

Record VendorPaymentRow := {
  vp_id : uuid; vp_hotel_id : uuid; vp_vendor_id : option uuid; vp_number : string; vp_date : Time;
  vp_amount : Z; vp_method : string; vp_reference : string; vp_notes : string }.

Record InvoiceRow := {
  in_id : uuid; in_hotel_id : uuid; in_customer_id : option uuid; in_number : string; in_date : Time;
  in_due_date : option Time; in_reference : string; in_subtotal : Z; in_discount_total : Z;
  in_tax_total : Z; in_total : Z; in_status : string; in_notes : string }.

Record InvoiceLineRow := {
  il_id : uuid; il_invoice_id : uuid; il_hotel_id : uuid; il_account_id : option uuid; il_description : string;
  il_quantity : Z; il_unit_price : Z; il_discount : Z; il_tax_rate : Z;
  il_tax_amount : Z; il_total : Z }.

Record CreditNoteRow := {
  cn_id : uuid; cn_hotel_id : uuid; cn_invoice_id : option uuid; cn_number : string; cn_date : Time;
  cn_reason : string; cn_subtotal : Z; cn_tax_total : Z; cn_total : Z; cn_status : string }.

Record CreditNoteLineRow := {
  kl_id : uuid; kl_credit_note_id : uuid; kl_hotel_id : uuid; kl_account_id : option uuid;
  kl_invoice_line_id : option uuid; kl_description : string; kl_quantity : Z; kl_unit_price : Z;
  kl_tax_amount : Z; kl_total : Z }.

Record DebitNoteRow := {
  dn_id : uuid; dn_hotel_id : uuid; dn_vendor_id : option uuid; dn_number : string; dn_date : Time;
  dn_reason : string; dn_subtotal : Z; dn_tax_total : Z; dn_total : Z; dn_status : string }.

Record PurchaseOrderRow := {
  po_id : uuid; po_hotel_id : uuid; po_vendor_id : option uuid; po_number : string; po_order_date : Time;
  po_expected_date : option Time; po_status : string; po_subtotal : Z; po_tax_total : Z; po_total : Z; po_notes : string }.

Record GrnRow := {
  gr_id : uuid; gr_hotel_id : uuid; gr_po_id : option uuid; gr_number : string; gr_received_date : Time;
  gr_vendor_invoice_ref : string; gr_status : string; gr_notes : string }.

Record GrnLineRow := {
  gl_id : uuid; gl_grn_id : uuid; gl_hotel_id : uuid; gl_item_description : string;
  gl_quantity_ordered : Z; gl_quantity_received : Z; gl_quantity_accepted : Z; gl_quantity_rejected : Z;
  gl_unit_price : Z; gl_total : Z }.

Record AccountRow := {
  acc_id : uuid; acc_hotel_id : uuid; acc_code : string; acc_name : string;
  acc_type : string; acc_sub_type : string; acc_parent_code : option string; acc_opening_balance : Z;
  acc_currency : string; acc_is_active : bool; acc_display_order : Z }.

Record JournalEntryRow := {
  je_id : uuid; je_hotel_id : uuid; je_date : Time; je_description : string; je_reference : string;
  je_voucher_no : option string; je_voucher_type : string }.

Record JournalLineRow := {
  jl_id : uuid; jl_entry_id : uuid; jl_hotel_id : uuid; jl_account_id : uuid;
  jl_debit : Z; jl_credit : Z; jl_memo : string }.

Record NightAuditRow := {
  na_id : uuid; na_hotel_id : uuid; na_audit_date : Time; na_status : string; na_expected_revenue : Z;
  na_actual_revenue : Z; na_total_tax : Z; na_occupancy_rate : Z; na_closed_by : option uuid; na_created_at : Time }.

Record VoucherCounterRow := { vc_hotel_id : uuid; vc_voucher_type : string; vc_next_no : Z }.

(** *** Restaurant *)

Record TableRow := {
  rt_id : uuid; rt_hotel_id : uuid; rt_outlet_id : option uuid; rt_table_number : string;
  rt_section : option string; rt_seats : Z; rt_status : string;
  rt_pos_x : option Z; rt_pos_y : option Z; rt_is_active : bool;
  rt_created_at : Time; rt_updated_at : Time }.

Record SessionRow := {
  ds_id : uuid; ds_hotel_id : uuid; ds_session_number : string; ds_table_id : uuid;
  ds_outlet_id : option uuid; ds_covers : Z; ds_status : string; ds_guest_name : option string;
  ds_customer_type : string; ds_guest_stay_id : option uuid; ds_opened_by : option uuid;
  ds_closed_by : option uuid; ds_guest_phone : option string; ds_guest_email : option string;
  ds_guest_gstin : option string; ds_customer_id : option uuid; ds_opened_at : Time;
  ds_billed_at : option Time; ds_closed_at : option Time }.

Record KotRow := {
  kt_id : uuid; kt_hotel_id : uuid; kt_session_id : uuid; kt_number : string;
  kt_round_no : Z; kt_status : string; kt_station : option string; kt_notes : option string;
  kt_created_by : option uuid; kt_sent_at : option Time; kt_ready_at : option Time;
  kt_served_at : option Time; kt_created_at : Time }.

Record KotItemRow := {
  ki_id : uuid; ki_hotel_id : uuid; ki_kot_id : uuid; ki_menu_item_id : option uuid;
  ki_item_name : string; ki_quantity : Z; ki_unit_price : Z; ki_modifiers : string; ki_line_total : Z;
  ki_notes : option string; ki_hsn_code : option string; ki_status : string;
  ki_void_reason : option string; ki_voided_by : option uuid; ki_created_at : Time }.

Record BillDbRow := {
  bl_id : uuid; bl_hotel_id : uuid; bl_session_id : uuid; bl_outlet_id : option uuid;
  bl_bill_number : string; bl_status : string; bl_subtotal : Z;
  bl_discount_type : option string; bl_discount_value : Z; bl_discount_amount : Z;
  bl_tax_rate : Z; bl_tax_amount : Z;
  bl_tip_type : option string; bl_tip_value : Z; bl_tip_amount : Z;
  bl_rounding_adjust : Z; bl_total_amount : Z; bl_amount_paid : Z; bl_amount_due : Z;
  bl_currency : string; bl_generated_by : option uuid; bl_customer_id : option uuid;
  bl_finalized_at : option Time; bl_paid_at : option Time }.

Record BillPaymentRow := {
  bp_id : uuid; bp_hotel_id : uuid; bp_bill_id : uuid; bp_payment_number : string;
  bp_method : string; bp_amount : Z; bp_tendered : option Z; bp_change_due : Z;
  bp_status : string; bp_txn_reference : option string; bp_gateway : option string;
  bp_received_by : option uuid; bp_created_at : Time }.

Record BillSplitDbRow := {
  bs_id : uuid; bs_hotel_id : uuid; bs_bill_id : uuid; bs_split_no : Z;
  bs_customer_name : string; bs_share_amount : Z }.

Record OutletRow := { ou_id : uuid; ou_default_tax_rate : Z; ou_currency : string; ou_identity : GstIdentity }.

Record MenuItemRow := { mi_id : uuid; mi_cost_price : option Z }.

(** payment_configs: a hotel's payment gateways, the secrets encrypted *)
Record PaymentConfigRow := {
  pg_hotel_id : uuid; pg_active_gateway : string; pg_default_currency : option string; pg_gateway_mode : string;
  pg_stripe_enabled : bool; pg_stripe_account_id : option string; pg_stripe_publishable_key : option string;
  pg_stripe_secret_key_encrypted : option string; pg_stripe_webhook_secret_encrypted : option string;
  pg_razorpay_enabled : bool; pg_razorpay_key_id : option string; pg_razorpay_key_secret_encrypted : option string;
  pg_cash_enabled : bool; pg_card_enabled : bool; pg_bank_transfer_enabled : bool }.

Record AuditRow := { au_id : uuid; au_user_id : option uuid; au_action : string; au_table : string; au_record_id : uuid }.

(** *** Channels *)

Record ChannelConnectionRow := {
  cc_id : uuid; cc_hotel_id : uuid; cc_channel_name : string; cc_api_key : option string; cc_connected : bool;
  cc_last_sync_at : option Time }.

Record ChannelBookingRow := {
  cb_id : uuid; cb_hotel_id : uuid; cb_connection_id : option uuid; cb_channel_name : string; cb_external_ref : string;
  cb_payload : string; cb_status : string; cb_guest_stay_id : option uuid; cb_commission : Z; cb_error : option string;
  cb_received_at : Time; cb_processed_at : option Time }.

(** *** Rate plans and the restaurant's waitlist *)

(** rate_plans (migration 002); discount_value is NUMERIC(10,2), in hundredths *)
Record RatePlanRow := {
  rp_id : uuid; rp_hotel_id : uuid; rp_name : string; rp_description : option string; rp_discount_type : option string;
  rp_discount_value : option Z; rp_min_stay_nights : Z; rp_is_active : bool; rp_created_at : Time; rp_updated_at : Time }.

(** waitlists (migration 025) *)
Record WaitlistRow := {
  wl_id : uuid; wl_hotel_id : uuid; wl_name : string; wl_party_size : Z; wl_section : option string;
  wl_phone : option string; wl_quoted_wait : option Z; wl_status : string; wl_created_at : Time; wl_updated_at : Time }.

(** *** The database *)

Record DB := {
  rooms : list RoomRow; guest_stays : list StayRow; guests : list GuestRow;
  folios : list FolioRow; folio_charges : list FolioChargeRow; payments : list PaymentRow;
  hotels : list HotelRow; housekeeping : list HousekeepingRow; promotions : list PromotionRow;
  customers : list CustomerRow; invoices : list InvoiceRow; invoice_lines : list InvoiceLineRow;
  accounts : list AccountRow; journal_entries : list JournalEntryRow;
  journal_lines : list JournalLineRow; voucher_counters : list VoucherCounterRow;
  tables : list TableRow; sessions : list SessionRow; kots : list KotRow;
  kot_items : list KotItemRow; bills : list BillDbRow; bill_payments : list BillPaymentRow;
  bill_splits : list BillSplitDbRow; outlets : list OutletRow; menu_items : list MenuItemRow;
  audit_logs : list AuditRow;
  channel_connections : list ChannelConnectionRow; channel_bookings : list ChannelBookingRow;
  payment_configs : list PaymentConfigRow;
  vendors : list VendorRow; vendor_payments : list VendorPaymentRow; credit_notes : list CreditNoteRow;
  credit_note_lines : list CreditNoteLineRow; debit_notes : list DebitNoteRow;
  purchase_orders : list PurchaseOrderRow; grns : list GrnRow; grn_lines : list GrnLineRow;
  night_audits : list NightAuditRow;
  lost_items : list LostItemRow; linen_inventory : list LinenRow; linen_transactions : list LinenTransactionRow;
  users : list UserRow; profiles : list ProfileRow; user_roles : list UserRoleRow; guest_preferences : list PreferencesRow;
  plan_features : list PlanFeatureRow; role_permissions : list RolePermissionRow;
  folio_invoices : list FolioInvoiceRow;
  loyalty_tiers : list LoyaltyTierRow; loyalty_members : list LoyaltyMemberRow;
  loyalty_transactions : list LoyaltyTransactionRow; campaigns : list CampaignRow;
  rate_plans : list RatePlanRow; waitlists : list WaitlistRow }.

Definition empty_db : DB :=
  {| rooms := []; guest_stays := []; guests := []; folios := []; folio_charges := [];
     payments := []; hotels := []; housekeeping := []; promotions := []; customers := [];
     invoices := []; invoice_lines := []; accounts := []; journal_entries := [];
     journal_lines := []; voucher_counters := []; tables := []; sessions := []; kots := [];
     kot_items := []; bills := []; bill_payments := []; bill_splits := []; outlets := [];
     menu_items := []; audit_logs := []; channel_connections := []; channel_bookings := [];
     payment_configs := []; vendors := []; vendor_payments := []; credit_notes := []; credit_note_lines := [];
     debit_notes := []; purchase_orders := []; grns := []; grn_lines := []; night_audits := [];
     lost_items := []; linen_inventory := []; linen_transactions := []; users := []; profiles := [];
     user_roles := []; guest_preferences := []; plan_features := []; role_permissions := [];
     folio_invoices := []; loyalty_tiers := []; loyalty_members := []; loyalty_transactions := []; campaigns := [];
     rate_plans := []; waitlists := [] |}.

(** INT *)
Definition int_fits (k : Z) : bool := ((- 2 ^ 31 <=? k) && (k <? 2 ^ 31))%Z.
(** NUMERIC(12,2), in hundredths *)
Definition money_fits (k : Z) : bool := (Z.abs k <? 10 ^ 12)%Z.
