(* ===== verification/World.v ===== *)
(** World: how a request handler acts on the outside world.

    A computation of type [M E A] runs on a [World] (the committed database, the
    open transaction if any, and counters of the statements executed, UUIDs
    drawn and clock readings taken) and yields an error of type E or a value of
    type A, and the new world.  [Env] is everything the code cannot control and
    whose code is not part of the repository: which statement fails in the
    driver ([db_fault], an arbitrary function, so every theorem about all
    environments covers every pattern of failures), the UUID generator, the
    clock, and pgx's conversion between float64 and NUMERIC(_,2). *)

From S2P Require Import Prelude GoLib Schema.
From Stdlib Require Import QArith Qabs.
From S2P Require Import Binary64.
Local Open Scope Z_scope.

(** ** The environment *)

Class Env := {
  db_fault : nat -> bool;            (* does the n-th statement fail in the driver? *)
  uuid_new : nat -> uuid;            (* the n-th uuid.New() *)
  uuid_parse : string -> option uuid;
  uuid_string : uuid -> string;
  clock : nat -> Time;               (* the n-th reading of time.Now() or now() *)
  db_shared : bool;                  (* the shared database, or one of a tenant (schema.go, EnsureDedicatedOverrides) *)
  server_off : Z;                    (* UTC offset of the server's location *)
  db_off : Z;                        (* UTC offset of the database sessions' time zone *)
  driver_text : string -> string;    (* message of a server error, by SQLSTATE *)
  num_enc : Q -> Z;                  (* float64 -> NUMERIC(_,2), in hundredths *)
  num_dec : Z -> Q;                  (* NUMERIC(_,2) -> float64 *)
  date_in : string -> option Time }. (* text::date; None when the server refuses it *)

(** What the code relies on: amounts of whole paise in the column range survive
    the trip to the database and back, any amount is rounded to the nearest
    hundredth up to the precision of its decimal form, and UUIDs are fresh. *)
Class EnvLaws (env : Env) : Prop := {
  num_enc_cents k : Z.abs k <= MAXC -> num_enc (cents k) = k;
  num_dec_cents k : Z.abs k <= MAXC -> num_dec k = cents k;
  num_enc_near x : (Qabs (inject_Z (num_enc x) - x * 100) <= (1 # 2) + tiny + Qabs x * (1 # 2 ^ 40))%Q;
  uuid_new_not_nil n : uuid_new n <> uuid_nil;
  uuid_new_inj n m : uuid_new n = uuid_new m -> n = m }.

(** ** Errors and responses *)

Inductive GoErr :=
  | ErrNoRows                         (* pgx.ErrNoRows *)
  | ErrNotFound                       (* postgres.ErrNotFound *)
  | ErrPromoNotApplicable             (* errPromoNotApplicable *)
  | ErrNoRoomForCharge                (* errNoRoomForCharge *)
  | ErrPg (code : string)             (* *pgconn.PgError with this SQLSTATE *)
  | ErrConn                           (* the driver lost the statement *)
  | ErrTxClosed
  | ErrTxCommitRollback
  | GoPanic (msg : string)            (* a run-time panic, unwinding to the recover middleware *)
  | Errorf (msg : string)
  | Wrap (msg : string) (e : GoErr).  (* fmt.Errorf("msg: %w", e) *)

#[export] Instance GoErr_eq_dec : EqDecision GoErr.
Proof. solve_decision. Defined.

Fixpoint root_cause (e : GoErr) : GoErr :=
  match e with Wrap _ e' => root_cause e' | _ => e end.
(** [errors.Is] on a sentinel, [errors.As] on a server error *)
Definition errors_is (e target : GoErr) : bool := bool_decide (root_cause e = target).
Definition pg_code_is (e : GoErr) (code : string) : bool := errors_is e (ErrPg code).

Fixpoint err_text {env : Env} (e : GoErr) : string :=
  match e with
  | ErrNoRows => "no rows in result set"
  | ErrNotFound => "record not found"
  | ErrPromoNotApplicable => "promo code is not applicable"
  | ErrNoRoomForCharge => "charge to room requires the table to be linked to a checked-in guest"
  | ErrPg code => driver_text code
  | ErrConn => driver_text "08006"
  | ErrTxClosed => "tx is closed"
  | ErrTxCommitRollback => "commit unexpectedly resulted in rollback"
  | GoPanic m => m
  | Errorf m => m
  | Wrap m e' => (m ++ ": " ++ err_text e')%string
  end.

(** [pkg/response]: an error envelope, 200 with data, 201 with data; and the 202
    of asynchronous work *)
Inductive Resp (B : Type) :=
  | RespError (status : Z) (msg : string)
  | RespOK (body : B)
  | RespCreated (body : B)
  | RespAccepted (body : B).
Arguments RespError {B} status msg.
Arguments RespOK {B} body.
Arguments RespCreated {B} body.
Arguments RespAccepted {B} body.

(** ** The world and its computations *)

Inductive TxState := NoTx | TxAborted | TxOpen (d : DB).
Inductive Conn := Pool | Tx.

(** A message handed to the background worker. *)
Record Notification := { nt_job : string; nt_to : string; nt_fields : list string }.

(** Calls to outside services, in the order made: the cache and HTTP. *)
Record HttpRequest := {
  hr_method : string; hr_url : string; hr_auth : string; hr_idempotency_key : option string;
  hr_fields : list (string * string) }.
Inductive OutCall :=
  | CallSetNX (key : string)
  | CallGet (key : string)
  | CallExists (key : string)
  | CallIncr (key : string)
  | CallSet (key value : string)
  | CallDelete (keys : list string)
  | CallHTTP (request : HttpRequest).

Record World := {
  w_db : DB; w_tx : TxState; w_stmts : nat; w_uuids : nat; w_clocks : nat;
  w_sent : list Notification; w_calls : list OutCall }.

Definition start (d : DB) : World :=
  {| w_db := d; w_tx := NoTx; w_stmts := 0; w_uuids := 0; w_clocks := 0; w_sent := []; w_calls := [] |}.

Definition M (E A : Type) : Type := World -> (E + A) * World.

#[export] Instance M_ret E : MRet (M E) := fun A a w => (inr a, w).
#[export] Instance M_bind E : MBind (M E) := fun A B k m w =>
  match m w with (inl e, w') => (inl e, w') | (inr a, w') => k a w' end.

Definition throw {E A} (e : E) : M E A := fun w => (inl e, w).
Definition throw_if {E} (b : bool) (e : E) : M E unit := if b then throw e else mret tt.
(** [v, err := m]: the error as a value *)
Definition attempt {E A} (m : M GoErr A) : M E (GoErr + A) := fun w =>
  match m w with (r, w') => (inr r, w') end.
(** [if err != nil { return h(err) }] *)
Definition on_err {E A} (m : M GoErr A) (h : GoErr -> E) : M E A := fun w =>
  match m w with (inl e, w') => (inl (h e), w') | (inr a, w') => (inr a, w') end.
Notation "m 'onerr' h" := (on_err m h) (at level 62, left associativity).
Definition wrap {A} (msg : string) (m : M GoErr A) : M GoErr A := on_err m (Wrap msg).
Definition of_option {E A} (o : option A) (e : E) : M E A :=
  match o with Some a => mret a | None => throw e end.
(** for _, x := range l { f(x) } *)
Fixpoint for_each {E A} (f : A -> M E unit) (l : list A) : M E unit :=
  match l with [] => mret tt | x :: l' => f x ;; for_each f l' end.

Section Operations.
Context {env : Env}.

Definition new_uuid {E} : M E uuid := fun w =>
  (inr (uuid_new (w_uuids w)), w <| w_uuids := S (w_uuids w) |>).
Definition time_now {E} : M E Time := fun w =>
  (inr (clock (w_clocks w)), w <| w_clocks := S (w_clocks w) |>).
(** t::date, and CURRENT_DATE *)
Definition db_date (t : Time) : Time :=
  {| t_ns := (unix_sec t + db_off) / 86400 * 86400 * ns_per_s; t_off := 0 |}.
Definition current_date {E} : M E Time := t ← time_now; mret (db_date t).
Definition send {E} (n : Notification) : M E unit := fun w =>
  (inr tt, w <| w_sent := w_sent w ++ [n] |>).
(** An outside call and its answer, which may depend on every call before it. *)
Definition call_out {E A} (answer : list OutCall -> A) (c : OutCall) : M E A := fun w =>
  (inr (answer (w_calls w)), w <| w_calls := w_calls w ++ [c] |>).

(** One statement on a connection.  In a transaction any failing statement
    aborts it: PostgreSQL refuses every later statement (25P02).  A statement
    on the pool while a transaction is open on another connection commits on
    its own and, touching other rows, is visible to the transaction. *)
Definition exec {A} (c : Conn) (f : DB -> GoErr + (A * DB)) : M GoErr A := fun w0 =>
  let w := w0 <| w_stmts := S (w_stmts w0) |> in
  match c with
  | Pool =>
      if db_fault (w_stmts w0) then (inl ErrConn, w)
      else match f (w_db w) with
           | inl e => (inl e, w)
           | inr (a, d') =>
               (inr a, w <| w_db := d' |>
                         <| w_tx := match w_tx w with
                                    | TxOpen t => TxOpen (match f t with inr (_, t') => t' | inl _ => t end)
                                    | s => s end |>)
           end
  | Tx =>
      match w_tx w with
      | NoTx => (inl ErrTxClosed, w)
      | TxAborted => (inl (ErrPg "25P02"), w)
      | TxOpen t =>
          if db_fault (w_stmts w0) then (inl ErrConn, w <| w_tx := TxAborted |>)
          else match f t with
               | inl e => (inl e, w <| w_tx := TxAborted |>)
               | inr (a, t') => (inr a, w <| w_tx := TxOpen t' |>)
               end
      end
  end.

(** A SELECT, and a SELECT of one row ([Scan] reports pgx.ErrNoRows). *)
Definition query {A} (c : Conn) (f : DB -> A) : M GoErr A :=
  exec c (fun d => inr (f d, d)).
Definition query_row {A} (c : Conn) (f : DB -> option A) : M GoErr A :=
  o ← query c f; of_option o ErrNoRows.

(** An UPDATE that always succeeds; the value is RowsAffected(). *)
Definition exec_n (c : Conn) (f : DB -> nat * DB) : M GoErr nat := exec c (fun d => inr (f d)).

Definition begin_tx : M GoErr unit := fun w0 =>
  let w := w0 <| w_stmts := S (w_stmts w0) |> in
  if db_fault (w_stmts w0) then (inl ErrConn, w) else (inr tt, w <| w_tx := TxOpen (w_db w) |>).
Definition rollback_tx {E} : M E unit := fun w => (inr tt, w <| w_tx := NoTx |>).
Definition commit_tx : M GoErr unit := fun w0 =>
  let w := w0 <| w_stmts := S (w_stmts w0) |> <| w_tx := NoTx |> in
  match w_tx w0 with
  | NoTx => (inl ErrTxClosed, w)
  | TxAborted => (inl ErrTxCommitRollback, w)
  | TxOpen t => if db_fault (w_stmts w0) then (inl ErrConn, w) else (inr tt, w <| w_db := t |>)
  end.

(** [db.WithTenantTx(ctx, fn)] *)
Definition WithTenantTx {A} (fn : Conn -> M GoErr A) : M GoErr A := fun w =>
  match w_tx w with
  | NoTx =>
      match wrap "postgres: begin tenant tx" begin_tx w with
      | (inl e, w1) => (inl e, w1)
      | (inr _, w1) =>
          match fn Tx w1 with
          | (inl e, w2) => (inl e, w2 <| w_tx := NoTx |>)
          | (inr a, w2) => match commit_tx w2 with (inl e, w3) => (inl e, w3) | (inr _, w3) => (inr a, w3) end
          end
      end
  | _ => (inl (Errorf "postgres: WithTenantTx called inside an existing transaction"), w)
  end.

(** tx, err := db.Begin(ctx); defer tx.Rollback(ctx); ...; tx.Commit(ctx): an
    early return of the body rolls the transaction back. *)
Definition tx_with {B A} (on_begin on_commit : GoErr -> Resp B) (body : M (Resp B) A) : M (Resp B) A :=
  on_err begin_tx on_begin ;;
  a ← (fun w => match body w with
                | (inl r, w') => (inl r, w' <| w_tx := NoTx |>)
                | (inr a, w') => (inr a, w')
                end);
  on_err commit_tx on_commit ;;
  mret a.
Definition tx_block {B A} (start_msg commit_msg : string) (body : M (Resp B) A) : M (Resp B) A :=
  tx_with (fun _ => RespError 500 start_msg) (fun _ => RespError 500 commit_msg) body.

(** Running a handler: an early return or the final response; a transaction
    still open is rolled back (defer tx.Rollback). *)
Definition serve {B} (m : M (Resp B) (Resp B)) (w : World) : Resp B * World :=
  match m w with
  | (inl r, w') => (r, w' <| w_tx := NoTx |>)
  | (inr r, w') => (r, w' <| w_tx := NoTx |>)
  end.
End Operations.

(** ** Properties of the stores that computations preserve *)

(** P relates the committed database and the open transaction. *)
Definition stable (P : DB -> TxState -> Prop) {E A} (m : M E A) : Prop :=
  forall w, P (w_db w) (w_tx w) -> P (w_db (snd (m w))) (w_tx (snd (m w))).

(** I holds of the committed database and of the transaction's view of it. *)
Definition both (I : DB -> Prop) (d : DB) (t : TxState) : Prop :=
  I d /\ match t with TxOpen d' => I d' | _ => True end.
(** The computation keeps I, whatever statements fail. *)
Abbreviation keeps I := (stable (both I)).

(** The committed database is d0. *)
Definition committed (d0 : DB) (d : DB) (t : TxState) : Prop := d = d0.
(** The computation writes nothing but what its transaction will commit. *)
Definition tx_local {E A} (m : M E A) : Prop := forall d0, stable (committed d0) m.

Section Stable.
Context {env : Env} (P : DB -> TxState -> Prop).

Lemma stable_ret {E A} (a : A) : stable P (mret a : M E A).
Proof. intros w H. exact H. Qed.

Lemma stable_throw {E A} (e : E) : stable P (throw e : M E A).
Proof. intros w H. exact H. Qed.

Lemma stable_throw_if {E} b (e : E) : stable P (throw_if b e).
Proof. unfold throw_if. destruct b; [apply stable_throw | apply stable_ret]. Qed.

Lemma stable_of_option {E A} (o : option A) (e : E) : stable P (of_option o e).
Proof. destruct o; [apply stable_ret | apply stable_throw]. Qed.

Lemma stable_bind {E A B} (m : M E A) (k : A -> M E B) :
  stable P m -> (forall a, stable P (k a)) -> stable P (m ≫= k).
Proof.
  intros Hm Hk w Hw. specialize (Hm w Hw). unfold mbind, M_bind.
  destruct (m w) as [[e|a] w']; [exact Hm | exact (Hk a w' Hm)].
Qed.

Lemma stable_attempt {E A} (m : M GoErr A) : stable P m -> stable P (attempt m : M E _).
Proof. intros Hm w Hw. specialize (Hm w Hw). unfold attempt. destruct (m w). exact Hm. Qed.

Lemma stable_on_err {E A} (m : M GoErr A) (h : GoErr -> E) : stable P m -> stable P (on_err m h).
Proof. intros Hm w Hw. specialize (Hm w Hw). unfold on_err. destruct (m w) as [[|] ?]; exact Hm. Qed.

Lemma stable_for_each {E A} (f : A -> M E unit) l :
  (forall x, stable P (f x)) -> stable P (for_each f l).
Proof.
  intros Hf. induction l as [|x l IH]; cbn; [apply stable_ret|].
  apply stable_bind; [apply Hf | intros _; exact IH].
Qed.

Lemma stable_new_uuid {E} : stable P (new_uuid : M E uuid).
Proof. intros w H. exact H. Qed.
Lemma stable_time_now {E} : stable P (time_now : M E Time).
Proof. intros w H. exact H. Qed.
Lemma stable_current_date {E} : stable P (current_date : M E Time).
Proof. intros w H. exact H. Qed.
Lemma stable_send {E} n : stable P (send n : M E unit).
Proof. intros w H. exact H. Qed.
Lemma stable_call_out {E A} (answer : list OutCall -> A) c : stable P (call_out answer c : M E A).
Proof. intros w H. exact H. Qed.
End Stable.

Section Keeps.
Context {env : Env} (I : DB -> Prop).

Lemma keeps_exec {A} c (f : DB -> GoErr + (A * DB)) :
  (forall d a d', I d -> f d = inr (a, d') -> I d') -> keeps I (exec c f).
Proof.
  intros Hf w0 [H1 H2]. unfold exec, both; destruct c; cbn.
  - destruct (db_fault _); cbn; [auto|].
    destruct (f (w_db w0)) as [e|[a d']] eqn:E; cbn; [auto|].
    split; [eauto|]. destruct (w_tx w0) as [| |t]; cbn; auto.
    destruct (f t) as [|[? t']] eqn:Et; [exact H2 | eapply Hf; eassumption].
  - destruct (w_tx w0) as [| |t] eqn:Et; cbn; rewrite ?Et; auto.
    destruct (db_fault _); cbn; [auto|].
    destruct (f t) as [e|[a t']] eqn:E; cbn; eauto.
Qed.

Lemma keeps_query {A} c (f : DB -> A) : keeps I (query c f).
Proof. apply keeps_exec. intros d a d' H E. injection E as <- <-. exact H. Qed.

Lemma keeps_query_row {A} c (f : DB -> option A) : keeps I (query_row c f).
Proof. apply stable_bind; [apply keeps_query | intros; apply stable_of_option]. Qed.

Lemma keeps_exec_n c (f : DB -> nat * DB) :
  (forall d, I d -> I (snd (f d))) -> keeps I (exec_n c f).
Proof.
  intros Hf. apply keeps_exec. intros d a d' H E. injection E as E.
  specialize (Hf d H). rewrite E in Hf. exact Hf.
Qed.

Lemma keeps_begin : keeps I begin_tx.
Proof.
  intros w [H1 H2]. unfold begin_tx. destruct (db_fault _); split; cbn; auto.
Qed.
Lemma keeps_rollback {E} : keeps I (rollback_tx : M E unit).
Proof. intros w [H1 H2]. split; cbn; auto. Qed.
Lemma keeps_commit : keeps I commit_tx.
Proof.
  intros w [H1 H2]. unfold commit_tx, both. destruct (w_tx w) eqn:E; cbn; auto.
  destruct (db_fault _); cbn; auto.
Qed.

Lemma keeps_WithTenantTx {A} (fn : Conn -> M GoErr A) :
  keeps I (fn Tx) -> keeps I (WithTenantTx fn).
Proof.
  intros Hfn w Hw. unfold WithTenantTx. destruct (w_tx w) eqn:Ew; [|cbn; rewrite ?Ew; exact Hw..].
  rewrite <- Ew in Hw.
  pose proof (stable_on_err _ begin_tx (Wrap "postgres: begin tenant tx") keeps_begin w Hw) as Hb.
  unfold wrap. destruct (on_err _ _ w) as [[e|[]] w1]; [exact Hb|].
  specialize (Hfn w1 Hb). destruct (fn Tx w1) as [[e|a] w2].
  - destruct Hfn; split; cbn; auto.
  - pose proof (keeps_commit w2 Hfn) as Hc. destruct (commit_tx w2) as [[|] ?]; exact Hc.
Qed.

Lemma keeps_serve {B} (m : M (Resp B) (Resp B)) w :
  keeps I m -> both I (w_db w) (w_tx w) -> I (w_db (snd (serve m w))).
Proof.
  intros Hm Hw. specialize (Hm w Hw). unfold serve.
  destruct (m w) as [[|] w']; apply Hm.
Qed.
End Keeps.

Section TxLocal.
Context {env : Env} (d0 : DB).

Lemma committed_exec {A} (f : DB -> GoErr + (A * DB)) : stable (committed d0) (exec Tx f).
Proof.
  intros w H. unfold exec; cbn. destruct (w_tx w); cbn; [exact H..|].
  destruct (db_fault _); [exact H|]. destruct (f d) as [|[? ?]]; exact H.
Qed.
Lemma committed_query {A} c (f : DB -> A) : stable (committed d0) (query c f).
Proof.
  destruct c; [|apply committed_exec]. intros w H. unfold query, exec; cbn.
  destruct (db_fault _); exact H.
Qed.
Lemma committed_query_row {A} c (f : DB -> option A) : stable (committed d0) (query_row c f).
Proof. apply stable_bind; [apply committed_query | intros; apply stable_of_option]. Qed.
Lemma committed_exec_n (f : DB -> nat * DB) : stable (committed d0) (exec_n Tx f).
Proof. apply committed_exec. Qed.
Lemma committed_begin : stable (committed d0) begin_tx.
Proof. intros w H. unfold begin_tx. destruct (db_fault _); exact H. Qed.

(** A transaction whose body fails, or whose commit fails, leaves no trace. *)
Lemma WithTenantTx_atomic {A} (fn : Conn -> M GoErr A) w e w' :
  tx_local (fn Tx) -> WithTenantTx fn w = (inl e, w') -> w_db w' = w_db w.
Proof.
  intros Hfn. unfold WithTenantTx. destruct (w_tx w); [|intros H; injection H as <- <-; reflexivity..].
  assert (Hb : w_db (snd (wrap "postgres: begin tenant tx" begin_tx w)) = w_db w).
  { unfold wrap, on_err, begin_tx. destruct (db_fault _); reflexivity. }
  destruct (wrap _ _ w) as [[e1|[]] w1]; cbn in Hb.
  { intros H; injection H as <- <-. exact Hb. }
  pose proof (Hfn (w_db w1) w1 eq_refl) as Hf. unfold committed in Hf.
  destruct (fn Tx w1) as [[e2|a] w2]; cbn in Hf.
  { intros H; injection H as <- <-. cbn. congruence. }
  unfold commit_tx. destruct (w_tx w2).
  - intros H; injection H as <- <-. cbn. congruence.
  - intros H; injection H as <- <-. cbn. congruence.
  - destruct (db_fault _); [intros H; injection H as <- <-; cbn; congruence | discriminate].
Qed.
End TxLocal.

#[export] Hint Resolve stable_ret stable_throw stable_throw_if stable_of_option stable_new_uuid
  stable_time_now stable_current_date stable_send stable_call_out keeps_query keeps_query_row keeps_begin keeps_rollback
  keeps_commit committed_exec committed_query committed_query_row committed_exec_n
  committed_begin : keeps.

(** Walks through a computation, splitting binds and branches and closing the
    steps whose lemma is in the database. *)
Ltac keeps_step :=
  first
    [ solve [auto with keeps]
    | match goal with
      | |- stable _ (mbind _ _) => apply stable_bind; [|intros ?]
      | |- stable _ (match ?x with _ => _ end) => destruct x
      | |- stable _ (on_err _ _) => apply stable_on_err
      | |- stable _ (wrap _ _) => apply stable_on_err
      | |- stable _ (attempt _) => apply stable_attempt
      | |- stable _ (for_each _ _) => apply stable_for_each; intros ?
      | |- stable _ (WithTenantTx _) => apply keeps_WithTenantTx
      | |- stable _ (let _ := _ in _) => cbv zeta
      | |- tx_local _ => intros ?
      end ].
Ltac keeps_go := repeat keeps_step.

(** ** Results of computations *)

Lemma bind_ok {E A B} (m : M E A) (k : A -> M E B) w b w' :
  (m ≫= k) w = (inr b, w') -> exists a w1, m w = (inr a, w1) /\ k a w1 = (inr b, w').
Proof. unfold mbind, M_bind. destruct (m w) as [[e|a] w1]; [discriminate | eauto]. Qed.

Lemma bind_inv {E A B} (m : M E A) (k : A -> M E B) w r w' :
  (m ≫= k) w = (r, w') ->
  (exists e, m w = (inl e, w') /\ r = inl e)
  \/ (exists a w1, m w = (inr a, w1) /\ k a w1 = (r, w')).
Proof.
  unfold mbind, M_bind. destruct (m w) as [[e|a] w1]; [|eauto].
  intros H. injection H as <- <-. eauto.
Qed.

(** ** Functional behaviour of computations

    [sees c w d]: in world w, connection c reads the database d.  A computation
    [runs] from d with postcondition Q and error postcondition R when, unless
    some statement fails in the driver, it returns a value of Q and the database
    Q names, or an error of R.  With no faults this is total correctness. *)

Section Runs.
Context {env : Env}.

Definition faulty : Prop := exists n, db_fault n = true.
Definition sees (c : Conn) (w : World) (d : DB) : Prop :=
  match c with Pool => w_tx w = NoTx /\ w_db w = d | Tx => w_tx w = TxOpen d end.
(** After a failed statement whose error the code discards. *)
Definition spoiled (c : Conn) (w : World) : Prop :=
  w_tx w = match c with Pool => NoTx | Tx => TxAborted end.
(** The computation leaves a spoiled connection spoiled. *)
Definition inert (c : Conn) {E A} (m : M E A) : Prop :=
  forall w, spoiled c w -> spoiled c (snd (m w)).

Definition runs (c : Conn) {E A} (m : M E A) (d : DB) (Q : A -> DB -> Prop) (R : E -> Prop) : Prop :=
  forall w, sees c w d ->
    match m w with
    | (inr a, w') => (exists d', sees c w' d' /\ Q a d') \/ (faulty /\ spoiled c w')
    | (inl e, w') => (R e /\ exists d', sees c w' d') \/ (faulty /\ spoiled c w')
                     \/ (R e /\ spoiled c w')
    end.

Lemma inert_ret {E A} c (a : A) : inert c (mret a : M E A).
Proof. intros w H. exact H. Qed.
Lemma inert_throw {E A} c (e : E) : inert c (throw e : M E A).
Proof. intros w H. exact H. Qed.
Lemma inert_throw_if {E} c b (e : E) : inert c (throw_if b e).
Proof. destruct b; intros w H; exact H. Qed.
Lemma inert_of_option {E A} c (o : option A) (e : E) : inert c (of_option o e).
Proof. destruct o; intros w H; exact H. Qed.
Lemma inert_new_uuid {E} c : inert c (new_uuid : M E uuid).
Proof. intros w H. exact H. Qed.
Lemma inert_time_now {E} c : inert c (time_now : M E Time).
Proof. intros w H. exact H. Qed.
Lemma inert_current_date {E} c : inert c (current_date : M E Time).
Proof. intros w H. exact H. Qed.
Lemma inert_send {E} c n : inert c (send n : M E unit).
Proof. intros w H. exact H. Qed.
Lemma inert_call_out {E A} c (answer : list OutCall -> A) k : inert c (call_out answer k : M E A).
Proof. intros w H. exact H. Qed.
Lemma inert_bind {E A B} c (m : M E A) (k : A -> M E B) :
  inert c m -> (forall a, inert c (k a)) -> inert c (m ≫= k).
Proof.
  intros Hm Hk w Hw. specialize (Hm w Hw). unfold mbind, M_bind.
  destruct (m w) as [[e|a] w']; [exact Hm | exact (Hk a w' Hm)].
Qed.
Lemma inert_attempt {E A} c (m : M GoErr A) : inert c m -> inert c (attempt m : M E _).
Proof. intros Hm w Hw. specialize (Hm w Hw). unfold attempt. destruct (m w). exact Hm. Qed.
Lemma inert_on_err {E A} c (m : M GoErr A) (h : GoErr -> E) : inert c m -> inert c (on_err m h).
Proof. intros Hm w Hw. specialize (Hm w Hw). unfold on_err. destruct (m w) as [[|] ?]; exact Hm. Qed.
Lemma inert_for_each {E A} c (f : A -> M E unit) l :
  (forall x, inert c (f x)) -> inert c (for_each f l).
Proof.
  intros Hf. induction l as [|x l IH]; cbn; [apply inert_ret|].
  apply inert_bind; [apply Hf | intros _; exact IH].
Qed.
Lemma inert_exec {A} c (f : DB -> GoErr + (A * DB)) : inert c (exec c f).
Proof.
  intros w H. unfold spoiled, exec in *. destruct c; cbn.
  - destruct (db_fault _); cbn; [exact H|]. destruct (f _) as [|[? ?]]; cbn; [exact H | now rewrite H].
  - rewrite H. exact H.
Qed.
Lemma inert_query {A} c (f : DB -> A) : inert c (query c f).
Proof. apply inert_exec. Qed.
Lemma inert_exec_n c (f : DB -> nat * DB) : inert c (exec_n c f).
Proof. apply inert_exec. Qed.
Lemma inert_query_row {A} c (f : DB -> option A) : inert c (query_row c f).
Proof. apply inert_bind; [apply inert_query | intros; apply inert_of_option]. Qed.

Lemma runs_ret {E A} c (a : A) d Q (R : E -> Prop) : Q a d -> runs c (mret a) d Q R.
Proof. intros H w Hw. left. eauto. Qed.
Lemma runs_throw {E A} c (e : E) d (Q : A -> DB -> Prop) (R : E -> Prop) : R e -> runs c (throw e) d Q R.
Proof. intros H w Hw. left. eauto. Qed.
Lemma runs_new_uuid {E} c d Q (R : E -> Prop) : (forall u, Q u d) -> runs c new_uuid d Q R.
Proof. intros H w Hw. left. exists d. destruct c; cbn in *; auto. Qed.
Lemma runs_time_now {E} c d Q (R : E -> Prop) : (forall t, Q t d) -> runs c time_now d Q R.
Proof. intros H w Hw. left. exists d. destruct c; cbn in *; auto. Qed.
Lemma runs_send {E} c n d Q (R : E -> Prop) : Q tt d -> runs c (send n) d Q R.
Proof. intros H w Hw. left. exists d. destruct c; cbn in *; auto. Qed.

Lemma runs_call_out {E A} c (answer : list OutCall -> A) k d Q (R : E -> Prop) :
  (forall past, Q (answer past) d) -> runs c (call_out answer k) d Q R.
Proof. intros H w Hw. left. exists d. destruct c; cbn in *; auto. Qed.

Lemma runs_exec {A} c (f : DB -> GoErr + (A * DB)) d (Q : A -> DB -> Prop) (R : GoErr -> Prop) :
  match f d with inl e => R e | inr (a, d') => Q a d' end -> runs c (exec c f) d Q R.
Proof.
  intros H w Hw. unfold exec, faulty, spoiled, sees in *. destruct c; cbn.
  - destruct Hw as [Ht <-]. destruct (db_fault (w_stmts w)) eqn:Ef; cbn; [right; left; eauto|].
    destruct (f (w_db w)) as [e|[a d']]; cbn; [eauto|]. left. rewrite Ht. eauto.
  - rewrite Hw. destruct (db_fault (w_stmts w)) eqn:Ef; cbn; [right; left; eauto|].
    destruct (f d) as [e|[a d']]; cbn; eauto.
Qed.
Lemma runs_query {A} c (f : DB -> A) d (Q : A -> DB -> Prop) R : Q (f d) d -> runs c (query c f) d Q R.
Proof. intros H. apply runs_exec. exact H. Qed.
Lemma runs_exec_n c (f : DB -> nat * DB) d (Q : nat -> DB -> Prop) R :
  Q (fst (f d)) (snd (f d)) -> runs c (exec_n c f) d Q R.
Proof. intros H. apply runs_exec. destruct (f d). exact H. Qed.

Lemma runs_bind {E A B} c (m : M E A) (k : A -> M E B) d Q1 Q (R : E -> Prop) :
  runs c m d Q1 R -> (forall a, inert c (k a)) ->
  (forall a d', Q1 a d' -> runs c (k a) d' Q R) -> runs c (m ≫= k) d Q R.
Proof.
  intros Hm Hi Hk w Hw. specialize (Hm w Hw). unfold mbind, M_bind.
  destruct (m w) as [[e|a] w']; [exact Hm|]. destruct Hm as [(d' & Hd & HQ)|[Hf Hs]].
  - exact (Hk a d' HQ w' Hd).
  - specialize (Hi a w' Hs). destruct (k a w') as [[e|b] w'']; cbn in Hi; auto.
Qed.

(** A SELECT of one row: the row, or pgx.ErrNoRows. *)
Lemma runs_query_row {A} c (f : DB -> option A) d (Q : A -> DB -> Prop) (R : GoErr -> Prop) :
  match f d with Some a => Q a d | None => R ErrNoRows end -> runs c (query_row c f) d Q R.
Proof.
  intros H. apply (runs_bind c _ _ d (fun o d' => o = f d /\ d' = d)).
  - apply runs_query. auto.
  - intros. apply inert_of_option.
  - intros o d' [-> ->]. destruct (f d); [apply runs_ret | apply runs_throw]; exact H.
Qed.

Lemma runs_weaken {E A} c (m : M E A) d (Q Q' : A -> DB -> Prop) (R R' : E -> Prop) :
  runs c m d Q R -> (forall a d', Q a d' -> Q' a d') -> (forall e, R e -> R' e) -> runs c m d Q' R'.
Proof.
  intros Hm HQ HR w Hw. specialize (Hm w Hw). destruct (m w) as [[e|a] w'].
  - destruct Hm as [[H1 H2]|[H|[H1 H2]]]; auto.
  - destruct Hm as [(d' & H1 & H2)|H]; eauto.
Qed.

Lemma runs_post {E A} c (m : M E A) d (Q Q' : A -> DB -> Prop) (R : E -> Prop) :
  runs c m d Q R -> (forall a d', Q a d' -> Q' a d') -> runs c m d Q' R.
Proof. intros H HQ. apply (runs_weaken c m d Q Q' R R H HQ). auto. Qed.

Lemma runs_on_err {E A} c (m : M GoErr A) (h : GoErr -> E) d Q (R : E -> Prop) :
  runs c m d Q (fun e => R (h e)) -> runs c (on_err m h) d Q R.
Proof. intros Hm w Hw. specialize (Hm w Hw). unfold on_err. destruct (m w) as [[e|a] w']; exact Hm. Qed.

Lemma runs_attempt_query_row {E A} c (f : DB -> option A) d (Q : GoErr + A -> DB -> Prop) (R : E -> Prop) :
  match f d with Some a => Q (inr a) d | None => Q (inl ErrNoRows) d end ->
  runs c (attempt (query_row c f)) d Q R.
Proof.
  intros H w Hw. unfold attempt, query_row, query, mbind, M_bind, exec, faulty, spoiled, sees in *.
  destruct c; cbn in *.
  - destruct Hw as [Ht <-]. destruct (db_fault (w_stmts w)) eqn:Ef; cbn; [right; eauto|].
    destruct (f (w_db w)); cbn; left; exists (w_db w); rewrite ?Ht; auto.
  - rewrite Hw. destruct (db_fault (w_stmts w)) eqn:Ef; cbn; [right; eauto|].
    destruct (f d); cbn; left; exists d; auto.
Qed.

(** A statement whose error is discarded and which the server never refuses. *)
Lemma runs_attempt_exec {E A} c (f : DB -> A * DB) d (Q : GoErr + A -> DB -> Prop) (R : E -> Prop) :
  Q (inr (fst (f d))) (snd (f d)) -> runs c (attempt (exec c (fun d => inr (f d)))) d Q R.
Proof.
  intros H w Hw. pose proof (runs_exec c (fun d => inr (f d)) d
    (fun a d' => (a, d') = f d) (fun _ => False) ltac:(cbn; destruct (f d); reflexivity) w Hw) as Hq.
  unfold attempt. destruct (exec c _ w) as [[e|a] w1].
  - destruct Hq as [[[] _]|[Hf|[[] _]]]. right; exact Hf.
  - destruct Hq as [(d' & Hs & Hd)|Hf]; [|right; exact Hf]. left. exists d'. rewrite <- Hd in H. auto.
Qed.

(** A computation that only a fault can fail, as a value. *)
Lemma runs_attempt_ok {E A} c (m : M GoErr A) d Q (R : E -> Prop) :
  runs c m d Q (fun _ => False) ->
  runs c (attempt m) d (fun r d' => exists a, r = inr a /\ Q a d') R.
Proof.
  intros Hm w Hw. specialize (Hm w Hw). unfold attempt. destruct (m w) as [[e|a] w1].
  - destruct Hm as [[[] _]|[Hf|[[] _]]]. right; exact Hf.
  - destruct Hm as [(d' & Hs & H)|Hf]; [|right; exact Hf]. left. eauto.
Qed.

(** *** Steps of a computation *)

Lemma runs_uuid {E A} c (k : uuid -> M E A) d Q R :
  (forall u, inert c (k u)) -> (forall n, runs c (k (uuid_new n)) d Q R) -> runs c (u ← new_uuid; k u) d Q R.
Proof.
  intros Hi Hk. apply (runs_bind c _ _ d (fun u d' => d' = d /\ exists n, u = uuid_new n)); [|exact Hi|].
  - intros w Hw. left. exists d. split; [destruct c; exact Hw | eauto].
  - intros u d' [-> [n ->]]. apply Hk.
Qed.
Lemma runs_now {E A} c (k : Time -> M E A) d Q R :
  (forall t, inert c (k t)) -> (forall t, runs c (k t) d Q R) -> runs c (t ← time_now; k t) d Q R.
Proof.
  intros Hi Hk. apply (runs_bind c _ _ d (fun _ d' => d' = d)); [now apply runs_time_now | exact Hi |].
  intros t d' ->. apply Hk.
Qed.
Lemma runs_today {E A} c (k : Time -> M E A) d Q R :
  (forall t, inert c (k t)) -> (forall t, runs c (k (db_date t)) d Q R) -> runs c (t ← current_date; k t) d Q R.
Proof.
  intros Hi Hk. apply (runs_bind c _ _ d (fun t d' => (exists t0, t = db_date t0) /\ d' = d)); [|exact Hi|].
  - intros w Hw. left. exists d. split; [destruct c; exact Hw | split; [eexists|]; reflexivity].
  - intros t d' [[t0 ->] ->]. apply Hk.
Qed.
Lemma runs_then_exec {A B} c (f : DB -> GoErr + (A * DB)) (k : A -> M GoErr B) d Q (R : GoErr -> Prop) :
  (forall a, inert c (k a)) ->
  match f d with inl e => R e | inr (a, d') => runs c (k a) d' Q R end ->
  runs c (a ← exec c f; k a) d Q R.
Proof.
  intros Hi H. apply (runs_bind c _ _ d (fun a d' => f d = inr (a, d'))); [|exact Hi|].
  - apply runs_exec. destruct (f d) as [e|[a d']]; auto.
  - intros a d' E. rewrite E in H. exact H.
Qed.
Lemma runs_then_query {A B} c (f : DB -> A) (k : A -> M GoErr B) d Q (R : GoErr -> Prop) :
  (forall a, inert c (k a)) -> runs c (k (f d)) d Q R -> runs c (a ← query c f; k a) d Q R.
Proof. intros Hi H. now apply runs_then_exec. Qed.
Lemma runs_then_exec_n {B} c (f : DB -> nat * DB) (k : nat -> M GoErr B) d Q (R : GoErr -> Prop) :
  (forall a, inert c (k a)) -> runs c (k (fst (f d))) (snd (f d)) Q R -> runs c (a ← exec_n c f; k a) d Q R.
Proof. intros Hi H. apply runs_then_exec; [exact Hi|]. destruct (f d); exact H. Qed.
Lemma runs_then_query_row {A B} c (f : DB -> option A) (k : A -> M GoErr B) d Q (R : GoErr -> Prop) :
  (forall a, inert c (k a)) ->
  match f d with Some a => runs c (k a) d Q R | None => R ErrNoRows end ->
  runs c (a ← query_row c f; k a) d Q R.
Proof.
  intros Hi H. apply (runs_bind c _ _ d (fun a d' => f d = Some a /\ d' = d)); [|exact Hi|].
  - apply runs_query_row. destruct (f d); auto.
  - intros a d' [E ->]. rewrite E in H. exact H.
Qed.
Lemma runs_then_of_option {E A B} c (o : option A) (e : E) (k : A -> M E B) d Q (R : E -> Prop) :
  (forall a, inert c (k a)) ->
  match o with Some a => runs c (k a) d Q R | None => R e end -> runs c (a ← of_option o e; k a) d Q R.
Proof.
  intros Hi H. apply (runs_bind c _ _ d (fun a d' => o = Some a /\ d' = d)); [|exact Hi|].
  - destruct o; [now apply runs_ret | now apply runs_throw].
  - intros a d' [-> ->]. exact H.
Qed.
Lemma runs_then_throw_if {E B} c (b : bool) (e : E) (k : unit -> M E B) d Q (R : E -> Prop) :
  inert c (k tt) -> (if b then R e else runs c (k tt) d Q R) -> runs c (u ← throw_if b e; k u) d Q R.
Proof.
  intros Hi H. apply (runs_bind c _ _ d (fun _ d' => b = false /\ d' = d)); [|intros []; exact Hi|].
  - unfold throw_if. destruct b; [now apply runs_throw | now apply runs_ret].
  - intros [] d' [-> ->]. exact H.
Qed.
(** The rest of the computation after a read whose error is inspected. *)
Lemma runs_then_attempt_row {E A B} c (f : DB -> option A) (k : GoErr + A -> M E B) d Q (R : E -> Prop) :
  (forall a, inert c (k a)) ->
  match f d with Some a => runs c (k (inr a)) d Q R | None => runs c (k (inl ErrNoRows)) d Q R end ->
  runs c (a ← attempt (query_row c f); k a) d Q R.
Proof.
  intros Hi H. apply (runs_bind c _ _ d (fun (a : GoErr + A) d1 => runs c (k a) d1 Q R)); [|exact Hi|auto].
  apply runs_attempt_query_row. exact H.
Qed.
Lemma runs_then_attempt_exec {E A B} c (f : DB -> A * DB) (k : GoErr + A -> M E B) d Q (R : E -> Prop) :
  (forall a, inert c (k a)) -> runs c (k (inr (fst (f d)))) (snd (f d)) Q R ->
  runs c (a ← attempt (exec c (fun d => inr (f d))); k a) d Q R.
Proof.
  intros Hi H. apply (runs_bind c _ _ d (fun (a : GoErr + A) d1 => runs c (k a) d1 Q R)); [|exact Hi|auto].
  apply runs_attempt_exec. exact H.
Qed.

Lemma runs_for_each {E A} c (f : A -> M E unit) (R : E -> Prop) (I : list A -> DB -> Prop) l d :
  I l d -> (forall x, inert c (f x)) ->
  (forall x l' d', I (x :: l') d' -> runs c (f x) d' (fun _ d'' => I l' d'') R) ->
  runs c (for_each f l) d (fun _ d' => I [] d') R.
Proof.
  intros HI Hin Hf. revert d HI. induction l as [|y l IH]; intros d HI; cbn; [now apply runs_ret|].
  eapply runs_bind; [apply Hf; exact HI | intros; now apply inert_for_each |].
  intros u d' H. apply IH. exact H.
Qed.

(** Outside any transaction, WithTenantTx commits what its body leaves, and
    reports an error only for a fault or an error of the body. *)
Lemma runs_WithTenantTx {A} (fn : Conn -> M GoErr A) d Q R :
  runs Tx (fn Tx) d Q (fun e => R e) -> runs Pool (WithTenantTx fn) d Q R.
Proof.
  intros Hfn w [Ht Hd]. unfold WithTenantTx. rewrite Ht.
  unfold wrap, on_err, begin_tx; cbn. destruct (db_fault (w_stmts w)) eqn:E; cbn.
  { right; left. split; [eexists; exact E | exact Ht]. }
  set (w1 := w <| w_stmts := _ |> <| w_tx := _ |>).
  specialize (Hfn w1). unfold sees in Hfn. cbn in Hfn. rewrite Hd in Hfn. specialize (Hfn eq_refl).
  destruct (fn Tx w1) as [[e|a] w2]; cbn.
  - destruct Hfn as [[H1 _]|[[H1 _]|[H1 _]]].
    + left. split; [exact H1|]. exists (w_db w2). split; reflexivity.
    + right; left. split; [exact H1 | reflexivity].
    + left. split; [exact H1|]. exists (w_db w2). split; reflexivity.
  - unfold commit_tx. destruct Hfn as [(d' & H1 & H2)|[H1 H2]].
    + unfold sees in H1. rewrite H1. destruct (db_fault (w_stmts w2)) eqn:E2; cbn.
      * right; left. split; [eexists; exact E2 | reflexivity].
      * left. exists d'. split; [split; reflexivity | exact H2].
    + unfold spoiled in H2. rewrite H2. right; left. split; [exact H1 | reflexivity].
Qed.
End Runs.

#[export] Hint Resolve inert_ret inert_throw inert_throw_if inert_of_option inert_new_uuid inert_time_now
  inert_current_date inert_send inert_call_out inert_exec inert_query inert_exec_n inert_query_row : keeps.

(** Walks through a computation to show it inert. *)
Ltac inert_step :=
  first
    [ solve [auto with keeps]
    | match goal with
      | |- inert _ (mbind _ _) => apply inert_bind; [|intros ?]
      | |- inert _ (match ?x with _ => _ end) => destruct x
      | |- inert _ (on_err _ _) => apply inert_on_err
      | |- inert _ (wrap _ _) => apply inert_on_err
      | |- inert _ (attempt _) => apply inert_attempt
      | |- inert _ (for_each _ _) => apply inert_for_each; intros ?
      | |- inert _ (let _ := _ in _) => cbv zeta
      | |- forall _, inert _ _ => intros ?
      end ].
Ltac inert_go := repeat inert_step.

(** ** Requests on the pool

    [ensures m d Q R]: run outside any transaction on the committed database d,
    whatever statements fail in the driver, m returns with the committed
    database satisfying Q, or stops early with one satisfying R. *)

Section Ensures.
Context {env : Env}.

Definition ensures {E A} (m : M E A) (d : DB) (Q : A -> DB -> Prop) (R : E -> DB -> Prop) : Prop :=
  forall w, sees Pool w d ->
    match m w with
    | (inr a, w') => w_tx w' = NoTx /\ Q a (w_db w')
    | (inl e, w') => w_tx w' = NoTx /\ R e (w_db w')
    end.

Lemma ens_ret {E A} (a : A) d (Q : A -> DB -> Prop) (R : E -> DB -> Prop) : Q a d -> ensures (mret a) d Q R.
Proof. intros H w [Ht <-]. split; assumption. Qed.
Lemma ens_throw {E A} (e : E) d (Q : A -> DB -> Prop) (R : E -> DB -> Prop) : R e d -> ensures (throw e) d Q R.
Proof. intros H w [Ht <-]. split; assumption. Qed.
Lemma ens_bind {E A B} (m : M E A) (k : A -> M E B) d Q1 Q R :
  ensures m d Q1 R -> (forall a d', Q1 a d' -> ensures (k a) d' Q R) -> ensures (m ≫= k) d Q R.
Proof.
  intros Hm Hk w Hw. specialize (Hm w Hw). unfold mbind, M_bind. destruct (m w) as [[e|a] w']; [exact Hm|].
  destruct Hm as [Ht HQ]. exact (Hk a _ HQ w' (conj Ht eq_refl)).
Qed.
Lemma ens_post {E A} (m : M E A) d (Q Q' : A -> DB -> Prop) (R R' : E -> DB -> Prop) :
  ensures m d Q R -> (forall a d', Q a d' -> Q' a d') -> (forall e d', R e d' -> R' e d') -> ensures m d Q' R'.
Proof.
  intros Hm HQ HR w Hw. specialize (Hm w Hw). destruct (m w) as [[e|a] w']; destruct Hm; split; auto.
Qed.
Lemma ens_on_err {E A} (m : M GoErr A) (h : GoErr -> E) d Q (R : E -> DB -> Prop) :
  ensures m d Q (fun e => R (h e)) -> ensures (on_err m h) d Q R.
Proof. intros Hm w Hw. specialize (Hm w Hw). unfold on_err. destruct (m w) as [[e|a] w']; exact Hm. Qed.
Lemma ens_attempt {E A} (m : M GoErr A) d (Q : GoErr + A -> DB -> Prop) (R : E -> DB -> Prop) :
  ensures m d (fun a => Q (inr a)) (fun e => Q (inl e)) -> ensures (attempt m) d Q R.
Proof. intros Hm w Hw. specialize (Hm w Hw). unfold attempt. destruct (m w) as [[e|a] w']; exact Hm. Qed.
Lemma ens_exec {A} (f : DB -> GoErr + (A * DB)) d (Q : A -> DB -> Prop) (R : GoErr -> DB -> Prop) :
  R ErrConn d -> match f d with inl e => R e d | inr (a, d') => Q a d' end -> ensures (exec Pool f) d Q R.
Proof.
  intros Hc H w [Ht <-]. unfold exec. destruct (db_fault _); cbn; [auto|].
  destruct (f (w_db w)) as [e|[a d']]; cbn; [auto|]. rewrite Ht. auto.
Qed.
Lemma ens_query {A} (f : DB -> A) d (Q : A -> DB -> Prop) (R : GoErr -> DB -> Prop) :
  R ErrConn d -> Q (f d) d -> ensures (query Pool f) d Q R.
Proof. intros Hc H. now apply ens_exec. Qed.
Lemma ens_exec_n (f : DB -> nat * DB) d (Q : nat -> DB -> Prop) (R : GoErr -> DB -> Prop) :
  R ErrConn d -> Q (fst (f d)) (snd (f d)) -> ensures (exec_n Pool f) d Q R.
Proof. intros Hc H. apply ens_exec; [exact Hc|]. destruct (f d); exact H. Qed.
Lemma ens_of_option {E A} (o : option A) (e : E) d (Q : A -> DB -> Prop) (R : E -> DB -> Prop) :
  match o with Some a => Q a d | None => R e d end -> ensures (of_option o e) d Q R.
Proof. destruct o; [apply ens_ret | apply ens_throw]. Qed.
Lemma ens_throw_if {E} (b : bool) (e : E) d (Q : unit -> DB -> Prop) (R : E -> DB -> Prop) :
  (if b then R e d else Q tt d) -> ensures (throw_if b e) d Q R.
Proof. destruct b; [apply ens_throw | apply ens_ret]. Qed.
Lemma ens_uuid {E} d (Q : uuid -> DB -> Prop) (R : E -> DB -> Prop) :
  (forall n, Q (uuid_new n) d) -> ensures new_uuid d Q R.
Proof. intros H w [Ht <-]. split; [exact Ht | apply H]. Qed.
Lemma ens_now {E} d (Q : Time -> DB -> Prop) (R : E -> DB -> Prop) :
  (forall n, Q (clock n) d) -> ensures time_now d Q R.
Proof. intros H w [Ht <-]. split; [exact Ht | apply H]. Qed.
Lemma ens_send {E} n d (Q : unit -> DB -> Prop) (R : E -> DB -> Prop) : Q tt d -> ensures (send n) d Q R.
Proof. intros H w [Ht <-]. split; assumption. Qed.

Lemma ens_call_out {E A} (answer : list OutCall -> A) c d (Q : A -> DB -> Prop) (R : E -> DB -> Prop) :
  (forall past, Q (answer past) d) -> ensures (call_out answer c) d Q R.
Proof. intros H w [Ht <-]. split; [exact Ht | apply H]. Qed.

(** A transaction commits what its body leaves when every statement succeeds,
    and otherwise changes nothing. *)
Lemma ens_WithTenantTx {A} (fn : Conn -> M GoErr A) d (Q : A -> DB -> Prop) (R : GoErr -> DB -> Prop) :
  runs Tx (fn Tx) d Q (fun _ => True) -> tx_local (fn Tx) -> (forall e, R e d) ->
  ensures (WithTenantTx fn) d Q R.
Proof.
  intros Hfn Hloc HR w [Ht <-]. destruct (WithTenantTx fn w) as [[e|a] w'] eqn:E.
  - split; [|rewrite (WithTenantTx_atomic fn w e w' Hloc E); apply HR].
    revert E. unfold WithTenantTx. rewrite Ht. unfold wrap, on_err, begin_tx; cbn.
    destruct (db_fault (w_stmts w)); cbn; [intros [= _ <-]; exact Ht|].
    destruct (fn Tx _) as [[e2|a] w2]; cbn; [intros [= _ <-]; reflexivity|].
    unfold commit_tx. destruct (w_tx w2); [intros [= _ <-]; reflexivity..|].
    destruct (db_fault _); [intros [= _ <-]; reflexivity | discriminate].
  - revert E. unfold WithTenantTx. rewrite Ht. unfold wrap, on_err, begin_tx; cbn.
    destruct (db_fault (w_stmts w)); cbn; [discriminate|].
    set (w1 := w <| w_stmts := _ |> <| w_tx := _ |>). specialize (Hfn w1 eq_refl).
    destruct (fn Tx w1) as [[e2|a2] w2]; cbn; [discriminate|]. unfold commit_tx.
    destruct Hfn as [(d' & H1 & H2)|[_ H1]].
    + unfold sees in H1. rewrite H1. destruct (db_fault _); [discriminate|]. intros [= -> <-]. split; [reflexivity | exact H2].
    + unfold spoiled in H1. rewrite H1. discriminate.
Qed.

(** The answer to a request, and the committed database it leaves. *)
Lemma serve_ensures {B} (m : M (Resp B) (Resp B)) d (Q : Resp B -> DB -> Prop) w :
  sees Pool w d -> ensures m d Q Q -> Q (fst (serve m w)) (w_db (snd (serve m w))) /\ w_tx (snd (serve m w)) = NoTx.
Proof.
  intros Hw Hm. specialize (Hm w Hw). unfold serve.
  destruct (m w) as [[r|r] w']; cbn; split; try reflexivity; apply Hm.
Qed.
End Ensures.

(** ** A concrete environment

    Amounts convert exactly, UUIDs and clock readings count up, and the n-th
    statement fails when [fault n] says so. *)
Definition demo_parse (s : string) : option uuid :=
  if (s !=s "") && forall_string is_digit s then Some (Z.to_N (dec_val 0 s)) else None.

Definition demo_env (fault : nat -> bool) : Env := {|
  db_fault := fault; uuid_new := fun n => (1000 + N.of_nat n)%N; uuid_parse := demo_parse; db_shared := false;
  uuid_string := fun u => fmt_0d 6 (Z.of_N u);
  clock := fun n => {| t_ns := (1773144000 + Z.of_nat n) * ns_per_s; t_off := 0 |};
  server_off := 0; db_off := 0; driver_text := fun s => ("ERROR: SQLSTATE " ++ s)%string;
  num_enc := to_cents; num_dec := cents; date_in := parse_date |}.

Lemma demo_laws fault : EnvLaws (demo_env fault).
Proof.
  split; cbn.
  - exact to_cents_cents.
  - reflexivity.
  - exact to_cents_near_any.
  - intros n. unfold uuid_nil. lia.
  - intros n m. lia.
Qed.

(** Nothing fails. *)
Definition calm : Env := demo_env (fun _ => false).
Definition calm_laws : EnvLaws calm := demo_laws _.
