(* ===== verification/Auth.v ===== *)
(** Auth: internal/handler/authz.go and authctx.go.  Token checks, role gates
    and the resolution of the tenant, the branch and the acting user.

    Verification of a JSON web token (golang-jwt) is a parameter, [jwt_parse]:
    the claims of a token whose signature the secret validates. *)

From S2P Require Import Prelude GoLib Schema World.
Local Open Scope string_scope.
Local Open Scope Z_scope.

(** A string claim of the wrong type, or absent, is None; roles is None when the
    claim is not an array, and an element that is not a string is None. *)
Record Claims := {
  cl_sub : option string; cl_hotel_id : option string; cl_branch_id : option string;
  cl_roles : option (list (option string)); cl_platform_admin : option bool }.

Class Jwt := jwt_parse : string -> string -> option Claims.

(** What a handler reads of its *fiber.Ctx: headers, cookie, route parameters,
    query values, and the Locals the middleware stored. *)
Record Ctx := {
  c_authorization : string; c_session_cookie : string; c_branch_header : string;
  c_params : string -> string; c_query : string -> string;
  c_user_id : option string; c_hotel_id : option string; c_branch_id : option string }.

Section Auth.
Context {env : Env} {jwt : Jwt}.

Definition authTokenFromRequest (c : Ctx) : string :=
  let authHeader := c_authorization c in
  let tokenString := TrimSpace (if HasPrefix authHeader "Bearer " then drop_str 7 authHeader else authHeader) in
  if (tokenString !=s "") && (tokenString !=s authHeader) then tokenString
  else TrimSpace (c_session_cookie c).

Definition jwtClaimsFromRequest (c : Ctx) (secret : string) : option Claims :=
  let tokenString := authTokenFromRequest c in
  if (tokenString =s "") || (secret =s "") then None else jwt_parse tokenString secret.

(** The gate's verdict: None to proceed, or the response it has written. *)
Definition requireAuthenticatedRequest (c : Ctx) (secret : string) : option (Z * string) :=
  match jwtClaimsFromRequest c secret with
  | None => Some (401, "authentication is required")
  | Some _ => None
  end.

Definition requireAnyRoleFromToken (c : Ctx) (secret : string) (allowed : list string) : option (Z * string) :=
  match jwtClaimsFromRequest c secret with
  | None => Some (401, "authentication is required")
  | Some claims =>
      match cl_roles claims with
      | None => Some (403, "required role is missing")
      | Some rawRoles =>
          if existsb (fun rr => existsb (String.eqb (opt_str rr)) allowed) rawRoles then None
          else Some (403, "access denied")
      end
  end.

(** if !gate(c) { return nil } *)
Definition guard {B} (verdict : option (Z * string)) : M (Resp B) unit :=
  match verdict with None => mret tt | Some (status, msg) => throw (RespError status msg) end.

Definition present (o : option string) : bool := TrimSpace (opt_str o) !=s "".

(** baseHandler.hotelID *)
Definition hotelID (secret : string) (c : Ctx) : uuid :=
  match jwtClaimsFromRequest c secret with
  | Some claims =>
      if present (cl_hotel_id claims)
      then default DemoHotelID (uuid_parse (TrimSpace (opt_str (cl_hotel_id claims))))
      else DemoHotelID
  | None => DemoHotelID
  end.

Definition tenantHotelID (c : Ctx) : uuid :=
  if present (c_hotel_id c) then default DemoHotelID (uuid_parse (TrimSpace (opt_str (c_hotel_id c))))
  else DemoHotelID.

Definition branchID (c : Ctx) : option uuid :=
  let hdr := TrimSpace (c_branch_header c) in
  let raw := if hdr =s "" then TrimSpace (opt_str (c_branch_id c)) else hdr in
  if raw =s "" then None else uuid_parse raw.

(** baseHandler.userID *)
Definition userID (secret : string) (c : Ctx) : option uuid :=
  match jwtClaimsFromRequest c secret with
  | Some claims => if present (cl_sub claims) then uuid_parse (TrimSpace (opt_str (cl_sub claims))) else None
  | None => None
  end.

Definition isPlatformAdmin (secret : string) (c : Ctx) : bool :=
  match jwtClaimsFromRequest c secret with
  | None => false
  | Some claims =>
      bool_decide (cl_platform_admin claims = Some true)
      || existsb (fun rr => (opt_str rr =s "platform_admin") || (opt_str rr =s "super_admin"))
           (default [] (cl_roles claims))
  end.

(** The middleware: the refusal, or the context the next handler sees. *)
Definition authGate (secret : string) (c : Ctx) : (Z * string) + Ctx :=
  match jwtClaimsFromRequest c secret with
  | None => inl (401, "authentication is required")
  | Some claims =>
      let put (claim : option string) (local : option string) :=
        if present claim then Some (opt_str claim) else local in
      inr (c <| c_user_id ::= put (cl_sub claims) |>
             <| c_hotel_id ::= put (cl_hotel_id claims) |>
             <| c_branch_id ::= put (cl_branch_id claims) |>)
  end.

Definition roleGate (secret : string) (allowed : list string) (c : Ctx) : (Z * string) + Ctx :=
  match requireAnyRoleFromToken c secret allowed with Some refusal => inl refusal | None => inr c end.

(** reservation_handler.go: the staff member acting, for attribution. *)
Definition actorUserID (c : Ctx) : option uuid :=
  if present (c_user_id c) then uuid_parse (TrimSpace (opt_str (c_user_id c))) else None.

(** *** A gate decides by the roles alone, and a refusal stops the handler *)

Lemma gate_refuses c secret allowed :
  requireAnyRoleFromToken c secret allowed = None <->
  exists claims roles r, jwtClaimsFromRequest c secret = Some claims /\ cl_roles claims = Some roles
    /\ In r roles /\ In (opt_str r) allowed.
Proof.
  unfold requireAnyRoleFromToken. split.
  - destruct (jwtClaimsFromRequest c secret) as [claims|]; [|discriminate].
    destruct (cl_roles claims) as [roles|] eqn:Er; [|discriminate].
    destruct (existsb _ roles) eqn:E; [|discriminate]. intros _.
    apply existsb_exists in E as (r & Hr & Ha). apply existsb_exists in Ha as (a & Ha & Eq%String.eqb_eq).
    exists claims, roles, r. subst a. auto.
  - intros (claims & roles & r & -> & -> & Hr & Ha).
    assert (E : existsb (fun rr => existsb (String.eqb (opt_str rr)) allowed) roles = true).
    { apply existsb_exists. exists r. split; [exact Hr|]. apply existsb_exists.
      exists (opt_str r). split; [exact Ha | apply String.eqb_refl]. }
    now rewrite E.
Qed.

Lemma guard_stops {B} verdict s m (k : unit -> M (Resp B) (Resp B)) w :
  verdict = Some (s, m) -> (u ← guard verdict; k u) w = (inl (RespError s m), w).
Proof. intros ->. reflexivity. Qed.

Lemma guard_passes {B} (k : unit -> M (Resp B) (Resp B)) w :
  (u ← guard None; k u) w = k tt w.
Proof. reflexivity. Qed.
End Auth.

Lemma stable_guard {env : Env} P {B} v : stable P (guard v : M (Resp B) unit).
Proof. destruct v as [[? ?]|]; [apply stable_throw | apply stable_ret]. Qed.
Lemma inert_guard {env : Env} c {B} v : inert c (guard v : M (Resp B) unit).
Proof. destruct v as [[? ?]|]; [apply inert_throw | apply inert_ret]. Qed.
#[export] Hint Resolve stable_guard inert_guard : keeps.

(** The tenant a gated route resolves from the Locals that authGate stored
    is the tenant baseHandler.hotelID resolves from the token itself, so the two
    kinds of handler never disagree on whose data a request may touch. *)
Theorem tenant_resolution_agrees (env : Env) (jwt : Jwt) secret c c'
  (Hfresh : c_hotel_id c = None) (Hgate : authGate secret c = inr c') :
  tenantHotelID c' = hotelID secret c'.
Proof.
  unfold authGate in Hgate. destruct (jwtClaimsFromRequest c secret) as [claims|] eqn:E; [|discriminate].
  injection Hgate as <-. unfold hotelID.
  assert (Hsame : jwtClaimsFromRequest (c <| c_user_id ::= fun local => if present (cl_sub claims) then Some (opt_str (cl_sub claims)) else local |>
               <| c_hotel_id ::= fun local => if present (cl_hotel_id claims) then Some (opt_str (cl_hotel_id claims)) else local |>
               <| c_branch_id ::= fun local => if present (cl_branch_id claims) then Some (opt_str (cl_branch_id claims)) else local |>) secret
             = jwtClaimsFromRequest c secret) by reflexivity.
  rewrite Hsame, E. unfold tenantHotelID. cbn. rewrite Hfresh.
  destruct (present (cl_hotel_id claims)) eqn:Ep; [|reflexivity].
  assert (Hp : present (Some (opt_str (cl_hotel_id claims))) = true) by exact Ep.
  rewrite Hp. reflexivity.
Qed.

(** Tokens of the form role@hotel, for concrete requests. *)
Definition demo_jwt : Jwt := fun token _ =>
  match String.index 0 "@" token with
  | Some n => Some {| cl_sub := Some "7"; cl_hotel_id := nullif (drop_str (S n) token); cl_branch_id := None;
                      cl_roles := Some [Some (take_str n token)]; cl_platform_admin := None |}
  | None => None
  end.
Definition demo_request (token id : string) : Ctx :=
  {| c_authorization := "Bearer " ++ token; c_session_cookie := ""; c_branch_header := "";
     c_params := fun k => if k =s "id" then id else ""; c_query := fun _ => "";
     c_user_id := None; c_hotel_id := None; c_branch_id := None |}.

Lemma tenant_resolution_agrees_witness :
  exists c', authGate (jwt := demo_jwt) "secret" (demo_request "receptionist@42" "9") = inr c'
             /\ tenantHotelID (env := calm) c' = hotelID (env := calm) (jwt := demo_jwt) "secret" c'
             /\ tenantHotelID (env := calm) c' = 42%N.
Proof.
  eexists. split; [reflexivity|]. split; [|reflexivity].
  apply (tenant_resolution_agrees calm demo_jwt "secret" (demo_request "receptionist@42" "9")); reflexivity.
Defined.
