(* ===== verification/Guards.v ===== *)
(** Guards: transactions written with Begin, a deferred Rollback and Commit, and
    what a handler knows inside one.  A handler reads a row, checks it, and only
    then writes; [guarded I G m G'] carries the checked facts G to the write,
    while the invariant I holds of the committed database and of the
    transaction's view of it, whatever statements fail. *)

From S2P Require Import Prelude GoLib Schema World Auth.
Local Open Scope Z_scope.

Definition under (I G : DB -> Prop) (d : DB) (t : TxState) : Prop :=
  I d /\ match t with TxOpen t' => I t' /\ G t' | _ => True end.

Section Guards.
Context {env : Env} (I : DB -> Prop).

Definition guarded (G : DB -> Prop) {E A} (m : M E A) (G' : A -> DB -> Prop) : Prop :=
  forall w, under I G (w_db w) (w_tx w) ->
    match m w with
    | (inr a, w') => under I (G' a) (w_db w') (w_tx w')
    | (inl _, w') => both I (w_db w') (w_tx w')
    end.

Lemma under_both G d t : under I G d t -> both I d t.
Proof. intros [H1 H2]. split; [exact H1|]. destruct t; [exact H2.. | apply H2]. Qed.
Lemma under_weaken (G G' : DB -> Prop) d t : (forall d', I d' -> G d' -> G' d') -> under I G d t -> under I G' d t.
Proof. intros H [H1 H2]. split; [exact H1|]. destruct t; [exact H2..|]. destruct H2. auto. Qed.

Lemma keeps_guarded {E A} (m : M E A) : guarded (fun _ => True) m (fun _ _ => True) -> keeps I m.
Proof.
  intros H w [H1 H2]. specialize (H w). destruct (m w) as [[e|a] w']; cbn.
  - apply H. split; [exact H1|]. destruct (w_tx w); auto.
  - eapply under_both, H. split; [exact H1|]. destruct (w_tx w); auto.
Qed.
Lemma guarded_keeps G {E A} (m : M E A) : keeps I m -> guarded G m (fun _ _ => True).
Proof.
  intros H w Hw. specialize (H w (under_both _ _ _ Hw)). destruct (m w) as [[e|a] w']; [exact H|].
  cbn in H. destruct H as [H1 H2]. split; [exact H1|]. destruct (w_tx w'); auto.
Qed.
Lemma guarded_stable G {E A} (m : M E A) : stable (under I G) m -> guarded G m (fun _ => G).
Proof. intros H w Hw. specialize (H w Hw). destruct (m w) as [[e|a] w']; [apply (under_both _ _ _ H) | exact H]. Qed.

Lemma guarded_weaken (G G1 : DB -> Prop) {E A} (m : M E A) (G' : A -> DB -> Prop) :
  guarded G1 m G' -> (forall d, I d -> G d -> G1 d) -> guarded G m G'.
Proof. intros H HG w Hw. apply H. eapply under_weaken; eauto. Qed.
Lemma guarded_post G {E A} (m : M E A) (G1 G2 : A -> DB -> Prop) :
  guarded G m G1 -> (forall a d, I d -> G1 a d -> G2 a d) -> guarded G m G2.
Proof. intros H HG w Hw. specialize (H w Hw). destruct (m w) as [[e|a] w']; [exact H|]. eapply under_weaken; [|exact H]. auto. Qed.

Lemma guarded_bind G {E A B} (m : M E A) (k : A -> M E B) G1 G2 :
  guarded G m G1 -> (forall a, guarded (G1 a) (k a) G2) -> guarded G (m ≫= k) G2.
Proof.
  intros Hm Hk w Hw. specialize (Hm w Hw). unfold mbind, M_bind.
  destruct (m w) as [[e|a] w']; [exact Hm | exact (Hk a w' Hm)].
Qed.
Lemma guarded_ret G {E A} (a : A) (G' : A -> DB -> Prop) : (forall d, G d -> G' a d) -> guarded G (mret a : M E A) G'.
Proof. intros H w Hw. eapply under_weaken; [|exact Hw]. auto. Qed.
Lemma guarded_throw G {E A} (e : E) (G' : A -> DB -> Prop) : guarded G (throw e) G'.
Proof. intros w Hw. exact (under_both _ _ _ Hw). Qed.
(** A check that refuses: what follows may rely on it. *)
Lemma guarded_then_throw_if G {E A} b (e : E) (k : unit -> M E A) G' :
  (b = false -> guarded G (k tt) G') -> guarded G (throw_if b e ≫= k) G'.
Proof. destruct b; intros H w Hw; [exact (under_both _ _ _ Hw) | exact (H eq_refl w Hw)]. Qed.
Lemma guarded_then_guard G {B A} v (k : unit -> M (Resp B) A) G' :
  (v = None -> guarded G (k tt) G') -> guarded G (guard v ≫= k) G'.
Proof. destruct v as [[? ?]|]; intros H w Hw; [exact (under_both _ _ _ Hw) | exact (H eq_refl w Hw)]. Qed.
(** Steps that leave what is known alone. *)
Lemma guarded_then_stable G {E A B} (m : M E A) (k : A -> M E B) G' :
  stable (under I G) m -> (forall a, guarded G (k a) G') -> guarded G (m ≫= k) G'.
Proof. intros Hm Hk. eapply guarded_bind; [apply guarded_stable, Hm | exact Hk]. Qed.
Lemma guarded_on_err G {E A} (m : M GoErr A) (h : GoErr -> E) G' : guarded G m G' -> guarded G (on_err m h) G'.
Proof. intros H w Hw. specialize (H w Hw). unfold on_err. destruct (m w) as [[|] ?]; exact H. Qed.

Lemma guarded_exec G {A} (f : DB -> GoErr + (A * DB)) (G' : A -> DB -> Prop) :
  (forall d a d', I d -> G d -> f d = inr (a, d') -> I d' /\ G' a d') -> guarded G (exec Tx f) G'.
Proof.
  intros Hf w [H1 H2]. unfold exec, both, under; cbn. destruct (w_tx w) as [| |t] eqn:Et; cbn; rewrite ?Et; auto.
  destruct (db_fault _); cbn; [auto|]. destruct (f t) as [e|[a t']] eqn:E; cbn; [auto|]. destruct H2. eauto.
Qed.
Lemma guarded_query G {A} (f : DB -> A) : guarded G (query Tx f) (fun a d => G d /\ a = f d).
Proof. apply guarded_exec. intros d a d' HI HG [= <- <-]. auto. Qed.
Lemma guarded_query_row G {A} (f : DB -> option A) : guarded G (query_row Tx f) (fun a d => G d /\ f d = Some a).
Proof.
  eapply guarded_bind; [apply guarded_query|]. intros o. destruct o as [a|]; [|apply guarded_throw].
  apply guarded_ret. intros d [HG E]. auto.
Qed.
(** A read whose error is a value: what was found, or what was known before. *)
Lemma guarded_attempt_row G {E A} (f : DB -> option A) :
  guarded G (attempt (query_row Tx f) : M E _) (fun r d => G d /\ match r with inr a => f d = Some a | inl _ => True end).
Proof.
  intros w [H1 H2]. unfold attempt, query_row, query, mbind, M_bind, exec, under; cbn.
  destruct (w_tx w) as [| |t] eqn:Et; cbn; rewrite ?Et; auto.
  destruct (db_fault _); cbn; [auto|]. destruct (f t) eqn:Ef; cbn; tauto.
Qed.

(** *** What stays known while other rows are written *)

Lemma under_exec G {A} c (f : DB -> GoErr + (A * DB)) :
  (forall d a d', I d -> f d = inr (a, d') -> I d') ->
  (forall d a d', I d -> G d -> f d = inr (a, d') -> G d') -> stable (under I G) (exec c f).
Proof.
  intros Hf Hg w0 [H1 H2]. unfold exec, under; destruct c; cbn.
  - destruct (db_fault _); cbn; [auto|].
    destruct (f (w_db w0)) as [e|[a d']] eqn:E; cbn; [auto|].
    split; [eauto|]. destruct (w_tx w0) as [| |t]; cbn; auto.
    destruct (f t) as [|[? t']] eqn:Et; [exact H2|]. destruct H2. split; eauto.
  - destruct (w_tx w0) as [| |t] eqn:Et; cbn; rewrite ?Et; auto.
    destruct (db_fault _); cbn; [auto|]. destruct H2.
    destruct (f t) as [e|[a t']] eqn:E; cbn; eauto.
Qed.
Lemma under_query G {A} c (f : DB -> A) : stable (under I G) (query c f).
Proof. apply under_exec; intros d a d' H; [intros [= <- <-] | intros ? [= <- <-]]; assumption. Qed.
Lemma under_query_row G {A} c (f : DB -> option A) : stable (under I G) (query_row c f).
Proof. apply stable_bind; [apply under_query | intros; apply stable_of_option]. Qed.

(** *** Begin, deferred Rollback, Commit *)

Lemma keeps_tx_with {B A} h1 h2 (body : M (Resp B) A) : keeps I body -> keeps I (tx_with h1 h2 body).
Proof.
  intros Hb. unfold tx_with. apply stable_bind; [apply stable_on_err, keeps_begin|]. intros [].
  apply stable_bind; [|intros a; apply stable_bind; [apply stable_on_err, keeps_commit | intros; apply stable_ret]].
  intros w Hw. specialize (Hb w Hw). destruct (body w) as [[e|a] w']; [|exact Hb].
  destruct Hb as [H1 _]. split; [exact H1 | exact Logic.I].
Qed.
Lemma keeps_tx_block {B A} s1 s2 (body : M (Resp B) A) : keeps I body -> keeps I (tx_block s1 s2 body).
Proof. apply keeps_tx_with. Qed.
End Guards.

#[export] Hint Resolve under_query under_query_row stable_guard keeps_tx_with keeps_tx_block : keeps.

Section Blocks.
Context {env : Env}.

(** Without a fault, the block commits what its body leaves. *)
Lemma runs_tx_with {B A} h1 h2 (body : M (Resp B) A) d Q R :
  runs Tx body d Q R -> runs Pool (tx_with h1 h2 body) d Q R.
Proof.
  intros Hb w [Ht Hd]. unfold tx_with, mbind, M_bind, on_err, begin_tx; cbn.
  destruct (db_fault (w_stmts w)) eqn:Ef; cbn.
  { right; left. split; [eexists; exact Ef | exact Ht]. }
  set (w1 := w <| w_stmts := _ |> <| w_tx := _ |>).
  specialize (Hb w1). unfold sees in Hb. cbn in Hb. rewrite Hd in Hb. specialize (Hb eq_refl).
  destruct (body w1) as [[e|a] w2]; cbn.
  - destruct Hb as [[H1 _]|[[H1 _]|[H1 _]]]; [left|right; left|left]; (split; [exact H1|]);
      first [reflexivity | exists (w_db w2); split; reflexivity].
  - unfold commit_tx. destruct Hb as [(d' & H1 & H2)|[H1 H2]].
    + unfold sees in H1. rewrite H1. destruct (db_fault (w_stmts w2)) eqn:E2; cbn.
      * right; left. split; [eexists; exact E2 | reflexivity].
      * left. exists d'. split; [split; reflexivity | exact H2].
    + unfold spoiled in H2. rewrite H2. right; left. split; [exact H1 | reflexivity].
Qed.

Lemma inert_tx_with {B A} h1 h2 (body : M (Resp B) A) : inert Pool (tx_with h1 h2 body).
Proof.
  intros w Hw. unfold spoiled in *. unfold tx_with, mbind, M_bind, on_err, begin_tx; cbn.
  destruct (db_fault (w_stmts w)); cbn; [exact Hw|]. destruct (body _) as [[e|a] w2]; cbn; [reflexivity|].
  unfold commit_tx. destruct (w_tx w2); cbn; try reflexivity. destruct (db_fault _); reflexivity.
Qed.
Lemma inert_tx_block {B A} s1 s2 (body : M (Resp B) A) : inert Pool (tx_block s1 s2 body).
Proof. apply inert_tx_with. Qed.
Lemma runs_tx_block {B A} s1 s2 (body : M (Resp B) A) d Q R :
  runs Tx body d Q R -> runs Pool (tx_block s1 s2 body) d Q R.
Proof. apply runs_tx_with. Qed.

(** When the block stops early, nothing was written. *)
Lemma tx_with_atomic {B A} h1 h2 (body : M (Resp B) A) w r w' :
  tx_local body -> tx_with h1 h2 body w = (inl r, w') -> w_db w' = w_db w.
Proof.
  intros Hl. unfold tx_with, mbind, M_bind, on_err, begin_tx; cbn.
  destruct (db_fault (w_stmts w)); cbn; [intros [= _ <-]; reflexivity|].
  set (w1 := w <| w_stmts := _ |> <| w_tx := _ |>).
  pose proof (Hl (w_db w1) w1 eq_refl) as Hb. unfold committed in Hb.
  destruct (body w1) as [[e|a] w2]; cbn in *; [intros [= _ <-]; exact Hb|].
  unfold commit_tx. destruct (w_tx w2); [intros [= _ <-]; exact Hb..|].
  destruct (db_fault _); [intros [= _ <-]; exact Hb | discriminate].
Qed.


(** Whatever fails: the block commits what its body leaves, or stops with an answer
    of the body's or because a statement failed, having written nothing. *)
Lemma ens_tx_or {B A} h1 h2 (body : M (Resp B) A) d (Q : A -> DB -> Prop) (R0 : Resp B -> Prop) (R : Resp B -> DB -> Prop) :
  runs Tx body d Q R0 -> tx_local body -> (forall r, R0 r \/ faulty -> R r d) -> ensures (tx_with h1 h2 body) d Q R.
Proof.
  intros Hb Hl HR w [Ht <-]. destruct (tx_with h1 h2 body w) as [[r|a] w'] eqn:E.
  - enough (H : w_tx w' = NoTx /\ (R0 r \/ faulty)).
    { split; [apply H|]. rewrite (tx_with_atomic h1 h2 body w r w' Hl E). apply HR, H. }
    revert E. unfold tx_with, mbind, M_bind, on_err, begin_tx; cbn.
    destruct (db_fault (w_stmts w)) eqn:F; cbn; [intros [= _ <-]; split; [exact Ht | right; eexists; exact F]|].
    set (w1 := w <| w_stmts := _ |> <| w_tx := _ |>). specialize (Hb w1 eq_refl).
    destruct (body w1) as [[e|a] w2]; cbn.
    + intros [= <- <-]. split; [reflexivity|]. destruct Hb as [[H _]|[[H _]|[H _]]]; auto.
    + unfold commit_tx. destruct Hb as [(d' & H1 & H2)|[H1 H2]].
      * unfold sees in H1. rewrite H1. destruct (db_fault (w_stmts w2)) eqn:F2; cbn; [intros [= _ <-]; split; [reflexivity | right; eexists; exact F2] | discriminate].
      * unfold spoiled in H2. rewrite H2. cbn. intros [= _ <-]. split; [reflexivity | right; exact H1].
  - revert E. unfold tx_with, mbind, M_bind, on_err, begin_tx; cbn.
    destruct (db_fault (w_stmts w)); cbn; [discriminate|].
    set (w1 := w <| w_stmts := _ |> <| w_tx := _ |>). specialize (Hb w1 eq_refl).
    destruct (body w1) as [[e|a2] w2]; cbn; [discriminate|]. unfold commit_tx.
    destruct Hb as [(d' & H1 & H2)|[_ H1]].
    + unfold sees in H1. rewrite H1. destruct (db_fault _); [discriminate|]. intros [= -> <-]. split; [reflexivity | exact H2].
    + unfold spoiled in H1. rewrite H1. discriminate.
Qed.
Lemma ens_tx_with {B A} h1 h2 (body : M (Resp B) A) d (Q : A -> DB -> Prop) (R : Resp B -> DB -> Prop) :
  runs Tx body d Q (fun _ => True) -> tx_local body -> (forall r, R r d) -> ensures (tx_with h1 h2 body) d Q R.
Proof. intros. eapply ens_tx_or; eauto. Qed.
Lemma ens_tx_block {B A} s1 s2 (body : M (Resp B) A) d (Q : A -> DB -> Prop) (R : Resp B -> DB -> Prop) :
  runs Tx body d Q (fun _ => True) -> tx_local body -> (forall r, R r d) -> ensures (tx_block s1 s2 body) d Q R.
Proof. apply ens_tx_with. Qed.
End Blocks.
#[export] Hint Resolve inert_tx_with inert_tx_block : keeps.

(** ** Steps of a computation, whatever fails *)

Section Effects.
Context {env : Env}.

(** A computation on the pool that keeps I and leaves no transaction open. *)
Lemma ens_keeps {E A} (I : DB -> Prop) (m : M E A) d :
  keeps I m -> inert Pool m -> I d -> ensures m d (fun _ => I) (fun _ => I).
Proof.
  intros Hk Hi HI w [Ht <-]. specialize (Hk w). specialize (Hi w Ht). unfold spoiled in Hi. rewrite Ht in Hk.
  destruct (m w) as [[e|a] w']; (split; [exact Hi|]); apply Hk; split; auto.
Qed.

Lemma inert_WithTenantTx {A} (fn : Conn -> M GoErr A) : inert Pool (WithTenantTx fn).
Proof.
  intros w Ht. unfold spoiled in *. unfold WithTenantTx. rewrite Ht. unfold wrap, on_err, begin_tx; cbn.
  destruct (db_fault _); cbn; [exact Ht|]. destruct (fn Tx _) as [[e|a] w2]; cbn; [reflexivity|].
  unfold commit_tx. destruct (w_tx w2); [reflexivity..|]. destruct (db_fault _); reflexivity.
Qed.

(** A read on the pool whose error stops the handler. *)
Lemma ens_then_read {E A B} (f : DB -> A) (h : GoErr -> E) (k : A -> M E B) d Q (R : E -> DB -> Prop) :
  (forall e, R (h e) d) -> ensures (k (f d)) d Q R -> ensures (a ← on_err (query Pool f) h; k a) d Q R.
Proof.
  intros HR Hk. eapply ens_bind; [apply ens_on_err, ens_query with (Q := fun a d' => a = f d /\ d' = d); auto|].
  intros a d' [-> ->]. exact Hk.
Qed.
Lemma ens_then_row {E A B} (f : DB -> option A) (h : GoErr -> E) (k : A -> M E B) d Q (R : E -> DB -> Prop) :
  (forall e, R (h e) d) -> (forall a, f d = Some a -> ensures (k a) d Q R) -> ensures (a ← on_err (query_row Pool f) h; k a) d Q R.
Proof.
  intros HR Hk. eapply ens_bind with (Q1 := fun a d' => f d = Some a /\ d' = d).
  - apply ens_on_err. unfold query_row. eapply ens_bind; [apply ens_query with (Q := fun a d' => a = f d /\ d' = d); auto|].
    intros o d' [-> ->]. apply ens_of_option. destruct (f d); auto.
  - intros a d' [E1 ->]. now apply Hk.
Qed.
Lemma ens_then_throw_if {E B} (b : bool) (e : E) (k : unit -> M E B) d Q (R : E -> DB -> Prop) :
  (b = true -> R e d) -> (b = false -> ensures (k tt) d Q R) -> ensures (u ← throw_if b e; k u) d Q R.
Proof. intros H1 H2. destruct b; cbn; [intros w [Ht <-]; split; auto | intros w Hw; exact (H2 eq_refl w Hw)]. Qed.
Lemma ens_then_option {E A B} (o : option A) (e : E) (k : A -> M E B) d Q (R : E -> DB -> Prop) :
  (o = None -> R e d) -> (forall a, o = Some a -> ensures (k a) d Q R) -> ensures (a ← of_option o e; k a) d Q R.
Proof. intros H1 H2. destruct o as [a|]; cbn; [intros w Hw; exact (H2 a eq_refl w Hw) | intros w [Ht <-]; split; auto]. Qed.
Lemma ens_then_now {E B} (k : Time -> M E B) d Q (R : E -> DB -> Prop) :
  (forall t, ensures (k t) d Q R) -> ensures (t ← time_now; k t) d Q R.
Proof. intros H. eapply ens_bind; [apply ens_now with (Q := fun _ d' => d' = d); auto|]. intros t d' ->. apply H. Qed.
Lemma ens_then_uuid {E B} (k : uuid -> M E B) d Q (R : E -> DB -> Prop) :
  (forall n, ensures (k (uuid_new n)) d Q R) -> ensures (u ← new_uuid; k u) d Q R.
Proof.
  intros H. eapply ens_bind; [apply ens_uuid with (Q := fun u d' => (exists n, u = uuid_new n) /\ d' = d); eauto|].
  intros t d' [[n ->] ->]. apply H.
Qed.

(** Without a fault, a computation that can only fail by one returns its result. *)
Lemma runs_calm {E A} (m : M E A) d Q w :
  (forall n, db_fault n = false) -> sees Pool w d -> runs Pool m d Q (fun _ => False) ->
  exists a w', m w = (inr a, w') /\ sees Pool w' (w_db w') /\ Q a (w_db w').
Proof.
  intros Hcalm Hw Hm. specialize (Hm w Hw). assert (Hf : ~ faulty) by (intros [n Hn]; rewrite Hcalm in Hn; discriminate).
  destruct (m w) as [[r|a] w'].
  - destruct Hm as [[[] _]|[[H _]|[[] _]]]. contradiction.
  - destruct Hm as [(d' & [H1 <-] & H)|[H _]]; [|contradiction]. do 2 eexists. split; [reflexivity|]. split; [split; auto | exact H].
Qed.
End Effects.
