(* ===== verification/Statements.v ===== *)
(** Statements: requests and the statements they lose.

    The handlers drop the error of some reads (the tax rate, the row read back
    after a write).  [tells s m d Q R] says what such a request does on the
    database d, its first statement being number s: it returns a value of Q, which
    may speak of the statements sent so far, or stops early with an error of R. *)

From S2P Require Import Prelude GoLib Schema World.

Section Statements.
Context {env : Env}.

(** One of the statements number s to s' - 1 failed in the driver. *)
Definition lost_between (s s' : nat) : Prop := exists n, (s <= n < s')%nat /\ db_fault n = true.

(** Statements are only ever added. *)
Definition grows {E A} (m : M E A) : Prop := forall w, (w_stmts w <= w_stmts (snd (m w)))%nat.

Lemma grows_ret {E A} (a : A) : grows (mret a : M E A).
Proof. intros w. apply Nat.le_refl. Qed.
Lemma grows_throw {E A} (e : E) : grows (throw e : M E A).
Proof. intros w. apply Nat.le_refl. Qed.
Lemma grows_throw_if {E} b (e : E) : grows (throw_if b e).
Proof. destruct b; intros w; apply Nat.le_refl. Qed.
Lemma grows_of_option {E A} (o : option A) (e : E) : grows (of_option o e).
Proof. destruct o; intros w; apply Nat.le_refl. Qed.
Lemma grows_new_uuid {E} : grows (new_uuid : M E uuid).
Proof. intros w. apply Nat.le_refl. Qed.
Lemma grows_time_now {E} : grows (time_now : M E Time).
Proof. intros w. apply Nat.le_refl. Qed.
Lemma grows_current_date {E} : grows (current_date : M E Time).
Proof. intros w. apply Nat.le_refl. Qed.
Lemma grows_send {E} n : grows (send n : M E unit).
Proof. intros w. apply Nat.le_refl. Qed.
Lemma grows_exec {A} c (f : DB -> GoErr + (A * DB)) : grows (exec c f).
Proof.
  intros w. unfold exec. destruct c; repeat case_match; cbn; lia.
Qed.
Lemma grows_bind {E A B} (m : M E A) (k : A -> M E B) : grows m -> (forall a, grows (k a)) -> grows (m ≫= k).
Proof.
  intros Hm Hk w. specialize (Hm w). unfold mbind, M_bind. destruct (m w) as [[e|a] w1]; [exact Hm|].
  specialize (Hk a w1). cbn in *. lia.
Qed.
Lemma grows_attempt {E A} (m : M GoErr A) : grows m -> grows (attempt m : M E _).
Proof. intros Hm w. specialize (Hm w). unfold attempt. destruct (m w). exact Hm. Qed.
Lemma grows_on_err {E A} (m : M GoErr A) (h : GoErr -> E) : grows m -> grows (on_err m h).
Proof. intros Hm w. specialize (Hm w). unfold on_err. destruct (m w) as [[|] ?]; exact Hm. Qed.
Lemma grows_for_each {E A} (f : A -> M E unit) l : (forall x, grows (f x)) -> grows (for_each f l).
Proof. intros Hf. induction l; cbn; [apply grows_ret | apply grows_bind; auto]. Qed.
Lemma grows_WithTenantTx {A} (fn : Conn -> M GoErr A) : grows (fn Tx) -> grows (WithTenantTx fn).
Proof.
  intros Hfn w. unfold WithTenantTx. destruct (w_tx w); [|cbn; lia..].
  unfold wrap, on_err, begin_tx. destruct (db_fault _); cbn; [lia|].
  match goal with |- context [fn Tx ?w1] => specialize (Hfn w1); destruct (fn Tx w1) as [[e|a] w2] end; cbn in *; [lia|].
  unfold commit_tx. destruct (w_tx w2); cbn; try lia. destruct (db_fault _); cbn; lia.
Qed.
End Statements.

#[export] Hint Resolve grows_ret grows_throw grows_throw_if grows_of_option grows_exec grows_new_uuid grows_time_now
  grows_current_date grows_send : keeps.

Ltac grows_step :=
  first
    [ solve [auto with keeps]
    | match goal with
      | |- grows (mbind _ _) => apply grows_bind; [|intros ?]
      | |- grows (match ?x with _ => _ end) => destruct x
      | |- grows (on_err _ _) => apply grows_on_err
      | |- grows (wrap _ _) => apply grows_on_err
      | |- grows (attempt _) => apply grows_attempt
      | |- grows (query _ _) => apply grows_exec
      | |- grows (exec_n _ _) => apply grows_exec
      | |- grows (query_row _ _) => unfold query_row
      | |- grows (for_each _ _) => apply grows_for_each; intros ?
      | |- grows (WithTenantTx _) => apply grows_WithTenantTx
      | |- grows (let _ := _ in _) => cbv zeta
      end ].
Ltac grows_go := repeat grows_step.

Section Tells.
Context {env : Env}.

Definition tells (s : nat) {E A} (m : M E A) (d : DB) (Q : nat -> A -> DB -> Prop) (R : E -> DB -> Prop) : Prop :=
  forall w, sees Pool w d -> w_stmts w = s ->
    let w' := snd (m w) in
    (s <= w_stmts w')%nat /\ w_tx w' = NoTx /\
    match fst (m w) with inr a => Q (w_stmts w') a (w_db w') | inl e => R e (w_db w') end.

Lemma tells_ensures s {E A} (m : M E A) d Q (R : E -> DB -> Prop) :
  grows m -> ensures m d Q R -> tells s m d (fun _ => Q) R.
Proof.
  intros Hg Hm w Hw <-. specialize (Hg w). specialize (Hm w Hw). destruct (m w) as [[e|a] w']; destruct Hm; cbn in *; auto.
Qed.
Lemma tells_ret s {E A} (a : A) d (Q : nat -> A -> DB -> Prop) (R : E -> DB -> Prop) : Q s a d -> tells s (mret a) d Q R.
Proof. intros H w [Ht <-] <-. repeat split; auto. Qed.
Lemma tells_throw s {E A} (e : E) d (Q : nat -> A -> DB -> Prop) (R : E -> DB -> Prop) : R e d -> tells s (throw e) d Q R.
Proof. intros H w [Ht <-] <-. repeat split; auto. Qed.
Lemma tells_bind s {E A B} (m : M E A) (k : A -> M E B) d Q1 Q (R : E -> DB -> Prop) :
  tells s m d Q1 R -> (forall s1 a d1, (s <= s1)%nat -> Q1 s1 a d1 -> tells s1 (k a) d1 Q R) -> tells s (m ≫= k) d Q R.
Proof.
  intros Hm Hk w Hw Hs. specialize (Hm w Hw Hs). unfold mbind, M_bind. destruct (m w) as [[e|a] w1]; cbn in *; [exact Hm|].
  destruct Hm as (Hle & Ht & HQ). destruct (Hk _ a _ Hle HQ w1 (conj Ht eq_refl) eq_refl) as (H1 & H2 & H3).
  split; [lia | auto].
Qed.
Lemma tells_post s {E A} (m : M E A) d (Q Q' : nat -> A -> DB -> Prop) (R R' : E -> DB -> Prop) :
  tells s m d Q R -> (forall s' a d', (s <= s')%nat -> Q s' a d' -> Q' s' a d') -> (forall e d', R e d' -> R' e d') ->
  tells s m d Q' R'.
Proof.
  intros Hm HQ HR w Hw Hs. destruct (Hm w Hw Hs) as (H1 & H2 & H3). destruct (m w) as [[e|a] w']; cbn in *; auto.
Qed.
Lemma tells_on_err s {E A} (m : M GoErr A) (g : GoErr -> E) d Q (R : E -> DB -> Prop) :
  tells s m d Q (fun e => R (g e)) -> tells s (on_err m g) d Q R.
Proof. intros Hm w Hw Hs. specialize (Hm w Hw Hs). unfold on_err. destruct (m w) as [[e|a] w']; exact Hm. Qed.

(** A read that finds a row, finds none, or is lost: its error as a value. *)
Lemma tells_attempt_find s {E A} (f : DB -> option A) d (R : E -> DB -> Prop) :
  tells s (attempt (o ← query Pool f; of_option o ErrNotFound)) d
    (fun s' r d' => d' = d /\ match r with inr a => f d = Some a | inl e => (f d = None \/ lost_between s s') end) R.
Proof.
  intros w [Ht <-] <-. unfold attempt, query, exec, mbind, M_bind; cbn. destruct (db_fault (w_stmts w)) eqn:Ef; cbn.
  - repeat split; auto. right. exists (w_stmts w). split; [lia | exact Ef].
  - rewrite Ht. destruct (f (w_db w)); cbn; rewrite ?Ht; auto 6.
Qed.
Lemma tells_attempt_query s {E A} (f : DB -> A) d (R : E -> DB -> Prop) :
  tells s (attempt (query Pool f)) d (fun s' r d' => d' = d /\ match r with inr a => a = f d | inl _ => lost_between s s' end) R.
Proof.
  intros w [Ht <-] <-. unfold attempt, query, exec; cbn. destruct (db_fault (w_stmts w)) eqn:Ef; cbn.
  - repeat split; auto. exists (w_stmts w). split; [lia | exact Ef].
  - rewrite Ht. auto.
Qed.

Lemma lost_between_weaken a b a' b' : lost_between a b -> (a' <= a)%nat -> (b <= b')%nat -> lost_between a' b'.
Proof. intros (n & Hn & Hf) ? ?. exists n. split; [lia | exact Hf]. Qed.

(** The answer to a request, and the statements it sent. *)
Lemma serve_tells {B} (m : M (Resp B) (Resp B)) d (Q : nat -> Resp B -> DB -> Prop) (R : Resp B -> DB -> Prop) w :
  sees Pool w d -> tells (w_stmts w) m d Q R -> let w' := snd (serve m w) in
  (Q (w_stmts w') (fst (serve m w)) (w_db w') \/ R (fst (serve m w)) (w_db w')) /\ w_tx w' = NoTx.
Proof.
  intros Hw Hm. destruct (Hm w Hw eq_refl) as (_ & _ & H). unfold serve. destruct (m w) as [[r|r] w']; cbn in *; auto.
Qed.
End Tells.
