(* ===== verification/Domain.v ===== *)
(** Domain: internal/domain.  Room and reservation statuses with their validity
    and sellability tests, the GuestStay entity with the amount payable, and the
    calendar-night count that every price is based on. *)

From S2P Require Import Prelude GoLib Schema Binary64.
From Stdlib Require Import QArith.
Local Open Scope string_scope.
Local Open Scope Z_scope.

(** ** Room status *)

Definition RoomStatusAvailable := "available".
Definition RoomStatusOccupied := "occupied".
Definition RoomStatusCleaning := "cleaning".
Definition RoomStatusMaintenance := "maintenance".
Definition RoomStatusOutOfOrder := "out_of_order".

(** The value list of [NonSellableRoomStatusSQL]. *)
Definition NonSellableRoomStatusSQL : list string := ["maintenance"; "out_of_order"].

Definition RoomStatus_Valid (s : string) : bool :=
  (s =s RoomStatusAvailable) || (s =s RoomStatusOccupied) || (s =s RoomStatusCleaning)
  || (s =s RoomStatusMaintenance) || (s =s RoomStatusOutOfOrder).

Definition RoomStatusValues : list string :=
  [RoomStatusAvailable; RoomStatusOccupied; RoomStatusCleaning;
   RoomStatusMaintenance; RoomStatusOutOfOrder].

Definition Sellable (s : string) : bool :=
  (s !=s RoomStatusMaintenance) && (s !=s RoomStatusOutOfOrder).

(** ** Reservation status *)

Definition ReservationTentative := "tentative".
Definition ReservationConfirmed := "confirmed".
Definition ReservationInHouse := "in_house".
Definition ReservationCheckedOut := "checked_out".
Definition ReservationCancelled := "cancelled".
Definition ReservationNoShow := "no_show".

Definition ReservationStatus_Valid (s : string) : bool :=
  (s =s ReservationTentative) || (s =s ReservationConfirmed) || (s =s ReservationInHouse)
  || (s =s ReservationCheckedOut) || (s =s ReservationCancelled) || (s =s ReservationNoShow).

Definition ReservationStatusValues : list string :=
  [ReservationTentative; ReservationConfirmed; ReservationInHouse; ReservationCheckedOut;
   ReservationCancelled; ReservationNoShow].

(** ** Entities *)

Record RoomSummary := { rs_RoomNumber : string; rs_RoomType : string }.

Record Room := {
  R_ID : uuid; R_HotelID : uuid; R_RoomNumber : string; R_RoomType : string; R_Floor : Z;
  R_Capacity : Z; R_PricePerNight : Q; R_Status : string; R_Amenities : option (list string);
  R_CreatedAt : Time; R_UpdatedAt : Time }.

Record GuestStay := {
  ID : uuid; HotelID : uuid; GuestID : option uuid; RoomID : uuid; GuestName : string;
  GuestEmail : option string; GuestPhone : option string;
  CheckInDate : Time; CheckOutDate : Time;
  ActualCheckIn : option Time; ActualCheckOut : option Time;
  TotalAmount : option Q; Notes : option string; Source : option string;
  CreatedBy : option uuid; CreatedAt : Time; UpdatedAt : Time; SRoom : option RoomSummary;
  Status : string; ConfirmationNo : option string; CancelledAt : option Time;
  CancellationReason : option string; CancellationFee : Q;
  Adults : Z; Children : Z; ApproachType : string;
  DiscountAmount : Q; TaxAmount : Q; PromoCode : option string }.

Definition Payable (g : GuestStay) : Q :=
  let base := match TotalAmount g with Some t => t | None => 0%Q end in
  fadd (fsub base (DiscountAmount g)) (TaxAmount g).

(** ** Calendar nights *)

Definition CalendarNights (checkIn checkOut : Time) : Z :=
  let inDay := Date (Year checkIn) (Month checkIn) (Day checkIn) 0 0 0 in
  let outDay := Date (Year checkOut) (Month checkOut) (Day checkOut) 0 0 0 in
  Z.quot (Sub outDay inDay) (24 * 3600 * ns_per_s).

(** *** Nights count the dates between arrival and departure *)

Lemma CalendarNights_days i o :
  Z.abs (local_day o - local_day i) <= 100000 ->
  CalendarNights i o = local_day o - local_day i.
Proof.
  intros H. unfold CalendarNights. rewrite !date_of_parts. unfold Sub. cbn [t_ns].
  unfold ns_per_s in *. change (10 ^ 9) with 1000000000.
  replace (local_day o * 86400 * 1000000000 - local_day i * 86400 * 1000000000)
    with ((local_day o - local_day i) * (24 * 3600 * 1000000000)) by lia.
  rewrite Z.min_r, Z.max_r by lia. apply Z.quot_mul. lia.
Qed.

(** Moving either end within its calendar day does not change the count. *)
Lemma CalendarNights_same_day i i' o o' :
  local_day i = local_day i' -> local_day o = local_day o' ->
  CalendarNights i o = CalendarNights i' o'.
Proof. intros Hi Ho. unfold CalendarNights. now rewrite !date_of_parts, Hi, Ho. Qed.

Lemma add_days_local_day t n : local_day (add_days t n) = local_day t + n.
Proof.
  unfold local_day, local_sec, unix_sec, add_days, ns_per_s; cbn [t_ns t_off].
  replace (t_ns t + n * 86400 * 10 ^ 9) with (t_ns t + (n * 86400) * 10 ^ 9) by ring.
  rewrite Z.div_add by lia.
  replace (t_ns t / 10 ^ 9 + n * 86400 + t_off t) with (t_ns t / 10 ^ 9 + t_off t + n * 86400) by lia.
  apply Z.div_add. lia.
Qed.

(** The amount payable of a stay priced in whole paise. *)
Lemma Payable_cents g b d t :
  TotalAmount g = Some (cents b) -> DiscountAmount g = cents d -> TaxAmount g = cents t ->
  Z.abs b <= 10 ^ 13 -> Z.abs d <= 10 ^ 13 -> Z.abs t <= 10 ^ 13 ->
  to_cents (Payable g) = b - d + t.
Proof.
  intros Hb Hd Ht ? ? ?. unfold Payable. rewrite Hb, Hd, Ht.
  apply (to_cents_near 5); unfold MAXC; [|lia|lia].
  apply (fadd_near 3 1); unfold MAXC; [apply (fsub_near 1 1); unfold MAXC|..]; try lia;
    apply cents_near; unfold MAXC; lia.
Qed.
