(* ===== verification/RoomRepo.v ===== *)
(** RoomRepo: internal/repository/postgres/room_repository.go.  Rooms, guest
    stays, CRM guests and folios.  Every method takes the connection its context
    selects ([poolFromContext]): the pool, or the transaction of WithTenantTx.

    The constraints of guest_stays are those of migration 027 and of
    scripts/add_guest_stays_overlap_constraint.sql; a violating INSERT or UPDATE
    fails with the SQLSTATE PostgreSQL gives it. *)

From S2P Require Import Prelude GoLib Schema Binary64 World Domain.
From Stdlib Require Import QArith.
Local Open Scope string_scope.
Local Open Scope Z_scope.

(** ** Constraints of guest_stays *)

(** tstzrange(a_in, a_out, '[)') && tstzrange(b_in, b_out, '[)'), both non-empty *)
Definition ranges_overlap (aIn aOut bIn bOut : Time) : bool := Before aIn bOut && Before bIn aOut.

Definition live (s : StayRow) : bool := gs_status s !=s "cancelled".

(** The pairs guest_stays_no_overlap excludes. *)
Definition excluded_pair (a b : StayRow) : bool :=
  live a && live b && ueq (gs_room_id a) (gs_room_id b)
  && ranges_overlap (gs_check_in_date a) (gs_check_out_date a) (gs_check_in_date b) (gs_check_out_date b).

(** guest_stays_status_check, guest_stays_occupancy_check, guest_stays_dates_check *)
Definition stay_row_ok (s : StayRow) : bool :=
  ReservationStatus_Valid (gs_status s)
  && (0 <=? gs_adults s) && (0 <=? gs_children s) && (1 <=? gs_adults s + gs_children s)
  && After (gs_check_out_date s) (gs_check_in_date s).

(** The violation raised by storing s beside the other rows, if any: a CHECK,
    the primary key, guest_stays_confirmation_no_key, guest_stays_no_overlap. *)
Definition stay_violation (s : StayRow) (others : list StayRow) : option string :=
  if negb (stay_row_ok s) then Some "23514"
  else if exists_row (fun o => ueq (gs_id o) (gs_id s)) others then Some "23505"
  else if exists_row (fun o => ueq (gs_hotel_id o) (gs_hotel_id s) && bool_decide (is_Some (gs_confirmation_no s))
                            && bool_decide (gs_confirmation_no o = gs_confirmation_no s)) others
       then Some "23505"
  else if exists_row (excluded_pair s) others then Some "23P01"
  else None.

Definition insert_stay (s : StayRow) (d : DB) : GoErr + (StayRow * DB) :=
  match stay_violation s (guest_stays d) with
  | Some code => inl (ErrPg code)
  | None => inr (s, d <| guest_stays ::= insert_row s |>)
  end.

(** An UPDATE of the one stay with this id and tenant. *)
Definition stay_key (hotelID id : uuid) (s : StayRow) : bool :=
  ueq (gs_id s) id && ueq (gs_hotel_id s) hotelID.

Definition update_stay_row (hotelID id : uuid) (f : StayRow -> StayRow) (d : DB) : GoErr + (nat * DB) :=
  match find_row (stay_key hotelID id) (guest_stays d) with
  | None => inr (0%nat, d)
  | Some s =>
      match stay_violation (f s) (delete_rows (fun o => ueq (gs_id o) id) (guest_stays d)) with
      | Some code => inl (ErrPg code)
      | None => inr (1%nat, d <| guest_stays ::= update_rows (stay_key hotelID id) f |>)
      end
  end.

(** ** Columns that UpdateStay is given *)

Inductive StayField :=
  | F_room_id (v : uuid) | F_total_amount (v : Q) | F_discount_amount (v : Q) | F_tax_amount (v : Q)
  | F_guest_name (v : string) | F_guest_email (v : string) | F_guest_phone (v : string)
  | F_check_in_date (v : Time) | F_check_out_date (v : Time) | F_notes (v : string) | F_source (v : string)
  | F_actual_check_in (v : Time) | F_actual_check_out (v : Time) | F_status (v : string).

(** Filters of ListStays, and columns UpdateRoom is given. *)
Inductive StayFilter := SF_guest_id (v : uuid) | SF_room_id (v : uuid) | SF_status (v : string) | SF_other.

Inductive RoomField :=
  | RF_room_number (v : string) | RF_room_type (v : string) | RF_floor (v : Z) | RF_capacity (v : Z)
  | RF_price_per_night (v : Q) | RF_status (v : string)
  | RF_refused    (* a column with a value it cannot take *)
  | RF_other.     (* not a column to update *)

(** PostgreSQL's LIKE on a pattern with %, _ and backslash escapes *)
Fixpoint like (p s : string) {struct p} : bool :=
  match p with
  | EmptyString => s =s ""
  | String c p' =>
      if Ascii.eqb c "%" then
        (fix any (s : string) : bool :=
           like p' s || match s with String _ s' => any s' | EmptyString => false end) s
      else if Ascii.eqb c "_" then
        match s with String _ s' => like p' s' | EmptyString => false end
      else if Ascii.eqb c "\" then
        match p', s with
        | String l p'', String x s' => Ascii.eqb l x && like p'' s'
        | _, _ => false
        end
      else match s with String x s' => Ascii.eqb c x && like p' s' | EmptyString => false end
  end.
Definition ilike (s pattern : string) : bool := like (ToLower pattern) (ToLower s).

Section Repo.
Context {env : Env}.

Definition scan_time (t : Time) : Time := {| t_ns := t_ns t; t_off := server_off |}.

Definition set_stay_field (f : StayField) (s : StayRow) : StayRow :=
  match f with
  | F_room_id v => s <| gs_room_id := v |>
  | F_total_amount v => s <| gs_total_amount := Some (num_enc v) |>
  | F_discount_amount v => s <| gs_discount_amount := num_enc v |>
  | F_tax_amount v => s <| gs_tax_amount := num_enc v |>
  | F_guest_name v => s <| gs_guest_name := v |>
  | F_guest_email v => s <| gs_guest_email := Some v |>
  | F_guest_phone v => s <| gs_guest_phone := Some v |>
  | F_check_in_date v => s <| gs_check_in_date := v |>
  | F_check_out_date v => s <| gs_check_out_date := v |>
  | F_notes v => s <| gs_notes := Some v |>
  | F_source v => s <| gs_source := Some v |>
  | F_actual_check_in v => s <| gs_actual_check_in := Some v |>
  | F_actual_check_out v => s <| gs_actual_check_out := Some v |>
  | F_status v => s <| gs_status := v |>
  end.

(** *** Rooms *)

Definition scanRoom (r : RoomRow) : Room :=
  {| R_ID := rm_id r; R_HotelID := rm_hotel_id r; R_RoomNumber := rm_room_number r;
     R_RoomType := rm_room_type r; R_Floor := rm_floor r; R_Capacity := rm_capacity r;
     R_PricePerNight := num_dec (rm_price_per_night r); R_Status := rm_status r;
     R_Amenities := Some (rm_amenities r); R_CreatedAt := scan_time (rm_created_at r);
     R_UpdatedAt := scan_time (rm_updated_at r) |}.
Definition scanRooms (l : list RoomRow) : list Room := map scanRoom l.

Definition by_floor_number (a b : RoomRow) : bool :=
  (rm_floor a <? rm_floor b) || ((rm_floor a =? rm_floor b) && String.leb (rm_room_number a) (rm_room_number b)).

Definition ListRooms (c : Conn) (hotelID : uuid) (status : option string) : M GoErr (list Room) :=
  query c (fun d =>
    scanRooms (order_by by_floor_number
      (select (fun r => ueq (rm_hotel_id r) hotelID
                        && match status with Some s => rm_status r =s s | None => true end) (rooms d))))
  onerr Wrap "roomRepo.ListRooms".

(** The stay predicate of ListRoomsAvailableBetween: no condition on status. *)
Definition blocks_listing (rm : RoomRow) (checkIn checkOut : Time) (gs : StayRow) : bool :=
  ueq (gs_hotel_id gs) (rm_hotel_id rm) && ueq (gs_room_id gs) (rm_id rm)
  && Before (gs_check_in_date gs) checkOut && After (gs_check_out_date gs) checkIn.

Definition available_rows (hotelID : uuid) (checkIn checkOut : Time) (d : DB) : list RoomRow :=
  select (fun rm => ueq (rm_hotel_id rm) hotelID
                    && negb (existsb (String.eqb (rm_status rm)) NonSellableRoomStatusSQL)
                    && negb (exists_row (blocks_listing rm checkIn checkOut) (guest_stays d))) (rooms d).

Definition ListRoomsAvailableBetween (c : Conn) (hotelID : uuid) (checkIn checkOut : Time)
  : M GoErr (list Room) :=
  query c (fun d => scanRooms (order_by by_floor_number (available_rows hotelID checkIn checkOut d)))
  onerr Wrap "roomRepo.ListRoomsAvailableBetween".

Definition room_key (hotelID id : uuid) (r : RoomRow) : bool :=
  ueq (rm_hotel_id r) hotelID && ueq (rm_id r) id.

Definition FindRoomByID (c : Conn) (hotelID id : uuid) : M GoErr Room :=
  rs ← query c (fun d => scanRooms (select (room_key hotelID id) (rooms d)));
  of_option (head rs) ErrNotFound.

Definition FindAvailableRoom (c : Conn) (hotelID : uuid) (roomType : option string) : M GoErr Room :=
  rs ← query c (fun d =>
    scanRooms (take 1 (order_by (fun a b => rm_price_per_night a <=? rm_price_per_night b)
      (select (fun r => ueq (rm_hotel_id r) hotelID && (rm_status r =s "available")
                        && match roomType with
                           | Some t => ToLower (rm_room_type r) =s ToLower t
                           | None => true end) (rooms d)))));
  of_option (head rs) ErrNotFound.

(** rooms_hotel_id_room_number_key, the columns' ranges and the hotel *)
Definition room_fits (r : RoomRow) : bool := int_fits (rm_floor r) && int_fits (rm_capacity r) && money_fits (rm_price_per_night r).
Definition same_number (a b : RoomRow) : bool := ueq (rm_hotel_id a) (rm_hotel_id b) && (rm_room_number a =s rm_room_number b).
Definition insert_room (row : RoomRow) (d : DB) : GoErr + (Room * DB) :=
  if negb (room_fits row) then inl (ErrPg "22003")
  else if exists_row (fun o => ueq (rm_id o) (rm_id row) || same_number o row) (rooms d) then inl (ErrPg "23505")
  else if exists_row (fun o => ueq (ho_id o) (rm_hotel_id row)) (hotels d) then inr (scanRoom row, d <| rooms ::= insert_row row |>)
  else inl (ErrPg "23503").

(** A NULL amenities column is refused. *)
Definition CreateRoom (c : Conn) (hotelID : uuid) (rm : Room) : M GoErr Room :=
  id ← new_uuid; now ← time_now;
  let row := {| rm_id := id; rm_hotel_id := hotelID; rm_room_number := R_RoomNumber rm;
                rm_room_type := R_RoomType rm; rm_floor := R_Floor rm; rm_capacity := R_Capacity rm;
                rm_price_per_night := num_enc (R_PricePerNight rm); rm_status := R_Status rm;
                rm_amenities := default [] (R_Amenities rm); rm_created_at := now; rm_updated_at := now |} in
  exec c (fun d => match R_Amenities rm with None => inl (ErrPg "23502") | Some _ => insert_room row d end).

Definition room_field_allowed (f : RoomField) : bool := match f with RF_other => false | _ => true end.
Definition set_room_field (r : RoomRow) (f : RoomField) : RoomRow :=
  match f with
  | RF_room_number v => r <| rm_room_number := v |>
  | RF_room_type v => r <| rm_room_type := v |>
  | RF_floor v => r <| rm_floor := v |>
  | RF_capacity v => r <| rm_capacity := v |>
  | RF_price_per_night v => r <| rm_price_per_night := num_enc v |>
  | RF_status v => r <| rm_status := v |>
  | RF_refused | RF_other => r
  end.

(** UPDATE rooms SET ... WHERE hotel_id AND id RETURNING: a value a column cannot
    take is refused with or without a row to write. *)
Definition field_refused (f : RoomField) : bool :=
  match f with RF_refused => true | RF_floor v | RF_capacity v => negb (int_fits v) | _ => false end.
Definition update_room (hotelID id : uuid) (set : list RoomField) (f : RoomRow -> RoomRow) (d : DB) : GoErr + (list Room * DB) :=
  if existsb field_refused set then inl (ErrPg "22P02")
  else
    match find_row (room_key hotelID id) (rooms d) with
    | None => inr ([], d)
    | Some r =>
        if negb (money_fits (rm_price_per_night (f r))) then inl (ErrPg "22003")
        else if exists_row (fun o => negb (ueq (rm_id o) id) && same_number o (f r)) (rooms d) then inl (ErrPg "23505")
        else inr ([scanRoom (f r)], d <| rooms ::= update_rows (room_key hotelID id) f |>)
    end.
(** DELETE FROM rooms: restricted by the stays of the room; its tasks go with it,
    and lost property forgets it. *)
Definition delete_room (hotelID id : uuid) (d : DB) : GoErr + (unit * DB) :=
  if exists_row (room_key hotelID id) (rooms d) then
    if exists_row (fun s => ueq (gs_room_id s) id) (guest_stays d) then inl (ErrPg "23503")
    else inr (tt, d <| rooms ::= delete_rows (room_key hotelID id) |>
                    <| housekeeping ::= delete_rows (fun t => ueq (hk_room_id t) id) |>
                    <| lost_items ::= update_rows (fun l => oueq (lo_room_id l) id) (fun l => l <| lo_room_id := None |>) |>)
  else inr (tt, d).

Definition UpdateRoom (c : Conn) (hotelID id : uuid) (fields : list RoomField) : M GoErr Room :=
  let set := List.filter room_field_allowed fields in
  if Nat.eqb (length set) 0 then throw (Errorf "no fields to update")
  else
    now ← time_now;
    let f := fun r => (foldl set_room_field r set) <| rm_updated_at := now |> in
    rs ← exec c (update_room hotelID id set f);
    of_option (head rs) ErrNotFound.

Definition DeleteRoom (c : Conn) (hotelID id : uuid) : M GoErr unit :=
  exec c (delete_room hotelID id).

Definition UpdateRoomStatus (c : Conn) (hotelID id : uuid) (status : string) : M GoErr unit :=
  now ← time_now;
  n ← exec_n c (fun d => (rows_affected (room_key hotelID id) (rooms d),
         d <| rooms ::= update_rows (room_key hotelID id)
                          (fun r => r <| rm_status := status |> <| rm_updated_at := now |>) |>));
  throw_if (Nat.eqb n 0) ErrNotFound.

(** *** Guest stays *)

Definition room_summary (d : DB) (roomID : uuid) : option RoomSummary :=
  r ← find_row (fun r => ueq (rm_id r) roomID) (rooms d);
  Some {| rs_RoomNumber := rm_room_number r; rs_RoomType := rm_room_type r |}.

(** stayScanTargets *)
Definition scan_stay (s : StayRow) : GuestStay :=
  {| ID := gs_id s; HotelID := gs_hotel_id s; GuestID := gs_guest_id s; RoomID := gs_room_id s;
     GuestName := gs_guest_name s; GuestEmail := gs_guest_email s; GuestPhone := gs_guest_phone s;
     CheckInDate := scan_time (gs_check_in_date s); CheckOutDate := scan_time (gs_check_out_date s);
     ActualCheckIn := scan_time <$> gs_actual_check_in s;
     ActualCheckOut := scan_time <$> gs_actual_check_out s;
     TotalAmount := num_dec <$> gs_total_amount s; Notes := gs_notes s; Source := gs_source s;
     CreatedBy := gs_created_by s; CreatedAt := scan_time (gs_created_at s);
     UpdatedAt := scan_time (gs_updated_at s); SRoom := None; Status := gs_status s;
     ConfirmationNo := gs_confirmation_no s; CancelledAt := scan_time <$> gs_cancelled_at s;
     CancellationReason := gs_cancellation_reason s; CancellationFee := num_dec (gs_cancellation_fee s);
     Adults := gs_adults s; Children := gs_children s; ApproachType := gs_approach_type s;
     DiscountAmount := num_dec (gs_discount_amount s); TaxAmount := num_dec (gs_tax_amount s);
     PromoCode := gs_promo_code s |}.
Definition scanSingleStay (s : StayRow) : GuestStay := scan_stay s.
Definition scanEnrichedStay (d : DB) (s : StayRow) : GuestStay :=
  (scan_stay s) <| SRoom := room_summary d (gs_room_id s) |>.

(** The row CreateStay inserts: the defaults for an older caller included. *)
Definition stay_row (id hotelID : uuid) (now : Time) (s : GuestStay) : StayRow :=
  {| gs_id := id; gs_hotel_id := hotelID; gs_guest_id := GuestID s; gs_room_id := RoomID s;
     gs_guest_name := GuestName s; gs_guest_email := GuestEmail s; gs_guest_phone := GuestPhone s;
     gs_check_in_date := CheckInDate s; gs_check_out_date := CheckOutDate s;
     gs_actual_check_in := ActualCheckIn s; gs_actual_check_out := ActualCheckOut s;
     gs_total_amount := num_enc <$> TotalAmount s; gs_notes := Notes s; gs_source := Source s;
     gs_created_by := CreatedBy s; gs_created_at := now; gs_updated_at := now;
     gs_status := if Status s =s "" then ReservationConfirmed else Status s;
     gs_confirmation_no := ConfirmationNo s; gs_cancelled_at := None; gs_cancellation_reason := None;
     gs_cancellation_fee := 0;
     gs_adults := if Adults s <=? 0 then 1 else Adults s; gs_children := Children s;
     gs_approach_type := if ApproachType s =s "" then "manual" else ApproachType s;
     gs_discount_amount := num_enc (DiscountAmount s); gs_tax_amount := num_enc (TaxAmount s);
     gs_promo_code := PromoCode s; gs_cancelled_by := None |}.

Definition CreateStay (c : Conn) (hotelID : uuid) (s : GuestStay) : M GoErr GuestStay :=
  id ← new_uuid; now ← time_now;
  r ← exec c (insert_stay (stay_row id hotelID now s));
  mret (scanSingleStay r).

Definition FindStayByID (c : Conn) (hotelID id : uuid) : M GoErr GuestStay :=
  o ← query c (fun d => scanEnrichedStay d <$> find_row (stay_key hotelID id) (guest_stays d));
  of_option o ErrNotFound.

(** filters: a column with its value; other columns are ignored. *)
Definition stay_filter (f : StayFilter) (s : StayRow) : bool :=
  match f with
  | SF_guest_id v => oueq (gs_guest_id s) v
  | SF_room_id v => ueq (gs_room_id s) v
  | SF_status v => gs_status s =s v
  | SF_other => true
  end.

Definition ListStays (c : Conn) (hotelID : uuid) (filters : list StayFilter) : M GoErr (list GuestStay) :=
  query c (fun d => map (scanEnrichedStay d)
    (order_by (fun a b => t_ns (gs_check_in_date b) <=? t_ns (gs_check_in_date a))
      (select (fun s => ueq (gs_hotel_id s) hotelID && forallb (fun f => stay_filter f s) filters)
         (guest_stays d)))).

Definition set_stay_fields (fields : list StayField) (now : Time) (s : StayRow) : StayRow :=
  (foldl (fun r f => set_stay_field f r) s fields) <| gs_updated_at := now |>.

Definition UpdateStay (c : Conn) (hotelID id : uuid) (fields : list StayField) : M GoErr unit :=
  now ← time_now;
  n ← exec c (update_stay_row hotelID id (set_stay_fields fields now));
  throw_if (Nat.eqb n 0) ErrNotFound.

Definition DeleteStay (c : Conn) (hotelID id : uuid) : M GoErr unit :=
  exec c (fun d => inr (tt, d <| guest_stays ::= delete_rows (stay_key hotelID id) |>)).

Definition SoftCancelStay (c : Conn) (hotelID id : uuid) (reason : string) (fee : Q) (by_ : option uuid)
  : M GoErr unit :=
  now ← time_now;
  let p := fun s => stay_key hotelID id s && (gs_status s !=s "cancelled") in
  n ← exec_n c (fun d => (rows_affected p (guest_stays d),
         d <| guest_stays ::= update_rows p (fun s =>
                s <| gs_status := "cancelled" |> <| gs_cancelled_at := Some now |>
                  <| gs_cancellation_reason := nullif reason |>
                  <| gs_cancellation_fee := num_enc fee |> <| gs_cancelled_by := by_ |>
                  <| gs_updated_at := now |>) |>));
  throw_if (Nat.eqb n 0) ErrNotFound.

Definition active_in_room (hotelID roomID : uuid) (s : StayRow) : bool :=
  ueq (gs_hotel_id s) hotelID && ueq (gs_room_id s) roomID
  && bool_decide (is_Some (gs_actual_check_in s)) && bool_decide (gs_actual_check_out s = None).

Definition RoomHasActiveStay (c : Conn) (hotelID roomID : uuid) : M GoErr bool :=
  query c (fun d => exists_row (active_in_room hotelID roomID) (guest_stays d)).

Definition blocks_booking (hotelID roomID : uuid) (checkIn checkOut : Time) (excludeStayID : uuid)
  (s : StayRow) : bool :=
  ueq (gs_hotel_id s) hotelID && ueq (gs_room_id s) roomID && (gs_status s !=s "cancelled")
  && negb (ueq (gs_id s) excludeStayID)
  && Before (gs_check_in_date s) checkOut && After (gs_check_out_date s) checkIn.

Definition RoomIsFree (c : Conn) (hotelID roomID : uuid) (checkIn checkOut : Time) (excludeStayID : uuid)
  : M GoErr bool :=
  query c (fun d => negb (exists_row (blocks_booking hotelID roomID checkIn checkOut excludeStayID)
                            (guest_stays d))).

(** *** CRM guests *)

(** regexp_replace(s, '\D', '', 'g') *)
Definition digits (s : string) : string := filter_string is_digit s.

Definition guest_by_phone (hotelID : uuid) (phone : string) (g : GuestRow) : bool :=
  ueq (gu_hotel_id g) hotelID && (10 <=? slen (digits phone))
  && (right_str 10 (digits (opt_str (gu_phone g))) =s right_str 10 (digits phone)).
Definition guest_by_email (hotelID : uuid) (email : string) (g : GuestRow) : bool :=
  ueq (gu_hotel_id g) hotelID && (ToLower (opt_str (gu_email g)) =s ToLower email) && (email !=s "").

Definition backfill_guest (id : uuid) (email phone : string) (d : DB) : unit * DB :=
  (tt, d <| guests ::= update_rows (fun g => ueq (gu_id g) id)
              (fun g => g <| gu_email := coalesce_blank (gu_email g) email |>
                          <| gu_phone := coalesce_blank (gu_phone g) phone |>) |>).

(** One round of the lookup loop: the guest found by this query, after the
    backfill whose error is discarded. *)
Definition lookup_guest (c : Conn) (p : GuestRow -> bool) (arg email phone : string) : M GoErr (option uuid) :=
  if arg =s "" then mret None
  else
    r ← attempt (query_row c (fun d => gu_id <$> find_row p (guests d)));
    match r with
    | inr id => attempt (exec c (fun d => inr (backfill_guest id email phone d))) ;; mret (Some id)
    | inl e => if errors_is e ErrNoRows then mret None else throw (Wrap "roomRepo.EnsureGuest lookup" e)
    end.

Definition EnsureGuest (c : Conn) (hotelID : uuid) (name0 email0 phone0 : string) : M GoErr uuid :=
  let name := TrimSpace name0 in let email := TrimSpace email0 in let phone := TrimSpace phone0 in
  if (phone =s "") && (email =s "") then mret uuid_nil
  else
    byPhone ← lookup_guest c (guest_by_phone hotelID phone) phone email phone;
    match byPhone with
    | Some id => mret id
    | None =>
        byEmail ← lookup_guest c (guest_by_email hotelID email) email email phone;
        match byEmail with
        | Some id => mret id
        | None =>
            id ← new_uuid;
            let row := {| gu_id := id; gu_hotel_id := hotelID;
                          gu_full_name := if name =s "" then "Guest " ++ phone else name;
                          gu_email := nullif email; gu_phone := nullif phone;
                          gu_id_type := None; gu_id_number := None;
                          gu_vip_status := Some "standard"; gu_preferences := Some "{}"; gu_notes := None |} in
            exec c (fun d => inr (id, d <| guests ::= insert_row row |>))
              onerr Wrap "roomRepo.EnsureGuest insert"
        end
    end.

Definition SetGuestIdentity (c : Conn) (hotelID guestID : uuid) (idType idNumber : string) : M GoErr unit :=
  exec c (fun d => inr (tt, d <| guests ::= update_rows
    (fun g => ueq (gu_hotel_id g) hotelID && ueq (gu_id g) guestID)
    (fun g => g <| gu_id_type := coalesce_blank (gu_id_type g) (TrimSpace idType) |>
                <| gu_id_number := coalesce_blank (gu_id_number g) (TrimSpace idNumber) |>) |>)).

(** *** Folios and hotel settings *)

(** folios.guest_id is NOT NULL and, in the shared database, REFERENCES users(id);
    EnsureDedicatedOverrides drops that key from a tenant's own database. *)
Definition insert_folio (row : FolioRow) (d : DB) : GoErr + (unit * DB) :=
  match fo_guest_id row with
  | None => inl (ErrPg "23502")
  | Some g =>
      if 10 <? slen (fo_currency row) then inl (ErrPg "22001")
      else if negb (exists_row (fun s => ueq (gs_id s) (fo_booking_id row)) (guest_stays d)) then inl (ErrPg "23503")
      else if db_shared && negb (exists_row (fun u => ueq (us_id u) g) (users d)) then inl (ErrPg "23503")
      else inr (tt, d <| folios ::= insert_row row |>)
  end.
Lemma insert_folio_inr row d u d' : insert_folio row d = inr (u, d') -> d' = d <| folios ::= insert_row row |>.
Proof. unfold insert_folio. repeat (case_match; try discriminate). now intros [= _ <-]. Qed.
Definition EnsureFolioForBooking (c : Conn) (hotelID bookingID guestID : uuid) (currency : string)
  : M GoErr uuid :=
  if ueq guestID uuid_nil then mret uuid_nil
  else
    r ← attempt (query_row c (fun d => fo_id <$>
          find_row (fun f => ueq (fo_hotel_id f) hotelID && ueq (fo_booking_id f) bookingID) (folios d)));
    match r with
    | inr id => mret id
    | inl e =>
        if negb (errors_is e ErrNoRows) then throw (Wrap "roomRepo.EnsureFolioForBooking lookup" e)
        else
          id ← new_uuid;
          let row := {| fo_id := id; fo_hotel_id := hotelID; fo_booking_id := bookingID;
                        fo_guest_id := Some guestID; fo_status := "open";
                        fo_currency := if currency =s "" then "INR" else currency; fo_closed_at := None |} in
          exec c (insert_folio row) onerr Wrap "roomRepo.EnsureFolioForBooking insert" ;;
          mret id
    end.

Definition HotelGSTRate (c : Conn) (hotelID : uuid) : M GoErr Q :=
  o ← query c (fun d => (fun h => num_dec (default 0 (ho_gst_rate h)))
                        <$> find_row (fun h => ueq (ho_id h) hotelID) (hotels d));
  of_option o ErrNotFound.

Definition SmartCheckinLookup (c : Conn) (hotelID : uuid) (guestName phone : string) : M GoErr GuestStay :=
  o ← query c (fun d => scanEnrichedStay d <$>
        head (order_by (fun a b => t_ns (gs_check_in_date b) <=? t_ns (gs_check_in_date a))
          (select (fun s => ueq (gs_hotel_id s) hotelID
                     && (ilike (gs_guest_name s) ("%" ++ guestName ++ "%")
                         || match gs_guest_phone s with
                            | Some p => ilike p ("%" ++ phone ++ "%")
                            | None => false end)
                     && (gs_status s !=s "cancelled")) (guest_stays d))));
  of_option o ErrNotFound.

Definition HotelName (c : Conn) (hotelID : uuid) : M GoErr string :=
  o ← query c (fun d => ho_name <$> find_row (fun h => ueq (ho_id h) hotelID) (hotels d));
  of_option o ErrNotFound.
End Repo.

(** ** What the constraints guarantee *)

(** No two live stays hold the same room at the same time, every row satisfies
    the CHECK constraints, and ids are unique. *)
Record stays_ok (d : DB) : Prop := {
  so_excl : forall a b, In a (guest_stays d) -> In b (guest_stays d) ->
            gs_id a <> gs_id b -> excluded_pair a b = false;
  so_row : forall a, In a (guest_stays d) -> stay_row_ok a = true;
  so_uniq : forall a b, In a (guest_stays d) -> In b (guest_stays d) -> gs_id a = gs_id b -> a = b }.

Lemma ranges_overlap_sym a b x y : ranges_overlap a b x y = ranges_overlap x y a b.
Proof. unfold ranges_overlap. apply andb_comm. Qed.

Lemma excluded_pair_sym a b : excluded_pair a b = excluded_pair b a.
Proof.
  unfold excluded_pair, ueq. rewrite (ranges_overlap_sym (gs_check_in_date a)), (N.eqb_sym (gs_room_id a)).
  destruct (live a), (live b); reflexivity.
Qed.

Lemma stay_violation_none s others :
  stay_violation s others = None ->
  stay_row_ok s = true
  /\ (forall o, In o others -> gs_id o <> gs_id s)
  /\ (forall o, In o others -> excluded_pair s o = false).
Proof.
  unfold stay_violation. destruct (stay_row_ok s); cbn [negb]; [|discriminate].
  destruct (exists_row (fun o => ueq (gs_id o) (gs_id s)) others) eqn:E1; [discriminate|].
  case_match; [discriminate|].
  destruct (exists_row (excluded_pair s) others) eqn:E2; [discriminate|]. intros _.
  rewrite exists_row_false in E1, E2. split; [reflexivity|]. split; [|exact E2].
  intros o Ho. apply E1, N.eqb_neq in Ho. exact Ho.
Qed.

Lemma insert_stay_ok s d r d' : stays_ok d -> insert_stay s d = inr (r, d') -> stays_ok d' /\ r = s.
Proof.
  intros [He Hr Hu]. unfold insert_stay. destruct (stay_violation s (guest_stays d)) eqn:E; [discriminate|].
  intros H; injection H as <- <-. apply stay_violation_none in E as (Hok & Hid & Hex).
  split; [|reflexivity]. split; cbn [guest_stays set].
  - intros a b Ha Hb Hne. apply in_insert_row in Ha as [Ha| ->], Hb as [Hb| ->]; auto; [|congruence].
    rewrite excluded_pair_sym. auto.
  - intros a Ha. apply in_insert_row in Ha as [Ha| ->]; auto.
  - intros a b Ha Hb Hab. apply in_insert_row in Ha as [Ha| ->], Hb as [Hb| ->]; auto;
      exfalso; eapply Hid; eauto.
Qed.

(** Any rewriting of rows that keeps their ids, and whose changed rows meet the
    constraints against the rows that stay, keeps the table well formed. *)
Lemma update_rows_stays_ok p f d :
  stays_ok d -> (forall s, gs_id (f s) = gs_id s) ->
  (forall s, In s (guest_stays d) -> p s = true -> stay_row_ok (f s) = true) ->
  (forall s o, In s (guest_stays d) -> In o (guest_stays d) -> p s = true -> gs_id o <> gs_id s ->
     excluded_pair (f s) (if p o then f o else o) = false) ->
  stays_ok (d <| guest_stays ::= update_rows p f |>).
Proof.
  intros [He Hr Hu] Hid Hrow Hex. split; cbn [guest_stays set].
  - intros a b Ha Hb. apply in_update_rows in Ha as (a0 & Ha & ->), Hb as (b0 & Hb & ->).
    assert (Hi : forall s, gs_id (if p s then f s else s) = gs_id s) by (intros s; destruct (p s); auto).
    rewrite !Hi. intros Hne. destruct (p a0) eqn:Ea.
    + apply Hex; auto.
    + destruct (p b0) eqn:Eb; [|auto]. rewrite excluded_pair_sym.
      specialize (Hex b0 a0 Hb Ha Eb Hne). rewrite Ea in Hex. exact Hex.
  - intros a Ha. apply in_update_rows in Ha as (a0 & Ha & ->). destruct (p a0) eqn:E; auto.
  - intros a b Ha Hb. apply in_update_rows in Ha as (a0 & Ha & ->), Hb as (b0 & Hb & ->).
    assert (Hi : forall s, gs_id (if p s then f s else s) = gs_id s) by (intros s; destruct (p s); auto).
    rewrite !Hi. intros Hab. now rewrite (Hu a0 b0 Ha Hb Hab).
Qed.

Lemma stay_key_id hotelID id s : stay_key hotelID id s = true -> gs_id s = id /\ gs_hotel_id s = hotelID.
Proof. unfold stay_key, ueq. rewrite andb_true_iff, !N.eqb_eq. auto. Qed.

Lemma update_stay_row_ok hotelID id f d n d' :
  stays_ok d -> (forall s, gs_id (f s) = gs_id s) ->
  update_stay_row hotelID id f d = inr (n, d') -> stays_ok d'.
Proof.
  intros Hok Hid. unfold update_stay_row.
  destruct (find_row (stay_key hotelID id) (guest_stays d)) as [s|] eqn:Ef;
    [|intros H; injection H as <- <-; exact Hok].
  destruct (stay_violation (f s) _) eqn:Ev; [discriminate|]. intros H; injection H as <- <-.
  apply find_row_some in Ef as [Hin Hk]. apply stay_violation_none in Ev as (Hrow & _ & Hex).
  assert (Hone : forall r, In r (guest_stays d) -> stay_key hotelID id r = true -> r = s).
  { intros r Hr Hrk. apply (so_uniq d Hok r s Hr Hin).
    apply stay_key_id in Hk as [-> _], Hrk as [-> _]. reflexivity. }
  apply update_rows_stays_ok; [exact Hok | exact Hid | |].
  - intros r Hr Hrk. now rewrite (Hone r Hr Hrk).
  - intros r o Hr Ho Hrk Hne. rewrite (Hone r Hr Hrk) in *.
    destruct (stay_key hotelID id o) eqn:Eo; [now rewrite (Hone o Ho Eo) in Hne|].
    apply Hex, in_delete_rows. split; [exact Ho|]. apply stay_key_id in Hk as [<- _].
    apply N.eqb_neq. exact Hne.
Qed.

Section RepoKeeps.
Context {env : Env}.

Lemma set_stay_fields_id fields now s : gs_id (set_stay_fields fields now s) = gs_id s.
Proof.
  unfold set_stay_fields. cbn. revert s. induction fields as [|f l IH]; intros s; cbn; [reflexivity|].
  rewrite IH. destruct f; reflexivity.
Qed.

Lemma keeps_CreateStay c h s : keeps stays_ok (CreateStay c h s).
Proof.
  unfold CreateStay. keeps_go. apply keeps_exec. intros d r d' Hd H.
  exact (proj1 (insert_stay_ok _ _ _ _ Hd H)).
Qed.

Lemma keeps_UpdateStay c h id l : keeps stays_ok (UpdateStay c h id l).
Proof.
  unfold UpdateStay. keeps_go. apply keeps_exec. intros d r d' Hd H.
  eapply update_stay_row_ok; [exact Hd | apply set_stay_fields_id | exact H].
Qed.

(** Cancelling frees the room: the row stops excluding anything. *)
Lemma keeps_SoftCancelStay c h id reason fee u : keeps stays_ok (SoftCancelStay c h id reason fee u).
Proof.
  unfold SoftCancelStay. keeps_go. apply keeps_exec_n. intros d Hd. cbn.
  apply update_rows_stays_ok; [exact Hd | reflexivity | |].
  - intros s Hs _. pose proof (so_row d Hd s Hs) as H. unfold stay_row_ok in *; cbn in *.
    rewrite !andb_true_iff in *. intuition.
  - reflexivity.
Qed.

(** Statements on other tables. *)
Lemma keeps_stays_exec {A} c (f : DB -> GoErr + (A * DB)) :
  (forall d a d', f d = inr (a, d') -> guest_stays d' = guest_stays d) -> keeps stays_ok (exec c f).
Proof.
  intros Hf. apply keeps_exec. intros d a d' [H1 H2 H3] E. apply Hf in E. split; rewrite E; assumption.
Qed.
Lemma keeps_stays_exec_n c (f : DB -> nat * DB) :
  (forall d, guest_stays (snd (f d)) = guest_stays d) -> keeps stays_ok (exec_n c f).
Proof.
  intros Hf. apply keeps_stays_exec. intros d a d' E. injection E as E. rewrite <- (Hf d), E. reflexivity.
Qed.
End RepoKeeps.

#[export] Hint Resolve keeps_CreateStay keeps_UpdateStay keeps_SoftCancelStay : keeps.

(** Closes [keeps stays_ok] on a statement that writes another table. *)
Ltac other_table :=
  first [ apply keeps_stays_exec_n; intros; reflexivity
        | apply keeps_stays_exec; intros ? ? ?; 
          repeat match goal with |- context [match ?x with _ => _ end] => destruct x end;
          intros E; first [discriminate E | injection E as <- <-; reflexivity] ].
