(* ===== verification/Ledger.v ===== *)
(** Ledger: internal/handler/accounting_autopost.go.  The chart of accounts each
    tenant posts to, voucher numbering, balanced journals for every kind of
    operational event, and the reversing (storno) entry.

    Every function takes the Querier it runs on, a pool or a transaction. *)

From S2P Require Import Prelude GoLib Schema Binary64 World.
From stdpp Require Import gmap.
From Stdlib Require Import QArith.
Local Open Scope string_scope.
Local Open Scope Z_scope.

Record defaultAccount := { code : string; name : string; typ : string; subType : string; order : Z }.

Definition standardChart : list defaultAccount :=
  [ Build_defaultAccount "1000" "Cash" "asset" "current_asset" 1;
    Build_defaultAccount "1010" "Bank" "asset" "current_asset" 2;
    Build_defaultAccount "1200" "Accounts Receivable" "asset" "current_asset" 3;
    Build_defaultAccount "1400" "Inventory" "asset" "current_asset" 4;
    Build_defaultAccount "2000" "Accounts Payable" "liability" "current_liability" 5;
    Build_defaultAccount "2100" "GST Payable" "liability" "current_liability" 6;
    Build_defaultAccount "3000" "Retained Earnings" "equity" "equity" 7;
    Build_defaultAccount "4000" "Sales Revenue" "revenue" "operating_revenue" 8;
    Build_defaultAccount "4100" "Food & Beverage Revenue" "revenue" "operating_revenue" 9;
    Build_defaultAccount "5000" "Cost of Goods Sold" "expense" "cogs" 10;
    Build_defaultAccount "5100" "Channel Commission" "expense" "selling_expense" 11 ].

(** accounting_accounts is UNIQUE (hotel_id, code). *)
Definition account_key (hotelID : uuid) (cd : string) (a : AccountRow) : bool :=
  ueq (acc_hotel_id a) hotelID && (acc_code a =s cd).

(** INSERT ... ON CONFLICT (hotel_id, code) DO NOTHING *)
Definition insert_account (row : AccountRow) (d : DB) : unit * DB :=
  (tt, if exists_row (account_key (acc_hotel_id row) (acc_code row)) (accounts d) then d
       else d <| accounts ::= insert_row row |>).

(** code -> account_id, the last row read winning *)
Definition account_map (hotelID : uuid) (d : DB) : gmap string uuid :=
  foldl (fun m a => <[acc_code a := acc_id a]> m) ∅
    (select (fun a => ueq (acc_hotel_id a) hotelID) (accounts d)).

(** journal entries already carrying a reference *)
Definition has_reference (hotelID : uuid) (reference : string) (e : JournalEntryRow) : bool :=
  ueq (je_hotel_id e) hotelID && (je_reference e =s reference).

(** UNIQUE (hotel_id, voucher_no) WHERE voucher_no IS NOT NULL *)
Definition same_voucher (row e : JournalEntryRow) : bool :=
  ueq (je_hotel_id e) (je_hotel_id row) && bool_decide (is_Some (je_voucher_no row))
  && bool_decide (je_voucher_no e = je_voucher_no row).

Record journalLine := { accountCode : string; debit : Q; credit : Q; memo : string }.
Definition dr (cd : string) (amount : Q) (m : string) : journalLine :=
  {| accountCode := cd; debit := amount; credit := 0; memo := m |}.
Definition cr (cd : string) (amount : Q) (m : string) : journalLine :=
  {| accountCode := cd; debit := 0; credit := amount; memo := m |}.

Definition voucherTypeFor (reference : string) : string :=
  if HasPrefix reference "BILL " || HasPrefix reference "ORDER "
     || HasPrefix reference "INV " || HasPrefix reference "FOLIO " then "SAL"
  else if HasPrefix reference "GRN " || HasPrefix reference "PO " || HasPrefix reference "DN " then "PUR"
  else if HasPrefix reference "VP " || HasPrefix reference "PAY " then "PAY"
  else "GEN".

Definition voucher_no (vType : string) (n : Z) : string := vType ++ "-" ++ fmt_0d 6 n.

Definition counter_key (hotelID : uuid) (vType : string) (v : VoucherCounterRow) : bool :=
  ueq (vc_hotel_id v) hotelID && (vc_voucher_type v =s vType).

(** The UPSERT on the counter row, RETURNING next_no - 1. *)
Definition bump_counter (hotelID : uuid) (vType : string) (d : DB) : Z * DB :=
  match find_row (counter_key hotelID vType) (voucher_counters d) with
  | None =>
      (1, d <| voucher_counters ::=
            insert_row {| vc_hotel_id := hotelID; vc_voucher_type := vType; vc_next_no := 2 |} |>)
  | Some v =>
      (vc_next_no v, d <| voucher_counters ::=
            update_rows (counter_key hotelID vType) (fun r => r <| vc_next_no := vc_next_no r + 1 |>) |>)
  end.

(** cashAccount *)
Definition cashAccount (method : string) : string := if method =s "cash" then "1000" else "1010".

Section Ledger.
Context {env : Env}.

Definition ensureChartOfAccounts (pool : Conn) (hotelID : uuid) : M GoErr (gmap string uuid) :=
  for_each (fun a =>
    id ← new_uuid;
    let row := {| acc_id := id; acc_hotel_id := hotelID; acc_code := code a; acc_name := name a;
                  acc_type := typ a; acc_sub_type := subType a; acc_parent_code := None; acc_opening_balance := 0;
                  acc_currency := "INR"; acc_is_active := true; acc_display_order := order a |} in
    exec pool (fun d => inr (insert_account row d))) standardChart ;;
  query pool (account_map hotelID).

Definition nextVoucherNo (pool : Conn) (hotelID : uuid) (vType : string) : M GoErr string :=
  n ← exec pool (fun d => inr (bump_counter hotelID vType d));
  mret (voucher_no vType n).

(** accounting_journal_voucher_uniq refuses a second use of a voucher number. *)
Definition insert_entry (pool : Conn) (row : JournalEntryRow) : M GoErr unit :=
  exec pool (fun d =>
    if exists_row (same_voucher row) (journal_entries d) then inl (ErrPg "23505")
    else inr (tt, d <| journal_entries ::= insert_row row |>)).
Definition insert_line (pool : Conn) (row : JournalLineRow) : M GoErr unit :=
  exec pool (fun d => inr (tt, d <| journal_lines ::= insert_row row |>)).

(** One line of postJournal's loop. *)
Definition post_line (pool : Conn) (hotelID entryID : uuid) (accs : gmap string uuid) (l : journalLine)
  : M GoErr unit :=
  if feq (debit l) 0 && feq (credit l) 0 then mret tt
  else match accs !! accountCode l with
       | None => mret tt
       | Some acct =>
           id ← new_uuid;
           insert_line pool {| jl_id := id; jl_entry_id := entryID; jl_hotel_id := hotelID;
             jl_account_id := acct; jl_debit := num_enc (debit l); jl_credit := num_enc (credit l);
             jl_memo := memo l |}
       end.

(** A failed numbering is logged and the entry posted unnumbered. *)
Definition numbered (pool : Conn) (hotelID : uuid) (vType : string) : M GoErr string :=
  v ← attempt (nextVoucherNo pool hotelID vType);
  mret (match v with inr no => no | inl _ => "" end).

Definition postJournal (pool : Conn) (hotelID : uuid) (description reference : string)
  (lines : list journalLine) : M GoErr uuid :=
  accs ← ensureChartOfAccounts pool hotelID;
  let vType := voucherTypeFor reference in
  voucherNo ← numbered pool hotelID vType;
  entryID ← new_uuid;
  today ← current_date;
  insert_entry pool {| je_id := entryID; je_hotel_id := hotelID; je_date := today; je_description := description;
    je_reference := reference; je_voucher_no := nullif voucherNo; je_voucher_type := vType |} ;;
  for_each (post_line pool hotelID entryID accs) lines ;;
  mret entryID.

Definition postSalesToLedger (pool : Conn) (hotelID : uuid) (method : string) (subtotal tax total : Q)
  (reference description : string) : M GoErr uuid :=
  let cash := if method =s "cash" then "1000" else "1010" in
  let rev := round2 (fsub total tax) in
  postJournal pool hotelID description reference
    [ dr cash (round2 total) ("Sale settlement (" ++ method ++ ")");
      cr "4100" rev "F&B revenue"; cr "2100" (round2 tax) "GST on sale" ].

(** Every item of the session's tickets whose status is not 'void', at cost. *)
Definition cogs_cents (sessionID : uuid) (d : DB) : Z :=
  sum_rows (fun ki => exists_row (fun k => ueq (kt_id k) (ki_kot_id ki) && ueq (kt_session_id k) sessionID) (kots d)
                      && (ki_status ki !=s "void"))
    (fun ki => ki_quantity ki *
       match ki_menu_item_id ki with
       | Some m => default 0 (mi ← find_row (fun mi => ueq (mi_id mi) m) (menu_items d); mi_cost_price mi)
       | None => 0
       end) (kot_items d).

Definition sessionCOGS {E} (pool : Conn) (sessionID : uuid) : M E Q :=
  r ← attempt (query pool (fun d => num_dec (cogs_cents sessionID d)));
  mret (round2 (match r with inr cogs => cogs | inl _ => 0%Q end)).

Definition postCOGS (pool : Conn) (hotelID : uuid) (cogs : Q) (reference description : string) : M GoErr uuid :=
  if feq (round2 cogs) 0 then mret uuid_nil
  else postJournal pool hotelID description reference
    [ dr "5000" (round2 cogs) "Cost of goods sold"; cr "1400" (round2 cogs) "Inventory consumed" ].

Definition postRoomRevenue (pool : Conn) (hotelID : uuid) (method : string) (tax total : Q)
  (reference description : string) : M GoErr uuid :=
  postJournal pool hotelID description reference
    [ dr (cashAccount method) (round2 total) ("Folio settlement (" ++ method ++ ")");
      cr "4000" (round2 (fsub total tax)) "Room revenue"; cr "2100" (round2 tax) "GST on sale" ].

Definition postARInvoice (pool : Conn) (hotelID : uuid) (tax total : Q) (reference description : string)
  : M GoErr uuid :=
  postJournal pool hotelID description reference
    [ dr "1200" (round2 total) "Invoice receivable";
      cr "4000" (round2 (fsub total tax)) "Sales revenue"; cr "2100" (round2 tax) "GST on sale" ].

Definition postCreditNoteReversal (pool : Conn) (hotelID : uuid) (tax total : Q)
  (reference description : string) : M GoErr uuid :=
  postJournal pool hotelID description reference
    [ dr "4000" (round2 (fsub total tax)) "Revenue reversed"; dr "2100" (round2 tax) "GST reversed";
      cr "1200" (round2 total) "Receivable credited" ].

Definition postGoodsReceipt (pool : Conn) (hotelID : uuid) (amount : Q) (reference description : string)
  : M GoErr uuid :=
  postJournal pool hotelID description reference
    [ dr "1400" (round2 amount) "Goods received"; cr "2000" (round2 amount) "Payable to vendor" ].

Definition postAPSettlement (pool : Conn) (hotelID : uuid) (method : string) (amount : Q)
  (reference description : string) : M GoErr uuid :=
  postJournal pool hotelID description reference
    [ dr "2000" (round2 amount) "Payable settled";
      cr (cashAccount method) (round2 amount) ("Vendor payment (" ++ method ++ ")") ].

Definition postVendorDebitNote (pool : Conn) (hotelID : uuid) (total : Q) (reference description : string)
  : M GoErr uuid :=
  postJournal pool hotelID description reference
    [ dr "2000" (round2 total) "Payable reduced"; cr "1400" (round2 total) "Goods returned" ].

(** The lines of every journal posted under the reference. *)
Definition lines_of_reference (hotelID : uuid) (reference : string) (d : DB) : list JournalLineRow :=
  select (fun l => exists_row (fun e => ueq (je_id e) (jl_entry_id l) && has_reference hotelID reference e)
                     (journal_entries d)) (journal_lines d).

Definition reverseJournalsByReference (pool : Conn) (hotelID : uuid) (reference description : string)
  : M GoErr uuid :=
  src ← query pool (fun d => map (fun l => (jl_account_id l, num_dec (jl_debit l), num_dec (jl_credit l)))
                               (lines_of_reference hotelID reference d));
  match src with
  | [] => mret uuid_nil
  | _ =>
      let revReference := reference ++ " REV" in
      let vType := voucherTypeFor reference in
      voucherNo ← numbered pool hotelID vType;
      entryID ← new_uuid;
      today ← current_date;
      insert_entry pool {| je_id := entryID; je_hotel_id := hotelID; je_date := today; je_description := description;
        je_reference := revReference; je_voucher_no := nullif voucherNo; je_voucher_type := vType |} ;;
      for_each (fun '(acct, db, cdt) =>
        id ← new_uuid;
        insert_line pool {| jl_id := id; jl_entry_id := entryID; jl_hotel_id := hotelID;
          jl_account_id := acct; jl_debit := num_enc (round2 cdt); jl_credit := num_enc (round2 db);
          jl_memo := "Reversal" |}) src ;;
      mret entryID
  end.
End Ledger.

(** ** What a posting leaves in the database *)

(** A posting changes the four ledger tables only. *)
Definition ledger_only (d d' : DB) : Prop :=
  exists a v e l, d' = d <| accounts := a |> <| voucher_counters := v |>
                         <| journal_entries := e |> <| journal_lines := l |>.

Lemma ledger_only_intro d d' :
  d' = d <| accounts := accounts d' |> <| voucher_counters := voucher_counters d' |>
         <| journal_entries := journal_entries d' |> <| journal_lines := journal_lines d' |> -> ledger_only d d'.
Proof. intros ->. do 4 eexists. reflexivity. Qed.

Lemma ledger_only_refl d : ledger_only d d.
Proof. exists (accounts d), (voucher_counters d), (journal_entries d), (journal_lines d). destruct d; reflexivity. Qed.

Lemma ledger_only_trans d1 d2 d3 : ledger_only d1 d2 -> ledger_only d2 d3 -> ledger_only d1 d3.
Proof.
  intros (a & v & e & l & ->) (a' & v' & e' & l' & ->). exists a', v', e', l'. reflexivity.
Qed.

(** What does not depend on the ledger survives every posting. *)
Section LedgerKeeps.
Context {env : Env} (I : DB -> Prop).
Hypothesis off_ledger : forall d d', ledger_only d d' -> I d -> I d'.

Lemma keeps_ledger_exec {A} c (f : DB -> GoErr + (A * DB)) :
  (forall d a d', f d = inr (a, d') -> ledger_only d d') -> keeps I (exec c f).
Proof. intros Hf. apply keeps_exec. intros d a d' H E. eapply off_ledger; [eapply Hf, E | exact H]. Qed.
Ltac on_ledger :=
  intros d ? ?; unfold insert_account, bump_counter;
  repeat match goal with |- context [match ?x with _ => _ end] => destruct x end;
  let E := fresh in intros E; first [discriminate E | injection E as <- <-];
  apply ledger_only_intro; destruct d; reflexivity.
Ltac ledger_go := repeat first [keeps_step | apply keeps_ledger_exec; on_ledger].

Lemma keeps_postJournal c h desc ref ls : keeps I (postJournal c h desc ref ls).
Proof. unfold postJournal, ensureChartOfAccounts, numbered, nextVoucherNo, insert_entry, post_line, insert_line. ledger_go. Qed.
Lemma keeps_reversal c h ref desc : keeps I (reverseJournalsByReference c h ref desc).
Proof. unfold reverseJournalsByReference, numbered, nextVoucherNo, insert_entry, insert_line. ledger_go. Qed.
End LedgerKeeps.

(** The amounts a line of the ledger carries. *)
Definition amounts (r : JournalLineRow) : uuid * Z * Z := (jl_account_id r, jl_debit r, jl_credit r).
Definition total_debit (l : list JournalLineRow) : Z := sumZ (map jl_debit l).
Definition total_credit (l : list JournalLineRow) : Z := sumZ (map jl_credit l).
(** The trial balance of a set of lines. *)
Definition in_balance (l : list JournalLineRow) : Prop := total_debit l = total_credit l.

Lemma in_balance_app l1 l2 : in_balance l1 -> in_balance l2 -> in_balance (l1 ++ l2)%list.
Proof. unfold in_balance, total_debit, total_credit. rewrite !map_app, !sumZ_app. lia. Qed.

(** d' is d with one entry and its lines [nl] posted. *)
Record posted (d d' : DB) (hotelID entryID : uuid) (description reference vType : string)
  (nl : list JournalLineRow) : Prop := {
  po_frame : ledger_only d d';
  po_entry : exists no date, journal_entries d' = insert_row
       {| je_id := entryID; je_hotel_id := hotelID; je_date := date; je_description := description;
           je_reference := reference; je_voucher_no := Some (voucher_no vType no); je_voucher_type := vType |} (journal_entries d);
  po_lines : journal_lines d' = (journal_lines d ++ nl)%list;
  po_of_entry : Forall (fun r => jl_entry_id r = entryID /\ jl_hotel_id r = hotelID) nl }.

(** *** Voucher numbers *)

(** Every voucher on file was drawn from its series' counter, which is past it. *)
Definition voucher_drawn (d : DB) (e : JournalEntryRow) : Prop :=
  match je_voucher_no e with
  | None => True
  | Some v => exists c n, In c (voucher_counters d) /\ vc_hotel_id c = je_hotel_id e
              /\ vc_voucher_type c = je_voucher_type e /\ v = voucher_no (je_voucher_type e) n
              /\ 0 < n < vc_next_no c
  end.
Definition known_type (t : string) : Prop := In t ["SAL"; "PUR"; "PAY"; "GEN"].
Record vouchers_ok (d : DB) : Prop := {
  vo_drawn : forall e, In e (journal_entries d) -> voucher_drawn d e;
  vo_type : forall e, In e (journal_entries d) -> is_Some (je_voucher_no e) -> known_type (je_voucher_type e);
  vo_counter : forall c c', In c (voucher_counters d) -> In c' (voucher_counters d) ->
    vc_hotel_id c = vc_hotel_id c' -> vc_voucher_type c = vc_voucher_type c' -> c = c';
  vo_pos : forall c, In c (voucher_counters d) -> 0 < vc_next_no c }.

Lemma voucherTypeFor_known r : known_type (voucherTypeFor r).
Proof. unfold voucherTypeFor, known_type. repeat case_match; cbn; auto. Qed.

(** References built from a document's number. *)
Lemma prefix_str_app p s : String.prefix p (p ++ s) = true.
Proof.
  induction p as [|c p IH]; [destruct s; reflexivity|]. change (String c p ++ s) with (String c (p ++ s)).
  cbn [String.prefix]. destruct (ascii_dec c c); [exact IH | contradiction].
Qed.
Lemma voucherTypeFor_sale p x :
  In p ["BILL "; "ORDER "; "INV "; "FOLIO "] -> voucherTypeFor (p ++ x) = "SAL".
Proof.
  intros [<-|[<-|[<-|[<-|[]]]]]; unfold voucherTypeFor, HasPrefix; rewrite prefix_str_app; rewrite ?orb_true_r; reflexivity.
Qed.

Lemma voucher_no_inj t t' n n' :
  known_type t -> known_type t' -> 0 < n -> 0 < n' -> voucher_no t n = voucher_no t' n' -> t = t' /\ n = n'.
Proof.
  unfold voucher_no, known_type. intros Ht Ht' Hn Hn' E.
  destruct Ht as [<-|[<-|[<-|[<-|[]]]]], Ht' as [<-|[<-|[<-|[<-|[]]]]]; try discriminate E;
    (split; [reflexivity|]; injection E; apply fmt_0d_inj; assumption).
Qed.

Lemma voucher_not_blank t n : nullif (voucher_no t n) = Some (voucher_no t n).
Proof. unfold nullif, voucher_no. destruct t; reflexivity. Qed.

(** Drawing a number from a series: the number no entry of the series carries. *)
Lemma bump_counter_spec h t d :
  vouchers_ok d -> known_type t ->
  let '(n, d') := bump_counter h t d in
  vouchers_ok d' /\ 0 < n
  /\ (exists v, d' = d <| voucher_counters := v |>)
  /\ (exists c, In c (voucher_counters d') /\ vc_hotel_id c = h /\ vc_voucher_type c = t /\ n < vc_next_no c)
  /\ (forall e, In e (journal_entries d) -> je_hotel_id e = h -> je_voucher_no e <> Some (voucher_no t n)).
Proof.
  intros [Hd Hty Hc Hp] Ht. unfold bump_counter.
  destruct (find_row (counter_key h t) (voucher_counters d)) as [v|] eqn:Ef.
  - apply find_row_some in Ef as [Hin Hk]. unfold counter_key, ueq in Hk.
    apply andb_true_iff in Hk as [Hk1%N.eqb_eq Hk2%String.eqb_eq].
    assert (Hkey : forall r, In r (voucher_counters d) -> counter_key h t r = true -> r = v).
    { intros r Hr Hrk. unfold counter_key, ueq in Hrk.
      apply andb_true_iff in Hrk as [?%N.eqb_eq ?%String.eqb_eq]. apply Hc; congruence. }
    set (f := fun r : VoucherCounterRow => r <| vc_next_no := vc_next_no r + 1 |>).
    assert (Hg : forall c, In c (voucher_counters d) -> exists c', In c' (update_rows (counter_key h t) f (voucher_counters d))
      /\ vc_hotel_id c' = vc_hotel_id c /\ vc_voucher_type c' = vc_voucher_type c /\ vc_next_no c <= vc_next_no c').
    { intros c Hcin. exists (if counter_key h t c then f c else c). split; [apply in_update_rows; eauto|].
      destruct (counter_key h t c); unfold f; cbn; repeat split; try reflexivity; lia. }
    split; [split; cbn | split; [auto | split; [eauto | split]]].
    + intros e He. specialize (Hd e He). unfold voucher_drawn in *. destruct (je_voucher_no e); [|exact I].
      destruct Hd as (c & n & H1 & H2 & H3 & H4 & H5). destruct (Hg c H1) as (c' & G1 & G2 & G3 & G4).
      exists c', n. cbn. rewrite G2, G3. intuition lia.
    + exact Hty.
    + intros c c' H1 H2 H3 H4. apply in_update_rows in H1 as (c0 & H1 & ->), H2 as (c0' & H2 & ->).
      assert (Hid : forall r, vc_hotel_id (if counter_key h t r then f r else r) = vc_hotel_id r
        /\ vc_voucher_type (if counter_key h t r then f r else r) = vc_voucher_type r)
        by (intros r; destruct (counter_key h t r); unfold f; auto).
      destruct (Hid c0), (Hid c0'). now rewrite (Hc c0 c0') by congruence.
    + intros c H1. apply in_update_rows in H1 as (c0 & H1 & ->). specialize (Hp c0 H1).
      destruct (counter_key h t c0); unfold f; cbn; lia.
    + exists (f v). cbn. split; [|intuition lia]. apply in_update_rows. exists v. split; [exact Hin|].
      unfold counter_key, ueq. now rewrite Hk1, Hk2, N.eqb_refl, String.eqb_refl.
    + intros e He Hh Hv. specialize (Hd e He). specialize (Hty e He). unfold voucher_drawn in Hd. rewrite Hv in *.
      destruct Hd as (c & n & H1 & H2 & H3 & H4 & H5).
      apply voucher_no_inj in H4 as [Et <-]; [|exact Ht|apply Hty; eauto|auto|lia].
      assert (c = v) by (apply Hc; congruence). subst. lia.
  - assert (Hno : forall c, In c (voucher_counters d) -> vc_hotel_id c = h -> vc_voucher_type c = t -> False).
    { intros c H1 H2 H3. pose proof (find_row_none _ _ c Ef H1) as Hk. unfold counter_key, ueq in Hk.
      now rewrite H2, H3, N.eqb_refl, String.eqb_refl in Hk. }
    split; [split; cbn | split; [lia | split; [eauto | split]]].
    + intros e He. specialize (Hd e He). unfold voucher_drawn in *. destruct (je_voucher_no e); [|exact I].
      destruct Hd as (c & n & H1 & H2). exists c, n. cbn. split; [apply in_insert_row; auto | exact H2].
    + exact Hty.
    + intros c c' H1 H2 H3 H4. apply in_insert_row in H1 as [H1| ->], H2 as [H2| ->]; cbn in *; auto;
        exfalso; eapply Hno; eauto.
    + intros c H1. apply in_insert_row in H1 as [H1| ->]; cbn; auto. lia.
    + eexists. cbn. split; [apply in_insert_row; right; reflexivity | cbn; intuition lia].
    + intros e He Hh Hv. specialize (Hd e He). specialize (Hty e He). unfold voucher_drawn in Hd. rewrite Hv in *.
      destruct Hd as (c & n & H1 & H2 & H3 & H4 & H5).
      apply voucher_no_inj in H4 as [Et <-]; [|exact Ht|apply Hty; eauto|lia|lia].
      eapply Hno; [exact H1 | congruence..].
Qed.

(** ** Running the postings *)

Lemma account_map_known hotelID cd d :
  exists_row (account_key hotelID cd) (accounts d) = true -> is_Some (account_map hotelID d !! cd).
Proof.
  intros H. apply exists_row_true in H as (a & Hin & Hk).
  unfold account_key, ueq in Hk. apply andb_true_iff in Hk as [Hh Hc%String.eqb_eq].
  assert (Hsel : In a (select (fun a => ueq (acc_hotel_id a) hotelID) (accounts d)))
    by (apply in_select; auto).
  unfold account_map. revert Hsel. generalize (select (fun a => ueq (acc_hotel_id a) hotelID) (accounts d)).
  intros l. generalize (∅ : gmap string uuid). induction l as [|b l IH]; intros m [].
  - subst b. cbn. clear IH. rewrite Hc. 
    assert (Hm : is_Some (<[cd:=acc_id a]> m !! cd)) by (rewrite lookup_insert_eq; eauto).
    revert Hm. generalize (<[cd:=acc_id a]> m). induction l as [|x l IH]; intros m' Hm'; cbn; [exact Hm'|].
    apply IH. destruct (decide (acc_code x = cd)) as [->|Hne];
      [rewrite lookup_insert_eq; eauto | now rewrite lookup_insert_ne].
  - cbn. apply IH. assumption.
Qed.

Section LedgerRuns.
Context {env : Env}.
Implicit Types (c : Conn) (d : DB).

Definition knows_chart (accs : gmap string uuid) : Prop :=
  forall a, In a standardChart -> is_Some (accs !! code a).

Lemma ensureChart_runs c hotelID d R :
  runs c (ensureChartOfAccounts c hotelID) d
    (fun accs d' => knows_chart accs /\ exists a, d' = d <| accounts := a |>) R.
Proof.
  unfold ensureChartOfAccounts. eapply runs_bind.
  - apply (runs_for_each c _ R (fun l d' => (exists a, d' = d <| accounts := a |>) /\
      forall s, In s standardChart -> In s l \/ exists_row (account_key hotelID (code s)) (accounts d') = true)).
    + split; [exists (accounts d); destruct d; reflexivity | auto].
    + intros. inert_go.
    + intros x l' d' [[a ->] Hl]. apply runs_uuid; [intros; inert_go|]. intros id. apply runs_exec.
      unfold insert_account. cbn [acc_hotel_id acc_code].
      destruct (exists_row (account_key hotelID (code x)) _) eqn:Ex.
      * split; [eauto|]. intros s Hs. destruct (Hl s Hs) as [[->|H]|H]; auto.
      * split; [eexists; reflexivity|]. intros s Hs. cbn.
        destruct (Hl s Hs) as [[->|H]|H]; [right|left; exact H|right]; apply exists_row_true.
        -- eexists. split; [apply in_insert_row; right; reflexivity|].
           unfold account_key, ueq; cbn. now rewrite N.eqb_refl, String.eqb_refl.
        -- apply exists_row_true in H as (r & H1 & H2). exists r. split; [apply in_insert_row; auto | exact H2].
  - intros. inert_go.
  - intros u d' [[a ->] Hl]. apply runs_query. split; [|eauto].
    intros s Hs. apply account_map_known. destruct (Hl s Hs) as [[]|H]; exact H.
Qed.

(** Numbering draws a number that no entry of the tenant carries. *)
Lemma numbered_runs c hotelID t d R :
  vouchers_ok d -> known_type t ->
  runs c (numbered c hotelID t : M GoErr string) d (fun v d' => exists n, v = voucher_no t n /\ 0 < n /\ vouchers_ok d'
    /\ (exists vc, d' = d <| voucher_counters := vc |>)
    /\ (exists r, In r (voucher_counters d') /\ vc_hotel_id r = hotelID /\ vc_voucher_type r = t /\ n < vc_next_no r)
    /\ (forall e, In e (journal_entries d') -> je_hotel_id e = hotelID -> je_voucher_no e <> Some v)) R.
Proof.
  intros Hv Ht. unfold numbered. eapply runs_bind.
  - apply (runs_attempt_ok c _ d (fun v d' => exists n, bump_counter hotelID t d = (n, d') /\ v = voucher_no t n)).
    unfold nextVoucherNo. apply runs_then_exec; [intros; inert_go|].
    destruct (bump_counter hotelID t d) as [n d'] eqn:E. apply runs_ret. eauto.
  - intros. inert_go.
  - intros r d' (v & -> & n & Hb & ->). apply runs_ret. exists n.
    pose proof (bump_counter_spec hotelID t d Hv Ht) as H. rewrite Hb in H.
    destruct H as (H1 & H2 & [vc ->] & H4 & H5). split; [reflexivity|]. repeat split; eauto; apply H1.
Qed.

(** Storing an entry whose voucher was just drawn. *)
Lemma vouchers_ok_insert d h e n date desc ref t r :
  vouchers_ok d -> known_type t -> 0 < n ->
  In r (voucher_counters d) -> vc_hotel_id r = h -> vc_voucher_type r = t -> n < vc_next_no r ->
  vouchers_ok (d <| journal_entries ::= insert_row
    {| je_id := e; je_hotel_id := h; je_date := date; je_description := desc; je_reference := ref;
       je_voucher_no := Some (voucher_no t n); je_voucher_type := t |} |>).
Proof.
  intros [H1 H2 H3 H4] Ht Hn Hr Hh Htt Hlt. split; cbn; [| |exact H3|exact H4].
  - intros x Hx. apply in_insert_row in Hx as [Hx| ->]; [exact (H1 x Hx)|].
    unfold voucher_drawn; cbn. exists r, n. intuition.
  - intros x Hx. apply in_insert_row in Hx as [Hx| ->]; [exact (H2 x Hx) | intros _; exact Ht].
Qed.

Lemma insert_entry_runs c d h e n date desc ref t R :
  (forall x, In x (journal_entries d) -> je_hotel_id x = h -> je_voucher_no x <> Some (voucher_no t n)) ->
  let row := {| je_id := e; je_hotel_id := h; je_date := date; je_description := desc; je_reference := ref;
                je_voucher_no := Some (voucher_no t n); je_voucher_type := t |} in
  runs c (insert_entry c row) d (fun _ d' => d' = d <| journal_entries ::= insert_row row |>) R.
Proof.
  intros H row. apply runs_exec. destruct (exists_row (same_voucher row) (journal_entries d)) eqn:E; [|reflexivity].
  apply exists_row_true in E as (x & Hx & Hs). unfold same_voucher, ueq in Hs.
  rewrite !andb_true_iff in Hs. destruct Hs as [[Hh%N.eqb_eq _] Hv%bool_decide_eq_true].
  exfalso. exact (H x Hx Hh Hv).
Qed.

(** The amounts postJournal's loop writes for a line: none for an empty line
    or an account that does not exist. *)
Definition posting (accs : gmap string uuid) (l : journalLine) : option (uuid * Z * Z) :=
  if feq (debit l) 0 && feq (credit l) 0 then None
  else match accs !! accountCode l with
       | Some a => Some (a, num_enc (debit l), num_enc (credit l))
       | None => None
       end.

Lemma post_lines_runs c h e accs lines d R :
  runs c (for_each (post_line c h e accs) lines) d (fun _ d' => exists nl,
    d' = d <| journal_lines ::= fun l => (l ++ nl)%list |>
    /\ map amounts nl = omap (posting accs) lines
    /\ Forall (fun r => jl_entry_id r = e /\ jl_hotel_id r = h) nl) R.
Proof.
  eapply runs_weaken; [apply (runs_for_each c _ R (fun l d' => exists nl,
      d' = d <| journal_lines ::= fun l => (l ++ nl)%list |>
      /\ (map amounts nl ++ omap (posting accs) l = omap (posting accs) lines)%list
      /\ Forall (fun r => jl_entry_id r = e /\ jl_hotel_id r = h) nl)) | cbn | auto].
  - exists []. repeat split; [|constructor]. destruct d; unfold set; cbn. now rewrite app_nil_r.
  - intros. unfold post_line, insert_line. inert_go.
  - intros l ls d' (nl & -> & Hnl & Hall). unfold post_line. cbn [omap list_omap] in Hnl. unfold posting at 1 in Hnl.
    destruct (feq (debit l) 0 && feq (credit l) 0); [apply runs_ret; eauto|].
    destruct (accs !! accountCode l) as [a|]; [|apply runs_ret; eauto].
    apply runs_uuid; [intros; unfold insert_line; inert_go|]. intros id. apply runs_exec.
    match goal with |- context [insert_row ?row] => exists (nl ++ [row])%list end. split; [|split].
    + destruct d; unfold insert_row, set; cbn. now rewrite <- app_assoc.
    + rewrite map_app, <- app_assoc. exact Hnl.
    + apply Forall_app; split; [exact Hall | repeat constructor].
  - intros _ d' (nl & -> & Hnl & Hall). rewrite app_nil_r in Hnl. eauto.
Qed.

(** postJournal writes one numbered entry and the lines of its accounts. *)
Lemma postJournal_runs c h desc ref lines d R :
  vouchers_ok d ->
  runs c (postJournal c h desc ref lines) d (fun e d' => exists accs nl,
    knows_chart accs /\ map amounts nl = omap (posting accs) lines
    /\ posted d d' h e desc ref (voucherTypeFor ref) nl /\ vouchers_ok d') R.
Proof.
  intros Hv. unfold postJournal. eapply runs_bind; [apply ensureChart_runs | intros; unfold numbered, nextVoucherNo, insert_entry, post_line, insert_line; inert_go|].
  intros accs d1 [Hk [a ->]]. eapply runs_bind.
  { apply numbered_runs; [|apply voucherTypeFor_known]. destruct Hv; split; assumption. }
  { intros; unfold insert_entry, post_line, insert_line; inert_go. }
  intros v d2 (n & -> & Hn & Hv2 & [vc ->] & (r & Hr & Hrh & Hrt & Hlt) & Hfresh).
  apply runs_uuid; [intros; unfold insert_entry, post_line, insert_line; inert_go|]. intros ne. generalize (uuid_new ne). intros e.
  apply runs_today; [intros; unfold insert_entry, post_line, insert_line; inert_go|]. intros now. generalize (db_date now). intros date.
  rewrite voucher_not_blank. eapply runs_bind; [apply insert_entry_runs; exact Hfresh | intros; unfold post_line, insert_line; inert_go|].
  intros _ d3 ->. eapply runs_bind; [apply post_lines_runs | intros; inert_go|].
  intros _ d4 (nl & -> & Hnl & Hall). apply runs_ret. exists accs, nl.
  split; [exact Hk|]. split; [exact Hnl|]. split.
  - split; [|do 2 eexists; reflexivity|reflexivity|exact Hall]. unfold ledger_only. cbn. repeat eexists.
  - pose proof (vouchers_ok_insert _ h e n date desc ref _ r Hv2 (voucherTypeFor_known ref) Hn Hr Hrh Hrt Hlt) as [G1 G2 G3 G4].
    split; assumption.
Qed.

(** *** Balance of the lines written *)
Context {laws : EnvLaws env}.

Definition chart_code (cd : string) : bool := existsb (fun a => code a =s cd) standardChart.
(** The line carries whole paise, kd to the debit and kc to the credit side. *)
Definition in_paise (l : journalLine) (k : Z * Z) : Prop :=
  chart_code (accountCode l) = true /\ debit l = cents (fst k) /\ credit l = cents (snd k)
  /\ Z.abs (fst k) <= MAXC /\ Z.abs (snd k) <= MAXC.

Lemma in_paise_dr cd k m : chart_code cd = true -> Z.abs k <= MAXC -> in_paise (dr cd (cents k) m) (k, 0).
Proof. intros H ?. unfold in_paise; cbn -[cents]. rewrite cents_0. unfold MAXC in *. repeat split; auto; lia. Qed.
Lemma in_paise_cr cd k m : chart_code cd = true -> Z.abs k <= MAXC -> in_paise (cr cd (cents k) m) (0, k).
Proof. intros H ?. unfold in_paise; cbn -[cents]. rewrite cents_0. unfold MAXC in *. repeat split; auto; lia. Qed.

Lemma posting_paise accs l k :
  knows_chart accs -> in_paise l k ->
  (k = (0, 0) /\ posting accs l = None) \/ (exists a, posting accs l = Some (a, fst k, snd k)).
Proof.
  intros Hk (Hc & Hd & Hr & Bd & Br). destruct k as [kd kc]; cbn [fst snd] in *.
  assert (Hz : forall x, Z.abs x <= MAXC -> feq (cents x) 0 = (x =? 0)).
  { intros x Hx. rewrite <- cents_0. apply feq_cents; [exact Hx | unfold MAXC; lia]. }
  unfold posting. rewrite Hd, Hr, !Hz, !num_enc_cents by assumption.
  destruct (Z.eqb_spec kd 0) as [->|]; destruct (Z.eqb_spec kc 0) as [->|]; cbn [andb]; auto; right;
    unfold chart_code in Hc; apply existsb_exists in Hc as (a & Ha & Hcode%String.eqb_eq);
    destruct (Hk a Ha) as [u Hu]; rewrite Hcode in Hu; rewrite Hu; eauto.
Qed.

Lemma posted_totals accs lines ks nl :
  knows_chart accs -> Forall2 in_paise lines ks -> map amounts nl = omap (posting accs) lines ->
  total_debit nl = sumZ (map fst ks) /\ total_credit nl = sumZ (map snd ks).
Proof.
  intros Hk Hl Hnl.
  assert (Ht : total_debit nl = sumZ (map (fun p => snd (fst p)) (map amounts nl))
            /\ total_credit nl = sumZ (map (fun p => snd p) (map amounts nl)))
    by (unfold total_debit, total_credit; rewrite !List.map_map; auto).
  destruct Ht as [-> ->]. rewrite Hnl. clear Hnl nl.
  induction Hl as [|l k ls ks Hlk _ [IH1 IH2]]; [auto|].
  cbn [omap list_omap]. unfold sumZ in *. cbn [map foldr].
  destruct (posting_paise accs l k Hk Hlk) as [[-> E]|[a E]]; rewrite E; cbn [map foldr fst snd] in *; lia.
Qed.

(** The computation posts one balanced entry moving T paise. *)
Definition books (m : Conn -> M GoErr uuid) (h : uuid) (desc ref : string) (T : Z) : Prop :=
  forall c d, vouchers_ok d -> runs c (m c) d (fun e d' => exists nl,
    posted d d' h e desc ref (voucherTypeFor ref) nl /\ in_balance nl /\ total_debit nl = T
    /\ vouchers_ok d') (fun _ => False).

Lemma postJournal_books h desc ref lines ks T :
  Forall2 in_paise lines ks -> sumZ (map fst ks) = T -> sumZ (map snd ks) = T ->
  books (fun c => postJournal c h desc ref lines) h desc ref T.
Proof.
  intros Hl Hd Hc c d Hv. eapply runs_post; [apply postJournal_runs; exact Hv | cbn].
  intros e d' (accs & nl & Hk & Hnl & Hp & Hv'). exists nl.
  destruct (posted_totals accs lines ks nl Hk Hl Hnl) as [H1 H2]. unfold in_balance. rewrite H1, H2.
  split; [exact Hp|]. split; [congruence|]. split; [exact Hd | exact Hv'].
Qed.

(** *** Reversal *)

Definition swap_sides (p : uuid * Z * Z) : uuid * Z * Z := (fst (fst p), snd p, snd (fst p)).
(** Debits less credits of one account. *)
Definition net (a : uuid) (l : list JournalLineRow) : Z :=
  sumZ (map (fun r => if ueq (jl_account_id r) a then jl_debit r - jl_credit r else 0) l).

Lemma net_app a l1 l2 : net a (l1 ++ l2)%list = net a l1 + net a l2.
Proof. unfold net. now rewrite map_app, sumZ_app. Qed.

Lemma net_swap a nl src :
  map amounts nl = map (fun r => swap_sides (amounts r)) src -> net a nl = - net a src.
Proof.
  revert src. induction nl as [|r nl IH]; intros [|s src] H; cbn in H; try discriminate; [reflexivity|].
  injection H as H1 H2 H3 H. specialize (IH src H). unfold net, sumZ in *. cbn [map foldr].
  rewrite IH, H1, H2, H3. destruct (ueq (jl_account_id s) a); lia.
Qed.

Definition line_bounded (r : JournalLineRow) : Prop := Z.abs (jl_debit r) <= MAXC /\ Z.abs (jl_credit r) <= MAXC.

Lemma reversal_lines_runs c h e (src : list JournalLineRow) d R :
  Forall line_bounded src ->
  runs c (for_each (fun '(acct, db, cdt) =>
        id ← new_uuid;
        insert_line c {| jl_id := id; jl_entry_id := e; jl_hotel_id := h;
          jl_account_id := acct; jl_debit := num_enc (round2 cdt); jl_credit := num_enc (round2 db);
          jl_memo := "Reversal" |})
      (map (fun l => (jl_account_id l, num_dec (jl_debit l), num_dec (jl_credit l))) src)) d
    (fun _ d' => exists nl, d' = d <| journal_lines ::= fun l => (l ++ nl)%list |>
      /\ map amounts nl = map (fun r => swap_sides (amounts r)) src
      /\ Forall (fun r => jl_entry_id r = e /\ jl_hotel_id r = h) nl) R.
Proof.
  intros Hb. eapply runs_weaken; [apply (runs_for_each c _ R (fun l d' => exists nl src',
      l = map (fun l => (jl_account_id l, num_dec (jl_debit l), num_dec (jl_credit l))) src'
      /\ d' = d <| journal_lines ::= fun l => (l ++ nl)%list |> /\ Forall line_bounded src'
      /\ (map amounts nl ++ map (fun r => swap_sides (amounts r)) src' = map (fun r => swap_sides (amounts r)) src)%list
      /\ Forall (fun r => jl_entry_id r = e /\ jl_hotel_id r = h) nl)) | cbn | auto].
  - exists [], src. repeat split; [|exact Hb|constructor]. destruct d; unfold set; cbn. now rewrite app_nil_r.
  - intros [[? ?] ?]. unfold insert_line. inert_go.
  - intros x ls d' (nl & [|s src'] & Hx & -> & Hb' & Hnl & Hall); [discriminate Hx|].
    injection Hx as -> ->. apply Forall_cons in Hb' as [[B1 B2] Hb'].
    apply runs_uuid; [intros; unfold insert_line; inert_go|]. intros id. apply runs_exec.
    match goal with |- context [insert_row ?row] => exists (nl ++ [row])%list, src' end.
    rewrite !num_dec_cents, !round2_cents, !num_enc_cents by assumption.
    split; [reflexivity|]. split; [|split; [exact Hb'|split]].
    + destruct d; unfold insert_row, set; cbn. now rewrite <- app_assoc.
    + rewrite map_app, <- app_assoc. exact Hnl.
    + apply Forall_app; split; [exact Hall | repeat constructor].
  - intros _ d' (nl & [|] & Hx & -> & _ & Hnl & Hall); [|discriminate Hx]. rewrite app_nil_r in Hnl. eauto.
Qed.

Lemma reversal_runs c h ref desc d R :
  vouchers_ok d -> Forall line_bounded (lines_of_reference h ref d) ->
  runs c (reverseJournalsByReference c h ref desc) d (fun e d' =>
    (lines_of_reference h ref d = [] /\ e = uuid_nil /\ d' = d)
    \/ exists nl, posted d d' h e desc (ref ++ " REV") (voucherTypeFor ref) nl /\ vouchers_ok d'
         /\ map amounts nl = map (fun r => swap_sides (amounts r)) (lines_of_reference h ref d)) R.
Proof.
  intros Hv Hb. unfold reverseJournalsByReference.
  apply runs_then_query.
  { intros a. destruct a; [inert_go|]. unfold numbered, nextVoucherNo, insert_entry, insert_line. inert_go. }
  pose proof (reversal_lines_runs c h) as Hrun.
  destruct (lines_of_reference h ref d) as [|l0 src] eqn:Esrc; [apply runs_ret; auto|].
  cbn [map]. change ((jl_account_id l0, num_dec (jl_debit l0), num_dec (jl_credit l0)) :: map ?f src) with (map f (l0 :: src)).
  eapply runs_bind; [apply numbered_runs; [exact Hv | apply voucherTypeFor_known]
                    | intros; unfold insert_entry, insert_line; inert_go|].
  intros v d2 (n & -> & Hn & Hv2 & [vc ->] & (r & Hr & Hrh & Hrt & Hlt) & Hfresh).
  apply runs_uuid; [intros; unfold insert_entry, insert_line; inert_go|]. intros ne. generalize (uuid_new ne). intros e.
  apply runs_today; [intros; unfold insert_entry, post_line, insert_line; inert_go|]. intros now. generalize (db_date now). intros date.
  rewrite voucher_not_blank. eapply runs_bind; [apply insert_entry_runs; exact Hfresh | intros; unfold insert_line; inert_go|].
  intros _ d3 ->. eapply runs_bind; [apply (Hrun e (l0 :: src)); exact Hb | intros; inert_go|].
  intros _ d4 (nl & -> & Hnl & Hall). apply runs_ret. right. exists nl. split; [|split; [|exact Hnl]].
  - split; [|do 2 eexists; reflexivity|reflexivity|exact Hall]. unfold ledger_only. cbn. repeat eexists.
  - pose proof (vouchers_ok_insert _ h e n date desc (ref ++ " REV") _ r Hv2 (voucherTypeFor_known ref) Hn Hr Hrh Hrt Hlt) as [G1 G2 G3 G4].
    split; assumption.
Qed.
End LedgerRuns.

(** ** Claims *)

(** The number the next draw of a series gives. *)
Definition next_no (h : uuid) (t : string) (d : DB) : Z :=
  match find_row (counter_key h t) (voucher_counters d) with Some v => vc_next_no v | None => 1 end.
Section LedgerClaims.
Context {env : Env}.

Lemma find_row_insert {R} (p : R -> bool) r t :
  find_row p (insert_row r t) = match find_row p t with Some x => Some x | None => if p r then Some r else None end.
Proof. unfold find_row, insert_row. induction t as [|x t IH]; cbn; [reflexivity|]. destruct (p x); auto. Qed.

Lemma next_no_bump h t h' t' d :
  next_no h t (snd (bump_counter h' t' d)) =
  if ueq h' h && (t' =s t) then next_no h' t' d + 1 else next_no h t d.
Proof.
  unfold next_no at 1, bump_counter.
  assert (Hdiff : forall v, counter_key h' t' v = true -> counter_key h t v = ueq h' h && (t' =s t)).
  { intros v. unfold counter_key, ueq. rewrite andb_true_iff. intros [->%N.eqb_eq ->%String.eqb_eq]. reflexivity. }
  destruct (find_row (counter_key h' t') (voucher_counters d)) as [v|] eqn:E'; cbn [snd].
  - pose proof (find_row_some _ _ _ E') as [Hin Hk']. cbn.
    rewrite find_row_update by (intros r; reflexivity).
    destruct (ueq h' h && (t' =s t)) eqn:Hsame.
    + unfold ueq in Hsame. apply andb_true_iff in Hsame as [<-%N.eqb_eq <-%String.eqb_eq].
      unfold next_no. rewrite E'. cbn. rewrite Hk'. reflexivity.
    + unfold next_no. destruct (find_row (counter_key h t) (voucher_counters d)) as [w|] eqn:E; cbn; [|reflexivity].
      pose proof (find_row_some _ _ _ E) as [_ Hk]. destruct (counter_key h' t' w) eqn:Hw; [|reflexivity].
      rewrite (Hdiff w Hw) in Hk. congruence.
  - cbn. rewrite find_row_insert. unfold counter_key at 2. cbn.
    destruct (ueq h' h && (t' =s t)) eqn:Hsame.
    + unfold ueq in Hsame. apply andb_true_iff in Hsame as [<-%N.eqb_eq <-%String.eqb_eq].
      unfold next_no. now rewrite E'.
    + unfold next_no. destruct (find_row (counter_key h t) (voucher_counters d)); reflexivity.
Qed.

Lemma bump_counter_no h t d : fst (bump_counter h t d) = next_no h t d.
Proof. unfold bump_counter, next_no. destruct (find_row _ _); reflexivity. Qed.

End LedgerClaims.

(** A journal whose lines carry the given debits and credits. *)
Ltac books_with amounts :=
  solve [ apply postJournal_books with (ks := amounts);
          repeat (first [apply Forall2_cons_2 | apply Forall2_nil_2]);
          first [ apply in_paise_dr | apply in_paise_cr | unfold sumZ; cbn [map foldr fst snd]; lia ];
          first [ reflexivity | assumption ] ].

(** C5: every posting the application makes (POS sale, folio settlement, sales
    invoice, credit note, goods receipt, supplier payment, debit note, cost of
    goods) writes one numbered journal entry whose debits equal its credits, for
    any amounts in whole paise. *)
Theorem every_posting_balances (env : Env) (laws : EnvLaws env) h desc ref method sub T X
  (HT : Z.abs T <= MAXC) (HX : Z.abs X <= MAXC) (HTX : Z.abs (T - X) <= MAXC) :
  books (fun c => postSalesToLedger c h method sub (cents X) (cents T) ref desc) h desc ref T
  /\ books (fun c => postRoomRevenue c h method (cents X) (cents T) ref desc) h desc ref T
  /\ books (fun c => postARInvoice c h (cents X) (cents T) ref desc) h desc ref T
  /\ books (fun c => postCreditNoteReversal c h (cents X) (cents T) ref desc) h desc ref T
  /\ books (fun c => postGoodsReceipt c h (cents T) ref desc) h desc ref T
  /\ books (fun c => postAPSettlement c h method (cents T) ref desc) h desc ref T
  /\ books (fun c => postVendorDebitNote c h (cents T) ref desc) h desc ref T
  /\ (T <> 0 -> books (fun c => postCOGS c h (cents T) ref desc) h desc ref T).
Proof.
  assert (Hcash : chart_code (if method =s "cash" then "1000" else "1010") = true) by (destruct (method =s "cash"); reflexivity).
  unfold postSalesToLedger, postRoomRevenue, postARInvoice, postCreditNoteReversal, postGoodsReceipt,
    postAPSettlement, postVendorDebitNote, postCOGS, cashAccount.
  assert (Hz : T <> 0 -> feq (cents T) 0 = false).
  { intros H. rewrite <- cents_0, feq_cents by (assumption || (unfold MAXC; lia)). lia. }
  rewrite !round2_cents, ?round2_sub by assumption.
  refine (conj _ (conj _ (conj _ (conj _ (conj _ (conj _ (conj _ _))))))); [..|intros H0; rewrite (Hz H0)];
  first [ books_with [(T, 0); (0, T - X); (0, X)] | books_with [(T - X, 0); (X, 0); (0, T)]
        | books_with [(T, 0); (0, T)] ].
Qed.

Lemma every_posting_balances_witness :
  books (env := calm) (fun c => postSalesToLedger (env := calm) c 1%N "card" 0 (cents 500) (cents 10500) "BILL 7" "sale")
    1%N "sale" "BILL 7" 10500.
Proof.
  assert (H : Z.abs 10500 <= MAXC /\ Z.abs 500 <= MAXC /\ Z.abs (10500 - 500) <= MAXC)
    by (unfold MAXC; lia).
  destruct H as (H1 & H2 & H3).
  exact (proj1 (every_posting_balances calm calm_laws 1%N "sale" "BILL 7" "card" 0 10500 500 H1 H2 H3)).
Defined.

(** Reversing the journals of a reference posts one entry that cancels them:
    over the original lines and the new ones, debits equal credits in every
    account, and nothing already posted is changed. *)
Theorem reversal_nets_to_zero (env : Env) (laws : EnvLaws env) c h ref desc d
  (Hv : vouchers_ok d) (Hb : Forall line_bounded (lines_of_reference h ref d))
  (Hsome : lines_of_reference h ref d <> []) :
  runs c (reverseJournalsByReference c h ref desc) d (fun e d' => exists nl,
      posted d d' h e desc (ref ++ " REV") (voucherTypeFor ref) nl /\ vouchers_ok d'
      /\ forall a, net a (lines_of_reference h ref d ++ nl)%list = 0) (fun _ => False).
Proof.
  eapply runs_post; [exact (reversal_runs c h ref desc d (fun _ => False) Hv Hb)|].
  intros e d' [[E _]|(nl & Hp & Hv' & Hnl)]; [contradiction|]. exists nl.
  split; [exact Hp|]. split; [exact Hv'|]. intros a. rewrite net_app, (net_swap a nl _ Hnl). lia.
Qed.

(** A sale of 105.00 with 5.00 tax, on the books of hotel 1. *)
Definition one_sale : DB :=
  empty_db <| accounts := [ Build_AccountRow 11 1 "1000" "Cash" "asset" "current_asset" None 0 "INR" true 1;
                            Build_AccountRow 12 1 "2100" "GST Payable" "liability" "current_liability" None 0 "INR" true 6;
                            Build_AccountRow 13 1 "4100" "Food & Beverage Revenue" "revenue" "operating_revenue" None 0 "INR" true 9 ]%N |>
           <| voucher_counters := [ Build_VoucherCounterRow 1 "SAL" 2 ]%N |>
           <| journal_entries := [ Build_JournalEntryRow 21 1 (Build_Time 0 0) "sale" "BILL 7" (Some "SAL-000001") "SAL" ]%N |>
           <| journal_lines := [ Build_JournalLineRow 31 21 1 11 10500 0 "cash"; Build_JournalLineRow 32 21 1 13 0 10000 "rev";
                                 Build_JournalLineRow 33 21 1 12 0 500 "gst" ]%N |>.

Lemma one_sale_vouchers : vouchers_ok one_sale.
Proof.
  split; cbn.
  - intros e [<-|[]]. unfold voucher_drawn. cbn. exists (Build_VoucherCounterRow 1 "SAL" 2), 1.
    repeat split; auto; lia.
  - intros e [<-|[]] _. left. reflexivity.
  - intros c c' [<-|[]] [<-|[]]. reflexivity.
  - intros c [<-|[]]. cbn. lia.
Qed.

Lemma reversal_nets_to_zero_witness :
  runs (env := calm) Pool (reverseJournalsByReference (env := calm) Pool 1%N "BILL 7" "void") one_sale (fun e d' => exists nl,
      posted one_sale d' 1%N e "void" ("BILL 7" ++ " REV") "SAL" nl /\ vouchers_ok d'
      /\ forall a, net a (lines_of_reference 1%N "BILL 7" one_sale ++ nl)%list = 0) (fun _ => False).
Proof.
  apply (reversal_nets_to_zero calm calm_laws Pool 1%N "BILL 7" "void" one_sale one_sale_vouchers).
  - repeat constructor; vm_compute; discriminate.
  - discriminate.
Defined.
