(* ===== verification/VoucherSpec.v ===== *)
(** VoucherSpec: the numbers of the vouchers, over any postings and whatever
    fails.  A series is never used twice over; a posting inside a transaction
    never leaves a gap in it, and one on the pool leaves at most the number it had
    drawn when it failed. *)

From S2P Require Import Prelude GoLib Schema Binary64 World Auth Guards Ledger.
From Stdlib Require Import QArith Permutation.
Local Open Scope string_scope.
Local Open Scope Z_scope.

(** ** Postings as the handlers make them *)

(** A journal's lines, or the reversal of what is posted under the reference. *)
Record Posting := { pg_hotel : uuid; pg_description : string; pg_reference : string; pg_lines : option (list journalLine) }.
(** On the pool, statement by statement, or several in one transaction. *)
Inductive PostingJob := OnPool (p : Posting) | InTx (ps : list Posting).

Section Jobs.
Context {env : Env}.

Definition post_body (c : Conn) (p : Posting) : M GoErr uuid :=
  match pg_lines p with
  | Some lines => postJournal c (pg_hotel p) (pg_description p) (pg_reference p) lines
  | None => reverseJournalsByReference c (pg_hotel p) (pg_reference p) (pg_description p)
  end.
(** Was the job on the pool, and did it fail? *)
Definition post_job (j : PostingJob) : M Empty_set bool :=
  match j with
  | OnPool p => r ← attempt (post_body Pool p); mret (match r with inl _ => true | inr _ => false end)
  | InTx ps => attempt (WithTenantTx (fun c => for_each (fun p => post_body c p ;; mret tt) ps)) ;; mret false
  end.
(** The jobs one after the other, their errors dropped; how many failed on the pool. *)
Fixpoint post_all (js : list PostingJob) : M Empty_set nat :=
  match js with
  | [] => mret 0%nat
  | j :: js' => lost ← post_job j; n ← post_all js'; mret (if (lost : bool) then S n else n)
  end.
End Jobs.

(** ** A series *)

Definition in_series (h : uuid) (t : string) (e : JournalEntryRow) : bool := ueq (je_hotel_id e) h && (je_voucher_type e =s t).
(** The numbers on file, and how many of those drawn are on none. *)
Definition numbers (h : uuid) (t : string) (d : DB) : list string := omap je_voucher_no (select (in_series h t) (journal_entries d)).
Definition missing (h : uuid) (t : string) (d : DB) : Z := next_no h t d - 1 - Z.of_nat (length (numbers h t d)).
Definition drawn (h : uuid) (t : string) (d : DB) : list string := map (voucher_no t) (seqZ 1 (next_no h t d - 1)).
Record series_ok (d : DB) : Prop := { sk_vouchers : vouchers_ok d; sk_once : forall h t, NoDup (numbers h t d) }.

(** At most k more numbers are missing from any series. *)
Definition within (k : Z) (d d' : DB) : Prop :=
  series_ok d -> series_ok d' /\ forall h t, missing h t d' <= missing h t d + k.
Lemma within_trans a b d1 d2 d3 : within a d1 d2 -> within b d2 d3 -> within (a + b) d1 d3.
Proof. intros H1 H2 H. destruct (H1 H) as [Hs Hm]. destruct (H2 Hs) as [Hs' Hm']. split; [exact Hs'|]. intros h t. specialize (Hm h t). specialize (Hm' h t). lia. Qed.
Lemma within_weaken a b d d' : a <= b -> within a d d' -> within b d d'.
Proof. intros Hab H Hd. destruct (H Hd) as [Hs Hm]. split; [exact Hs|]. intros h t. specialize (Hm h t). lia. Qed.
Lemma within_refl d : within 0 d d.
Proof. intros H. split; [exact H|]. intros h t. lia. Qed.

(** Neither the entries nor the counters. *)
Definition quiet (d d' : DB) : Prop := journal_entries d' = journal_entries d /\ voucher_counters d' = voucher_counters d.
Lemma quiet_within d d' : quiet d d' -> within 0 d d'.
Proof.
  intros [E1 E2] [[H1 H2 H3 H4] Hn]. unfold missing, numbers, next_no in *. rewrite E1, E2. split; [|intros h t; lia].
  split; [|intros h t; unfold numbers; rewrite E1; apply Hn]. split; unfold voucher_drawn in *; rewrite ?E1, ?E2; assumption.
Qed.
Lemma quiet_refl d : quiet d d.
Proof. split; reflexivity. Qed.
Lemma quiet_trans d1 d2 d3 : quiet d1 d2 -> quiet d2 d3 -> quiet d1 d3.
Proof. intros [E1 E2] [E3 E4]. split; congruence. Qed.

(** ** Every number on file was drawn *)

Lemma numbers_drawn h t d : vouchers_ok d -> known_type t -> incl (numbers h t d) (drawn h t d).
Proof.
  intros Hv Ht v Hin. unfold numbers in Hin. apply list_elem_of_In, list_elem_of_omap in Hin as (e & He & Ev).
  apply list_elem_of_In, in_select in He as [He Hk]. apply andb_true_iff in Hk as [Hh%N.eqb_eq Htt%String.eqb_eq].
  pose proof (vo_drawn d Hv e He) as Hd. unfold voucher_drawn in Hd. rewrite Ev in Hd. destruct Hd as (c & n & Hc & H1 & H2 & -> & Hn).
  rewrite Htt. unfold drawn. apply in_map, list_elem_of_In, elem_of_seqZ.
  assert (En : next_no h t d = vc_next_no c); [|lia]. unfold next_no.
  assert (Hck : counter_key h t c = true) by (unfold counter_key, ueq; rewrite H1, H2, Hh, Htt, N.eqb_refl, String.eqb_refl; reflexivity).
  destruct (find_row (counter_key h t) (voucher_counters d)) as [c'|] eqn:E.
  - apply find_row_some in E as [Hc' Hk']. unfold counter_key, ueq in Hk'. apply andb_true_iff in Hk' as [E1%N.eqb_eq E2%String.eqb_eq].
    now rewrite (vo_counter d Hv c' c) by (congruence || assumption).
  - rewrite (find_row_none _ _ c E Hc) in Hck. discriminate.
Qed.
Lemma next_no_pos h t d : vouchers_ok d -> 1 <= next_no h t d.
Proof.
  intros Hv. unfold next_no. destruct (find_row _ _) as [c|] eqn:E; [|lia]. apply find_row_some in E as [E _].
  pose proof (vo_pos d Hv c E). lia.
Qed.
Lemma drawn_length h t d : vouchers_ok d -> Z.of_nat (length (drawn h t d)) = next_no h t d - 1.
Proof. intros Hv. pose proof (next_no_pos h t d Hv). unfold drawn. rewrite length_map, length_seqZ. lia. Qed.
Lemma missing_nonneg h t d : series_ok d -> known_type t -> 0 <= missing h t d.
Proof.
  intros [Hv Hn] Ht. pose proof (List.NoDup_incl_length (proj1 (NoDup_ListNoDup _) (Hn h t)) (numbers_drawn h t d Hv Ht)) as H.
  pose proof (drawn_length h t d Hv). unfold missing. lia.
Qed.
Lemma none_missing h t d : series_ok d -> known_type t -> missing h t d = 0 -> numbers h t d ≡ₚ drawn h t d.
Proof.
  intros [Hv Hn] Ht Hm. pose proof (drawn_length h t d Hv). apply NoDup_Permutation_bis; [apply NoDup_ListNoDup, Hn | unfold missing in Hm; lia |].
  now apply numbers_drawn.
Qed.

(** ** Drawing a number, and filing it *)

(** What a draw leaves, and then the entry that carries the number. *)
Definition numbered_row (h : uuid) (t : string) (n : Z) (e : JournalEntryRow) : Prop :=
  je_hotel_id e = h /\ je_voucher_type e = t /\ je_voucher_no e = Some (voucher_no t n).

Lemma draw_within h t d : known_type t -> within 1 d (snd (bump_counter h t d)).
Proof.
  intros Ht [Hv Hn]. pose proof (bump_counter_spec h t d Hv Ht) as H. pose proof (fun h' t' => next_no_bump h' t' h t d) as Hb.
  destruct (bump_counter h t d) as [n d']. destruct H as (Hv' & _ & [v ->] & _). cbn [snd] in Hb. split.
  - split; [exact Hv' | exact Hn].
  - intros h' t'. cbn [snd]. unfold missing. rewrite Hb. change (numbers h' t' (d <| voucher_counters := v |>)) with (numbers h' t' d).
    destruct (ueq h h' && (t =s t')) eqn:E; [|lia]. unfold ueq in E. apply andb_true_iff in E as [->%N.eqb_eq ->%String.eqb_eq]. lia.
Qed.

Lemma file_within h t d row : known_type t -> numbered_row h t (fst (bump_counter h t d)) row ->
  within 0 d ((snd (bump_counter h t d)) <| journal_entries ::= insert_row row |>).
Proof.
  intros Ht (E1 & E2 & E3) [Hv Hn]. pose proof (bump_counter_spec h t d Hv Ht) as H. pose proof (fun h' t' => next_no_bump h' t' h t d) as Hb.
  destruct (bump_counter h t d) as [n d'] eqn:Ebump. destruct H as (Hv' & Hpos & [v ->] & (c & Hc & Hch & Hct & Hlt) & Hfresh). cbn [fst snd] in *.
  assert (Hnum : forall h' t', numbers h' t' (d <| voucher_counters := v |> <| journal_entries ::= insert_row row |>)
    = (numbers h' t' d ++ if ueq h h' && (t =s t') then [voucher_no t n] else [])%list).
  { intros h' t'. unfold numbers, select, insert_row. cbn. rewrite List.filter_app, omap_app. f_equal. cbn. unfold in_series. rewrite E1, E2.
    destruct (ueq h h' && (t =s t')); [|reflexivity]. cbn. now rewrite E3. }
  split.
  - split.
    + destruct row as [i h0 da de re vo ty]. cbn in E1, E2, E3. subst h0 ty vo. exact (vouchers_ok_insert _ h i n da de re t c Hv' Ht Hpos Hc Hch Hct Hlt).
    + intros h' t'. rewrite Hnum. apply list.NoDup_app. split; [apply Hn|]. split; [|destruct (ueq h h' && _); [apply NoDup_singleton | constructor]].
      intros x Hx Hx'. destruct (ueq h h' && (t =s t')) eqn:E; [|inversion Hx']. apply list_elem_of_singleton in Hx' as ->.
      unfold ueq in E. apply andb_true_iff in E as [<-%N.eqb_eq <-%String.eqb_eq].
      unfold numbers in Hx. apply list_elem_of_omap in Hx as (e & He & Ev). apply list_elem_of_In, in_select in He as [He Hk].
      apply andb_true_iff in Hk as [Hh%N.eqb_eq _]. exact (Hfresh e He Hh Ev).
  - intros h' t'. unfold missing. rewrite Hnum. change (next_no h' t' (d <| voucher_counters := v |> <| journal_entries ::= insert_row row |>)) with (next_no h' t' (d <| voucher_counters := v |>)).
    rewrite Hb, length_app. destruct (ueq h h' && (t =s t')) eqn:E; cbn [length]; [|lia].
    unfold ueq in E. apply andb_true_iff in E as [->%N.eqb_eq ->%String.eqb_eq]. lia.
Qed.

(** ** A posting *)

Section Posting.
Context {env : Env}.

Lemma keeps_quiet_exec {A} d0 c (f : DB -> GoErr + (A * DB)) :
  (forall d a d', f d = inr (a, d') -> quiet d d') -> keeps (quiet d0) (exec c f).
Proof. intros Hf. apply keeps_exec. intros d a d' H E. eapply quiet_trans; [exact H | eapply Hf, E]. Qed.
Lemma insert_account_quiet row d a d' : inr (A := GoErr) (insert_account row d) = inr (a, d') -> quiet d d'.
Proof. unfold insert_account. intros [= _ <-]. destruct (exists_row _ _); split; reflexivity. Qed.
Ltac quiet_go :=
  repeat first [keeps_step | apply keeps_quiet_exec; intros ? ? ?; first [apply insert_account_quiet | intros [= _ <-]; split; reflexivity]].
Lemma keeps_quiet_chart d0 c h : keeps (quiet d0) (ensureChartOfAccounts c h).
Proof. unfold ensureChartOfAccounts. quiet_go. Qed.
Lemma keeps_quiet_lines d0 c h e accs lines : keeps (quiet d0) (for_each (post_line c h e accs) lines).
Proof. unfold post_line, insert_line. quiet_go. Qed.
Lemma ens_quiet {A} (m : M GoErr A) d : (forall d0, keeps (quiet d0) m) -> inert Pool m -> ensures m d (fun _ d' => quiet d d') (fun _ d' => quiet d d').
Proof. intros Hk Hi. apply (ens_keeps (quiet d)); [apply Hk | exact Hi | apply quiet_refl]. Qed.

(** From the draw on, the rest leaving entries and counters alone. *)
Section Enter.
Context (h : uuid) (t : string) (row : string -> uuid -> Time -> JournalEntryRow) (rest : uuid -> M GoErr uuid) (Ht : known_type t).
Hypothesis Hrow : forall n e today, numbered_row h t n (row (voucher_no t n) e today).
Hypothesis Hblank : forall e today, je_voucher_no (row "" e today) = None.
Definition enter (c : Conn) : M GoErr uuid :=
  voucherNo ← numbered c h t; entryID ← new_uuid; today ← current_date;
  insert_entry c (row voucherNo entryID today) ;; rest entryID.

(** An entry without a number uses none. *)
Lemma blank_within d e : je_voucher_no e = None -> within 0 d (d <| journal_entries ::= insert_row e |>).
Proof.
  intros He [Hv Hn]. assert (Hnum : forall h' t', numbers h' t' (d <| journal_entries ::= insert_row e |>) = numbers h' t' d).
  { intros h' t'. unfold numbers, select, insert_row. cbn. rewrite List.filter_app, omap_app. cbn. destruct (in_series h' t' e); cbn; rewrite ?He, app_nil_r; reflexivity. }
  split; [split|].
  - destruct Hv as [H1 H2 H3 H4]. split; cbn; [| |exact H3|exact H4].
    + intros x [Hx| ->]%in_insert_row; [exact (H1 x Hx) | unfold voucher_drawn; now rewrite He].
    + intros x [Hx| ->]%in_insert_row; [exact (H2 x Hx) | rewrite He; intros [? [=]]].
  - intros h' t'. rewrite Hnum. apply Hn.
  - intros h' t'. unfold missing. rewrite Hnum. change (next_no h' t' (d <| journal_entries ::= insert_row e |>)) with (next_no h' t' d). lia.
Qed.

Lemma enter_ens d : (forall e d0, keeps (quiet d0) (rest e)) -> (forall e, inert Pool (rest e)) ->
  ensures (enter Pool) d (fun _ d' => within 0 d d') (fun _ d' => within 1 d d').
Proof.
  intros Hk Hi. unfold enter, numbered.
  eapply ens_bind with (Q1 := fun v d' => (v = voucher_no t (fst (bump_counter h t d)) /\ d' = snd (bump_counter h t d)) \/ (v = "" /\ d' = d)).
  { eapply ens_bind with (Q1 := fun r d' => match r with inr v => v = voucher_no t (fst (bump_counter h t d)) /\ d' = snd (bump_counter h t d) | inl _ => d' = d end).
    - apply ens_attempt. unfold nextVoucherNo. eapply ens_bind; [apply ens_exec with (Q := fun n d' => (n, d') = bump_counter h t d); [reflexivity|]|].
      + destruct (bump_counter h t d); reflexivity.
      + intros n d' E. apply ens_ret. rewrite <- E. auto.
    - intros [e|v] d' H; apply ens_ret; auto. }
  intros v d1 Hd1. eapply ens_bind with (Q1 := fun _ d' => d' = d1); [now apply ens_uuid|]. intros e d' ->.
  eapply ens_bind with (Q1 := fun _ d' => d' = d1); [unfold current_date; eapply ens_bind with (Q1 := fun _ d' => d' = d1); [now apply ens_now | intros ? ? ->; now apply ens_ret]|].
  intros today d' ->. assert (H1 : within 1 d d1).
  { destruct Hd1 as [[_ ->]|[_ ->]]; [now apply draw_within | apply (within_weaken 0); [lia | apply within_refl]]. }
  eapply ens_bind with (Q1 := fun _ d' => within 0 d d').
  { unfold insert_entry. apply ens_exec; [exact H1|]. destruct (exists_row _ _); [exact H1|].
    destruct Hd1 as [[-> ->]|[-> ->]]; [apply (file_within h t); [exact Ht | apply Hrow] | apply blank_within, Hblank]. }
  intros _ d2 H2. eapply ens_post; [apply (ens_quiet (rest e) d2); auto | |]; intros ? d' Hq%quiet_within.
  - exact (within_trans 0 0 _ _ _ H2 Hq).
  - apply (within_weaken 0); [lia|]. exact (within_trans 0 0 _ _ _ H2 Hq).
Qed.

Lemma enter_runs d : series_ok d -> (forall e d1, runs Tx (rest e) d1 (fun _ d' => quiet d1 d') (fun _ => True)) -> (forall e, inert Tx (rest e)) ->
  runs Tx (enter Tx) d (fun _ d' => within 0 d d') (fun _ => True).
Proof.
  intros Hd Hrest Hi. unfold enter, numbered. eapply runs_bind with (Q1 := fun v d' => v = voucher_no t (fst (bump_counter h t d)) /\ d' = snd (bump_counter h t d)).
  { eapply runs_bind; [apply (runs_attempt_ok Tx _ d (fun v d' => v = voucher_no t (fst (bump_counter h t d)) /\ d' = snd (bump_counter h t d))) | intros; inert_go |].
    - unfold nextVoucherNo. apply runs_then_exec; [intros; inert_go|]. destruct (bump_counter h t d). now apply runs_ret.
    - intros r d' (v & -> & H). now apply runs_ret. }
  { intros. unfold insert_entry. repeat (first [apply Hi | inert_step]). }
  intros v d1 [-> ->]. apply runs_uuid; [intros; unfold insert_entry; repeat (first [apply Hi | inert_step])|]. intros k.
  apply runs_today; [intros; unfold insert_entry; repeat (first [apply Hi | inert_step])|]. intros today.
  eapply runs_bind with (Q1 := fun _ d' => within 0 d d'); [|intros; apply Hi|].
  { unfold insert_entry. apply runs_exec. destruct (exists_row _ _); [exact I|]. apply (file_within h t); [exact Ht | apply Hrow]. }
  intros _ d2 H2. eapply runs_post; [apply Hrest|]. intros _ d' Hq%quiet_within. exact (within_trans 0 0 _ _ _ H2 Hq).
Qed.
End Enter.

Definition entry_of (h : uuid) (desc ref t v : string) (e : uuid) (today : Time) : JournalEntryRow :=
  {| je_id := e; je_hotel_id := h; je_date := today; je_description := desc; je_reference := ref; je_voucher_no := nullif v; je_voucher_type := t |}.
Lemma entry_numbered h desc ref t n e today : numbered_row h t n (entry_of h desc ref t (voucher_no t n) e today).
Proof. repeat split. cbn. apply voucher_not_blank. Qed.
Lemma runs_quiet_line c row d R : runs c (insert_line c row) d (fun _ d' => quiet d d') R.
Proof. apply runs_exec. split; reflexivity. Qed.
Lemma runs_quiet_each {A} (f : A -> M GoErr unit) l d : (forall x, inert Tx (f x)) ->
  (forall x d0, runs Tx (f x) d0 (fun _ d' => quiet d0 d') (fun _ => True)) -> runs Tx (for_each f l) d (fun _ d' => quiet d d') (fun _ => True).
Proof.
  intros Hi Hf. apply (runs_for_each Tx f (fun _ => True) (fun _ d' => quiet d d')); [apply quiet_refl | exact Hi |].
  intros x l' d' H. eapply runs_post; [apply Hf|]. intros ? d2. now apply quiet_trans.
Qed.

Lemma post_body_ens p d : ensures (post_body Pool p) d (fun _ d' => within 0 d d') (fun _ d' => within 1 d d').
Proof.
  destruct p as [h desc ref [lines|]]; unfold post_body; cbn [pg_lines pg_hotel pg_description pg_reference].
  - unfold postJournal. eapply ens_bind with (Q1 := fun _ d' => quiet d d').
    { eapply ens_post; [apply ens_quiet; [intros; apply keeps_quiet_chart | unfold ensureChartOfAccounts; inert_go] | auto |].
      intros ? d' Hq%quiet_within. apply (within_weaken 0); [lia | exact Hq]. }
    intros accs d1 Hq%quiet_within. eapply ens_post; [apply (enter_ens h (voucherTypeFor ref) (entry_of h desc ref (voucherTypeFor ref))
        (fun e => for_each (post_line Pool h e accs) lines ;; mret e) (voucherTypeFor_known ref)); [intros; apply entry_numbered | reflexivity | |] | |].
    + intros e d0. apply stable_bind; [apply keeps_quiet_lines | intros; apply stable_ret].
    + intros e. unfold post_line, insert_line. inert_go.
    + intros ? d2; exact (within_trans 0 0 _ _ _ Hq).
    + intros ? d2; exact (within_trans 0 1 _ _ _ Hq).
  - unfold reverseJournalsByReference. eapply ens_bind with (Q1 := fun _ d' => d' = d); [apply ens_query; [apply (within_weaken 0); [lia | apply within_refl] | reflexivity]|].
    intros [|x src] d' ->; [apply ens_ret, within_refl|].
    eapply enter_ens with (row := entry_of h desc (ref ++ " REV") (voucherTypeFor ref)); [apply voucherTypeFor_known | intros; apply entry_numbered | reflexivity | |].
    + intros e d0. unfold insert_line. quiet_go.
    + intros e. unfold insert_line. inert_go.
Qed.

Lemma post_body_runs p d : series_ok d -> runs Tx (post_body Tx p) d (fun _ d' => within 0 d d') (fun _ => True).
Proof.
  intros Hd. destruct p as [h desc ref [lines|]]; unfold post_body; cbn [pg_lines pg_hotel pg_description pg_reference].
  - unfold postJournal. eapply runs_bind; [apply ensureChart_runs | intros; unfold numbered, nextVoucherNo, insert_entry, post_line, insert_line; inert_go|].
    intros accs d1 [_ [a ->]]. assert (Hq : within 0 d (d <| accounts := a |>)) by (apply quiet_within; split; reflexivity).
    eapply runs_post; [apply (enter_runs h (voucherTypeFor ref) (entry_of h desc ref (voucherTypeFor ref))
        (fun e => for_each (post_line Tx h e accs) lines ;; mret e) (voucherTypeFor_known ref)); [intros; apply entry_numbered | apply (Hq Hd) | |]|].
    + intros e d1. eapply runs_bind; [apply runs_quiet_each | intros; inert_go | intros ? d' H; now apply runs_ret].
      * intros. unfold post_line, insert_line. inert_go.
      * intros l d0. unfold post_line. destruct (_ && _); [apply runs_ret, quiet_refl|]. destruct (accs !! _); [|apply runs_ret, quiet_refl].
        apply runs_uuid; [intros; unfold insert_line; inert_go|]. intros k. apply runs_quiet_line.
    + intros e. unfold post_line, insert_line. inert_go.
    + intros ? d2; exact (within_trans 0 0 _ _ _ Hq).
  - unfold reverseJournalsByReference. apply runs_then_query; [intros []; unfold numbered, nextVoucherNo, insert_entry, insert_line; inert_go|].
    destruct (map _ _) as [|x src]; [apply runs_ret, within_refl|].
    eapply enter_runs with (row := entry_of h desc (ref ++ " REV") (voucherTypeFor ref)); [apply voucherTypeFor_known | intros; apply entry_numbered | exact Hd | |].
    + intros e d1. eapply runs_bind; [apply runs_quiet_each | intros; inert_go | intros ? d' H; now apply runs_ret].
      * intros [[? ?] ?]. unfold insert_line. inert_go.
      * intros [[? ?] ?] d0. apply runs_uuid; [intros; unfold insert_line; inert_go|]. intros k. apply runs_quiet_line.
    + intros e. unfold insert_line. inert_go.
Qed.

Lemma post_body_local p : tx_local (post_body Tx p).
Proof.
  intros d0. destruct p as [h desc ref [lines|]]; unfold post_body; cbn [pg_lines];
    unfold postJournal, reverseJournalsByReference, ensureChartOfAccounts, numbered, nextVoucherNo, insert_entry, post_line, insert_line; keeps_go.
Qed.
Lemma post_body_inert p : inert Tx (post_body Tx p).
Proof.
  destruct p as [h desc ref [lines|]]; unfold post_body; cbn [pg_lines];
    unfold postJournal, reverseJournalsByReference, ensureChartOfAccounts, numbered, nextVoucherNo, insert_entry, post_line, insert_line; inert_go.
Qed.

(** A job: nothing is lost but a number the pool had drawn when it failed. *)
Definition on_pool (j : PostingJob) : bool := match j with OnPool _ => true | InTx _ => false end.
Lemma post_job_ens j d : series_ok d ->
  ensures (post_job j) d (fun lost d' => (lost = true -> on_pool j = true) /\ within (if lost then 1 else 0) d d') (fun _ _ => False).
Proof.
  intros Hd. destruct j as [p|ps]; cbn [post_job on_pool].
  - eapply ens_bind with (Q1 := fun r d' => within (match r with inl _ => 1 | inr _ => 0 end) d d').
    + apply ens_attempt. eapply ens_post; [apply post_body_ens | auto | auto].
    + intros [e|a] d' H; apply ens_ret; auto.
  - eapply ens_bind with (Q1 := fun _ d' => within 0 d d').
    + apply ens_attempt. apply ens_WithTenantTx; [| | intros e; apply within_refl].
      * apply (runs_for_each Tx _ (fun _ => True) (fun _ d' => within 0 d d')); [apply within_refl | intros x; apply inert_bind; [apply post_body_inert | intros; inert_go] |].
        intros x l' d' H. eapply runs_bind; [apply post_body_runs, (H Hd) | intros; inert_go|]. intros ? d2 H2. apply runs_ret. exact (within_trans 0 0 _ _ _ H H2).
      * intros d0. apply stable_for_each. intros x. apply stable_bind; [apply post_body_local | intros; apply stable_ret].
    + intros ? d' H. apply ens_ret. split; [discriminate | exact H].
Qed.

Lemma post_all_ens js d : series_ok d ->
  ensures (post_all js) d (fun lost d' => (lost <= length (List.filter on_pool js))%nat /\ within (Z.of_nat lost) d d') (fun _ _ => False).
Proof.
  revert d. induction js as [|j js IH]; intros d Hd; cbn [post_all].
  - apply ens_ret. split; [cbn; lia | apply within_refl].
  - eapply ens_bind; [now apply post_job_ens|]. intros lost d1 [Hj H1]. eapply ens_bind; [apply IH, (H1 Hd)|].
    intros n d2 [Hn H2]. apply ens_ret. pose proof (within_trans _ _ _ _ _ H1 H2) as H12. cbn [List.filter]. destruct lost.
    + rewrite (Hj eq_refl). cbn [length]. split; [lia|]. eapply within_weaken; [|exact H12]. lia.
    + split; [destruct (on_pool j); cbn [length]; lia | exact H12].
Qed.
End Posting.

(** ** Claims *)

(** C7: over any postings and reversals, of any tenants and series, on the pool or
    several in one transaction, and whatever statements fail: no two entries of a
    tenant's series carry the same number, every number on file was drawn, and at
    most one number more is missing from a series for each posting on the pool
    that failed.  So where none was missing and none failed on the pool, and in
    particular where every posting is in a transaction, the numbers on file are
    1, 2, ... up to the last one drawn, without a gap.  The books are taken to
    start in order: every number on file drawn, and on one entry. *)
Theorem voucher_series_gapless (env : Env) js d (Hd : series_ok d) :
  ensures (post_all js) d (fun lost d' =>
      (lost <= length (List.filter on_pool js))%nat /\ series_ok d'
      /\ forall h t, known_type t ->
           incl (numbers h t d') (drawn h t d')
           /\ 0 <= missing h t d' <= missing h t d + Z.of_nat lost
           /\ (missing h t d = 0 -> lost = 0%nat -> numbers h t d' ≡ₚ drawn h t d'))
    (fun _ _ => False).
Proof.
  eapply ens_post; [exact (post_all_ens js d Hd) | | auto]. intros lost d' [Hl Hw]. destruct (Hw Hd) as [Hs Hm].
  split; [exact Hl|]. split; [exact Hs|]. intros h t Ht. pose proof (missing_nonneg h t d' Hs Ht). specialize (Hm h t).
  split; [exact (numbers_drawn h t d' (sk_vouchers d' Hs) Ht)|]. split; [lia|]. intros H0 ->. apply none_missing; [exact Hs | exact Ht | lia].
Qed.

Definition sale_of (bill : string) : Posting :=
  {| pg_hotel := 1; pg_description := "sale"; pg_reference := "BILL " ++ bill;
     pg_lines := Some [dr "1000" (cents 10500) "cash"; cr "4100" (cents 10000) "food"; cr "2100" (cents 500) "gst"] |}.
Definition void_of (bill : string) : Posting :=
  {| pg_hotel := 1; pg_description := "void"; pg_reference := "BILL " ++ bill; pg_lines := None |}.
Lemma empty_series : series_ok empty_db.
Proof. split; [split; cbn; contradiction | intros h t; constructor]. Qed.

(** A transaction of two sales whose second entry is lost, two sales in one that is
    not, and the reversal of the first on the pool. *)
Lemma voucher_series_gapless_witness :
  let env := demo_env (Nat.eqb 30) in
  let js := [InTx [sale_of "1"; sale_of "2"]; InTx [sale_of "3"; sale_of "4"]; OnPool (void_of "3")] in
  let d' := w_db (snd (post_all (env := env) js (start empty_db))) in
  numbers 1 "SAL" d' = ["SAL-000001"; "SAL-000002"; "SAL-000003"] /\ NoDup (numbers 1 "SAL" d').
Proof.
  intros env js d'. split; [vm_compute; reflexivity|].
  pose proof (voucher_series_gapless env js empty_db empty_series (start empty_db) (conj eq_refl eq_refl)) as H.
  unfold d'. destruct (post_all js (start empty_db)) as [[[]|lost] w']. destruct H as (_ & _ & Hs & _). exact (sk_once _ Hs 1%N "SAL").
Defined.

(** On the pool a sale lost right after its number was drawn leaves a gap. *)
Theorem lost_sale_leaves_gap :
  let d' := w_db (snd (post_all (env := demo_env (Nat.eqb 13)) [OnPool (sale_of "1"); OnPool (sale_of "2")] (start empty_db))) in
  numbers 1 "SAL" d' = ["SAL-000002"] /\ missing 1 "SAL" d' = 1.
Proof. vm_compute. split; reflexivity. Qed.
