(* ===== verification/Promo.v ===== *)
(** Promo: internal/handler/promo.go and the promotion endpoints of
    internal/handler/booking_handler.go.  Resolution of a code against a proposed
    stay, its redemption, and the management of promotions. *)

From S2P Require Import Prelude GoLib Schema Binary64 World Auth.
From Stdlib Require Import QArith.
Local Open Scope string_scope.
Local Open Scope Z_scope.

Record promoResult := {
  pm_ID : uuid; pm_Valid : bool; pm_Code : string; pm_Name : string; pm_Discount : Q; pm_Message : string }.

Definition no_promo : promoResult :=
  {| pm_ID := uuid_nil; pm_Valid := false; pm_Code := ""; pm_Name := ""; pm_Discount := 0; pm_Message := "" |}.

Record createPromotionRequest := {
  cp_Code : string; cp_Name : string; cp_DiscountType : string; cp_DiscountValue : Q;
  cp_MinNights : Z; cp_ValidFrom : string; cp_ValidTo : string; cp_UsageLimit : Z }.

Record promotionResponse := {
  po_ID : uuid; po_HotelID : uuid; po_Code : string; po_Name : string; po_DiscountType : string;
  po_DiscountValue : Q; po_MinNights : option Z; po_ValidFrom : string; po_ValidTo : string;
  po_UsageLimit : option Z; po_UsedCount : Z; po_Active : bool; po_CreatedAt : Time }.

Record validatePromoRequest := { vp_Code : string; vp_RoomType : string; vp_Total : Q }.
Record validatePromoResponse := {
  vr_Valid : bool; vr_Code : string; vr_Name : string; vr_Discount : Q; vr_Discounted : Q; vr_Message : string }.

Definition promo_match (hotelID : uuid) (code : string) (p : PromotionRow) : bool :=
  ueq (pr_hotel_id p) hotelID && (ToUpper (pr_code p) =s ToUpper code).
Definition promo_key (hotelID id : uuid) (p : PromotionRow) : bool :=
  ueq (pr_id p) id && ueq (pr_hotel_id p) hotelID.

(** The WHERE of the redeeming UPDATE.  usage_limit is nullable: a comparison
    with NULL is not true, so a row with no limit stored is not matched. *)
Definition redeemable (hotelID id : uuid) (p : PromotionRow) : bool :=
  promo_key hotelID id p && pr_active p
  && match pr_usage_limit p with
     | Some l => (l =? 0) || (pr_used_count p <? l)
     | None => false
     end.

Section Promo.
Context {env : Env}.

(** The amount taken off the base: a percentage or a fixed sum, capped by
    max_discount and by the base, rounded. *)
Definition discount_of (p : PromotionRow) (base : Q) : Q :=
  let discountValue := num_dec (pr_discount_value p) in
  let discount := if EqualFold (pr_discount_type p) "percentage"
                  then fdiv (fmul base discountValue) 100 else discountValue in
  let discount := match pr_max_discount p with
                  | Some m => if flt 0 (num_dec m) && flt (num_dec m) discount then num_dec m else discount
                  | None => discount
                  end in
  let discount := if flt base discount then base else discount in
  round2 discount.

Definition resolvePromo (pool : Conn) (hotelID : uuid) (code0 : string) (base : Q) (nights : Z)
  : M GoErr promoResult :=
  let code := TrimSpace code0 in
  let res := no_promo <| pm_Code := code |> in
  if code =s "" then mret (res <| pm_Message := "no promo code supplied" |>)
  else
    r ← attempt (query_row pool (fun d => find_row (promo_match hotelID code) (promotions d)));
    match r with
    | inl e => if errors_is e ErrNoRows then mret (res <| pm_Message := "promo code not found" |>) else throw e
    | inr p =>
        let res := res <| pm_ID := pr_id p |> <| pm_Name := pr_name p |> in
        let usageLimit := default 0 (pr_usage_limit p) in
        let minNights := default 0 (pr_min_nights p) in
        let minAmount := num_dec (default 0 (pr_min_amount p)) in
        if negb (pr_active p) then mret (res <| pm_Message := "promo code is inactive" |>)
        else
          now1 ← time_now;
          if Before now1 (pr_valid_from p) then mret (res <| pm_Message := "promo code is not yet valid" |>)
          else
            now2 ← time_now;
            if After now2 (pr_valid_to p) then mret (res <| pm_Message := "promo code has expired" |>)
            else if (0 <? usageLimit) && (usageLimit <=? pr_used_count p)
            then mret (res <| pm_Message := "promo code usage limit reached" |>)
            else if (0 <? minNights) && (0 <=? nights) && (nights <? minNights)
            then mret (res <| pm_Message := "promo code requires a longer stay" |>)
            else if flt 0 minAmount && flt base minAmount
            then mret (res <| pm_Message := "booking total is below the promo code minimum" |>)
            else mret (res <| pm_Valid := true |> <| pm_Discount := discount_of p base |>
                           <| pm_Message := "promo code applied successfully" |>)
    end.

Definition redeemPromo (pool : Conn) (hotelID promoID : uuid) : M GoErr unit :=
  if ueq promoID uuid_nil then mret tt
  else
    n ← exec_n pool (fun d => (rows_affected (redeemable hotelID promoID) (promotions d),
          d <| promotions ::= update_rows (redeemable hotelID promoID)
                 (fun p => p <| pr_used_count := pr_used_count p + 1 |>) |>));
    throw_if (Nat.eqb n 0) ErrPromoNotApplicable.

(** *** Endpoints *)

Definition promotion_response (p : PromotionRow) : promotionResponse :=
  {| po_ID := pr_id p; po_HotelID := pr_hotel_id p; po_Code := pr_code p; po_Name := pr_name p;
     po_DiscountType := pr_discount_type p; po_DiscountValue := num_dec (pr_discount_value p);
     po_MinNights := pr_min_nights p; po_ValidFrom := fmt_date (pr_valid_from p);
     po_ValidTo := fmt_date (pr_valid_to p); po_UsageLimit := pr_usage_limit p;
     po_UsedCount := pr_used_count p; po_Active := pr_active p; po_CreatedAt := pr_created_at p |}.

Definition ListPromotions (c : Ctx) : M (Resp (list promotionResponse)) (Resp (list promotionResponse)) :=
  let v := c_query c "active" in
  items ← query Pool (fun d => map promotion_response
            (order_by (fun a b => t_ns (pr_created_at b) <=? t_ns (pr_created_at a))
              (select (fun p => ueq (pr_hotel_id p) (tenantHotelID c)
                         && ((v =s "") || Bool.eqb (pr_active p) (v =s "true"))) (promotions d))))
          onerr (fun e => RespError 500 (err_text e));
  mret (RespOK items).

(** A limit or a minimum of zero is stored as NULL. *)
Definition positive (n : Z) : option Z := if 0 <? n then Some n else None.

Definition CreatePromotion (c : Ctx) (body : option createPromotionRequest)
  : M (Resp (uuid * string * string)) (Resp (uuid * string * string)) :=
  req ← of_option body (RespError 400 "invalid request body");
  throw_if ((cp_Code req =s "") || (cp_Name req =s "") || (cp_DiscountType req =s "") || fle (cp_DiscountValue req) 0)
    (RespError 400 "code, name, discount_type, and positive discount_value are required") ;;
  throw_if (negb ((cp_DiscountType req =s "percentage") || (cp_DiscountType req =s "fixed")))
    (RespError 400 "discount_type must be percentage or fixed") ;;
  throw_if ((cp_DiscountType req =s "percentage") && flt 100 (cp_DiscountValue req))
    (RespError 400 "percentage discount cannot exceed 100") ;;
  promoID ← new_uuid; now ← time_now;
  exec Pool (fun d =>
      match date_in (cp_ValidFrom req), date_in (cp_ValidTo req) with
      | Some from, Some to =>
          inr (tt, d <| promotions ::= insert_row
            {| pr_id := promoID; pr_hotel_id := tenantHotelID c; pr_code := cp_Code req; pr_name := cp_Name req;
               pr_discount_type := cp_DiscountType req; pr_discount_value := num_enc (cp_DiscountValue req);
               pr_min_nights := positive (cp_MinNights req); pr_min_amount := Some 0; pr_max_discount := None;
               pr_usage_limit := positive (cp_UsageLimit req); pr_used_count := 0;
               pr_valid_from := from; pr_valid_to := to; pr_active := true; pr_created_at := now |} |>)
      | _, _ => inl (ErrPg "22007")
      end)
    onerr (fun e => RespError 400 (err_text e)) ;;
  mret (RespCreated (promoID, cp_Code req, cp_Name req)).

Definition DeletePromotion (c : Ctx) : M (Resp string) (Resp string) :=
  id ← of_option (uuid_parse (c_params c "id")) (RespError 400 "invalid promotion id");
  n ← exec_n Pool (fun d => (rows_affected (promo_key (tenantHotelID c) id) (promotions d),
        d <| promotions ::= delete_rows (promo_key (tenantHotelID c) id) |>))
      onerr (fun e => RespError 400 (err_text e));
  throw_if (Nat.eqb n 0) (RespError 404 "promotion not found") ;;
  mret (RespOK "deleted").

Definition TogglePromotion (c : Ctx) (body : option (option bool)) : M (Resp (uuid * bool)) (Resp (uuid * bool)) :=
  id ← of_option (uuid_parse (c_params c "id")) (RespError 400 "invalid promotion id");
  active ← of_option body (RespError 400 "invalid request body");
  a ← of_option active (RespError 400 "active field is required");
  n ← exec_n Pool (fun d => (rows_affected (promo_key (tenantHotelID c) id) (promotions d),
        d <| promotions ::= update_rows (promo_key (tenantHotelID c) id) (fun p => p <| pr_active := a |>) |>))
      onerr (fun e => RespError 400 (err_text e));
  throw_if (Nat.eqb n 0) (RespError 404 "promotion not found") ;;
  mret (RespOK (id, a)).

Definition ValidatePromo (c : Ctx) (body : option validatePromoRequest)
  : M (Resp validatePromoResponse) (Resp validatePromoResponse) :=
  req ← of_option body (RespError 400 "invalid request body");
  throw_if (vp_Code req =s "") (RespError 400 "code is required") ;;
  res ← resolvePromo Pool (tenantHotelID c) (vp_Code req) (vp_Total req) (-1)
        onerr (fun _ => RespError 500 "failed to validate promo code");
  mret (RespOK {| vr_Valid := pm_Valid res; vr_Code := pm_Code res; vr_Name := pm_Name res;
                  vr_Discount := pm_Discount res; vr_Discounted := round2 (fsub (vp_Total req) (pm_Discount res));
                  vr_Message := pm_Message res |}).
End Promo.

(** *** Usage limits *)

(** No promotion with a limit has been used more often than it allows. *)
Definition within_limit (p : PromotionRow) : Prop :=
  match pr_usage_limit p with Some l => 0 < l -> pr_used_count p <= l | None => True end.
Definition promos_ok (d : DB) : Prop := forall p, In p (promotions d) -> within_limit p.

Section PromoKeeps.
Context {env : Env}.

Lemma keeps_redeemPromo c h id : keeps promos_ok (redeemPromo c h id).
Proof.
  unfold redeemPromo. destruct (ueq id uuid_nil); keeps_go. apply keeps_exec_n. intros d Hd p Hp.
  cbn in Hp. apply in_update_rows in Hp as (p0 & Hp0 & ->). specialize (Hd p0 Hp0).
  destruct (redeemable h id p0) eqn:E; [|exact Hd]. unfold redeemable in E. unfold within_limit in *; cbn.
  destruct (pr_usage_limit p0) as [l|]; [|exact I].
  apply andb_true_iff in E as [_ [El|El]%orb_true_iff]; lia.
Qed.

Lemma resolvePromo_keeps P c h code base n :
  (forall A (f : DB -> A), stable P (query c f)) -> stable P (resolvePromo c h code base n).
Proof.
  intros Hq. unfold resolvePromo, query_row. repeat (first [apply Hq | keeps_step]).
Qed.
End PromoKeeps.
#[export] Hint Resolve keeps_redeemPromo : keeps.

(** ** Claims *)

Section DiscountBounds.
Context {env : Env} {laws : EnvLaws env}.

Lemma discount_between p B :
  0 <= B <= 10 ^ 13 -> 0 <= pr_discount_value p <= MAXC ->
  (forall m, pr_max_discount p = Some m -> Z.abs m <= MAXC) ->
  exists k, discount_of p (cents B) = cents k /\ 0 <= k <= B
    /\ (forall m, pr_max_discount p = Some m -> 0 < m -> k <= m).
Proof.
  intros HB Hv Hm. unfold discount_of. rewrite num_dec_cents by lia.
  set (x := if EqualFold _ _ then _ else _).
  assert (Hx : (0 <= x)%Q).
  { unfold x. pose proof (cents_nonneg B ltac:(lia)). pose proof (cents_nonneg (pr_discount_value p) ltac:(lia)).
    destruct (EqualFold _ _); [|assumption]. apply fdiv_nonneg; [now apply fmul_nonneg | easy]. }
  set (y := match pr_max_discount p with Some _ => _ | None => _ end).
  assert (Hy : (0 <= y)%Q /\ forall m, pr_max_discount p = Some m -> 0 < m -> (y <= cents m)%Q).
  { unfold y. destruct (pr_max_discount p) as [m|]; [|split; [exact Hx | discriminate]].
    specialize (Hm m eq_refl). rewrite num_dec_cents by exact Hm.
    assert (Hpos : flt 0 (cents m) = (0 <? m))
      by (rewrite <- cents_0; apply flt_cents; [unfold MAXC; lia | exact Hm]).
    rewrite Hpos. destruct (Z.ltb_spec 0 m) as [Hm0|Hm0]; cbn [andb].
    - destruct (flt (cents m) x) eqn:E.
      + split; [apply cents_nonneg; lia|]. intros ? [= <-] _. apply Qle_refl.
      + split; [exact Hx|]. intros ? [= <-] _. rewrite flt_fle in E. apply fle_iff.
        destruct (fle x (cents m)); [reflexivity | discriminate].
    - split; [exact Hx|]. intros ? [= <-]. lia. }
  destruct Hy as [Hy Hcap].
  assert (Hz : exists z, (if flt (cents B) y then cents B else y) = z /\ (0 <= z)%Q /\ (z <= cents B)%Q /\ (z <= y)%Q).
  { eexists. split; [reflexivity|]. destruct (flt (cents B) y) eqn:E.
    - split; [apply cents_nonneg; lia|]. split; [apply Qle_refl|]. apply flt_iff in E. now apply Qlt_le_weak.
    - split; [exact Hy|]. split; [|apply Qle_refl]. rewrite flt_fle in E. apply fle_iff.
      destruct (fle y (cents B)); [reflexivity | discriminate]. }
  destruct Hz as (z & -> & Hz0 & HzB & Hzy).
  destruct (round2_between z B HB Hz0 HzB) as (k & Hk & Hkb). exists k. split; [exact Hk|]. split; [exact Hkb|].
  intros m Hpm Hm0. specialize (Hcap m Hpm Hm0). specialize (Hm m Hpm).
  destruct (Z.le_gt_cases m (10 ^ 13)) as [Hle|Hgt]; [|lia].
  destruct (round2_between z m ltac:(lia) Hz0 (Qle_trans _ _ _ Hzy Hcap)) as (k' & Hk' & Hkb').
  rewrite Hk in Hk'. apply cents_inj in Hk'; unfold MAXC; lia.
Qed.
End DiscountBounds.

(** Stored amounts fit the columns. *)
Definition promo_amounts_ok (p : PromotionRow) : Prop :=
  0 <= pr_discount_value p <= MAXC /\ forall m, pr_max_discount p = Some m -> Z.abs m <= MAXC.

(** What a code accepted for a stay of [nights] nights priced B paise satisfies. *)
Record promo_accepted (d : DB) (hotelID : uuid) (B nights : Z) (res : promoResult) : Prop := {
  pa_row : exists p k, In p (promotions d) /\ pr_hotel_id p = hotelID /\ pr_id p = pm_ID res /\ pr_active p = true
    /\ ToUpper (pr_code p) = ToUpper (pm_Code res)
    /\ pm_Discount res = cents k /\ 0 <= k <= B
    /\ (forall m, pr_max_discount p = Some m -> 0 < m -> k <= m)
    /\ (forall l, pr_usage_limit p = Some l -> 0 < l -> pr_used_count p < l)
    /\ (forall n, pr_min_nights p = Some n -> 0 < n -> 0 <= nights -> n <= nights) }.

(** Resolving a promo code never writes, and a code is accepted only if an
    active promotion of the tenant carries it (in any letter case), has uses left
    and a short enough minimum stay; the discount is a whole number of paise
    between zero and the price, and never above the promotion's cap. *)
Theorem promo_discount_bounded (env : Env) (laws : EnvLaws env) c h code B nights d
  (HB : 0 <= B <= 10 ^ 13) (Hok : forall p, In p (promotions d) -> promo_amounts_ok p) :
  runs c (resolvePromo c h code (cents B) nights) d
    (fun res d' => d' = d /\ (pm_Valid res = true -> promo_accepted d h B nights res)) (fun _ => False).
Proof.
  unfold resolvePromo. destruct (TrimSpace code =s ""); [apply runs_ret; split; [reflexivity | discriminate]|].
  apply runs_then_attempt_row; [intros; inert_go|].
  destruct (find_row (promo_match h (TrimSpace code)) (promotions d)) as [p|] eqn:Ef;
    [|apply runs_ret; split; [reflexivity | discriminate]].
  apply find_row_some in Ef as [Hin Hm]. specialize (Hok p Hin).
  destruct (pr_active p) eqn:Ea; [|apply runs_ret; split; [reflexivity | discriminate]]. cbn [negb].
  apply runs_now; [intros; inert_go|]. intros t1.
  destruct (Before _ _); [apply runs_ret; split; [reflexivity | discriminate]|].
  apply runs_now; [intros; inert_go|]. intros t2.
  destruct (After _ _); [apply runs_ret; split; [reflexivity | discriminate]|].
  destruct (_ && (_ <=? pr_used_count p)) eqn:El; [apply runs_ret; split; [reflexivity | discriminate]|].
  destruct (_ && (nights <? _)) eqn:En; [apply runs_ret; split; [reflexivity | discriminate]|].
  destruct (flt _ _ && flt (cents B) _); [apply runs_ret; split; [reflexivity | discriminate]|].
  apply runs_ret. split; [reflexivity|]. intros _. split.
  destruct (discount_between p B HB (proj1 Hok) (proj2 Hok)) as (k & Hk & Hkb & Hcap).
  unfold promo_match, ueq in Hm. apply andb_true_iff in Hm as [Hh%N.eqb_eq Hc%String.eqb_eq].
  exists p, k. cbn. repeat split; auto; try lia.
  - intros l Hl Hl0. rewrite Hl in El. cbn in El. lia.
  - intros n Hn Hn0 Hn1. rewrite Hn in En. cbn in En. lia.
Qed.

(** 15% off, at most 300.00, for ten bookings of two nights or more. *)
Definition monsoon : PromotionRow :=
  {| pr_id := 51; pr_hotel_id := 1; pr_code := "Monsoon15"; pr_name := "Monsoon"; pr_discount_type := "percentage";
     pr_discount_value := 1500; pr_min_nights := Some 2; pr_min_amount := Some 0; pr_max_discount := Some 30000;
     pr_usage_limit := Some 10; pr_used_count := 3;
     pr_valid_from := Date 2026 3 1 0 0 0; pr_valid_to := Date 2026 4 1 0 0 0; pr_active := true;
     pr_created_at := Date 2026 2 1 0 0 0 |}.

Lemma promo_discount_bounded_witness :
  runs (env := calm) Pool (resolvePromo (env := calm) Pool 1%N "monsoon15" (cents 250000) 2)
    (empty_db <| promotions := [monsoon] |>)
    (fun res d' => d' = empty_db <| promotions := [monsoon] |>
       /\ (pm_Valid res = true -> promo_accepted (empty_db <| promotions := [monsoon] |>) 1%N 250000 2 res))
    (fun _ => False)
  /\ fst (resolvePromo (env := calm) Pool 1%N "monsoon15" (cents 250000) 2 (start (empty_db <| promotions := [monsoon] |>)))
     = inr {| pm_ID := 51; pm_Valid := true; pm_Code := "monsoon15"; pm_Name := "Monsoon";
              pm_Discount := cents 30000; pm_Message := "promo code applied successfully" |}.
Proof.
  split.
  - apply (promo_discount_bounded calm calm_laws Pool 1%N "monsoon15" 250000 2); [lia|].
    intros p [<-|[]]. split; [unfold MAXC; cbn; lia|]. intros m [= <-]. unfold MAXC. lia.
  - vm_compute. reflexivity.
Defined.

(** A promotion created without a usage limit is stored with a NULL limit,
    which validation reads as unlimited but the redeeming UPDATE never matches:
    redeeming it always fails as if its last use had just been taken. *)
Theorem unlimited_promotion_never_redeems (env : Env) (laws : EnvLaws env) c req d
  (Hnolimit : cp_UsageLimit req <= 0)
  (Hfresh : forall p n, In p (promotions d) -> pr_id p <> uuid_new n) :
  runs Pool (CreatePromotion c (Some req)) d (fun r d' =>
      exists id, r = RespCreated (id, cp_Code req, cp_Name req) /\
      runs Pool (redeemPromo Pool (tenantHotelID c) id) d' (fun _ _ => False) (fun e => e = ErrPromoNotApplicable))
    (fun r => exists msg, r = RespError 400 msg).
Proof.
  unfold CreatePromotion. apply runs_then_of_option; [intros; inert_go|].
  do 3 (apply runs_then_throw_if; [inert_go|]; match goal with |- if ?b then _ else _ => destruct b; [eauto|] end).
  apply runs_uuid; [intros; inert_go|]. intros n. apply runs_now; [intros; inert_go|]. intros now.
  eapply runs_bind; [apply runs_on_err, runs_exec | intros; inert_go |].
  - destruct (date_in (cp_ValidFrom req)) as [f|], (date_in (cp_ValidTo req)) as [t|]; [|eauto..].
    instantiate (1 := fun _ d' => exists p, pr_usage_limit p = None /\ d' = d <| promotions ::= insert_row p |>).
    cbn. eexists. split; [|reflexivity]. cbn. unfold positive. destruct (Z.ltb_spec 0 (cp_UsageLimit req)); [lia|reflexivity].
  - intros _ d' (p & Hp & ->). apply runs_ret. eexists. split; [reflexivity|].
    unfold redeemPromo. replace (ueq (uuid_new n) uuid_nil) with false
      by (symmetry; apply N.eqb_neq, uuid_new_not_nil).
    apply runs_then_exec_n; [intros; inert_go|].
    replace (rows_affected _ _) with 0%nat; [apply runs_throw; reflexivity|].
    symmetry. destruct (rows_affected _ _) eqn:E; [reflexivity|].
    assert (Hne : rows_affected (redeemable (tenantHotelID c) (uuid_new n)) (promotions (d <| promotions ::= insert_row p |>)) <> 0%nat)
      by (rewrite E; discriminate).
    apply rows_affected_pos in Hne as (r & Hr & Hrd). unfold redeemable, promo_key, ueq in Hrd. cbn in Hr.
    apply in_insert_row in Hr as [Hr| ->].
    + rewrite !andb_true_iff, N.eqb_eq in Hrd. destruct Hrd as [[[Hid _] _] _]. exfalso. exact (Hfresh r n Hr Hid).
    + rewrite Hp in Hrd. rewrite andb_false_r in Hrd. discriminate.
Qed.

Definition flyer : createPromotionRequest :=
  {| cp_Code := "WELCOME"; cp_Name := "Welcome"; cp_DiscountType := "fixed"; cp_DiscountValue := cents 50000;
     cp_MinNights := 0; cp_ValidFrom := "2026-01-01"; cp_ValidTo := "2026-12-31"; cp_UsageLimit := 0 |}.

Lemma unlimited_promotion_never_redeems_witness :
  let req := demo_request "hotel_admin@1" "" in
  runs (env := calm) Pool (CreatePromotion (env := calm) req (Some flyer)) empty_db (fun r d' =>
      exists id, r = RespCreated (id, "WELCOME", "Welcome") /\
      runs (env := calm) Pool (redeemPromo (env := calm) Pool (tenantHotelID (env := calm) req) id) d'
        (fun _ _ => False) (fun e => e = ErrPromoNotApplicable))
    (fun r => exists msg, r = RespError 400 msg)
  /\ exists w, CreatePromotion (env := calm) req (Some flyer) (start empty_db) = (inr (RespCreated (1000%N, "WELCOME", "Welcome")), w).
Proof.
  split.
  - apply (unlimited_promotion_never_redeems calm calm_laws); [cbn; lia | intros p n []].
  - eexists. vm_compute. reflexivity.
Defined.
