(* ===== verification/Customers.v ===== *)
(** Customers: internal/handler/pos_customer.go.  The details a sale captures,
    their normalisation, the customer master they resolve to, and the choice of
    the debit side by how a sale was settled. *)

From S2P Require Import Prelude GoLib Schema Binary64 World Ledger.
From stdpp Require Import pretty.
From Stdlib Require Import QArith.
Local Open Scope string_scope.
Local Open Scope Z_scope.

Record CustomerDetails := { cd_Name : string; cd_Phone : string; cd_Email : string; cd_GSTIN : string }.

Definition HasContact (d : CustomerDetails) : bool :=
  (TrimSpace (cd_Phone d) !=s "") || (TrimSpace (cd_Email d) !=s "").

Definition normalisePhone (raw : string) : string :=
  let digits := filter_string is_digit raw in
  if (slen digits =? 12) && HasPrefix digits "91" then drop_str 2 digits else digits.

Definition normalised (d : CustomerDetails) : CustomerDetails :=
  {| cd_Name := TrimSpace (cd_Name d); cd_Phone := normalisePhone (cd_Phone d);
     cd_Email := ToLower (TrimSpace (cd_Email d)); cd_GSTIN := ToUpper (TrimSpace (cd_GSTIN d)) |}.

(** code ~ '^CUST-[0-9]+$', and its number *)
Definition cust_number (code : string) : option Z :=
  if HasPrefix code "CUST-" && (drop_str 5 code !=s "") && forall_string is_digit (drop_str 5 code)
  then Some (dec_val 0 (drop_str 5 code)) else None.
Definition cust_code (n : Z) : string := "CUST-" ++ fmt_0d 4 n.

Definition max_int4 : Z := 2 ^ 31 - 1.

(** COALESCE(MAX(...::int), 0): a number beyond int4 is out of range (22003). *)
Definition max_cust_number (hotelID : uuid) (d : DB) : GoErr + (Z * DB) :=
  let nums := omap (fun r => if ueq (cu_hotel_id r) hotelID then cust_number (cu_code r) else None) (customers d) in
  if existsb (fun n => max_int4 <? n) nums then inl (ErrPg "22003")
  else inr (foldr Z.max 0 nums, d).

(** The partial unique index on (hotel_id, phone), and UNIQUE (hotel_id, code). *)
Definition same_phone (row r : CustomerRow) : bool :=
  ueq (cu_hotel_id r) (cu_hotel_id row) && (opt_str (cu_phone row) !=s "")
  && bool_decide (cu_phone r = cu_phone row).
Definition same_code (row r : CustomerRow) : bool :=
  ueq (cu_hotel_id r) (cu_hotel_id row) && (cu_code r =s cu_code row).

(** INSERT ... ON CONFLICT (hotel_id, phone) DO UPDATE ... RETURNING id *)
Definition insert_customer (row : CustomerRow) (d : DB) : GoErr + (uuid * DB) :=
  match find_row (same_phone row) (customers d) with
  | Some r => inr (cu_id r, d)
  | None => if exists_row (same_code row) (customers d) then inl (ErrPg "23505")
            else inr (cu_id row, d <| customers ::= insert_row row |>)
  end.

Definition customer_by_phone (hotelID : uuid) (phone : string) (r : CustomerRow) : bool :=
  ueq (cu_hotel_id r) hotelID && bool_decide (cu_phone r = Some phone).

Definition backfill_customer (id : uuid) (email gstin : string) (d : DB) : unit * DB :=
  (tt, d <| customers ::= update_rows (fun r => ueq (cu_id r) id)
              (fun r => r <| cu_email := coalesce_blank (cu_email r) email |>
                          <| cu_gstin := coalesce_blank (cu_gstin r) gstin |>) |>).

(** isCreditSettlement *)
Definition isCreditSettlement (method : string) : bool :=
  let m := ToLower (TrimSpace method) in
  (m =s "credit") || (m =s "room") || (m =s "room_charge") || (m =s "bill_to_room") || (m =s "account").

Definition nilAsNull (id : uuid) : option uuid := if ueq id uuid_nil then None else Some id.

Definition isPaidStatus (s : string) : bool :=
  let m := ToLower (TrimSpace s) in
  (m =s "paid") || (m =s "completed") || (m =s "settled") || (m =s "closed").

Section Customers.
Context {env : Env}.

Definition nextCustomerCode (pool : Conn) (hotelID : uuid) : M GoErr string :=
  maxNum ← exec pool (max_cust_number hotelID);
  mret (cust_code (maxNum + 1)).

Definition create_customer (pool : Conn) (hotelID : uuid) (d : CustomerDetails) : M GoErr uuid :=
  code ← nextCustomerCode pool hotelID;
  id ← new_uuid;
  exec pool (insert_customer
    {| cu_id := id; cu_hotel_id := hotelID; cu_code := code; cu_name := cd_Name d;
       cu_phone := nullif (cd_Phone d); cu_email := nullif (cd_Email d); cu_gstin := nullif (cd_GSTIN d);
       cu_address := None; cu_credit_days := 30; cu_credit_limit := None; cu_is_active := true |}).

Definition ensureAccountingCustomer (pool : Conn) (hotelID : uuid) (in_ : CustomerDetails) : M GoErr uuid :=
  let d := normalised in_ in
  if negb (HasContact d) then mret uuid_nil
  else
    let d := if cd_Name d =s "" then d <| cd_Name := "POS customer " ++ cd_Phone d |> else d in
    if cd_Phone d !=s "" then
      r ← attempt (query_row pool (fun db => cu_id <$> find_row (customer_by_phone hotelID (cd_Phone d)) (customers db)));
      match r with
      | inr id =>
          attempt (exec pool (fun db => inr (backfill_customer id (cd_Email d) (cd_GSTIN d) db))) ;; mret id
      | inl e => if errors_is e ErrNoRows then create_customer pool hotelID d else throw e
      end
    else create_customer pool hotelID d.

Definition postSalesToLedgerFor (pool : Conn) (hotelID : uuid) (method : string) (subtotal tax total : Q)
  (reference description : string) (customerID : uuid) : M GoErr uuid :=
  if negb (isCreditSettlement method)
  then postSalesToLedger pool hotelID method subtotal tax total reference description
  else if ueq customerID uuid_nil then throw (Errorf "a credit sale requires a customer to owe the receivable")
  else
    let rev := round2 (fsub total tax) in
    postJournal pool hotelID description reference
      [ dr "1200" (round2 total) "Receivable — POS credit sale";
        cr "4100" rev "F&B revenue"; cr "2100" (round2 tax) "GST on sale" ].

(** On error, assume posted. *)
Definition alreadyPosted {E} (pool : Conn) (hotelID : uuid) (reference : string) : M E bool :=
  r ← attempt (query pool (fun d => rows_affected (has_reference hotelID reference) (journal_entries d)));
  mret (match r with inr n => Nat.ltb 0 n | inl _ => true end).

Definition postLegacyPOSOrder {E} (pool : Conn) (hotelID : uuid)
  (orderNumber status paymentMethod customerName : string) (subtotal tax total : Q) : M E unit :=
  if negb (isPaidStatus status) || feq (round2 total) 0 then mret tt
  else
    let reference := "ORDER " ++ orderNumber in
    posted ← alreadyPosted pool hotelID reference;
    if (posted : bool) then mret tt
    else
      let m := ToLower (TrimSpace paymentMethod) in
      let method := if m =s "" then "cash" else m in
      attempt (postSalesToLedger pool hotelID method subtotal tax total reference
                 ("POS sale — order " ++ orderNumber)) ;;
      mret tt.
End Customers.

(** ** Phone numbers *)

Lemma filter_string_idem p s : filter_string p (filter_string p s) = filter_string p s.
Proof.
  induction s as [|c s IH]; cbn; [reflexivity|]. destruct (p c) eqn:E; [|exact IH]. cbn. now rewrite E, IH.
Qed.

Lemma filter_string_forall p s : forall_string p (filter_string p s) = true.
Proof. induction s as [|c s IH]; cbn; [reflexivity|]. destruct (p c) eqn:E; [cbn; now rewrite E | exact IH]. Qed.

Lemma substring_forall p n m s : forall_string p s = true -> forall_string p (String.substring n m s) = true.
Proof.
  revert n m. induction s as [|c s IH]; intros n m H; cbn in H.
  - destruct n, m; reflexivity.
  - apply andb_true_iff in H as [H1 H2]. destruct n as [|n]; [|exact (IH n m H2)].
    destruct m as [|m]; cbn; [reflexivity|]. rewrite H1. exact (IH 0%nat m H2).
Qed.

Lemma substring_length n m s : (n + m <= String.length s)%nat -> String.length (String.substring n m s) = m.
Proof.
  revert n m. induction s as [|c s IH]; intros n m H; cbn in H.
  - destruct n, m; cbn; lia.
  - destruct n as [|n].
    + destruct m as [|m]; cbn; [reflexivity|]. f_equal. apply (IH 0%nat m). lia.
    + apply IH. lia.
Qed.

Lemma normalisePhone_digits s : forall_string is_digit (normalisePhone s) = true.
Proof.
  unfold normalisePhone. destruct (_ && _); [apply substring_forall|]; apply filter_string_forall.
Qed.

Lemma normalisePhone_idem s : normalisePhone (normalisePhone s) = normalisePhone s.
Proof.
  unfold normalisePhone at 1. rewrite (filter_string_all _ _ (normalisePhone_digits s)).
  assert (H : (slen (normalisePhone s) =? 12) && HasPrefix (normalisePhone s) "91" = false); [|now rewrite H].
  unfold normalisePhone. destruct ((slen (filter_string is_digit s) =? 12) && _) eqn:E; [|exact E].
  apply andb_true_iff in E as [E _]. apply Z.eqb_eq in E. unfold slen, drop_str in *.
  rewrite substring_length by lia. replace (String.length (filter_string is_digit s)) with 12%nat by lia. reflexivity.
Qed.

(** Trimming a string of digits leaves something unless it is empty. *)
Lemma digits_trim s : forall_string is_digit s = true -> TrimSpace s = "" -> s = "".
Proof.
  destruct s as [|c s]; [reflexivity|]. cbn [forall_string]. intros H. apply andb_true_iff in H as [H _].
  assert (Hs : is_space c = false) by (revert H; unfold is_digit, is_space; generalize (N_of_ascii c); cbv zeta; intros n H; apply andb_true_iff in H as [H1%N.leb_le H2%N.leb_le];
        apply orb_false_iff; split; [apply andb_false_iff; right; apply N.leb_gt | apply N.eqb_neq]; lia).
  unfold TrimSpace. cbn [trim_left]. rewrite Hs. cbn [trim_right]. rewrite Hs.
  destruct (trim_right s); discriminate.
Qed.

(** ** Customer codes *)

Lemma is_digit_char n : 0 <= n < 10 -> is_digit (digit_char n) = true.
Proof. intros H. pose proof (digit_val_char n H) as E. unfold digit_val in E. destruct (is_digit _); [reflexivity | discriminate]. Qed.

Lemma zpad_digits k n : 0 <= n -> forall_string is_digit (zpad k n) = true.
Proof.
  revert n. induction k as [|k IH]; intros n Hn; cbn [zpad]; [reflexivity|].
  rewrite forall_string_app, IH by (apply Z.div_pos; lia). cbn.
  rewrite is_digit_char by (apply Z.mod_pos_bound; lia). reflexivity.
Qed.

Lemma pretty_go_digits (x : N) s : forall_string is_digit s = true -> forall_string is_digit (pretty_N_go x s) = true.
Proof.
  revert s. induction x as [x IH] using (well_founded_induction N.lt_wf_0); intros s Hs.
  destruct (decide (0 < x)%N) as [Hx|Hx].
  - rewrite pretty_N_go_step by exact Hx. apply IH; [apply N.div_lt; lia|]. cbn. rewrite Hs, andb_true_r.
    pose proof (N.mod_lt x 10 ltac:(lia)) as Hr. revert Hr. generalize (x mod 10)%N. intros r Hr.
    assert (r = 0 \/ r = 1 \/ r = 2 \/ r = 3 \/ r = 4 \/ r = 5 \/ r = 6 \/ r = 7 \/ r = 8 \/ r = 9)%N as Hn by lia.
    destruct Hn as [->|[->|[->|[->|[->|[->|[->|[->|[->| ->]]]]]]]]]; reflexivity.
  - replace x with 0%N by lia. now rewrite pretty_N_go_0.
Qed.

Lemma fmt_0d_digits k n : 0 < n -> forall_string is_digit (fmt_0d k n) = true.
Proof.
  intros Hn. unfold fmt_0d. destruct (_ <? _); [apply zpad_digits; lia|].
  unfold fmt_d. destruct n as [|p|p]; [lia| |lia].
  change (pretty (Z.pos p)) with (pretty (N.pos p)). unfold pretty, pretty_N.
  rewrite decide_False by discriminate. now apply pretty_go_digits.
Qed.

Lemma fmt_0d_nonempty k n : 0 < n -> fmt_0d k n <> "".
Proof. intros Hn E. pose proof (dec_val_fmt_0d k n Hn) as H. rewrite E in H. cbn in H. lia. Qed.

Lemma substring_0_all s : String.substring 0 (String.length s) s = s.
Proof. induction s as [|c s IH]; cbn; [reflexivity | now rewrite IH]. Qed.

Lemma drop_str_app p s : drop_str (String.length p) (p ++ s) = s.
Proof.
  unfold drop_str. induction p as [|c p IH]; [|exact IH].
  change ("" ++ s) with s. cbn [String.length]. rewrite Nat.sub_0_r. apply substring_0_all.
Qed.

Lemma cust_number_code n : 0 < n -> cust_number (cust_code n) = Some n.
Proof.
  intros Hn. unfold cust_number, cust_code, HasPrefix. rewrite prefix_str_app.
  replace (drop_str 5 ("CUST-" ++ fmt_0d 4 n)) with (fmt_0d 4 n)
    by (symmetry; exact (drop_str_app "CUST-" (fmt_0d 4 n))).
  rewrite fmt_0d_digits, dec_val_fmt_0d by exact Hn.
  destruct (String.eqb_spec (fmt_0d 4 n) "") as [E|_]; [|reflexivity]. now apply fmt_0d_nonempty in E.
Qed.

Lemma max_ge l n : In n l -> n <= foldr Z.max 0 l.
Proof. induction l as [|x l IH]; intros []; cbn; [lia|]. specialize (IH H). lia. Qed.
Lemma max_nonneg l : 0 <= foldr Z.max 0 l.
Proof. induction l as [|x l IH]; cbn; lia. Qed.

(** The code after the largest one is not in use. *)
Lemma next_code_fresh h d n d' :
  max_cust_number h d = inr (n, d') ->
  d' = d /\ forall r, In r (customers d) -> cu_hotel_id r = h -> cu_code r <> cust_code (n + 1).
Proof.
  unfold max_cust_number. destruct (existsb _ _); [discriminate|]. intros E; injection E as <- <-.
  split; [reflexivity|]. intros r Hr Hh Hc.
  assert (Hin : In (foldr Z.max 0 (omap (fun r => if ueq (cu_hotel_id r) h then cust_number (cu_code r) else None) (customers d)) + 1)
    (omap (fun r => if ueq (cu_hotel_id r) h then cust_number (cu_code r) else None) (customers d))).
  { apply list_elem_of_In, list_elem_of_omap. exists r. split; [now apply list_elem_of_In|].
    unfold ueq. rewrite Hh, N.eqb_refl, Hc. apply cust_number_code.
    pose proof (max_nonneg (omap (fun r => if ueq (cu_hotel_id r) h then cust_number (cu_code r) else None) (customers d))).
    unfold ueq in *. lia. }
  apply max_ge in Hin. lia.
Qed.

(** ** Resolving a customer *)

Definition customers_only (d d' : DB) : Prop := exists cu, d' = d <| customers := cu |>.
(** Ids on file are not the zero UUID. *)
Definition customers_ok (d : DB) : Prop := forall r, In r (customers d) -> cu_id r <> uuid_nil.
(** The customer a tenant's phone number resolves to. *)
Definition customer_of (h : uuid) (phone : string) (d : DB) : option uuid :=
  cu_id <$> find_row (customer_by_phone h phone) (customers d).

Lemma customers_only_refl d : customers_only d d.
Proof. exists (customers d). destruct d; reflexivity. Qed.

Lemma customer_of_backfill h phone id email gstin d :
  customer_of h phone (snd (backfill_customer id email gstin d)) = customer_of h phone d.
Proof.
  unfold customer_of, backfill_customer; cbn. rewrite find_row_update by (intros; reflexivity).
  destruct (find_row _ _) as [r|]; cbn; [|reflexivity]. destruct (ueq (cu_id r) id); reflexivity.
Qed.

Section CustomerRuns.
Context {env : Env} {laws : EnvLaws env}.

Lemma create_customer_runs c h det d R :
  customers_ok d -> R (ErrPg "22003") ->
  runs c (create_customer c h det) d (fun id d' => customers_only d d' /\ customers_ok d' /\ id <> uuid_nil
    /\ (cd_Phone det <> "" -> customer_of h (cd_Phone det) d' = Some id)) R.
Proof.
  intros Hok HR. unfold create_customer, nextCustomerCode. eapply runs_bind.
  - apply runs_then_exec; [intros; inert_go|].
    destruct (max_cust_number h d) as [e|[n d']] eqn:E.
    + unfold max_cust_number in E. destruct (existsb _ _) in E; [|discriminate]. injection E as <-. exact HR.
    + apply next_code_fresh in E as [-> Hf].
      apply (runs_ret c _ d (fun code d1 => d1 = d /\
        forall r, In r (customers d) -> cu_hotel_id r = h -> cu_code r <> code)). auto.
  - intros. inert_go.
  - intros code d1 [-> Hf]. apply runs_uuid; [intros; inert_go|]. intros k.
    pose proof (uuid_new_not_nil k) as Hk. generalize dependent (uuid_new k). intros id Hk. apply runs_exec. unfold insert_customer.
    set (row := {| cu_id := id |}).
    assert (Hsame : cd_Phone det <> "" -> forall r, same_phone row r = customer_by_phone h (cd_Phone det) r).
    { intros Hp r. unfold same_phone, customer_by_phone, row; cbn. unfold nullif.
      destruct (String.eqb_spec (cd_Phone det) "") as [E|_]; [contradiction|]. cbn.
      destruct (String.eqb_spec (cd_Phone det) "") as [E|_]; [contradiction|]. now rewrite andb_true_r. }
    assert (Hfind : cd_Phone det <> "" -> forall t, find_row (same_phone row) t = find_row (customer_by_phone h (cd_Phone det)) t).
    { intros Hp t. unfold find_row. induction t as [|x t IH]; cbn; [reflexivity|]. now rewrite (Hsame Hp), IH. }
    destruct (find_row (same_phone row) (customers d)) as [r|] eqn:Er.
    + split; [apply customers_only_refl|]. split; [exact Hok|].
      split; [apply find_row_some in Er as [Hin _]; auto|]. intros Hp. unfold customer_of.
      rewrite <- (Hfind Hp), Er. reflexivity.
    + destruct (exists_row (same_code row) (customers d)) eqn:Ec.
      { apply exists_row_true in Ec as (r & Hr & Hc). unfold same_code, ueq, row in Hc; cbn in Hc.
        apply andb_true_iff in Hc as [Hh%N.eqb_eq Hc%String.eqb_eq]. exfalso. exact (Hf r Hr Hh Hc). }
      split; [eexists; reflexivity|]. split.
      { intros r Hr. cbn in Hr. apply in_insert_row in Hr as [Hr| ->]; [auto | exact Hk]. }
      split; [exact Hk|]. intros Hp. unfold customer_of. cbn. rewrite find_row_insert.
      rewrite <- !(Hfind Hp), Er, <- (Hsame Hp). unfold same_phone, row, ueq; cbn. unfold nullif.
      destruct (String.eqb_spec (cd_Phone det) "") as [E|_]; [contradiction|]. cbn.
      destruct (String.eqb_spec (cd_Phone det) "") as [E|_]; [contradiction|].
      rewrite N.eqb_refl, bool_decide_eq_true_2 by reflexivity. reflexivity.
Qed.

Lemma ensureCustomer_runs c h det d R :
  customers_ok d -> R (ErrPg "22003") ->
  runs c (ensureAccountingCustomer c h det) d (fun id d' => customers_only d d' /\ customers_ok d'
    /\ (id = uuid_nil <-> HasContact (normalised det) = false)
    /\ (normalisePhone (cd_Phone det) <> "" -> customer_of h (normalisePhone (cd_Phone det)) d' = Some id)
    /\ (forall id0, normalisePhone (cd_Phone det) <> "" ->
          customer_of h (normalisePhone (cd_Phone det)) d = Some id0 -> id = id0)) R.
Proof.
  intros Hok HR. unfold ensureAccountingCustomer.
  destruct (HasContact (normalised det)) eqn:Ec; cbn [negb].
  2:{ apply runs_ret. split; [apply customers_only_refl|]. split; [exact Hok|]. split; [tauto|].
      assert (Hp : normalisePhone (cd_Phone det) = "").
      { apply (digits_trim _ (normalisePhone_digits _)). unfold HasContact in Ec. cbn in Ec.
        apply orb_false_iff in Ec as [Ec _]. apply negb_false_iff, String.eqb_eq in Ec. exact Ec. }
      split; intros; contradiction. }
  set (d0 := if cd_Name (normalised det) =s "" then _ else _).
  assert (Hd0 : cd_Phone d0 = normalisePhone (cd_Phone det)) by (unfold d0; destruct (_ =s ""); reflexivity).
  destruct (String.eqb_spec (cd_Phone d0) "") as [Ep|Ep]; cbn [negb].
  { eapply runs_post; [apply create_customer_runs; assumption|]. cbn. intros id d' (H1 & H2 & H3 & H4).
    rewrite <- Hd0. repeat split; try assumption; try congruence; intros; contradiction. }
  apply runs_then_attempt_row.
  { intros [e|id]; [|inert_go]. unfold create_customer, nextCustomerCode. inert_go. }
  rewrite Hd0 in *. destruct (find_row (customer_by_phone h (normalisePhone (cd_Phone det))) (customers d)) as [r|] eqn:Er; cbn.
  - apply runs_then_attempt_exec; [intros; inert_go|]. apply runs_ret.
    pose proof (find_row_some _ _ _ Er) as [Hin _].
    split; [eexists; reflexivity|]. split.
    { intros x Hx. cbn in Hx. apply in_update_rows in Hx as (x0 & Hx0 & ->). specialize (Hok x0 Hx0).
      destruct (ueq (cu_id x0) (cu_id r)); exact Hok. }
    split; [split; [intros E; now apply Hok in E | discriminate]|]. split; intros.
    + rewrite customer_of_backfill. unfold customer_of. now rewrite Er.
    + unfold customer_of in *. rewrite Er in *. cbn in *. congruence.
  - eapply runs_post; [apply create_customer_runs; assumption|]. cbn. intros id d' (H1 & H2 & H3 & H4).
    rewrite Hd0 in H4. split; [exact H1|]. split; [exact H2|]. split; [split; [intros; contradiction | discriminate]|].
    split; [intros; auto|]. intros id0 _. unfold customer_of. rewrite Er. discriminate.
Qed.
End CustomerRuns.

(** ** Claims *)

Lemma filter_string_app p a b : filter_string p (a ++ b) = filter_string p a ++ filter_string p b.
Proof.
  induction a as [|c a IH]; [reflexivity|]. change (String c a ++ b) with (String c (a ++ b)).
  cbn [filter_string]. rewrite IH. destruct (p c); reflexivity.
Qed.

(** A phone number is reduced to its digits, however it is punctuated;
    reducing it again changes nothing, and a ten-digit number typed with the
    country code +91 reduces to the same key as without it. *)
Theorem phone_key_canonical raw :
  forall_string is_digit (normalisePhone raw) = true
  /\ normalisePhone (normalisePhone raw) = normalisePhone raw
  /\ (slen (filter_string is_digit raw) = 10 -> normalisePhone ("+91 " ++ raw) = normalisePhone raw).
Proof.
  split; [apply normalisePhone_digits|]. split; [apply normalisePhone_idem|].
  intros H. unfold normalisePhone. rewrite filter_string_app.
  change (filter_string is_digit "+91 ") with "91". unfold slen in *.
  assert (Hl : Z.of_nat (String.length ("91" ++ filter_string is_digit raw)) = 12).
  { change ("91" ++ ?s) with (String "9" (String "1" s)). cbn [String.length]. lia. }
  rewrite Hl, H. change (12 =? 12) with true. change (10 =? 12) with false. cbn [andb].
  unfold HasPrefix. rewrite prefix_str_app. exact (drop_str_app "91" _).
Qed.

(** One phone number is one customer of a tenant: resolving the details of
    two sales whose phones have the same digits gives the same customer id,
    whatever names, e-mails and spellings were typed and whoever was on file. *)
Theorem same_phone_same_customer (env : Env) (laws : EnvLaws env) c h d1 d2 db
  (Hphone : normalisePhone (cd_Phone d1) = normalisePhone (cd_Phone d2))
  (Hsome : normalisePhone (cd_Phone d1) <> "") (Hok : customers_ok db) :
  runs c (a ← ensureAccountingCustomer c h d1; b ← ensureAccountingCustomer c h d2; mret (a, b)) db
    (fun ab db' => fst ab = snd ab /\ fst ab <> uuid_nil
                   /\ customer_of h (normalisePhone (cd_Phone d1)) db' = Some (fst ab))
    (fun e => e = ErrPg "22003").
Proof.
  assert (Hin : forall det, inert c (ensureAccountingCustomer c h det))
    by (intros; unfold ensureAccountingCustomer, create_customer, nextCustomerCode; inert_go).
  assert (Hc : HasContact (normalised d1) = true).
  { unfold HasContact, normalised. cbn [cd_Phone].
    destruct (String.eqb_spec (TrimSpace (normalisePhone (cd_Phone d1))) "") as [E|]; [|reflexivity].
    exfalso. exact (Hsome (digits_trim _ (normalisePhone_digits _) E)). }
  eapply runs_bind; [apply (ensureCustomer_runs c h d1 db); auto | intros; apply inert_bind; [apply Hin | intros; inert_go]|].
  intros a db1 (_ & Hok1 & Hnil & Ha & _). eapply runs_bind; [apply (ensureCustomer_runs c h d2 db1); auto | intros; inert_go|].
  intros b db2 (_ & _ & _ & Hb1 & Hb2). apply runs_ret. cbn.
  rewrite <- Hphone in Hb1, Hb2. specialize (Hb2 a Hsome (Ha Hsome)). subst b.
  split; [reflexivity|]. split; [|auto]. intros E. apply Hnil in E. congruence.
Qed.

Definition raj (phone : string) : CustomerDetails :=
  {| cd_Name := "Raj"; cd_Phone := phone; cd_Email := ""; cd_GSTIN := "" |}.

Lemma same_phone_same_customer_witness :
  runs (env := calm) Pool (a ← ensureAccountingCustomer (env := calm) Pool 1%N (raj "+91 98111-22333");
         b ← ensureAccountingCustomer (env := calm) Pool 1%N (raj "98111 22333"); mret (a, b)) empty_db
    (fun ab db' => fst ab = snd ab /\ fst ab <> uuid_nil
                   /\ customer_of 1%N (normalisePhone "+91 98111-22333") db' = Some (fst ab))
    (fun e => e = ErrPg "22003").
Proof.
  apply (same_phone_same_customer calm calm_laws Pool 1%N (raj "+91 98111-22333") (raj "98111 22333")).
  - reflexivity.
  - vm_compute. discriminate.
  - intros r [].
Defined.

Lemma phone_key_canonical_witness :
  normalisePhone "+91 98111-22333" = normalisePhone "98111-22333".
Proof. exact (proj2 (proj2 (phone_key_canonical "98111-22333")) eq_refl). Defined.
