(* ===== verification/FolioCharge.v ===== *)
(** FolioCharge: internal/handler/pos_room_charge.go.  The folio a restaurant
    bill charged to a room belongs to, the charge written on it, and the balance
    check-out reads. *)

From S2P Require Import Prelude GoLib Schema Binary64 World RoomRepo.
From Stdlib Require Import QArith.
Local Open Scope string_scope.
Local Open Scope Z_scope.

(** The checked-in, not departed stay a dining session is attached to. *)
Definition in_house_stay (hotelID sessionID : uuid) (d : DB) : option uuid :=
  ds ← find_row (fun ds => ueq (ds_id ds) sessionID && ueq (ds_hotel_id ds) hotelID
         && exists_row (fun gs => oueq (ds_guest_stay_id ds) (gs_id gs) && ueq (gs_hotel_id gs) (ds_hotel_id ds)
              && bool_decide (is_Some (gs_actual_check_in gs)) && bool_decide (gs_actual_check_out gs = None)
              && (gs_status gs !=s "cancelled")) (guest_stays d)) (sessions d);
  gs ← find_row (fun gs => oueq (ds_guest_stay_id ds) (gs_id gs) && ueq (gs_hotel_id gs) (ds_hotel_id ds)
              && bool_decide (is_Some (gs_actual_check_in gs)) && bool_decide (gs_actual_check_out gs = None)
              && (gs_status gs !=s "cancelled")) (guest_stays d);
  Some (gs_id gs).

Definition open_folio (hotelID stayID : uuid) (f : FolioRow) : bool :=
  ueq (fo_hotel_id f) hotelID && ueq (fo_booking_id f) stayID && (fo_status f =s "open").

(** The CRM guest matching the stay's phone or e-mail. *)
Definition guest_of_stay (hotelID stayID : uuid) (d : DB) : option uuid :=
  gs ← find_row (stay_key hotelID stayID) (guest_stays d);
  g ← find_row (fun g => ueq (gu_hotel_id g) (gs_hotel_id gs)
        && ((opt_str (gs_guest_phone gs) !=s "")
             && (right_str 10 (digits (opt_str (gu_phone g))) =s right_str 10 (digits (opt_str (gs_guest_phone gs))))
            || (opt_str (gs_guest_email gs) !=s "")
             && match gu_email g with
                | Some e => ToLower e =s ToLower (opt_str (gs_guest_email gs))
                | None => false end)) (guests d);
  Some (gu_id g).

Definition charge_key (folioID billID : uuid) (f : FolioChargeRow) : bool :=
  ueq (fc_folio_id f) folioID && oueq (fc_reference_id f) billID.

(** SUM(amount + tax_amount) of a folio, and the completed payments of a stay *)
Definition folio_charged (folioID : uuid) (d : DB) : Z :=
  sum_rows (fun f => ueq (fc_folio_id f) folioID) (fun f => fc_amount f + fc_tax_amount f) (folio_charges d).
Definition stay_paid (hotelID stayID : uuid) (d : DB) : Z :=
  sum_rows (fun p => ueq (pay_hotel_id p) hotelID && oueq (pay_guest_stay_id p) stayID
                     && (pay_status p =s "completed")) pay_amount (payments d).

Section FolioCharge.
Context {env : Env}.

Definition resolveFolioForRoomCharge (db : Conn) (hotelID sessionID : uuid) : M GoErr (uuid * uuid) :=
  r ← attempt (query_row db (in_house_stay hotelID sessionID));
  match r with
  | inl e => if errors_is e ErrNoRows then throw ErrNoRoomForCharge
             else throw (Wrap "room charge: resolve stay" e)
  | inr stayID =>
      f ← attempt (query_row db (fun d => fo_id <$> find_row (open_folio hotelID stayID) (folios d)));
      match f with
      | inr folioID => mret (folioID, stayID)
      | inl e =>
          if negb (errors_is e ErrNoRows) then throw (Wrap "room charge: resolve folio" e)
          else
            g ← attempt (query_row db (guest_of_stay hotelID stayID));
            folioID ← new_uuid;
            exec db (insert_folio
              {| fo_id := folioID; fo_hotel_id := hotelID; fo_booking_id := stayID;
                 fo_guest_id := match g with inr id => Some id | inl _ => None end;
                 fo_status := "open"; fo_currency := "INR"; fo_closed_at := None |})
              onerr Wrap "room charge: open folio" ;;
            mret (folioID, stayID)
      end
  end.

Definition postFolioCharge (db : Conn) (hotelID folioID billID : uuid) (description : string)
  (amount taxAmount : Q) (postedBy : option uuid) : M GoErr unit :=
  exists_ ← query db (fun d => exists_row (charge_key folioID billID) (folio_charges d))
            onerr Wrap "room charge: idempotency check";
  if (exists_ : bool) then mret tt
  else
    id ← new_uuid; now ← time_now;
    exec db (fun d => inr (tt, d <| folio_charges ::= insert_row
      {| fc_id := id; fc_folio_id := folioID; fc_hotel_id := hotelID; fc_description := description;
         fc_charge_type := "restaurant"; fc_amount := num_enc amount; fc_tax_amount := num_enc taxAmount;
         fc_reference_id := Some billID; fc_posted_by := postedBy; fc_posted_at := now |} |>))
      onerr Wrap "room charge: post folio charge".

Definition folioOutstanding (db : Conn) (hotelID stayID : uuid) : M GoErr (Q * uuid) :=
  f ← attempt (query_row db (fun d => fo_id <$> find_row (open_folio hotelID stayID) (folios d)));
  match f with
  | inl e => if errors_is e ErrNoRows then mret (0%Q, uuid_nil) else throw e
  | inr folioID =>
      charges ← query db (fun d => num_dec (folio_charged folioID d));
      paid ← query db (fun d => num_dec (stay_paid hotelID stayID d));
      mret (round2 (fsub charges paid), folioID)
  end.

(** *** What the balance is *)

Lemma folioOutstanding_runs {laws : EnvLaws env} c h s d R :
  Z.abs (stay_paid h s d) <= 10 ^ 13 -> (forall f, Z.abs (folio_charged f d) <= 10 ^ 13) ->
  runs c (folioOutstanding c h s) d (fun r d' => d' = d /\
    match find_row (open_folio h s) (folios d) with
    | None => r = (0%Q, uuid_nil)
    | Some f => r = (cents (folio_charged (fo_id f) d - stay_paid h s d), fo_id f)
    end) R.
Proof.
  intros Hp Hc. unfold folioOutstanding. apply runs_then_attempt_row; [intros; inert_go|].
  destruct (find_row (open_folio h s) (folios d)) as [f|] eqn:E; cbn; [|apply runs_ret; auto].
  apply runs_then_query; [intros; inert_go|]. apply runs_then_query; [intros; inert_go|].
  apply runs_ret. split; [reflexivity|]. specialize (Hc (fo_id f)).
  rewrite !num_dec_cents, round2_sub by (unfold MAXC; lia). reflexivity.
Qed.

(** A second posting of the same bill adds nothing. *)
Lemma postFolioCharge_runs c h f b desc amt tax by_ d R :
  runs c (postFolioCharge c h f b desc amt tax by_) d (fun _ d' =>
    exists_row (charge_key f b) (folio_charges d') = true /\
    if exists_row (charge_key f b) (folio_charges d) then d' = d
    else exists id now, d' = d <| folio_charges ::= insert_row
      {| fc_id := id; fc_folio_id := f; fc_hotel_id := h; fc_description := desc;
         fc_charge_type := "restaurant"; fc_amount := num_enc amt; fc_tax_amount := num_enc tax;
         fc_reference_id := Some b; fc_posted_by := by_; fc_posted_at := now |} |>) R.
Proof.
  unfold postFolioCharge. eapply runs_bind; [apply runs_on_err, runs_query | intros; inert_go |].
  { instantiate (1 := fun v d1 => v = exists_row (charge_key f b) (folio_charges d) /\ d1 = d). split; reflexivity. }
  intros v d1 [-> ->]. destruct (exists_row _ _) eqn:E; [apply runs_ret; auto|].
  apply runs_uuid; [intros; inert_go|]. intros n. apply runs_now; [intros; inert_go|]. intros now.
  apply runs_on_err, runs_exec. split; [|eauto].
  apply exists_row_true. eexists. split; [apply in_insert_row; right; reflexivity|].
  unfold charge_key, ueq; cbn. now rewrite !N.eqb_refl.
Qed.
End FolioCharge.

(** ** Claims *)

(** Charging a restaurant bill to a folio is idempotent: posting the same
    bill again, with whatever amounts, leaves the single charge already there. *)
Theorem folio_charge_once (env : Env) c h f b desc amt tax by1 desc' amt' tax' by2 d :
  runs c (postFolioCharge c h f b desc amt tax by1) d (fun _ d1 =>
      exists_row (charge_key f b) (folio_charges d1) = true /\
      runs c (postFolioCharge c h f b desc' amt' tax' by2) d1 (fun _ d2 => d2 = d1) (fun _ => False))
    (fun _ => False).
Proof.
  eapply runs_post; [apply postFolioCharge_runs|]. intros _ d1 [H _]. split; [exact H|].
  eapply runs_post; [apply postFolioCharge_runs|]. intros _ d2 [_ H2]. rewrite H in H2. exact H2.
Qed.
