(* ===== verification/Pricing.v ===== *)
(** Pricing: the pure part of internal/handler/reservation_handler.go.  The
    booking request, the stay window it asks for, the price breakdown shared by
    quotes and bookings, payment validation, and the status the API exposes. *)

From S2P Require Import Prelude GoLib Schema Binary64 World Domain.
From Stdlib Require Import QArith Qabs Lqa Qcanon.
Local Close Scope Qc_scope.
Local Open Scope string_scope.
Local Open Scope Z_scope.

Record reservationPaymentRequest := {
  Method : string; Amount : Q; UPIID : string; TransactionRef : string;
  CardLast4 : string; AuthCode : string; CashReceived : Q }.

Record createReservationRequest := {
  q_GuestName : string; q_GuestEmail : string; q_GuestPhone : string; q_RoomID : string;
  q_CheckInDate : string; q_CheckOutDate : string; q_Source : string; q_Notes : string;
  q_Adults : Z; q_Children : Z; q_ApproachType : string; q_DurationNights : Z; q_PromoCode : string;
  q_CheckInTime : string; q_CheckOutTime : string; q_IDType : string; q_IDNumber : string;
  q_Payment : option reservationPaymentRequest }.

Record stayQuote := {
  Nights : Z; RoomRate : Q; BaseTotal : Q; Discount : Q; TaxRate : Q; QTaxAmount : Q; QPayable : Q }.

(** *** Payments *)

(** The error, if any. *)
Definition validate (p : reservationPaymentRequest) (payable : Q) : option string :=
  let method := ToLower (TrimSpace (Method p)) in
  if method =s "" then Some "payment.method is required"
  else if method =s "upi" then
    if (TrimSpace (UPIID p) =s "") || (TrimSpace (TransactionRef p) =s "")
    then Some "upi payments require upi_id and transaction_ref" else None
  else if method =s "card" then
    if TrimSpace (AuthCode p) =s "" then Some "card payments require auth_code"
    else
      let last4 := TrimSpace (CardLast4 p) in
      if last4 !=s "" then
        if negb (slen last4 =? 4) then Some "card_last4 must be exactly 4 digits — never send a full card number"
        else if negb (forall_string is_digit last4) then Some "card_last4 must be 4 digits"
        else None
      else None
  else if method =s "cash" then
    if flt (round2 (CashReceived p)) (round2 payable)
    then Some ("cash_received " ++ fmt_2f (CashReceived p) ++ " is less than the payable " ++ fmt_2f payable)
    else None
  else if (method =s "credit") || (method =s "room") || (method =s "bill_to_room") || (method =s "account")
  then None
  else Some ("unsupported payment method " ++ fmt_q (Method p)).

(** *** Stay dates *)

(** [time.Parse("15:04", s)] then the clock on the day; the error text. *)
Definition applyClockTime (day : Time) (clock0 : string) : string + Time :=
  let clock := TrimSpace clock0 in
  if clock =s "" then inr day
  else match parse_clock clock with
       | None => inl ("use HH:MM, got " ++ fmt_q clock)
       | Some (h, mi) => inr (Date (Year day) (Month day) (Day day) h mi (t_off day))
       end.

(** The departure date named by check_out_date and duration_nights. *)
Definition departure_date (req : createReservationRequest) (checkIn : Time) (out : option Time) : string + Time :=
  if 0 <? q_DurationNights req then
    let derived := add_days checkIn (q_DurationNights req) in
    match out with
    | Some o =>
        if negb (TEqual derived o)
        then inl ("check_out_date " ++ fmt_date o ++ " does not match duration_nights "
                  ++ fmt_d (q_DurationNights req) ++ " (expected " ++ fmt_date derived ++ ")")
        else inr derived
    | None => inr derived
    end
  else match out with
       | Some o => inr o
       | None => inl "check_out_date or duration_nights is required"
       end.

Definition resolveStayDates (req : createReservationRequest) : string + (Time * Time) :=
  match parse_date (q_CheckInDate req) with
  | None => inl "invalid check_in_date (use YYYY-MM-DD)"
  | Some inDay =>
      let out := if q_CheckOutDate req !=s "" then
                   match parse_date (q_CheckOutDate req) with
                   | None => inl "invalid check_out_date (use YYYY-MM-DD)"
                   | Some o => inr (Some o)
                   end
                 else inr None in
      match out with
      | inl e => inl e
      | inr out =>
          match departure_date req inDay out with
          | inl e => inl e
          | inr outDay =>
              match applyClockTime inDay (q_CheckInTime req) with
              | inl e => inl ("invalid check_in_time: " ++ e)
              | inr checkIn =>
                  match applyClockTime outDay (q_CheckOutTime req) with
                  | inl e => inl ("invalid check_out_time: " ++ e)
                  | inr checkOut =>
                      if negb (After checkOut checkIn) then inl "check_out must be after check_in"
                      else inr (checkIn, checkOut)
                  end
              end
          end
      end
  end.

(** *** Price *)

Definition priceStay (roomRate : Q) (checkIn checkOut : Time) (taxRate discount0 : Q) : stayQuote :=
  let nights := let n := CalendarNights checkIn checkOut in if n <? 1 then 1 else n in
  let base := round2 (fmul roomRate (of_int nights)) in
  let discount := if flt base discount0 then base else discount0 in
  let taxable := fsub base discount in
  let tax := round2 (fdiv (fmul taxable taxRate) 100) in
  {| Nights := nights; RoomRate := roomRate; BaseTotal := base; Discount := round2 discount;
     TaxRate := taxRate; QTaxAmount := tax; QPayable := round2 (fadd taxable tax) |}.

(** *** Status shown *)

Definition deriveReservationStatus (now : Time) (s : GuestStay) : string :=
  if (Status s =s ReservationCancelled) || (Status s =s ReservationNoShow)
     || (Status s =s ReservationCheckedOut) || (Status s =s ReservationInHouse)
  then Status s
  else match ActualCheckOut s, ActualCheckIn s with
       | Some _, _ => ReservationCheckedOut
       | None, Some _ => ReservationInHouse
       | None, None => if negb (After (CheckInDate s) now) then "pending_checkin" else "upcoming"
       end.

(** ** Lemmas on dates *)


(** ** Lemmas on dates *)

Lemma digit_val_bounds c v : digit_val c = Some v -> 0 <= v <= 9.
Proof.
  unfold digit_val, is_digit. destruct (_ && _)%N eqn:E; [|discriminate]. intros [= <-].
  apply andb_true_iff in E as [E1%N.leb_le E2%N.leb_le]. lia.
Qed.

Lemma get_digits_nonneg k acc s n s' : 0 <= acc -> get_digits k acc s = Some (n, s') -> 0 <= n.
Proof.
  revert acc s. induction k as [|k IH]; intros acc s Ha; cbn; [intros [= <- _]; exact Ha|].
  destruct s as [|c s]; [discriminate|]. destruct (digit_val c) as [v|] eqn:E; [|discriminate].
  apply digit_val_bounds in E. apply IH. lia.
Qed.

Lemma getnum_nonneg s n s' : getnum s = Some (n, s') -> 0 <= n.
Proof.
  unfold getnum. destruct (get_digits 2 0 s) as [[v s2]|] eqn:E.
  - intros [= <- <-]. eapply get_digits_nonneg; [|exact E]. lia.
  - apply get_digits_nonneg. lia.
Qed.

Lemma parse_clock_bounds s h mi : parse_clock s = Some (h, mi) -> 0 <= h < 24 /\ 0 <= mi < 60.
Proof.
  unfold parse_clock. intros H. destruct (getnum s) as [[h0 s1]|] eqn:Eh; [|discriminate].
  apply getnum_nonneg in Eh as Hh.
  cbn [mbind option_bind] in H. destruct (expect ":" s1) as [s2|]; [|discriminate]. cbn [mbind option_bind] in H.
  destruct (get_digits 2 0 s2) as [[m0 s3]|] eqn:Em; [|discriminate]. cbn [mbind option_bind] in H.
  destruct ((s3 =s "") && (h0 <? 24) && (m0 <? 60)) eqn:E; [|discriminate]. injection H as -> ->.
  apply get_digits_nonneg in Em; [|lia]. lia.
Qed.

Lemma Date_local_day y m d h mi off :
  0 <= h < 24 -> 0 <= mi < 60 -> local_day (Date y m d h mi off) = days_of_civil y m d.
Proof.
  intros Hh Hm. unfold local_day, local_sec, unix_sec, Date; cbn [t_ns t_off].
  rewrite Z.div_mul by (unfold ns_per_s; lia).
  replace (days_of_civil y m d * 86400 + h * 3600 + mi * 60 - off + off)
    with (h * 3600 + mi * 60 + days_of_civil y m d * 86400) by lia.
  rewrite Z.div_add by lia. rewrite Z.div_small by lia. lia.
Qed.

Lemma days_of_date t : days_of_civil (Year t) (Month t) (Day t) = local_day t.
Proof.
  unfold Year, Month, Day. pose proof (days_of_civil_of_days (local_day t)) as H.
  destruct (civil_of_days (local_day t)) as [[y m] d]. exact H.
Qed.

(** Setting the clock keeps the calendar day. *)
Lemma applyClockTime_day day clock t : applyClockTime day clock = inr t -> local_day t = local_day day.
Proof.
  unfold applyClockTime. destruct (TrimSpace clock =s ""); [intros [= <-]; reflexivity|].
  destruct (parse_clock (TrimSpace clock)) as [[h mi]|] eqn:E; [|discriminate]. intros [= <-].
  apply parse_clock_bounds in E as [Hh Hm]. rewrite Date_local_day by assumption. apply days_of_date.
Qed.

Lemma parse_date_off s t : parse_date s = Some t -> t_off t = 0.
Proof.
  unfold parse_date. intros H.
  repeat match type of H with
  | (match ?x with _ => _ end) = _ => destruct x; try discriminate H
  | mbind _ ?x = _ => destruct x as [?|]; cbn in H; try discriminate H
  | (let '(_, _) := ?x in _) = _ => destruct x
  | (if ?b then _ else _) = _ => destruct b; try discriminate H
  end.
  injection H as <-. reflexivity.
Qed.

Lemma departure_date_spec req d_in out d_out :
  departure_date req d_in out = inr d_out -> t_off d_in = 0 -> (forall o, out = Some o -> t_off o = 0) ->
  (0 < q_DurationNights req -> local_day d_out = local_day d_in + q_DurationNights req)
  /\ (forall o, out = Some o -> local_day d_out = local_day o).
Proof.
  intros H Hi Ho. unfold departure_date in H. destruct (Z.ltb_spec 0 (q_DurationNights req)) as [Hd|Hd].
  - destruct out as [o|].
    + destruct (TEqual _ o) eqn:E; cbn in H; [|discriminate]. injection H as <-.
      split; [intros _; apply add_days_local_day|]. intros ? [= <-]. unfold TEqual in E. apply Z.eqb_eq in E.
      unfold local_day, local_sec, unix_sec. rewrite E, (Ho o eq_refl).
      unfold add_days; cbn. now rewrite Hi.
    + injection H as <-. split; [intros _; apply add_days_local_day | discriminate].
  - destruct out as [o|]; [|discriminate]. injection H as <-. split; [lia|]. intros ? [= <-]. reflexivity.
Qed.

(** ** Arithmetic of the price *)

(** The price of n nights at R paise a night. *)
Lemma base_price R n :
  0 <= R -> 1 <= n <= 10 ^ 9 -> R * n <= 10 ^ 13 ->
  round2 (fmul (cents R) (of_int n)) = cents (R * n).
Proof.
  intros HR Hn HRn. apply (round2_near 2); [|lia|unfold MAXC; lia]. apply near_iff.
  set (a := (inject_Z R / 100)%Q). set (b := inject_Z n).
  assert (Hab : (a * b == inject_Z (R * n) * (1 # 100))%Q) by (unfold a, b; rewrite inject_Z_mult; field).
  assert (Ha0 : (0 <= a)%Q) by (unfold a; pose proof (inject_le 0 R HR); change (inject_Z 0) with 0%Q in *; unfold Qdiv; change (/100)%Q with (1#100)%Q; lra).
  assert (Hb1 : (1 <= b)%Q) by (change 1%Q with (inject_Z 1); unfold b; apply inject_le; lia).
  assert (Hb2 : (b <= 1000000000)%Q) by (change 1000000000%Q with (inject_Z (10 ^ 9)); unfold b; apply inject_le; lia).
  assert (Hm : (a * b <= 100000000000)%Q).
  { rewrite Hab. pose proof (inject_le _ _ HRn) as H. change (inject_Z (10 ^ 13)) with 10000000000000%Q in H. lra. }
  unfold fmul. replace (rnd (cents R * of_int n)) with (rnd (cents R * b))
    by (unfold b; rewrite (of_int_exact n ltac:(lia)); reflexivity).
  pose proof (rnd_err (cents R * b)) as H1. pose proof (rnd_err a) as H2.
  change (rnd a) with (cents R) in H2.
  rewrite (Qabs_pos a Ha0) in H2. apply Qabs_le_iff in H2 as [H2 H3].
  assert (Hc0 : (0 <= cents R)%Q) by (apply cents_nonneg; exact HR).
  set (p := (cents R * b)%Q) in *.
  assert (Hp0 : (0 <= p)%Q) by (unfold p; apply Qmult_le_0_compat; lra).
  rewrite (Qabs_pos p Hp0) in H1. apply Qabs_le_iff in H1 as [H4 H5].
  assert (Hp1 : ((cents R - a) * b <= (a * (1 # 2 ^ 53) + tiny) * b)%Q) by (apply Qmult_le_compat_r; lra).
  assert (Hp2 : (- (a * (1 # 2 ^ 53) + tiny) * b <= (cents R - a) * b)%Q) by (apply Qmult_le_compat_r; lra).
  assert (Ht : (tiny * b <= tiny * 1000000000)%Q) by (apply Qmult_le_l; [reflexivity | exact Hb2]).
  unfold p in *. unfold tiny in *. change (inject_Z 2) with 2%Q. rewrite <- Hab.
  change (2 ^ 53)%positive with 9007199254740992%positive in *.
  change (2 ^ 100)%positive with 1267650600228229401496703205376%positive in *.
  clearbody a b. generalize dependent (rnd (cents R * b)). intros x H4 H5.
  assert (Hs : (x - a * b == (x - cents R * b) + (cents R - a) * b)%Q) by ring.
  split; lra.
Qed.

Lemma mul_small x y X Y :
  (- X <= x)%Q -> (x <= X)%Q -> (0 <= y)%Q -> (y <= Y)%Q -> (- (X * Y) <= x * y)%Q /\ (x * y <= X * Y)%Q.
Proof.
  intros H1 H2 Hy HY. assert (HX : (0 <= X)%Q) by lra.
  pose proof (Qmult_le_compat_r x X y H2 Hy) as A1.
  pose proof (Qmult_le_compat_r (- X) x y H1 Hy) as A2.
  pose proof (Qmult_le_compat_r y Y X HY HX) as A3. split; lra.
Qed.

(** A percentage of an amount: rho hundredths of a percent of T paise. *)
Lemma percent_of t T rho :
  near 3 t T -> (0 <= t)%Q -> 0 <= T <= 10 ^ 12 -> 0 <= rho <= 10000 ->
  exists k, round2 (fdiv (fmul t (cents rho)) 100) = cents k /\ 0 <= k /\ Z.abs (10000 * k - T * rho) <= 6000.
Proof.
  intros Hn Ht0 HT Hrho. apply near_iff in Hn as [Hn1 Hn2].
  change (inject_Z 3) with 3%Q in *.
  set (b := (inject_Z rho / 100)%Q). set (r := cents rho). set (tt0 := (inject_Z T * (1 # 100))%Q) in *.
  assert (HT0 : (0 <= tt0 /\ tt0 <= 10000000000)%Q).
  { unfold tt0. pose proof (inject_le 0 T ltac:(lia)). pose proof (inject_le T (10 ^ 12) ltac:(lia)).
    change (inject_Z 0) with 0%Q in *. change (inject_Z (10 ^ 12)) with 1000000000000%Q in *. split; lra. }
  assert (Hb : (0 <= b /\ b <= 100)%Q).
  { unfold b, Qdiv. change (/ 100)%Q with (1 # 100)%Q. pose proof (inject_le 0 rho ltac:(lia)).
    pose proof (inject_le rho 10000 ltac:(lia)). change (inject_Z 0) with 0%Q in *.
    change (inject_Z 10000) with 10000%Q in *. split; lra. }
  assert (Hr0 : (0 <= r)%Q) by (apply cents_nonneg; lia).
  pose proof (rnd_err b) as Hr. change (rnd b) with r in Hr. rewrite (Qabs_pos b) in Hr by tauto.
  apply Qabs_le_iff in Hr as [Hr1 Hr2].
  assert (Hp0 : (0 <= t * r)%Q) by now apply Qmult_le_0_compat.
  pose proof (rnd_err (t * r)) as Hp. rewrite (Qabs_pos (t * r)) in Hp by exact Hp0. apply Qabs_le_iff in Hp as [Hp1 Hp2].
  change (rnd (t * r)) with (fmul t r) in *. assert (Hq0 : (0 <= fmul t r)%Q) by now apply fmul_nonneg.
  pose proof (rnd_err (fmul t r / 100)) as Hx.
  assert (Hx0 : (0 <= fmul t r / 100)%Q) by (unfold Qdiv; change (/ 100)%Q with (1 # 100)%Q; lra).
  rewrite (Qabs_pos _ Hx0) in Hx. apply Qabs_le_iff in Hx as [Hx1 Hx2].
  change (rnd (fmul t r / 100)) with (fdiv (fmul t r) 100) in *.
  set (x := fdiv (fmul t r) 100) in *. unfold Qdiv in Hx1, Hx2. change (/ 100)%Q with (1 # 100)%Q in *.
  unfold tiny in *. change (2 ^ 53)%positive with 9007199254740992%positive in *.
  change (2 ^ 100)%positive with 1267650600228229401496703205376%positive in *.
  change (2 ^ 53)%positive with 9007199254740992%positive in *.
  destruct (mul_small (r - b) t (1 # 10000000000000) 10000000001) as [M1 M2]; [lra..|].
  destruct (mul_small (t - tt0) b (3 # 5000) 100) as [M3 M4]; [lra..|].
  assert (E : (t * r == tt0 * b + (r - b) * t + (t - tt0) * b)%Q) by ring.
  assert (Etb : (tt0 * b == inject_Z (T * rho) * (1 # 10000))%Q).
  { unfold tt0, b, Qdiv. rewrite inject_Z_mult. change (/ 100)%Q with (1 # 100)%Q. ring. }
  assert (Hmax : (tt0 * b <= 1000000000000)%Q).
  { rewrite Etb. pose proof (inject_le (T * rho) (10 ^ 16) ltac:(nia)) as H.
    change (inject_Z (10 ^ 16)) with 10000000000000000%Q in H. lra. }
  rewrite Etb in *. set (m := inject_Z (T * rho)) in *. generalize dependent (t * r)%Q. intros tr Hp0 Hp1 Hp2 E.
  assert (Hxx : (-(7 # 100) <= x * 100 - m * (1 # 10000) <= 7 # 100)%Q) by (split; lra).
  assert (Hxp : (0 <= x)%Q) by (apply fdiv_nonneg; [exact Hq0 | easy]).
  assert (Hxm : (Qabs x <= 1000000000000)%Q) by (apply Qabs_le_iff; split; lra).
  pose proof (to_cents_err x Hxm) as He. apply Qabs_le_iff in He as [He1 He2].
  exists (to_cents x). split; [apply round2_to_cents|]. generalize dependent (to_cents x). intros k He1 He2.
  split.
  - apply Z.lt_succ_r. rewrite Zlt_Qlt. unfold Z.succ. rewrite inject_Z_plus.
    change (inject_Z 0) with 0%Q. change (inject_Z 1) with 1%Q. lra.
  - assert (Ek : (inject_Z (10000 * k - T * rho) == 10000 * inject_Z k - m)%Q)
      by (unfold Z.sub, m; rewrite inject_Z_plus, inject_Z_opp, (inject_Z_mult 10000 k); reflexivity).
    apply Z.abs_le. split; rewrite Zle_Qle, Ek; [change (inject_Z (- (6000))) with (-6000)%Q | change (inject_Z 6000) with 6000%Q]; lra.
Qed.

Lemma CalendarNights_bound i o : CalendarNights i o <= 200000.
Proof.
  unfold CalendarNights, Sub, ns_per_s. change (24 * 3600 * 10 ^ 9) with 86400000000000.
  etransitivity; [apply Z.quot_le_mono; [lia|]; apply Z.max_lub; [|apply Z.le_min_l]; lia | vm_compute; discriminate].
Qed.

Lemma cents_le a b : a <= b -> Z.abs a <= MAXC -> Z.abs b <= MAXC -> (cents a <= cents b)%Q.
Proof. intros H Ha Hb. apply fle_iff. rewrite fle_cents by assumption. now apply Z.leb_le. Qed.

(** The breakdown, in whole paise. *)
Definition nights_of (ci co : Time) : Z := Z.max 1 (CalendarNights ci co).

Lemma priceStay_cents R D rho ci co :
  0 <= R -> R * nights_of ci co <= 10 ^ 12 -> 0 <= D <= MAXC -> 0 <= rho <= 10000 ->
  let B := R * nights_of ci co in let d := Z.min D B in
  exists tax, 0 <= tax <= 10 ^ 12 + 1 /\ Z.abs (10000 * tax - (B - d) * rho) <= 6000
    /\ priceStay (cents R) ci co (cents rho) (cents D) =
       {| Nights := nights_of ci co; RoomRate := cents R; BaseTotal := cents B; Discount := cents d;
          TaxRate := cents rho; QTaxAmount := cents tax; QPayable := cents (B - d + tax) |}.
Proof.
  intros HR HB HD Hrho B d.
  assert (Hn : 1 <= nights_of ci co <= 10 ^ 9) by (unfold nights_of; pose proof (CalendarNights_bound ci co); lia).
  assert (HB0 : 0 <= B) by (unfold B; nia).
  assert (Hmax : (if CalendarNights ci co <? 1 then 1 else CalendarNights ci co) = nights_of ci co).
  { unfold nights_of. destruct (Z.ltb_spec (CalendarNights ci co) 1); lia. }
  unfold priceStay. rewrite Hmax, base_price by (try assumption; unfold B in *; lia). fold B.
  assert (Hd : (if flt (cents B) (cents D) then cents B else cents D) = cents d).
  { rewrite flt_cents by (unfold MAXC in *; lia). unfold d. destruct (Z.ltb_spec B D); f_equal; lia. }
  rewrite Hd. assert (Hdb : 0 <= d <= B) by (unfold d; lia).
  assert (Ht : near 3 (fsub (cents B) (cents d)) (B - d)).
  { apply (fsub_near 1 1); [apply cents_near; unfold MAXC in *; lia.. | unfold MAXC; lia | lia]. }
  assert (Ht0 : (0 <= fsub (cents B) (cents d))%Q).
  { apply rnd_nonneg. pose proof (cents_le d B ltac:(lia) ltac:(unfold MAXC; lia) ltac:(unfold MAXC; lia)). lra. }
  destruct (percent_of _ (B - d) rho Ht Ht0 ltac:(lia) Hrho) as (tax & Hround & Htax0 & Htax).
  exists tax. rewrite Hround. assert (Htb : tax <= 10 ^ 12 + 1) by nia.
  split; [lia|]. split; [exact Htax|]. f_equal.
  - apply round2_cents. unfold MAXC; lia.
  - apply (round2_near 5); [|lia|unfold MAXC; lia]. apply (fadd_near 3 1); [exact Ht | apply cents_near | |]; unfold MAXC; lia.
Qed.

(** ** Claims *)

(** C6: the price shown and stored for a stay, for any room rate, tax rate and
    discount in whole paise: the base is the rate times the calendar nights (one
    at least), the discount is cut to the base, tax is charged on the discounted
    base to within 0.6 of a paisa, and base - discount + tax is exactly the
    amount payable, which is also what the reservation's own Payable gives. *)
Theorem price_breakdown R D rho ci co
  (HR : 0 <= R) (HB : R * nights_of ci co <= 10 ^ 12) (HD : 0 <= D <= MAXC) (Hrho : 0 <= rho <= 10000) :
  let quote := priceStay (cents R) ci co (cents rho) (cents D) in
  let base := R * nights_of ci co in let off := Z.min D base in
  exists tax, 0 <= tax /\ Z.abs (10000 * tax - (base - off) * rho) <= 6000
    /\ Nights quote = nights_of ci co /\ BaseTotal quote = cents base /\ Discount quote = cents off
    /\ QTaxAmount quote = cents tax /\ QPayable quote = cents (base - off + tax)
    /\ forall g, TotalAmount g = Some (BaseTotal quote) -> DiscountAmount g = Discount quote ->
         TaxAmount g = QTaxAmount quote -> round2 (Payable g) = QPayable quote.
Proof.
  cbv zeta. destruct (priceStay_cents R D rho ci co HR HB HD Hrho) as (tax & Ht0 & Ht & E). rewrite E.
  exists tax. repeat split; cbn; try apply Ht0; try exact Ht.
  assert (1 <= nights_of ci co) by (unfold nights_of; lia).
  intros g H1 H2 H3. rewrite round2_to_cents.
  rewrite (Payable_cents g _ _ _ H1 H2 H3); [reflexivity | nia | | lia]. nia.
Qed.

(** Three nights at 4500.00, 18% tax, 1000.00 off. *)
Lemma price_breakdown_witness :
  let ci := Date 2026 3 10 14 0 0 in let co := Date 2026 3 13 11 0 0 in
  nights_of ci co = 3 /\ exists tax, 0 <= tax /\ Z.abs (10000 * tax - (1350000 - 100000) * 1800) <= 6000
    /\ QPayable (priceStay (cents 450000) ci co (cents 1800) (cents 100000)) = cents (1350000 - 100000 + tax).
Proof.
  cbv zeta. assert (E : nights_of (Date 2026 3 10 14 0 0) (Date 2026 3 13 11 0 0) = 3) by reflexivity.
  split; [exact E|].
  destruct (price_breakdown 450000 100000 1800 (Date 2026 3 10 14 0 0) (Date 2026 3 13 11 0 0))
    as (tax & H0 & H1 & _ & _ & _ & _ & H2 & _); [lia | rewrite E; lia | unfold MAXC; lia | lia |].
  rewrite E in *. exists tax. split; [exact H0|]. split; [exact H1 | exact H2].
Defined.

(** The stay window a booking request resolves to: it starts on the arrival
    date asked for and ends after it starts; when nights are given the stay is
    billed for exactly that many, and when a departure date is given it ends on
    that date, whatever arrival and departure times were asked for. *)
Theorem stay_window_resolved req ci co (H : resolveStayDates req = inr (ci, co)) :
  Before ci co = true
  /\ (exists d, parse_date (q_CheckInDate req) = Some d /\ local_day ci = local_day d)
  /\ (0 < q_DurationNights req <= 100000 -> CalendarNights ci co = q_DurationNights req)
  /\ (q_CheckOutDate req <> "" ->
        exists d, parse_date (q_CheckOutDate req) = Some d /\ local_day co = local_day d).
Proof.
  unfold resolveStayDates in H. destruct (parse_date (q_CheckInDate req)) as [d_in|] eqn:Ein; [|discriminate].
  set (out := if q_CheckOutDate req !=s "" then _ else _) in H.
  assert (Hout : match out with inl _ => True | inr o =>
    (forall x, o = Some x -> t_off x = 0) /\
    (q_CheckOutDate req <> "" -> exists x, o = Some x /\ parse_date (q_CheckOutDate req) = Some x) end).
  { unfold out. destruct (String.eqb_spec (q_CheckOutDate req) "") as [E|E]; cbn [negb].
    - split; [discriminate | intros; contradiction].
    - destruct (parse_date (q_CheckOutDate req)) as [x|] eqn:Ex; [|exact I].
      split; [intros ? [= <-]; exact (parse_date_off _ _ Ex) | eauto]. }
  destruct out as [e|o]; [discriminate|]. destruct Hout as [Hoff Hgiven].
  destruct (departure_date req d_in o) as [e|d_out] eqn:Ed; [discriminate|].
  apply departure_date_spec in Ed as [Hdur Hsame]; [|exact (parse_date_off _ _ Ein)|exact Hoff].
  destruct (applyClockTime d_in _) as [e|ci'] eqn:Eci; [discriminate|].
  destruct (applyClockTime d_out _) as [e|co'] eqn:Eco; [discriminate|].
  destruct (After co' ci') eqn:Ea; [|discriminate]. injection H as -> ->.
  apply applyClockTime_day in Eci, Eco.
  split; [exact Ea|]. split; [eauto|]. split.
  - intros [Hd1 Hd2]. specialize (Hdur Hd1). rewrite CalendarNights_days; lia.
  - intros Hne. destruct (Hgiven Hne) as (x & Hx & Hpx). exists x. split; [exact Hpx|].
    rewrite Eco. exact (Hsame x Hx).
Qed.

(** Arriving 10 March at 14:00 for three nights, leaving at 11:00. *)
Definition ask : createReservationRequest :=
  {| q_GuestName := "Asha Rao"; q_GuestEmail := "asha@example.com"; q_GuestPhone := "+91 98111 22333";
     q_RoomID := "201"; q_CheckInDate := "2026-03-10"; q_CheckOutDate := ""; q_Source := ""; q_Notes := "";
     q_Adults := 2; q_Children := 0; q_ApproachType := ""; q_DurationNights := 3; q_PromoCode := "";
     q_CheckInTime := "14:00"; q_CheckOutTime := "11:00"; q_IDType := ""; q_IDNumber := "";
     q_Payment := Some {| Method := "UPI"; Amount := 0; UPIID := "asha@upi"; TransactionRef := "T1";
                          CardLast4 := ""; AuthCode := ""; CashReceived := 0 |} |}.

Lemma stay_window_resolved_witness :
  exists ci co, resolveStayDates ask = inr (ci, co) /\ CalendarNights ci co = 3.
Proof.
  do 2 eexists. split; [vm_compute; reflexivity|].
  refine (proj1 (proj2 (proj2 (stay_window_resolved ask _ _ _))) _); [vm_compute; reflexivity | cbn; lia].
Defined.
