(* ===== verification/Settlement.v ===== *)
(** Settlement: internal/handler/reservation_settlement.go.  A booking taken with
    payment lands in the customer master, the payments, the sales invoices and
    the ledger, inside the caller's transaction. *)

From S2P Require Import Prelude GoLib Schema Binary64 World Domain Ledger Customers Pricing.
From Stdlib Require Import QArith.
Local Open Scope string_scope.
Local Open Scope Z_scope.

Record settlementResult := {
  st_CustomerID : uuid; st_InvoiceID : uuid; st_InvoiceNo : string; st_JournalID : uuid;
  st_PaymentID : uuid; st_VoucherRef : string }.

Definition no_settlement : settlementResult :=
  {| st_CustomerID := uuid_nil; st_InvoiceID := uuid_nil; st_InvoiceNo := ""; st_JournalID := uuid_nil;
     st_PaymentID := uuid_nil; st_VoucherRef := "" |}.

(** payments_card_last4_check, the primary key and the unique payment_number *)
Definition payment_row_ok (p : PaymentRow) : bool :=
  match pay_card_last4 p with Some s => (slen s =? 4) && forall_string is_digit s | None => true end.
Definition insert_payment (row : PaymentRow) (d : DB) : GoErr + (unit * DB) :=
  if negb (payment_row_ok row) then inl (ErrPg "23514")
  else if exists_row (fun p => ueq (pay_id p) (pay_id row) || (pay_number p =s pay_number row)) (payments d) then inl (ErrPg "23505")
  else inr (tt, d <| payments ::= insert_row row |>).

(** The primary key and UNIQUE (hotel_id, invoice_number) *)
Definition insert_invoice (row : InvoiceRow) (d : DB) : GoErr + (unit * DB) :=
  if exists_row (fun i => ueq (in_id i) (in_id row) || (ueq (in_hotel_id i) (in_hotel_id row) && (in_number i =s in_number row)))
       (invoices d)
  then inl (ErrPg "23505") else inr (tt, d <| invoices ::= insert_row row |>).

Definition unix_milli (t : Time) : Z := t_ns t / 10 ^ 6.

Definition roomLabel (stay : GuestStay) : string :=
  match SRoom stay with
  | Some r => if rs_RoomNumber r !=s "" then rs_RoomNumber r else "—"
  | None => "—"
  end.

Section Settlement.
Context {env : Env}.

(** The first n characters of a fresh UUID, in capitals. *)
Definition uuid_suffix (n : nat) (id : uuid) : string := ToUpper (take_str n (uuid_string id)).

Definition customer_details (stay : GuestStay) : CustomerDetails :=
  {| cd_Name := GuestName stay; cd_Phone := opt_str (GuestPhone stay); cd_Email := opt_str (GuestEmail stay);
     cd_GSTIN := "" |}.

(** Step 2: the payment record. *)
Definition settle_payment (db : Conn) (hotelID : uuid) (stay : GuestStay) (pay : reservationPaymentRequest)
  (method : string) (quote : stayQuote) : M GoErr uuid :=
  paymentID ← new_uuid; now ← time_now; nid ← new_uuid;
  let paymentNo := "PAY-" ++ fmt_date_compact now ++ "-" ++ uuid_suffix 5 nid in
  let change0 := round2 (fsub (CashReceived pay) (QPayable quote)) in
  let change := if (method !=s "cash") || flt change0 0 then 0%Q else change0 in
  exec db (insert_payment
    {| pay_id := paymentID; pay_hotel_id := hotelID; pay_number := paymentNo;
       pay_guest_stay_id := Some (ID stay); pay_amount := num_enc (QPayable quote); pay_method := method;
       pay_status := "completed"; pay_upi_id := nullif (TrimSpace (UPIID pay));
       pay_transaction_ref := nullif (TrimSpace (TransactionRef pay));
       pay_card_last4 := nullif (TrimSpace (CardLast4 pay)); pay_auth_code := nullif (TrimSpace (AuthCode pay));
       pay_cash_received := Some (num_enc (CashReceived pay)); pay_change_given := Some (num_enc change);
       pay_processed_by := None; pay_notes := None; pay_category := None |})
    onerr Wrap "settle: payment" ;;
  mret paymentID.

(** Step 3: the sales invoice and its line. *)
Definition settle_invoice (db : Conn) (hotelID customerID : uuid) (stay : GuestStay) (reference : string)
  (quote : stayQuote) : M GoErr (uuid * string) :=
  invoiceID ← new_uuid; now ← time_now; today ← current_date;
  let invoiceNo := "INV-" ++ opt_str (ConfirmationNo stay) ++ "-" ++ fmt_d (unix_milli now) in
  exec db (insert_invoice
    {| in_id := invoiceID; in_hotel_id := hotelID; in_customer_id := nilAsNull customerID; in_number := invoiceNo;
       in_date := today; in_due_date := Some (as_date (CheckOutDate stay)); in_reference := reference; in_subtotal := num_enc (BaseTotal quote);
       in_discount_total := num_enc (Discount quote); in_tax_total := num_enc (QTaxAmount quote);
       in_total := num_enc (QPayable quote); in_status := "posted";
       in_notes := "Room " ++ roomLabel stay ++ ", " ++ fmt_d (Nights quote) ++ " night(s), "
                   ++ fmt_date (CheckInDate stay) ++ " to " ++ fmt_date (CheckOutDate stay) |})
    onerr Wrap "settle: invoice" ;;
  lineID ← new_uuid;
  exec db (fun d => inr (tt, d <| invoice_lines ::= insert_row
    {| il_id := lineID; il_invoice_id := invoiceID; il_hotel_id := hotelID; il_account_id := None;
       il_description := "Accommodation — room " ++ roomLabel stay; il_quantity := 100 * Nights quote;
       il_unit_price := num_enc (RoomRate quote); il_discount := num_enc (Discount quote);
       il_tax_rate := num_enc (TaxRate quote); il_tax_amount := num_enc (QTaxAmount quote);
       il_total := num_enc (QPayable quote) |} |>))
    onerr Wrap "settle: invoice line" ;;
  mret (invoiceID, invoiceNo).

(** Step 4: the lines posted to the ledger. *)
Definition settle_lines (method : string) (quote : stayQuote) : list journalLine :=
  let revenue := round2 (fsub (BaseTotal quote) (Discount quote)) in
  let credit_sale := isCreditSettlement method in
  let debitAccount := if credit_sale then "1200" else cashAccount method in
  let debitMemo := if credit_sale then "Receivable — room booking on credit"
                   else "Room booking settlement (" ++ method ++ ")" in
  [ dr debitAccount (QPayable quote) debitMemo; cr "4000" revenue "Room revenue";
    cr "2100" (QTaxAmount quote) "GST on room revenue" ].

Definition settleReservation (db : Conn) (hotelID : uuid) (stay : GuestStay) (pay : reservationPaymentRequest)
  (quote : stayQuote) : M GoErr settlementResult :=
  let method := ToLower (TrimSpace (Method pay)) in
  let reference := "FOLIO " ++ opt_str (ConfirmationNo stay) in
  let out := no_settlement <| st_VoucherRef := reference |> in
  posted ← alreadyPosted db hotelID reference;
  if (posted : bool) then mret out
  else
    customerID ← ensureAccountingCustomer db hotelID (customer_details stay) onerr Wrap "settle: customer";
    throw_if (isCreditSettlement method && ueq customerID uuid_nil)
      (Errorf "a credit booking requires a phone or email to bill") ;;
    paymentID ← settle_payment db hotelID stay pay method quote;
    inv ← settle_invoice db hotelID customerID stay reference quote;
    let description := "Room booking — " ++ GuestName stay ++ " (" ++ opt_str (ConfirmationNo stay) ++ ")" in
    journalID ← postJournal db hotelID description reference (settle_lines method quote)
                onerr Wrap "settle: ledger";
    mret (out <| st_CustomerID := customerID |> <| st_PaymentID := paymentID |>
              <| st_InvoiceID := fst inv |> <| st_InvoiceNo := snd inv |> <| st_JournalID := journalID |>).
End Settlement.

(** ** What settling leaves *)

(** The price is in whole paise and adds up. *)
Record quote_ok (q : stayQuote) (base off tax : Z) : Prop := {
  qo_base : BaseTotal q = cents base; qo_off : Discount q = cents off; qo_tax : QTaxAmount q = cents tax;
  qo_pay : QPayable q = cents (base - off + tax);
  qo_bounds : 0 <= off <= base /\ base <= 10 ^ 12 /\ 0 <= tax <= 10 ^ 12 + 1 }.

(** Settling touches the customers, payments, invoices and ledger only. *)
Definition settles_only (d d' : DB) : Prop :=
  exists cu pa iv il a v e l, d' = d <| customers := cu |> <| payments := pa |> <| invoices := iv |>
    <| invoice_lines := il |> <| accounts := a |> <| voucher_counters := v |> <| journal_entries := e |> <| journal_lines := l |>.

Record settled (d d' : DB) (h : uuid) (stay : GuestStay) (pay : reservationPaymentRequest)
  (total : Z) (out : settlementResult) : Prop := {
  se_frame : settles_only d d';
  se_payment : exists p, payments d' = insert_row p (payments d) /\ pay_id p = st_PaymentID out
     /\ pay_hotel_id p = h /\ pay_guest_stay_id p = Some (ID stay) /\ pay_status p = "completed" /\ pay_amount p = total;
  se_invoice : exists i, invoices d' = insert_row i (invoices d) /\ in_id i = st_InvoiceID out /\ in_hotel_id i = h
     /\ in_total i = total /\ in_subtotal i - in_discount_total i + in_tax_total i = total /\ in_status i = "posted";
  se_journal : exists e nl, journal_entries d' = insert_row e (journal_entries d)
     /\ je_id e = st_JournalID out /\ je_voucher_type e = "SAL" /\ is_Some (je_voucher_no e)
     /\ has_reference h ("FOLIO " ++ opt_str (ConfirmationNo stay)) e = true
     /\ journal_lines d' = (journal_lines d ++ nl)%list
     /\ in_balance nl /\ total_debit nl = total;
  se_vouchers : vouchers_ok d' }.

Lemma vouchers_ok_ext d d' :
  journal_entries d' = journal_entries d -> voucher_counters d' = voucher_counters d -> vouchers_ok d -> vouchers_ok d'.
Proof.
  intros E1 E2 [H1 H2 H3 H4]. split; unfold voucher_drawn in *; rewrite ?E1, ?E2; assumption.
Qed.

Section Inert.
Context {env : Env}.
Lemma postJournal_inert c h desc ref lines : inert c (postJournal c h desc ref lines).
Proof. unfold postJournal, ensureChartOfAccounts, numbered, nextVoucherNo, insert_entry, post_line, insert_line. inert_go. Qed.
Lemma ensureCustomer_inert c h det : inert c (ensureAccountingCustomer c h det).
Proof. unfold ensureAccountingCustomer, create_customer, nextCustomerCode. inert_go. Qed.
Lemma settle_payment_inert c h stay pay m q : inert c (settle_payment c h stay pay m q).
Proof. unfold settle_payment. inert_go. Qed.
Lemma settle_invoice_inert c h cu stay ref q : inert c (settle_invoice c h cu stay ref q).
Proof. unfold settle_invoice. inert_go. Qed.
Lemma alreadyPosted_inert {E} c h ref : inert c (alreadyPosted c h ref : M E bool).
Proof. unfold alreadyPosted. inert_go. Qed.
End Inert.
#[export] Hint Resolve postJournal_inert ensureCustomer_inert settle_payment_inert settle_invoice_inert
  alreadyPosted_inert : keeps.

Lemma settleReservation_inert {env : Env} c h stay pay q : inert c (settleReservation c h stay pay q).
Proof. unfold settleReservation. inert_go. Qed.
#[export] Hint Resolve settleReservation_inert : keeps.

Section SettlementRuns.
Context {env : Env} {laws : EnvLaws env}.

Lemma alreadyPosted_runs {E} c h ref d (R : E -> Prop) :
  runs c (alreadyPosted c h ref) d
    (fun b d' => d' = d /\ b = exists_row (has_reference h ref) (journal_entries d)) R.
Proof.
  unfold alreadyPosted. eapply runs_bind; [apply runs_attempt_ok with (Q := fun n d' => d' = d /\ n = rows_affected (has_reference h ref) (journal_entries d)); apply runs_query; auto | intros; inert_go|].
  intros r d' (n & -> & -> & ->). apply runs_ret. split; [reflexivity|].
  destruct (exists_row (has_reference h ref) (journal_entries d)) eqn:Ex.
  - apply exists_row_true in Ex. apply rows_affected_pos in Ex. apply Nat.ltb_lt. lia.
  - destruct (Nat.ltb_spec 0 (rows_affected (has_reference h ref) (journal_entries d))) as [Hlt|]; [|reflexivity].
    assert (Hne : rows_affected (has_reference h ref) (journal_entries d) <> 0%nat) by lia.
    apply rows_affected_pos in Hne. apply exists_row_true in Hne. congruence.
Qed.

Lemma settle_payment_runs c h stay pay m q d :
  runs c (settle_payment c h stay pay m q) d (fun id d' => exists p,
    d' = d <| payments ::= insert_row p |> /\ pay_id p = id /\ pay_hotel_id p = h
    /\ pay_guest_stay_id p = Some (ID stay) /\ pay_status p = "completed" /\ pay_amount p = num_enc (QPayable q))
    (fun _ => True).
Proof.
  unfold settle_payment. apply runs_uuid; [intros; inert_go|]. intros n. apply runs_now; [intros; inert_go|].
  intros t. apply runs_uuid; [intros; inert_go|]. intros n'. eapply runs_bind; [apply runs_on_err, runs_exec | intros; inert_go|].
  - unfold insert_payment. destruct (negb _); [exact I|]. destruct (exists_row _ _); [exact I|].
    match goal with |- context [insert_row ?row] => instantiate (1 := fun _ d' => d' = d <| payments ::= insert_row row |>) end.
    reflexivity.
  - intros _ d' ->. apply runs_ret. eexists. split; [reflexivity|]. repeat split.
Qed.

Lemma settle_invoice_runs c h cust stay ref q d :
  runs c (settle_invoice c h cust stay ref q) d (fun r d' => exists i il,
    d' = d <| invoices ::= insert_row i |> <| invoice_lines := il |> /\ in_id i = fst r /\ in_hotel_id i = h
    /\ in_subtotal i = num_enc (BaseTotal q) /\ in_discount_total i = num_enc (Discount q)
    /\ in_tax_total i = num_enc (QTaxAmount q) /\ in_total i = num_enc (QPayable q) /\ in_status i = "posted")
    (fun _ => True).
Proof.
  unfold settle_invoice. apply runs_uuid; [intros; inert_go|]. intros n. apply runs_now; [intros; inert_go|].
  intros t. apply runs_today; [intros; inert_go|]. intros today.
  eapply runs_bind; [apply runs_on_err, runs_exec | intros; inert_go|].
  - unfold insert_invoice. destruct (exists_row _ _); [exact I|].
    match goal with |- context [insert_row ?row] => instantiate (1 := fun _ d' => d' = d <| invoices ::= insert_row row |>) end.
    reflexivity.
  - intros _ d' ->. apply runs_uuid; [intros; inert_go|]. intros n'.
    eapply runs_bind; [apply runs_on_err, runs_exec | intros; inert_go|].
    + match goal with |- context [insert_row ?row (invoice_lines _)] => idtac | _ => idtac end.
      instantiate (1 := fun _ d' => exists il, d' = d <| invoices ::= insert_row _ |> <| invoice_lines := il |>).
      eexists. reflexivity.
    + intros _ d' [il ->]. apply runs_ret. do 2 eexists. split; [reflexivity|]. repeat split.
Qed.

Lemma settle_lines_paise m q base off tax :
  quote_ok q base off tax ->
  Forall2 in_paise (settle_lines m q) [(base - off + tax, 0); (0, base - off); (0, tax)].
Proof.
  intros [Hb Ho Ht Hp Hbd]. unfold settle_lines. rewrite Hb, Ho, Ht, Hp.
  rewrite round2_sub by (unfold MAXC; lia).
  assert (Hcode : chart_code (if isCreditSettlement m then "1200" else cashAccount m) = true)
    by (unfold cashAccount; destruct (isCreditSettlement m), (m =s "cash"); reflexivity).
  repeat apply Forall2_cons_2; [apply in_paise_dr | apply in_paise_cr | apply in_paise_cr | apply Forall2_nil_2];
    first [exact Hcode | reflexivity | unfold MAXC; lia].
Qed.

Lemma settleReservation_runs c h stay pay q base off tax d :
  quote_ok q base off tax -> vouchers_ok d -> customers_ok d ->
  runs c (settleReservation c h stay pay q) d (fun out d' =>
    if exists_row (has_reference h ("FOLIO " ++ opt_str (ConfirmationNo stay))) (journal_entries d)
    then d' = d /\ st_PaymentID out = uuid_nil
    else settled d d' h stay pay (base - off + tax) out) (fun _ => True).
Proof.
  intros Hq Hv Hc. unfold settleReservation. set (m := ToLower (TrimSpace (Method pay))).
  set (ref := "FOLIO " ++ opt_str (ConfirmationNo stay)).
  eapply runs_bind; [apply alreadyPosted_runs | intros; inert_go |].
  intros b d0 [-> ->]. destruct (exists_row _ _); [apply runs_ret; auto|].
  eapply runs_bind; [apply runs_on_err, (ensureCustomer_runs c h (customer_details stay) d (fun _ => True) Hc I) | intros; inert_go |].
  intros cust d1 ([cu ->] & Hc1 & _). apply runs_then_throw_if; [inert_go|].
  destruct (isCreditSettlement m && ueq cust uuid_nil); [exact I|].
  eapply runs_bind; [apply settle_payment_runs | intros; inert_go |].
  intros pid d2 (p & -> & Hp1 & Hp2 & Hp3 & Hp4 & Hp5).
  eapply runs_bind; [apply settle_invoice_runs | intros; inert_go|].
  intros [iid ino] d3 (i & il & -> & Hi1 & Hi2 & Hi3 & Hi4 & Hi5 & Hi6 & Hi7). cbn [fst snd] in *.
  eapply runs_bind; [apply runs_on_err | intros; inert_go|].
  - eapply runs_weaken; [apply (postJournal_books h _ ref (settle_lines m q) _ (base - off + tax) (settle_lines_paise m q base off tax Hq));
      [unfold sumZ; cbn [map foldr fst snd]; lia | unfold sumZ; cbn [map foldr fst snd]; lia |] | intros e d' H; exact H | auto].
    eapply vouchers_ok_ext; [..|exact Hv]; reflexivity.
  - intros jid d4 (nl & [Hframe (no & date & Hent) Hlines Hof] & Hbal & Htot & Hv4). apply runs_ret.
    destruct Hq as [Hb Ho Ht Hp Hbd]. rewrite Hp in *.
    assert (Hmax : Z.abs (base - off + tax) <= MAXC) by (unfold MAXC; lia).
    rewrite num_enc_cents in * by exact Hmax.
    destruct Hframe as (a & v & e & l & ->). cbn in Hent, Hlines. split.
    + do 8 eexists. reflexivity.
    + exists p. cbn. repeat split; auto.
    + exists i. cbn. rewrite Hi3, Hi4, Hi5, Hi6, Hb, Ho, Ht, !num_enc_cents by (unfold MAXC; lia).
      repeat split; auto.
    + eexists. exists nl. cbn. rewrite Hent. split; [reflexivity|]. cbn. unfold has_reference, ueq; cbn.
      rewrite N.eqb_refl, String.eqb_refl. split; [reflexivity|].
      split; [exact (voucherTypeFor_sale "FOLIO " _ ltac:(cbn; auto))|].
      split; [eexists; reflexivity|]. split; [reflexivity|]. split; [exact Hlines|]. split; [exact Hbal | exact Htot].
    + exact Hv4.
Qed.
End SettlementRuns.

(** ** Claims *)

(** C4: settling a booking posts it exactly once.  Unless a journal already
    carries the booking's reference, one completed payment, one posted invoice
    and one numbered, balanced journal entry are added, all for the amount
    payable, and nothing else of theirs changes; a retry of the same settlement
    then finds the reference and writes nothing. *)
Theorem settlement_posts_once (env : Env) (laws : EnvLaws env) c h stay pay q base off tax d
  (Hq : quote_ok q base off tax) (Hv : vouchers_ok d) (Hc : customers_ok d) :
  runs c (settleReservation c h stay pay q) d (fun out d' =>
      (if exists_row (has_reference h ("FOLIO " ++ opt_str (ConfirmationNo stay))) (journal_entries d)
       then d' = d /\ st_PaymentID out = uuid_nil
       else settled d d' h stay pay (base - off + tax) out)
      /\ runs c (settleReservation c h stay pay q) d' (fun out' d'' => d'' = d' /\ st_PaymentID out' = uuid_nil)
           (fun _ => True))
    (fun _ => True).
Proof.
  eapply runs_post; [exact (settleReservation_runs c h stay pay q base off tax d Hq Hv Hc)|].
  intros out d' H. split; [exact H|].
  assert (Hex : exists_row (has_reference h ("FOLIO " ++ opt_str (ConfirmationNo stay))) (journal_entries d') = true).
  { destruct (exists_row _ (journal_entries d)) eqn:E; [destruct H as [-> _]; exact E|].
    destruct H as [_ _ _ (e & nl & He & _ & _ & _ & Href & _) _]. rewrite He. apply exists_row_true.
    exists e. split; [apply in_insert_row; auto | exact Href]. }
  unfold settleReservation. eapply runs_bind; [apply alreadyPosted_runs | intros; inert_go|].
  intros b d0 [-> ->]. rewrite Hex. apply runs_ret. auto.
Qed.

(** The first settlement of a tenant: 13500.00 less 1000.00 plus 2250.00 tax. *)
Definition paid_quote : stayQuote :=
  {| Nights := 3; RoomRate := cents 450000; BaseTotal := cents 1350000; Discount := cents 100000;
     TaxRate := cents 1800; QTaxAmount := cents 225000; QPayable := cents 1475000 |}.
Definition asha_stay : GuestStay :=
  {| ID := 301; HotelID := 1; GuestID := None; RoomID := 201; GuestName := "Asha Rao";
     GuestEmail := Some "asha@example.com"; GuestPhone := Some "9811122333";
     CheckInDate := Date 2026 3 10 14 0 0; CheckOutDate := Date 2026 3 13 11 0 0;
     ActualCheckIn := None; ActualCheckOut := None; TotalAmount := Some (cents 1350000); Notes := None;
     Source := Some "Direct"; CreatedBy := None; CreatedAt := Date 2026 3 1 0 0 0; UpdatedAt := Date 2026 3 1 0 0 0;
     SRoom := None; Status := "confirmed"; ConfirmationNo := Some "RES-20260310-00001"; CancelledAt := None;
     CancellationReason := None; CancellationFee := 0; Adults := 2; Children := 0; ApproachType := "manual";
     DiscountAmount := cents 100000; TaxAmount := cents 225000; PromoCode := None |}.
Definition upi_payment : reservationPaymentRequest :=
  {| Method := "UPI"; Amount := 0; UPIID := "asha@upi"; TransactionRef := "T1"; CardLast4 := ""; AuthCode := "";
     CashReceived := 0 |}.

Lemma settlement_posts_once_witness :
  runs (env := calm) Pool (settleReservation (env := calm) Pool 1%N asha_stay upi_payment paid_quote) empty_db (fun out d' =>
      settled empty_db d' 1%N asha_stay upi_payment 1475000 out
      /\ runs (env := calm) Pool (settleReservation (env := calm) Pool 1%N asha_stay upi_payment paid_quote) d'
           (fun out' d'' => d'' = d' /\ st_PaymentID out' = uuid_nil) (fun _ => True))
    (fun _ => True).
Proof.
  apply (settlement_posts_once calm calm_laws Pool 1%N asha_stay upi_payment paid_quote 1350000 100000 225000 empty_db).
  - split; [reflexivity | reflexivity | reflexivity | reflexivity | lia].
  - split; [intros ? [] | intros ? [] | intros ? ? [] | intros ? []].
  - intros r [].
Defined.
