(* ===== verification/Reservations.v ===== *)
(** Reservations: the endpoints of internal/handler/reservation_handler.go.

    A handler takes its context, the decoded body (None when BodyParser fails)
    and runs to the response; early returns are the error side of the monad.
    Reads and single writes run on the tenant's pool, multi-step writes inside
    WithTenantTx.  The handler is wired with its database, as the router does. *)

From S2P Require Import Prelude GoLib Schema Binary64 World Auth Domain RoomRepo Ledger Promo Customers FolioCharge Pricing Settlement.
From Stdlib Require Import QArith.
Local Open Scope string_scope.
Local Open Scope Z_scope.

(** Who may work the front desk, and who may overrule it. *)
Definition frontDeskRoles : list string :=
  ["platform_admin"; "super_admin"; "admin"; "hotel_admin"; "property_manager"; "receptionist"].
Definition frontDeskManagerRoles : list string :=
  ["platform_admin"; "super_admin"; "admin"; "hotel_admin"; "property_manager"].

(** cfg.Auth.AccessTokenSecret, and which notification services are wired. *)
Record ReservationHandler := { AccessTokenSecret : string; has_email : bool; has_sms : bool }.

Record moveRoomRequest := { mr_RoomID : string; mr_Reason : string }.
Record cancelReservationRequest := { cr_Reason : string; cr_Fee : Q }.
Record createReservationResponse := {
  rr_stay : GuestStay; rr_Quote : stayQuote; rr_Settlement : option settlementResult; rr_Promo : option promoResult }.

(** One row of the reservations list, with the values the map literal holds. *)
Record ListedStay := {
  ls_stay : GuestStay; ls_room_number : string; ls_room_type : string;
  ls_check_in : string; ls_check_out : string; ls_actual_in : string; ls_actual_out : string;
  ls_payable : Q; ls_nights : Z; ls_status : string; ls_source : string; ls_confirmation : string;
  ls_cancelled_at : string; ls_created_at : string }.

Record dayInfo := { di_Date : string; di_CheckIns : nat; di_CheckOuts : nat; di_Occupied : nat }.

Inductive Body :=
  | BStay (s : option GuestStay)
  | BList (l : list ListedStay)
  | BMoved (room : uuid) (number : string) (repriced : bool) (reason : string) (s : option GuestStay)
  | BCreated (r : createReservationResponse)
  | BCancelled (fee : Q)
  | BStatus (s : string)
  | BDays (l : list dayInfo)
  | BQuote (q : stayQuote).

Definition formatTimePtr (t : option Time) : string := match t with Some t => fmt_rfc3339 t | None => "" end.

(** 23P01, the violation of guest_stays_no_overlap *)
Definition isOverlapViolation (e : GoErr) : bool := pg_code_is e "23P01".

Section Reservations.
Context {env : Env} {jwt : Jwt} (h : ReservationHandler).

Definition requireFrontDesk (c : Ctx) : option (Z * string) :=
  requireAnyRoleFromToken c (AccessTokenSecret h) frontDeskRoles.
Definition requireFrontDeskManager (c : Ctx) : option (Z * string) :=
  requireAnyRoleFromToken c (AccessTokenSecret h) frontDeskManagerRoles.

Definition fails {A} (m : M GoErr A) (status : Z) (msg : string) : M (Resp Body) A :=
  on_err m (fun _ => RespError status msg).
Definition path_id (c : Ctx) : M (Resp Body) uuid :=
  of_option (uuid_parse (c_params c "id")) (RespError 400 "invalid id").

Definition hasCompletedPayment (db : Conn) (hotelID stayID : uuid) : M GoErr bool :=
  query db (fun d => exists_row (fun p => ueq (pay_hotel_id p) hotelID && oueq (pay_guest_stay_id p) stayID
                                         && (pay_status p =s "completed")) (payments d)).

(** The tenant's GST rate, or no tax when it cannot be read. *)
Definition tax_rate {E} (hotelID : uuid) : M E Q :=
  r ← attempt (HotelGSTRate Pool hotelID);
  mret (match r with inr rate => rate | inl _ => 0%Q end).

(** INSERT ... SELECT ... WHERE NOT EXISTS an unfinished checkout_clean task *)
Definition unfinished_clean (hotelID roomID : uuid) (t : HousekeepingRow) : bool :=
  ueq (hk_hotel_id t) hotelID && ueq (hk_room_id t) roomID && (hk_task_type t =s "checkout_clean")
  && ((hk_status t =s "pending") || (hk_status t =s "in_progress")).
Definition raise_checkout_clean (db : Conn) (hotelID roomID : uuid) (notes : string) : M GoErr unit :=
  id ← new_uuid; now ← time_now;
  exec db (fun d => inr (tt,
    if exists_row (unfinished_clean hotelID roomID) (housekeeping d) then d
    else d <| housekeeping ::= insert_row
      {| hk_id := id; hk_hotel_id := hotelID; hk_room_id := roomID; hk_assigned_to := None; hk_task_type := "checkout_clean";
         hk_priority := "normal"; hk_status := "pending"; hk_notes := Some notes; hk_started_at := None;
         hk_completed_at := None; hk_inspected_by := None; hk_inspected_at := None; hk_scheduled_for := None;
         hk_guest_stay_id := None; hk_created_at := now; hk_updated_at := now |} |>)).

(** *** Notifications *)

Definition hotelDisplayName {E} (hotelID : uuid) : M E string :=
  r ← attempt (HotelName Pool hotelID);
  mret (match r with inr name => if TrimSpace name !=s "" then name else "our hotel" | inl _ => "our hotel" end).

Definition notifyStay {E} (hotelID : uuid) (stay : GuestStay) (kind : string) : M E unit :=
  hotelName ← hotelDisplayName hotelID;
  let roomNumber := match SRoom stay with Some r => rs_RoomNumber r | None => "" end in
  let fields := [GuestName stay; hotelName; roomNumber; fmt_date (CheckInDate stay); fmt_date (CheckOutDate stay)] in
  match GuestEmail stay with
  | Some e => if has_email h then send {| nt_job := "email." ++ kind; nt_to := e; nt_fields := fields |} else mret tt
  | None => mret tt
  end ;;
  match GuestPhone stay with
  | Some p => if has_sms h then send {| nt_job := "sms." ++ kind; nt_to := p; nt_fields := fields |} else mret tt
  | None => mret tt
  end.
Definition notifyBookingConfirmed {E} (hotelID : uuid) (stay : GuestStay) : M E unit :=
  notifyStay hotelID stay "booking_confirmation".
Definition notifyCheckedIn {E} (hotelID : uuid) (stay : GuestStay) : M E unit :=
  notifyStay hotelID stay "checkin_welcome".

(** *** Reading *)

Definition listed (now : Time) (s : GuestStay) : ListedStay :=
  {| ls_stay := s; ls_room_number := match SRoom s with Some r => rs_RoomNumber r | None => "" end;
     ls_room_type := match SRoom s with Some r => rs_RoomType r | None => "" end;
     ls_check_in := fmt_rfc3339 (CheckInDate s); ls_check_out := fmt_rfc3339 (CheckOutDate s);
     ls_actual_in := formatTimePtr (ActualCheckIn s); ls_actual_out := formatTimePtr (ActualCheckOut s);
     ls_payable := Payable s; ls_nights := CalendarNights (CheckInDate s) (CheckOutDate s);
     ls_status := deriveReservationStatus now s; ls_source := opt_str (Source s);
     ls_confirmation := opt_str (ConfirmationNo s); ls_cancelled_at := formatTimePtr (CancelledAt s);
     ls_created_at := fmt_rfc3339 (CreatedAt s) |}.

(** The loop's guards, each a [continue]. *)
Definition listed_passes (status search from to : string) (includeCancelled : bool) (now : Time) (s : GuestStay) : bool :=
  negb ((Status s =s ReservationCancelled) && negb includeCancelled && negb (EqualFold status ReservationCancelled))
  && ((status =s "") || EqualFold (deriveReservationStatus now s) status)
  && ((search =s "") || Contains (ToLower (GuestName s)) (ToLower search)
      || Contains (ToLower (opt_str (GuestEmail s))) (ToLower search))
  && match parse_date from with Some fd => (from =s "") || negb (Before (CheckInDate s) fd) | None => true end
  && match parse_date to with Some td => (to =s "") || negb (After (CheckInDate s) td) | None => true end.

Fixpoint list_rows {E} (passes : Time -> GuestStay -> bool) (l : list GuestStay) : M E (list ListedStay) :=
  match l with
  | [] => mret []
  | s :: l' =>
      now ← time_now;
      rest ← list_rows passes l';
      mret (if passes now s then listed now s :: rest else rest)
  end.

Definition List_ (c : Ctx) : M (Resp Body) (Resp Body) :=
  guard (requireFrontDesk c) ;;
  allStays ← fails (ListStays Pool (tenantHotelID c) []) 500 "failed to list reservations";
  let includeCancelled := EqualFold (c_query c "include_cancelled") "true" in
  result ← list_rows (listed_passes (c_query c "status") (c_query c "search") (c_query c "from") (c_query c "to")
                       includeCancelled) allStays;
  mret (RespOK (BList result)).

Definition Get (c : Ctx) : M (Resp Body) (Resp Body) :=
  guard (requireFrontDesk c) ;;
  id ← path_id c;
  stay ← fails (FindStayByID Pool (tenantHotelID c) id) 404 "reservation not found";
  mret (RespOK (BStay (Some stay))).

Definition Quote (c : Ctx) (body : option createReservationRequest) : M (Resp Body) (Resp Body) :=
  guard (requireFrontDesk c) ;;
  req ← of_option body (RespError 400 "invalid request body");
  match resolveStayDates req with
  | inl msg => throw (RespError 400 msg)
  | inr (checkIn, checkOut) =>
      roomID ← of_option (uuid_parse (q_RoomID req)) (RespError 400 "invalid room_id");
      room ← fails (FindRoomByID Pool (tenantHotelID c) roomID) 404 "room not found";
      taxRate ← tax_rate (tenantHotelID c);
      mret (RespOK (BQuote (priceStay (R_PricePerNight room) checkIn checkOut taxRate 0)))
  end.

(** The days d, d+1, ... before end, n of them at most. *)
Fixpoint days_from (n : nat) (d end_ : Time) : list Time :=
  match n with
  | O => []
  | S n' => if Before d end_ then d :: days_from n' (add_days d 1) end_ else []
  end.
Definition day_info (allStays : list GuestStay) (d : Time) : dayInfo :=
  let ds := fmt_date d in
  let count := fun p => length (List.filter p allStays) in
  {| di_Date := ds; di_CheckIns := count (fun s => fmt_date (CheckInDate s) =s ds);
     di_CheckOuts := count (fun s => fmt_date (CheckOutDate s) =s ds);
     di_Occupied := count (fun s => String.leb (fmt_date (CheckInDate s)) ds
                                    && String.ltb ds (fmt_date (CheckOutDate s))) |}.
(** Layout "2006-01" *)
Definition fmt_month (t : Time) : string := fmt_0d 4 (Year t) ++ "-" ++ zpad 2 (Month t).
Definition parse_month (s : string) : option (Z * Z) :=
  '(y, s1) ← get_digits 4 0 s; s2 ← expect "-" s1; '(m, s3) ← get_digits 2 0 s2;
  if (s3 =s "") && (1 <=? m) && (m <=? 12) then Some (y, m) else None.
Definition next_month (y m : Z) : Time := if m =? 12 then Date (y + 1) 1 1 0 0 0 else Date y (m + 1) 1 0 0 0.

Definition Calendar (c : Ctx) : M (Resp Body) (Resp Body) :=
  guard (requireFrontDesk c) ;;
  now ← time_now;
  let month := if c_query c "month" =s "" then fmt_month now else c_query c "month" in
  match parse_month month with
  | None => throw (RespError 400 "invalid month (use YYYY-MM)")
  | Some (y, m) =>
      allStays ← fails (ListStays Pool (tenantHotelID c) []) 500 "failed to load";
      mret (RespOK (BDays (map (day_info allStays) (days_from 31 (Date y m 1 0 0 0) (next_month y m)))))
  end.

(** *** Booking *)

(** The stay Create writes. *)
Definition booking (req : createReservationRequest) (id roomID : uuid) (checkIn checkOut : Time)
  (adults : Z) (quote : stayQuote) (confirmationNo : string) (t1 t2 : Time) : GuestStay :=
  let source := TrimSpace (q_Source req) in let approach := TrimSpace (q_ApproachType req) in
  {| ID := id; HotelID := uuid_nil; GuestID := None; RoomID := roomID; GuestName := q_GuestName req;
     GuestEmail := nullif (q_GuestEmail req); GuestPhone := nullif (q_GuestPhone req);
     CheckInDate := checkIn; CheckOutDate := checkOut; ActualCheckIn := None; ActualCheckOut := None;
     TotalAmount := Some (BaseTotal quote); Notes := nullif (q_Notes req);
     Source := Some (if source =s "" then "Direct" else source); CreatedBy := None;
     CreatedAt := t1; UpdatedAt := t2; SRoom := None; Status := ReservationConfirmed;
     ConfirmationNo := Some confirmationNo; CancelledAt := None; CancellationReason := None;
     CancellationFee := 0; Adults := adults; Children := q_Children req;
     ApproachType := if approach =s "" then "manual" else approach;
     DiscountAmount := Discount quote; TaxAmount := QTaxAmount quote; PromoCode := nullif (TrimSpace (q_PromoCode req)) |}.

(** The transaction: the CRM guest, the stay, the promo's use and the settlement. *)
Definition create_tx (hotelID : uuid) (req : createReservationRequest) (stay : GuestStay) (room : Room)
  (promo : promoResult) (quote : stayQuote) (ctx : Conn) : M GoErr (GuestStay * settlementResult) :=
  guestID ← EnsureGuest ctx hotelID (q_GuestName req) (q_GuestEmail req) (q_GuestPhone req);
  (if negb (ueq guestID uuid_nil) && ((q_IDType req !=s "") || (q_IDNumber req !=s ""))
   then SetGuestIdentity ctx hotelID guestID (q_IDType req) (q_IDNumber req) else mret tt) ;;
  created0 ← CreateStay ctx hotelID stay;
  let created := created0 <| SRoom := Some {| rs_RoomNumber := R_RoomNumber room; rs_RoomType := R_RoomType room |} |> in
  (if negb (ueq (pm_ID promo) uuid_nil) then redeemPromo ctx hotelID (pm_ID promo) else mret tt) ;;
  match q_Payment req with
  | Some pay => settlement ← settleReservation ctx hotelID created pay quote; mret (created, settlement)
  | None => mret (created, no_settlement)
  end.

Definition newConfirmationNo (checkIn : Time) (id : uuid) : string :=
  "RES-" ++ fmt_date_compact checkIn ++ "-" ++ uuid_suffix 6 id.

(** The promo a request names, resolved against the undiscounted base. *)
Definition booking_promo (hotelID : uuid) (req : createReservationRequest) (room : Room)
  (checkIn checkOut : Time) (taxRate : Q) : M (Resp Body) promoResult :=
  if TrimSpace (q_PromoCode req) =s "" then mret no_promo
  else
    let base := BaseTotal (priceStay (R_PricePerNight room) checkIn checkOut taxRate 0) in
    promo ← fails (resolvePromo Pool hotelID (q_PromoCode req) base (CalendarNights checkIn checkOut))
              500 "failed to validate promo code";
    throw_if (negb (pm_Valid promo)) (RespError 400 (pm_Message promo)) ;;
    mret promo.

Definition create_failure (room : Room) (e : GoErr) : Resp Body :=
  if errors_is e ErrPromoNotApplicable then RespError 409 "promo code was just fully redeemed"
  else if isOverlapViolation e then RespError 409 ("room " ++ R_RoomNumber room ++ " was just booked for those dates")
  else RespError 500 ("failed to create: " ++ err_text e).

(** From a free room and a resolved window on: price, validate, write, notify. *)
Definition create_priced (hotelID : uuid) (req : createReservationRequest) (room : Room) (roomID : uuid)
  (checkIn checkOut : Time) (adults : Z) : M (Resp Body) (Resp Body) :=
  taxRate ← tax_rate hotelID;
  promo ← booking_promo hotelID req room checkIn checkOut taxRate;
  let quote := priceStay (R_PricePerNight room) checkIn checkOut taxRate (pm_Discount promo) in
  throw_if (match q_Payment req with Some p => bool_decide (is_Some (validate p (QPayable quote))) | None => false end)
    (RespError 400 (match q_Payment req with Some p => opt_str (validate p (QPayable quote)) | None => "" end)) ;;
  cid ← new_uuid; id ← new_uuid; t1 ← time_now; t2 ← time_now;
  let stay := booking req id roomID checkIn checkOut adults quote (newConfirmationNo checkIn cid) t1 t2 in
  r ← WithTenantTx (create_tx hotelID req stay room promo quote) onerr create_failure room;
  let '(created, settlement) := r in
  notifyBookingConfirmed hotelID created ;;
  mret (RespCreated (BCreated
    {| rr_stay := created; rr_Quote := quote;
       rr_Settlement := match q_Payment req with Some _ => Some settlement | None => None end;
       rr_Promo := if pm_Valid promo then Some promo else None |})).

Definition Create (c : Ctx) (body : option createReservationRequest) : M (Resp Body) (Resp Body) :=
  guard (requireFrontDesk c) ;;
  req ← of_option body (RespError 400 "invalid request body");
  throw_if (q_GuestName req =s "") (RespError 400 "guest_name is required") ;;
  throw_if ((TrimSpace (q_GuestPhone req) =s "") && (TrimSpace (q_GuestEmail req) =s ""))
    (RespError 400 "guest_phone or guest_email is required") ;;
  match resolveStayDates req with
  | inl msg => throw (RespError 400 msg)
  | inr (checkIn, checkOut) =>
      roomID ← (if q_RoomID req !=s "" then of_option (uuid_parse (q_RoomID req)) (RespError 400 "invalid room_id")
                else mret uuid_nil);
      throw_if (ueq roomID uuid_nil) (RespError 400 "room_id is required") ;;
      let hotelID := tenantHotelID c in
      room ← fails (FindRoomByID Pool hotelID roomID) 400 "room not found";
      let adults := if q_Adults req <=? 0 then 1 else q_Adults req in
      throw_if ((0 <? R_Capacity room) && (R_Capacity room <? adults + q_Children req))
        (RespError 400 ("room " ++ R_RoomNumber room ++ " sleeps " ++ fmt_d (R_Capacity room) ++ "; "
                        ++ fmt_d (adults + q_Children req) ++ " guests requested")) ;;
      free ← fails (RoomIsFree Pool hotelID roomID checkIn checkOut uuid_nil) 500 "failed to check room availability";
      throw_if (negb free)
        (RespError 409 ("room " ++ R_RoomNumber room ++ " is already booked between " ++ fmt_date checkIn
                        ++ " and " ++ fmt_date checkOut)) ;;
      create_priced hotelID req room roomID checkIn checkOut adults
  end.

(** *** Amending *)

(** The new window of an amendment, checked and repriced; the fields to set. *)
Definition amend_dates (hotelID id : uuid) (req : createReservationRequest) (current : GuestStay)
  : M (Resp Body) (list StayField) :=
  paid ← fails (hasCompletedPayment Pool hotelID id) 500 "failed to verify reservation settlement";
  throw_if paid (RespError 409 "cannot change stay dates after payment; issue an adjustment instead") ;;
  effectiveCheckIn ← (if q_CheckInDate req !=s ""
    then of_option (parse_date (q_CheckInDate req)) (RespError 400 "invalid check_in_date (use YYYY-MM-DD)")
    else mret (CheckInDate current));
  effectiveCheckOut ← (if q_CheckOutDate req !=s ""
    then of_option (parse_date (q_CheckOutDate req)) (RespError 400 "invalid check_out_date (use YYYY-MM-DD)")
    else mret (CheckOutDate current));
  throw_if (negb (After effectiveCheckOut effectiveCheckIn)) (RespError 400 "check_out must be after check_in") ;;
  free ← fails (RoomIsFree Pool hotelID (RoomID current) effectiveCheckIn effectiveCheckOut id)
           500 "failed to check room availability";
  throw_if (negb free)
    (RespError 409 ("the room is already booked between " ++ fmt_date effectiveCheckIn ++ " and "
                    ++ fmt_date effectiveCheckOut)) ;;
  r ← attempt (FindRoomByID Pool hotelID (RoomID current));
  match r with
  | inl _ => mret []
  | inr room =>
      taxRate ← tax_rate hotelID;
      let quote := priceStay (R_PricePerNight room) effectiveCheckIn effectiveCheckOut taxRate (DiscountAmount current) in
      mret [F_total_amount (BaseTotal quote); F_discount_amount (Discount quote); F_tax_amount (QTaxAmount quote)]
  end.

Definition field_if (s : string) (f : string -> StayField) : list StayField :=
  if s !=s "" then [f s] else [].
Definition date_field (s : string) (f : Time -> StayField) : list StayField :=
  if s !=s "" then match parse_date s with Some d => [f d] | None => [] end else [].

Definition Update (c : Ctx) (body : option createReservationRequest) : M (Resp Body) (Resp Body) :=
  guard (requireFrontDesk c) ;;
  id ← path_id c;
  req ← of_option body (RespError 400 "invalid request body");
  let hotelID := tenantHotelID c in
  current ← fails (FindStayByID Pool hotelID id) 404 "reservation not found";
  throw_if (Status current =s ReservationCancelled) (RespError 409 "cannot edit a cancelled reservation") ;;
  priced ← (if (q_CheckInDate req !=s "") || (q_CheckOutDate req !=s "")
            then amend_dates hotelID id req current else mret []);
  let fields := (priced
    ++ field_if (q_GuestName req) F_guest_name ++ field_if (q_GuestEmail req) F_guest_email
    ++ field_if (q_GuestPhone req) F_guest_phone
    ++ date_field (q_CheckInDate req) F_check_in_date ++ date_field (q_CheckOutDate req) F_check_out_date
    ++ field_if (q_Notes req) F_notes ++ field_if (q_Source req) F_source)%list in
  throw_if (Nat.eqb (length fields) 0) (RespError 400 "no fields to update") ;;
  UpdateStay Pool hotelID id fields
    onerr (fun e => if errors_is e ErrNotFound then RespError 404 "reservation not found"
                    else RespError 500 "update failed") ;;
  stay ← attempt (FindStayByID Pool hotelID id);
  mret (RespOK (BStay (match stay with inr s => Some s | inl _ => None end))).

Definition Cancel (c : Ctx) (body : option cancelReservationRequest) : M (Resp Body) (Resp Body) :=
  guard (requireFrontDeskManager c) ;;
  id ← path_id c;
  let hotelID := tenantHotelID c in
  stay ← fails (FindStayByID Pool hotelID id) 404 "reservation not found";
  throw_if (bool_decide (is_Some (ActualCheckIn stay))) (RespError 400 "cannot cancel checked-in reservation") ;;
  throw_if (Status stay =s ReservationCancelled) (RespError 409 "reservation is already cancelled") ;;
  paid ← fails (hasCompletedPayment Pool hotelID id) 500 "failed to verify reservation settlement";
  throw_if paid (RespError 409 "cannot cancel a paid reservation; issue a refund or credit note first") ;;
  let req := default {| cr_Reason := ""; cr_Fee := 0 |} body in
  let roomID := RoomID stay in
  SoftCancelStay Pool hotelID id (TrimSpace (cr_Reason req)) (cr_Fee req) (actorUserID c)
    onerr (fun e => if errors_is e ErrNotFound then RespError 404 "reservation not found"
                    else RespError 500 "cancel failed") ;;
  active ← attempt (RoomHasActiveStay Pool hotelID roomID);
  match active with
  | inr false => attempt (UpdateRoomStatus Pool hotelID roomID RoomStatusAvailable) ;; mret tt
  | _ => mret tt
  end ;;
  mret (RespOK (BCancelled (cr_Fee req))).

(** *** Arrival *)

Definition checkin_tx (hotelID id : uuid) (existing : GuestStay) (now : Time) (ctx : Conn) : M GoErr unit :=
  UpdateStay ctx hotelID id [F_actual_check_in now; F_status ReservationInHouse] ;;
  UpdateRoomStatus ctx hotelID (RoomID existing) RoomStatusOccupied ;;
  gid ← EnsureGuest ctx hotelID (GuestName existing) (opt_str (GuestEmail existing)) (opt_str (GuestPhone existing));
  if negb (ueq gid uuid_nil)
  then EnsureFolioForBooking ctx hotelID id gid "INR" ;; mret tt
  else mret tt.

Definition not_found_or (msg : string) (e : GoErr) : Resp Body :=
  if errors_is e ErrNotFound then RespError 404 "reservation not found" else RespError 500 msg.

Definition CheckIn (c : Ctx) : M (Resp Body) (Resp Body) :=
  guard (requireFrontDesk c) ;;
  id ← path_id c;
  let hotelID := tenantHotelID c in
  existing ← fails (FindStayByID Pool hotelID id) 404 "reservation not found";
  throw_if (Status existing =s ReservationCancelled) (RespError 409 "cannot check in a cancelled reservation") ;;
  throw_if (bool_decide (is_Some (ActualCheckIn existing))) (RespError 409 "reservation is already checked in") ;;
  now ← time_now;
  WithTenantTx (checkin_tx hotelID id existing now) onerr not_found_or "check-in failed" ;;
  stay ← attempt (FindStayByID Pool hotelID id);
  match stay with inr s => notifyCheckedIn hotelID s | inl _ => mret tt end ;;
  mret (RespOK (BStatus "checked_in")).

(** *** Departure *)

Definition close_folio (ctx : Conn) (hotelID folioID : uuid) : M GoErr unit :=
  now ← time_now;
  exec ctx (fun d => inr (tt, d <| folios ::= update_rows
    (fun f => ueq (fo_id f) folioID && ueq (fo_hotel_id f) hotelID && (fo_status f =s "open"))
    (fun f => f <| fo_status := "closed" |> <| fo_closed_at := Some now |>) |>)).

Definition checkout_tx (hotelID id : uuid) (existing : GuestStay) (folioID : uuid) (now : Time) (ctx : Conn) : M GoErr unit :=
  UpdateStay ctx hotelID id [F_actual_check_out now; F_status ReservationCheckedOut] ;;
  UpdateRoomStatus ctx hotelID (RoomID existing) RoomStatusCleaning ;;
  (if negb (ueq folioID uuid_nil) then close_folio ctx hotelID folioID else mret tt) ;;
  raise_checkout_clean ctx hotelID (RoomID existing) ("Departure — " ++ GuestName existing).

(** The invoice e-mail and the thank-you message. *)
Definition notify_departure {E} (hotelID : uuid) (stay : GuestStay) : M E unit :=
  hotelName ← hotelDisplayName hotelID;
  let ref := if opt_str (ConfirmationNo stay) =s "" then uuid_string (ID stay) else opt_str (ConfirmationNo stay) in
  match GuestEmail stay with
  | Some e => send {| nt_job := "email.invoice"; nt_to := e;
                      nt_fields := [GuestName stay; hotelName; ref; fmt_2f (Payable stay); fmt_date (CheckOutDate stay)] |}
  | None => mret tt
  end ;;
  match GuestPhone stay with
  | Some p => send {| nt_job := "sms.checkout_thanks"; nt_to := p;
                      nt_fields := ["Thank you for staying at " ++ hotelName ++ "! Your checkout is complete."] |}
  | None => mret tt
  end.

Definition CheckOut (c : Ctx) : M (Resp Body) (Resp Body) :=
  guard (requireFrontDesk c) ;;
  id ← path_id c;
  let hotelID := tenantHotelID c in
  existing ← fails (FindStayByID Pool hotelID id) 404 "reservation not found";
  throw_if (bool_decide (ActualCheckIn existing = None)) (RespError 409 "reservation has not been checked in") ;;
  throw_if (bool_decide (is_Some (ActualCheckOut existing))) (RespError 409 "reservation is already checked out") ;;
  bal ← fails (folioOutstanding Pool hotelID id) 500 "failed to read folio balance";
  let '(outstanding, folioID) := bal in
  throw_if (flt 0 outstanding && negb (EqualFold (c_query c "allow_outstanding") "true"))
    (RespError 409 ("folio has an outstanding balance of " ++ fmt_2f outstanding
                    ++ " — settle it, or pass allow_outstanding=true to bill it later")) ;;
  now ← time_now;
  WithTenantTx (checkout_tx hotelID id existing folioID now) onerr not_found_or "check-out failed" ;;
  stay ← attempt (FindStayByID Pool hotelID id);
  match stay with inr s => notify_departure hotelID s | inl _ => mret tt end ;;
  mret (RespOK (BStatus "checked_out")).

(** *** Moving rooms *)

Definition move_tx (hotelID id : uuid) (stay : GuestStay) (newRoomID : uuid) (fields : list StayField) (ctx : Conn)
  : M GoErr unit :=
  UpdateStay ctx hotelID id fields ;;
  if bool_decide (ActualCheckIn stay = None) then mret tt
  else
    UpdateRoomStatus ctx hotelID newRoomID RoomStatusOccupied ;;
    raise_checkout_clean ctx hotelID (RoomID stay) ("Room move — " ++ GuestName stay) ;;
    UpdateRoomStatus ctx hotelID (RoomID stay) RoomStatusCleaning.

(** An unpaid stay is repriced at the new room's rate; the discount is kept. *)
Definition move_fields (hotelID : uuid) (stay : GuestStay) (newRoom : Room) (newRoomID : uuid) (paid : bool)
  : M (Resp Body) (list StayField) :=
  if paid then mret [F_room_id newRoomID]
  else
    taxRate ← tax_rate hotelID;
    let quote := priceStay (R_PricePerNight newRoom) (CheckInDate stay) (CheckOutDate stay) taxRate (DiscountAmount stay) in
    mret [F_room_id newRoomID; F_total_amount (BaseTotal quote); F_tax_amount (QTaxAmount quote)].

Definition MoveRoom (c : Ctx) (body : option moveRoomRequest) : M (Resp Body) (Resp Body) :=
  guard (requireFrontDesk c) ;;
  id ← path_id c;
  req ← of_option body (RespError 400 "invalid request body");
  newRoomID ← of_option (uuid_parse (TrimSpace (mr_RoomID req))) (RespError 400 "room_id is required");
  let hotelID := tenantHotelID c in
  stay ← fails (FindStayByID Pool hotelID id) 404 "reservation not found";
  throw_if (Status stay =s ReservationCancelled) (RespError 409 "cannot move a cancelled reservation") ;;
  throw_if (bool_decide (is_Some (ActualCheckOut stay))) (RespError 409 "the stay has already ended") ;;
  throw_if (ueq (RoomID stay) newRoomID) (RespError 400 "the reservation is already in that room") ;;
  newRoom ← fails (FindRoomByID Pool hotelID newRoomID) 404 "room not found";
  throw_if (negb (Sellable (R_Status newRoom)))
    (RespError 409 ("room " ++ R_RoomNumber newRoom ++ " is " ++ R_Status newRoom ++ " and cannot take a guest")) ;;
  throw_if ((0 <? R_Capacity newRoom) && (R_Capacity newRoom <? Adults stay + Children stay))
    (RespError 400 ("room " ++ R_RoomNumber newRoom ++ " sleeps " ++ fmt_d (R_Capacity newRoom)
                    ++ "; this booking is for " ++ fmt_d (Adults stay + Children stay) ++ " guests")) ;;
  free ← fails (RoomIsFree Pool hotelID newRoomID (CheckInDate stay) (CheckOutDate stay) id)
           500 "failed to check room availability";
  throw_if (negb free)
    (RespError 409 ("room " ++ R_RoomNumber newRoom ++ " is not free for " ++ fmt_date (CheckInDate stay)
                    ++ " to " ++ fmt_date (CheckOutDate stay))) ;;
  paid ← fails (hasCompletedPayment Pool hotelID id) 500 "failed to verify reservation settlement";
  fields ← move_fields hotelID stay newRoom newRoomID paid;
  WithTenantTx (move_tx hotelID id stay newRoomID fields)
    onerr (fun e => if isOverlapViolation e
                    then RespError 409 ("room " ++ R_RoomNumber newRoom ++ " was taken for those dates while the move was being made")
                    else not_found_or "room move failed" e) ;;
  moved ← attempt (FindStayByID Pool hotelID id);
  mret (RespOK (BMoved newRoomID (R_RoomNumber newRoom) (negb paid) (TrimSpace (mr_Reason req))
                  (match moved with inr s => Some s | inl _ => None end))).
End Reservations.

(** ** Running a front-desk request *)

Inductive Request :=
  | RqList (c : Ctx) | RqGet (c : Ctx) | RqCalendar (c : Ctx)
  | RqQuote (c : Ctx) (b : option createReservationRequest)
  | RqCreate (c : Ctx) (b : option createReservationRequest)
  | RqUpdate (c : Ctx) (b : option createReservationRequest)
  | RqCancel (c : Ctx) (b : option cancelReservationRequest)
  | RqCheckIn (c : Ctx) | RqCheckOut (c : Ctx)
  | RqMoveRoom (c : Ctx) (b : option moveRoomRequest).

(** ReservationHandler.Register *)
Definition handle {env : Env} {jwt : Jwt} (h : ReservationHandler) (rq : Request) : M (Resp Body) (Resp Body) :=
  match rq with
  | RqList c => List_ h c | RqGet c => Get h c | RqCalendar c => Calendar h c | RqQuote c b => Quote h c b
  | RqCreate c b => Create h c b | RqUpdate c b => Update h c b | RqCancel c b => Cancel h c b
  | RqCheckIn c => CheckIn h c | RqCheckOut c => CheckOut h c | RqMoveRoom c b => MoveRoom h c b
  end.
Definition request_ctx (rq : Request) : Ctx :=
  match rq with
  | RqList c | RqGet c | RqCalendar c | RqQuote c _ | RqCreate c _ | RqUpdate c _ | RqCancel c _
  | RqCheckIn c | RqCheckOut c | RqMoveRoom c _ => c
  end.
