(* ===== verification/FrontDesk.v ===== *)
(** FrontDesk: what the repository calls and the transactions of the front desk
    leave behind.

    First what the reads find, then the effect of each write as a function on the
    database ([set_stay], [set_room], [with_guest], [with_folio], [with_clean],
    [with_redemption]), then what each transaction makes of them: a booking and
    its settlement, an arrival, a departure, a move.  DeskSpec.v states the
    endpoints' contract in these terms. *)

From S2P Require Import Prelude GoLib Schema Binary64 World Auth Domain RoomRepo Ledger Promo Customers FolioCharge Pricing Settlement Reservations.
From Stdlib Require Import QArith.
Local Open Scope string_scope.
Local Open Scope Z_scope.

(** ** Reads *)

Section Reads.
Context {env : Env}.

(** The computation leaves the committed database alone, and stops early only
    with errors in X. *)
Definition reads {E A} (X : E -> Prop) (m : M E A) : Prop :=
  forall d, ensures m d (fun _ d' => d' = d) (fun e d' => d' = d /\ X e).

Lemma reads_ret {E A} X (a : A) : reads X (mret a : M E A).
Proof. intros d. now apply ens_ret. Qed.
Lemma reads_throw {E A} (X : E -> Prop) (e : E) : X e -> reads X (throw e : M E A).
Proof. intros H d. now apply ens_throw. Qed.
Lemma reads_throw_if {E} b (X : E -> Prop) (e : E) : X e -> reads X (throw_if b e).
Proof. intros H d. apply ens_throw_if. destruct b; auto. Qed.
Lemma reads_of_option {E A} (o : option A) (X : E -> Prop) (e : E) : X e -> reads X (of_option o e).
Proof. intros H d. apply ens_of_option. destruct o; auto. Qed.
Lemma reads_query {A} (X : GoErr -> Prop) (f : DB -> A) : X ErrConn -> reads X (query Pool f).
Proof. intros H d. now apply ens_query. Qed.
Lemma reads_bind {E A B} (X : E -> Prop) (m : M E A) (k : A -> M E B) :
  reads X m -> (forall a, reads X (k a)) -> reads X (m ≫= k).
Proof. intros Hm Hk d. eapply ens_bind; [apply Hm|]. intros a d' ->. apply Hk. Qed.
Lemma reads_on_err {E A} (X : E -> Prop) (m : M GoErr A) (g : GoErr -> E) :
  reads (fun e => X (g e)) m -> reads X (on_err m g).
Proof. intros Hm d. apply ens_on_err, Hm. Qed.
Lemma reads_attempt {E A} (X : E -> Prop) (m : M GoErr A) : reads (fun _ => True) m -> reads X (attempt m).
Proof. intros Hm d. apply ens_attempt. eapply ens_post; [apply Hm | auto | intros e d' [H _]; exact H]. Qed.
Lemma reads_uuid {E} (X : E -> Prop) : reads X (new_uuid : M E uuid).
Proof. intros d. now apply ens_uuid. Qed.
Lemma reads_now {E} (X : E -> Prop) : reads X (time_now : M E Time).
Proof. intros d. now apply ens_now. Qed.
Lemma reads_send {E} (X : E -> Prop) n : reads X (send n : M E unit).
Proof. intros d. now apply ens_send. Qed.
Lemma reads_weaken {E A} (X Y : E -> Prop) (m : M E A) : reads X m -> (forall e, X e -> Y e) -> reads Y m.
Proof. intros H HXY d. eapply ens_post; [apply H | auto | intros e d' [-> He]; auto]. Qed.

(** An error envelope. *)
Definition is_error {B} (r : Resp B) : Prop := exists st msg, r = RespError st msg.
Lemma is_error_intro {B} st msg : is_error (RespError st msg : Resp B).
Proof. now exists st, msg. Qed.
Lemma reads_guard {B} v : reads is_error (guard v : M (Resp B) unit).
Proof. destruct v as [[? ?]|]; [apply reads_throw, is_error_intro | apply reads_ret]. Qed.
End Reads.
#[export] Hint Resolve reads_ret reads_throw reads_throw_if reads_of_option reads_query reads_uuid reads_now
  reads_send reads_guard is_error_intro : keeps.

Ltac reads_step :=
  first
    [ solve [auto with keeps]
    | match goal with
      | |- reads _ (mbind _ _) => apply reads_bind; [|intros ?]
      | |- reads _ (match ?x with _ => _ end) => destruct x
      | |- reads _ (on_err _ _) => apply reads_on_err
      | |- reads _ (attempt _) => apply reads_attempt
      | |- reads _ (let _ := _ in _) => cbv zeta
      end ].
Ltac reads_go := repeat reads_step.

Section ReadOnly.
Context {env : Env} {jwt : Jwt} (h : ReservationHandler).

Lemma reads_FindRoom hid id (X : GoErr -> Prop) : (forall e, X e) -> reads X (FindRoomByID Pool hid id).
Proof. intros HX. unfold FindRoomByID. reads_go. Qed.
Lemma reads_FindStay hid id (X : GoErr -> Prop) : (forall e, X e) -> reads X (FindStayByID Pool hid id).
Proof. intros HX. unfold FindStayByID. reads_go. Qed.
Lemma reads_ListStays hid fs (X : GoErr -> Prop) : (forall e, X e) -> reads X (ListStays Pool hid fs).
Proof. intros HX. unfold ListStays. reads_go. Qed.
Lemma reads_RoomIsFree hid r a b x (X : GoErr -> Prop) : (forall e, X e) -> reads X (RoomIsFree Pool hid r a b x).
Proof. intros HX. unfold RoomIsFree. reads_go. Qed.
Lemma reads_paid hid s (X : GoErr -> Prop) : (forall e, X e) -> reads X (hasCompletedPayment Pool hid s).
Proof. intros HX. unfold hasCompletedPayment. reads_go. Qed.
Lemma reads_resolvePromo hid code b n (X : GoErr -> Prop) : (forall e, X e) -> reads X (resolvePromo Pool hid code b n).
Proof. intros HX. unfold resolvePromo, query_row. reads_go. Qed.

(** These never stop early. *)
Lemma reads_tax_rate {E} hid (X : E -> Prop) : reads X (tax_rate hid).
Proof. unfold tax_rate, HotelGSTRate. reads_go. Qed.
Lemma reads_notifyStay {E} hid s k (X : E -> Prop) : reads X (notifyStay h hid s k).
Proof. unfold notifyStay, hotelDisplayName, HotelName. reads_go. Qed.
Lemma reads_notify_departure {E} hid s (X : E -> Prop) : reads X (notify_departure hid s).
Proof. unfold notify_departure, hotelDisplayName, HotelName. reads_go. Qed.
Lemma reads_list_rows {E} p l (X : E -> Prop) : reads X (list_rows p l).
Proof. induction l as [|s l IH]; cbn; reads_go. Qed.
Lemma reads_booking_promo hid req rm a b t : reads is_error (booking_promo hid req rm a b t).
Proof.
  unfold booking_promo, fails. repeat first [apply reads_resolvePromo; intros; apply is_error_intro | reads_step].
Qed.

(** What a read finds. *)
Lemma ens_FindRoom hid id d :
  ensures (FindRoomByID Pool hid id) d (fun rm d' => d' = d /\ exists row,
      find_row (room_key hid id) (rooms d) = Some row /\ rm = scanRoom row) (fun _ d' => d' = d).
Proof.
  unfold FindRoomByID. eapply ens_bind.
  { apply ens_query with (Q := fun l d' => l = scanRooms (select (room_key hid id) (rooms d)) /\ d' = d); auto. }
  intros l d' [-> ->]. apply ens_of_option. unfold scanRooms, select, find_row.
  induction (rooms d) as [|r t IH]; cbn; [reflexivity|]. destruct (room_key hid id r); cbn; eauto.
Qed.
Lemma ens_RoomIsFree hid r a b x d :
  ensures (RoomIsFree Pool hid r a b x) d (fun f d' => d' = d /\
      f = negb (exists_row (blocks_booking hid r a b x) (guest_stays d))) (fun _ d' => d' = d).
Proof. apply ens_query; auto. Qed.
Lemma ens_FindStay hid id d :
  ensures (FindStayByID Pool hid id) d (fun s d' => d' = d /\ exists row,
      find_row (stay_key hid id) (guest_stays d) = Some row /\ s = scanEnrichedStay d row) (fun _ d' => d' = d).
Proof.
  unfold FindStayByID. eapply ens_bind.
  { apply ens_query with (Q := fun o d' => o = scanEnrichedStay d <$> find_row (stay_key hid id) (guest_stays d) /\ d' = d); auto. }
  intros o d' [-> ->]. apply ens_of_option. destruct (find_row _ _) as [row|]; cbn; eauto.
Qed.
Lemma ens_paid hid s d :
  ensures (hasCompletedPayment Pool hid s) d (fun b d' => d' = d /\ b = exists_row
    (fun p => ueq (pay_hotel_id p) hid && oueq (pay_guest_stay_id p) s && (pay_status p =s "completed")) (payments d))
    (fun _ d' => d' = d).
Proof. apply ens_query; auto. Qed.
Lemma ens_fails {A} (m : M GoErr A) st msg d Q R :
  ensures m d Q (fun _ d' => R (RespError st msg) d') -> ensures (fails m st msg) d Q R.
Proof. intros H. apply ens_on_err. exact H. Qed.
End ReadOnly.
#[export] Hint Resolve reads_tax_rate reads_notifyStay reads_notify_departure reads_FindRoom reads_FindStay
  reads_ListStays reads_RoomIsFree reads_paid reads_booking_promo reads_list_rows : keeps.

(** ** Writes *)

(** Row-by-row effect of setting columns of one stay. *)
Definition set_stay {env : Env} (hid id : uuid) (fields : list StayField) (now : Time) (d : DB) : DB :=
  d <| guest_stays ::= update_rows (stay_key hid id) (set_stay_fields fields now) |>.
(** One room given a status. *)
Definition set_room (hid id : uuid) (status : string) (now : Time) (d : DB) : DB :=
  d <| rooms ::= update_rows (room_key hid id) (fun r => r <| rm_status := status |> <| rm_updated_at := now |>) |>.

(** The CRM guest of a name, an e-mail and a phone: the one on file with the phone,
    else with the e-mail, his blanks filled in; else a new one.  Nobody when there
    is neither phone nor e-mail. *)
Definition known_guest (hid : uuid) (email phone : string) (d : DB) : option GuestRow :=
  match (if phone =s "" then None else find_row (guest_by_phone hid phone) (guests d)) with
  | Some g => Some g
  | None => if email =s "" then None else find_row (guest_by_email hid email) (guests d)
  end.
Definition new_guest (hid id : uuid) (name email phone : string) : GuestRow :=
  {| gu_id := id; gu_hotel_id := hid; gu_full_name := if name =s "" then "Guest " ++ phone else name;
     gu_email := nullif email; gu_phone := nullif phone; gu_id_type := None; gu_id_number := None;
     gu_vip_status := Some "standard"; gu_preferences := Some "{}"; gu_notes := None |}.
Definition with_guest (hid id : uuid) (name0 email0 phone0 : string) (d : DB) : uuid * DB :=
  let name := TrimSpace name0 in let email := TrimSpace email0 in let phone := TrimSpace phone0 in
  if (phone =s "") && (email =s "") then (uuid_nil, d)
  else match known_guest hid email phone d with
       | Some g => (gu_id g, snd (backfill_guest (gu_id g) email phone d))
       | None => (id, d <| guests ::= insert_row (new_guest hid id name email phone) |>)
       end.
(** An identity document noted where none was. *)
Definition with_identity (hid guest : uuid) (idType idNumber : string) (d : DB) : DB :=
  d <| guests ::= update_rows (fun g => ueq (gu_hotel_id g) hid && ueq (gu_id g) guest)
         (fun g => g <| gu_id_type := coalesce_blank (gu_id_type g) (TrimSpace idType) |>
                     <| gu_id_number := coalesce_blank (gu_id_number g) (TrimSpace idNumber) |>) |>.

(** The folio of a booking, opened unless there is one or nobody to open it for. *)
Definition with_folio (hid id booking guest : uuid) (d : DB) : DB :=
  if ueq guest uuid_nil || exists_row (fun f => ueq (fo_hotel_id f) hid && ueq (fo_booking_id f) booking) (folios d) then d
  else d <| folios ::= insert_row {| fo_id := id; fo_hotel_id := hid; fo_booking_id := booking; fo_guest_id := Some guest;
                                     fo_status := "open"; fo_currency := "INR"; fo_closed_at := None |} |>.
Definition without_folio (hid folio : uuid) (now : Time) (d : DB) : DB :=
  if ueq folio uuid_nil then d
  else d <| folios ::= update_rows (fun f => ueq (fo_id f) folio && ueq (fo_hotel_id f) hid && (fo_status f =s "open"))
              (fun f => f <| fo_status := "closed" |> <| fo_closed_at := Some now |>) |>.

(** A departure clean of the room, unless one is still to be done. *)
Definition with_clean (hid id room : uuid) (notes : string) (now : Time) (d : DB) : DB :=
  if exists_row (unfinished_clean hid room) (housekeeping d) then d
  else d <| housekeeping ::= insert_row
         {| hk_id := id; hk_hotel_id := hid; hk_room_id := room; hk_assigned_to := None; hk_task_type := "checkout_clean";
            hk_priority := "normal"; hk_status := "pending"; hk_notes := Some notes; hk_started_at := None;
            hk_completed_at := None; hk_inspected_by := None; hk_inspected_at := None; hk_scheduled_for := None;
            hk_guest_stay_id := None; hk_created_at := now; hk_updated_at := now |} |>.

(** One use of a promotion. *)
Definition with_redemption (hid promo : uuid) (d : DB) : DB :=
  if ueq promo uuid_nil then d
  else d <| promotions ::= update_rows (redeemable hid promo) (fun p => p <| pr_used_count := pr_used_count p + 1 |>) |>.

Section Writes.
Context {env : Env}.

Lemma runs_clock {E A} c (k : Time -> M E A) d Q R :
  (forall t, inert c (k t)) -> (forall n, runs c (k (clock n)) d Q R) -> runs c (t ← time_now; k t) d Q R.
Proof.
  intros Hi Hk. apply (runs_bind c _ _ d (fun t d' => d' = d /\ exists n, t = clock n)); [|exact Hi|].
  - intros w Hw. left. exists d. split; [destruct c; exact Hw | eauto].
  - intros t d' [-> [n ->]]. apply Hk.
Qed.

Lemma UpdateStay_runs c hid id fields d :
  runs c (UpdateStay c hid id fields) d (fun _ d' => exists now row,
      find_row (stay_key hid id) (guest_stays d) = Some row /\ d' = set_stay hid id fields (clock now) d) (fun _ => True).
Proof.
  unfold UpdateStay. apply runs_clock; [intros; inert_go|]. intros now.
  apply runs_then_exec; [intros; inert_go|]. unfold update_stay_row.
  destruct (find_row (stay_key hid id) (guest_stays d)) as [row|] eqn:E; [|now apply runs_throw].
  destruct (stay_violation _ _); [exact I|]. apply runs_ret. exists now, row. auto.
Qed.
Lemma UpdateStay_ens hid id fields d :
  ensures (UpdateStay Pool hid id fields) d (fun _ d' => exists now row,
      find_row (stay_key hid id) (guest_stays d) = Some row /\ d' = set_stay hid id fields (clock now) d) (fun _ d' => d' = d).
Proof.
  unfold UpdateStay. eapply ens_bind; [apply ens_now with (Q := fun t d' => d' = d /\ exists n, t = clock n); eauto|]. intros t d0 [-> [now ->]].
  eapply ens_bind; [apply ens_exec with (Q := fun n d' => (n = 0%nat /\ d' = d) \/ (n = 1%nat /\ exists row,
      find_row (stay_key hid id) (guest_stays d) = Some row /\ d' = set_stay hid id fields (clock now) d)); [reflexivity|]|].
  - unfold update_stay_row. destruct (find_row (stay_key hid id) (guest_stays d)) as [row|]; [|auto].
    destruct (stay_violation _ _); [reflexivity|]. right. eauto.
  - intros n d0 [[-> ->]|[-> (row & Hr & ->)]]; cbn; [now apply ens_throw | apply ens_ret; eauto].
Qed.
Lemma UpdateRoomStatus_runs c hid id st d :
  runs c (UpdateRoomStatus c hid id st) d (fun _ d' => exists now, d' = set_room hid id st (clock now) d) (fun _ => True).
Proof.
  unfold UpdateRoomStatus. apply runs_clock; [intros; inert_go|]. intros now.
  apply runs_then_exec_n; [intros; inert_go|]. cbn [fst snd]. unfold throw_if.
  destruct (Nat.eqb _ 0); [now apply runs_throw | apply runs_ret; now exists now].
Qed.

(** One round of the lookup: the guest found, and his blanks filled in. *)
Lemma lookup_guest_runs c p arg email phone d :
  runs c (lookup_guest c p arg email phone) d (fun o d' => match (if arg =s "" then None else find_row p (guests d)) with
      | Some g => o = Some (gu_id g) /\ d' = snd (backfill_guest (gu_id g) email phone d)
      | None => o = None /\ d' = d end) (fun _ => True).
Proof.
  unfold lookup_guest. destruct (arg =s ""); [now apply runs_ret|].
  apply runs_then_attempt_row; [intros; inert_go|]. destruct (find_row p (guests d)) as [g|]; cbn [fmap option_fmap option_map].
  - apply runs_then_attempt_exec; [intros; inert_go|]. now apply runs_ret.
  - now apply runs_ret.
Qed.
Lemma with_guest_runs c hid n e p d :
  runs c (EnsureGuest c hid n e p) d (fun g d' => exists k, (g, d') = with_guest hid (uuid_new k) n e p d) (fun _ => True).
Proof.
  unfold EnsureGuest, with_guest, known_guest. destruct (_ && _); [apply runs_ret; now exists 0%nat|].
  eapply runs_bind; [apply lookup_guest_runs | intros; unfold lookup_guest; inert_go|].
  intros o d1 H1. destruct (if _ =s "" then None else find_row (guest_by_phone _ _) _) as [g|]; destruct H1 as [-> ->].
  { apply runs_ret. now exists 0%nat. }
  eapply runs_bind; [apply lookup_guest_runs | intros; inert_go|].
  intros o d1 H1. destruct (if _ =s "" then None else find_row (guest_by_email _ _) _) as [g|]; destruct H1 as [-> ->].
  { apply runs_ret. now exists 0%nat. }
  apply runs_uuid; [intros; inert_go|]. intros k. apply runs_on_err, runs_exec. now exists k.
Qed.
Lemma with_guest_frame hid id n e p d : exists g, snd (with_guest hid id n e p d) = d <| guests := g |>.
Proof.
  unfold with_guest. destruct (_ && _); [exists (guests d); now destruct d|]. destruct (known_guest _ _ _ _); eexists; reflexivity.
Qed.
Lemma EnsureGuest_runs c hid n e p d :
  runs c (EnsureGuest c hid n e p) d (fun _ d' => exists g, d' = d <| guests := g |>) (fun _ => True).
Proof.
  eapply runs_post; [apply with_guest_runs|]. intros g d' [k E]. destruct (with_guest_frame hid (uuid_new k) n e p d) as [gs Eg].
  rewrite <- E in Eg. now exists gs.
Qed.
Lemma SetGuestIdentity_runs c hid g t n d :
  runs c (SetGuestIdentity c hid g t n) d (fun _ d' => d' = with_identity hid g t n d) (fun _ => True).
Proof. now apply runs_exec. Qed.
Lemma with_folio_runs c hid b g d :
  runs c (EnsureFolioForBooking c hid b g "INR") d (fun _ d' => exists k, d' = with_folio hid (uuid_new k) b g d) (fun _ => True).
Proof.
  unfold EnsureFolioForBooking, with_folio. destruct (ueq g uuid_nil); [apply runs_ret; now exists 0%nat|]. cbn [orb].
  apply runs_then_attempt_row; [intros; inert_go|].
  destruct (find_row (fun f => ueq (fo_hotel_id f) hid && ueq (fo_booking_id f) b) (folios d)) as [f|] eqn:Ef; cbn [fmap option_fmap option_map].
  - apply runs_ret. exists 0%nat. apply find_row_some in Ef as [Hin Hk]. now rewrite (proj2 (exists_row_true _ _) (ex_intro _ f (conj Hin Hk))).
  - apply runs_uuid; [intros; inert_go|]. intros k.
    rewrite (proj2 (exists_row_false _ _) (fun r Hr => find_row_none _ _ r Ef Hr)).
    eapply runs_bind; [apply runs_on_err, runs_exec with (Q := fun _ d' => exists k, d' = d <| folios ::= insert_row {| fo_id := uuid_new k; fo_hotel_id := hid; fo_booking_id := b; fo_guest_id := Some g;
      fo_status := "open"; fo_currency := "INR"; fo_closed_at := None |} |>) | intros; inert_go | intros; now apply runs_ret].
    destruct (insert_folio _ d) as [e|[[] d']] eqn:E; [exact I|]. apply insert_folio_inr in E as ->. now exists k.
Qed.
Lemma CreateStay_runs c hid s d :
  runs c (CreateStay c hid s) d (fun st d' => exists n now, let row := stay_row (uuid_new n) hid (clock now) s in
      stay_violation row (guest_stays d) = None /\ d' = d <| guest_stays ::= insert_row row |>
      /\ st = scanSingleStay row) (fun _ => True).
Proof.
  unfold CreateStay. apply runs_uuid; [intros; inert_go|]. intros n. apply runs_clock; [intros; inert_go|]. intros t.
  apply runs_then_exec; [intros; inert_go|]. unfold insert_stay. destruct (stay_violation _ _) eqn:E; [exact I|].
  apply runs_ret. exists n, t. auto.
Qed.
Lemma redeemPromo_runs c hid id d :
  runs c (redeemPromo c hid id) d (fun _ d' => d' = with_redemption hid id d
      /\ (id <> uuid_nil -> exists_row (redeemable hid id) (promotions d) = true)) (fun _ => True).
Proof.
  unfold redeemPromo, with_redemption. destruct (ueq id uuid_nil) eqn:E.
  { apply runs_ret. split; [reflexivity|]. intros Hne. apply N.eqb_eq in E. contradiction. }
  apply runs_then_exec_n; [intros; inert_go|]. unfold throw_if. cbn [fst snd].
  destruct (Nat.eqb_spec (rows_affected (redeemable hid id) (promotions d)) 0) as [|Hn]; [now apply runs_throw|].
  apply runs_ret. split; [reflexivity|]. intros _. now apply exists_row_true, rows_affected_pos.
Qed.
(** A redemption keeps every promotion within its limit. *)
Lemma with_redemption_ok hid id d : promos_ok d -> promos_ok (with_redemption hid id d).
Proof.
  intros Hd. unfold with_redemption. destruct (ueq id uuid_nil); [exact Hd|]. intros p Hp.
  cbn in Hp. apply in_update_rows in Hp as (p0 & Hp0 & ->). specialize (Hd p0 Hp0).
  destruct (redeemable hid id p0) eqn:E; [|exact Hd]. unfold redeemable in E. unfold within_limit in *; cbn.
  destruct (pr_usage_limit p0) as [l|]; [|exact I].
  apply andb_true_iff in E as [_ [El|El]%orb_true_iff]; lia.
Qed.
Lemma with_clean_runs c hid r notes d :
  runs c (raise_checkout_clean c hid r notes) d (fun _ d' => exists k now, d' = with_clean hid (uuid_new k) r notes (clock now) d) (fun _ => True).
Proof.
  unfold raise_checkout_clean. apply runs_uuid; [intros; inert_go|]. intros n.
  apply runs_clock; [intros; inert_go|]. intros now. apply runs_exec. now exists n, now.
Qed.
Lemma without_folio_runs c hid f d :
  runs c (if negb (ueq f uuid_nil) then close_folio c hid f else mret tt) d (fun _ d' => exists now, d' = without_folio hid f (clock now) d) (fun _ => True).
Proof.
  unfold without_folio. destruct (ueq f uuid_nil); cbn [negb]; [apply runs_ret; now exists 0%nat|].
  unfold close_folio. apply runs_clock; [intros; inert_go|]. intros t. apply runs_exec. now exists t.
Qed.
End Writes.

(** ** Transaction bodies *)

Section TxLocal.
Context {env : Env} {jwt : Jwt}.

Lemma local_postJournal h desc ref ls : tx_local (postJournal Tx h desc ref ls).
Proof. unfold postJournal, ensureChartOfAccounts, numbered, nextVoucherNo, insert_entry, post_line, insert_line. keeps_go. Qed.
Lemma local_ensureCustomer h det : tx_local (ensureAccountingCustomer Tx h det).
Proof. unfold ensureAccountingCustomer, create_customer, nextCustomerCode. keeps_go. Qed.
Lemma local_settle h s pay q : tx_local (settleReservation Tx h s pay q).
Proof.
  intros d0. pose proof (local_postJournal h) as Hj. pose proof (local_ensureCustomer h) as Hc.
  unfold settleReservation, alreadyPosted, settle_payment, settle_invoice.
  repeat (first [apply Hj | apply Hc | keeps_step]).
Qed.
Lemma local_EnsureGuest h n e p : tx_local (EnsureGuest Tx h n e p).
Proof. unfold EnsureGuest, lookup_guest. keeps_go. Qed.
Lemma local_create_tx hid req s rm pr q : tx_local (create_tx hid req s rm pr q Tx).
Proof.
  intros d0. pose proof (local_settle hid) as Hs. pose proof (local_EnsureGuest hid) as Hg.
  unfold create_tx, SetGuestIdentity, CreateStay, redeemPromo.
  repeat (first [apply Hs | apply Hg | keeps_step]).
Qed.
Lemma local_checkin_tx hid id s t : tx_local (checkin_tx hid id s t Tx).
Proof.
  intros d0. pose proof (local_EnsureGuest hid) as Hg.
  unfold checkin_tx, UpdateStay, UpdateRoomStatus, EnsureFolioForBooking. repeat (first [apply Hg | keeps_step]).
Qed.
Lemma local_checkout_tx hid id s f t : tx_local (checkout_tx hid id s f t Tx).
Proof.
  intros d0. unfold checkout_tx, UpdateStay, UpdateRoomStatus, close_folio, raise_checkout_clean. keeps_go.
Qed.
Lemma local_move_tx hid id s r fs : tx_local (move_tx hid id s r fs Tx).
Proof.
  intros d0. unfold move_tx, UpdateStay, UpdateRoomStatus, raise_checkout_clean. keeps_go.
Qed.
End TxLocal.

(** What each transaction leaves. *)
Section After.
Context {env : Env}.

(** A booking, before it is settled: the guest, his identity, the stay and the use
    of the promotion. *)
Definition booked (hid : uuid) (req : createReservationRequest) (promo guest : uuid) (row : StayRow) (d : DB) : DB :=
  let '(g, d1) := with_guest hid guest (q_GuestName req) (q_GuestEmail req) (q_GuestPhone req) d in
  let d2 := if negb (ueq g uuid_nil) && ((q_IDType req !=s "") || (q_IDNumber req !=s ""))
            then with_identity hid g (q_IDType req) (q_IDNumber req) d1 else d1 in
  with_redemption hid promo (d2 <| guest_stays ::= insert_row row |>).
(** Its settlement, when a payment comes with it: the customers, payments, invoices
    and ledger, to the paisa for a price that adds up. *)
Definition settlement_of (hid : uuid) (stay : GuestStay) (payment : option reservationPaymentRequest) (quote : stayQuote)
  (d d' : DB) (out : settlementResult) : Prop :=
  match payment with
  | None => d' = d /\ out = no_settlement
  | Some pay =>
      settles_only d d' /\
      forall (base off tax : Z), EnvLaws env /\ quote_ok quote base off tax /\ vouchers_ok d /\ customers_ok d ->
        if exists_row (has_reference hid ("FOLIO " ++ opt_str (ConfirmationNo stay))) (journal_entries d)
        then d' = d /\ st_PaymentID out = uuid_nil
        else settled d d' hid stay pay (base - off + tax) out
  end.
Definition after_create (hid : uuid) (req : createReservationRequest) (stay : GuestStay) (room : Room) (promo : uuid) (quote : stayQuote)
  (d d' : DB) (created : GuestStay) (out : settlementResult) : Prop :=
  exists n now k, let row := stay_row (uuid_new n) hid (clock now) stay in
    stay_violation row (guest_stays d) = None
    /\ (promo <> uuid_nil -> exists_row (redeemable hid promo) (promotions d) = true)
    /\ created = (scanSingleStay row) <| SRoom := Some {| rs_RoomNumber := R_RoomNumber room; rs_RoomType := R_RoomType room |} |>
    /\ settlement_of hid created (q_Payment req) quote (booked hid req promo (uuid_new k) row d) d' out.

(** Arrival: the stay in house, its room occupied, its guest and his folio. *)
Definition after_checkin (hid id : uuid) (s : GuestStay) (now : Time) (d d' : DB) : Prop :=
  exists t1 t2 k1 k2,
    let d1 := set_room hid (RoomID s) RoomStatusOccupied (clock t2)
                (set_stay hid id [F_actual_check_in now; F_status ReservationInHouse] (clock t1) d) in
    let '(g, d2) := with_guest hid (uuid_new k1) (GuestName s) (opt_str (GuestEmail s)) (opt_str (GuestPhone s)) d1 in
    d' = with_folio hid (uuid_new k2) id g d2.
(** Departure: the stay over, its room to be cleaned, its folio closed. *)
Definition after_checkout (hid id : uuid) (s : GuestStay) (now : Time) (folioID : uuid) (d d' : DB) : Prop :=
  exists t1 t2 t3 t4 k,
    d' = with_clean hid (uuid_new k) (RoomID s) ("Departure — " ++ GuestName s) (clock t4)
           (without_folio hid folioID (clock t3)
             (set_room hid (RoomID s) RoomStatusCleaning (clock t2)
               (set_stay hid id [F_actual_check_out now; F_status ReservationCheckedOut] (clock t1) d))).
(** A move: the columns, and for a guest in house the new room occupied and the old
    one to be cleaned. *)
Definition after_move (hid id : uuid) (s : GuestStay) (newRoomID : uuid) (fields : list StayField) (d d' : DB) : Prop :=
  exists t1, let d1 := set_stay hid id fields (clock t1) d in
    match ActualCheckIn s with
    | None => d' = d1
    | Some _ => exists t2 t3 t4 k,
        d' = set_room hid (RoomID s) RoomStatusCleaning (clock t4)
               (with_clean hid (uuid_new k) (RoomID s) ("Room move — " ++ GuestName s) (clock t3)
                 (set_room hid newRoomID RoomStatusOccupied (clock t2) d1))
    end.
End After.

Section Bodies.
Context {env : Env} {jwt : Jwt}.

Lemma checkin_tx_runs hid id s now d :
  runs Tx (checkin_tx hid id s now Tx) d (fun _ d' => after_checkin hid id s now d d') (fun _ => True).
Proof.
  assert (Hi : forall n e p, inert Tx (EnsureGuest Tx hid n e p)) by (intros; unfold EnsureGuest, lookup_guest; inert_go).
  unfold checkin_tx. eapply runs_bind; [apply UpdateStay_runs | intros; unfold UpdateRoomStatus, EnsureFolioForBooking; repeat (first [apply Hi | inert_step])|].
  intros _ d1 (t1 & row & Hr & ->). eapply runs_bind; [apply UpdateRoomStatus_runs | intros; unfold EnsureFolioForBooking; repeat (first [apply Hi | inert_step])|].
  intros _ d2 [t2 ->]. eapply runs_bind; [apply with_guest_runs | intros; unfold EnsureFolioForBooking; inert_go|].
  intros g d3 [k1 Eg]. destruct (negb (ueq g uuid_nil)) eqn:En.
  - eapply runs_bind; [apply with_folio_runs | intros; inert_go|]. intros _ d4 [k2 ->]. apply runs_ret.
    exists t1, t2, k1, k2. cbv zeta. now rewrite <- Eg.
  - apply runs_ret. exists t1, t2, k1, 0%nat. cbv zeta. rewrite <- Eg. unfold with_folio. apply negb_false_iff in En. now rewrite En.
Qed.

Lemma checkout_tx_runs hid id s f now d :
  runs Tx (checkout_tx hid id s f now Tx) d (fun _ d' => after_checkout hid id s now f d d') (fun _ => True).
Proof.
  unfold checkout_tx. eapply runs_bind; [apply UpdateStay_runs | intros; unfold UpdateRoomStatus, close_folio, raise_checkout_clean; inert_go|].
  intros _ d1 (t1 & row & Hr & ->). eapply runs_bind; [apply UpdateRoomStatus_runs | intros; unfold close_folio, raise_checkout_clean; inert_go|].
  intros _ d2 [t2 ->]. eapply runs_bind; [apply without_folio_runs | intros; unfold raise_checkout_clean; inert_go|].
  intros _ d3 [t3 ->]. eapply runs_post; [apply with_clean_runs|]. intros _ d4 (k & t4 & ->). now exists t1, t2, t3, t4, k.
Qed.

Lemma move_tx_runs hid id s r0 fs d :
  runs Tx (move_tx hid id s r0 fs Tx) d (fun _ d' => after_move hid id s r0 fs d d') (fun _ => True).
Proof.
  unfold move_tx, after_move. eapply runs_bind; [apply UpdateStay_runs | intros; unfold UpdateRoomStatus, raise_checkout_clean; inert_go|].
  intros _ d1 (t1 & row & Hr & ->). destruct (bool_decide_reflect (ActualCheckIn s = None)) as [->|Hin].
  - apply runs_ret. now exists t1.
  - eapply runs_bind; [apply UpdateRoomStatus_runs | intros; unfold UpdateRoomStatus, raise_checkout_clean; inert_go|].
    intros _ d2 [t2 ->]. eapply runs_bind; [apply with_clean_runs | intros; unfold UpdateRoomStatus; inert_go|].
    intros _ d3 (k & t3 & ->). eapply runs_post; [apply UpdateRoomStatus_runs|]. intros _ d4 [t4 ->].
    exists t1. destruct (ActualCheckIn s); [now exists t2, t3, t4, k | contradiction].
Qed.
End Bodies.

(** *** The booking transaction *)

Section Booking.
Context {env : Env} {jwt : Jwt}.

Lemma postJournal_frame c h desc ref ls d :
  runs c (postJournal c h desc ref ls) d (fun _ d' => ledger_only d d') (fun _ => True).
Proof.
  unfold postJournal. eapply runs_bind; [apply ensureChart_runs | intros; unfold numbered, nextVoucherNo, insert_entry, post_line, insert_line; inert_go|].
  intros accs d1 [_ [a ->]].
  apply (runs_bind c _ _ _ (fun _ d' => exists v, d' = d <| accounts := a |> <| voucher_counters := v |>)).
  { unfold numbered. eapply runs_bind; [apply (runs_attempt_ok c _ _ (fun _ d' => exists v, d' = d <| accounts := a |> <| voucher_counters := v |>)) | intros; inert_go |].
    - unfold nextVoucherNo. apply runs_then_exec; [intros; inert_go|]. unfold bump_counter.
      destruct (find_row _ _); apply runs_ret; eexists; reflexivity.
    - intros r d' (x & -> & H). apply runs_ret. exact H. }
  { intros; unfold insert_entry, post_line, insert_line; inert_go. }
  intros v d2 [vc ->]. apply runs_uuid; [intros; unfold insert_entry, post_line, insert_line; inert_go|]. intros n.
  apply runs_today; [intros; unfold insert_entry, post_line, insert_line; inert_go|]. intros now.
  apply (runs_bind c _ _ _ (fun _ d' => exists e, d' = d <| accounts := a |> <| voucher_counters := vc |> <| journal_entries := e |>)).
  { apply runs_exec. destruct (exists_row _ _); [exact I | eexists; reflexivity]. }
  { intros; unfold post_line, insert_line; inert_go. }
  intros _ d3 [e ->]. eapply runs_bind; [apply post_lines_runs | intros; inert_go|].
  intros _ d4 (nl & -> & _). apply runs_ret. exists a, vc, e. eexists. reflexivity.
Qed.

Lemma settle_frame c h s pay q d :
  runs c (ensureAccountingCustomer c h (customer_details s)) d (fun _ d' => customers_only d d') (fun _ => True) ->
  runs c (settleReservation c h s pay q) d (fun _ d' => settles_only d d') (fun _ => True).
Proof.
  intros Hcust. assert (Hself : settles_only d d).
  { exists (customers d), (payments d), (invoices d), (invoice_lines d), (accounts d), (voucher_counters d),
      (journal_entries d), (journal_lines d). destruct d; reflexivity. }
  unfold settleReservation. eapply runs_bind; [apply alreadyPosted_runs | intros; inert_go|].
  intros b d0 [-> _]. destruct b; [now apply runs_ret|].
  eapply runs_bind; [apply runs_on_err, Hcust | intros; inert_go|]. intros cust d1 [cu ->].
  apply runs_then_throw_if; [inert_go|]. destruct (_ && _); [exact I|].
  eapply runs_bind; [apply settle_payment_runs | intros; inert_go|]. intros pid d2 (p & -> & _).
  eapply runs_bind; [apply settle_invoice_runs | intros; inert_go|]. intros inv d3 (i & il & -> & _).
  eapply runs_bind; [apply runs_on_err, postJournal_frame | intros; inert_go|].
  intros j d4 (a & v & e & l & ->). apply runs_ret. do 8 eexists. reflexivity.
Qed.

Lemma customers_frame c h det d :
  runs c (ensureAccountingCustomer c h det) d (fun _ d' => customers_only d d') (fun _ => True).
Proof.
  assert (Hself : customers_only d d) by apply customers_only_refl.
  assert (Hcreate : forall dd, runs c (create_customer c h dd) d (fun _ d' => customers_only d d') (fun _ => True)).
  { intros dd. unfold create_customer, nextCustomerCode.
    apply (runs_bind c _ _ d (fun _ d' => d' = d)); [|intros; inert_go|].
    - apply runs_then_exec; [intros; inert_go|]. unfold max_cust_number. destruct (existsb _ _); [exact I | now apply runs_ret].
    - intros cd d' ->. apply runs_uuid; [intros; inert_go|]. intros n. apply runs_exec. unfold insert_customer.
      destruct (find_row _ _); [exact Hself|]. destruct (exists_row _ _); [exact I | eexists; reflexivity]. }
  unfold ensureAccountingCustomer. destruct (negb _); [now apply runs_ret|].
  destruct (_ !=s ""); [|apply Hcreate].
  apply runs_then_attempt_row; [intros [|]; unfold create_customer, nextCustomerCode; inert_go|].
  destruct (find_row _ _); cbn; [|apply Hcreate]. apply runs_then_attempt_exec; [intros; inert_go|].
  apply runs_ret. eexists. reflexivity.
Qed.

Lemma settles_only_refl d : settles_only d d.
Proof.
  exists (customers d), (payments d), (invoices d), (invoice_lines d), (accounts d), (voucher_counters d),
    (journal_entries d), (journal_lines d). destruct d; reflexivity.
Qed.

(** Two things a transaction leaves, the second under conditions. *)
Lemma runs_also {E A X} (m : M E A) d Q0 (H : X -> Prop) Q (R : E -> Prop) :
  runs Tx m d Q0 R -> (forall x, H x -> runs Tx m d (Q x) R) -> runs Tx m d (fun a d' => Q0 a d' /\ forall x, H x -> Q x a d') R.
Proof.
  intros H0 Hx w Hw. specialize (H0 w Hw). pose proof (fun x h => Hx x h w Hw) as H1. destruct (m w) as [[e|a] w']; [exact H0|].
  destruct H0 as [(d' & Hd & HQ)|Hf]; [|now right]. left. exists d'. split; [exact Hd|]. split; [exact HQ|].
  intros x h. destruct (H1 x h) as [(d2 & Hd2 & HQ2)|[_ Hs]]; unfold sees, spoiled in *; [|congruence].
  assert (d2 = d') by congruence. now subst d2.
Qed.
Lemma settlement_runs h stay pay quote d :
  runs Tx (match pay with Some p => settleReservation Tx h stay p quote | None => mret no_settlement end) d
    (fun out d' => settlement_of h stay pay quote d d' out) (fun _ => True).
Proof.
  destruct pay as [p|]; [|now apply runs_ret]. eapply runs_post.
  - apply (runs_also _ d (fun _ d' => settles_only d d') (fun x : Z * Z * Z => let '(base, off, tax) := x in EnvLaws env /\ quote_ok quote base off tax /\ vouchers_ok d /\ customers_ok d)
      (fun x out d' => let '(base, off, tax) := x in
         if exists_row (has_reference h ("FOLIO " ++ opt_str (ConfirmationNo stay))) (journal_entries d)
         then d' = d /\ st_PaymentID out = uuid_nil else settled d d' h stay p (base - off + tax) out)).
    + apply settle_frame, customers_frame.
    + intros [[base off] tax] (laws & Hq & Hv & Hc). exact (settleReservation_runs Tx h stay p quote base off tax d Hq Hv Hc).
  - intros out d' [Hf Hs]. split; [exact Hf|]. intros base off tax Hx. exact (Hs (base, off, tax) Hx).
Qed.

Lemma create_tx_runs hid req s rm pr q d :
  runs Tx (create_tx hid req s rm pr q Tx) d
    (fun r d' => after_create hid req s rm (pm_ID pr) q d d' (fst r) (snd r)) (fun _ => True).
Proof.
  assert (Hs : inert Tx (CreateStay Tx hid s)) by (unfold CreateStay; inert_go).
  assert (Hr : forall p, inert Tx (redeemPromo Tx hid p)) by (intros; unfold redeemPromo; inert_go).
  unfold create_tx, after_create, booked. eapply runs_bind; [apply with_guest_runs | |].
  { intros; unfold SetGuestIdentity. repeat (first [apply Hs | apply Hr | inert_step]). }
  intros g d1 [k Eg]. destruct (with_guest_frame hid (uuid_new k) (q_GuestName req) (q_GuestEmail req) (q_GuestPhone req) d) as [gs Egs].
  rewrite <- Eg in Egs. cbn [snd] in Egs. subst d1.
  set (d2 := if negb (ueq g uuid_nil) && ((q_IDType req !=s "") || (q_IDNumber req !=s ""))
             then with_identity hid g (q_IDType req) (q_IDNumber req) (d <| guests := gs |>) else d <| guests := gs |>).
  assert (Eframe : guest_stays d2 = guest_stays d /\ promotions d2 = promotions d) by (unfold d2; destruct (_ && _); split; reflexivity).
  eapply runs_bind with (Q1 := fun _ d' => d' = d2).
  { unfold d2. destruct (_ && _); [apply SetGuestIdentity_runs | now apply runs_ret]. }
  { intros. repeat (first [apply Hs | apply Hr | inert_step]). }
  intros _ d' ->. eapply runs_bind; [apply CreateStay_runs | |].
  { intros. repeat (first [apply Hr | inert_step]). }
  intros created d3 (n & now & Hv & -> & ->). rewrite (proj1 Eframe) in Hv.
  eapply runs_bind with (Q1 := fun _ d' => d' = with_redemption hid (pm_ID pr) (d2 <| guest_stays ::= insert_row (stay_row (uuid_new n) hid (clock now) s) |>)
    /\ (pm_ID pr <> uuid_nil -> exists_row (redeemable hid (pm_ID pr)) (promotions d) = true)).
  { destruct (negb (ueq (pm_ID pr) uuid_nil)) eqn:E.
    - eapply runs_post; [apply redeemPromo_runs|]. intros _ d' [-> Hp]. split; [reflexivity|]. cbn in Hp. now rewrite (proj2 Eframe) in Hp.
    - apply runs_ret. apply negb_false_iff in E. unfold with_redemption. rewrite E. split; [reflexivity|]. apply N.eqb_eq in E. contradiction. }
  { intros. inert_go. }
  intros _ d4 [-> Hp]. set (st := _ <| SRoom := _ |>). pose proof (settlement_runs hid st (q_Payment req) q
    (with_redemption hid (pm_ID pr) (d2 <| guest_stays ::= insert_row (stay_row (uuid_new n) hid (clock now) s) |>))) as Hset.
  destruct (q_Payment req) as [pay|]; [eapply runs_bind; [exact Hset | intros; inert_go|]; intros out d5 Hout|];
    apply runs_ret; exists n, now, k; cbv zeta; rewrite <- Eg; fold d2; (split; [exact Hv|]); (split; [exact Hp|]); (split; [reflexivity|]);
    [exact Hout | split; reflexivity].
Qed.
End Booking.
