(* ===== verification/DeskSpec.v ===== *)
(** DeskSpec: the front desk's contract and its refinement.

    [serves L rq d r d'] is the specification: what a request that is not refused
    reads in the database d, the answer it gives, and exactly what it leaves.  The
    endpoints of Reservations.v refine it under every pattern of driver failures;
    whatever else happens, the request is refused with an error and the database
    is as it was.  L says that a statement of the request was lost: only then may
    a read whose error the code drops (the tax rate, the room of an amendment or a
    cancellation, the stay read back) have come to nothing.  The messages sent to
    guests are not part of the contract. *)

From S2P Require Import Prelude GoLib Schema Binary64 World Statements Auth Domain RoomRepo Ledger Promo Customers FolioCharge Pricing Settlement Reservations FrontDesk.
From Stdlib Require Import QArith.
Local Open Scope string_scope.
Local Open Scope Z_scope.

(** ** The contract *)

(** The request is turned away with an error, and nothing is written. *)
Definition refused (d : DB) (r : Resp Body) (d' : DB) : Prop := d' = d /\ exists st msg, r = RespError st msg.

Definition paid_for (hid id : uuid) (d : DB) : bool :=
  exists_row (fun p => ueq (pay_hotel_id p) hid && oueq (pay_guest_stay_id p) id && (pay_status p =s "completed")) (payments d).
Definition free_for (hid room : uuid) (ci co : Time) (except : uuid) (d : DB) : bool :=
  negb (exists_row (blocks_booking hid room ci co except) (guest_stays d)).

Section Contract.
Context {env : Env}.

(** *** What is read *)

(** The stays of a hotel, the latest arrival first. *)
Definition hotel_stays (hid : uuid) (d : DB) : list GuestStay :=
  map (scanEnrichedStay d) (order_by (fun a b => t_ns (gs_check_in_date b) <=? t_ns (gs_check_in_date a))
    (select (fun s => ueq (gs_hotel_id s) hid) (guest_stays d))).
(** The rows of a list that pass its filters, the n-th read of the clock on. *)
Fixpoint listed_at (passes : Time -> GuestStay -> bool) (n : nat) (l : list GuestStay) : list ListedStay :=
  match l with
  | [] => []
  | s :: l' => if passes (clock n) s then listed (clock n) s :: listed_at passes (S n) l' else listed_at passes (S n) l'
  end.
(** The hotel's rate of tax; without tax for a hotel not on record. *)
Definition rate_on_file (hid : uuid) (d : DB) : Q :=
  match find_row (fun h => ueq (ho_id h) hid) (hotels d) with Some h => num_dec (default 0 (ho_gst_rate h)) | None => 0%Q end.
Definition rate_read (L : Prop) (hid : uuid) (d : DB) (tax : Q) : Prop := tax = rate_on_file hid d \/ L /\ tax = 0%Q.
Definition stay_on_file (hid id : uuid) (d : DB) : option GuestStay :=
  scanEnrichedStay d <$> find_row (stay_key hid id) (guest_stays d).
Definition stay_read (L : Prop) (hid id : uuid) (d : DB) (s : option GuestStay) : Prop := s = stay_on_file hid id d \/ L /\ s = None.

(** The promotion a booking names: the active one on file with its code, in date,
    with uses left and its minimum stay and amount reached. *)
Definition promo_read (hid : uuid) (req : createReservationRequest) (base : Q) (nights : Z) (d : DB) (promo : promoResult) : Prop :=
  if TrimSpace (q_PromoCode req) =s "" then promo = no_promo
  else exists p n1 n2, find_row (promo_match hid (TrimSpace (q_PromoCode req))) (promotions d) = Some p
    /\ pr_active p = true /\ Before (clock n1) (pr_valid_from p) = false /\ After (clock n2) (pr_valid_to p) = false
    /\ (0 <? default 0 (pr_usage_limit p)) && (default 0 (pr_usage_limit p) <=? pr_used_count p) = false
    /\ (0 <? default 0 (pr_min_nights p)) && (0 <=? nights) && (nights <? default 0 (pr_min_nights p)) = false
    /\ flt 0 (num_dec (default 0 (pr_min_amount p))) && flt base (num_dec (default 0 (pr_min_amount p))) = false
    /\ promo = {| pm_ID := pr_id p; pm_Valid := true; pm_Code := TrimSpace (q_PromoCode req); pm_Name := pr_name p;
                  pm_Discount := discount_of p base; pm_Message := "promo code applied successfully" |}.

(** The balance check-out looks at: the open folio's charges less the payments. *)
Definition balance (hid id : uuid) (d : DB) : Q * uuid :=
  match find_row (open_folio hid id) (folios d) with
  | Some f => (round2 (fsub (num_dec (folio_charged (fo_id f) d)) (num_dec (stay_paid hid id d))), fo_id f)
  | None => (0%Q, uuid_nil)
  end.

(** *** What is written *)

(** The price of an amended stay: new dates on a stay not yet paid for and a room
    free for them, at the room's rate and with the stay's discount. *)
Definition new_date (text : string) (current t : Time) : Prop := if text !=s "" then parse_date text = Some t else t = current.
Definition repriced (L : Prop) (hid id : uuid) (req : createReservationRequest) (s : GuestStay) (d : DB) (priced : list StayField) : Prop :=
  exists ci co, new_date (q_CheckInDate req) (CheckInDate s) ci /\ new_date (q_CheckOutDate req) (CheckOutDate s) co
    /\ After co ci = true /\ paid_for hid id d = false /\ free_for hid (RoomID s) ci co id d = true
    /\ (match find_row (room_key hid (RoomID s)) (rooms d) with
        | None => priced = []
        | Some rm => exists tax, rate_read L hid d tax /\
            let quote := priceStay (num_dec (rm_price_per_night rm)) ci co tax (DiscountAmount s) in
            priced = [F_total_amount (BaseTotal quote); F_discount_amount (Discount quote); F_tax_amount (QTaxAmount quote)]
        end \/ L /\ priced = []).
(** The columns an amendment sets: the price, and those the request fills in. *)
Definition amended (L : Prop) (hid id : uuid) (req : createReservationRequest) (s : GuestStay) (d : DB) (fields : list StayField) : Prop :=
  fields <> [] /\ exists priced,
    (if (q_CheckInDate req !=s "") || (q_CheckOutDate req !=s "") then repriced L hid id req s d priced else priced = [])
    /\ fields = (priced
         ++ field_if (q_GuestName req) F_guest_name ++ field_if (q_GuestEmail req) F_guest_email
         ++ field_if (q_GuestPhone req) F_guest_phone
         ++ date_field (q_CheckInDate req) F_check_in_date ++ date_field (q_CheckOutDate req) F_check_out_date
         ++ field_if (q_Notes req) F_notes ++ field_if (q_Source req) F_source)%list.

(** The columns a move sets: the room, and the price of a stay not yet paid for. *)
Definition moved_fields (hid id : uuid) (s : GuestStay) (rid : uuid) (rm : RoomRow) (tax : Q) (d : DB) : list StayField :=
  let quote := priceStay (num_dec (rm_price_per_night rm)) (CheckInDate s) (CheckOutDate s) tax (DiscountAmount s) in
  F_room_id rid :: if paid_for hid id d then [] else [F_total_amount (BaseTotal quote); F_tax_amount (QTaxAmount quote)].

Definition cancelled_by (reason : string) (fee : Q) (by_ : option uuid) (now : Time) (s : StayRow) : StayRow :=
  s <| gs_status := "cancelled" |> <| gs_cancelled_at := Some now |> <| gs_cancellation_reason := nullif reason |>
    <| gs_cancellation_fee := num_enc fee |> <| gs_cancelled_by := by_ |> <| gs_updated_at := now |>.
Definition with_cancellation (hid id : uuid) (req : cancelReservationRequest) (by_ : option uuid) (now : Time) (d : DB) : DB :=
  d <| guest_stays ::= update_rows (fun s => stay_key hid id s && (gs_status s !=s "cancelled"))
                         (cancelled_by (TrimSpace (cr_Reason req)) (cr_Fee req) by_ now) |>.
(** The room of a cancelled stay is free again, unless a guest is in it. *)
Definition released (L : Prop) (hid room : uuid) (d d' : DB) : Prop :=
  (if exists_row (active_in_room hid room) (guest_stays d) then d' = d
   else exists n, d' = set_room hid room RoomStatusAvailable (clock n) d) \/ L /\ d' = d.
End Contract.

Section Serves.
Context {env : Env} {jwt : Jwt} (h : ReservationHandler) (L : Prop).

Inductive serves : Request -> DB -> Resp Body -> DB -> Prop :=
  | S_list c d n (Hgate : requireFrontDesk h c = None)
      : serves (RqList c) d (RespOK (BList (listed_at
          (listed_passes (c_query c "status") (c_query c "search") (c_query c "from") (c_query c "to")
             (EqualFold (c_query c "include_cancelled") "true")) n (hotel_stays (tenantHotelID c) d)))) d
  | S_get c d id s
      (Hgate : requireFrontDesk h c = None) (Hid : uuid_parse (c_params c "id") = Some id)
      (Hrow : stay_on_file (tenantHotelID c) id d = Some s)
      : serves (RqGet c) d (RespOK (BStay (Some s))) d
  | S_calendar c d n y m
      (Hgate : requireFrontDesk h c = None)
      (Hmonth : parse_month (if c_query c "month" =s "" then fmt_month (clock n) else c_query c "month") = Some (y, m))
      : serves (RqCalendar c) d
          (RespOK (BDays (map (day_info (hotel_stays (tenantHotelID c) d)) (days_from 31 (Date y m 1 0 0 0) (next_month y m))))) d
  | S_quote c d req ci co rid rm tax
      (Hgate : requireFrontDesk h c = None)
      (Hwindow : resolveStayDates req = inr (ci, co)) (Hrid : uuid_parse (q_RoomID req) = Some rid)
      (Hroom : find_row (room_key (tenantHotelID c) rid) (rooms d) = Some rm) (Htax : rate_read L (tenantHotelID c) d tax)
      : serves (RqQuote c (Some req)) d (RespOK (BQuote (priceStay (num_dec (rm_price_per_night rm)) ci co tax 0))) d
  | S_create c d d' req ci co rid rm promo tax adults quote n k t1 t2 created out
      (Hgate : requireFrontDesk h c = None) (Hname : q_GuestName req <> "")
      (Hcontact : (TrimSpace (q_GuestPhone req) =s "") && (TrimSpace (q_GuestEmail req) =s "") = false)
      (Hwindow : resolveStayDates req = inr (ci, co)) (Hrid : uuid_parse (q_RoomID req) = Some rid) (Hrid0 : rid <> uuid_nil)
      (Hroom : find_row (room_key (tenantHotelID c) rid) (rooms d) = Some rm)
      (Hadults : adults = if q_Adults req <=? 0 then 1 else q_Adults req)
      (Hcap : rm_capacity rm <= 0 \/ adults + q_Children req <= rm_capacity rm)
      (Hfree : free_for (tenantHotelID c) rid ci co uuid_nil d = true)
      (Htax : rate_read L (tenantHotelID c) d tax)
      (Hpromo : promo_read (tenantHotelID c) req (BaseTotal (priceStay (num_dec (rm_price_per_night rm)) ci co tax 0))
                  (CalendarNights ci co) d promo)
      (Hquote : quote = priceStay (num_dec (rm_price_per_night rm)) ci co tax (pm_Discount promo))
      (Hpay : forall p, q_Payment req = Some p -> validate p (QPayable quote) = None)
      (Hafter : after_create (tenantHotelID c) req
                  (booking req (uuid_new n) rid ci co adults quote (newConfirmationNo ci (uuid_new k)) (clock t1) (clock t2))
                  (scanRoom rm) (pm_ID promo) quote d d' created out)
      : serves (RqCreate c (Some req)) d (RespCreated (BCreated
          {| rr_stay := created; rr_Quote := quote;
             rr_Settlement := match q_Payment req with Some _ => Some out | None => None end;
             rr_Promo := if TrimSpace (q_PromoCode req) =s "" then None else Some promo |})) d'
  | S_update c d d' req id row fields now s
      (Hgate : requireFrontDesk h c = None) (Hid : uuid_parse (c_params c "id") = Some id)
      (Hrow : find_row (stay_key (tenantHotelID c) id) (guest_stays d) = Some row) (Hlive : gs_status row <> "cancelled")
      (Hfields : amended L (tenantHotelID c) id req (scanEnrichedStay d row) d fields)
      (Hafter : d' = set_stay (tenantHotelID c) id fields (clock now) d) (Hanswer : stay_read L (tenantHotelID c) id d' s)
      : serves (RqUpdate c (Some req)) d (RespOK (BStay s)) d'
  | S_cancel c d d' body id row req now
      (Hgate : requireFrontDeskManager h c = None) (Hid : uuid_parse (c_params c "id") = Some id)
      (Hrow : find_row (stay_key (tenantHotelID c) id) (guest_stays d) = Some row)
      (Hnotin : gs_actual_check_in row = None) (Hlive : gs_status row <> "cancelled")
      (Hunpaid : paid_for (tenantHotelID c) id d = false)
      (Hbody : req = default {| cr_Reason := ""; cr_Fee := 0 |} body)
      (Hafter : released L (tenantHotelID c) (gs_room_id row)
                  (with_cancellation (tenantHotelID c) id req (actorUserID c) (clock now) d) d')
      : serves (RqCancel c body) d (RespOK (BCancelled (cr_Fee req))) d'
  | S_checkin c d d' id row now
      (Hgate : requireFrontDesk h c = None) (Hid : uuid_parse (c_params c "id") = Some id)
      (Hrow : find_row (stay_key (tenantHotelID c) id) (guest_stays d) = Some row)
      (Hnotin : gs_actual_check_in row = None) (Hlive : gs_status row <> "cancelled")
      (Hafter : after_checkin (tenantHotelID c) id (scanEnrichedStay d row) (clock now) d d')
      : serves (RqCheckIn c) d (RespOK (BStatus "checked_in")) d'
  | S_checkout c d d' id row now
      (Hgate : requireFrontDesk h c = None) (Hid : uuid_parse (c_params c "id") = Some id)
      (Hrow : find_row (stay_key (tenantHotelID c) id) (guest_stays d) = Some row)
      (Hin : is_Some (gs_actual_check_in row)) (Hnotout : gs_actual_check_out row = None)
      (Hbalance : flt 0 (fst (balance (tenantHotelID c) id d)) = false \/ EqualFold (c_query c "allow_outstanding") "true" = true)
      (Hafter : after_checkout (tenantHotelID c) id (scanEnrichedStay d row) (clock now) (snd (balance (tenantHotelID c) id d)) d d')
      : serves (RqCheckOut c) d (RespOK (BStatus "checked_out")) d'
  | S_move c d d' req id row rid rm tax s
      (Hgate : requireFrontDesk h c = None) (Hid : uuid_parse (c_params c "id") = Some id)
      (Hrid : uuid_parse (TrimSpace (mr_RoomID req)) = Some rid)
      (Hrow : find_row (stay_key (tenantHotelID c) id) (guest_stays d) = Some row)
      (Hlive : gs_status row <> "cancelled") (Hnotout : gs_actual_check_out row = None) (Hother : rid <> gs_room_id row)
      (Hroom : find_row (room_key (tenantHotelID c) rid) (rooms d) = Some rm)
      (Hsell : Sellable (rm_status rm) = true) (Hcap : rm_capacity rm <= 0 \/ gs_adults row + gs_children row <= rm_capacity rm)
      (Hfree : free_for (tenantHotelID c) rid (CheckInDate (scanEnrichedStay d row)) (CheckOutDate (scanEnrichedStay d row)) id d = true)
      (Htax : rate_read L (tenantHotelID c) d tax)
      (Hafter : after_move (tenantHotelID c) id (scanEnrichedStay d row) rid
                  (moved_fields (tenantHotelID c) id (scanEnrichedStay d row) rid rm tax d) d d')
      (Hanswer : stay_read L (tenantHotelID c) id d' s)
      : serves (RqMoveRoom c (Some req)) d
        (RespOK (BMoved rid (rm_room_number rm) (negb (paid_for (tenantHotelID c) id d)) (TrimSpace (mr_Reason req)) s)) d'.
End Serves.

(** ** The endpoints meet it *)

Section Rules.
Context {env : Env} {B C : Type} (k : B -> M (Resp Body) C) (d : DB) (Q : nat -> C -> DB -> Prop) (s : nat).

Lemma refused_error st msg : refused d (RespError st msg) d.
Proof. split; [reflexivity | now exists st, msg]. Qed.
Lemma tells_refuse st msg : tells s (throw (RespError st msg) : M _ C) d Q (refused d).
Proof. apply tells_throw, refused_error. Qed.

(** One early return at a time: what holds once the guard is passed. *)
Lemma then_option (o : option B) st msg :
  (forall a, o = Some a -> tells s (k a) d Q (refused d)) ->
  tells s (a ← of_option o (RespError st msg); k a) d Q (refused d).
Proof. destruct o as [a|]; intros H; [exact (H a eq_refl) | apply tells_refuse]. Qed.
(** A step of known outcome, and one whose error becomes an error answer. *)
Lemma then_ensures d1 (m : M (Resp Body) B) (P : B -> DB -> Prop) :
  grows m -> ensures m d1 P (refused d) -> (forall s1 a d2, (s <= s1)%nat -> P a d2 -> tells s1 (k a) d2 Q (refused d)) ->
  tells s (m ≫= k) d1 Q (refused d).
Proof. intros Hg Hm Hk. eapply tells_bind; [apply tells_ensures; [exact Hg | exact Hm] | exact Hk]. Qed.
Lemma then_fails (m : M GoErr B) st msg (P : B -> Prop) :
  grows m -> ensures m d (fun a d' => d' = d /\ P a) (fun _ d' => d' = d) ->
  (forall s1 a, (s <= s1)%nat -> P a -> tells s1 (k a) d Q (refused d)) -> tells s (a ← fails m st msg; k a) d Q (refused d).
Proof.
  intros Hg Hm Hk. eapply then_ensures; [apply grows_on_err, Hg | apply ens_fails; eapply ens_post; [exact Hm | intros a d' H; exact H | intros e d' ->; apply refused_error] |].
  intros s1 a d2 Hs [-> Ha]. auto.
Qed.
(** After the last write nothing can turn the answer into an error. *)
Lemma then_quiet d0 (m : M (Resp Body) B) :
  grows m -> reads (fun _ => False) m -> (forall s1 a, (s <= s1)%nat -> tells s1 (k a) d Q (refused d0)) ->
  tells s (m ≫= k) d Q (refused d0).
Proof.
  intros Hg Hm Hk. eapply tells_bind.
  { apply tells_ensures with (Q := fun _ d' => d' = d); [exact Hg|]. eapply ens_post; [apply Hm | intros a d' H; exact H | intros ? ? [_ []]]. }
  intros s1 a d' Hs ->. auto.
Qed.
(** A transaction whose errors become an error answer. *)
Lemma then_tx (fn : Conn -> M GoErr B) (g : GoErr -> Resp Body) P :
  grows (fn Tx) -> runs Tx (fn Tx) d P (fun _ => True) -> tx_local (fn Tx) -> (forall e, is_error (g e)) ->
  (forall s1 a d', (s <= s1)%nat -> P a d' -> tells s1 (k a) d' Q (refused d)) ->
  tells s (a ← WithTenantTx fn onerr g; k a) d Q (refused d).
Proof.
  intros Hw Hfn Hloc Hg Hk. eapply then_ensures; [apply grows_on_err, grows_WithTenantTx, Hw | | exact Hk].
  apply ens_on_err, ens_WithTenantTx; [exact Hfn | exact Hloc | intros e; split; [reflexivity | apply Hg]].
Qed.
End Rules.

Section UnitRules.
Context {env : Env} {C : Type} (k : unit -> M (Resp Body) C) (d : DB) (Q : nat -> C -> DB -> Prop) (s : nat).

Lemma then_throw_if (b : bool) st msg :
  (b = false -> tells s (k tt) d Q (refused d)) -> tells s (u ← throw_if b (RespError st msg); k u) d Q (refused d).
Proof. destruct b; intros H; [apply (tells_refuse (C := C)) | exact (H eq_refl)]. Qed.
Lemma then_guard v : (v = None -> tells s (k tt) d Q (refused d)) -> tells s (u ← guard v; k u) d Q (refused d).
Proof. destruct v as [[st msg]|]; intros H; [apply (tells_refuse (C := C)) | exact (H eq_refl)]. Qed.
End UnitRules.

Lemma ens_ListStays {env : Env} hid d :
  ensures (ListStays Pool hid []) d (fun l d' => d' = d /\ l = hotel_stays hid d) (fun _ d' => d' = d).
Proof.
  apply ens_query; [reflexivity|]. split; [reflexivity|]. unfold hotel_stays, select. do 2 f_equal.
  apply filter_ext. intros s. apply andb_true_r.
Qed.

(** What the reads and bodies of the front desk send. *)
Ltac grows_desk :=
  unfold fails, FindRoomByID, FindStayByID, RoomIsFree, hasCompletedPayment, ListStays, tax_rate, HotelGSTRate,
    booking_promo, resolvePromo, folioOutstanding, notifyBookingConfirmed, notifyCheckedIn, notifyStay, notify_departure,
    hotelDisplayName, HotelName, create_tx, checkin_tx, checkout_tx, move_tx, EnsureGuest, lookup_guest, SetGuestIdentity,
    CreateStay, redeemPromo, settleReservation, alreadyPosted, ensureAccountingCustomer, create_customer, nextCustomerCode,
    settle_payment, settle_invoice, postJournal, ensureChartOfAccounts, numbered, nextVoucherNo, insert_entry, post_line,
    insert_line, UpdateStay, UpdateRoomStatus, EnsureFolioForBooking, close_folio, raise_checkout_clean, SoftCancelStay, fails;
  repeat first [grows_step | progress unfold query_row].

(** Walks the early returns of an endpoint. *)
Ltac ask_step :=
  lazymatch goal with
  | |- tells _ (throw (RespError _ _)) _ _ _ => apply tells_refuse
  | |- tells _ (mbind _ (guard _)) _ _ _ => apply then_guard; intros ?
  | |- tells _ (mbind _ (throw_if _ _)) _ _ _ => apply then_throw_if; intros ?
  | |- tells _ (mbind _ (of_option _ _)) _ _ _ => apply then_option; intros ? ?
  | |- tells _ (mbind _ (path_id _)) _ _ _ => apply then_option; intros ? ?
  | |- tells _ (mbind _ (fails (FindStayByID _ _ _) _ _)) _ _ _ => eapply then_fails; [grows_desk | apply ens_FindStay | intros ? ? ? (? & ? & ->)]
  | |- tells _ (mbind _ (fails (FindRoomByID _ _ _) _ _)) _ _ _ => eapply then_fails; [grows_desk | apply ens_FindRoom | intros ? ? ? (? & ? & ->)]
  | |- tells _ (mbind _ (fails (hasCompletedPayment _ _ _) _ _)) _ _ _ => eapply then_fails; [grows_desk | apply ens_paid | intros ? ? ? ->]
  | |- tells _ (mbind _ (fails (RoomIsFree _ _ _ _ _ _) _ _)) _ _ _ => eapply then_fails; [grows_desk | apply ens_RoomIsFree | intros ? ? ? ->]
  | |- tells _ (mbind _ (fails (ListStays _ _ _) _ _)) _ _ _ => eapply then_fails; [grows_desk | apply ens_ListStays | intros ? ? ? ->]
  end.
Ltac ask_go := repeat ask_step.
(** A statement lost so far is one lost by the end. *)
Ltac lost_later := let HL := fresh "HL" in intros HL; eapply lost_between_weaken; [exact HL | lia | lia].

Section Reading.
Context {env : Env} {jwt : Jwt}.

(** Listing reads the clock, a reading for each row. *)
Lemma list_rows_listed {E} p l w : exists w', (list_rows p l : M E _) w = (inr (listed_at p (w_clocks w) l), w')
  /\ w_db w' = w_db w /\ w_tx w' = w_tx w /\ w_stmts w' = w_stmts w.
Proof.
  revert w. induction l as [|s l IH]; intros w; cbn [list_rows listed_at]; [now exists w|].
  unfold time_now, mbind, M_bind. destruct (IH (w <| w_clocks := S (w_clocks w) |>)) as (w' & -> & H1 & H2 & H3). cbn in *.
  destruct (p _ s); exists w'; auto.
Qed.
Lemma tells_list_rows s {E} p l d (R : E -> DB -> Prop) :
  tells s (list_rows p l) d (fun _ r d' => d' = d /\ exists n, r = listed_at p n l) R.
Proof.
  intros w [Ht <-] <-. destruct (@list_rows_listed E p l w) as (w' & E1 & H1 & H2 & H3). rewrite E1. cbn.
  rewrite H1, H2, H3. eauto 6.
Qed.
Lemma tells_tax_rate s {E} hid d (R : E -> DB -> Prop) :
  tells s (tax_rate hid) d (fun s' tax d' => d' = d /\ rate_read (lost_between s s') hid d tax) R.
Proof.
  unfold tax_rate. eapply tells_bind; [apply tells_attempt_find|]. intros s1 r d1 Hs [-> Hr]. apply tells_ret. split; [reflexivity|].
  unfold rate_read, rate_on_file. destruct r as [e|q].
  - destruct Hr as [Hr|Hr]; [left | right; auto]. destruct (find_row _ _); [discriminate | reflexivity].
  - left. destruct (find_row _ _); [now injection Hr as <- | discriminate].
Qed.
Lemma tells_reread s {E} hid id d (R : E -> DB -> Prop) :
  tells s (attempt (FindStayByID Pool hid id)) d (fun s' r d' => d' = d /\
    stay_read (lost_between s s') hid id d (match r with inr x => Some x | inl _ => None end)) R.
Proof.
  eapply tells_post; [apply tells_attempt_find with (R := R) | | auto]. intros s' r d' _ [-> Hr]. split; [reflexivity|].
  unfold stay_read, stay_on_file. destruct r as [e|x]; [destruct Hr as [Hr|Hr]|]; auto.
Qed.
(** A room looked for again: the row, or nothing. *)
Lemma tells_attempt_room s {E} hid id d (R : E -> DB -> Prop) :
  tells s (attempt (FindRoomByID Pool hid id)) d (fun s' r d' => d' = d /\ match r with
    | inr rm => exists row, find_row (room_key hid id) (rooms d) = Some row /\ rm = scanRoom row
    | inl _ => find_row (room_key hid id) (rooms d) = None \/ lost_between s s' end) R.
Proof.
  assert (Hhead : head (scanRooms (select (room_key hid id) (rooms d))) = scanRoom <$> find_row (room_key hid id) (rooms d)).
  { unfold scanRooms, select, find_row. induction (rooms d) as [|x t IH]; cbn; [reflexivity|]. now destruct (room_key hid id x). }
  unfold FindRoomByID. intros w [Ht Hd] Hs. pose proof (tells_attempt_query s (E := GoErr) (fun d => scanRooms (select (room_key hid id) (rooms d))) d (fun _ _ => False) w (conj Ht Hd) Hs) as H.
  unfold attempt, mbind, M_bind in *. destruct (query Pool _ w) as [[e|l] w1]; cbn in *.
  - destruct H as (H1 & H2 & H3 & H4). auto 6.
  - destruct H as (H1 & H2 & H3 & ->). rewrite Hhead. destruct (find_row (room_key hid id) (rooms d)) as [row|]; cbn; eauto 8.
Qed.
Lemma rate_weaken (L L' : Prop) hid d tax : rate_read L hid d tax -> (L -> L') -> rate_read L' hid d tax.
Proof. intros [H|[H1 H2]] HL; [now left | right; auto]. Qed.
Lemma stay_weaken (L L' : Prop) hid id d x : stay_read L hid id d x -> (L -> L') -> stay_read L' hid id d x.
Proof. intros [H|[H1 H2]] HL; [now left | right; auto]. Qed.

(** A one-row SELECT read as a value. *)
Lemma ens_attempt_row {A E} (f : DB -> option A) d (R : E -> DB -> Prop) :
  ensures (attempt (query_row Pool f)) d (fun r d' => d' = d /\
    match r with inr a => f d = Some a | inl ErrNoRows => f d = None | inl e => e = ErrConn end) R.
Proof.
  apply ens_attempt. unfold query_row. eapply ens_bind.
  { apply ens_query with (Q := fun o d' => d' = d /\ o = f d); auto. }
  intros o d' [-> ->]. apply ens_of_option. destruct (f d); auto.
Qed.

Lemma ens_resolve hid req base nights d : TrimSpace (q_PromoCode req) <> "" ->
  ensures (resolvePromo Pool hid (q_PromoCode req) base nights) d
    (fun p d' => d' = d /\ (pm_Valid p = true -> promo_read hid req base nights d p)) (fun _ d' => d' = d).
Proof.
  intros Hc%String.eqb_neq. unfold resolvePromo, promo_read. rewrite Hc. eapply ens_bind; [apply ens_attempt_row|]. intros r d0 [-> Hr].
  destruct r as [e|p]; [destruct (errors_is _ _); [now apply ens_ret | now apply ens_throw]|].
  repeat match goal with
  | |- ensures (mret _) _ _ _ => apply ens_ret; split; [reflexivity|]; try discriminate
  | |- ensures (if ?b then _ else _) _ _ _ => destruct b eqn:?
  | |- ensures (mbind _ time_now) _ _ _ => eapply ens_bind; [apply ens_now with (Q := fun t d' => d' = d /\ exists n, t = clock n); eauto | intros ? ? [-> [? ->]]]
  end.
  intros _. do 3 eexists. split; [exact Hr|]. split; [now apply negb_false_iff|]. repeat split; eassumption.
Qed.
Lemma ens_booking_promo hid req rm ci co tax d :
  ensures (booking_promo hid req (scanRoom rm) ci co tax) d (fun p d' => d' = d /\ promo_read hid req
    (BaseTotal (priceStay (num_dec (rm_price_per_night rm)) ci co tax 0)) (CalendarNights ci co) d p
    /\ pm_Valid p = negb (TrimSpace (q_PromoCode req) =s "")) (refused d).
Proof.
  unfold booking_promo. destruct (String.eqb_spec (TrimSpace (q_PromoCode req)) "") as [E|E].
  { apply ens_ret. unfold promo_read. rewrite E. repeat split. }
  eapply ens_bind; [apply ens_fails; eapply ens_post; [now apply ens_resolve | intros ? ? H; exact H | intros ? ? ->; apply refused_error]|].
  intros p d' [-> Hp]. eapply ens_bind; [apply ens_throw_if with (Q := fun _ d' => d' = d /\ pm_Valid p = true)|].
  - destruct (pm_Valid p); cbn; [split; reflexivity | apply refused_error].
  - intros _ d' [-> Hv]. apply ens_ret. auto.
Qed.
End Reading.

Section ReadEndpoints.
Context {env : Env} {jwt : Jwt} (h : ReservationHandler).
Abbreviation meets rq := (forall s d, tells s (handle h rq) d (fun s' => serves h (lost_between s s') rq d) (refused d)).

Lemma List_meets c : meets (RqList c).
Proof.
  intros s d. cbn [handle]. unfold List_. ask_go. eapply tells_bind; [apply tells_list_rows|].
  intros s2 l d' Hs [-> [n ->]]. apply tells_ret. now constructor.
Qed.
Lemma Get_meets c : meets (RqGet c).
Proof.
  intros s d. cbn [handle]. unfold Get. ask_go. apply tells_ret. econstructor; [assumption | eassumption|].
  unfold stay_on_file. match goal with H : find_row _ _ = Some _ |- _ => now rewrite H end.
Qed.
Lemma tells_now s {E A} (k : Time -> M E A) d Q R :
  (forall n, tells s (k (clock n)) d Q R) -> tells s (t ← time_now; k t) d Q R.
Proof. intros H w [Ht <-] Hs. apply (H (w_clocks w)); [split; [exact Ht | reflexivity] | exact Hs]. Qed.
Lemma tells_uuid s {E A} (k : uuid -> M E A) d Q R :
  (forall n, tells s (k (uuid_new n)) d Q R) -> tells s (u ← new_uuid; k u) d Q R.
Proof. intros H w [Ht <-] Hs. apply (H (w_uuids w)); [split; [exact Ht | reflexivity] | exact Hs]. Qed.
Lemma Calendar_meets c : meets (RqCalendar c).
Proof.
  intros s d. cbn [handle]. unfold Calendar. ask_go. apply tells_now. intros n.
  destruct (parse_month _) as [[y m]|] eqn:E; [|ask_step]. ask_go. apply tells_ret. econstructor; eassumption.
Qed.
Lemma Quote_meets c b : meets (RqQuote c b).
Proof.
  intros s d. cbn [handle]. unfold Quote. do 2 ask_step. subst.
  destruct (resolveStayDates a) as [msg|[ci co]] eqn:Ew; [ask_step|]. ask_go.
  eapply tells_bind; [apply tells_tax_rate|]. intros s2 tax d' Hs [-> Ht]. apply tells_ret. econstructor; try eassumption.
  eapply rate_weaken; [exact Ht|]. lost_later.
Qed.
End ReadEndpoints.

Section WriteEndpoints.
Context {env : Env} {jwt : Jwt} (h : ReservationHandler).
Abbreviation meets rq := (forall s d, tells s (handle h rq) d (fun s' => serves h (lost_between s s') rq d) (refused d)).

Lemma not_some {A} (o : option A) : bool_decide (is_Some o) = false -> o = None.
Proof. rewrite bool_decide_eq_false. destruct o; [intros []; eauto | reflexivity]. Qed.
Lemma not_none {A} (o : option A) `{Decision (o = None)} : bool_decide (o = None) = false -> is_Some o.
Proof. rewrite bool_decide_eq_false. destruct o; [eauto | contradiction]. Qed.
Lemma fmap_some {A B} (f : A -> B) o : is_Some (f <$> o) -> is_Some o.
Proof. destruct o; cbn; [eauto | intros [? [=]]]. Qed.
Lemma is_error_not_found_or msg e : is_error (not_found_or msg e).
Proof. unfold not_found_or. destruct (errors_is _ _); apply is_error_intro. Qed.
Lemma fmap_none {A B} (f : A -> B) o : f <$> o = None -> o = None.
Proof. now destruct o. Qed.

Lemma CheckIn_meets c : meets (RqCheckIn c).
Proof.
  intros s d. cbn [handle]. unfold CheckIn. ask_go. apply tells_now. intros now.
  eapply then_tx; [grows_desk | apply checkin_tx_runs | apply local_checkin_tx | apply is_error_not_found_or|].
  intros s3 ? d' Hs Hd'. apply then_quiet; [grows_desk | apply reads_attempt, reads_FindStay; auto|]. intros s4 r Hs4.
  apply then_quiet; [grows_desk | unfold notifyCheckedIn; reads_go|]. intros s5 ? Hs5. apply tells_ret.
  econstructor; [eassumption | eassumption | eassumption | | | exact Hd'].
  - eapply (fmap_none scan_time), not_some. eassumption.
  - apply String.eqb_neq. assumption.
Qed.

Lemma ens_balance hid id d :
  ensures (folioOutstanding Pool hid id) d (fun r d' => d' = d /\ r = balance hid id d) (fun _ d' => d' = d).
Proof.
  unfold folioOutstanding, balance. eapply ens_bind; [apply ens_attempt_row|]. intros r d0 [-> Hr].
  destruct (find_row (open_folio hid id) (folios d)) as [f|]; cbn in Hr.
  - destruct r as [[]|fid]; try discriminate Hr; [now apply ens_throw|]. injection Hr as <-.
    eapply ens_bind; [apply ens_query with (Q := fun x d' => d' = d /\ x = num_dec (folio_charged (fo_id f) d)); auto|].
    intros x d' [-> ->].
    eapply ens_bind; [apply ens_query with (Q := fun x d' => d' = d /\ x = num_dec (stay_paid hid id d)); auto|].
    intros x d' [-> ->]. now apply ens_ret.
  - destruct r as [[]|fid]; try discriminate Hr; [now apply ens_ret | now apply ens_throw].
Qed.

Lemma CheckOut_meets c : meets (RqCheckOut c).
Proof.
  intros s d. cbn [handle]. unfold CheckOut. ask_go. eapply then_fails; [grows_desk | apply ens_balance | intros s3 ? Hs3 ->].
  destruct (balance _ _ d) as [outstanding folioID] eqn:Eb. ask_go. apply tells_now. intros now.
  eapply then_tx; [grows_desk | apply checkout_tx_runs | apply local_checkout_tx | apply is_error_not_found_or|].
  intros s4 ? d' Hs Hd'. apply then_quiet; [grows_desk | apply reads_attempt, reads_FindStay; auto|]. intros s5 r Hs5.
  apply then_quiet; [grows_desk | reads_go|]. intros s6 ? Hs6. apply tells_ret.
  econstructor; [eassumption | eassumption | eassumption | | | | rewrite Eb; exact Hd'].
  - eapply (fmap_some scan_time), not_none. eassumption.
  - eapply (fmap_none scan_time), not_some. eassumption.
  - rewrite Eb. cbn [fst]. match goal with H : _ && _ = false |- _ => apply andb_false_iff in H as [H|H] end; [now left | right; now apply negb_false_iff].
Qed.

Lemma SoftCancelStay_ens hid id req by_ d :
  ensures (SoftCancelStay Pool hid id (TrimSpace (cr_Reason req)) (cr_Fee req) by_) d
    (fun _ d' => exists n, d' = with_cancellation hid id req by_ (clock n) d) (fun _ d' => d' = d).
Proof.
  unfold SoftCancelStay. eapply ens_bind; [apply ens_now with (Q := fun t d' => d' = d /\ exists n, t = clock n); eauto|].
  intros ? d0 [-> [now ->]]. set (p := fun s => _ && _).
  eapply ens_bind; [apply ens_exec_n with (Q := fun n d' => n = rows_affected p (guest_stays d) /\
      d' = with_cancellation hid id req by_ (clock now) d); [reflexivity | split; reflexivity]|].
  intros n d' [-> ->]. apply ens_throw_if. destruct (Nat.eqb_spec (rows_affected p (guest_stays d)) 0) as [E|]; [|eauto].
  unfold with_cancellation. fold p.
  transitivity (d <| guest_stays := update_rows p (cancelled_by (TrimSpace (cr_Reason req)) (cr_Fee req) by_ (clock now)) (guest_stays d) |>); [reflexivity|].
  rewrite update_rows_none by exact E. now destruct d.
Qed.

(** The room of a cancelled stay, and the error of a lost statement dropped. *)
Lemma tells_release s hid room d (R : Resp Body -> DB -> Prop) :
  tells s (attempt (UpdateRoomStatus Pool hid room RoomStatusAvailable)) d
    (fun s' _ d' => (exists n, d' = set_room hid room RoomStatusAvailable (clock n) d) \/ lost_between s s' /\ d' = d) R.
Proof.
  intros w [Ht <-] <-. unfold attempt, UpdateRoomStatus, time_now, exec_n, exec, throw_if, mbind, M_bind; cbn.
  destruct (db_fault (w_stmts w)) eqn:Ef; cbn.
  - repeat split; auto. right. split; [|reflexivity]. exists (w_stmts w). split; [lia | exact Ef].
  - destruct (Nat.eqb _ 0); cbn; rewrite Ht; (split; [lia|]); (split; [reflexivity|]); left; now exists (w_clocks w).
Qed.
Lemma tells_released s hid room d (R : Resp Body -> DB -> Prop) :
  tells s (active ← attempt (RoomHasActiveStay Pool hid room);
           match active with
           | inr false => attempt (UpdateRoomStatus Pool hid room RoomStatusAvailable) ;; mret tt
           | _ => mret tt end) d (fun s' _ d' => released (lost_between s s') hid room d d') R.
Proof.
  eapply tells_bind; [apply tells_attempt_query|]. intros s1 r d1 Hs [-> Hr]. unfold released.
  destruct r as [e|[]]; [apply tells_ret; auto | apply tells_ret; rewrite <- Hr; auto |]. rewrite <- Hr.
  eapply tells_bind; [apply tells_release|]. intros s2 ? d2 Hs2 Hd. apply tells_ret.
  destruct Hd as [Hd|[HL ->]]; [now left | right]. split; [|reflexivity]. revert HL. lost_later.
Qed.
Lemma bind_assoc {E A B C} (m : M E A) (k : A -> M E B) (l : B -> M E C) w :
  (m ≫= (fun a => k a ≫= l)) w = ((m ≫= k) ≫= l) w.
Proof. unfold mbind, M_bind. destruct (m w) as [[|] ?]; reflexivity. Qed.
Lemma tells_assoc s {E A B C} (m : M E A) (k : A -> M E B) (l : B -> M E C) d Q R :
  tells s ((m ≫= k) ≫= l) d Q R -> tells s (m ≫= (fun a => k a ≫= l)) d Q R.
Proof. intros H w. rewrite bind_assoc. apply H. Qed.
Lemma released_weaken (L L' : Prop) hid room d d' : released L hid room d d' -> (L -> L') -> released L' hid room d d'.
Proof. intros [H|[H1 H2]] HL; [now left | right; auto]. Qed.

Lemma Cancel_meets c b : meets (RqCancel c b).
Proof.
  intros s d. cbn [handle]. unfold Cancel. ask_go. cbv zeta.
  eapply then_ensures; [grows_desk | |].
  { eapply ens_on_err, ens_post; [apply SoftCancelStay_ens | intros ? ? Hc; exact Hc|].
    intros e d' ->. destruct (errors_is e ErrNotFound); apply refused_error. }
  intros s3 ? d1 Hs3 [now ->]. apply tells_assoc. eapply tells_bind; [apply tells_released|].
  intros s4 ? d2 Hs4 Hd2. apply tells_ret. econstructor; try eassumption; [| | reflexivity |].
  - eapply (fmap_none scan_time), not_some. eassumption.
  - apply String.eqb_neq. assumption.
  - eapply released_weaken; [exact Hd2|]. lost_later.
Qed.

Lemma tells_move_fields s hid id st rm rid d :
  tells s (move_fields hid st (scanRoom rm) rid (paid_for hid id d)) d
    (fun s' fs d' => d' = d /\ exists tax, rate_read (lost_between s s') hid d tax /\ fs = moved_fields hid id st rid rm tax d) (refused d).
Proof.
  unfold move_fields, moved_fields. destruct (paid_for hid id d).
  - apply tells_ret. split; [reflexivity|]. exists (rate_on_file hid d). split; [now left | reflexivity].
  - eapply tells_bind; [apply tells_tax_rate|]. intros s1 tax d' Hs [-> Ht]. apply tells_ret. eauto.
Qed.
Lemma capacity_ok cap n : (0 <? cap) && (cap <? n) = false -> cap <= 0 \/ n <= cap.
Proof. intros [H|H]%andb_false_iff; lia. Qed.

Lemma MoveRoom_meets c b : meets (RqMoveRoom c b).
Proof.
  intros s d. cbn [handle]. unfold MoveRoom. ask_go. subst.
  eapply tells_bind; [apply tells_move_fields|]. intros s5 fields d1 Hs5 (-> & tax & Htax & ->).
  eapply then_tx; [grows_desk | apply move_tx_runs | apply local_move_tx | |].
  { intros e. destruct (isOverlapViolation e); [apply is_error_intro | apply is_error_not_found_or]. }
  intros s6 ? d' Hs6 Hd'. eapply tells_bind; [apply tells_reread|]. intros s7 r d2 Hs7 [-> Hr]. apply tells_ret.
  apply (S_move h _ c d d' a0 a x a1 x0 tax); try assumption.
  - now apply String.eqb_neq.
  - eapply (fmap_none scan_time), not_some. eassumption.
  - intros ->. cbn in *. unfold ueq in *. rewrite N.eqb_refl in *. discriminate.
  - now apply negb_false_iff.
  - now apply capacity_ok.
  - now apply negb_false_iff.
  - eapply rate_weaken; [exact Htax|]. lost_later.
  - eapply stay_weaken; [exact Hr|]. lost_later.
Qed.

(** One date of an amendment, and the window they make. *)
Lemma then_new_date {C} s text cur st msg (k : Time -> M (Resp Body) C) d Q :
  (forall t, new_date text cur t -> tells s (k t) d Q (refused d)) ->
  tells s (t ← (if text !=s "" then of_option (parse_date text) (RespError st msg) else mret cur); k t) d Q (refused d).
Proof.
  intros H. unfold new_date in H. destruct (text !=s ""); [|exact (H cur eq_refl)].
  apply then_option. intros t Ht. now apply H.
Qed.
Lemma tells_amend_dates s hid id req cur d :
  tells s (amend_dates hid id req cur) d (fun s' fs d' => d' = d /\ repriced (lost_between s s') hid id req cur d fs) (refused d).
Proof.
  unfold amend_dates. eapply then_fails; [grows_desk | apply ens_paid | intros s1 ? Hs1 ->]. ask_step.
  apply then_new_date. intros ci Hci. apply then_new_date. intros co Hco. ask_step.
  eapply then_fails; [grows_desk | apply ens_RoomIsFree | intros s2 ? Hs2 ->]. ask_step.
  eapply tells_bind; [apply tells_attempt_room|]. intros s3 r d3 Hs3 [-> Hr].
  destruct r as [e|rm].
  - apply tells_ret. split; [reflexivity|]. exists ci, co. do 3 (split; [first [assumption | now apply negb_false_iff]|]).
    split; [assumption|]. split; [now apply negb_false_iff|]. destruct Hr as [Hr|HL].
    + left. now rewrite Hr.
    + right. split; [|reflexivity]. revert HL. lost_later.
  - destruct Hr as (row & Hrow & ->). eapply tells_bind; [apply tells_tax_rate|]. intros s4 tax d4 Hs4 [-> Ht]. apply tells_ret.
    split; [reflexivity|]. exists ci, co. do 3 (split; [first [assumption | now apply negb_false_iff]|]).
    split; [assumption|]. split; [now apply negb_false_iff|]. left. rewrite Hrow. exists tax. split; [|reflexivity].
    eapply rate_weaken; [exact Ht|]. lost_later.
Qed.
Lemma repriced_weaken (L L' : Prop) hid id req x d fs : repriced L hid id req x d fs -> (L -> L') -> repriced L' hid id req x d fs.
Proof.
  intros (ci & co & H1 & H2 & H3 & H4 & H5 & H6) HL. exists ci, co. do 5 (split; [assumption|]).
  destruct H6 as [H6|[H6 H7]]; [left | right; auto]. destruct (find_row _ _); [|exact H6].
  destruct H6 as (tax & Ht & ->). exists tax. split; [eapply rate_weaken; eassumption | reflexivity].
Qed.

Lemma Update_meets c b : meets (RqUpdate c b).
Proof.
  intros s d. cbn [handle]. unfold Update. ask_go. subst.
  match goal with H : find_row _ _ = Some ?x |- _ => rename x into row, H into Hrow end.
  eapply tells_bind with (Q1 := fun s' fs d' => d' = d /\ if (q_CheckInDate a0 !=s "") || (q_CheckOutDate a0 !=s "")
    then repriced (lost_between s s') (tenantHotelID c) a a0 (scanEnrichedStay d row) d fs else fs = []).
  { destruct (_ || _); [|now apply tells_ret]. eapply tells_post; [apply tells_amend_dates | | auto].
    intros s' fs d' Hs [-> Hf]. split; [reflexivity|]. eapply repriced_weaken; [exact Hf|].
    lost_later. }
  intros s2 priced d1 Hs2 [-> Hp]. cbv zeta. apply then_throw_if. intros Hne. eapply then_ensures; [grows_desk | |].
  { apply ens_on_err. eapply ens_post; [apply UpdateStay_ens | intros ? ? Hu; exact Hu|].
    intros e d' ->. destruct (errors_is e ErrNotFound); apply refused_error. }
  intros s3 ? d' Hs3 (now & row' & _ & ->). eapply tells_bind; [apply tells_reread|]. intros s4 r d2 Hs4 [-> Hr]. apply tells_ret.
  eapply S_update; [assumption | eassumption | exact Hrow | | | reflexivity |].
  - now apply String.eqb_neq.
  - split; [intros E; rewrite E in Hne; discriminate|]. exists priced. split; [|reflexivity].
    destruct (_ || _); [|exact Hp]. eapply repriced_weaken; [exact Hp|]. lost_later.
  - eapply stay_weaken; [exact Hr|]. lost_later.
Qed.

Lemma is_error_create_failure rm e : is_error (create_failure rm e).
Proof. unfold create_failure. destruct (errors_is e _), (isOverlapViolation e); apply is_error_intro. Qed.

Lemma tells_create_priced s hid req rm rid ci co adults d :
  tells s (create_priced h hid req (scanRoom rm) rid ci co adults) d (fun s' r d' => exists tax promo n k t1 t2 created out,
      let quote := priceStay (num_dec (rm_price_per_night rm)) ci co tax (pm_Discount promo) in
      rate_read (lost_between s s') hid d tax
      /\ promo_read hid req (BaseTotal (priceStay (num_dec (rm_price_per_night rm)) ci co tax 0)) (CalendarNights ci co) d promo
      /\ (forall p, q_Payment req = Some p -> validate p (QPayable quote) = None)
      /\ after_create hid req (booking req (uuid_new n) rid ci co adults quote (newConfirmationNo ci (uuid_new k)) (clock t1) (clock t2))
           (scanRoom rm) (pm_ID promo) quote d d' created out
      /\ r = RespCreated (BCreated {| rr_stay := created; rr_Quote := quote;
             rr_Settlement := match q_Payment req with Some _ => Some out | None => None end;
             rr_Promo := if TrimSpace (q_PromoCode req) =s "" then None else Some promo |})) (refused d).
Proof.
  unfold create_priced. eapply tells_bind; [apply tells_tax_rate|]. intros s1 tax d1 Hs1 [-> Ht].
  eapply then_ensures; [grows_desk | apply ens_booking_promo | intros s2 promo d2 Hs2 (-> & Hp & Hv)].
  cbv zeta. apply then_throw_if. intros Hpay. apply tells_uuid. intros k. apply tells_uuid. intros n.
  apply tells_now. intros t1. apply tells_now. intros t2.
  eapply then_tx; [grows_desk | apply create_tx_runs | apply local_create_tx | apply is_error_create_failure|].
  intros s3 [created out] d' Hs3 Hd'. cbv beta iota. apply then_quiet; [grows_desk | apply reads_notifyStay|].
  intros s4 ? Hs4. apply tells_ret. exists tax, promo, n, k, t1, t2, created, out. split.
  { eapply rate_weaken; [exact Ht|]. lost_later. }
  split; [exact Hp|]. split; [|split; [exact Hd' | rewrite Hv; now destruct (_ =s _)]].
  intros p Ep. rewrite Ep in Hpay. now apply not_some.
Qed.

Lemma Create_meets c b : meets (RqCreate c b).
Proof.
  intros s d. cbn [handle]. unfold Create. do 4 ask_step. subst.
  destruct (resolveStayDates a) as [msg|[ci co]] eqn:Ew; [apply tells_refuse|].
  eapply tells_bind with (Q1 := fun _ rid d' => d' = d /\ (rid <> uuid_nil -> uuid_parse (q_RoomID a) = Some rid)).
  { destruct (_ !=s _); [|apply tells_ret; split; [reflexivity | contradiction]]. destruct (uuid_parse (q_RoomID a)) as [u|]; [now apply tells_ret | apply tells_throw, refused_error]. }
  intros s1 rid d0 Hs1 [-> Hrid]. ask_go.
  match goal with H : find_row _ _ = Some ?x |- _ => rename x into rm, H into Hrm end.
  eapply tells_post; [apply tells_create_priced | | auto].
  intros s' r d' Hs' (tax & promo & n & k & t1 & t2 & created & out & Ht & Hp & Hpay & Ha & ->).
  assert (Hne : rid <> uuid_nil) by now apply N.eqb_neq.
  eapply S_create; [assumption | | | exact Ew | exact (Hrid Hne) | exact Hne | exact Hrm | reflexivity | | | | exact Hp | reflexivity | exact Hpay | exact Ha].
  - now apply String.eqb_neq.
  - assumption.
  - now apply capacity_ok.
  - now apply negb_false_iff.
  - eapply rate_weaken; [exact Ht|]. lost_later.
Qed.

(** Every endpoint, under every pattern of driver failures. *)
Lemma handle_meets rq : meets rq.
Proof.
  destruct rq; [apply List_meets | apply Get_meets | apply Calendar_meets | apply Quote_meets | apply Create_meets
    | apply Update_meets | apply Cancel_meets | apply CheckIn_meets | apply CheckOut_meets | apply MoveRoom_meets].
Qed.
End WriteEndpoints.
