(* ===== verification/Lifecycle.v ===== *)
(** Lifecycle: what the front desk's contract (DeskSpec.v) means for the stays,
    over any sequence of requests: the phases a stay goes through, the rows a
    request can touch, and the room calendar staying free of double bookings. *)

From S2P Require Import Prelude GoLib Schema Binary64 World Statements Auth Domain RoomRepo Ledger Promo Customers FolioCharge Pricing Settlement Reservations FrontDesk DeskSpec.
From Stdlib Require Import QArith.
Local Open Scope string_scope.
Local Open Scope Z_scope.

(** ** Phases of a stay *)

Inductive Phase := Booked | InHouse | Departed | Cancelled.
#[export] Instance Phase_eq_dec : EqDecision Phase.
Proof. solve_decision. Defined.

Definition phase (s : StayRow) : Phase :=
  if gs_status s =s "cancelled" then Cancelled
  else match gs_actual_check_out s, gs_actual_check_in s with
       | Some _, _ => Departed
       | None, Some _ => InHouse
       | None, None => Booked
       end.

(** The status column tells the same story as the two time stamps. *)
Definition consistent (s : StayRow) : bool :=
  match gs_actual_check_in s, gs_actual_check_out s with
  | None, None => negb (existsb (String.eqb (gs_status s)) [ReservationInHouse; ReservationCheckedOut])
  | Some _, None => gs_status s =s ReservationInHouse
  | Some _, Some _ => gs_status s =s ReservationCheckedOut
  | None, Some _ => false
  end.
Definition all_consistent (d : DB) : Prop := forall s, In s (guest_stays d) -> consistent s = true.

(** The transitions a request may make. *)
Inductive moves : Request -> Phase -> Phase -> Prop :=
  | M_none rq p : moves rq p p
  | M_arrive c : moves (RqCheckIn c) Booked InHouse
  | M_leave c : moves (RqCheckOut c) InHouse Departed
  | M_cancel c b : moves (RqCancel c b) Booked Cancelled.

(** The phases in order: nothing comes after a departure or a cancellation. *)
Inductive precedes : Phase -> Phase -> Prop :=
  | P_refl p : precedes p p
  | P_arrive p : precedes InHouse p -> precedes Booked p
  | P_leave : precedes InHouse Departed
  | P_cancel : precedes Booked Cancelled.

Lemma moves_precedes rq p q r : moves rq p q -> precedes q r -> precedes p r.
Proof.
  intros [ | | |] H; [exact H | now apply P_arrive | inversion H; subst; apply P_leave | inversion H; subst; apply P_cancel].
Qed.

(** ** What one request does to the table of stays *)

Section Changes.
Context {env : Env} {jwt : Jwt} (h : ReservationHandler).

Inductive stays_after (rq : Request) (d d' : DB) : Prop :=
  | A_same : guest_stays d' = guest_stays d -> stays_after rq d d'
  | A_new row : guest_stays d' = insert_row row (guest_stays d) -> phase row = Booked -> consistent row = true ->
      gs_hotel_id row = tenantHotelID (request_ctx rq) -> stays_after rq d d'
  | A_one p f id : guest_stays d' = update_rows p f (guest_stays d) ->
      uuid_parse (c_params (request_ctx rq) "id") = Some id ->
      (forall s, In s (guest_stays d) -> p s = true -> stay_key (tenantHotelID (request_ctx rq)) id s = true) ->
      (forall s, In s (guest_stays d) -> p s = true -> consistent s = true ->
         gs_id (f s) = gs_id s /\ gs_hotel_id (f s) = gs_hotel_id s
         /\ moves rq (phase s) (phase (f s)) /\ consistent (f s) = true) ->
      stays_after rq d d'.

Lemma set_fields_hotel fields now s : gs_hotel_id (set_stay_fields fields now s) = gs_hotel_id s.
Proof.
  unfold set_stay_fields. cbn. revert s. induction fields as [|f l IH]; intros s; cbn; [reflexivity|].
  rewrite IH. now destruct f.
Qed.

Definition keeps_phase (f : StayField) : Prop :=
  match f with F_actual_check_in _ | F_actual_check_out _ | F_status _ => False | _ => True end.
Lemma field_if_keeps s f : (forall v, keeps_phase (f v)) -> Forall keeps_phase (field_if s f).
Proof. intros H. unfold field_if. destruct (_ !=s _); repeat constructor; auto. Qed.
Lemma date_field_keeps s f : (forall v, keeps_phase (f v)) -> Forall keeps_phase (date_field s f).
Proof. intros H. unfold date_field. destruct (_ !=s _); [|constructor]. destruct (parse_date s); repeat constructor; auto. Qed.
Lemma amended_keeps L hid id req s d fields : amended L hid id req s d fields -> Forall keeps_phase fields.
Proof.
  intros (_ & priced & Hp & ->). repeat apply Forall_app_2;
    first [apply field_if_keeps; intros v; exact I | apply date_field_keeps; intros v; exact I | idtac].
  destruct (_ || _); [|subst; constructor].
  destruct Hp as (ci & co & _ & _ & _ & _ & _ & [Hp|[_ ->]]); [|constructor].
  destruct (find_row _ _); [destruct Hp as (tax & _ & ->); repeat constructor | subst; constructor].
Qed.
Lemma moved_keeps hid id s rid rm tax d : Forall keeps_phase (moved_fields hid id s rid rm tax d).
Proof. unfold moved_fields. constructor; [exact I|]. destruct (paid_for _ _ _); repeat constructor. Qed.

(** Amending columns other than the status and the time stamps. *)
Lemma set_fields_phase fields now s :
  Forall keeps_phase fields ->
  phase (set_stay_fields fields now s) = phase s /\ consistent (set_stay_fields fields now s) = consistent s.
Proof.
  intros H. unfold set_stay_fields, phase, consistent. cbn. revert s. induction H as [|f l Hf Hl IH]; intros s; cbn; [auto|].
  destruct (IH (set_stay_field f s)) as [-> ->]. destruct f; try contradiction; auto.
Qed.

(** With unique ids, the row a request finds is the only one it can update. *)
Lemma found_row hid id d row s :
  stays_ok d -> find_row (stay_key hid id) (guest_stays d) = Some row ->
  In s (guest_stays d) -> stay_key hid id s = true -> s = row.
Proof.
  intros Hok Hf Hs Hk. apply find_row_some in Hf as [Hr Hkr]. apply (so_uniq d Hok); auto.
  apply stay_key_id in Hk as [-> _], Hkr as [-> _]. reflexivity.
Qed.

(** The stays are left alone by what else the transactions write. *)
Lemma with_folio_stays hid id b g d : guest_stays (with_folio hid id b g d) = guest_stays d.
Proof. unfold with_folio. now destruct (_ || _). Qed.
Lemma without_folio_stays hid f now d : guest_stays (without_folio hid f now d) = guest_stays d.
Proof. unfold without_folio. now destruct (ueq _ _). Qed.
Lemma with_clean_stays hid id r n now d : guest_stays (with_clean hid id r n now d) = guest_stays d.
Proof. unfold with_clean. now destruct (exists_row _ _). Qed.
Lemma with_guest_stays hid id n e p d : guest_stays (snd (with_guest hid id n e p d)) = guest_stays d.
Proof. destruct (with_guest_frame hid id n e p d) as [g ->]. reflexivity. Qed.
Lemma after_create_stays hid req stay room pid q d d' created out :
  after_create hid req stay room pid q d d' created out ->
  exists n now, guest_stays d' = insert_row (stay_row (uuid_new n) hid (clock now) stay) (guest_stays d).
Proof.
  intros (n & now & k & _ & _ & _ & Hs). exists n, now. revert Hs. unfold booked.
  destruct (with_guest_frame hid (uuid_new k) (q_GuestName req) (q_GuestEmail req) (q_GuestPhone req) d) as [gs Eg].
  destruct (with_guest hid (uuid_new k) _ _ _ d) as [g d1]. cbn [snd] in Eg. subst d1. cbv zeta.
  set (d2 := if _ && _ then _ else _). intros Hs.
  assert (E2 : guest_stays d2 = guest_stays d) by (unfold d2; now destruct (_ && _)). clearbody d2.
  transitivity (guest_stays (with_redemption hid pid (d2 <| guest_stays ::= insert_row (stay_row (uuid_new n) hid (clock now) stay) |>))).
  - revert Hs. unfold settlement_of. destruct (q_Payment req); [|now intros [-> _]].
    intros [(? & ? & ? & ? & ? & ? & ? & ? & ->) _]. reflexivity.
  - unfold with_redemption. rewrite <- E2. now destruct (ueq pid uuid_nil).
Qed.
Lemma after_checkin_stays hid id s now d d' : after_checkin hid id s now d d' -> exists t,
  guest_stays d' = update_rows (stay_key hid id) (set_stay_fields [F_actual_check_in now; F_status ReservationInHouse] (clock t)) (guest_stays d).
Proof.
  intros (t1 & t2 & k1 & k2 & H). exists t1. revert H. cbv zeta. set (d1 := set_room _ _ _ _ _).
  pose proof (with_guest_stays hid (uuid_new k1) (GuestName s) (opt_str (GuestEmail s)) (opt_str (GuestPhone s)) d1) as E.
  destruct (with_guest _ _ _ _ _ _) as [g d2]. intros ->. rewrite with_folio_stays. exact E.
Qed.
Lemma after_checkout_stays hid id s now f d d' : after_checkout hid id s now f d d' -> exists t,
  guest_stays d' = update_rows (stay_key hid id) (set_stay_fields [F_actual_check_out now; F_status ReservationCheckedOut] (clock t)) (guest_stays d).
Proof. intros (t1 & t2 & t3 & t4 & k & ->). exists t1. now rewrite with_clean_stays, without_folio_stays. Qed.
Lemma after_move_stays hid id s r fields d d' : after_move hid id s r fields d d' -> exists t,
  guest_stays d' = update_rows (stay_key hid id) (set_stay_fields fields (clock t)) (guest_stays d).
Proof.
  intros (t1 & H). exists t1. revert H. cbv zeta. destruct (ActualCheckIn s); [|now intros ->].
  intros (t2 & t3 & t4 & k & ->). unfold set_room at 1. cbn. apply with_clean_stays.
Qed.
Lemma released_stays L hid room d d' : released L hid room d d' -> guest_stays d' = guest_stays d.
Proof. intros [H|[_ ->]]; [|reflexivity]. destruct (exists_row _ _); [now subst | now destruct H as [n ->]]. Qed.

(** A row found and the columns set on it, whichever the way it moves. *)
Lemma one_found rq d d' p f id row :
  stays_ok d -> guest_stays d' = update_rows p f (guest_stays d) -> uuid_parse (c_params (request_ctx rq) "id") = Some id ->
  (forall s, p s = true -> stay_key (tenantHotelID (request_ctx rq)) id s = true) ->
  find_row (stay_key (tenantHotelID (request_ctx rq)) id) (guest_stays d) = Some row ->
  gs_id (f row) = gs_id row -> gs_hotel_id (f row) = gs_hotel_id row ->
  (consistent row = true -> moves rq (phase row) (phase (f row)) /\ consistent (f row) = true) -> stays_after rq d d'.
Proof.
  intros Hok E Hid Hp Hrow H1 H2 H3. eapply A_one; [exact E | exact Hid | auto |].
  intros s Hs Hps Hc. rewrite (found_row _ _ _ _ _ Hok Hrow Hs (Hp s Hps)) in *. auto.
Qed.
Lemma serves_stays L rq d r d' : stays_ok d -> serves h L rq d r d' -> stays_after rq d d'.
Proof.
  intros Hok H. destruct H.
  1-4: now apply A_same.
  - destruct (after_create_stays _ _ _ _ _ _ _ _ _ _ Hafter) as (i & now & E). eapply A_new; [exact E| | |]; reflexivity.
  - subst d'. eapply one_found; [exact Hok | reflexivity | exact Hid | auto | exact Hrow | apply set_stay_fields_id | apply set_fields_hotel|].
    intros Hc. destruct (set_fields_phase fields (clock now) row (amended_keeps _ _ _ _ _ _ _ Hfields)) as [-> ->]. split; [constructor | exact Hc].
  - apply released_stays in Hafter as E. eapply one_found; [exact Hok | exact E | exact Hid | | exact Hrow | reflexivity | reflexivity|].
    { intros s Hp. apply andb_true_iff in Hp. apply Hp. }
    intros Hc. unfold phase, consistent in *. cbn. rewrite Hnotin in *.
    apply String.eqb_neq in Hlive. rewrite Hlive. destruct (gs_actual_check_out row); [discriminate Hc|].
    split; [constructor | reflexivity].
  - apply after_checkin_stays in Hafter as [t E].
    eapply one_found; [exact Hok | exact E | exact Hid | auto | exact Hrow | apply set_stay_fields_id | apply set_fields_hotel|].
    intros Hc. unfold phase, consistent, set_stay_fields in *. cbn. rewrite Hnotin in *.
    apply String.eqb_neq in Hlive. rewrite Hlive. destruct (gs_actual_check_out row); [discriminate Hc|].
    split; [constructor | reflexivity].
  - apply after_checkout_stays in Hafter as [t E].
    eapply one_found; [exact Hok | exact E | exact Hid | auto | exact Hrow | apply set_stay_fields_id | apply set_fields_hotel|].
    intros Hc. unfold phase, consistent, set_stay_fields in *. cbn.
    destruct Hin as [ti Hin]. rewrite Hin, Hnotout in *. apply String.eqb_eq in Hc. rewrite Hc. cbn.
    split; [constructor | reflexivity].
  - apply after_move_stays in Hafter as [t E].
    eapply one_found; [exact Hok | exact E | exact Hid | auto | exact Hrow | apply set_stay_fields_id | apply set_fields_hotel|].
    intros Hc. match goal with |- context [set_stay_fields ?fs ?n ?x] => destruct (set_fields_phase fs n x (moved_keeps _ _ _ _ _ _ _)) as [-> ->] end.
    split; [constructor | exact Hc].
Qed.
End Changes.

(** ** The room calendar *)

Section Calendar.
Context {env : Env} {jwt : Jwt} (h : ReservationHandler).

Ltac safe := repeat first [keeps_step | other_table].

Lemma safe_postJournal c hid desc ref ls : keeps stays_ok (postJournal c hid desc ref ls).
Proof.
  unfold postJournal, ensureChartOfAccounts, numbered, nextVoucherNo, insert_entry, post_line, insert_line, bump_counter, insert_account. safe.
Qed.
Lemma safe_customer c hid det : keeps stays_ok (ensureAccountingCustomer c hid det).
Proof. unfold ensureAccountingCustomer, create_customer, nextCustomerCode, insert_customer, max_cust_number. safe. Qed.
Lemma safe_settle c hid s pay q : keeps stays_ok (settleReservation c hid s pay q).
Proof.
  pose proof (safe_postJournal c hid). pose proof (safe_customer c hid).
  unfold settleReservation, alreadyPosted, settle_payment, settle_invoice, insert_payment, insert_invoice. safe.
Qed.
Lemma safe_guest c hid n e p : keeps stays_ok (EnsureGuest c hid n e p).
Proof. unfold EnsureGuest, lookup_guest. safe. Qed.
Lemma safe_create hid req s rm pr q : keeps stays_ok (create_tx hid req s rm pr q Tx).
Proof.
  pose proof (safe_settle Tx hid). pose proof (safe_guest Tx hid).
  unfold create_tx, SetGuestIdentity, redeemPromo. safe.
Qed.

Lemma safe_list_rows {E} p l : keeps stays_ok (list_rows p l : M E _).
Proof. induction l as [|x l IH]; cbn; safe. Qed.

Lemma safe_handle rq : keeps stays_ok (handle h rq).
Proof.
  pose proof safe_create. pose proof (safe_guest Tx). pose proof (@safe_list_rows (Resp Body)).
  destruct rq; cbn [handle];
    unfold List_, Get, Calendar, Quote, Create, create_priced, booking_promo, resolvePromo, notifyBookingConfirmed,
      Update, amend_dates, Cancel, CheckIn, CheckOut, MoveRoom, checkin_tx, checkout_tx, move_tx, move_fields,
      close_folio, raise_checkout_clean, notify_departure, notifyCheckedIn, notifyStay, hotelDisplayName, HotelName,
      tax_rate, HotelGSTRate, UpdateRoomStatus, RoomHasActiveStay, RoomIsFree, FindRoomByID, FindStayByID, ListStays,
      hasCompletedPayment, folioOutstanding, EnsureFolioForBooking, insert_folio, path_id, fails; safe.
Qed.
End Calendar.

(** ** Sequences of requests *)

Section Sequences.
Context {env : Env} {jwt : Jwt} (h : ReservationHandler).

Definition serve_all (rqs : list Request) (w : World) : World :=
  foldl (fun w rq => snd (serve (handle h rq) w)) w rqs.

(** One answer, on the database as it stands. *)
Lemma serve_meets rq w d :
  sees Pool w d -> let d' := w_db (snd (serve (handle h rq) w)) in
  (serves h (lost_between (w_stmts w) (w_stmts (snd (serve (handle h rq) w)))) rq d (fst (serve (handle h rq) w)) d'
   \/ refused d (fst (serve (handle h rq) w)) d')
  /\ sees Pool (snd (serve (handle h rq) w)) d'.
Proof.
  intros Hw d'. destruct (serve_tells (handle h rq) d _ _ w Hw (handle_meets h rq (w_stmts w) d)) as [H1 H2].
  split; [exact H1 | split; [exact H2 | reflexivity]].
Qed.

Lemma serve_safe rq w d : sees Pool w d -> stays_ok d -> stays_ok (w_db (snd (serve (handle h rq) w))).
Proof.
  intros [Ht <-] Hok. apply (keeps_serve stays_ok); [apply safe_handle|]. split; [exact Hok | now rewrite Ht].
Qed.

(** Every stay there was is still there, under the same id and tenant, in a
    phase the request may have moved it to; a stay the request does not
    address, or of another tenant, is the very same row. *)
Definition follows (rq : Request) (d d' : DB) : Prop :=
  forall s, In s (guest_stays d) -> exists s', In s' (guest_stays d')
    /\ gs_id s' = gs_id s /\ gs_hotel_id s' = gs_hotel_id s /\ moves rq (phase s) (phase s')
    /\ (uuid_parse (c_params (request_ctx rq) "id") <> Some (gs_id s)
        \/ gs_hotel_id s <> tenantHotelID (request_ctx rq) -> s' = s).

Lemma stays_after_follows rq d d' :
  all_consistent d -> stays_after rq d d' -> follows rq d d' /\ all_consistent d'.
Proof.
  intros Hc [E | row E Hp Hr Ht | p f id E Hid Hk Hf].
  - split; [|intros s; rewrite E; apply Hc]. intros s Hs. exists s. rewrite E. repeat split; auto. constructor.
  - split.
    + intros s Hs. exists s. rewrite E. repeat split; auto; [apply in_insert_row; auto | constructor].
    + intros s. rewrite E. intros [Hs| ->]%in_insert_row; auto.
  - split.
    + intros s Hs. destruct (p s) eqn:Ep.
      * destruct (Hf s Hs Ep (Hc s Hs)) as (H1 & H2 & H3 & _). exists (f s).
        split; [rewrite E; apply in_update_rows; exists s; now rewrite Ep|]. repeat split; auto.
        destruct (stay_key_id _ _ _ (Hk s Hs Ep)) as [Hi Hh]. intros [H|H]; congruence.
      * exists s. split; [rewrite E; apply in_update_rows; exists s; now rewrite Ep|]. repeat split; auto. constructor.
    + intros s. rewrite E. intros (s0 & Hs & ->)%in_update_rows. destruct (p s0) eqn:Ep; [|auto].
      apply (Hf s0 Hs Ep (Hc s0 Hs)).
Qed.

Lemma serve_follows rq w d :
  sees Pool w d -> stays_ok d -> all_consistent d ->
  let d' := w_db (snd (serve (handle h rq) w)) in follows rq d d' /\ all_consistent d'.
Proof.
  intros Hw Hok Hc d'. destruct (serve_meets rq w d Hw) as [[H|[H _]] _].
  - apply stays_after_follows; [exact Hc | eapply serves_stays; [exact Hok | exact H]].
  - apply stays_after_follows; [exact Hc | now apply A_same; unfold d'; rewrite H].
Qed.
End Sequences.

(** ** Claims *)

(** C1: every request to the front desk either does exactly what the contract
    says of it (its guards held, it gives the answer the contract states, and the
    database it leaves is the one the contract builds: the stays, rooms, guests,
    folios, tasks, promotions and, for a booking that is paid, its settlement) or
    is answered with an error and leaves the database untouched, whichever
    statements fail in the driver.  A read whose error the code drops (the tax
    rate, the room and the stay read again) is what the database holds unless a
    statement of this very request was lost.  The settlement is pinned to the
    paisa, as in C4, for a price that adds up on books in order, and to its tables
    otherwise. *)
Theorem requests_all_or_nothing (env : Env) (jwt : Jwt) h rq d :
  let answer := serve (handle h rq) (start d) in
  serves h (lost_between 0 (w_stmts (snd answer))) rq d (fst answer) (w_db (snd answer)) \/ refused d (fst answer) (w_db (snd answer)).
Proof. apply (serve_meets h rq (start d)). split; reflexivity. Qed.

(** C3: no double booking: after any sequence of requests, with any statements
    failing, two different stays of one room that are not cancelled never
    overlap in time. *)
Theorem no_double_booking (env : Env) (jwt : Jwt) h rqs d (Hok : stays_ok d) :
  let d' := w_db (serve_all h rqs (start d)) in
  forall a b, In a (guest_stays d') -> In b (guest_stays d') -> gs_id a <> gs_id b ->
  gs_room_id a = gs_room_id b -> gs_status a <> "cancelled" -> gs_status b <> "cancelled" ->
  ranges_overlap (gs_check_in_date a) (gs_check_out_date a) (gs_check_in_date b) (gs_check_out_date b) = false.
Proof.
  intros d' a b Ha Hb Hne Hroom Hla Hlb.
  assert (H : stays_ok d').
  { unfold d'. assert (Hw : sees Pool (start d) d) by (split; reflexivity).
    clear -Hok Hw. revert Hw. generalize (start d) as w. revert d Hok.
    induction rqs as [|rq rqs IH]; intros d Hok w Hw; cbn.
    - destruct Hw as [_ <-]. exact Hok.
    - eapply IH; [eapply serve_safe; eassumption | eapply serve_meets; exact Hw]. }
  pose proof (so_excl d' H a b Ha Hb Hne) as He. unfold excluded_pair, live, ueq in He.
  apply String.eqb_neq in Hla, Hlb. rewrite Hla, Hlb, Hroom, N.eqb_refl in He. exact He.
Qed.

(** C2: the life cycle of a stay.  Through any sequence of requests a stay goes
    from booked to in house to departed, or from booked to cancelled, and
    nothing else; it is never lost, and its status column always agrees with its
    two time stamps. *)
Theorem stay_lifecycle (env : Env) (jwt : Jwt) h rqs d (Hok : stays_ok d) (Hc : all_consistent d) :
  let d' := w_db (serve_all h rqs (start d)) in
  all_consistent d' /\
  forall s, In s (guest_stays d) -> exists s', In s' (guest_stays d')
    /\ gs_id s' = gs_id s /\ gs_hotel_id s' = gs_hotel_id s /\ precedes (phase s) (phase s').
Proof.
  cbv zeta. assert (Hw : sees Pool (start d) d) by (split; reflexivity).
  revert Hw. generalize (start d) as w. revert d Hok Hc. induction rqs as [|rq rqs IH]; intros d Hok Hc w Hw; cbn.
  - destruct Hw as [_ <-]. split; [exact Hc|]. intros s Hs. exists s. repeat split; auto. constructor.
  - destruct (serve_follows h rq w d Hw Hok Hc) as [Hf Hc'].
    destruct (IH _ (serve_safe h rq w d Hw Hok) Hc' (snd (serve (handle h rq) w))) as [Hcc Hrest];
      [apply (serve_meets h rq w d Hw)|].
    split; [exact Hcc|]. intros s Hs. destruct (Hf s Hs) as (s1 & Hs1 & H1 & H2 & H3 & _).
    destruct (Hrest s1 Hs1) as (s' & Hs' & H4 & H5 & H6). exists s'. split; [exact Hs'|].
    split; [congruence|]. split; [congruence | eapply moves_precedes; eassumption].
Qed.

(** A request moves only the stay it addresses, and only in its own way:
    arrival by a check-in, departure by a check-out, cancellation by a cancel;
    every other stay, and every stay of another tenant, is left as it was. *)
Theorem one_stay_at_a_time (env : Env) (jwt : Jwt) h rq d (Hok : stays_ok d) (Hc : all_consistent d) :
  follows rq d (w_db (snd (serve (handle h rq) (start d)))).
Proof. apply (serve_follows h rq (start d) d); [split; reflexivity | exact Hok | exact Hc]. Qed.

(** A caller without the roles of the endpoint (front-desk roles, manager
    roles for cancelling) is answered 401 or 403 before any statement is
    executed, any number drawn or any message sent. *)
Theorem unauthorised_requests_stop (env : Env) (jwt : Jwt) h rq w verdict
  (Hgate : (match rq with RqCancel c _ => requireFrontDeskManager h c | _ => requireFrontDesk h (request_ctx rq) end) = Some verdict) :
  serve (handle h rq) w = (RespError (fst verdict) (snd verdict), w <| w_tx := NoTx |>)
  /\ (fst verdict = 401 \/ fst verdict = 403).
Proof.
  destruct verdict as [st msg]. split.
  - destruct rq; cbn [handle request_ctx] in *; unfold serve;
      unfold List_, Get, Calendar, Quote, Create, Update, Cancel, CheckIn, CheckOut, MoveRoom; rewrite Hgate; reflexivity.
  - assert (Hv : forall c roles, requireAnyRoleFromToken c (AccessTokenSecret h) roles = Some (st, msg) -> st = 401 \/ st = 403).
    { intros c roles. unfold requireAnyRoleFromToken. destruct (jwtClaimsFromRequest _ _) as [cl|]; [|intros [= <- _]; auto].
      destruct (cl_roles cl); [|intros [= <- _]; auto]. destruct (existsb _ _); [discriminate | intros [= <- _]; auto]. }
    destruct rq; exact (Hv _ _ Hgate).
Qed.

(** *** A day at hotel 1 *)

Definition desk : ReservationHandler := {| AccessTokenSecret := "secret"; has_email := true; has_sms := true |}.
Definition deluxe (id : uuid) (no : string) : RoomRow :=
  {| rm_id := id; rm_hotel_id := 1; rm_room_number := no; rm_room_type := "Deluxe"; rm_floor := 2; rm_capacity := 3;
     rm_price_per_night := 450000; rm_status := "available"; rm_amenities := [];
     rm_created_at := Date 2026 1 1 0 0 0; rm_updated_at := Date 2026 1 1 0 0 0 |}.
Definition booked_stay : StayRow :=
  {| gs_id := 301; gs_hotel_id := 1; gs_guest_id := None; gs_room_id := 201; gs_guest_name := "Asha Rao";
     gs_guest_email := Some "asha@example.com"; gs_guest_phone := Some "9811122333";
     gs_check_in_date := Date 2026 3 10 14 0 0; gs_check_out_date := Date 2026 3 13 11 0 0;
     gs_actual_check_in := None; gs_actual_check_out := None; gs_total_amount := Some 1350000; gs_notes := None;
     gs_source := Some "Direct"; gs_created_by := None; gs_created_at := Date 2026 3 1 0 0 0;
     gs_updated_at := Date 2026 3 1 0 0 0; gs_status := "confirmed"; gs_confirmation_no := Some "RES-20260310-000001";
     gs_cancelled_at := None; gs_cancellation_reason := None; gs_cancellation_fee := 0; gs_adults := 2; gs_children := 0;
     gs_approach_type := "manual"; gs_discount_amount := 0; gs_tax_amount := 243000; gs_promo_code := None;
     gs_cancelled_by := None |}.
Definition one_booking : DB :=
  empty_db <| hotels := [ {| ho_id := 1; ho_name := "Serenentra"; ho_slug := "serenentra"; ho_gst_rate := Some 1800%Z; ho_is_active := true; ho_plan_tier := "premium"; ho_modules := []; ho_address := None; ho_settings := []; ho_identity := no_identity |} ]%N |>
           <| rooms := [deluxe 201 "201"; deluxe 202 "202"] |> <| guest_stays := [booked_stay] |>.

Lemma one_booking_ok : stays_ok one_booking.
Proof.
  split.
  - intros a b [<-|[]] [<-|[]] H. contradiction.
  - intros a [<-|[]]. reflexivity.
  - intros a b [<-|[]] [<-|[]] _. reflexivity.
Qed.
Lemma one_booking_consistent : all_consistent one_booking.
Proof. intros s [<-|[]]. reflexivity. Qed.

(** A receptionist moves Asha to room 202 and checks her in, books 201 for the
    same nights for the next guest, and checks Asha out. *)
Definition busy_day : list Request :=
  let asha := demo_request "receptionist@1" "301" in
  [ RqMoveRoom asha (Some {| mr_RoomID := "202"; mr_Reason := "view" |}); RqCheckIn asha;
    RqCreate (demo_request "receptionist@1" "") (Some ask); RqCheckOut asha ].

(** Asha checks in: her room is occupied, a guest is on file and her folio open. *)
Lemma requests_all_or_nothing_witness :
  let rq := RqCheckIn (demo_request "receptionist@1" "301") in
  let answer := serve (handle (env := calm) (jwt := demo_jwt) desk rq) (start one_booking) in
  fst answer = RespOK (BStatus "checked_in")
  /\ map rm_status (rooms (w_db (snd answer))) = ["occupied"; "available"]
  /\ map gu_full_name (guests (w_db (snd answer))) = ["Asha Rao"]
  /\ map (fun f => (fo_booking_id f, fo_status f)) (folios (w_db (snd answer))) = [(301%N, "open")]
  /\ serves (env := calm) (jwt := demo_jwt) desk (lost_between (env := calm) 0 (w_stmts (snd answer))) rq one_booking (fst answer) (w_db (snd answer)).
Proof.
  intros rq answer. do 4 (split; [vm_compute; reflexivity|]).
  destruct (requests_all_or_nothing calm demo_jwt desk rq one_booking) as [H|[_ (st & msg & E)]]; [exact H|].
  vm_compute in E. discriminate E.
Defined.

Lemma no_double_booking_witness :
  let d' := w_db (serve_all (env := calm) (jwt := demo_jwt) desk busy_day (start one_booking)) in
  map (fun s => (gs_room_id s, gs_status s)) (guest_stays d') = [(202%N, "checked_out"); (201%N, "confirmed")]
  /\ forall a b, In a (guest_stays d') -> In b (guest_stays d') -> gs_id a <> gs_id b ->
     gs_room_id a = gs_room_id b -> gs_status a <> "cancelled" -> gs_status b <> "cancelled" ->
     ranges_overlap (gs_check_in_date a) (gs_check_out_date a) (gs_check_in_date b) (gs_check_out_date b) = false.
Proof.
  intros d'. split; [vm_compute; reflexivity|].
  exact (no_double_booking calm demo_jwt desk busy_day one_booking one_booking_ok).
Defined.

Lemma stay_lifecycle_witness :
  let d' := w_db (serve_all (env := calm) (jwt := demo_jwt) desk busy_day (start one_booking)) in
  map phase (guest_stays d') = [Departed; Booked] /\ all_consistent d'.
Proof.
  intros d'. split; [vm_compute; reflexivity|].
  exact (proj1 (stay_lifecycle calm demo_jwt desk busy_day one_booking one_booking_ok one_booking_consistent)).
Defined.

Lemma one_stay_at_a_time_witness :
  follows (env := calm) (RqCancel (demo_request "hotel_admin@1" "301") None) one_booking
    (w_db (snd (serve (handle (env := calm) (jwt := demo_jwt) desk (RqCancel (demo_request "hotel_admin@1" "301") None)) (start one_booking))))
  /\ map phase (guest_stays (w_db (snd (serve (handle (env := calm) (jwt := demo_jwt) desk
       (RqCancel (demo_request "hotel_admin@1" "301") None)) (start one_booking))))) = [Cancelled].
Proof.
  split; [|vm_compute; reflexivity].
  exact (one_stay_at_a_time calm demo_jwt desk _ one_booking one_booking_ok one_booking_consistent).
Defined.

(** A receptionist may not cancel. *)
Lemma unauthorised_requests_stop_witness :
  serve (handle (env := calm) (jwt := demo_jwt) desk (RqCancel (demo_request "receptionist@1" "301") None)) (start one_booking)
  = (RespError 403 "access denied", start one_booking).
Proof.
  exact (proj1 (unauthorised_requests_stop calm demo_jwt desk (RqCancel (demo_request "receptionist@1" "301") None)
                  (start one_booking) (403, "access denied") eq_refl)).
Defined.
