(* ===== verification/DineIn.v ===== *)
(** DineIn: internal/handler/pos_dinein_handler.go, the seating half: restaurant
    tables, dining sessions and kitchen order tickets (KOTs) with their items.

    The tables carry the constraints of internal/repository/postgres/schema.go;
    ids that the server generates are drawn like the others.  The raw JSON of an
    item's modifiers is kept with the price deltas json.Unmarshal reads in it. *)

From S2P Require Import Prelude GoLib Schema Binary64 World Auth Ledger Customers Settlement.
From Stdlib Require Import QArith.
Local Open Scope string_scope.
Local Open Scope Z_scope.

(** ** Money and state-machine helpers *)

Definition kotTransitions : list (string * list string) :=
  [ ("draft", ["sent"; "cancelled"]);
    ("sent", ["acknowledged"; "preparing"; "cancelled"]);
    ("acknowledged", ["preparing"; "cancelled"]);
    ("preparing", ["ready"]);
    ("ready", ["served"]) ].

Definition canTransition (table : list (string * list string)) (from to : string) : bool :=
  existsb (fun e => (fst e =s from) && existsb (fun t => t =s to) (snd e)) table.

Definition validPaymentMethod (m : string) : bool :=
  existsb (String.eqb m) ["cash"; "card"; "upi"; "room_charge"; "wallet"].

(** ** Data *)

Record tableRow := {
  t_ID : uuid; t_OutletID : option uuid; t_TableNumber : string; t_Section : option string; t_Seats : Z;
  t_Status : string; t_PosX : option Z; t_PosY : option Z; t_IsActive : bool; t_CreatedAt : Time; t_UpdatedAt : Time }.

Record billRow := {
  b_ID : uuid; b_SessionID : uuid; b_BillNumber : string; b_Status : string; b_Subtotal : Q;
  b_DiscountType : option string; b_DiscountValue : Q; b_DiscountAmount : Q; b_TaxRate : Q; b_TaxAmount : Q;
  b_TipType : option string; b_TipValue : Q; b_TipAmount : Q; b_RoundingAdjust : Q; b_TotalAmount : Q;
  b_AmountPaid : Q; b_AmountDue : Q; b_Currency : string }.

Record createTableRequest := {
  ct_OutletID : option uuid; ct_TableNumber : string; ct_Section : option string; ct_Seats : Z;
  ct_PosX : option Z; ct_PosY : option Z }.

(** A member of UpdateTable's JSON object: a listed column with a value it takes,
    a listed column with a value the server refuses, or an unlisted key. *)
Inductive TableField :=
  | TF_table_number (v : string) | TF_section (v : option string) | TF_seats (v : Z) | TF_status (v : string)
  | TF_pos_x (v : option Z) | TF_pos_y (v : option Z) | TF_is_active (v : bool) | TF_refused | TF_unlisted.

Record openSessionRequest := {
  os_Covers : Z; os_GuestName : option string; os_CustomerType : string; os_GuestStayID : option uuid;
  os_Details : CustomerDetails }.

(** json.RawMessage: its text, and the price_delta of each element (None when
    the text is not an array of objects). *)
Record Modifiers := { md_raw : string; md_deltas : option (list Q) }.
Definition no_modifiers : Modifiers := {| md_raw := "[]"; md_deltas := Some [] |}.

Record kotItemRequest := {
  ir_MenuItemID : option uuid; ir_ItemName : string; ir_Quantity : Z; ir_UnitPrice : Q; ir_Modifiers : Modifiers;
  ir_Notes : option string; ir_HSNCode : option string }.
Record createKOTRequest := { kr_Station : option string; kr_Notes : option string; kr_Items : list kotItemRequest }.

(** What the endpoints answer. *)
Record loadedItem := {
  li_ID : uuid; li_MenuItemID : option uuid; li_Name : string; li_Quantity : Z; li_UnitPrice : Q;
  li_Modifiers : string; li_LineTotal : Q; li_Notes : option string; li_Status : string; li_VoidReason : option string }.
Record loadedKOT := {
  lk_ID : uuid; lk_Number : string; lk_Round : Z; lk_Status : string; lk_Station : option string;
  lk_Notes : option string; lk_SentAt : option Time; lk_ReadyAt : option Time; lk_ServedAt : option Time;
  lk_CreatedAt : Time; lk_Items : list loadedItem }.
Record listedSession := {
  se_ID : uuid; se_Number : string; se_TableID : uuid; se_Covers : Z; se_Status : string; se_GuestName : option string;
  se_OpenedAt : Time; se_BilledAt : option Time; se_ClosedAt : option Time }.

Inductive PosBody :=
  | PB_tables (l : list tableRow) | PB_table (t : tableRow) | PB_status (s : string)
  | PB_sessions (l : list listedSession)
  | PB_opened (id : uuid) (number : string) (table : uuid) (outlet : option uuid) (covers : Z) (ctype : string) (customer : option uuid)
  | PB_session (s : listedSession) (kots : list loadedKOT) (bill : option billRow)
  | PB_record (id : uuid) (status : string)
  | PB_kot (id : uuid) (number : string) (round : Z)
  | PB_voided (id : uuid) (reason : string)
  | PB_bill (b : billRow)
  | PB_payment (id : uuid) (number method : string) (amount change : Q) (status : string) (paid due : Q) (journal : option uuid)
  | PB_refund (id : uuid) (amount : Q) (reversal : option uuid)
  | PB_receipt (b : billRow) (items : list (string * Z * Q * Q)) (payments : list (string * Q * option Q * Q * string * option string))
  | PB_splits (enabled : bool) (splits : list (uuid * Z * string * Q)).

(** ** Constraints *)

Definition active_session (s : SessionRow) : bool := (ds_status s =s "open") || (ds_status s =s "billed").

(** UNIQUE (hotel_id, table_number), and the foreign key to outlets *)
Definition insert_table (row : TableRow) (d : DB) : GoErr + (TableRow * DB) :=
  if match rt_outlet_id row with Some o => negb (exists_row (fun x => ueq (ou_id x) o) (outlets d)) | None => false end
  then inl (ErrPg "23503")
  else if exists_row (fun t => ueq (rt_hotel_id t) (rt_hotel_id row) && (rt_table_number t =s rt_table_number row)) (tables d)
  then inl (ErrPg "23505")
  else inr (row, d <| tables ::= insert_row row |>).

(** PRIMARY KEY (id), UNIQUE (hotel_id, session_number) and uq_active_session_per_table *)
Definition session_violation (s : SessionRow) (others : list SessionRow) : bool :=
  exists_row (fun o => ueq (ds_id o) (ds_id s)) others
  || exists_row (fun o => ueq (ds_hotel_id o) (ds_hotel_id s) && (ds_session_number o =s ds_session_number s)) others
  || active_session s && exists_row (fun o => active_session o && ueq (ds_table_id o) (ds_table_id s)) others.
Definition insert_session (s : SessionRow) (d : DB) : GoErr + (unit * DB) :=
  if session_violation s (sessions d) then inl (ErrPg "23505") else inr (tt, d <| sessions ::= insert_row s |>).

(** UPDATE dining_sessions SET ... WHERE id = $1 *)
Definition update_session (id : uuid) (f : SessionRow -> SessionRow) (d : DB) : GoErr + (unit * DB) :=
  match find_row (fun s => ueq (ds_id s) id) (sessions d) with
  | Some s =>
      if session_violation (f s) (delete_rows (fun o => ueq (ds_id o) id) (sessions d)) then inl (ErrPg "23505")
      else inr (tt, d <| sessions ::= update_rows (fun o => ueq (ds_id o) id) f |>)
  | None => inr (tt, d)
  end.

(** PRIMARY KEY (id), UNIQUE (hotel_id, kot_number) *)
Definition insert_kot (k : KotRow) (d : DB) : GoErr + (unit * DB) :=
  if exists_row (fun o => ueq (kt_id o) (kt_id k) || ueq (kt_hotel_id o) (kt_hotel_id k) && (kt_number o =s kt_number k)) (kots d)
  then inl (ErrPg "23505") else inr (tt, d <| kots ::= insert_row k |>).

(** kot_items JOIN kots of one session, the cancelled items left out *)
Definition billable (sessionID : uuid) (d : DB) (ki : KotItemRow) : bool :=
  exists_row (fun k => ueq (kt_id k) (ki_kot_id ki) && ueq (kt_session_id k) sessionID) (kots d)
  && (ki_status ki !=s "cancelled").
Definition session_total (sessionID : uuid) (d : DB) : Z := sum_rows (billable sessionID d) ki_line_total (kot_items d).

Definition live_bill (sessionID : uuid) (b : BillDbRow) : bool :=
  ueq (bl_session_id b) sessionID && (bl_status b !=s "void").

Section DineIn.
Context {env : Env} {jwt : Jwt} (secret : string).

Definition scan_ts (t : Time) : Time := {| t_ns := t_ns t; t_off := server_off |}.

(** prefix-date-(milliseconds modulo 10^6) *)
Definition genNumber {E} (prefix : string) : M E string :=
  t1 ← time_now; t2 ← time_now;
  mret (prefix ++ "-" ++ fmt_date_compact t1 ++ "-" ++ fmt_d (Z.rem (unix_milli t2) 1000000)).

(** h.requireRoles(c, ...) *)
Definition requireRoles (c : Ctx) (allowed : list string) : option (Z * string) :=
  requireAnyRoleFromToken c secret allowed.
Definition param_id (c : Ctx) (name msg : string) : M (Resp PosBody) uuid :=
  of_option (uuid_parse (c_params c name)) (RespError 400 msg).
Definition failing {A} (m : M GoErr A) (status : Z) (msg : string) : M (Resp PosBody) A :=
  on_err m (fun _ => RespError status msg).
(** response.Error(c, status, err.Error()) *)
Definition failing_text {A} (m : M GoErr A) (status : Z) (prefix : string) : M (Resp PosBody) A :=
  on_err m (fun e => RespError status (prefix ++ err_text e)).

(** The INSERT names neither hotel_id nor resource_type, which migration 002 makes
    NOT NULL: the server refuses it, and the error is dropped. *)
Definition insert_pos_audit (row : AuditRow) (d : DB) : GoErr + (unit * DB) := inl (ErrPg "23502").
Definition audit {E} (c : Ctx) (action tableName : string) (recordID : uuid) : M E unit :=
  id ← new_uuid;
  attempt (exec Pool (insert_pos_audit
    {| au_id := id; au_user_id := userID secret c; au_action := action; au_table := tableName;
       au_record_id := recordID |})) ;;
  mret tt.

(** ** Tables *)

Definition scanTable (t : TableRow) : tableRow :=
  {| t_ID := rt_id t; t_OutletID := rt_outlet_id t; t_TableNumber := rt_table_number t; t_Section := rt_section t;
     t_Seats := rt_seats t; t_Status := rt_status t; t_PosX := rt_pos_x t; t_PosY := rt_pos_y t;
     t_IsActive := rt_is_active t; t_CreatedAt := scan_ts (rt_created_at t); t_UpdatedAt := scan_ts (rt_updated_at t) |}.

Definition ListTables (c : Ctx) : M (Resp PosBody) (Resp PosBody) :=
  let status := c_query c "status" in let outlet := c_query c "outlet_id" in
  (if (outlet !=s "") && bool_decide (uuid_parse outlet = None)
   then throw (RespError 500 "failed to list tables") else mret tt) ;;
  rows ← failing (query Pool (fun d => map scanTable
           (order_by (fun a b => String.leb (rt_table_number a) (rt_table_number b))
             (select (fun t => ueq (rt_hotel_id t) (hotelID secret c)
                               && ((status =s "") || (rt_status t =s status))
                               && ((outlet =s "") || bool_decide (rt_outlet_id t = uuid_parse outlet))) (tables d)))))
         500 "failed to list tables";
  mret (RespOK (PB_tables rows)).

Definition tableAdmins : list string := ["admin"; "hotel_admin"; "super_admin"; "food_manager"; "platform_admin"].

Definition CreateTable (c : Ctx) (body : option createTableRequest) : M (Resp PosBody) (Resp PosBody) :=
  guard (requireRoles c tableAdmins) ;;
  req ← of_option body (RespError 400 "invalid request body");
  throw_if (TrimSpace (ct_TableNumber req) =s "") (RespError 422 "table_number is required") ;;
  let seats := if ct_Seats req <=? 0 then 2 else ct_Seats req in
  id ← new_uuid; now ← time_now;
  row ← failing_text (exec Pool (insert_table
    {| rt_id := id; rt_hotel_id := hotelID secret c; rt_outlet_id := ct_OutletID req;
       rt_table_number := ct_TableNumber req; rt_section := ct_Section req; rt_seats := seats;
       rt_status := "available"; rt_pos_x := ct_PosX req; rt_pos_y := ct_PosY req; rt_is_active := true;
       rt_created_at := now; rt_updated_at := now |})) 400 "";
  mret (RespCreated (PB_table (scanTable row))).

Definition table_field_allowed (f : TableField) : bool := match f with TF_unlisted => false | _ => true end.
Definition set_table_field (t : TableRow) (f : TableField) : TableRow :=
  match f with
  | TF_table_number v => t <| rt_table_number := v |>
  | TF_section v => t <| rt_section := v |>
  | TF_seats v => t <| rt_seats := v |>
  | TF_status v => t <| rt_status := v |>
  | TF_pos_x v => t <| rt_pos_x := v |>
  | TF_pos_y v => t <| rt_pos_y := v |>
  | TF_is_active v => t <| rt_is_active := v |>
  | TF_refused | TF_unlisted => t
  end.
Definition table_key (hid id : uuid) (t : TableRow) : bool := ueq (rt_id t) id && ueq (rt_hotel_id t) hid.

(** UPDATE ... RETURNING: refused on a bad value or a duplicate number, no row when the table is not the tenant's *)
Definition update_table (hid id : uuid) (set : list TableField) (now : Time) (d : DB) : GoErr + (option TableRow * DB) :=
  if existsb (fun f => match f with TF_refused => true | _ => false end) set then inl (ErrPg "22P02")
  else
    match find_row (table_key hid id) (tables d) with
    | None => inr (None, d)
    | Some t =>
        let f := fun t => (foldl set_table_field t set) <| rt_updated_at := now |> in
        if exists_row (fun o => negb (ueq (rt_id o) id) && ueq (rt_hotel_id o) hid
                                && (rt_table_number o =s rt_table_number (f t))) (tables d)
        then inl (ErrPg "23505")
        else inr (Some (f t), d <| tables ::= update_rows (table_key hid id) f |>)
    end.

Definition UpdateTable (c : Ctx) (body : option (list TableField)) : M (Resp PosBody) (Resp PosBody) :=
  guard (requireRoles c tableAdmins) ;;
  id ← param_id c "id" "invalid table id";
  raw ← of_option body (RespError 400 "invalid request body");
  let set := List.filter table_field_allowed raw in
  throw_if (Nat.eqb (length set) 0) (RespError 400 "no fields to update") ;;
  now ← time_now;
  row ← failing_text (o ← exec Pool (update_table (hotelID secret c) id set now); of_option o ErrNoRows) 400 "";
  mret (RespOK (PB_table (scanTable row))).

Definition CleanTable (c : Ctx) : M (Resp PosBody) (Resp PosBody) :=
  id ← param_id c "id" "invalid table id";
  now ← time_now;
  let p := fun t => table_key (hotelID secret c) id t && (rt_status t =s "cleaning") in
  n ← failing_text (exec_n Pool (fun d => (rows_affected p (tables d),
        d <| tables ::= update_rows p (fun t => t <| rt_status := "available" |> <| rt_updated_at := now |>) |>))) 400 "";
  throw_if (Nat.eqb n 0) (RespError 409 "table is not in cleaning status") ;;
  mret (RespOK (PB_status "available")).

Definition set_table_status (c : Conn) (id : uuid) (status : string) : M GoErr unit :=
  now ← time_now;
  exec c (fun d => inr (tt, d <| tables ::= update_rows (fun t => ueq (rt_id t) id)
    (fun t => t <| rt_status := status |> <| rt_updated_at := now |>) |>)).

(** ** Dining sessions *)

Definition listSession (s : SessionRow) : listedSession :=
  {| se_ID := ds_id s; se_Number := ds_session_number s; se_TableID := ds_table_id s; se_Covers := ds_covers s;
     se_Status := ds_status s; se_GuestName := ds_guest_name s; se_OpenedAt := scan_ts (ds_opened_at s);
     se_BilledAt := scan_ts <$> ds_billed_at s; se_ClosedAt := scan_ts <$> ds_closed_at s |}.
Definition session_key (hid id : uuid) (s : SessionRow) : bool := ueq (ds_id s) id && ueq (ds_hotel_id s) hid.

Definition ListSessions (c : Ctx) : M (Resp PosBody) (Resp PosBody) :=
  let status := c_query c "status" in
  rows ← failing (query Pool (fun d => map listSession
           (order_by (fun a b => t_ns (ds_opened_at b) <=? t_ns (ds_opened_at a))
             (select (fun s => ueq (ds_hotel_id s) (hotelID secret c)
                               && ((status =s "") || (ds_status s =s status))) (sessions d)))))
         500 "failed to list sessions";
  mret (RespOK (PB_sessions rows)).

(** The customer to link, or the nil id when there is none or it cannot be recorded. *)
Definition link_customer (hid : uuid) (details : CustomerDetails) : M (Resp PosBody) uuid :=
  r ← attempt (ensureAccountingCustomer Pool hid details);
  mret (match r with inr id => id | inl _ => uuid_nil end).

Definition open_session_tx (c : Ctx) (req : openSessionRequest) (tableID : uuid)
  : M (Resp PosBody) (uuid * string * option uuid * uuid) :=
  let hid := hotelID secret c in
  t ← failing (query_row Tx (fun d => find_row (table_key hid tableID) (tables d))) 404 "table not found";
  throw_if ((rt_status t !=s "available") && (rt_status t !=s "reserved")) (RespError 409 "table is not available") ;;
  let details0 := os_Details req in
  let details := if (cd_Name details0 =s "") && bool_decide (is_Some (os_GuestName req))
                 then details0 <| cd_Name := opt_str (os_GuestName req) |> else details0 in
  customerID ← link_customer hid details;
  number ← genNumber "DIN"; sid ← new_uuid; now ← time_now;
  failing (exec Tx (insert_session
    {| ds_id := sid; ds_hotel_id := hid; ds_session_number := number; ds_table_id := tableID;
       ds_outlet_id := rt_outlet_id t; ds_covers := if os_Covers req <=? 0 then 1 else os_Covers req;
       ds_status := "open"; ds_guest_name := os_GuestName req;
       ds_customer_type := if os_CustomerType req !=s "hotel_guest" then "walk_in" else os_CustomerType req;
       ds_guest_stay_id := os_GuestStayID req; ds_opened_by := userID secret c; ds_closed_by := None;
       ds_guest_phone := nullif (cd_Phone details); ds_guest_email := nullif (cd_Email details);
       ds_guest_gstin := nullif (cd_GSTIN details); ds_customer_id := nilAsNull customerID;
       ds_opened_at := now; ds_billed_at := None; ds_closed_at := None |}))
    409 "table already has an active session" ;;
  failing (set_table_status Tx tableID "occupied") 500 "failed to occupy table" ;;
  mret (sid, number, rt_outlet_id t, customerID).

Definition OpenSession (c : Ctx) (body : option openSessionRequest) : M (Resp PosBody) (Resp PosBody) :=
  tableID ← param_id c "id" "invalid table id";
  req ← of_option body (RespError 400 "invalid request body");
  r ← tx_block "failed to start transaction" "failed to open session" (open_session_tx c req tableID);
  let '(sid, number, outlet, customerID) := r in
  audit c "session.opened" "dining_session" sid ;;
  mret (RespCreated (PB_opened sid number tableID outlet (if os_Covers req <=? 0 then 1 else os_Covers req)
    (if os_CustomerType req !=s "hotel_guest" then "walk_in" else os_CustomerType req) (nilAsNull customerID))).

Definition close_session_tx (c : Ctx) (id : uuid) : M (Resp PosBody) unit :=
  s ← failing (query_row Tx (fun d => find_row (session_key (hotelID secret c) id) (sessions d))) 404 "session not found";
  throw_if (ds_status s !=s "settled") (RespError 409 "session must be settled (bill paid) before closing") ;;
  now ← time_now;
  failing (exec Tx (update_session id (fun s => s <| ds_status := "closed" |> <| ds_closed_by := userID secret c |>
                                                  <| ds_closed_at := Some now |>))) 500 "failed to close session" ;;
  failing (set_table_status Tx (ds_table_id s) "cleaning") 500 "failed to release table".

Definition CloseSession (c : Ctx) : M (Resp PosBody) (Resp PosBody) :=
  id ← param_id c "id" "invalid session id";
  tx_block "failed to start transaction" "failed to close session" (close_session_tx c id) ;;
  audit c "session.closed" "dining_session" id ;;
  mret (RespOK (PB_record id "closed")).

(** ** KOTs *)

Definition loadItem (ki : KotItemRow) : loadedItem :=
  {| li_ID := ki_id ki; li_MenuItemID := ki_menu_item_id ki; li_Name := ki_item_name ki; li_Quantity := ki_quantity ki;
     li_UnitPrice := num_dec (ki_unit_price ki); li_Modifiers := if ki_modifiers ki =s "" then "[]" else ki_modifiers ki;
     li_LineTotal := num_dec (ki_line_total ki); li_Notes := ki_notes ki; li_Status := ki_status ki;
     li_VoidReason := ki_void_reason ki |}.
Definition loadKOT (k : KotRow) (items : list loadedItem) : loadedKOT :=
  {| lk_ID := kt_id k; lk_Number := kt_number k; lk_Round := kt_round_no k; lk_Status := kt_status k;
     lk_Station := kt_station k; lk_Notes := kt_notes k; lk_SentAt := scan_ts <$> kt_sent_at k;
     lk_ReadyAt := scan_ts <$> kt_ready_at k; lk_ServedAt := scan_ts <$> kt_served_at k;
     lk_CreatedAt := scan_ts (kt_created_at k); lk_Items := items |}.

(** One query for the KOTs, then one for the items of each. *)
Fixpoint attach_items (ks : list KotRow) : M GoErr (list loadedKOT) :=
  match ks with
  | [] => mret []
  | k :: ks' =>
      items ← query Pool (fun d => map loadItem
        (order_by (fun a b => t_ns (ki_created_at a) <=? t_ns (ki_created_at b))
          (select (fun ki => ueq (ki_kot_id ki) (kt_id k)) (kot_items d))));
      rest ← attach_items ks';
      mret (loadKOT k items :: rest)
  end.
Definition loadKOTs (sessionID : uuid) : M GoErr (list loadedKOT) :=
  ks ← query Pool (fun d => order_by (fun a b => kt_round_no a <=? kt_round_no b)
         (select (fun k => ueq (kt_session_id k) sessionID) (kots d)));
  attach_items ks.

Definition scanBill (b : BillDbRow) : billRow :=
  {| b_ID := bl_id b; b_SessionID := bl_session_id b; b_BillNumber := bl_bill_number b; b_Status := bl_status b;
     b_Subtotal := num_dec (bl_subtotal b); b_DiscountType := bl_discount_type b;
     b_DiscountValue := num_dec (bl_discount_value b); b_DiscountAmount := num_dec (bl_discount_amount b);
     b_TaxRate := num_dec (bl_tax_rate b); b_TaxAmount := num_dec (bl_tax_amount b); b_TipType := bl_tip_type b;
     b_TipValue := num_dec (bl_tip_value b); b_TipAmount := num_dec (bl_tip_amount b);
     b_RoundingAdjust := num_dec (bl_rounding_adjust b); b_TotalAmount := num_dec (bl_total_amount b);
     b_AmountPaid := num_dec (bl_amount_paid b); b_AmountDue := num_dec (bl_amount_due b); b_Currency := bl_currency b |}.
Definition load_live_bill (c : Conn) (sessionID : uuid) : M GoErr billRow :=
  query_row c (fun d => scanBill <$> find_row (live_bill sessionID) (bills d)).
Definition loadBillBySession (sessionID : uuid) : M GoErr billRow := load_live_bill Pool sessionID.

Definition GetSession (c : Ctx) : M (Resp PosBody) (Resp PosBody) :=
  id ← param_id c "id" "invalid session id";
  s ← failing (query_row Pool (fun d => find_row (session_key (hotelID secret c) id) (sessions d))) 404 "session not found";
  ks ← failing (loadKOTs id) 500 "failed to load kots";
  bill ← attempt (loadBillBySession id);
  mret (RespOK (PB_session ((listSession s) <| se_BilledAt := None |> <| se_ClosedAt := None |>) ks (match bill with inr b => Some b | inl _ => None end))).

(** The sum of the modifiers' price deltas, 0 when they cannot be read. *)
Definition sumModifierDeltas (m : Modifiers) : Q :=
  match md_deltas m with Some l => foldl fadd 0%Q l | None => 0%Q end.
Definition item_modifiers (it : kotItemRequest) : Modifiers :=
  if md_raw (ir_Modifiers it) =s "" then no_modifiers else ir_Modifiers it.
Definition line_total (it : kotItemRequest) : Q :=
  round2 (fmul (fadd (ir_UnitPrice it) (sumModifierDeltas (item_modifiers it))) (of_int (ir_Quantity it))).

Definition add_item (hid kotID : uuid) (it : kotItemRequest) : M (Resp PosBody) unit :=
  let hsn := match ir_HSNCode it with Some s => if TrimSpace s =s "" then None else Some s | None => None end in
  iid ← new_uuid; now ← time_now;
  failing_text (exec Tx (fun d => inr (tt, d <| kot_items ::= insert_row
    {| ki_id := iid; ki_hotel_id := hid; ki_kot_id := kotID; ki_menu_item_id := ir_MenuItemID it;
       ki_item_name := ir_ItemName it; ki_quantity := ir_Quantity it; ki_unit_price := num_enc (ir_UnitPrice it);
       ki_modifiers := md_raw (item_modifiers it); ki_line_total := num_enc (line_total it); ki_notes := ir_Notes it;
       ki_hsn_code := hsn; ki_status := "queued"; ki_void_reason := None; ki_voided_by := None;
       ki_created_at := now |} |>))) 400 "failed to add kot item: ".

(** COALESCE(MAX(round_no), 0) + 1 *)
Definition next_round (sessionID : uuid) (d : DB) : Z :=
  match select (fun k => ueq (kt_session_id k) sessionID) (kots d) with
  | [] => 1
  | k :: ks => foldl (fun m k => Z.max m (kt_round_no k)) (kt_round_no k) ks + 1
  end.

Definition create_kot_tx (c : Ctx) (req : createKOTRequest) (sessionID : uuid) : M (Resp PosBody) (uuid * string * Z) :=
  let hid := hotelID secret c in
  s ← failing (query_row Tx (fun d => find_row (session_key hid sessionID) (sessions d))) 404 "session not found";
  throw_if ((ds_status s !=s "open") && (ds_status s !=s "billed"))
    (RespError 409 ("cannot add items to a " ++ ds_status s ++ " session")) ;;
  r ← attempt (query Tx (next_round sessionID));
  let roundNo := match r with inr n => n | inl _ => 0 end in
  number ← genNumber "KOT"; kotID ← new_uuid; now ← time_now;
  failing (exec Tx (insert_kot
    {| kt_id := kotID; kt_hotel_id := hid; kt_session_id := sessionID; kt_number := number; kt_round_no := roundNo;
       kt_status := "draft"; kt_station := kr_Station req; kt_notes := kr_Notes req; kt_created_by := userID secret c;
       kt_sent_at := None; kt_ready_at := None; kt_served_at := None; kt_created_at := now |}))
    500 "failed to create kot" ;;
  for_each (add_item hid kotID) (kr_Items req) ;;
  (if ds_status s =s "billed"
   then attempt (exec Tx (update_session sessionID (fun s => s <| ds_status := "open" |>))) ;; mret tt else mret tt) ;;
  mret (kotID, number, roundNo).

Definition CreateKOT (c : Ctx) (body : option createKOTRequest) : M (Resp PosBody) (Resp PosBody) :=
  sessionID ← param_id c "id" "invalid session id";
  req ← of_option body (RespError 400 "invalid request body");
  throw_if (Nat.eqb (length (kr_Items req)) 0) (RespError 422 "at least one item is required") ;;
  throw_if (existsb (fun it => (TrimSpace (ir_ItemName it) =s "") || (ir_Quantity it <=? 0)) (kr_Items req))
    (RespError 422 "each item needs a name and quantity > 0") ;;
  r ← tx_block "failed to start transaction" "failed to create kot" (create_kot_tx c req sessionID);
  let '(kotID, number, roundNo) := r in
  audit c "kot.created" "kot" kotID ;;
  mret (RespCreated (PB_kot kotID number roundNo)).

Definition kot_key (hid id : uuid) (k : KotRow) : bool := ueq (kt_id k) id && ueq (kt_hotel_id k) hid.

Definition SendKOT (c : Ctx) : M (Resp PosBody) (Resp PosBody) :=
  id ← param_id c "id" "invalid kot id";
  now ← time_now;
  let p := fun k => kot_key (hotelID secret c) id k && (kt_status k =s "draft") in
  n ← failing_text (exec_n Pool (fun d => (rows_affected p (kots d),
        d <| kots ::= update_rows p (fun k => k <| kt_status := "sent" |> <| kt_sent_at := Some now |>) |>))) 400 "";
  throw_if (Nat.eqb n 0) (RespError 409 "kot is not in draft status") ;;
  audit c "kot.sent" "kot" id ;;
  mret (RespOK (PB_record id "sent")).

(** The columns UpdateKOTStatus sets. *)
Definition advance_kot (status : string) (now : Time) (k : KotRow) : KotRow :=
  let k1 := k <| kt_status := status |> in
  if status =s "ready" then k1 <| kt_ready_at := Some now |>
  else if status =s "served" then k1 <| kt_served_at := Some now |>
  else k1.
Definition mirrored (status : string) : bool := (status =s "preparing") || (status =s "ready") || (status =s "served").

Definition update_kot_tx (c : Ctx) (id : uuid) (status : string) : M (Resp PosBody) unit :=
  k ← failing (query_row Tx (fun d => find_row (kot_key (hotelID secret c) id) (kots d))) 404 "kot not found";
  throw_if (negb (canTransition kotTransitions (kt_status k) status))
    (RespError 409 ("invalid transition: " ++ kt_status k ++ " -> " ++ status)) ;;
  now ← time_now;
  failing (exec Tx (fun d => inr (tt, d <| kots ::= update_rows (fun k => ueq (kt_id k) id) (advance_kot status now) |>)))
    500 "failed to update kot" ;;
  if mirrored status
  then failing (exec Tx (fun d => inr (tt, d <| kot_items ::=
         update_rows (fun ki => ueq (ki_kot_id ki) id && (ki_status ki !=s "cancelled"))
           (fun ki => ki <| ki_status := status |>) |>))) 500 "failed to update kot items"
  else mret tt.

Definition UpdateKOTStatus (c : Ctx) (body : option string) : M (Resp PosBody) (Resp PosBody) :=
  id ← param_id c "id" "invalid kot id";
  status ← of_option body (RespError 400 "invalid request body");
  tx_block "failed to start transaction" "failed to update kot" (update_kot_tx c id status) ;;
  audit c "kot.status_changed" "kot" id ;;
  mret (RespOK (PB_record id status)).
End DineIn.
