(* ===== verification/Billing.v ===== *)
(** Billing: internal/handler/pos_dinein_handler.go, the money half: voiding an
    item, the bill of a dining session with its discount, tax, tip and rounding,
    its payments and settlement, refunds and the receipt.

    The bills and bill_payments tables refuse amounts their NUMERIC columns
    cannot hold, and keep their keys unique. *)

From S2P Require Import Prelude GoLib Schema Binary64 World Auth Ledger Customers FolioCharge Settlement DineIn.
From Stdlib Require Import QArith.
Local Open Scope string_scope.
Local Open Scope Z_scope.

(** ** Constraints *)

Definition bill_fits (b : BillDbRow) : bool :=
  forallb money_fits [bl_subtotal b; bl_discount_value b; bl_discount_amount b; bl_tax_amount b; bl_tip_value b;
                      bl_tip_amount b; bl_rounding_adjust b; bl_total_amount b; bl_amount_paid b; bl_amount_due b]
  && (Z.abs (bl_tax_rate b) <? 10 ^ 5).

(** PRIMARY KEY (id), UNIQUE (hotel_id, bill_number), uq_one_bill_per_session *)
Definition bill_violation (b : BillDbRow) (others : list BillDbRow) : bool :=
  exists_row (fun o => ueq (bl_id o) (bl_id b)
                       || ueq (bl_hotel_id o) (bl_hotel_id b) && (bl_bill_number o =s bl_bill_number b)
                       || (bl_status b !=s "void") && live_bill (bl_session_id b) o) others.
Definition insert_bill (b : BillDbRow) (d : DB) : GoErr + (BillDbRow * DB) :=
  if negb (bill_fits b) then inl (ErrPg "22003")
  else if bill_violation b (bills d) then inl (ErrPg "23505")
  else inr (b, d <| bills ::= insert_row b |>).

(** UPDATE bills SET ... WHERE id = $1 RETURNING *)
Definition bill_id (id : uuid) (b : BillDbRow) : bool := ueq (bl_id b) id.
Definition update_bill (id : uuid) (f : BillDbRow -> BillDbRow) (d : DB) : GoErr + (option BillDbRow * DB) :=
  if exists_row (fun b => bill_id id b && negb (bill_fits (f b))) (bills d) then inl (ErrPg "22003")
  else inr (f <$> find_row (bill_id id) (bills d), d <| bills ::= update_rows (bill_id id) f |>).

Definition bill_payment_fits (p : BillPaymentRow) : bool :=
  money_fits (bp_amount p) && money_fits (default 0 (bp_tendered p)) && money_fits (bp_change_due p).
Definition insert_bill_payment (p : BillPaymentRow) (d : DB) : GoErr + (unit * DB) :=
  if bill_payment_fits p then inr (tt, d <| bill_payments ::= insert_row p |>) else inl (ErrPg "22003").

Definition bill_key (hid id : uuid) (b : BillDbRow) : bool := ueq (bl_id b) id && ueq (bl_hotel_id b) hid.

(** ** Totals *)

Definition typed (o : option string) (v : string) : bool := match o with Some s => s =s v | None => false end.

Definition with_totals (b : billRow) (discount tax tip total due : Q) : billRow :=
  b <| b_DiscountAmount := discount |> <| b_TaxAmount := tax |> <| b_TipAmount := tip |>
    <| b_TotalAmount := total |> <| b_AmountDue := due |>.

Definition computeTotals (b : billRow) : billRow :=
  let discount0 :=
    if typed (b_DiscountType b) "percent" then round2 (fdiv (fmul (b_Subtotal b) (b_DiscountValue b)) 100)
    else if typed (b_DiscountType b) "flat" then b_DiscountValue b
    else 0%Q in
  let discount := if flt (b_Subtotal b) discount0 then b_Subtotal b else discount0 in
  let taxable := fsub (b_Subtotal b) discount in
  let tax := round2 (fdiv (fmul taxable (b_TaxRate b)) 100) in
  let tip :=
    if typed (b_TipType b) "percent" then round2 (fdiv (fmul taxable (b_TipValue b)) 100)
    else if typed (b_TipType b) "flat" then b_TipValue b
    else 0%Q in
  let total := round2 (fadd (fadd (fadd taxable tax) tip) (b_RoundingAdjust b)) in
  with_totals b discount tax tip total (round2 (fsub total (b_AmountPaid b))).

Definition no_bill : billRow :=
  {| b_ID := uuid_nil; b_SessionID := uuid_nil; b_BillNumber := ""; b_Status := ""; b_Subtotal := 0; b_DiscountType := None;
     b_DiscountValue := 0; b_DiscountAmount := 0; b_TaxRate := 0; b_TaxAmount := 0; b_TipType := None; b_TipValue := 0;
     b_TipAmount := 0; b_RoundingAdjust := 0; b_TotalAmount := 0; b_AmountPaid := 0; b_AmountDue := 0; b_Currency := "" |}.

Record updateBillRequest := {
  ub_DiscountType : option string; ub_DiscountValue : option Q; ub_TaxRate : option Q;
  ub_TipType : option string; ub_TipValue : option Q; ub_RoundingAdjust : option Q }.

Record billPaymentRequest := {
  bq_Method : string; bq_Amount : Q; bq_Tendered : option Q; bq_TxnReference : option string; bq_Gateway : option string }.

(** *** The role lists of the guards *)
Definition cashiers : list string :=
  ["admin"; "hotel_admin"; "super_admin"; "receptionist"; "cashier"; "food_manager"; "platform_admin"].
Definition restaurantManagers : list string := ["admin"; "hotel_admin"; "super_admin"; "food_manager"; "platform_admin"].

(** The order of the receipt's items: round of their ticket, then creation. *)
Definition item_round (d : DB) (ki : KotItemRow) : Z :=
  match find_row (fun k => ueq (kt_id k) (ki_kot_id ki)) (kots d) with Some k => kt_round_no k | None => 0 end.
Definition receipt_order (d : DB) (a b : KotItemRow) : bool :=
  (item_round d a <? item_round d b)
  || (item_round d a =? item_round d b) && (t_ns (ki_created_at a) <=? t_ns (ki_created_at b)).

Section Billing.
Context {env : Env} {jwt : Jwt} (secret : string).

Definition load_bill (c : Conn) (hid id : uuid) : M (Resp PosBody) billRow :=
  failing (query_row c (fun d => scanBill <$> find_row (bill_key hid id) (bills d))) 404 "bill not found".

(** ** Voiding an item *)

Definition void_target (hid kotID itemID : uuid) (d : DB) : option (uuid * string) :=
  ki ← find_row (fun ki => ueq (ki_id ki) itemID && ueq (ki_kot_id ki) kotID && ueq (ki_hotel_id ki) hid
                 && exists_row (fun k => ueq (kt_id k) (ki_kot_id ki)) (kots d)) (kot_items d);
  k ← find_row (fun k => ueq (kt_id k) (ki_kot_id ki)) (kots d);
  Some (kt_session_id k, ki_status ki).

(** The columns recomputed from the bill in memory. *)
Definition retotal (b : billRow) (r : BillDbRow) : BillDbRow :=
  r <| bl_subtotal := num_enc (b_Subtotal b) |> <| bl_discount_amount := num_enc (b_DiscountAmount b) |>
    <| bl_tax_amount := num_enc (b_TaxAmount b) |> <| bl_tip_amount := num_enc (b_TipAmount b) |>
    <| bl_total_amount := num_enc (b_TotalAmount b) |> <| bl_amount_due := num_enc (b_AmountDue b) |>.

Definition void_item_tx (c : Ctx) (kotID itemID : uuid) (reason : string) : M (Resp PosBody) unit :=
  t ← failing (query_row Tx (void_target (hotelID secret c) kotID itemID)) 404 "kot item not found";
  let '(sessionID, itemStatus) := t in
  throw_if (itemStatus =s "cancelled") (RespError 409 "item is already voided") ;;
  r ← attempt (load_live_bill Tx sessionID);
  (match r with
   | inr b => throw_if (b_Status b !=s "open") (RespError 409 ("bill is " ++ b_Status b ++ "; cannot void an item on a locked bill"))
   | inl _ => mret tt
   end) ;;
  failing (exec Tx (fun d => inr (tt, d <| kot_items ::= update_rows (fun ki => ueq (ki_id ki) itemID)
    (fun ki => ki <| ki_status := "cancelled" |> <| ki_void_reason := Some reason |>
                  <| ki_voided_by := userID secret c |>) |>))) 500 "failed to void item" ;;
  match r with
  | inr b =>
      s ← failing (query Tx (fun d => num_dec (session_total sessionID d))) 500 "failed to recompute bill";
      let b' := computeTotals (b <| b_Subtotal := round2 s |>) in
      failing (exec Tx (update_bill (b_ID b) (retotal b'))) 500 "failed to update bill totals" ;;
      mret tt
  | inl _ => mret tt
  end.

Definition VoidKOTItem (c : Ctx) (body : option string) : M (Resp PosBody) (Resp PosBody) :=
  guard (requireRoles secret c cashiers) ;;
  kotID ← param_id c "id" "invalid kot id";
  itemID ← param_id c "itemId" "invalid item id";
  raw ← of_option body (RespError 400 "invalid request body");
  let reason := TrimSpace raw in
  throw_if (reason =s "") (RespError 422 "a void reason is required") ;;
  tx_block "failed to start transaction" "failed to void item" (void_item_tx c kotID itemID reason) ;;
  audit secret c "kot_item.voided" "kot_item" itemID ;;
  mret (RespOK (PB_voided itemID reason)).

(** ** The bill of a session *)

(** The outlet's rate and currency, or the hotel's rate; what the row does not
    give stays at 0 and INR. *)
Definition default_tax (hid : uuid) (outlet : option uuid) : M (Resp PosBody) (Q * string) :=
  match outlet with
  | Some o =>
      r ← attempt (query_row Tx (fun d => (fun x => (num_dec (ou_default_tax_rate x), ou_currency x))
                                            <$> find_row (fun x => ueq (ou_id x) o) (outlets d)));
      mret (match r with inr p => p | inl _ => (0%Q, "INR") end)
  | None =>
      r ← attempt (query_row Tx (fun d => (fun x => num_dec (default 0 (ho_gst_rate x)))
                                            <$> find_row (fun x => ueq (ho_id x) hid) (hotels d)));
      mret (match r with inr rate => (rate, "INR") | inl _ => (0%Q, "INR") end)
  end.

Definition mark_billed (now : Time) (s : SessionRow) : SessionRow :=
  s <| ds_status := "billed" |> <| ds_billed_at := Some now |>.

Definition generate_bill_tx (c : Ctx) (sessionID : uuid) : M (Resp PosBody) billRow :=
  let hid := hotelID secret c in
  s ← failing (query_row Tx (fun d => find_row (session_key hid sessionID) (sessions d))) 404 "session not found";
  throw_if ((ds_status s =s "closed") || (ds_status s =s "cancelled")) (RespError 409 ("session is " ++ ds_status s)) ;;
  existing ← attempt (load_live_bill Tx sessionID);
  (match existing with inr b => throw (RespOK (PB_bill b)) | inl _ => mret tt end) ;;
  subtotal ← failing (query Tx (fun d => num_dec (session_total sessionID d))) 500 "failed to total items";
  throw_if (fle subtotal 0) (RespError 422 "no billable items in this session") ;;
  tc ← default_tax hid (ds_outlet_id s);
  let b := computeTotals (no_bill <| b_Subtotal := round2 subtotal |> <| b_TaxRate := fst tc |> <| b_Currency := snd tc |>) in
  number ← genNumber "BILL"; id ← new_uuid;
  row ← failing (exec Tx (insert_bill
    {| bl_id := id; bl_hotel_id := hid; bl_session_id := sessionID; bl_outlet_id := ds_outlet_id s;
       bl_bill_number := number; bl_status := "open"; bl_subtotal := num_enc (b_Subtotal b);
       bl_discount_type := None; bl_discount_value := 0; bl_discount_amount := 0;
       bl_tax_rate := num_enc (b_TaxRate b); bl_tax_amount := num_enc (b_TaxAmount b);
       bl_tip_type := None; bl_tip_value := 0; bl_tip_amount := 0; bl_rounding_adjust := 0;
       bl_total_amount := num_enc (b_TotalAmount b); bl_amount_paid := 0; bl_amount_due := num_enc (b_AmountDue b);
       bl_currency := b_Currency b; bl_generated_by := userID secret c; bl_customer_id := None;
       bl_finalized_at := None; bl_paid_at := None |})) 409 "a bill already exists for this session";
  now ← time_now;
  failing (exec Tx (update_session sessionID (mark_billed now))) 500 "failed to mark session billed" ;;
  attempt (set_table_status Tx (ds_table_id s) "billed") ;;
  mret (scanBill row).

Definition GenerateBill (c : Ctx) : M (Resp PosBody) (Resp PosBody) :=
  sessionID ← param_id c "id" "invalid session id";
  b ← tx_block "failed to start transaction" "failed to generate bill" (generate_bill_tx c sessionID);
  audit secret c "bill.generated" "bill" (b_ID b) ;;
  mret (RespCreated (PB_bill b)).

(** ** Adjusting and locking it *)

Definition or_else {A} (o : option A) (a : A) : A := default a o.

Definition adjust (b : billRow) (rate : Q) (req : updateBillRequest) : billRow :=
  b <| b_DiscountType := match ub_DiscountType req with Some t => Some t | None => b_DiscountType b end |>
    <| b_DiscountValue := or_else (ub_DiscountValue req) (b_DiscountValue b) |>
    <| b_TaxRate := rate |>
    <| b_TipType := match ub_TipType req with Some t => Some t | None => b_TipType b end |>
    <| b_TipValue := or_else (ub_TipValue req) (b_TipValue b) |>
    <| b_RoundingAdjust := or_else (ub_RoundingAdjust req) (b_RoundingAdjust b) |>.

(** The rate the bill will carry: another one needs a manager. *)
Definition overridden_rate (c : Ctx) (b : billRow) (req : updateBillRequest) : M (Resp PosBody) Q :=
  match ub_TaxRate req with
  | Some r =>
      if feq r (b_TaxRate b) then mret (b_TaxRate b)
      else
        guard (requireRoles secret c restaurantManagers) ;;
        throw_if (flt r 0 || flt 100 r) (RespError 422 "tax_rate must be between 0 and 100") ;;
        mret r
  | None => mret (b_TaxRate b)
  end.

Definition adjusted (b : billRow) (r : BillDbRow) : BillDbRow :=
  r <| bl_discount_type := b_DiscountType b |> <| bl_discount_value := num_enc (b_DiscountValue b) |>
    <| bl_discount_amount := num_enc (b_DiscountAmount b) |> <| bl_tax_rate := num_enc (b_TaxRate b) |>
    <| bl_tax_amount := num_enc (b_TaxAmount b) |> <| bl_tip_type := b_TipType b |>
    <| bl_tip_value := num_enc (b_TipValue b) |> <| bl_tip_amount := num_enc (b_TipAmount b) |>
    <| bl_rounding_adjust := num_enc (b_RoundingAdjust b) |> <| bl_total_amount := num_enc (b_TotalAmount b) |>
    <| bl_amount_due := num_enc (b_AmountDue b) |>.

Definition update_bill_tx (c : Ctx) (id : uuid) (req : updateBillRequest) : M (Resp PosBody) billRow :=
  b ← load_bill Tx (hotelID secret c) id;
  throw_if (b_Status b !=s "open") (RespError 409 "bill can only be edited while open") ;;
  rate ← overridden_rate c b req;
  let b1 := adjust b rate req in
  throw_if (flt (b_DiscountValue b1) 0 || flt (b_TipValue b1) 0) (RespError 422 "discount and tip must be non-negative") ;;
  let b2 := computeTotals b1 in
  failing (o ← exec Tx (update_bill id (adjusted b2)); r ← of_option o ErrNoRows; mret (scanBill r)) 500 "failed to update bill".

Definition UpdateBill (c : Ctx) (body : option updateBillRequest) : M (Resp PosBody) (Resp PosBody) :=
  guard (requireRoles secret c cashiers) ;;
  id ← param_id c "id" "invalid bill id";
  req ← of_option body (RespError 400 "invalid request body");
  b ← tx_block "failed to start transaction" "failed to update bill" (update_bill_tx c id req);
  mret (RespOK (PB_bill b)).

Definition finalizable (hid id : uuid) (b : BillDbRow) : bool := bill_key hid id b && (bl_status b =s "open").
Definition FinalizeBill (c : Ctx) : M (Resp PosBody) (Resp PosBody) :=
  guard (requireRoles secret c cashiers) ;;
  id ← param_id c "id" "invalid bill id";
  now ← time_now;
  let p := finalizable (hotelID secret c) id in
  n ← failing_text (exec_n Pool (fun d => (rows_affected p (bills d),
        d <| bills ::= update_rows p (fun b => b <| bl_status := "finalized" |> <| bl_finalized_at := Some now |>) |>))) 400 "";
  throw_if (Nat.eqb n 0) (RespError 409 "bill is not open") ;;
  audit secret c "bill.finalized" "bill" id ;;
  mret (RespOK (PB_record id "finalized")).

(** ** Payments *)

Definition change_for (req : billPaymentRequest) : Q :=
  match bq_Tendered req with
  | Some t => if bq_Method req =s "cash" then round2 (fsub t (bq_Amount req)) else 0%Q
  | None => 0%Q
  end.

(** The checks on the payment against the bill, in order. *)
Definition payment_refused (b : billRow) (req : billPaymentRequest) : option (Z * string) :=
  let method := bq_Method req in
  if (b_Status b !=s "finalized") && (b_Status b !=s "partially_paid") then Some (409, "bill must be finalized before payment")
  else if (method =s "cash") && match bq_Tendered req with Some t => flt t (bq_Amount req) | None => false end
  then Some (422, "tendered is less than amount")
  else if ((method =s "card") || (method =s "upi")) && (TrimSpace (opt_str (bq_TxnReference req)) =s "")
  then Some (422, "txn_reference is required for card/upi")
  else if (method !=s "cash") && flt (b_TotalAmount b) (round2 (fadd (b_AmountPaid b) (bq_Amount req)))
  then Some (422, "payment exceeds amount due")
  else None.

(** A room charge goes to the folio; any other payment is mirrored into payments. *)
Definition place_payment (hid : uuid) (by_ : option uuid) (b : billRow) (req : billPaymentRequest) (number : string)
  : M (Resp PosBody) unit :=
  if bq_Method req =s "room_charge" then
    r ← on_err (resolveFolioForRoomCharge Tx hid (b_SessionID b))
          (fun e => if errors_is e ErrNoRoomForCharge then RespError 422 (err_text e) else RespError 500 (err_text e));
    failing_text (postFolioCharge Tx hid (fst r) (b_ID b) ("Restaurant — bill " ++ b_BillNumber b)
                    (b_Subtotal b) (b_TaxAmount b) by_) 500 ""
  else
    pid ← new_uuid;
    failing_text (exec Tx (insert_payment
      {| pay_id := pid; pay_hotel_id := hid; pay_number := number; pay_guest_stay_id := None;
         pay_amount := num_enc (bq_Amount req); pay_method := bq_Method req; pay_status := "completed";
         pay_upi_id := None; pay_transaction_ref := None; pay_card_last4 := None; pay_auth_code := None;
         pay_cash_received := None; pay_change_given := None; pay_processed_by := by_;
         pay_notes := Some ("Dine-in bill " ++ b_BillNumber b); pay_category := Some "fnb" |}))
      500 "failed to record revenue: ".

(** The bill after the payment: paid, due and status. *)
Definition credit_bill (b : billRow) (amount : Q) : billRow :=
  let paid := round2 (fadd (b_AmountPaid b) amount) in
  let due := round2 (fsub (b_TotalAmount b) paid) in
  b <| b_AmountPaid := paid |> <| b_AmountDue := if fle due 0 then 0%Q else due |>
    <| b_Status := if fle due 0 then "paid" else "partially_paid" |>.

Definition credited (b : billRow) (now : Time) (r : BillDbRow) : BillDbRow :=
  r <| bl_amount_paid := num_enc (b_AmountPaid b) |> <| bl_amount_due := num_enc (b_AmountDue b) |>
    <| bl_status := b_Status b |> <| bl_paid_at := if b_Status b =s "paid" then Some now else bl_paid_at r |>.

Definition add_payment_tx (c : Ctx) (id : uuid) (req : billPaymentRequest)
  : M (Resp PosBody) (uuid * string * billRow) :=
  let hid := hotelID secret c in let by_ := userID secret c in
  b ← load_bill Tx hid id;
  guard (payment_refused b req) ;;
  number ← genNumber "PAY"; payID ← new_uuid; now ← time_now;
  failing_text (exec Tx (insert_bill_payment
    {| bp_id := payID; bp_hotel_id := hid; bp_bill_id := id; bp_payment_number := number; bp_method := bq_Method req;
       bp_amount := num_enc (bq_Amount req); bp_tendered := num_enc <$> bq_Tendered req;
       bp_change_due := num_enc (change_for req); bp_status := "completed"; bp_txn_reference := bq_TxnReference req;
       bp_gateway := bq_Gateway req; bp_received_by := by_; bp_created_at := now |}))
    400 "failed to record payment: " ;;
  place_payment hid by_ b req number ;;
  let b' := credit_bill b (bq_Amount req) in
  now' ← time_now;
  failing (exec Tx (update_bill id (credited b' now'))) 500 "failed to update bill" ;;
  (if b_Status b' =s "paid"
   then failing (exec Tx (update_session (b_SessionID b) (fun s => s <| ds_status := "settled" |>)))
          500 "failed to settle session"
   else mret tt) ;;
  mret (payID, number, b').

(** After the commit: the customer stamped on the bill, the sale and its cost
    posted; no failure undoes the payment. *)
Definition post_settlement {E} (hid id : uuid) (method : string) (b : billRow) : M E (option uuid) :=
  cu ← attempt (query_row Pool (fun d => (fun s => default uuid_nil (ds_customer_id s))
                 <$> find_row (fun s => ueq (ds_id s) (b_SessionID b)) (sessions d)));
  let customer := match cu with inr u => u | inl _ => uuid_nil end in
  (if ueq customer uuid_nil then mret tt
   else attempt (exec Pool (update_bill id (fun r => r <| bl_customer_id := Some customer |>))) ;; mret tt) ;;
  j ← attempt (postSalesToLedgerFor Pool hid method (b_Subtotal b) (b_TaxAmount b) (b_TotalAmount b)
                 ("BILL " ++ b_BillNumber b) ("POS sale — bill " ++ b_BillNumber b) customer);
  cogs ← sessionCOGS Pool (b_SessionID b);
  (if flt 0 cogs
   then attempt (postCOGS Pool hid cogs ("BILL " ++ b_BillNumber b) ("COGS — bill " ++ b_BillNumber b)) ;; mret tt
   else mret tt) ;;
  mret (match j with inr e => nilAsNull e | inl _ => None end).

Definition AddBillPayment (c : Ctx) (body : option billPaymentRequest) : M (Resp PosBody) (Resp PosBody) :=
  guard (requireRoles secret c cashiers) ;;
  id ← param_id c "id" "invalid bill id";
  req ← of_option body (RespError 400 "invalid request body");
  throw_if (negb (validPaymentMethod (bq_Method req))) (RespError 422 "unsupported payment method") ;;
  throw_if (fle (bq_Amount req) 0) (RespError 422 "amount must be positive") ;;
  r ← tx_block "failed to start transaction" "failed to record payment" (add_payment_tx c id req);
  let '(payID, number, b) := r in
  audit secret c "payment.recorded" "bill_payment" payID ;;
  journal ← (if b_Status b =s "paid" then post_settlement (hotelID secret c) id (bq_Method req) b else mret None);
  mret (RespCreated (PB_payment payID number (bq_Method req) (bq_Amount req) (change_for req) (b_Status b)
                       (b_AmountPaid b) (b_AmountDue b) journal)).

(** ** Refunds *)

Definition refund_tx (c : Ctx) (id : uuid) : M (Resp PosBody) billRow :=
  let hid := hotelID secret c in
  b ← load_bill Tx hid id;
  throw_if ((b_Status b !=s "paid") && (b_Status b !=s "partially_paid")) (RespError 409 "only a paid bill can be refunded") ;;
  (if flt 0 (b_AmountPaid b) then
     pid ← new_uuid; number ← genNumber "REF";
     failing_text (exec Tx (insert_payment
       {| pay_id := pid; pay_hotel_id := hid; pay_number := number; pay_guest_stay_id := None;
          pay_amount := num_enc (fneg (b_AmountPaid b)); pay_method := "refund"; pay_status := "completed";
          pay_upi_id := None; pay_transaction_ref := None; pay_card_last4 := None; pay_auth_code := None;
          pay_cash_received := None; pay_change_given := None; pay_processed_by := userID secret c;
          pay_notes := Some ("Refund bill " ++ b_BillNumber b); pay_category := Some "fnb" |}))
       500 "failed to record refund: "
   else mret tt) ;;
  failing (exec Tx (update_bill id (fun r => r <| bl_status := "refunded" |>))) 500 "failed to update bill" ;;
  failing (exec Tx (update_session (b_SessionID b) (fun s => s <| ds_status := "refunded" |>))) 500 "failed to update session" ;;
  mret b.

Definition RefundBill (c : Ctx) : M (Resp PosBody) (Resp PosBody) :=
  guard (requireRoles secret c restaurantManagers) ;;
  id ← param_id c "id" "invalid bill id";
  b ← tx_block "failed to start transaction" "failed to refund" (refund_tx c id);
  audit secret c "bill.refunded" "bill" id ;;
  rev ← attempt (reverseJournalsByReference Pool (hotelID secret c) ("BILL " ++ b_BillNumber b)
                   ("Refund — bill " ++ b_BillNumber b));
  mret (RespOK (PB_refund id (b_AmountPaid b) (match rev with inr e => nilAsNull e | inl _ => None end))).

(** ** The receipt *)

Definition BillReceipt (c : Ctx) : M (Resp PosBody) (Resp PosBody) :=
  id ← param_id c "id" "invalid bill id";
  b ← load_bill Pool (hotelID secret c) id;
  items ← failing (query Pool (fun d =>
            map (fun ki => (ki_item_name ki, ki_quantity ki, num_dec (ki_unit_price ki), num_dec (ki_line_total ki)))
              (order_by (receipt_order d) (select (billable (b_SessionID b) d) (kot_items d))))) 500 "failed to load items";
  payments ← failing (query Pool (fun d =>
            map (fun p => (bp_method p, num_dec (bp_amount p), num_dec <$> bp_tendered p, num_dec (bp_change_due p),
                           bp_status p, bp_txn_reference p))
              (order_by (fun a b => t_ns (bp_created_at a) <=? t_ns (bp_created_at b))
                (select (fun p => ueq (bp_bill_id p) id) (bill_payments d))))) 500 "failed to load payments";
  mret (RespOK (PB_receipt b items payments)).
End Billing.
