(* ===== verification/BillSplit.v ===== *)
(** BillSplit: internal/handler/pos_split.go.  Splitting a bill between named
    customers, each with a share invoiced to them. *)

From S2P Require Import Prelude GoLib Schema Binary64 World Auth DineIn Billing.
From Stdlib Require Import QArith Qabs.
Local Open Scope string_scope.
Local Open Scope Z_scope.

Record billSplitRow := { sp_ID : uuid; sp_SplitNo : Z; sp_CustomerName : string; sp_Amount : Q }.

Record splitCustomer := { sc_Name : string; sc_Amount : option Q }.
Record splitRequest := { sr_Enabled : bool; sr_Customers : list splitCustomer }.

Definition split_answer (s : billSplitRow) : uuid * Z * string * Q :=
  (sp_ID s, sp_SplitNo s, sp_CustomerName s, sp_Amount s).

(** UNIQUE (bill_id, split_no), NUMERIC(12,2) *)
Definition insert_split (row : BillSplitDbRow) (d : DB) : GoErr + (unit * DB) :=
  if negb (money_fits (bs_share_amount row)) then inl (ErrPg "22003")
  else if exists_row (fun s => ueq (bs_bill_id s) (bs_bill_id row) && (bs_split_no s =? bs_split_no row)) (bill_splits d)
  then inl (ErrPg "23505") else inr (tt, d <| bill_splits ::= insert_row row |>).

(** The amounts of the shares: each its proportion of the total, the last one
    what is left of it. *)
Fixpoint renormalise (total sumShares allocated : Q) (shares : list Q) : list Q :=
  match shares with
  | [] => []
  | [_] => [round2 (fsub total allocated)]
  | share :: rest =>
      let amt := if flt 0 sumShares then round2 (fdiv (fmul total share) sumShares) else 0%Q in
      amt :: renormalise total sumShares (round2 (fadd allocated amt)) rest
  end.

(** The trimmed names, the number of amounts given and their sum; an error for
    the first customer without a name or with an amount that is not positive. *)
Fixpoint scan_customers (cs : list splitCustomer) (names : list string) (withAmount : nat) (amountSum : Q)
  : (Z * string) + (list string * nat * Q) :=
  match cs with
  | [] => inr (names, withAmount, amountSum)
  | cu :: cs' =>
      let name := TrimSpace (sc_Name cu) in
      if name =s "" then inl (422, "every customer needs a name")
      else match sc_Amount cu with
           | None => scan_customers cs' (names ++ [name])%list withAmount amountSum
           | Some a =>
               if fle a 0 then inl (422, "split amounts must be positive")
               else scan_customers cs' (names ++ [name])%list (S withAmount) (fadd amountSum a)
           end
  end.

Definition custom_shares (cs : list splitCustomer) : list Q := map (fun cu => round2 (default 0%Q (sc_Amount cu))) cs.
(** n-1 equal shares, and the remainder *)
Definition equal_shares (total : Q) (n : nat) : list Q :=
  let each := round2 (fdiv total (of_int (Z.of_nat n))) in
  (replicate (n - 1) each ++ [round2 (fsub total (fmul each (of_int (Z.of_nat (n - 1)))))])%list.

Section BillSplit.
Context {env : Env} {jwt : Jwt} (secret : string).

Definition loadBillSplits (billID : uuid) (total : Q) : M GoErr (list billSplitRow) :=
  rows ← query Pool (fun d => order_by (fun a b => bs_split_no a <=? bs_split_no b)
           (select (fun s => ueq (bs_bill_id s) billID) (bill_splits d)));
  let shares := map (fun s => num_dec (bs_share_amount s)) rows in
  let amounts := renormalise total (foldl fadd 0%Q shares) 0%Q shares in
  mret (zip_with (fun s amt => {| sp_ID := bs_id s; sp_SplitNo := bs_split_no s; sp_CustomerName := bs_customer_name s;
                                  sp_Amount := amt |}) rows amounts).

Definition GetBillSplits (c : Ctx) : M (Resp PosBody) (Resp PosBody) :=
  id ← param_id c "id" "invalid bill id";
  b ← load_bill Pool (hotelID secret c) id;
  splits ← failing (loadBillSplits id (b_TotalAmount b)) 500 "failed to load splits";
  mret (RespOK (PB_splits (negb (Nat.eqb (length splits) 0)) (map split_answer splits))).

Fixpoint save_splits (hid id : uuid) (i : Z) (rows : list (string * Q)) : M (Resp PosBody) (list billSplitRow) :=
  match rows with
  | [] => mret []
  | (name, share) :: rows' =>
      sid ← new_uuid;
      failing (exec Tx (insert_split {| bs_id := sid; bs_hotel_id := hid; bs_bill_id := id; bs_split_no := i;
                                        bs_customer_name := name; bs_share_amount := num_enc share |}))
        500 "failed to save split" ;;
      rest ← save_splits hid id (i + 1) rows';
      mret ({| sp_ID := sid; sp_SplitNo := i; sp_CustomerName := name; sp_Amount := share |} :: rest)
  end.

(** None when splitting is turned off. *)
Definition set_splits_tx (c : Ctx) (id : uuid) (req : splitRequest) : M (Resp PosBody) (option (list billSplitRow)) :=
  let hid := hotelID secret c in
  b ← load_bill Tx hid id;
  throw_if (b_Status b =s "void") (RespError 409 "bill is void") ;;
  failing (exec Tx (fun d => inr (tt, d <| bill_splits ::= delete_rows (fun s => ueq (bs_bill_id s) id) |>)))
    500 "failed to reset splits" ;;
  if negb (sr_Enabled req) then mret None
  else
    let n := length (sr_Customers req) in
    throw_if (Nat.ltb n 2) (RespError 422 "split needs at least 2 customers") ;;
    match scan_customers (sr_Customers req) [] 0 0%Q with
    | inl (status, msg) => throw (RespError status msg)
    | inr (names, withAmount, amountSum) =>
        throw_if (negb (Nat.eqb withAmount 0) && negb (Nat.eqb withAmount n))
          (RespError 422 "provide amounts for all customers or none") ;;
        throw_if (Nat.eqb withAmount n && flt (cents 1) (Qabs (fsub (round2 amountSum) (b_TotalAmount b))))
          (RespError 422 "split amounts must sum to the bill total") ;;
        let shares := if Nat.eqb withAmount n then custom_shares (sr_Customers req) else equal_shares (b_TotalAmount b) n in
        out ← save_splits hid id 1 (zip names shares);
        mret (Some out)
    end.

Definition SetBillSplits (c : Ctx) (body : option splitRequest) : M (Resp PosBody) (Resp PosBody) :=
  guard (requireRoles secret c cashiers) ;;
  id ← param_id c "id" "invalid bill id";
  req ← of_option body (RespError 400 "invalid request body");
  r ← tx_block "failed to start transaction" "failed to save splits" (set_splits_tx c id req);
  match r with
  | None => audit secret c "bill.split_disabled" "bill" id ;; mret (RespOK (PB_splits false []))
  | Some out => audit secret c "bill.split_set" "bill" id ;; mret (RespOK (PB_splits true (map split_answer out)))
  end.
End BillSplit.
