(* ===== verification/Restaurant.v ===== *)
(** Restaurant: the dine-in routes of internal/handler/pos_handler.go as one
    machine, and what stays true of the restaurant's tables whatever requests
    arrive and whatever statements fail: who may sit where, how tickets and
    bills move, and how a bill's figures hang together. *)

From S2P Require Import Prelude GoLib Schema Binary64 World Auth Guards Ledger Customers FolioCharge Settlement DineIn Billing BillSplit.
From stdpp Require Import relations.
From Stdlib Require Import QArith Qabs Lqa.
Local Open Scope string_scope.
Local Open Scope Z_scope.

(** ** The routes *)

Inductive PosOp :=
  | Op_ListTables | Op_CreateTable (body : option createTableRequest) | Op_UpdateTable (body : option (list TableField))
  | Op_CleanTable | Op_ListSessions | Op_OpenSession (body : option openSessionRequest) | Op_GetSession | Op_CloseSession
  | Op_CreateKOT (body : option createKOTRequest) | Op_SendKOT | Op_UpdateKOTStatus (body : option string)
  | Op_VoidKOTItem (body : option string) | Op_GenerateBill | Op_UpdateBill (body : option updateBillRequest)
  | Op_FinalizeBill | Op_AddBillPayment (body : option billPaymentRequest) | Op_RefundBill | Op_BillReceipt
  | Op_GetBillSplits | Op_SetBillSplits (body : option splitRequest).

Record PosRequest := { pq_ctx : Ctx; pq_op : PosOp }.

Section Routes.
Context {env : Env} {jwt : Jwt} (secret : string).

Definition pos_route (op : PosOp) (c : Ctx) : M (Resp PosBody) (Resp PosBody) :=
  match op with
  | Op_ListTables => ListTables secret c
  | Op_CreateTable body => CreateTable secret c body
  | Op_UpdateTable body => UpdateTable secret c body
  | Op_CleanTable => CleanTable secret c
  | Op_ListSessions => ListSessions secret c
  | Op_OpenSession body => OpenSession secret c body
  | Op_GetSession => GetSession secret c
  | Op_CloseSession => CloseSession secret c
  | Op_CreateKOT body => CreateKOT secret c body
  | Op_SendKOT => SendKOT secret c
  | Op_UpdateKOTStatus body => UpdateKOTStatus secret c body
  | Op_VoidKOTItem body => VoidKOTItem secret c body
  | Op_GenerateBill => GenerateBill secret c
  | Op_UpdateBill body => UpdateBill secret c body
  | Op_FinalizeBill => FinalizeBill secret c
  | Op_AddBillPayment body => AddBillPayment secret c body
  | Op_RefundBill => RefundBill secret c
  | Op_BillReceipt => BillReceipt secret c
  | Op_GetBillSplits => GetBillSplits secret c
  | Op_SetBillSplits body => SetBillSplits secret c body
  end.

(** g := r.Group("", authGate(h.secret)) *)
Definition pos_handle (rq : PosRequest) : M (Resp PosBody) (Resp PosBody) :=
  match authGate secret (pq_ctx rq) with
  | inl (status, msg) => throw (RespError status msg)
  | inr c => pos_route (pq_op rq) c
  end.

Definition pos_serve_all (rqs : list PosRequest) (w : World) : World :=
  foldl (fun w rq => snd (serve (pos_handle rq) w)) w rqs.
End Routes.

(** ** What comes after what *)

(** The life of a bill, in the form of [kotTransitions]. *)
Definition billTransitions : list (string * list string) :=
  [ ("open", ["finalized"]); ("finalized", ["partially_paid"; "paid"]);
    ("partially_paid", ["paid"; "refunded"]); ("paid", ["refunded"]) ].

Definition moves_by (table : list (string * list string)) : string -> string -> Prop :=
  rtc (fun from to => canTransition table from to = true).

Definition kot_after (k k' : KotRow) : Prop :=
  kt_id k' = kt_id k /\ kt_hotel_id k' = kt_hotel_id k /\ kt_session_id k' = kt_session_id k /\ kt_number k' = kt_number k
  /\ moves_by kotTransitions (kt_status k) (kt_status k').

(** An item's price never changes and a cancelled item stays cancelled. *)
Definition item_after (i i' : KotItemRow) : Prop :=
  ki_id i' = ki_id i /\ ki_kot_id i' = ki_kot_id i /\ ki_quantity i' = ki_quantity i /\ ki_line_total i' = ki_line_total i
  /\ (ki_status i = "cancelled" -> ki_status i' = "cancelled").

(** The figures that finalising locks. *)
Definition figures (b : BillDbRow) : list Z :=
  [bl_subtotal b; bl_discount_value b; bl_discount_amount b; bl_tax_rate b; bl_tax_amount b; bl_tip_value b;
   bl_tip_amount b; bl_rounding_adjust b; bl_total_amount b].
Definition bill_after (b b' : BillDbRow) : Prop :=
  bl_id b' = bl_id b /\ bl_hotel_id b' = bl_hotel_id b /\ bl_session_id b' = bl_session_id b
  /\ bl_bill_number b' = bl_bill_number b /\ moves_by billTransitions (bl_status b) (bl_status b')
  /\ (bl_status b <> "open" -> figures b' = figures b).

(** ** The state of the restaurant *)

(** paid, due and total against the status of a bill *)
Definition books_agree (b : BillDbRow) : Prop :=
  (bl_status b = "open" \/ bl_status b = "finalized" ->
     bl_amount_paid b = 0 /\ bl_amount_due b = bl_total_amount b)
  /\ (bl_status b = "partially_paid" ->
     0 < bl_amount_due b /\ bl_amount_due b = bl_total_amount b - bl_amount_paid b)
  /\ (bl_status b = "paid" -> bl_amount_due b = 0 /\ bl_total_amount b <= bl_amount_paid b).

Definition stamped (k : KotRow) : Prop :=
  (kt_status k = "ready" -> is_Some (kt_ready_at k))
  /\ (kt_status k = "served" -> is_Some (kt_ready_at k) /\ is_Some (kt_served_at k)).

Definition same_seat (a b : SessionRow) : Prop :=
  ds_id a = ds_id b \/ (active_session a = true /\ active_session b = true /\ ds_table_id a = ds_table_id b).
Definition same_bill (a b : BillDbRow) : Prop :=
  bl_id a = bl_id b \/ (bl_status a <> "void" /\ bl_status b <> "void" /\ bl_session_id a = bl_session_id b).
Definition same_kot (a b : KotRow) : Prop := kt_id a = kt_id b.

Record tables_ok (ss : list SessionRow) (ks : list KotRow) (bs : list BillDbRow) : Prop := {
  tk_seats : exclusive same_seat ss;
  tk_kots : exclusive same_kot ks;
  tk_bills : exclusive same_bill bs;
  tk_books : forall b, In b bs -> bill_fits b = true /\ books_agree b;
  tk_stamps : forall k, In k ks -> stamped k }.
Definition pos_ok (d : DB) : Prop := tables_ok (sessions d) (kots d) (bills d).

Record moved (ks ks' : list KotRow) (is_ is' : list KotItemRow) (bs bs' : list BillDbRow) : Prop := {
  mv_kots : persists kot_after ks ks';
  mv_items : persists item_after is_ is';
  mv_bills : persists bill_after bs bs' }.
Definition pos_moved (d0 d : DB) : Prop := moved (kots d0) (kots d) (kot_items d0) (kot_items d) (bills d0) (bills d).

(** Well formed, and what the restaurant of d0 has become. *)
Definition pos_inv (d0 d : DB) : Prop := pos_ok d /\ pos_moved d0 d.

Lemma kot_after_refl k : kot_after k k.
Proof. repeat split; auto. apply rtc_refl. Qed.
Lemma item_after_refl i : item_after i i.
Proof. repeat split; auto. Qed.
Lemma bill_after_refl b : bill_after b b.
Proof. repeat split; auto. apply rtc_refl. Qed.
#[export] Hint Resolve kot_after_refl item_after_refl bill_after_refl : core.

Lemma kot_after_trans a b c : kot_after a b -> kot_after b c -> kot_after a c.
Proof.
  intros (A1 & A2 & A3 & A4 & A5) (B1 & B2 & B3 & B4 & B5). repeat split; try congruence. etrans; eassumption.
Qed.
Lemma item_after_trans a b c : item_after a b -> item_after b c -> item_after a c.
Proof. intros (A1 & A2 & A3 & A4 & A5) (B1 & B2 & B3 & B4 & B5). repeat split; try congruence. auto. Qed.

Lemma canTransition_in table a b : canTransition table a b = true -> exists l, In (a, l) table /\ In b l.
Proof.
  unfold canTransition. intros ([x l] & Hin & H)%List.existsb_exists. apply andb_true_iff in H as [H1 H2].
  apply String.eqb_eq in H1. apply List.existsb_exists in H2 as (t & Ht & E). apply String.eqb_eq in E. cbn in *. subst. eauto.
Qed.
(** No bill goes back to open. *)
Lemma not_reopened a b : moves_by billTransitions a b -> a <> "open" -> b <> "open".
Proof.
  induction 1 as [|x y z Hxy _ IH]; [auto|]. intros _. apply IH. apply canTransition_in in Hxy as (l & Hin & Hl).
  cbn in Hin. intros ->. repeat destruct Hin as [[= <- <-]|Hin]; cbn in Hl; intuition discriminate.
Qed.
Lemma bill_after_trans a b c : bill_after a b -> bill_after b c -> bill_after a c.
Proof.
  intros (A1 & A2 & A3 & A4 & A5 & A6) (B1 & B2 & B3 & B4 & B5 & B6). repeat split; try congruence.
  - etrans; eassumption.
  - intros H. rewrite B6; [auto | eapply not_reopened; eassumption].
Qed.

Lemma pos_moved_refl d : pos_moved d d.
Proof. split; apply persists_refl; auto. Qed.
Lemma pos_moved_trans a b c : pos_moved a b -> pos_moved b c -> pos_moved a c.
Proof.
  intros [A1 A2 A3] [B1 B2 B3].
  split; eapply persists_trans; eauto using kot_after_trans, item_after_trans, bill_after_trans.
Qed.

(** ** Amounts through the database *)

Section Amounts.
Context {env : Env} {laws : EnvLaws env}.

(** An amount rounded to paise that the column accepts is stored exactly. *)
Lemma stored_round2 v :
  money_fits (num_enc (round2 v)) = true ->
  exists k, round2 v = cents k /\ num_enc (round2 v) = k /\ Z.abs k < 10 ^ 12.
Proof.
  unfold money_fits. intros H%Z.ltb_lt. rewrite (round2_to_cents v) in *. set (k := to_cents v) in *.
  destruct (Z.le_gt_cases (Z.abs k) MAXC) as [Hk|Hk].
  - exists k. rewrite num_enc_cents in * by exact Hk. auto.
  - exfalso. pose proof (num_enc_near (cents k)) as H1. pose proof (rnd_err (inject_Z k / 100)) as H2. fold (cents k) in H2.
    assert (Ht : (tiny <= 1 # 2)%Q) by (vm_compute; discriminate).
    assert (Hn : (Qabs (inject_Z (num_enc (cents k))) <= 1000000000000)%Q).
    { change (Qabs (inject_Z (num_enc (cents k)))) with (inject_Z (Z.abs (num_enc (cents k)))). change 1000000000000%Q with (inject_Z (10 ^ 12)). apply inject_le. lia. }
    assert (Hb : (100000000000000 <= Qabs (inject_Z k))%Q).
    { change (Qabs (inject_Z k)) with (inject_Z (Z.abs k)). change 100000000000000%Q with (inject_Z MAXC). apply inject_le. lia. }
    assert (Hq : (Qabs (inject_Z k / 100) == Qabs (inject_Z k) * (1 # 100))%Q).
    { unfold Qdiv. rewrite Qabs_Qmult. reflexivity. }
    pose proof (Qabs_triangle (inject_Z k / 100 - cents k) (cents k)) as H3.
    assert (E3 : (inject_Z k / 100 - cents k + cents k == inject_Z k / 100)%Q) by ring. rewrite E3 in H3.
    rewrite (Qabs_Qminus _ (cents k)) in H3.
    pose proof (Qabs_triangle (cents k * 100 - inject_Z (num_enc (cents k))) (inject_Z (num_enc (cents k)))) as H4.
    assert (E4 : (cents k * 100 - inject_Z (num_enc (cents k)) + inject_Z (num_enc (cents k)) == cents k * 100)%Q) by ring. rewrite E4 in H4.
    rewrite (Qabs_Qminus _ (inject_Z _)), Qabs_Qmult in H4. change (Qabs 100) with 100%Q in H4.
    change (1 # 2 ^ 53)%Q with (1 # 9007199254740992)%Q in H2. change (1 # 2 ^ 40)%Q with (1 # 1099511627776)%Q in H1.
    rewrite Hq in *. lra.
Qed.

Lemma fits_abs k : money_fits k = true -> Z.abs k < 10 ^ 12.
Proof. unfold money_fits. apply Z.ltb_lt. Qed.

(** The balance of a stored total and what was paid of it. *)
Lemma stored_balance T p :
  Z.abs T < 10 ^ 12 -> Z.abs p < 10 ^ 12 ->
  num_enc (round2 (fsub (cents T) (cents p))) = T - p /\ round2 (fsub (cents T) (cents p)) = cents (T - p).
Proof.
  intros HT Hp. rewrite round2_sub by (unfold MAXC; lia). split; [|reflexivity].
  apply num_enc_cents. unfold MAXC; lia.
Qed.
End Amounts.

(** ** Statements, one by one *)

Section Statements.
Context {env : Env} (d0 : DB).

Lemma inv_bill d b : pos_inv d0 d -> In b (bills d) -> bill_fits b = true /\ books_agree b.
Proof. intros [H _]. apply (tk_books _ _ _ H). Qed.

Lemma inv_bill_unique d a b : pos_inv d0 d -> In a (bills d) -> In b (bills d) -> bl_id a = bl_id b -> a = b.
Proof. intros [H _] Ha Hb E. apply (tk_bills _ _ _ H); auto. now left. Qed.
Lemma inv_kot_unique d a b : pos_inv d0 d -> In a (kots d) -> In b (kots d) -> kt_id a = kt_id b -> a = b.
Proof. intros [H _]. apply (tk_kots _ _ _ H). Qed.

(** What the step of one bill has to respect. *)
Definition bill_step (r r' : BillDbRow) : Prop :=
  bill_after r r' /\ books_agree r' /\ (bl_status r = "void" -> bl_status r' = "void").

Lemma update_bills_inv p f d :
  pos_inv d0 d ->
  (forall r, In r (bills d) -> p r = true -> bill_fits (f r) = true /\ bill_step r (f r)) ->
  pos_inv d0 (d <| bills ::= update_rows p f |>).
Proof.
  intros [[H1 H2 H3 H4 H5] [M1 M2 M3]] Hf. split; split; cbn; auto.
  - apply exclusive_update; [exact H3|]. intros a b Ha Hb [E|(Va & Vb & E)].
    + left. destruct (p a) eqn:Ea, (p b) eqn:Eb; repeat match goal with
        | H : p ?x = true, H' : In ?x _ |- _ => destruct (Hf x H' H) as (_ & (? & _) & _); clear H end; congruence.
    + right. assert (Hv : forall r, In r (bills d) -> bl_status (if p r then f r else r) <> "void" ->
          bl_status r <> "void" /\ bl_session_id (if p r then f r else r) = bl_session_id r).
      { intros r Hr Hn. destruct (p r) eqn:Er; [|auto]. destruct (Hf r Hr Er) as (_ & (_ & _ & ? & _) & _ & Hvv). split; [auto|congruence]. }
      destruct (Hv a Ha Va) as [? <-], (Hv b Hb Vb) as [? <-]. auto.
  - apply forall_update; [exact H4|]. intros r Hr Hp. destruct (Hf r Hr Hp) as (Hft & _ & Hb & _). auto.
  - eapply persists_trans; [exact bill_after_trans | exact M3|]. apply persists_update; [auto|].
    intros r Hr Hp. apply (Hf r Hr Hp).
Qed.

Lemma update_bill_inv id f d a d' :
  pos_inv d0 d -> update_bill id f d = inr (a, d') ->
  (forall r, In r (bills d) -> bl_id r = id -> bill_fits r = true -> books_agree r -> bill_fits (f r) = true -> bill_step r (f r)) ->
  pos_inv d0 d'.
Proof.
  intros Hi. unfold update_bill. destruct (exists_row _ _) eqn:Ex; [discriminate|]. intros [= _ <-] Hf.
  apply update_bills_inv; [exact Hi|]. intros r Hr Hp. rewrite exists_row_false in Ex. specialize (Ex r Hr).
  rewrite Hp in Ex. cbn in Ex. apply negb_false_iff in Ex. apply N.eqb_eq in Hp.
  destruct (inv_bill d r Hi Hr). auto.
Qed.

Lemma insert_bill_inv b d a d' :
  pos_inv d0 d -> insert_bill b d = inr (a, d') -> (bill_fits b = true -> books_agree b) -> pos_inv d0 d'.
Proof.
  intros [[H1 H2 H3 H4 H5] [M1 M2 M3]]. unfold insert_bill. destruct (bill_fits b) eqn:Ef; [|discriminate].
  destruct (bill_violation b (bills d)) eqn:Ev; [discriminate|]. intros [= _ <-] Hb. split; split; cbn; auto.
  - apply exclusive_insert; [exact H3|]. intros o Ho. unfold bill_violation in Ev. rewrite exists_row_false in Ev.
    specialize (Ev o Ho). rewrite !orb_false_iff in Ev. destruct Ev as [[E1 _] E2%andb_false_iff]. apply N.eqb_neq in E1.
    assert (Hn : bl_status o <> "void" -> bl_status b <> "void" -> bl_session_id o <> bl_session_id b).
    { intros V1 V2 E. destruct E2 as [E2|E2]; [apply negb_false_iff, String.eqb_eq in E2; contradiction|].
      unfold live_bill, ueq in E2. rewrite E, N.eqb_refl in E2. apply negb_false_iff, String.eqb_eq in E2. contradiction. }
    unfold same_bill. intuition congruence.
  - apply forall_insert; [exact H4 | auto].
  - eapply persists_trans; [exact bill_after_trans | exact M3|]. apply persists_insert. auto.
Qed.

Lemma insert_kot_inv k d a d' :
  pos_inv d0 d -> stamped k -> insert_kot k d = inr (a, d') -> pos_inv d0 d'.
Proof.
  intros [[H1 H2 H3 H4 H5] [M1 M2 M3]] Hk. unfold insert_kot. destruct (exists_row _ _) eqn:Ev; [discriminate|].
  intros [= _ <-]. rewrite exists_row_false in Ev. split; split; cbn; auto.
  - apply exclusive_insert; [exact H2|]. intros o Ho. specialize (Ev o Ho). apply orb_false_iff in Ev as [E _].
    apply N.eqb_neq in E. unfold same_kot. split; congruence.
  - apply forall_insert; auto.
  - eapply persists_trans; [exact kot_after_trans | exact M1|]. apply persists_insert. auto.
Qed.

Lemma update_kots_inv p f d :
  pos_inv d0 d -> (forall k, In k (kots d) -> p k = true -> stamped k -> kot_after k (f k) /\ stamped (f k)) ->
  pos_inv d0 (d <| kots ::= update_rows p f |>).
Proof.
  intros [[H1 H2 H3 H4 H5] [M1 M2 M3]] Hf. split; split; cbn; auto.
  - apply exclusive_update; [exact H2|]. unfold same_kot. intros a b Ha Hb.
    destruct (p a) eqn:Ea, (p b) eqn:Eb; repeat match goal with
      | H : p ?x = true, H' : In ?x _ |- _ => destruct (Hf x H' H (H5 x H')) as ((? & _) & _); clear H end; congruence.
  - apply forall_update; [exact H5|]. intros k Hk Hp. apply (Hf k Hk Hp (H5 k Hk)).
  - eapply persists_trans; [exact kot_after_trans | exact M1|]. apply persists_update; [auto|].
    intros k Hk Hp. apply (Hf k Hk Hp (H5 k Hk)).
Qed.

Lemma update_items_inv p f d :
  pos_inv d0 d -> (forall i, p i = true -> item_after i (f i)) -> pos_inv d0 (d <| kot_items ::= update_rows p f |>).
Proof.
  intros [Hok [M1 M2 M3]] Hf. split; [exact Hok|]. split; cbn; auto.
  eapply persists_trans; [exact item_after_trans | exact M2|]. apply persists_update; auto.
Qed.
Lemma insert_item_inv i d : pos_inv d0 d -> pos_inv d0 (d <| kot_items ::= insert_row i |>).
Proof.
  intros [Hok [M1 M2 M3]]. split; [exact Hok|]. split; cbn; auto.
  eapply persists_trans; [exact item_after_trans | exact M2|]. apply persists_insert. auto.
Qed.

Lemma no_seat_clash s others o :
  session_violation s others = false -> In o others -> ~ same_seat o s /\ ~ same_seat s o.
Proof.
  unfold session_violation. rewrite !orb_false_iff, andb_false_iff, !exists_row_false. intros [[E1 _] E2] Ho.
  specialize (E1 o Ho). apply N.eqb_neq in E1.
  assert (Hn : ~ (active_session o = true /\ active_session s = true /\ ds_table_id o = ds_table_id s)).
  { intros (A1 & A2 & E). destruct E2 as [E2|E2]; [congruence|]. specialize (E2 o Ho). rewrite A1, E in E2. cbn in E2.
    unfold ueq in E2. now rewrite N.eqb_refl in E2. }
  split; intros [E|(A1 & A2 & E)]; try congruence; apply Hn; auto.
Qed.

Lemma insert_session_inv s d a d' : pos_inv d0 d -> insert_session s d = inr (a, d') -> pos_inv d0 d'.
Proof.
  intros [[H1 H2 H3 H4 H5] Hm]. unfold insert_session. destruct (session_violation _ _) eqn:Ev; [discriminate|].
  intros [= _ <-]. split; [|exact Hm]. split; cbn; auto. apply exclusive_insert; [exact H1|].
  intros o Ho. eapply no_seat_clash; eassumption.
Qed.

Lemma update_session_inv id f d a d' :
  (forall s, ds_id (f s) = ds_id s) -> pos_inv d0 d -> update_session id f d = inr (a, d') -> pos_inv d0 d'.
Proof.
  intros Hid [[H1 H2 H3 H4 H5] Hm]. unfold update_session. destruct (find_row _ _) as [s|] eqn:Ef; [|intros [= _ <-]; split; [split|]; auto].
  destruct (session_violation _ _) eqn:Ev; [discriminate|]. intros [= _ <-]. split; [|exact Hm]. split; cbn; auto.
  apply find_row_some in Ef as [Hs Es]. apply N.eqb_eq in Es.
  assert (Hone : forall x, In x (sessions d) -> ueq (ds_id x) id = true -> x = s).
  { intros x Hx Ex. apply N.eqb_eq in Ex. apply H1; auto. left. congruence. }
  apply exclusive_update; [exact H1|]. intros a0 b0 Ha Hb Hab.
  destruct (ueq (ds_id a0) id) eqn:Ea, (ueq (ds_id b0) id) eqn:Eb; [| | |exact Hab].
  - rewrite (Hone a0), (Hone b0) by assumption. now left.
  - rewrite (Hone a0) in Hab by assumption. exfalso.
    destruct (no_seat_clash (f s) _ b0 Ev) as [_ Hn]; [apply in_delete_rows; auto | contradiction].
  - rewrite (Hone b0) in Hab by assumption. exfalso.
    destruct (no_seat_clash (f s) _ a0 Ev) as [Hn _]; [apply in_delete_rows; auto | contradiction].
Qed.
End Statements.

(** ** Steps of one bill *)

Section Steps.
Context {env : Env} {laws : EnvLaws env}.

Lemma bill_fits_spec b :
  bill_fits b = true ->
  money_fits (bl_total_amount b) = true /\ money_fits (bl_amount_paid b) = true /\ money_fits (bl_amount_due b) = true.
Proof. unfold bill_fits. rewrite andb_true_iff. cbn [forallb]. rewrite !andb_true_iff. tauto. Qed.

Lemma with_totals_total b a1 a2 a3 t u : b_TotalAmount (with_totals b a1 a2 a3 t u) = t.
Proof. reflexivity. Qed.
Lemma with_totals_due b a1 a2 a3 t u : b_AmountDue (with_totals b a1 a2 a3 t u) = u.
Proof. reflexivity. Qed.
Lemma computeTotals_total b : exists v, b_TotalAmount (computeTotals b) = round2 v.
Proof. eexists. unfold computeTotals. apply with_totals_total. Qed.
Lemma computeTotals_balance b :
  b_AmountDue (computeTotals b) = round2 (fsub (b_TotalAmount (computeTotals b)) (b_AmountPaid b)).
Proof. unfold computeTotals. cbv zeta. rewrite with_totals_due, with_totals_total. reflexivity. Qed.

(** The due a bill is stored with is its stored total less what was paid. *)
Lemma computeTotals_due b p :
  b_AmountPaid b = cents p -> Z.abs p < 10 ^ 12 -> let b' := computeTotals b in
  money_fits (num_enc (b_TotalAmount b')) = true ->
  num_enc (b_AmountDue b') = num_enc (b_TotalAmount b') - p.
Proof.
  intros Hp Hb b' Hf. unfold b' in *. rewrite computeTotals_balance, Hp. destruct (computeTotals_total b) as [v E].
  rewrite E in *. apply stored_round2 in Hf as (T & E1 & E2 & HT). rewrite E2, E1. now apply stored_balance.
Qed.

Lemma open_bill_step r r' :
  bl_status r = "open" -> bill_after r r' -> bl_status r' = "open" ->
  bl_amount_paid r' = bl_amount_paid r -> bl_amount_due r' = bl_total_amount r' - bl_amount_paid r -> books_agree r -> bill_step r r'.
Proof.
  intros Ho Ha Ho' Hp Hd [Hb _]. split; [exact Ha|]. destruct (Hb (or_introl Ho)) as [H0 _].
  split; [|congruence]. rewrite H0 in *. repeat split; intros; try lia; rewrite Ho' in *; discriminate.
Qed.

Lemma paid_shown r : bill_fits r = true -> b_AmountPaid (scanBill r) = cents (bl_amount_paid r) /\ Z.abs (bl_amount_paid r) < 10 ^ 12.
Proof.
  intros (_ & Hf%fits_abs & _)%bill_fits_spec. split; [apply num_dec_cents; unfold MAXC; lia | exact Hf].
Qed.

Lemma open_bill_after r r' :
  bl_status r = "open" -> bl_status r' = "open" -> bl_id r' = bl_id r -> bl_hotel_id r' = bl_hotel_id r ->
  bl_session_id r' = bl_session_id r -> bl_bill_number r' = bl_bill_number r -> bill_after r r'.
Proof. intros Ho Ho' **. repeat split; try assumption; [rewrite Ho, Ho'; apply rtc_refl | congruence]. Qed.

Lemma retotal_step r x :
  bl_status r = "open" -> bill_fits r = true -> books_agree r ->
  let b' := computeTotals ((scanBill r) <| b_Subtotal := x |>) in
  bill_fits (retotal b' r) = true -> bill_step r (retotal b' r).
Proof.
  intros Ho Hf Hb b' (Ht & _ & _)%bill_fits_spec. destruct (paid_shown r Hf) as [Hp Hp'].
  apply open_bill_step; [exact Ho | now apply open_bill_after | exact Ho | reflexivity | | exact Hb].
  apply computeTotals_due; [exact Hp | exact Hp' | exact Ht].
Qed.

Lemma adjusted_step r rate req :
  bl_status r = "open" -> bill_fits r = true -> books_agree r ->
  let b' := computeTotals (adjust (scanBill r) rate req) in
  bill_fits (adjusted b' r) = true -> bill_step r (adjusted b' r).
Proof.
  intros Ho Hf Hb b' (Ht & _ & _)%bill_fits_spec. destruct (paid_shown r Hf) as [Hp Hp'].
  apply open_bill_step; [exact Ho | now apply open_bill_after | exact Ho | reflexivity | | exact Hb].
  apply computeTotals_due; [exact Hp | exact Hp' | exact Ht].
Qed.

Lemma bill_moved_step r r' :
  canTransition billTransitions (bl_status r) (bl_status r') = true \/ bl_status r' = bl_status r ->
  bl_id r' = bl_id r -> bl_hotel_id r' = bl_hotel_id r -> bl_session_id r' = bl_session_id r ->
  bl_bill_number r' = bl_bill_number r -> figures r' = figures r -> bill_after r r'.
Proof.
  intros Ht **. repeat split; auto. destruct Ht as [Ht| ->]; [now apply rtc_once | apply rtc_refl].
Qed.

#[local] Opaque round2 fadd fsub fle cents.
Lemma credited_step r amt now :
  b_Status (scanBill r) = "finalized" \/ b_Status (scanBill r) = "partially_paid" -> bill_fits r = true ->
  let b' := credit_bill (scanBill r) amt in
  bill_fits (credited b' now r) = true -> bill_step r (credited b' now r).
Proof.
  intros Hs Hf b' (_ & Hpf & Hd)%bill_fits_spec. pose proof (bill_fits_spec r Hf) as (Ht%fits_abs & _).
  unfold b', credit_bill, credited in *. cbn -[round2 fadd fsub fle cents] in *.
  apply stored_round2 in Hpf as (P & E1 & E2 & HP). rewrite E2, E1 in *.
  rewrite (num_dec_cents (bl_total_amount r)) in * by (unfold MAXC; lia).
  destruct (stored_balance _ P Ht HP) as [E3 E4]. rewrite E4 in *.
  rewrite <- cents_0, fle_cents in * by (unfold MAXC; lia).
  destruct (Z.leb_spec (bl_total_amount r - P) 0) as [Hle|Hgt].
  - split; [apply bill_moved_step; try reflexivity; left; cbn; destruct Hs as [-> | ->]; reflexivity|].
    split; [|cbn; destruct Hs as [-> | ->]; discriminate].
    split; [intros [?|?]; discriminate|]. split; [discriminate|]. intros _. cbn. rewrite num_enc_cents by (unfold MAXC; lia). lia.
  - split; [apply bill_moved_step; try reflexivity; cbn; destruct Hs as [-> | ->]; auto|].
    split; [|cbn; destruct Hs as [-> | ->]; discriminate].
    split; [intros [?|?]; discriminate|]. split; [|discriminate]. intros _. cbn. rewrite num_enc_cents by (unfold MAXC; lia). lia.
Qed.
End Steps.
