(* ===== verification/PosInvariant.v ===== *)
(** PosInvariant: every dine-in request keeps the invariant of Restaurant.v,
    whatever statements fail, and the claims that follow for any sequence of
    requests. *)

From S2P Require Import Prelude GoLib Schema Binary64 World Auth Guards Ledger Customers FolioCharge Settlement DineIn Billing BillSplit Restaurant.
From stdpp Require Import relations.
From Stdlib Require Import QArith.
Local Open Scope string_scope.
Local Open Scope Z_scope.

(** ** Statements on other tables *)

Definition dine_same (d d' : DB) : Prop :=
  sessions d' = sessions d /\ kots d' = kots d /\ kot_items d' = kot_items d /\ bills d' = bills d.

(** A fact about the four tables only. *)
Class DineFact (G : DB -> Prop) : Prop := dine_fact d d' : dine_same d d' -> G d -> G d'.

#[export] Instance pos_inv_fact d0 : DineFact (pos_inv d0).
Proof. intros d d' (E1 & E2 & E3 & E4) [H1 H2]. unfold pos_inv, pos_ok, pos_moved. rewrite E1, E2, E3, E4. split; assumption. Qed.

(** The bill a handler holds is the row of the table. *)
Definition shown {env : Env} (id : uuid) (b : billRow) (d : DB) : Prop :=
  exists r, In r (bills d) /\ bl_id r = id /\ scanBill r = b.
#[export] Instance shown_fact {env : Env} id b : DineFact (shown id b).
Proof. intros d d' (_ & _ & _ & E) H. unfold shown. rewrite E. exact H. Qed.
#[export] Instance true_fact : DineFact (fun _ => True).
Proof. intros d d' _ _. exact I. Qed.

Section Keeping.
Context {env : Env} {jwt : Jwt} (secret : string) (d0 : DB).

Lemma under_other G {A} c (f : DB -> GoErr + (A * DB)) :
  DineFact G -> (forall d a d', f d = inr (a, d') -> dine_same d d') -> stable (under (pos_inv d0) G) (exec c f).
Proof.
  intros HG Hf. apply under_exec; intros d a d' H.
  - intros E. eapply pos_inv_fact; [eapply Hf, E | exact H].
  - intros H' E. eapply HG; [eapply Hf, E | exact H'].
Qed.
Lemma keeps_other {A} c (f : DB -> GoErr + (A * DB)) :
  (forall d a d', f d = inr (a, d') -> dine_same d d') -> keeps (pos_inv d0) (exec c f).
Proof. intros Hf. apply keeps_exec. intros d a d' H E. eapply pos_inv_fact; [eapply Hf, E | exact H]. Qed.
End Keeping.

(** Closes the statements on other tables. *)
Ltac same_tables :=
  intros ? ? ?; unfold insert_payment, insert_invoice, insert_table, update_table, insert_bill_payment, insert_split, insert_customer, insert_account;
  repeat match goal with |- context [match ?x with _ => _ end] => destruct x end;
  let H := fresh in intros H; first [discriminate H | injection H as <- <-; repeat split; reflexivity].
Ltac pos_step :=
  first
    [ keeps_step
    | match goal with
      | |- stable _ (tx_block _ _ _) => apply keeps_tx_block
      | |- stable _ (exec_n _ _) => unfold exec_n
      | |- stable (both (pos_inv _)) (exec _ _) => apply keeps_other; same_tables
      | |- stable (under (pos_inv _) _) (exec _ _) => apply under_other; [typeclasses eauto | same_tables]
      end ].
Ltac pos_go := repeat pos_step.

Section Helpers.
Context {env : Env} {jwt : Jwt} (secret : string) (d0 : DB).

Lemma keeps_audit {E} c a t r : keeps (pos_inv d0) (audit secret c a t r : M E unit).
Proof. unfold audit. pos_go. Qed.
Lemma keeps_genNumber {E} P p : stable P (genNumber p : M E string).
Proof. unfold genNumber. keeps_go. Qed.
Lemma keeps_param P c n m : stable P (param_id c n m).
Proof. unfold param_id. keeps_go. Qed.
Lemma keeps_failing P {A} (m : M GoErr A) s t : stable P m -> stable P (failing m s t).
Proof. apply stable_on_err. Qed.
Lemma keeps_failing_text P {A} (m : M GoErr A) s t : stable P m -> stable P (failing_text m s t).
Proof. apply stable_on_err. Qed.
Lemma under_table_status G c id st : DineFact G -> stable (under (pos_inv d0) G) (set_table_status c id st).
Proof. intros HG. unfold set_table_status. pos_go. Qed.
Lemma keeps_table_status c id st : keeps (pos_inv d0) (set_table_status c id st).
Proof. unfold set_table_status. pos_go. Qed.
Lemma keeps_session_update c id f :
  (forall s, ds_id (f s) = ds_id s) -> keeps (pos_inv d0) (exec c (update_session id f)).
Proof. intros Hf. apply keeps_exec. intros d a d' H E. eapply update_session_inv; eassumption. Qed.
Lemma keeps_customer c h det : keeps (pos_inv d0) (ensureAccountingCustomer c h det).
Proof. unfold ensureAccountingCustomer, create_customer, nextCustomerCode, max_cust_number, backfill_customer. pos_go. Qed.
Lemma pos_inv_off_ledger d d' : ledger_only d d' -> pos_inv d0 d -> pos_inv d0 d'.
Proof. intros (? & ? & ? & ? & ->). apply pos_inv_fact. repeat split. Qed.
Lemma keeps_journal c h desc ref ls : keeps (pos_inv d0) (postJournal c h desc ref ls).
Proof. exact (keeps_postJournal _ pos_inv_off_ledger c h desc ref ls). Qed.
Lemma keeps_sales c h m st tx tot ref desc cu : keeps (pos_inv d0) (postSalesToLedgerFor c h m st tx tot ref desc cu).
Proof. pose proof keeps_journal. unfold postSalesToLedgerFor, postSalesToLedger. pos_go. Qed.
Lemma keeps_reverse c h ref desc : keeps (pos_inv d0) (reverseJournalsByReference c h ref desc).
Proof. exact (keeps_reversal _ pos_inv_off_ledger c h ref desc). Qed.
End Helpers.
#[export] Hint Resolve keeps_audit keeps_genNumber keeps_param keeps_failing keeps_failing_text under_table_status
  keeps_table_status keeps_customer keeps_journal keeps_sales keeps_reverse : keeps.

(** ** Tickets and sessions *)

Section Handlers.
Context {env : Env} {laws : EnvLaws env} {jwt : Jwt} (secret : string) (d0 : DB).
Abbreviation inv := (pos_inv d0).

Lemma keeps_open_session c req t : keeps inv (open_session_tx secret c req t).
Proof.
  assert (Hi : forall s, keeps inv (exec Tx (insert_session s))).
  { intros s. apply keeps_exec. intros d a d' H E. eapply insert_session_inv; eassumption. }
  unfold open_session_tx, link_customer. pos_go.
Qed.

Lemma keeps_close_session c id : keeps inv (close_session_tx secret c id).
Proof.
  unfold close_session_tx. pos_go. apply keeps_failing, keeps_session_update. reflexivity.
Qed.

Lemma keeps_add_item h k it : keeps inv (add_item h k it).
Proof.
  unfold add_item. pos_go. apply keeps_failing_text, keeps_exec. intros d u d' H [= _ <-]. now apply insert_item_inv.
Qed.
Lemma keeps_create_kot c req s : keeps inv (create_kot_tx secret c req s).
Proof.
  pose proof keeps_add_item. unfold create_kot_tx. pos_go.
  - apply keeps_failing, keeps_exec. intros d u d' H' E. eapply insert_kot_inv; [exact H' | | exact E]. split; discriminate.
  - apply keeps_session_update. reflexivity.
Qed.

Lemma keeps_SendKOT c : keeps inv (SendKOT secret c).
Proof.
  unfold SendKOT. pos_go. apply keeps_failing_text, keeps_exec_n. intros d H. cbn [snd].
  apply update_kots_inv; [exact H|]. intros k Hk Hp Hs. apply andb_true_iff in Hp as [_ Hp%String.eqb_eq].
  split; [|split; discriminate]. repeat split. rewrite Hp. now apply rtc_once.
Qed.

(** The one ticket with this id is the one that was read. *)
Lemma advance_kot_step k status now :
  canTransition kotTransitions (kt_status k) status = true -> stamped k ->
  kot_after k (advance_kot status now k) /\ stamped (advance_kot status now k).
Proof.
  intros Ht [H1 H2]. assert (Hs : kt_status (advance_kot status now k) = status).
  { unfold advance_kot. destruct (status =s "ready"), (status =s "served"); reflexivity. }
  split.
  - unfold kot_after. rewrite Hs. unfold advance_kot.
    destruct (status =s "ready"), (status =s "served"); repeat split; now apply rtc_once.
  - unfold stamped. rewrite Hs. unfold advance_kot.
    destruct (String.eqb_spec status "ready") as [->|Hr]; [cbn; split; [eauto | discriminate]|].
    destruct (String.eqb_spec status "served") as [->|Hv]; cbn; [|split; contradiction].
    split; [discriminate|]. intros _. split; [|eauto]. apply H1.
    apply canTransition_in in Ht as (l & Hin & Hl). cbn in Hin.
    repeat destruct Hin as [[= <- <-]|Hin]; cbn in Hl; intuition discriminate.
Qed.

Lemma keeps_update_kot c id status : keeps inv (update_kot_tx secret c id status).
Proof.
  apply keeps_guarded. unfold update_kot_tx.
  eapply guarded_bind; [apply guarded_on_err, guarded_query_row|]. intros k. cbn beta.
  apply guarded_then_throw_if. intros Ht%negb_false_iff.
  eapply (guarded_weaken _ _ (fun d => In k (kots d) /\ kt_id k = id)).
  2:{ intros d _ [_ Hf]. apply find_row_some in Hf as [Hk He]. apply andb_true_iff in He as [He%N.eqb_eq _]. auto. }
  apply guarded_then_stable; [auto with keeps|]. intros now.
  eapply guarded_bind; [apply guarded_on_err, guarded_exec with (G' := fun _ _ => True)|].
  - intros d u d' H [Hk Hid] [= _ <-]. split; [|exact I]. apply update_kots_inv; [exact H|].
    intros k' Hk' Hp Hs. apply N.eqb_eq in Hp. rewrite (inv_kot_unique d0 d k' k H Hk' Hk) in * by congruence.
    now apply advance_kot_step.
  - intros u. apply guarded_keeps. destruct (mirrored status); pos_go. apply keeps_failing, keeps_exec.
    intros d a d' H [= _ <-]. apply update_items_inv; [exact H|]. intros i Hp. apply andb_true_iff in Hp as [_ Hp].
    apply negb_true_iff, String.eqb_neq in Hp. repeat split. intros. contradiction.
Qed.

(** ** Bills *)

Lemma guarded_load_bill (G : DB -> Prop) h id :
  guarded inv G (load_bill Tx h id) (shown id).
Proof.
  unfold load_bill. apply guarded_on_err. eapply guarded_post; [apply guarded_query_row|].
  intros b d _ [_ Hf]. destruct (find_row _ _) as [r|] eqn:E; [|discriminate]. injection Hf as <-.
  apply find_row_some in E as [Hr He]. apply andb_true_iff in He as [He%N.eqb_eq _]. exists r. auto.
Qed.

(** An UPDATE of the bill that was read. *)
Lemma guarded_update_bill id b f :
  (forall r, scanBill r = b -> bill_fits r = true -> books_agree r -> bill_fits (f r) = true -> bill_step r (f r)) ->
  guarded inv (shown id b) (exec Tx (update_bill id f)) (fun _ _ => True).
Proof.
  intros Hf. apply guarded_exec. intros d a d' H (r0 & Hr0 & Hid & Hs) E. split; [|exact I].
  eapply update_bill_inv; [exact H | exact E |]. intros r Hr Er Hft Hb Hff.
  apply Hf; auto. rewrite (inv_bill_unique d0 d r r0 H Hr Hr0); congruence.
Qed.

Lemma keeps_update_bill c id req : keeps inv (update_bill_tx secret c id req).
Proof.
  apply keeps_guarded. unfold update_bill_tx. eapply guarded_bind; [apply guarded_load_bill|]. intros b.
  apply guarded_then_throw_if. intros Ho%negb_false_iff%String.eqb_eq.
  apply guarded_then_stable; [unfold overridden_rate; pos_go|]. intros rate.
  apply guarded_then_throw_if. intros _. apply guarded_on_err. eapply guarded_bind.
  - apply guarded_update_bill. intros r <- Hft Hb Hff. now apply adjusted_step.
  - intros o. apply guarded_keeps. pos_go.
Qed.

Lemma keeps_FinalizeBill c : keeps inv (FinalizeBill secret c).
Proof.
  unfold FinalizeBill. pos_go. apply keeps_failing_text, keeps_exec_n. intros d H. cbn [snd].
  apply update_bills_inv; [exact H|]. intros r Hr Hp. destruct (inv_bill d0 d r H Hr) as [Hft [Hb _]].
  unfold finalizable in Hp. apply andb_true_iff in Hp as [_ Hp%String.eqb_eq]. split; [exact Hft|].
  split; [apply bill_moved_step; try reflexivity; left; rewrite Hp; reflexivity|]. split; [|cbn; congruence].
  split; [intros _; exact (Hb (or_introl Hp)) | split; discriminate].
Qed.

Lemma guarded_attempt_live (G : DB -> Prop) sid :
  guarded inv G (attempt (load_live_bill Tx sid) : M (Resp PosBody) _)
    (fun r => match r with inr b => shown (b_ID b) b | inl _ => fun _ => True end).
Proof.
  eapply guarded_post; [apply guarded_attempt_row|]. intros [e|b] d _ [_ Hf]; [exact I|].
  destruct (find_row _ _) as [r|] eqn:E; [|discriminate]. injection Hf as <-.
  apply find_row_some in E as [Hr _]. exists r. auto.
Qed.

Lemma keeps_void_update itemID reason (by_ : option uuid) (G : DB -> Prop) :
  (forall d f, G d -> G (d <| kot_items ::= f |>)) ->
  stable (under inv G) (exec Tx (fun d => inr (tt, d <| kot_items ::= update_rows (fun ki => ueq (ki_id ki) itemID)
    (fun ki => ki <| ki_status := "cancelled" |> <| ki_void_reason := Some reason |> <| ki_voided_by := by_ |>) |>))).
Proof.
  intros HG. apply under_exec; intros d u d' H.
  - intros [= _ <-]. apply update_items_inv; [exact H|]. intros i _. repeat split.
  - intros H' [= _ <-]. now apply HG.
Qed.

Lemma keeps_void_item c k i reason : keeps inv (void_item_tx secret c k i reason).
Proof.
  apply keeps_guarded. unfold void_item_tx.
  apply guarded_then_stable; [apply keeps_failing, under_query_row|]. intros [sid st].
  apply guarded_then_throw_if. intros _. eapply guarded_bind; [apply guarded_attempt_live|]. intros [e|b].
  - apply guarded_keeps. pos_go. apply keeps_failing, keeps_exec. intros d u d' H [= _ <-].
    apply update_items_inv; [exact H|]. intros x _. repeat split.
  - apply guarded_then_throw_if. intros Ho%negb_false_iff%String.eqb_eq.
    apply guarded_then_stable; [apply keeps_failing, keeps_void_update; auto|]. intros _.
    apply guarded_then_stable; [apply keeps_failing, under_query|]. intros s. cbv zeta.
    eapply guarded_bind; [apply guarded_on_err, guarded_update_bill|intros u; apply guarded_keeps; pos_go].
    intros r <- Hft Hb Hff. now apply retotal_step.
Qed.

Lemma keeps_generate_bill c sid : keeps inv (generate_bill_tx secret c sid).
Proof.
  unfold generate_bill_tx, load_live_bill, default_tax. pos_go.
  - apply keeps_failing, keeps_exec. intros d u d' H E. eapply insert_bill_inv; [exact H | exact E |].
    intros (Ht & _ & _)%bill_fits_spec. cbn [bl_total_amount] in Ht.
    apply computeTotals_due with (p := 0) in Ht; [|reflexivity|lia].
    split; [intros _; split; [reflexivity|]; cbn [bl_amount_due bl_total_amount]; lia | split; discriminate].
  - apply keeps_failing, keeps_session_update. reflexivity.
Qed.

Lemma keeps_place_payment G h by_ b req no : DineFact G -> stable (under inv G) (place_payment h by_ b req no).
Proof.
  intros HG. unfold place_payment, resolveFolioForRoomCharge, RoomRepo.insert_folio, postFolioCharge, failing_text. pos_go.
Qed.

Lemma payment_allowed b req : payment_refused b req = None -> b_Status b = "finalized" \/ b_Status b = "partially_paid".
Proof.
  unfold payment_refused. destruct (String.eqb_spec (b_Status b) "finalized"); [auto|].
  destruct (String.eqb_spec (b_Status b) "partially_paid"); [auto | discriminate].
Qed.

Lemma keeps_add_payment c id req : keeps inv (add_payment_tx secret c id req).
Proof.
  apply keeps_guarded. unfold add_payment_tx. eapply guarded_bind; [apply guarded_load_bill|]. intros b.
  apply guarded_then_guard. intros Hs%payment_allowed.
  do 3 (apply guarded_then_stable; [auto with keeps|]; intros ?).
  apply guarded_then_stable; [apply keeps_failing_text; pos_go|]. intros _.
  apply guarded_then_stable; [apply keeps_place_payment, _|]. intros _. cbv zeta.
  apply guarded_then_stable; [auto with keeps|]. intros now.
  eapply guarded_bind; [apply guarded_on_err, guarded_update_bill|].
  - intros r <- Hft Hb Hff. now apply credited_step.
  - intros u. apply guarded_keeps. pos_go. apply keeps_failing, keeps_session_update. reflexivity.
Qed.

Lemma keeps_refund c id : keeps inv (refund_tx secret c id).
Proof.
  apply keeps_guarded. unfold refund_tx. eapply guarded_bind; [apply guarded_load_bill|]. intros b.
  apply guarded_then_throw_if. intros Hs.
  apply guarded_then_stable; [unfold failing_text; pos_go|]. intros _.
  eapply guarded_bind; [apply guarded_on_err, guarded_update_bill|].
  - intros r <- Hft Hb Hff. apply andb_false_iff in Hs.
    assert (Hp : bl_status r = "paid" \/ bl_status r = "partially_paid")
      by (destruct Hs as [Hs|Hs]; apply negb_false_iff, String.eqb_eq in Hs; auto).
    split; [apply bill_moved_step; try reflexivity; left; cbn; destruct Hp as [-> | ->]; reflexivity|].
    split; [|cbn; destruct Hp as [-> | ->]; discriminate]. split; [intros [?|?]; discriminate | split; discriminate].
  - intros u. apply guarded_keeps. pos_go. apply keeps_failing, keeps_session_update. reflexivity.
Qed.

(** Stamping the customer on a bill. *)
Lemma keeps_stamp id cu : keeps inv (exec Pool (update_bill id (fun r => r <| bl_customer_id := Some cu |>))).
Proof.
  apply keeps_exec. intros d a d' H E. eapply update_bill_inv; [exact H | exact E|].
  intros r _ _ _ Hb _. split; [apply bill_moved_step; auto | split; [exact Hb | auto]].
Qed.
Lemma keeps_post_settlement {E} h id m b : keeps inv (post_settlement h id m b : M E _).
Proof. pose proof keeps_stamp. unfold post_settlement, sessionCOGS, postCOGS. pos_go. Qed.

Lemma keeps_save_splits h id i rows : keeps inv (save_splits h id i rows).
Proof.
  revert i. induction rows as [|[n s] rows IH]; intros i; cbn [save_splits]; [auto with keeps|].
  unfold failing. pos_go.
Qed.
Lemma keeps_attach ks : keeps inv (attach_items ks).
Proof. induction ks as [|k ks IH]; cbn [attach_items]; pos_go. Qed.

Lemma keeps_pos_handle rq : keeps inv (pos_handle secret rq).
Proof.
  pose proof keeps_open_session. pose proof keeps_close_session. pose proof keeps_create_kot. pose proof keeps_SendKOT.
  pose proof keeps_update_kot. pose proof keeps_void_item. pose proof keeps_generate_bill. pose proof keeps_update_bill.
  pose proof keeps_FinalizeBill. pose proof keeps_add_payment. pose proof (@keeps_post_settlement (Resp PosBody)).
  pose proof keeps_refund. pose proof keeps_save_splits. pose proof keeps_attach.
  unfold pos_handle. destruct (authGate secret (pq_ctx rq)) as [[st msg]|c]; [auto with keeps|].
  destruct (pq_op rq); cbn [pos_route]; auto with keeps;
    unfold ListTables, CreateTable, UpdateTable, CleanTable, ListSessions, OpenSession, GetSession, CloseSession, CreateKOT,
      UpdateKOTStatus, VoidKOTItem, GenerateBill, UpdateBill, AddBillPayment, RefundBill, BillReceipt, GetBillSplits,
      SetBillSplits, loadKOTs, loadBillBySession, load_live_bill, loadBillSplits, set_splits_tx, load_bill, failing, failing_text;
    pos_go.
Qed.
End Handlers.

(** ** Any sequence of requests *)

Lemma pos_serve_all_inv {env : Env} {laws : EnvLaws env} {jwt : Jwt} secret rqs d :
  pos_ok d -> pos_inv d (w_db (pos_serve_all secret rqs (start d))).
Proof.
  intros Hok. assert (Hw : pos_inv d (w_db (start d)) /\ w_tx (start d) = NoTx)
    by (split; [split; [exact Hok | apply pos_moved_refl] | reflexivity]).
  revert Hw. generalize (start d) as w. induction rqs as [|rq rqs IH]; intros w [Hi Ht]; [exact Hi|]. cbn [pos_serve_all foldl].
  apply IH. split.
  - apply keeps_serve; [apply keeps_pos_handle|]. split; [exact Hi | now rewrite Ht].
  - unfold serve. destruct (pos_handle secret rq w) as [[|] ?]; reflexivity.
Qed.

(** ** Claims *)

(** C8: one party per table and one bill per party: after any sequence of dine-in
    requests, with any statements failing, a table has at most one session that
    is open or billed, and a session at most one bill that is not void. *)
Theorem one_party_one_bill (env : Env) (laws : EnvLaws env) (jwt : Jwt) secret rqs d (Hok : pos_ok d) :
  let d' := w_db (pos_serve_all secret rqs (start d)) in
  (forall a b, In a (sessions d') -> In b (sessions d') -> active_session a = true -> active_session b = true ->
     ds_table_id a = ds_table_id b -> a = b)
  /\ (forall a b, In a (bills d') -> In b (bills d') -> bl_status a <> "void" -> bl_status b <> "void" ->
     bl_session_id a = bl_session_id b -> a = b).
Proof.
  destruct (pos_serve_all_inv secret rqs d Hok) as [[H1 _ H3 _ _] _].
  split; intros a b Ha Hb **; [apply H1 | apply H3]; auto; right; auto.
Qed.

(** C9: the life of a bill: through any sequence of requests a bill is never
    lost, goes only from open to finalized, partially paid, paid and refunded
    in the order of its transition table, and once it is not open none of the
    figures that make up its total changes. *)
Theorem bill_lifecycle (env : Env) (laws : EnvLaws env) (jwt : Jwt) secret rqs d (Hok : pos_ok d) :
  forall b, In b (bills d) -> exists b', In b' (bills (w_db (pos_serve_all secret rqs (start d))))
    /\ bl_id b' = bl_id b /\ bl_session_id b' = bl_session_id b /\ bl_bill_number b' = bl_bill_number b
    /\ moves_by billTransitions (bl_status b) (bl_status b')
    /\ (bl_status b <> "open" -> figures b' = figures b).
Proof.
  intros b Hb. destruct (pos_serve_all_inv secret rqs d Hok) as [_ [_ _ H]].
  destruct (H b Hb) as (b' & Hb' & E1 & _ & E2 & E3 & E4 & E5). exists b'. auto 10.
Qed.

(** C10: a bill's books always agree with its status: nothing is paid before it is
    finalised and the whole total is due; a partially paid bill owes exactly its
    total less what was paid, and owes something; a paid bill owes nothing and
    at least its total was paid. *)
Theorem bill_books_agree (env : Env) (laws : EnvLaws env) (jwt : Jwt) secret rqs d (Hok : pos_ok d) :
  forall b, In b (bills (w_db (pos_serve_all secret rqs (start d)))) ->
    (bl_status b = "open" \/ bl_status b = "finalized" -> bl_amount_paid b = 0 /\ bl_amount_due b = bl_total_amount b)
    /\ (bl_status b = "partially_paid" -> 0 < bl_amount_due b /\ bl_amount_due b = bl_total_amount b - bl_amount_paid b)
    /\ (bl_status b = "paid" -> bl_amount_due b = 0 /\ bl_total_amount b <= bl_amount_paid b).
Proof. intros b Hb. destruct (pos_serve_all_inv secret rqs d Hok) as [[_ _ _ H _] _]. apply (H b Hb). Qed.

(** The kitchen's state machine: a ticket moves only along kotTransitions, is
    stamped when it becomes ready and served, and keeps its number and session;
    its items keep their price, and a voided item is never revived. *)
Theorem ticket_lifecycle (env : Env) (laws : EnvLaws env) (jwt : Jwt) secret rqs d (Hok : pos_ok d) :
  let d' := w_db (pos_serve_all secret rqs (start d)) in
  (forall k, In k (kots d) -> exists k', In k' (kots d') /\ kot_after k k')
  /\ (forall k, In k (kots d') -> stamped k)
  /\ (forall i, In i (kot_items d) -> exists i', In i' (kot_items d') /\ item_after i i').
Proof. destruct (pos_serve_all_inv secret rqs d Hok) as [[_ _ _ _ H] [H1 H2 _]]. auto. Qed.

(** *** An evening at table T1 *)

Definition demo_table (id : uuid) (no : string) : TableRow :=
  {| rt_id := id; rt_hotel_id := 1; rt_outlet_id := Some 51%N; rt_table_number := no; rt_section := None; rt_seats := 4;
     rt_status := "available"; rt_pos_x := None; rt_pos_y := None; rt_is_active := true;
     rt_created_at := Date 2026 1 1 0 0 0; rt_updated_at := Date 2026 1 1 0 0 0 |}.
Definition dining_room : DB :=
  empty_db <| tables := [demo_table 401 "T1"] |>
           <| outlets := [ {| ou_id := 51; ou_default_tax_rate := 500; ou_currency := "INR"; ou_identity := no_identity |} ] |>.
Definition manager (id item : string) (op : PosOp) : PosRequest :=
  {| pq_ctx := (demo_request "food_manager@1" id) <| c_params := fun k => if k =s "id" then id else if k =s "itemId" then item else "" |>;
     pq_op := op |}.
Definition demo_item (n : string) (q : Z) (p : Q) : kotItemRequest :=
  {| ir_MenuItemID := None; ir_ItemName := n; ir_Quantity := q; ir_UnitPrice := p; ir_Modifiers := no_modifiers;
     ir_Notes := None; ir_HSNCode := None |}.
Definition demo_payment (m : string) (paise : Z) : billPaymentRequest :=
  {| bq_Method := m; bq_Amount := cents paise; bq_Tendered := None; bq_TxnReference := Some "T-100"; bq_Gateway := None |}.
Definition demo_party : openSessionRequest :=
  {| os_Covers := 2; os_GuestName := Some "Asha"; os_CustomerType := "walk_in"; os_GuestStayID := None;
     os_Details := {| cd_Name := ""; cd_Phone := ""; cd_Email := ""; cd_GSTIN := "" |} |}.
Definition ten_percent : updateBillRequest :=
  {| ub_DiscountType := Some "percent"; ub_DiscountValue := Some 10%Q; ub_TaxRate := None; ub_TipType := None;
     ub_TipValue := None; ub_RoundingAdjust := None |}.

(** A second party is refused the table, the tea is spilt, the bill is reduced,
    and paid partly in cash and partly by UPI. *)
Definition evening : list PosRequest :=
  [ manager "401" "" (Op_OpenSession (Some demo_party)); manager "401" "" (Op_OpenSession (Some demo_party));
    manager "1000" "" (Op_CreateKOT (Some {| kr_Station := None; kr_Notes := None;
      kr_Items := [demo_item "Dosa" 2 120; demo_item "Chai" 2 40] |}));
    manager "1002" "" Op_SendKOT; manager "1002" "" (Op_UpdateKOTStatus (Some "preparing"));
    manager "1002" "1004" (Op_VoidKOTItem (Some "spilt"));
    manager "1002" "" (Op_UpdateKOTStatus (Some "ready")); manager "1002" "" (Op_UpdateKOTStatus (Some "served"));
    manager "1000" "" Op_GenerateBill; manager "1011" "" (Op_UpdateBill (Some ten_percent));
    manager "1011" "" Op_FinalizeBill; manager "1011" "" (Op_AddBillPayment (Some (demo_payment "cash" 10000))) ].
Definition dessert : list PosRequest := [ manager "1011" "" (Op_AddBillPayment (Some (demo_payment "upi" 12680))) ].

Lemma dining_room_ok : pos_ok dining_room.
Proof. split; unfold exclusive; cbn; intros; contradiction. Qed.
Definition after_dinner : DB := w_db (pos_serve_all (env := calm) (jwt := demo_jwt) "secret" evening (start dining_room)).
Lemma after_dinner_ok : pos_ok after_dinner.
Proof. exact (proj1 (pos_serve_all_inv (laws := calm_laws) "secret" evening dining_room dining_room_ok)). Qed.

Lemma one_party_one_bill_witness :
  map ds_status (sessions after_dinner) = ["billed"] /\ map bl_status (bills after_dinner) = ["partially_paid"]
  /\ forall a b, In a (sessions after_dinner) -> In b (sessions after_dinner) -> active_session a = true ->
       active_session b = true -> ds_table_id a = ds_table_id b -> a = b.
Proof.
  split; [vm_compute; reflexivity|]. split; [vm_compute; reflexivity|].
  exact (proj1 (one_party_one_bill calm calm_laws demo_jwt "secret" evening dining_room dining_room_ok)).
Defined.

Lemma bill_lifecycle_witness :
  let d' := w_db (pos_serve_all (env := calm) (jwt := demo_jwt) "secret" dessert (start after_dinner)) in
  map (fun b => (bl_status b, bl_total_amount b)) (bills after_dinner) = [("partially_paid", 22680)]
  /\ forall b, In b (bills after_dinner) -> exists b', In b' (bills d')
    /\ bl_id b' = bl_id b /\ bl_session_id b' = bl_session_id b /\ bl_bill_number b' = bl_bill_number b
    /\ moves_by billTransitions (bl_status b) (bl_status b') /\ (bl_status b <> "open" -> figures b' = figures b).
Proof.
  intros d'. split; [vm_compute; reflexivity|].
  exact (bill_lifecycle calm calm_laws demo_jwt "secret" dessert after_dinner after_dinner_ok).
Defined.

Lemma bill_books_agree_witness :
  map (fun b => (bl_status b, bl_total_amount b, bl_amount_paid b, bl_amount_due b)) (bills after_dinner)
  = [("partially_paid", 22680, 10000, 12680)]
  /\ forall b, In b (bills after_dinner) ->
    (bl_status b = "open" \/ bl_status b = "finalized" -> bl_amount_paid b = 0 /\ bl_amount_due b = bl_total_amount b)
    /\ (bl_status b = "partially_paid" -> 0 < bl_amount_due b /\ bl_amount_due b = bl_total_amount b - bl_amount_paid b)
    /\ (bl_status b = "paid" -> bl_amount_due b = 0 /\ bl_total_amount b <= bl_amount_paid b).
Proof.
  split; [vm_compute; reflexivity|].
  exact (bill_books_agree calm calm_laws demo_jwt "secret" evening dining_room dining_room_ok).
Defined.

Lemma ticket_lifecycle_witness :
  map kt_status (kots after_dinner) = ["served"] /\ map ki_status (kot_items after_dinner) = ["served"; "cancelled"]
  /\ forall k, In k (kots after_dinner) -> stamped k.
Proof.
  split; [vm_compute; reflexivity|]. split; [vm_compute; reflexivity|].
  exact (proj1 (proj2 (ticket_lifecycle calm calm_laws demo_jwt "secret" evening dining_room dining_room_ok))).
Defined.
