(* ===== verification/SplitSpec.v ===== *)
(** SplitSpec: the shares of a split bill add up to what is charged. *)

From S2P Require Import Prelude GoLib Schema Binary64 World Auth DineIn Billing BillSplit.
From Stdlib Require Import QArith Qabs Lqa.
Local Open Scope string_scope.
Local Open Scope Z_scope.

(** ** Sums and proportions of amounts *)

Definition ulp53 : Q := 1 # 2 ^ 53.

Lemma rnd_nonneg_bounds x : (0 <= x)%Q -> (x - x * ulp53 - tiny <= rnd x /\ rnd x <= x + x * ulp53 + tiny)%Q.
Proof.
  intros Hx. pose proof (rnd_err x) as H. rewrite (Qabs_pos x Hx) in H. fold ulp53 in H.
  apply Qabs_le_iff in H as [? ?]. split; lra.
Qed.

(** Adding amounts that are not negative loses at most one rounding each. *)
Lemma sum_lower (l : list Q) (a : Q) (m := inject_Z (Z.of_nat (length l))) :
  (length l <= 1000)%nat -> (0 <= a)%Q -> Forall (fun x => 0 <= x)%Q l ->
  ((1 - m * ulp53) * a - m * tiny <= foldl fadd a l)%Q.
Proof.
  subst m. revert a. induction l as [|y l IH]; intros a Hl Ha Hy; cbn [foldl length].
  - change (inject_Z (Z.of_nat 0)) with 0%Q. lra.
  - cbn in Hl. inversion_clear Hy as [|? ? Hy0 Hy'].
    assert (Hs : (0 <= fadd a y)%Q) by (apply rnd_nonneg; lra).
    specialize (IH (fadd a y) ltac:(lia) Hs Hy'). eapply Qle_trans; [|exact IH].
    destruct (rnd_nonneg_bounds (a + y) ltac:(lra)) as [H1 _]. change (rnd (a + y)) with (fadd a y) in H1.
    rewrite Nat2Z.inj_succ. unfold Z.succ. rewrite inject_Z_plus. change (inject_Z 1) with 1%Q.
    assert (Hm : (0 <= inject_Z (Z.of_nat (length l)) /\ inject_Z (Z.of_nat (length l)) <= 1000)%Q).
    { split; [change 0%Q with (inject_Z 0) | change 1000%Q with (inject_Z 1000)]; rewrite <- Zle_Qle; lia. }
    set (m := inject_Z (Z.of_nat (length l))) in *.
    assert (Hu : (0 <= ulp53 /\ ulp53 <= 1 # 1000000)%Q) by (split; vm_compute; discriminate).
    assert (Ht : (0 <= tiny)%Q) by (vm_compute; discriminate).
    assert (Hc : (0 <= 1 - m * ulp53 /\ 0 <= m * ulp53)%Q) by (split; nra).
    assert (H2 : ((1 - m * ulp53) * (a - a * ulp53 - tiny) <= (1 - m * ulp53) * fadd a y)%Q).
    { rewrite (Qmult_comm _ (a - _ - _)), (Qmult_comm _ (fadd a y)). apply Qmult_le_compat_r; [|tauto].
      assert (0 <= y - y * ulp53)%Q by nra. lra. }
    assert (H3 : (0 <= m * ulp53 * (a * ulp53) /\ 0 <= m * ulp53 * tiny)%Q).
    { split; apply Qmult_le_0_compat; try tauto. apply Qmult_le_0_compat; tauto. }
    lra.
Qed.

Lemma sum_nonneg l a : (0 <= a)%Q -> Forall (fun x => 0 <= x)%Q l -> (0 <= foldl fadd a l)%Q.
Proof.
  intros Ha Hl. revert a Ha. induction Hl as [|x l Hx _ IH]; intros a Ha; cbn; [exact Ha|].
  apply IH, rnd_nonneg. lra.
Qed.

Lemma cents_lower k : 1 <= k <= MAXC -> (inject_Z k * (1 # 200) <= cents k)%Q.
Proof.
  intros Hk. assert (H1 : (1 <= inject_Z k)%Q) by (change 1%Q with (inject_Z 1); apply inject_le; lia).
  destruct (rnd_nonneg_bounds (inject_Z k / 100)) as [H _].
  { unfold Qdiv. change (/ 100)%Q with (1 # 100)%Q. lra. }
  fold (cents k) in H. unfold Qdiv in H. change (/ 100)%Q with (1 # 100)%Q in H.
  assert (Hu : (0 <= ulp53 /\ ulp53 <= 1 # 1000000)%Q) by (split; vm_compute; discriminate).
  assert (Ht : (tiny <= 1 # 1000000)%Q) by (vm_compute; discriminate). nra.
Qed.

(** The sum is at least half of each of its terms. *)
Lemma sum_share (l : list Q) x :
  (length l <= 1000)%nat -> Forall (fun x => 0 <= x)%Q l -> In x l -> (1 # 200 <= x)%Q -> (x * (1 # 2) <= foldl fadd 0 l)%Q.
Proof.
  intros Hn Hl Hx Hx1. apply List.in_split in Hx as (l1 & l2 & ->). rewrite foldl_app. cbn [foldl].
  apply Forall_app in Hl as [Hl1 Hl2]. inversion_clear Hl2 as [|? ? Hx0 Hl2'].
  rewrite length_app in Hn. cbn [length] in Hn.
  set (p := foldl fadd 0%Q l1). assert (Hp : (0 <= p)%Q) by (apply sum_nonneg; [lra | exact Hl1]).
  assert (Hpx : (0 <= fadd p x)%Q) by (apply rnd_nonneg; lra).
  pose proof (sum_lower l2 (fadd p x) ltac:(lia) Hpx Hl2') as H.
  destruct (rnd_nonneg_bounds (p + x) ltac:(lra)) as [H1 _]. change (rnd (p + x)) with (fadd p x) in H1.
  assert (Hm : (0 <= inject_Z (Z.of_nat (length l2)) /\ inject_Z (Z.of_nat (length l2)) <= 1000)%Q).
  { split; [change 0%Q with (inject_Z 0) | change 1000%Q with (inject_Z 1000)]; rewrite <- Zle_Qle; lia. }
  set (m := inject_Z (Z.of_nat (length l2))) in *.
  assert (Hu : (0 <= ulp53 /\ ulp53 <= 1 # 1000000)%Q) by (split; vm_compute; discriminate).
  assert (Ht : (0 <= tiny /\ tiny <= 1 # 1000000000)%Q) by (split; vm_compute; discriminate).
  assert (Hc : (m * ulp53 <= 1 # 1000 /\ m * tiny <= 1 # 1000000)%Q) by (split; nra).
  assert (H2 : (fadd p x * (999 # 1000) <= (1 - m * ulp53) * fadd p x)%Q).
  { rewrite (Qmult_comm (1 - _)). rewrite !(Qmult_comm (fadd p x)). apply Qmult_le_compat_r; lra. }
  assert (H3 : (x * (999999 # 1000000) - (1 # 1000000000) <= fadd p x)%Q).
  { assert ((p + x) * ulp53 <= (p + x) * (1 # 1000000))%Q.
    { rewrite !(Qmult_comm (p + x)). apply Qmult_le_compat_r; lra. } lra. }
  lra.
Qed.

(** A share of the total is never out of range. *)
Lemma share_bound T k S :
  0 <= T <= 10 ^ 12 -> 0 <= k <= MAXC -> (0 < S)%Q -> (1 <= k -> (cents k * (1 # 2) <= S)%Q) ->
  Z.abs (to_cents (fdiv (fmul (cents T) (cents k)) S)) <= 3 * 10 ^ 12.
Proof.
  intros HT Hk HS Hks. destruct (Z.eq_dec k 0) as [->|Hk0].
  { rewrite cents_0. assert (E : fdiv (fmul (cents T) 0) S = 0%Q).
    { unfold fmul. rewrite (rnd_Proper (cents T * 0)%Q 0%Q) by ring. change (rnd 0) with 0%Q. unfold fdiv.
      rewrite (rnd_Proper (0 / S)%Q 0%Q) by (unfold Qdiv; ring). reflexivity. }
    rewrite E. vm_compute. discriminate. }
  specialize (Hks ltac:(lia)). pose proof (cents_lower k ltac:(lia)) as Hc.
  assert (Hc1 : (1 # 200 <= cents k)%Q).
  { eapply Qle_trans; [|exact Hc]. assert (inject_Z 1 <= inject_Z k)%Q by (apply inject_le; lia). change (inject_Z 1) with 1%Q in *. lra. }
  assert (HT1 : (0 <= cents T /\ cents T <= 10000000001)%Q).
  { split; [apply cents_nonneg; lia|]. pose proof (proj1 (near_iff 1 (cents T) T) (cents_near T ltac:(unfold MAXC; lia))) as [_ H].
    change (inject_Z 1) with 1%Q in H. assert (HTi : (inject_Z T <= inject_Z (10 ^ 12))%Q) by (apply inject_le; lia).
    change (inject_Z (10 ^ 12)) with 1000000000000%Q in HTi. lra. }
  set (t := cents T) in *. set (c := cents k) in *.
  assert (Hu : (0 <= ulp53 /\ ulp53 <= 1 # 1000000)%Q) by (split; vm_compute; discriminate).
  assert (Ht : (0 <= tiny /\ tiny <= 1 # 1000000000)%Q) by (split; vm_compute; discriminate).
  assert (Htc : (0 <= t * c /\ t * c <= 10000000001 * c)%Q) by (split; nra).
  destruct (rnd_nonneg_bounds (t * c) ltac:(tauto)) as [_ H1]. change (rnd (t * c)) with (fmul t c) in H1.
  assert (H0 : (0 <= fmul t c)%Q) by (apply rnd_nonneg; tauto).
  assert (H2 : (fmul t c <= 10000020002 * c)%Q).
  { assert (t * c * ulp53 <= t * c * (1 # 1000000))%Q by (rewrite !(Qmult_comm (t * c)); apply Qmult_le_compat_r; tauto). lra. }
  assert (H3 : (fmul t c / S <= 20000040004)%Q) by (apply Qle_shift_div_r; [exact HS | lra]).
  assert (H4 : (0 <= fmul t c / S)%Q) by (apply Qle_shift_div_l; [exact HS | lra]).
  destruct (rnd_nonneg_bounds (fmul t c / S) H4) as [_ H5]. change (rnd (fmul t c / S)) with (fdiv (fmul t c) S) in H5.
  assert (H6 : (0 <= fdiv (fmul t c) S)%Q) by (apply rnd_nonneg; exact H4).
  assert (H7 : (fmul t c / S * ulp53 <= fmul t c / S * (1 # 1000000))%Q) by (rewrite !(Qmult_comm (fmul t c / S)); apply Qmult_le_compat_r; tauto).
  set (x := fdiv (fmul t c) S) in *.
  assert (Hx : (Qabs x <= 1000000000000)%Q) by (rewrite Qabs_pos by exact H6; lra).
  pose proof (to_cents_err x Hx) as He. apply Qabs_le_iff in He as [He1 He2].
  apply Z.abs_le. split; rewrite Zle_Qle.
  - change (inject_Z (- (3 * 10 ^ 12))) with (-3000000000000)%Q. lra.
  - change (inject_Z (3 * 10 ^ 12)) with 3000000000000%Q. lra.
Qed.

Lemma renormalise_cents T S ks a :
  0 <= T <= 10 ^ 12 -> Z.abs a + 3 * 10 ^ 12 * Z.of_nat (length ks) <= 9 * 10 ^ 13 ->
  (flt 0 S = true -> forall k, In k ks -> Z.abs (to_cents (fdiv (fmul (cents T) (cents k)) S)) <= 3 * 10 ^ 12) ->
  exists ms, renormalise (cents T) S (cents a) (map cents ks) = map cents ms /\ length ms = length ks
    /\ (ks <> [] -> sumZ ms = T - a).
Proof.
  intros HT. revert a. induction ks as [|k [|k' ks] IH]; intros a Ha Hk.
  - exists []. repeat split. congruence.
  - exists [T - a]. cbn [renormalise map]. cbn [length] in Ha. rewrite round2_sub by (unfold MAXC; lia).
    repeat split. intros _. cbn. lia.
  - set (m := if flt 0 S then to_cents (fdiv (fmul (cents T) (cents k)) S) else 0).
    assert (Hm : Z.abs m <= 3 * 10 ^ 12).
    { unfold m. destruct (flt 0 S) eqn:E; [apply Hk; [reflexivity | now left] | lia]. }
    assert (Em : (if flt 0 S then round2 (fdiv (fmul (cents T) (cents k)) S) else 0%Q) = cents m).
    { unfold m. destruct (flt 0 S); [apply round2_to_cents | symmetry; apply cents_0]. }
    change (length (k :: k' :: ks)) with (Datatypes.S (length (k' :: ks))) in Ha. rewrite Nat2Z.inj_succ in Ha.
    destruct (IH (a + m)) as (ms & E & Hlen & Hsum); [lia | intros HS x Hx; apply Hk; [exact HS | now right] |].
    exists (m :: ms). split; [|split; [cbn; now rewrite Hlen|]].
    + cbn [map renormalise]. cbn [map renormalise] in E. rewrite Em, round2_add by (unfold MAXC; lia). rewrite E. reflexivity.
    + intros _. specialize (Hsum ltac:(discriminate)). unfold sumZ in *. cbn [foldr]. lia.
Qed.

(** ** Claims *)

(** One to thirty shares, none negative. *)
Definition shares_ok (billID : uuid) (d : DB) : Prop :=
  let rows := select (fun s => ueq (bs_bill_id s) billID) (bill_splits d) in
  (1 <= length rows <= 30)%nat /\ forall s, In s rows -> 0 <= bs_share_amount s <= 10 ^ 12.

Lemma length_insert_by {R} (le : R -> R -> bool) r t : length (insert_by le r t) = S (length t).
Proof. induction t as [|x t IH]; cbn; [reflexivity|]. destruct (le r x); cbn; [reflexivity | now rewrite IH]. Qed.
Lemma length_order_by {R} (le : R -> R -> bool) t : length (order_by le t) = length t.
Proof. induction t as [|x t IH]; cbn; [reflexivity|]. unfold order_by in *. cbn. now rewrite length_insert_by, IH. Qed.

Lemma map_zip_with {A B C} (f : A -> B -> C) (g : C -> B) l k :
  (forall a b, g (f a b) = b) -> length l = length k -> map g (zip_with f l k) = k.
Proof.
  intros Hg. revert k. induction l as [|a l IH]; intros [|b k] Hl; try discriminate; cbn; [reflexivity|].
  injection Hl as Hl. rewrite Hg. f_equal. now apply IH.
Qed.

(** The shares shown of a bill. *)
Definition shown_splits {env : Env} (id : uuid) (total : Q) (d : DB) : list billSplitRow :=
  let rows := order_by (fun a b => bs_split_no a <=? bs_split_no b) (select (fun s => ueq (bs_bill_id s) id) (bill_splits d)) in
  let shares := map (fun s => num_dec (bs_share_amount s)) rows in
  zip_with (fun s amt => {| sp_ID := bs_id s; sp_SplitNo := bs_split_no s; sp_CustomerName := bs_customer_name s; sp_Amount := amt |})
    rows (renormalise total (foldl fadd 0%Q shares) 0%Q shares).

Lemma shown_splits_cents {env : Env} {laws : EnvLaws env} billID T d (out := shown_splits billID (cents T) d) :
  0 <= T <= 10 ^ 12 -> shares_ok billID d ->
  length out = length (select (fun s => ueq (bs_bill_id s) billID) (bill_splits d))
  /\ exists ms, map sp_Amount out = map cents ms /\ sumZ ms = T.
Proof.
  intros HT [[Hn1 Hn2] Hs]. unfold out, shown_splits.
  set (rows0 := select _ _) in *. set (rows := order_by _ rows0).
  assert (Hlen : length rows = length rows0) by apply length_order_by.
  assert (Hr : forall s, In s rows -> 0 <= bs_share_amount s <= 10 ^ 12) by (intros s H%in_order_by; auto).
  assert (Eks : map (fun s => num_dec (bs_share_amount s)) rows = map cents (map bs_share_amount rows)).
  { rewrite List.map_map. apply List.map_ext_in. intros s H. specialize (Hr s H). apply num_dec_cents. unfold MAXC; lia. }
  cbv zeta. rewrite Eks. set (ks := map bs_share_amount rows) in *.
  assert (Hks : forall k, In k ks -> 0 <= k <= 10 ^ 12) by (intros k (s & <- & H)%List.in_map_iff; auto).
  assert (Hlk : length ks = length rows0) by (unfold ks; now rewrite List.length_map).
  destruct (renormalise_cents T (foldl fadd 0%Q (map cents ks)) ks 0 HT) as (ms & E & Hlm & Hsum).
  - rewrite Hlk. lia.
  - intros HS k Hk. apply flt_iff in HS. apply share_bound; [exact HT | specialize (Hks k Hk); unfold MAXC; lia | exact HS |].
    intros Hk1. apply sum_share.
    + rewrite List.length_map. lia.
    + apply List.Forall_forall. intros x (k2 & <- & H2)%List.in_map_iff. apply cents_nonneg, (Hks k2 H2).
    + now apply List.in_map.
    + pose proof (cents_lower k ltac:(specialize (Hks k Hk); unfold MAXC; lia)).
      assert (H1 : (inject_Z 1 <= inject_Z k)%Q) by (apply inject_le; lia). change (inject_Z 1) with 1%Q in H1. lra.
  - rewrite cents_0 in E. rewrite E. split.
    + rewrite length_zip_with, List.length_map, Hlm, Hlk, Hlen. lia.
    + exists ms. split; [|rewrite Hsum; [lia | intros E0; rewrite E0 in Hlk; cbn in Hlk; lia]].
      apply map_zip_with; [reflexivity | rewrite List.length_map; congruence].
Qed.

(** Whatever shares were saved for a bill, the amounts its customers are
    invoiced add up to exactly the bill's current total, in whole paise, even
    when the total changed after the split was saved. *)
Theorem splits_sum_to_total (env : Env) (laws : EnvLaws env) billID T d
  (HT : 0 <= T <= 10 ^ 12) (Hs : shares_ok billID d) :
  runs Pool (loadBillSplits billID (cents T)) d (fun out d' => d' = d
    /\ length out = length (select (fun s => ueq (bs_bill_id s) billID) (bill_splits d))
    /\ exists ms, map sp_Amount out = map cents ms /\ sumZ ms = T) (fun _ => False).
Proof.
  unfold loadBillSplits. eapply runs_then_query; [intros; inert_go|]. apply runs_ret. split; [reflexivity|].
  exact (shown_splits_cents billID T d HT Hs).
Qed.

(** Three friends split 100.00 equally, and the bill is then reduced to 77.77. *)
Definition three_shares : DB :=
  empty_db <| bill_splits := [ {| bs_id := 901; bs_hotel_id := 1; bs_bill_id := 701; bs_split_no := 1; bs_customer_name := "Asha"; bs_share_amount := 3333 |};
    {| bs_id := 902; bs_hotel_id := 1; bs_bill_id := 701; bs_split_no := 2; bs_customer_name := "Ravi"; bs_share_amount := 3333 |};
    {| bs_id := 903; bs_hotel_id := 1; bs_bill_id := 701; bs_split_no := 3; bs_customer_name := "Meera"; bs_share_amount := 3334 |} ] |>.
Lemma splits_sum_to_total_witness :
  (exists out, fst (loadBillSplits (env := calm) 701 (cents 7777) (start three_shares)) = inr out
     /\ map sp_Amount out = map cents [2592; 2592; 2593])
  /\ runs (env := calm) Pool (loadBillSplits (env := calm) 701 (cents 7777)) three_shares (fun out d' => d' = three_shares
    /\ length out = 3%nat /\ exists ms, map sp_Amount out = map cents ms /\ sumZ ms = 7777) (fun _ => False).
Proof.
  split; [eexists; split; [reflexivity | vm_compute; reflexivity]|].
  apply (splits_sum_to_total calm calm_laws 701 7777 three_shares); [lia|].
  split; [cbn; lia|]. cbn. intros s Hs. repeat destruct Hs as [<-|Hs]; [cbn; lia..|contradiction].
Defined.
