(* ===== verification/BillSpec.v ===== *)
(** BillSpec: what the billing operations compute and leave behind: the totals of
    a bill, its shares, the bill of a session and the effect of voiding,
    cancelling and paying. *)

From S2P Require Import Prelude GoLib Schema Binary64 World Auth Guards Pricing Ledger Customers FolioCharge Settlement DineIn Billing BillSplit Restaurant PosInvariant.
From Stdlib Require Import QArith Qabs Lqa.
Local Open Scope string_scope.
Local Open Scope Z_scope.

(** ** Totals *)

(** The discount, or tip, a type and a value (a flat amount in paise, or
    hundredths of a percent) make on a base amount, before any cap: exact when
    flat, within 0.6 of a paisa for a percentage. *)
Definition amount_of (typ : option string) (value base k : Z) : Prop :=
  if typed typ "percent" then Z.abs (10000 * k - base * value) <= 6000
  else if typed typ "flat" then k = value
  else k = 0.
Definition value_ok (typ : option string) (value : Z) : Prop :=
  0 <= value <= 10 ^ 12 /\ (typed typ "percent" = true -> value <= 10000).

Lemma amount_computed typ value base x :
  near 3 x base -> (0 <= x)%Q -> 0 <= base <= 10 ^ 12 -> value_ok typ value ->
  exists k, (if typed typ "percent" then round2 (fdiv (fmul x (cents value)) 100)
             else if typed typ "flat" then cents value else 0%Q) = cents k
    /\ 0 <= k <= 10 ^ 12 + 1 /\ amount_of typ value base k.
Proof.
  intros Hx Hx0 Hb [Hv Hp]. unfold amount_of. destruct (typed typ "percent").
  - destruct (percent_of x base value Hx Hx0 Hb) as (k & E & H0 & Hk); [specialize (Hp eq_refl); lia|].
    exists k. repeat split; auto. specialize (Hp eq_refl). nia.
  - destruct (typed typ "flat"); [exists value | exists 0]; repeat split; lia.
Qed.

Lemma taxable_near s k : 0 <= k <= s -> s <= 10 ^ 12 ->
  near 3 (fsub (cents s) (cents k)) (s - k) /\ (0 <= fsub (cents s) (cents k))%Q.
Proof.
  intros Hk Hs. split.
  - apply (fsub_near 1 1); [apply cents_near; unfold MAXC; lia.. | unfold MAXC; lia | lia].
  - apply rnd_nonneg. pose proof (cents_le k s ltac:(lia) ltac:(unfold MAXC; lia) ltac:(unfold MAXC; lia)). lra.
Qed.

Lemma totals_computed b s dv r tv z p :
  b_Subtotal b = cents s -> b_DiscountValue b = cents dv -> b_TaxRate b = cents r ->
  b_TipValue b = cents tv -> b_RoundingAdjust b = cents z -> b_AmountPaid b = cents p ->
  0 <= s <= 10 ^ 12 -> 0 <= r <= 10000 -> Z.abs z <= 10 ^ 12 -> Z.abs p <= 10 ^ 12 ->
  value_ok (b_DiscountType b) dv -> value_ok (b_TipType b) tv ->
  exists k tax tip, let off := Z.min k s in let total := s - off + tax + tip + z in
    amount_of (b_DiscountType b) dv s k /\ 0 <= off <= s
    /\ 0 <= tax /\ Z.abs (10000 * tax - (s - off) * r) <= 6000
    /\ 0 <= tip /\ amount_of (b_TipType b) tv (s - off) tip
    /\ computeTotals b = with_totals b (cents off) (cents tax) (cents tip) (cents total) (cents (total - p)).
Proof.
  intros Es Ed Er Et Ez Ep Hs Hr Hz Hp Hd Ht.
  assert (Hsn : near 3 (cents s) s) by (apply (near_weaken 1); [apply cents_near; unfold MAXC; lia | lia]).
  destruct (amount_computed _ dv s (cents s) Hsn (cents_nonneg s ltac:(lia)) Hs Hd) as (k & Ek & Hk & Hk').
  set (off := Z.min k s). assert (Ho : 0 <= off <= s) by (unfold off; lia).
  destruct (taxable_near s off Ho ltac:(lia)) as [Hx Hx0].
  destruct (percent_of _ (s - off) r Hx Hx0 ltac:(lia) Hr) as (tax & Etax & Htax0 & Htax).
  destruct (amount_computed _ tv (s - off) _ Hx Hx0 ltac:(lia) Ht) as (tip & Etip & Htip & Htip').
  exists k, tax, tip. cbv zeta. fold off.
  split; [exact Hk'|]. split; [exact Ho|]. split; [exact Htax0|]. split; [exact Htax|]. split; [lia|]. split; [exact Htip'|].
  unfold computeTotals. rewrite Es, Ed, Er, Et, Ez, Ep, Ek. cbv zeta.
  assert (Eoff : (if flt (cents s) (cents k) then cents s else cents k) = cents off).
  { rewrite flt_cents by (unfold MAXC; lia). unfold off. destruct (Z.ltb_spec s k); f_equal; lia. }
  rewrite Eoff, Etax, Etip. assert (Htaxb : tax <= 10 ^ 12 + 1) by nia.
  assert (Etot : round2 (fadd (fadd (fadd (fsub (cents s) (cents off)) (cents tax)) (cents tip)) (cents z))
                 = cents (s - off + tax + tip + z)).
  { apply (round2_near 9); [|lia|unfold MAXC; lia].
    apply (fadd_near 7 1); [|apply cents_near; unfold MAXC; lia | unfold MAXC; lia | lia].
    apply (fadd_near 5 1); [|apply cents_near; unfold MAXC; lia | unfold MAXC; lia | lia].
    apply (fadd_near 3 1); [exact Hx | apply cents_near; unfold MAXC; lia | unfold MAXC; lia | lia]. }
  rewrite Etot, round2_sub by (unfold MAXC; lia). reflexivity.
Qed.

(** A bill with no discount, tip, rounding or payment yet. *)
Lemma fresh_totals st rate cur :
  0 <= st <= 10 ^ 12 -> 0 <= rate <= 10000 ->
  let b := no_bill <| b_Subtotal := cents st |> <| b_TaxRate := cents rate |> <| b_Currency := cur |> in
  exists tax, 0 <= tax <= 10 ^ 12 + 1 /\ Z.abs (10000 * tax - st * rate) <= 6000
    /\ computeTotals b = with_totals b (cents 0) (cents tax) (cents 0) (cents (st + tax)) (cents (st + tax)).
Proof.
  intros Hs Hr b.
  destruct (totals_computed b st 0 rate 0 0 0) as (k & tax & tip & Hk & Ho & Htax0 & Htax & Htip0 & Htip & E);
    try first [reflexivity | lia | split; [lia | discriminate]].
  unfold amount_of in Hk, Htip. cbn in Hk, Htip. subst k tip. replace (Z.min 0 st) with 0 in * by lia.
  exists tax. rewrite Z.sub_0_r in Htax. split; [nia|]. split; [exact Htax|].
  rewrite E. f_equal; f_equal; lia.
Qed.

(** The totals of a bill, in whole paise: the discount is cut to the subtotal,
    tax and a percentage tip are charged on what is left of it, to within 0.6
    of a paisa, flat amounts are exact, and the total is exactly subtotal -
    discount + tax + tip + rounding, the due exactly the total less what was
    paid. *)
Theorem bill_totals b s dv r tv z p
  (Es : b_Subtotal b = cents s) (Ed : b_DiscountValue b = cents dv) (Er : b_TaxRate b = cents r)
  (Et : b_TipValue b = cents tv) (Ez : b_RoundingAdjust b = cents z) (Ep : b_AmountPaid b = cents p)
  (Hs : 0 <= s <= 10 ^ 12) (Hr : 0 <= r <= 10000) (Hz : Z.abs z <= 10 ^ 12) (Hp : Z.abs p <= 10 ^ 12)
  (Hd : value_ok (b_DiscountType b) dv) (Ht : value_ok (b_TipType b) tv) :
  exists k tax tip, let off := Z.min k s in let total := s - off + tax + tip + z in
    amount_of (b_DiscountType b) dv s k /\ 0 <= off <= s
    /\ 0 <= tax /\ Z.abs (10000 * tax - (s - off) * r) <= 6000
    /\ 0 <= tip /\ amount_of (b_TipType b) tv (s - off) tip
    /\ computeTotals b = with_totals b (cents off) (cents tax) (cents tip) (cents total) (cents (total - p)).
Proof. exact (totals_computed b s dv r tv z p Es Ed Er Et Ez Ep Hs Hr Hz Hp Hd Ht). Qed.

(** 333.33 less 12.5%, 18% tax, a 10% tip, rounded up by 0.37. *)
Definition thali : billRow :=
  no_bill <| b_Subtotal := cents 33333 |> <| b_DiscountType := Some "percent" |> <| b_DiscountValue := cents 1250 |>
    <| b_TaxRate := cents 1800 |> <| b_TipType := Some "percent" |> <| b_TipValue := cents 1000 |>
    <| b_RoundingAdjust := cents 37 |>.
Lemma bill_totals_witness :
  computeTotals thali = with_totals thali (cents 4167) (cents 5250) (cents 2917) (cents 37370) (cents 37370)
  /\ exists k tax tip, let off := Z.min k 33333 in let total := 33333 - off + tax + tip + 37 in
    amount_of (Some "percent") 1250 33333 k /\ 0 <= off <= 33333
    /\ 0 <= tax /\ Z.abs (10000 * tax - (33333 - off) * 1800) <= 6000
    /\ 0 <= tip /\ amount_of (Some "percent") 1000 (33333 - off) tip
    /\ computeTotals thali = with_totals thali (cents off) (cents tax) (cents tip) (cents total) (cents (total - 0)).
Proof.
  split; [vm_compute; reflexivity|].
  apply (bill_totals thali 33333 1250 1800 1000 37 0); first [reflexivity | lia | split; [lia | intros _; lia]].
Defined.

(** ** Running the handlers *)

Definition pos_error (r : Resp PosBody) : Prop := exists status msg, r = RespError status msg.
Lemma pos_error_intro status msg : pos_error (RespError status msg).
Proof. eexists _, _. reflexivity. Qed.
#[export] Hint Resolve pos_error_intro : core.

Section Running.
Context {env : Env} {jwt : Jwt} (secret : string).

Lemma inert_failing c {A} (m : M GoErr A) st msg : inert c m -> inert c (failing m st msg).
Proof. apply inert_on_err. Qed.
Lemma inert_failing_text c {A} (m : M GoErr A) st msg : inert c m -> inert c (failing_text m st msg).
Proof. apply inert_on_err. Qed.
Lemma inert_genNumber c {E} p : inert c (genNumber p : M E string).
Proof. unfold genNumber. inert_go. Qed.
Lemma inert_audit {E} x a t r : inert Pool (audit secret x a t r : M E unit).
Proof. unfold audit. inert_go. Qed.
Lemma inert_load_live c sid : inert c (load_live_bill c sid).
Proof. apply inert_query_row. Qed.
Lemma inert_sessionCOGS c {E} sid : inert c (sessionCOGS c sid : M E Q).
Proof. unfold sessionCOGS. inert_go. Qed.

Lemma runs_then_failing {A B} c (m : M GoErr A) st msg (k : A -> M (Resp PosBody) B) d Q1 Q (R : Resp PosBody -> Prop) :
  R (RespError st msg) -> (forall a, inert c (k a)) -> runs c m d Q1 (fun _ => True) ->
  (forall a d', Q1 a d' -> runs c (k a) d' Q R) -> runs c (a ← failing m st msg; k a) d Q R.
Proof.
  intros HR Hi Hm Hk. eapply runs_bind; [|exact Hi|exact Hk]. apply runs_on_err.
  eapply runs_weaken; [exact Hm | auto | intros; exact HR].
Qed.

Lemma runs_genNumber {E A} c p (k : string -> M E A) d Q R :
  (forall n, inert c (k n)) -> (forall n, runs c (k n) d Q R) -> runs c (n ← genNumber p; k n) d Q R.
Proof.
  intros Hi Hk. eapply runs_bind with (Q1 := fun _ d' => d' = d); [|exact Hi|intros n d' ->; apply Hk].
  unfold genNumber. apply runs_now; [intros; inert_go|]. intros t1. apply runs_now; [intros; inert_go|]. intros t2. now apply runs_ret.
Qed.

(** The audit row is refused, and nobody is told. *)
Lemma runs_audit {E A} x a t r (k : unit -> M E A) d Q R :
  inert Pool (k tt) -> runs Pool (k tt) d Q R -> runs Pool (u ← audit secret x a t r; k u) d Q R.
Proof.
  intros Hi Hk. eapply runs_bind with (Q1 := fun _ d' => d' = d); [|intros []; exact Hi | intros [] d' ->; exact Hk].
  unfold audit. apply runs_uuid; [intros; inert_go|]. intros n.
  eapply runs_bind with (Q1 := fun _ d' => d' = d); [|intros; inert_go | intros _ d' ->; now apply runs_ret].
  intros w [Ht <-]. unfold attempt, exec, insert_pos_audit. cbn.
  destruct (db_fault _); left; exists (w_db w); (split; [split; [exact Ht | reflexivity] | reflexivity]).
Qed.

Lemma runs_then_tx {A B} s1 s2 (body : M (Resp PosBody) A) (k : A -> M (Resp PosBody) B) d Q1 Q R :
  (forall a, inert Pool (k a)) -> runs Tx body d Q1 R ->
  (forall a d', Q1 a d' -> runs Pool (k a) d' Q R) -> runs Pool (a ← tx_block s1 s2 body; k a) d Q R.
Proof. intros Hi Hb Hk. eapply runs_bind; [apply runs_tx_block, Hb | exact Hi | exact Hk]. Qed.

Lemma runs_then_guard_ok {A} c v (k : unit -> M (Resp PosBody) A) d Q R :
  v = None -> runs c (k tt) d Q R -> runs c (u ← guard v; k u) d Q R.
Proof. intros -> H. exact H. Qed.
Lemma runs_then_param {A} c x n msg id (k : uuid -> M (Resp PosBody) A) d Q R :
  uuid_parse (c_params x n) = Some id -> runs c (k id) d Q R -> runs c (i ← param_id x n msg; k i) d Q R.
Proof. intros E H. unfold param_id. rewrite E. exact H. Qed.
Lemma runs_then_load {A} c h id row (k : billRow -> M (Resp PosBody) A) d Q (R : Resp PosBody -> Prop) :
  (forall b, inert c (k b)) -> R (RespError 404 "bill not found") ->
  find_row (bill_key h id) (bills d) = Some row -> runs c (k (scanBill row)) d Q R -> runs c (b ← load_bill c h id; k b) d Q R.
Proof.
  intros Hi HR E H. unfold load_bill. eapply runs_then_failing; [exact HR | exact Hi | |].
  - apply (runs_query_row c _ d (fun b d' => b = scanBill row /\ d' = d)). rewrite E. cbn. auto.
  - intros b d' [-> ->]. exact H.
Qed.
End Running.
#[export] Hint Resolve inert_failing inert_failing_text inert_genNumber inert_audit inert_guard inert_sessionCOGS inert_load_live inert_tx_block : keeps.

(** ** The bill of a session *)


(** ** The bill of a session *)

(** The row a first call writes. *)
Record fresh_bill (d : DB) (h sid : uuid) (rate : Z) (row : BillDbRow) : Prop := {
  fb_session : bl_session_id row = sid; fb_hotel : bl_hotel_id row = h; fb_status : bl_status row = "open";
  fb_subtotal : bl_subtotal row = session_total sid d; fb_discount : bl_discount_amount row = 0;
  fb_rate : bl_tax_rate row = rate;
  fb_tax : 0 <= bl_tax_amount row /\ Z.abs (10000 * bl_tax_amount row - session_total sid d * rate) <= 6000;
  fb_total : bl_total_amount row = session_total sid d + bl_tax_amount row;
  fb_due : bl_amount_paid row = 0 /\ bl_amount_due row = bl_total_amount row }.

(** The rate of the session's outlet, or of the hotel. *)
Definition rate_of (d : DB) (h : uuid) (outlet : option uuid) : Z :=
  match outlet with
  | Some o => match find_row (fun x => ueq (ou_id x) o) (outlets d) with Some x => ou_default_tax_rate x | None => 0 end
  | None => match find_row (fun x => ueq (ho_id x) h) (hotels d) with Some x => default 0 (ho_gst_rate x) | None => 0 end
  end.

Section Generating.
Context {env : Env} {laws : EnvLaws env} {jwt : Jwt} (secret : string).

Lemma default_tax_runs h outlet d R :
  0 <= rate_of d h outlet <= 10000 ->
  runs Tx (default_tax h outlet) d (fun tc d' => d' = d /\ fst tc = cents (rate_of d h outlet)) R.
Proof.
  unfold default_tax, rate_of. intros Hr.
  destruct outlet as [o|]; apply runs_then_attempt_row; try (intros; inert_go); destruct (find_row _ _) as [x|]; cbn [fmap option_fmap option_map];
    apply runs_ret; (split; [reflexivity|]); cbn [fst]; rewrite ?num_dec_cents by (unfold MAXC; lia); rewrite ?cents_0; reflexivity.
Qed.
Lemma default_tax_inert h o : inert Tx (default_tax h o).
Proof. unfold default_tax. destruct o; inert_go. Qed.
Lemma set_table_status_inert c id st : inert c (set_table_status c id st).
Proof. unfold set_table_status. inert_go. Qed.
Lemma set_table_status_runs c id st d R :
  runs c (set_table_status c id st) d (fun _ d' => exists tb, d' = d <| tables := tb |>) R.
Proof. unfold set_table_status. apply runs_now; [intros; inert_go|]. intros t. apply runs_exec. eexists. reflexivity. Qed.
Lemma update_session_runs c id f d R :
  R (ErrPg "23505") ->
  runs c (exec c (update_session id f)) d (fun _ d' => d' = d <| sessions ::= update_rows (fun o => ueq (ds_id o) id) f |>) R.
Proof.
  intros HR. apply runs_exec. unfold update_session. destruct (find_row _ _) as [s|] eqn:Ef.
  - destruct (session_violation _ _); [exact HR | reflexivity].
  - change (d = d <| sessions := update_rows (fun o => ueq (ds_id o) id) f (sessions d) |>).
    rewrite update_rows_none; [destruct d; reflexivity|]. unfold rows_affected.
    destruct (select _ _) as [|x l] eqn:Es; [reflexivity|]. exfalso.
    assert (H : In x (select (fun o => ueq (ds_id o) id) (sessions d))) by (rewrite Es; now left).
    apply in_select in H as [H1 H2]. pose proof (find_row_none _ _ x Ef H1). cbv beta in *. congruence.
Qed.
End Generating.
#[export] Hint Resolve default_tax_inert set_table_status_inert : keeps.

Section Generated.
Context {env : Env} {laws : EnvLaws env} {jwt : Jwt} (secret : string).

Lemma generate_bill_tx_runs x sid s d (h := hotelID secret x) (rate := rate_of d h (ds_outlet_id s)) :
  find_row (session_key h sid) (sessions d) = Some s ->
  ds_status s <> "closed" -> ds_status s <> "cancelled" -> find_row (live_bill sid) (bills d) = None ->
  0 < session_total sid d <= 10 ^ 12 -> 0 <= rate <= 10000 ->
  runs Tx (generate_bill_tx secret x sid) d (fun b d' => exists row tb now,
    fresh_bill d h sid rate row /\ b = scanBill row
    /\ d' = d <| bills ::= insert_row row |>
              <| sessions ::= update_rows (fun o => ueq (ds_id o) sid) (mark_billed now) |> <| tables := tb |>) pos_error.
Proof.
  intros Es Hc1 Hc2 Eb Ht Hr. unfold generate_bill_tx. fold h.
  eapply runs_then_failing; [auto | intros; inert_go | |].
  { apply (runs_query_row Tx _ d (fun a d' => a = s /\ d' = d)). rewrite Es. auto. }
  intros a d1 [-> ->]. apply String.eqb_neq in Hc1, Hc2. rewrite Hc1, Hc2. cbn [orb].
  apply runs_then_throw_if; [inert_go|]. unfold load_live_bill.
  apply runs_then_attempt_row; [intros; inert_go|]. rewrite Eb. cbn [fmap option_fmap option_map].
  eapply runs_bind; [apply runs_ret with (Q := fun _ d' => d' = d); reflexivity | intros; inert_go |]. intros u d1 ->.
  eapply runs_then_failing; [auto | intros; inert_go | |].
  { apply (runs_query Tx _ d (fun q d' => q = cents (session_total sid d) /\ d' = d)).
    split; [apply num_dec_cents; unfold MAXC; lia | reflexivity]. }
  intros q d1 [-> ->]. apply runs_then_throw_if; [inert_go|].
  rewrite <- cents_0, fle_cents by (unfold MAXC; lia). destruct (Z.leb_spec (session_total sid d) 0); [lia|].
  eapply runs_bind; [apply default_tax_runs, Hr | intros; inert_go|]. intros [tax0 cur] d1 [-> Etax]. cbn [fst snd] in *.
  rewrite round2_cents by (unfold MAXC; lia). subst tax0. set (st := session_total sid d) in *. fold rate.
  destruct (fresh_totals st rate cur ltac:(lia) Hr) as (tax & Htax0 & Htax & E). rewrite E. clear E.
  apply runs_genNumber; [intros; inert_go|]. intros no. apply runs_uuid; [intros; inert_go|]. intros n.
  match goal with |- context [insert_bill ?r] => set (row := r) end. eapply runs_then_failing; [auto | intros; inert_go | |].
  { apply (runs_exec Tx _ d (fun r d' => r = row /\ d' = d <| bills ::= insert_row row |>)). unfold insert_bill.
    destruct (negb _); [exact I|]. destruct (bill_violation _ _); [exact I|]. auto. }
  intros r d1 [-> ->]. apply runs_now; [intros; inert_go|]. intros now.
  eapply runs_then_failing; [auto | intros; inert_go | apply update_session_runs; exact I |]. intros u1 d1 ->.
  eapply runs_bind; [apply runs_attempt_ok, set_table_status_runs | intros; inert_go |]. intros r d1 (u2 & _ & tb & ->).
  apply runs_ret. exists row, tb, now. split; [|auto].
  split; cbn -[cents]; rewrite ?num_enc_cents by (unfold MAXC; lia); try reflexivity; split; first [reflexivity | lia].
Qed.

Lemma generate_existing_runs x sid s row d (Q : billRow -> DB -> Prop) :
  find_row (session_key (hotelID secret x) sid) (sessions d) = Some s ->
  ds_status s <> "closed" -> ds_status s <> "cancelled" -> find_row (live_bill sid) (bills d) = Some row ->
  runs Tx (generate_bill_tx secret x sid) d Q (fun r => r = RespOK (PB_bill (scanBill row)) \/ pos_error r).
Proof.
  intros Es Hc1 Hc2 Eb. unfold generate_bill_tx.
  eapply runs_then_failing; [auto | intros; inert_go | |].
  { apply (runs_query_row Tx _ d (fun a d' => a = s /\ d' = d)). rewrite Es. auto. }
  intros a d1 [-> ->]. apply String.eqb_neq in Hc1, Hc2. rewrite Hc1, Hc2. cbn [orb].
  apply runs_then_throw_if; [inert_go|]. unfold load_live_bill.
  apply runs_then_attempt_row; [intros; inert_go|]. rewrite Eb. cbn [fmap option_fmap option_map].
  eapply runs_bind with (Q1 := fun _ _ => False); [apply runs_throw; auto | intros; inert_go | intros _ _ []].
Qed.
End Generated.

Lemma find_row_insert_none {R} (p : R -> bool) r t : find_row p t = None -> p r = true -> find_row p (insert_row r t) = Some r.
Proof.
  unfold find_row, insert_row. intros Hn Hp. induction t as [|y t IH]; cbn in *; [now rewrite Hp|].
  destruct (p y); [discriminate | auto].
Qed.

(** C12: the bill of a session, first asked for: its subtotal is the sum of the
    items that are not cancelled, taxed at the rate of the outlet (or of the
    hotel) to within 0.6 of a paisa, nothing paid and the whole total due, and the
    session is marked billed.  Asked for again, whatever was ordered meanwhile,
    the answer is that same bill and nothing is written. *)
Theorem bill_generated_once (env : Env) (laws : EnvLaws env) (jwt : Jwt) secret x x' sid s d
  (Hgate : authGate secret x' = inr x) (Hid : uuid_parse (c_params x "id") = Some sid)
  (Hs : find_row (session_key (hotelID secret x) sid) (sessions d) = Some s)
  (Hlive : ds_status s <> "closed" /\ ds_status s <> "cancelled")
  (Hnone : find_row (live_bill sid) (bills d) = None)
  (Htotal : 0 < session_total sid d <= 10 ^ 12)
  (Hrate : 0 <= rate_of d (hotelID secret x) (ds_outlet_id s) <= 10000) :
  let rq := {| pq_ctx := x'; pq_op := Op_GenerateBill |} in
  runs Pool (pos_handle secret rq) d (fun r d' => exists row now,
      fresh_bill d (hotelID secret x) sid (rate_of d (hotelID secret x) (ds_outlet_id s)) row
      /\ r = RespCreated (PB_bill (scanBill row)) /\ bills d' = insert_row row (bills d)
      /\ sessions d' = update_rows (fun o => ueq (ds_id o) sid) (mark_billed now) (sessions d)
      /\ forall d2, bills d2 = bills d' -> sessions d2 = sessions d' ->
           runs Pool (pos_handle secret rq) d2 (fun _ _ => False)
             (fun r2 => r2 = RespOK (PB_bill (scanBill row)) \/ pos_error r2)
           /\ forall w r2 w', pos_handle secret rq w = (inl r2, w') -> w_db w' = w_db w)
    pos_error.
Proof.
  intros rq. destruct Hlive as [Hc1 Hc2]. unfold pos_handle. cbn [rq pq_ctx pq_op pos_route]. rewrite Hgate. unfold GenerateBill.
  eapply runs_then_param; [exact Hid|]. eapply runs_then_tx; [intros; inert_go | |].
  { apply generate_bill_tx_runs; eassumption. }
  intros b d1 (row & tb & now & Hf & -> & ->). apply runs_audit; [inert_go|]. apply runs_ret.
  exists row, now. split; [exact Hf|]. split; [reflexivity|]. split; [reflexivity|]. split; [reflexivity|].
  intros d2 Eb Es. assert (Hkey : session_key (hotelID secret x) sid s = true) by (eapply find_row_some; exact Hs).
  split.
  - eapply runs_then_param; [exact Hid|]. eapply runs_then_tx with (Q1 := fun _ _ => False); [intros; inert_go | |intros ? ? []].
    apply generate_existing_runs with (s := mark_billed now s); [| discriminate | discriminate |].
    + rewrite Es. cbn -[update_rows find_row]. rewrite find_row_update by reflexivity. rewrite Hs. cbn.
      apply andb_true_iff in Hkey as [Hi _]. now rewrite Hi.
    + rewrite Eb. cbn -[find_row insert_row]. apply find_row_insert_none; [exact Hnone|]. unfold live_bill.
      rewrite (fb_session _ _ _ _ _ Hf), (fb_status _ _ _ _ _ Hf). unfold ueq. now rewrite N.eqb_refl.
  - intros w r2 w'. unfold param_id. rewrite Hid. cbn [of_option]. intros E. apply bind_inv in E as [(e & E & _)|(a & w1 & E & E2)].
    { discriminate E. }
    injection E as <- <-. apply bind_inv in E2 as [(e & E2 & _)|(a & w1 & _ & E2)].
    + eapply tx_with_atomic; [|exact E2]. unfold generate_bill_tx, failing, load_live_bill, set_table_status, genNumber, default_tax. keeps_go.
    + exfalso. unfold audit, mbind, M_bind, new_uuid, attempt, mret, M_ret in E2. destruct (exec _ _ _) as [[?|?] ?]; discriminate E2.
Qed.

(** The party of the demonstration has ordered. *)
Definition ordered : DB := w_db (pos_serve_all (env := calm) (jwt := demo_jwt) "secret" (firstn 3 evening) (start dining_room)).
Lemma bill_generated_once_witness :
  exists x s, authGate (jwt := demo_jwt) "secret" (demo_request "food_manager@1" "1000") = inr x
  /\ find_row (session_key (hotelID (env := calm) (jwt := demo_jwt) "secret" x) 1000) (sessions ordered) = Some s
  /\ session_total 1000 ordered = 32000
  /\ runs (env := calm) Pool (pos_handle (env := calm) (jwt := demo_jwt) "secret" {| pq_ctx := demo_request "food_manager@1" "1000"; pq_op := Op_GenerateBill |})
       ordered (fun r d' => exists row, bills d' = [row] /\ r = RespCreated (PB_bill (scanBill (env := calm) row))
                                 /\ bl_subtotal row = 32000 /\ bl_tax_rate row = 500) pos_error.
Proof.
  do 2 eexists. split; [reflexivity|]. split; [vm_compute; reflexivity|]. split; [vm_compute; reflexivity|].
  eapply runs_post.
  - eapply (bill_generated_once calm calm_laws demo_jwt "secret" _ _ 1000);
      [reflexivity | reflexivity | vm_compute; reflexivity | split; discriminate | vm_compute; reflexivity
      | vm_compute; split; [reflexivity | discriminate] | vm_compute; split; discriminate].
  - intros r d' (row & now & Hf & Hr & Hb & _). exists row. split; [exact Hb|]. split; [exact Hr|].
    split; [exact (fb_subtotal _ _ _ _ _ Hf) | exact (fb_rate _ _ _ _ _ Hf)].
Defined.
