(* ===== verification/PaySpec.v ===== *)
(** PaySpec: settling a bill.  The payment that clears it, and what it leaves in
    the bill, the session, the payments and the ledger; and what refunding a bill
    takes back. *)

From S2P Require Import Prelude GoLib Schema Binary64 World Auth Guards Pricing Ledger Customers FolioCharge Settlement DineIn Billing BillSplit Restaurant PosInvariant BillSpec.
From Stdlib Require Import QArith.
Local Open Scope string_scope.
Local Open Scope Z_scope.

(** ** The ledger's side of a sale *)

Section Posting.
Context {env : Env} {laws : EnvLaws env}.

Lemma sale_books h m sub T X ref desc :
  Z.abs T <= MAXC -> Z.abs X <= MAXC -> Z.abs (T - X) <= MAXC ->
  books (fun c => postSalesToLedger c h m sub (cents X) (cents T) ref desc) h desc ref T.
Proof.
  intros HT HX HTX. assert (Hcash : chart_code (if m =s "cash" then "1000" else "1010") = true) by (destruct (m =s "cash"); reflexivity).
  unfold postSalesToLedger. rewrite !round2_cents, ?round2_sub by assumption. books_with [(T, 0); (0, T - X); (0, X)].
Qed.
Lemma cogs_books h K ref desc :
  Z.abs K <= MAXC -> K <> 0 -> books (fun c => postCOGS c h (cents K) ref desc) h desc ref K.
Proof.
  intros HK H0. unfold postCOGS. rewrite !round2_cents by assumption.
  replace (feq (cents K) 0) with false; [books_with [(K, 0); (0, K)]|].
  rewrite <- cents_0, feq_cents by (assumption || (unfold MAXC; lia)). symmetry. now apply Z.eqb_neq.
Qed.

Lemma runs_attempt_pool {E A} (f : DB -> GoErr + (A * DB)) d (Q : GoErr + A -> DB -> Prop) (R : E -> Prop) :
  match f d with inl e => Q (inl e) d | inr (a, d') => Q (inr a) d' end -> runs Pool (attempt (exec Pool f)) d Q R.
Proof.
  intros H w [Ht <-]. unfold attempt, exec, faulty, spoiled, sees; cbn. destruct (db_fault (w_stmts w)) eqn:Ef; cbn; [right; eauto|].
  destruct (f (w_db w)) as [e|[a d']]; cbn; left; [exists (w_db w) | exists d']; rewrite ?Ht; auto.
Qed.

Lemma sessionCOGS_runs {E} c sid d (R : E -> Prop) :
  Z.abs (cogs_cents sid d) <= MAXC ->
  runs c (sessionCOGS c sid) d (fun q d' => d' = d /\ q = cents (cogs_cents sid d)) R.
Proof.
  intros Hc. unfold sessionCOGS.
  eapply runs_bind; [apply runs_attempt_ok with (Q := fun q d' => d' = d /\ q = cents (cogs_cents sid d)) | intros; inert_go |].
  - apply runs_query. split; [reflexivity | now apply num_dec_cents].
  - intros r d' (q & -> & -> & ->). apply runs_ret. split; [reflexivity | now apply round2_cents].
Qed.

Lemma postSalesFor_inert c h m st tx t ref desc cu : inert c (postSalesToLedgerFor c h m st tx t ref desc cu).
Proof. unfold postSalesToLedgerFor, postSalesToLedger. inert_go. Qed.
Lemma postCOGS_inert c h q ref desc : inert c (postCOGS c h q ref desc).
Proof. unfold postCOGS. inert_go. Qed.
Lemma reverse_inert c h r desc : inert c (reverseJournalsByReference c h r desc).
Proof. unfold reverseJournalsByReference, numbered, nextVoucherNo, insert_entry, insert_line. inert_go. Qed.
End Posting.
#[export] Hint Resolve postSalesFor_inert postCOGS_inert reverse_inert : keeps.

(** The sale posted for T, and at most its cost besides. *)
Record sale_posted (d d' : DB) (T : Z) : Prop := {
  sp_lines : exists sale cost, journal_lines d' = (journal_lines d ++ sale ++ cost)%list
     /\ in_balance sale /\ total_debit sale = T /\ in_balance cost;
  sp_vouchers : vouchers_ok d' }.

Section Settling.
Context {env : Env} {laws : EnvLaws env} {jwt : Jwt} (secret : string).

Lemma post_settlement_inert {E} h id m b : inert Pool (post_settlement h id m b : M E _).
Proof. unfold post_settlement. inert_go. Qed.

(** What post_settlement may touch besides the ledger. *)
Definition stamped_only (id : uuid) (d d' : DB) : Prop :=
  exists bs, ledger_only (d <| bills := bs |>) d'
    /\ (bs = bills d \/ exists cu, bs = update_rows (bill_id id) (fun r => r <| bl_customer_id := Some cu |>) (bills d)).

Lemma post_settlement_runs {E} h id m b T X d (R : E -> Prop) :
  isCreditSettlement m = false -> b_TaxAmount b = cents X -> b_TotalAmount b = cents T ->
  Z.abs T <= MAXC -> Z.abs X <= MAXC -> Z.abs (T - X) <= MAXC -> Z.abs (cogs_cents (b_SessionID b) d) <= MAXC ->
  vouchers_ok d ->
  runs Pool (post_settlement h id m b) d (fun j d' =>
    (exists e, j = nilAsNull e /\ exists je, In je (journal_entries d') /\ je_id je = e /\ je_reference je = "BILL " ++ b_BillNumber b)
    /\ sale_posted d d' T /\ stamped_only id d d') R.
Proof.
  intros Hm EX ET HT HX HTX HC Hv. unfold post_settlement.
  eapply runs_bind with (Q1 := fun _ d' => d' = d).
  { apply runs_attempt_query_row. destruct (find_row _ _); reflexivity. }
  { intros; inert_go. }
  intros cu d1 ->. set (customer := match cu with inr u => u | inl _ => uuid_nil end).
  eapply runs_bind with (Q1 := fun _ d' => exists bs, d' = d <| bills := bs |>
      /\ (bs = bills d \/ exists u, bs = update_rows (bill_id id) (fun r => r <| bl_customer_id := Some u |>) (bills d))).
  { assert (Hd : exists bs, d = d <| bills := bs |> /\ (bs = bills d \/ exists u, bs = update_rows (bill_id id) (fun r => r <| bl_customer_id := Some u |>) (bills d)))
      by (exists (bills d); split; [destruct d; reflexivity | auto]).
    destruct (ueq customer uuid_nil); [apply runs_ret; exact Hd|].
    eapply runs_bind with (Q1 := fun _ d' => exists bs, d' = d <| bills := bs |>
      /\ (bs = bills d \/ exists u, bs = update_rows (bill_id id) (fun r => r <| bl_customer_id := Some u |>) (bills d)));
      [| intros; inert_go | intros r d' H; apply runs_ret; exact H].
    apply runs_attempt_pool. unfold update_bill. destruct (exists_row _ _); [exact Hd|]. eexists. split; [reflexivity|]. right. eauto. }
  { intros; inert_go. }
  intros u d1 (bs & -> & Hbs).
  eapply runs_bind; [apply runs_attempt_ok | intros; inert_go |].
  { unfold postSalesToLedgerFor. rewrite Hm. cbn [negb]. rewrite EX, ET.
    apply (sale_books h m _ T X _ _ HT HX HTX). eapply vouchers_ok_ext; [| |exact Hv]; reflexivity. }
  intros r d1 (e & -> & nl & [Hfr (no & date & He) Hl _] & Hbal & Htot & Hv1).
  assert (HC1 : cogs_cents (b_SessionID b) d1 = cogs_cents (b_SessionID b) d).
  { destruct Hfr as (? & ? & ? & ? & ->). reflexivity. }
  eapply runs_bind; [apply sessionCOGS_runs; rewrite HC1; exact HC | intros; inert_go|]. intros q d2 [-> ->]. rewrite HC1.
  set (K := cogs_cents (b_SessionID b) d) in *. rewrite <- cents_0, flt_cents by (assumption || (unfold MAXC; lia)).
  assert (Hentry : exists je, In je (journal_entries d1) /\ je_id je = e /\ je_reference je = "BILL " ++ b_BillNumber b).
  { rewrite He. eexists. split; [apply in_insert_row; right; reflexivity | split; reflexivity]. }
  destruct (Z.ltb_spec 0 K) as [HK|HK].
  - eapply runs_bind with (Q1 := fun _ d' => exists nl2, sale_posted d d' T /\ ledger_only d1 d' /\ journal_lines d' = (journal_lines d ++ nl ++ nl2)%list
        /\ exists je, In je (journal_entries d') /\ je_id je = e /\ je_reference je = "BILL " ++ b_BillNumber b).
    + eapply runs_bind; [apply runs_attempt_ok, (cogs_books h K _ _ HC ltac:(lia)), Hv1 | intros; inert_go|].
      intros r d2 (e2 & -> & nl2 & [Hfr2 (no2 & date2 & He2) Hl2 _] & Hbal2 & _ & Hv2). apply runs_ret. exists nl2.
      assert (El : journal_lines d2 = (journal_lines d ++ nl ++ nl2)%list) by (rewrite Hl2, Hl; cbn; now rewrite <- app_assoc).
      split; [split; [exists nl, nl2; auto | exact Hv2]|]. split; [exact Hfr2|]. split; [exact El|].
      destruct Hentry as (je & Hje & H1). exists je. split; [|exact H1]. rewrite He2. apply in_insert_row. auto.
    + intros; inert_go.
    + intros u2 d2 (nl2 & Hsp & Hlo & _ & Hje). apply runs_ret. split; [exists e; auto|]. split; [exact Hsp|].
      exists bs. split; [eapply ledger_only_trans; eassumption | exact Hbs].
  - eapply runs_bind; [apply runs_ret with (Q := fun _ d' => d' = d1); reflexivity | intros; inert_go|]. intros u2 d2 ->. apply runs_ret.
    split; [exists e; auto|]. split; [|exists bs; auto].
    split; [|exact Hv1]. exists nl, []. rewrite app_nil_r. repeat split; auto.
Qed.
End Settling.
#[export] Hint Resolve post_settlement_inert : keeps.

(** ** The payment that clears the bill *)

Section Clearing.
Context {env : Env} {laws : EnvLaws env} {jwt : Jwt} (secret : string).

(** The bill in memory after its whole due is paid. *)
Definition cleared (b : billRow) : billRow :=
  b <| b_AmountPaid := b_TotalAmount b |> <| b_AmountDue := 0%Q |> <| b_Status := "paid" |>.

Lemma credit_whole_due b T p :
  b_TotalAmount b = cents T -> b_AmountPaid b = cents p -> Z.abs T < 10 ^ 12 -> Z.abs p < 10 ^ 12 ->
  credit_bill b (cents (T - p)) = cleared b.
Proof.
  intros ET Ep HT Hp. unfold credit_bill, cleared. rewrite ET, Ep, round2_add, Zplus_minus by (unfold MAXC; lia).
  rewrite round2_sub, Z.sub_diag by (unfold MAXC; lia). rewrite cents_0. reflexivity.
Qed.

Lemma place_payment_runs h by_ b req no d :
  bq_Method req <> "room_charge" ->
  runs Tx (place_payment h by_ b req no) d (fun _ d' => exists p, d' = d <| payments ::= insert_row p |>
    /\ pay_amount p = num_enc (bq_Amount req) /\ pay_method p = bq_Method req /\ pay_hotel_id p = h /\ pay_number p = no
    /\ pay_status p = "completed") pos_error.
Proof.
  intros Hm. unfold place_payment. apply String.eqb_neq in Hm. rewrite Hm. apply runs_uuid; [intros; unfold failing_text; inert_go|].
  intros n. apply runs_on_err, runs_exec. unfold insert_payment. destruct (negb _); [auto|].
  destruct (exists_row _ _); [auto|]. eexists. repeat split.
Qed.

Lemma inert_place_payment h by_ b req no : inert Tx (place_payment h by_ b req no).
Proof. unfold place_payment, resolveFolioForRoomCharge, postFolioCharge, failing_text. inert_go. Qed.

Definition settle_row (now : Time) (row : BillDbRow) : BillDbRow :=
  row <| bl_amount_paid := bl_total_amount row |> <| bl_amount_due := 0 |> <| bl_status := "paid" |> <| bl_paid_at := Some now |>.

Lemma add_payment_tx_runs x id req row d (h := hotelID secret x) :
  find_row (bill_key h id) (bills d) = Some row -> bill_fits row = true ->
  payment_refused (scanBill row) req = None -> bq_Method req <> "room_charge" ->
  bq_Amount req = cents (bl_total_amount row - bl_amount_paid row) ->
  runs Tx (add_payment_tx secret x id req) d (fun r d' => exists pid no bp p now,
    r = (pid, no, cleared (scanBill row))
    /\ bp_bill_id bp = id /\ bp_id bp = pid /\ bp_amount bp = bl_total_amount row - bl_amount_paid row
    /\ pay_amount p = bl_total_amount row - bl_amount_paid row /\ pay_method p = bq_Method req /\ pay_hotel_id p = h
    /\ d' = d <| bill_payments ::= insert_row bp |> <| payments ::= insert_row p |>
              <| bills ::= update_rows (bill_id id) (credited (cleared (scanBill row)) now) |>
              <| sessions ::= update_rows (fun s => ueq (ds_id s) (bl_session_id row)) (fun s => s <| ds_status := "settled" |>) |>)
    pos_error.
Proof.
  intros Er Hf Hok Hm Ha. pose proof (inert_place_payment) as Hip.
  destruct (bill_fits_spec row Hf) as (HT%fits_abs & Hp%fits_abs & _).
  unfold add_payment_tx. eapply runs_then_load; [intros; inert_go | auto | exact Er|]. rewrite Hok.
  apply runs_then_guard_ok; [reflexivity|]. apply runs_genNumber; [intros; inert_go|]. intros no.
  apply runs_uuid; [intros; inert_go|]. intros n. apply runs_now; [intros; inert_go|]. intros now0.
  match goal with |- context [insert_bill_payment ?r] => set (bp := r) end.
  eapply runs_bind with (Q1 := fun _ d' => d' = d <| bill_payments ::= insert_row bp |>).
  { apply runs_on_err, runs_exec. unfold insert_bill_payment. destruct (bill_payment_fits bp); [reflexivity | auto]. }
  { intros; inert_go. }
  intros u d1 ->. eapply runs_bind; [apply place_payment_runs, Hm | intros; inert_go|].
  intros u2 d1 (p & -> & Hpa & Hpm & Hph & _). rewrite Ha.
  rewrite (credit_whole_due (scanBill row) (bl_total_amount row) (bl_amount_paid row))
    by (first [apply num_dec_cents; unfold MAXC; lia | assumption]).
  apply runs_now; [intros; inert_go|]. intros now.
  eapply runs_then_failing; [auto | intros; inert_go | |].
  { match goal with |- runs _ (exec _ ?f) ?d0 _ _ =>
      apply (runs_exec Tx f d0 (fun _ d' => d' = d0 <| bills ::= update_rows (bill_id id) (credited (cleared (scanBill row)) now) |>)) end.
    unfold update_bill. destruct (exists_row _ _); [exact I | reflexivity]. }
  intros o d1 ->. change (b_Status (cleared (scanBill row)) =s "paid") with true. cbv iota.
  eapply runs_then_failing; [auto | intros; inert_go | apply update_session_runs; exact I|].
  intros u3 d1 ->. apply runs_ret. exists (uuid_new n), no, bp, p, now.
  assert (Eamt : num_enc (bq_Amount req) = bl_total_amount row - bl_amount_paid row) by (rewrite Ha; apply num_enc_cents; unfold MAXC; lia).
  repeat split; try assumption; congruence.
Qed.

Lemma credited_cleared row now : bill_fits row = true ->
  credited (cleared (scanBill row)) now row = settle_row now row.
Proof.
  intros Hf. destruct (bill_fits_spec row Hf) as (HT%fits_abs & _ & _). unfold credited, settle_row. cbn -[cents].
  rewrite num_dec_cents, num_enc_cents by (unfold MAXC; lia). rewrite <- cents_0, (num_enc_cents 0) by (unfold MAXC; lia). reflexivity.
Qed.
End Clearing.

(** ** The refund *)

Section Refund.
Context {env : Env} {laws : EnvLaws env} {jwt : Jwt} (secret : string).

(** The payment that backs the takings out, when there is something to back out. *)
Definition refund_paid (h : uuid) (paid : Z) (d d' : DB) : Prop :=
  if 0 <? paid
  then exists p, d' = d <| payments ::= insert_row p |> /\ pay_amount p = - paid /\ pay_method p = "refund"
                 /\ pay_status p = "completed" /\ pay_hotel_id p = h
  else d' = d.

Lemma refund_tx_runs x id row d (h := hotelID secret x) :
  find_row (bill_key h id) (bills d) = Some row -> bill_fits row = true ->
  bl_status row = "paid" \/ bl_status row = "partially_paid" ->
  runs Tx (refund_tx secret x id) d (fun b d' => exists d1, b = scanBill row /\ refund_paid h (bl_amount_paid row) d d1
    /\ d' = d1 <| bills ::= update_rows (bill_id id) (fun r => r <| bl_status := "refunded" |>) |>
               <| sessions ::= update_rows (fun s => ueq (ds_id s) (bl_session_id row)) (fun s => s <| ds_status := "refunded" |>) |>)
    pos_error.
Proof.
  intros Er Hf Hst. destruct (bill_fits_spec row Hf) as (_ & Hp%fits_abs & _).
  unfold refund_tx. eapply runs_then_load; [intros; inert_go | auto | exact Er|].
  apply runs_then_throw_if; [inert_go|]. replace ((b_Status (scanBill row) !=s "paid") && (b_Status (scanBill row) !=s "partially_paid")) with false
    by (cbn; destruct Hst as [-> | ->]; reflexivity).
  change (b_AmountPaid (scanBill row)) with (num_dec (bl_amount_paid row)). rewrite num_dec_cents by (unfold MAXC; lia).
  eapply runs_bind with (Q1 := fun _ d1 => refund_paid h (bl_amount_paid row) d d1).
  - rewrite <- cents_0, flt_cents by (unfold MAXC; lia). unfold refund_paid. destruct (0 <? bl_amount_paid row); [|now apply runs_ret].
    apply runs_uuid; [intros; inert_go|]. intros n. apply runs_genNumber; [intros; inert_go|]. intros no.
    apply runs_on_err, runs_exec. unfold insert_payment. destruct (negb _); [auto|]. destruct (exists_row _ _); [auto|].
    eexists. split; [reflexivity|]. cbn [pay_amount pay_method pay_status pay_hotel_id]. rewrite fneg_cents, num_enc_cents by (unfold MAXC; lia). auto.
  - intros; inert_go.
  - intros [] d1 Hd1. assert (Eb : bills d1 = bills d /\ sessions d1 = sessions d).
    { unfold refund_paid in Hd1. destruct (0 <? _); [destruct Hd1 as (p & -> & _) | subst d1]; auto. }
    eapply runs_then_failing with (Q1 := fun _ d' => d' = d1 <| bills ::= update_rows (bill_id id) (fun r => r <| bl_status := "refunded" |>) |>); [auto | intros; inert_go | |].
    { apply runs_exec. unfold update_bill. destruct (exists_row _ _); [exact I | reflexivity]. }
    intros o d2 ->. eapply runs_then_failing; [auto | intros; inert_go | apply update_session_runs; exact I|].
    intros u d2 ->. apply runs_ret. exists d1. auto.
Qed.
End Refund.

(** ** Claims *)

(** C11: the payment that clears a bill (cash, card, UPI or wallet for exactly what
    is due, with no statement failing in the driver): the answer says paid with
    nothing due; the bill is paid in full and its session settled; one payment
    of that amount is recorded against the bill and one in the hotel's takings;
    and the sale is in the ledger: lines whose debits equal their credits move
    exactly the bill's total, under the bill's number. *)
Theorem clearing_payment (env : Env) (laws : EnvLaws env) (jwt : Jwt) secret x x' id req row d
  (Hgate : authGate secret x' = inr x) (Hrole : requireRoles secret x cashiers = None)
  (Hid : uuid_parse (c_params x "id") = Some id)
  (Hrow : find_row (bill_key (hotelID secret x) id) (bills d) = Some row) (Hok : pos_ok d)
  (Hmethod : In (bq_Method req) ["cash"; "card"; "upi"; "wallet"])
  (Hallowed : payment_refused (scanBill row) req = None)
  (Hamount : bq_Amount req = cents (bl_total_amount row - bl_amount_paid row))
  (Hdue : 0 < bl_total_amount row - bl_amount_paid row)
  (Htax : Z.abs (bl_tax_amount row) < 10 ^ 12)
  (Hcost : Z.abs (cogs_cents (bl_session_id row) d) <= MAXC) (Hv : vouchers_ok d) :
  runs Pool (pos_handle secret {| pq_ctx := x'; pq_op := Op_AddBillPayment (Some req) |}) d (fun r d' =>
    (exists pid no j, r = RespCreated (PB_payment pid no (bq_Method req) (bq_Amount req) (change_for req) "paid"
                                         (cents (bl_total_amount row)) 0%Q j))
    /\ (exists b, In b (bills d') /\ bl_id b = id /\ bl_status b = "paid" /\ bl_amount_due b = 0
                  /\ bl_amount_paid b = bl_total_amount row /\ bl_total_amount b = bl_total_amount row)
    /\ (forall s, In s (sessions d') -> ds_id s = bl_session_id row -> ds_status s = "settled")
    /\ (exists bp, bill_payments d' = insert_row bp (bill_payments d) /\ bp_bill_id bp = id
                   /\ bp_amount bp = bl_total_amount row - bl_amount_paid row)
    /\ (exists p, payments d' = insert_row p (payments d) /\ pay_method p = bq_Method req
                  /\ pay_amount p = bl_total_amount row - bl_amount_paid row)
    /\ sale_posted d d' (bl_total_amount row)
    /\ exists je, In je (journal_entries d') /\ je_reference je = "BILL " ++ bl_bill_number row)
  pos_error.
Proof.
  pose proof (find_row_some _ _ _ Hrow) as [Hin Hkey]. apply andb_true_iff in Hkey as [Hbid%N.eqb_eq _].
  destruct (tk_books _ _ _ Hok row Hin) as [Hf _].
  destruct (bill_fits_spec row Hf) as (HT%fits_abs & Hp%fits_abs & _).
  assert (Hrc : bq_Method req <> "room_charge") by (intros E; rewrite E in Hmethod; cbn in Hmethod; intuition discriminate).
  assert (Hcr : isCreditSettlement (bq_Method req) = false) by (repeat destruct Hmethod as [<-|Hmethod]; reflexivity || contradiction).
  assert (Hvm : validPaymentMethod (bq_Method req) = true) by (repeat destruct Hmethod as [<-|Hmethod]; reflexivity || contradiction).
  unfold pos_handle. cbn [pq_ctx pq_op pos_route]. rewrite Hgate. unfold AddBillPayment.
  apply runs_then_guard_ok; [exact Hrole|]. eapply runs_then_param; [exact Hid|]. cbn [of_option].
  eapply runs_bind with (Q1 := fun a d' => a = req /\ d' = d); [apply runs_ret; auto | intros; inert_go |]. intros r0 d0 [-> ->].
  apply runs_then_throw_if; [inert_go|]. rewrite Hvm. cbn [negb]. apply runs_then_throw_if; [inert_go|].
  assert (Hpos : fle (bq_Amount req) 0 = false).
  { rewrite Hamount, <- cents_0, fle_cents by (unfold MAXC; lia). apply Z.leb_gt. lia. }
  rewrite Hpos. eapply runs_then_tx; [intros [[? ?] ?]; inert_go | apply add_payment_tx_runs; eassumption |].
  intros r d1 (pid & no & bp & p & now & -> & Hbp1 & _ & Hbp2 & Hp1 & Hp2 & _ & ->).
  apply runs_audit; [inert_go|]. change (b_Status (cleared (scanBill row)) =s "paid") with true. cbv iota.
  assert (Htt : Z.abs (bl_total_amount row - bl_tax_amount row) <= MAXC) by (unfold MAXC; lia).
  eapply runs_bind.
  { apply (post_settlement_runs (hotelID secret x) id (bq_Method req) (cleared (scanBill row)) (bl_total_amount row) (bl_tax_amount row));
      [exact Hcr | apply num_dec_cents; unfold MAXC; lia | apply num_dec_cents; unfold MAXC; lia | unfold MAXC; lia | unfold MAXC; lia
      | exact Htt | exact Hcost | eapply vouchers_ok_ext; [| |exact Hv]; reflexivity]. }
  { intros; inert_go. }
  intros j d2 ((e & -> & je & Hje & _ & Href) & Hsale & bs & Hlo & Hbs). apply runs_ret.
  destruct Hlo as (a1 & a2 & a3 & a4 & E2). subst d2.
  split.
  { exists pid, no, (nilAsNull e). do 2 f_equal. apply num_dec_cents. unfold MAXC; lia. }
  split.
  { assert (Hset : In (settle_row now row) (update_rows (bill_id id) (credited (cleared (scanBill row)) now) (bills d))).
    { apply in_update_rows. exists row. split; [exact Hin|]. unfold bill_id, ueq. rewrite Hbid, N.eqb_refl. symmetry. now apply credited_cleared. }
    destruct Hbs as [-> | [cu ->]].
    - exists (settle_row now row). repeat split; assumption.
    - exists ((settle_row now row) <| bl_customer_id := Some cu |>). split; [|repeat split; assumption].
      apply in_update_rows. exists (settle_row now row). split; [exact Hset|].
      unfold bill_id, ueq. cbn. now rewrite Hbid, N.eqb_refl. }
  split.
  { intros s Hs Hsid. apply in_update_rows in Hs as (s0 & Hs0 & ->). destruct (ueq (ds_id s0) (bl_session_id row)) eqn:Eu; [reflexivity|].
    apply N.eqb_neq in Eu. contradiction. }
  split; [exists bp; auto|]. split; [exists p; auto|]. split; [|exists je; auto].
  destruct Hsale as [(sale & cost & El & H1) H2]. split; [exists sale, cost; split; [exact El | exact H1] | exact H2].
Qed.

(** C16: a refund takes everything back, no statement failing: the bill and its
    session are marked refunded, the bill's figures as they were; what was paid
    is backed out of the takings by one payment of the opposite amount; and the
    ledger gains lines that, with those posted under the bill's number (revenue
    and cost alike), come to zero in every account, nothing posted before
    being changed. *)
Theorem refund_takes_back (env : Env) (laws : EnvLaws env) (jwt : Jwt) secret x x' id row d
  (h := hotelID secret x) (posted_before := lines_of_reference h ("BILL " ++ bl_bill_number row) d)
  (Hgate : authGate secret x' = inr x) (Hrole : requireRoles secret x restaurantManagers = None)
  (Hid : uuid_parse (c_params x "id") = Some id)
  (Hrow : find_row (bill_key h id) (bills d) = Some row) (Hok : pos_ok d)
  (Hstatus : bl_status row = "paid" \/ bl_status row = "partially_paid")
  (Hv : vouchers_ok d) (Hlines : Forall line_bounded posted_before) :
  runs Pool (pos_handle secret {| pq_ctx := x'; pq_op := Op_RefundBill |}) d (fun r d' =>
    (exists j, r = RespOK (PB_refund id (cents (bl_amount_paid row)) j))
    /\ (exists b, In b (bills d') /\ bl_id b = id /\ bl_status b = "refunded" /\ figures b = figures row)
    /\ (forall s, In s (sessions d') -> ds_id s = bl_session_id row -> ds_status s = "refunded")
    /\ (if 0 <? bl_amount_paid row
        then exists p, payments d' = insert_row p (payments d) /\ pay_amount p = - bl_amount_paid row /\ pay_status p = "completed"
        else payments d' = payments d)
    /\ exists nl, journal_lines d' = (journal_lines d ++ nl)%list /\ forall a, net a (posted_before ++ nl)%list = 0)
  pos_error.
Proof.
  pose proof (find_row_some _ _ _ Hrow) as [Hin Hkey]. apply andb_true_iff in Hkey as [Hbid%N.eqb_eq _].
  destruct (tk_books _ _ _ Hok row Hin) as [Hf _]. destruct (bill_fits_spec row Hf) as (_ & Hp%fits_abs & _).
  unfold pos_handle. cbn [pq_ctx pq_op pos_route]. rewrite Hgate. unfold RefundBill. fold h.
  apply runs_then_guard_ok; [exact Hrole|]. eapply runs_then_param; [exact Hid|].
  eapply runs_then_tx; [intros; inert_go | apply refund_tx_runs; eassumption |].
  intros b d1 (d2 & -> & Hpaid & ->). apply runs_audit; [inert_go|].
  change (b_BillNumber (scanBill row)) with (bl_bill_number row).
  assert (E : journal_entries d2 = journal_entries d /\ journal_lines d2 = journal_lines d /\ voucher_counters d2 = voucher_counters d
             /\ bills d2 = bills d /\ (if 0 <? bl_amount_paid row then exists p, payments d2 = insert_row p (payments d)
                   /\ pay_amount p = - bl_amount_paid row /\ pay_status p = "completed" else payments d2 = payments d)).
  { unfold refund_paid in Hpaid. destruct (0 <? bl_amount_paid row); [destruct Hpaid as (p & -> & H1 & _ & H3 & _) | subst d2]; repeat split. exists p. auto. }
  destruct E as (E1 & E2 & E3 & E4 & E5).
  eapply runs_bind; [apply runs_attempt_ok, (reversal_runs Pool h ("BILL " ++ bl_bill_number row)) | intros; inert_go|].
  - eapply vouchers_ok_ext; [| |exact Hv]; cbn; assumption.
  - unfold lines_of_reference. cbn [journal_entries journal_lines set]. rewrite E1, E2. exact Hlines.
  - intros rev d3 (e & -> & Hrev). apply runs_ret. unfold lines_of_reference in Hrev. cbn [journal_entries journal_lines set] in Hrev. rewrite E1, E2 in Hrev.
    fold (lines_of_reference h ("BILL " ++ bl_bill_number row) d) in Hrev. fold posted_before in Hrev.
    assert (Hledger : exists nl, journal_lines d3 = (journal_lines d ++ nl)%list /\ (forall a, net a (posted_before ++ nl)%list = 0)
        /\ ledger_only (d2 <| bills ::= update_rows (bill_id id) (fun r => r <| bl_status := "refunded" |>) |>
             <| sessions ::= update_rows (fun s => ueq (ds_id s) (bl_session_id row)) (fun s => s <| ds_status := "refunded" |>) |>) d3).
    { destruct Hrev as [(Hnil & _ & ->)|(nl & [Hfr _ Hl _] & _ & Hnl)].
      - exists []. rewrite app_nil_r. cbn. rewrite Hnil, E2. split; [reflexivity|]. split; [reflexivity | apply ledger_only_refl].
      - exists nl. cbn in Hl. rewrite Hl, E2. split; [reflexivity|]. split; [|exact Hfr].
        intros a. rewrite net_app, (net_swap a nl _ Hnl). lia. }
    destruct Hledger as (nl & Hl & Hz & (a1 & a2 & a3 & a4 & Ed)). clear Hrev. subst d3.
    split; [eexists; do 2 f_equal; apply num_dec_cents; unfold MAXC; lia|].
    split; [exists (row <| bl_status := "refunded" |>); split; [|repeat split; exact Hbid]; apply in_update_rows; exists row;
            split; [now rewrite E4 | unfold bill_id, ueq; now rewrite Hbid, N.eqb_refl]|].
    split; [intros s (s0 & Hs0 & ->)%in_update_rows Hsid; destruct (ueq (ds_id s0) (bl_session_id row)) eqn:Eu; [reflexivity|];
            apply N.eqb_neq in Eu; contradiction|].
    split; [exact E5|]. exists nl. auto.
Qed.

(** The rest of the dinner, by UPI. *)
Lemma clearing_payment_witness :
  exists x row, authGate (jwt := demo_jwt) "secret" (demo_request "food_manager@1" "1011") = inr x
  /\ find_row (bill_key (hotelID (env := calm) (jwt := demo_jwt) "secret" x) 1011) (bills after_dinner) = Some row
  /\ bl_total_amount row = 22680 /\ bl_amount_paid row = 10000
  /\ runs (env := calm) Pool (pos_handle (env := calm) (jwt := demo_jwt) "secret"
       {| pq_ctx := demo_request "food_manager@1" "1011"; pq_op := Op_AddBillPayment (Some (demo_payment "upi" 12680)) |})
       after_dinner (fun _ d' => (forall s, In s (sessions d') -> ds_id s = 1000%N -> ds_status s = "settled")
         /\ exists sale cost, journal_lines d' = (sale ++ cost)%list /\ total_debit sale = 22680) pos_error.
Proof.
  do 2 eexists. split; [reflexivity|]. split; [vm_compute; reflexivity|]. split; [reflexivity|]. split; [reflexivity|].
  eapply runs_post.
  - eapply (clearing_payment calm calm_laws demo_jwt "secret" _ _ 1011);
      [reflexivity | reflexivity | reflexivity | vm_compute; reflexivity | exact after_dinner_ok | cbn; auto | vm_compute; reflexivity
      | vm_compute; reflexivity | reflexivity | reflexivity | vm_compute; discriminate | ].
    eapply vouchers_ok_ext with (d := empty_db); [vm_compute; reflexivity | vm_compute; reflexivity|].
    split; cbn; intros; contradiction.
  - intros r d' (_ & _ & Hs & _ & _ & [(sale & cost & El & _ & Ht & _) _] & _). split; [exact Hs|].
    exists sale, cost. split; [|exact Ht]. rewrite El. replace (journal_lines after_dinner) with (@nil JournalLineRow) by (vm_compute; reflexivity).
    reflexivity.
Defined.

(** The dinner after dessert, paid in full: its one bill and its one voucher. *)
Definition after_party : DB := w_db (pos_serve_all (env := calm) (jwt := demo_jwt) "secret" dessert (start after_dinner)).

Lemma after_party_ok : pos_ok after_party.
Proof. exact (proj1 (pos_serve_all_inv (laws := calm_laws) "secret" dessert after_dinner after_dinner_ok)). Qed.

Lemma after_party_vouchers : vouchers_ok after_party.
Proof.
  eapply vouchers_ok_ext with (d := empty_db
    <| journal_entries := [ {| je_id := 1014; je_hotel_id := 1; je_date := Build_Time 1773100800000000000 0; je_description := "POS sale — bill BILL-20260310-14000";
         je_reference := "BILL BILL-20260310-14000"; je_voucher_no := Some "SAL-000001"; je_voucher_type := "SAL" |} ] |>
    <| voucher_counters := [ Build_VoucherCounterRow 1 "SAL" 2 ] |>); [vm_compute; reflexivity | vm_compute; reflexivity|].
  split; cbn.
  - intros e [<-|[]]. unfold voucher_drawn. cbn. exists (Build_VoucherCounterRow 1 "SAL" 2), 1. repeat split; auto; lia.
  - intros e [<-|[]] _. left. reflexivity.
  - intros c c' [<-|[]] [<-|[]]. reflexivity.
  - intros c [<-|[]]. cbn. lia.
Qed.

(** The party paid 226.80 and is refunded. *)
Lemma refund_takes_back_witness :
  exists x row, authGate (jwt := demo_jwt) "secret" (demo_request "food_manager@1" "1011") = inr x
  /\ find_row (bill_key (hotelID (env := calm) (jwt := demo_jwt) "secret" x) 1011) (bills after_party) = Some row
  /\ bl_amount_paid row = 22680
  /\ length (lines_of_reference (hotelID (env := calm) (jwt := demo_jwt) "secret" x) ("BILL " ++ bl_bill_number row) after_party) = 3%nat
  /\ runs (env := calm) Pool (pos_handle (env := calm) (jwt := demo_jwt) "secret"
       {| pq_ctx := demo_request "food_manager@1" "1011"; pq_op := Op_RefundBill |})
       after_party (fun _ d' => exists p, payments d' = insert_row p (payments after_party) /\ pay_amount p = -22680) pos_error.
Proof.
  destruct (find_row (bill_key 1%N 1011) (bills after_party)) as [row|] eqn:E; [|vm_compute in E; discriminate].
  assert (Ep : bl_amount_paid row = 22680) by (vm_compute in E; injection E as <-; reflexivity).
  assert (El : Forall line_bounded (lines_of_reference 1%N ("BILL " ++ bl_bill_number row) after_party)
               /\ length (lines_of_reference 1%N ("BILL " ++ bl_bill_number row) after_party) = 3%nat).
  { vm_compute in E. injection E as <-. split; [|vm_compute; reflexivity].
    set (l := lines_of_reference _ _ _). vm_compute in l. subst l. repeat constructor; vm_compute; discriminate. }
  eexists. exists row. split; [reflexivity|]. split; [exact E|]. split; [exact Ep|]. split; [apply El|].
  eapply runs_post.
  - eapply (refund_takes_back calm calm_laws demo_jwt "secret" _ _ 1011%N row);
      [reflexivity | reflexivity | reflexivity | exact E | exact after_party_ok | | exact after_party_vouchers | apply El].
    left. vm_compute in E. injection E as <-. reflexivity.
  - intros r d' (_ & _ & _ & Hp & _). rewrite Ep in Hp. destruct Hp as (p & H1 & H2 & _). exists p. auto.
Defined.
