(* ===== verification/Accounting.v ===== *)
(** Accounting: internal/handler/accounting_handler.go, the books themselves: the
    chart of accounts, the customer and vendor masters, manual journal entries and
    the trial balance.

    A path parameter reaches the server as text and is cast to a UUID there, so an
    id that is not one fails the statement.  The JSON of a row leaves out its
    created_at and updated_at. *)

From S2P Require Import Prelude GoLib Schema Binary64 World Auth Guards Ledger Customers Settlement.
From Stdlib Require Import QArith.
Local Open Scope string_scope.
Local Open Scope Z_scope.

(** ** Data *)

Record accountReq := {
  ar_Code : string; ar_Name : string; ar_Type : string; ar_SubType : string; ar_ParentCode : option string;
  ar_OpenBal : Q; ar_Currency : string; ar_Active : option bool; ar_Order : Z }.
Record accountResp := {
  ap_ID : uuid; ap_Code : string; ap_Name : string; ap_Type : string; ap_SubType : string; ap_Parent : option string;
  ap_OpenBal : Q; ap_Currency : string; ap_Active : bool; ap_Order : Z; ap_Balance : Q }.

(** customerReq, and vendorReq, which is the same type. *)
Record customerReq := {
  cq_Code : string; cq_Name : string; cq_GSTIN : string; cq_Address : string; cq_Email : string; cq_Phone : string;
  cq_CreditDays : Z; cq_CreditLim : option Q; cq_Active : option bool }.
Record partyResp := {
  py_ID : uuid; py_Code : string; py_Name : string; py_GSTIN : string; py_Address : string; py_Email : string;
  py_Phone : string; py_CreditD : Z; py_CreditL : option Q; py_Active : bool }.

Record journalLineReq := { lq_AccountID : string; lq_Debit : Q; lq_Credit : Q; lq_Memo : string }.
Record journalEntryReq := {
  jq_Date : string; jq_Description : string; jq_Reference : string; jq_Lines : list journalLineReq }.
Record entryView := {
  ev_ID : uuid; ev_Date : string; ev_Description : string; ev_Reference : string; ev_VoucherNo : string; ev_VoucherType : string }.
Record journalLineResp := { lr_ID : uuid; lr_AccountID : uuid; lr_Debit : Q; lr_Credit : Q; lr_Memo : string }.
Record tbRow := { tb_Code : string; tb_Name : string; tb_Type : string; tb_Balance : Q }.

(** Sales documents as the endpoints show them. *)
Record documentView := {
  dv_ID : uuid; dv_Party : option uuid; dv_Number : string; dv_Date : string; dv_DueDate : option string;
  dv_Text : string; dv_Subtotal : Q; dv_Discount : Q; dv_Tax : Q; dv_Total : Q; dv_Status : string; dv_Notes : string }.
Record lineResp := {
  le_ID : uuid; le_AccountID : option uuid; le_Description : string; le_Quantity : Q; le_UnitPrice : Q;
  le_Discount : Q; le_TaxRate : Q; le_TaxAmount : Q; le_Total : Q }.
Record paymentView := {
  pv_ID : uuid; pv_VendID : option uuid; pv_Num : string; pv_Date : string; pv_Amount : Q; pv_Method : string;
  pv_Ref : string; pv_Notes : string }.

Inductive BooksBody :=
  | KB_created (id : uuid) | KB_updated | KB_deleted
  | KB_accounts (l : list accountResp) | KB_account (a : accountResp)
  | KB_parties (l : list partyResp) | KB_party (p : partyResp)
  | KB_entries (l : list entryView) | KB_entry (e : entryView) (l : list journalLineResp)
  | KB_trial_balance (l : list tbRow)
  | KB_documents (l : list documentView) | KB_document (v : documentView) (l : list lineResp)
  | KB_numbered (id : uuid) (number : string) (total : option Q)
  | KB_edited (id : string) (total : Q)
  | KB_status (status : string) (journal : option uuid)
  | KB_payments (l : list paymentView) | KB_paid (id : uuid) (number : string) (amount : Q) (journal : option uuid).

(** NUMERIC(14,2) and NUMERIC(5,2), in hundredths *)
Definition wide_fits (k : Z) : bool := Z.abs k <? 10 ^ 14.
Definition rate_fits (k : Z) : bool := Z.abs k <? 10 ^ 5.

(** ** Constraints *)

Definition insert_checked_account (row : AccountRow) (d : DB) : GoErr + (unit * DB) :=
  if negb (wide_fits (acc_opening_balance row) && int_fits (acc_display_order row)) then inl (ErrPg "22003")
  else if exists_row (account_key (acc_hotel_id row) (acc_code row)) (accounts d) then inl (ErrPg "23505")
  else inr (tt, d <| accounts ::= insert_row row |>).

(** The lines that refer to an account keep it from being deleted. *)
Definition account_in_use (id : uuid) (d : DB) : bool :=
  exists_row (fun l => ueq (jl_account_id l) id) (journal_lines d)
  || exists_row (fun l => oueq (il_account_id l) id) (invoice_lines d)
  || exists_row (fun l => oueq (kl_account_id l) id) (credit_note_lines d).

(** UNIQUE (hotel_id, code), and (hotel_id, phone) where there is a phone *)
Definition party_clash (row c : CustomerRow) : bool :=
  ueq (cu_hotel_id c) (cu_hotel_id row)
  && ((cu_code c =s cu_code row) || (bool_decide (is_Some (cu_phone row)) && bool_decide (cu_phone c = cu_phone row))).
Definition insert_checked_customer (row : CustomerRow) (d : DB) : GoErr + (unit * DB) :=
  if negb (int_fits (cu_credit_days row) && wide_fits (default 0 (cu_credit_limit row))) then inl (ErrPg "22003")
  else if exists_row (party_clash row) (customers d) then inl (ErrPg "23505")
  else inr (tt, d <| customers ::= insert_row row |>).
Definition insert_vendor (row : VendorRow) (d : DB) : GoErr + (unit * DB) :=
  if negb (int_fits (ve_credit_days row) && wide_fits (default 0 (ve_credit_limit row))) then inl (ErrPg "22003")
  else if exists_row (fun v => ueq (ve_hotel_id v) (ve_hotel_id row) && (ve_code v =s ve_code row)) (vendors d) then inl (ErrPg "23505")
  else inr (tt, d <| vendors ::= insert_row row |>).

(** The foreign key of a journal line: an account of any tenant. *)
Definition insert_manual_line (row : JournalLineRow) (d : DB) : GoErr + (unit * DB) :=
  if negb (wide_fits (jl_debit row) && wide_fits (jl_credit row)) then inl (ErrPg "22003")
  else if negb (exists_row (fun a => ueq (acc_id a) (jl_account_id row)) (accounts d)) then inl (ErrPg "23503")
  else inr (tt, d <| journal_lines ::= insert_row row |>).

(** ** Balances *)

(** Debits less credits on the account, as the trial balance sums them. *)
Definition account_net (a : AccountRow) (d : DB) : Z :=
  sum_rows (fun l => ueq (jl_account_id l) (acc_id a) && ueq (jl_hotel_id l) (acc_hotel_id a))
    (fun l => jl_debit l - jl_credit l) (journal_lines d).
Definition debit_normal (a : AccountRow) : bool := (acc_type a =s "asset") || (acc_type a =s "expense").
Definition account_balance (a : AccountRow) (d : DB) : Z :=
  acc_opening_balance a + (if debit_normal a then account_net a d else - account_net a d).

(** ORDER BY display_order, code *)
Definition chart_order (a b : AccountRow) : bool :=
  (acc_display_order a <? acc_display_order b)
  || ((acc_display_order a =? acc_display_order b) && String.leb (acc_code a) (acc_code b)).
Definition chart_of (h : uuid) (d : DB) : list AccountRow :=
  order_by chart_order (select (fun a => ueq (acc_hotel_id a) h) (accounts d)).

Section Accounting.
Context {env : Env} {jwt : Jwt} (secret : string).

Definition or_fail {A} (m : M GoErr A) (status : Z) (msg : string) : M (Resp BooksBody) A :=
  on_err m (fun _ => RespError status msg).
(** response.Error(c, status, err.Error()) *)
Definition or_text {A} (m : M GoErr A) (status : Z) : M (Resp BooksBody) A :=
  on_err m (fun e => RespError status (err_text e)).

(** A statement with an id given as text *)
Definition pg_uuid {A} (id : string) (f : uuid -> DB -> GoErr + (A * DB)) (d : DB) : GoErr + (A * DB) :=
  match uuid_parse id with Some u => f u d | None => inl (ErrPg "22P02") end.
Definition row_by_id {A} (id : string) (f : uuid -> DB -> option A) : M GoErr A :=
  o ← exec Pool (pg_uuid id (fun u d => inr (f u d, d))); of_option o ErrNoRows.
(** An UPDATE or DELETE of the tenant's row with that id; RowsAffected() *)
Definition exec_by_id (id : string) (f : uuid -> DB -> GoErr + (nat * DB)) : M GoErr nat := exec Pool (pg_uuid id f).
Definition optional_date (t : option Time) : option string := fmt_date <$> t.

(** The date of a request, or today on the server when it is blank or unreadable. *)
Definition date_or_now {E} (s : string) : M E Time :=
  now ← time_now;
  mret (as_date (if s !=s "" then default now (parse_date s) else now)).

(** *** Chart of accounts *)

Definition scanAccount (d : DB) (a : AccountRow) : accountResp :=
  {| ap_ID := acc_id a; ap_Code := acc_code a; ap_Name := acc_name a; ap_Type := acc_type a;
     ap_SubType := acc_sub_type a; ap_Parent := acc_parent_code a; ap_OpenBal := num_dec (acc_opening_balance a);
     ap_Currency := if acc_currency a =s "" then "INR" else acc_currency a; ap_Active := acc_is_active a;
     ap_Order := acc_display_order a; ap_Balance := num_dec (account_balance a d) |}.
Definition account_by_id (h u : uuid) (a : AccountRow) : bool := ueq (acc_id a) u && ueq (acc_hotel_id a) h.

Definition ListAccounts (c : Ctx) : M (Resp BooksBody) (Resp BooksBody) :=
  rows ← or_text (query Pool (fun d => map (scanAccount d) (chart_of (hotelID secret c) d))) 500;
  mret (RespOK (KB_accounts rows)).

Definition CreateAccount (c : Ctx) (body : option accountReq) : M (Resp BooksBody) (Resp BooksBody) :=
  req ← of_option body (RespError 400 "invalid request");
  throw_if ((ar_Code req =s "") || (ar_Name req =s "") || (ar_Type req =s ""))
    (RespError 422 "code, name, and type are required") ;;
  let cur := if ar_Currency req =s "" then "USD" else ar_Currency req in
  id ← new_uuid;
  or_text (exec Pool (insert_checked_account
    {| acc_id := id; acc_hotel_id := hotelID secret c; acc_code := ar_Code req; acc_name := ar_Name req;
       acc_type := ar_Type req; acc_sub_type := ar_SubType req; acc_parent_code := ar_ParentCode req;
       acc_opening_balance := num_enc (ar_OpenBal req); acc_currency := cur;
       acc_is_active := default true (ar_Active req); acc_display_order := ar_Order req |})) 409 ;;
  mret (RespCreated (KB_created id)).

(** GetAccount does not compute a balance; the field keeps its zero value. *)
Definition GetAccount (c : Ctx) : M (Resp BooksBody) (Resp BooksBody) :=
  a ← or_fail (row_by_id (c_params c "id") (fun u d =>
        scanAccount d <$> find_row (account_by_id (hotelID secret c) u) (accounts d))) 404 "account not found";
  mret (RespOK (KB_account (a <| ap_Balance := 0%Q |>))).

Definition set_account_fields (req : accountReq) (a : AccountRow) : AccountRow :=
  a <| acc_name ::= fun n => if ar_Name req !=s "" then ar_Name req else n |>
    <| acc_type ::= fun t => if ar_Type req !=s "" then ar_Type req else t |>
    <| acc_sub_type ::= fun t => if ar_SubType req !=s "" then ar_SubType req else t |>
    <| acc_is_active ::= fun b => default b (ar_Active req) |>
    <| acc_parent_code ::= fun p => match ar_ParentCode req with Some q => Some q | None => p end |>.

Definition UpdateAccount (c : Ctx) (body : option accountReq) : M (Resp BooksBody) (Resp BooksBody) :=
  req ← of_option body (RespError 400 "invalid request");
  throw_if ((ar_Name req =s "") && (ar_Type req =s "") && (ar_SubType req =s "")
            && bool_decide (ar_Active req = None) && bool_decide (ar_ParentCode req = None))
    (RespError 400 "no fields to update") ;;
  n ← or_text (exec_by_id (c_params c "id") (fun u d =>
        let p := account_by_id (hotelID secret c) u in
        inr (rows_affected p (accounts d), d <| accounts ::= update_rows p (set_account_fields req) |>))) 500;
  throw_if (Nat.eqb n 0) (RespError 404 "account not found") ;;
  mret (RespOK KB_updated).

Definition DeleteAccount (c : Ctx) : M (Resp BooksBody) (Resp BooksBody) :=
  n ← or_text (exec_by_id (c_params c "id") (fun u d =>
        let p := account_by_id (hotelID secret c) u in
        if exists_row p (accounts d) && account_in_use u d then inl (ErrPg "23503")
        else inr (rows_affected p (accounts d), d <| accounts ::= delete_rows p |>))) 500;
  throw_if (Nat.eqb n 0) (RespError 404 "account not found") ;;
  mret (RespOK KB_deleted).

(** *** Customers and vendors *)

Definition customer_view (c : CustomerRow) : partyResp :=
  {| py_ID := cu_id c; py_Code := cu_code c; py_Name := cu_name c; py_GSTIN := opt_str (cu_gstin c);
     py_Address := opt_str (cu_address c); py_Email := opt_str (cu_email c); py_Phone := opt_str (cu_phone c);
     py_CreditD := cu_credit_days c; py_CreditL := num_dec <$> cu_credit_limit c; py_Active := cu_is_active c |}.
Definition vendor_view (v : VendorRow) : partyResp :=
  {| py_ID := ve_id v; py_Code := ve_code v; py_Name := ve_name v; py_GSTIN := opt_str (ve_gstin v);
     py_Address := opt_str (ve_address v); py_Email := opt_str (ve_email v); py_Phone := opt_str (ve_phone v);
     py_CreditD := ve_credit_days v; py_CreditL := num_dec <$> ve_credit_limit v; py_Active := ve_is_active v |}.
Definition customer_by_id (h u : uuid) (c : CustomerRow) : bool := ueq (cu_id c) u && ueq (cu_hotel_id c) h.
Definition vendor_by_id (h u : uuid) (v : VendorRow) : bool := ueq (ve_id v) u && ueq (ve_hotel_id v) h.
Definition credit_days (req : customerReq) : Z := if cq_CreditDays req =? 0 then 30 else cq_CreditDays req.
(** The text given, unless blank *)
Definition given (s : string) (old : option string) : option string := if s !=s "" then Some s else old.
Definition party_untouched (req : customerReq) : bool :=
  (cq_Name req =s "") && (cq_GSTIN req =s "") && (cq_Address req =s "") && (cq_Email req =s "") && (cq_Phone req =s "")
  && (cq_CreditDays req <=? 0) && bool_decide (cq_CreditLim req = None) && bool_decide (cq_Active req = None).

Definition ListCustomers (c : Ctx) : M (Resp BooksBody) (Resp BooksBody) :=
  rows ← or_text (query Pool (fun d => map customer_view (order_by (fun a b => String.leb (cu_code a) (cu_code b))
           (select (fun r => ueq (cu_hotel_id r) (hotelID secret c)) (customers d))))) 500;
  mret (RespOK (KB_parties rows)).
Definition CreateCustomer (c : Ctx) (body : option customerReq) : M (Resp BooksBody) (Resp BooksBody) :=
  req ← of_option body (RespError 400 "invalid request");
  throw_if ((cq_Code req =s "") || (cq_Name req =s "")) (RespError 422 "code and name are required") ;;
  id ← new_uuid;
  or_text (exec Pool (insert_checked_customer
    {| cu_id := id; cu_hotel_id := hotelID secret c; cu_code := cq_Code req; cu_name := cq_Name req;
       cu_phone := nullif (cq_Phone req); cu_email := nullif (cq_Email req); cu_gstin := nullif (cq_GSTIN req);
       cu_address := nullif (cq_Address req); cu_credit_days := credit_days req;
       cu_credit_limit := num_enc <$> cq_CreditLim req; cu_is_active := default true (cq_Active req) |})) 409 ;;
  mret (RespCreated (KB_created id)).
Definition GetCustomer (c : Ctx) : M (Resp BooksBody) (Resp BooksBody) :=
  r ← or_fail (row_by_id (c_params c "id") (fun u d =>
        customer_view <$> find_row (customer_by_id (hotelID secret c) u) (customers d))) 404 "customer not found";
  mret (RespOK (KB_party r)).
Definition set_customer_fields (req : customerReq) (r : CustomerRow) : CustomerRow :=
  r <| cu_name ::= fun n => if cq_Name req !=s "" then cq_Name req else n |> <| cu_gstin ::= given (cq_GSTIN req) |>
    <| cu_address ::= given (cq_Address req) |> <| cu_email ::= given (cq_Email req) |> <| cu_phone ::= given (cq_Phone req) |>
    <| cu_credit_days ::= fun n => if 0 <? cq_CreditDays req then cq_CreditDays req else n |>
    <| cu_credit_limit ::= fun l => match cq_CreditLim req with Some q => Some (num_enc q) | None => l end |>
    <| cu_is_active ::= fun b => default b (cq_Active req) |>.
Definition update_customer (h : uuid) (req : customerReq) (u : uuid) (d : DB) : GoErr + (nat * DB) :=
  let p := customer_by_id h u in
  match find_row p (customers d) with
  | None => inr (0%nat, d)
  | Some r =>
      let r' := set_customer_fields req r in
      if negb (int_fits (cu_credit_days r') && wide_fits (default 0 (cu_credit_limit r'))) then inl (ErrPg "22003")
      else if exists_row (fun o => negb (ueq (cu_id o) u) && party_clash r' o) (customers d) then inl (ErrPg "23505")
      else inr (1%nat, d <| customers ::= update_rows p (set_customer_fields req) |>)
  end.
Definition UpdateCustomer (c : Ctx) (body : option customerReq) : M (Resp BooksBody) (Resp BooksBody) :=
  req ← of_option body (RespError 400 "invalid request");
  throw_if (party_untouched req) (RespError 400 "no fields to update") ;;
  n ← or_text (exec_by_id (c_params c "id") (update_customer (hotelID secret c) req)) 500;
  throw_if (Nat.eqb n 0) (RespError 404 "customer not found") ;;
  mret (RespOK KB_updated).

Definition ListVendors (c : Ctx) : M (Resp BooksBody) (Resp BooksBody) :=
  rows ← or_text (query Pool (fun d => map vendor_view (order_by (fun a b => String.leb (ve_code a) (ve_code b))
           (select (fun r => ueq (ve_hotel_id r) (hotelID secret c)) (vendors d))))) 500;
  mret (RespOK (KB_parties rows)).
Definition CreateVendor (c : Ctx) (body : option customerReq) : M (Resp BooksBody) (Resp BooksBody) :=
  req ← of_option body (RespError 400 "invalid request");
  throw_if ((cq_Code req =s "") || (cq_Name req =s "")) (RespError 422 "code and name are required") ;;
  id ← new_uuid;
  or_text (exec Pool (insert_vendor
    {| ve_id := id; ve_hotel_id := hotelID secret c; ve_code := cq_Code req; ve_name := cq_Name req;
       ve_gstin := nullif (cq_GSTIN req); ve_address := nullif (cq_Address req); ve_email := nullif (cq_Email req);
       ve_phone := nullif (cq_Phone req); ve_credit_days := credit_days req;
       ve_credit_limit := num_enc <$> cq_CreditLim req; ve_is_active := default true (cq_Active req) |})) 409 ;;
  mret (RespCreated (KB_created id)).
Definition GetVendor (c : Ctx) : M (Resp BooksBody) (Resp BooksBody) :=
  r ← or_fail (row_by_id (c_params c "id") (fun u d =>
        vendor_view <$> find_row (vendor_by_id (hotelID secret c) u) (vendors d))) 404 "vendor not found";
  mret (RespOK (KB_party r)).
Definition set_vendor_fields (req : customerReq) (r : VendorRow) : VendorRow :=
  r <| ve_name ::= fun n => if cq_Name req !=s "" then cq_Name req else n |> <| ve_gstin ::= given (cq_GSTIN req) |>
    <| ve_address ::= given (cq_Address req) |> <| ve_email ::= given (cq_Email req) |> <| ve_phone ::= given (cq_Phone req) |>
    <| ve_credit_days ::= fun n => if 0 <? cq_CreditDays req then cq_CreditDays req else n |>
    <| ve_credit_limit ::= fun l => match cq_CreditLim req with Some q => Some (num_enc q) | None => l end |>
    <| ve_is_active ::= fun b => default b (cq_Active req) |>.
Definition update_vendor (h : uuid) (req : customerReq) (u : uuid) (d : DB) : GoErr + (nat * DB) :=
  let p := vendor_by_id h u in
  match find_row p (vendors d) with
  | None => inr (0%nat, d)
  | Some r =>
      let r' := set_vendor_fields req r in
      if negb (int_fits (ve_credit_days r') && wide_fits (default 0 (ve_credit_limit r'))) then inl (ErrPg "22003")
      else inr (1%nat, d <| vendors ::= update_rows p (set_vendor_fields req) |>)
  end.
Definition UpdateVendor (c : Ctx) (body : option customerReq) : M (Resp BooksBody) (Resp BooksBody) :=
  req ← of_option body (RespError 400 "invalid request");
  throw_if (party_untouched req) (RespError 400 "no fields to update") ;;
  n ← or_text (exec_by_id (c_params c "id") (update_vendor (hotelID secret c) req)) 500;
  throw_if (Nat.eqb n 0) (RespError 404 "vendor not found") ;;
  mret (RespOK KB_updated).

(** *** Journal entries *)

Definition entry_view (e : JournalEntryRow) : entryView :=
  {| ev_ID := je_id e; ev_Date := fmt_date (je_date e); ev_Description := je_description e; ev_Reference := je_reference e;
     ev_VoucherNo := opt_str (je_voucher_no e); ev_VoucherType := je_voucher_type e |}.
Definition line_view (l : JournalLineRow) : journalLineResp :=
  {| lr_ID := jl_id l; lr_AccountID := jl_account_id l; lr_Debit := num_dec (jl_debit l);
     lr_Credit := num_dec (jl_credit l); lr_Memo := jl_memo l |}.

(** ORDER BY entry_date DESC, created_at DESC: the table is in order of creation. *)
Definition ListJournalEntries (c : Ctx) : M (Resp BooksBody) (Resp BooksBody) :=
  rows ← or_text (query Pool (fun d => map entry_view (order_by (fun a b => t_ns (je_date b) <=? t_ns (je_date a))
           (rev (select (fun e => ueq (je_hotel_id e) (hotelID secret c)) (journal_entries d)))))) 500;
  mret (RespOK (KB_entries rows)).

(** The running totals of the lines *)
Definition entry_totals (lines : list journalLineReq) : Q * Q :=
  foldl (fun t l => (fadd (fst t) (lq_Debit l), fadd (snd t) (lq_Credit l))) (0%Q, 0%Q) lines.

Definition store_manual_line (h entryID : uuid) (l : journalLineReq) : M (Resp BooksBody) unit :=
  lineID ← new_uuid;
  or_text (exec Tx (insert_manual_line
    {| jl_id := lineID; jl_entry_id := entryID; jl_hotel_id := h;
       jl_account_id := default uuid_nil (uuid_parse (lq_AccountID l)); jl_debit := num_enc (lq_Debit l);
       jl_credit := num_enc (lq_Credit l); jl_memo := lq_Memo l |})) 500.

Definition manual_entry_tx (h : uuid) (entryDate : Time) (req : journalEntryReq) : M (Resp BooksBody) uuid :=
  entryID ← new_uuid;
  or_text (exec Tx (fun d => inr (tt, d <| journal_entries ::= insert_row
    {| je_id := entryID; je_hotel_id := h; je_date := entryDate; je_description := jq_Description req;
       je_reference := jq_Reference req; je_voucher_no := None; je_voucher_type := "" |} |>))) 500 ;;
  for_each (store_manual_line h entryID) (jq_Lines req) ;;
  mret entryID.

(** Begin and Commit fail with the error's text. *)
Definition books_tx {A} (body : M (Resp BooksBody) A) : M (Resp BooksBody) A :=
  let refuse e := RespError 500 (err_text e) in tx_with refuse refuse body.

Definition CreateJournalEntry (c : Ctx) (body : option journalEntryReq) : M (Resp BooksBody) (Resp BooksBody) :=
  req ← of_option body (RespError 400 "invalid request");
  throw_if ((jq_Description req =s "") || bool_decide (jq_Lines req = []))
    (RespError 422 "description and at least one line are required") ;;
  let '(totalDebit, totalCredit) := entry_totals (jq_Lines req) in
  throw_if (negb (feq totalDebit totalCredit)) (RespError 422 "total debits must equal total credits") ;;
  entryDate ← date_or_now (jq_Date req);
  entryID ← books_tx (manual_entry_tx (hotelID secret c) entryDate req);
  mret (RespCreated (KB_created entryID)).

Definition GetJournalEntry (c : Ctx) : M (Resp BooksBody) (Resp BooksBody) :=
  let id := c_params c "id" in
  e ← or_fail (row_by_id id (fun u d =>
        entry_view <$> find_row (fun e => ueq (je_id e) u && ueq (je_hotel_id e) (hotelID secret c)) (journal_entries d)))
      404 "journal entry not found";
  lines ← or_text (exec Pool (pg_uuid id (fun u d =>
            inr (map line_view (select (fun l => ueq (jl_entry_id l) u) (journal_lines d)), d)))) 500;
  mret (RespOK (KB_entry e lines)).

(** *** Trial balance *)

Definition trial_row (d : DB) (a : AccountRow) : tbRow :=
  {| tb_Code := acc_code a; tb_Name := acc_name a; tb_Type := acc_type a; tb_Balance := num_dec (account_net a d) |}.
Definition TrialBalance (c : Ctx) : M (Resp BooksBody) (Resp BooksBody) :=
  rows ← or_text (query Pool (fun d => map (trial_row d) (chart_of (hotelID secret c) d))) 500;
  mret (RespOK (KB_trial_balance rows)).
End Accounting.

(** ** Steps of these handlers *)

Section Steps.
Context {env : Env}.

Lemma inert_row_by_id {A} id (f : uuid -> DB -> option A) : inert Pool (row_by_id id f).
Proof. unfold row_by_id. inert_go. Qed.
Lemma inert_date_or_now {E} c s : inert c (date_or_now s : M E Time).
Proof. unfold date_or_now. inert_go. Qed.

Lemma runs_row_by_id {A} id (f : uuid -> DB -> option A) d (Q : A -> DB -> Prop) (R : GoErr -> Prop) u a :
  uuid_parse id = Some u -> f u d = Some a -> Q a d -> runs Pool (row_by_id id f) d Q R.
Proof.
  intros Hu Hf HQ. unfold row_by_id. apply runs_then_exec; [intros; inert_go|]. unfold pg_uuid. rewrite Hu, Hf. now apply runs_ret.
Qed.

(** What a read by id finds; anything else stops the handler. *)
Lemma ens_then_row_by_id {E A B} id (f : uuid -> DB -> option A) (h : GoErr -> E) (k : A -> M E B) d Q (R : E -> DB -> Prop) :
  (forall e, R (h e) d) -> (forall u a, uuid_parse id = Some u -> f u d = Some a -> ensures (k a) d Q R) ->
  ensures (a ← on_err (row_by_id id f) h; k a) d Q R.
Proof.
  intros HR Hk. eapply ens_bind with (Q1 := fun a d' => (exists u, uuid_parse id = Some u /\ f u d = Some a) /\ d' = d).
  - apply ens_on_err. unfold row_by_id. eapply ens_bind with (Q1 := fun o d' => (exists u, uuid_parse id = Some u /\ o = f u d) /\ d' = d).
    + apply ens_exec; [apply HR|]. unfold pg_uuid. destruct (uuid_parse id) as [u|]; [eauto | apply HR].
    + intros o d' [(u & Hu & ->) ->]. apply ens_of_option. destruct (f u d) eqn:Ef; [eauto | apply HR].
  - intros a d' [(u & Hu & Hf) ->]. eauto.
Qed.

(** The date of a request, read or not, changes nothing. *)
Lemma ens_then_date {E B} s (k : Time -> M E B) d Q (R : E -> DB -> Prop) :
  (forall date, ensures (k date) d Q R) -> ensures (t ← date_or_now s; k t) d Q R.
Proof.
  intros H. unfold date_or_now. eapply ens_bind with (Q1 := fun _ d' => d' = d); [|intros date d' ->; apply H].
  apply ens_then_now. intros t. now apply ens_ret.
Qed.
End Steps.
#[export] Hint Resolve inert_row_by_id inert_date_or_now : keeps.
