(* ===== verification/Documents.v ===== *)
(** Documents: internal/handler/accounting_handler.go, the documents: sales
    invoices, credit and debit notes, vendor payments, purchase orders and goods
    receipts.  Each is drafted inside a transaction of its own and posted to the
    ledger by a separate request. *)

From S2P Require Import Prelude GoLib Schema Binary64 World Auth Guards Ledger Customers Settlement Accounting.
From Stdlib Require Import QArith.
Local Open Scope string_scope.
Local Open Scope Z_scope.

(** ** Data *)

Record vendorPaymentReq := {
  vq_VendorID : string; vq_Date : string; vq_Amount : Q; vq_Method : string; vq_Reference : string; vq_Notes : string }.
Record salesInvoiceLineReq := {
  iq_AccountID : string; iq_Description : string; iq_Quantity : Q; iq_UnitPrice : Q; iq_Discount : Q; iq_TaxRate : Q }.
Record salesInvoiceReq := {
  sq_CustomerID : string; sq_Date : string; sq_DueDate : string; sq_Reference : string; sq_Notes : string;
  sq_Lines : list salesInvoiceLineReq }.
Record creditNoteLineReq := {
  cnl_AccountID : string; cnl_InvoiceLineID : string; cnl_Description : string; cnl_Quantity : Q; cnl_UnitPrice : Q }.
Record creditNoteReq := { cnq_InvoiceID : string; cnq_Date : string; cnq_Reason : string; cnq_Lines : list creditNoteLineReq }.
Record debitNoteReq := {
  dq_VendorID : string; dq_Date : string; dq_Reason : string; dq_Subtotal : Q; dq_TaxTotal : Q; dq_Total : Q }.
Record poLineReq := { pl_Description : string; pl_Quantity : Q; pl_UnitPrice : Q }.
Record poReq := { pq_VendorID : string; pq_Date : string; pq_ExpectedD : string; pq_Notes : string; pq_Lines : list poLineReq }.
Record grnLineReq := {
  gq_ItemDescription : string; gq_QtyOrdered : Q; gq_QtyReceived : Q; gq_QtyAccepted : Q; gq_QtyRejected : Q; gq_UnitPrice : Q }.
Record grnReq := {
  gq_POID : string; gq_Date : string; gq_VendorInvRef : string; gq_Notes : string; gq_Lines : list grnLineReq }.

(** ** The figures of an invoice *)

(** A line as it will be stored, in float64. *)
Record invoiceLine := {
  nl_account : uuid; nl_desc : string; nl_qty : Q; nl_unitPrice : Q; nl_discount : Q; nl_taxRate : Q; nl_taxAmt : Q; nl_total : Q }.
Record invoiceTotals := { it_subtotal : Q; it_discountTotal : Q; it_taxTotal : Q }.
Definition no_totals : invoiceTotals := {| it_subtotal := 0; it_discountTotal := 0; it_taxTotal := 0 |}.
Definition it_total (t : invoiceTotals) : Q := fadd (fsub (it_subtotal t) (it_discountTotal t)) (it_taxTotal t).
(** A quantity left out is one. *)
Definition quantity (q : Q) : Q := if feq q 0 then 1%Q else q.

(** ** Constraints *)

Definition fk_customer (id : option uuid) (d : DB) : bool :=
  match id with Some u => exists_row (fun c => ueq (cu_id c) u) (customers d) | None => true end.
Definition fk_vendor (id : option uuid) (d : DB) : bool :=
  match id with Some u => exists_row (fun v => ueq (ve_id v) u) (vendors d) | None => true end.
Definition fk_account (id : option uuid) (d : DB) : bool :=
  match id with Some u => exists_row (fun a => ueq (acc_id a) u) (accounts d) | None => true end.
Definition fk_invoice (id : option uuid) (d : DB) : bool :=
  match id with Some u => exists_row (fun i => ueq (in_id i) u) (invoices d) | None => true end.
Definition fk_invoice_line (id : option uuid) (d : DB) : bool :=
  match id with Some u => exists_row (fun i => ueq (il_id i) u) (invoice_lines d) | None => true end.
Definition fk_purchase_order (id : option uuid) (d : DB) : bool :=
  match id with Some u => exists_row (fun p => ueq (po_id p) u) (purchase_orders d) | None => true end.

Definition invoice_fits (i : InvoiceRow) : bool :=
  forallb wide_fits [in_subtotal i; in_discount_total i; in_tax_total i; in_total i].
Definition insert_draft_invoice (row : InvoiceRow) (d : DB) : GoErr + (unit * DB) :=
  if negb (invoice_fits row) then inl (ErrPg "22003")
  else if negb (fk_customer (in_customer_id row) d) then inl (ErrPg "23503")
  else insert_invoice row d.
Definition insert_invoice_line (row : InvoiceLineRow) (d : DB) : GoErr + (unit * DB) :=
  if negb (money_fits (il_quantity row) && rate_fits (il_tax_rate row)
           && forallb wide_fits [il_unit_price row; il_discount row; il_tax_amount row; il_total row]) then inl (ErrPg "22003")
  else if negb (fk_account (il_account_id row) d) then inl (ErrPg "23503")
  else inr (tt, d <| invoice_lines ::= insert_row row |>).

(** The primary key and UNIQUE (hotel_id, credit_note_number) *)
Definition insert_credit_note (row : CreditNoteRow) (d : DB) : GoErr + (unit * DB) :=
  if negb (fk_invoice (cn_invoice_id row) d) then inl (ErrPg "23503")
  else if exists_row (fun n => ueq (cn_id n) (cn_id row)
                               || (ueq (cn_hotel_id n) (cn_hotel_id row) && (cn_number n =s cn_number row))) (credit_notes d)
  then inl (ErrPg "23505") else inr (tt, d <| credit_notes ::= insert_row row |>).
Definition insert_credit_note_line (row : CreditNoteLineRow) (d : DB) : GoErr + (unit * DB) :=
  if negb (money_fits (kl_quantity row) && forallb wide_fits [kl_unit_price row; kl_tax_amount row; kl_total row]) then inl (ErrPg "22003")
  else if negb (fk_account (kl_account_id row) d && fk_invoice_line (kl_invoice_line_id row) d) then inl (ErrPg "23503")
  else inr (tt, d <| credit_note_lines ::= insert_row row |>).
Definition insert_debit_note (row : DebitNoteRow) (d : DB) : GoErr + (unit * DB) :=
  if negb (forallb wide_fits [dn_subtotal row; dn_tax_total row; dn_total row]) then inl (ErrPg "22003")
  else if negb (fk_vendor (dn_vendor_id row) d) then inl (ErrPg "23503")
  else if exists_row (fun n => ueq (dn_hotel_id n) (dn_hotel_id row) && (dn_number n =s dn_number row)) (debit_notes d)
  then inl (ErrPg "23505") else inr (tt, d <| debit_notes ::= insert_row row |>).
Definition insert_vendor_payment (row : VendorPaymentRow) (d : DB) : GoErr + (unit * DB) :=
  if negb (wide_fits (vp_amount row)) then inl (ErrPg "22003")
  else if negb (fk_vendor (vp_vendor_id row) d) then inl (ErrPg "23503")
  else if exists_row (fun n => ueq (vp_hotel_id n) (vp_hotel_id row) && (vp_number n =s vp_number row)) (vendor_payments d)
  then inl (ErrPg "23505") else inr (tt, d <| vendor_payments ::= insert_row row |>).
Definition insert_purchase_order (row : PurchaseOrderRow) (d : DB) : GoErr + (unit * DB) :=
  if negb (fk_vendor (po_vendor_id row) d) then inl (ErrPg "23503")
  else if exists_row (fun n => ueq (po_id n) (po_id row)
                               || (ueq (po_hotel_id n) (po_hotel_id row) && (po_number n =s po_number row))) (purchase_orders d)
  then inl (ErrPg "23505") else inr (tt, d <| purchase_orders ::= insert_row row |>).
Definition insert_grn (row : GrnRow) (d : DB) : GoErr + (unit * DB) :=
  if negb (fk_purchase_order (gr_po_id row) d) then inl (ErrPg "23503")
  else if exists_row (fun n => ueq (gr_hotel_id n) (gr_hotel_id row) && (gr_number n =s gr_number row)) (grns d)
  then inl (ErrPg "23505") else inr (tt, d <| grns ::= insert_row row |>).
(** accounting_grn_lines.grn_id REFERENCES accounting_grn(id) *)
Definition insert_grn_line (row : GrnLineRow) (d : DB) : GoErr + (unit * DB) :=
  if negb (forallb money_fits [gl_quantity_ordered row; gl_quantity_received row; gl_quantity_accepted row; gl_quantity_rejected row]
           && forallb wide_fits [gl_unit_price row; gl_total row]) then inl (ErrPg "22003")
  else if negb (exists_row (fun g => ueq (gr_id g) (gl_grn_id row)) (grns d)) then inl (ErrPg "23503")
  else inr (tt, d <| grn_lines ::= insert_row row |>).

Section Documents.
Context {env : Env} {jwt : Jwt} (secret : string).

(** account_id, description, quantity... of one line, and the totals so far *)
Definition invoice_step (acc : list invoiceLine * invoiceTotals) (l : salesInvoiceLineReq) : list invoiceLine * invoiceTotals :=
  let q := quantity (iq_Quantity l) in
  let lineTotal := fmul q (iq_UnitPrice l) in
  let disc := iq_Discount l in
  let lineAfterDisc := fsub lineTotal disc in
  let tax := fdiv (fmul lineAfterDisc (iq_TaxRate l)) 100 in
  let t := snd acc in
  (fst acc ++ [ {| nl_account := default uuid_nil (uuid_parse (iq_AccountID l)); nl_desc := iq_Description l; nl_qty := q;
                   nl_unitPrice := iq_UnitPrice l; nl_discount := disc; nl_taxRate := iq_TaxRate l; nl_taxAmt := tax;
                   nl_total := fadd lineAfterDisc tax |} ],
   {| it_subtotal := fadd (it_subtotal t) lineTotal; it_discountTotal := fadd (it_discountTotal t) disc;
      it_taxTotal := fadd (it_taxTotal t) tax |})%list.
Definition compute_invoice (lines : list salesInvoiceLineReq) : list invoiceLine * invoiceTotals :=
  foldl invoice_step ([], no_totals) lines.

(** The tenant's slug, blank when the read fails, and PREFIX-slug-milliseconds *)
Definition number_for {E} (prefix : string) (h : uuid) : M E string :=
  r ← attempt (query_row Pool (fun d => ho_slug <$> find_row (fun o => ueq (ho_id o) h) (hotels d)));
  now ← time_now;
  mret (prefix ++ "-" ++ match r with inr s => s | inl _ => "" end ++ "-" ++ fmt_d (unix_milli now)).
Definition date_if_readable (s : string) : option Time := if s !=s "" then as_date <$> parse_date s else None.

(** The journal of a posting whose error is dropped *)
Definition posted_journal {E} (m : M GoErr uuid) : M E (option uuid) :=
  r ← attempt m; mret (match r with inr e => nilAsNull e | inl _ => None end).

(** ORDER BY date DESC, created_at DESC *)
Definition newest {R} (date : R -> Time) (t : list R) : list R := order_by (fun a b => t_ns (date b) <=? t_ns (date a)) (rev t).

(** *** Sales invoices *)

Definition invoice_view (i : InvoiceRow) : documentView :=
  {| dv_ID := in_id i; dv_Party := in_customer_id i; dv_Number := in_number i; dv_Date := fmt_date (in_date i);
     dv_DueDate := optional_date (in_due_date i); dv_Text := in_reference i; dv_Subtotal := num_dec (in_subtotal i);
     dv_Discount := num_dec (in_discount_total i); dv_Tax := num_dec (in_tax_total i); dv_Total := num_dec (in_total i);
     dv_Status := in_status i; dv_Notes := in_notes i |}.
Definition invoice_line_view (l : InvoiceLineRow) : lineResp :=
  {| le_ID := il_id l; le_AccountID := il_account_id l; le_Description := il_description l; le_Quantity := num_dec (il_quantity l);
     le_UnitPrice := num_dec (il_unit_price l); le_Discount := num_dec (il_discount l); le_TaxRate := num_dec (il_tax_rate l);
     le_TaxAmount := num_dec (il_tax_amount l); le_Total := num_dec (il_total l) |}.
Definition invoice_by_id (h u : uuid) (i : InvoiceRow) : bool := ueq (in_id i) u && ueq (in_hotel_id i) h.

Definition ListSalesInvoices (c : Ctx) : M (Resp BooksBody) (Resp BooksBody) :=
  rows ← or_text (query Pool (fun d => map invoice_view (newest in_date
           (select (fun i => ueq (in_hotel_id i) (hotelID secret c)) (invoices d))))) 500;
  mret (RespOK (KB_documents rows)).

Definition store_invoice_line (h invID : uuid) (l : invoiceLine) : M (Resp BooksBody) unit :=
  lineID ← new_uuid;
  or_text (exec Tx (insert_invoice_line
    {| il_id := lineID; il_invoice_id := invID; il_hotel_id := h; il_account_id := Some (nl_account l);
       il_description := nl_desc l; il_quantity := num_enc (nl_qty l); il_unit_price := num_enc (nl_unitPrice l);
       il_discount := num_enc (nl_discount l); il_tax_rate := num_enc (nl_taxRate l); il_tax_amount := num_enc (nl_taxAmt l);
       il_total := num_enc (nl_total l) |})) 500.

Definition create_invoice_tx (h : uuid) (number : string) (invDate : Time) (req : salesInvoiceReq) : M (Resp BooksBody) uuid :=
  let '(lines, t) := compute_invoice (sq_Lines req) in
  invID ← new_uuid;
  or_text (exec Tx (insert_draft_invoice
    {| in_id := invID; in_hotel_id := h; in_customer_id := nilAsNull (default uuid_nil (uuid_parse (sq_CustomerID req)));
       in_number := number; in_date := invDate; in_due_date := date_if_readable (sq_DueDate req); in_reference := sq_Reference req;
       in_subtotal := num_enc (it_subtotal t); in_discount_total := num_enc (it_discountTotal t);
       in_tax_total := num_enc (it_taxTotal t); in_total := num_enc (it_total t); in_status := "draft"; in_notes := sq_Notes req |})) 500 ;;
  for_each (store_invoice_line h invID) lines ;;
  mret invID.

Definition CreateSalesInvoice (c : Ctx) (body : option salesInvoiceReq) : M (Resp BooksBody) (Resp BooksBody) :=
  req ← of_option body (RespError 400 "invalid request");
  throw_if (bool_decide (sq_Lines req = [])) (RespError 422 "at least one line is required") ;;
  let h := hotelID secret c in
  number ← number_for "INV" h;
  invDate ← date_or_now (sq_Date req);
  invID ← books_tx (create_invoice_tx h number invDate req);
  mret (RespCreated (KB_numbered invID number (Some (it_total (snd (compute_invoice (sq_Lines req))))))).

Definition GetSalesInvoice (c : Ctx) : M (Resp BooksBody) (Resp BooksBody) :=
  let id := c_params c "id" in
  v ← or_fail (row_by_id id (fun u d => invoice_view <$> find_row (invoice_by_id (hotelID secret c) u) (invoices d)))
        404 "invoice not found";
  lines ← or_text (exec Pool (pg_uuid id (fun u d =>
            inr (map invoice_line_view (select (fun l => ueq (il_invoice_id l) u) (invoice_lines d)), d)))) 500;
  mret (RespOK (KB_document v lines)).

(** The UPDATE of a draft; a row no longer draft is left alone, without an error. *)
Definition edit_invoice (h u : uuid) (req : salesInvoiceReq) (t : invoiceTotals) (d : DB) : GoErr + (unit * DB) :=
  let customer := nilAsNull (default uuid_nil (uuid_parse (sq_CustomerID req))) in
  let f i := i <| in_customer_id ::= fun o => match customer with Some u => Some u | None => o end |>
               <| in_date ::= fun o => match date_if_readable (sq_Date req) with Some t => t | None => o end |>
               <| in_due_date := date_if_readable (sq_DueDate req) |>
               <| in_reference := sq_Reference req |> <| in_notes := sq_Notes req |>
               <| in_subtotal := num_enc (it_subtotal t) |> <| in_discount_total := num_enc (it_discountTotal t) |>
               <| in_tax_total := num_enc (it_taxTotal t) |> <| in_total := num_enc (it_total t) |> in
  let p i := invoice_by_id h u i && (in_status i =s "draft") in
  match find_row p (invoices d) with
  | None => inr (tt, d)
  | Some i =>
      if negb (invoice_fits (f i)) then inl (ErrPg "22003")
      else if negb (fk_customer customer d) then inl (ErrPg "23503")
      else inr (tt, d <| invoices ::= update_rows p f |>)
  end.
(** invoice_line_id of a credit note keeps the line it names. *)
Definition drop_invoice_lines (h u : uuid) (d : DB) : GoErr + (unit * DB) :=
  let p l := ueq (il_invoice_id l) u && ueq (il_hotel_id l) h in
  if exists_row (fun l => p l && exists_row (fun n => oueq (kl_invoice_line_id n) (il_id l)) (credit_note_lines d)) (invoice_lines d)
  then inl (ErrPg "23503") else inr (tt, d <| invoice_lines ::= delete_rows p |>).

Definition update_invoice_tx (h u : uuid) (req : salesInvoiceReq) : M (Resp BooksBody) unit :=
  let '(lines, t) := compute_invoice (sq_Lines req) in
  or_text (exec Tx (edit_invoice h u req t)) 500 ;;
  or_text (exec Tx (drop_invoice_lines h u)) 500 ;;
  for_each (store_invoice_line h u) lines.

(** An id that is not a UUID already fails the read of the status. *)
Definition UpdateSalesInvoice (c : Ctx) (body : option salesInvoiceReq) : M (Resp BooksBody) (Resp BooksBody) :=
  let id := c_params c "id" in
  let h := hotelID secret c in
  req ← of_option body (RespError 400 "invalid request");
  throw_if (bool_decide (sq_Lines req = [])) (RespError 422 "at least one line is required") ;;
  status ← or_fail (row_by_id id (fun u d => in_status <$> find_row (invoice_by_id h u) (invoices d))) 404 "invoice not found";
  throw_if (status !=s "draft") (RespError 409 "only a draft invoice can be edited — cancel it or raise a credit note") ;;
  u ← of_option (uuid_parse id) (RespError 404 "invoice not found");
  books_tx (update_invoice_tx h u req) ;;
  mret (RespOK (KB_edited id (it_total (snd (compute_invoice (sq_Lines req)))))).

(** UPDATE ... SET status = 'posted' WHERE the row is a draft RETURNING ... *)
Definition post_invoice_row (h u : uuid) (d : DB) : GoErr + (option (string * Q * Q) * DB) :=
  let p i := invoice_by_id h u i && (in_status i =s "draft") in
  inr ((fun i => (in_number i, num_dec (in_tax_total i), num_dec (in_total i))) <$> find_row p (invoices d),
       d <| invoices ::= update_rows p (fun i => i <| in_status := "posted" |>) |>).

Definition PostSalesInvoice (c : Ctx) : M (Resp BooksBody) (Resp BooksBody) :=
  let h := hotelID secret c in
  r ← or_fail (o ← exec Pool (pg_uuid (c_params c "id") (post_invoice_row h)); of_option o ErrNoRows)
        400 "invoice not found or already posted/cancelled";
  let '(invNum, taxTotal, total) := r in
  j ← posted_journal (postARInvoice Pool h taxTotal total ("INV " ++ invNum) ("Sales invoice " ++ invNum));
  mret (RespOK (KB_status "posted" j)).

Definition CancelSalesInvoice (c : Ctx) : M (Resp BooksBody) (Resp BooksBody) :=
  let h := hotelID secret c in
  let id := c_params c "id" in
  r ← or_fail (row_by_id id (fun u d => (fun i => (in_status i, in_number i)) <$> find_row (invoice_by_id h u) (invoices d)))
        404 "invoice not found";
  let '(status, invNum) := r in
  throw_if ((status !=s "draft") && (status !=s "posted")) (RespError 400 "invoice already cancelled") ;;
  or_text (exec Pool (pg_uuid id (fun u d =>
    inr (tt, d <| invoices ::= update_rows (invoice_by_id h u) (fun i => i <| in_status := "cancelled" |>) |>)))) 500 ;;
  if status =s "posted" then
    j ← posted_journal (reverseJournalsByReference Pool h ("INV " ++ invNum) ("Cancellation — invoice " ++ invNum));
    mret (RespOK (KB_status "cancelled" j))
  else mret (RespOK (KB_status "cancelled" None)).

(** *** Credit notes *)

Definition credit_note_view (n : CreditNoteRow) : documentView :=
  {| dv_ID := cn_id n; dv_Party := cn_invoice_id n; dv_Number := cn_number n; dv_Date := fmt_date (cn_date n); dv_DueDate := None;
     dv_Text := cn_reason n; dv_Subtotal := num_dec (cn_subtotal n); dv_Discount := 0; dv_Tax := num_dec (cn_tax_total n);
     dv_Total := num_dec (cn_total n); dv_Status := cn_status n; dv_Notes := "" |}.
Definition credit_note_by_id (h u : uuid) (n : CreditNoteRow) : bool := ueq (cn_id n) u && ueq (cn_hotel_id n) h.

(** The note takes the invoice's figures, and a line for each of its lines, with
    ids the server draws. *)
Definition credit_note_of (noteID h : uuid) (number : string) (date : Time) (i : InvoiceRow) : CreditNoteRow :=
  {| cn_id := noteID; cn_hotel_id := h; cn_invoice_id := Some (in_id i); cn_number := number; cn_date := date;
     cn_reason := "Credit against " ++ in_number i; cn_subtotal := in_subtotal i; cn_tax_total := in_tax_total i;
     cn_total := in_total i; cn_status := "draft" |}.
Definition credit_line_of (noteID lineID : uuid) (l : InvoiceLineRow) : CreditNoteLineRow :=
  {| kl_id := lineID; kl_credit_note_id := noteID; kl_hotel_id := il_hotel_id l; kl_account_id := il_account_id l;
     kl_invoice_line_id := Some (il_id l); kl_description := il_description l; kl_quantity := il_quantity l;
     kl_unit_price := il_unit_price l; kl_tax_amount := il_tax_amount l; kl_total := il_total l |}.
Definition copy_invoice (noteID h u : uuid) (number : string) (date : Time) (d : DB) : GoErr + (unit * DB) :=
  match find_row (fun i => ueq (in_id i) u) (invoices d) with
  | None => inr (tt, d)
  | Some i => insert_credit_note (credit_note_of noteID h number date i) d
  end.
Fixpoint fresh_ids {E} (n : nat) : M E (list uuid) :=
  match n with O => mret [] | S k => u ← new_uuid; us ← fresh_ids k; mret (u :: us) end.
Definition copy_lines (noteID u : uuid) (ids : list uuid) (d : DB) : GoErr + (unit * DB) :=
  let src := select (fun l => ueq (il_invoice_id l) u) (invoice_lines d) in
  if negb (exists_row (fun n => ueq (cn_id n) noteID) (credit_notes d)) && negb (bool_decide (src = []))
  then inl (ErrPg "23503")
  else inr (tt, d <| credit_note_lines ::= fun ls => (ls ++ zip_with (credit_line_of noteID) ids src)%list |>).
(** The INSERT ... SELECT, with a uuid_generate_v4() for each line it finds. *)
Definition insert_copied_lines (noteID u : uuid) : M GoErr unit := fun w =>
  let found := match w_tx w with
               | TxOpen t => length (select (fun l => ueq (il_invoice_id l) u) (invoice_lines t))
               | _ => 0%nat
               end in
  (ids ← fresh_ids found; exec Tx (copy_lines noteID u ids)) w.

Definition credit_note_tx (h u : uuid) (number : string) : M (Resp BooksBody) uuid :=
  cnID ← new_uuid;
  today ← current_date;
  or_text (exec Tx (copy_invoice cnID h u number today)) 500 ;;
  or_text (insert_copied_lines cnID u) 500 ;;
  mret cnID.

Definition CreateCreditNoteFromInvoice (c : Ctx) : M (Resp BooksBody) (Resp BooksBody) :=
  let id := c_params c "id" in
  let h := hotelID secret c in
  r ← or_fail (row_by_id id (fun u d => (fun i => (in_status i, in_number i, u)) <$> find_row (invoice_by_id h u) (invoices d)))
        404 "invoice not found";
  let '(status, invNum, u) := r in
  throw_if (status !=s "posted") (RespError 400 "credit note can only be created from a posted invoice") ;;
  n ← attempt (query Pool (fun d => rows_affected (fun n => oueq (cn_invoice_id n) u) (credit_notes d)));
  let count := match n with inr k => Z.of_nat k | inl _ => 0 end in
  let number := "CN-" ++ invNum ++ "-" ++ fmt_d (count + 1) in
  cnID ← books_tx (credit_note_tx h u number);
  mret (RespCreated (KB_numbered cnID number None)).

Definition ListCreditNotes (c : Ctx) : M (Resp BooksBody) (Resp BooksBody) :=
  rows ← or_text (query Pool (fun d => map credit_note_view (newest cn_date
           (select (fun n => ueq (cn_hotel_id n) (hotelID secret c)) (credit_notes d))))) 500;
  mret (RespOK (KB_documents rows)).

Definition note_line_total (l : creditNoteLineReq) : Q := fmul (quantity (cnl_Quantity l)) (cnl_UnitPrice l).
Definition store_note_line (h cnID : uuid) (l : creditNoteLineReq) : M (Resp BooksBody) unit :=
  lineID ← new_uuid;
  or_text (exec Tx (insert_credit_note_line
    {| kl_id := lineID; kl_credit_note_id := cnID; kl_hotel_id := h;
       kl_account_id := nilAsNull (default uuid_nil (uuid_parse (cnl_AccountID l)));
       kl_invoice_line_id := nilAsNull (default uuid_nil (uuid_parse (cnl_InvoiceLineID l)));
       kl_description := cnl_Description l; kl_quantity := num_enc (quantity (cnl_Quantity l));
       kl_unit_price := num_enc (cnl_UnitPrice l); kl_tax_amount := 0; kl_total := num_enc (note_line_total l) |})) 500.

Definition create_note_tx (h : uuid) (number : string) (date : Time) (req : creditNoteReq) : M (Resp BooksBody) uuid :=
  cnID ← new_uuid;
  or_text (exec Tx (insert_credit_note
    {| cn_id := cnID; cn_hotel_id := h;
       cn_invoice_id := if cnq_InvoiceID req !=s "" then uuid_parse (cnq_InvoiceID req) else None;
       cn_number := number; cn_date := date; cn_reason := cnq_Reason req; cn_subtotal := 0; cn_tax_total := 0; cn_total := 0;
       cn_status := "draft" |})) 500 ;;
  for_each (store_note_line h cnID) (cnq_Lines req) ;;
  let subtotal := foldl (fun s l => fadd s (note_line_total l)) 0%Q (cnq_Lines req) in
  or_text (exec Tx (fun d =>
    if negb (wide_fits (num_enc subtotal)) then inl (ErrPg "22003")
    else inr (tt, d <| credit_notes ::= update_rows (fun n => ueq (cn_id n) cnID)
      (fun n => n <| cn_subtotal := num_enc subtotal |> <| cn_tax_total := 0 |> <| cn_total := num_enc subtotal |>) |>))) 500 ;;
  mret cnID.

Definition CreateCreditNote (c : Ctx) (body : option creditNoteReq) : M (Resp BooksBody) (Resp BooksBody) :=
  req ← of_option body (RespError 400 "invalid request");
  throw_if (bool_decide (cnq_Lines req = []) && (cnq_Reason req =s "")) (RespError 422 "lines or reason required") ;;
  let h := hotelID secret c in
  number ← number_for "CN" h;
  date ← date_or_now (cnq_Date req);
  cnID ← books_tx (create_note_tx h number date req);
  mret (RespCreated (KB_numbered cnID number None)).

Definition GetCreditNote (c : Ctx) : M (Resp BooksBody) (Resp BooksBody) :=
  v ← or_fail (row_by_id (c_params c "id") (fun u d =>
        credit_note_view <$> find_row (credit_note_by_id (hotelID secret c) u) (credit_notes d))) 404 "credit note not found";
  mret (RespOK (KB_document v [])).

Definition post_credit_note_row (h u : uuid) (d : DB) : GoErr + (option (string * Q * Q) * DB) :=
  let p n := credit_note_by_id h u n && (cn_status n =s "draft") in
  inr ((fun n => (cn_number n, num_dec (cn_tax_total n), num_dec (cn_total n))) <$> find_row p (credit_notes d),
       d <| credit_notes ::= update_rows p (fun n => n <| cn_status := "posted" |>) |>).
Definition PostCreditNote (c : Ctx) : M (Resp BooksBody) (Resp BooksBody) :=
  let h := hotelID secret c in
  r ← or_fail (o ← exec Pool (pg_uuid (c_params c "id") (post_credit_note_row h)); of_option o ErrNoRows)
        400 "credit note not found or already posted";
  let '(cnNum, taxTotal, total) := r in
  j ← posted_journal (postCreditNoteReversal Pool h taxTotal total ("CN " ++ cnNum) ("Credit note " ++ cnNum));
  mret (RespOK (KB_status "posted" j)).

(** *** Debit notes *)

Definition debit_note_view (n : DebitNoteRow) : documentView :=
  {| dv_ID := dn_id n; dv_Party := dn_vendor_id n; dv_Number := dn_number n; dv_Date := fmt_date (dn_date n); dv_DueDate := None;
     dv_Text := dn_reason n; dv_Subtotal := num_dec (dn_subtotal n); dv_Discount := 0; dv_Tax := num_dec (dn_tax_total n);
     dv_Total := num_dec (dn_total n); dv_Status := dn_status n; dv_Notes := "" |}.
Definition debit_note_by_id (h u : uuid) (n : DebitNoteRow) : bool := ueq (dn_id n) u && ueq (dn_hotel_id n) h.

Definition ListDebitNotes (c : Ctx) : M (Resp BooksBody) (Resp BooksBody) :=
  rows ← or_text (query Pool (fun d => map debit_note_view (newest dn_date
           (select (fun n => ueq (dn_hotel_id n) (hotelID secret c)) (debit_notes d))))) 500;
  mret (RespOK (KB_documents rows)).

Definition CreateDebitNote (c : Ctx) (body : option debitNoteReq) : M (Resp BooksBody) (Resp BooksBody) :=
  req ← of_option body (RespError 400 "invalid request");
  throw_if ((dq_Reason req =s "") && feq (dq_Total req) 0) (RespError 422 "reason or total required") ;;
  let h := hotelID secret c in
  number ← number_for "DN" h;
  date ← date_or_now (dq_Date req);
  dnID ← new_uuid;
  or_text (exec Pool (insert_debit_note
    {| dn_id := dnID; dn_hotel_id := h; dn_vendor_id := nilAsNull (default uuid_nil (uuid_parse (dq_VendorID req)));
       dn_number := number; dn_date := date; dn_reason := dq_Reason req; dn_subtotal := num_enc (dq_Subtotal req);
       dn_tax_total := num_enc (dq_TaxTotal req); dn_total := num_enc (dq_Total req); dn_status := "draft" |})) 500 ;;
  mret (RespCreated (KB_numbered dnID number None)).

Definition GetDebitNote (c : Ctx) : M (Resp BooksBody) (Resp BooksBody) :=
  v ← or_fail (row_by_id (c_params c "id") (fun u d =>
        debit_note_view <$> find_row (debit_note_by_id (hotelID secret c) u) (debit_notes d))) 404 "debit note not found";
  mret (RespOK (KB_document v [])).

Definition post_debit_note_row (h u : uuid) (d : DB) : GoErr + (option (string * Q) * DB) :=
  let p n := debit_note_by_id h u n && (dn_status n =s "draft") in
  inr ((fun n => (dn_number n, num_dec (dn_total n))) <$> find_row p (debit_notes d),
       d <| debit_notes ::= update_rows p (fun n => n <| dn_status := "posted" |>) |>).
Definition PostDebitNote (c : Ctx) : M (Resp BooksBody) (Resp BooksBody) :=
  let h := hotelID secret c in
  r ← or_fail (o ← exec Pool (pg_uuid (c_params c "id") (post_debit_note_row h)); of_option o ErrNoRows)
        400 "debit note not found or already posted";
  let '(dnNum, total) := r in
  j ← posted_journal (postVendorDebitNote Pool h total ("DN " ++ dnNum) ("Debit note " ++ dnNum));
  mret (RespOK (KB_status "posted" j)).

(** *** Vendor payments *)

Definition payment_view (p : VendorPaymentRow) : paymentView :=
  {| pv_ID := vp_id p; pv_VendID := vp_vendor_id p; pv_Num := vp_number p; pv_Date := fmt_date (vp_date p);
     pv_Amount := num_dec (vp_amount p); pv_Method := vp_method p; pv_Ref := vp_reference p; pv_Notes := vp_notes p |}.
Definition ListVendorPayments (c : Ctx) : M (Resp BooksBody) (Resp BooksBody) :=
  rows ← or_text (query Pool (fun d => map payment_view (newest vp_date
           (select (fun p => ueq (vp_hotel_id p) (hotelID secret c)) (vendor_payments d))))) 500;
  mret (RespOK (KB_payments rows)).

Definition CreateVendorPayment (c : Ctx) (body : option vendorPaymentReq) : M (Resp BooksBody) (Resp BooksBody) :=
  req ← of_option body (RespError 400 "invalid request");
  throw_if (fle (vq_Amount req) 0) (RespError 422 "amount must be positive") ;;
  let h := hotelID secret c in
  let method := if vq_Method req =s "" then "cash" else vq_Method req in
  number ← number_for "VP" h;
  date ← date_or_now (vq_Date req);
  id ← new_uuid;
  or_text (exec Pool (insert_vendor_payment
    {| vp_id := id; vp_hotel_id := h; vp_vendor_id := nilAsNull (default uuid_nil (uuid_parse (vq_VendorID req)));
       vp_number := number; vp_date := date; vp_amount := num_enc (vq_Amount req); vp_method := method;
       vp_reference := vq_Reference req; vp_notes := vq_Notes req |})) 500 ;;
  j ← posted_journal (postAPSettlement Pool h method (vq_Amount req) ("VP " ++ number) ("Vendor payment " ++ number));
  mret (RespCreated (KB_paid id number (vq_Amount req) j)).

(** *** Purchase orders *)

Definition order_view (p : PurchaseOrderRow) : documentView :=
  {| dv_ID := po_id p; dv_Party := po_vendor_id p; dv_Number := po_number p; dv_Date := fmt_date (po_order_date p);
     dv_DueDate := optional_date (po_expected_date p); dv_Text := ""; dv_Subtotal := num_dec (po_subtotal p); dv_Discount := 0;
     dv_Tax := num_dec (po_tax_total p); dv_Total := num_dec (po_total p); dv_Status := po_status p; dv_Notes := po_notes p |}.
Definition order_by_id (h u : uuid) (p : PurchaseOrderRow) : bool := ueq (po_id p) u && ueq (po_hotel_id p) h.

Definition ListPurchaseOrders (c : Ctx) : M (Resp BooksBody) (Resp BooksBody) :=
  rows ← or_text (query Pool (fun d => map order_view (newest po_order_date
           (select (fun p => ueq (po_hotel_id p) (hotelID secret c)) (purchase_orders d))))) 500;
  mret (RespOK (KB_documents rows)).

(** The lines of an order go to accounting_grn_lines, under the order's id. *)
Definition order_line_total (l : poLineReq) : Q := fmul (quantity (pl_Quantity l)) (pl_UnitPrice l).
Definition store_order_line (h poID : uuid) (l : poLineReq) : M (Resp BooksBody) unit :=
  lineID ← new_uuid;
  or_text (exec Tx (insert_grn_line
    {| gl_id := lineID; gl_grn_id := poID; gl_hotel_id := h; gl_item_description := pl_Description l;
       gl_quantity_ordered := num_enc (quantity (pl_Quantity l)); gl_quantity_received := 0; gl_quantity_accepted := 0;
       gl_quantity_rejected := 0; gl_unit_price := num_enc (pl_UnitPrice l); gl_total := num_enc (order_line_total l) |})) 500.

Definition create_order_tx (h poID : uuid) (number : string) (date : Time) (req : poReq) : M (Resp BooksBody) unit :=
  or_text (exec Tx (insert_purchase_order
    {| po_id := poID; po_hotel_id := h; po_vendor_id := nilAsNull (default uuid_nil (uuid_parse (pq_VendorID req)));
       po_number := number; po_order_date := date; po_expected_date := date_if_readable (pq_ExpectedD req); po_status := "draft";
       po_subtotal := 0; po_tax_total := 0; po_total := 0; po_notes := pq_Notes req |})) 500 ;;
  for_each (store_order_line h poID) (pq_Lines req) ;;
  let subtotal := foldl (fun s l => fadd s (order_line_total l)) 0%Q (pq_Lines req) in
  or_text (exec Tx (fun d =>
    if negb (wide_fits (num_enc subtotal)) then inl (ErrPg "22003")
    else inr (tt, d <| purchase_orders ::= update_rows (fun p => ueq (po_id p) poID)
      (fun p => p <| po_subtotal := num_enc subtotal |> <| po_total := num_enc subtotal |>) |>))) 500.

Definition CreatePurchaseOrder (c : Ctx) (body : option poReq) : M (Resp BooksBody) (Resp BooksBody) :=
  req ← of_option body (RespError 400 "invalid request");
  throw_if (bool_decide (pq_Lines req = [])) (RespError 422 "at least one line is required") ;;
  let h := hotelID secret c in
  number ← number_for "PO" h;
  date ← date_or_now (pq_Date req);
  poID ← new_uuid;
  books_tx (create_order_tx h poID number date req) ;;
  mret (RespCreated (KB_numbered poID number None)).

Definition GetPurchaseOrder (c : Ctx) : M (Resp BooksBody) (Resp BooksBody) :=
  v ← or_fail (row_by_id (c_params c "id") (fun u d =>
        order_view <$> find_row (order_by_id (hotelID secret c) u) (purchase_orders d))) 404 "purchase order not found";
  mret (RespOK (KB_document v [])).

Definition ApprovePurchaseOrder (c : Ctx) : M (Resp BooksBody) (Resp BooksBody) :=
  n ← or_text (exec_by_id (c_params c "id") (fun u d =>
        let p o := order_by_id (hotelID secret c) u o && (po_status o =s "draft") in
        inr (rows_affected p (purchase_orders d),
             d <| purchase_orders ::= update_rows p (fun o => o <| po_status := "approved" |>) |>))) 500;
  throw_if (Nat.eqb n 0) (RespError 400 "PO not found or not in draft") ;;
  mret (RespOK (KB_status "approved" None)).

(** *** Goods receipts *)

Definition grn_view (g : GrnRow) : documentView :=
  {| dv_ID := gr_id g; dv_Party := gr_po_id g; dv_Number := gr_number g; dv_Date := fmt_date (gr_received_date g); dv_DueDate := None;
     dv_Text := gr_vendor_invoice_ref g; dv_Subtotal := 0; dv_Discount := 0; dv_Tax := 0; dv_Total := 0;
     dv_Status := gr_status g; dv_Notes := gr_notes g |}.
Definition grn_by_id (h u : uuid) (g : GrnRow) : bool := ueq (gr_id g) u && ueq (gr_hotel_id g) h.

Definition ListGRN (c : Ctx) : M (Resp BooksBody) (Resp BooksBody) :=
  rows ← or_text (query Pool (fun d => map grn_view (newest gr_received_date
           (select (fun g => ueq (gr_hotel_id g) (hotelID secret c)) (grns d))))) 500;
  mret (RespOK (KB_documents rows)).

Definition store_grn_line (h grnID : uuid) (l : grnLineReq) : M (Resp BooksBody) unit :=
  lineID ← new_uuid;
  or_text (exec Tx (insert_grn_line
    {| gl_id := lineID; gl_grn_id := grnID; gl_hotel_id := h; gl_item_description := gq_ItemDescription l;
       gl_quantity_ordered := num_enc (gq_QtyOrdered l); gl_quantity_received := num_enc (gq_QtyReceived l);
       gl_quantity_accepted := num_enc (gq_QtyAccepted l); gl_quantity_rejected := num_enc (gq_QtyRejected l);
       gl_unit_price := num_enc (gq_UnitPrice l); gl_total := num_enc (fmul (gq_QtyAccepted l) (gq_UnitPrice l)) |})) 500.

Definition create_grn_tx (h poID : uuid) (number : string) (date : Time) (req : grnReq) : M (Resp BooksBody) uuid :=
  grnID ← new_uuid;
  or_text (exec Tx (insert_grn
    {| gr_id := grnID; gr_hotel_id := h; gr_po_id := nilAsNull poID; gr_number := number; gr_received_date := date;
       gr_vendor_invoice_ref := gq_VendorInvRef req; gr_status := "draft"; gr_notes := gq_Notes req |})) 500 ;;
  for_each (store_grn_line h grnID) (gq_Lines req) ;;
  mret grnID.

Definition CreateGRN (c : Ctx) (body : option grnReq) : M (Resp BooksBody) (Resp BooksBody) :=
  req ← of_option body (RespError 400 "invalid request");
  throw_if (bool_decide (gq_Lines req = [])) (RespError 422 "at least one line is required") ;;
  let h := hotelID secret c in
  let poID := default uuid_nil (uuid_parse (gq_POID req)) in
  number ← number_for "GRN" h;
  date ← date_or_now (gq_Date req);
  grnID ← books_tx (create_grn_tx h poID number date req);
  attempt (exec Pool (fun d => inr (tt, d <| purchase_orders ::=
    update_rows (fun o => order_by_id h poID o && (po_status o =s "approved")) (fun o => o <| po_status := "received" |>) |>))) ;;
  mret (RespCreated (KB_numbered grnID number None)).

Definition GetGRN (c : Ctx) : M (Resp BooksBody) (Resp BooksBody) :=
  v ← or_fail (row_by_id (c_params c "id") (fun u d => grn_view <$> find_row (grn_by_id (hotelID secret c) u) (grns d))) 404 "GRN not found";
  mret (RespOK (KB_document v [])).

Definition post_grn_row (h u : uuid) (d : DB) : GoErr + (option (string * uuid) * DB) :=
  let p g := grn_by_id h u g && (gr_status g =s "draft") in
  inr ((fun g => (gr_number g, u)) <$> find_row p (grns d), d <| grns ::= update_rows p (fun g => g <| gr_status := "posted" |>) |>).
(** The value of the goods accepted, zero when the read fails. *)
Definition grn_value {E} (h u : uuid) : M E Q :=
  r ← attempt (query Pool (fun d => num_dec (sum_rows (fun l => ueq (gl_grn_id l) u && ueq (gl_hotel_id l) h) gl_total (grn_lines d))));
  mret (match r with inr v => v | inl _ => 0%Q end).
Definition PostGRN (c : Ctx) : M (Resp BooksBody) (Resp BooksBody) :=
  let h := hotelID secret c in
  r ← or_fail (o ← exec Pool (pg_uuid (c_params c "id") (post_grn_row h)); of_option o ErrNoRows)
        400 "GRN not found or already posted";
  let '(grnNum, u) := r in
  amount ← grn_value h u;
  j ← posted_journal (postGoodsReceipt Pool h amount ("GRN " ++ grnNum) ("Goods receipt " ++ grnNum));
  mret (RespOK (KB_status "posted" j)).

(** ** The routes *)

Inductive BooksOp :=
  | Op_ListAccounts | Op_CreateAccount (b : option accountReq) | Op_GetAccount | Op_UpdateAccount (b : option accountReq) | Op_DeleteAccount
  | Op_ListCustomers | Op_CreateCustomer (b : option customerReq) | Op_GetCustomer | Op_UpdateCustomer (b : option customerReq)
  | Op_ListVendors | Op_CreateVendor (b : option customerReq) | Op_GetVendor | Op_UpdateVendor (b : option customerReq)
  | Op_ListVendorPayments | Op_CreateVendorPayment (b : option vendorPaymentReq)
  | Op_ListSalesInvoices | Op_CreateSalesInvoice (b : option salesInvoiceReq) | Op_GetSalesInvoice
  | Op_UpdateSalesInvoice (b : option salesInvoiceReq) | Op_PostSalesInvoice | Op_CancelSalesInvoice | Op_CreateCreditNoteFromInvoice
  | Op_ListCreditNotes | Op_CreateCreditNote (b : option creditNoteReq) | Op_GetCreditNote | Op_PostCreditNote
  | Op_ListDebitNotes | Op_CreateDebitNote (b : option debitNoteReq) | Op_GetDebitNote | Op_PostDebitNote
  | Op_ListPurchaseOrders | Op_CreatePurchaseOrder (b : option poReq) | Op_GetPurchaseOrder | Op_ApprovePurchaseOrder
  | Op_ListGRN | Op_CreateGRN (b : option grnReq) | Op_GetGRN | Op_PostGRN
  | Op_ListJournalEntries | Op_CreateJournalEntry (b : option journalEntryReq) | Op_GetJournalEntry | Op_TrialBalance.

Definition books_route (op : BooksOp) (c : Ctx) : M (Resp BooksBody) (Resp BooksBody) :=
  match op with
  | Op_ListAccounts => ListAccounts secret c | Op_CreateAccount b => CreateAccount secret c b | Op_GetAccount => GetAccount secret c
  | Op_UpdateAccount b => UpdateAccount secret c b | Op_DeleteAccount => DeleteAccount secret c
  | Op_ListCustomers => ListCustomers secret c | Op_CreateCustomer b => CreateCustomer secret c b
  | Op_GetCustomer => GetCustomer secret c | Op_UpdateCustomer b => UpdateCustomer secret c b
  | Op_ListVendors => ListVendors secret c | Op_CreateVendor b => CreateVendor secret c b
  | Op_GetVendor => GetVendor secret c | Op_UpdateVendor b => UpdateVendor secret c b
  | Op_ListVendorPayments => ListVendorPayments c | Op_CreateVendorPayment b => CreateVendorPayment c b
  | Op_ListSalesInvoices => ListSalesInvoices c | Op_CreateSalesInvoice b => CreateSalesInvoice c b
  | Op_GetSalesInvoice => GetSalesInvoice c | Op_UpdateSalesInvoice b => UpdateSalesInvoice c b
  | Op_PostSalesInvoice => PostSalesInvoice c | Op_CancelSalesInvoice => CancelSalesInvoice c
  | Op_CreateCreditNoteFromInvoice => CreateCreditNoteFromInvoice c
  | Op_ListCreditNotes => ListCreditNotes c | Op_CreateCreditNote b => CreateCreditNote c b
  | Op_GetCreditNote => GetCreditNote c | Op_PostCreditNote => PostCreditNote c
  | Op_ListDebitNotes => ListDebitNotes c | Op_CreateDebitNote b => CreateDebitNote c b
  | Op_GetDebitNote => GetDebitNote c | Op_PostDebitNote => PostDebitNote c
  | Op_ListPurchaseOrders => ListPurchaseOrders c | Op_CreatePurchaseOrder b => CreatePurchaseOrder c b
  | Op_GetPurchaseOrder => GetPurchaseOrder c | Op_ApprovePurchaseOrder => ApprovePurchaseOrder c
  | Op_ListGRN => ListGRN c | Op_CreateGRN b => CreateGRN c b | Op_GetGRN => GetGRN c | Op_PostGRN => PostGRN c
  | Op_ListJournalEntries => ListJournalEntries secret c | Op_CreateJournalEntry b => CreateJournalEntry secret c b
  | Op_GetJournalEntry => GetJournalEntry secret c | Op_TrialBalance => TrialBalance secret c
  end.

Record BooksRequest := { kq_ctx : Ctx; kq_op : BooksOp }.
(** api.Use(authGate(secret)) *)
Definition books_handle (rq : BooksRequest) : M (Resp BooksBody) (Resp BooksBody) :=
  match authGate secret (kq_ctx rq) with
  | inl (status, msg) => throw (RespError status msg)
  | inr c => books_route (kq_op rq) c
  end.
Definition books_serve_all (rqs : list BooksRequest) (w : World) : World :=
  foldl (fun w rq => snd (serve (books_handle rq) w)) w rqs.
End Documents.

(** A number is drawn whether or not the slug is read. *)
Lemma ens_then_number {env : Env} {E B} prefix h (k : string -> M E B) d Q (R : E -> DB -> Prop) :
  (forall no, ensures (k no) d Q R) -> ensures (no ← number_for prefix h; k no) d Q R.
Proof.
  intros H. unfold number_for. eapply ens_bind with (Q1 := fun _ d' => d' = d); [|intros no d' ->; apply H].
  eapply ens_bind with (Q1 := fun _ d' => d' = d).
  - apply ens_attempt. unfold query_row. eapply ens_bind with (Q1 := fun _ d' => d' = d); [now apply ens_query|].
    intros o d' ->. apply ens_of_option. destruct o; reflexivity.
  - intros r d' ->. apply ens_then_now. intros t. now apply ens_ret.
Qed.
