(* ===== verification/DocumentSpec.v ===== *)
(** DocumentSpec: what the accounting documents go through.  A sales invoice, a
    credit or debit note, a purchase order and a goods receipt share one pattern,
    stated as a type class: an identity that never changes, a status that moves
    along its table, and figures that are fixed once the document is no longer a
    draft.  Every request of the accounting routes keeps it. *)

From S2P Require Import Prelude GoLib Schema Binary64 World Auth Guards Ledger Customers Settlement DineIn Accounting Documents.
From Stdlib Require Import QArith.
Local Open Scope string_scope.
Local Open Scope Z_scope.

(** ** Documents *)

Class Document (R : Type) := {
  doc_key : R -> uuid * uuid * string;      (* id, tenant, number *)
  doc_status : R -> string;
  doc_with_status : string -> R -> R;
  doc_moves : list (string * list string) }.  (* the statuses a document may reach *)

Class DocumentLaws (R : Type) `{Document R} : Prop := {
  doc_status_set s (r : R) : doc_status (doc_with_status s r) = s;
  doc_set_same (r : R) : doc_with_status (doc_status r) r = r;
  doc_set_set s t (r : R) : doc_with_status s (doc_with_status t r) = doc_with_status s r;
  doc_key_set s (r : R) : doc_key (doc_with_status s r) = doc_key r;
  doc_moves_trans s t u : canTransition doc_moves s t = true -> canTransition doc_moves t u = true -> canTransition doc_moves s u = true;
  doc_no_redraft s : canTransition doc_moves s "draft" = false }.

(** r' is what r may have become. *)
Definition doc_after {R} `{Document R} (r r' : R) : Prop :=
  doc_key r' = doc_key r
  /\ (doc_status r' = doc_status r \/ canTransition doc_moves (doc_status r) (doc_status r') = true)
  /\ (doc_status r <> "draft" -> r' = doc_with_status (doc_status r') r).

Section Document.
Context {R : Type} `{DocumentLaws R}.
Implicit Types r : R.

Lemma doc_after_refl r : doc_after r r.
Proof. split; [reflexivity|]. split; [left; reflexivity|]. intros _. symmetry. apply doc_set_same. Qed.

Lemma doc_after_trans (a b c : R) : doc_after a b -> doc_after b c -> doc_after a c.
Proof.
  intros (K1 & M1 & F1) (K2 & M2 & F2). split; [congruence|]. split.
  - destruct M1 as [E1|M1]; [rewrite E1 in M2; exact M2|].
    destruct M2 as [E2|M2]; [right; rewrite E2; exact M1 | right; exact (doc_moves_trans _ _ _ M1 M2)].
  - intros Hd. assert (Hb : doc_status b <> "draft").
    { destruct M1 as [E1|M1]; [rewrite E1; exact Hd|]. intros E. rewrite E, doc_no_redraft in M1. discriminate. }
    rewrite (F2 Hb), (F1 Hd), doc_set_set, doc_status_set. reflexivity.
Qed.

(** A status written along the table. *)
Lemma doc_after_status s r r' :
  r' = doc_with_status s r -> canTransition doc_moves (doc_status r) s = true -> doc_after r r'.
Proof.
  intros -> M. split; [apply doc_key_set|]. split; [right; rewrite doc_status_set; exact M|].
  intros _. rewrite doc_status_set. reflexivity.
Qed.
(** A draft may be edited. *)
Lemma doc_after_edit r r' : doc_status r = "draft" -> doc_key r' = doc_key r -> doc_status r' = doc_status r -> doc_after r r'.
Proof. intros D K S. split; [exact K|]. split; [left; exact S | congruence]. Qed.
End Document.

Ltac transitions :=
  unfold canTransition; cbn -[String.eqb]; intros;
  repeat match goal with
  | H : context [String.eqb ?x ?y] |- _ => destruct (String.eqb_spec x y); subst; cbn -[String.eqb] in H
  | |- context [String.eqb ?x ?y] => destruct (String.eqb_spec x y); subst; cbn -[String.eqb]
  end; try discriminate; try congruence; reflexivity.

#[export] Instance invoice_document : Document InvoiceRow := {
  doc_key i := (in_id i, in_hotel_id i, in_number i); doc_status := in_status; doc_with_status s i := i <| in_status := s |>;
  doc_moves := [("draft", ["posted"; "cancelled"]); ("posted", ["cancelled"])] }.
#[export] Instance credit_note_document : Document CreditNoteRow := {
  doc_key n := (cn_id n, cn_hotel_id n, cn_number n); doc_status := cn_status; doc_with_status s n := n <| cn_status := s |>;
  doc_moves := [("draft", ["posted"])] }.
#[export] Instance debit_note_document : Document DebitNoteRow := {
  doc_key n := (dn_id n, dn_hotel_id n, dn_number n); doc_status := dn_status; doc_with_status s n := n <| dn_status := s |>;
  doc_moves := [("draft", ["posted"])] }.
#[export] Instance purchase_order_document : Document PurchaseOrderRow := {
  doc_key p := (po_id p, po_hotel_id p, po_number p); doc_status := po_status; doc_with_status s p := p <| po_status := s |>;
  doc_moves := [("draft", ["approved"; "received"]); ("approved", ["received"])] }.
#[export] Instance grn_document : Document GrnRow := {
  doc_key g := (gr_id g, gr_hotel_id g, gr_number g); doc_status := gr_status; doc_with_status s g := g <| gr_status := s |>;
  doc_moves := [("draft", ["posted"])] }.

Ltac document_laws := split; [now intros ? [] | now intros [] | now intros ? ? [] | now intros ? [] | transitions | transitions].
#[export] Instance invoice_laws : DocumentLaws InvoiceRow.
Proof. document_laws. Qed.
#[export] Instance credit_note_laws : DocumentLaws CreditNoteRow.
Proof. document_laws. Qed.
#[export] Instance debit_note_laws : DocumentLaws DebitNoteRow.
Proof. document_laws. Qed.
#[export] Instance purchase_order_laws : DocumentLaws PurchaseOrderRow.
Proof. document_laws. Qed.
#[export] Instance grn_laws : DocumentLaws GrnRow.
Proof. document_laws. Qed.

(** ** The invariant *)

Definition same_invoice (a b : InvoiceRow) : Prop := in_id a = in_id b.

(** d is what the documents of d0 may have become. *)
Record docs_ok (d0 d : DB) : Prop := {
  do_ids : exclusive same_invoice (invoices d);
  do_invoices : persists doc_after (invoices d0) (invoices d);
  do_credit_notes : persists doc_after (credit_notes d0) (credit_notes d);
  do_debit_notes : persists doc_after (debit_notes d0) (debit_notes d);
  do_purchase_orders : persists doc_after (purchase_orders d0) (purchase_orders d);
  do_grns : persists doc_after (grns d0) (grns d) }.

Lemma docs_ok_refl d : exclusive same_invoice (invoices d) -> docs_ok d d.
Proof. split; [assumption | apply persists_refl; exact doc_after_refl ..]. Qed.
Lemma docs_ok_trans d1 d2 d3 : docs_ok d1 d2 -> docs_ok d2 d3 -> docs_ok d1 d3.
Proof.
  intros [] []. split; [assumption | eapply persists_trans; [exact doc_after_trans | eassumption | eassumption] ..].
Qed.
Lemma docs_ok_off_ledger d0 d d' : ledger_only d d' -> docs_ok d0 d -> docs_ok d0 d'.
Proof. intros (? & ? & ? & ? & ->) []. split; assumption. Qed.

(** A table untouched, a row inserted, a status written, a draft edited. *)
Ltac persist :=
  first
    [ apply persists_refl; exact doc_after_refl
    | apply persists_insert; exact doc_after_refl
    | apply persists_update; [exact doc_after_refl|]; intros ? _;
      let H := fresh in intros H; rewrite ?andb_true_iff, ?String.eqb_eq in H; decompose [and] H; clear H;
      first [ eapply doc_after_status; [reflexivity|];
              match goal with E : ?x = _ |- canTransition _ (_ ?r) _ = true =>
                unify x (doc_status r); change (doc_status r) with x; rewrite E; reflexivity end
            | apply doc_after_edit; [assumption | reflexivity | reflexivity] ] ].
(** A step writes one table; the ids of the invoices stay apart. *)
Ltac docs_step :=
  match goal with H : docs_ok _ ?d |- docs_ok _ ?d' =>
    apply (docs_ok_trans _ d _ H); destruct H as [?Hids _ _ _ _ _]; split; cbn -[String.eqb];
    [ first [ assumption
            | apply exclusive_update; [assumption|]; unfold same_invoice; intros ?a ?b _ _;
              repeat match goal with |- context [if ?x then _ else _] => destruct x end; cbn; auto ]
    | persist .. ]
  end.
(** A statement: whatever branch its constraints take. *)
Ltac docs_exec :=
  apply keeps_exec; intros ?d ?a ?d' ?HI; unfold pg_uuid; cbv zeta;
  repeat match goal with |- context [match ?x with _ => _ end] => destruct x end;
  let E := fresh in intros E; first [discriminate E | injection E as <- <-; first [exact HI | docs_step]].
Ltac docs_go := repeat first [keeps_step | apply keeps_tx_with | docs_exec].

Section Keeps.
Context {env : Env} {jwt : Jwt} (secret : string) (d0 : DB).
Abbreviation ok := (docs_ok d0).

Lemma docs_postJournal c h desc ref ls : keeps ok (postJournal c h desc ref ls).
Proof. apply keeps_postJournal, docs_ok_off_ledger. Qed.
Lemma docs_reversal c h ref desc : keeps ok (reverseJournalsByReference c h ref desc).
Proof. apply keeps_reversal, docs_ok_off_ledger. Qed.
Lemma docs_row_by_id {A} id (f : uuid -> DB -> option A) : keeps ok (row_by_id id f).
Proof. unfold row_by_id. docs_go. Qed.
Lemma docs_number {E} prefix h : keeps ok (number_for prefix h : M E string).
Proof. unfold number_for. docs_go. Qed.
Lemma docs_date {E} s : keeps ok (date_or_now s : M E Time).
Proof. unfold date_or_now. docs_go. Qed.
End Keeps.
#[export] Hint Resolve docs_postJournal docs_reversal docs_row_by_id docs_number docs_date : keeps.

Section Handlers.
Context {env : Env} {jwt : Jwt} (secret : string) (d0 : DB).
Abbreviation ok := (docs_ok d0).

Lemma docs_insert_invoice row : keeps ok (exec Tx (insert_draft_invoice row)).
Proof.
  apply keeps_exec. intros d [] d' HI. unfold insert_draft_invoice, insert_invoice.
  destruct (negb (invoice_fits row)); [discriminate|]. destruct (negb _); [discriminate|].
  destruct (exists_row _ _) eqn:Ex; [discriminate|]. intros [= <-].
  apply (docs_ok_trans _ d _ HI). destruct HI as [Hids _ _ _ _ _]. split; cbn; [|persist ..].
  apply exclusive_insert; [exact Hids|]. intros o Ho.
  pose proof (proj1 (exists_row_false _ _) Ex o Ho) as Hf. apply orb_false_iff in Hf as [Hf _]. apply N.eqb_neq in Hf.
  unfold same_invoice. auto.
Qed.
Hint Resolve docs_insert_invoice : keeps.

(** Requests that only insert rows, move a status with a guarded UPDATE, or leave
    the documents alone. *)
Definition plain (op : BooksOp) : bool :=
  match op with
  | Op_CancelSalesInvoice | Op_CreateCreditNote _ | Op_CreateCreditNoteFromInvoice | Op_CreatePurchaseOrder _ => false
  | _ => true
  end.
Lemma docs_plain op c : plain op = true -> keeps ok (books_route secret op c).
Proof.
  destruct op; cbn [books_route plain]; intros; try discriminate.
  all: unfold CreateJournalEntry, CreateVendorPayment, CreateSalesInvoice, UpdateSalesInvoice, PostSalesInvoice, PostCreditNote,
    CreateDebitNote, PostDebitNote, CreateGRN, PostGRN, posted_journal, grn_value,
    postARInvoice, postCreditNoteReversal, postVendorDebitNote, postAPSettlement, postGoodsReceipt; cbv zeta.
  all: unfold ListAccounts, CreateAccount, GetAccount, UpdateAccount, DeleteAccount, ListCustomers, CreateCustomer, GetCustomer,
    UpdateCustomer, ListVendors, CreateVendor, GetVendor, UpdateVendor, ListJournalEntries, GetJournalEntry, TrialBalance,
    ListVendorPayments, ListSalesInvoices, GetSalesInvoice, ListCreditNotes, GetCreditNote, ListDebitNotes, GetDebitNote,
    ListPurchaseOrders, GetPurchaseOrder, ApprovePurchaseOrder, ListGRN, GetGRN,
    books_tx, manual_entry_tx, create_invoice_tx, update_invoice_tx, create_grn_tx,
    store_manual_line, store_invoice_line, store_grn_line, or_text, or_fail, exec_by_id.
  all: unfold insert_checked_account, insert_checked_customer, insert_vendor, update_customer, update_vendor, insert_manual_line,
    insert_invoice_line, edit_invoice, drop_invoice_lines, post_invoice_row, insert_vendor_payment, insert_debit_note,
    post_credit_note_row, post_debit_note_row, post_grn_row, insert_grn, insert_grn_line; docs_go.
Qed.

Lemma stable_fresh_ids {E} (P : DB -> TxState -> Prop) n : stable P (fresh_ids n : M E (list uuid)).
Proof.
  induction n as [|n IH]; cbn; [apply stable_ret|]. apply stable_bind; [apply stable_new_uuid|]. intros u.
  apply stable_bind; [exact IH | intros; apply stable_ret].
Qed.
Lemma docs_copied_lines n u : keeps ok (insert_copied_lines n u).
Proof.
  intros w. unfold insert_copied_lines. apply (stable_bind (both ok) (fresh_ids _)); [apply stable_fresh_ids|].
  intros ids. unfold copy_lines. docs_go.
Qed.
Lemma docs_credit_from_invoice c : keeps ok (CreateCreditNoteFromInvoice secret c).
Proof.
  pose proof docs_copied_lines.
  unfold CreateCreditNoteFromInvoice, books_tx, credit_note_tx, copy_invoice, insert_credit_note, or_text, or_fail. cbv zeta. docs_go.
Qed.

(** The rows a transaction has just inserted are drafts until it commits. *)
Definition note_is_draft (u : uuid) (d : DB) : Prop := forall n, In n (credit_notes d) -> cn_id n = u -> cn_status n = "draft".
Definition order_is_draft (u : uuid) (d : DB) : Prop := forall n, In n (purchase_orders d) -> po_id n = u -> po_status n = "draft".

Definition off_documents (d d' : DB) : Prop :=
  invoices d' = invoices d /\ credit_notes d' = credit_notes d /\ debit_notes d' = debit_notes d
  /\ purchase_orders d' = purchase_orders d /\ grns d' = grns d.
Lemma docs_ok_off d d' : off_documents d d' -> ok d -> ok d'.
Proof. intros (E1 & E2 & E3 & E4 & E5) []. split; rewrite ?E1, ?E2, ?E3, ?E4, ?E5; assumption. Qed.
Lemma under_off_documents (G : DB -> Prop) {A} c (f : DB -> GoErr + (A * DB)) :
  (forall d a d', f d = inr (a, d') -> off_documents d d') -> (forall d d', off_documents d d' -> G d -> G d') ->
  stable (under ok G) (exec c f).
Proof. intros Hf HG. apply under_exec; intros d a d' HI; [intros E; eapply docs_ok_off; eauto | intros Hd E; eapply HG; eauto]. Qed.

Lemma docs_create_note h number date req : keeps ok (create_note_tx h number date req).
Proof.
  apply keeps_guarded. unfold create_note_tx. apply guarded_then_stable; [apply stable_new_uuid|]. intros u. cbv zeta.
  eapply guarded_bind with (G1 := fun _ => note_is_draft u).
  { apply guarded_on_err, guarded_exec. intros d [] d' HI _. unfold insert_credit_note. cbn [cn_id cn_hotel_id cn_number cn_invoice_id].
    destruct (negb _); [discriminate|]. destruct (exists_row _ _) eqn:Ex; [discriminate|]. intros [= <-]. split; [docs_step|].
    intros n [Hn| ->]%in_insert_row Hu; [|reflexivity]. pose proof (proj1 (exists_row_false _ _) Ex n Hn) as Hf.
    cbv beta in Hf. unfold ueq in Hf. rewrite Hu, N.eqb_refl in Hf. discriminate. }
  intros _. apply guarded_then_stable.
  { unfold store_note_line, or_text. apply stable_for_each. intros l. apply stable_bind; [apply stable_new_uuid|]. intros lu.
    apply stable_on_err, under_off_documents; [intros d [] d'; unfold insert_credit_note_line; repeat case_match; try discriminate; intros [= <-]; repeat split |].
    intros d d' (_ & E1 & _ & E2 & _). unfold note_is_draft, order_is_draft. rewrite ?E1, ?E2. auto. }
  intros _. eapply guarded_bind with (G1 := fun _ _ => True); [|intros; apply guarded_ret; auto].
  apply guarded_on_err, guarded_exec. intros d [] d' HI HG. destruct (negb _); [discriminate|]. intros [= <-]. split; [|exact Logic.I].
  apply (docs_ok_trans _ d _ HI). destruct HI as [Hids _ _ _ _ _]. split; cbn; [exact Hids| persist | | persist ..].
  apply persists_update; [exact doc_after_refl|]. intros n Hn E%N.eqb_eq. apply doc_after_edit; [exact (HG n Hn E) | reflexivity..].
Qed.

Lemma docs_create_order h u number date req : keeps ok (create_order_tx h u number date req).
Proof.
  apply keeps_guarded. unfold create_order_tx. cbv zeta.
  eapply guarded_bind with (G1 := fun _ => order_is_draft u).
  { apply guarded_on_err, guarded_exec. intros d [] d' HI _. unfold insert_purchase_order. cbn [po_id po_hotel_id po_number po_vendor_id].
    destruct (negb _); [discriminate|]. destruct (exists_row _ _) eqn:Ex; [discriminate|]. intros [= <-]. split; [docs_step|].
    intros n [Hn| ->]%in_insert_row Hu; [|reflexivity]. pose proof (proj1 (exists_row_false _ _) Ex n Hn) as Hf.
    cbv beta in Hf. unfold ueq in Hf. rewrite Hu, N.eqb_refl in Hf. discriminate. }
  intros _. apply guarded_then_stable.
  { unfold store_order_line, or_text. apply stable_for_each. intros l. apply stable_bind; [apply stable_new_uuid|]. intros lu.
    apply stable_on_err, under_off_documents; [intros d [] d'; unfold insert_grn_line; repeat case_match; try discriminate; intros [= <-]; repeat split |].
    intros d d' (_ & E1 & _ & E2 & _). unfold note_is_draft, order_is_draft. rewrite ?E1, ?E2. auto. }
  intros _. apply guarded_on_err, guarded_exec. intros d [] d' HI HG. destruct (negb _); [discriminate|]. intros [= <-]. split; [|exact Logic.I].
  apply (docs_ok_trans _ d _ HI). destruct HI as [Hids _ _ _ _ _]. split; cbn; [exact Hids | persist .. | | persist].
  apply persists_update; [exact doc_after_refl|]. intros n Hn E%N.eqb_eq. apply doc_after_edit; [exact (HG n Hn E) | reflexivity..].
Qed.
End Handlers.

(** ** Every request *)

Section Requests.
Context {env : Env} {jwt : Jwt} (secret : string) (d0 : DB).

(** The UPDATE that cancels is not guarded by the status: it relies on the one read before. *)
Lemma docs_cancel c d : docs_ok d0 d -> ensures (CancelSalesInvoice secret c) d (fun _ => docs_ok d0) (fun _ => docs_ok d0).
Proof.
  intros HI. unfold CancelSalesInvoice, or_fail. cbv zeta. apply ens_then_row_by_id; [auto|].
  intros u [status no] Hu Hf. apply ens_then_throw_if; [auto|]. intros Hst.
  destruct (find_row _ _) as [i|] eqn:Ei; [|discriminate Hf]. injection Hf as <- <-.
  apply find_row_some in Ei as [Hi Hp]. unfold invoice_by_id in Hp. apply andb_true_iff in Hp as [Hid Hh].
  eapply ens_bind with (Q1 := fun _ d1 => docs_ok d0 d1).
  - unfold or_text. apply ens_on_err, ens_exec; [auto|]. unfold pg_uuid. rewrite Hu.
    apply (docs_ok_trans _ d _ HI). pose proof (do_ids _ _ HI) as Hids. split; cbn -[String.eqb]; [| |persist ..].
    + apply exclusive_update; [exact Hids|]. unfold same_invoice. intros a b _ _. repeat case_match; cbn; auto.
    + apply persists_update; [exact doc_after_refl|]. intros i' Hi' Hp'. unfold invoice_by_id in Hp'.
      apply andb_true_iff in Hp' as [Hid' _]. apply N.eqb_eq in Hid, Hid'.
      rewrite (Hids i' i Hi' Hi) by (unfold same_invoice; congruence).
      eapply doc_after_status; [reflexivity|]. change (doc_status i) with (in_status i).
      destruct (String.eqb_spec (in_status i) "draft") as [->|]; [reflexivity|].
      destruct (String.eqb_spec (in_status i) "posted") as [->|]; [reflexivity | discriminate].
  - intros _ d1 H1. assert (Hk : forall (b : bool), keeps (docs_ok d0) (if b
      then j ← posted_journal (reverseJournalsByReference Pool (hotelID secret c) ("INV " ++ in_number i) ("Cancellation — invoice " ++ in_number i));
           mret (RespOK (KB_status "cancelled" j))
      else mret (RespOK (KB_status "cancelled" None)) : M (Resp BooksBody) (Resp BooksBody))).
    { intros []; unfold posted_journal; docs_go. }
    apply ens_keeps; [apply Hk | | exact H1].
    destruct (in_status i =s "posted"); unfold posted_journal, reverseJournalsByReference, numbered, nextVoucherNo, insert_entry, insert_line; inert_go.
Qed.

Lemma docs_step_ok rq w : w_tx w = NoTx -> docs_ok d0 (w_db w) ->
  let w' := snd (serve (books_handle secret rq) w) in w_tx w' = NoTx /\ docs_ok d0 (w_db w').
Proof.
  intros Ht HI. split; [unfold serve; destruct (books_handle secret rq w) as [[]]; reflexivity|].
  assert (Hb : both (docs_ok d0) (w_db w) (w_tx w)) by (rewrite Ht; split; auto).
  unfold books_handle. destruct (authGate secret (kq_ctx rq)) as [[s m]|c]; [apply keeps_serve; [apply stable_throw | exact Hb]|].
  destruct (kq_op rq) eqn:Eop;
    try (apply keeps_serve; [apply docs_plain; reflexivity | exact Hb]); cbn [books_route].
  - apply (proj1 (serve_ensures (CancelSalesInvoice secret c) (w_db w) (fun _ => docs_ok d0) w (conj Ht eq_refl) (docs_cancel c (w_db w) HI))).
  - apply keeps_serve; [apply docs_credit_from_invoice | exact Hb].
  - pose proof (docs_create_note d0). apply keeps_serve; [unfold CreateCreditNote, books_tx; cbv zeta; docs_go | exact Hb].
  - pose proof (docs_create_order d0). apply keeps_serve; [unfold CreatePurchaseOrder, books_tx; cbv zeta; docs_go | exact Hb].
Qed.

Lemma docs_serve_all rqs w : w_tx w = NoTx -> docs_ok d0 (w_db w) -> docs_ok d0 (w_db (books_serve_all secret rqs w)).
Proof.
  revert w. induction rqs as [|rq rqs IH]; intros w Ht HI; [exact HI|].
  destruct (docs_step_ok rq w Ht HI). now apply IH.
Qed.
End Requests.

(** ** Claims *)

(** C20: through any sequence of requests to the accounting routes, whatever
    statements fail, no sales invoice, credit note, debit note, purchase order or
    goods receipt is ever lost or renumbered; each moves only along its statuses
    (an invoice draft to posted to cancelled, or draft to cancelled; an order
    draft to approved to received; the others draft to posted); and once it is no
    longer a draft nothing of it but its status changes again. *)
Theorem documents_lifecycle (env : Env) (jwt : Jwt) secret rqs d (Hids : exclusive same_invoice (invoices d)) :
  let d' := w_db (books_serve_all secret rqs (start d)) in
  persists doc_after (invoices d) (invoices d') /\ persists doc_after (credit_notes d) (credit_notes d')
  /\ persists doc_after (debit_notes d) (debit_notes d') /\ persists doc_after (purchase_orders d) (purchase_orders d')
  /\ persists doc_after (grns d) (grns d').
Proof. destruct (docs_serve_all secret d rqs (start d) eq_refl (docs_ok_refl d Hids)). auto. Qed.

(** *** A month of a new hotel *)

Definition new_hotel : DB :=
  empty_db <| hotels := [ {| ho_id := 1; ho_name := "Serenentra"; ho_slug := "serenentra"; ho_gst_rate := Some 1800%Z; ho_is_active := true; ho_plan_tier := "premium"; ho_modules := []; ho_address := None; ho_settings := []; ho_identity := no_identity |} ]%N |>
           <| accounts := [ Build_AccountRow 13 1 "4000" "Sales Revenue" "revenue" "operating_revenue" None 0 "INR" true 8 ]%N |>.
Definition clerk (id : string) (op : BooksOp) : BooksRequest := {| kq_ctx := demo_request "accountant@1" id; kq_op := op |}.
(** Two days of a hall at 5000, less 1000, at 18%. *)
Definition conference : salesInvoiceReq :=
  {| sq_CustomerID := ""; sq_Date := "2026-03-10"; sq_DueDate := "2026-04-09"; sq_Reference := "PO 77"; sq_Notes := "";
     sq_Lines := [ {| iq_AccountID := "13"; iq_Description := "Conference hall"; iq_Quantity := 2; iq_UnitPrice := 5000;
                      iq_Discount := 1000; iq_TaxRate := 18 |} ] |}.
Definition books_after (rqs : list BooksRequest) (d : DB) : DB :=
  w_db (books_serve_all (env := calm) (jwt := demo_jwt) "secret" rqs (start d)).
Definition invoiced : DB := books_after [clerk "" (Op_CreateSalesInvoice (Some conference))] new_hotel.

Lemma documents_lifecycle_witness :
  let rqs := [clerk "1000" Op_PostSalesInvoice; clerk "1000" (Op_UpdateSalesInvoice (Some conference)); clerk "1000" Op_CancelSalesInvoice] in
  map in_status (invoices invoiced) = ["draft"] /\ map in_status (invoices (books_after rqs invoiced)) = ["cancelled"]
  /\ persists doc_after (invoices invoiced) (invoices (books_after rqs invoiced)).
Proof.
  intros rqs. split; [vm_compute; reflexivity|]. split; [vm_compute; reflexivity|].
  refine (proj1 (documents_lifecycle calm demo_jwt "secret" rqs invoiced _)).
  apply exclusive_one. vm_compute. reflexivity.
Defined.
