(* ===== verification/AccountingSpec.v ===== *)
(** AccountingSpec: what the accounting requests do to the ledger.  Posting an
    invoice and cancelling it, the entries written by hand, the trial balance, and
    the purchase order that cannot be stored. *)

From S2P Require Import Prelude GoLib Schema Binary64 World Auth Guards Ledger Customers Settlement DineIn Accounting Documents DocumentSpec.
From Stdlib Require Import QArith.
Local Open Scope string_scope.
Local Open Scope Z_scope.

(** ** Values a computation can return *)

Section Returns.
Context {env : Env}.

Definition returns {E A} (m : M E A) (P : A -> Prop) : Prop := forall w a w', m w = (inr a, w') -> P a.

Lemma returns_bind {E A B} (m : M E A) (k : A -> M E B) P : (forall a, returns (k a) P) -> returns (m ≫= k) P.
Proof. intros Hk w b w' H. apply bind_ok in H as (a & w1 & _ & H). exact (Hk a w1 b w' H). Qed.
Lemma returns_ret {E A} (a : A) (P : A -> Prop) : P a -> returns (mret a : M E A) P.
Proof. intros H w b w' [= <- <-]. exact H. Qed.
Lemma returns_uuid {E A} (k : uuid -> M E A) P : (forall n, returns (k (uuid_new n)) P) -> returns (u ← new_uuid; k u) P.
Proof. intros Hk w a w' H. exact (Hk (w_uuids w) _ _ _ H). Qed.
Lemma runs_returns {E A} c (m : M E A) d Q (R : E -> Prop) P :
  runs c m d Q R -> returns m P -> runs c m d (fun a d' => Q a d' /\ P a) R.
Proof.
  intros Hm HP w Hw. specialize (Hm w Hw). specialize (HP w). destruct (m w) as [[e|a] w']; [exact Hm|].
  specialize (HP a w' eq_refl). destruct Hm as [(d' & H1 & H2)|H]; [left; eauto | right; exact H].
Qed.

Definition drawn (u : uuid) : Prop := exists n, u = uuid_new n.
Lemma postJournal_drawn c h desc ref ls : returns (postJournal c h desc ref ls) drawn.
Proof.
  unfold postJournal. do 2 (apply returns_bind; intros ?). apply returns_uuid. intros n.
  do 3 (apply returns_bind; intros ?). apply returns_ret. exists n. reflexivity.
Qed.
End Returns.

(** ** Posting an invoice and taking it back *)

Lemma find_row_and {R} (p q : R -> bool) t r :
  find_row p t = Some r -> q r = true -> find_row (fun x => p x && q x) t = Some r.
Proof.
  unfold find_row. induction t as [|x t IH]; cbn; [discriminate|]. destruct (p x) eqn:Ep; cbn.
  - intros [= ->] ->. reflexivity.
  - exact IH.
Qed.

(** The lines of the references given to entries. *)
Lemma lines_of_new_entry h ref e desc nl vt (d0 d d' : DB) :
  journal_entries d = journal_entries d0 -> journal_lines d = journal_lines d0 ->
  posted d d' h e desc ref vt nl -> (forall x, In x (journal_entries d0) -> has_reference h ref x = false) ->
  (forall l, In l (journal_lines d0) -> jl_entry_id l <> e) -> lines_of_reference h ref d' = nl.
Proof.
  intros Ee El [_ (no & date & He) Hl Hof] Hno Hfresh. unfold lines_of_reference. rewrite He, Hl, Ee, El. clear He Hl Ee El.
  assert (Hnew : forall l, exists_row (fun x => ueq (je_id x) (jl_entry_id l) && has_reference h ref x)
    (insert_row {| je_id := e; je_hotel_id := h; je_date := date; je_description := desc; je_reference := ref;
                   je_voucher_no := Some (voucher_no vt no); je_voucher_type := vt |} (journal_entries d0)) = ueq e (jl_entry_id l)).
  { intros l. unfold insert_row, exists_row. rewrite existsb_app. cbn. unfold has_reference at 2. cbn.
    rewrite N.eqb_refl, String.eqb_refl, andb_true_r, orb_false_r. replace (existsb _ _) with false; [reflexivity|].
    symmetry. apply (exists_row_false _ (journal_entries d0)). intros x Hx. rewrite (Hno x Hx). apply andb_false_r. }
  unfold select. rewrite List.filter_app, (List.filter_ext _ _ Hnew), (List.filter_ext _ _ Hnew).
  replace (List.filter _ (journal_lines d0)) with (@nil JournalLineRow).
  - cbn. induction Hof as [|l nl [Hl _] _ IH]; [reflexivity|]. cbn. unfold ueq at 1. rewrite Hl, N.eqb_refl, IH. reflexivity.
  - symmetry. induction (journal_lines d0) as [|l ls IH]; [reflexivity|]. cbn. unfold ueq at 1.
    destruct (N.eqb_spec e (jl_entry_id l)) as [E|_]; [destruct (Hfresh l (or_introl eq_refl)); auto|].
    apply IH. intros l' Hl'. apply Hfresh. right. exact Hl'.
Qed.

Section Invoice.
Context {env : Env} {laws : EnvLaws env} {jwt : Jwt} (secret : string).

Lemma posting_bounded accs l k p : knows_chart accs -> in_paise l k -> posting accs l = Some p ->
  Z.abs (snd (fst p)) <= MAXC /\ Z.abs (snd p) <= MAXC.
Proof.
  intros Hk Hl Hp. destruct (posting_paise accs l k Hk Hl) as [[-> E]|[a E]]; rewrite E in Hp; [discriminate|].
  injection Hp as <-. destruct Hl as (_ & _ & _ & B1 & B2). auto.
Qed.
Lemma lines_bounded accs lines ks nl :
  knows_chart accs -> Forall2 in_paise lines ks -> map amounts nl = omap (posting accs) lines -> Forall line_bounded nl.
Proof.
  intros Hk Hl. revert nl. induction Hl as [|l k ls ks' Hlk _ IH]; intros nl; cbn [omap list_omap].
  - intros E. destruct nl; [constructor | discriminate].
  - destruct (posting accs l) as [p|] eqn:Ep; [|apply IH]. intros E. destruct nl as [|r nl]; [discriminate|].
    injection E as E1 E. subst p. constructor; [|now apply IH].
    exact (posting_bounded accs l k _ Hk Hlk Ep).
Qed.

(** What posting an entry of whole paise leaves. *)
Lemma postJournal_whole c h desc ref lines ks T d :
  vouchers_ok d -> Forall2 in_paise lines ks -> sumZ (map fst ks) = T -> sumZ (map snd ks) = T ->
  runs c (postJournal c h desc ref lines) d (fun e d' => (exists nl,
    posted d d' h e desc ref (voucherTypeFor ref) nl /\ in_balance nl /\ total_debit nl = T /\ Forall line_bounded nl
    /\ vouchers_ok d') /\ drawn e) (fun _ => False).
Proof.
  intros Hv Hl Hd Hc. apply runs_returns; [|apply postJournal_drawn].
  eapply runs_post; [apply postJournal_runs; exact Hv | cbn].
  intros e d' (accs & nl & Hk & Hnl & Hp & Hv'). exists nl.
  destruct (posted_totals accs lines ks nl Hk Hl Hnl) as [H1 H2]. unfold in_balance. rewrite H1, H2.
  split; [exact Hp|]. split; [congruence|]. split; [exact Hd|]. split; [exact (lines_bounded accs lines ks nl Hk Hl Hnl) | exact Hv'].
Qed.

(** The invoices of d with the one posted or cancelled. *)
Definition mark_posted (h u : uuid) (d : DB) : DB :=
  d <| invoices ::= update_rows (fun i => invoice_by_id h u i && (in_status i =s "draft")) (fun i => i <| in_status := "posted" |>) |>.
Definition mark_cancelled (h u : uuid) (d : DB) : DB :=
  d <| invoices ::= update_rows (invoice_by_id h u) (fun i => i <| in_status := "cancelled" |>) |>.

Lemma posted_journal_runs (m : M GoErr uuid) d Q :
  runs Pool m d Q (fun _ => False) ->
  runs Pool (posted_journal m : M (Resp BooksBody) _) d (fun j d' => exists e, j = nilAsNull e /\ Q e d') (fun _ => False).
Proof.
  intros Hm. unfold posted_journal. eapply runs_bind; [apply runs_attempt_ok, Hm | intros; inert_go|].
  intros r d' (e & -> & HQ). apply runs_ret. eauto.
Qed.

Lemma post_invoice_runs c u i d :
  uuid_parse (c_params c "id") = Some u -> find_row (invoice_by_id (hotelID secret c) u) (invoices d) = Some i ->
  in_status i = "draft" -> vouchers_ok d ->
  Z.abs (in_total i) <= MAXC -> Z.abs (in_tax_total i) <= MAXC -> Z.abs (in_total i - in_tax_total i) <= MAXC ->
  runs Pool (PostSalesInvoice secret c) d (fun r d' => exists e nl,
    r = RespOK (KB_status "posted" (nilAsNull e)) /\ drawn e
    /\ posted (mark_posted (hotelID secret c) u d) d' (hotelID secret c) e ("Sales invoice " ++ in_number i) ("INV " ++ in_number i) "SAL" nl
    /\ in_balance nl /\ total_debit nl = in_total i /\ Forall line_bounded nl /\ vouchers_ok d') (fun _ => False).
Proof.
  intros Hu Hi Hst Hv B1 B2 B3. unfold PostSalesInvoice, or_fail. cbv zeta. set (h := hotelID secret c) in *.
  eapply runs_bind.
  { apply runs_on_err, runs_then_exec with (Q := fun r d' => r = (in_number i, num_dec (in_tax_total i), num_dec (in_total i)) /\ d' = mark_posted h u d);
      [intros; inert_go|]. unfold pg_uuid. rewrite Hu. unfold post_invoice_row.
    rewrite (find_row_and _ (fun i => in_status i =s "draft") _ i Hi) by now rewrite Hst. cbn. now apply runs_ret. }
  { intros [[? ?] ?]. unfold posted_journal, postARInvoice. inert_go. }
  intros r d1 [-> ->]. rewrite !num_dec_cents by assumption. eapply runs_bind.
  - apply posted_journal_runs. unfold postARInvoice.
    apply (postJournal_whole Pool h _ _ _ [(in_total i, 0); (0, in_total i - in_tax_total i); (0, in_tax_total i)] (in_total i)).
    + exact (vouchers_ok_ext d (mark_posted h u d) eq_refl eq_refl Hv).
    + rewrite round2_sub by assumption. rewrite !round2_cents by assumption.
      repeat (apply List.Forall2_cons || apply List.Forall2_nil); first [apply in_paise_dr | apply in_paise_cr]; first [reflexivity | assumption].
    + unfold sumZ; cbn; lia.
    + unfold sumZ; cbn; lia.
  - intros; inert_go.
  - intros j d2 (e & -> & (nl & Hp & Hb & Ht & Hl & Hv2) & He). apply runs_ret. exists e, nl.
    rewrite (voucherTypeFor_sale "INV ") in Hp by (cbn; auto). split; [reflexivity|]. auto 10.
Qed.

(** A document that is no longer a draft is refused, and nothing is written. *)
Lemma post_again_refused c u d :
  uuid_parse (c_params c "id") = Some u -> (forall i, In i (invoices d) -> invoice_by_id (hotelID secret c) u i = true -> in_status i <> "draft") ->
  ensures (PostSalesInvoice secret c) d (fun _ _ => False)
    (fun r d' => r = RespError 400 "invoice not found or already posted/cancelled" /\ d' = d).
Proof.
  intros Hu Hno. unfold PostSalesInvoice, or_fail. cbv zeta.
  assert (Hn : forall i, In i (invoices d) -> (invoice_by_id (hotelID secret c) u i && (in_status i =s "draft")) = false).
  { intros i Hi. destruct (invoice_by_id _ u i) eqn:Eu; [|reflexivity]. apply String.eqb_neq. now apply Hno. }
  eapply ens_bind with (Q1 := fun _ _ => False); [|intros ? ? []].
  apply ens_on_err. eapply ens_bind with (Q1 := fun o d' => o = None /\ d' = d).
  - apply ens_exec; [auto|]. unfold pg_uuid. rewrite Hu. unfold post_invoice_row. split.
    + destruct (find_row _ (invoices d)) as [i|] eqn:E; [|reflexivity]. apply find_row_some in E as [Hi Hp]. rewrite Hn in Hp by exact Hi. discriminate.
    + unfold set; cbn. rewrite (update_rows_none _ _ _) by (destruct (rows_affected _ _) eqn:E; [reflexivity|];
        destruct (proj1 (rows_affected_pos _ (invoices d)) ltac:(rewrite E; discriminate)) as (i & Hi & Hp); rewrite Hn in Hp by exact Hi; discriminate).
      destruct d; reflexivity.
  - intros o d' [-> ->]. apply ens_throw. auto.
Qed.

Lemma cancel_invoice_runs c u i d :
  uuid_parse (c_params c "id") = Some u -> find_row (invoice_by_id (hotelID secret c) u) (invoices d) = Some i ->
  in_status i = "posted" -> vouchers_ok d -> Forall line_bounded (lines_of_reference (hotelID secret c) ("INV " ++ in_number i) d) ->
  runs Pool (CancelSalesInvoice secret c) d (fun _ d' => invoices d' = invoices (mark_cancelled (hotelID secret c) u d)
    /\ exists nl, journal_lines d' = (journal_lines d ++ nl)%list
       /\ forall a, net a nl = - net a (lines_of_reference (hotelID secret c) ("INV " ++ in_number i) d)) (fun _ => False).
Proof.
  intros Hu Hi Hst Hv Hb. unfold CancelSalesInvoice, or_fail, or_text. cbv zeta. set (h := hotelID secret c) in *.
  eapply runs_bind with (Q1 := fun r d' => r = (in_status i, in_number i) /\ d' = d).
  { apply runs_on_err. eapply runs_row_by_id; [exact Hu | cbn; rewrite Hi; reflexivity | auto]. }
  { intros [? ?]. unfold posted_journal, reverseJournalsByReference, numbered, nextVoucherNo, insert_entry, insert_line. inert_go. }
  intros r d1 [-> ->]. rewrite Hst. cbn [String.eqb negb andb]. apply runs_then_throw_if; [|cbn].
  { unfold posted_journal, reverseJournalsByReference, numbered, nextVoucherNo, insert_entry, insert_line. inert_go. }
  eapply runs_bind with (Q1 := fun _ d' => d' = mark_cancelled h u d).
  { apply runs_on_err, runs_exec. unfold pg_uuid. rewrite Hu. reflexivity. }
  { intros. unfold posted_journal, reverseJournalsByReference, numbered, nextVoucherNo, insert_entry, insert_line. inert_go. }
  intros _ d1 ->. eapply runs_bind; [|intros; inert_go|].
  { apply posted_journal_runs, reversal_runs; [exact (vouchers_ok_ext d (mark_cancelled h u d) eq_refl eq_refl Hv) | exact Hb]. }
  intros j d2 (e & -> & [(E & _ & ->)|(nl & [(x & y & z & t & ->) _ Hl _] & _ & Hn)]); apply runs_ret.
  - split; [reflexivity|]. exists []. split; [cbn; now rewrite app_nil_r|]. intros a.
    change (lines_of_reference h ("INV " ++ in_number i) d) with (lines_of_reference h ("INV " ++ in_number i) (mark_cancelled h u d)).
    rewrite E. reflexivity.
  - split; [reflexivity|]. exists nl. split; [exact Hl|]. intros a. exact (net_swap a nl _ Hn).
Qed.
End Invoice.

(** ** Claims *)

(** C21: posting a draft invoice marks it posted and writes one balanced entry for
    its total; asking again is refused and changes nothing; and cancelling it then
    brings every account of the ledger back to where it was.  The ledger holds no
    entry under the invoice's number before, and the ids drawn are new to it. *)
Theorem invoice_posted_and_cancelled (env : Env) (laws : EnvLaws env) (jwt : Jwt) secret c u i d
  (Hu : uuid_parse (c_params c "id") = Some u) (Hi : find_row (invoice_by_id (hotelID secret c) u) (invoices d) = Some i)
  (Hst : in_status i = "draft") (Hv : vouchers_ok d)
  (B1 : Z.abs (in_total i) <= MAXC) (B2 : Z.abs (in_tax_total i) <= MAXC) (B3 : Z.abs (in_total i - in_tax_total i) <= MAXC)
  (Hno : forall e, In e (journal_entries d) -> has_reference (hotelID secret c) ("INV " ++ in_number i) e = false)
  (Hnew : forall l n, In l (journal_lines d) -> jl_entry_id l <> uuid_new n) :
  let h := hotelID secret c in
  runs Pool (PostSalesInvoice secret c) d (fun r d1 =>
    (exists e nl, r = RespOK (KB_status "posted" (nilAsNull e))
       /\ posted (mark_posted h u d) d1 h e ("Sales invoice " ++ in_number i) ("INV " ++ in_number i) "SAL" nl
       /\ in_balance nl /\ total_debit nl = in_total i)
    /\ ensures (PostSalesInvoice secret c) d1 (fun _ _ => False)
         (fun r d' => r = RespError 400 "invoice not found or already posted/cancelled" /\ d' = d1)
    /\ runs Pool (CancelSalesInvoice secret c) d1 (fun _ d2 =>
         invoices d2 = invoices (mark_cancelled h u d1) /\ forall a, net a (journal_lines d2) = net a (journal_lines d))
         (fun _ => False)) (fun _ => False).
Proof.
  intros h. eapply runs_post; [apply (post_invoice_runs secret c u i d Hu Hi Hst Hv B1 B2 B3)|].
  intros r d1 (e & nl & -> & [n ->] & Hp & Hb & Ht & Hl & Hv1). split; [exists (uuid_new n), nl; auto|].
  assert (Einv : invoices d1 = invoices (mark_posted h u d)) by (destruct (po_frame _ _ _ _ _ _ _ _ Hp) as (? & ? & ? & ? & ->); reflexivity).
  assert (Elin : lines_of_reference h ("INV " ++ in_number i) d1 = nl)
    by (apply (lines_of_new_entry h _ _ _ nl _ d (mark_posted h u d) d1 eq_refl eq_refl Hp Hno); intros l Hl1; apply Hnew; exact Hl1).
  split.
  - apply (post_again_refused secret c u d1 Hu). rewrite Einv. cbn. intros j (j0 & Hj & ->)%in_update_rows. fold h.
    destruct (invoice_by_id h u j0 && (in_status j0 =s "draft")) eqn:E; [cbn; discriminate|].
    intros Hj0. rewrite Hj0 in E. cbn in E. now apply String.eqb_neq in E.
  - eapply runs_post.
    + apply (cancel_invoice_runs secret c u (i <| in_status := "posted" |>) d1 Hu); [|reflexivity | exact Hv1 | cbn; fold h; rewrite Elin; exact Hl].
      rewrite Einv. cbn. fold h. rewrite (find_row_update _ _ _ (invoices d)) by (intros []; reflexivity). fold h in Hi. rewrite Hi. cbn.
      apply find_row_some in Hi as [_ Hi]. rewrite Hi, Hst. reflexivity.
    + cbn. intros _ d2 (E1 & nl2 & E2 & E3). split; [exact E1|]. intros a.
      rewrite E2, (po_lines _ _ _ _ _ _ _ _ Hp), !net_app, E3. fold h. rewrite Elin. change (journal_lines (mark_posted h u d)) with (journal_lines d). lia.
Qed.

(** The invoice of the hall, as drafted. *)
Definition hall_invoice : InvoiceRow :=
  {| in_id := 1000; in_hotel_id := 1; in_customer_id := None; in_number := "INV-serenentra-1773144000000";
     in_date := Date 2026 3 10 0 0 0; in_due_date := Some (Date 2026 4 9 0 0 0); in_reference := "PO 77";
     in_subtotal := 1000000; in_discount_total := 100000; in_tax_total := 162000; in_total := 1062000;
     in_status := "draft"; in_notes := "" |}.
Lemma no_vouchers d : journal_entries d = [] -> voucher_counters d = [] -> vouchers_ok d.
Proof. intros E1 E2. split; rewrite ?E1, ?E2; [intros ? [] | intros ? [] | intros ? ? [] | intros ? []]. Qed.

Lemma invoice_posted_and_cancelled_witness :
  let c := demo_request "accountant@1" "1000" in
  runs (env := calm) Pool (PostSalesInvoice (env := calm) (jwt := demo_jwt) "secret" c) invoiced (fun _ d1 =>
    exists e nl, posted (mark_posted 1%N 1000%N invoiced) d1 1%N e ("Sales invoice " ++ in_number hall_invoice) ("INV " ++ in_number hall_invoice) "SAL" nl
       /\ in_balance nl /\ total_debit nl = 1062000) (fun _ => False).
Proof.
  intros c. eapply runs_post.
  - apply (invoice_posted_and_cancelled calm calm_laws demo_jwt "secret" c 1000%N hall_invoice invoiced);
      [reflexivity | vm_compute; reflexivity | reflexivity | apply no_vouchers; vm_compute; reflexivity | unfold MAXC; cbn; lia ..| |].
    + replace (journal_entries invoiced) with (@nil JournalEntryRow) by (vm_compute; reflexivity). intros e [].
    + replace (journal_lines invoiced) with (@nil JournalLineRow) by (vm_compute; reflexivity). intros l n [].
  - intros r d1 [(e & nl & _ & H) _]. exists e, nl. exact H.
Defined.

(** An invoice credited in full, then cancelled; and the invoice of a booking
    taken with payment, cancelled. *)
Definition credited_then_cancelled : list BooksRequest :=
  [ clerk "" (Op_CreateSalesInvoice (Some conference)); clerk "1000" Op_PostSalesInvoice; clerk "1000" Op_CreateCreditNoteFromInvoice;
    clerk "1017" Op_PostCreditNote; clerk "1000" Op_CancelSalesInvoice ].
Definition booked : DB :=
  w_db (snd (settleReservation (env := calm) Pool 1%N asha_stay upi_payment paid_quote (start new_hotel))).

(** Cancelling an invoice undoes the entry posted under "INV" and its number,
    whatever else was posted for it.  An invoice credited in full and then
    cancelled is taken back twice, leaving its customer's receivable negative; the
    invoice of a booking, whose journal stands under the booking's folio, is
    marked cancelled while its journal stays. *)
Theorem cancel_reads_one_reference :
  (let d := books_after credited_then_cancelled new_hotel in
   map in_status (invoices d) = ["cancelled"] /\ map cn_status (credit_notes d) = ["posted"]
   /\ map (fun a => (acc_code a, account_net a d)) (select (fun a => acc_code a =s "1200") (accounts d)) = [("1200", -1062000)])
  /\ (let d := books_after [clerk "1003" Op_CancelSalesInvoice] booked in
      map in_status (invoices booked) = ["posted"] /\ map in_status (invoices d) = ["cancelled"]
      /\ journal_lines d = journal_lines booked /\ total_debit (journal_lines d) = 1475000).
Proof. vm_compute. auto 10. Qed.

(** ** Entries written by hand *)

Definition in_rupees (l : journalLineReq) (k : Z * Z) : Prop :=
  lq_Debit l = of_int (fst k) /\ lq_Credit l = of_int (snd k) /\ 0 <= fst k /\ 0 <= snd k.

Lemma fadd_of_int a b : 0 <= a -> 0 <= b -> a + b <= 10 ^ 12 -> fadd (of_int a) (of_int b) = of_int (a + b).
Proof. intros. unfold fadd. apply rnd_Proper. rewrite !of_int_exact by lia. now rewrite inject_Z_plus. Qed.
Lemma of_int_whole k : of_int k = cents (100 * k).
Proof. unfold of_int, cents. apply rnd_Proper. rewrite inject_Z_mult. field. Qed.
Lemma feq_of_int a b : 0 <= a <= 10 ^ 12 -> 0 <= b <= 10 ^ 12 -> feq (of_int a) (of_int b) = (a =? b).
Proof. intros. rewrite !of_int_whole, feq_cents by (unfold MAXC; lia). destruct (Z.eqb_spec a b); [apply Z.eqb_eq | apply Z.eqb_neq]; lia. Qed.

(** Whole rupees are summed exactly. *)
Lemma entry_totals_rupees lines ks :
  Forall2 in_rupees lines ks -> sumZ (map fst ks) <= 10 ^ 12 -> sumZ (map snd ks) <= 10 ^ 12 ->
  entry_totals lines = (of_int (sumZ (map fst ks)), of_int (sumZ (map snd ks))).
Proof.
  intros H. unfold entry_totals.
  assert (G : forall D C, 0 <= D -> 0 <= C -> D + sumZ (map fst ks) <= 10 ^ 12 -> C + sumZ (map snd ks) <= 10 ^ 12 ->
    foldl (fun t l => (fadd (fst t) (lq_Debit l), fadd (snd t) (lq_Credit l))) (of_int D, of_int C) lines
    = (of_int (D + sumZ (map fst ks)), of_int (C + sumZ (map snd ks)))).
  { induction H as [|l k lines ks (E1 & E2 & P1 & P2) Hr IH]; intros D C HD HC B1 B2; [cbn; now rewrite !Z.add_0_r|].
    assert (N1 : 0 <= sumZ (map fst ks) /\ 0 <= sumZ (map snd ks)).
    { split; apply sumZ_nonneg; clear -Hr; induction Hr as [|? ? ? ? (_ & _ & ? & ?)]; cbn; constructor; auto. }
    unfold sumZ in *. cbn [map foldr foldl fst snd] in *. rewrite E1, E2, !fadd_of_int by lia.
    rewrite IH by lia. f_equal; f_equal; lia. }
  intros B1 B2. apply (G 0 0); lia.
Qed.

(** The row stored for a line. *)
Definition written {env : Env} (l : journalLineReq) : uuid * Z * Z :=
  (default uuid_nil (uuid_parse (lq_AccountID l)), num_enc (lq_Debit l), num_enc (lq_Credit l)).
(** Every line names an account on file, and its amounts fit their columns. *)
Definition storable {env : Env} (d : DB) (l : journalLineReq) : Prop :=
  exists_row (fun a => ueq (acc_id a) (default uuid_nil (uuid_parse (lq_AccountID l)))) (accounts d) = true
  /\ wide_fits (num_enc (lq_Debit l)) && wide_fits (num_enc (lq_Credit l)) = true.

(** d' is d with the entry of a request and its lines. *)
Record hand_written {env : Env} (d d' : DB) (h e : uuid) (req : journalEntryReq) (nl : list JournalLineRow) : Prop := {
  hw_entry : exists date, journal_entries d' = insert_row
    {| je_id := e; je_hotel_id := h; je_date := date; je_description := jq_Description req; je_reference := jq_Reference req;
       je_voucher_no := None; je_voucher_type := "" |} (journal_entries d);
  hw_lines : journal_lines d' = (journal_lines d ++ nl)%list;
  hw_amounts : map amounts nl = map written (jq_Lines req);
  hw_of_entry : Forall (fun r => jl_entry_id r = e /\ jl_hotel_id r = h) nl;
  hw_frame : d' = d <| journal_entries := journal_entries d' |> <| journal_lines := journal_lines d' |> }.

Section Manual.
Context {env : Env} {jwt : Jwt} (secret : string).

Lemma manual_lines_run h e lines d :
  Forall (storable d) lines ->
  runs Tx (for_each (store_manual_line h e) lines) d (fun _ d' => exists nl,
    d' = d <| journal_lines ::= fun l => (l ++ nl)%list |> /\ map amounts nl = map written lines
    /\ Forall (fun r => jl_entry_id r = e /\ jl_hotel_id r = h) nl) (fun _ => False).
Proof.
  intros Hs. eapply runs_post.
  { apply (runs_for_each Tx _ _ (fun l d' => exists nl, d' = d <| journal_lines ::= fun l => (l ++ nl)%list |>
      /\ (map amounts nl ++ map written l)%list = map written lines /\ Forall (storable d) l
      /\ Forall (fun r => jl_entry_id r = e /\ jl_hotel_id r = h) nl)).
    - exists []. repeat split; auto. destruct d; unfold set; cbn. now rewrite app_nil_r.
    - intros l. unfold store_manual_line, or_text. inert_go.
    - intros l ls d' (nl & -> & Hnl & Hst & Hall). inversion Hst as [|? ? [Hacc Hfit] Hst']; subst.
      unfold store_manual_line, or_text. apply runs_uuid; [intros; inert_go|]. intros n. apply runs_on_err, runs_exec.
      unfold insert_manual_line. cbn [jl_debit jl_credit jl_account_id]. rewrite Hfit. cbn [negb accounts set]. cbn. rewrite Hacc. cbn.
      match goal with |- context [insert_row ?row] => exists (nl ++ [row])%list end.
      split; [destruct d; unfold insert_row, set; cbn; now rewrite <- app_assoc|].
      split; [rewrite map_app, <- app_assoc; exact Hnl|]. split; [exact Hst'|].
      apply Forall_app; split; [exact Hall | repeat constructor]. }
  cbn. intros _ d' (nl & -> & Hnl & _ & Hall). rewrite app_nil_r in Hnl. eauto.
Qed.

Lemma manual_entry_runs h date req d :
  Forall (storable d) (jq_Lines req) ->
  runs Tx (manual_entry_tx h date req) d (fun e d' => exists nl, hand_written d d' h e req nl) (fun _ => False).
Proof.
  intros Hs. unfold manual_entry_tx. apply runs_uuid; [intros; unfold store_manual_line, or_text; inert_go|]. intros n.
  eapply runs_bind with (Q1 := fun _ d1 => d1 = d <| journal_entries ::= insert_row _ |>).
  { apply runs_on_err, runs_exec. reflexivity. }
  { intros. unfold store_manual_line, or_text. inert_go. }
  intros _ d1 ->. eapply runs_bind; [apply manual_lines_run; exact Hs | intros; inert_go|].
  intros _ d2 (nl & -> & Hnl & Hall). apply runs_ret. exists nl.
  split; [eexists; reflexivity | reflexivity | exact Hnl | exact Hall | destruct d; reflexivity].
Qed.
Lemma manual_entry_local h date req : tx_local (manual_entry_tx h date req).
Proof. unfold manual_entry_tx, store_manual_line, or_text. keeps_go. Qed.

(** The checks, which read nothing. *)
Lemma manual_checks c req d (Q : Resp BooksBody -> DB -> Prop) (R : Resp BooksBody -> DB -> Prop) :
  jq_Description req <> "" -> jq_Lines req <> [] ->
  (feq (fst (entry_totals (jq_Lines req))) (snd (entry_totals (jq_Lines req))) = false -> R (RespError 422 "total debits must equal total credits") d) ->
  (feq (fst (entry_totals (jq_Lines req))) (snd (entry_totals (jq_Lines req))) = true ->
     forall date, ensures (e ← books_tx (manual_entry_tx (hotelID secret c) date req); mret (RespCreated (KB_created e))) d Q R) ->
  ensures (CreateJournalEntry secret c (Some req)) d Q R.
Proof.
  intros Hd Hl Hno Hyes. unfold CreateJournalEntry. apply ens_then_option; [discriminate|]. intros r [= <-].
  apply ens_then_throw_if; [intros H; apply orb_true_iff in H as [H|H];
    [apply String.eqb_eq in H; contradiction | apply bool_decide_eq_true in H; contradiction]|]. intros _.
  destruct (entry_totals (jq_Lines req)) as [D C]. cbn [fst snd] in *.
  apply ens_then_throw_if; intros Hf; [apply Hno; now apply negb_true_iff in Hf|].
  apply negb_false_iff in Hf. apply ens_then_date. exact (Hyes Hf).
Qed.
End Manual.

Lemma total_of_amounts nl : total_debit nl = sumZ (map (fun p => snd (fst p)) (map amounts nl))
                         /\ total_credit nl = sumZ (map snd (map amounts nl)).
Proof. unfold total_debit, total_credit. rewrite !List.map_map. auto. Qed.

Lemma rupees_balance {env : Env} {laws : EnvLaws env} lines ks nl :
  Forall2 in_rupees lines ks -> sumZ (map fst ks) <= 10 ^ 12 -> sumZ (map snd ks) <= 10 ^ 12 ->
  map amounts nl = map written lines ->
  total_debit nl = 100 * sumZ (map fst ks) /\ total_credit nl = 100 * sumZ (map snd ks).
Proof.
  destruct (total_of_amounts nl) as [-> ->]. intros H B1 B2 ->.
  induction H as [|l k lines ks (E1 & E2 & P1 & P2) Hr IH]; [auto|].
  assert (N1 : 0 <= sumZ (map fst ks) /\ 0 <= sumZ (map snd ks)).
  { split; apply sumZ_nonneg; clear -Hr; induction Hr as [|? ? ? ? (_ & _ & ? & ?)]; cbn; constructor; auto. }
  unfold sumZ in *. cbn [map foldr fst snd] in *. unfold written in *. cbn [fst snd].
  rewrite E1, E2, !of_int_whole, !num_enc_cents by (unfold MAXC; lia). destruct IH; lia.
Qed.

(** An entry written by hand in whole rupees is refused, before anything is
    read or written, exactly when its debits and credits differ; otherwise it is
    stored whole, one row per line, in balance, unless a statement fails, and then
    not at all. *)
Theorem manual_entries_balance (env : Env) (laws : EnvLaws env) (jwt : Jwt) secret c req ks d
  (Hdesc : jq_Description req <> "") (Hlines : jq_Lines req <> []) (Hk : Forall2 in_rupees (jq_Lines req) ks)
  (B1 : sumZ (map fst ks) <= 10 ^ 12) (B2 : sumZ (map snd ks) <= 10 ^ 12) (Hs : Forall (storable d) (jq_Lines req)) :
  (sumZ (map fst ks) <> sumZ (map snd ks) ->
   ensures (CreateJournalEntry secret c (Some req)) d (fun _ _ => False)
     (fun r d' => r = RespError 422 "total debits must equal total credits" /\ d' = d))
  /\ (sumZ (map fst ks) = sumZ (map snd ks) ->
      ensures (CreateJournalEntry secret c (Some req)) d (fun r d' => exists e nl,
        r = RespCreated (KB_created e) /\ hand_written d d' (hotelID secret c) e req nl
        /\ in_balance nl /\ total_debit nl = 100 * sumZ (map fst ks)) (fun _ d' => faulty /\ d' = d)).
Proof.
  assert (N : 0 <= sumZ (map fst ks) /\ 0 <= sumZ (map snd ks)).
  { split; apply sumZ_nonneg; clear -Hk; induction Hk as [|? ? ? ? (_ & _ & ? & ?)]; cbn; constructor; auto. }
  split; intros HS; apply manual_checks; try assumption; rewrite (entry_totals_rupees _ _ Hk B1 B2); cbn [fst snd];
    rewrite feq_of_int by lia.
  - auto.
  - intros E%Z.eqb_eq. contradiction.
  - intros E%Z.eqb_neq. contradiction.
  - intros _ date. eapply ens_bind.
    + eapply ens_tx_or; [apply manual_entry_runs; exact Hs | apply manual_entry_local | intros r [[]|H]; auto].
    + cbn. intros e d' (nl & H). apply ens_ret. exists e, nl.
      destruct (rupees_balance _ _ nl Hk B1 B2 (hw_amounts _ _ _ _ _ _ H)) as [E1 E2]. unfold in_balance. rewrite E1, E2, HS. auto.
Qed.

Definition cash_and_sales : DB :=
  new_hotel <| accounts ::= insert_row (Build_AccountRow 14 1 "1000" "Cash" "asset" "current_asset" None 0 "INR" true 1) |>.
Definition by_hand (lines : list (string * Q * Q)) : journalEntryReq :=
  {| jq_Date := "2026-03-31"; jq_Description := "Closing entry"; jq_Reference := "";
     jq_Lines := map (fun '(a, dbt, cdt) => {| lq_AccountID := a; lq_Debit := dbt; lq_Credit := cdt; lq_Memo := "" |}) lines |}.

Lemma manual_entries_balance_witness :
  let req := by_hand [("14", of_int 700, of_int 0); ("13", of_int 0, of_int 500); ("13", of_int 0, of_int 200)] in
  ensures (CreateJournalEntry (env := calm) (jwt := demo_jwt) "secret" (demo_request "accountant@1" "") (Some req)) cash_and_sales
    (fun r d' => exists e nl, r = RespCreated (KB_created e) /\ hand_written (env := calm) cash_and_sales d' 1%N e req nl
       /\ in_balance nl /\ total_debit nl = 70000) (fun _ d' => faulty (env := calm) /\ d' = cash_and_sales).
Proof.
  intros req. apply (manual_entries_balance calm calm_laws demo_jwt "secret" (demo_request "accountant@1" "") req [(700, 0); (0, 500); (0, 200)]).
  - discriminate.
  - discriminate.
  - repeat (apply List.Forall2_cons || apply List.Forall2_nil); repeat split; cbn; lia.
  - cbn; lia.
  - cbn; lia.
  - repeat constructor; vm_compute; reflexivity.
  - reflexivity.
Defined.

(** The debits and credits of an entry written by hand are summed and compared
    as float64.  0.10 and 0.20 against 0.30 is refused as out of balance; 0.005 and
    0.005 against 0.01 is accepted, and stored one paisa out of balance, since each
    amount is rounded to the paisa on its own.  And an account of another tenant is
    accepted, which leaves the books of the tenant out of balance. *)
Theorem manual_entry_sums_are_floats :
  let enter lines := serve (books_handle (env := calm) (jwt := demo_jwt) "secret" (clerk "" (Op_CreateJournalEntry (Some (by_hand lines)))))
                       (start (cash_and_sales <| accounts ::= insert_row (Build_AccountRow 15 2 "1000" "Cash" "asset" "current_asset" None 0 "INR" true 1) |>)) in
  fst (enter [("14", cents 10, 0%Q); ("14", cents 20, 0%Q); ("13", 0%Q, cents 30)]) = RespError 422 "total debits must equal total credits"
  /\ (let d := w_db (snd (enter [("14", rnd (5 # 1000), 0%Q); ("14", rnd (5 # 1000), 0%Q); ("13", 0%Q, cents 1)])) in
      total_debit (journal_lines d) = 2 /\ total_credit (journal_lines d) = 1)
  /\ (let d := w_db (snd (enter [("15", cents 100000, 0%Q); ("13", 0%Q, cents 100000)])) in
      map (fun a => (acc_code a, account_net a d)) (chart_of 1%N d) = [("1000", 0); ("4000", -100000)]).
Proof. vm_compute. auto. Qed.

(** ** The trial balance *)

Section TrialBalance.
Context {env : Env} {jwt : Jwt} (secret : string).

Definition lines_of (h : uuid) (d : DB) : list JournalLineRow := select (fun l => ueq (jl_hotel_id l) h) (journal_lines d).

(** The accounts of a tenant hold every line of its ledger once. *)
Lemma chart_holds_ledger h d :
  NoDup (map acc_id (accounts d)) ->
  (forall l, In l (journal_lines d) -> jl_hotel_id l = h -> exists a, In a (accounts d) /\ acc_id a = jl_account_id l /\ acc_hotel_id a = h) ->
  sumZ (map (fun a => account_net a d) (chart_of h d)) = total_debit (lines_of h d) - total_credit (lines_of h d).
Proof.
  intros Hids Hown. unfold chart_of.
  rewrite (sumZ_Permutation _ _ (Permutation_map _ (order_by_Permutation _ _))).
  set (chart := select _ (accounts d)).
  assert (Hnd : NoDup chart).
  { unfold chart, select. apply NoDup_ListNoDup, List.NoDup_filter, NoDup_ListNoDup. exact (NoDup_fmap_1 acc_id _ Hids). }
  assert (Hof : forall a, In a chart -> In a (accounts d) /\ acc_hotel_id a = h).
  { intros a Ha. apply in_select in Ha as [Ha E]. apply N.eqb_eq in E. auto. }
  rewrite (map_ext_in _ (fun a => sumZ (map (fun l => if ueq (jl_account_id l) (acc_id a) && ueq (jl_hotel_id l) h then jl_debit l - jl_credit l else 0) (journal_lines d)))).
  2:{ intros a Ha. unfold account_net. rewrite sum_rows_as_sum, (proj2 (Hof a Ha)). reflexivity. }
  rewrite sumZ_swap. unfold lines_of, total_debit, total_credit.
  assert (G : forall l, In l (journal_lines d) ->
    sumZ (map (fun a => if ueq (jl_account_id l) (acc_id a) && ueq (jl_hotel_id l) h then jl_debit l - jl_credit l else 0) chart)
    = if ueq (jl_hotel_id l) h then jl_debit l - jl_credit l else 0).
  { intros l Hl. destruct (ueq (jl_hotel_id l) h) eqn:Eh; [|apply sumZ_map_zero; intros; now rewrite andb_false_r].
    apply N.eqb_eq in Eh. destruct (Hown l Hl Eh) as (a & Ha & E1 & E2).
    rewrite (sumZ_only _ _ a Hnd).
    - unfold ueq. rewrite E1, N.eqb_refl. reflexivity.
    - apply in_select. split; [exact Ha | unfold ueq; rewrite E2; apply N.eqb_refl].
    - intros a' Ha' Hne. destruct (ueq (jl_account_id l) (acc_id a')) eqn:E; [|reflexivity]. apply N.eqb_eq in E. destruct Hne.
      apply (NoDup_map_inj acc_id _ Hids); [apply (Hof a' Ha') | exact Ha | congruence]. }
  rewrite (map_ext_in _ _ _ G). unfold select. clear.
  induction (journal_lines d) as [|l ls IH]; [reflexivity|]. unfold sumZ in *. cbn. destruct (ueq (jl_hotel_id l) h); cbn; lia.
Qed.
End TrialBalance.

(** C22: when every line of the tenant's ledger names one of its own accounts, the
    trial balance shows the whole ledger: its rows are the tenant's accounts, each
    with the debits less the credits posted on it, and they sum to the debits less
    the credits of the ledger, to zero when it is in balance.  The balance the
    chart of accounts shows is the opening balance moved by the same figure, with
    its sign turned for accounts that are credit by nature. *)
Theorem trial_balance_is_the_ledger (env : Env) (laws : EnvLaws env) (jwt : Jwt) secret c d
  (Hids : NoDup (map acc_id (accounts d)))
  (Hown : forall l, In l (journal_lines d) -> jl_hotel_id l = hotelID secret c ->
     exists a, In a (accounts d) /\ acc_id a = jl_account_id l /\ acc_hotel_id a = hotelID secret c) :
  let h := hotelID secret c in
  let chart := chart_of h d in
  runs Pool (TrialBalance secret c) d (fun r d' => d' = d
    /\ r = RespOK (KB_trial_balance (map (fun a => {| tb_Code := acc_code a; tb_Name := acc_name a; tb_Type := acc_type a;
                                                       tb_Balance := num_dec (account_net a d) |}) chart))
    /\ sumZ (map (fun a => account_net a d) chart) = total_debit (lines_of h d) - total_credit (lines_of h d)
    /\ (in_balance (lines_of h d) -> sumZ (map (fun a => account_net a d) chart) = 0)
    /\ forall a, In a chart -> ap_Balance (scanAccount d a)
         = num_dec (acc_opening_balance a + (if debit_normal a then 1 else -1) * account_net a d)) (fun _ => False).
Proof.
  intros h chart. pose proof (chart_holds_ledger h d Hids Hown) as Hs. fold chart in Hs.
  unfold TrialBalance, or_text. eapply runs_bind with (Q1 := fun rows d' => rows = map (trial_row d) chart /\ d' = d).
  - apply runs_on_err, runs_query. auto.
  - intros. inert_go.
  - intros rows d' [-> ->]. apply runs_ret. split; [reflexivity|]. split; [reflexivity|]. split; [exact Hs|].
    split; [unfold in_balance; lia|]. intros a _. cbn. unfold account_balance. f_equal. destruct (debit_normal a); lia.
Qed.

Lemma trial_balance_is_the_ledger_witness :
  let c := demo_request "accountant@1" "" in
  runs (env := calm) Pool (TrialBalance (env := calm) (jwt := demo_jwt) "secret" c) one_sale (fun r d' =>
    sumZ (map (fun a => account_net a one_sale) (chart_of 1%N one_sale)) = 0) (fun _ => False).
Proof.
  intros c. eapply runs_post.
  - apply (trial_balance_is_the_ledger calm calm_laws demo_jwt "secret" c one_sale).
    + apply (bool_decide_eq_true_1 _). vm_compute. reflexivity.
    + cbn. intros l [<-|[<-|[<-|[]]]] _; cbn [jl_account_id].
      * eexists. split; [left; reflexivity | split; reflexivity].
      * eexists. split; [right; right; left; reflexivity | split; reflexivity].
      * eexists. split; [right; left; reflexivity | split; reflexivity].
  - cbn. intros r d' (_ & _ & _ & H & _). apply H. reflexivity.
Defined.

(** ** Purchase orders *)

Lemma order_lines_refused {env : Env} h u lines d :
  lines <> [] -> exists_row (fun g => ueq (gr_id g) u) (grns d) = false ->
  runs Tx (for_each (store_order_line h u) lines) d (fun _ _ => False) (fun _ => True).
Proof.
  destruct lines as [|l ls]; [contradiction|]. intros _ Hno. cbn [for_each].
  eapply runs_bind with (Q1 := fun _ _ => False); [|intros; unfold store_order_line, or_text; inert_go | intros ? ? []].
  unfold store_order_line, or_text. apply runs_uuid; [intros; inert_go|]. intros n. apply runs_on_err, runs_exec.
  unfold insert_grn_line. cbn [gl_grn_id]. destruct (negb _); [exact Logic.I|]. rewrite Hno. exact Logic.I.
Qed.

(** No purchase order can be raised: its lines are written to the lines of the
    goods receipts under the order's id, which names no receipt, so the server
    refuses the first one and the order is rolled back with it.  Whatever the
    request, it fails and leaves the database as it was. *)
Theorem purchase_order_never_stored (env : Env) (jwt : Jwt) secret c body d
  (Hnew : forall g n, In g (grns d) -> gr_id g <> uuid_new n) :
  ensures (CreatePurchaseOrder secret c body) d (fun _ _ => False) (fun _ d' => d' = d).
Proof.
  unfold CreatePurchaseOrder. apply ens_then_option; [auto|]. intros req _. apply ens_then_throw_if; [auto|]. intros Hl.
  apply bool_decide_eq_false in Hl. apply ens_then_number. intros number. apply ens_then_date. intros date.
  apply ens_then_uuid. intros n. eapply ens_bind with (Q1 := fun _ _ => False); [|intros ? ? []].
  apply ens_tx_with; [|unfold create_order_tx, store_order_line, or_text; cbv zeta; keeps_go | auto].
  unfold create_order_tx. cbv zeta.
  eapply runs_bind with (Q1 := fun _ d' => grns d' = grns d).
  - apply runs_on_err, runs_exec. unfold insert_purchase_order. repeat case_match; simplify_eq; auto.
  - intros. unfold store_order_line, or_text. inert_go.
  - intros _ d' E. eapply runs_bind; [apply order_lines_refused; [exact Hl|] | intros; unfold or_text; inert_go | intros ? ? []].
    rewrite E. apply exists_row_false. intros g Hg. apply N.eqb_neq. now apply Hnew.
Qed.

Definition one_line : poReq :=
  {| pq_VendorID := ""; pq_Date := ""; pq_ExpectedD := ""; pq_Notes := ""; pq_Lines := [ {| pl_Description := "Rice"; pl_Quantity := 10; pl_UnitPrice := 60 |} ] |}.
Lemma purchase_order_never_stored_witness :
  let c := demo_request "accountant@1" "" in
  fst (serve (CreatePurchaseOrder (env := calm) (jwt := demo_jwt) "secret" c (Some one_line)) (start new_hotel)) = RespError 500 "ERROR: SQLSTATE 23503"
  /\ ensures (CreatePurchaseOrder (env := calm) (jwt := demo_jwt) "secret" c (Some one_line)) new_hotel (fun _ _ => False) (fun _ d' => d' = new_hotel).
Proof.
  intros c. split; [vm_compute; reflexivity|].
  apply (purchase_order_never_stored calm demo_jwt "secret" c (Some one_line) new_hotel). intros g n [].
Defined.
