(* ===== verification/NightAudit.v ===== *)
(** NightAudit: internal/handler/nightaudit_handler.go.  The checklist, the audit
    of revenue and of tax, closing the day, and the past reports.

    Every statement reads CURRENT_DATE for itself, outside any transaction. *)

From S2P Require Import Prelude GoLib Schema Binary64 World Auth Guards Domain Ledger Accounting.
From Stdlib Require Import QArith.
Local Open Scope string_scope.
Local Open Scope Z_scope.

(** ** Data *)

Record checklistItem := { ci_Task : string; ci_Completed : bool }.
Record revenueAuditResponse := { ra_Category : string; ra_Expected : Q; ra_Actual : Q; ra_Difference : Q }.
Record taxAuditResponse := { ta_TaxType : string; ta_Collected : Q; ta_Payable : Q; ta_Status : string }.
Record closeDayResponse := {
  cd_ReportID : uuid; cd_AuditDate : string; cd_Status : string; cd_TotalRevenue : Q; cd_TotalTax : Q;
  cd_OccupiedRooms : Z; cd_CheckOuts : Z; cd_Arrivals : Z; cd_OccupancyRate : Q }.
Record auditReportResponse := {
  rp_ID : uuid; rp_AuditDate : string; rp_Status : string; rp_ClosedBy : option uuid; rp_CreatedAt : Time }.

Inductive NightBody :=
  | NB_checklist (l : list checklistItem) | NB_revenue (l : list revenueAuditResponse) | NB_tax (t : taxAuditResponse)
  | NB_closed (r : closeDayResponse) | NB_reports (l : list auditReportResponse).

Definition checklist (done : bool) : list checklistItem :=
  map (fun t => {| ci_Task := t; ci_Completed := done |})
    [ "Verify all checked-in guests have valid registration cards"; "Post all outstanding charges to guest folios";
      "Reconcile restaurant and bar revenue"; "Verify housekeeping status for all rooms";
      "Check for late check-outs and early arrivals"; "Verify tax calculations on all transactions";
      "Run end-of-day revenue summary"; "Update room availability for next day"; "Backup system data"; "Print daily reports" ].

(** ** What the audit reads *)

(** a date column = CURRENT_DATE *)
Definition is_day (day t : Time) : bool := t_ns t =? t_ns day.

(** The journal lines of a day's entries, each with its account. *)
Definition ledger_of_day (h : uuid) (day : Time) (d : DB) : list (JournalLineRow * AccountRow) :=
  flat_map (fun l => map (fun a => (l, a))
      (select (fun a => ueq (acc_id a) (jl_account_id l)) (accounts d)))
    (select (fun l => exists_row (fun e => ueq (je_id e) (jl_entry_id l) && ueq (je_hotel_id e) h && is_day day (je_date e))
                        (journal_entries d)) (journal_lines d)).
(** SUM(credit - debit) over those of some accounts *)
Definition credited (p : AccountRow -> bool) (rows : list (JournalLineRow * AccountRow)) : Z :=
  sum_rows (fun r => p (snd r)) (fun r => jl_credit (fst r) - jl_debit (fst r)) rows.
Definition is_revenue (a : AccountRow) : bool := acc_type a =s "revenue".
Definition is_tax (a : AccountRow) : bool := acc_code a =s "2100".

(** GROUP BY code over the revenue accounts, a code the first time it occurs; the
    server leaves their order open. *)
Definition revenue_codes (rows : list (JournalLineRow * AccountRow)) : list string :=
  remove_dups (map (fun r => acc_code (snd r)) (select (fun r => is_revenue (snd r)) rows)).
Definition revenue_by_code (rows : list (JournalLineRow * AccountRow)) : list (string * Z) :=
  map (fun cd => (cd, credited (fun a => is_revenue a && (acc_code a =s cd)) rows)) (revenue_codes rows).

Section NightAudit.
Context {env : Env} {jwt : Jwt} (secret : string).

(** column::date = CURRENT_DATE *)
Definition on_day (day t : Time) : bool := is_day day (db_date t).
Definition on_day_opt (day : Time) (t : option Time) : bool := match t with Some t => on_day day t | None => false end.

Definition charged_today (h : uuid) (day : Time) (fc : FolioChargeRow) : bool :=
  ueq (fc_hotel_id fc) h && on_day day (fc_posted_at fc) && (fc_charge_type fc !=s "restaurant").
Definition settled_today (h : uuid) (day : Time) (b : BillDbRow) : bool :=
  ueq (bl_hotel_id b) h && (bl_status b =s "paid") && on_day_opt day (bl_paid_at b).

(** QueryRow(...).Scan(&v) with the error dropped: v stays zero. *)
Definition scan_or_zero {E} (f : Time -> DB -> Q) : M E Q :=
  today ← current_date; r ← attempt (query Pool (f today)); mret (match r with inr v => v | inl _ => 0%Q end).

Definition GetChecklist (c : Ctx) : M (Resp NightBody) (Resp NightBody) :=
  today ← current_date;
  n ← attempt (query Pool (fun d => rows_affected (fun a => ueq (na_hotel_id a) (hotelID secret c) && is_day today (na_audit_date a)) (night_audits d)));
  mret (RespOK (NB_checklist (checklist (match n with inr k => Nat.ltb 0 k | inl _ => false end)))).

(** The three categories after the rows of the ledger. *)
Definition add_actual (acc : Q * Q * Q) (row : string * Q) : Q * Q * Q :=
  let '(room, fnb, other) := acc in
  let '(cd, amount) := row in
  if cd =s "4000" then (fadd room amount, fnb, other)
  else if cd =s "4100" then (room, fadd fnb amount, other)
  else (room, fnb, fadd other amount).
Definition audit_item (category : string) (expected actual : Q) : revenueAuditResponse :=
  {| ra_Category := category; ra_Expected := round2 expected; ra_Actual := round2 actual;
     ra_Difference := round2 (fsub (round2 expected) (round2 actual)) |}.

Definition GetRevenueAudit (c : Ctx) : M (Resp NightBody) (Resp NightBody) :=
  let h := hotelID secret c in
  rooms_expected ← scan_or_zero (fun day d => num_dec (sum_rows (charged_today h day) fc_amount (folio_charges d)));
  fnb_expected ← scan_or_zero (fun day d => num_dec (sum_rows (settled_today h day) bl_subtotal (bills d)));
  today ← current_date;
  rows ← on_err (query Pool (fun d => map (fun r => (fst r, num_dec (snd r))) (revenue_by_code (ledger_of_day h today d))))
           (fun e => RespError 500 (err_text e));
  let '(room, fnb, other) := foldl add_actual (0%Q, 0%Q, 0%Q) rows in
  mret (RespOK (NB_revenue [ audit_item "Room Revenue" rooms_expected room;
                             audit_item "Food & Beverage" fnb_expected fnb; audit_item "Other Services" 0 other ])).

Definition GetTaxAudit (c : Ctx) : M (Resp NightBody) (Resp NightBody) :=
  let h := hotelID secret c in
  collected ← scan_or_zero (fun day d => num_dec (sum_rows (charged_today h day) fc_tax_amount (folio_charges d)
                                                   + sum_rows (settled_today h day) bl_tax_amount (bills d)));
  payable ← scan_or_zero (fun day d => num_dec (credited is_tax (ledger_of_day h day d)));
  let collected := round2 collected in
  let payable := round2 payable in
  let diff := fsub collected payable in
  let status := if flt (cents 1) diff || flt diff (fneg (cents 1)) then "discrepancy" else "verified" in
  mret (RespOK (NB_tax {| ta_TaxType := "GST"; ta_Collected := collected; ta_Payable := payable; ta_Status := status |})).

(** *** Closing the day *)

(** NUMERIC(5,2), and the NUMERIC(12,2) of the totals *)
Definition insert_report (row : NightAuditRow) (d : DB) : GoErr + (string * DB) :=
  if negb (money_fits (na_expected_revenue row) && money_fits (na_actual_revenue row) && money_fits (na_total_tax row)
           && rate_fits (na_occupancy_rate row)) then inl (ErrPg "22003")
  else inr (fmt_date (na_audit_date row), d <| night_audits ::= insert_row row |>).

Definition in_house (h : uuid) (s : StayRow) : bool :=
  ueq (gs_hotel_id s) h && (gs_status s !=s "cancelled")
  && bool_decide (is_Some (gs_actual_check_in s)) && bool_decide (gs_actual_check_out s = None).
Definition left_today (h : uuid) (day : Time) (s : StayRow) : bool :=
  ueq (gs_hotel_id s) h && (gs_status s !=s "cancelled") && on_day_opt day (gs_actual_check_out s).
Definition arrived_today (h : uuid) (day : Time) (s : StayRow) : bool :=
  ueq (gs_hotel_id s) h && (gs_status s !=s "cancelled") && on_day_opt day (gs_actual_check_in s).
Definition sellable_room (h : uuid) (r : RoomRow) : bool :=
  ueq (rm_hotel_id r) h && negb (existsb (String.eqb (rm_status r)) NonSellableRoomStatusSQL).
Definition count {R} (p : R -> bool) (t : list R) : Z := Z.of_nat (rows_affected p t).
Definition occupancy (occupied sellable : Z) : Q :=
  if 0 <? sellable then round2 (fmul (fdiv (of_int occupied) (of_int sellable)) 100) else 0%Q.

Definition or_500 {A} (m : M GoErr A) : M (Resp NightBody) A := on_err m (fun e => RespError 500 (err_text e)).

Definition CloseDay (c : Ctx) : M (Resp NightBody) (Resp NightBody) :=
  reportID ← new_uuid;
  let h := hotelID secret c in
  today ← current_date;
  totals ← or_500 (query Pool (fun d => let rows := ledger_of_day h today d in
                                        (num_dec (credited is_revenue rows), num_dec (credited is_tax rows))));
  let '(totalRevenue, totalTax) := totals in
  today ← current_date;
  counts ← or_500 (query Pool (fun d => (count (in_house h) (guest_stays d), count (left_today h today) (guest_stays d),
                                         count (arrived_today h today) (guest_stays d))));
  let '(occupiedRooms, checkOuts, arrivals) := counts in
  sellableRooms ← or_500 (query Pool (fun d => count (sellable_room h) (rooms d)));
  let occupancyRate := occupancy occupiedRooms sellableRooms in
  now ← time_now;
  auditDateStr ← on_err (exec Pool (insert_report
    {| na_id := reportID; na_hotel_id := h; na_audit_date := db_date now; na_status := "closed";
       na_expected_revenue := num_enc (round2 totalRevenue); na_actual_revenue := num_enc (round2 totalRevenue);
       na_total_tax := num_enc (round2 totalTax); na_occupancy_rate := num_enc occupancyRate; na_closed_by := None;
       na_created_at := now |})) (fun e => RespError 400 (err_text e));
  mret (RespCreated (NB_closed {| cd_ReportID := reportID; cd_AuditDate := auditDateStr; cd_Status := "closed";
    cd_TotalRevenue := round2 totalRevenue; cd_TotalTax := round2 totalTax; cd_OccupiedRooms := occupiedRooms;
    cd_CheckOuts := checkOuts; cd_Arrivals := arrivals; cd_OccupancyRate := occupancyRate |})).

(** *** Past reports *)

Definition report_view (a : NightAuditRow) : auditReportResponse :=
  {| rp_ID := na_id a; rp_AuditDate := fmt_date (na_audit_date a); rp_Status := na_status a; rp_ClosedBy := na_closed_by a;
     rp_CreatedAt := na_created_at a |}.
(** A bound given in the query, cast to a date by the server *)
Definition date_bound (v : string) : GoErr + option Time :=
  if v !=s "" then match date_in v with Some t => inr (Some t) | None => inl (ErrPg "22007") end else inr None.
Definition within_bounds (lo hi : option Time) (a : NightAuditRow) : bool :=
  match lo with Some t => t_ns t <=? t_ns (na_audit_date a) | None => true end
  && match hi with Some t => t_ns (na_audit_date a) <=? t_ns t | None => true end.

Definition ListReports (c : Ctx) : M (Resp NightBody) (Resp NightBody) :=
  rows ← or_500 (exec Pool (fun d =>
    match date_bound (c_query c "from"), date_bound (c_query c "to") with
    | inl e, _ | _, inl e => inl e
    | inr lo, inr hi => inr (map report_view (order_by (fun a b => t_ns (na_audit_date b) <=? t_ns (na_audit_date a))
                          (select (fun a => ueq (na_hotel_id a) (tenantHotelID c) && within_bounds lo hi a) (night_audits d))), d)
    end));
  mret (RespOK (NB_reports rows)).

(** ** The routes, behind authGate *)

Inductive NightOp := Op_GetChecklist | Op_GetRevenueAudit | Op_GetTaxAudit | Op_CloseDay | Op_ListReports.
Definition night_handle (op : NightOp) (rq : Ctx) : M (Resp NightBody) (Resp NightBody) :=
  match authGate secret rq with
  | inl (status, msg) => throw (RespError status msg)
  | inr c => match op with
             | Op_GetChecklist => GetChecklist c | Op_GetRevenueAudit => GetRevenueAudit c | Op_GetTaxAudit => GetTaxAudit c
             | Op_CloseDay => CloseDay c | Op_ListReports => ListReports c
             end
  end.
End NightAudit.
