(* ===== verification/NightSpec.v ===== *)
(** NightSpec: closing the day and auditing it read one ledger.  The day's report
    files the credits of the revenue accounts and of the tax account, the audit of
    revenue splits the same figure over its categories, and the audit of tax
    reports the same tax. *)

From S2P Require Import Prelude GoLib Schema Binary64 World Auth Guards Domain Ledger Settlement DineIn Billing Restaurant PosInvariant Accounting Documents DocumentSpec AccountingSpec NightAudit.
From Stdlib Require Import QArith.
Local Open Scope string_scope.
Local Open Scope Z_scope.

(** ** Figures of a day's ledger *)

Definition moved (r : JournalLineRow * AccountRow) : Z := jl_credit (fst r) - jl_debit (fst r).
(** Everything moved that day, on either side. *)
Definition turnover (rows : list (JournalLineRow * AccountRow)) : Z := sumZ (map (fun r => Z.abs (moved r)) rows).

Lemma credited_bounded p rows : Z.abs (credited p rows) <= turnover rows.
Proof.
  unfold credited, turnover. rewrite sum_rows_as_sum. fold moved.
  induction rows as [|r rows IH]; unfold sumZ in *; cbn; [lia|]. destruct (p (snd r)); unfold moved in *; lia.
Qed.

(** The revenue of the day is the revenue of its codes. *)
Definition sum_codes (codes : list string) (rows : list (JournalLineRow * AccountRow)) : Z :=
  sumZ (map (fun cd => credited (fun a => is_revenue a && (acc_code a =s cd)) rows) codes).
Lemma revenue_split rows : credited is_revenue rows = sum_codes (revenue_codes rows) rows.
Proof.
  unfold sum_codes, credited. rewrite sum_rows_as_sum.
  rewrite (map_ext _ (fun cd => sumZ (map (fun r => if is_revenue (snd r) && (acc_code (snd r) =s cd) then jl_credit (fst r) - jl_debit (fst r) else 0) rows)))
    by (intros; apply sum_rows_as_sum).
  rewrite sumZ_swap. f_equal. apply map_ext_in. intros r Hr. destruct (is_revenue (snd r)) eqn:E; cbn [andb].
  - rewrite (sumZ_only _ _ (acc_code (snd r))); [now rewrite String.eqb_refl | apply NoDup_remove_dups | |].
    + apply list_elem_of_In, elem_of_remove_dups, list_elem_of_In, in_map_iff. exists r. split; [reflexivity|].
      apply in_select. auto.
    + intros cd _ Hne. destruct (String.eqb_spec (acc_code (snd r)) cd); congruence.
  - symmetry. now apply sumZ_map_zero.
Qed.

(** Revenue split over the categories of the audit. *)
Definition other_code (cd : string) : bool := (cd !=s "4000") && (cd !=s "4100").
Definition sum_where (p : string -> bool) (codes : list string) (rows : list (JournalLineRow * AccountRow)) : Z :=
  sum_codes (List.filter p codes) rows.
Definition count_where (p : string -> bool) (codes : list string) : Z := Z.of_nat (length (List.filter p codes)).
Lemma sum_codes_bounded codes rows : NoDup codes -> Z.abs (sum_codes codes rows) <= turnover rows.
Proof.
  intros Hn. unfold sum_codes, credited.
  rewrite (map_ext _ (fun cd => sumZ (map (fun r => if is_revenue (snd r) && (acc_code (snd r) =s cd) then moved r else 0) rows)))
    by (intros; apply sum_rows_as_sum).
  rewrite sumZ_swap. unfold turnover.
  assert (G : forall r, Z.abs (sumZ (map (fun cd => if is_revenue (snd r) && (acc_code (snd r) =s cd) then moved r else 0) codes)) <= Z.abs (moved r)).
  { intros r. destruct (is_revenue (snd r)); cbn [andb]; [|rewrite (sumZ_map_zero _ codes) by reflexivity; cbn; lia].
    destruct (decide (acc_code (snd r) ∈ codes)) as [Hi|Hi]; rewrite list_elem_of_In in Hi.
    - rewrite (sumZ_only _ _ (acc_code (snd r)) Hn Hi); [rewrite String.eqb_refl; lia|].
      intros cd _ Hne. destruct (String.eqb_spec (acc_code (snd r)) cd); congruence.
    - rewrite (sumZ_map_zero _ codes); [cbn; lia|]. intros cd Hcd. destruct (String.eqb_spec (acc_code (snd r)) cd); [subst; contradiction | reflexivity]. }
  induction rows as [|r rows IH]; unfold sumZ in *; cbn; [lia|]. specialize (G r). lia.
Qed.

Lemma fadd_cents_near n x a k : near n x a -> Z.abs k <= MAXC -> Z.abs (a + k) <= MAXC -> n <= 90 -> near (n + 2) (fadd x (cents k)) (a + k).
Proof. intros. replace (n + 2) with (n + 1 + 1) by lia. apply fadd_near; [assumption | apply cents_near; assumption | assumption | lia]. Qed.

Section Fold.
Context {env : Env} {laws : EnvLaws env} (rows : list (JournalLineRow * AccountRow)).
Hypothesis bounded : turnover rows <= MAXC.

Definition figure (cd : string) : Z := credited (fun a => is_revenue a && (acc_code a =s cd)) rows.
Lemma figure_row cd : num_dec (figure cd) = cents (figure cd).
Proof. apply num_dec_cents. pose proof (credited_bounded (fun a => is_revenue a && (acc_code a =s cd)) rows). unfold figure. lia. Qed.

Definition is_rooms (cd : string) : bool := cd =s "4000".
Definition is_fnb (cd : string) : bool := cd =s "4100".

Lemma sum_where_snoc p cds cd : sum_where p (cds ++ [cd]) rows = sum_where p cds rows + (if p cd then figure cd else 0).
Proof.
  unfold sum_where, sum_codes. rewrite List.filter_app, map_app, sumZ_app. cbn. destruct (p cd); unfold sumZ; cbn; unfold figure; lia.
Qed.
Lemma count_where_snoc p cds cd : count_where p (cds ++ [cd]) = count_where p cds + (if p cd then 1 else 0).
Proof. unfold count_where. rewrite List.filter_app, length_app. cbn. destruct (p cd); cbn; lia. Qed.
Lemma sum_where_bounded p cds : NoDup cds -> Z.abs (sum_where p cds rows) <= MAXC.
Proof.
  intros H. unfold sum_where. etransitivity; [apply sum_codes_bounded | exact bounded].
  apply NoDup_ListNoDup, List.NoDup_filter, NoDup_ListNoDup, H.
Qed.

(** One category after the codes seen so far: at most two units of rounding each. *)
Definition tallied (p : string -> bool) (cds : list string) (x : Q) : Prop := near (2 * count_where p cds) x (sum_where p cds rows).

Lemma tally p cds cd x :
  NoDup (cds ++ [cd]) -> count_where p (cds ++ [cd]) <= 45 -> tallied p cds x ->
  tallied p (cds ++ [cd]) (if p cd then fadd x (num_dec (figure cd)) else x).
Proof.
  unfold tallied. intros Hn Hc H. pose proof (sum_where_bounded p _ Hn) as B. rewrite sum_where_snoc in *. rewrite count_where_snoc in *.
  destruct (p cd); [|now rewrite !Z.add_0_r]. rewrite figure_row. replace (2 * (count_where p cds + 1)) with (2 * count_where p cds + 2) by lia.
  apply fadd_cents_near; [exact H | | exact B | lia].
  pose proof (credited_bounded (fun a => is_revenue a && (acc_code a =s cd)) rows). unfold figure. lia.
Qed.

Lemma add_actual_split r f o cd x :
  add_actual (r, f, o) (cd, x)
  = (if is_rooms cd then fadd r x else r, if is_fnb cd then fadd f x else f, if other_code cd then fadd o x else o).
Proof.
  unfold add_actual, is_rooms, is_fnb, other_code.
  destruct (String.eqb_spec cd "4000") as [->|]; [reflexivity|]. destruct (String.eqb_spec cd "4100"); reflexivity.
Qed.
Lemma count_where_app p a b : count_where p (a ++ b) = count_where p a + count_where p b.
Proof. unfold count_where. rewrite List.filter_app, length_app. lia. Qed.
Lemma count_where_pos p a : 0 <= count_where p a.
Proof. unfold count_where. lia. Qed.

Lemma count_where_le p cds : count_where p cds <= Z.of_nat (length cds).
Proof. unfold count_where. pose proof (List.filter_length_le p cds). lia. Qed.
Lemma count_where_all cds : count_where is_rooms cds + count_where is_fnb cds + count_where other_code cds = Z.of_nat (length cds).
Proof.
  unfold count_where. induction cds as [|cd cds IH]; [reflexivity|]. cbn [List.filter]. unfold is_rooms, is_fnb, other_code in *.
  destruct (String.eqb_spec cd "4000") as [->|]; [cbn in *; lia|]. destruct (String.eqb_spec cd "4100"); cbn in *; lia.
Qed.

Lemma sum_where_all cds : sum_where is_rooms cds rows + sum_where is_fnb cds rows + sum_where other_code cds rows = sum_codes cds rows.
Proof.
  unfold sum_where, sum_codes, sumZ. induction cds as [|cd cds IH]; [reflexivity|]. cbn [List.filter]. unfold is_rooms, is_fnb, other_code in *.
  destruct (String.eqb_spec cd "4000") as [->|]; [cbn in *; lia|]. destruct (String.eqb_spec cd "4100"); cbn in *; lia.
Qed.

Lemma fold_actual todo : forall cds r f o,
  NoDup (cds ++ todo) -> (forall p, count_where p (cds ++ todo) <= 45) ->
  tallied is_rooms cds r -> tallied is_fnb cds f -> tallied other_code cds o ->
  let '(r', f', o') := foldl add_actual (r, f, o) (map (fun cd => (cd, num_dec (figure cd))) todo) in
  tallied is_rooms (cds ++ todo) r' /\ tallied is_fnb (cds ++ todo) f' /\ tallied other_code (cds ++ todo) o'.
Proof.
  induction todo as [|cd todo IH]; intros cds r f o Hn Hc Hr Hf Ho; [cbn; rewrite app_nil_r; auto|].
  replace (cds ++ cd :: todo)%list with ((cds ++ [cd]) ++ todo)%list in * by now rewrite <- app_assoc.
  assert (Hn1 : NoDup (cds ++ [cd])) by (apply list.NoDup_app in Hn; tauto).
  assert (Hc1 : forall p, count_where p (cds ++ [cd]) <= 45).
  { intros p. specialize (Hc p). rewrite count_where_app in Hc. pose proof (count_where_pos p todo). lia. }
  cbn [map foldl]. rewrite add_actual_split. apply IH; [exact Hn | exact Hc | apply tally; auto ..].
Qed.

(** The audit's figures are exact when at most five other codes had revenue. *)
Lemma actual_exact codes :
  NoDup codes -> count_where other_code codes <= 5 ->
  let '(r, f, o) := foldl add_actual (0%Q, 0%Q, 0%Q) (map (fun cd => (cd, num_dec (figure cd))) codes) in
  map round2 [r; f; o] = map (fun p => cents (sum_where p codes rows)) [is_rooms; is_fnb; other_code].
Proof.
  intros Hn Ho.
  assert (Hone : forall cd0, count_where (fun cd => cd =s cd0) codes <= 1).
  { intros cd0. unfold count_where.
    assert (Hs : NoDup (List.filter (fun cd => cd =s cd0) codes)) by (apply NoDup_ListNoDup, List.NoDup_filter, NoDup_ListNoDup, Hn).
    assert (Hall : forall cd, In cd (List.filter (fun cd => cd =s cd0) codes) -> cd = cd0)
      by (intros cd Hcd; apply List.filter_In in Hcd as [_ E]; now apply String.eqb_eq in E).
    destruct (List.filter _ codes) as [|x [|y l]]; cbn; [lia..|]. inversion Hs as [|? ? Hx _]; subst. destruct Hx.
    rewrite (Hall x), (Hall y) by (cbn; auto). left. }
  assert (Hc : forall p, count_where p codes <= 45).
  { intros p. pose proof (count_where_le p codes). pose proof (count_where_all codes). pose proof (Hone "4000"). pose proof (Hone "4100").
    unfold is_rooms, is_fnb in *. lia. }
  pose proof (fold_actual codes [] 0%Q 0%Q 0%Q Hn Hc zero_near zero_near zero_near) as H.
  destruct (foldl _ _ _) as [[r f] o]. destruct H as (H1 & H2 & H3). unfold tallied in *. cbn [app] in *.
  pose proof (Hone "4000"). pose proof (Hone "4100"). unfold is_rooms, is_fnb in *. cbn [map].
  rewrite (round2_near _ r _ H1), (round2_near _ f _ H2), (round2_near _ o _ H3); first [reflexivity | lia | apply sum_where_bounded, Hn].
Qed.
End Fold.

(** ** One date for every reading of the clock *)

Section OneDay.
Context {env : Env} (today : Time).
Hypothesis one_day : forall n, db_date (clock n) = today.

Lemma runs_on_day {E A} (k : Time -> M E A) d Q (R : E -> Prop) :
  (forall t, inert Pool (k t)) -> runs Pool (k today) d Q R -> runs Pool (t ← current_date; k t) d Q R.
Proof.
  intros Hi Hk. apply (runs_bind Pool _ _ d (fun t d' => t = today /\ d' = d)); [|exact Hi | intros t d' [-> ->]; exact Hk].
  intros w Hw. left. exists d. split; [exact Hw|]. split; [apply one_day | reflexivity].
Qed.
Lemma ens_on_day {E A} (k : Time -> M E A) d Q (R : E -> DB -> Prop) :
  ensures (k today) d Q R -> ensures (t ← current_date; k t) d Q R.
Proof.
  intros Hk. eapply ens_bind with (Q1 := fun t d' => t = today /\ d' = d); [|intros t d' [-> ->]; exact Hk].
  intros w [Hw <-]. split; [exact Hw|]. split; [apply one_day | reflexivity].
Qed.
Lemma runs_scan {E A} (f : Time -> DB -> Q) (k : Q -> M E A) d Q (R : E -> Prop) :
  (forall v, inert Pool (k v)) -> runs Pool (k (f today d)) d Q R -> runs Pool (v ← scan_or_zero f; k v) d Q R.
Proof.
  intros Hi Hk. apply (runs_bind Pool _ _ d (fun v d' => v = f today d /\ d' = d)); [|exact Hi | intros v d' [-> ->]; exact Hk].
  unfold scan_or_zero. apply runs_on_day; [intros; inert_go|]. eapply runs_bind; [|intros; inert_go|].
  - apply runs_attempt_ok, runs_query with (Q := fun v d' => v = f today d /\ d' = d). auto.
  - intros r d' (v & -> & -> & ->). apply runs_ret. auto.
Qed.
End OneDay.

(** ** Claims *)

(** C26: on a day whose clock readings all fall on one date, closing it files, as
    expected and actual revenue, what its ledger credited to revenue accounts, and
    as tax what it credited to the tax account, or else changes nothing; the audit
    of revenue splits exactly that revenue over its three categories, and the audit
    of tax reports exactly that tax as payable. *)
Theorem closing_agrees_with_audit (env : Env) (laws : EnvLaws env) (jwt : Jwt) secret c d today
  (Hday : forall n, db_date (clock n) = today)
  (Hb : turnover (ledger_of_day (hotelID secret c) today d) <= MAXC)
  (Ho : count_where other_code (revenue_codes (ledger_of_day (hotelID secret c) today d)) <= 5) :
  let rows := ledger_of_day (hotelID secret c) today d in
  let revenue := credited is_revenue rows in
  let tax := credited is_tax rows in
  ensures (CloseDay secret c) d (fun r d' => exists a rep,
      d' = d <| night_audits ::= insert_row a |> /\ na_hotel_id a = hotelID secret c /\ na_audit_date a = today
      /\ na_status a = "closed" /\ na_expected_revenue a = revenue /\ na_actual_revenue a = revenue /\ na_total_tax a = tax
      /\ r = RespCreated (NB_closed rep) /\ cd_AuditDate rep = fmt_date today /\ cd_TotalRevenue rep = cents revenue /\ cd_TotalTax rep = cents tax)
    (fun _ d' => d' = d)
  /\ runs Pool (GetRevenueAudit secret c) d (fun r d' => d' = d /\ exists items ks, r = RespOK (NB_revenue items)
       /\ map ra_Actual items = map cents ks /\ sumZ ks = revenue) (fun _ => False)
  /\ runs Pool (GetTaxAudit secret c) d (fun r d' => d' = d /\ exists t, r = RespOK (NB_tax t) /\ ta_Payable t = cents tax) (fun _ => False).
Proof.
  intros rows revenue tax.
  assert (B1 : Z.abs revenue <= MAXC) by (etransitivity; [apply credited_bounded | exact Hb]).
  assert (B2 : Z.abs tax <= MAXC) by (etransitivity; [apply credited_bounded | exact Hb]).
  split; [|split].
  - unfold CloseDay, or_500. apply ens_then_uuid. intros n. cbv zeta. apply (ens_on_day today Hday).
    apply ens_then_read; [auto|]. cbv zeta. fold rows revenue tax. rewrite !num_dec_cents, !round2_cents, !num_enc_cents by assumption.
    apply (ens_on_day today Hday). apply ens_then_read; [auto|]. apply ens_then_read; [auto|].
    eapply ens_bind with (Q1 := fun t d' => db_date t = today /\ d' = d).
    { apply ens_now. intros m. split; [apply Hday | reflexivity]. }
    intros now d' [Hnow ->]. eapply ens_bind with (Q1 := fun s d' => s = fmt_date (db_date now) /\ exists a, d' = d <| night_audits ::= insert_row a |>
      /\ na_hotel_id a = hotelID secret c /\ na_audit_date a = db_date now /\ na_status a = "closed" /\ na_expected_revenue a = revenue
      /\ na_actual_revenue a = revenue /\ na_total_tax a = tax).
    + apply ens_on_err, ens_exec; [reflexivity|]. unfold insert_report. destruct (negb _); [reflexivity|]. split; [reflexivity|].
      eexists. split; [reflexivity|]. cbn. auto 10.
    + intros s d1 [-> (a & -> & H1 & H2 & H3 & H4 & H5 & H6)]. rewrite Hnow in *. apply ens_ret. do 2 eexists.
      split; [reflexivity|]. do 6 (split; [eassumption|]). split; [reflexivity|]. auto.
  - unfold GetRevenueAudit. cbv zeta. do 2 (apply (runs_scan today Hday); [intros ?; unfold scan_or_zero; inert_go|]).
    apply (runs_on_day today Hday); [intros ?; unfold scan_or_zero; inert_go|].
    eapply runs_bind with (Q1 := fun l d' => l = map (fun r => (fst r, num_dec (snd r))) (revenue_by_code rows) /\ d' = d);
      [apply runs_on_err, runs_query; auto | intros ?; inert_go|].
    intros l d' [-> ->]. unfold revenue_by_code. rewrite List.map_map. cbn [fst snd].
    pose proof (actual_exact rows Hb (revenue_codes rows) (NoDup_remove_dups _) Ho) as HA. unfold figure in HA.
    destruct (foldl _ _ _) as [[r f] o]. apply runs_ret. split; [reflexivity|].
    do 2 eexists. split; [reflexivity|]. cbn [map ra_Actual audit_item] in *. split.
    + rewrite HA. change [?a; ?b; ?e] with (map (fun x => x) [a; b; e]).
      instantiate (1 := [sum_where is_rooms (revenue_codes rows) rows; sum_where is_fnb (revenue_codes rows) rows; sum_where other_code (revenue_codes rows) rows]). reflexivity.
    + unfold revenue. rewrite revenue_split, <- sum_where_all. unfold sumZ. cbn. lia.
  - unfold GetTaxAudit. cbv zeta. do 2 (apply (runs_scan today Hday); [intros ?; unfold scan_or_zero; inert_go|]). apply runs_ret. split; [reflexivity|].
    eexists. split; [reflexivity|]. cbn. fold rows tax. rewrite num_dec_cents, round2_cents by assumption. reflexivity.
Qed.

(** Nothing fails, and the n-th reading of the clock is [at n]. *)
Definition calm_at (at_time : nat -> Time) : Env := {|
  db_fault := fun _ => false; uuid_new := fun n => (1000 + N.of_nat n)%N; uuid_parse := demo_parse; db_shared := false;
  uuid_string := fun u => fmt_0d 6 (Z.of_N u); clock := at_time; server_off := 0; db_off := 0;
  driver_text := fun s => ("ERROR: SQLSTATE " ++ s)%string; num_enc := to_cents; num_dec := cents; date_in := parse_date |}.
Lemma calm_at_laws at_time : EnvLaws (calm_at at_time).
Proof. destruct calm_laws. split; assumption. Qed.
Definition calm_noon : Env := calm_at (fun _ => Date 2026 3 10 12 0 0).

(** The takings of a booking, at the close of its day. *)
Lemma closing_agrees_with_audit_witness :
  let c := demo_request "accountant@1" "" in
  let today := Date 2026 3 10 0 0 0 in
  credited is_revenue (ledger_of_day 1%N today booked) = 1250000 /\ credited is_tax (ledger_of_day 1%N today booked) = 225000
  /\ ensures (CloseDay (env := calm_noon) (jwt := demo_jwt) "secret" c) booked (fun r d' => exists a rep,
      d' = booked <| night_audits ::= insert_row a |> /\ na_hotel_id a = 1%N /\ na_audit_date a = today
      /\ na_status a = "closed" /\ na_expected_revenue a = 1250000 /\ na_actual_revenue a = 1250000 /\ na_total_tax a = 225000
      /\ r = RespCreated (NB_closed rep) /\ cd_AuditDate rep = "2026-03-10" /\ cd_TotalRevenue rep = cents 1250000 /\ cd_TotalTax rep = cents 225000)
    (fun _ d' => d' = booked).
Proof.
  intros c today. split; [vm_compute; reflexivity|]. split; [vm_compute; reflexivity|].
  assert (E1 : credited is_revenue (ledger_of_day 1%N today booked) = 1250000) by (vm_compute; reflexivity).
  assert (E2 : credited is_tax (ledger_of_day 1%N today booked) = 225000) by (vm_compute; reflexivity).
  rewrite <- E1, <- E2.
  refine (proj1 (closing_agrees_with_audit calm_noon (calm_at_laws _) demo_jwt "secret" c booked today _ _ _)).
  - intros n. vm_compute. reflexivity.
  - vm_compute. discriminate.
  - vm_compute. discriminate.
Defined.

(** What the audit reports as differences on days whose books are complete: a
    discount given on a restaurant bill, and the whole price of a booking. *)
Theorem audit_differences_without_errors :
  let audit d := fst (serve (night_handle (env := calm) (jwt := demo_jwt) "secret" Op_GetRevenueAudit (demo_request "accountant@1" "")) (start d)) in
  let after_dessert := w_db (pos_serve_all (env := calm) (jwt := demo_jwt) "secret" dessert (start after_dinner)) in
  audit after_dessert = RespOK (NB_revenue [ audit_item "Room Revenue" 0 0; audit_item "Food & Beverage" 240 216; audit_item "Other Services" 0 0 ])
  /\ audit booked = RespOK (NB_revenue [ audit_item "Room Revenue" 0 12500; audit_item "Food & Beverage" 0 0; audit_item "Other Services" 0 0 ])
  /\ total_debit (journal_lines after_dessert) = total_credit (journal_lines after_dessert)
  /\ map (fun b => (bl_status b, bl_subtotal b, bl_discount_amount b)) (bills after_dessert) = [("paid", 24000, 2400)].
Proof. vm_compute. auto. Qed.

(** Two statements of one closing may fall on two days, and a day may be closed
    twice: the report of the 11th that a closing at midnight files holds the
    revenue of the 10th, and closing again files a second report for the day. *)
Theorem closing_at_midnight :
  let e := calm_at (fun n => if Nat.ltb n 2 then Date 2026 3 10 23 59 59 else Date 2026 3 11 0 0 0) in
  let close := fun w => snd (serve (night_handle (env := e) (jwt := demo_jwt) "secret" Op_CloseDay (demo_request "accountant@1" "")) w) in
  let once := close (start booked) in
  map (fun a => (fmt_date (na_audit_date a), na_actual_revenue a)) (night_audits (w_db once)) = [("2026-03-11", 1250000)]
  /\ map (fun a => (fmt_date (na_audit_date a), na_actual_revenue a)) (night_audits (w_db (close once)))
     = [("2026-03-11", 1250000); ("2026-03-11", 0)].
Proof. vm_compute. auto. Qed.
