(* ===== verification/Housekeeping.v ===== *)
(** Housekeeping: internal/handler/housekeeping_handler.go.  The tasks of the floor,
    the supervisor's sign-off that returns a room to sale, the board of timed work,
    lost property, and the linen store. *)

From S2P Require Import Prelude GoLib Schema World Auth Guards Accounting.
Local Open Scope string_scope.
Local Open Scope Z_scope.

(** ** Data *)

Record createTaskRequest := { ct_RoomID : string; ct_AssignedTo : string; ct_TaskType : string; ct_Priority : string; ct_Notes : string }.
Record updateTaskRequest := { ut_Status : string; ut_AssignedTo : string; ut_Priority : string; ut_Notes : string }.
Record taskRoom := { tr_RoomNumber : string; tr_RoomType : string; tr_Floor : Z }.
Record taskResponse := {
  tk_ID : uuid; tk_RoomID : uuid; tk_AssignedTo : option uuid; tk_TaskType : string; tk_Priority : string; tk_Status : string;
  tk_Notes : option string; tk_StartedAt : option Time; tk_CompletedAt : option Time; tk_CreatedAt : Time; tk_UpdatedAt : Time;
  tk_Room : option taskRoom; tk_AssignedStaff : option string }.
Record dueItem := {
  du_ID : uuid; du_RoomID : uuid; du_RoomNumber : option string; du_StayID : option uuid; du_GuestName : option string;
  du_TaskType : string; du_Priority : string; du_Status : string; du_ScheduledFor : string; du_Overdue : bool; du_Notes : option string }.

Record createLostItemRequest := {
  cl_RoomID : string; cl_GuestName : string; cl_ItemName : string; cl_Description : string; cl_FoundBy : string }.
Record lostItemResponse := {
  lp_ID : uuid; lp_RoomID : option uuid; lp_GuestName : option string; lp_ItemName : string; lp_Description : option string;
  lp_FoundBy : option uuid; lp_FoundAt : Time; lp_Status : string; lp_CreatedAt : Time; lp_UpdatedAt : Time; lp_Room : option string }.

Record linenItemResponse := {
  lv_ID : uuid; lv_ItemName : string; lv_TotalCount : Z; lv_InUse : Z; lv_InLaundry : Z; lv_Damaged : Z;
  lv_CreatedAt : Time; lv_UpdatedAt : Time }.
Record linenIssueRequest := { is_LinenID : string; is_Quantity : Z; is_IssuedTo : string; is_Notes : string }.
Record linenReturnRequest := { rt_LinenID : string; rt_Quantity : Z; rt_Damaged : Z; rt_Notes : string }.

(** The body of an inspection: none, one that does not parse, or one that does. *)
Inductive InspectBody := Bare | Unreadable | Inspected (passed : bool) (notes : string).

Inductive HouseBody :=
  | HB_tasks (l : list taskResponse) | HB_task (id room : uuid) (taskType priority : string) | HB_updated
  | HB_inspected (id : uuid) (status : string) (passed : bool) (room : uuid) | HB_due (l : list dueItem)
  | HB_lost_items (l : list lostItemResponse) | HB_lost_item (id : uuid) (item : string) (found_at : Time) | HB_lost_status (status : string)
  | HB_linen (l : list linenItemResponse) | HB_issued (id : uuid) (quantity : Z) | HB_returned (id : uuid) (quantity damaged : Z).

(** nullableText *)
Definition nullableText (value : string) : option string := nullif (TrimSpace value).

(** [strconv.Atoi]: an optional sign and decimal digits, within int64 *)
Definition Atoi (s : string) : option Z :=
  let '(sign, digits) := match s with
                         | String "-" s' => (-1, s')
                         | String "+" s' => (1, s')
                         | _ => (1, s)
                         end in
  if (digits !=s "") && forall_string is_digit digits then
    let n := sign * dec_val 0 digits in
    if (- 2 ^ 63 <=? n) && (n <? 2 ^ 63) then Some n else None
  else None.

(** ** Constraints *)

(** housekeeping_task_type_check *)
Definition task_types : list string :=
  [ "checkout_clean"; "daily_clean"; "deep_clean"; "turndown"; "linen_change"; "maintenance"; "inspection"; "guest_request";
    "room_service"; "wake_up_call"; "bell_boy"; "luggage"; "laundry_pickup"; "amenity_request" ].
Definition fk_user (u : option uuid) (d : DB) : bool :=
  match u with Some u => exists_row (fun r => ueq (us_id r) u) (users d) | None => true end.
Definition fk_room (u : option uuid) (d : DB) : bool :=
  match u with Some u => exists_row (fun r => ueq (rm_id r) u) (rooms d) | None => true end.
(** VARCHAR(30), VARCHAR(10) and VARCHAR(20), the check on the type, the keys *)
Definition task_refused (t : HousekeepingRow) (d : DB) : option GoErr :=
  if negb (Nat.leb (String.length (hk_task_type t)) 30 && Nat.leb (String.length (hk_priority t)) 10
           && Nat.leb (String.length (hk_status t)) 20) then Some (ErrPg "22001")
  else if negb (existsb (String.eqb (hk_task_type t)) task_types) then Some (ErrPg "23514")
  else if negb (fk_room (Some (hk_room_id t)) d && fk_user (hk_assigned_to t) d) then Some (ErrPg "23503")
  else None.
Definition insert_task (t : HousekeepingRow) (d : DB) : GoErr + (unit * DB) :=
  match task_refused t d with Some e => inl e | None => inr (tt, d <| housekeeping ::= insert_row t |>) end.
(** UPDATE housekeeping_assignments: refused when a row it would write is. *)
Definition update_tasks (p : HousekeepingRow -> bool) (f : HousekeepingRow -> HousekeepingRow) (d : DB) : GoErr + (nat * DB) :=
  match omap (fun t => if p t then task_refused (f t) d else None) (housekeeping d) with
  | e :: _ => inl e
  | [] => inr (rows_affected p (housekeeping d), d <| housekeeping ::= update_rows p f |>)
  end.
Definition task_by_id (h u : uuid) (t : HousekeepingRow) : bool := ueq (hk_id t) u && ueq (hk_hotel_id t) h.

Definition insert_lost_item (r : LostItemRow) (d : DB) : GoErr + (unit * DB) :=
  if negb (fk_room (lo_room_id r) d && fk_user (lo_found_by r) d) then inl (ErrPg "23503")
  else inr (tt, d <| lost_items ::= insert_row r |>).
(** A count out of INT is refused, and linen_id names a row of any tenant. *)
Definition insert_linen_transaction (r : LinenTransactionRow) (d : DB) : GoErr + (unit * DB) :=
  if negb (int_fits (lt_quantity r) && int_fits (lt_damaged r)) then inl (ErrPg "22003")
  else if negb (exists_row (fun l => ueq (li_id l) (lt_linen_id r)) (linen_inventory d)) then inl (ErrPg "23503")
  else inr (tt, d <| linen_transactions ::= insert_row r |>).
Definition linen_fits (l : LinenRow) : bool :=
  int_fits (li_total_count l) && int_fits (li_in_use l) && int_fits (li_in_laundry l) && int_fits (li_damaged l).
Definition linen_by_id (h u : uuid) (l : LinenRow) : bool := ueq (li_id l) u && ueq (li_hotel_id l) h.
(** UPDATE linen_inventory ... WHERE id AND hotel_id: the amounts are INT parameters. *)
Definition update_linen (h u : uuid) (amounts : list Z) (f : LinenRow -> LinenRow) (d : DB) : GoErr + (unit * DB) :=
  if negb (forallb int_fits amounts) || exists_row (fun l => linen_by_id h u l && negb (linen_fits (f l))) (linen_inventory d) then inl (ErrPg "22003")
  else inr (tt, d <| linen_inventory ::= update_rows (linen_by_id h u) f |>).

Section Housekeeping.
Context {env : Env} {jwt : Jwt} (secret : string).

Definition with_text {A} (m : M GoErr A) (status : Z) : M (Resp HouseBody) A := on_err m (fun e => RespError status (err_text e)).
Definition id_param (c : Ctx) (msg : string) : M (Resp HouseBody) uuid := of_option (uuid_parse (c_params c "id")) (RespError 400 msg).
(** A filter of the query, cast to a UUID by the server *)
Definition uuid_filter (v : string) : GoErr + option uuid :=
  if v !=s "" then match uuid_parse v with Some u => inr (Some u) | None => inl (ErrPg "22P02") end else inr None.
Definition text_filter (v s : string) : bool := (v =s "") || (s =s v).
Definition key_filter (o : option uuid) (v : option uuid) : bool := match o with Some u => oueq v u | None => true end.

(** *** Tasks *)

Definition task_view (d : DB) (t : HousekeepingRow) : taskResponse :=
  {| tk_ID := hk_id t; tk_RoomID := hk_room_id t; tk_AssignedTo := hk_assigned_to t; tk_TaskType := hk_task_type t;
     tk_Priority := hk_priority t; tk_Status := hk_status t; tk_Notes := hk_notes t; tk_StartedAt := hk_started_at t;
     tk_CompletedAt := hk_completed_at t; tk_CreatedAt := hk_created_at t; tk_UpdatedAt := hk_updated_at t;
     tk_Room := (fun r => {| tr_RoomNumber := rm_room_number r; tr_RoomType := rm_room_type r; tr_Floor := rm_floor r |})
                <$> find_row (fun r => ueq (rm_id r) (hk_room_id t)) (rooms d);
     tk_AssignedStaff := u ← hk_assigned_to t; pf_full_name <$> find_row (fun p => ueq (pf_user_id p) u) (profiles d) |}.

Definition ListTasks (c : Ctx) : M (Resp HouseBody) (Resp HouseBody) :=
  rows ← with_text (exec Pool (fun d =>
    match uuid_filter (c_query c "assigned_to"), uuid_filter (c_query c "room_id") with
    | inl e, _ | _, inl e => inl e
    | inr staff, inr room =>
        inr (map (task_view d) (order_by (fun a b => t_ns (hk_created_at b) <=? t_ns (hk_created_at a))
          (select (fun t => ueq (hk_hotel_id t) (tenantHotelID c) && text_filter (c_query c "status") (hk_status t)
                            && text_filter (c_query c "priority") (hk_priority t) && key_filter staff (hk_assigned_to t)
                            && key_filter room (Some (hk_room_id t))) (housekeeping d))), d)
    end)) 500;
  mret (RespOK (HB_tasks rows)).

(** assigned_to as text, cast to a UUID by the server *)
Definition cast_uuid (v : string) : GoErr + option uuid := uuid_filter v.

Definition CreateTask (c : Ctx) (body : option createTaskRequest) : M (Resp HouseBody) (Resp HouseBody) :=
  req ← of_option body (RespError 400 "invalid request body");
  roomID ← of_option (uuid_parse (ct_RoomID req)) (RespError 400 "invalid room_id");
  taskID ← new_uuid;
  let priority := if ct_Priority req =s "" then "normal" else ct_Priority req in
  let taskType := if ct_TaskType req =s "" then "checkout_clean" else ct_TaskType req in
  now ← time_now;
  with_text (exec Pool (fun d =>
    match cast_uuid (ct_AssignedTo req) with
    | inl e => inl e
    | inr assignedTo => insert_task
        {| hk_id := taskID; hk_hotel_id := tenantHotelID c; hk_room_id := roomID; hk_assigned_to := assignedTo;
           hk_task_type := taskType; hk_priority := priority; hk_status := "pending"; hk_notes := nullif (ct_Notes req);
           hk_started_at := None; hk_completed_at := None; hk_inspected_by := None; hk_inspected_at := None;
           hk_scheduled_for := None; hk_guest_stay_id := None; hk_created_at := now; hk_updated_at := now |} d
    end)) 400 ;;
  mret (RespCreated (HB_task taskID roomID taskType priority)).

Definition set_task_fields (req : updateTaskRequest) (assignedTo : option uuid) (now : Time) (t : HousekeepingRow) : HousekeepingRow :=
  t <| hk_status ::= fun s => if ut_Status req !=s "" then ut_Status req else s |>
    <| hk_assigned_to ::= fun a => match assignedTo with Some u => Some u | None => a end |>
    <| hk_priority ::= fun p => if ut_Priority req !=s "" then ut_Priority req else p |>
    <| hk_notes ::= fun n => if ut_Notes req !=s "" then Some (ut_Notes req) else n |>
    <| hk_updated_at := now |>.
Definition update_task (h u : uuid) (req : updateTaskRequest) (now : Time) (d : DB) : GoErr + (nat * DB) :=
  match cast_uuid (ut_AssignedTo req) with
  | inl e => inl e
  | inr assignedTo => update_tasks (task_by_id h u) (set_task_fields req assignedTo now) d
  end.
Definition UpdateTask (c : Ctx) (body : option updateTaskRequest) : M (Resp HouseBody) (Resp HouseBody) :=
  id ← id_param c "invalid task id";
  req ← of_option body (RespError 400 "invalid request body");
  throw_if ((ut_Status req =s "") && (ut_AssignedTo req =s "") && (ut_Priority req =s "") && (ut_Notes req =s ""))
    (RespError 400 "no fields to update") ;;
  now ← time_now;
  n ← with_text (exec Pool (update_task (tenantHotelID c) id req now)) 400;
  throw_if (Nat.eqb n 0) (RespError 404 "task not found") ;;
  mret (RespOK HB_updated).

(** *** Lost property *)

Definition lost_view (d : DB) (r : LostItemRow) : lostItemResponse :=
  {| lp_ID := lo_id r; lp_RoomID := lo_room_id r; lp_GuestName := lo_guest_name r; lp_ItemName := lo_item_name r;
     lp_Description := lo_description r; lp_FoundBy := lo_found_by r; lp_FoundAt := lo_found_at r; lp_Status := lo_status r;
     lp_CreatedAt := lo_created_at r; lp_UpdatedAt := lo_updated_at r;
     lp_Room := u ← lo_room_id r; rm_room_number <$> find_row (fun r => ueq (rm_id r) u) (rooms d) |}.
Definition ListLostItems (c : Ctx) : M (Resp HouseBody) (Resp HouseBody) :=
  rows ← with_text (query Pool (fun d => map (lost_view d) (order_by (fun a b => t_ns (lo_created_at b) <=? t_ns (lo_created_at a))
           (select (fun r => ueq (lo_hotel_id r) (tenantHotelID c) && text_filter (c_query c "status") (lo_status r)) (lost_items d))))) 500;
  mret (RespOK (HB_lost_items rows)).

Definition CreateLostItem (c : Ctx) (body : option createLostItemRequest) : M (Resp HouseBody) (Resp HouseBody) :=
  req ← of_option body (RespError 400 "invalid request body");
  throw_if (cl_ItemName req =s "") (RespError 400 "item_name is required") ;;
  itemID ← new_uuid;
  now ← time_now;
  roomID ← (if cl_RoomID req !=s "" then u ← of_option (uuid_parse (cl_RoomID req)) (RespError 400 "invalid room_id"); mret (Some u)
            else mret None);
  with_text (exec Pool (fun d =>
    match cast_uuid (cl_FoundBy req) with
    | inl e => inl e
    | inr foundBy => insert_lost_item
        {| lo_id := itemID; lo_hotel_id := tenantHotelID c; lo_room_id := roomID; lo_guest_name := nullif (cl_GuestName req);
           lo_item_name := cl_ItemName req; lo_description := nullif (cl_Description req); lo_found_by := foundBy;
           lo_found_at := now; lo_status := "lost"; lo_created_at := now; lo_updated_at := now |} d
    end)) 400 ;;
  mret (RespCreated (HB_lost_item itemID (cl_ItemName req) now)).

Definition lost_outcomes : list string := ["claimed"; "returned"; "disposed"].
Definition UpdateLostItem (c : Ctx) (body : option string) : M (Resp HouseBody) (Resp HouseBody) :=
  id ← id_param c "invalid item id";
  status ← of_option body (RespError 400 "invalid request body");
  throw_if (negb (existsb (String.eqb status) lost_outcomes)) (RespError 400 "status must be claimed, returned, or disposed") ;;
  now ← time_now;
  with_text (exec Pool (fun d => inr (tt, d <| lost_items ::=
    update_rows (fun r => ueq (lo_id r) id && ueq (lo_hotel_id r) (tenantHotelID c))
      (fun r => r <| lo_status := status |> <| lo_updated_at := now |>) |>))) 400 ;;
  mret (RespOK (HB_lost_status status)).

(** *** Linen *)

Definition linen_view (l : LinenRow) : linenItemResponse :=
  {| lv_ID := li_id l; lv_ItemName := li_item_name l; lv_TotalCount := li_total_count l; lv_InUse := li_in_use l;
     lv_InLaundry := li_in_laundry l; lv_Damaged := li_damaged l; lv_CreatedAt := li_created_at l; lv_UpdatedAt := li_updated_at l |}.
Definition LinenInventory (c : Ctx) : M (Resp HouseBody) (Resp HouseBody) :=
  rows ← with_text (query Pool (fun d => map linen_view (order_by (fun a b => String.leb (li_item_name a) (li_item_name b))
           (select (fun l => ueq (li_hotel_id l) (tenantHotelID c)) (linen_inventory d))))) 500;
  mret (RespOK (HB_linen rows)).

Definition issue_linen (q : Z) (now : Time) (l : LinenRow) : LinenRow :=
  l <| li_in_use ::= fun n => n + q |> <| li_total_count ::= fun n => Z.max (n - q) 0 |> <| li_updated_at := now |>.
Definition IssueLinen (c : Ctx) (body : option linenIssueRequest) : M (Resp HouseBody) (Resp HouseBody) :=
  req ← of_option body (RespError 400 "invalid request body");
  linenID ← of_option (uuid_parse (is_LinenID req)) (RespError 400 "invalid linen_id");
  throw_if (is_Quantity req <=? 0) (RespError 400 "quantity must be positive") ;;
  txID ← new_uuid;
  now ← time_now;
  with_text (exec Pool (insert_linen_transaction
    {| lt_id := txID; lt_hotel_id := tenantHotelID c; lt_linen_id := linenID; lt_transaction_type := "issue";
       lt_quantity := is_Quantity req; lt_damaged := 0; lt_issued_to := nullableText (is_IssuedTo req);
       lt_notes := nullableText (is_Notes req); lt_created_at := now |})) 400 ;;
  now ← time_now;
  with_text (exec Pool (update_linen (tenantHotelID c) linenID [is_Quantity req] (issue_linen (is_Quantity req) now))) 400 ;;
  mret (RespCreated (HB_issued txID (is_Quantity req))).

Definition return_linen (q cleanQty damaged : Z) (now : Time) (l : LinenRow) : LinenRow :=
  l <| li_in_use ::= fun n => Z.max (n - q) 0 |> <| li_in_laundry ::= fun n => n + cleanQty |>
    <| li_damaged ::= fun n => n + damaged |> <| li_updated_at := now |>.
Definition ReturnLinen (c : Ctx) (body : option linenReturnRequest) : M (Resp HouseBody) (Resp HouseBody) :=
  req ← of_option body (RespError 400 "invalid request body");
  linenID ← of_option (uuid_parse (rt_LinenID req)) (RespError 400 "invalid linen_id");
  throw_if (rt_Quantity req <=? 0) (RespError 400 "quantity must be positive") ;;
  txID ← new_uuid;
  now ← time_now;
  with_text (exec Pool (insert_linen_transaction
    {| lt_id := txID; lt_hotel_id := tenantHotelID c; lt_linen_id := linenID; lt_transaction_type := "return";
       lt_quantity := rt_Quantity req; lt_damaged := rt_Damaged req; lt_issued_to := None;
       lt_notes := nullableText (rt_Notes req); lt_created_at := now |})) 400 ;;
  now ← time_now;
  let cleanQty := Z.max (rt_Quantity req - rt_Damaged req) 0 in
  with_text (exec Pool (update_linen (tenantHotelID c) linenID [rt_Quantity req; cleanQty; rt_Damaged req]
    (return_linen (rt_Quantity req) cleanQty (rt_Damaged req) now))) 400 ;;
  mret (RespCreated (HB_returned txID (rt_Quantity req) (rt_Damaged req))).

(** *** Sign-off and the due board *)

(** UPDATE ... WHERE status = 'completed' RETURNING room_id, status *)
Definition sign_off (h u : uuid) (status : string) (inspector : option uuid) (notes : string) (now : Time) (d : DB)
  : GoErr + (option (uuid * string) * DB) :=
  let p t := task_by_id h u t && (hk_status t =s "completed") in
  let f t := t <| hk_status := status |> <| hk_inspected_by := inspector |> <| hk_inspected_at := Some now |>
               <| hk_notes ::= fun n => if notes !=s "" then Some notes else n |> <| hk_updated_at := now |> in
  match find_row p (housekeeping d) with
  | None => inr (None, d)
  | Some t =>
      if negb (fk_user inspector d) then inl (ErrPg "23503")
      else match update_tasks p f d with
           | inl e => inl e
           | inr (_, d') => inr (Some (hk_room_id t, status), d')
           end
  end.
(** UPDATE rooms SET status = 'available' WHERE ... AND status = 'cleaning' *)
Definition release_room (h room : uuid) (now : Time) (d : DB) : unit * DB :=
  (tt, d <| rooms ::= update_rows (fun r => ueq (rm_id r) room && ueq (rm_hotel_id r) h && (rm_status r =s "cleaning"))
                        (fun r => r <| rm_status := "available" |> <| rm_updated_at := now |>) |>).

Definition InspectTask (c : Ctx) (body : InspectBody) : M (Resp HouseBody) (Resp HouseBody) :=
  id ← id_param c "invalid task id";
  req ← match body with
        | Bare => mret (true, "")
        | Unreadable => throw (RespError 400 "invalid request body")
        | Inspected passed notes => mret (passed, notes)
        end;
  let '(passed, notes) := req in
  let h := tenantHotelID c in
  let inspector := actorUserID c in
  let newStatus := if (passed : bool) then "inspected" else "pending" in
  now ← time_now;
  r ← on_err (o ← exec Pool (sign_off h id newStatus inspector (TrimSpace notes) now); of_option o ErrNoRows)
        (fun _ => RespError 409 "task not found for this property, or it has not been completed yet");
  let '(roomID, status) := r in
  (if passed then
     now ← time_now;
     on_err (exec Pool (fun d => inr (release_room h roomID now d))) (fun _ => RespError 500 "could not release the room")
   else mret tt) ;;
  mret (RespOK (HB_inspected id status passed roomID)).

Definition due_item (d : DB) (t : HousekeepingRow) (s : Time) : dueItem :=
  {| du_ID := hk_id t; du_RoomID := hk_room_id t;
     du_RoomNumber := rm_room_number <$> find_row (fun r => ueq (rm_id r) (hk_room_id t)) (rooms d);
     du_StayID := hk_guest_stay_id t;
     du_GuestName := u ← hk_guest_stay_id t; gs_guest_name <$> find_row (fun s => ueq (gs_id s) u) (guest_stays d);
     du_TaskType := hk_task_type t; du_Priority := hk_priority t; du_Status := hk_status t; du_ScheduledFor := fmt_rfc3339 s;
     du_Overdue := false; du_Notes := hk_notes t |}.
(** Unfinished work promised by then, earliest first *)
Definition due_rows (h : uuid) (until : Z) (d : DB) : list (dueItem * Time) :=
  map (fun r => (due_item d (fst r) (snd r), snd r))
    (order_by (fun a b => t_ns (snd a) <=? t_ns (snd b))
      (omap (fun t => s ← hk_scheduled_for t;
                      if ueq (hk_hotel_id t) h && ((hk_status t =s "pending") || (hk_status t =s "in_progress")) && (t_ns s <=? until)
                      then Some (t, s) else None) (housekeeping d))).
(** The clock is read again for each row. *)
Fixpoint mark_overdue {E} (rows : list (dueItem * Time)) : M E (list dueItem) :=
  match rows with
  | [] => mret []
  | (i, s) :: rows' =>
      now ← time_now; rest ← mark_overdue rows';
      mret (i <| du_Overdue := t_ns s <? t_ns now |> :: rest)
  end.
Definition ListDue (c : Ctx) : M (Resp HouseBody) (Resp HouseBody) :=
  let v := TrimSpace (c_query c "within_minutes") in
  within ← (if v !=s "" then
              match Atoi v with
              | Some n => if (n <? 0) || (1440 <? n) then throw (RespError 400 "within_minutes must be a whole number of minutes between 0 and 1440") else mret n
              | None => throw (RespError 400 "within_minutes must be a whole number of minutes between 0 and 1440")
              end
            else mret 60);
  now ← time_now;
  rows ← on_err (query Pool (due_rows (tenantHotelID c) (t_ns now + within * 60 * ns_per_s)))
           (fun _ => RespError 500 "failed to list due tasks");
  out ← mark_overdue rows;
  mret (RespOK (HB_due out)).

(** ** The routes, behind authGate *)

Inductive HouseOp :=
  | Op_ListTasks | Op_CreateTask (b : option createTaskRequest) | Op_UpdateTask (b : option updateTaskRequest) | Op_InspectTask (b : InspectBody)
  | Op_ListDue | Op_ListLostItems | Op_CreateLostItem (b : option createLostItemRequest) | Op_UpdateLostItem (b : option string)
  | Op_LinenInventory | Op_IssueLinen (b : option linenIssueRequest) | Op_ReturnLinen (b : option linenReturnRequest).
Definition house_route (op : HouseOp) (c : Ctx) : M (Resp HouseBody) (Resp HouseBody) :=
  match op with
  | Op_ListTasks => ListTasks c | Op_CreateTask b => CreateTask c b | Op_UpdateTask b => UpdateTask c b | Op_InspectTask b => InspectTask c b
  | Op_ListDue => ListDue c | Op_ListLostItems => ListLostItems c | Op_CreateLostItem b => CreateLostItem c b
  | Op_UpdateLostItem b => UpdateLostItem c b | Op_LinenInventory => LinenInventory c
  | Op_IssueLinen b => IssueLinen c b | Op_ReturnLinen b => ReturnLinen c b
  end.
Record HouseRequest := { hq_ctx : Ctx; hq_op : HouseOp }.
Definition house_handle (rq : HouseRequest) : M (Resp HouseBody) (Resp HouseBody) :=
  match authGate secret (hq_ctx rq) with
  | inl (status, msg) => throw (RespError status msg)
  | inr c => house_route (hq_op rq) c
  end.
Definition house_serve_all (rqs : list HouseRequest) (w : World) : World :=
  foldl (fun w rq => snd (serve (house_handle rq) w)) w rqs.
End Housekeeping.
