(* ===== verification/HousekeepingSpec.v ===== *)
(** HousekeepingSpec: what the floor may change.  A room goes back to sale only
    when work completed on it passes an inspection, and does go back then; linen
    counts move as the store's two rules say; and the rows stay well-typed
    whatever the requests. *)

From S2P Require Import Prelude GoLib Schema Binary64 World Auth Guards Domain RoomRepo Ledger Settlement Reservations FrontDesk DeskSpec Lifecycle Accounting Housekeeping.
From Stdlib Require Import QArith.
Local Open Scope string_scope.
Local Open Scope Z_scope.

(** ** What the endpoints write *)

Section Writes.
Context {env : Env} {jwt : Jwt} (secret : string) (I : DB -> Prop).
Hypothesis new_task : forall t d, I d -> task_refused t d = None -> I (d <| housekeeping ::= insert_row t |>).
Hypothesis new_tasks : forall p f d, I d -> (forall t, In t (housekeeping d) -> p t = true -> task_refused (f t) d = None) ->
  I (d <| housekeeping ::= update_rows p f |>).
Hypothesis new_lost : forall r d, I d -> lo_status r = "lost" -> I (d <| lost_items ::= insert_row r |>).
Hypothesis new_outcome : forall p status now d, I d -> In status lost_outcomes ->
  I (d <| lost_items ::= update_rows p (fun r => r <| lo_status := status |> <| lo_updated_at := now |>) |>).
Hypothesis new_movement : forall r d, I d -> 0 < lt_quantity r -> int_fits (lt_quantity r) = true -> int_fits (lt_damaged r) = true ->
  (lt_transaction_type r = "issue" \/ lt_transaction_type r = "return") -> exists_row (fun l => ueq (li_id l) (lt_linen_id r)) (linen_inventory d) = true ->
  I (d <| linen_transactions ::= insert_row r |>).
Hypothesis new_counts : forall h u f d q, I d -> 0 < q -> ((exists now, f = issue_linen q now) \/ (exists g now, f = return_linen q (Z.max (q - g) 0) g now)) ->
  (forall l, In l (linen_inventory d) -> linen_by_id h u l = true -> linen_fits (f l) = true) ->
  I (d <| linen_inventory ::= update_rows (linen_by_id h u) f |>).

Lemma update_tasks_inv p f d n d' :
  update_tasks p f d = inr (n, d') ->
  d' = d <| housekeeping ::= update_rows p f |> /\ forall t, In t (housekeeping d) -> p t = true -> task_refused (f t) d = None.
Proof.
  unfold update_tasks. destruct (omap _ _) eqn:E; [|discriminate]. intros [= <- <-]. split; [reflexivity|]. intros t Ht Hp.
  destruct (task_refused (f t) d) as [e|] eqn:Et; [|reflexivity]. exfalso.
  assert (Hi : e ∈ omap (fun t => if p t then task_refused (f t) d else None) (housekeeping d)).
  { apply list_elem_of_omap. exists t. rewrite list_elem_of_In, Hp. auto. }
  rewrite E in Hi. inversion Hi.
Qed.
Lemma keeps_insert_task t (d d' : DB) u : I d -> insert_task t d = inr (u, d') -> I d'.
Proof. unfold insert_task. destruct (task_refused t d) eqn:E; [discriminate|]. intros H [= _ <-]. auto. Qed.
Lemma keeps_update_task h u req now d n d' : I d -> update_task h u req now d = inr (n, d') -> I d'.
Proof.
  unfold update_task. destruct (cast_uuid _); [discriminate|]. intros H E. apply update_tasks_inv in E as [-> E]. auto.
Qed.
Lemma keeps_insert_lost r (d d' : DB) u : I d -> insert_lost_item r d = inr (u, d') -> lo_status r = "lost" -> I d'.
Proof. unfold insert_lost_item. destruct (negb _); [discriminate|]. intros H [= _ <-] Hs. auto. Qed.
Lemma keeps_insert_movement r (d d' : DB) u : I d -> insert_linen_transaction r d = inr (u, d') ->
  0 < lt_quantity r -> (lt_transaction_type r = "issue" \/ lt_transaction_type r = "return") -> I d'.
Proof.
  unfold insert_linen_transaction. destruct (int_fits (lt_quantity r)) eqn:E1, (int_fits (lt_damaged r)) eqn:E2; try discriminate.
  destruct (exists_row _ _) eqn:E3; [|discriminate]. intros H [= _ <-] Hq Hk. apply new_movement; assumption.
Qed.
Lemma keeps_update_linen h u amounts f q d v d' : I d -> 0 < q -> ((exists now, f = issue_linen q now) \/ (exists g now, f = return_linen q (Z.max (q - g) 0) g now)) ->
  update_linen h u amounts f d = inr (v, d') -> I d'.
Proof.
  unfold update_linen. destruct (negb _); [discriminate|]. cbn [orb]. destruct (exists_row _ _) eqn:E; [discriminate|]. intros H Hq Hf [= _ <-]. apply new_counts with (q := q); [assumption..|].
  intros l Hl Hp. destruct (linen_fits (f l)) eqn:El; [reflexivity|]. exfalso.
  apply not_true_iff_false in E. apply E. apply existsb_exists. exists l. rewrite Hp, El. auto.
Qed.
Lemma keeps_sign_off h u status inspector notes now d o d' : I d -> sign_off h u status inspector notes now d = inr (o, d') -> I d'.
Proof.
  unfold sign_off. cbv zeta. intros H. destruct (find_row _ _); [|intros [= _ <-]; exact H].
  destruct (negb (fk_user _ _)); [discriminate|]. destruct (update_tasks _ _ _) as [|[n d1]] eqn:E; [discriminate|].
  intros [= _ <-]. apply update_tasks_inv in E as [-> E]. auto.
Qed.

Ltac house_go := repeat first [keeps_step | apply keeps_exec; intros ? ? ?].

Lemma keeps_then_throw_if {E B} (b : bool) (e : E) (k : unit -> M E B) :
  (b = false -> keeps I (k tt)) -> keeps I (throw_if b e ≫= k).
Proof. destruct b; intros H w Hw; [exact Hw | exact (H eq_refl w Hw)]. Qed.

Definition inspects (op : HouseOp) : bool := match op with Op_InspectTask _ => true | _ => false end.
Lemma keeps_CreateTask c b : keeps I (CreateTask c b).
Proof. unfold CreateTask, with_text. house_go. destruct (cast_uuid _); [discriminate | eapply keeps_insert_task; eassumption]. Qed.
Lemma keeps_UpdateTask c b : keeps I (UpdateTask c b).
Proof. unfold UpdateTask, with_text, id_param. house_go. eapply keeps_update_task; eassumption. Qed.
Lemma keeps_CreateLostItem c b : keeps I (CreateLostItem c b).
Proof.
  unfold CreateLostItem, with_text. house_go; (destruct (cast_uuid _); [discriminate | intros Hd Ed; exact (keeps_insert_lost _ _ _ _ Hd Ed eq_refl)]).
Qed.
Lemma keeps_UpdateLostItem c b : keeps I (UpdateLostItem c b).
Proof.
  unfold UpdateLostItem, with_text, id_param. apply stable_bind; [house_go|intros id]. apply stable_bind; [house_go|intros status].
  apply keeps_then_throw_if. intros E. house_go. intros Hd [= _ <-]. apply new_outcome; [exact Hd|].
  apply negb_false_iff, existsb_exists in E as (s & Hs & ->%String.eqb_eq). exact Hs.
Qed.
Lemma keeps_IssueLinen c b : keeps I (IssueLinen c b).
Proof.
  unfold IssueLinen, with_text. apply stable_bind; [house_go|intros req]. apply stable_bind; [house_go|intros id].
  apply keeps_then_throw_if. intros Hq%Z.leb_gt. house_go.
  - intros Hd Ed. exact (keeps_insert_movement _ _ _ _ Hd Ed Hq (or_introl eq_refl)).
  - intros. eapply keeps_update_linen; [eassumption | exact Hq | left; eexists; reflexivity | eassumption].
Qed.
Lemma keeps_ReturnLinen c b : keeps I (ReturnLinen c b).
Proof.
  unfold ReturnLinen, with_text. apply stable_bind; [house_go|intros req]. apply stable_bind; [house_go|intros id].
  apply keeps_then_throw_if. intros Hq%Z.leb_gt. house_go.
  - intros Hd Ed. exact (keeps_insert_movement _ _ _ _ Hd Ed Hq (or_intror eq_refl)).
  - intros. eapply keeps_update_linen; [eassumption | exact Hq | right; do 2 eexists; reflexivity | eassumption].
Qed.
Lemma keeps_mark_overdue {E} l : keeps I (mark_overdue l : M E _).
Proof. induction l as [|[i s] l IH]; cbn; house_go. Qed.
(** Every endpoint but the sign-off leaves the rooms alone. *)
Lemma keeps_other_routes op c : inspects op = false -> keeps I (house_route op c).
Proof.
  destruct op; cbn; try discriminate; intros _;
    [ | apply keeps_CreateTask | apply keeps_UpdateTask | | | apply keeps_CreateLostItem | apply keeps_UpdateLostItem | |
      apply keeps_IssueLinen | apply keeps_ReturnLinen ].
  - unfold ListTasks, with_text. house_go. destruct (uuid_filter _); [discriminate|]. destruct (uuid_filter _); [discriminate|].
    intros ? [= _ <-]. assumption.
  - unfold ListDue. house_go; apply keeps_mark_overdue.
  - unfold ListLostItems, with_text. house_go.
  - unfold LinenInventory, with_text. house_go.
Qed.
Lemma keeps_InspectTask c b :
  (forall h room now d, I d -> I (snd (release_room h room now d))) -> keeps I (InspectTask c b).
Proof.
  intros Hr. unfold InspectTask, id_param. house_go.
  - intros. eapply keeps_sign_off; eassumption.
  - intros ? [= _ <-]. now apply Hr.
Qed.
End Writes.

(** ** Well-typed rows *)

Definition lost_typed (r : LostItemRow) : Prop := In (lo_status r) ("lost" :: lost_outcomes).
Definition linen_typed (l : LinenRow) : Prop := linen_fits l = true /\ 0 <= li_total_count l /\ 0 <= li_in_use l /\ 0 <= li_in_laundry l.
Definition movement_typed (d : DB) (r : LinenTransactionRow) : Prop :=
  (lt_transaction_type r = "issue" \/ lt_transaction_type r = "return") /\ 0 < lt_quantity r /\ int_fits (lt_quantity r) = true
  /\ int_fits (lt_damaged r) = true /\ exists l, In l (linen_inventory d) /\ li_id l = lt_linen_id r.
Record floor_typed (d : DB) : Prop := {
  ft_tasks : forall t, In t (housekeeping d) -> task_refused t d = None;
  ft_lost : forall r, In r (lost_items d) -> lost_typed r;
  ft_linen : forall l, In l (linen_inventory d) -> linen_typed l;
  ft_movements : forall r, In r (linen_transactions d) -> movement_typed d r }.

Lemma exists_row_update {R} (p q : R -> bool) f t : (forall r, p (f r) = p r) -> exists_row p (update_rows q f t) = exists_row p t.
Proof.
  intros H. unfold exists_row, update_rows. induction t as [|r t IH]; cbn; [reflexivity|]. rewrite IH. destruct (q r); [rewrite H|]; reflexivity.
Qed.
Lemma typed_insert_task t d : floor_typed d -> task_refused t d = None -> floor_typed (d <| housekeeping ::= insert_row t |>).
Proof. intros [H1 H2 H3 H4] Ht. split; [|exact H2 | exact H3 | exact H4]. intros x [Hx | ->]%in_insert_row; [now apply H1 | exact Ht]. Qed.
Lemma typed_update_tasks p f d : floor_typed d -> (forall t, In t (housekeeping d) -> p t = true -> task_refused (f t) d = None) ->
  floor_typed (d <| housekeeping ::= update_rows p f |>).
Proof.
  intros [H1 H2 H3 H4] Hf. split; [|exact H2 | exact H3 | exact H4]. intros x (t & Ht & ->)%in_update_rows.
  destruct (p t) eqn:E; [now apply Hf | now apply H1].
Qed.
Lemma typed_release h room now d : floor_typed d -> floor_typed (snd (release_room h room now d)).
Proof.
  intros [H1 H2 H3 H4]. split; [|exact H2 | exact H3 | exact H4]. intros t Ht. specialize (H1 t Ht).
  unfold task_refused, fk_room, release_room in *. cbn [snd set] in *. cbn. rewrite exists_row_update; [exact H1 | reflexivity].
Qed.
Lemma typed_counts h u f d q : floor_typed d -> 0 < q -> ((exists now, f = issue_linen q now) \/ (exists g now, f = return_linen q (Z.max (q - g) 0) g now)) ->
  (forall l, In l (linen_inventory d) -> linen_by_id h u l = true -> linen_fits (f l) = true) ->
  floor_typed (d <| linen_inventory ::= update_rows (linen_by_id h u) f |>).
Proof.
  intros [H1 H2 H3 H4] Hq Hf Hfit. split; [exact H1 | exact H2 | |].
  - intros x (l & Hl & ->)%in_update_rows. destruct (linen_by_id h u l) eqn:E; [|now apply H3]. specialize (Hfit l Hl E).
    split; [exact Hfit|]. destruct (H3 l Hl) as (_ & G1 & G2 & G3). destruct Hf as [(now & ->)|(g & now & ->)]; cbn; lia.
  - intros r Hr. destruct (H4 r Hr) as (G1 & G2 & G3 & G4 & l & Hl & E). split; [exact G1|]. do 3 (split; [assumption|]).
    exists (if linen_by_id h u l then f l else l). split; [apply in_update_rows; eauto|].
    destruct (linen_by_id h u l); [|exact E]. destruct Hf as [(now & ->)|(g & now & ->)]; exact E.
Qed.

Lemma typed_route {env : Env} op c : keeps floor_typed (house_route op c).
Proof.
  assert (G1 : forall r d, floor_typed d -> lo_status r = "lost" -> floor_typed (d <| lost_items ::= insert_row r |>)).
  { intros r d [H1 H2 H3 H4] Hr. split; [exact H1 | | exact H3 | exact H4]. intros x [Hx | ->]%in_insert_row; [now apply H2|]. left. now rewrite Hr. }
  assert (G2 : forall p status now d, floor_typed d -> In status lost_outcomes ->
    floor_typed (d <| lost_items ::= update_rows p (fun r => r <| lo_status := status |> <| lo_updated_at := now |>) |>)).
  { intros p status now d [H1 H2 H3 H4] Hs. split; [exact H1 | | exact H3 | exact H4]. intros x (r & Hr & ->)%in_update_rows.
    destruct (p r); [now right | now apply H2]. }
  assert (G3 : forall r d, floor_typed d -> 0 < lt_quantity r -> int_fits (lt_quantity r) = true -> int_fits (lt_damaged r) = true ->
    (lt_transaction_type r = "issue" \/ lt_transaction_type r = "return") -> exists_row (fun l => ueq (li_id l) (lt_linen_id r)) (linen_inventory d) = true ->
    floor_typed (d <| linen_transactions ::= insert_row r |>)).
  { intros r d [H1 H2 H3 H4] Q1 Q2 Q3 Q4 (l & Hl & E%N.eqb_eq)%exists_row_true. split; [exact H1 | exact H2 | exact H3 |].
    intros x [Hx | ->]%in_insert_row; [now apply H4|]. split; [exact Q4|]. do 3 (split; [assumption|]). exists l. auto. }
  destruct (inspects op) eqn:E; [destruct op as [| | |b| | | | | | |]; try discriminate | ].
  - apply keeps_InspectTask; [apply typed_update_tasks | apply typed_release].
  - apply keeps_other_routes; [apply typed_insert_task | apply typed_update_tasks | exact G1 | exact G2 | exact G3 | apply typed_counts | exact E].
Qed.

(** C25: whatever requests the floor serves and whatever statements fail, every row
    it keeps stays well-typed: tasks are of a known kind, within the columns, on an
    existing room and staff; lost items are lost, claimed, returned or disposed;
    linen counts fit their columns and those in store, in use and in laundry are
    never negative; movements are issues or returns of positive quantities of linen
    there is. *)
Theorem floor_stays_typed (env : Env) (jwt : Jwt) secret rqs w (Hw : w_tx w = NoTx) (Hd : floor_typed (w_db w)) :
  floor_typed (w_db (house_serve_all secret rqs w)) /\ w_tx (house_serve_all secret rqs w) = NoTx.
Proof.
  unfold house_serve_all. revert w Hw Hd. induction rqs as [|rq rqs IH]; intros w Hw Hd; cbn; [auto|]. apply IH.
  - unfold serve. destruct (house_handle secret rq w) as [[|] ?]; reflexivity.
  - apply keeps_serve; [|rewrite Hw; split; auto]. unfold house_handle. destruct (authGate _ _) as [[? ?]|]; [apply stable_throw | apply typed_route].
Qed.

(** ** Rooms *)

(** A row is replaced only by a passed inspection: the room was being cleaned, work
    on it was complete, and that task now names the inspector. *)
Definition released {env : Env} (c : Ctx) (d d' : DB) (r r' : RoomRow) : Prop :=
  exists t t' now, rm_status r = "cleaning" /\ r' = r <| rm_status := "available" |> <| rm_updated_at := now |>
    /\ rm_hotel_id r = tenantHotelID c
    /\ In t (housekeeping d) /\ hk_hotel_id t = tenantHotelID c /\ hk_room_id t = rm_id r /\ hk_status t = "completed"
    /\ In t' (housekeeping d') /\ hk_id t' = hk_id t /\ hk_status t' = "inspected" /\ hk_inspected_by t' = actorUserID c.

Section Rooms.
Context {env : Env} {jwt : Jwt} (secret : string).

Lemma inert_mark_overdue {E} l : inert Pool (mark_overdue l : M E _).
Proof. induction l as [|[i s] l IH]; cbn; inert_go. Qed.
Lemma rooms_kept op c d : inspects op = false ->
  ensures (house_route op c) d (fun _ d' => rooms d' = rooms d) (fun _ d' => rooms d' = rooms d).
Proof.
  intros E. apply ens_keeps; [apply keeps_other_routes; auto | | reflexivity].
  destruct op; cbn in *; try discriminate;
    unfold ListTasks, CreateTask, UpdateTask, ListDue, ListLostItems, CreateLostItem, UpdateLostItem, LinenInventory, IssueLinen, ReturnLinen, with_text, id_param;
    inert_go; apply inert_mark_overdue.
Qed.

Lemma sign_off_inv h u status inspector notes now d o d' :
  sign_off h u status inspector notes now d = inr (o, d') ->
  rooms d' = rooms d /\ match o with
  | None => d' = d
  | Some (room, s) => s = status /\ exists t t', In t (housekeeping d) /\ hk_hotel_id t = h /\ hk_id t = u /\ hk_room_id t = room /\ hk_status t = "completed"
      /\ In t' (housekeeping d') /\ hk_id t' = u /\ hk_status t' = status /\ hk_inspected_by t' = inspector
  end.
Proof.
  unfold sign_off. cbv zeta. destruct (find_row _ _) as [t|] eqn:Ef; [|intros [= <- <-]; auto].
  apply find_row_some in Ef as [Ht Hp]. destruct (negb (fk_user _ _)); [discriminate|].
  destruct (update_tasks _ _ _) as [|[n d1]] eqn:E; [discriminate|]. intros [= <- <-]. apply update_tasks_inv in E as [-> _].
  split; [reflexivity|]. split; [reflexivity|]. pose proof Hp as Hp'. apply andb_true_iff in Hp' as [[H1 H2]%andb_true_iff H3].
  apply N.eqb_eq in H1, H2. apply String.eqb_eq in H3. do 2 eexists. do 5 (split; [eassumption || reflexivity|]).
  split; [apply in_update_rows; exists t; split; [exact Ht | reflexivity]|]. cbv beta. rewrite Hp. auto.
Qed.

Lemma released_refl d d' c rows : Forall2 (fun r r' => r' = r \/ released c d d' r r') rows rows.
Proof. induction rows; constructor; auto. Qed.
Lemma inspection_releases c b d :
  ensures (InspectTask c b) d
    (fun a d' => Forall2 (fun r r' => r' = r \/ released c d d' r r') (rooms d) (rooms d')
                 /\ (rooms d' = rooms d \/ exists id room, a = RespOK (HB_inspected id "inspected" true room)))
    (fun _ d' => rooms d' = rooms d).
Proof.
  unfold InspectTask, id_param. apply ens_then_option; [auto|]. intros id _.
  eapply ens_bind with (Q1 := fun _ d' => d' = d); [destruct b; [now apply ens_ret | now apply ens_throw | now apply ens_ret]|].
  intros [passed notes] d' ->. cbv zeta. apply ens_then_now. intros now.
  eapply ens_bind with (Q1 := fun rs d' => sign_off (tenantHotelID c) id (if passed then "inspected" else "pending") (actorUserID c) (TrimSpace notes) now d = inr (Some rs, d')).
  { apply ens_on_err. eapply ens_bind with (Q1 := fun o d' => sign_off (tenantHotelID c) id (if passed then "inspected" else "pending") (actorUserID c) (TrimSpace notes) now d = inr (o, d')).
    - apply ens_exec; [reflexivity|]. destruct (sign_off _ _ _ _ _ _ d) as [|[o d1]] eqn:E; reflexivity.
    - intros [rs|] d1 E; [now apply ens_ret | apply ens_throw]. apply (sign_off_inv _ _ _ _ _ _ _ _ _ E). }
  intros [room status] d1 E. apply sign_off_inv in E as (Hr & -> & t & t' & H1 & H2 & H3 & H4 & H5 & H6 & H7 & H8 & H9).
  destruct passed.
  - eapply ens_bind with (Q1 := fun _ d2 => Forall2 (fun r r' => r' = r \/ released c d d2 r r') (rooms d) (rooms d2)); [|intros _ d2 H; apply ens_ret; eauto].
    apply ens_then_now. intros now2. apply ens_on_err, ens_exec; [exact Hr|]. unfold release_room. cbn. rewrite Hr.
    clear Hr. unfold update_rows. induction (rooms d) as [|r rows IH]; cbn; constructor; [|exact IH].
    destruct (_ && _) eqn:Ep; [|auto]. right. apply andb_true_iff in Ep as [[E1%N.eqb_eq E2%N.eqb_eq]%andb_true_iff E3%String.eqb_eq].
    exists t, t', now2. repeat split; congruence || assumption.
  - eapply ens_bind with (Q1 := fun _ d2 => d2 = d1); [now apply ens_ret|]. intros _ d2 ->. apply ens_ret. rewrite Hr. split; [apply released_refl | auto].
Qed.
End Rooms.

(** ** A room's way back to sale *)

Section Return.
Context {env : Env} {jwt : Jwt} (secret : string).
Hypothesis calm_server : forall n, db_fault n = false.

(** Without a fault the request is answered, and leaves what it returns. *)
Lemma runs_serve {B} (m : M (Resp B) (Resp B)) d Q w :
  sees Pool w d -> runs Pool m d Q (fun _ => False) ->
  exists a w', serve m w = (a, w') /\ sees Pool w' (w_db w') /\ Q a (w_db w').
Proof.
  intros Hw Hm. destruct (runs_calm m d Q w calm_server Hw Hm) as (a & w' & E & _ & H). unfold serve. rewrite E.
  do 2 eexists. split; [reflexivity|]. split; [split; reflexivity | exact H].
Qed.

Definition completion : updateTaskRequest := {| ut_Status := "completed"; ut_AssignedTo := ""; ut_Priority := ""; ut_Notes := "" |}.
Definition complete (now : Time) : HousekeepingRow -> HousekeepingRow := set_task_fields completion None now.

Lemma update_tasks_ok p f d : (forall t, In t (housekeeping d) -> p t = true -> task_refused (f t) d = None) ->
  update_tasks p f d = inr (rows_affected p (housekeeping d), d <| housekeeping ::= update_rows p f |>).
Proof.
  intros H. unfold update_tasks. destruct (omap _ _) as [|e l] eqn:E; [reflexivity|]. exfalso.
  assert (He : e ∈ e :: l) by left. rewrite <- E in He. apply list_elem_of_omap in He as (t & Ht & Hr). rewrite list_elem_of_In in Ht.
  destruct (p t) eqn:Ep; [|discriminate]. rewrite (H t Ht Ep) in Hr. discriminate.
Qed.
(** Neither of the two statuses is refused where the old one was not. *)
Lemma refused_status t s d : (String.length s <= 20)%nat -> task_refused t d = None -> task_refused (t <| hk_status := s |>) d = None.
Proof.
  intros Hs. unfold task_refused; cbn. destruct (Nat.leb (String.length (hk_task_type t)) 30), (Nat.leb (String.length (hk_priority t)) 10); try discriminate; cbn.
  apply Nat.leb_le in Hs. rewrite Hs. destruct (Nat.leb (String.length (hk_status t)) 20); [auto | discriminate].
Qed.

Variables (c : Ctx) (u : uuid) (d : DB).
Hypothesis typed : floor_typed d.
Hypothesis here : uuid_parse (c_params c "id") = Some u.
Local Abbreviation h := (tenantHotelID c).
Local Abbreviation mine := (task_by_id h u).

Lemma completes : rows_affected mine (housekeeping d) <> 0%nat ->
  runs Pool (UpdateTask c (Some completion)) d
    (fun a d' => a = RespOK HB_updated /\ exists now, d' = d <| housekeeping ::= update_rows mine (complete now) |>) (fun _ => False).
Proof.
  intros Hn. unfold UpdateTask, id_param, with_text. rewrite here. apply runs_then_of_option; [intros; inert_go|].
  apply runs_then_of_option; [intros; inert_go|]. apply runs_then_throw_if; [inert_go|]. cbn [completion ut_Status ut_AssignedTo ut_Priority ut_Notes andb String.eqb].
  apply runs_now; [intros; inert_go|]. intros now.
  apply (runs_bind Pool _ _ d (fun n d' => n = rows_affected mine (housekeeping d) /\ d' = d <| housekeeping ::= update_rows mine (complete now) |>)); [| intros; inert_go |].
  - apply runs_on_err, runs_exec. unfold update_task. cbn [cast_uuid uuid_filter completion ut_AssignedTo String.eqb negb].
    rewrite update_tasks_ok; [split; reflexivity|]. intros t Ht _. apply (refused_status t "completed" d); [cbn; lia | apply typed, Ht].
  - intros n d' [-> ->]. apply runs_then_throw_if; [inert_go|]. destruct (Nat.eqb_spec (rows_affected mine (housekeeping d)) 0); [contradiction|].
    apply runs_ret. eauto.
Qed.

Lemma signs_off t : find_row (fun t => mine t && (hk_status t =s "completed")) (housekeeping d) = Some t -> fk_user (actorUserID c) d = true ->
  runs Pool (InspectTask c Bare) d
    (fun a d' => a = RespOK (HB_inspected u "inspected" true (hk_room_id t)) /\ exists now, rooms d' = rooms (snd (release_room h (hk_room_id t) now d)))
    (fun _ => False).
Proof.
  intros Ht Hu. unfold InspectTask, id_param. rewrite here. apply runs_then_of_option; [intros; inert_go|].
  apply (runs_bind Pool _ _ d (fun r d' => r = (true, "") /\ d' = d)); [apply runs_ret; auto | intros [? ?]; inert_go|].
  intros r d' [-> ->]. cbv zeta. apply runs_now; [intros; inert_go|]. intros now.
  apply (runs_bind Pool _ _ d (fun r d' => r = (hk_room_id t, "inspected") /\ rooms d' = rooms d)); [| intros [? ?]; inert_go |].
  - apply runs_on_err. eapply runs_bind with (Q1 := fun o d' => o = Some (hk_room_id t, "inspected") /\ rooms d' = rooms d); [| intros; inert_go |].
    + apply runs_exec. unfold sign_off. cbv zeta. rewrite Ht, Hu. cbn [negb TrimSpace]. rewrite update_tasks_ok; [split; reflexivity|].
      intros t1 H1 _. apply (refused_status t1 "inspected" d); [cbn; lia | apply typed, H1].
    + intros o d' [-> Hr]. apply runs_ret. auto.
  - intros r d1 [-> Hr]. eapply runs_bind with (Q1 := fun _ d2 => exists now, rooms d2 = rooms (snd (release_room h (hk_room_id t) now d))); [| intros; inert_go |].
    + apply runs_now; [intros; inert_go|]. intros now2. apply runs_on_err, runs_exec. cbn. rewrite Hr. eauto.
    + intros [] d2 H. apply runs_ret. auto.
Qed.
End Return.

(** C23: whatever fails, a request of the floor changes a room only by passing an
    inspection, and then only a room of the caller's hotel that was being cleaned,
    on which a task was complete; the room becomes available, and the task is left
    signed off by the caller.  Nothing else changes a room, and a refused request
    never does. *)
Theorem rooms_released_by_inspection (env : Env) (jwt : Jwt) secret rq d :
  ensures (house_handle secret rq) d
    (fun a d' => Forall2 (fun r r' => r' = r \/ exists c, authGate secret (hq_ctx rq) = inr c /\ released c d d' r r') (rooms d) (rooms d')
                 /\ (rooms d' = rooms d \/ exists id room, a = RespOK (HB_inspected id "inspected" true room)))
    (fun _ d' => rooms d' = rooms d).
Proof.
  unfold house_handle. destruct (authGate _ _) as [[st msg]|c] eqn:Eg; [now apply ens_throw|].
  assert (Hsame : forall d', rooms d' = rooms d -> Forall2 (fun r r' => r' = r \/ exists c', (inr c : (Z * string) + Ctx) = inr c' /\ released c' d d' r r') (rooms d) (rooms d')).
  { intros d' ->. clear. induction (rooms d); constructor; auto. }
  destruct (inspects (hq_op rq)) eqn:Ei.
  - destruct (hq_op rq); try discriminate. eapply ens_post; [apply inspection_releases| |auto]. intros a d' [H1 H2]. split; [|exact H2].
    eapply Forall2_impl; [|exact H1]. intros r r' [H|H]; eauto.
  - eapply ens_post; [apply rooms_kept, Ei| |auto]. intros a d' H. auto.
Qed.

(** C24: with no statement failing, a room being cleaned always gets back to sale:
    whatever state its task is in, marking it complete and then passing its
    inspection, with the bare request of the door, are both accepted, and leave the
    room available. *)
Theorem departed_room_returns_to_sale (env : Env) (jwt : Jwt) secret ctx1 ctx2 c1 c2 t d w
  (Hcalm : forall n, db_fault n = false) (Hw : sees Pool w d) (Hd : floor_typed d) (Hids : NoDup (map hk_id (housekeeping d)))
  (Hg1 : authGate secret ctx1 = inr c1) (Hh1 : tenantHotelID c1 = hk_hotel_id t) (Hp1 : uuid_parse (c_params c1 "id") = Some (hk_id t))
  (Hg2 : authGate secret ctx2 = inr c2) (Hh2 : tenantHotelID c2 = hk_hotel_id t) (Hp2 : uuid_parse (c_params c2 "id") = Some (hk_id t))
  (Ht : In t (housekeeping d)) (Hu : fk_user (actorUserID c2) d = true) :
  let '(a1, w1) := serve (house_handle secret {| hq_ctx := ctx1; hq_op := Op_UpdateTask (Some completion) |}) w in
  let '(a2, w2) := serve (house_handle secret {| hq_ctx := ctx2; hq_op := Op_InspectTask Bare |}) w1 in
  a1 = RespOK HB_updated /\ a2 = RespOK (HB_inspected (hk_id t) "inspected" true (hk_room_id t))
  /\ forall r, In r (rooms d) -> rm_id r = hk_room_id t -> rm_hotel_id r = hk_hotel_id t -> rm_status r = "cleaning" ->
     exists now, In (r <| rm_status := "available" |> <| rm_updated_at := now |>) (rooms (w_db w2)).
Proof.
  unfold house_handle. cbn [hq_ctx hq_op house_route]. rewrite Hg1, Hg2.
  assert (Hmine : task_by_id (tenantHotelID c1) (hk_id t) t = true) by (unfold task_by_id, ueq; now rewrite Hh1, !N.eqb_refl).
  destruct (runs_serve Hcalm _ d _ w Hw (completes c1 (hk_id t) d Hd Hp1 (proj2 (rows_affected_pos _ _) (ex_intro _ t (conj Ht Hmine)))))
    as (a1 & w1 & -> & Hw1 & -> & now & E).
  set (f := complete now) in *. set (p := task_by_id (tenantHotelID c1) (hk_id t)) in *.
  assert (Hd1 : floor_typed (w_db w1)).
  { rewrite E. apply typed_update_tasks; [exact Hd|]. intros x Hx _. apply (refused_status x "completed" d); [cbn; lia | apply Hd, Hx]. }
  assert (Hf : exists t1, find_row (fun x => task_by_id (tenantHotelID c2) (hk_id t) x && (hk_status x =s "completed")) (housekeeping (w_db w1)) = Some t1
                          /\ hk_room_id t1 = hk_room_id t).
  { destruct (find_row _ _) as [t1|] eqn:Ef.
    - exists t1. split; [reflexivity|]. apply find_row_some in Ef as [Hi [[H1%N.eqb_eq H2]%andb_true_iff H3]%andb_true_iff].
      rewrite E in Hi. apply in_update_rows in Hi as (x & Hx & ->). destruct (p x);
        (assert (x = t) as -> by (eapply (NoDup_map_inj hk_id); eauto)); reflexivity.
    - exfalso. eapply find_row_none with (r := f t) in Ef; [|rewrite E; apply in_update_rows; exists t; rewrite Hmine; auto].
      unfold task_by_id, ueq in Ef. rewrite Hh2 in Ef. cbn in Ef. rewrite !N.eqb_refl in Ef. discriminate. }
  destruct Hf as (t1 & Hf & Hroom).
  assert (Hu1 : fk_user (actorUserID c2) (w_db w1) = true) by (rewrite E; exact Hu).
  destruct (runs_serve Hcalm _ _ _ w1 Hw1 (signs_off c2 (hk_id t) (w_db w1) Hd1 Hp2 t1 Hf Hu1)) as (a2 & w2 & -> & _ & -> & now2 & E2).
  split; [reflexivity|]. rewrite Hroom in *. split; [reflexivity|]. intros r Hr H1 H2 H3. exists now2. rewrite E2, E. cbn.
  apply in_update_rows. exists r. split; [exact Hr|]. unfold ueq. now rewrite H1, Hh2, H2, !N.eqb_refl, H3.
Qed.

(** ** Linen *)

Definition pieces (l : LinenRow) : Z := li_total_count l + li_in_use l + li_in_laundry l + li_damaged l.
(** The movement on record. *)
Definition recorded (h u : uuid) (kind : string) (q g : Z) (d d' : DB) : Prop :=
  exists tx, linen_transactions d' = insert_row tx (linen_transactions d) /\ lt_hotel_id tx = h /\ lt_linen_id tx = u
             /\ lt_transaction_type tx = kind /\ lt_quantity tx = q /\ lt_damaged tx = g.
(** One item's counts gain [made] pieces; no other item changes. *)
Definition restocked (h u : uuid) (made : LinenRow -> Z) (d d' : DB) : Prop :=
  Forall2 (fun l l' => if linen_by_id h u l then pieces l' = pieces l + made l else l' = l) (linen_inventory d) (linen_inventory d').

Section Linen.
Context {env : Env}.

Lemma restocked_update h u f made d d' :
  (forall l, pieces (f l) = pieces l + made l) -> linen_inventory d' = update_rows (linen_by_id h u) f (linen_inventory d) -> restocked h u made d d'.
Proof.
  intros Hf E. unfold restocked. rewrite E. clear E. unfold update_rows. induction (linen_inventory d) as [|l t IH]; cbn; constructor; [|exact IH].
  destruct (linen_by_id h u l); auto.
Qed.
Lemma ens_record r d : ensures (exec Pool (insert_linen_transaction r)) d
  (fun _ d' => recorded (lt_hotel_id r) (lt_linen_id r) (lt_transaction_type r) (lt_quantity r) (lt_damaged r) d d' /\ linen_inventory d' = linen_inventory d)
  (fun _ d' => d' = d).
Proof.
  apply ens_exec; [reflexivity|]. unfold insert_linen_transaction. destruct (negb _); [reflexivity|]. destruct (negb _); [reflexivity|].
  split; [|reflexivity]. exists r. auto 10.
Qed.
Lemma ens_restock h u amounts f made d0 d : (forall l, pieces (f l) = pieces l + made l) -> linen_inventory d = linen_inventory d0 ->
  ensures (exec Pool (update_linen h u amounts f)) d
    (fun _ d' => restocked h u made d0 d' /\ linen_transactions d' = linen_transactions d) (fun _ d' => d' = d).
Proof.
  intros Hf E. apply ens_exec; [reflexivity|]. unfold update_linen. destruct (_ || _); [reflexivity|].
  split; [|reflexivity]. eapply restocked_update; [exact Hf|]. cbn. now rewrite E.
Qed.

(** A movement: recorded by one statement, then applied by another. *)
Lemma ens_movement h u kind q g amounts (f : Time -> LinenRow -> LinenRow) made to notes (answer : uuid -> Resp HouseBody) d
  (Q : Resp HouseBody -> DB -> Prop) (K : Resp HouseBody -> DB -> Prop) :
  (forall now l, pieces (f now l) = pieces l + made l) ->
  (forall a d', recorded h u kind q g d d' /\ restocked h u made d d' -> Q a d') ->
  (forall e d', linen_inventory d' = linen_inventory d /\ (linen_transactions d' = linen_transactions d \/ recorded h u kind q g d d') -> K e d') ->
  ensures (txID ← new_uuid; now ← time_now;
    with_text (exec Pool (insert_linen_transaction
      {| lt_id := txID; lt_hotel_id := h; lt_linen_id := u; lt_transaction_type := kind; lt_quantity := q; lt_damaged := g;
         lt_issued_to := to; lt_notes := notes; lt_created_at := now |})) 400 ;;
    now ← time_now;
    with_text (exec Pool (update_linen h u amounts (f now))) 400 ;;
    mret (answer txID)) d Q K.
Proof.
  intros Hf HQ HK. apply ens_then_uuid. intros n. apply ens_then_now. intros now. unfold with_text.
  eapply ens_bind; [apply ens_on_err; eapply ens_post; [apply ens_record | intros ? ? H; exact H | intros e d' ->; apply HK; auto]|].
  cbn. intros _ d1 [H1 H2]. apply ens_then_now. intros now2.
  eapply ens_bind; [apply ens_on_err; eapply ens_post; [apply (ens_restock h u amounts _ made d d1 (Hf now2) H2) | intros ? ? H; exact H |]|].
  - intros e d' ->. apply HK. auto.
  - intros _ d2 [H3 H4]. apply ens_ret, HQ. split; [|exact H3]. destruct H1 as (tx & E & H). exists tx. rewrite H4. auto.
Qed.
End Linen.

(** An issue or a return is put on record and then applied to the item's counts,
    and to no other item.  Issuing moves pieces from the store into use and
    returning moves them from use to the laundry or the damaged pile, so that no
    piece appears as long as the store holds what is issued, what is returned was
    in use and no more is damaged than returned; beyond that, pieces appear by
    exactly the excess.  A failure changes no count, but may leave the movement on
    record. *)
Theorem linen_pieces (env : Env) c d :
  (forall rq, ensures (IssueLinen c (Some rq)) d
     (fun _ d' => exists u, uuid_parse (is_LinenID rq) = Some u /\ 0 < is_Quantity rq
        /\ recorded (tenantHotelID c) u "issue" (is_Quantity rq) 0 d d'
        /\ restocked (tenantHotelID c) u (fun l => Z.max 0 (is_Quantity rq - li_total_count l)) d d')
     (fun _ d' => linen_inventory d' = linen_inventory d /\ (linen_transactions d' = linen_transactions d
        \/ exists u, recorded (tenantHotelID c) u "issue" (is_Quantity rq) 0 d d')))
  /\ (forall rq, ensures (ReturnLinen c (Some rq)) d
     (fun _ d' => exists u, uuid_parse (rt_LinenID rq) = Some u /\ 0 < rt_Quantity rq
        /\ recorded (tenantHotelID c) u "return" (rt_Quantity rq) (rt_Damaged rq) d d'
        /\ restocked (tenantHotelID c) u (fun l => Z.max 0 (rt_Quantity rq - li_in_use l) + Z.max 0 (rt_Damaged rq - rt_Quantity rq)) d d')
     (fun _ d' => linen_inventory d' = linen_inventory d /\ (linen_transactions d' = linen_transactions d
        \/ exists u, recorded (tenantHotelID c) u "return" (rt_Quantity rq) (rt_Damaged rq) d d'))).
Proof.
  split; intros rq.
  - unfold IssueLinen. apply ens_then_option; [auto|]. intros ? [= <-]. apply ens_then_option; [auto|]. intros u Hu.
    apply ens_then_throw_if; [auto|]. intros Hq%Z.leb_gt. apply ens_movement with (made := fun l => Z.max 0 (is_Quantity rq - li_total_count l)).
    + intros now l. unfold pieces, issue_linen; cbn. lia.
    + intros a d' [H1 H2]. eauto 6.
    + intros e d' [H1 [H2|H2]]; eauto 6.
  - unfold ReturnLinen. apply ens_then_option; [auto|]. intros ? [= <-]. apply ens_then_option; [auto|]. intros u Hu.
    apply ens_then_throw_if; [auto|]. intros Hq%Z.leb_gt. apply ens_movement with (made := fun l => Z.max 0 (rt_Quantity rq - li_in_use l) + Z.max 0 (rt_Damaged rq - rt_Quantity rq)).
    + intros now l. unfold pieces, return_linen; cbn. lia.
    + intros a d' [H1 H2]. eauto 6.
    + intros e d' [H1 [H2|H2]]; eauto 6.
Qed.

(** ** A morning on the floor of hotel 1 *)

(** After [busy_day]: room 202 is being cleaned, and task 1025 is pending on it. *)
Definition towels : LinenRow :=
  {| li_id := 601; li_hotel_id := 1; li_item_name := "Bath towel"; li_total_count := 40; li_in_use := 10; li_in_laundry := 0;
     li_damaged := 0; li_created_at := Date 2026 1 1 0 0 0; li_updated_at := Date 2026 1 1 0 0 0 |}.
Definition desk_user : UserRow :=
  {| us_id := 7; us_hotel_id := Some 1%N; us_email := "desk@serenentra.example"; us_password_hash := ""; us_platform_admin := false;
     us_created_at := Date 2026 1 1 0 0 0; us_updated_at := Date 2026 1 1 0 0 0 |}.
Definition departed : DB := Eval vm_compute in
  w_db (serve_all (env := calm) (jwt := demo_jwt) desk busy_day
    (start (one_booking <| users := [desk_user] |> <| linen_inventory := [towels] |>))).
Definition floor (e : Env) (ops : list (string * HouseOp)) (w : World) : list (Resp HouseBody) * World :=
  foldl (fun '(answers, w) '(id, op) =>
    let '(a, w') := serve (house_handle (env := e) (jwt := demo_jwt) "secret" {| hq_ctx := demo_request "receptionist@1" id; hq_op := op |}) w in
    ((answers ++ [a])%list, w')) ([], w) ops.
Lemma departed_typed : floor_typed departed.
Proof.
  split; unfold departed; cbn; intros x Hx; repeat destruct Hx as [<-|Hx]; try contradiction; [reflexivity|].
  repeat split; cbn; reflexivity || lia.
Qed.

Definition morning : list (string * HouseOp) :=
  [ ("1025", Op_InspectTask Bare); ("1025", Op_UpdateTask (Some completion)); ("1025", Op_InspectTask (Inspected false "mirror"));
    ("1025", Op_UpdateTask (Some completion)); ("1025", Op_InspectTask Bare);
    ("", Op_CreateLostItem (Some {| cl_RoomID := "202"; cl_GuestName := "Asha Rao"; cl_ItemName := "Earring"; cl_Description := ""; cl_FoundBy := "7" |}));
    ("", Op_IssueLinen (Some {| is_LinenID := "601"; is_Quantity := 45; is_IssuedTo := ""; is_Notes := "" |}));
    ("", Op_ReturnLinen (Some {| rt_LinenID := "601"; rt_Quantity := 5; rt_Damaged := -3; rt_Notes := "" |})) ].

Definition clean_202 : HousekeepingRow :=
  {| hk_id := 1025; hk_hotel_id := 1; hk_room_id := 202; hk_assigned_to := None; hk_task_type := "checkout_clean"; hk_priority := "normal";
     hk_status := "pending"; hk_notes := Some "Departure — Asha Rao"; hk_started_at := None; hk_completed_at := None; hk_inspected_by := None;
     hk_inspected_at := None; hk_scheduled_for := None; hk_guest_stay_id := None;
     hk_created_at := clock (Env := calm) 15; hk_updated_at := clock (Env := calm) 15 |}.
Lemma departed_room_returns_to_sale_witness :
  let rq op := house_handle (env := calm) (jwt := demo_jwt) "secret" {| hq_ctx := demo_request "receptionist@1" "1025"; hq_op := op |} in
  map (fun r => (rm_id r, rm_status r)) (rooms departed) = [(201%N, "available"); (202%N, "cleaning")]
  /\ let '(a1, w1) := serve (rq (Op_UpdateTask (Some completion))) (start departed) in
     let '(a2, w2) := serve (rq (Op_InspectTask Bare)) w1 in
     a2 = RespOK (HB_inspected 1025%N "inspected" true 202%N)
     /\ forall r, In r (rooms departed) -> rm_id r = 202%N -> rm_hotel_id r = 1%N -> rm_status r = "cleaning" ->
        exists now, In (r <| rm_status := "available" |> <| rm_updated_at := now |>) (rooms (w_db w2)).
Proof.
  intros rq. split; [reflexivity|].
  assert (Hg : authGate (jwt := demo_jwt) "secret" (demo_request "receptionist@1" "1025") = inr ((demo_request "receptionist@1" "1025") <| c_user_id := Some "7" |> <| c_hotel_id := Some "1" |>))
    by reflexivity.
  assert (Hids : NoDup (map hk_id (housekeeping departed))) by (cbn; repeat constructor; intros []%elem_of_nil).
  pose proof (departed_room_returns_to_sale calm demo_jwt "secret" (demo_request "receptionist@1" "1025") (demo_request "receptionist@1" "1025")
    _ _ clean_202 departed (start departed) (fun _ => eq_refl) (conj eq_refl eq_refl) departed_typed Hids
    Hg eq_refl eq_refl Hg eq_refl eq_refl (or_introl eq_refl) eq_refl) as H.
  unfold rq. destruct (serve _ (start departed)) as [a1 w1]. destruct (serve _ w1) as [a2 w2]. apply H.
Defined.

(** The morning, answer by answer: a room cannot pass before its work is complete;
    failing it sends the task back; passing it releases the room. *)
Lemma floor_stays_typed_witness :
  let served := house_serve_all (env := calm) (jwt := demo_jwt) "secret"
    (map (fun '(id, op) => {| hq_ctx := demo_request "receptionist@1" id; hq_op := op |}) morning) (start departed) in
  floor_typed (w_db served) /\ length (lost_items (w_db served)) = 1%nat /\ length (linen_transactions (w_db served)) = 2%nat.
Proof.
  intros served. split; [|vm_compute; auto].
  exact (proj1 (floor_stays_typed calm demo_jwt "secret"
    (map (fun '(id, op) => {| hq_ctx := demo_request "receptionist@1" id; hq_op := op |}) morning) (start departed) eq_refl departed_typed)).
Defined.

(** Three departures from what the handlers say of themselves: a status of
    "inspected" written by UpdateTask skips the sign-off, and the room can then not
    be released; a release that fails after the sign-off leaves the room out of
    sale; and the linen store hands out what it does not have, and takes back fewer
    than no damaged pieces. *)
Theorem floor_departures :
  let inspected := Op_UpdateTask (Some {| ut_Status := "inspected"; ut_AssignedTo := ""; ut_Priority := ""; ut_Notes := "" |}) in
  let not_completed := RespError 409 "task not found for this property, or it has not been completed yet" in
  let state (w : World) := (map hk_status (housekeeping (w_db w)), map rm_status (rooms (w_db w))) in
  let '(a1, w1) := floor calm [("1025", inspected); ("1025", Op_InspectTask Bare)] (start departed) in
  let '(a2, w2) := floor (demo_env (Nat.eqb 2)) [("1025", Op_UpdateTask (Some completion)); ("1025", Op_InspectTask Bare); ("1025", Op_InspectTask Bare)] (start departed) in
  let '(_, w3) := floor calm [("", Op_IssueLinen (Some {| is_LinenID := "601"; is_Quantity := 45; is_IssuedTo := ""; is_Notes := "" |}));
                              ("", Op_ReturnLinen (Some {| rt_LinenID := "601"; rt_Quantity := 5; rt_Damaged := -3; rt_Notes := "" |}))] (start departed) in
  a1 = [RespOK HB_updated; not_completed] /\ state w1 = (["inspected"], ["available"; "cleaning"])
  /\ a2 = [RespOK HB_updated; RespError 500 "could not release the room"; not_completed] /\ state w2 = (["inspected"], ["available"; "cleaning"])
  /\ map (fun l => (li_total_count l, li_in_use l, li_in_laundry l, li_damaged l)) (linen_inventory (w_db w3)) = [(0, 50, 8, -3)].
Proof. vm_compute. auto 10. Qed.
