(* ===== verification/UserRepo.v ===== *)
(** UserRepo: internal/repository/postgres/user_repository.go.  Accounts of members
    of staff and guests, their profiles, roles and preferences.  The row of users
    is the code's domain.User, that of profiles its domain.Profile. *)

From S2P Require Import Prelude GoLib Schema World.
Local Open Scope string_scope.
Local Open Scope Z_scope.

Definition ErrConflict : GoErr := Errorf "record already exists".

(** ** Constraints *)

Definition user_by_id (u : uuid) (r : UserRow) : bool := ueq (us_id r) u.
Definition user_by_email (email : string) (r : UserRow) : bool := us_email r =s email.
Definition profile_of (u : uuid) (r : ProfileRow) : bool := ueq (pf_user_id r) u.
Definition role_of (u : uuid) (r : UserRoleRow) : bool := ueq (ur_user_id r) u.
Definition preferences_of (u : uuid) (r : PreferencesRow) : bool := ueq (gp_user_id r) u.
(** (SELECT hotel_id FROM users WHERE id = ...) *)
Definition hotel_of_user (u : uuid) (d : DB) : option uuid := r ← find_row (user_by_id u) (users d); us_hotel_id r.
Definition has_user (u : uuid) (d : DB) : bool := exists_row (user_by_id u) (users d).

Definition insert_user (row : UserRow) (d : DB) : GoErr + (UserRow * DB) :=
  if exists_row (fun r => user_by_id (us_id row) r || user_by_email (us_email row) r) (users d) then inl (ErrPg "23505")
  else if match us_hotel_id row with Some h => negb (exists_row (fun r => ueq (ho_id r) h) (hotels d)) | None => false end
  then inl (ErrPg "23503")
  else inr (row, d <| users ::= insert_row row |>).
Definition insert_profile (row : ProfileRow) (d : DB) : GoErr + (ProfileRow * DB) :=
  if negb (has_user (pf_user_id row) d) then inl (ErrPg "23503")
  else if exists_row (profile_of (pf_user_id row)) (profiles d) then inl (ErrPg "23505")
  else inr (row, d <| profiles ::= insert_row row |>).
(** ON CONFLICT (user_id, role) DO NOTHING *)
Definition insert_role (row : UserRoleRow) (d : DB) : GoErr + (unit * DB) :=
  if exists_row (fun r => role_of (ur_user_id row) r && (ur_role r =s ur_role row)) (user_roles d) then inr (tt, d)
  else if negb (has_user (ur_user_id row) d) then inl (ErrPg "23503")
  else inr (tt, d <| user_roles ::= insert_row row |>).

(** DELETE FROM users: profiles, roles and preferences go with the user, and what
    names the user in the tables below loses the name; the audit log keeps it, its
    foreign key being dropped at start-up (schema.go). *)
Definition forget (u : uuid) (o : option uuid) : option uuid := if oueq o u then None else o.
Definition delete_user (u : uuid) (d : DB) : DB :=
  d <| users ::= delete_rows (user_by_id u) |>
    <| profiles ::= delete_rows (profile_of u) |>
    <| user_roles ::= delete_rows (role_of u) |>
    <| guest_preferences ::= delete_rows (preferences_of u) |>
    <| guest_stays ::= map (fun s => s <| gs_guest_id ::= forget u |> <| gs_created_by ::= forget u |> <| gs_cancelled_by ::= forget u |>) |>
    <| payments ::= map (fun p => p <| pay_processed_by ::= forget u |>) |>
    <| folio_charges ::= map (fun f => f <| fc_posted_by ::= forget u |>) |>
    <| housekeeping ::= map (fun t => t <| hk_assigned_to ::= forget u |> <| hk_inspected_by ::= forget u |>) |>
    <| lost_items ::= map (fun i => i <| lo_found_by ::= forget u |>) |>
    <| night_audits ::= map (fun a => a <| na_closed_by ::= forget u |>) |>.
(** folios.guest_id is ON DELETE RESTRICT, where it is a foreign key. *)
Definition named_on_folio {env : Env} (u : uuid) (d : DB) : bool := db_shared && exists_row (fun f => oueq (fo_guest_id f) u) (folios d).

Section UserRepo.
Context {env : Env}.

Definition isUniqueViolation (e : GoErr) : bool := pg_code_is e "23505".
Definition not_found_or {A} (what : string) (m : M GoErr A) : M GoErr A :=
  on_err m (fun e => if errors_is e ErrNoRows then ErrNotFound else Wrap what e).

Definition create_user (what : string) (hotel : uuid) (email passwordHash : string) : M GoErr UserRow :=
  id ← new_uuid; now ← time_now;
  on_err (exec Pool (insert_user {| us_id := id; us_hotel_id := Some hotel; us_email := email; us_password_hash := passwordHash;
                                    us_platform_admin := false; us_created_at := now; us_updated_at := now |}))
    (fun e => if isUniqueViolation e then ErrConflict else Wrap what e).
Definition UserRepo_Create (email passwordHash : string) : M GoErr UserRow :=
  create_user "userRepo.Create" DemoHotelID email passwordHash.
Definition CreateForHotel (hotelID : uuid) (email passwordHash : string) : M GoErr UserRow :=
  create_user "userRepo.CreateForHotel" hotelID email passwordHash.
Definition FindByEmail (email : string) : M GoErr UserRow :=
  not_found_or "userRepo.FindByEmail" (query_row Pool (fun d => find_row (user_by_email email) (users d))).
Definition UserRepo_FindByID (id : uuid) : M GoErr UserRow :=
  not_found_or "userRepo.FindByID" (query_row Pool (fun d => find_row (user_by_id id) (users d))).
Definition IsHotelActive (hotelID : uuid) : M GoErr bool :=
  not_found_or "userRepo.IsHotelActive"
    (query_row Pool (fun d => ho_is_active <$> find_row (fun r => ueq (ho_id r) hotelID) (hotels d))).
Definition UserRepo_UpdatePassword (id : uuid) (passwordHash : string) : M GoErr unit :=
  now ← time_now;
  exec Pool (fun d => inr (tt, d <| users ::= update_rows (user_by_id id) (fun r => r <| us_password_hash := passwordHash |> <| us_updated_at := now |>) |>)).
Definition UserRepo_List (hotelID : option uuid) : M GoErr (list UserRow) :=
  on_err (query Pool (fun d => order_by (fun a b => t_ns (us_created_at b) <=? t_ns (us_created_at a))
            (select (fun r => match hotelID with Some h => oueq (us_hotel_id r) h | None => true end) (users d))))
    (Wrap "userRepo.List").
Definition UserRepo_Delete (userID : uuid) : M GoErr unit := 
  exec Pool (fun d => if named_on_folio userID d then inl (ErrPg "23503") else inr (tt, delete_user userID d)).
(** Only updated_at is written: there is no column for active. *)
Definition SetUserActive (userID : uuid) (active : bool) : M GoErr unit :=
  now ← time_now;
  exec Pool (fun d => inr (tt, d <| users ::= update_rows (user_by_id userID) (fun r => r <| us_updated_at := now |>) |>)).

(** *** Profiles *)

Definition CreateProfile (userID : uuid) (fullName : string) (phone : option string) : M GoErr ProfileRow :=
  id ← new_uuid; now ← time_now;
  on_err (exec Pool (fun d => insert_profile
    {| pf_id := id; pf_hotel_id := hotel_of_user userID d; pf_user_id := userID; pf_full_name := fullName; pf_phone := phone;
       pf_avatar_url := None; pf_created_at := now; pf_updated_at := now |} d)) (Wrap "userRepo.CreateProfile").
Definition FindProfileByUserID (userID : uuid) : M GoErr ProfileRow :=
  not_found_or "userRepo.FindProfileByUserID" (query_row Pool (fun d => find_row (profile_of userID) (profiles d))).
(** The columns named in [fields] *)
Definition set_profile_field (p : ProfileRow) (f : string * string) : option ProfileRow :=
  if fst f =s "full_name" then Some (p <| pf_full_name := snd f |>)
  else if fst f =s "phone" then Some (p <| pf_phone := Some (snd f) |>)
  else if fst f =s "avatar_url" then Some (p <| pf_avatar_url := Some (snd f) |>)
  else None.
Definition set_profile_fields (fields : list (string * string)) (p : ProfileRow) : option ProfileRow :=
  foldl (fun p f => p ← p; set_profile_field p f) (Some p) fields.
Definition known_profile_field (f : string * string) : bool := existsb (String.eqb (fst f)) ["full_name"; "phone"; "avatar_url"].
Definition UserRepo_UpdateProfile (userID : uuid) (fields : list (string * string)) : M GoErr unit :=
  match fields with
  | [] => mret tt
  | _ =>
      now ← time_now;
      exec Pool (fun d =>
        if negb (forallb known_profile_field fields) then inl (ErrPg "42703")
        else inr (tt, d <| profiles ::= update_rows (profile_of userID)
                            (fun p => (default p (set_profile_fields fields p)) <| pf_updated_at := now |>) |>))
  end.

(** *** Roles *)

Definition UserRepo_AddRole (userID : uuid) (role : string) : M GoErr unit :=
  id ← new_uuid; now ← time_now;
  exec Pool (fun d => insert_role {| ur_id := id; ur_hotel_id := hotel_of_user userID d; ur_user_id := userID; ur_role := role;
                                     ur_created_at := now |} d).
Definition roles_of (userID : uuid) (d : DB) : list string :=
  map ur_role (order_by (fun a b => t_ns (ur_created_at a) <=? t_ns (ur_created_at b)) (select (role_of userID) (user_roles d))).
Definition GetRoles (userID : uuid) : M GoErr (list string) := on_err (query Pool (roles_of userID)) (Wrap "userRepo.GetRoles").
Definition UserRepo_RemoveRole (userID : uuid) (role : string) : M GoErr unit :=
  exec Pool (fun d => inr (tt, d <| user_roles ::= delete_rows (fun r => role_of userID r && (ur_role r =s role)) |>)).
Definition RemoveAllRoles (userID : uuid) : M GoErr unit :=
  exec Pool (fun d => inr (tt, d <| user_roles ::= delete_rows (fun r => role_of userID r && (ur_role r !=s "guest")) |>)).

(** *** Preferences *)

Record GuestPreferences := {
  pr_ID : uuid; pr_UserID : uuid; pr_DietaryRestrictions : list string; pr_Allergies : list string; pr_FavoriteCategories : list string;
  pr_Notes : option string; pr_CreatedAt : Time; pr_UpdatedAt : Time }.
Definition preferences_row (id : uuid) (prefs : GuestPreferences) (now : Time) (d : DB) : PreferencesRow :=
  {| gp_id := id; gp_hotel_id := hotel_of_user (pr_UserID prefs) d; gp_user_id := pr_UserID prefs;
     gp_dietary_restrictions := pr_DietaryRestrictions prefs; gp_allergies := pr_Allergies prefs;
     gp_favorite_categories := pr_FavoriteCategories prefs; gp_notes := pr_Notes prefs; gp_created_at := now; gp_updated_at := now |}.
Definition insert_preferences (row : PreferencesRow) (d : DB) : GoErr + (unit * DB) :=
  if negb (has_user (gp_user_id row) d) then inl (ErrPg "23503")
  else if exists_row (preferences_of (gp_user_id row)) (guest_preferences d) then inl (ErrPg "23505")
  else inr (tt, d <| guest_preferences ::= insert_row row |>).
Definition CreatePreferences (prefs : GuestPreferences) : M GoErr unit :=
  id ← new_uuid; now ← time_now; exec Pool (fun d => insert_preferences (preferences_row id prefs now d) d).
(** ON CONFLICT (user_id) DO UPDATE *)
Definition UpsertPreferences (prefs : GuestPreferences) : M GoErr unit :=
  id ← new_uuid; now ← time_now;
  exec Pool (fun d =>
    let row := preferences_row id prefs now d in
    if exists_row (preferences_of (gp_user_id row)) (guest_preferences d)
    then inr (tt, d <| guest_preferences ::= update_rows (preferences_of (gp_user_id row))
                (fun r => r <| gp_dietary_restrictions := gp_dietary_restrictions row |> <| gp_allergies := gp_allergies row |>
                            <| gp_favorite_categories := gp_favorite_categories row |> <| gp_notes := gp_notes row |> <| gp_updated_at := now |>) |>)
    else insert_preferences row d).
Definition FindPreferencesByUserID (userID : uuid) : M GoErr GuestPreferences :=
  on_err (query_row Pool (fun d => (fun r =>
      {| pr_ID := gp_id r; pr_UserID := gp_user_id r; pr_DietaryRestrictions := gp_dietary_restrictions r; pr_Allergies := gp_allergies r;
         pr_FavoriteCategories := gp_favorite_categories r; pr_Notes := gp_notes r; pr_CreatedAt := gp_created_at r; pr_UpdatedAt := gp_updated_at r |})
      <$> find_row (preferences_of userID) (guest_preferences d)))
    (fun e => if errors_is e ErrNoRows then ErrNotFound else e).
End UserRepo.
