(* ===== verification/AuthService.v ===== *)
(** AuthService: internal/service/auth_service.go and internal/handler/auth_handler.go.
    Signing up and in, the rotation of refresh tokens, staff accounts, the exchange
    of an impersonation ticket, and the session cookies.

    bcrypt and golang-jwt are parameters ([Credentials]), and so are the answers
    of Redis ([AuthCache]) and the struct validator ([Validator]). *)

From S2P Require Import Prelude GoLib GoText Schema World Auth UserRepo.
Local Open Scope string_scope.
Local Open Scope Z_scope.

(** ** Data *)

Record AuthClaims := {
  ac_ExpiresAt : Z; ac_IssuedAt : Z; ac_Issuer : string; ac_ID : string;
  ac_UserID : string; ac_HotelID : string; ac_Email : string; ac_Roles : list string; ac_PlatformAdmin : bool }.
Record SessionUser := { su_ID : string; su_HotelID : string; su_Email : string; su_Roles : list string; su_PlatformAdmin : bool }.
Record Session := { se_AccessToken : string; se_RefreshToken : string; se_TokenType : string; se_ExpiresIn : Z; se_User : SessionUser }.

(** Of config.Config: Auth, its durations in nanoseconds *)
Record AuthConfig := {
  au_AccessTokenSecret : string; au_RefreshTokenSecret : string; au_AccessTokenTTL : Z; au_RefreshTokenTTL : Z }.

(** What jwt.ParseWithClaims says of a token at a time: HMAC-signed with the secret
    and in date, signed and expired, or neither. *)
Inductive TokenStatus := TokenValid (c : AuthClaims) | TokenOutOfDate | TokenRefused.
(** The salt of a hash may depend on anything. *)
Class Credentials := {
  bcrypt_generate : World -> string -> GoErr + string;
  bcrypt_compare : string -> string -> bool;
  sign_claims : AuthClaims -> string -> GoErr + string;
  parse_claims : Time -> string -> string -> TokenStatus }.
Class AuthCache := {
  redis_get : list OutCall -> string -> GoErr + string;
  redis_exists : list OutCall -> string -> GoErr + bool;
  redis_set : list OutCall -> string -> option GoErr }.

Definition ErrInvalidCredentials : GoErr := Errorf "invalid email or password".
Definition ErrEmailTaken : GoErr := Errorf "a user with this email already exists".
Definition ErrTokenExpired : GoErr := Errorf "token has expired".
Definition ErrTokenInvalid : GoErr := Errorf "token is invalid".
Definition ErrForbidden : GoErr := Errorf "access denied".
Definition RoleGuest : string := "guest".

Definition revokedKey (token : string) : string :=
  if Nat.ltb 32 (String.length token) then "revoked:" ++ right_str 32 token else "revoked:" ++ token.

Definition HasRole (roles required : list string) : bool :=
  existsb (fun r => existsb (String.eqb r) roles) (["platform_admin"; "super_admin"; "admin"; "hotel_admin"] ++ required)%list.

(** strings.Split(email, "@")[0] *)
Definition local_part (email : string) : string := nth 0 (Split "@" email) "".

Section Service.
Context {env : Env} {cred : Credentials} {cache : AuthCache} (cfg : AuthConfig).

(** ** Calls *)

Definition GenerateFromPassword (password : string) : M GoErr string := fun w => (bcrypt_generate w password, w).
Definition SignedString (claims : AuthClaims) (secret : string) : M GoErr string := fun w => (sign_claims claims secret, w).
Definition cache_exists (key : string) : M GoErr bool :=
  fun w => (redis_exists (w_calls w) key, w <| w_calls := (w_calls w ++ [CallExists key])%list |>).
Definition cache_set_value (key value : string) : M GoErr unit :=
  fun w => (match redis_set (w_calls w) key with Some e => inl e | None => inr tt end,
            w <| w_calls := (w_calls w ++ [CallSet key value])%list |>).
Definition cache_get_value (key : string) : M GoErr string :=
  fun w => (redis_get (w_calls w) key, w <| w_calls := (w_calls w ++ [CallGet key])%list |>).
Definition cache_delete_key {E} (key : string) : M E unit := call_out (fun _ => tt) (CallDelete [key]).

(** ** Sessions *)

(** NumericDate keeps whole seconds. *)
Definition expiry (t : Time) (ttl : Z) : Z := (t_ns t + ttl) / ns_per_s.
Definition signToken (userID hotelID email : string) (roles : list string) (platformAdmin : bool) (exp : Z) (secret : string) : M GoErr string :=
  now ← time_now; id ← new_uuid;
  SignedString {| ac_ExpiresAt := exp; ac_IssuedAt := unix_sec now; ac_Issuer := "hotel-harmony"; ac_ID := uuid_string id;
                           ac_UserID := userID; ac_HotelID := hotelID; ac_Email := email; ac_Roles := roles;
                           ac_PlatformAdmin := platformAdmin |} secret.
Definition parseToken (tokenStr secret : string) : M GoErr AuthClaims :=
  now ← time_now;
  match parse_claims now tokenStr secret with
  | TokenValid c => mret c
  | TokenOutOfDate => throw ErrTokenExpired
  | TokenRefused => throw ErrTokenInvalid
  end.

Definition user_hotel (user : UserRow) : string := match us_hotel_id user with Some h => uuid_string h | None => "" end.
Definition buildSession (user : UserRow) (roles : list string) : M GoErr Session :=
  t1 ← time_now;
  accessToken ← wrap "buildSession access"
    (signToken (uuid_string (us_id user)) (user_hotel user) (us_email user) roles (us_platform_admin user)
       (expiry t1 (au_AccessTokenTTL cfg)) (au_AccessTokenSecret cfg));
  t2 ← time_now;
  refreshToken ← wrap "buildSession refresh"
    (signToken (uuid_string (us_id user)) (user_hotel user) (us_email user) roles (us_platform_admin user)
       (expiry t2 (au_RefreshTokenTTL cfg)) (au_RefreshTokenSecret cfg));
  mret {| se_AccessToken := accessToken; se_RefreshToken := refreshToken; se_TokenType := "bearer";
          se_ExpiresIn := au_AccessTokenTTL cfg / ns_per_s;
          se_User := {| su_ID := uuid_string (us_id user); su_HotelID := user_hotel user; su_Email := us_email user; su_Roles := roles;
                        su_PlatformAdmin := us_platform_admin user |} |}.

Definition ensureHotelActive (user : UserRow) : M GoErr unit :=
  if us_platform_admin user then mret tt
  else match us_hotel_id user with
       | None => mret tt
       | Some h => r ← attempt (IsHotelActive h); match r with inr true => mret tt | _ => throw ErrForbidden end
       end.

(** ** Operations *)

(** The account, its profile and its role: three statements. *)
Definition add_profile (prefix : string) (user : UserRow) (email fullName : string) : M GoErr unit :=
  let name := if TrimSpace fullName =s "" then local_part email else TrimSpace fullName in
  wrap (prefix ++ " profile") (CreateProfile (us_id user) name None) ;; mret tt.
Definition taken_or {A} (what : string) (m : M GoErr A) : M GoErr A :=
  on_err m (fun e => if errors_is e ErrConflict then ErrEmailTaken else Wrap what e).

Definition Svc_SignUp (email password fullName : string) : M GoErr Session :=
  let email := ToLower (TrimSpace email) in
  throw_if ((email =s "") || (password =s "")) (Errorf "email and password are required") ;;
  hash ← wrap "authService.SignUp hash" (GenerateFromPassword password);
  user ← taken_or "authService.SignUp create" (UserRepo_Create email hash);
  add_profile "authService.SignUp" user email fullName ;;
  wrap "authService.SignUp role" (UserRepo_AddRole (us_id user) RoleGuest) ;;
  buildSession user [RoleGuest].

Definition Svc_SignIn (email password : string) : M GoErr Session :=
  let email := ToLower (TrimSpace email) in
  user ← on_err (FindByEmail email) (fun _ => ErrInvalidCredentials);
  throw_if (negb (bcrypt_compare (us_password_hash user) password)) ErrInvalidCredentials ;;
  ensureHotelActive user ;;
  r ← attempt (GetRoles (us_id user));
  buildSession user (match r with inr roles => roles | inl _ => [RoleGuest] end).

Definition RefreshSession (refreshToken : string) : M GoErr Session :=
  r ← attempt (cache_exists (revokedKey refreshToken));
  throw_if (match r with inr revoked => revoked | inl _ => false end) ErrTokenInvalid ;;
  claims ← parseToken refreshToken (au_RefreshTokenSecret cfg);
  userID ← of_option (uuid_parse (ac_UserID claims)) ErrTokenInvalid;
  user ← on_err (UserRepo_FindByID userID) (fun _ => ErrTokenInvalid);
  ensureHotelActive user ;;
  roles ← attempt (GetRoles (us_id user));
  _ ← attempt (cache_set_value (revokedKey refreshToken) "1");
  buildSession user (match roles with inr roles => roles | inl _ => [] end).

Definition GetUserFromToken (tokenStr : string) : M GoErr (UserRow * list string) :=
  claims ← parseToken tokenStr (au_AccessTokenSecret cfg);
  userID ← of_option (uuid_parse (ac_UserID claims)) ErrTokenInvalid;
  user ← on_err (UserRepo_FindByID userID) (fun _ => ErrTokenInvalid);
  ensureHotelActive user ;;
  mret (user, ac_Roles claims).

Definition Svc_UpdatePassword (userID : uuid) (newPassword : string) : M GoErr unit :=
  hash ← GenerateFromPassword newPassword; UserRepo_UpdatePassword userID hash.
Definition UpdatePasswordWithCurrent (userID : uuid) (currentPassword newPassword : string) : M GoErr unit :=
  user ← on_err (UserRepo_FindByID userID) (fun _ => ErrInvalidCredentials);
  throw_if (negb (bcrypt_compare (us_password_hash user) currentPassword)) ErrInvalidCredentials ;;
  Svc_UpdatePassword userID newPassword.

Definition CreateStaffMember (hotelID : uuid) (email password fullName role : string) : M GoErr UserRow :=
  let email := ToLower (TrimSpace email) in
  throw_if ((email =s "") || (password =s "")) (Errorf "email and password are required") ;;
  hash ← wrap "CreateStaffMember hash" (GenerateFromPassword password);
  user ← taken_or "CreateStaffMember create" (CreateForHotel hotelID email hash);
  add_profile "CreateStaffMember" user email fullName ;;
  (if role !=s "" then wrap "CreateStaffMember role" (UserRepo_AddRole (us_id user) role) else mret tt) ;;
  mret user.

Definition ImpersonateSession (userID : uuid) : M GoErr Session :=
  user ← on_err (UserRepo_FindByID userID) (fun _ => ErrInvalidCredentials);
  r ← attempt (GetRoles (us_id user));
  buildSession user (match r with inr roles => roles | inl _ => [RoleGuest] end).

Definition RevokeRefreshToken (refreshToken : string) : M GoErr unit := cache_set_value (revokedKey refreshToken) "1".
End Service.

(** ** The endpoints of auth_handler.go *)

Record signUpRequest := { sr_Email : string; sr_Password : string; sr_FullName : string }.
Record signInRequest := { si_Email : string; si_Password : string }.
Record updatePasswordRequest := { up_UserID : string; up_Password : string; up_CurrentPassword : string }.

(** What go-playground/validator says of the requests that are validated *)
Class Validator := {
  validate_sign_up : signUpRequest -> option string;
  validate_sign_in : signInRequest -> option string;
  validate_staff : string -> string -> option string;       (* e-mail and password of createStaffRequest *)
  validate_password : string -> option string }.

(** pkg/validator: Struct, and a request it refuses *)
Definition Struct (verdict : option string) : option string := (fun e => "validation failed: " ++ e) <$> verdict.
Definition refuse_if {B} (status : Z) (o : option string) : M (Resp B) unit :=
  match Struct o with Some msg => throw (RespError status msg) | None => mret tt end.

Record Cookie := { ck_Name : string; ck_Value : string; ck_MaxAge : Z; ck_Secure : bool; ck_HTTPOnly : bool }.
Inductive AuthBody := AB_session (s : Session) (cookies : list Cookie) | AB_signed_out (cookies : list Cookie) | AB_updated.

(** What the endpoints read of the connection. *)
Record Browser := {
  br_Hostname : string; br_ForwardedHost : string; br_Protocol : string; br_ForwardedProto : string; br_ForwardedSsl : string }.

(** url.QueryEscape *)
Definition hex_upper (n : N) : ascii := ascii_of_N (if (n <? 10)%N then 48 + n else 55 + n)%N.
Definition query_safe (c : ascii) : bool :=
  let n := N_of_ascii c in
  ((48 <=? n) && (n <=? 57) || (65 <=? n) && (n <=? 90) || (97 <=? n) && (n <=? 122))%N || existsb (Ascii.eqb c) ["-"; "_"; "."; "~"]%char.
Fixpoint QueryEscape (s : string) : string :=
  match s with
  | "" => ""
  | String c s' =>
      if query_safe c then String c (QueryEscape s')
      else if Ascii.eqb c " " then String "+" (QueryEscape s')
      else String "%" (String (hex_upper (N_of_ascii c / 16)) (String (hex_upper (N_of_ascii c mod 16)) (QueryEscape s')))
  end.

Definition isSecureRequest (b : Browser) : bool :=
  EqualFold (br_Protocol b) "https" || EqualFold (br_ForwardedProto b) "https" || EqualFold (br_ForwardedSsl b) "on".
Definition setAuthCookies (b : Browser) (session : Session) : list Cookie :=
  let maxAge := if se_ExpiresIn session <=? 0 then 15 * 60 else se_ExpiresIn session in
  [ {| ck_Name := "hotelops_session"; ck_Value := se_AccessToken session; ck_MaxAge := maxAge; ck_Secure := isSecureRequest b; ck_HTTPOnly := true |};
    {| ck_Name := "hotelops_login_email"; ck_Value := QueryEscape (su_Email (se_User session)); ck_MaxAge := 30 * 24 * 60 * 60;
       ck_Secure := isSecureRequest b; ck_HTTPOnly := false |} ].
Definition clearAuthCookies (b : Browser) : list Cookie :=
  map (fun name => {| ck_Name := name; ck_Value := ""; ck_MaxAge := -1; ck_Secure := isSecureRequest b;
                      ck_HTTPOnly := name =s "hotelops_session" |}) ["hotelops_session"; "hotelops_login_email"].

(** The slug of the tenant whose subdomain was asked for, if any *)
Definition HasSuffix (s suffix : string) : bool :=
  Nat.leb (String.length suffix) (String.length s) && (right_str (String.length suffix) s =s suffix).
Definition portal_slug (baseDomain : string) (b : Browser) : option string :=
  if baseDomain =s "" then None
  else
    let fwd := ToLower (br_ForwardedHost b) in
    let host := if fwd !=s "" then nth 0 (Split "," fwd) "" else ToLower (br_Hostname b) in
    let suffix := "." ++ ToLower baseDomain in
    if HasSuffix host suffix then nullif (take_str (String.length host - String.length suffix) host) else None.

Section Handlers.
Context {env : Env} {cred : Credentials} {cache : AuthCache} {valid : Validator} (cfg : AuthConfig) (baseDomain : string).

Definition with_status {A} (status : Z) (m : M GoErr A) : M (Resp AuthBody) A := on_err m (fun e => RespError status (err_text e)).

Definition with_session (b : Browser) (session : Session) : Resp AuthBody := RespOK (AB_session session (setAuthCookies b session)).

Definition SignUp (b : Browser) (body : option signUpRequest) : M (Resp AuthBody) (Resp AuthBody) :=
  req ← of_option body (RespError 400 "invalid request body");
  refuse_if 400 (validate_sign_up req) ;;
  session ← with_status 400 (Svc_SignUp cfg (sr_Email req) (sr_Password req) (sr_FullName req));
  mret (with_session b session).

Definition SignIn (b : Browser) (body : option signInRequest) : M (Resp AuthBody) (Resp AuthBody) :=
  req ← of_option body (RespError 400 "invalid request body");
  refuse_if 400 (validate_sign_in req) ;;
  session ← with_status 401 (Svc_SignIn cfg (si_Email req) (si_Password req));
  match portal_slug baseDomain b with
  | Some slug =>
      r ← attempt (query_row Pool (fun d => (fun r => uuid_string (ho_id r)) <$> find_row (fun r => ho_slug r =s slug) (hotels d)));
      throw_if (match r with
                | inr tenantHotelID => (tenantHotelID !=s "") && (su_HotelID (se_User session) !=s tenantHotelID)
                | inl _ => false
                end) (RespError 403 "your account is not authorized for this portal")
  | None => mret tt
  end ;;
  mret (with_session b session).

Definition ImpersonateExchange (b : Browser) (body : option string) : M (Resp AuthBody) (Resp AuthBody) :=
  ticket ← of_option body (RespError 400 "invalid request body");
  let ticket := TrimSpace ticket in
  throw_if (ticket =s "") (RespError 400 "a valid ticket is required") ;;
  let key := "impersonate:" ++ ticket in
  userIDStr ← on_err (cache_get_value key) (fun _ => RespError 401 "invalid or expired ticket");
  throw_if (userIDStr =s "") (RespError 401 "invalid or expired ticket") ;;
  cache_delete_key key ;;
  userID ← of_option (uuid_parse userIDStr) (RespError 401 "invalid ticket");
  session ← with_status 401 (ImpersonateSession cfg userID);
  mret (with_session b session).

Definition SignOut (b : Browser) : M (Resp AuthBody) (Resp AuthBody) := mret (RespOK (AB_signed_out (clearAuthCookies b))).

Definition Refresh (b : Browser) (body : option string) : M (Resp AuthBody) (Resp AuthBody) :=
  refreshToken ← of_option body (RespError 400 "invalid request body");
  session ← with_status 401 (RefreshSession cfg refreshToken);
  mret (with_session b session).

Definition UpdatePassword (body : option updatePasswordRequest) : M (Resp AuthBody) (Resp AuthBody) :=
  req ← of_option body (RespError 400 "invalid request body");
  id ← of_option (uuid_parse (up_UserID req)) (RespError 400 "invalid user id");
  throw_if (up_CurrentPassword req =s "") (RespError 400 "current password is required") ;;
  with_status 400 (UpdatePasswordWithCurrent id (up_CurrentPassword req) (up_Password req)) ;;
  mret (RespOK AB_updated).

Inductive AuthOp :=
  | Op_SignUp (b : option signUpRequest) | Op_SignIn (b : option signInRequest) | Op_SignOut | Op_Refresh (b : option string)
  | Op_UpdatePassword (b : option updatePasswordRequest) | Op_Exchange (b : option string).
Definition auth_handle (br : Browser) (op : AuthOp) : M (Resp AuthBody) (Resp AuthBody) :=
  match op with
  | Op_SignUp b => SignUp br b | Op_SignIn b => SignIn br b | Op_SignOut => SignOut br | Op_Refresh b => Refresh br b
  | Op_UpdatePassword b => UpdatePassword b | Op_Exchange b => ImpersonateExchange br b
  end.
End Handlers.

(** ** internal/middleware/auth.go *)

Section Middleware.
Context {env : Env} {cred : Credentials} {cache : AuthCache} (cfg : AuthConfig).

(** The Locals of an authenticated request, for the handlers behind it *)
Record Locals := { lo_UserID : uuid; lo_HotelID : option uuid; lo_Roles : list string; lo_PlatformAdmin : bool }.
Definition Auth_ {B} (header : string) : M (Resp B) Locals :=
  let token := TrimSpace (if HasPrefix header "Bearer " then drop_str 7 header else header) in
  throw_if ((token =s "") || (token =s header)) (RespError 401 "missing bearer token") ;;
  r ← on_err (GetUserFromToken cfg token) (fun e => RespError 401 (err_text e));
  mret {| lo_UserID := us_id (fst r); lo_HotelID := us_hotel_id (fst r); lo_Roles := snd r; lo_PlatformAdmin := us_platform_admin (fst r) |}.
Definition RequireRoles {B} (required : list string) (locals : option Locals) : M (Resp B) unit :=
  throw_if (negb (HasRole (match locals with Some l => lo_Roles l | None => [] end) required)) (RespError 403 "access denied").
End Middleware.
