(* ===== verification/Users.v ===== *)
(** Users: internal/handler/user_handler.go, the hotel's page of members of staff. *)

From S2P Require Import Prelude GoLib Schema World Auth UserRepo AuthService.
Local Open Scope string_scope.
Local Open Scope Z_scope.

Record userListItem := { ul_ID : uuid; ul_Email : string; ul_FullName : string; ul_Roles : list string; ul_JoinedAt : string }.
Record createStaffRequest := { cs_Email : string; cs_Password : string; cs_FullName : string; cs_Role : string }.
Record updateUserRequest := { uu_FullName : option string; uu_Phone : option string }.

Inductive UserBody :=
  | UB_users (l : list userListItem)
  | UB_created (id : uuid) (email : string)
  | UB_user (user : UserRow) (profile : option ProfileRow) (roles : list string)
  | UB_profile (profile : option ProfileRow)
  | UB_roles (roles : list string)
  | UB_deleted | UB_updated
  | UB_over (status : Z) (b : UserBody). (* the body of a response whose status was set before *)

Section Users.
Context {env : Env} {jwt : Jwt} {cred : Credentials} {valid : Validator} (secret : string).

Definition lost {A} (m : M GoErr A) : M (Resp UserBody) (option A) := r ← attempt m; mret (match r with inr a => Some a | inl _ => None end).
Definition failing {A} (msg : string) (m : M GoErr A) : M (Resp UserBody) A := on_err m (fun _ => RespError 500 msg).
(** roles, _ := GetRoles(...) *)
Definition roles_or_none (id : uuid) : M (Resp UserBody) (list string) := r ← lost (GetRoles id); mret (default [] r).

(** adminOnly *)
Definition adminOnly (c : Ctx) : option (Z * string) :=
  match jwtClaimsFromRequest c secret with
  | None => Some (401, "authentication is required")
  | Some claims =>
      if bool_decide (cl_platform_admin claims = Some true) then None
      else if existsb (fun rr => existsb (String.eqb (opt_str rr)) ["hotel_admin"; "super_admin"; "platform_admin"]) (default [] (cl_roles claims))
      then None else Some (403, "hotel admin role required")
  end.

(** What a handler has written before it goes on: the status that response.OK,
    which sets none, leaves in place. *)
Abbreviation Written := (option Z).
Definition ok (st : Written) (b : UserBody) : Resp UserBody := RespOK (match st with Some s => UB_over s b | None => b end).

(** return nil, response.Error(c, 404, ...): the response is written, and the error
    it returns is nil, so that [if err != nil] goes on. *)
Definition userInTenant (c : Ctx) (userID : uuid) : M (Resp UserBody) (option UserRow * Written) :=
  r ← lost (UserRepo_FindByID userID);
  mret (match r with
        | None => (None, Some 404)
        | Some user => if oueq (us_hotel_id user) (tenantHotelID c) then (Some user, None) else (None, Some 404)
        end).
Definition id_of (c : Ctx) : M (Resp UserBody) uuid := of_option (uuid_parse (c_params c "id")) (RespError 400 "invalid user id").
Definition parsed {A} (body : option A) : M (Resp UserBody) A := of_option body (RespError 400 "invalid request body").

Definition CreateStaff (c : Ctx) (body : option createStaffRequest) : M (Resp UserBody) (Resp UserBody) :=
  req ← parsed body;
  refuse_if 400 (validate_staff (cs_Email req) (cs_Password req)) ;;
  user ← on_err (CreateStaffMember (tenantHotelID c) (cs_Email req) (cs_Password req) (cs_FullName req) (cs_Role req))
           (fun e => if errors_is e ErrEmailTaken then RespError 409 "a user with this email already exists"
                     else RespError 500 "failed to create user");
  mret (RespOK (UB_created (us_id user) (us_email user))).

Definition list_item (u : UserRow) : M (Resp UserBody) userListItem :=
  profile ← lost (FindProfileByUserID (us_id u));
  roles ← roles_or_none (us_id u);
  mret {| ul_ID := us_id u; ul_Email := us_email u; ul_FullName := match profile with Some p => pf_full_name p | None => "" end;
          ul_Roles := roles; ul_JoinedAt := fmt_date (us_created_at u) |}.
Fixpoint list_items (l : list UserRow) : M (Resp UserBody) (list userListItem) :=
  match l with [] => mret [] | u :: l' => i ← list_item u; rest ← list_items l'; mret (i :: rest) end.
Definition List (c : Ctx) : M (Resp UserBody) (Resp UserBody) :=
  users ← failing "failed to list users" (UserRepo_List (Some (tenantHotelID c)));
  items ← list_items users;
  mret (RespOK (UB_users items)).

(** Reading a field of the nil user panics, and the recover middleware answers. *)
Definition Get (c : Ctx) : M (Resp UserBody) (Resp UserBody) :=
  id ← id_of c;
  found ← userInTenant c id;
  profile ← lost (FindProfileByUserID id);
  roles ← roles_or_none id;
  match found with
  | (Some user, st) => mret (ok st (UB_user user profile roles))
  | (None, _) => throw (RespError 500 "runtime error: invalid memory address or nil pointer dereference")
  end.

Definition profile_fields (req : updateUserRequest) : list (string * string) :=
  (match uu_FullName req with Some v => [("full_name", v)] | None => [] end
   ++ match uu_Phone req with Some v => [("phone", v)] | None => [] end)%list.
Definition Update (c : Ctx) (body : option updateUserRequest) : M (Resp UserBody) (Resp UserBody) :=
  id ← id_of c;
  found ← userInTenant c id;
  req ← parsed body;
  failing "failed to update user" (UserRepo_UpdateProfile id (profile_fields req)) ;;
  profile ← lost (FindProfileByUserID id);
  mret (ok (snd found) (UB_profile profile)).

Definition AddRole (c : Ctx) (body : option string) : M (Resp UserBody) (Resp UserBody) :=
  id ← id_of c;
  found ← userInTenant c id;
  role ← parsed body;
  throw_if (role =s "") (RespError 400 "role is required") ;;
  failing "failed to add role" (UserRepo_AddRole id role) ;;
  roles ← roles_or_none id;
  mret (ok (snd found) (UB_roles roles)).

Definition SetRole (c : Ctx) (body : option string) : M (Resp UserBody) (Resp UserBody) :=
  id ← id_of c;
  found ← userInTenant c id;
  role ← parsed body;
  throw_if (role =s "") (RespError 400 "role is required") ;;
  failing "failed to update role" (RemoveAllRoles id) ;;
  failing "failed to update role" (UserRepo_AddRole id role) ;;
  roles ← roles_or_none id;
  mret (ok (snd found) (UB_roles roles)).

Definition Delete (c : Ctx) : M (Resp UserBody) (Resp UserBody) :=
  id ← id_of c;
  found ← userInTenant c id;
  failing "failed to delete user" (UserRepo_Delete id) ;;
  mret (ok (snd found) UB_deleted).

Definition ResetPassword (c : Ctx) (body : option string) : M (Resp UserBody) (Resp UserBody) :=
  id ← id_of c;
  found ← userInTenant c id;
  password ← parsed body;
  refuse_if 400 (validate_password password) ;;
  failing "failed to reset password" (Svc_UpdatePassword id password) ;;
  mret (ok (snd found) UB_updated).

Definition RemoveRole (c : Ctx) : M (Resp UserBody) (Resp UserBody) :=
  id ← id_of c;
  found ← userInTenant c id;
  let role := c_params c "role" in
  throw_if (role =s "") (RespError 400 "role is required") ;;
  failing "failed to remove role" (UserRepo_RemoveRole id role) ;;
  roles ← roles_or_none id;
  mret (ok (snd found) (UB_roles roles)).

(** ** The routes, behind authGate *)

Inductive UserOp :=
  | Op_List | Op_CreateStaff (b : option createStaffRequest) | Op_Get | Op_Update (b : option updateUserRequest) | Op_Delete
  | Op_SetRole (b : option string) | Op_ResetPassword (b : option string) | Op_AddRole (b : option string) | Op_RemoveRole.
Definition for_admins (op : UserOp) : bool := match op with Op_List | Op_Get => false | _ => true end.
Definition user_route (op : UserOp) (c : Ctx) : M (Resp UserBody) (Resp UserBody) :=
  match op with
  | Op_List => List c | Op_CreateStaff b => CreateStaff c b | Op_Get => Get c | Op_Update b => Update c b | Op_Delete => Delete c
  | Op_SetRole b => SetRole c b | Op_ResetPassword b => ResetPassword c b | Op_AddRole b => AddRole c b | Op_RemoveRole => RemoveRole c
  end.
Record UserRequest := { uq_ctx : Ctx; uq_op : UserOp }.
Definition user_handle (rq : UserRequest) : M (Resp UserBody) (Resp UserBody) :=
  match authGate secret (uq_ctx rq) with
  | inl (status, msg) => throw (RespError status msg)
  | inr c => guard (if for_admins (uq_op rq) then adminOnly c else None) ;; user_route (uq_op rq) c
  end.
Definition user_serve_all (rqs : list UserRequest) (w : World) : World :=
  foldl (fun w rq => snd (serve (user_handle rq) w)) w rqs.
End Users.
