(* ===== verification/UserSpec.v ===== *)
(** UserSpec: who may be whom.  The identity tables keep their keys through every
    request; a session is given only for the right password, names its user, and is
    read back as that user; a refresh token is spent once; and what the staff page
    does to users of other hotels. *)

From S2P Require Import Prelude GoLib Schema Binary64 World Auth Guards UserRepo AuthService Users.
Local Open Scope string_scope.
Local Open Scope Z_scope.

#[local] Arguments has_user : simpl never.

(** ** The keys of the identity tables *)

Definition same_user (a b : UserRow) : Prop := us_id a = us_id b \/ us_email a = us_email b.
Definition same_role (a b : UserRoleRow) : Prop := ur_user_id a = ur_user_id b /\ ur_role a = ur_role b.
Record identities_ok (d : DB) : Prop := {
  io_users : exclusive same_user (users d);
  io_profiles : exclusive (fun a b => pf_user_id a = pf_user_id b) (profiles d);
  io_roles : exclusive same_role (user_roles d);
  io_profile_user : forall p, In p (profiles d) -> has_user (pf_user_id p) d = true;
  io_role_user : forall r, In r (user_roles d) -> has_user (ur_user_id r) d = true;
  io_hotel : forall u h, In u (users d) -> us_hotel_id u = Some h -> exists r, In r (hotels d) /\ ho_id r = h }.

Lemma has_user_in u d : has_user u d = true <-> exists r, In r (users d) /\ us_id r = u.
Proof.
  unfold has_user. rewrite exists_row_true. split; intros (r & Hr & E); exists r; (split; [exact Hr|]).
  - now apply N.eqb_eq.
  - now apply N.eqb_eq.
Qed.
(** What other tables hold does not matter. *)
Definition same_identities (d d' : DB) : Prop :=
  users d' = users d /\ profiles d' = profiles d /\ user_roles d' = user_roles d /\ hotels d' = hotels d.

Lemma ok_insert_user row d d' r : identities_ok d -> insert_user row d = inr (r, d') -> identities_ok d'.
Proof.
  intros [H1 H2 H3 H4 H5 H6]. unfold insert_user. destruct (exists_row _ (users d)) eqn:E1; [discriminate|].
  destruct (match us_hotel_id row with Some _ => _ | None => _ end) eqn:E2; [discriminate|]. intros [= _ <-].
  assert (Hh : forall u, has_user u d = true -> has_user u (d <| users ::= insert_row row |>) = true).
  { intros u (x & Hx & E)%has_user_in. apply has_user_in. exists x. split; [apply in_insert_row; auto | exact E]. }
  split; cbn; auto.
  - apply exclusive_insert; [exact H1|]. intros o Ho. pose proof (proj1 (exists_row_false _ _) E1 o Ho) as E.
    apply orb_false_iff in E as [Ea Eb]. unfold user_by_id, user_by_email, ueq in *. apply N.eqb_neq in Ea. apply String.eqb_neq in Eb.
    unfold same_user. split; intros [E|E]; congruence.
  - intros u h [Hu | ->]%in_insert_row Eh; [eauto|]. rewrite Eh in E2. apply negb_false_iff, exists_row_true in E2 as (x & Hx & E%N.eqb_eq). eauto.
Qed.
Lemma ok_insert_profile row d d' r : identities_ok d -> insert_profile row d = inr (r, d') -> identities_ok d'.
Proof.
  intros [H1 H2 H3 H4 H5 H6]. unfold insert_profile. destruct (has_user _ d) eqn:E0; [|discriminate].
  destruct (exists_row _ (profiles d)) eqn:E1; [discriminate|]. intros [= _ <-]. split; cbn; auto.
  - apply exclusive_insert; [exact H2|]. intros o Ho. pose proof (proj1 (exists_row_false _ _) E1 o Ho) as E.
    unfold profile_of, ueq in E. apply N.eqb_neq in E. split; congruence.
  - intros p [Hp | ->]%in_insert_row; [exact (H4 p Hp) | exact E0].
Qed.
Lemma ok_insert_role row d d' r : identities_ok d -> insert_role row d = inr (r, d') -> identities_ok d'.
Proof.
  intros H. pose proof H as [H1 H2 H3 H4 H5 H6]. unfold insert_role. destruct (exists_row _ (user_roles d)) eqn:E1; [intros [= _ <-]; exact H|].
  destruct (has_user _ d) eqn:E0; [|discriminate]. intros [= _ <-]. split; cbn; auto.
  - apply exclusive_insert; [exact H3|]. intros o Ho. pose proof (proj1 (exists_row_false _ _) E1 o Ho) as E.
    unfold role_of, ueq in E. apply andb_false_iff in E. unfold same_role.
    destruct E as [E|E]; [apply N.eqb_neq in E | apply String.eqb_neq in E]; split; intros [? ?]; congruence.
  - intros p [Hp | ->]%in_insert_row; [exact (H5 p Hp) | exact E0].
Qed.
Lemma ok_delete_roles p d : identities_ok d -> identities_ok (d <| user_roles ::= delete_rows p |>).
Proof.
  intros [H1 H2 H3 H4 H5 H6]. split; cbn; auto; [now apply exclusive_delete|]. intros r [Hr _]%in_delete_rows. exact (H5 r Hr).
Qed.
(** An update of users keeps the keys when it keeps ids, e-mails and hotels. *)
Lemma ok_update_users p f d :
  (forall r, us_id (f r) = us_id r /\ us_email (f r) = us_email r /\ us_hotel_id (f r) = us_hotel_id r) ->
  identities_ok d -> identities_ok (d <| users ::= update_rows p f |>).
Proof.
  intros Hf [H1 H2 H3 H4 H5 H6].
  assert (Hg : forall r, let r' := if p r then f r else r in us_id r' = us_id r /\ us_email r' = us_email r /\ us_hotel_id r' = us_hotel_id r)
    by (intros r; cbn; destruct (p r); auto).
  assert (Hh : forall u, has_user u d = true -> has_user u (d <| users ::= update_rows p f |>) = true).
  { intros u (x & Hx & E)%has_user_in. apply has_user_in. eexists. split; [apply in_update_rows; exists x; eauto|]. destruct (Hg x) as (-> & _). exact E. }
  split; cbn; auto.
  - apply exclusive_update; [exact H1|]. intros a b _ _. unfold same_user. destruct (Hg a) as (-> & -> & _), (Hg b) as (-> & -> & _). auto.
  - intros u h (r & Hr & ->)%in_update_rows. destruct (Hg r) as (_ & _ & ->). eauto.
Qed.
Lemma ok_update_profiles p f d :
  (forall r, pf_user_id (f r) = pf_user_id r) -> identities_ok d -> identities_ok (d <| profiles ::= update_rows p f |>).
Proof.
  intros Hf [H1 H2 H3 H4 H5 H6]. assert (Hg : forall r, pf_user_id (if p r then f r else r) = pf_user_id r) by (intros r; destruct (p r); auto).
  split; cbn; auto.
  - apply exclusive_update; [exact H2|]. intros a b _ _. rewrite !Hg. auto.
  - intros x (r & Hr & ->)%in_update_rows. rewrite Hg. exact (H4 r Hr).
Qed.
Lemma ok_delete_user u d : identities_ok d -> identities_ok (delete_user u d).
Proof.
  intros [H1 H2 H3 H4 H5 H6].
  assert (Hh : forall x, has_user x d = true -> x <> u -> has_user x (delete_user u d) = true).
  { intros x (r & Hr & E)%has_user_in Hne. apply has_user_in. exists r. split; [|exact E]. cbn. apply in_delete_rows. split; [exact Hr|].
    unfold user_by_id, ueq. apply N.eqb_neq. congruence. }
  split; cbn [delete_user users profiles user_roles hotels set].
  1-3: cbn; apply exclusive_delete; assumption.
  - intros p [Hp E]%in_delete_rows. apply Hh; [exact (H4 p Hp)|]. unfold profile_of, ueq in E. now apply N.eqb_neq.
  - intros r [Hr E]%in_delete_rows. apply Hh; [exact (H5 r Hr)|]. unfold role_of, ueq in E. now apply N.eqb_neq.
  - intros x h [Hx _]%in_delete_rows. cbn. eauto.
Qed.

Section Keeping.
Context {env : Env} {cred : Credentials} {cache : AuthCache} {valid : Validator} {jwt : Jwt}.

(** Calls that touch no database. *)
Lemma stable_generate P p : stable P (GenerateFromPassword p).
Proof. intros w H. exact H. Qed.
Lemma stable_signed P c s : stable P (SignedString c s).
Proof. intros w H. exact H. Qed.
Lemma stable_exists P k : stable P (cache_exists k).
Proof. intros w H. exact H. Qed.
Lemma stable_set P k v : stable P (cache_set_value k v).
Proof. intros w H. exact H. Qed.
Lemma stable_get P k : stable P (cache_get_value k).
Proof. intros w H. exact H. Qed.
Hint Resolve stable_generate stable_signed stable_exists stable_set stable_get : keeps.

Ltac ids_step :=
  first
    [ keeps_step
    | match goal with
      | |- stable _ (not_found_or _ _) => apply stable_on_err
      | |- stable _ (taken_or _ _) => apply stable_on_err
      | |- stable _ (lost _) => unfold lost
      | |- stable _ (failing _ _) => apply stable_on_err
      | |- stable _ (refuse_if _ _) => unfold refuse_if
      | |- stable _ (with_status _ _) => apply stable_on_err
      | |- stable _ (exec _ _) =>
          apply keeps_exec; intros ? ? ? ?;
          first [ now apply ok_insert_user | now apply ok_insert_profile | now apply ok_insert_role
                | destruct (named_on_folio _ _); [discriminate | intros [= _ <-]; now apply ok_delete_user]
                | intros [= _ <-]; first [ now apply ok_delete_roles | now apply ok_delete_user | now apply ok_update_users ] ]
      end ].
Ltac ids_go := repeat ids_step.

Lemma keeps_create_user what h e p : keeps identities_ok (create_user what h e p).
Proof. unfold create_user. ids_go. Qed.
Lemma keeps_CreateProfile u n p : keeps identities_ok (CreateProfile u n p).
Proof. unfold CreateProfile. ids_go. Qed.
Lemma keeps_AddRole_repo u r : keeps identities_ok (UserRepo_AddRole u r).
Proof. unfold UserRepo_AddRole. ids_go. Qed.
Lemma keeps_UpdatePassword_repo u p : keeps identities_ok (UserRepo_UpdatePassword u p).
Proof. unfold UserRepo_UpdatePassword. ids_go. Qed.
Lemma set_profile_fields_user fields p q : set_profile_fields fields p = Some q -> pf_user_id q = pf_user_id p.
Proof.
  unfold set_profile_fields. intros H.
  assert (G : forall fs o, foldl (fun p f => p ← p; set_profile_field p f) o fs = Some q -> exists o', o = Some o' /\ pf_user_id q = pf_user_id o').
  { induction fs as [|f fs IH]; cbn; intros o E; [subst; eauto|]. apply IH in E as (o' & E & ->). destruct o as [o|]; [|discriminate].
    exists o. split; [reflexivity|]. cbn in E. unfold set_profile_field in E.
    destruct (_ =s _); [injection E as <-; reflexivity|]. destruct (_ =s _); [injection E as <-; reflexivity|].
    destruct (_ =s _); [injection E as <-; reflexivity | discriminate]. }
  apply G in H as (o' & [= <-] & E). exact E.
Qed.
Lemma keeps_UpdateProfile u fs : keeps identities_ok (UserRepo_UpdateProfile u fs).
Proof.
  unfold UserRepo_UpdateProfile. destruct fs as [|f fs]; [ids_go|]. apply stable_bind; [ids_go|intros now].
  apply keeps_exec. intros d a d' H. destruct (negb _); [discriminate|]. intros [= _ <-]. apply ok_update_profiles; [|exact H].
  intros r. change (pf_user_id (default r (set_profile_fields (f :: fs) r)) = pf_user_id r).
  destruct (set_profile_fields (f :: fs) r) eqn:E; [exact (set_profile_fields_user _ _ _ E) | reflexivity].
Qed.
Hint Resolve keeps_create_user keeps_CreateProfile keeps_AddRole_repo keeps_UpdatePassword_repo keeps_UpdateProfile : keeps.

Lemma keeps_buildSession cfg u r : keeps identities_ok (buildSession cfg u r).
Proof. unfold buildSession, signToken. ids_go. Qed.
Lemma keeps_ensureHotelActive u : keeps identities_ok (ensureHotelActive u).
Proof. unfold ensureHotelActive, IsHotelActive. ids_go. Qed.
Lemma keeps_parseToken t s : keeps identities_ok (parseToken t s).
Proof. unfold parseToken. ids_go. Qed.
Lemma keeps_find u e :
  keeps identities_ok (FindByEmail e) /\ keeps identities_ok (UserRepo_FindByID u) /\ keeps identities_ok (GetRoles u)
  /\ keeps identities_ok (FindProfileByUserID u).
Proof. split; [|split; [|split]]; unfold FindByEmail, UserRepo_FindByID, GetRoles, FindProfileByUserID; ids_go. Qed.
Lemma keeps_add_profile s u e f : keeps identities_ok (add_profile s u e f).
Proof. unfold add_profile. ids_go. Qed.
Definition keeps_FindByEmail e := proj1 (keeps_find 0%N e).
Definition keeps_FindByID u := proj1 (proj2 (keeps_find u "")).
Definition keeps_GetRoles u := proj1 (proj2 (proj2 (keeps_find u ""))).
Definition keeps_FindProfile u := proj2 (proj2 (proj2 (keeps_find u ""))).
Hint Resolve keeps_buildSession keeps_ensureHotelActive keeps_parseToken keeps_FindByEmail keeps_FindByID keeps_GetRoles keeps_FindProfile keeps_add_profile : keeps.

Lemma keeps_auth cfg base b op : keeps identities_ok (auth_handle cfg base b op).
Proof.
  destruct op; cbn [auth_handle];
    unfold SignUp, SignIn, SignOut, Refresh, UpdatePassword, ImpersonateExchange, Svc_SignUp, Svc_SignIn, RefreshSession, UpdatePasswordWithCurrent,
      ImpersonateSession, Svc_UpdatePassword, UserRepo_Create, cache_delete_key; ids_go.
Qed.
Lemma keeps_users secret rq : keeps identities_ok (user_handle secret rq).
Proof.
  unfold user_handle. destruct (authGate _ _) as [[? ?]|c]; [ids_go|]. apply stable_bind; [ids_go|intros _].
  assert (Hitems : forall l, keeps identities_ok (list_items l)) by (induction l; cbn; unfold list_item, roles_or_none; ids_go).
  destruct (uq_op rq); cbn [user_route];
    unfold List, CreateStaff, Get, Update, Delete, SetRole, ResetPassword, AddRole, RemoveRole, CreateStaffMember, CreateForHotel, UserRepo_List, UserRepo_Delete,
      UserRepo_RemoveRole, RemoveAllRoles, Svc_UpdatePassword, id_of, parsed, userInTenant, roles_or_none; ids_go; try apply Hitems.
Qed.
End Keeping.

(** ** Sessions *)

Section Sessions.
Context {env : Env} {cred : Credentials} {cache : AuthCache} {valid : Validator} (cfg : AuthConfig) (base : string).

(** A token signed with the secret, naming the user with these roles, good until then. *)
Definition token_until (exp : Z) (secret token : string) (u : UserRow) (roles : list string) : Prop :=
  exists c, sign_claims c secret = inr token /\ ac_ExpiresAt c = exp /\ ac_UserID c = uuid_string (us_id u) /\ ac_HotelID c = user_hotel u
            /\ ac_Email c = us_email u /\ ac_Roles c = roles /\ ac_PlatformAdmin c = us_platform_admin u.
Definition token_names (secret token : string) (u : UserRow) (roles : list string) : Prop := exists exp, token_until exp secret token u roles.
Definition session_of (u : UserRow) (roles : list string) (s : Session) : Prop :=
  token_names (au_AccessTokenSecret cfg) (se_AccessToken s) u roles /\ token_names (au_RefreshTokenSecret cfg) (se_RefreshToken s) u roles
  /\ se_User s = {| su_ID := uuid_string (us_id u); su_HotelID := user_hotel u; su_Email := us_email u; su_Roles := roles;
                    su_PlatformAdmin := us_platform_admin u |}.
(** Platform administrators, users of no hotel, and users of an active hotel *)
Definition may_enter (u : UserRow) (d : DB) : Prop :=
  us_platform_admin u = true \/ us_hotel_id u = None
  \/ exists h r, us_hotel_id u = Some h /\ find_row (fun r => ueq (ho_id r) h) (hotels d) = Some r /\ ho_is_active r = true.

(** Calls outside the database *)
Lemma ens_apart {A} (m : M GoErr A) d Q R :
  (forall w, w_db (snd (m w)) = w_db w /\ w_tx (snd (m w)) = w_tx w /\ match fst (m w) with inr a => Q a | inl e => R e end) ->
  ensures m d (fun a d' => d' = d /\ Q a) (fun e d' => d' = d /\ R e).
Proof.
  intros H w [Ht Hd]. destruct (H w) as (H1 & H2 & H3). destruct (m w) as [[e|a] w']; cbn in *;
    (split; [rewrite H2; exact Ht | split; [congruence | exact H3]]).
Qed.

Lemma ens_signToken u roles exp secret d :
  ensures (signToken (uuid_string (us_id u)) (user_hotel u) (us_email u) roles (us_platform_admin u) exp secret) d
    (fun t d' => d' = d /\ token_until exp secret t u roles) (fun _ d' => d' = d).
Proof.
  unfold signToken. apply ens_then_now. intros now. apply ens_then_uuid. intros n.
  eapply ens_post; [apply (ens_apart _ d (fun t => token_until exp secret t u roles) (fun _ => True))| auto | intros e d' [-> _]; reflexivity].
  intros w. unfold SignedString; cbn. split; [reflexivity|]. split; [reflexivity|]. destruct (sign_claims _ secret) eqn:E; [exact I|].
  eexists. split; [exact E|]. auto 10.
Qed.
Lemma ens_buildSession u roles d :
  ensures (buildSession cfg u roles) d (fun s d' => d' = d /\ session_of u roles s) (fun _ d' => d' = d).
Proof.
  unfold buildSession, wrap. apply ens_then_now. intros t1. eapply ens_bind; [apply ens_on_err, ens_signToken|].
  intros a d' [-> Ha]. apply ens_then_now. intros t2. eapply ens_bind; [apply ens_on_err, ens_signToken|].
  intros r d' [-> Hr]. apply ens_ret. split; [reflexivity|].
  split; [eexists; exact Ha|]. split; [eexists; exact Hr | reflexivity].
Qed.
Lemma ens_ensureHotelActive u d :
  ensures (ensureHotelActive u) d (fun _ d' => d' = d /\ may_enter u d) (fun _ d' => d' = d).
Proof.
  unfold ensureHotelActive, may_enter. destruct (us_platform_admin u); [apply ens_ret; auto|].
  destruct (us_hotel_id u) as [h|]; [|apply ens_ret; auto].
  eapply ens_bind with (Q1 := fun r d' => d' = d /\ match r with inr a => exists row, find_row (fun r => ueq (ho_id r) h) (hotels d) = Some row /\ ho_is_active row = a | inl _ => True end).
  - apply ens_attempt. unfold IsHotelActive, not_found_or. apply ens_on_err. unfold query_row.
    eapply ens_bind; [apply ens_query with (Q := fun o d' => o = ho_is_active <$> find_row (fun r => ueq (ho_id r) h) (hotels d) /\ d' = d); auto|].
    intros o d' [-> ->]. apply ens_of_option. destruct (find_row _ _) as [row|] eqn:E; cbn; eauto.
  - intros [e|[]] d' [-> H]; [now apply ens_throw | | now apply ens_throw]. apply ens_ret. destruct H as (row & E & Ha).
    split; [reflexivity|]. right. right. exists h, row. auto.
Qed.
End Sessions.

(** ** Claims *)

Inductive IdentityRequest := FromAuth (b : Browser) (op : AuthOp) | FromUsers (rq : UserRequest).
Definition identity_step {env : Env} {jwt : Jwt} {cred : Credentials} {cache : AuthCache} {valid : Validator}
  (cfg : AuthConfig) (base secret : string) (w : World) (rq : IdentityRequest) : World :=
  match rq with
  | FromAuth b op => snd (serve (auth_handle cfg base b op) w)
  | FromUsers rq => snd (serve (user_handle secret rq) w)
  end.

(** C28: through any sequence of sign-ups, sign-ins, refreshes, exchanges and staff
    requests, whatever fails, no two users share an id or an e-mail, a user has at
    most one profile and each role once, and every profile and role belongs to a
    user there is, deleted users included. *)
Theorem identities_kept (env : Env) (jwt : Jwt) (cred : Credentials) (cache : AuthCache) (valid : Validator) cfg base secret rqs d
  (Hd : identities_ok d) :
  identities_ok (w_db (foldl (identity_step cfg base secret) (start d) rqs)).
Proof.
  assert (G : forall rqs w, w_tx w = NoTx -> identities_ok (w_db w) -> identities_ok (w_db (foldl (identity_step cfg base secret) w rqs))).
  { clear rqs. induction rqs as [|rq rqs IH]; intros w Ht H; cbn; [exact H|]. apply IH.
    - destruct rq; cbn; unfold serve; [destruct (auth_handle _ _ _ _ w) as [[|] ?] | destruct (user_handle _ _ w) as [[|] ?]]; reflexivity.
    - destruct rq; cbn; (apply keeps_serve; [|rewrite Ht; split; auto]); [apply keeps_auth | apply keeps_users]. }
  apply G; [reflexivity | exact Hd].
Qed.

(** *** Signing in *)

Section SignIn.
Context {env : Env} {cred : Credentials} {cache : AuthCache} {valid : Validator} (cfg : AuthConfig) (base : string).

(** Run on the database d, outside any transaction, m ends in a world of Q, or
    stops early; either way nothing is written.  [P] is what the worlds it starts
    in have in common. *)
Definition ends {E A} (P : World -> Prop) (m : M E A) (d : DB) (Q : A -> World -> Prop) : Prop :=
  forall w, sees Pool w d -> P w ->
    match m w with (inr a, w') => sees Pool w' d /\ Q a w' | (inl _, w') => sees Pool w' d end.
(** The last statement sent to the database was lost. *)
Definition lost_last (w : World) : Prop := db_fault (pred (w_stmts w)) = true.

Lemma ends_bind {E A B} P (m : M E A) (k : A -> M E B) d Q1 Q :
  ends P m d Q1 -> (forall a, ends (Q1 a) (k a) d Q) -> ends P (m ≫= k) d Q.
Proof.
  intros Hm Hk w Hw HP. specialize (Hm w Hw HP). unfold mbind, M_bind. destruct (m w) as [[e|a] w']; [exact Hm|].
  destruct Hm as [H1 H2]. exact (Hk a w' H1 H2).
Qed.
Lemma ends_on_err {E A} P (m : M GoErr A) (g : GoErr -> E) d Q : ends P m d Q -> ends P (on_err m g) d Q.
Proof. intros Hm w Hw HP. specialize (Hm w Hw HP). unfold on_err. destruct (m w) as [[e|a] w']; exact Hm. Qed.
Lemma ends_ret {E A} P (a : A) d Q : (forall w, P w -> Q a w) -> ends P (mret a : M E A) d Q.
Proof. intros H w Hw HP. split; [exact Hw | exact (H w HP)]. Qed.
Lemma ends_pure {E A} (C : Prop) P (m : M E A) d Q : (C -> ends P m d Q) -> ends (fun w => C /\ P w) m d Q.
Proof. intros H w Hw [HC HP]. exact (H HC w Hw HP). Qed.
Lemma ends_throw_if {E} P (b : bool) (e : E) d : ends P (throw_if b e) d (fun _ w => b = false /\ P w).
Proof. intros w Hw HP. destruct b; [exact Hw | split; [exact Hw | auto]]. Qed.
(** What is known of the answer alone *)
Lemma ends_ensures {E A} (m : M E A) d (Q : A -> Prop) :
  ensures m d (fun a d' => d' = d /\ Q a) (fun _ d' => d' = d) -> ends (fun _ => True) m d (fun a w => Q a /\ True).
Proof. intros Hm w Hw _. specialize (Hm w Hw). destruct (m w) as [[e|a] w']; cbn; unfold sees; tauto. Qed.
(** A computation that sends no statement *)
Lemma ends_aside {E A} P (m : M E A) d (Q : A -> Prop) :
  (forall w w', w_stmts w' = w_stmts w -> P w -> P w') -> (forall w, w_stmts (snd (m w)) = w_stmts w) ->
  ensures m d (fun a d' => d' = d /\ Q a) (fun _ d' => d' = d) -> ends P m d (fun a w => Q a /\ P w).
Proof.
  intros HP Hs Hm w Hw Hp. specialize (Hm w Hw). specialize (HP w (snd (m w)) (Hs w) Hp).
  destruct (m w) as [[e|a] w']; cbn in *; unfold sees; tauto.
Qed.
(** A read whose error is dropped *)
Lemma ends_attempt_query {E A} P (f : DB -> A) g d :
  ends (E := E) P (attempt (on_err (query Pool f) g)) d (fun r w => r = inr (f d) \/ (exists e, r = inl e) /\ lost_last w).
Proof.
  intros w [Ht <-] _. unfold attempt, on_err, query, exec, sees, lost_last; cbn. destruct (db_fault (w_stmts w)) eqn:E1; cbn.
  - split; [auto|]. right. split; [eauto | exact E1].
  - rewrite Ht. split; [split; [reflexivity | reflexivity] | now left].
Qed.
Lemma ends_attempt_row {E A} P (f : DB -> option A) d :
  ends (E := E) P (attempt (query_row Pool f)) d (fun r w => match r with inr a => f d = Some a | inl _ => f d = None \/ lost_last w end).
Proof.
  intros w [Ht <-] _. unfold attempt, query_row, query, mbind, M_bind, exec, sees, lost_last; cbn. destruct (db_fault (w_stmts w)) eqn:E1; cbn.
  - split; [auto|]. right. exact E1.
  - rewrite Ht. destruct (f (w_db w)) eqn:E2; cbn; rewrite ?Ht; auto.
Qed.

(** The user named, whose password was given and who may enter *)
Definition known (rq : signInRequest) (d : DB) (u : UserRow) : Prop :=
  In u (users d) /\ us_email u = ToLower (TrimSpace (si_Email rq)) /\ bcrypt_compare (us_password_hash u) (si_Password rq) = true /\ may_enter u d.
(** The roles on record, or a guest's when the statement that reads them was lost *)
Definition roles_read (u : UserRow) (roles : list string) (d : DB) (lost : Prop) : Prop :=
  roles = roles_of (us_id u) d \/ roles = [RoleGuest] /\ lost.

Lemma buildSession_aside u roles w : w_stmts (snd (buildSession cfg u roles w)) = w_stmts w.
Proof.
  unfold buildSession, signToken, wrap, on_err, mbind, M_bind, time_now, new_uuid, SignedString; cbn.
  repeat match goal with |- context [sign_claims ?c ?k] => destruct (sign_claims c k); cbn end; reflexivity.
Qed.
Lemma Svc_SignIn_ends rq d :
  ends (fun _ => True) (Svc_SignIn cfg (si_Email rq) (si_Password rq)) d
    (fun s w => exists u roles, known rq d u /\ session_of cfg u roles s /\ roles_read u roles d (lost_last w)).
Proof.
  unfold Svc_SignIn, FindByEmail, not_found_or. cbv zeta.
  eapply ends_bind; [apply ends_ensures with (Q := fun u => find_row (user_by_email (ToLower (TrimSpace (si_Email rq)))) (users d) = Some u)|].
  { do 2 apply ens_on_err. unfold query_row. eapply ens_bind;
      [apply ens_query with (Q := fun o d' => o = find_row (user_by_email (ToLower (TrimSpace (si_Email rq)))) (users d) /\ d' = d); auto|].
    intros o d' [-> ->]. apply ens_of_option. destruct (find_row _ _); auto. }
  intros u. apply ends_pure. intros Hu. eapply ends_bind; [apply ends_throw_if|]. intros ?. apply ends_pure. intros Hp%negb_false_iff.
  eapply ends_bind; [apply ends_ensures, ens_ensureHotelActive|]. intros ?. apply ends_pure. intros He.
  assert (Hk : known rq d u).
  { apply find_row_some in Hu as [Hi Hm%String.eqb_eq]. split; [exact Hi|]. split; [exact Hm|]. split; [exact Hp | exact He]. }
  eapply ends_bind; [apply ends_attempt_query|]. intros r.
  intros w Hw Hr. pose proof (ends_aside (fun w => r = inr (roles_of (us_id u) d) \/ (exists e, r = inl e) /\ lost_last w)
    (buildSession cfg u (match r with inr roles => roles | inl _ => [RoleGuest] end)) d _
    ltac:(unfold lost_last; intros x x' ->; auto) (buildSession_aside u _) (ens_buildSession cfg u _ d) w Hw Hr) as H.
  destruct (buildSession _ _ _ w) as [[e|s] w']; [exact H|]. destruct H as (H1 & H2 & H3). split; [exact H1|].
  eexists u, _. split; [exact Hk|]. split; [exact H2|]. unfold roles_read. destruct H3 as [->|[[e ->] H3]]; auto.
Qed.
End SignIn.

(** C27: whatever fails, a session is given on sign-in only to a user whose e-mail
    was given, with the password of the stored hash, and who may enter: an
    administrator of the platform, a user of no hotel, or one whose hotel is
    active.  Its tokens are signed for that user with the roles on record, or as a
    guest when the very statement that reads the roles was lost.  On the portal of
    a tenant on record the user is one of that tenant, administrators of the
    platform and users of no hotel being refused too, unless the very statement
    that looks the tenant up, the last one sent, was lost: then the portal is not
    checked.  Nothing is written either way. *)
Theorem sign_in_authenticates (env : Env) (cred : Credentials) (cache : AuthCache) (valid : Validator) cfg base b rq d :
  ends (fun _ => True) (SignIn cfg base b (Some rq)) d (fun a w => exists u roles s,
      a = RespOK (AB_session s (setAuthCookies b s)) /\ known rq d u /\ session_of cfg u roles s
      /\ match portal_slug base b with
         | None => roles_read u roles d (lost_last w)
         | Some slug =>
             roles_read u roles d (db_fault (pred (pred (w_stmts w))) = true)
             /\ forall h, find_row (fun r => ho_slug r =s slug) (hotels d) = Some h -> uuid_string (ho_id h) <> "" ->
                user_hotel u = uuid_string (ho_id h) \/ lost_last w
         end).
Proof.
  unfold SignIn, refuse_if, with_status. cbn [of_option]. eapply ends_bind with (Q1 := fun r w => r = rq /\ True); [now apply ends_ret|].
  intros r. apply ends_pure. intros ->. eapply ends_bind with (Q1 := fun _ _ => True).
  { destruct (Struct _); [intros w Hw _; exact Hw | now apply ends_ret]. }
  intros ?. eapply ends_bind; [apply ends_on_err, Svc_SignIn_ends|]. intros s.
  destruct (portal_slug base b) as [slug|].
  2:{ eapply ends_bind; [now apply ends_ret with (Q := fun _ w => exists u roles, known rq d u /\ session_of cfg u roles s /\ roles_read u roles d (lost_last w))|].
      intros ?. apply ends_ret. intros w (u & roles & H). exists u, roles, s. auto. }
  intros w Hw (u & roles & Hk & Hs & Hr). set (look := fun d => _ <$> find_row _ (hotels d)).
  pose proof (ends_attempt_row (E := Resp AuthBody) (fun _ => True) look d w Hw I) as H.
  unfold mbind at 1, M_bind at 1. unfold mbind at 1, M_bind at 1.
  assert (Hn : w_stmts (snd (attempt (E := Resp AuthBody) (query_row Pool look) w)) = S (w_stmts w)).
  { unfold attempt, query_row, query, mbind, M_bind, exec; cbn. destruct (db_fault _); cbn; [reflexivity|].
    destruct (look (w_db w)); reflexivity. }
  destruct (attempt (query_row Pool look) w) as [[e|r] w1]; cbn in Hn; [exact H|]. destruct H as [Hw1 Hl].
  assert (Hr1 : roles_read u roles d (db_fault (pred (pred (w_stmts w1))) = true)) by (rewrite Hn; exact Hr).
  destruct Hs as (Hs1 & Hs2 & Hs3). unfold throw_if. destruct r as [e|x]; cbn.
  - split; [exact Hw1|]. exists u, roles, s. split; [reflexivity|]. split; [exact Hk|]. split; [split; auto|]. split; [exact Hr1|].
    intros h Hh _. destruct Hl as [Hl|Hl]; [|now right]. unfold look in Hl. now rewrite Hh in Hl.
  - rewrite Hs3. cbn [su_HotelID]. destruct (String.eqb_spec x ""); [subst|destruct (String.eqb_spec (user_hotel u) x)]; cbn; [| |exact Hw1];
      (split; [exact Hw1|]; exists u, roles, s; split; [reflexivity|]; split; [exact Hk|]; split; [split; auto|]; split; [exact Hr1|];
       intros h Hh Hne; unfold look in Hl; rewrite Hh in Hl; injection Hl as Hl; left; congruence).
Qed.

(** *** Refresh tokens *)

Section Calls.
Context {env : Env}.

(** The trace of outside calls only grows. *)
Definition traces {E A} (m : M E A) : Prop := forall w, exists later, w_calls (snd (m w)) = (w_calls w ++ later)%list.
Lemma traces_same {E A} (m : M E A) : (forall w, w_calls (snd (m w)) = w_calls w) -> traces m.
Proof. intros H w. exists []. rewrite app_nil_r. apply H. Qed.
Lemma traces_bind {E A B} (m : M E A) (k : A -> M E B) : traces m -> (forall a, traces (k a)) -> traces (m ≫= k).
Proof.
  intros Hm Hk w. unfold mbind, M_bind. destruct (Hm w) as [l1 E1]. destruct (m w) as [[e|a] w1]; cbn in *; [eauto|].
  destruct (Hk a w1) as [l2 E2]. exists (l1 ++ l2)%list. now rewrite E2, E1, app_assoc.
Qed.
Lemma traces_on_err {E A} (m : M GoErr A) (h : GoErr -> E) : traces m -> traces (on_err m h).
Proof. intros H w. destruct (H w) as [l E1]. exists l. unfold on_err. destruct (m w) as [[|] ?]; exact E1. Qed.
Lemma traces_buildSession {cred : Credentials} cfg u roles : traces (buildSession cfg u roles).
Proof.
  assert (Hs : forall a b c r p e s, traces (signToken a b c r p e s)).
  { intros. apply traces_same. intros w. reflexivity. }
  unfold buildSession, wrap. do 2 (apply traces_bind; [now apply traces_same|]; intros ?; apply traces_bind; [apply traces_on_err, Hs|]; intros ?).
  now apply traces_same.
Qed.
End Calls.

(** C29: a refresh token is good once: when a session was refreshed with it, then for
    as long as Redis remembers what it is told, whatever happened since and whatever
    fails, presenting it again is refused and gives no session. *)
Theorem refresh_token_spent (env : Env) (cred : Credentials) (cache : AuthCache) cfg token w s w'
  (Hremembers : forall past key, In (CallSet key "1") past -> redis_exists past key = inr true)
  (Hfirst : RefreshSession cfg token w = (inr s, w')) w2 later (Hlater : w_calls w2 = (w_calls w' ++ later)%list) :
  fst (RefreshSession cfg token w2) = inl ErrTokenInvalid.
Proof.
  assert (Hin : In (CallSet (revokedKey token) "1") (w_calls w')).
  { unfold RefreshSession in Hfirst. apply bind_ok in Hfirst as (r & w1 & _ & H). apply bind_ok in H as (? & w3 & _ & H).
    apply bind_ok in H as (claims & w4 & _ & H). apply bind_ok in H as (uid & w5 & _ & H). apply bind_ok in H as (u & w6 & _ & H).
    apply bind_ok in H as (? & w7 & _ & H). apply bind_ok in H as (roles & w8 & _ & H). apply bind_ok in H as (? & w9 & H9 & H).
    destruct (traces_buildSession cfg u (match roles with inr roles => roles | inl _ => [] end) w9) as [l E]. rewrite H in E. cbn in E. rewrite E.
    apply in_app_iff. left. unfold attempt, cache_set_value in H9. destruct (redis_set _ _); injection H9 as _ <-; cbn; apply in_app_iff; right; now left. }
  assert (Hin2 : In (CallSet (revokedKey token) "1") (w_calls w2)) by (rewrite Hlater; apply in_app_iff; now left).
  unfold RefreshSession, mbind, M_bind, attempt, cache_exists. rewrite (Hremembers _ _ Hin2). reflexivity.
Qed.

Section ReadBack.
Context {env : Env} {cred : Credentials} (cfg : AuthConfig) (u : UserRow) (d : DB).
Hypothesis Hsigned : forall now c key t, sign_claims c key = inr t ->
  parse_claims now t key = if unix_sec now <? ac_ExpiresAt c then TokenValid c else TokenOutOfDate.
Hypothesis Hforged : forall now c key key' t, sign_claims c key = inr t -> key <> key' -> parse_claims now t key' = TokenRefused.

Lemma access_token_opens t c :
  uuid_parse (uuid_string (us_id u)) = Some (us_id u) -> find_row (user_by_id (us_id u)) (users d) = Some u -> may_enter u d ->
  sign_claims c (au_AccessTokenSecret cfg) = inr t -> ac_UserID c = uuid_string (us_id u) -> (forall m, unix_sec (clock m) < ac_ExpiresAt c) ->
  runs Pool (GetUserFromToken cfg t) d (fun r d2 => d2 = d /\ r = (u, ac_Roles c)) (fun _ => False).
Proof.
  intros Huuid Hu Henter Ht E1 Hx. unfold GetUserFromToken, parseToken, UserRepo_FindByID, not_found_or, ensureHotelActive, IsHotelActive.
    eapply runs_bind with (Q1 := fun c' d' => c' = c /\ d' = d); [ | intros; unfold not_found_or; inert_go | ].
    - eapply runs_bind with (Q1 := fun now d' => (exists m, now = clock m) /\ d' = d); [ | intros now; inert_go | ].
      + intros w [Hw <-]. left. exists (w_db w). split; [split; [exact Hw | reflexivity]|]. split; [eexists|]; reflexivity.
      + intros now d' [[m ->] ->]. rewrite (Hsigned _ _ _ _ Ht). specialize (Hx m). apply Z.ltb_lt in Hx. rewrite Hx. now apply runs_ret.
    - intros c' d' [-> ->]. rewrite E1, Huuid. apply runs_then_of_option; [intros; unfold not_found_or; inert_go|].
      eapply runs_bind with (Q1 := fun u' d' => u' = u /\ d' = d); [ | intros; unfold not_found_or; inert_go | ].
      + do 2 apply runs_on_err. apply runs_query_row. rewrite Hu. auto.
      + intros u' d' [-> ->]. eapply runs_bind with (Q1 := fun _ d' => d' = d); [ | intros; inert_go | ].
        * destruct Henter as [->|[->|(h & row & -> & Hh & Ha)]]; [now apply runs_ret | destruct (us_platform_admin u); now apply runs_ret|].
          destruct (us_platform_admin u); [now apply runs_ret|].
          eapply runs_bind with (Q1 := fun r d' => r = inr true /\ d' = d); [ | intros r; inert_go | ].
          -- eapply runs_post; [apply runs_attempt_ok, runs_on_err; apply runs_query_row with (Q := fun a d' => a = true /\ d' = d); rewrite Hh; cbn; auto |].
             intros r d' (a & -> & -> & ->). auto.
          -- intros r d' [-> ->]. now apply runs_ret.
        * intros _ d' ->. apply runs_ret. auto.
Qed.
Lemma refresh_token_refused t c :
  au_AccessTokenSecret cfg <> au_RefreshTokenSecret cfg -> sign_claims c (au_RefreshTokenSecret cfg) = inr t ->
  runs Pool (GetUserFromToken cfg t) d (fun _ _ => False) (fun e => e = ErrTokenInvalid).
Proof.
  intros Hsecrets Ht. unfold GetUserFromToken, parseToken. eapply runs_bind with (Q1 := fun _ _ => False);
      [ | intros; unfold UserRepo_FindByID, not_found_or, ensureHotelActive, IsHotelActive, not_found_or; inert_go | contradiction ].
    apply runs_now; [intros; inert_go|]. intros now. rewrite (Hforged now _ _ _ _ Ht (not_eq_sym Hsecrets)). now apply runs_throw.
Qed.
End ReadBack.

(** The tokens of a session are read back as what they were signed for: for as
    long as the access token is in date and its user may enter, the middleware's
    reading of it gives that user and the roles it was signed with; and the refresh
    token, signed with another secret, is never taken for an access token. *)
Theorem session_read_back (env : Env) (cred : Credentials) (cache : AuthCache) cfg u roles d
  (Hsigned : forall now c key t, sign_claims c key = inr t ->
     parse_claims now t key = if unix_sec now <? ac_ExpiresAt c then TokenValid c else TokenOutOfDate)
  (Hforged : forall now c key key' t, sign_claims c key = inr t -> key <> key' -> parse_claims now t key' = TokenRefused)
  (Hsecrets : au_AccessTokenSecret cfg <> au_RefreshTokenSecret cfg)
  (Huuid : uuid_parse (uuid_string (us_id u)) = Some (us_id u))
  (Hdate : forall n m, unix_sec (clock m) < expiry (clock n) (au_AccessTokenTTL cfg))
  (Hu : find_row (user_by_id (us_id u)) (users d) = Some u) (Henter : may_enter u d) :
  ensures (buildSession cfg u roles) d
    (fun s d' => d' = d
       /\ runs Pool (GetUserFromToken cfg (se_AccessToken s)) d (fun r d2 => d2 = d /\ r = (u, roles)) (fun _ => False)
       /\ runs Pool (GetUserFromToken cfg (se_RefreshToken s)) d (fun _ _ => False) (fun e => e = ErrTokenInvalid))
    (fun _ d' => d' = d).
Proof.
  unfold buildSession, wrap.
  eapply ens_bind with (Q1 := fun t d' => d' = d /\ exists n, t = clock n); [apply ens_now; eauto|]. intros t1 d' [-> [n ->]].
  eapply ens_bind; [apply ens_on_err, ens_signToken|]. cbn beta. intros ta d' (-> & c1 & Hc1 & E3 & E1 & _ & _ & E2 & _). apply ens_then_now. intros t2.
  eapply ens_bind; [apply ens_on_err, ens_signToken|]. cbn beta. intros tr d' (-> & c2 & Hc2 & _).
  apply ens_ret. split; [reflexivity|]. cbn [se_AccessToken se_RefreshToken]. split; [|exact (refresh_token_refused cfg d Hforged _ _ Hsecrets Hc2)].
  rewrite <- E2. eapply access_token_opens; [exact Hsigned | exact Huuid | exact Hu | exact Henter | exact Hc1 | exact E1 |].
  intros m. rewrite E3. apply Hdate.
Qed.

(** *** The staff page and other hotels *)

Section OtherHotels.
Context {env : Env} {cred : Credentials} {valid : Validator}.

(** What the tenant check leaves written: nothing, or the 404. *)
Definition checked (c : Ctx) (u : uuid) (d : DB) : option Z :=
  match find_row (user_by_id u) (users d) with
  | Some r => if oueq (us_hotel_id r) (tenantHotelID c) then None else Some 404
  | None => Some 404
  end.
Lemma runs_attempt_found {E A} (f : DB -> option A) h d (R : E -> Prop) :
  runs Pool (attempt (on_err (query_row Pool f) h)) d
    (fun r d' => d' = d /\ match r with inr a => f d = Some a | inl _ => f d = None end) R.
Proof.
  intros w [Ht <-]. unfold attempt, on_err, query_row, query, mbind, M_bind, exec; cbn. destruct (db_fault (w_stmts w)) eqn:E1; cbn.
  - right. split; [eexists; exact E1 | exact Ht].
  - destruct (f (w_db w)) eqn:E2; cbn; left; exists (w_db w); rewrite ?Ht; auto.
Qed.
Lemma runs_userInTenant c u d :
  runs Pool (userInTenant c u) d (fun r d' => d' = d /\ snd r = checked c u d) (fun _ => False).
Proof.
  unfold userInTenant, lost, UserRepo_FindByID, not_found_or, checked.
  eapply runs_bind with (Q1 := fun r d' => d' = d /\ r = find_row (user_by_id u) (users d)); [| intros; inert_go |].
  - eapply runs_bind; [apply runs_attempt_found | intros; inert_go |]. intros [e|a] d' [-> H]; apply runs_ret; auto.
  - intros r d' [-> ->]. apply runs_ret. destruct (find_row _ _) as [x|]; [destruct (oueq _ _)|]; auto.
Qed.
Lemma inert_userInTenant c u : inert Pool (userInTenant c u).
Proof. unfold userInTenant, lost, UserRepo_FindByID, not_found_or. inert_go. Qed.
Lemma inert_generate p : inert Pool (GenerateFromPassword p).
Proof. intros w H. exact H. Qed.
Hint Resolve inert_userInTenant inert_generate : keeps.
Ltac desk_inert := intros; unfold failing, lost, refuse_if, id_of, parsed, UserRepo_Delete, Svc_UpdatePassword, UserRepo_UpdatePassword; inert_go.

Lemma runs_Delete c u d : uuid_parse (c_params c "id") = Some u -> named_on_folio u d = false ->
  runs Pool (Delete c) d (fun a d' => d' = delete_user u d /\ a = ok (checked c u d) UB_deleted) (fun _ => False).
Proof.
  intros Hid Hf. unfold Delete, id_of. rewrite Hid. apply runs_then_of_option; [desk_inert|].
  eapply runs_bind; [apply runs_userInTenant | desk_inert |]. intros [o st] d' [-> Hst]. cbn in Hst. subst st.
  eapply runs_bind with (Q1 := fun _ d' => d' = delete_user u d); [ | desk_inert |].
  - unfold failing, UserRepo_Delete. apply runs_on_err, runs_exec. now rewrite Hf.
  - intros _ d' ->. apply runs_ret. auto.
Qed.
Lemma runs_ResetPassword c u password hash d : uuid_parse (c_params c "id") = Some u -> validate_password password = None ->
  (forall w, bcrypt_generate w password = inr hash) ->
  runs Pool (ResetPassword c (Some password)) d
    (fun a d' => a = ok (checked c u d) UB_updated
       /\ exists now, d' = d <| users ::= update_rows (user_by_id u) (fun r => r <| us_password_hash := hash |> <| us_updated_at := now |>) |>)
    (fun _ => False).
Proof.
  intros Hid Hpw Hhash. unfold ResetPassword, id_of, parsed. rewrite Hid. apply runs_then_of_option; [desk_inert|].
  eapply runs_bind; [apply runs_userInTenant | desk_inert |]. intros [o st] d' [-> Hst]. cbn in Hst. subst st.
  apply runs_then_of_option; [desk_inert|]. unfold refuse_if. rewrite Hpw.
  eapply runs_bind with (Q1 := fun _ d' => d' = d); [now apply runs_ret | desk_inert |]. intros _ d' ->.
  eapply runs_bind with (Q1 := fun _ d' => exists now, d' = d <| users ::= update_rows (user_by_id u) (fun r => r <| us_password_hash := hash |> <| us_updated_at := now |>) |>);
    [ | desk_inert |].
  - unfold failing, Svc_UpdatePassword, UserRepo_UpdatePassword. apply runs_on_err.
    eapply runs_bind with (Q1 := fun h d' => h = hash /\ d' = d); [ | desk_inert |].
    + intros w Hw. unfold GenerateFromPassword. rewrite Hhash. left. exists d. auto.
    + intros h d' [-> ->]. apply runs_now; [desk_inert|]. intros now. apply runs_exec. eauto.
  - intros _ d' H. apply runs_ret. auto.
Qed.
End OtherHotels.

(** C30: with no statement failing, a request to delete a user or to set a password,
    from anyone the staff page lets through, acts on the user named (unless a folio names
    it) whatever hotel
    that user belongs to: the check of the hotel decides only whether the answer
    carries the status 404. *)
Theorem staff_requests_cross_hotels (env : Env) (jwt : Jwt) (cred : Credentials) (valid : Validator) secret ctx c u d password hash
  (Hgate : authGate secret ctx = inr c) (Hadmin : adminOnly secret c = None) (Hid : uuid_parse (c_params c "id") = Some u)
  (Hpw : validate_password password = None) (Hhash : forall w, bcrypt_generate w password = inr hash) (Hfolio : named_on_folio u d = false) :
  runs Pool (user_handle secret {| uq_ctx := ctx; uq_op := Op_Delete |}) d
    (fun a d' => d' = delete_user u d /\ a = ok (checked c u d) UB_deleted) (fun _ => False)
  /\ runs Pool (user_handle secret {| uq_ctx := ctx; uq_op := Op_ResetPassword (Some password) |}) d
    (fun a d' => a = ok (checked c u d) UB_updated
       /\ exists now, d' = d <| users ::= update_rows (user_by_id u) (fun r => r <| us_password_hash := hash |> <| us_updated_at := now |>) |>)
    (fun _ => False).
Proof.
  unfold user_handle. cbn [uq_ctx uq_op for_admins user_route]. rewrite Hgate, Hadmin. cbn [guard].
  split; [exact (runs_Delete c u d Hid Hfolio) | exact (runs_ResetPassword c u password hash d Hid Hpw Hhash)].
Qed.

(** ** A hotel's staff *)

(** A hash shows its password; the signer knows the tokens of one user at noon. *)
#[export] Instance AuthClaims_eq_dec : EqDecision AuthClaims.
Proof. solve_decision. Defined.
Definition auth_demo : AuthConfig :=
  {| au_AccessTokenSecret := "access"; au_RefreshTokenSecret := "refresh"; au_AccessTokenTTL := 900 * ns_per_s; au_RefreshTokenTTL := 604800 * ns_per_s |}.
Definition noon : Time := Date 2026 3 10 12 0 0.
Definition manager : UserRow :=
  {| us_id := 7; us_hotel_id := Some 1%N; us_email := "manager@serenentra.example"; us_password_hash := "$lotus"; us_platform_admin := false;
     us_created_at := noon; us_updated_at := noon |}.
Definition cook : UserRow :=
  {| us_id := 9; us_hotel_id := Some 2%N; us_email := "cook@other.example"; us_password_hash := "$basil"; us_platform_admin := false;
     us_created_at := noon; us_updated_at := noon |}.
Definition claims_for (ttl : Z) : AuthClaims :=
  {| ac_ExpiresAt := expiry noon ttl; ac_IssuedAt := unix_sec noon; ac_Issuer := "hotel-harmony"; ac_ID := "7"; ac_UserID := "7"; ac_HotelID := "7";
     ac_Email := us_email manager; ac_Roles := ["hotel_admin"]; ac_PlatformAdmin := false |}.
Definition access_claims : AuthClaims := claims_for (au_AccessTokenTTL auth_demo).
Definition refresh_claims : AuthClaims := claims_for (au_RefreshTokenTTL auth_demo).
Definition read_token (now : Time) (token key token0 key0 : string) (c : AuthClaims) : option TokenStatus :=
  if (token =s token0) && (key =s key0) then Some (if unix_sec now <? ac_ExpiresAt c then TokenValid c else TokenOutOfDate) else None.
Definition demo_credentials : Credentials := {|
  bcrypt_generate := fun _ p => inr ("$" ++ p);
  bcrypt_compare := fun h p => h =s "$" ++ p;
  sign_claims := fun c key =>
    if bool_decide (c = access_claims) && (key =s "access") then inr "A"
    else if bool_decide (c = refresh_claims) && (key =s "refresh") then inr "R" else inl (Errorf "not signed");
  parse_claims := fun now token key =>
    match read_token now token key "A" "access" access_claims, read_token now token key "R" "refresh" refresh_claims with
    | Some s, _ | None, Some s => s
    | None, None => TokenRefused
    end |}.
Definition demo_cache : AuthCache := {|
  redis_get := fun _ _ => inl (Errorf "redis: nil");
  redis_exists := fun past key => inr (existsb (fun c => match c with CallSet k _ => k =s key | _ => false end) past);
  redis_set := fun _ _ => None |}.
Definition lenient : Validator := {|
  validate_sign_up := fun _ => None; validate_sign_in := fun _ => None; validate_staff := fun _ _ => None; validate_password := fun _ => None |}.
(** At noon on one day; every id is written 7. *)
Definition one_day : Env := {|
  db_fault := fun _ => false; uuid_new := fun n => (1000 + N.of_nat n)%N; uuid_parse := demo_parse; db_shared := true; uuid_string := fun _ => "7";
  clock := fun _ => noon; server_off := 0; db_off := 0; driver_text := fun s => ("ERROR: SQLSTATE " ++ s)%string; num_enc := to_cents;
  num_dec := cents; date_in := parse_date |}.
Definition two_hotels : DB :=
  empty_db <| hotels := [ {| ho_id := 1; ho_name := "Serenentra"; ho_slug := "serenentra"; ho_gst_rate := None; ho_is_active := true;
                             ho_plan_tier := "premium"; ho_modules := []; ho_address := None; ho_settings := []; ho_identity := no_identity |};
                          {| ho_id := 2; ho_name := "Other"; ho_slug := "other"; ho_gst_rate := None; ho_is_active := true;
                             ho_plan_tier := "basic"; ho_modules := []; ho_address := None; ho_settings := []; ho_identity := no_identity |} ] |>
           <| users := [manager; cook] |>
           <| user_roles := [ {| ur_id := 70; ur_hotel_id := Some 1%N; ur_user_id := 7; ur_role := "hotel_admin"; ur_created_at := noon |};
                              {| ur_id := 90; ur_hotel_id := Some 2%N; ur_user_id := 9; ur_role := "kitchen_manager"; ur_created_at := noon |} ] |>.
Lemma two_hotels_ok : identities_ok two_hotels.
Proof.
  split; cbn.
  - intros a b [<-|[<-|[]]] [<-|[<-|[]]] [H|H]; try reflexivity; discriminate.
  - intros a b [].
  - intros a b [<-|[<-|[]]] [<-|[<-|[]]] [H1 H2]; try reflexivity; discriminate.
  - intros p [].
  - intros r [<-|[<-|[]]]; reflexivity.
  - intros u h [<-|[<-|[]]] [= <-]; eexists;
      first [ split; [left; reflexivity | reflexivity] | split; [right; left; reflexivity | reflexivity] ].
Qed.

Definition at_desk : Browser := {| br_Hostname := "serenentra.app.example"; br_ForwardedHost := ""; br_Protocol := "https"; br_ForwardedProto := ""; br_ForwardedSsl := "" |}.
Definition of_cook (op : UserOp) : UserRequest := {| uq_ctx := demo_request "hotel_admin@1" "9"; uq_op := op |}.

Lemma identities_kept_witness :
  let rqs := [ FromUsers (of_cook (Op_AddRole (Some "waiter"))); FromUsers (of_cook (Op_CreateStaff (Some {| cs_Email := "New@Serenentra.example"; cs_Password := "jasmine1";
                 cs_FullName := ""; cs_Role := "receptionist" |}))); FromUsers (of_cook Op_Delete);
               FromAuth at_desk (Op_SignUp (Some {| sr_Email := "guest@x.example"; sr_Password := "rosemary"; sr_FullName := "" |})) ] in
  let d' := w_db (foldl (identity_step (env := calm) (jwt := demo_jwt) (cred := demo_credentials) (cache := demo_cache) (valid := lenient) auth_demo "app.example" "secret")
                    (start two_hotels) rqs) in
  identities_ok d' /\ map us_email (users d') = ["manager@serenentra.example"; "new@serenentra.example"; "guest@x.example"]
  /\ map ur_role (user_roles d') = ["hotel_admin"; "receptionist"; "guest"].
Proof.
  intros rqs d'. split; [|vm_compute; auto].
  exact (identities_kept calm demo_jwt demo_credentials demo_cache lenient auth_demo "app.example" "secret" rqs two_hotels two_hotels_ok).
Defined.

Lemma refresh_token_spent_witness :
  let refresh := RefreshSession (env := one_day) (cred := demo_credentials) (cache := demo_cache) auth_demo "R" in
  (exists s, fst (refresh (start two_hotels)) = inr s /\ se_AccessToken s = "A")
  /\ fst (refresh (snd (refresh (start two_hotels)))) = inl ErrTokenInvalid.
Proof.
  intros refresh. split; [eexists; split; vm_compute; reflexivity|].
  destruct (refresh (start two_hotels)) as [[e|s] w'] eqn:E; [exfalso; revert E; vm_compute; discriminate|].
  apply (refresh_token_spent one_day demo_credentials demo_cache auth_demo "R" (start two_hotels) s w') with (later := []).
  - intros past key H. cbn. f_equal. apply existsb_exists. eexists. split; [exact H | apply String.eqb_refl].
  - exact E.
  - cbn. now rewrite app_nil_r.
Defined.

Lemma demo_signed c key t : sign_claims (Credentials := demo_credentials) c key = inr t ->
  (c = access_claims /\ key = "access" /\ t = "A") \/ (c = refresh_claims /\ key = "refresh" /\ t = "R").
Proof.
  cbn. destruct (bool_decide_reflect (c = access_claims)) as [->|]; cbn [andb].
  - destruct (String.eqb_spec key "access"); [intros [= <-]; auto|]. replace (bool_decide (access_claims = refresh_claims)) with false by reflexivity. discriminate.
  - destruct (bool_decide_reflect (c = refresh_claims)) as [->|]; cbn [andb]; [|discriminate].
    destruct (String.eqb_spec key "refresh"); [intros [= <-]; auto | discriminate].
Qed.
Lemma session_read_back_witness :
  let build := buildSession (env := one_day) (cred := demo_credentials) auth_demo manager ["hotel_admin"] in
  (exists s, fst (build (start two_hotels)) = inr s /\ se_AccessToken s = "A" /\ se_RefreshToken s = "R")
  /\ ensures build two_hotels
    (fun s d' => d' = two_hotels
       /\ runs (env := one_day) Pool (GetUserFromToken (env := one_day) (cred := demo_credentials) auth_demo (se_AccessToken s)) two_hotels
            (fun r d2 => d2 = two_hotels /\ r = (manager, ["hotel_admin"])) (fun _ => False)
       /\ runs (env := one_day) Pool (GetUserFromToken (env := one_day) (cred := demo_credentials) auth_demo (se_RefreshToken s)) two_hotels
            (fun _ _ => False) (fun e => e = ErrTokenInvalid))
    (fun _ d' => d' = two_hotels).
Proof.
  intros build. split; [eexists; split; [vm_compute; reflexivity | split; reflexivity]|].
  apply (session_read_back one_day demo_credentials demo_cache auth_demo manager ["hotel_admin"] two_hotels).
  - intros now c key t [(-> & -> & ->)|(-> & -> & ->)]%demo_signed; reflexivity.
  - intros now c key key' t H Hne. apply demo_signed in H as [(-> & -> & ->)|(-> & -> & ->)]; cbn; unfold read_token; cbn.
    + destruct (String.eqb_spec key' "access"); [congruence | reflexivity].
    + destruct (String.eqb_spec key' "refresh"); [congruence | reflexivity].
  - discriminate.
  - reflexivity.
  - intros n m. vm_compute. reflexivity.
  - reflexivity.
  - right. right. do 2 eexists. split; [reflexivity|]. split; reflexivity.
Defined.

(** The manager of hotel 1 deletes the cook of hotel 2. *)
Definition manager_ctx : Ctx := (demo_request "hotel_admin@1" "9") <| c_user_id := Some "7" |> <| c_hotel_id := Some "1" |>.
Lemma staff_requests_cross_hotels_witness :
  oueq (us_hotel_id cook) 1%N = false
  /\ runs (env := calm) Pool (user_handle (env := calm) (jwt := demo_jwt) (cred := demo_credentials) (valid := lenient) "secret" (of_cook Op_Delete)) two_hotels
       (fun a d' => d' = delete_user 9%N two_hotels /\ a = RespOK (UB_over 404 UB_deleted)) (fun _ => False)
  /\ map us_id (users (delete_user 9%N two_hotels)) = [7%N].
Proof.
  split; [reflexivity|]. split; [|reflexivity].
  refine (proj1 (staff_requests_cross_hotels calm demo_jwt demo_credentials lenient "secret" (demo_request "hotel_admin@1" "9")
    manager_ctx 9%N two_hotels "nutmeg99" "$nutmeg99" eq_refl _ eq_refl eq_refl (fun _ => eq_refl) eq_refl)).
  vm_compute. reflexivity.
Defined.

(** The portal of a tenant fails open: when the statement that looks the tenant up
    is lost, the manager of one hotel is signed in on the portal of the other,
    where he is otherwise refused. *)
Theorem portal_check_fails_open :
  let env fault := {| db_fault := fault; uuid_new := fun n => (1000 + N.of_nat n)%N; uuid_parse := demo_parse; db_shared := true;
    uuid_string := fun u => if (u =? 2)%N then "2" else "7"; clock := fun _ => noon; server_off := 0; db_off := 0;
    driver_text := fun s => ("ERROR: SQLSTATE " ++ s)%string; num_enc := to_cents; num_dec := cents; date_in := parse_date |} in
  let other := at_desk <| br_Hostname := "other.app.example" |> in
  let answer fault := fst (serve (SignIn (env := env fault) (cred := demo_credentials) (valid := lenient) auth_demo "app.example" other
                        (Some {| si_Email := "manager@serenentra.example"; si_Password := "lotus" |})) (start two_hotels)) in
  answer (fun _ => false) = RespError 403 "your account is not authorized for this portal"
  /\ match answer (Nat.eqb 3) with RespOK (AB_session s _) => se_AccessToken s = "A" | _ => False end.
Proof. vm_compute. split; reflexivity. Qed.

(** Three more departures: a sign-up whose later statements fail leaves the account
    without profile or role, and its e-mail is then taken; signing out tells Redis
    nothing, so the refresh token still works; and a new password of any length,
    none included, is accepted from its owner. *)
Theorem account_departures :
  let serve_auth e op w := serve (auth_handle (env := e) (cred := demo_credentials) (cache := demo_cache) (valid := lenient) auth_demo "" at_desk op) w in
  let sign_up := Op_SignUp (Some {| sr_Email := "guest@x.example"; sr_Password := "rosemary"; sr_FullName := "" |}) in
  let '(a1, w1) := serve_auth (demo_env (Nat.eqb 1)) sign_up (start two_hotels) in
  let '(a2, w2) := serve_auth (demo_env (Nat.eqb 1)) sign_up w1 in
  let '(_, w3) := serve_auth one_day Op_SignOut (start two_hotels) in
  let '(a4, _) := serve_auth one_day (Op_Refresh (Some "R")) w3 in
  let '(a5, w5) := serve_auth one_day (Op_UpdatePassword (Some {| up_UserID := "7"; up_CurrentPassword := "lotus"; up_Password := "" |})) (start two_hotels) in
  map us_email (users (w_db w1)) = ["manager@serenentra.example"; "cook@other.example"; "guest@x.example"] /\ profiles (w_db w1) = []
  /\ a2 = RespError 400 "a user with this email already exists"
  /\ w_calls w3 = [] /\ match a4 with RespOK (AB_session s _) => se_AccessToken s = "A" | _ => False end
  /\ a5 = RespOK AB_updated /\ map us_password_hash (users (w_db w5)) = ["$"; "$basil"].
Proof. vm_compute. repeat split. Qed.
