(* ===== verification/Gates.v ===== *)
(** Gates: what decides, behind authGate, whether a client's request reaches the
    staff handlers.  internal/handler/plan_catalog.go, plan_gate.go,
    plan_features_handler.go, feature_matrix.go, feature_matrix_handler.go,
    rate_limit.go, and the module masks of module_handler.go.

    A gate keeps what it has read of a tenant for thirty seconds ([Gates]); a
    Go map is a gmap, and a map that is ranged over is given as the pairs in the
    order the iteration visits them.  What Redis answers to the counting script
    is a parameter ([RateCache]). *)

From stdpp Require Import gmap.
From S2P Require Import Prelude GoLib GoText Schema World Auth.
Local Open Scope string_scope.
Local Open Scope Z_scope.

(** ** plan_catalog.go *)

Record planTierSpec := {
  pt_ID : string; pt_Name : string; pt_Description : string; pt_MaxRooms : option Z; pt_MaxUsers : option Z; pt_MaxProperties : option Z;
  pt_AllowedRoles : list string; pt_AIAddon : bool; pt_AITextConcierge : bool; pt_AIVoiceAgent : bool; pt_AIVoiceBooking : bool;
  pt_DatabaseStrategy : string }.
Definition allOperationalRoles : list string :=
  ["hotel_admin"; "property_manager"; "receptionist"; "housekeeping"; "maintenance"; "food_manager"; "kitchen_manager"; "waiter"; "guest"].
Definition basic_spec : planTierSpec :=
  {| pt_ID := "basic"; pt_Name := "Basic"; pt_Description := "Starter hotel operations with limited rooms, users, and core roles.";
     pt_MaxRooms := Some 50; pt_MaxUsers := Some 10; pt_MaxProperties := Some 1;
     pt_AllowedRoles := ["hotel_admin"; "receptionist"; "housekeeping"; "maintenance"; "guest"];
     pt_AIAddon := false; pt_AITextConcierge := false; pt_AIVoiceAgent := false; pt_AIVoiceBooking := false;
     pt_DatabaseStrategy := "tenant_isolated" |}.
Definition planTierSpecs : list planTierSpec :=
  [ basic_spec;
    {| pt_ID := "pro"; pt_Name := "Pro"; pt_Description := "More rooms, staff seats, department portals, and AI text assistance.";
       pt_MaxRooms := Some 200; pt_MaxUsers := Some 50; pt_MaxProperties := Some 3; pt_AllowedRoles := allOperationalRoles;
       pt_AIAddon := true; pt_AITextConcierge := true; pt_AIVoiceAgent := false; pt_AIVoiceBooking := false;
       pt_DatabaseStrategy := "tenant_isolated" |};
    {| pt_ID := "premium"; pt_Name := "Premium"; pt_Description := "Unlimited hotel group scale with AI voice agent and AI-assisted bookings.";
       pt_MaxRooms := None; pt_MaxUsers := None; pt_MaxProperties := None; pt_AllowedRoles := allOperationalRoles;
       pt_AIAddon := true; pt_AITextConcierge := true; pt_AIVoiceAgent := true; pt_AIVoiceBooking := true;
       pt_DatabaseStrategy := "tenant_dedicated_db_ready" |} ].
Definition normalizePlanTier (plan : string) : string :=
  let p := ToLower (TrimSpace plan) in
  if (p =s "starter") || (p =s "basic") then "basic"
  else if (p =s "growth") || (p =s "pro") then "pro"
  else if (p =s "enterprise") || (p =s "premium") then "premium" else "basic".
Definition planTierByID (plan : string) : planTierSpec :=
  default basic_spec (List.find (fun spec => pt_ID spec =s normalizePlanTier plan) planTierSpecs).

(** strings.Trim(s, "_") *)
Fixpoint trim_under (s : string) : string :=
  match s with String c s' => if Ascii.eqb c "_" then trim_under s' else s | EmptyString => "" end.
Definition Trim_ (s : string) : string := String.rev (trim_under (String.rev (trim_under s))).
Record planSettings := { ps_spec : planTierSpec; ps_database_name : string; ps_billing_plan_locked : bool }.
Definition settingsForPlanTier (plan slug : string) : planSettings :=
  let dbName := Trim_ (replace_char "-" "_" (ToLower (TrimSpace slug))) in
  {| ps_spec := planTierByID plan; ps_database_name := (if dbName =s "" then "hotelops_tenant" else dbName) ++ "_hotelops";
     ps_billing_plan_locked := false |}.

(** ** The registry of modules and what a plan includes *)

Record moduleDef := { md_Key : string; md_Label : string; md_Group : string }.
Definition def3 (k l g : string) : moduleDef := {| md_Key := k; md_Label := l; md_Group := g |}.
Definition moduleRegistry : list moduleDef :=
  [ def3 "dashboard" "Dashboard" "Operations"; def3 "front_desk" "Front Desk" "Operations"; def3 "reservations" "Reservations" "Operations";
    def3 "guests" "Guests" "Operations"; def3 "housekeeping" "Housekeeping" "Operations"; def3 "crm" "CRM & Loyalty" "Guest";
    def3 "pos" "POS & Restaurant" "F&B"; def3 "restaurant" "Restaurant Mgmt" "F&B"; def3 "menu_management" "Menu Management" "F&B";
    def3 "billing" "Billing" "Finance"; def3 "revenue" "Revenue" "Finance"; def3 "reports" "Reports" "Finance";
    def3 "inventory" "Inventory" "Supply"; def3 "procurement" "Procurement" "Supply"; def3 "maintenance" "Maintenance" "Supply";
    def3 "channel_manager" "Channel Manager" "Distribution"; def3 "booking_engine" "Booking Engine" "Distribution";
    def3 "properties" "Properties" "Admin"; def3 "users" "Users & Roles" "Admin"; def3 "night_audit" "Night Audit" "Admin";
    def3 "admin" "Admin Panel" "Admin"; def3 "accounting" "Accounting" "Operations" ].
Definition module_known (key : string) : bool := existsb (fun m => md_Key m =s key) moduleRegistry.

Definition planRank (plan : string) : Z :=
  if normalizePlanTier plan =s "premium" then 2 else if normalizePlanTier plan =s "pro" then 1 else 0.
Definition moduleMinRank : gmap string Z :=
  list_to_map [("revenue", 1); ("channel_manager", 1); ("procurement", 1); ("night_audit", 1)].
Definition planFeatureDefault (plan feature : string) : bool := default 0 (moduleMinRank !! feature) <=? planRank plan.
(** The default, unless the plan's matrix says otherwise *)
Definition included (plan : string) (overrides : gmap string bool) (key : string) : bool :=
  default (planFeatureDefault plan key) (overrides !! key).

(** for _, m := range moduleRegistry { out[m.Key] = f(m.Key) } *)
Definition for_modules {V} (f : string -> V) : gmap string V :=
  foldl (fun out m => <[md_Key m := f (md_Key m)]> out) ∅ moduleRegistry.
Definition effectiveModules (stored : gmap string bool) : gmap string bool := for_modules (fun key => default true (stored !! key)).
Definition effectivePlanFeatures (plan : string) (overrides : gmap string bool) : gmap string bool := for_modules (included plan overrides).
Definition planAwareModules (stored : gmap string bool) (plan : string) (planOverrides : gmap string bool) : gmap string bool :=
  foldl (fun eff m => if included plan planOverrides (md_Key m) then eff else <[md_Key m := false]> eff) (effectiveModules stored) moduleRegistry.

(** ** Routes and their modules *)

Record featureRule := { fr_moduleKey : string; fr_minRank : Z }.
Definition rule (key : string) (rank : Z) : featureRule := {| fr_moduleKey := key; fr_minRank := rank |}.
Definition featureRules : list (string * featureRule) :=
  [ ("/revenue", rule "revenue" 1); ("/channel", rule "channel_manager" 1); ("/procurement", rule "procurement" 1);
    ("/night-audit", rule "night_audit" 1); ("/pos", rule "pos" 0); ("/email", rule "" 2); ("/sms", rule "" 2);
    ("/accounting", rule "accounting" 2); ("/dashboard", rule "dashboard" 0); ("/rooms", rule "front_desk" 0);
    ("/reservations", rule "reservations" 0); ("/housekeeping", rule "housekeeping" 0); ("/crm", rule "crm" 0);
    ("/billing", rule "billing" 0); ("/booking", rule "booking_engine" 0); ("/maintenance", rule "maintenance" 0) ].
Definition under_prefix (p prefix : string) : bool := (p =s prefix) || HasPrefix p (prefix ++ "/").
(** The loop over the prefixes, in the order the iteration visits them *)
Definition best_prefix (order : list string) (p : string) : string :=
  foldl (fun best prefix => if under_prefix p prefix && Nat.ltb (String.length best) (String.length prefix) then prefix else best) "" order.
Definition rule_in (order : list string) (path : string) : option featureRule :=
  let best := best_prefix order (if HasPrefix path "/api" then drop_str 4 path else path) in
  if best =s "" then None else snd <$> List.find (fun r => fst r =s best) featureRules.
Definition ruleForPath (path : string) : option featureRule := rule_in (map fst featureRules) path.

(** ** What the gates remember *)

Record planConf := { pc_rank : Z; pc_plan : string; pc_modules : gmap string bool; pc_planFeat : gmap string bool; pc_exp : Z }.
Record featureConf := { fe_deny : gmap string (gmap string bool); fe_exp : Z }.
Record Gates := { g_plan : gmap uuid planConf; g_feature : gmap uuid featureConf }.
Definition newGates : Gates := {| g_plan := ∅; g_feature := ∅ |}.
Definition planConfTTL : Z := 30 * ns_per_s.

Class RateCache := redis_incr : list OutCall -> string -> GoErr + Z.
Abbreviation Verdict := (option (Z * string)).

Section Gates.
Context {env : Env} {jwt : Jwt} (secret : string).

Definition insert_pair {K V} `{Countable K} (out : gmap K V) (p : K * V) : gmap K V := <[p.1 := p.2]> out.
Definition plan_rows (plan : string) (d : DB) : list (string * bool) :=
  map (fun r => (pl_feature_key r, pl_enabled r)) (select (fun r => pl_plan_tier r =s plan) (plan_features d)).
(** An empty map when the query fails *)
Definition loadPlanFeatureOverrides {E} (plan : string) : M E (gmap string bool) :=
  r ← attempt (query Pool (fun d => foldl insert_pair ∅ (plan_rows plan d)));
  mret (match r with inr out => out | inl _ => ∅ end).

Definition hotel_by_id (h : uuid) (r : HotelRow) : bool := ueq (ho_id r) h.
(** json.Unmarshal of the modules column *)
Definition modules_of (r : HotelRow) : gmap string bool := foldl insert_pair ∅ (ho_modules r).

(** time.Now().Before(exp), asked only of an entry that is there *)
Definition fresh {E A} (exp : A -> Z) (o : option A) : M E (option A) :=
  match o with Some c => now ← time_now; mret (if t_ns now <? exp c then Some c else None) | None => mret None end.

Definition plan_confFor {E} (hotelID : uuid) (g : Gates) : M E (option planConf * Gates) :=
  hit ← fresh pc_exp (g_plan g !! hotelID);
  match hit with
  | Some c => mret (Some c, g)
  | None =>
      r ← attempt (query_row Pool (fun d => find_row (hotel_by_id hotelID) (hotels d)));
      match r with
      | inl _ => mret (None, g)
      | inr row =>
          planFeat ← loadPlanFeatureOverrides (normalizePlanTier (ho_plan_tier row));
          now ← time_now;
          let c := {| pc_rank := planRank (ho_plan_tier row); pc_plan := normalizePlanTier (ho_plan_tier row);
                      pc_modules := effectiveModules (modules_of row); pc_planFeat := planFeat; pc_exp := t_ns now + planConfTTL |} in
          mret (Some c, g <| g_plan ::= <[hotelID := c]> |>)
      end
  end.

(** planGateState.handler, on what it knows of the tenant *)
Definition plan_verdict (r : featureRule) (conf : planConf) : Verdict :=
  if fr_moduleKey r =s "" then
    if pc_rank conf <? fr_minRank r
    then Some (403, "this feature requires a higher plan tier; please upgrade your subscription") else None
  else if negb (included (pc_plan conf) (pc_planFeat conf) (fr_moduleKey r))
  then Some (403, "this feature is not included in your plan; please upgrade your subscription")
  else if match pc_modules conf !! fr_moduleKey r with Some enabled => negb enabled | None => false end
  then Some (403, "this module is disabled for your account") else None.
Definition plan_gate {E} (path : string) (c : Ctx) (g : Gates) : M E (Verdict * Gates) :=
  match ruleForPath path with
  | None => mret (None, g)
  | Some r =>
      if isPlatformAdmin secret c then mret (None, g)
      else
        '(conf, g) ← plan_confFor (tenantHotelID c) g;
        mret (match conf with None => None | Some conf => plan_verdict r conf end, g)
  end.

(** *** feature_matrix.go *)

Definition deny_pair (deny : gmap string (gmap string bool)) (rf : string * string) : gmap string (gmap string bool) :=
  <[rf.1 := <[rf.2 := true]> (default ∅ (deny !! rf.1))]> deny.
Definition denials (hotelID : uuid) (d : DB) : list (string * string) :=
  map (fun r => (cr_role r, cr_feature_key r)) (select (fun r => ueq (cr_hotel_id r) hotelID && negb (cr_enabled r)) (role_permissions d)).
Definition load_denials (hotelID : uuid) : M GoErr (gmap string (gmap string bool)) :=
  query Pool (fun d => foldl deny_pair ∅ (denials hotelID d)).
Definition denied (deny : gmap string (gmap string bool)) (role feature : string) : bool :=
  default false (d ← deny !! role; d !! feature).
Definition feature_confFor {E} (hotelID : uuid) (g : Gates) : M E (option featureConf * Gates) :=
  hit ← fresh fe_exp (g_feature g !! hotelID);
  match hit with
  | Some c => mret (Some c, g)
  | None =>
      r ← attempt (load_denials hotelID);
      match r with
      | inl _ => mret (None, g)
      | inr deny =>
          now ← time_now;
          let c := {| fe_deny := deny; fe_exp := t_ns now + planConfTTL |} in
          mret (Some c, g <| g_feature ::= <[hotelID := c]> |>)
      end
  end.
Definition invalidate (hotelID : uuid) (g : Gates) : Gates := g <| g_feature ::= delete hotelID |>.
(** planGateState.invalidate *)
Definition invalidate_plan (hotelID : uuid) (g : Gates) : Gates := g <| g_plan ::= delete hotelID |>.

Definition roles_held (claims : Claims) : list string := List.filter nonempty (map opt_str (default [] (cl_roles claims))).
Definition feature_gate {E} (path : string) (c : Ctx) (g : Gates) : M E (Verdict * Gates) :=
  match ruleForPath path with
  | None => mret (None, g)
  | Some r =>
      if fr_moduleKey r =s "" then mret (None, g)
      else
        match jwtClaimsFromRequest c secret with
        | None => mret (None, g)
        | Some claims =>
            if isPlatformAdmin secret c || bool_decide (roles_held claims = []) then mret (None, g)
            else
              '(conf, g) ← feature_confFor (tenantHotelID c) g;
              mret (match conf with
                    | None => None
                    | Some conf =>
                        if forallb (fun role => denied (fe_deny conf) role (fr_moduleKey r)) (roles_held claims)
                        then Some (403, "this feature is not enabled for your role") else None
                    end, g)
        end
  end.

(** *** rate_limit.go *)

Definition planMinuteQuota : gmap Z Z := list_to_map [(0, 300); (1, 1200); (2, 6000)].
Definition rate_key (hotelID : uuid) (now : Time) : string :=
  "t:" ++ uuid_string hotelID ++ ":" ++ "ratelimit:" ++ fmt_d (unix_sec now / 60).
Record RateHeaders := { rh_Limit : Z; rh_Remaining : Z; rh_RetryAfter : bool }.
Definition unmetered (c : Ctx) : bool :=
  match jwtClaimsFromRequest c secret with Some claims => bool_decide (cl_platform_admin claims = Some true) | None => false end.
Definition IncrementWithTTL {rate : RateCache} (key : string) : M GoErr Z :=
  fun w => (redis_incr (w_calls w) key, w <| w_calls := (w_calls w ++ [CallIncr key])%list |>).
Definition limit_for (conf : option planConf) : Z :=
  match conf with Some conf => default 300 (planMinuteQuota !! pc_rank conf) | None => 300 end.
Definition clientRateLimit {E} {rate : RateCache} (c : Ctx) (g : Gates) : M E (Verdict * option RateHeaders * Gates) :=
  if unmetered c then mret (None, None, g)
  else
    '(conf, g) ← plan_confFor (tenantHotelID c) g;
    let limit := limit_for conf in
    now ← time_now;
    r ← attempt (IncrementWithTTL (rate_key (tenantHotelID c) now));
    mret (match r with
          | inl _ => (None, None, g)
          | inr count =>
              let headers over := Some {| rh_Limit := limit; rh_Remaining := Z.max 0 (limit - count); rh_RetryAfter := over |} in
              if limit <? count
              then (Some (429, "client request quota exceeded for this minute; please slow down or upgrade your plan"), headers true, g)
              else (None, headers false, g)
          end).

(** Requests, one after another, before the limiter *)
Fixpoint limited {E} {rate : RateCache} (cs : list Ctx) (g : Gates) : M E (list Verdict * Gates) :=
  match cs with
  | [] => mret ([], g)
  | c :: cs' => '(v, _, g) ← clientRateLimit c g; '(vs, g) ← limited cs' g; mret (v :: vs, g)
  end.

(** The three in front of the staff handlers, as the router mounts them *)
Definition staff_gates {E} {rate : RateCache} (path : string) (c : Ctx) (g : Gates) : M E (Verdict * Gates) :=
  '(v, _, g) ← clientRateLimit c g;
  match v with
  | Some refusal => mret (Some refusal, g)
  | None =>
      '(v, g) ← plan_gate path c g;
      match v with Some refusal => mret (Some refusal, g) | None => feature_gate path c g end
  end.
End Gates.

(** ** The screens of the platform administrator and the portal *)

Inductive GateBody :=
  | GB_modules (modules : gmap string bool)
  | GB_masks (modules overrides : gmap string bool)
  | GB_matrix (matrix : gmap string (gmap string bool)).

Section Screens.
Context {env : Env} {jwt : Jwt} (secret : string).

(** platform_handler.go *)
Definition requirePlatformAdmin (c : Ctx) : option (Z * string) :=
  match jwtClaimsFromRequest c secret with
  | None => Some (401, "platform admin token is required")
  | Some claims =>
      if bool_decide (cl_platform_admin claims = Some true) then None
      else match cl_roles claims with
           | None => Some (403, "platform admin role is required")
           | Some rawRoles =>
               if existsb (fun rr => opt_str rr =s "platform_admin") rawRoles then None
               else Some (403, "platform admin role is required")
           end
  end.
Definition requireTenant (id : uuid) : M (Resp GateBody) unit :=
  found ← on_err (query Pool (fun d => exists_row (hotel_by_id id) (hotels d))) (fun _ => RespError 500 "failed to look up tenant");
  throw_if (negb found) (RespError 404 "tenant not found").
Definition tenant_id (c : Ctx) : M (Resp GateBody) uuid := of_option (uuid_parse (c_params c "id")) (RespError 400 "invalid tenant id").

(** *** module_handler.go *)

Definition currentHotelID (c : Ctx) : uuid :=
  match jwtClaimsFromRequest c secret with
  | Some claims =>
      if present (cl_hotel_id claims)
      then default (tenantHotelID c) (uuid_parse (TrimSpace (opt_str (cl_hotel_id claims)))) else tenantHotelID c
  | None => tenantHotelID c
  end.
Definition loadTenantModules (hotelID : uuid) : M GoErr (gmap string bool) :=
  row ← query_row Pool (fun d => find_row (hotel_by_id hotelID) (hotels d)); mret (modules_of row).
Definition tenantPlan {E} (hotelID : uuid) : M E string :=
  r ← attempt (query_row Pool (fun d => find_row (hotel_by_id hotelID) (hotels d)));
  mret (match r with inr row => normalizePlanTier (ho_plan_tier row) | inl _ => "premium" end).
Definition TenantModules (c : Ctx) : M (Resp GateBody) (Resp GateBody) :=
  guard (requireAuthenticatedRequest c secret) ;;
  let hotelID := currentHotelID c in
  stored ← on_err (loadTenantModules hotelID) (fun _ => RespError 500 "failed to load modules");
  plan ← tenantPlan hotelID;
  overrides ← loadPlanFeatureOverrides plan;
  mret (RespOK (GB_modules (planAwareModules stored plan overrides))).
Definition PlatformTenantModules (c : Ctx) : M (Resp GateBody) (Resp GateBody) :=
  guard (requirePlatformAdmin c) ;;
  id ← tenant_id c;
  stored ← on_err (loadTenantModules id) (fun _ => RespError 404 "tenant not found");
  mret (RespOK (GB_masks (effectiveModules stored) stored)).
Definition UpdatePlatformTenantModules (c : Ctx) (body : option (list (string * bool))) : M (Resp GateBody) (Resp GateBody) :=
  guard (requirePlatformAdmin c) ;;
  id ← tenant_id c;
  modules ← of_option body (RespError 400 "invalid request body");
  let clean := foldl insert_pair ∅ (List.filter (fun kv => module_known (fst kv)) modules) : gmap string bool in
  on_err (exec Pool (fun d => inr (tt, d <| hotels ::= update_rows (hotel_by_id id) (fun r => r <| ho_modules := map_to_list clean |>) |>)))
    (fun _ => RespError 500 "failed to update modules") ;;
  mret (RespOK (GB_masks (effectiveModules clean) clean)).

(** *** plan_features_handler.go *)

Definition planTierOrder : list string := ["basic"; "pro"; "premium"].
Fixpoint plan_matrix {E} (plans : list string) : M E (gmap string (gmap string bool)) :=
  match plans with
  | [] => mret ∅
  | plan :: rest =>
      overrides ← loadPlanFeatureOverrides plan;
      m ← plan_matrix rest;
      mret (<[plan := effectivePlanFeatures plan overrides]> m)
  end.
Definition PlatformPlanFeatures (c : Ctx) : M (Resp GateBody) (Resp GateBody) :=
  guard (requirePlatformAdmin c) ;;
  m ← plan_matrix planTierOrder;
  mret (RespOK (GB_matrix m)).
(** ON CONFLICT (plan_tier, feature_key) DO UPDATE *)
Definition upsert_plan_feature (plan feature : string) (enabled : bool) (now : Time) (d : DB) : DB :=
  let p r := (pl_plan_tier r =s plan) && (pl_feature_key r =s feature) in
  if exists_row p (plan_features d)
  then d <| plan_features ::= update_rows p (fun r => r <| pl_enabled := enabled |> <| pl_updated_at := now |>) |>
  else d <| plan_features ::= insert_row {| pl_plan_tier := plan; pl_feature_key := feature; pl_enabled := enabled; pl_updated_at := now |} |>.
Definition save_plan_feature (plan : string) (fe : string * bool) : M (Resp GateBody) unit :=
  if negb (module_known (fst fe)) then mret tt
  else now ← time_now;
       on_err (exec Tx (fun d => inr (tt, upsert_plan_feature plan (fst fe) (snd fe) now d))) (fun _ => RespError 500 "failed to update plan features").
Definition save_plan (pf : string * list (string * bool)) : M (Resp GateBody) unit :=
  if negb (existsb (String.eqb (fst pf)) planTierOrder) then mret tt else for_each (save_plan_feature (fst pf)) (snd pf).
Definition UpdatePlatformPlanFeatures (c : Ctx) (body : option (list (string * list (string * bool)))) : M (Resp GateBody) (Resp GateBody) :=
  guard (requirePlatformAdmin c) ;;
  matrix ← of_option body (RespError 400 "invalid request body");
  tx_block "failed to update plan features" "failed to commit plan features" (for_each save_plan matrix) ;;
  m ← plan_matrix planTierOrder;
  mret (RespOK (GB_matrix m)).

(** *** feature_matrix_handler.go *)

Definition effectiveMatrix (deny : gmap string (gmap string bool)) : gmap string (gmap string bool) :=
  foldl (fun out role => <[role := for_modules (fun key => negb (denied deny role key))]> out) ∅ allOperationalRoles.
Definition role_known (role : string) : bool := existsb (String.eqb role) allOperationalRoles.
Definition PlatformTenantFeatureMatrix (c : Ctx) : M (Resp GateBody) (Resp GateBody) :=
  guard (requirePlatformAdmin c) ;;
  id ← tenant_id c;
  requireTenant id ;;
  deny ← on_err (load_denials id) (fun _ => RespError 500 "failed to load feature matrix");
  mret (RespOK (GB_matrix (effectiveMatrix deny))).

Definition permission (id : uuid) (role feature : string) (r : RolePermissionRow) : bool :=
  ueq (cr_hotel_id r) id && (cr_role r =s role) && (cr_feature_key r =s feature).
(** ON CONFLICT (hotel_id, role, feature_key) DO UPDATE *)
Definition deny_permission (id : uuid) (role feature : string) (now : Time) (d : DB) : DB :=
  let p := permission id role feature in
  if exists_row p (role_permissions d)
  then d <| role_permissions ::= update_rows p (fun r => r <| cr_enabled := false |> <| cr_updated_at := now |>) |>
  else d <| role_permissions ::= insert_row {| cr_hotel_id := id; cr_role := role; cr_feature_key := feature; cr_enabled := false;
                                              cr_updated_at := now |} |>.
Definition allow_permission (id : uuid) (role feature : string) (d : DB) : DB :=
  d <| role_permissions ::= delete_rows (permission id role feature) |>.
Definition save_permission (id : uuid) (role : string) (fe : string * bool) : M (Resp GateBody) unit :=
  if negb (module_known (fst fe)) then mret tt
  else on_err (if (snd fe : bool) then exec Tx (fun d => inr (tt, allow_permission id role (fst fe) d))
               else now ← time_now; exec Tx (fun d => inr (tt, deny_permission id role (fst fe) now d)))
         (fun _ => RespError 500 "failed to update feature matrix").
Definition save_role (id : uuid) (rf : string * list (string * bool)) : M (Resp GateBody) unit :=
  if negb (role_known (fst rf)) then mret tt else for_each (save_permission id (fst rf)) (snd rf).
Definition UpdatePlatformTenantFeatureMatrix (c : Ctx) (body : option (list (string * list (string * bool)))) (g : Gates)
    : M (Resp GateBody) (Resp GateBody * Gates) :=
  guard (requirePlatformAdmin c) ;;
  id ← tenant_id c;
  requireTenant id ;;
  matrix ← of_option body (RespError 400 "invalid request body");
  tx_block "failed to update feature matrix" "failed to update feature matrix" (for_each (save_role id) matrix) ;;
  r ← attempt (load_denials id);
  mret (match r with
        | inl _ => RespError 500 "failed to reload feature matrix"
        | inr deny => RespOK (GB_matrix (effectiveMatrix deny))
        end, invalidate id g).
End Screens.
