(* ===== verification/GateSpec.v ===== *)
(** GateSpec: what the gates in front of the staff handlers guarantee: the plan
    gate and the portal's list of modules agree, an edit of the role matrix is in
    force from the next request, and a client gets exactly its quota a minute. *)

From stdpp Require Import gmap.
From S2P Require Import Prelude GoLib GoText Schema World Auth Guards Gates.
Local Open Scope string_scope.
Local Open Scope Z_scope.
#[local] Arguments module_known : simpl never.
#[local] Arguments role_known : simpl never.

(** ** Maps over the registry *)

Lemma insert_pairs_lookup {V} (l : list (string * V)) (m : gmap string V) k :
  foldl insert_pair m l !! k = match List.find (fun p => fst p =s k) (rev l) with Some p => Some (snd p) | None => m !! k end.
Proof.
  revert m. induction l as [|[k0 v] l IH]; intros m; cbn [foldl rev]; [reflexivity|]. rewrite IH.
  assert (Happ : forall l1 : list (string * V), List.find (fun p => fst p =s k) (l1 ++ [(k0, v)])
    = match List.find (fun p => fst p =s k) l1 with Some p => Some p | None => if k0 =s k then Some (k0, v) else None end).
  { induction l1 as [|p l1 IHl]; cbn; [reflexivity|]. destruct (fst p =s k); [reflexivity | exact IHl]. }
  rewrite Happ. destruct (List.find _ (rev l)); [reflexivity|]. unfold insert_pair. cbn.
  destruct (String.eqb_spec k0 k) as [->|Hne]; [apply lookup_insert_eq | now rewrite lookup_insert_ne].
Qed.

Lemma keyed_fold {X V} (key : X -> string) (f : string -> V) (l : list X) (m : gmap string V) k :
  foldl (fun out x => <[key x := f (key x)]> out) m l !! k = if existsb (fun x => key x =s k) l then Some (f k) else m !! k.
Proof.
  revert m. induction l as [|x l IH]; intros m; cbn [foldl existsb]; [reflexivity|]. rewrite IH.
  destruct (existsb _ l); [now rewrite orb_true_r|]. rewrite orb_false_r.
  destruct (String.eqb_spec (key x) k) as [<-|Hne]; [apply lookup_insert_eq | now rewrite lookup_insert_ne].
Qed.
Lemma for_modules_lookup {V} (f : string -> V) k : for_modules f !! k = if module_known k then Some (f k) else None.
Proof. unfold for_modules, module_known. rewrite keyed_fold. now rewrite lookup_empty. Qed.

Lemma planAware_lookup stored plan overrides k :
  planAwareModules stored plan overrides !! k
  = if module_known k then Some (included plan overrides k && default true (stored !! k)) else None.
Proof.
  unfold planAwareModules, effectiveModules. assert (G : forall l (m0 : gmap string bool), foldl (fun eff m => if included plan overrides (md_Key m) then eff else <[md_Key m := false]> eff) m0 l !! k
    = if existsb (fun x => md_Key x =s k) l && negb (included plan overrides k) then Some false else m0 !! k).
  { induction l as [|x l IH]; intros m0; cbn [foldl existsb]; [reflexivity|]. rewrite IH.
    destruct (included plan overrides k) eqn:Ek; rewrite ?andb_false_r, ?andb_true_r; cbn [negb].
    - destruct (included plan overrides (md_Key x)) eqn:Ex; [reflexivity|]. rewrite lookup_insert_ne; [reflexivity|]. intros <-. congruence.
    - destruct (existsb _ l); [now rewrite orb_true_r|]. rewrite orb_false_r.
      destruct (String.eqb_spec (md_Key x) k) as [<-|Hne].
      + rewrite Ek. apply lookup_insert_eq.
      + destruct (included plan overrides (md_Key x)); [reflexivity | now rewrite lookup_insert_ne]. }
  rewrite G, for_modules_lookup. change (existsb _ moduleRegistry) with (module_known k).
  destruct (module_known k), (included plan overrides k); reflexivity.
Qed.

(** ** The rule of a path

    The prefixes are visited in no particular order; the longest that matches is
    found in any. *)

Lemma normalize_idem plan : normalizePlanTier (normalizePlanTier plan) = normalizePlanTier plan.
Proof. unfold normalizePlanTier at 2 3. repeat (destruct (_ || _); [reflexivity|]). reflexivity. Qed.
Lemma planRank_normalize plan : planRank (normalizePlanTier plan) = planRank plan.
Proof. unfold planRank. now rewrite normalize_idem. Qed.

Lemma rules_known path r : ruleForPath path = Some r -> fr_moduleKey r = "" \/ module_known (fr_moduleKey r) = true.
Proof.
  unfold ruleForPath, rule_in. destruct (_ =s ""); [discriminate|]. generalize (best_prefix (map fst featureRules) (if HasPrefix path "/api" then drop_str 4 path else path)).
  intros best. destruct (List.find _ featureRules) as [[q r0]|] eqn:E; [|discriminate]. cbn. intros [= <-].
  apply List.find_some in E as [E _].
  assert (H : forallb (fun q => (fr_moduleKey (snd q) =s "") || module_known (fr_moduleKey (snd q))) featureRules = true) by (vm_compute; reflexivity).
  rewrite forallb_forall in H. apply H, orb_true_iff in E as [E%String.eqb_eq|E]; auto.
Qed.

(** The prefix found is the longest of those visited that match. *)
Lemma best_prefix_spec order p :
  let b := best_prefix order p in
  (b = "" \/ In b order /\ under_prefix p b = true)
  /\ forall q, In q order -> under_prefix p q = true -> (String.length q <= String.length b)%nat.
Proof.
  unfold best_prefix. cbv zeta. induction order as [|q order IH] using rev_ind; [split; [now left | intros q []]|].
  rewrite foldl_app. cbn [foldl]. set (b := foldl _ "" order) in *. destruct IH as [H1 H2]. split.
  - destruct (under_prefix p q) eqn:Eq; cbn [andb]; [destruct (Nat.ltb _ _)|]; rewrite ?in_app_iff; cbn; destruct H1 as [H1|[H1 H3]]; auto.
  - intros x [Hx|[<-|[]]]%in_app_iff Hp.
    + specialize (H2 x Hx Hp). destruct (under_prefix p q && _) eqn:E; [|exact H2]. apply andb_true_iff in E as [_ E%Nat.ltb_lt]. lia.
    + rewrite Hp. cbn [andb]. destruct (Nat.ltb _ _) eqn:E; [lia|]. apply Nat.ltb_ge in E. exact E.
Qed.

Lemma HasPrefix_take p q : HasPrefix p q = true -> take_str (String.length q) p = q.
Proof.
  unfold HasPrefix. revert p. induction q as [|c q IH]; intros p H; [now destruct p|].
  destruct p as [|c' p]; cbn in H; [discriminate|]. destruct (ascii_dec c c') as [->|]; [|discriminate].
  cbn. f_equal. now apply IH.
Qed.
Lemma under_prefix_take p q : under_prefix p q = true -> take_str (String.length q) p = q.
Proof.
  intros [->%String.eqb_eq|H]%orb_true_iff.
  - induction q as [|c q IH]; [reflexivity|]. cbn. f_equal. exact IH.
  - apply HasPrefix_take. unfold HasPrefix in *. revert p H. induction q as [|c q IH]; intros p H; [now destruct p|].
    change (String c q ++ "/") with (String c (q ++ "/")) in H. destruct p as [|c' p]; cbn [String.prefix] in H |- *; [discriminate|]. destruct (ascii_dec c c'); [apply IH, H | discriminate].
Qed.

(** The rule of a path does not depend on the order in which Go visits the map. *)
Theorem rule_in_any_order order path : Permutation order (map fst featureRules) -> rule_in order path = ruleForPath path.
Proof.
  intros Hp. unfold ruleForPath, rule_in. cbv zeta. set (p := if HasPrefix path "/api" then _ else _).
  destruct (best_prefix_spec order p) as [H1 H2]. destruct (best_prefix_spec (map fst featureRules) p) as [H3 H4].
  set (b := best_prefix order p) in *. set (b' := best_prefix (map fst featureRules) p) in *.
  assert (Hb : forallb (fun q => q !=s "") (map fst featureRules) = true) by (vm_compute; reflexivity).
  assert (Hne : forall q, In q (map fst featureRules) -> q <> "").
  { intros q Hq ->. rewrite forallb_forall in Hb. discriminate (Hb _ Hq). }
  assert (E : b = b'); [|now rewrite E].
  assert (Hin : forall q, In q order <-> In q (map fst featureRules)) by (intros q; split; apply Permutation_in; [exact Hp | now symmetry]).
  clearbody b b'. destruct H1 as [H1|[H1 H5]], H3 as [H3|[H3 H6]].
  - congruence.
  - specialize (H2 b' (proj2 (Hin b') H3) H6). rewrite H1 in H2. destruct b'; [congruence | cbn in H2; lia].
  - specialize (H4 b (proj1 (Hin b) H1) H5). rewrite H3 in H4. destruct b; [congruence | cbn in H4; lia].
  - specialize (H2 b' (proj2 (Hin b') H3) H6). specialize (H4 b (proj1 (Hin b) H1) H5).
    rewrite <- (under_prefix_take p b H5), <- (under_prefix_take p b' H6). f_equal. lia.
Qed.

(** ** Reading a tenant, with no statement failing *)

Section Calm.
Context {env : Env} {jwt : Jwt} (secret : string).
Hypothesis calm_server : forall n, db_fault n = false.

(** The world after a read *)
Definition stepped (w : World) : World := w <| w_stmts ::= S |>.
Lemma calm_query {A} (f : DB -> A) w : w_tx w = NoTx -> query Pool f w = (inr (f (w_db w)), stepped w).
Proof. intros Ht. unfold query, exec. rewrite calm_server. destruct w; cbn in *. now subst. Qed.

(** Two worlds with the same database, outside a transaction, and the same calls made. *)
Definition alike (w w' : World) : Prop := w_db w' = w_db w /\ w_tx w' = NoTx /\ w_calls w' = w_calls w.

Lemma bind_run {E A B} (m : M E A) (k : A -> M E B) w a w' : m w = (inr a, w') -> (m ≫= k) w = k a w'.
Proof. intros H. unfold mbind, M_bind. now rewrite H. Qed.
Lemma attempt_run {E A} (m : M GoErr A) w r w' : m w = (r, w') -> attempt (E := E) m w = (inr r, w').
Proof. intros H. unfold attempt. now rewrite H. Qed.
Lemma calm_query_row {A} (f : DB -> option A) w : w_tx w = NoTx ->
  query_row Pool f w = (match f (w_db w) with Some a => inr a | None => inl ErrNoRows end, stepped w).
Proof. intros Ht. unfold query_row. rewrite (bind_run _ _ _ _ _ (calm_query f w Ht)). now destruct (f (w_db w)). Qed.

Lemma overrides_read {E} plan w : w_tx w = NoTx ->
  loadPlanFeatureOverrides (E := E) plan w = (inr (foldl insert_pair ∅ (plan_rows plan (w_db w))), stepped w).
Proof. intros Ht. unfold loadPlanFeatureOverrides. now rewrite (bind_run _ _ _ _ _ (attempt_run _ _ _ _ (calm_query _ w Ht))). Qed.

(** What the gate knows of a tenant once it has read its row. *)
Definition conf_of (row : HotelRow) (d : DB) (now : Time) : planConf :=
  {| pc_rank := planRank (ho_plan_tier row); pc_plan := normalizePlanTier (ho_plan_tier row);
     pc_modules := effectiveModules (modules_of row);
     pc_planFeat := foldl insert_pair ∅ (plan_rows (normalizePlanTier (ho_plan_tier row)) d); pc_exp := t_ns now + planConfTTL |}.
(** Nothing is remembered of the tenant, or no longer. *)
Definition lapsed {A} (exp : A -> Z) (o : option A) (w : World) : Prop :=
  forall c, o = Some c -> exp c <= t_ns (clock (w_clocks w)).

Lemma fresh_lapsed {E A} (exp : A -> Z) o w : lapsed exp o w ->
  exists w', fresh (E := E) exp o w = (inr None, w') /\ w_db w' = w_db w /\ w_tx w' = w_tx w /\ w_calls w' = w_calls w.
Proof.
  intros H. destruct o as [c|]; cbn.
  - assert ((t_ns (clock (w_clocks w)) <? exp c) = false) as Hb by (apply Z.ltb_ge, H; reflexivity).
    unfold mbind, M_bind, time_now, mret, M_ret. rewrite Hb. eexists. split; [reflexivity | auto].
  - eexists. split; [reflexivity | auto].
Qed.

Lemma confFor_reads {E} h g w row : w_tx w = NoTx -> lapsed pc_exp (g_plan g !! h) w -> find_row (hotel_by_id h) (hotels (w_db w)) = Some row ->
  exists w' now, plan_confFor (E := E) h g w
    = (inr (Some (conf_of row (w_db w) now), (g <| g_plan ::= insert h (conf_of row (w_db w) now) |>)), w') /\ alike w w'.
Proof.
  intros Ht Hl Hrow. unfold plan_confFor.
  destruct (fresh_lapsed (E := E) pc_exp (g_plan g !! h) w Hl) as (w1 & H0 & H1 & H2 & H3). rewrite (bind_run _ _ _ _ _ H0). rewrite Ht in H2.
  rewrite (bind_run _ _ _ _ _ (attempt_run _ _ _ _ (calm_query_row _ w1 H2))), H1, Hrow. cbv beta iota.
  rewrite (bind_run _ _ _ _ _ (overrides_read _ (stepped w1) H2)).
  eexists _, _. split; [unfold conf_of; rewrite <- H1; reflexivity|]. repeat split; assumption.
Qed.

(** *** The portal's list *)

Lemma modules_shown c w row : requireAuthenticatedRequest c secret = None -> w_tx w = NoTx ->
  find_row (hotel_by_id (currentHotelID secret c)) (hotels (w_db w)) = Some row ->
  fst (TenantModules secret c w)
  = inr (RespOK (GB_modules (planAwareModules (modules_of row) (normalizePlanTier (ho_plan_tier row))
                              (foldl insert_pair ∅ (plan_rows (normalizePlanTier (ho_plan_tier row)) (w_db w)))))).
Proof.
  intros Ha Ht Hrow. unfold TenantModules. rewrite Ha, guard_passes.
  assert (Hl : on_err (loadTenantModules (currentHotelID secret c)) (fun _ => RespError 500 "failed to load modules") w
               = (inr (modules_of row) : Resp GateBody + _, stepped w)).
  { unfold on_err, loadTenantModules. unfold mbind, M_bind. rewrite calm_query_row by exact Ht. now rewrite Hrow. }
  rewrite (bind_run _ _ _ _ _ Hl).
  assert (Hp : tenantPlan (E := Resp GateBody) (currentHotelID secret c) (stepped w) = (inr (normalizePlanTier (ho_plan_tier row)), stepped (stepped w))).
  { unfold tenantPlan. rewrite (bind_run _ _ _ _ _ (attempt_run _ _ _ _ (calm_query_row _ (stepped w) Ht))). cbn. now rewrite Hrow. }
  rewrite (bind_run _ _ _ _ _ Hp). now rewrite (bind_run _ _ _ _ _ (overrides_read _ (stepped (stepped w)) Ht)).
Qed.

Lemma gate_decides {E} path c g w r row : w_tx w = NoTx -> ruleForPath path = Some r -> isPlatformAdmin secret c = false ->
  lapsed pc_exp (g_plan g !! tenantHotelID c) w -> find_row (hotel_by_id (tenantHotelID c)) (hotels (w_db w)) = Some row ->
  exists g' now, fst (plan_gate (E := E) secret path c g w) = inr (plan_verdict r (conf_of row (w_db w) now), g').
Proof.
  intros Ht Hr Ha Hl Hrow. unfold plan_gate. rewrite Hr, Ha.
  destruct (confFor_reads (E := E) (tenantHotelID c) g w row Ht Hl Hrow) as (w' & now & H & _).
  rewrite (bind_run _ _ _ _ _ H). eexists _, now. reflexivity.
Qed.
End Calm.

Lemma verdict_of_module r row d now : fr_moduleKey r <> "" -> module_known (fr_moduleKey r) = true ->
  plan_verdict r (conf_of row d now) = None
  <-> included (normalizePlanTier (ho_plan_tier row)) (foldl insert_pair ∅ (plan_rows (normalizePlanTier (ho_plan_tier row)) d)) (fr_moduleKey r)
      && default true (modules_of row !! fr_moduleKey r) = true.
Proof.
  intros Hne Hk. unfold plan_verdict, conf_of. cbn [pc_rank pc_plan pc_modules pc_planFeat].
  rewrite (proj2 (String.eqb_neq _ _) Hne). unfold effectiveModules. rewrite for_modules_lookup, Hk.
  destruct (included _ _ _); cbn; [|split; discriminate]. destruct (default _ _); cbn; split; auto; discriminate.
Qed.

(** The hotel a request behind the gate names, in either way of asking. *)
Lemma current_hotel (env : Env) (jwt : Jwt) secret ctx c : c_hotel_id ctx = None -> authGate secret ctx = inr c ->
  currentHotelID secret c = tenantHotelID c /\ requireAuthenticatedRequest c secret = None.
Proof.
  intros Hfresh Hg. unfold authGate in Hg. destruct (jwtClaimsFromRequest ctx secret) as [claims|] eqn:E; [|discriminate]. injection Hg as <-.
  unfold currentHotelID, requireAuthenticatedRequest.
  assert (Hsame : jwtClaimsFromRequest (ctx <| c_user_id ::= fun local => if present (cl_sub claims) then Some (opt_str (cl_sub claims)) else local |>
               <| c_hotel_id ::= fun local => if present (cl_hotel_id claims) then Some (opt_str (cl_hotel_id claims)) else local |>
               <| c_branch_id ::= fun local => if present (cl_branch_id claims) then Some (opt_str (cl_branch_id claims)) else local |>) secret
             = jwtClaimsFromRequest ctx secret) by reflexivity.
  rewrite Hsame, E. split; [|reflexivity]. unfold tenantHotelID. cbn. rewrite Hfresh.
  destruct (present (cl_hotel_id claims)) eqn:Ep; [|reflexivity].
  assert (Hp : present (Some (opt_str (cl_hotel_id claims))) = true) by exact Ep. rewrite Hp. cbn.
  now destruct (uuid_parse _).
Qed.

(** C31: the plan gate and the portal agree whenever the gate reads the client's plan
    afresh: with no statement failing, for a request of a client's own staff (not an
    administrator of the platform) to a route of some module, whatever the plan, its
    matrix and the masks of the client, a gate that remembers nothing in date of the
    client lets the request pass exactly when the list of modules the portal is
    given shows that module as on.  For the thirty seconds it remembers a plan, the
    gate may still go by the one before ([gate_departures]). *)
Theorem portal_and_gate_agree (env : Env) (jwt : Jwt) secret ctx c path r row g w (E : Type)
  (Hcalm : forall n, db_fault n = false) (Ht : w_tx w = NoTx) (Hfresh : c_hotel_id ctx = None) (Hg : authGate secret ctx = inr c)
  (Ha : isPlatformAdmin secret c = false) (Hrow : find_row (hotel_by_id (tenantHotelID c)) (hotels (w_db w)) = Some row)
  (Hr : ruleForPath path = Some r) (Hkey : fr_moduleKey r <> "") (Hl : lapsed pc_exp (g_plan g !! tenantHotelID c) w) :
  exists modules on v g', fst (TenantModules secret c w) = inr (RespOK (GB_modules modules)) /\ modules !! fr_moduleKey r = Some on
    /\ fst (plan_gate (E := E) secret path c g w) = inr (v, g') /\ (v = None <-> on = true).
Proof.
  destruct (current_hotel _ _ _ _ _ Hfresh Hg) as [Hh Hauth].
  destruct (gate_decides (E := E) secret Hcalm path c g w r row Ht Hr Ha Hl Hrow) as (g' & now & Hv). rewrite <- Hh in Hrow.
  assert (Hk : module_known (fr_moduleKey r) = true) by (destruct (rules_known path r Hr); [contradiction | assumption]).
  eexists _, _, _, g'. split; [apply (modules_shown secret Hcalm c w row Hauth Ht Hrow)|].
  split; [rewrite planAware_lookup, Hk; reflexivity|]. split; [exact Hv|]. apply (verdict_of_module r row (w_db w) now Hkey Hk).
Qed.

(** ** The quota *)

Lemma string_length_app (a b : string) : String.length (a ++ b) = (String.length a + String.length b)%nat.
Proof. induction a as [|c a IH]; [reflexivity|]. change (String c a ++ b) with (String c (a ++ b)). cbn. now rewrite IH. Qed.
Lemma string_app_cancel_r (a b s : string) : a ++ s = b ++ s -> a = b.
Proof.
  revert b. induction a as [|c a IH]; intros [|c' b] H; [reflexivity | | |].
  1,2: apply (f_equal String.length) in H; rewrite !string_length_app in H; cbn in H; lia.
  change (String c a ++ s) with (String c (a ++ s)) in H. change (String c' b ++ s) with (String c' (b ++ s)) in H.
  injection H as <- H. now rewrite (IH b H).
Qed.

Definition counted (key : string) (past : list OutCall) : nat :=
  length (List.filter (fun k => match k with CallIncr k' => k' =s key | _ => false end) past).
(** The ceiling of a plan *)
Definition quota (h : uuid) (d : DB) : Z :=
  match find_row (hotel_by_id h) (hotels d) with
  | Some row => if normalizePlanTier (ho_plan_tier row) =s "premium" then 6000 else if normalizePlanTier (ho_plan_tier row) =s "pro" then 1200 else 300
  | None => 300
  end.
Definition requests_of {env : Env} (h : uuid) (cs : list Ctx) : nat := length (List.filter (fun c => ueq (tenantHotelID c) h) cs).
(** What the gate remembers is the rank of the plan on file. *)
Definition knows (g : Gates) (d : DB) : Prop :=
  forall h row pc, find_row (hotel_by_id h) (hotels d) = Some row -> g_plan g !! h = Some pc -> pc_rank pc = planRank (ho_plan_tier row).

Section Quota.
Context {env : Env} {jwt : Jwt} {rate : RateCache} (secret : string) (m : Z).
Hypothesis calm_server : forall n, db_fault n = false.
Hypothesis counts : forall past key, redis_incr past key = inr (Z.of_nat (S (counted key past))).
Hypothesis one_minute : forall n, unix_sec (clock n) / 60 = m.

Lemma confFor_knows {E} h g w row : w_tx w = NoTx -> knows g (w_db w) -> find_row (hotel_by_id h) (hotels (w_db w)) = Some row ->
  exists pc g' w', plan_confFor (E := E) h g w = (inr (Some pc, g'), w') /\ pc_rank pc = planRank (ho_plan_tier row) /\ knows g' (w_db w) /\ alike w w'.
Proof.
  intros Ht Hk Hrow. destruct (g_plan g !! h) as [pc|] eqn:Eg.
  1: destruct (t_ns (clock (w_clocks w)) <? pc_exp pc) eqn:Et.
  { exists pc, g, (w <| w_clocks := S (w_clocks w) |>). split; [|repeat split; eauto].
    unfold plan_confFor. rewrite Eg. cbn. unfold mbind, M_bind, time_now, mret, M_ret. now rewrite Et. }
  1: assert (Hl : lapsed pc_exp (g_plan g !! h) w) by (intros c; rewrite Eg; intros [= <-]; now apply Z.ltb_ge).
  2: assert (Hl : lapsed pc_exp (g_plan g !! h) w) by (intros c; rewrite Eg; discriminate).
  all: destruct (confFor_reads (E := E) calm_server h g w row Ht Hl Hrow) as (w' & now & H & Ha);
    eexists _, _, w'; split; [exact H|]; split; [reflexivity|]; split; [|exact Ha];
    intros h' row' pc' Hrow'; cbn; destruct (decide (h = h')) as [<-|Hne];
    [rewrite lookup_insert_eq; intros [= <-]; rewrite Hrow in Hrow'; injection Hrow' as <-; reflexivity
    | rewrite lookup_insert_ne by exact Hne; now apply Hk].
Qed.

Lemma quota_of_rank pc h d row : find_row (hotel_by_id h) (hotels d) = Some row -> pc_rank pc = planRank (ho_plan_tier row) ->
  limit_for (Some pc) = quota h d.
Proof.
  intros Hrow Hp. unfold limit_for, quota. rewrite Hrow, Hp. unfold planRank.
  destruct (_ =s "premium"); [reflexivity|]. now destruct (_ =s "pro").
Qed.

Lemma counted_next key past k : counted key (past ++ [CallIncr k])%list = (counted key past + if k =s key then 1 else 0)%nat.
Proof. unfold counted. rewrite List.filter_app, length_app. cbn. now destruct (k =s key). Qed.

(** The key of every request of a client *)
Definition key_of (h : uuid) : string := "t:" ++ uuid_string h ++ ":" ++ "ratelimit:" ++ fmt_d m.

Lemma limit_step {E} c g w row : w_tx w = NoTx -> knows g (w_db w) -> unmetered secret c = false ->
  find_row (hotel_by_id (tenantHotelID c)) (hotels (w_db w)) = Some row ->
  exists v hd g' w', clientRateLimit (E := E) secret c g w = (inr (v, hd, g'), w')
    /\ (v = None <-> Z.of_nat (counted (key_of (tenantHotelID c)) (w_calls w)) < quota (tenantHotelID c) (w_db w))
    /\ knows g' (w_db w) /\ w_db w' = w_db w /\ w_tx w' = NoTx /\ w_calls w' = (w_calls w ++ [CallIncr (key_of (tenantHotelID c))])%list.
Proof.
  intros Ht Hk Hm Hrow. unfold clientRateLimit. rewrite Hm.
  destruct (confFor_knows (E := E) (tenantHotelID c) g w row Ht Hk Hrow) as (pc & g' & w1 & H & Hp & Hk' & (H1 & H2 & H3)).
  rewrite (bind_run _ _ _ _ _ H). rewrite (quota_of_rank pc _ _ row Hrow Hp).
  assert (Hnow : time_now (E := E) w1 = (inr (clock (w_clocks w1)), w1 <| w_clocks := S (w_clocks w1) |>)) by reflexivity.
  rewrite (bind_run _ _ _ _ _ Hnow). unfold rate_key. rewrite one_minute. fold (key_of (tenantHotelID c)).
  unfold mbind, M_bind, attempt, IncrementWithTTL. rewrite counts. cbn [w_calls]. rewrite <- H3.
  set (n := counted _ (w_calls w1)). replace (counted _ _) with n by reflexivity.
  destruct (quota _ _ <? Z.of_nat (S n)) eqn:Eq; eexists _, _, g', _; (split; [reflexivity|]); (split; [|auto]).
  - split; [discriminate|]. apply Z.ltb_lt in Eq. lia.
  - split; [|reflexivity]. apply Z.ltb_ge in Eq. lia.
Qed.

Lemma key_of_inj h h' : key_of h = key_of h' -> uuid_string h = uuid_string h'.
Proof. unfold key_of. intros H. injection H as H. exact (string_app_cancel_r (uuid_string h) (uuid_string h') (":" ++ "ratelimit:" ++ fmt_d m) H). Qed.

Lemma limited_counts {E} cs g w : w_tx w = NoTx -> knows g (w_db w) ->
  (forall c, In c cs -> unmetered secret c = false /\ exists row, find_row (hotel_by_id (tenantHotelID c)) (hotels (w_db w)) = Some row) ->
  (forall c c', In c cs -> In c' cs -> uuid_string (tenantHotelID c) = uuid_string (tenantHotelID c') -> tenantHotelID c = tenantHotelID c') ->
  exists verdicts g', fst (limited (E := E) secret cs g w) = inr (verdicts, g') /\ length verdicts = length cs
    /\ forall i c v, nth_error cs i = Some c -> nth_error verdicts i = Some v ->
       (v = None <-> Z.of_nat (counted (key_of (tenantHotelID c)) (w_calls w) + requests_of (tenantHotelID c) (firstn i cs)) < quota (tenantHotelID c) (w_db w)).
Proof.
  revert g w. induction cs as [|c cs IH]; intros g w Ht Hk Hc Hn.
  { exists [], g. split; [reflexivity|]. split; [reflexivity|]. intros [|i]; discriminate. }
  destruct (Hc c (or_introl eq_refl)) as (Hm & row & Hrow).
  destruct (limit_step (E := E) c g w row Ht Hk Hm Hrow) as (v & hd & g' & w' & H & Hv & Hk' & Hd & Ht' & Hcalls).
  destruct (IH g' w') as (vs & g2 & Hvs & Hlen & Hall); [exact Ht' | now rewrite Hd | | |].
  { intros c' Hc'. rewrite Hd. apply Hc. now right. }
  { intros c1 c2 H1 H2. apply Hn; now right. }
  exists (v :: vs), g2. split; [|split; [cbn; now rewrite Hlen|]].
  - cbn [limited]. rewrite (bind_run _ _ _ _ _ H). unfold mbind, M_bind. destruct (limited secret cs g' w') as [[e|[vs' g3]] w2]; [discriminate|].
    cbn in Hvs. injection Hvs as -> ->. reflexivity.
  - intros [|i] c' v' Hi Hv'; cbn in Hi, Hv'.
    + injection Hi as <-. injection Hv' as <-. cbn. rewrite Nat.add_0_r. exact Hv.
    + rewrite (Hall i c' v' Hi Hv'), Hd, Hcalls, counted_next. apply nth_error_In in Hi. cbn [firstn].
      unfold requests_of. cbn [List.filter]. unfold ueq.
      destruct (String.eqb_spec (key_of (tenantHotelID c)) (key_of (tenantHotelID c'))) as [Ek%key_of_inj|Ek].
      * rewrite (Hn c c') by (auto with datatypes; exact Ek). rewrite N.eqb_refl. cbn. now rewrite <- Nat.add_assoc.
      * assert (Hne : tenantHotelID c <> tenantHotelID c') by congruence. apply N.eqb_neq in Hne. rewrite Hne. now rewrite Nat.add_0_r.
Qed.
End Quota.

(** Requests of any clients, in any order, within one minute: each client's are
    let through exactly until its plan's quota of the minute is reached, counting
    what it had asked before, and refused from then on; no client uses up the quota
    of another. *)
Theorem quota_per_minute (env : Env) (jwt : Jwt) (rate : RateCache) secret cs g w m (E : Type)
  (Hcalm : forall n, db_fault n = false) (Hredis : forall past key, redis_incr past key = inr (Z.of_nat (S (counted key past))))
  (Hminute : forall n, unix_sec (clock n) / 60 = m) (Ht : w_tx w = NoTx) (Hk : knows g (w_db w))
  (Hc : forall c, In c cs -> unmetered secret c = false /\ exists row, find_row (hotel_by_id (tenantHotelID c)) (hotels (w_db w)) = Some row)
  (Hn : forall c c', In c cs -> In c' cs -> uuid_string (tenantHotelID c) = uuid_string (tenantHotelID c') -> tenantHotelID c = tenantHotelID c') :
  exists verdicts g', fst (limited (E := E) secret cs g w) = inr (verdicts, g') /\ length verdicts = length cs
    /\ forall i c v, nth_error cs i = Some c -> nth_error verdicts i = Some v ->
       (v = None <-> Z.of_nat (counted (key_of m (tenantHotelID c)) (w_calls w) + requests_of (tenantHotelID c) (firstn i cs)) < quota (tenantHotelID c) (w_db w)).
Proof. now apply limited_counts. Qed.

(** ** The role matrix *)

(** The role is denied the feature by a row of the tenant. *)
Definition denied_row (id : uuid) (role feature : string) (d : DB) : bool :=
  exists_row (fun r => permission id role feature r && negb (cr_enabled r)) (role_permissions d).

Lemma denied_pairs (l : list (string * string)) role feature deny :
  denied (foldl deny_pair deny l) role feature = existsb (fun rf => (fst rf =s role) && (snd rf =s feature)) l || denied deny role feature.
Proof.
  revert deny. induction l as [|[r f] l IH]; intros deny; cbn [foldl existsb fst snd]; [reflexivity|]. rewrite IH.
  assert (E : denied (deny_pair deny (r, f)) role feature = (r =s role) && (f =s feature) || denied deny role feature).
  { unfold denied, deny_pair. cbn. destruct (String.eqb_spec r role) as [->|Hr]; cbn.
    - rewrite lookup_insert_eq. cbn. destruct (String.eqb_spec f feature) as [->|Hf]; cbn; [now rewrite lookup_insert_eq|].
      rewrite lookup_insert_ne by exact Hf. now destruct (deny !! role).
    - now rewrite lookup_insert_ne by exact Hr. }
  rewrite E. now destruct (existsb _ l), ((r =s role) && (f =s feature)), (denied deny role feature).
Qed.
Lemma denied_loaded id d role feature : denied (foldl deny_pair ∅ (denials id d)) role feature = denied_row id role feature d.
Proof.
  rewrite denied_pairs. replace (denied ∅ role feature) with false by (unfold denied; now rewrite lookup_empty). rewrite orb_false_r.
  unfold denials, denied_row, exists_row, select, permission. induction (role_permissions d) as [|r l IH]; [reflexivity|]. cbn.
  destruct (ueq (cr_hotel_id r) id), (cr_enabled r); cbn; rewrite IH; now rewrite ?andb_true_r, ?andb_false_r.
Qed.

(** What one cell of an edit does to another. *)
Lemma permission_eq id role feature role' feature' r : permission id role feature r = true ->
  permission id role' feature' r = (role =s role') && (feature =s feature').
Proof.
  unfold permission. intros [[H1 H2%String.eqb_eq]%andb_true_iff H3%String.eqb_eq]%andb_true_iff. now rewrite H1, H2, H3.
Qed.
Lemma denied_row_allow id role feature role' feature' d :
  denied_row id role' feature' (allow_permission id role feature d)
  = if (role =s role') && (feature =s feature') then false else denied_row id role' feature' d.
Proof.
  unfold denied_row, exists_row, allow_permission, delete_rows. cbn. induction (role_permissions d) as [|r l IH]; cbn; [now destruct (_ && _)|].
  destruct (permission id role feature r) eqn:E; cbn; rewrite IH; [rewrite (permission_eq _ _ _ role' feature' r E)|].
  - now destruct (_ && _).
  - destruct ((role =s role') && (feature =s feature')) eqn:Ec; [|reflexivity].
    apply andb_true_iff in Ec as [->%String.eqb_eq ->%String.eqb_eq]. now rewrite E.
Qed.
Lemma denied_row_deny id role feature role' feature' now d :
  denied_row id role' feature' (deny_permission id role feature now d)
  = if (role =s role') && (feature =s feature') then true else denied_row id role' feature' d.
Proof.
  unfold denied_row, deny_permission. destruct (exists_row (permission id role feature) (role_permissions d)) eqn:Ex; cbn.
  - unfold exists_row, update_rows in *. induction (role_permissions d) as [|r l IH]; [discriminate|]. cbn in Ex |- *.
    destruct (permission id role feature r) eqn:E.
    + cbn. change (permission id role' feature' (r <| cr_enabled := false |> <| cr_updated_at := now |>)) with (permission id role' feature' r).
      rewrite (permission_eq _ _ _ role' feature' r E), andb_true_r. destruct (_ && _) eqn:Ec; [reflexivity|]. cbn.
      clear IH Ex. induction l as [|r' l IH]; [reflexivity|]. cbn. destruct (permission id role feature r') eqn:E'.
      * change (permission id role' feature' (r' <| cr_enabled := false |> <| cr_updated_at := now |>)) with (permission id role' feature' r').
        rewrite (permission_eq _ _ _ role' feature' r' E'), Ec. exact IH.
      * now rewrite IH.
    + rewrite (IH Ex). destruct ((role =s role') && (feature =s feature')) eqn:Ec; [apply orb_true_r | reflexivity].
  - unfold insert_row, exists_row. rewrite List.existsb_app. cbn. unfold permission at 2. cbn. unfold ueq. rewrite N.eqb_refl. cbn.
    destruct ((role =s role') && (feature =s feature')); cbn; now rewrite ?orb_true_r, ?orb_false_r.
Qed.

(** The cell of an edit: what it says of a role and a module, if anything; unknown
    roles and modules say nothing. *)
Definition cell (matrix : list (string * list (string * bool))) (role feature : string) : option bool :=
  if role_known role && module_known feature
  then row ← List.find (fun rf => fst rf =s role) matrix; snd <$> List.find (fun fe => fst fe =s feature) (snd row) else None.
(** An edit as a JSON object has it: no role twice, no module twice in a role. *)
Definition as_object (matrix : list (string * list (string * bool))) : Prop :=
  NoDup (map fst matrix) /\ forall role row, In (role, row) matrix -> NoDup (map fst row).
Definition allowed (matrix : list (string * list (string * bool))) (id : uuid) (d : DB) (role feature : string) : bool :=
  default (negb (denied_row id role feature d)) (cell matrix role feature).

Lemma forallb_false {A} (f : A -> bool) l : forallb f l = false -> exists x, In x l /\ f x = false.
Proof.
  induction l as [|x l IH]; [discriminate|]. cbn. intros [H|H]%andb_false_iff; [eauto|]. destruct (IH H) as (y & Hy & Hf). eauto.
Qed.

Section Matrix.
Context {env : Env} {jwt : Jwt} (secret : string) (id : uuid).

Definition row_cell (row : list (string * bool)) (feature : string) : option bool :=
  if module_known feature then snd <$> List.find (fun fe => fst fe =s feature) row else None.

Lemma find_absent {V} (l : list (string * V)) k : ~ In k (map fst l) -> List.find (fun p => fst p =s k) l = None.
Proof.
  intros H. destruct (List.find _ l) as [[k' v]|] eqn:E; [|reflexivity]. apply List.find_some in E as [Hi Ek%String.eqb_eq].
  cbn in Ek. subst. exfalso. apply H. now apply (in_map fst) in Hi.
Qed.

Lemma runs_save_permission role fe d :
  runs Tx (save_permission id role fe) d
    (fun _ d' => forall r f, denied_row id r f d' = if role =s r then default (denied_row id r f d) (negb <$> row_cell [fe] f) else denied_row id r f d)
    (fun _ => False).
Proof.
  destruct fe as [k b]. unfold save_permission. cbn [fst snd].
  assert (Hcell : forall f v, (if module_known k && (k =s f) then negb b else v) = default v (negb <$> row_cell [(k, b)] f)).
  { intros f v. unfold row_cell. cbn [List.find fst]. destruct (String.eqb_spec k f) as [->|]; rewrite ?andb_true_r, ?andb_false_r.
    all: destruct (module_known f); reflexivity. }
  destruct (module_known k) eqn:Ek; cbn [negb].
  - apply runs_on_err. destruct b.
    + apply runs_exec. intros r f. rewrite denied_row_allow, <- Hcell. cbn. now destruct (role =s r), (k =s f).
    + apply runs_now; [intros; apply inert_exec|]. intros now. apply runs_exec. intros r f. rewrite denied_row_deny, <- Hcell. cbn.
      now destruct (role =s r), (k =s f).
  - apply runs_ret. intros r f. rewrite <- Hcell. cbn. now destruct (role =s r).
Qed.

Lemma row_cell_cons fe row f : ~ In (fst fe) (map fst row) ->
  forall v, default (default v (negb <$> row_cell [fe] f)) (negb <$> row_cell row f) = default v (negb <$> row_cell (fe :: row) f).
Proof.
  intros Hn v. unfold row_cell. cbn. destruct (module_known f); [|reflexivity]. destruct (String.eqb_spec (fst fe) f) as [<-|]; [|reflexivity].
  now rewrite find_absent by exact Hn.
Qed.

Lemma runs_save_role rf d : NoDup (map fst (snd rf)) ->
  runs Tx (save_role id rf) d
    (fun _ d' => forall r f, denied_row id r f d' = if role_known (fst rf) && (fst rf =s r) then default (denied_row id r f d) (negb <$> row_cell (snd rf) f)
                             else denied_row id r f d) (fun _ => False).
Proof.
  intros Hnd. destruct rf as [role row]. cbn [fst snd] in *. unfold save_role. cbn [fst snd].
  destruct (role_known role); cbn [negb andb]; [|apply runs_ret; reflexivity].
  set (T r f := if role =s r then default (denied_row id r f d) (negb <$> row_cell row f) else denied_row id r f d).
  eapply runs_weaken; [apply (runs_for_each Tx (save_permission id role) (fun _ => False)
    (fun l d' => NoDup (map fst l) /\ forall r f, (if role =s r then default (denied_row id r f d') (negb <$> row_cell l f) else denied_row id r f d') = T r f)) | |auto].
  - split; [exact Hnd | reflexivity].
  - intros x. unfold save_permission. inert_go.
  - intros x l d' [Hx HT]. cbn in Hx. inversion Hx as [|? ? Hn Hl]; subst. rewrite list_elem_of_In in Hn.
    eapply runs_post; [apply runs_save_permission|]. intros [] d'' Hd. split; [exact Hl|]. intros r f. rewrite <- HT, Hd.
    destruct (role =s r); [|reflexivity]. now apply row_cell_cons.
  - intros [] d' [_ HT] r f. etransitivity; [|exact (HT r f)]. unfold row_cell. cbn. destruct (role =s r), (module_known f); reflexivity.
Qed.

Lemma cell_cons role row l r f :
  cell ((role, row) :: l) r f = if role =s r then (if role_known role then row_cell row f else None) else cell l r f.
Proof.
  unfold cell, row_cell. cbn. destruct (String.eqb_spec role r) as [<-|]; [|reflexivity]. destruct (role_known role), (module_known f); reflexivity.
Qed.
Lemma cell_absent l r f : ~ In r (map fst l) -> cell l r f = None.
Proof. intros H. unfold cell. rewrite find_absent by exact H. now destruct (_ && _). Qed.

Lemma runs_save_matrix matrix d : as_object matrix ->
  runs Tx (for_each (save_role id) matrix) d
    (fun _ d' => forall r f, denied_row id r f d' = default (denied_row id r f d) (negb <$> cell matrix r f)) (fun _ => False).
Proof.
  intros Hobj. set (T r f := default (denied_row id r f d) (negb <$> cell matrix r f)).
  eapply runs_weaken; [apply (runs_for_each Tx (save_role id) (fun _ => False)
    (fun l d' => as_object l /\ forall r f, default (denied_row id r f d') (negb <$> cell l r f) = T r f)) | |auto].
  - split; [exact Hobj | reflexivity].
  - intros [role row]. unfold save_role, save_permission. inert_go.
  - intros [role row] l d' [[Hx Hrows] HT]. cbn in Hx. inversion Hx as [|? ? Hn Hl]; subst. rewrite list_elem_of_In in Hn.
    eapply runs_post; [apply runs_save_role, (Hrows role); now left|]. cbn [fst snd]. intros [] d'' Hd. split.
    { split; [exact Hl|]. intros role' row' Hi. apply (Hrows role'). now right. }
    intros r f. rewrite <- HT, cell_cons, Hd. destruct (String.eqb_spec role r) as [<-|]; [|now rewrite andb_false_r].
    rewrite andb_true_r, cell_absent by exact Hn. now destruct (role_known role).
  - intros [] d' [_ HT] r f. etransitivity; [|exact (HT r f)]. unfold cell. cbn. now destruct (_ && _).
Qed.

Hypothesis calm_server : forall n, db_fault n = false.

Lemma matrix_lookup deny role feature : role_known role = true -> module_known feature = true ->
  (row ← effectiveMatrix deny !! role; row !! feature) = Some (negb (denied deny role feature)).
Proof.
  intros Hr Hf. unfold effectiveMatrix. rewrite (keyed_fold (fun role : string => role) (fun role => for_modules (fun key => negb (denied deny role key)))).
  assert (existsb (fun x => x =s role) allOperationalRoles = true) as ->.
  { unfold role_known in Hr. apply existsb_exists in Hr as (x & Hx & ->%String.eqb_eq). apply existsb_exists. exists x. split; [exact Hx | apply String.eqb_refl]. }
  cbn [mbind option_bind]. now rewrite for_modules_lookup, Hf.
Qed.

Lemma load_denials_reads w : w_tx w = NoTx -> load_denials id w = (inr (foldl deny_pair ∅ (denials id (w_db w))), stepped w).
Proof. apply (calm_query calm_server (fun d => foldl deny_pair ∅ (denials id d))). Qed.

(** The gate after its tenant has been invalidated *)
Lemma feature_gate_decides {E} path ctx g w r claims :
  w_tx w = NoTx -> g_feature g !! id = None -> tenantHotelID ctx = id ->
  ruleForPath path = Some r -> fr_moduleKey r <> "" -> jwtClaimsFromRequest ctx secret = Some claims ->
  isPlatformAdmin secret ctx = false -> roles_held claims <> [] ->
  exists v g', fst (feature_gate (E := E) secret path ctx g w) = inr (v, g')
    /\ (v = None <-> exists role, In role (roles_held claims) /\ denied_row id role (fr_moduleKey r) (w_db w) = false).
Proof.
  intros Ht Hg Hh Hr Hkey Hclaims Ha Hroles. unfold feature_gate. rewrite Hr, (proj2 (String.eqb_neq _ _) Hkey), Hclaims, Ha.
  rewrite bool_decide_eq_false_2 by exact Hroles. cbn [orb]. rewrite Hh.
  assert (Hconf : exists c g' w', feature_confFor (E := E) id g w = (inr (Some c, g'), w') /\ fe_deny c = foldl deny_pair ∅ (denials id (w_db w))).
  { unfold feature_confFor. rewrite Hg. cbn [fresh]. assert (Hm : mret (M := M E) (None : option featureConf) w = (inr None, w)) by reflexivity.
    rewrite (bind_run _ _ _ _ _ Hm), (bind_run _ _ _ _ _ (attempt_run _ _ _ _ (load_denials_reads w Ht))). eexists _, _, _. split; reflexivity. }
  destruct Hconf as (c & g' & w' & Hc & Hdeny). rewrite (bind_run _ _ _ _ _ Hc), Hdeny. eexists _, g'. split; [reflexivity|].
  destruct (forallb _ _) eqn:Ef; split; try discriminate.
  - intros (role & Hin & Hd). rewrite forallb_forall in Ef. specialize (Ef role Hin). rewrite denied_loaded, Hd in Ef. discriminate.
  - intros _. apply forallb_false in Ef as (role & Hin & Hd). rewrite denied_loaded in Hd. eauto.
  - reflexivity.
Qed.
End Matrix.

(** C32: an edit of a tenant's role matrix is answered with the matrix it makes, and
    that is what the gate enforces from the very next request: a member of the
    tenant's staff reaches a route of a module exactly when one of the roles held is
    allowed it, by the edit where it says something of the pair and by what was
    stored before where it does not. *)
Theorem matrix_in_force (env : Env) (jwt : Jwt) secret c id matrix g w
  (Hcalm : forall n, db_fault n = false) (Ht : w_tx w = NoTx) (Hadmin : requirePlatformAdmin secret c = None)
  (Hid : uuid_parse (c_params c "id") = Some id) (Hhotel : exists_row (hotel_by_id id) (hotels (w_db w)) = true) (Hobj : as_object matrix) :
  exists shown g1 w1, UpdatePlatformTenantFeatureMatrix secret c (Some matrix) g w = (inr (RespOK (GB_matrix shown), g1), w1)
    /\ (forall role feature, role_known role = true -> module_known feature = true ->
          (row ← shown !! role; row !! feature) = Some (allowed matrix id (w_db w) role feature))
    /\ forall (E : Type) path ctx r claims,
         ruleForPath path = Some r -> fr_moduleKey r <> "" -> jwtClaimsFromRequest ctx secret = Some claims ->
         isPlatformAdmin secret ctx = false -> roles_held claims <> [] -> tenantHotelID ctx = id ->
         exists v g2, fst (feature_gate (E := E) secret path ctx g1 w1) = inr (v, g2)
           /\ (v = None <-> exists role, In role (roles_held claims) /\ allowed matrix id (w_db w) role (fr_moduleKey r) = true).
Proof.
  unfold UpdatePlatformTenantFeatureMatrix. rewrite Hadmin.
  assert (Hgo : (guard None : M (Resp GateBody) unit) w = (inr tt, w)) by reflexivity. rewrite (bind_run _ _ _ _ _ Hgo).
  assert (Hm : of_option (Some id) (RespError 400 "invalid tenant id" : Resp GateBody) w = (inr id, w)) by reflexivity.
  unfold tenant_id. rewrite Hid, (bind_run _ _ _ _ _ Hm).
  assert (Hq : requireTenant id w = (inr tt, stepped w)).
  { unfold requireTenant. assert (Hq : on_err (query Pool (fun d => exists_row (hotel_by_id id) (hotels d))) (fun _ => RespError 500 "failed to look up tenant" : Resp GateBody) w
      = (inr true, stepped w)) by (unfold on_err; rewrite (calm_query Hcalm) by exact Ht; now rewrite Hhotel).
    now rewrite (bind_run _ _ _ _ _ Hq). }
  rewrite (bind_run _ _ _ _ _ Hq).
  assert (Hb : of_option (Some matrix) (RespError 400 "invalid request body" : Resp GateBody) (stepped w) = (inr matrix, stepped w)) by reflexivity.
  rewrite (bind_run _ _ _ _ _ Hb).
  destruct (runs_calm _ _ _ (stepped w) Hcalm (conj Ht eq_refl)
    (runs_tx_block "failed to update feature matrix" "failed to update feature matrix" _ _ _ _ (runs_save_matrix id matrix (w_db w) Hobj)))
    as ([] & w2 & Hrun & [Ht2 _] & Hdenied).
  rewrite (bind_run _ _ _ _ _ Hrun), (bind_run _ _ _ _ _ (attempt_run _ _ _ _ (load_denials_reads id Hcalm w2 Ht2))).
  assert (Hallowed : forall role feature, allowed matrix id (w_db w) role feature = negb (denied_row id role feature (w_db w2))).
  { intros role feature. rewrite Hdenied. unfold allowed. destruct (cell matrix role feature) as [[]|]; reflexivity. }
  eexists _, _, _. split; [reflexivity|]. split.
  - intros role feature Hr Hf. rewrite matrix_lookup by assumption. now rewrite denied_loaded, Hallowed.
  - intros E path ctx r claims Hr Hkey Hclaims Ha Hroles Hh.
    destruct (feature_gate_decides (E := E) secret id Hcalm path ctx (invalidate id g) (stepped w2) r claims Ht2) as (v & g2 & H1 & H2);
      [cbn; apply lookup_delete_eq | assumption..|].
    exists v, g2. split; [exact H1|]. rewrite H2. split; intros (role & Hin & Hd); exists role; (split; [exact Hin|]).
    + rewrite Hallowed. change (w_db (stepped w2)) with (w_db w2) in Hd. now rewrite Hd.
    + rewrite Hallowed in Hd. now apply negb_true_iff in Hd.
Qed.

(** ** A client on the Basic plan, and one on Pro *)

Definition gated : DB :=
  empty_db <| hotels := [ {| ho_id := 1; ho_name := "Lotus"; ho_slug := "lotus"; ho_gst_rate := None; ho_is_active := true; ho_plan_tier := "basic";
                             ho_modules := [("crm", false)]; ho_address := None; ho_settings := []; ho_identity := no_identity |};
                          {| ho_id := 2; ho_name := "Grand"; ho_slug := "grand"; ho_gst_rate := None; ho_is_active := true; ho_plan_tier := "Growth";
                             ho_modules := []; ho_address := None; ho_settings := []; ho_identity := no_identity |} ] |>
           <| plan_features := [ {| pl_plan_tier := "pro"; pl_feature_key := "procurement"; pl_enabled := false; pl_updated_at := {| t_ns := 0; t_off := 0 |} |} ] |>
           <| role_permissions := [ {| cr_hotel_id := 1; cr_role := "waiter"; cr_feature_key := "billing"; cr_enabled := false;
                                       cr_updated_at := {| t_ns := 0; t_off := 0 |} |} ] |>.
(** A request that authGate has let through. *)
Definition admitted (role hotel : string) : Ctx :=
  (demo_request (role ++ "@" ++ hotel) "1") <| c_user_id := Some "7" |> <| c_hotel_id := Some hotel |>.
Definition verdict_on (role hotel path : string) (g : Gates) (w : World) : option (Z * string) :=
  match fst (plan_gate (E := unit) (env := calm) (jwt := demo_jwt) "secret" path (admitted role hotel) g w) with inr (v, _) => v | inl _ => None end.

Lemma portal_and_gate_agree_witness :
  exists modules on v g', fst (TenantModules (env := calm) (jwt := demo_jwt) "secret" (admitted "receptionist" "1") (start gated)) = inr (RespOK (GB_modules modules))
    /\ modules !! "revenue" = Some on
    /\ fst (plan_gate (E := unit) (env := calm) (jwt := demo_jwt) "secret" "/api/revenue/rates" (admitted "receptionist" "1") newGates (start gated)) = inr (v, g')
    /\ (v = None <-> on = true).
Proof.
  assert (Hl : lapsed (env := calm) pc_exp (g_plan newGates !! tenantHotelID (env := calm) (admitted "receptionist" "1")) (start gated))
    by (intros c; unfold newGates; cbn [g_plan]; rewrite lookup_empty; discriminate).
  assert (Hkey : fr_moduleKey (rule "revenue" 1) <> "") by discriminate.
  exact (portal_and_gate_agree calm demo_jwt "secret" (demo_request "receptionist@1" "1") (admitted "receptionist" "1") "/api/revenue/rates" (rule "revenue" 1)
    _ newGates (start gated) unit (fun _ => eq_refl) eq_refl eq_refl eq_refl eq_refl eq_refl eq_refl Hkey Hl).
Defined.

(** The clock stands still within a minute, and Redis counts. *)
Definition still : Env := {|
  db_fault := fun _ => false; uuid_new := fun n => (1000 + N.of_nat n)%N; uuid_parse := demo_parse; db_shared := false; uuid_string := fun u => fmt_0d 6 (Z.of_N u);
  clock := fun n => {| t_ns := 1773144000 * ns_per_s; t_off := 0 |}; server_off := 0; db_off := 0; driver_text := fun s => "ERROR: SQLSTATE " ++ s;
  num_enc := num_enc (Env := calm); num_dec := num_dec (Env := calm); date_in := parse_date |}.
Definition demo_redis : RateCache := fun past key => inr (Z.of_nat (S (counted key past))).

Lemma quota_per_minute_witness :
  let cs := (replicate 300 (admitted "receptionist" "1") ++ [admitted "receptionist" "2"; admitted "receptionist" "1"])%list in
  exists verdicts g', fst (limited (E := unit) (env := still) (jwt := demo_jwt) (rate := demo_redis) "secret" cs newGates (start gated)) = inr (verdicts, g')
    /\ length verdicts = 302%nat /\ (forall v, nth_error verdicts 300 = Some v -> v = None) /\ (forall v, nth_error verdicts 301 = Some v -> v <> None).
Proof.
  intros cs.
  assert (Hin : forall c, In c cs -> c = admitted "receptionist" "1" \/ c = admitted "receptionist" "2").
  { intros c [Hc|[<-|[<-|[]]]]%in_app_iff; auto. apply list_elem_of_In, elem_of_replicate in Hc as [-> _]. auto. }
  destruct (quota_per_minute still demo_jwt demo_redis "secret" cs newGates (start gated) 29552400 unit (fun _ => eq_refl) (fun _ _ => eq_refl) (fun _ => eq_refl) eq_refl)
    as (verdicts & g' & H1 & H2 & H3).
  - intros h row pc _. unfold newGates. cbn [g_plan]. rewrite lookup_empty. discriminate.
  - intros c [->| ->]%Hin; (split; [reflexivity|]); eexists; reflexivity.
  - intros c c' [->| ->]%Hin [->| ->]%Hin H; vm_compute in H |- *; congruence.
  - exists verdicts, g'. split; [exact H1|]. split; [exact H2|]. split; intros v Hv.
    + apply (H3 300%nat _ v eq_refl Hv). vm_compute. reflexivity.
    + intros Hnone. apply (H3 301%nat _ v eq_refl Hv) in Hnone. vm_compute in Hnone. discriminate.
Defined.

(** Receptionists lose billing, waiters get it back, an unknown role is ignored. *)
Lemma matrix_in_force_witness :
  let matrix := [("waiter", [("billing", true)]); ("receptionist", [("billing", false); ("pool", false)]); ("owner", [("billing", false)])] in
  exists shown g1 w1, UpdatePlatformTenantFeatureMatrix (env := calm) (jwt := demo_jwt) "secret" (admitted "platform_admin" "9") (Some matrix) newGates (start gated)
      = (inr (RespOK (GB_matrix shown), g1), w1)
    /\ (row ← shown !! "waiter"; row !! "billing") = Some true
    /\ exists v g2, fst (feature_gate (E := unit) (env := calm) (jwt := demo_jwt) "secret" "/api/billing" (admitted "receptionist" "1") g1 w1) = inr (v, g2) /\ v <> None.
Proof.
  intros matrix.
  assert (Hobj : as_object matrix).
  { split; [apply (bool_decide_unpack _); vm_compute; exact I|].
    intros role row [[= <- <-]|[[= <- <-]|[[= <- <-]|[]]]]; apply (bool_decide_unpack _); vm_compute; exact I. }
  destruct (matrix_in_force calm demo_jwt "secret" (admitted "platform_admin" "9") 1%N matrix newGates (start gated) (fun _ => eq_refl) eq_refl eq_refl eq_refl eq_refl Hobj)
    as (shown & g1 & w1 & H1 & H2 & H3).
  exists shown, g1, w1. split; [exact H1|]. split; [exact (H2 "waiter" "billing" eq_refl eq_refl)|].
  destruct (H3 unit "/api/billing" (admitted "receptionist" "1") (rule "billing" 0)
    {| cl_sub := Some "7"; cl_hotel_id := Some "1"; cl_branch_id := None; cl_roles := Some [Some "receptionist"]; cl_platform_admin := None |}
    eq_refl ltac:(discriminate) eq_refl eq_refl ltac:(discriminate) eq_refl) as (v & g2 & Hv & Hiff).
  exists v, g2. split; [exact Hv|]. intros Hnone. apply Hiff in Hnone as (role & [<-|[]] & Hd). vm_compute in Hd. discriminate.
Defined.

(** Three departures of the gates from what they say of themselves: a Basic client
    passes on /accounting, whose rule asks for Premium; a route asked for in another
    case of letters, which the router serves all the same, is governed by no rule;
    and a module masked by the platform's administrator stays open to a client
    whose plan the gate remembers. *)
Theorem gate_departures :
  (fr_minRank <$> ruleForPath "/api/accounting/accounts") = Some 2 /\ planRank "basic" = 0
  /\ verdict_on "receptionist" "1" "/api/accounting/accounts" newGates (start gated) = None
  /\ verdict_on "receptionist" "1" "/api/revenue/rates" newGates (start gated)
     = Some (403, "this feature is not included in your plan; please upgrade your subscription")
  /\ ruleForPath "/api/Revenue/rates" = None
  /\ match plan_gate (E := unit) (env := calm) (jwt := demo_jwt) "secret" "/api/pos/orders" (admitted "receptionist" "1") newGates (start gated) with
     | (inr (None, g), w1) =>
         let w2 := snd (serve (UpdatePlatformTenantModules (env := calm) (jwt := demo_jwt) "secret" (admitted "platform_admin" "9") (Some [("pos", false)])) w1) in
         verdict_on "receptionist" "1" "/api/pos/orders" g w2 = None
         /\ verdict_on "receptionist" "1" "/api/pos/orders" (invalidate_plan 1%N g) w2 = Some (403, "this module is disabled for your account")
     | _ => False
     end.
Proof. vm_compute. auto 10. Qed.
