(* ===== verification/WorkerPool.v ===== *)
(** WorkerPool: internal/worker/pool.go.  The bounded queue, its workers and its
    counters as an interleaving of atomic events: a caller's non-blocking send,
    the counter it bumps afterwards, a worker receiving a job, the job's return,
    a worker leaving a closed and empty queue, and Shutdown closing it. *)

From S2P Require Import Prelude.
From Stdlib Require Import Permutation.
Local Open Scope Z_scope.

(** ** Counters *)

(** atomic.Int64: arithmetic modulo 2^64, read as a signed number *)
Definition wrap64 (z : Z) : Z := (z + 2 ^ 63) mod 2 ^ 64 - 2 ^ 63.
Definition add1 (z : Z) : Z := wrap64 (z + 1).

(** Equality modulo 2^64. *)
Record eq64 (a b : Z) : Prop := { eq64_mod : a mod 2 ^ 64 = b mod 2 ^ 64 }.

Lemma wrap64_eq64 z : eq64 (wrap64 z) z.
Proof. split. unfold wrap64. rewrite Zminus_mod, Zmod_mod, <- Zminus_mod. f_equal. lia. Qed.

#[export] Instance eq64_equiv : Equivalence eq64.
Proof. split; [intros x | intros x y [H] | intros x y z [H] [H2]]; split; congruence. Qed.
#[export] Instance add_eq64 : Proper (eq64 ==> eq64 ==> eq64) Z.add.
Proof. intros a b [H] c d [H2]. split. now rewrite Zplus_mod, H, H2, <- Zplus_mod. Qed.

Lemma add1_eq64 z : eq64 (add1 z) (z + 1).
Proof. apply wrap64_eq64. Qed.

Lemma eq64_shift a b a' b' : eq64 a b -> a' - a = b' - b -> eq64 a' b'.
Proof.
  intros H E. replace a' with (a + (b' - b)) by lia. replace b' with (b + (b' - b)) at 2 by lia. now apply add_eq64.
Qed.

(** Counters that never got near 2^63 are exact. *)
Lemma eq64_exact a b : - 2 ^ 63 <= a < 2 ^ 63 -> - 2 ^ 63 <= b < 2 ^ 63 -> eq64 a b -> a = b.
Proof. intros Ha Hb [H]. Z.div_mod_to_equations. lia. Qed.

(** ** The pool *)

Section Pool.
(** What a job runs: the closure is opaque to the pool. *)
Context {body : Type}.

Record Job := { Name : string; Run : body }.

(** One goroutine of Start: waiting in [range p.jobs], inside exec, or returned. *)
Inductive Loop := Waiting | Executing (job : Job) | Returned.
(** How a job ends: [Run] returns nil, returns an error, or panics (and exec recovers). *)
Inductive Outcome := RunOk | RunError | RunPanic.

Record Pool := {
  jobs : list Job;         (** the buffered channel *)
  queueSize : nat;         (** its capacity *)
  closed : bool;
  workers : nat;
  jobTTL : Z;
  loops : list Loop;
  sending : nat;           (** callers of Submit between the send and submitted.Add *)
  submitted : Z; completed : Z; failed : Z; dropped : Z }.

Definition New (workers_ queueSize_ jobTTL_ : Z) : Pool :=
  {| jobs := []; queueSize := Z.to_nat (if queueSize_ <? 1 then 1 else queueSize_); closed := false;
     workers := Z.to_nat (if workers_ <? 1 then 1 else workers_);
     jobTTL := if jobTTL_ <=? 0 then 30 * 10 ^ 9 else jobTTL_;
     loops := []; sending := 0; submitted := 0; completed := 0; failed := 0; dropped := 0 |}.

Definition Start (p : Pool) : Pool := p <| loops ::= fun ls => ls ++ repeat Waiting (workers p) |>.

(** What the select of Submit does: the send on a closed channel panics. *)
Inductive SubmitResult := Accepted | Rejected | PanicsClosed.
Definition Submit (p : Pool) : SubmitResult :=
  if closed p then PanicsClosed else if Nat.ltb (length (jobs p)) (queueSize p) then Accepted else Rejected.

Definition finish (o : Outcome) (p : Pool) : Pool :=
  match o with
  | RunOk => p <| completed ::= add1 |>
  | RunError | RunPanic => p <| failed ::= add1 |>
  end.

Inductive Event :=
  | Send (job : Job) | Count | Receive (i : nat) | Return (i : nat) (o : Outcome) | Leave (i : nat) | Close.

(** One atomic event; None when it cannot happen. *)
Definition fire (e : Event) (p : Pool) : option Pool :=
  match e with
  | Send job =>
      match Submit p with
      | Accepted => Some (p <| jobs := jobs p ++ [job] |> <| sending ::= S |>)
      | Rejected => Some (p <| dropped ::= add1 |>)
      | PanicsClosed => None
      end
  | Count =>
      match sending p with
      | S n => Some (p <| sending := n |> <| submitted ::= add1 |>)
      | O => None
      end
  | Receive i =>
      match loops p !! i, jobs p with
      | Some Waiting, job :: rest => Some (p <| jobs := rest |> <| loops := <[i := Executing job]> (loops p) |>)
      | _, _ => None
      end
  | Return i o =>
      match loops p !! i with
      | Some (Executing _) => Some (finish o (p <| loops := <[i := Waiting]> (loops p) |>))
      | _ => None
      end
  | Leave i =>
      match loops p !! i, jobs p with
      | Some Waiting, [] => if closed p then Some (p <| loops := <[i := Returned]> (loops p) |>) else None
      | _, _ => None
      end
  | Close => Some (p <| closed := true |>)
  end.

Fixpoint play (es : list Event) (p : Pool) : option Pool :=
  match es with
  | [] => Some p
  | e :: rest => p' ← fire e p; play rest p'
  end.

(** Shutdown returns nil once every goroutine has returned. *)
Definition returned (l : Loop) : bool := match l with Returned => true | _ => false end.
Definition drained (p : Pool) : bool := forallb returned (loops p).

(** Stats *)
Definition Stats (p : Pool) : list (string * Z) :=
  [("submitted"%string, submitted p); ("completed"%string, completed p); ("failed"%string, failed p);
   ("dropped"%string, dropped p); ("queued"%string, Z.of_nat (length (jobs p)))].

(** ** SubmitOrRun *)

(** The process-wide pool, and the goroutines that run a job off it. *)
Record Process := { Default : option Pool; detached : list Job }.

Definition SubmitOrRun (job : Job) (s : Process) : option Process :=
  match Default s with
  | None => Some (s <| detached ::= fun ds => ds ++ [job] |>)
  | Some p =>
      p' ← fire (Send job) p;
      Some match Submit p with
           | Accepted => s <| Default := Some p' |>
           | _ => s <| Default := Some p' |> <| detached ::= fun ds => ds ++ [job] |>
           end
  end.

Inductive Move := Call (job : Job) | RunDetached (i : nat) | Worker (e : Event).

Definition move (m : Move) (s : Process) : option Process :=
  match m with
  | Call job => SubmitOrRun job s
  | RunDetached i => job ← detached s !! i; Some (s <| detached ::= delete i |>)
  | Worker (Send _) => None
  | Worker e => p ← Default s; p' ← fire e p; Some (s <| Default := Some p' |>)
  end.

(** ** What a run of events puts in and takes out *)

Definition sends (e : Event) (p : Pool) : list Job :=
  match e, Submit p with Send job, Accepted => [job] | _, _ => [] end.
Definition takes (e : Event) (p : Pool) : list Job :=
  match e, jobs p with Receive _, job :: _ => [job] | _, _ => [] end.
Fixpoint along (f : Event -> Pool -> list Job) (es : list Event) (p : Pool) : list Job :=
  match es with
  | [] => []
  | e :: rest => f e p ++ from_option (along f rest) [] (fire e p)
  end.

(** The jobs handed to SubmitOrRun, the jobs begun, and the jobs not begun yet. *)
Definition called (m : Move) : list Job := match m with Call job => [job] | _ => [] end.
Definition begun (m : Move) (s : Process) : list Job :=
  match m with
  | Call _ => []
  | RunDetached i => option_list (detached s !! i)
  | Worker e => from_option (takes e) [] (Default s)
  end.
Definition outstanding (s : Process) : list Job := from_option jobs [] (Default s) ++ detached s.
Fixpoint moves (ms : list Move) (s : Process) : option Process :=
  match ms with
  | [] => Some s
  | m :: rest => s' ← move m s; moves rest s'
  end.
Fixpoint all_begun (ms : list Move) (s : Process) : list Job :=
  match ms with
  | [] => []
  | m :: rest => begun m s ++ from_option (all_begun rest) [] (move m s)
  end.

Definition executing (l : Loop) : bool := match l with Executing _ => true | _ => false end.
Definition live_loop (l : Loop) : bool := negb (returned l).
Definition count (f : Loop -> bool) (ls : list Loop) : nat := length (List.filter f ls).

(** What the workers and callers still have to do once nothing more is sent. *)
Definition work_left (p : Pool) : nat :=
  sending p + 2 * length (jobs p) + count executing (loops p) + count live_loop (loops p).

Record pool_ok (p : Pool) : Prop := {
  po_bound : (length (jobs p) <= queueSize p)%nat;
  po_left : Exists (fun l => returned l = true) (loops p) -> closed p = true /\ jobs p = [];
  po_balance : eq64 (submitted p + Z.of_nat (sending p))
                    (completed p + failed p + Z.of_nat (count executing (loops p)) + Z.of_nat (length (jobs p))) }.

Lemma count_insert f ls i l l' :
  ls !! i = Some l -> (count f (<[i := l']> ls) + Nat.b2n (f l) = count f ls + Nat.b2n (f l'))%nat.
Proof.
  unfold count. revert i. induction ls as [|x ls IH]; intros [|i] E; cbn -[Nat.b2n] in *; try discriminate.
  - injection E as ->. destruct (f l), (f l'); cbn; lia.
  - specialize (IH i E). destruct (f x); [apply (f_equal S) in IH|]; exact IH.
Qed.

Lemma exists_insert (P : Loop -> Prop) ls i l' : ~ P l' -> Exists P (<[i := l']> ls) -> Exists P ls.
Proof.
  intros Hn. revert i. induction ls as [|x ls IH]; intros [|i] H; cbn in *; auto.
  - inversion H; subst; [contradiction | right; assumption].
  - inversion H; subst; [left; assumption | right; eauto].
Qed.
End Pool.

(** ** The events as a step relation *)

Section PoolProofs.
Context {body : Type}.
Implicit Types p : @Pool body.

Inductive fires : @Event body -> @Pool body -> @Pool body -> Prop :=
  | fires_sent j p : closed p = false -> (length (jobs p) < queueSize p)%nat ->
      fires (Send j) p (p <| jobs := jobs p ++ [j] |> <| sending ::= S |>)
  | fires_dropped j p : closed p = false -> (queueSize p <= length (jobs p))%nat -> fires (Send j) p (p <| dropped ::= add1 |>)
  | fires_count n p : sending p = S n -> fires Count p (p <| sending := n |> <| submitted ::= add1 |>)
  | fires_receive i j rest p : loops p !! i = Some Waiting -> jobs p = j :: rest ->
      fires (Receive i) p (p <| jobs := rest |> <| loops := <[i := Executing j]> (loops p) |>)
  | fires_ok i j p : loops p !! i = Some (Executing j) ->
      fires (Return i RunOk) p (p <| loops := <[i := Waiting]> (loops p) |> <| completed ::= add1 |>)
  | fires_failed i j o p : loops p !! i = Some (Executing j) -> o <> RunOk ->
      fires (Return i o) p (p <| loops := <[i := Waiting]> (loops p) |> <| failed ::= add1 |>)
  | fires_leave i p : loops p !! i = Some Waiting -> jobs p = [] -> closed p = true ->
      fires (Leave i) p (p <| loops := <[i := Returned]> (loops p) |>)
  | fires_close p : fires Close p (p <| closed := true |>).

Lemma fire_fires e p p' : fire e p = Some p' <-> fires e p p'.
Proof.
  split.
  - unfold fire, Submit. destruct e as [j| |i|i o|i|].
    + destruct (closed p) eqn:Ec; [discriminate|]. destruct (Nat.ltb_spec (length (jobs p)) (queueSize p)); injection 1 as <-; constructor; auto.
    + destruct (sending p) eqn:E; [discriminate|]. injection 1 as <-. now constructor.
    + destruct (loops p !! i) as [[| |]|] eqn:E; try discriminate. destruct (jobs p) eqn:Ej; [discriminate|]. injection 1 as <-. now constructor.
    + destruct (loops p !! i) as [[| |]|] eqn:E; try discriminate. injection 1 as <-. destruct o; econstructor; eauto; discriminate.
    + destruct (loops p !! i) as [[| |]|] eqn:E; try discriminate. destruct (jobs p) eqn:Ej; [|discriminate].
      destruct (closed p) eqn:Ec; [|discriminate]. injection 1 as <-. now constructor.
    + injection 1 as <-. constructor.
  - unfold fire, Submit. destruct 1 as [j p Ec Hl|j p Ec Hl|n p E|i j rest p E Ej|i j p E|i j o p E Ho|i p E Ej Ec|p]; rewrite ?E, ?Ec, ?Ej; try reflexivity.
    + apply Nat.ltb_lt in Hl. now rewrite Hl.
    + apply Nat.ltb_ge in Hl. now rewrite Hl.
    + destruct o; [contradiction | reflexivity..].
Qed.

(** Every event of the workers and of callers past their send takes one unit of
    the work left away; nothing else but a send adds any. *)
Definition sends_not (e : @Event body) : bool := match e with Send _ => false | _ => true end.
Definition works (e : @Event body) : bool := match e with Send _ | Close => false | _ => true end.

Lemma count_moved p i l l' (E : loops p !! i = Some l) (ls := <[i := l']> (loops p)) :
  (count executing ls + Nat.b2n (executing l) = count executing (loops p) + Nat.b2n (executing l'))%nat
  /\ (count live_loop ls + Nat.b2n (live_loop l) = count live_loop (loops p) + Nat.b2n (live_loop l'))%nat.
Proof. split; now apply count_insert. Qed.

Lemma executing_waiting n : count (@executing body) (repeat Waiting n) = 0%nat.
Proof. induction n; [reflexivity | exact IHn]. Qed.

Lemma New_ok w q t : pool_ok (Start (@New body w q t)).
Proof.
  unfold Start, New. split; cbn -[repeat count].
  - lia.
  - intros H. apply Exists_exists in H as (l & Hl & H). apply repeat_spec in Hl. subst. discriminate.
  - now rewrite executing_waiting.
Qed.

Lemma fire_ok e p p' : pool_ok p -> fire e p = Some p' -> pool_ok p'.
Proof.
  intros [H1 H2 H3] H. apply fire_fires in H.
  destruct H as [j p Ec Hl|j p Ec Hl|n p E|i j rest p E Ej|i j p E|i j o p E Ho|i p E Ej Ec|p];
    try pose proof (count_moved p i _ Waiting E) as [Hw _]; try pose proof (count_moved p i _ Returned E) as [Hr _];
    try pose proof (fun j => proj1 (count_moved p i _ (Executing j) E)) as He;
    cbn [executing Nat.b2n] in *;
    split; cbn -[count Nat.b2n Z.of_nat] in *; rewrite ?length_app; cbn [length]; auto.
  all: try (intros Hx; apply exists_insert in Hx; [apply H2 in Hx as [? ?]; split; congruence | discriminate]).
  all: try (intros Hx; apply H2 in Hx as [? ?]; split; congruence).
  all: try (rewrite ?add1_eq64; eapply eq64_shift; [exact H3 |]); rewrite ?Ej, ?E in *; cbn [length] in *; try lia.
  - specialize (He j). cbn [executing Nat.b2n] in He. lia.
Qed.

Lemma fire_workers e p p' : fire e p = Some p' -> length (loops p') = length (loops p) /\ queueSize p' = queueSize p.
Proof. intros H. apply fire_fires in H. destruct H; cbn; rewrite ?length_insert; auto. Qed.

(** Jobs leave the queue in the order they entered it. *)
Lemma fire_fifo e p p' : fire e p = Some p' -> jobs p ++ sends e p = takes e p ++ jobs p'.
Proof.
  intros H. apply fire_fires in H. unfold sends, Submit.
  destruct H as [j p Ec Hl|j p Ec Hl|n p E|i j rest p E Ej|i j p E|i j o p E Ho|i p E Ej Ec|p]; cbn -[Nat.ltb]; rewrite ?app_nil_r; try reflexivity.
  - rewrite Ec. apply Nat.ltb_lt in Hl. now rewrite Hl.
  - rewrite Ec. apply Nat.ltb_ge in Hl. rewrite Hl. apply app_nil_r.
  - now rewrite Ej.
Qed.

Lemma fire_works e p p' : fire e p = Some p' -> works e = true -> work_left p = S (work_left p') /\ closed p' = closed p.
Proof.
  intros H Hw. apply fire_fires in H. unfold work_left.
  destruct H as [j p Ec Hl|j p Ec Hl|n p E|i j rest p E Ej|i j p E|i j o p E Ho|i p E Ej Ec|p]; try discriminate; cbn -[count Nat.mul];
    try destruct (count_moved p i _ Waiting E) as [Hw1 Hw2]; try destruct (count_moved p i _ Returned E) as [Hr1 Hr2];
    try destruct (count_moved p i _ (Executing j) E) as [He1 He2]; cbn [executing live_loop returned negb Nat.b2n] in *;
    rewrite ?Ej, ?E; cbn [length]; split; auto; lia.
Qed.

Lemma play_inv es p p' : play es p = Some p' -> pool_ok p -> pool_ok p'.
Proof.
  revert p. induction es as [|e es IH]; cbn; intros p H Hp; [congruence|].
  destruct (fire e p) as [q|] eqn:E; [|discriminate]. eapply IH; [exact H | eapply fire_ok; eassumption].
Qed.

Lemma play_workers es p p' : play es p = Some p' -> length (loops p') = length (loops p) /\ queueSize p' = queueSize p.
Proof.
  revert p. induction es as [|e es IH]; cbn; intros p H; [injection H as <-; auto|].
  destruct (fire e p) as [q|] eqn:E; [|discriminate]. apply IH in H as [-> ->]. now apply fire_workers in E.
Qed.

Lemma play_fifo es p p' : play es p = Some p' -> jobs p ++ along sends es p = along takes es p ++ jobs p'.
Proof.
  revert p. induction es as [|e es IH]; cbn; intros p H; [injection H as <-; apply app_nil_r|].
  destruct (fire e p) as [q|] eqn:E; [|discriminate]. cbn. rewrite app_assoc, (fire_fifo _ _ _ E), <- !app_assoc. f_equal. now apply IH.
Qed.

Lemma play_works es p p' : play es p = Some p' -> forallb works es = true -> (length es + work_left p' = work_left p)%nat /\ closed p' = closed p.
Proof.
  revert p. induction es as [|e es IH]; cbn; intros p H Hw; [injection H as <-; auto|].
  destruct (fire e p) as [q|] eqn:E; [|discriminate]. apply andb_true_iff in Hw as [H1 H2].
  destruct (IH q H H2) as [H3 H4]. destruct (fire_works _ _ _ E H1) as [H5 H6]. split; [lia | congruence].
Qed.

Lemma count_positive (f : Loop -> bool) ls : (0 < @count body f ls)%nat -> exists i l, ls !! i = Some l /\ f l = true.
Proof.
  unfold count. induction ls as [|l ls IH]; cbn; [lia|]. destruct (f l) eqn:E; [exists 0%nat, l; auto|].
  intros H. destruct (IH H) as (i & l' & Hi & Hf). exists (S i), l'. auto.
Qed.

(** A closed pool with work left always has an event to fire. *)
Lemma closed_progress p : pool_ok p -> closed p = true -> loops p <> [] -> (0 < work_left p)%nat ->
  exists e p', works e = true /\ fire e p = Some p'.
Proof.
  intros [_ Hret _] Hc Hne Hw. unfold work_left in Hw.
  destruct (sending p) as [|n] eqn:Es; [|exists Count; eexists; split; [reflexivity|]; apply fire_fires; constructor; exact Es].
  destruct (count executing (loops p)) as [|n] eqn:Ee.
  2:{ destruct (count_positive executing (loops p)) as (i & l & Hi & Hl); [lia|]. destruct l as [|j|]; try discriminate.
      exists (Return i RunOk). eexists. split; [reflexivity|]. apply fire_fires. econstructor. exact Hi. }
  destruct (jobs p) as [|j rest] eqn:Ej.
  - destruct (count_positive live_loop (loops p)) as (i & l & Hi & Hl); [cbn in Hw; lia|]. destruct l as [|j|]; try discriminate.
    + exists (Leave i). eexists. split; [reflexivity|]. apply fire_fires. constructor; assumption.
    + exists (Return i RunOk). eexists. split; [reflexivity|]. apply fire_fires. econstructor. exact Hi.
  - destruct (loops p) as [|l ls] eqn:El; [contradiction|]. destruct l as [|j'|].
    + exists (Receive 0). eexists. split; [reflexivity|]. apply fire_fires. eapply fires_receive; [rewrite El; reflexivity | exact Ej].
    + discriminate Ee.
    + destruct (Hret ltac:(left; reflexivity)) as [_ H]. discriminate H.
Qed.

Lemma no_work_drained p : work_left p = 0%nat -> drained p = true /\ jobs p = [] /\ sending p = 0%nat /\ count executing (loops p) = 0%nat.
Proof.
  unfold work_left, drained. intros H. repeat split; [|destruct (jobs p); [reflexivity | cbn in H; lia] | lia | lia].
  assert (Hl : count live_loop (loops p) = 0%nat) by lia. clear H.
  induction (loops p) as [|l ls IH]; [reflexivity|]. destruct l; try discriminate Hl. exact (IH Hl).
Qed.

(** ** SubmitOrRun *)

Lemma fire_keeps_jobs e p p' : fire e p = Some p' -> sends e p = [] -> jobs p ≡ₚ takes e p ++ jobs p'.
Proof. intros H Hs. apply fire_fifo in H. rewrite Hs, app_nil_r in H. now rewrite H. Qed.

Lemma move_outstanding m (s s' : @Process body) : move m s = Some s' -> called m ++ outstanding s ≡ₚ begun m s ++ outstanding s'.
Proof.
  unfold outstanding. destruct m as [j|i|e]; cbn [move called begun app].
  - unfold SubmitOrRun. destruct (Default s) as [p|] eqn:Ed.
    + destruct (fire (Send j) p) as [p'|] eqn:Ef; [|discriminate]. cbn. pose proof (fire_fifo _ _ _ Ef) as Hf. cbn in Hf.
      destruct (Submit p) eqn:Es; injection 1 as <-; cbn; rewrite ?Ed; cbn.
      * rewrite <- Hf. rewrite <- app_assoc. apply Permutation_middle.
      * rewrite app_nil_r in Hf. rewrite <- Hf, app_assoc. apply Permutation_cons_append.
      * rewrite app_nil_r in Hf. rewrite <- Hf, app_assoc. apply Permutation_cons_append.
    + injection 1 as <-. cbn. rewrite Ed. cbn. apply Permutation_cons_append.
  - destruct (detached s !! i) as [j|] eqn:Ej; [|discriminate]. injection 1 as <-. cbn.
    rewrite (delete_Permutation _ _ _ Ej) at 1. symmetry. apply Permutation_middle.
  - assert (Hgo : forall p p', Default s = Some p -> fire e p = Some p' -> sends e p = [] -> s' = s <| Default := Some p' |> ->
        from_option jobs [] (Default s) ++ detached s ≡ₚ from_option (takes e) [] (Default s) ++ from_option jobs [] (Default s') ++ detached s').
    { intros p p' Ed Ef Hs ->. rewrite Ed. cbn. rewrite app_assoc. now rewrite (fire_keeps_jobs _ _ _ Ef Hs). }
    destruct (Default s) as [p|] eqn:Ed; [|destruct e; discriminate].
    destruct e; try discriminate; cbn [mbind option_bind]; (destruct (fire _ p) as [p'|] eqn:Ef; [|discriminate]);
      cbn; injection 1 as <-; refine (Hgo p p' eq_refl Ef _ eq_refl); unfold sends; destruct (Submit p); reflexivity.
Qed.

Lemma moves_outstanding ms (s s' : @Process body) :
  moves ms s = Some s' -> concat (map called ms) ++ outstanding s ≡ₚ all_begun ms s ++ outstanding s'.
Proof.
  revert s. induction ms as [|m ms IH]; cbn; intros s H; [injection H as <-; reflexivity|].
  destruct (move m s) as [q|] eqn:E; [|discriminate]. cbn.
  rewrite <- app_assoc, Permutation_app_swap_app, (move_outstanding _ _ _ E), Permutation_app_swap_app, (IH q H).
  now rewrite app_assoc.
Qed.
End PoolProofs.

(** ** Claims *)

Section Drain.
Context {body : Type} (w q t : Z).
Implicit Types p : @Pool body.
Definition started : @Pool body := Start (New w q t).

Lemma started_workers : length (loops started) = Z.to_nat (if w <? 1 then 1 else w) /\ (1 <= length (loops started))%nat.
Proof. unfold started, Start, New. cbn -[repeat]. rewrite repeat_length. destruct (Z.ltb_spec w 1); lia. Qed.

Lemma play_app es ws p p1 p2 : play es p = Some p1 -> play ws p1 = Some p2 ->
  forall f, play (es ++ ws) p = Some p2 /\ along f (es ++ ws) p = along f es p ++ along f ws p1.
Proof.
  revert p. induction es as [|e es IH]; cbn; intros p H H2 f; [injection H as ->; auto|].
  destruct (fire e p) as [r|] eqn:E; [|discriminate]. cbn. destruct (IH r H H2 f) as [-> ->]. now rewrite app_assoc.
Qed.

Lemma works_send_nothing ws p p' : forallb works ws = true -> play ws p = Some p' -> along sends ws p = [].
Proof.
  revert p. induction ws as [|e ws IH]; cbn; intros p Hw H; [reflexivity|]. apply andb_true_iff in Hw as [H1 H2].
  destruct (fire e p) as [r|] eqn:E; [|discriminate]. cbn. rewrite (IH r H2 H), app_nil_r.
  unfold sends. destruct e; try discriminate H1; destruct (Submit p); reflexivity.
Qed.

Lemma reaches_drained p : pool_ok p -> closed p = true -> loops p <> [] ->
  exists ws p', forallb works ws = true /\ play ws p = Some p' /\ work_left p' = 0%nat.
Proof.
  remember (work_left p) as n eqn:En. revert p En. induction n as [|n IH]; intros p En Hok Hc Hl.
  - exists [], p. auto.
  - destruct (closed_progress p Hok Hc Hl) as (e & r & Hw & E); [lia|].
    destruct (fire_works _ _ _ E Hw) as [E1 E2]. destruct (fire_workers _ _ _ E) as [E3 _].
    destruct (IH r) as (ws & p' & H1 & H2 & H3); [lia | eapply fire_ok; eassumption | congruence | | ].
    { destruct (loops p), (loops r); cbn in *; congruence. }
    exists (e :: ws), p'. cbn. rewrite Hw, E. auto.
Qed.
End Drain.

(** Through any interleaving of callers and workers the queue never holds more
    than its capacity, the goroutines running jobs never outnumber the workers,
    jobs start in the order they were accepted and none twice, and the counters
    balance: submitted (plus the callers that have sent and not counted yet)
    equals completed, failed, running and queued together, modulo the width of
    the counters. *)
Theorem pool_accounts (body : Type) w q t (es : list (@Event body)) p (H : play es (started w q t) = Some p) :
  (length (jobs p) <= Z.to_nat (Z.max 1 q))%nat
  /\ (count executing (loops p) <= Z.to_nat (Z.max 1 w))%nat
  /\ along sends es (started w q t) = along takes es (started w q t) ++ jobs p
  /\ eq64 (submitted p + Z.of_nat (sending p))
          (completed p + failed p + Z.of_nat (count executing (loops p)) + Z.of_nat (length (jobs p))).
Proof.
  pose proof (play_inv _ _ _ H (New_ok w q t)) as [H1 _ H2]. destruct (play_workers _ _ _ H) as [E1 E2].
  split; [rewrite E2 in H1; unfold started, Start, New in H1; cbn in H1; destruct (Z.ltb_spec q 1); lia|].
  split; [|split; [exact (play_fifo _ _ _ H) | exact H2]].
  pose proof (List.filter_length_le executing (loops p)). unfold count. destruct (@started_workers body w q t) as [E3 _].
  destruct (Z.ltb_spec w 1); lia.
Qed.

(** C15: Shutdown drains.  Once the queue is closed, however the workers are
    scheduled: they take exactly as many steps as there is work left, so no
    schedule runs for ever; one that cannot go on has left every worker
    returned and the queue empty, with every job ever accepted started, each
    once and in order, and counted as completed or failed; and such an end is
    reached. *)
Theorem shutdown_drains (body : Type) w q t (es : list (@Event body)) p
  (H : play es (started w q t) = Some p) (Hc : closed p = true) :
  (forall ws p', forallb works ws = true -> play ws p = Some p' ->
     (length ws + work_left p' = work_left p)%nat
     /\ ((forall e, works e = true -> fire e p' = None) ->
         drained p' = true /\ jobs p' = []
         /\ along takes (es ++ ws) (started w q t) = along sends es (started w q t)
         /\ eq64 (submitted p') (completed p' + failed p')))
  /\ exists ws p', forallb works ws = true /\ play ws p = Some p' /\ forall e, works e = true -> fire e p' = None.
Proof.
  pose proof (play_inv _ _ _ H (New_ok w q t)) as Hok. destruct (play_workers _ _ _ H) as [E1 _].
  destruct (@started_workers body w q t) as [_ E3].
  assert (Hne : forall ws p', play ws p = Some p' -> loops p' <> []).
  { intros ws p' Hp. destruct (play_workers _ _ _ Hp) as [E _]. destruct (loops p'); [cbn in E; lia | discriminate]. }
  split.
  - intros ws p' Hw Hp. destruct (play_works _ _ _ Hp Hw) as [El Ec]. split; [exact El|]. intros Hstuck.
    pose proof (play_inv _ _ _ Hp Hok) as Hok'.
    assert (H0 : work_left p' = 0%nat).
    { destruct (work_left p') eqn:E; [reflexivity|].
      destruct (closed_progress p' Hok') as (e & r & Hwe & Er); [congruence | eapply Hne; eassumption | lia |].
      rewrite (Hstuck e Hwe) in Er. discriminate. }
    destruct (no_work_drained p' H0) as (D1 & D2 & D3 & D4). split; [exact D1|]. split; [exact D2|]. split.
    + destruct (play_app _ _ _ _ _ H Hp takes) as [Hall _]. apply play_fifo in Hall. rewrite D2, app_nil_r in Hall.
      destruct (play_app _ _ _ _ _ H Hp sends) as [_ Es]. rewrite Es, (works_send_nothing _ _ _ Hw Hp), app_nil_r in Hall. now symmetry.
    + destruct Hok' as [_ _ Hb]. rewrite D2, D3, D4 in Hb. cbn in Hb. now rewrite !Z.add_0_r in Hb.
  - destruct (reaches_drained p Hok Hc (Hne [] p eq_refl)) as (ws & p' & Hw & Hp & H0). exists ws, p'. split; [exact Hw|]. split; [exact Hp|].
    intros e He. destruct (fire e p') as [r|] eqn:Er; [|reflexivity]. destruct (fire_works _ _ _ Er He) as [E _]. lia.
Qed.

(** SubmitOrRun loses nothing: with a pool or without one, full or not, every
    job handed to it has begun, waits in the queue, or waits in a goroutine of
    its own, exactly once; and the call goes through unless Shutdown has closed
    the pool, when the send panics instead of falling back. *)
Theorem submit_or_run_keeps_every_job (body : Type) (default : option (Z * Z * Z)) (ms : list (@Move body)) s
  (s0 := {| Default := (fun '(w, q, t) => started w q t) <$> default; detached := [] |})
  (H : moves ms s0 = Some s) :
  concat (map called ms) ≡ₚ all_begun ms s0 ++ outstanding s
  /\ forall job, SubmitOrRun job s = None <-> exists p, Default s = Some p /\ closed p = true.
Proof.
  split.
  - apply moves_outstanding in H. replace (outstanding s0) with (@nil (@Job body)) in H; [now rewrite app_nil_r in H|].
    unfold outstanding, s0. destruct default as [[[? ?] ?]|]; reflexivity.
  - intros job. unfold SubmitOrRun. destruct (Default s) as [p|]; cbn [mbind option_bind].
    + destruct (closed p) eqn:Ec.
      * unfold fire, Submit. rewrite Ec. cbn. split; [eauto | reflexivity].
      * unfold fire, Submit. rewrite Ec. destruct (Nat.ltb _ _); cbn; (split; [discriminate | intros (p' & [= <-] & H2); congruence]).
    + split; [discriminate | intros (p' & H1 & _); discriminate].
Qed.

(** *** Two workers and three invoices *)

Definition demo_job (n : string) : @Job unit := {| Name := n; Run := tt |}.
Definition busy : list (@Event unit) :=
  [ Send (demo_job "email.invoice"); Send (demo_job "sms.send"); Receive 0; Count; Send (demo_job "email.booking"); Count;
    Receive 1; Return 1 RunPanic; Count; Close ]%string.
Definition finishing : list (@Event unit) := [ Receive 1; Return 0 RunOk; Return 1 RunError; Leave 0; Leave 1 ].

Lemma pool_accounts_witness :
  exists p, play busy (started 2 2 0) = Some p
  /\ (submitted p, completed p, failed p, length (jobs p)) = (3, 0, 1, 1%nat)
  /\ along sends busy (started 2 2 0) = along takes busy (started 2 2 0) ++ jobs p.
Proof.
  eexists. split; [vm_compute; reflexivity|]. split; [vm_compute; reflexivity|].
  apply (pool_accounts unit 2 2 0 busy). vm_compute. reflexivity.
Defined.

Lemma shutdown_drains_witness :
  exists p p', play busy (started 2 2 0) = Some p /\ closed p = true /\ work_left p = 5%nat
  /\ play finishing p = Some p' /\ (length finishing + work_left p' = work_left p)%nat /\ drained p' = true.
Proof.
  do 2 eexists. split; [vm_compute; reflexivity|]. split; [reflexivity|]. split; [reflexivity|]. split; [vm_compute; reflexivity|].
  split; [|reflexivity].
  eapply (proj1 (shutdown_drains unit 2 2 0 busy _ ltac:(vm_compute; reflexivity) eq_refl) finishing); [reflexivity | vm_compute; reflexivity].
Defined.

Definition crowded : list (@Move unit) :=
  [ Call (demo_job "a"); Call (demo_job "b"); Worker (Receive 0); RunDetached 0; Call (demo_job "c") ]%string.
Lemma submit_or_run_keeps_every_job_witness :
  exists s, moves crowded {| Default := Some (started 1 1 0); detached := [] |} = Some s
  /\ map Name (outstanding s) = ["c"%string]
  /\ concat (map called crowded) ≡ₚ all_begun crowded {| Default := Some (started 1 1 0); detached := [] |} ++ outstanding s.
Proof.
  eexists. split; [vm_compute; reflexivity|]. split; [reflexivity|].
  apply (submit_or_run_keeps_every_job unit (Some (1, 1, 0)) crowded). vm_compute. reflexivity.
Defined.
