(* ===== verification/GoCrypto.v ===== *)
(** GoCrypto: what the webhooks use of Go's crypto/sha256, crypto/hmac and
    encoding/hex.  SHA-256 as FIPS 180-4 states it, on 32-bit words; HMAC as
    RFC 2104 does, with the hash's block of 64 bytes. *)

From S2P Require Import Prelude GoLib.
Local Open Scope string_scope.
Local Open Scope Z_scope.

(** ** 32-bit words *)

Definition mask32 : Z := 0xffffffff.
Definition add32 (a b : Z) : Z := Z.land (a + b) mask32.
Definition rotr (x n : Z) : Z := Z.lor (Z.shiftr x n) (Z.land (Z.shiftl x (32 - n)) mask32).
Definition xor3 (a b c : Z) : Z := Z.lxor a (Z.lxor b c).
Definition not32 (x : Z) : Z := Z.lxor x mask32.

Definition big_sigma0 x := xor3 (rotr x 2) (rotr x 13) (rotr x 22).
Definition big_sigma1 x := xor3 (rotr x 6) (rotr x 11) (rotr x 25).
Definition small_sigma0 x := xor3 (rotr x 7) (rotr x 18) (Z.shiftr x 3).
Definition small_sigma1 x := xor3 (rotr x 17) (rotr x 19) (Z.shiftr x 10).
Definition ch x y z := Z.lxor (Z.land x y) (Z.land (not32 x) z).
Definition maj x y z := xor3 (Z.land x y) (Z.land x z) (Z.land y z).

(** FIPS 180-4 defines its constants by roots of the first primes: [root k n] is
    the integer k-th root of n, found bit by bit. *)
Fixpoint root_bits (k n : Z) (fuel : nat) (r : Z) : Z :=
  match fuel with
  | O => r
  | S i => let r' := r + 2 ^ Z.of_nat i in root_bits k n i (if r' ^ k <=? n then r' else r)
  end.
Definition root (k n : Z) : Z := root_bits k n 40 0.
Definition prime (n : Z) : bool := forallb (fun i => negb (n mod Z.of_nat i =? 0)) (seq 2 (Z.to_nat n - 2)).
Definition primes : list Z := List.filter prime (map Z.of_nat (seq 2 310)).
(** The first 32 bits of the fractional part of the k-th root of p *)
Definition root_fraction (k p : Z) : Z := Z.land (root k (p * 2 ^ (32 * k))) mask32.
Definition round_constants : list Z := Eval vm_compute in map (root_fraction 3) primes.
Definition initial_hash : list Z := Eval vm_compute in map (root_fraction 2) (take 8 primes).

Example sixty_four_rounds : length round_constants = 64%nat.
Proof. reflexivity. Qed.

(** ** SHA-256 *)

(** One word of the schedule; the list holds the words so far, last first. *)
Definition next_word (ws : list Z) : Z :=
  add32 (add32 (small_sigma1 (nth 1 ws 0)) (nth 6 ws 0)) (add32 (small_sigma0 (nth 14 ws 0)) (nth 15 ws 0)).
Fixpoint extend (n : nat) (ws : list Z) : list Z :=
  match n with O => ws | S k => extend k (next_word ws :: ws) end.

Definition sha_round (st : list Z) (kw : Z * Z) : list Z :=
  match st with
  | [a; b; c; d; e; f; g; h] =>
      let t1 := add32 (add32 (add32 h (big_sigma1 e)) (add32 (ch e f g) (fst kw))) (snd kw) in
      let t2 := add32 (big_sigma0 a) (maj a b c) in
      [add32 t1 t2; a; b; c; add32 d t1; e; f; g]
  | _ => st
  end.

Definition compress (hash words : list Z) : list Z :=
  zip_with add32 hash (fold_left sha_round (combine round_constants (rev (extend 48 (rev words)))) hash).

Definition word_of (b : list Z) : Z := fold_left (fun acc x => acc * 256 + x) b 0.
(** n groups of k elements *)
Fixpoint groups {A} (k n : nat) (l : list A) : list (list A) :=
  match n with O => [] | S m => take k l :: groups k m (drop k l) end.

Definition be_bytes (n : nat) (z : Z) : list Z := map (fun i => Z.land (Z.shiftr z (8 * Z.of_nat i)) 255) (rev (seq 0 n)).
Definition pad (msg : list Z) : list Z :=
  let n := Z.of_nat (length msg) in
  msg ++ 128 :: repeat 0 (Z.to_nat ((55 - n) mod 64)) ++ be_bytes 8 (8 * n).

Definition sha256 (msg : list Z) : list Z :=
  let padded := pad msg in
  let blocks := groups 64 (length padded / 64) padded in
  concat (map (be_bytes 4) (fold_left (fun h b => compress h (map word_of (groups 4 16 b))) blocks initial_hash)).

(** ** HMAC, hex, and comparison *)

Definition bytes (s : string) : list Z := map (fun c => Z.of_N (N_of_ascii c)) (String.list_ascii_of_string s).

Definition hmac_key (key : list Z) : list Z :=
  let k := if Nat.ltb 64 (length key) then sha256 key else key in k ++ repeat 0 (64 - length k).
(** mac := hmac.New(sha256.New, key); mac.Write(msg); mac.Sum(nil) *)
Definition hmac_sha256 (key msg : list Z) : list Z :=
  let k := hmac_key key in sha256 (map (Z.lxor 0x5c) k ++ sha256 (map (Z.lxor 0x36) k ++ msg)).

Definition hex_digit (n : Z) : ascii := ascii_of_N (Z.to_N (if n <? 10 then 48 + n else 87 + n)).
(** hex.EncodeToString *)
Fixpoint hex_string (l : list Z) : string :=
  match l with [] => "" | b :: r => String (hex_digit (Z.shiftr b 4)) (String (hex_digit (Z.land b 15)) (hex_string r)) end.

(** strings.TrimPrefix *)
Definition TrimPrefix (s p : string) : string := if HasPrefix s p then drop_str (String.length p) s else s.

(** The digest of "abc" of FIPS 180-4, and the second case of RFC 4231. *)
Example sha256_abc :
  hex_string (sha256 (bytes "abc")) = "ba7816bf8f01cfea414140de5dae2223b00361a396177a9cb410ff61f20015ad".
Proof. vm_compute. reflexivity. Qed.
Example hmac_rfc4231 :
  hex_string (hmac_sha256 (bytes "Jefe") (bytes "what do ya want for nothing?"))
  = "5bdcc146bf60754e6a042426089575c75a003f089d2739839dec58b964ec3843".
Proof. vm_compute. reflexivity. Qed.

(** ** Digests in hex *)

Definition solid (s : string) : bool := forall_string (fun c => negb (is_space c)) s.

Lemma trim_right_solid s : solid s = true -> trim_right s = s.
Proof.
  unfold solid. induction s as [|c s IH]; [reflexivity|]. cbn [forall_string trim_right]. intros [Hc Hs]%andb_true_iff.
  rewrite (IH Hs). destruct s; [|reflexivity]. apply negb_true_iff in Hc. now rewrite Hc.
Qed.
Lemma TrimSpace_solid s : solid s = true -> TrimSpace s = s.
Proof.
  intros H. unfold TrimSpace. replace (trim_left s) with s; [now apply trim_right_solid|].
  destruct s as [|c s]; [reflexivity|]. cbn in *. apply andb_true_iff in H as [H%negb_true_iff _]. now rewrite H.
Qed.

Definition hex_digits : list ascii := map (fun n => hex_digit (Z.of_nat n)) (seq 0 16).
Lemma hex_digit_in n : 0 <= n < 16 -> In (hex_digit n) hex_digits.
Proof. intros H. apply in_map_iff. exists (Z.to_nat n). split; [now rewrite Z2Nat.id by lia | apply in_seq; lia]. Qed.

Definition byte (b : Z) : Prop := 0 <= b < 256.
Lemma hex_string_chars (p : ascii -> bool) l : forallb p hex_digits = true -> Forall byte l -> forall_string p (hex_string l) = true.
Proof.
  intros Hp. rewrite forallb_forall in Hp. induction 1 as [|b l Hb _ IH]; [reflexivity|]. cbn [hex_string forall_string].
  unfold byte in Hb. rewrite IH, !Hp; [reflexivity | |]; apply hex_digit_in.
  - change 15 with (Z.ones 4). rewrite Z.land_ones by lia. apply Z.mod_pos_bound. lia.
  - rewrite Z.shiftr_div_pow2 by lia. split; [apply Z.div_pos; lia | apply Z.div_lt_upper_bound; lia].
Qed.

Lemma be_bytes_byte n z : Forall byte (be_bytes n z).
Proof.
  unfold be_bytes. apply Forall_forall. intros b Hb. apply in_map_iff in Hb as (i & <- & _).
  unfold byte. change 255 with (Z.ones 8). rewrite Z.land_ones by lia. apply Z.mod_pos_bound. lia.
Qed.
Lemma sha256_bytes msg : Forall byte (sha256 msg).
Proof.
  unfold sha256. generalize (fold_left (fun h b => compress h (map word_of (groups 4 16 b))) (groups 64 (length (pad msg) / 64) (pad msg)) initial_hash).
  intros l. induction l as [|w l IH]; [constructor|]; cbn [map concat]. apply Forall_app. split; [apply (be_bytes_byte 4) | exact IH].
Qed.

Lemma sha_round_length st kw : length (sha_round st kw) = length st.
Proof. unfold sha_round. do 9 (destruct st as [|? st]; try reflexivity). Qed.
Lemma rounds_length ks st : length (fold_left sha_round ks st) = length st.
Proof. revert st. induction ks as [|k ks IH]; intros st; cbn; [reflexivity|]. now rewrite IH, sha_round_length. Qed.
Lemma compress_length h ws : length (compress h ws) = length h.
Proof. unfold compress. rewrite length_zip_with, rounds_length. lia. Qed.
Lemma sha256_length msg : length (sha256 msg) = 32%nat.
Proof.
  unfold sha256. generalize (groups 64 (length (pad msg) / 64) (pad msg)). intros bs.
  assert (H : length (fold_left (fun h b => compress h (map word_of (groups 4 16 b))) bs initial_hash) = 8%nat).
  { assert (H8 : length initial_hash = 8%nat) by reflexivity. revert H8. generalize initial_hash.
    induction bs as [|b bs IH]; intros h Hh; cbn; [exact Hh|]. apply IH. now rewrite compress_length. }
  revert H. generalize (fold_left (fun h b => compress h (map word_of (groups 4 16 b))) bs initial_hash). intros l Hl.
  do 9 (destruct l as [|? l]; try discriminate Hl). reflexivity.
Qed.

Lemma prefix_app p s : String.prefix p (p ++ s) = true.
Proof.
  induction p as [|c p IH]; [destruct s; reflexivity|]. change (String c p ++ s) with (String c (p ++ s)). cbn [String.prefix].
  destruct (ascii_dec c c); [exact IH | congruence].
Qed.
Lemma substring_all s : String.substring 0 (String.length s) s = s.
Proof. induction s as [|c s IH]; [reflexivity|]. cbn [String.length String.substring]. now rewrite IH. Qed.
Lemma TrimPrefix_app p s : TrimPrefix (p ++ s) p = s.
Proof.
  unfold TrimPrefix, HasPrefix, drop_str. rewrite prefix_app.
  induction p as [|c p IH]; [change ("" ++ s) with s; cbn [String.length]; rewrite Nat.sub_0_r; apply substring_all|].
  change (String c p ++ s) with (String c (p ++ s)). cbn [String.length String.substring Nat.sub]. exact IH.
Qed.
Lemma TrimPrefix_other c p s : forall_string (fun x => negb (Ascii.eqb x c)) s = true -> TrimPrefix s (String c p) = s.
Proof.
  unfold TrimPrefix, HasPrefix. destruct s as [|x s]; [reflexivity|]. cbn. intros [H _]%andb_true_iff.
  destruct (ascii_dec c x) as [->|]; [rewrite Ascii.eqb_refl in H; discriminate | reflexivity].
Qed.

(** The hex form of a MAC: not blank, no space, and no prefix that could be cut. *)
Definition hex_mac (secret body : string) : string := hex_string (hmac_sha256 (bytes secret) (bytes body)).
Lemma hex_mac_solid secret body : solid (hex_mac secret body) = true.
Proof. apply hex_string_chars; [reflexivity | apply sha256_bytes]. Qed.
Lemma hex_mac_no c secret body : forallb (fun x => negb (Ascii.eqb x c)) hex_digits = true ->
  forall_string (fun x => negb (Ascii.eqb x c)) (hex_mac secret body) = true.
Proof. intros H. apply hex_string_chars; [exact H | apply sha256_bytes]. Qed.
Lemma hex_mac_not_blank secret body : hex_mac secret body <> "".
Proof.
  unfold hex_mac, hmac_sha256. pose proof (sha256_length (map (Z.lxor 0x5c) (hmac_key (bytes secret)) ++ sha256 (map (Z.lxor 0x36) (hmac_key (bytes secret)) ++ bytes body))) as H.
  destruct (sha256 _); [discriminate H | discriminate].
Qed.
