(* ===== verification/GoAes.v ===== *)
(** GoAes: what the storage of gateway secrets uses of Go's crypto/aes,
    crypto/cipher and encoding/base64.  AES-256 as FIPS 197 states it, on lists of
    bytes; GCM as SP 800-38D does, with a 12-byte nonce, a 16-byte tag and no
    additional data; unpadded base64. *)

From S2P Require Import Prelude GoLib GoCrypto.
Local Open Scope string_scope.
Local Open Scope Z_scope.

(** ** AES-256 *)

(** Multiplication in GF(2^8) *)
Definition xtime (b : Z) : Z := if b <? 128 then 2 * b else Z.lxor (2 * b) 0x11b.
Fixpoint gf_mul (k : nat) (a b : Z) : Z :=
  match k with O => 0 | S k' => Z.lxor (if Z.odd b then a else 0) (gf_mul k' (xtime a) (b / 2)) end.
Definition gmul : Z -> Z -> Z := gf_mul 8.
(** b^254, the inverse of b *)
Fixpoint gf_inv (k : nat) (sq acc : Z) : Z :=
  match k with O => acc | S k' => let sq' := gmul sq sq in gf_inv k' sq' (gmul acc sq') end.
Definition rotl8 (b n : Z) : Z := Z.land (Z.lor (Z.shiftl b n) (Z.shiftr b (8 - n))) 255.
Definition sbox_entry (b : Z) : Z :=
  let i := gf_inv 7 b 1 in
  Z.lxor 0x63 (Z.lxor i (Z.lxor (rotl8 i 1) (Z.lxor (rotl8 i 2) (Z.lxor (rotl8 i 3) (rotl8 i 4))))).
Definition sbox_table : list Z := Eval vm_compute in map (fun n => sbox_entry (Z.of_nat n)) (seq 0 256).
Definition sbox (b : Z) : Z := nth (Z.to_nat b) sbox_table 0.

(** The state is 16 bytes, column by column. *)
Definition at_ (l : list Z) (i : nat) : Z := nth i l 0.
Definition xor_block (a b : list Z) : list Z := map (fun i => Z.lxor (at_ a i) (at_ b i)) (seq 0 16).
Definition sub_shift (st : list Z) : list Z :=
  map (fun i => sbox (at_ st i)) [0; 5; 10; 15; 4; 9; 14; 3; 8; 13; 2; 7; 12; 1; 6; 11]%nat.
Definition mix_byte (st : list Z) (i : nat) : Z :=
  let c := (4 * (i / 4))%nat in
  let r k := at_ st (c + (i + k) mod 4) in
  Z.lxor (xtime (r 0%nat)) (Z.lxor (Z.lxor (xtime (r 1%nat)) (r 1%nat)) (Z.lxor (r 2%nat) (r 3%nat))).
Definition mix_columns (st : list Z) : list Z := map (mix_byte st) (seq 0 16).

(** The key schedule; the list holds the words so far, last first. *)
Definition xor_word : list Z -> list Z -> list Z := zip_with Z.lxor.
Definition rcon (n : nat) : list Z := [Nat.iter (n - 1) xtime 1; 0; 0; 0].
Definition next_key_word (i : nat) (ws : list (list Z)) : list Z :=
  let prev := nth 0 ws [] in
  let t := if Nat.eqb (i mod 8) 0 then xor_word (map sbox (drop 1 prev ++ take 1 prev)) (rcon (i / 8))
           else if Nat.eqb (i mod 8) 4 then map sbox prev else prev in
  xor_word (nth 7 ws []) t.
Fixpoint expand_key (n i : nat) (ws : list (list Z)) : list (list Z) :=
  match n with O => ws | S k => expand_key k (S i) (next_key_word i ws :: ws) end.
Definition round_keys (key : list Z) : list (list Z) :=
  map (@concat Z) (groups 4 15 (rev (expand_key 52 8 (rev (groups 4 8 key))))).

Definition aes_round (st k : list Z) : list Z := xor_block (mix_columns (sub_shift st)) k.
Definition aes_with (ks : list (list Z)) (block : list Z) : list Z :=
  xor_block (sub_shift (fold_left aes_round (take 13 (drop 1 ks)) (xor_block block (nth 0 ks [])))) (nth 14 ks []).
Definition aes256 (key : list Z) : list Z -> list Z := aes_with (round_keys key).

(** ** Galois counter mode *)

Fixpoint ghash_mul_go (n : nat) (x v z : Z) : Z :=
  match n with
  | O => z
  | S k => ghash_mul_go k x (if Z.odd v then Z.lxor (v / 2) (Z.shiftl 0xe1 120) else v / 2)
             (if Z.testbit x (Z.of_nat k) then Z.lxor z v else z)
  end.
(** Multiplication in GF(2^128), the first bit being the most significant *)
Definition ghash_mul (x h : Z) : Z := ghash_mul_go 128 x h 0.
(** A block as a number, zeros after the bytes it has *)
Definition block_num (b : list Z) : Z := word_of (b ++ repeat 0 (16 - length b)).
Definition ghash (h : Z) (blocks : list (list Z)) : Z := fold_left (fun y b => ghash_mul (Z.lxor y (block_num b)) h) blocks 0.
Definition block_count (n : nat) : nat := ((n + 15) / 16)%nat.
Definition blocks_of (l : list Z) : list (list Z) := groups 16 (block_count (length l)) l.

Section Gcm.
(** the block cipher under one key *)
Variable cipher : list Z -> list Z.

Definition counter_block (nonce : list Z) (i : nat) : list Z := nonce ++ be_bytes 4 (Z.of_nat i).
Definition key_stream (nonce : list Z) (n : nat) : list Z :=
  concat (map (fun i => cipher (counter_block nonce (i + 2))) (seq 0 (block_count n))).
Definition ctr_crypt (nonce text : list Z) : list Z := zip_with Z.lxor text (key_stream nonce (length text)).
Definition gcm_tag (nonce ciphertext : list Z) : list Z :=
  let h := word_of (cipher (repeat 0 16)) in
  let lengths := (be_bytes 8 0 ++ be_bytes 8 (8 * Z.of_nat (length ciphertext)))%list in
  be_bytes 16 (Z.lxor (ghash h (blocks_of ciphertext ++ [lengths])) (word_of (cipher (counter_block nonce 1)))).

(** gcm.Seal(nil, nonce, plaintext, nil) *)
Definition gcm_seal (nonce plaintext : list Z) : list Z := let c := ctr_crypt nonce plaintext in c ++ gcm_tag nonce c.
(** gcm.Open(nil, nonce, sealed, nil); None is "message authentication failed" *)
Definition gcm_open (nonce sealed : list Z) : option (list Z) :=
  let n := (length sealed - 16)%nat in
  let c := take n sealed in
  if Nat.ltb (length sealed) 16 then None
  else if bool_decide (drop n sealed = gcm_tag nonce c) then Some (ctr_crypt nonce c) else None.
End Gcm.

(** ** Unpadded base64 *)

Definition b64_alphabet : string := "ABCDEFGHIJKLMNOPQRSTUVWXYZabcdefghijklmnopqrstuvwxyz0123456789+/".
Definition b64_char (i : Z) : ascii := default "A"%char (String.get (Z.to_nat i) b64_alphabet).
Fixpoint index_of (c : ascii) (s : string) (i : Z) : option Z :=
  match s with EmptyString => None | String x s' => if Ascii.eqb c x then Some i else index_of c s' (i + 1) end.
Definition b64_val (c : ascii) : option Z := index_of c b64_alphabet 0.

(** base64.RawStdEncoding.EncodeToString *)
Fixpoint b64_encode (l : list Z) : string :=
  match l with
  | a :: b :: c :: r =>
      String (b64_char (a / 4)) (String (b64_char (a mod 4 * 16 + b / 16))
        (String (b64_char (b mod 16 * 4 + c / 64)) (String (b64_char (c mod 64)) (b64_encode r))))
  | [a; b] => String (b64_char (a / 4)) (String (b64_char (a mod 4 * 16 + b / 16)) (String (b64_char (b mod 16 * 4)) ""))
  | [a] => String (b64_char (a / 4)) (String (b64_char (a mod 4 * 16)) "")
  | [] => ""
  end.
Fixpoint b64_bytes (l : list Z) : option (list Z) :=
  match l with
  | i :: j :: k :: m :: r =>
      t ← b64_bytes r; Some ((i * 4 + j / 16) :: (j mod 16 * 16 + k / 4) :: (k mod 4 * 64 + m) :: t)
  | [i; j; k] => Some [i * 4 + j / 16; j mod 16 * 16 + k / 4]
  | [i; j] => Some [i * 4 + j / 16]
  | [_] => None
  | [] => Some []
  end.
Definition newline (c : ascii) : bool := Ascii.eqb c "010" || Ascii.eqb c "013".
(** base64.RawStdEncoding.DecodeString: carriage returns and newlines are skipped *)
Definition b64_decode (s : string) : option (list Z) :=
  vs ← mapM b64_val (String.list_ascii_of_string (filter_string (fun c => negb (newline c)) s));
  b64_bytes vs.

Definition string_of_bytes (l : list Z) : string := String.string_of_list_ascii (map (fun b => ascii_of_N (Z.to_N b)) l).

(** The AES-256 example of FIPS 197, and test cases 13 and 14 of the GCM proposal. *)
Example aes256_fips197 :
  hex_string (aes256 (map Z.of_nat (seq 0 32)) (map (fun n => 17 * Z.of_nat n) (seq 0 16))) = "8ea2b7ca516745bfeafc49904b496089".
Proof. vm_compute. reflexivity. Qed.
Example gcm_case13 : hex_string (gcm_seal (aes256 (repeat 0 32)) (repeat 0 12) []) = "530f8afbc74536b9a963b4f1c4cb738b".
Proof. vm_compute. reflexivity. Qed.
Example gcm_case14 : hex_string (gcm_seal (aes256 (repeat 0 32)) (repeat 0 12) (repeat 0 16))
  = "cea7403d4d606b6e074ec5d3baf39d18d0d1c8a799996bf0265b98b5d48ab919".
Proof. vm_compute. reflexivity. Qed.

(** ** Everything is bytes *)

Lemma byte_lxor a b : byte a -> byte b -> byte (Z.lxor a b).
Proof.
  unfold byte. intros Ha Hb. split; [apply Z.lxor_nonneg; lia|].
  assert (H : Z.lxor a b = Z.lxor a b mod 2 ^ 8); [|rewrite H; apply Z.mod_pos_bound; lia].
  apply Z.bits_inj'. intros i Hi. destruct (Z.lt_ge_cases i 8).
  - rewrite Z.mod_pow2_bits_low by lia. reflexivity.
  - rewrite Z.mod_pow2_bits_high by lia. rewrite Z.lxor_spec.
    rewrite <- (Z.mod_small a (2 ^ 8)), <- (Z.mod_small b (2 ^ 8)) by lia. rewrite !Z.mod_pow2_bits_high by lia. reflexivity.
Qed.
Lemma byte_xtime b : byte b -> byte (xtime b).
Proof.
  intros Hb. assert (E : all_below 256 0 (fun b => (0 <=? xtime b) && (xtime b <? 256)) = true) by (vm_compute; reflexivity).
  apply (all_below_spec _ _ _ b) in E; unfold byte in *; lia.
Qed.

Lemma Forall_nth_byte l i : Forall byte l -> byte (nth i l 0).
Proof.
  intros H. destruct (nth_in_or_default i l 0) as [Hi|E]; [rewrite List.Forall_forall in H; auto | rewrite E; unfold byte; lia].
Qed.
Lemma byte_sbox b : byte (sbox b).
Proof.
  apply Forall_nth_byte. apply List.Forall_forall. intros x Hx.
  assert (H : forallb (fun b => (0 <=? b) && (b <? 256)) sbox_table = true) by (vm_compute; reflexivity).
  rewrite forallb_forall in H. apply H in Hx. unfold byte. lia.
Qed.
Lemma bytes_zip_xor a b : Forall byte a -> Forall byte b -> Forall byte (zip_with Z.lxor a b).
Proof.
  intros Ha. revert b. induction Ha as [|x a Hx _ IH]; intros b Hb; [constructor|].
  destruct Hb as [|y b Hy Hb]; cbn; constructor; [now apply byte_lxor | now apply IH].
Qed.

Lemma xor_block_bytes a b : Forall byte a -> Forall byte b -> Forall byte (xor_block a b).
Proof.
  intros Ha Hb. unfold xor_block. apply List.Forall_forall. intros x (i & <- & _)%in_map_iff.
  apply byte_lxor; now apply Forall_nth_byte.
Qed.
Lemma sub_shift_bytes st : Forall byte (sub_shift st).
Proof. apply List.Forall_forall. intros x (i & <- & _)%in_map_iff. apply byte_sbox. Qed.

Lemma next_key_word_bytes i ws : Forall (Forall byte) ws -> Forall byte (next_key_word i ws).
Proof.
  intros H. assert (Hw : forall n, Forall byte (nth n ws [])).
  { intros n. destruct (nth_in_or_default n ws []) as [Hn| ->]; [rewrite List.Forall_forall in H; auto | constructor]. }
  assert (Hr : forall n, Forall byte (rcon n)).
  { intros n. unfold rcon. constructor; [|repeat constructor; unfold byte; lia].
    induction (n - 1)%nat; [unfold byte; cbn; lia | now apply byte_xtime]. }
  assert (Hs : forall l, Forall byte (map sbox l)).
  { intros l. apply List.Forall_forall. intros x (b & <- & _)%in_map_iff. apply byte_sbox. }
  unfold next_key_word. apply bytes_zip_xor; [apply Hw|].
  destruct (Nat.eqb _ _); [apply bytes_zip_xor; auto|]. destruct (Nat.eqb _ _); auto.
Qed.
Lemma expand_key_bytes n i ws : Forall (Forall byte) ws -> Forall (Forall byte) (expand_key n i ws).
Proof.
  revert i ws. induction n as [|n IH]; intros i ws H; [exact H|]. cbn [expand_key].
  apply IH. constructor; [now apply next_key_word_bytes | exact H].
Qed.

Lemma groups_forall {A} (P : A -> Prop) k n l : Forall P l -> Forall (Forall P) (groups k n l).
Proof.
  revert l. induction n as [|n IH]; intros l H; [constructor|]. cbn. constructor; [now apply Forall_take | apply IH; now apply Forall_drop].
Qed.
Lemma round_keys_bytes key : Forall byte key -> Forall (Forall byte) (round_keys key).
Proof.
  intros H. unfold round_keys. apply List.Forall_forall. intros k (ws & <- & Hws)%in_map_iff.
  apply List.Forall_concat. revert ws Hws. rewrite <- List.Forall_forall. apply groups_forall.
  apply List.Forall_rev, expand_key_bytes, List.Forall_rev, groups_forall. exact H.
Qed.
Lemma aes256_bytes key block : Forall byte key -> Forall byte (aes256 key block).
Proof.
  intros H. unfold aes256, aes_with. apply xor_block_bytes; [apply sub_shift_bytes|].
  pose proof (round_keys_bytes key H) as Hk. destruct (nth_in_or_default 14 (round_keys key) []) as [Hn| ->]; [|constructor].
  rewrite List.Forall_forall in Hk. auto.
Qed.
Lemma aes256_length key block : length (aes256 key block) = 16%nat.
Proof. reflexivity. Qed.

(** ** Opening what was sealed *)

Lemma lxor_twice a k : Z.lxor (Z.lxor a k) k = a.
Proof. now rewrite Z.lxor_assoc, Z.lxor_nilpotent, Z.lxor_0_r. Qed.
Lemma zip_xor_twice (text ks : list Z) : (length text <= length ks)%nat -> zip_with Z.lxor (zip_with Z.lxor text ks) ks = text.
Proof.
  revert ks. induction text as [|x text IH]; intros [|k ks] H; cbn in *; [reflexivity | reflexivity | lia |].
  rewrite lxor_twice, IH by lia. reflexivity.
Qed.

Section GcmLaws.
Variable cipher : list Z -> list Z.
Hypothesis cipher_length : forall b, length (cipher b) = 16%nat.

Lemma key_stream_length nonce n : (n <= length (key_stream cipher nonce n))%nat.
Proof.
  assert (H : forall l, length (concat (map (fun i => cipher (counter_block nonce (i + 2))) l)) = (16 * length l)%nat).
  { induction l as [|i l IH]; [reflexivity|]. cbn [map concat length]. rewrite length_app, IH, cipher_length. lia. }
  unfold key_stream. rewrite H, length_seq. unfold block_count. pose proof (Nat.div_mod_eq (n + 15) 16). pose proof (Nat.mod_upper_bound (n + 15) 16). lia.
Qed.
Lemma ctr_crypt_length nonce text : length (ctr_crypt cipher nonce text) = length text.
Proof. unfold ctr_crypt. rewrite length_zip_with. pose proof (key_stream_length nonce (length text)). lia. Qed.
Lemma ctr_crypt_twice nonce text : ctr_crypt cipher nonce (ctr_crypt cipher nonce text) = text.
Proof. unfold ctr_crypt at 1. rewrite ctr_crypt_length. apply zip_xor_twice, key_stream_length. Qed.
Lemma gcm_open_seal nonce text : gcm_open cipher nonce (gcm_seal cipher nonce text) = Some text.
Proof.
  assert (Ht : forall c, length (gcm_tag cipher nonce c) = 16%nat) by reflexivity.
  unfold gcm_open, gcm_seal. set (c := ctr_crypt cipher nonce text). rewrite length_app, Ht.
  replace (length c + 16 - 16)%nat with (length c) by lia. rewrite take_app_length, drop_app_length.
  rewrite bool_decide_true by reflexivity. replace (Nat.ltb _ _) with false by (symmetry; apply Nat.ltb_ge; lia).
  unfold c. now rewrite ctr_crypt_twice.
Qed.
Lemma gcm_seal_bytes nonce text : (forall b, Forall byte (cipher b)) -> Forall byte text -> Forall byte (gcm_seal cipher nonce text).
Proof.
  intros Hc Ht. unfold gcm_seal. apply Forall_app. split; [|apply be_bytes_byte]. apply bytes_zip_xor; [exact Ht|].
  apply List.Forall_concat. apply List.Forall_forall. intros x (i & <- & _)%in_map_iff. apply Hc.
Qed.
End GcmLaws.

(** ** Decoding what was encoded *)

Lemma bytes_of_string s : Forall byte (bytes s).
Proof.
  apply List.Forall_forall. intros b (c & <- & _)%in_map_iff. unfold byte. pose proof (N_ascii_bounded c). lia.
Qed.
Lemma string_of_bytes_of_string s : string_of_bytes (bytes s) = s.
Proof.
  unfold string_of_bytes, bytes. rewrite map_map. rewrite <- (String.string_of_list_ascii_of_string s) at 2. f_equal.
  rewrite <- (map_id (String.list_ascii_of_string s)) at 2. apply map_ext. intros c. now rewrite N2Z.id, ascii_N_embedding.
Qed.

Definition b64_chars : list ascii := map (fun n => b64_char (Z.of_nat n)) (seq 0 64).
Lemma b64_char_ok i : 0 <= i < 64 -> b64_val (b64_char i) = Some i /\ In (b64_char i) b64_chars.
Proof.
  intros H. assert (E : all_below 64 0 (fun i => bool_decide (b64_val (b64_char i) = Some i)) = true) by (vm_compute; reflexivity).
  apply (all_below_spec _ _ _ i) in E; [|lia]. apply bool_decide_eq_true in E. split; [exact E|].
  apply in_map_iff. exists (Z.to_nat i). split; [now rewrite Z2Nat.id by lia | apply in_seq; lia].
Qed.

(** Lists three at a time, as the encoding goes. *)
Lemma list_ind3 {A} (P : list A -> Prop) :
  P [] -> (forall a, P [a]) -> (forall a b, P [a; b]) -> (forall a b c r, P r -> P (a :: b :: c :: r)) -> forall l, P l.
Proof. intros H0 H1 H2 H3. fix IH 1. intros [|a [|b [|c r]]]; [exact H0 | apply H1 | apply H2 | apply H3, IH]. Qed.

(** The six-bit groups of a byte string. *)
Fixpoint sextets (l : list Z) : list Z :=
  match l with
  | a :: b :: c :: r => a / 4 :: a mod 4 * 16 + b / 16 :: b mod 16 * 4 + c / 64 :: c mod 64 :: sextets r
  | [a; b] => [a / 4; a mod 4 * 16 + b / 16; b mod 16 * 4]
  | [a] => [a / 4; a mod 4 * 16]
  | [] => []
  end.
Lemma b64_encode_sextets l : b64_encode l = String.string_of_list_ascii (map b64_char (sextets l)).
Proof. induction l as [| | |a b c r IH] using list_ind3; cbn [b64_encode sextets map String.string_of_list_ascii]; [reflexivity..|]. now rewrite IH. Qed.
Ltac bytes_lia := unfold byte in *; Z.div_mod_to_equations; lia.
Lemma sextets_range l : Forall byte l -> Forall (fun i => 0 <= i < 64) (sextets l).
Proof.
  induction l as [|a|a b|a b c r IH] using list_ind3; intros H; cbn [sextets];
    repeat match goal with E : Forall byte (_ :: _) |- _ => apply Forall_cons_1 in E; destruct E end;
    repeat (apply List.Forall_cons; [bytes_lia|]); auto using Forall_nil_2.
Qed.
Lemma b64_bytes_sextets l : Forall byte l -> b64_bytes (sextets l) = Some l.
Proof.
  induction l as [|a|a b|a b c r IH] using list_ind3; intros H; cbn [sextets b64_bytes]; [reflexivity|..];
    repeat match goal with E : Forall byte (_ :: _) |- _ => apply Forall_cons_1 in E; destruct E end.
  - do 2 f_equal; bytes_lia.
  - do 2 f_equal; [bytes_lia|]. f_equal. bytes_lia.
  - rewrite IH by assumption. cbn. do 2 f_equal; [bytes_lia|]. f_equal; [bytes_lia|]. f_equal. bytes_lia.
Qed.

Lemma b64_encode_chars (p : ascii -> bool) l : forallb p b64_chars = true -> Forall byte l -> forall_string p (b64_encode l) = true.
Proof.
  intros Hp Hl. rewrite b64_encode_sextets. rewrite forallb_forall in Hp.
  induction (sextets_range l Hl) as [|i r Hi _ IH]; [reflexivity|]. cbn [map String.string_of_list_ascii forall_string].
  rewrite IH, andb_true_r. apply Hp, b64_char_ok, Hi.
Qed.
Lemma b64_round_trip l : Forall byte l -> b64_decode (b64_encode l) = Some l.
Proof.
  intros Hl. unfold b64_decode. rewrite filter_string_all by (now apply b64_encode_chars).
  rewrite b64_encode_sextets, String.list_ascii_of_string_of_list_ascii.
  assert (E : mapM b64_val (map b64_char (sextets l)) = Some (sextets l)).
  { induction (sextets_range l Hl) as [|i r Hi _ IH]; [reflexivity|]. cbn [map mapM]. rewrite (proj1 (b64_char_ok i Hi)). cbn. now rewrite IH. }
  rewrite E. cbn. now apply b64_bytes_sextets.
Qed.
