(* ===== verification/TaxInvoice.v ===== *)
(** TaxInvoice: the GST tax invoice of a restaurant bill, or of one customer's
    share of it (internal/handler/pos_invoice.go, BillInvoice).  The model ends
    where the data is handed to the HTML template; the PNG of the QR code and
    the order of DISTINCT rows are parameters. *)

From S2P Require Import Prelude GoLib GoText Schema Binary64 World Auth GoAes AmountWords DineIn Billing BillSplit.
From Stdlib Require Import QArith.
Local Open Scope string_scope.
Local Open Scope Z_scope.

Record invoiceLine := {
  Particulars : string; HSN : string; Gross : Q; Discount : Q; Net : Q;
  CGSTRate : Q; CGSTAmt : Q; SGSTRate : Q; SGSTAmt : Q; Total : Q }.

Record invoiceData := {
  LegalName : string; RestaurantName : string; RestaurantAddress : string; GSTIN : string; FSSAI : string;
  InvoiceNo : string; InvoiceDate : string;
  CustomerName : string; TableLabel : string; PlaceOfSupply : string; DefaultHSN : string; ServiceDesc : string;
  Lines : list invoiceLine;
  ItemsGross : Q; ItemsDiscount : Q; ItemsNet : Q; ItemsCGST : Q; ItemsSGST : Q; ItemsTotal : Q;
  HasTip : bool; TipAmount : Q;
  TotalNet : Q; TotalCGST : Q; TotalSGST : Q; GrandTotal : Q;
  Currency : string; AmountWords : string; OrderRef : string; SettledDate : string; PaymentMode : string;
  StatusLabel : string; QRImage : string }.

(** qrcode.Encode(payload, Medium, 180), None when it fails, and the order in
    which the server returns the rows of SELECT DISTINCT. *)
Class InvoiceLib := { qr_png : string -> option (list Z); distinct_rows : list string -> list string }.

(** ** Text *)

Definition derefOr (s : option string) (def : string) : string :=
  match s with Some v => if TrimSpace v !=s "" then v else def | None => def end.
Definition tableLabel (num : string) : string := if TrimSpace num =s "" then "Dine-In" else "Table " ++ num.
(** time.Format("02/01/2006") *)
Definition fmt_dmy (t : Time) : string := fmt_0d 2 (Day t) ++ "/" ++ fmt_0d 2 (Month t) ++ "/" ++ fmt_0d 4 (Year t).
(** base64.StdEncoding.EncodeToString *)
Definition b64_std (l : list Z) : string :=
  b64_encode l ++ (match Nat.modulo (length l) 3 with O => "" | S O => "==" | _ => "=" end).
Definition line_break : string := String "010" "".

(** a column that is there and not blank *)
Definition filled (a : option string) : bool := match a with Some s => TrimSpace s !=s "" | None => false end.
Definition coalesce (a b : option string) : option string := if filled a then a else b.
Definition settingsStr (settings : list (string * string)) (key : string) : string :=
  match List.find (fun p => fst p =s key) settings with Some (_, v) => TrimSpace v | None => "" end.
Definition pick (settings : list (string * string)) (col : option string) (settingsKey def : string) : string :=
  if filled col then TrimSpace (opt_str col)
  else let v := settingsStr settings settingsKey in if v !=s "" then v else def.

Definition StatusLabel_of (status : string) : string :=
  if status =s "paid" then "PAID" else if status =s "partially_paid" then "PARTIALLY PAID"
  else if status =s "void" then "VOID" else "DUE".

(** ** The rows read *)

(** dining_sessions ds LEFT JOIN restaurant_tables rt: number, guest, billed_at, table *)
Definition session_context {env : Env} (id : uuid) (d : DB) : option (string * option string * option Time * string) :=
  s ← find_row (fun s => ueq (ds_id s) id) (sessions d);
  Some (ds_session_number s, ds_guest_name s, scan_ts <$> ds_billed_at s,
        match find_row (fun t => ueq (rt_id t) (ds_table_id s)) (tables d) with Some t => rt_table_number t | None => "" end).
(** name, address, settings and the columns of migration 010 *)
Definition hotel_of (hid : uuid) (d : DB) : option (string * option string * list (string * string) * GstIdentity) :=
  h ← find_row (fun h => ueq (ho_id h) hid) (hotels d); Some (ho_name h, ho_address h, ho_settings h, ho_identity h).
(** bills bl JOIN outlets o *)
Definition outlet_of (id : uuid) (d : DB) : option GstIdentity :=
  b ← find_row (bill_id id) (bills d); o ← bl_outlet_id b;
  ou_identity <$> find_row (fun x => ueq (ou_id x) o) (outlets d).

(** What the variables of an ignored query hold: their zero values. *)
Definition read_or {A} (zero : A) (r : GoErr + A) : A := match r with inr a => a | inl _ => zero end.

(** ** Lines *)

Section Lines.
Context {env : Env}.

(** The discount of the bill falls on the lines by their gross. *)
Definition bill_line (b : billRow) (halfRate grossSum : Q) (defaultHSN : string) (ki : KotItemRow) : invoiceLine :=
  let gross := num_dec (ki_line_total ki) in
  let disc := if flt 0 grossSum && flt 0 (b_DiscountAmount b)
              then round2 (fmul (b_DiscountAmount b) (fdiv gross grossSum)) else 0%Q in
  let net := round2 (fsub gross disc) in
  let cgst := round2 (fdiv (fmul net halfRate) 100) in
  {| Particulars := fmt_d (ki_quantity ki) ++ " x " ++ ki_item_name ki;
     HSN := if filled (ki_hsn_code ki) then TrimSpace (opt_str (ki_hsn_code ki)) else defaultHSN;
     Gross := gross; Discount := disc; Net := net; CGSTRate := halfRate; CGSTAmt := cgst; SGSTRate := halfRate;
     SGSTAmt := cgst; Total := round2 (fadd (fadd net cgst) cgst) |}.

(** One customer's fraction of a line. *)
Definition scale_line (halfRate frac : Q) (ln : invoiceLine) : invoiceLine :=
  let gross := round2 (fmul (Gross ln) frac) in
  let disc := round2 (fmul (Discount ln) frac) in
  let net := round2 (fsub gross disc) in
  let cgst := round2 (fdiv (fmul net halfRate) 100) in
  ln <| Gross := gross |> <| Discount := disc |> <| Net := net |> <| CGSTAmt := cgst |> <| SGSTAmt := cgst |>
     <| Total := round2 (fadd (fadd net cgst) cgst) |>.

Definition column (f : invoiceLine -> Q) (lines : list invoiceLine) : Q := round2 (total_of (map f lines)).

(** The CGST and SGST of the Total Value row. *)
Definition tax_halves (tax : Q) : Q * Q := let cgst := round2 (fdiv tax 2) in (cgst, round2 (fsub tax cgst)).
End Lines.

Section TaxInvoice.
Context {env : Env} {jwt : Jwt} {lib : InvoiceLib} (secret : string).

Definition invoicePaymentMode {E} (billID : uuid) : M E string :=
  r ← attempt (query Pool (fun d => map bp_method
        (select (fun p => ueq (bp_bill_id p) billID && (bp_status p =s "completed")) (bill_payments d))));
  mret (match r with
        | inl _ => "digital mode"
        | inr methods =>
            let modes := map ToUpper (distinct_rows methods) in
            if Nat.eqb (length modes) 0 then "digital mode" else Join " + " modes
        end).

(** ?split=<id>: the share, and how many there are *)
Definition load_split (c : Ctx) (id : uuid) (total : Q) : M (Resp PosBody) (option (billSplitRow * nat)) :=
  let sid := c_query c "split" in
  if sid =s "" then mret None
  else
    splitID ← of_option (uuid_parse sid) (RespError 400 "invalid split id");
    splits ← failing (loadBillSplits id total) 500 "failed to load splits";
    s ← of_option (List.find (fun s => ueq (sp_ID s) splitID) splits) (RespError 404 "split not found");
    mret (Some (s, length splits)).

Definition qr_image (data : invoiceData) : string :=
  let payload := "Tax Invoice: " ++ InvoiceNo data ++ line_break ++ "Date: " ++ InvoiceDate data ++ line_break
    ++ "Billed To: " ++ CustomerName data ++ line_break ++ "Amount: " ++ Currency data ++ " " ++ fmt_2f (GrandTotal data)
    ++ line_break ++ "GSTIN: " ++ GSTIN data ++ line_break ++ "Issued by: " ++ RestaurantName data in
  match qr_png payload with Some png => "data:image/png;base64," ++ b64_std png | None => "" end.

(** The figures of the whole bill. *)
Definition whole_invoice (b : billRow) (ss : string * option string * option Time * string)
  (ho : string * option string * list (string * string) * GstIdentity) (ou : GstIdentity) (now : Time) (mode : string)
  (defaultHSN : string) (lines : list invoiceLine) : invoiceData :=
  let '(sessionNumber, guestName, billedAt, tableNumber) := ss in
  let '(hotelName, hotelAddr, settings, col) := ho in
  let pick := pick settings in
  let invDate := default now billedAt in
  let '(totalCGST, totalSGST) := tax_halves (b_TaxAmount b) in
  {| LegalName := pick (coalesce (gi_legal ou) (gi_legal col)) "legal_name" hotelName;
     RestaurantName := pick (coalesce (gi_name ou) (gi_name col)) "restaurant_name" hotelName;
     RestaurantAddress := pick (coalesce (gi_address ou) (gi_address col)) "restaurant_address" (opt_str hotelAddr);
     GSTIN := pick (coalesce (gi_gstin ou) (gi_gstin col)) "gstin" "—";
     FSSAI := pick (coalesce (gi_fssai ou) (gi_fssai col)) "fssai" "—";
     InvoiceNo := b_BillNumber b; InvoiceDate := fmt_dmy invDate;
     CustomerName := derefOr guestName "Walk-in Guest"; TableLabel := tableLabel tableNumber;
     PlaceOfSupply := pick (coalesce (gi_place ou) (gi_place col)) "place_of_supply" (pick (gi_state col) "state" "—");
     DefaultHSN := defaultHSN; ServiceDesc := "Restaurant Service"; Lines := lines;
     ItemsGross := column Gross lines; ItemsDiscount := column Discount lines; ItemsNet := column Net lines;
     ItemsCGST := column CGSTAmt lines; ItemsSGST := column SGSTAmt lines; ItemsTotal := column Total lines;
     HasTip := flt 0 (b_TipAmount b); TipAmount := b_TipAmount b;
     TotalNet := round2 (fsub (b_Subtotal b) (b_DiscountAmount b)); TotalCGST := totalCGST; TotalSGST := totalSGST;
     GrandTotal := b_TotalAmount b; Currency := b_Currency b; AmountWords := amountInWords (b_TotalAmount b) (b_Currency b);
     OrderRef := firstNonEmpty [sessionNumber; b_BillNumber b]; SettledDate := fmt_date invDate; PaymentMode := mode;
     StatusLabel := ""; QRImage := "" |}.

(** What a share's invoice says instead. *)
Definition split_invoice (b : billRow) (s : billSplitRow) (splitCount : nat) (frac : Q) (data : invoiceData) : invoiceData :=
  let '(totalCGST, totalSGST) := tax_halves (fmul (b_TaxAmount b) frac) in
  let tip := round2 (fmul (b_TipAmount b) frac) in
  data <| InvoiceNo := b_BillNumber b ++ "/" ++ fmt_d (sp_SplitNo s) |> <| CustomerName := sp_CustomerName s |>
    <| ServiceDesc := "Restaurant Service (split " ++ fmt_d (sp_SplitNo s) ++ " of " ++ fmt_d (Z.of_nat splitCount) ++ ")" |>
    <| TipAmount := tip |> <| HasTip := flt 0 tip |>
    <| TotalNet := round2 (fmul (fsub (b_Subtotal b) (b_DiscountAmount b)) frac) |>
    <| TotalCGST := totalCGST |> <| TotalSGST := totalSGST |> <| GrandTotal := sp_Amount s |>
    <| AmountWords := amountInWords (sp_Amount s) (b_Currency b) |>.

(** Everything after the rows are read. *)
Definition invoice_of (b : billRow) (split : option (billSplitRow * nat)) (ss : string * option string * option Time * string)
  (ho : string * option string * list (string * string) * GstIdentity) (ou : GstIdentity) (raws : list KotItemRow)
  (now : Time) (mode : string) : invoiceData :=
  let grossSum := total_of (map (fun ki => num_dec (ki_line_total ki)) raws) in
  let defaultHSN := pick (snd (fst ho)) (coalesce (gi_hsn ou) (gi_hsn (snd ho))) "hsn_code" "996331" in
  let halfRate := round2 (fdiv (b_TaxRate b) 2) in
  let lines := map (bill_line b halfRate grossSum defaultHSN) raws in
  let data :=
    match split with
    | None => whole_invoice b ss ho ou now mode defaultHSN lines
    | Some (s, n) =>
        let frac := if flt 0 (b_TotalAmount b) then fdiv (sp_Amount s) (b_TotalAmount b) else 1%Q in
        split_invoice b s n frac
          (whole_invoice b ss ho ou now mode defaultHSN (map (scale_line halfRate frac) lines))
    end in
  let data := data <| StatusLabel := StatusLabel_of (b_Status b) |> in
  data <| QRImage := qr_image data |>.

Definition BillInvoice (c : Ctx) : M (Resp PosBody) invoiceData :=
  id ← param_id c "id" "invalid bill id";
  let hid := hotelID secret c in
  b ← load_bill Pool hid id;
  split ← load_split c id (b_TotalAmount b);
  ss ← attempt (query_row Pool (session_context (b_SessionID b)));
  ho ← attempt (query_row Pool (hotel_of hid));
  ou ← attempt (query_row Pool (outlet_of id));
  raws ← failing (query Pool (fun d => order_by (receipt_order d) (select (billable (b_SessionID b) d) (kot_items d))))
    500 "failed to load items";
  now ← time_now;
  mode ← invoicePaymentMode id;
  mret (invoice_of b split (read_or ("", None, None, "") ss) (read_or ("", None, [], no_identity) ho)
          (read_or no_identity ou) raws now mode).
End TaxInvoice.
