(* ===== verification/InvoiceSpec.v ===== *)
(** InvoiceSpec: what a tax invoice adds up to: the tax halves, the share of the
    discount each line carries, the columns, the amount in words, and the
    invoices of a split bill. *)

From S2P Require Import Prelude GoLib GoText Schema Binary64 World Auth Guards Pricing AmountWords DineIn Billing BillSplit Restaurant PosInvariant BillSpec SplitSpec TaxInvoice.
From Stdlib Require Import QArith Qabs Lqa.
Local Open Scope string_scope.
Local Open Scope Z_scope.

(** ** Halves *)

Lemma half_cents t : 0 <= t <= 10 ^ 12 ->
  exists a, round2 (fdiv (cents t) 2) = cents a /\ 0 <= a /\ Z.abs (2 * a - t) <= 1.
Proof.
  intros Ht. set (x := fdiv (cents t) 2). exists (to_cents x). split; [apply round2_to_cents|].
  assert (Hx0 : (0 <= x)%Q) by (apply fdiv_nonneg; [apply cents_nonneg; lia | discriminate]).
  pose proof (proj1 (near_iff 1 (cents t) t) (cents_near t ltac:(unfold MAXC; lia))) as [Hl Hu]. change (inject_Z 1) with 1%Q in *.
  assert (Hti : (0 <= inject_Z t /\ inject_Z t <= 1000000000000)%Q).
  { split; [change 0%Q with (inject_Z 0) | change 1000000000000%Q with (inject_Z (10 ^ 12))]; apply inject_le; lia. }
  pose proof (cents_nonneg t ltac:(lia)) as Hc0.
  assert (Hq : (0 <= cents t / 2)%Q) by (unfold Qdiv; change (/ 2)%Q with (1 # 2)%Q; lra).
  destruct (rnd_nonneg_bounds (cents t / 2) Hq) as [H1 H2]. change (rnd (cents t / 2)) with x in *.
  unfold Qdiv in H1, H2. change (/ 2)%Q with (1 # 2)%Q in *.
  assert (Hu0 : (0 <= ulp53 /\ ulp53 <= 1 # 1000000000000000)%Q) by (split; vm_compute; discriminate).
  assert (Ht0 : (0 <= tiny /\ tiny <= 1 # 1000000000)%Q) by (split; vm_compute; discriminate).
  assert (Hm : (cents t * (1 # 2) * ulp53 <= 1 # 10000)%Q).
  { apply (Qle_trans _ (10000000001 * (1 # 1000000000000000))%Q); [|vm_compute; discriminate]. apply Qmult_le_compat_nonneg; split; lra. }
  pose proof (to_cents_near_any x) as He. rewrite (Qabs_pos x Hx0) in He. apply Qabs_le_iff in He as [He1 He2].
  change (1 # 2 ^ 40)%Q with (1 # 1099511627776)%Q in *.
  assert (E : (inject_Z (2 * to_cents x) == 2 * inject_Z (to_cents x))%Q) by (rewrite inject_Z_mult; reflexivity).
  split.
  - apply Z.lt_succ_r. rewrite Zlt_Qlt. unfold Z.succ. rewrite inject_Z_plus. change (inject_Z 0) with 0%Q. change (inject_Z 1) with 1%Q. lra.
  - assert (H : -2 < 2 * to_cents x - t < 2).
    { rewrite !Zlt_Qlt. unfold Z.sub. rewrite inject_Z_plus, inject_Z_opp, E. change (inject_Z (-2)) with (-2)%Q. change (inject_Z 2) with 2%Q.
      split; lra. }
    lia.
Qed.

(** The two halves of a tax are its total, and a paisa apart at most. *)
Lemma tax_halves_cents t : 0 <= t <= 10 ^ 12 ->
  exists a b, tax_halves (cents t) = (cents a, cents b) /\ a + b = t /\ Z.abs (a - b) <= 1.
Proof.
  intros Ht. destruct (half_cents t Ht) as (a & E & Ha & Hd). exists a, (t - a).
  unfold tax_halves. rewrite E, round2_sub by (unfold MAXC; lia). split; [reflexivity | lia].
Qed.

(** ** The discount of a line *)

Lemma mult_bounds (a b m : Q) : (- m <= a -> a <= m -> 0 <= b -> - (m * b) <= a * b /\ a * b <= m * b)%Q.
Proof. intros. split; nra. Qed.

(** The exact share and the computed quotient, before they are rounded. *)
Lemma share_close (cD x S D' g' G' w u : Q) :
  (D' <= G' -> g' <= G' -> 0 <= D' -> 0 <= g' -> 1 # 100 <= G' ->
   - (1 # 40000000) <= cD - D' -> cD - D' <= 1 # 40000000 -> - (1 # 40000000) <= x - g' -> x - g' <= 1 # 40000000 ->
   - (1 # 20000) <= S - G' -> S - G' <= 1 # 20000 -> 0 <= x ->
   w * G' == D' * g' -> u * S == x -> 0 <= w -> w <= D' ->
   - (6 # 100000) <= cD * u - w /\ cD * u - w <= 6 # 100000)%Q.
Proof.
  intros HD Hg HD0 Hg0 HG Hc1 Hc2 Hx1 Hx2 HS1 HS2 Hx0 Hw Hu Hw0 HwD.
  assert (HS : (0 < S)%Q) by lra.
  assert (E : ((cD * u - w) * S == (cD - D') * x + D' * (x - g') + w * (G' - S))%Q).
  { transitivity (cD * (u * S) + w * (G' - S) - w * G')%Q; [ring | rewrite Hu, Hw; ring]. }
  destruct (mult_bounds _ x _ Hc1 Hc2 Hx0) as [A1 A2]. destruct (mult_bounds _ D' _ Hx1 Hx2 HD0) as [B1 B2].
  destruct (mult_bounds (G' - S)%Q w (1 # 20000) ltac:(lra) ltac:(lra) Hw0) as [C1 C2].
  rewrite (Qmult_comm (x - g')) in B1, B2. rewrite (Qmult_comm (G' - S)) in C1, C2.
  split; apply (Qmult_le_r _ _ S HS); rewrite E; lra.
Qed.

(** The roundings of a quotient and of its product with an amount. *)
Lemma products_rounded (cD u : Q) : (0 <= cD -> cD <= 100000001 -> 0 <= u -> u <= 102 # 100 ->
  0 <= rnd (cD * rnd u) /\ - (1 # 1000000) <= rnd (cD * rnd u) - cD * u /\ rnd (cD * rnd u) - cD * u <= 1 # 1000000)%Q.
Proof.
  intros HcD HcD1 Hu0 Hu1.
  assert (Hul : (0 <= ulp53 /\ ulp53 <= 2 # 10000000000000000)%Q) by (split; vm_compute; discriminate).
  assert (Hti : (0 <= tiny /\ tiny <= 1 # 10000000000000000)%Q) by (split; vm_compute; discriminate).
  destruct (rnd_nonneg_bounds u Hu0) as [Q1 Q2].
  assert (Hq0 : (0 <= rnd u)%Q) by (now apply rnd_nonneg). set (q := rnd u) in *.
  assert (Huu : (u * ulp53 <= (102 # 100) * (2 # 10000000000000000))%Q) by (apply Qmult_le_compat_nonneg; split; lra).
  destruct (mult_bounds (q - u) cD (4 # 10000000000000000) ltac:(lra) ltac:(lra) HcD) as [H1 H2].
  assert (Hcu : (cD * u <= 100000001 * (102 # 100))%Q) by (apply Qmult_le_compat_nonneg; split; lra).
  assert (Hcq0 : (0 <= cD * q)%Q) by (now apply Qmult_le_0_compat).
  destruct (rnd_nonneg_bounds (cD * q) Hcq0) as [P1 P2].
  assert (Hcqu : (cD * q * ulp53 <= 110000000 * (2 # 10000000000000000))%Q) by (apply Qmult_le_compat_nonneg; split; lra).
  split; [now apply rnd_nonneg|]. split; lra.
Qed.

(** D shared in the proportion g to G, as the code computes it. *)
Lemma share_computed D g G S n (w := (inject_Z D * inject_Z g / inject_Z G * (1 # 100))%Q) :
  0 <= D <= G -> 0 <= g <= G -> 1 <= G <= SUMC -> fine n S G -> 0 <= n <= 2000 ->
  let p := fmul (cents D) (fdiv (cents g) S) in
  (0 <= p /\ p <= 110000000 /\ - (7 # 100000) <= p - w /\ p - w <= 7 # 100000 /\ w * inject_Z G == inject_Z D * inject_Z g * (1 # 100))%Q.
Proof.
  intros HD Hg HG HS Hn. unfold fine in HS. destruct HS as [HS1 HS2].
  assert (Hn' : (0 <= inject_Z n /\ inject_Z n <= 2000)%Q).
  { split; [change 0%Q with (inject_Z 0) | change 2000%Q with (inject_Z 2000)]; apply inject_le; lia. }
  destruct (fine_cents D ltac:(lia)) as [HD1 HD2]. destruct (fine_cents g ltac:(lia)) as [Hg1 Hg2].
  change (inject_Z 1) with 1%Q in *.
  assert (HGq : (1 <= inject_Z G /\ inject_Z G <= 10000000000)%Q).
  { split; [change 1%Q with (inject_Z 1) | change 10000000000%Q with (inject_Z SUMC)]; apply inject_le; lia. }
  assert (HDq : (0 <= inject_Z D /\ inject_Z D <= inject_Z G)%Q) by (split; [change 0%Q with (inject_Z 0)|]; apply inject_le; lia).
  assert (Hgq : (0 <= inject_Z g /\ inject_Z g <= inject_Z G)%Q) by (split; [change 0%Q with (inject_Z 0)|]; apply inject_le; lia).
  set (cD := cents D) in *. set (x := cents g) in *.
  assert (Hx0 : (0 <= x)%Q) by (apply cents_nonneg; lia). assert (HcD : (0 <= cD)%Q) by (apply cents_nonneg; lia).
  assert (HSp : (0 < S)%Q) by lra.
  set (u := (x / S)%Q). assert (Hu : (u * S == x)%Q) by (unfold u; field; lra).
  assert (Hu0 : (0 <= u)%Q) by (apply Qle_shift_div_l; lra).
  assert (Hu1 : (u <= 102 # 100)%Q) by (apply Qle_shift_div_r; lra).
  assert (HwG : (w * inject_Z G == inject_Z D * inject_Z g * (1 # 100))%Q) by (unfold w; field; lra).
  assert (Hw0 : (0 <= w)%Q) by (apply (Qmult_le_r _ _ (inject_Z G)); [lra|]; rewrite HwG; nra).
  assert (HwD : (w <= inject_Z D * (1 # 100))%Q) by (apply (Qmult_le_r _ _ (inject_Z G)); [lra|]; rewrite HwG; nra).
  destruct (share_close cD x S (inject_Z D * (1 # 100)) (inject_Z g * (1 # 100)) (inject_Z G * (1 # 100)) w u) as [Hp1 Hp2]; try lra.
  clearbody w. destruct (products_rounded cD u) as (P0 & P1 & P2); try lra.
  change (rnd u) with (fdiv x S) in *. change (rnd (cD * fdiv x S)) with (fmul cD (fdiv x S)) in *. cbv zeta.
  split; [exact P0|]. split; [|split; [lra | split; [lra | exact HwG]]].
  lra.
Qed.

(** A share rounded to k is within 0.6 of a paisa of the exact one. *)
Lemma close_share (D g G k : Z) (w : Q) : 0 <= G ->
  (- (6 # 10) <= inject_Z k - 100 * w)%Q -> (inject_Z k - 100 * w <= 6 # 10)%Q ->
  (w * inject_Z G == inject_Z D * inject_Z g * (1 # 100))%Q -> Z.abs (10 * (k * G - D * g)) <= 6 * G.
Proof.
  intros HG H1 H2 HwG.
  assert (E : (inject_Z (10 * (k * G - D * g)) == 10 * ((inject_Z k - 100 * w) * inject_Z G))%Q).
  { unfold Z.sub. rewrite inject_Z_mult, inject_Z_plus, inject_Z_opp, !inject_Z_mult.
    transitivity (10 * (inject_Z k * inject_Z G) - 1000 * (inject_Z D * inject_Z g * (1 # 100)))%Q; [change (inject_Z 10) with 10%Q; ring|].
    rewrite <- HwG. ring. }
  assert (HGq : (0 <= inject_Z G)%Q) by (change 0%Q with (inject_Z 0); now apply inject_le).
  destruct (mult_bounds _ (inject_Z G) _ H1 H2 HGq).
  apply Z.abs_le. rewrite !Zle_Qle, E, inject_Z_opp, inject_Z_mult. change (inject_Z 6) with 6%Q. split; lra.
Qed.

Lemma discount_share D g G S n :
  0 <= D <= G -> 0 <= g <= G -> 1 <= G <= SUMC -> fine n S G -> 0 <= n <= 2000 ->
  exists k, round2 (fmul (cents D) (fdiv (cents g) S)) = cents k /\ 0 <= k <= g /\ Z.abs (10 * (k * G - D * g)) <= 6 * G.
Proof.
  intros HD Hg HG HS Hn. destruct (share_computed D g G S n HD Hg HG HS Hn) as (Hp0 & Hp1 & Hw1 & Hw2 & HwG).
  set (p := fmul (cents D) (fdiv (cents g) S)) in *. set (w := (inject_Z D * inject_Z g / _ * _)%Q) in *. clearbody w.
  exists (to_cents p). split; [apply round2_to_cents|].
  pose proof (to_cents_near_any p) as He. rewrite (Qabs_pos p Hp0) in He. apply Qabs_le_iff in He as [He1 He2].
  change (1 # 2 ^ 40)%Q with (1 # 1099511627776)%Q in *. assert (Hti : (tiny <= 1 # 10000000000000000)%Q) by (vm_compute; discriminate).
  set (k := to_cents p) in *. pose proof (close_share D g G k w ltac:(lia) ltac:(lra) ltac:(lra) HwG) as Hmain.
  assert (Hk0 : 0 <= k).
  { apply Z.lt_succ_r. rewrite Zlt_Qlt. unfold Z.succ. rewrite inject_Z_plus. change (inject_Z 0) with 0%Q. change (inject_Z 1) with 1%Q. lra. }
  split; [split; [exact Hk0 | nia] | exact Hmain].
Qed.

Lemma line_discount D g G S n :
  0 <= D <= G -> 0 <= g <= G -> G <= SUMC -> fine n S G -> 0 <= n <= 2000 ->
  exists k, (if flt 0 S && flt 0 (cents D) then round2 (fmul (cents D) (fdiv (cents g) S)) else 0%Q) = cents k
    /\ 0 <= k <= g /\ Z.abs (10 * (k * G - D * g)) <= 6 * G.
Proof.
  intros HD Hg HG HS Hn. destruct (Z.eq_dec D 0) as [->|HD0].
  { exists 0. rewrite cents_0, andb_false_r. repeat split; lia. }
  assert (HSp : flt 0 S = true).
  { apply flt_iff. destruct HS as [HS _]. assert (inject_Z 1 <= inject_Z G)%Q by (apply inject_le; lia).
    assert (inject_Z n <= 2000)%Q by (change 2000%Q with (inject_Z 2000); apply inject_le; lia).
    change (inject_Z 1) with 1%Q in *. lra. }
  rewrite HSp. destruct (flt 0 (cents D)) eqn:ED.
  - destruct (discount_share D g G S n) as (k & E & Hk); try assumption; [lia|]. exists k. split; [exact E | exact Hk].
  - rewrite <- cents_0, flt_cents in ED by (unfold MAXC, SUMC in *; lia). apply Z.ltb_ge in ED. lia.
Qed.

(** *** A share of the tax *)

Lemma tax_halves_share tax m T : 0 <= tax <= T -> 0 <= m <= T -> 1 <= T <= SUMC ->
  exists a b, tax_halves (fmul (cents tax) (fdiv (cents m) (cents T))) = (cents a, cents b)
    /\ Z.abs (a - b) <= 1 /\ Z.abs (10 * ((a + b) * T - tax * m)) <= 6 * T.
Proof.
  intros Ht Hm HT. destruct (share_computed tax m T (cents T) 1 Ht Hm HT (fine_cents T ltac:(lia)) ltac:(lia)) as (Hp0 & Hp1 & Hw1 & Hw2 & HwT).
  set (p := fmul (cents tax) (fdiv (cents m) (cents T))) in *. set (w := (inject_Z tax * inject_Z m / _ * _)%Q) in *. clearbody w p.
  assert (Hti : (0 <= tiny /\ tiny <= 1 # 10000000000000000)%Q) by (split; vm_compute; discriminate).
  (* the first half *)
  assert (Hh0 : (0 <= p / 2)%Q) by (unfold Qdiv; change (/ 2)%Q with (1 # 2)%Q; lra).
  assert (Hh1 : (Qabs (p / 2) <= 55000000)%Q) by (rewrite Qabs_pos by exact Hh0; unfold Qdiv; change (/ 2)%Q with (1 # 2)%Q; lra).
  apply rnd_err_le in Hh1. change (rnd (p / 2)) with (fdiv p 2) in Hh1.
  assert (Hb : (55000000 * (1 # 2 ^ 53) + tiny <= 1 # 100000000)%Q) by (vm_compute; discriminate).
  apply (Qle_trans _ _ _ Hh1), Qabs_le_iff in Hb as [A1 A2]. unfold Qdiv in A1, A2. change (/ 2)%Q with (1 # 2)%Q in *.
  assert (Hx0 : (0 <= fdiv p 2)%Q) by (now apply fdiv_nonneg). set (x := fdiv p 2) in *.
  pose proof (to_cents_near_any x) as Ha. rewrite (Qabs_pos x Hx0) in Ha. apply Qabs_le_iff in Ha as [Ha1 Ha2].
  change (1 # 2 ^ 40)%Q with (1 # 1099511627776)%Q in *. set (a := to_cents x) in *.
  assert (Haz : 0 <= a <= 5600000000).
  { rewrite !Zle_Qle. change (inject_Z 5600000000) with 5600000000%Q. split; [|lra].
    assert (0 < a + 1) by (rewrite Zlt_Qlt, inject_Z_plus; change (inject_Z 0) with 0%Q; change (inject_Z 1) with 1%Q; lra).
    rewrite <- Zle_Qle. lia. }
  destruct (fine_cents a ltac:(unfold SUMC; lia)) as [Hc1 Hc2]. change (inject_Z 1) with 1%Q in *.
  (* and what is left *)
  assert (Hy : (Qabs (p - cents a) <= 200000000)%Q) by (apply Qabs_le_iff; split; lra).
  pose proof (rnd_err_le _ _ Hy) as Hr. change (rnd (p - cents a)) with (fsub p (cents a)) in Hr.
  assert (Hb2 : (200000000 * (1 # 2 ^ 53) + tiny <= 1 # 10000000)%Q) by (vm_compute; discriminate).
  apply (Qle_trans _ _ _ Hr), Qabs_le_iff in Hb2 as [B1 B2]. set (y := fsub p (cents a)) in *.
  pose proof (to_cents_near_any y) as Hb. assert (Hya : (Qabs y <= 300000000)%Q) by (apply Qabs_le_iff; split; lra).
  change (1 # 2 ^ 40)%Q with (1 # 1099511627776)%Q in *. apply Qabs_le_iff in Hb as [Hb1' Hb2']. set (b := to_cents y) in *.
  exists a, b. assert (Ea : round2 x = cents a) by apply round2_to_cents. split.
  { unfold tax_halves. fold x. rewrite Ea. fold y. now rewrite (round2_to_cents y). }
  assert (Hsum : (- (51 # 100) <= inject_Z (a + b) - 100 * p /\ inject_Z (a + b) - 100 * p <= 51 # 100)%Q) by (rewrite inject_Z_plus; split; lra).
  split.
  - assert (H : -2 < 2 * a - (a + b) < 2); [|lia]. rewrite !Zlt_Qlt. unfold Z.sub. rewrite inject_Z_plus, inject_Z_opp, inject_Z_mult.
    change (inject_Z 2) with 2%Q. change (inject_Z (-2)) with (-2)%Q. split; lra.
  - apply (close_share tax m T (a + b) w); [lia | lra | lra | exact HwT].
Qed.

(** ** Lines *)

(** A line in whole paise: what it costs, its discount k, and t of CGST and of SGST. *)
Definition printed (half : Z) (hsn : string) (ki : KotItemRow) (f : Z * Z) : invoiceLine :=
  let '(k, t) := f in let g := ki_line_total ki in
  {| Particulars := fmt_d (ki_quantity ki) ++ " x " ++ ki_item_name ki;
     HSN := if filled (ki_hsn_code ki) then TrimSpace (opt_str (ki_hsn_code ki)) else hsn;
     Gross := cents g; Discount := cents k; Net := cents (g - k); CGSTRate := cents half; CGSTAmt := cents t;
     SGSTRate := cents half; SGSTAmt := cents t; Total := cents (g - k + 2 * t) |}.
(** The line carries its share of the discount D, in proportion to its part of
    the gross total G, and taxes what is left, each to within 0.6 of a paisa. *)
Definition fair_line (half D G : Z) (ki : KotItemRow) (f : Z * Z) : Prop :=
  let '(k, t) := f in let g := ki_line_total ki in
  0 <= k <= g /\ Z.abs (10 * (k * G - D * g)) <= 6 * G /\ 0 <= t /\ Z.abs (10000 * t - (g - k) * half) <= 6000.

Section Lines.
Context {env : Env} {laws : EnvLaws env}.
Variables (b : billRow) (half D G n : Z) (S : Q) (hsn : string).
Hypothesis Hdisc : b_DiscountAmount b = cents D.
Hypothesis Hhalf : 0 <= half <= 10000.
Hypothesis HD : 0 <= D <= G.
Hypothesis HG : G <= 10 ^ 9.
Hypothesis HS : fine n S G.
Hypothesis Hn : 0 <= n <= 2000.

Lemma line_printed ki : 0 <= ki_line_total ki <= G ->
  exists f, bill_line b (cents half) S hsn ki = printed half hsn ki f /\ fair_line half D G ki f.
Proof.
  intros Hg. set (g := ki_line_total ki) in *.
  destruct (line_discount D g G S n) as (k & Ek & Hk & Hshare); try assumption; [unfold SUMC; lia|].
  assert (Hnn : near 3 (cents (g - k)) (g - k)) by (apply (near_weaken 1); [apply cents_near; unfold MAXC; lia | lia]).
  destruct (percent_of _ (g - k) half Hnn (cents_nonneg (g - k) ltac:(lia)) ltac:(lia) Hhalf) as (t & Et & Ht0 & Ht).
  exists (k, t). split; [|repeat split; try assumption; lia].
  assert (Htb : t <= 10 ^ 9 + 1) by nia.
  unfold bill_line, printed. fold g. rewrite Hdisc, num_dec_cents by (unfold MAXC; lia). cbv zeta.
  rewrite Ek, round2_sub by (unfold MAXC; lia). rewrite Et. f_equal.
  apply (round2_near 5); [|lia | unfold MAXC; lia]. replace (g - k + 2 * t) with (g - k + t + t) by lia.
  apply (fadd_near 3 1); [|apply cents_near; unfold MAXC; lia | unfold MAXC; lia | lia].
  apply (fadd_near 1 1); [apply cents_near; unfold MAXC; lia.. | unfold MAXC; lia | lia].
Qed.

Lemma lines_printed items : (forall ki, In ki items -> 0 <= ki_line_total ki <= G) ->
  exists fs, map (bill_line b (cents half) S hsn) items = zip_with (printed half hsn) items fs
    /\ Forall2 (fair_line half D G) items fs.
Proof.
  induction items as [|ki items IH]; intros Hi; [exists []; split; [reflexivity | constructor]|].
  destruct (line_printed ki) as (f & E & Hf); [apply Hi; now left|].
  destruct IH as (fs & Es & Hfs); [intros; apply Hi; now right|].
  exists (f :: fs). cbn. rewrite E, Es. split; [reflexivity | now constructor].
Qed.
End Lines.

(** ** Columns *)

Definition gross_of (items : list KotItemRow) : Z := sum_cents (map ki_line_total items).
Definition discounts_of (fs : list (Z * Z)) : Z := sum_cents (map fst fs).
Definition tax_of (fs : list (Z * Z)) : Z := sum_cents (map snd fs).

Lemma column_cents f lines ks :
  map f lines = map cents ks -> abs_cents ks <= SUMC -> Z.of_nat (length ks) <= 10000 -> column f lines = cents (sum_cents ks).
Proof.
  intros E Ha Hl. unfold column. rewrite E. apply (round2_near 3); [now apply total_near | lia|].
  pose proof (sum_le_abs ks). unfold MAXC, SUMC in *. lia.
Qed.

Section Columns.
Variables (half D G : Z) (hsn : string).

(** A column whose entries are bounded by the line's gross. *)
Lemma printed_column (f : invoiceLine -> Q) (h : KotItemRow -> Z * Z -> Z) items fs :
  (forall ki p, f (printed half hsn ki p) = cents (h ki p)) ->
  (forall ki p, fair_line half D G ki p -> 0 <= half <= 10000 -> Z.abs (h ki p) <= 3 * ki_line_total ki + 2) ->
  0 <= half <= 10000 -> Forall2 (fair_line half D G) items fs -> gross_of items <= 10 ^ 9 -> (length items <= 1000)%nat ->
  column f (zip_with (printed half hsn) items fs) = cents (sum_cents (zip_with h items fs)).
Proof.
  intros Hf Hb Hh HF Hg Hlen. apply column_cents.
  - clear -Hf HF. induction HF as [|ki p items fs _ _ IH]; [reflexivity|]. cbn. now rewrite Hf, IH.
  - assert (H : abs_cents (zip_with h items fs) <= 3 * gross_of items + 2 * Z.of_nat (length items)).
    { clear -Hb Hh HF. induction HF as [|ki p items fs Hp _ IH]; [reflexivity|]. specialize (Hb _ _ Hp Hh).
      unfold gross_of in *. cbn [zip_with map length]. rewrite abs_cents_cons, Nat2Z.inj_succ.
      change (sum_cents (ki_line_total ki :: map ki_line_total items)) with (ki_line_total ki + sum_cents (map ki_line_total items)). lia. }
    unfold SUMC. lia.
  - apply Forall2_length in HF. rewrite length_zip_with. lia.
Qed.

Lemma fair_tax_bound ki k t : fair_line half D G ki (k, t) -> 0 <= half <= 10000 -> 0 <= t <= ki_line_total ki + 1.
Proof. intros (Hk & _ & Ht0 & Ht) Hh. split; [exact Ht0|]. nia. Qed.

(** What the columns add up to. *)
Lemma fair_sums items fs : Forall2 (fair_line half D G) items fs ->
  sum_cents (zip_with (fun ki _ => ki_line_total ki) items fs) = gross_of items
  /\ sum_cents (zip_with (fun (_ : KotItemRow) p => fst p) items fs) = discounts_of fs
  /\ sum_cents (zip_with (fun ki p => ki_line_total ki - fst p) items fs) = gross_of items - discounts_of fs
  /\ sum_cents (zip_with (fun (_ : KotItemRow) p => snd p) items fs) = tax_of fs
  /\ sum_cents (zip_with (fun ki p => ki_line_total ki - fst p + 2 * snd p) items fs) = gross_of items - discounts_of fs + 2 * tax_of fs
  /\ Z.abs (10 * (discounts_of fs * G - D * gross_of items)) <= 6 * Z.of_nat (length items) * G
  /\ 0 <= discounts_of fs <= gross_of items.
Proof.
  unfold gross_of, discounts_of, tax_of.
  induction 1 as [|ki [k t] items fs (Hk & Hs & _) _ IH]; [repeat split; cbn; lia|].
  destruct IH as (E1 & E2 & E3 & E4 & E5 & E6 & E7). cbn [zip_with map fst snd length]. unfold sum_cents in *. cbn [fold_right].
  rewrite E1, E2, E3, E4, E5, Nat2Z.inj_succ. repeat split; first [lia | nia].
Qed.

Lemma fair_columns items fs (lines := zip_with (printed half hsn) items fs) :
  0 <= half <= 10000 -> Forall2 (fair_line half D G) items fs -> gross_of items <= 10 ^ 9 -> (length items <= 1000)%nat ->
  column Gross lines = cents (gross_of items) /\ column Discount lines = cents (discounts_of fs)
  /\ column Net lines = cents (gross_of items - discounts_of fs)
  /\ column CGSTAmt lines = cents (tax_of fs) /\ column SGSTAmt lines = cents (tax_of fs)
  /\ column Total lines = cents (gross_of items - discounts_of fs + 2 * tax_of fs).
Proof.
  intros Hh HF Hg Hlen. destruct (fair_sums items fs HF) as (E1 & E2 & E3 & E4 & E5 & _). unfold lines.
  repeat split; first [rewrite <- E5 | rewrite <- E3 | rewrite <- E4 | rewrite <- E2 | rewrite <- E1];
    apply printed_column; try assumption; try (intros ? []; reflexivity);
    intros ki [k t] Hf _; pose proof (fair_tax_bound _ _ _ Hf Hh); destruct Hf as (? & _); cbn [fst snd]; lia.
Qed.
End Columns.

(** ** The request *)

Section Request.
Context {env : Env} {laws : EnvLaws env} {jwt : Jwt} {lib : InvoiceLib} (secret : string).

(** Refused, and only because a statement failed. *)
Definition only_faults (d : DB) (r : Resp PosBody) (d' : DB) : Prop := d' = d /\ pos_error r /\ faulty.

Lemma ens_query_only {A B} (f : DB -> A) st msg (k : A -> M (Resp PosBody) B) d Q :
  ensures (k (f d)) d Q (only_faults d) -> ensures (a ← failing (query Pool f) st msg; k a) d Q (only_faults d).
Proof.
  intros Hk. eapply ens_bind with (Q1 := fun a d' => a = f d /\ d' = d); [|intros a d' [-> ->]; exact Hk].
  intros w [Ht <-]. unfold failing, on_err, query, exec. destruct (db_fault _) eqn:Ef; cbn; [|rewrite Ht; auto].
  split; [exact Ht|]. split; [reflexivity|]. split; [auto | eexists; exact Ef].
Qed.
Lemma ens_row_only {A B} (f : DB -> option A) st msg (k : A -> M (Resp PosBody) B) d a Q :
  f d = Some a -> ensures (k a) d Q (only_faults d) -> ensures (x ← failing (query_row Pool f) st msg; k x) d Q (only_faults d).
Proof.
  intros Ea Hk. eapply ens_bind with (Q1 := fun x d' => x = a /\ d' = d); [|intros x d' [-> ->]; exact Hk].
  intros w [Ht <-]. unfold failing, on_err, query_row, query, exec, mbind, M_bind. destruct (db_fault _) eqn:Ef; cbn.
  - split; [exact Ht|]. split; [reflexivity|]. split; [auto | eexists; exact Ef].
  - rewrite Ea, Ht. cbn. auto.
Qed.
(** A row whose absence, and whose failure, is ignored. *)
Lemma ens_row_ignored {A E B} (f : DB -> option A) (k : GoErr + A -> M E B) d Q R :
  (forall r, ensures (k r) d Q R) -> ensures (r ← attempt (query_row Pool f); k r) d Q R.
Proof.
  intros Hk. eapply ens_bind with (Q1 := fun _ d' => d' = d); [|intros r d' ->; apply Hk].
  apply ens_attempt. unfold query_row. eapply ens_bind; [apply ens_query with (Q := fun _ d' => d' = d); auto|].
  intros o d' ->. apply ens_of_option. now destruct o.
Qed.

Lemma ens_splits_only {B} id T st msg (k : list billSplitRow -> M (Resp PosBody) B) d Q :
  ensures (k (shown_splits id T d)) d Q (only_faults d) -> ensures (a ← failing (loadBillSplits id T) st msg; k a) d Q (only_faults d).
Proof.
  intros Hk. eapply ens_bind with (Q1 := fun a d' => a = shown_splits id T d /\ d' = d); [|intros x d' [-> ->]; exact Hk].
  intros w [Ht <-]. unfold failing, on_err, loadBillSplits, query, exec, mbind, M_bind. destruct (db_fault _) eqn:Ef; cbn.
  - split; [exact Ht|]. split; [reflexivity|]. split; [auto | eexists; exact Ef].
  - rewrite Ht. auto.
Qed.

(** The share asked for, among the shares shown; None is the whole bill. *)
Definition asked (c : Ctx) (id : uuid) (T : Q) (d : DB) : option (option (billSplitRow * nat)) :=
  if c_query c "split" =s "" then Some None
  else sid ← uuid_parse (c_query c "split");
       s ← List.find (fun s => ueq (sp_ID s) sid) (shown_splits id T d);
       Some (Some (s, length (shown_splits id T d))).

Lemma ens_split {B} c id T split (k : option (billSplitRow * nat) -> M (Resp PosBody) B) d Q :
  asked c id T d = Some split -> ensures (k split) d Q (only_faults d) -> ensures (x ← load_split c id T; k x) d Q (only_faults d).
Proof.
  unfold asked, load_split. intros Hs Hk. eapply ens_bind with (Q1 := fun x d' => x = split /\ d' = d); [|intros x d' [-> ->]; exact Hk].
  destruct (c_query c "split" =s ""); [injection Hs as <-; now apply ens_ret|].
  destruct (uuid_parse _) as [sid|]; [|discriminate]. cbn [mbind option_bind] in Hs.
  destruct (List.find (fun s : billSplitRow => ueq (sp_ID s) sid) (shown_splits id T d)) as [s|] eqn:Ef; [|discriminate]. injection Hs as <-.
  apply ens_then_option; [discriminate|]. intros sid' [= <-]. apply ens_splits_only. rewrite Ef.
  apply ens_then_option; [discriminate|]. intros s' [= <-]. now apply ens_ret.
Qed.
Lemma ens_mode {B} id (k : string -> M (Resp PosBody) B) d Q R :
  (forall mode, ensures (k mode) d Q R) -> ensures (x ← invoicePaymentMode id; k x) d Q R.
Proof.
  intros Hk. eapply ens_bind with (Q1 := fun _ d' => d' = d); [|intros x d' ->; apply Hk].
  unfold invoicePaymentMode. eapply ens_bind with (Q1 := fun _ d' => d' = d); [|intros r d' ->; now apply ens_ret].
  apply ens_attempt, ens_query; auto.
Qed.

(** The items of the session, as the invoice lists them. *)
Definition billed_items (br : BillDbRow) (d : DB) : list KotItemRow :=
  order_by (receipt_order d) (select (billable (bl_session_id br) d) (kot_items d)).

(** Whatever fails, the request leaves the database as it is and answers with
    the invoice, whichever of the ignored queries were answered, unless one that
    is not ignored failed. *)
Lemma BillInvoice_ens c d id br split :
  uuid_parse (c_params c "id") = Some id -> find_row (bill_key (hotelID secret c) id) (bills d) = Some br ->
  asked c id (b_TotalAmount (scanBill br)) d = Some split ->
  ensures (BillInvoice secret c) d
    (fun data d' => d' = d /\ exists ss ho ou now mode, data = invoice_of (scanBill br) split ss ho ou (billed_items br d) now mode)
    (only_faults d).
Proof.
  intros Hid Hbr Hs. unfold BillInvoice, param_id. apply ens_then_option; [congruence|]. intros id' E. rewrite Hid in E. injection E as <-.
  apply ens_row_only with (a := scanBill br); [now rewrite Hbr|].
  eapply ens_split; [exact Hs|]. do 3 (apply ens_row_ignored; intros ?). apply ens_query_only, ens_then_now. intros now.
  apply ens_mode. intros mode. apply ens_ret. split; [reflexivity|]. do 5 eexists. reflexivity.
Qed.
End Request.

(** ** Claims *)

(** A bill of whole paise whose total is the sum of its parts, as computeTotals
    leaves it. *)
Record bill_sound (br : BillDbRow) : Prop := {
  so_discount : 0 <= bl_discount_amount br <= bl_subtotal br;
  so_subtotal : bl_subtotal br <= 10 ^ 9;
  so_rate : 0 <= bl_tax_rate br <= 10000;
  so_tax : 0 <= bl_tax_amount br <= 10 ^ 9;
  so_tip : 0 <= bl_tip_amount br <= 10 ^ 9;
  so_total : 0 <= bl_total_amount br <= SUMC;
  so_sum : bl_total_amount br
           = bl_subtotal br - bl_discount_amount br + bl_tax_amount br + bl_tip_amount br + bl_rounding_adjust br }.

(** The items still are the ones billed: none ordered or voided since. *)
Definition items_as_billed (br : BillDbRow) (d : DB) : Prop :=
  let items := select (billable (bl_session_id br) d) (kot_items d) in
  (length items <= 1000)%nat /\ (forall ki, In ki items -> 0 <= ki_line_total ki)
  /\ session_total (bl_session_id br) d = bl_subtotal br.

(** The Total Value row and the words below it. *)
Definition shows_bill (br : BillDbRow) (data : invoiceData) : Prop :=
  let net := bl_subtotal br - bl_discount_amount br in
  exists cg sg, TotalNet data = cents net /\ TotalCGST data = cents cg /\ TotalSGST data = cents sg
    /\ cg + sg = bl_tax_amount br /\ Z.abs (cg - sg) <= 1
    /\ TipAmount data = cents (bl_tip_amount br) /\ GrandTotal data = cents (bl_total_amount br)
    /\ net + cg + sg + bl_tip_amount br + bl_rounding_adjust br = bl_total_amount br
    /\ read_words (AmountWords data) = bl_total_amount br.

(** The lines, and the Item(s) Total row. *)
Definition shows_items (br : BillDbRow) (items : list KotItemRow) (data : invoiceData) : Prop :=
  exists half fs, Z.abs (2 * half - bl_tax_rate br) <= 1
    /\ Lines data = zip_with (printed half (DefaultHSN data)) items fs
    /\ Forall2 (fair_line half (bl_discount_amount br) (bl_subtotal br)) items fs
    /\ ItemsGross data = cents (bl_subtotal br) /\ ItemsDiscount data = cents (discounts_of fs)
    /\ ItemsNet data = cents (bl_subtotal br - discounts_of fs)
    /\ ItemsCGST data = cents (tax_of fs) /\ ItemsSGST data = cents (tax_of fs)
    /\ ItemsTotal data = cents (bl_subtotal br - discounts_of fs + 2 * tax_of fs)
    /\ Z.abs (10 * (discounts_of fs - bl_discount_amount br)) <= 6 * Z.of_nat (length items).

Section Figures.
Context {env : Env} {laws : EnvLaws env} {lib : InvoiceLib}.

Lemma billed_items_sum br d : gross_of (billed_items br d) = session_total (bl_session_id br) d.
Proof.
  unfold gross_of, billed_items. rewrite (sum_cents_perm _ _ (Permutation_map _ (order_by_Permutation _ _))).
  unfold session_total, sum_rows, sum_cents. induction (select _ _) as [|x l IH]; [reflexivity|]. cbn. now rewrite IH.
Qed.
Lemma gross_bound items ki : (forall k, In k items -> 0 <= ki_line_total k) -> In ki items -> 0 <= ki_line_total ki <= gross_of items.
Proof.
  intros Hn Hi. split; [now apply Hn|]. unfold gross_of.
  assert (H : 0 <= sum_cents (map ki_line_total items) /\ (In ki items -> ki_line_total ki <= sum_cents (map ki_line_total items))).
  { clear Hi. induction items as [|x l IH]; cbn; [split; [lia | contradiction]|].
    destruct IH as [H1 H2]; [intros; apply Hn; now right|]. pose proof (Hn x ltac:(now left)).
    split; [unfold sum_cents in *; lia|]. intros [->|Hi]; [unfold sum_cents in *; lia | specialize (H2 Hi); unfold sum_cents in *; lia]. }
  now apply H.
Qed.

Lemma whole_figures br ss ho ou items now mode : bill_sound br ->
  shows_bill br (invoice_of (scanBill br) None ss ho ou items now mode).
Proof.
  intros [Hd Hsub _ Htax Htip Htot Hsum]. unfold SUMC in *.
  destruct (tax_halves_cents (bl_tax_amount br) ltac:(lia)) as (a & b & E & Hab & Hdiff).
  destruct ss as [[[? ?] ?] ?]. destruct ho as [[[? ?] ?] ?]. unfold shows_bill, invoice_of, whole_invoice. cbn [scanBill b_TaxAmount].
  rewrite (num_dec_cents (bl_tax_amount br)), E by (unfold MAXC; lia). exists a, b. cbn.
  rewrite !num_dec_cents by (unfold MAXC; lia). rewrite round2_sub by (unfold MAXC; lia).
  rewrite amount_read_back by (unfold MAXC; lia). repeat split; lia.
Qed.

Lemma items_figures br ss ho ou items now mode : bill_sound br ->
  (length items <= 1000)%nat -> (forall ki, In ki items -> 0 <= ki_line_total ki) -> gross_of items = bl_subtotal br ->
  shows_items br items (invoice_of (scanBill br) None ss ho ou items now mode).
Proof.
  intros [Hd Hsub Hr _ _ _ _] Hlen Hpos Hsum.
  destruct (half_cents (bl_tax_rate br) ltac:(lia)) as (half & Eh & Hh0 & Hh).
  assert (HS : fine (0 + 2 * Z.of_nat (length (map ki_line_total items)))
                 (total_of (map (fun ki => num_dec (ki_line_total ki)) items)) (0 + sum_cents (map ki_line_total items))).
  { assert (E : map (fun ki => num_dec (ki_line_total ki)) items = map cents (map ki_line_total items)).
    { rewrite List.map_map. apply List.map_ext_in. intros ki Hi. pose proof (gross_bound items ki Hpos Hi). apply num_dec_cents. unfold MAXC; lia. }
    rewrite E. apply fold_fine; [split; discriminate | | rewrite List.length_map; lia].
    assert (Ha : abs_cents (map ki_line_total items) = gross_of items).
    { unfold gross_of. clear -Hpos. induction items as [|x l IH]; [reflexivity|]. cbn [map]. rewrite abs_cents_cons, IH by (intros; apply Hpos; now right).
      pose proof (Hpos x ltac:(now left)). unfold sum_cents. cbn [fold_right]. lia. }
    rewrite Ha. unfold SUMC. lia. }
  rewrite Z.add_0_l in HS. fold (gross_of items) in HS. rewrite Hsum, List.length_map in HS.
  set (hsn := pick (snd (fst ho)) (coalesce (gi_hsn ou) (gi_hsn (snd ho))) "hsn_code" "996331").
  destruct (lines_printed (scanBill br) half (bl_discount_amount br) (bl_subtotal br) (0 + 2 * Z.of_nat (length items))
              (total_of (map (fun ki => num_dec (ki_line_total ki)) items)) hsn) with (items := items) as (fs & El & HF);
    try assumption; try lia; [cbn; apply num_dec_cents; unfold MAXC; lia | | ].
  { intros ki Hi. rewrite <- Hsum. now apply gross_bound. }
  destruct (fair_columns half (bl_discount_amount br) (bl_subtotal br) hsn items fs) as (C1 & C2 & C3 & C4 & C5 & C6); try assumption; try lia.
  destruct (fair_sums half (bl_discount_amount br) (bl_subtotal br) items fs HF) as (_ & _ & _ & _ & _ & Hk & Hk').
  rewrite Hsum in *. exists half, fs. destruct ss as [[[? ?] ?] ?]. destruct ho as [[[? ?] ?] ?]. unfold invoice_of, whole_invoice.
  destruct (tax_halves _) as [? ?].
  cbn [scanBill b_TaxRate fst snd] in *. rewrite (num_dec_cents (bl_tax_rate br)), Eh by (unfold MAXC; lia).
  fold hsn. rewrite El. cbn. repeat (split; [first [assumption | reflexivity | lia]|]).
  destruct (Z.eq_dec (bl_subtotal br) 0) as [E0|E0]; [lia | nia].
Qed.
End Figures.

(** C35: whatever statements fail, the tax invoice of a bill adds up to what was
    charged: the net, the CGST and the SGST (a paisa apart at most), the tip and
    the rounding of its Total Value row are exactly the grand total, and the
    amount in words, read back, is the grand total to the paisa.  As long as the
    items are the ones billed, each line carries its share of the discount and
    its taxes to within 0.6 of a paisa, every line and column is whole paise and
    adds up, and the lines' discounts differ from the bill's by at most 0.6 of a
    paisa per line.  The database is left as it is; the request is refused only
    when a statement failed. *)
Theorem tax_invoice_adds_up (env : Env) (laws : EnvLaws env) (jwt : Jwt) (lib : InvoiceLib) secret c id br d
  (Hid : uuid_parse (c_params c "id") = Some id) (Hq : c_query c "split" = "")
  (Hbr : find_row (bill_key (hotelID secret c) id) (bills d) = Some br) (Hs : bill_sound br) :
  ensures (BillInvoice secret c) d
    (fun data d' => d' = d /\ shows_bill br data /\ (items_as_billed br d -> shows_items br (billed_items br d) data))
    (only_faults d).
Proof.
  eapply ens_post; [eapply BillInvoice_ens; [exact Hid | exact Hbr | unfold asked; rewrite Hq; reflexivity] | | auto].
  intros data d' (-> & ss & ho & ou & now & mode & ->). split; [reflexivity|]. split; [now apply whole_figures|].
  intros (Hlen & Hpos & Hsum). apply items_figures; [exact Hs | | |].
  - unfold billed_items. now rewrite length_order_by.
  - intros ki Hi%in_order_by. now apply Hpos.
  - now rewrite billed_items_sum.
Qed.

(** Dinner at table T1: two dosas less ten percent, and the tax on them. *)
#[export] Instance plain_lib : InvoiceLib := {| qr_png := fun _ => Some [80; 78; 71]; distinct_rows := fun l => l |}.
Definition dinner_bill : BillDbRow := default {| bl_id := 0; bl_hotel_id := 0; bl_session_id := 0; bl_outlet_id := None; bl_bill_number := "";
  bl_status := ""; bl_subtotal := 0; bl_discount_type := None; bl_discount_value := 0; bl_discount_amount := 0; bl_tax_rate := 0;
  bl_tax_amount := 0; bl_tip_type := None; bl_tip_value := 0; bl_tip_amount := 0; bl_rounding_adjust := 0; bl_total_amount := 0;
  bl_amount_paid := 0; bl_amount_due := 0; bl_currency := ""; bl_generated_by := None; bl_customer_id := None; bl_finalized_at := None;
  bl_paid_at := None |}%N (head (bills after_dinner)).
Lemma tax_invoice_adds_up_witness :
  let c := pq_ctx (manager "1011" "" Op_GenerateBill) in
  (exists data, fst (BillInvoice (env := calm) (jwt := demo_jwt) (lib := plain_lib) "secret" c (start after_dinner)) = inr data
     /\ GrandTotal data = cents 22680 /\ AmountWords data = "Two Hundred Twenty Six Rupees And Eighty Paisa Only"
     /\ map Particulars (Lines data) = ["2 x Dosa"] /\ map Discount (Lines data) = [cents 2400])
  /\ ensures (BillInvoice (env := calm) (jwt := demo_jwt) (lib := plain_lib) "secret" c) after_dinner
       (fun data d' => d' = after_dinner /\ shows_bill dinner_bill data
          /\ (items_as_billed dinner_bill after_dinner -> shows_items dinner_bill (billed_items dinner_bill after_dinner) data))
       (only_faults (env := calm) after_dinner).
Proof.
  intros c. split.
  - eexists. split; [vm_compute; reflexivity|]. repeat split.
  - apply (tax_invoice_adds_up calm calm_laws demo_jwt plain_lib "secret" c 1011%N dinner_bill after_dinner);
      [reflexivity | reflexivity | vm_compute; reflexivity | constructor; vm_compute; intuition discriminate].
Defined.

(** *** The invoices of a split bill *)

Lemma find_unique {A} (key : A -> N) l x : NoDup (map key l) -> In x l -> List.find (fun y => ueq (key y) (key x)) l = Some x.
Proof.
  intros Hn Hx. induction l as [|y l IH]; [contradiction|]. cbn in Hn. apply list.NoDup_cons in Hn as [Hy Hn]. cbn. unfold ueq in *.
  destruct Hx as [->|Hx]; [now rewrite N.eqb_refl|]. destruct (N.eqb_spec (key y) (key x)) as [E|]; [|now apply IH].
  destruct Hy. rewrite E. apply list_elem_of_In. now apply List.in_map.
Qed.

Lemma shown_ids {env : Env} id T d : NoDup (map bs_id (bill_splits d)) -> NoDup (map sp_ID (shown_splits id T d)).
Proof.
  intros Hn. unfold shown_splits. set (rows := order_by _ _). set (amts := renormalise _ _ _ _).
  assert (Hr : NoDup (map bs_id rows)).
  { unfold rows. rewrite order_by_Permutation. revert Hn. induction (bill_splits d) as [|s l IH]; [auto|]. cbn. intros [Hs Hl]%list.NoDup_cons.
    unfold select in *. cbn. destruct (ueq (bs_bill_id s) id); [|auto]. cbn. apply list.NoDup_cons. split; [|auto].
    rewrite list_elem_of_In in *. intros (x & Ex & [Hx _]%List.filter_In)%List.in_map_iff. apply Hs, List.in_map_iff. eauto. }
  clearbody rows amts. revert amts. induction rows as [|s rows IH]; intros [|m amts]; cbn; [constructor..|].
  cbn in Hr. apply list.NoDup_cons in Hr as [Hs Hr]. apply list.NoDup_cons. split; [|now apply IH].
  rewrite list_elem_of_In in *. intros (x & Ex & Hx)%List.in_map_iff. apply Hs. clear -Ex Hx. revert amts Hx.
  induction rows as [|r rows IH]; intros [|a amts] Hx; try contradiction. destruct Hx as [<-|Hx]; [left; exact Ex | right; eauto].
Qed.

(** What the invoice of one share m of the total says. *)
Definition shows_share (br : BillDbRow) (s : billSplitRow) (m : Z) (data : invoiceData) : Prop :=
  InvoiceNo data = bl_bill_number br ++ "/" ++ fmt_d (sp_SplitNo s) /\ CustomerName data = sp_CustomerName s
  /\ GrandTotal data = cents m /\ read_words (AmountWords data) = m
  /\ exists cg sg, TotalCGST data = cents cg /\ TotalSGST data = cents sg /\ Z.abs (cg - sg) <= 1
       /\ Z.abs (10 * ((cg + sg) * bl_total_amount br - bl_tax_amount br * m)) <= 6 * bl_total_amount br.

Lemma share_figures {env : Env} {laws : EnvLaws env} {lib : InvoiceLib} br s m n ss ho ou items now mode :
  bill_sound br -> bl_tax_amount br <= bl_total_amount br -> 0 < bl_total_amount br ->
  sp_Amount s = cents m -> 0 <= m <= bl_total_amount br ->
  shows_share br s m (invoice_of (scanBill br) (Some (s, n)) ss ho ou items now mode).
Proof.
  intros [Hd Hsub _ Htax Htip Htot Hsum] Ht HT Em Hm. unfold SUMC in *.
  destruct (tax_halves_share (bl_tax_amount br) m (bl_total_amount br)) as (a & b & E & Hab & Hs); [lia | lia | unfold SUMC; lia|].
  assert (Ef : flt 0 (num_dec (bl_total_amount br)) = true).
  { rewrite num_dec_cents, <- cents_0, flt_cents by (unfold MAXC; lia). apply Z.ltb_lt. lia. }
  destruct ss as [[[? ?] ?] ?]. destruct ho as [[[? ?] ?] ?].
  unfold invoice_of, split_invoice, whole_invoice. cbn [scanBill b_TotalAmount b_TaxAmount]. rewrite Ef, Em.
  rewrite (num_dec_cents (bl_total_amount br)), (num_dec_cents (bl_tax_amount br)), E by (unfold MAXC; lia).
  destruct (tax_halves (cents (bl_tax_amount br))) as [? ?].
  unfold shows_share. cbn. rewrite amount_read_back by (unfold MAXC; lia). repeat (split; [reflexivity|]). exists a, b. auto.
Qed.

(** C36: the customers of a split bill are invoiced for exactly its total.  There
    are shares of whole paise that add up to the current total, whatever was
    saved when the bill was split, such that, whatever statements fail, the
    invoice of each customer names that customer and their share, its amount in
    words read back is that share to the paisa, and its CGST and SGST, a paisa
    apart at most, are that share's part of the bill's tax to within 0.6 of a
    paisa. *)
Theorem split_invoices_cover_bill (env : Env) (laws : EnvLaws env) (jwt : Jwt) (lib : InvoiceLib) secret hid id br d
  (out := shown_splits id (cents (bl_total_amount br)) d)
  (Hbr : find_row (bill_key hid id) (bills d) = Some br) (Hs : bill_sound br)
  (Ht : bl_tax_amount br <= bl_total_amount br) (HT : 0 < bl_total_amount br)
  (Hsh : shares_ok id d) (Hn : NoDup (map bs_id (bill_splits d))) :
  length out = length (select (fun s => ueq (bs_bill_id s) id) (bill_splits d))
  /\ exists ms, map sp_Amount out = map cents ms /\ sumZ ms = bl_total_amount br
       /\ forall c s m, In (s, m) (zip out ms) -> 0 <= m <= bl_total_amount br ->
            hotelID secret c = hid -> uuid_parse (c_params c "id") = Some id ->
            c_query c "split" <> "" -> uuid_parse (c_query c "split") = Some (sp_ID s) ->
            ensures (BillInvoice secret c) d (fun data d' => d' = d /\ shows_share br s m data) (only_faults d).
Proof.
  pose proof (so_total br Hs) as Htot. unfold SUMC in Htot.
  destruct (shown_splits_cents id (bl_total_amount br) d ltac:(lia) Hsh) as (Hlen & ms & E & Hsum). fold out in Hlen, E.
  split; [exact Hlen|]. exists ms. split; [exact E|]. split; [exact Hsum|]. intros c s m Hin Hm Hh Hid Hq Hsid.
  assert (Hout : In s out) by (now apply List.in_combine_l in Hin).
  assert (Em : sp_Amount s = cents m).
  { clear -E Hin. revert ms E Hin. induction out as [|x l IH]; intros [|k ms] E Hin; try contradiction.
    cbn in E. injection E as Ek E. destruct Hin as [[= <- <-]|Hin]; [exact Ek | now apply IH with (ms := ms)]. }
  eapply ens_post; [eapply BillInvoice_ens with (split := Some (s, length out)); [exact Hid | rewrite Hh; exact Hbr |] | | auto].
  - unfold asked. destruct (String.eqb_spec (c_query c "split") ""); [contradiction|]. rewrite Hsid. cbn [mbind option_bind scanBill b_TotalAmount].
    rewrite num_dec_cents by (unfold MAXC; lia). fold out. rewrite find_unique; [reflexivity | now apply shown_ids | exact Hout].
  - intros data d' (-> & ss & ho & ou & now & mode & ->). split; [reflexivity|]. now apply share_figures.
Qed.

(** The dinner of 226.80 between three friends, who first agreed to share 100.00. *)
Definition dinner_split : DB :=
  after_dinner <| bill_splits := map (fun s => s <| bs_bill_id := 1011%N |>) (bill_splits three_shares) |>.
Lemma split_invoices_cover_bill_witness :
  let c := (pq_ctx (manager "1011" "" Op_GenerateBill)) <| c_query := fun k => if k =s "split" then "903" else "" |> in
  (exists data, fst (BillInvoice (env := calm) (jwt := demo_jwt) (lib := plain_lib) "secret" c (start dinner_split)) = inr data
     /\ CustomerName data = "Meera" /\ ServiceDesc data = "Restaurant Service (split 3 of 3)" /\ GrandTotal data = cents 7562)
  /\ length (shown_splits (env := calm) 1011%N (cents 22680) dinner_split) = 3%nat
  /\ exists ms, map sp_Amount (shown_splits (env := calm) 1011%N (cents 22680) dinner_split) = map cents ms /\ sumZ ms = 22680
       /\ forall c s m, In (s, m) (zip (shown_splits (env := calm) 1011%N (cents 22680) dinner_split) ms) -> 0 <= m <= 22680 ->
            hotelID (env := calm) (jwt := demo_jwt) "secret" c = 1%N -> uuid_parse (Env := calm) (c_params c "id") = Some 1011%N ->
            c_query c "split" <> "" -> uuid_parse (Env := calm) (c_query c "split") = Some (sp_ID s) ->
            ensures (BillInvoice (env := calm) (jwt := demo_jwt) (lib := plain_lib) "secret" c) dinner_split
              (fun data d' => d' = dinner_split /\ shows_share dinner_bill s m data) (only_faults (env := calm) dinner_split).
Proof.
  intros c. split; [eexists; split; [vm_compute; reflexivity | repeat split]|].
  refine (split_invoices_cover_bill calm calm_laws demo_jwt plain_lib "secret" 1%N 1011%N dinner_bill dinner_split _ _ _ _ _ _).
  - vm_compute. reflexivity.
  - constructor; vm_compute; intuition discriminate.
  - vm_compute. discriminate.
  - vm_compute. reflexivity.
  - split; [cbn; lia|]. intros s Hs. vm_compute in Hs. repeat destruct Hs as [<-|Hs]; [cbn; lia..|contradiction].
  - now apply (bool_decide_unpack (NoDup (map bs_id (bill_splits dinner_split)))).
Defined.
