(* ===== verification/ChannelIngest.v ===== *)
(** ChannelIngest: internal/handler/channel_ingest.go.  Reservations pushed by
    online travel agents: the signed webhook that stores a delivery, the
    background job that turns it into a stay and its postings, the status
    endpoint and the cancellation. *)

From S2P Require Import Prelude WorkerPool GoLib GoCrypto Schema Binary64 World Auth Domain RoomRepo Ledger Customers Pricing Settlement Reservations AmountWords.
From Stdlib Require Import QArith.
Local Open Scope string_scope.
Local Open Scope Z_scope.

(** ** The payload *)

Record channelBookingPayload := {
  p_ExternalRef : string; p_ReservationID : string; p_BookingID : string; p_Ref : string;
  p_GuestName : string; p_FirstName : string; p_LastName : string;
  p_GuestEmail : string; p_Email : string; p_GuestPhone : string; p_Phone : string;
  p_CheckIn : string; p_CheckInDate : string; p_CheckOut : string; p_CheckOutDate : string;
  p_RoomType : string; p_Adults : Z; p_Children : Z;
  p_Total : Q; p_TotalPrice : Q; p_TaxAmount : Q; p_Commission : Q; p_Currency : string; p_Notes : string }.

Definition ref (p : channelBookingPayload) : string :=
  TrimSpace (firstNonEmpty [p_ExternalRef p; p_ReservationID p; p_BookingID p; p_Ref p]).
Definition name (p : channelBookingPayload) : string :=
  let n := TrimSpace (p_GuestName p) in
  if n !=s "" then n else TrimSpace (TrimSpace (p_FirstName p) ++ " " ++ TrimSpace (p_LastName p)).
Definition email (p : channelBookingPayload) : string := TrimSpace (firstNonEmpty [p_GuestEmail p; p_Email p]).
Definition phone (p : channelBookingPayload) : string := TrimSpace (firstNonEmpty [p_GuestPhone p; p_Phone p]).
Definition checkIn (p : channelBookingPayload) : string := TrimSpace (firstNonEmpty [p_CheckIn p; p_CheckInDate p]).
Definition checkOut (p : channelBookingPayload) : string := TrimSpace (firstNonEmpty [p_CheckOut p; p_CheckOutDate p]).
Definition total (p : channelBookingPayload) : Q := if flt 0 (p_Total p) then p_Total p else p_TotalPrice p.

(** json.Unmarshal of the body into the payload: None when it is not such JSON *)
Class Json := { unmarshal_booking : string -> option channelBookingPayload }.

(** ** Connections and signatures *)

Record channelConnection := { cn_ID : uuid; cn_HotelID : uuid; cn_Name : string; cn_APIKey : string; cn_Active : bool }.

Definition verifySignature (body secret provided0 : string) : bool :=
  let provided := TrimPrefix (TrimSpace provided0) "sha256=" in
  if (secret =s "") || (provided =s "") then false
  else hex_string (hmac_sha256 (bytes secret) (bytes body)) =s provided.

(** A request: the path parameters, the body and the X-Signature header. *)
Record ChannelRequest := { cq_connectionID : string; cq_ref : string; cq_body : string; cq_signature : string }.

Inductive ChannelBody :=
  | CB_duplicate (externalRef : string) (reservationID : option uuid)
  | CB_accepted (externalRef : string) (deliveryID : uuid)
  | CB_delivery (externalRef status : string) (reservationID : option uuid) (commission : Q) (error : option string)
  | CB_cancel (status externalRef : string).

(** What the closure handed to the worker pool holds. *)
Record ingestJob := { ij_cc : channelConnection; ij_payload : channelBookingPayload; ij_ref : string; ij_record : uuid }.

(** ** Statements *)

(** channel_bookings_external_key *)
Definition delivery_key (hotelID : uuid) (channel ref : string) (r : ChannelBookingRow) : bool :=
  ueq (cb_hotel_id r) hotelID && (cb_channel_name r =s channel) && (cb_external_ref r =s ref).
Definition delivery_id (id : uuid) (r : ChannelBookingRow) : bool := ueq (cb_id r) id.

(** INSERT ... ON CONFLICT (hotel_id, channel_name, external_ref) DO UPDATE SET
    status = channel_bookings.status RETURNING id, status, guest_stay_id *)
Definition store_delivery (row : ChannelBookingRow) (d : DB) : GoErr + (ChannelBookingRow * DB) :=
  match find_row (delivery_key (cb_hotel_id row) (cb_channel_name row) (cb_external_ref row)) (channel_bookings d) with
  | Some r => inr (r, d)
  | None =>
      if exists_row (delivery_id (cb_id row)) (channel_bookings d) then inl (ErrPg "23505")
      else inr (row, d <| channel_bookings ::= insert_row row |>)
  end.

Definition update_delivery (p : ChannelBookingRow -> bool) (f : ChannelBookingRow -> ChannelBookingRow) (d : DB)
  : GoErr + (unit * DB) :=
  if exists_row (fun r => p r && negb (money_fits (cb_commission (f r)))) (channel_bookings d) then inl (ErrPg "22003")
  else inr (tt, d <| channel_bookings ::= update_rows p f |>).

Section Ingest.
Context {env : Env} {json : Json}.

Definition lookupConnection (id : uuid) : M GoErr channelConnection :=
  r ← query_row Pool (fun d => find_row (fun c => ueq (cc_id c) id) (channel_connections d));
  mret {| cn_ID := cc_id r; cn_HotelID := cc_hotel_id r; cn_Name := cc_channel_name r;
          cn_APIKey := default "" (cc_api_key r); cn_Active := cc_connected r |}.

(** The connection of a signed request; the same answer whichever check fails. *)
Definition authenticated (c : ChannelRequest) : M (Resp ChannelBody) channelConnection :=
  connID ← of_option (uuid_parse (cq_connectionID c)) (RespError 400 "invalid channel connection id");
  cc ← lookupConnection connID onerr (fun _ => RespError 401 "unauthorized channel");
  throw_if (negb (verifySignature (cq_body c) (cn_APIKey cc) (cq_signature c))) (RespError 401 "unauthorized channel") ;;
  mret cc.

(** ** process *)

(** The room a booking gets: the first free one of the wanted type. *)
Definition choose_room (wanted : string) (rooms : list Room) : option Room :=
  List.find (fun r => (wanted =s "") || EqualFold (TrimSpace (R_RoomType r)) wanted) rooms.

(** The channel's price, or the rate card when it sends none. *)
Definition channel_quote (p : channelBookingPayload) (quote : stayQuote) : stayQuote :=
  if flt 0 (total p)
  then let tax := round2 (p_TaxAmount p) in
       {| Nights := Nights quote; RoomRate := RoomRate quote; BaseTotal := round2 (fsub (total p) tax); Discount := 0;
          TaxRate := TaxRate quote; QTaxAmount := tax; QPayable := round2 (total p) |}
  else quote.

Definition no_room (p : channelBookingPayload) (wanted : string) (ci co : Time) : GoErr :=
  if wanted !=s "" then Errorf ("no " ++ p_RoomType p ++ " room is free for " ++ fmt_date ci ++ " to " ++ fmt_date co)
  else Errorf ("no room is free for " ++ fmt_date ci ++ " to " ++ fmt_date co).

Definition ota_stay (cc : channelConnection) (p : channelBookingPayload) (room : Room) (ci co : Time) (quote : stayQuote)
  (confirmationNo : string) : GuestStay :=
  {| ID := uuid_nil; HotelID := uuid_nil; GuestID := None; RoomID := R_ID room; GuestName := name p;
     GuestEmail := nullif (email p); GuestPhone := nullif (phone p); CheckInDate := ci; CheckOutDate := co;
     ActualCheckIn := None; ActualCheckOut := None; TotalAmount := Some (BaseTotal quote);
     Notes := nullif (TrimSpace (p_Notes p)); Source := Some (cn_Name cc); CreatedBy := None;
     CreatedAt := {| t_ns := 0; t_off := 0 |}; UpdatedAt := {| t_ns := 0; t_off := 0 |}; SRoom := None;
     Status := ReservationConfirmed; ConfirmationNo := Some confirmationNo; CancelledAt := None;
     CancellationReason := None; CancellationFee := 0; Adults := if p_Adults p <=? 0 then 1 else p_Adults p;
     Children := p_Children p; ApproachType := "ota"; DiscountAmount := 0; TaxAmount := QTaxAmount quote; PromoCode := None |}.

(** The receivable the channel owes, and the commission owed to it. *)
Definition post_booking (ctx : Conn) (cc : channelConnection) (guest externalRef confirmationNo : string)
  (quote : stayQuote) : M GoErr unit :=
  postJournal ctx (cn_HotelID cc) (cn_Name cc ++ " booking — " ++ guest ++ " (" ++ externalRef ++ ")")
    ("FOLIO " ++ confirmationNo)
    [ dr "1200" (QPayable quote) ("Receivable — " ++ cn_Name cc);
      cr "4000" (round2 (BaseTotal quote)) ("Room revenue (" ++ cn_Name cc ++ ")");
      cr "2100" (QTaxAmount quote) "GST on room revenue" ] onerr Wrap "ota ledger" ;;
  mret tt.
Definition post_commission (ctx : Conn) (cc : channelConnection) (externalRef confirmationNo : string) (commission : Q)
  : M GoErr unit :=
  postJournal ctx (cn_HotelID cc) (cn_Name cc ++ " commission — " ++ externalRef) ("COMM " ++ confirmationNo)
    [ dr "5100" commission (cn_Name cc ++ " commission"); cr "2000" commission ("Payable to " ++ cn_Name cc) ]
    onerr Wrap "ota commission" ;;
  mret tt.

(** Once per confirmation number; the customer first, so that the receivable has a name. *)
Definition post_ota (ctx : Conn) (cc : channelConnection) (p : channelBookingPayload) (externalRef confirmationNo : string)
  (quote : stayQuote) (commission : Q) : M GoErr unit :=
  posted ← alreadyPosted ctx (cn_HotelID cc) ("FOLIO " ++ confirmationNo);
  if posted : bool then mret tt
  else
    ensureAccountingCustomer ctx (cn_HotelID cc)
      {| cd_Name := name p; cd_Phone := phone p; cd_Email := email p; cd_GSTIN := "" |} onerr Wrap "ota customer" ;;
    post_booking ctx cc (name p) externalRef confirmationNo quote ;;
    if flt 0 commission then post_commission ctx cc externalRef confirmationNo commission else mret tt.

Definition process_tx (cc : channelConnection) (p : channelBookingPayload) (externalRef : string) (ci co : Time)
  (commission : Q) (ctx : Conn) : M GoErr uuid :=
  rooms ← ListRoomsAvailableBetween ctx (cn_HotelID cc) ci co onerr Wrap "could not check availability";
  let wanted := TrimSpace (ToLower (p_RoomType p)) in
  chosen ← of_option (choose_room wanted rooms) (no_room p wanted ci co);
  EnsureGuest ctx (cn_HotelID cc) (name p) (email p) (phone p) ;;
  r ← attempt (HotelGSTRate ctx (cn_HotelID cc));
  let taxRate := match r with inr rate => rate | inl _ => 0%Q end in
  let quote := channel_quote p (priceStay (R_PricePerNight chosen) ci co taxRate 0) in
  cid ← new_uuid;
  let confirmationNo := newConfirmationNo ci cid in
  created ← CreateStay ctx (cn_HotelID cc) (ota_stay cc p chosen ci co quote confirmationNo)
    onerr (fun e => if isOverlapViolation e
                    then Errorf ("room " ++ R_RoomNumber chosen ++ " was taken for those dates while the booking was being processed")
                    else e);
  post_ota ctx cc p externalRef confirmationNo quote commission ;;
  mret (ID created).

Definition process (cc : channelConnection) (p : channelBookingPayload) (externalRef : string) : M GoErr (uuid * Q) :=
  throw_if (name p =s "") (Errorf "guest name is required") ;;
  throw_if ((email p =s "") && (phone p =s "")) (Errorf "a guest email or phone is required to identify the booker") ;;
  ci ← of_option (parse_date (checkIn p)) (Errorf ("invalid check-in date " ++ fmt_q (checkIn p) ++ " (use YYYY-MM-DD)"));
  co ← of_option (parse_date (checkOut p)) (Errorf ("invalid check-out date " ++ fmt_q (checkOut p) ++ " (use YYYY-MM-DD)"));
  throw_if (negb (After co ci)) (Errorf "check-out must be after check-in") ;;
  let commission := round2 (p_Commission p) in
  stayID ← WithTenantTx (process_tx cc p externalRef ci co commission);
  mret (stayID, commission).
(** ** The background job *)

Definition mark_failed (id : uuid) (msg : string) (now : Time) : DB -> GoErr + (unit * DB) :=
  update_delivery (delivery_id id) (fun r => r <| cb_status := "failed" |> <| cb_error := Some msg |> <| cb_processed_at := Some now |>).
Definition mark_processed (id stayID : uuid) (commission : Q) (now : Time) : DB -> GoErr + (unit * DB) :=
  update_delivery (delivery_id id)
    (fun r => r <| cb_status := "processed" |> <| cb_guest_stay_id := Some stayID |> <| cb_commission := num_enc commission |>
                <| cb_error := None |> <| cb_processed_at := Some now |>).
Definition touch_connection (id : uuid) (now : Time) (d : DB) : GoErr + (unit * DB) :=
  inr (tt, d <| channel_connections ::= update_rows (fun c => ueq (cc_id c) id) (fun c => c <| cc_last_sync_at := Some now |>) |>).

Definition run_ingest (job : ingestJob) : M GoErr unit :=
  r ← attempt (process (ij_cc job) (ij_payload job) (ij_ref job));
  now ← time_now;
  match r with
  | inl procErr => attempt (exec Pool (mark_failed (ij_record job) (err_text procErr) now)) ;; throw procErr
  | inr (stayID, commission) =>
      attempt (exec Pool (mark_processed (ij_record job) stayID commission now)) ;;
      t ← time_now;
      attempt (exec Pool (touch_connection (cn_ID (ij_cc job)) t)) ;;
      mret tt
  end.

(** ** Handlers *)

(** Ingest answers, and may hand a job to the worker pool. *)
Definition Ingest (c : ChannelRequest) : M (Resp ChannelBody) (Resp ChannelBody * option ingestJob) :=
  cc ← authenticated c;
  throw_if (negb (cn_Active cc)) (RespError 403 "channel connection is disabled") ;;
  payload ← of_option (unmarshal_booking (cq_body c)) (RespError 400 "invalid JSON payload");
  let externalRef := ref payload in
  throw_if (externalRef =s "") (RespError 422 "external_ref (or reservation_id / booking_id / ref) is required") ;;
  recordID ← new_uuid; now ← time_now;
  row ← exec Pool (store_delivery
    {| cb_id := recordID; cb_hotel_id := cn_HotelID cc; cb_connection_id := Some (cn_ID cc); cb_channel_name := cn_Name cc;
       cb_external_ref := externalRef; cb_payload := cq_body c; cb_status := "received"; cb_guest_stay_id := None;
       cb_commission := 0; cb_error := None; cb_received_at := now; cb_processed_at := None |})
    onerr (fun _ => RespError 500 "failed to record delivery");
  if cb_status row =s "processed"
  then mret (RespOK (CB_duplicate externalRef (cb_guest_stay_id row)), None)
  else mret (RespAccepted (CB_accepted externalRef (cb_id row)),
             Some {| ij_cc := cc; ij_payload := payload; ij_ref := externalRef; ij_record := cb_id row |}).

Definition lookup_failed (e : GoErr) : Resp ChannelBody :=
  if errors_is e ErrNoRows then RespError 404 "no delivery with that reference" else RespError 500 "lookup failed".
Definition DeliveryStatus (c : ChannelRequest) : M (Resp ChannelBody) (Resp ChannelBody) :=
  cc ← authenticated c;
  let r := TrimSpace (cq_ref c) in
  throw_if (r =s "") (RespError 400 "external reference is required") ;;
  row ← query_row Pool (fun d => find_row (delivery_key (cn_HotelID cc) (cn_Name cc) r) (channel_bookings d)) onerr lookup_failed;
  mret (RespOK (CB_delivery r (cb_status row) (cb_guest_stay_id row) (num_dec (cb_commission row)) (cb_error row))).

(** Both legs of the booking's postings, reversed. *)
Definition reverse_booking {E} (cc : channelConnection) (externalRef confirmation : string) : M E unit :=
  for_each (fun r => attempt (reverseJournalsByReference Pool (cn_HotelID cc) r (cn_Name cc ++ " cancellation — " ++ externalRef)) ;; mret tt)
    ["FOLIO " ++ confirmation; "COMM " ++ confirmation].

Definition Cancel (c : ChannelRequest) : M (Resp ChannelBody) (Resp ChannelBody) :=
  cc ← authenticated c;
  payload ← of_option (unmarshal_booking (cq_body c)) (RespError 400 "invalid JSON payload");
  let externalRef := ref payload in
  throw_if (externalRef =s "") (RespError 422 "external_ref is required") ;;
  row ← query_row Pool (fun d => find_row (delivery_key (cn_HotelID cc) (cn_Name cc) externalRef) (channel_bookings d))
    onerr (fun e => if errors_is e ErrNoRows then RespError 404 "no booking with that reference" else RespError 500 "lookup failed");
  stayID ← of_option (cb_guest_stay_id row) (RespError 409 "that delivery never produced a reservation");
  stay ← FindStayByID Pool (cn_HotelID cc) stayID onerr (fun _ => RespError 404 "reservation not found");
  throw_if (bool_decide (is_Some (ActualCheckIn stay)))
    (RespError 409 "the guest has already checked in — cancel at the front desk") ;;
  SoftCancelStay Pool (cn_HotelID cc) stayID (cn_Name cc ++ " cancellation (" ++ externalRef ++ ")") 0 None
    onerr (fun e => if errors_is e ErrNotFound then RespOK (CB_cancel "already_cancelled" externalRef) else RespError 500 "cancel failed") ;;
  active ← attempt (RoomHasActiveStay Pool (cn_HotelID cc) (RoomID stay));
  match active with
  | inr false => attempt (UpdateRoomStatus Pool (cn_HotelID cc) (RoomID stay) RoomStatusAvailable) ;; mret tt
  | _ => mret tt
  end ;;
  (if opt_str (ConfirmationNo stay) !=s "" then reverse_booking cc externalRef (opt_str (ConfirmationNo stay)) else mret tt) ;;
  now ← time_now;
  attempt (exec Pool (update_delivery (delivery_key (cn_HotelID cc) (cn_Name cc) externalRef)
    (fun r => r <| cb_status := "cancelled" |> <| cb_processed_at := Some now |>))) ;;
  mret (RespOK (CB_cancel "cancelled" externalRef)).
End Ingest.

(** ** The server: requests, and the worker pool running their jobs *)

Record Server := { sv_world : World; sv_process : @Process ingestJob }.

Inductive ChannelEvent :=
  | Deliver (c : ChannelRequest) | AskStatus (c : ChannelRequest) | CancelBooking (c : ChannelRequest)
  | JobReturns (i : nat)                     (* worker i finishes the job it is executing *)
  | DetachedReturns (i : nat)                (* so does a goroutine of SubmitOrRun's own *)
  | PoolEvent (e : @Event ingestJob).

Section Server.
Context {env : Env} {json : Json}.

Definition run_job (job : ingestJob) (w : World) : Outcome * World :=
  match run_ingest job w with (inl _, w') => (RunError, w') | (inr _, w') => (RunOk, w') end.

(** A job is handed over under its name; a panic of the send is the request's own. *)
Definition hand_over (o : option ingestJob) (p : @Process ingestJob) : @Process ingestJob :=
  match o with Some job => default p (SubmitOrRun {| Name := "channel.ingest"; Run := job |} p) | None => p end.

Definition channel_step (e : ChannelEvent) (s : Server) : Server :=
  match e with
  | Deliver c =>
      match Ingest c (sv_world s) with
      | (inl _, w) => s <| sv_world := w |>
      | (inr (_, o), w) => {| sv_world := w; sv_process := hand_over o (sv_process s) |}
      end
  | AskStatus c => s <| sv_world := snd (serve (DeliveryStatus c) (sv_world s)) |>
  | CancelBooking c => s <| sv_world := snd (serve (Cancel c) (sv_world s)) |>
  | JobReturns i =>
      match Default (sv_process s) with
      | Some p =>
          match loops p !! i with
          | Some (Executing job) =>
              let (o, w) := run_job (Run job) (sv_world s) in
              {| sv_world := w; sv_process := default (sv_process s) (move (Worker (Return i o)) (sv_process s)) |}
          | _ => s
          end
      | None => s
      end
  | DetachedReturns i =>
      match detached (sv_process s) !! i with
      | Some job => {| sv_world := snd (run_job (Run job) (sv_world s));
                       sv_process := default (sv_process s) (move (RunDetached i) (sv_process s)) |}
      | None => s
      end
  | PoolEvent e =>
      match e with
      | Send _ | Return _ _ => s
      | _ => s <| sv_process := default (sv_process s) (move (Worker e) (sv_process s)) |>
      end
  end.

Definition channel_steps (es : list ChannelEvent) (s : Server) : Server := foldl (fun s e => channel_step e s) s es.
End Server.
