(* ===== verification/ChannelSpec.v ===== *)
(** ChannelSpec: what the channel webhook keeps true, what a processed booking
    leaves, and where redelivery is not idempotent. *)

From S2P Require Import Prelude WorkerPool GoLib GoCrypto Schema Binary64 World Auth Guards Domain RoomRepo Ledger Customers Pricing Settlement Reservations FrontDesk ChannelIngest.
From Stdlib Require Import QArith.
Local Open Scope string_scope.
Local Open Scope Z_scope.

#[export] Hint Resolve inert_WithTenantTx : keeps.

(** ** Deliveries *)

(** The identity of a delivery never changes, and neither does what arrived. *)
Definition delivery_after (r r' : ChannelBookingRow) : Prop :=
  cb_id r' = cb_id r /\ cb_hotel_id r' = cb_hotel_id r /\ cb_channel_name r' = cb_channel_name r
  /\ cb_external_ref r' = cb_external_ref r /\ cb_payload r' = cb_payload r /\ cb_received_at r' = cb_received_at r.
Definition same_delivery (a b : ChannelBookingRow) : Prop :=
  cb_id a = cb_id b
  \/ cb_hotel_id a = cb_hotel_id b /\ cb_channel_name a = cb_channel_name b /\ cb_external_ref a = cb_external_ref b.
Definition on_file (hotelID id : uuid) (d : DB) : Prop :=
  exists s, In s (guest_stays d) /\ gs_id s = id /\ gs_hotel_id s = hotelID.

Record deliveries_ok (d : DB) : Prop := {
  dl_keys : exclusive same_delivery (channel_bookings d);
  dl_done : forall r, In r (channel_bookings d) -> cb_status r = "processed" \/ cb_status r = "cancelled" ->
              is_Some (cb_guest_stay_id r);
  dl_stays : forall r id, In r (channel_bookings d) -> cb_guest_stay_id r = Some id -> on_file (cb_hotel_id r) id d }.

Record channel_inv (d0 d : DB) : Prop := {
  ci_ok : deliveries_ok d;
  ci_deliveries : persists delivery_after (channel_bookings d0) (channel_bookings d);
  ci_stays : forall h id, on_file h id d0 -> on_file h id d }.

Lemma delivery_after_refl r : delivery_after r r.
Proof. repeat split. Qed.
Lemma delivery_after_trans a b c : delivery_after a b -> delivery_after b c -> delivery_after a c.
Proof. unfold delivery_after. intuition congruence. Qed.
#[export] Hint Resolve delivery_after_refl : keeps.

(** Other tables, and stays that are not lost. *)
Definition aside (d d' : DB) : Prop :=
  channel_bookings d' = channel_bookings d /\ forall h id, on_file h id d -> on_file h id d'.

Lemma aside_refl d : aside d d.
Proof. split; auto. Qed.
Lemma aside_trans a b c : aside a b -> aside b c -> aside a c.
Proof. intros [E1 H1] [E2 H2]. split; [congruence | auto]. Qed.
Lemma aside_same d d' : channel_bookings d' = channel_bookings d -> guest_stays d' = guest_stays d -> aside d d'.
Proof. intros E1 E2. split; [exact E1|]. unfold on_file. now rewrite E2. Qed.

Lemma aside_inv d0 d d' : aside d d' -> channel_inv d0 d -> channel_inv d0 d'.
Proof.
  intros [E H] [[H1 H2 H3] H4 H5]. split; [split | |]; rewrite ?E; auto.
Qed.

Lemma update_inv d0 d p f :
  channel_inv d0 d -> (forall r, In r (channel_bookings d) -> p r = true -> delivery_after r (f r)
    /\ (cb_status (f r) = "processed" \/ cb_status (f r) = "cancelled" -> is_Some (cb_guest_stay_id (f r)))
    /\ (forall id, cb_guest_stay_id (f r) = Some id -> on_file (cb_hotel_id r) id d)) ->
  channel_inv d0 (d <| channel_bookings ::= update_rows p f |>).
Proof.
  intros [[H1 H2 H3] H4 H5] Hf.
  assert (Haft : forall r, In r (channel_bookings d) -> delivery_after r (if p r then f r else r)).
  { intros r Hr. destruct (p r) eqn:E; [now apply Hf | apply delivery_after_refl]. }
  split; [split | |]; cbn [channel_bookings guest_stays set].
  - apply exclusive_update; [exact H1|]. intros a b Ha Hb.
    destruct (Haft a Ha) as (A1 & A2 & A3 & A4 & _), (Haft b Hb) as (B1 & B2 & B3 & B4 & _).
    unfold same_delivery. rewrite A1, A2, A3, A4, B1, B2, B3, B4. auto.
  - intros r (r0 & Hr & ->)%in_update_rows. destruct (p r0) eqn:E; [now apply Hf | auto].
  - intros r id (r0 & Hr & ->)%in_update_rows.
    destruct (Haft r0 Hr) as (_ & -> & _). unfold on_file. cbn. destruct (p r0) eqn:E; [now apply Hf | now apply H3].
  - eapply persists_trans; [apply delivery_after_trans | exact H4|]. intros r Hr. exists (if p r then f r else r).
    split; [apply in_update_rows; eauto | auto].
  - exact H5.
Qed.

Lemma store_inv d0 d row r d' :
  channel_inv d0 d -> cb_status row = "received" -> cb_guest_stay_id row = None ->
  store_delivery row d = inr (r, d') -> channel_inv d0 d' /\ In r (channel_bookings d').
Proof.
  intros [[H1 H2 H3] H4 H5] Hs Hn. unfold store_delivery.
  destruct (find_row _ _) as [x|] eqn:Ef.
  - intros [= <- <-]. split; [split; [split|..]; assumption | now apply find_row_some in Ef].
  - destruct (exists_row _ _) eqn:Ei; [discriminate|]. intros [= <- <-]. rewrite exists_row_false in Ei.
    split; [split; [split|..] | apply in_insert_row; auto]; cbn [channel_bookings guest_stays set].
    + apply exclusive_insert; [exact H1|]. intros o Ho.
      assert (Hne : ~ same_delivery o row).
      { intros [E|(E1 & E2 & E3)].
        - specialize (Ei o Ho). unfold delivery_id, ueq in Ei. rewrite E, N.eqb_refl in Ei. discriminate.
        - pose proof (find_row_none _ _ _ Ef Ho) as Hk. unfold delivery_key, ueq in Hk.
          rewrite E1, E2, E3, N.eqb_refl, !String.eqb_refl in Hk. discriminate. }
      split; [exact Hne|]. intros Hc. apply Hne. destruct Hc as [E|(E1 & E2 & E3)]; [left | right]; auto.
    + intros x [Hx| ->]%in_insert_row; [auto|]. rewrite Hs. intros [E|E]; discriminate E.
    + intros x id [Hx| ->]%in_insert_row E; [exact (H3 x id Hx E) | congruence].
    + eapply persists_trans; [apply delivery_after_trans | exact H4 | apply persists_insert, delivery_after_refl].
    + exact H5.
Qed.

(** ** The transaction of a booking *)

Section Booking.
Context {env : Env}.

Lemma runs_attempt_gst {E} c h d (R : E -> Prop) : runs c (attempt (HotelGSTRate c h)) d (fun _ d' => d' = d) R.
Proof.
  unfold HotelGSTRate. intros w Hw. unfold attempt, query, mbind, M_bind, exec, faulty, spoiled, sees in *. destruct c; cbn in *.
  - destruct Hw as [Ht <-]. destruct (db_fault (w_stmts w)) eqn:Ef; cbn; [right; eauto|].
    destruct (_ <$> _); cbn; left; exists (w_db w); rewrite ?Ht; auto.
  - rewrite Hw. destruct (db_fault (w_stmts w)) eqn:Ef; cbn; [right; eauto|].
    destruct (_ <$> _); cbn; left; exists d; auto.
Qed.

Lemma inert_EnsureGuest c h n e p : inert c (EnsureGuest c h n e p).
Proof. unfold EnsureGuest, lookup_guest. inert_go. Qed.
Lemma inert_customer c h det : inert c (ensureAccountingCustomer c h det).
Proof. unfold ensureAccountingCustomer, create_customer, nextCustomerCode. inert_go. Qed.
Lemma inert_postJournal c h desc ref ls : inert c (postJournal c h desc ref ls).
Proof. unfold postJournal, ensureChartOfAccounts, numbered, nextVoucherNo, insert_entry, post_line, insert_line. inert_go. Qed.
Lemma inert_gst c h : inert c (HotelGSTRate c h).
Proof. unfold HotelGSTRate. inert_go. Qed.
Lemma inert_alreadyPosted {E} c h r : inert c (alreadyPosted c h r : M E bool).
Proof. unfold alreadyPosted. inert_go. Qed.
End Booking.
#[export] Hint Resolve inert_EnsureGuest inert_customer inert_postJournal inert_gst inert_alreadyPosted : keeps.

(** The stay a booking writes, and the tables its postings may touch. *)
Definition booked (hid id : uuid) (d d' : DB) : Prop :=
  exists g row, gs_id row = id /\ gs_hotel_id row = hid
    /\ settles_only (d <| guests := g |> <| guest_stays ::= insert_row row |>) d'.

Section Processing.
Context {env : Env}.

Lemma settles_customers d d' : customers_only d d' -> settles_only d d'.
Proof.
  intros [cu ->]. exists cu, (payments d), (invoices d), (invoice_lines d), (accounts d), (voucher_counters d),
    (journal_entries d), (journal_lines d). destruct d; reflexivity.
Qed.
Lemma settles_ledger d d' : ledger_only d d' -> settles_only d d'.
Proof.
  intros (a & v & e & l & ->). exists (customers d), (payments d), (invoices d), (invoice_lines d), a, v, e, l. destruct d; reflexivity.
Qed.
Lemma settles_trans d1 d2 d3 : settles_only d1 d2 -> settles_only d2 d3 -> settles_only d1 d3.
Proof.
  intros (a1 & a2 & a3 & a4 & a5 & a6 & a7 & a8 & ->) (b1 & b2 & b3 & b4 & b5 & b6 & b7 & b8 & ->).
  exists b1, b2, b3, b4, b5, b6, b7, b8. destruct d1; reflexivity.
Qed.

Lemma post_booking_frame cc guest r no q d :
  runs Tx (post_booking Tx cc guest r no q) d (fun _ d' => settles_only d d') (fun _ => True).
Proof.
  unfold post_booking. eapply runs_bind; [apply runs_on_err, postJournal_frame | intros; inert_go|].
  intros j d1 H. apply runs_ret. now apply settles_ledger.
Qed.
Lemma post_commission_frame cc r no k d :
  runs Tx (post_commission Tx cc r no k) d (fun _ d' => settles_only d d') (fun _ => True).
Proof.
  unfold post_commission. eapply runs_bind; [apply runs_on_err, postJournal_frame | intros; inert_go|].
  intros j d1 H. apply runs_ret. now apply settles_ledger.
Qed.
Lemma inert_post_booking cc guest r no q : inert Tx (post_booking Tx cc guest r no q).
Proof. unfold post_booking. inert_go. Qed.
Lemma inert_post_commission cc r no k : inert Tx (post_commission Tx cc r no k).
Proof. unfold post_commission. inert_go. Qed.
Lemma inert_post_ota cc p r no q k : inert Tx (post_ota Tx cc p r no q k).
Proof. unfold post_ota. inert_go; auto using inert_post_booking, inert_post_commission. Qed.

Lemma post_ota_frame cc p r no q k d :
  runs Tx (post_ota Tx cc p r no q k) d (fun _ d' => settles_only d d') (fun _ => True).
Proof.
  unfold post_ota. eapply runs_bind; [apply alreadyPosted_runs | intros; inert_go; auto using inert_post_booking, inert_post_commission|].
  intros b d0 [-> _]. destruct b; [apply runs_ret, settles_only_refl|].
  eapply runs_bind; [apply runs_on_err, customers_frame | intros; inert_go; auto using inert_post_booking, inert_post_commission|].
  intros cu d1 Hcu. pose proof (settles_customers _ _ Hcu) as H1.
  eapply runs_bind; [apply post_booking_frame | intros; inert_go; auto using inert_post_commission|].
  intros [] d2 H2. pose proof (settles_trans _ _ _ H1 H2) as H3. destruct (flt 0 k); [|now apply runs_ret].
  eapply runs_post; [apply post_commission_frame|]. intros u d3 H4. exact (settles_trans _ _ _ H3 H4).
Qed.

(** What the transaction of a booking does, up to what its postings do. *)
Definition taken (cc : channelConnection) (p : channelBookingPayload) (ci co : Time) (d : DB) (room : Room) : Prop :=
  choose_room (TrimSpace (ToLower (p_RoomType p)))
    (scanRooms (order_by by_floor_number (available_rows (cn_HotelID cc) ci co d))) = Some room.

Lemma process_tx_runs cc p r ci co k d (P : string -> stayQuote -> DB -> DB -> Prop) :
  (forall no room rate g row, let d1 := d <| guests := g |> <| guest_stays ::= insert_row row |> in
     let q := channel_quote p (priceStay (R_PricePerNight room) ci co rate 0) in
     runs Tx (post_ota Tx cc p r no q k) d1 (fun _ d' => P no q d1 d') (fun _ => True)) ->
  runs Tx (process_tx cc p r ci co k Tx) d (fun id d' => exists room rate n now g no,
      let q := channel_quote p (priceStay (R_PricePerNight room) ci co rate 0) in
      let row := stay_row (uuid_new n) (cn_HotelID cc) now (ota_stay cc p room ci co q no) in
      taken cc p ci co d room /\ stay_violation row (guest_stays d) = None /\ id = uuid_new n
      /\ P no q (d <| guests := g |> <| guest_stays ::= insert_row row |>) d')
    (fun _ => True).
Proof.
  intros Hpost. pose proof inert_post_ota as Hip.
  assert (Hic : forall s, inert Tx (CreateStay Tx (cn_HotelID cc) s)) by (intros; unfold CreateStay; inert_go).
  unfold process_tx, ListRoomsAvailableBetween.
  eapply runs_bind; [apply runs_on_err, runs_on_err, runs_query with (Q := fun a d' => d' = d
      /\ a = scanRooms (order_by by_floor_number (available_rows (cn_HotelID cc) ci co d))); auto
    | intros; repeat (first [apply Hip | apply Hic | inert_step]) |].
  intros rs d0 [-> ->]. apply runs_then_of_option; [intros; repeat (first [apply Hip | apply Hic | inert_step])|].
  destruct (choose_room _ _) as [room|] eqn:Eroom; [|exact I].
  eapply runs_bind; [apply EnsureGuest_runs | intros; repeat (first [apply Hip | apply Hic | inert_step])|]. intros gid d1 [g ->].
  eapply runs_bind; [apply runs_attempt_gst | intros; repeat (first [apply Hip | apply Hic | inert_step])|]. intros gst d1 ->.
  set (rate := match gst with inr rate => rate | inl _ => 0%Q end).
  apply runs_uuid; [intros; repeat (first [apply Hip | apply Hic | inert_step])|]. intros m.
  eapply runs_bind; [apply runs_on_err, CreateStay_runs | intros; repeat (first [apply Hip | inert_step])|].
  intros created d1 (n & now & Hv & -> & ->).
  eapply runs_bind; [apply Hpost | intros; inert_go|]. intros [] d2 HP. apply runs_ret.
  exists room, rate, n, (clock now), g, (newConfirmationNo ci (uuid_new m)). auto.
Qed.
End Processing.
#[export] Hint Resolve inert_post_booking inert_post_commission inert_post_ota : keeps.

Section Invariant.
Context {env : Env} {json : Json}.

Lemma local_process_tx cc p r ci co k : tx_local (process_tx cc p r ci co k Tx).
Proof.
  intros d0. unfold process_tx, ListRoomsAvailableBetween, EnsureGuest, lookup_guest, HotelGSTRate, CreateStay, post_ota, alreadyPosted,
    ensureAccountingCustomer, create_customer, nextCustomerCode, post_booking, post_commission, postJournal, ensureChartOfAccounts,
    numbered, nextVoucherNo, insert_entry, post_line, insert_line.
  keeps_go.
Qed.

Lemma booked_aside hid id d d' : booked hid id d d' -> aside d d' /\ on_file hid id d'.
Proof.
  intros (g & row & E1 & E2 & (a1 & a2 & a3 & a4 & a5 & a6 & a7 & a8 & ->)). split.
  - split; [reflexivity|]. intros h i (s & Hs & H). exists s. split; [apply in_insert_row; left; exact Hs | exact H].
  - exists row. split; [apply in_insert_row; right; reflexivity | auto].
Qed.

(** A booking is made whole, or nothing is. *)
Lemma process_ens cc p r d :
  ensures (process cc p r) d (fun res d' => booked (cn_HotelID cc) (fst res) d d') (fun _ d' => d' = d).
Proof.
  unfold process. do 2 (apply ens_then_throw_if; [auto|]; intros _). do 2 (apply ens_then_option; [auto|]; intros ? _).
  apply ens_then_throw_if; [auto|]; intros _.
  eapply ens_bind; [apply ens_WithTenantTx with (Q := fun id d' => booked (cn_HotelID cc) id d d'); [|apply local_process_tx | auto] |].
  - eapply runs_post; [apply process_tx_runs with (P := fun _ _ d1 d' => settles_only d1 d'); intros; apply post_ota_frame|].
    intros id d' (room & rate & n & now & g & no & _ & _ & -> & H). exists g. eexists. split; [|split; [|exact H]]; reflexivity.
  - intros id d1 H. apply ens_ret. exact H.
Qed.

(** The job knows the row it will mark. *)
Definition job_ok (d : DB) (job : ingestJob) : Prop :=
  exists r, In r (channel_bookings d) /\ cb_id r = ij_record job /\ cb_hotel_id r = cn_HotelID (ij_cc job).

Lemma job_ok_after d d' job : persists delivery_after (channel_bookings d) (channel_bookings d') -> job_ok d job -> job_ok d' job.
Proof.
  intros H (r & Hr & E1 & E2). destruct (H r Hr) as (r' & Hr' & A1 & A2 & _). exists r'. split; [exact Hr'|]. split; congruence.
Qed.

Lemma update_delivery_inv d0 d p f d' :
  channel_inv d0 d -> (forall r, In r (channel_bookings d) -> p r = true -> delivery_after r (f r)
    /\ (cb_status (f r) = "processed" \/ cb_status (f r) = "cancelled" -> is_Some (cb_guest_stay_id (f r)))
    /\ (forall id, cb_guest_stay_id (f r) = Some id -> on_file (cb_hotel_id r) id d)) ->
  update_delivery p f d = inr (tt, d') -> channel_inv d0 d'.
Proof. unfold update_delivery. intros HI Hf. destruct (exists_row _ _); [discriminate|]. intros [= <-]. now apply update_inv. Qed.

Lemma ens_attempt_update {E} d p f (Q : DB -> Prop) (R : E -> DB -> Prop) :
  Q d -> (forall d', update_delivery p f d = inr (tt, d') -> Q d') ->
  ensures (attempt (exec Pool (update_delivery p f)) : M E _) d (fun _ d' => Q d') R.
Proof.
  intros H0 H. apply ens_attempt, ens_exec; [exact H0|]. destruct (update_delivery p f d) as [e|[[] d']] eqn:E1; auto.
Qed.

Lemma run_ingest_ens d0 job d : channel_inv d0 d -> job_ok d job ->
  ensures (run_ingest job) d (fun _ d' => channel_inv d0 d') (fun _ d' => channel_inv d0 d').
Proof.
  intros HI Hj. unfold run_ingest.
  eapply ens_bind with (Q1 := fun res d' => channel_inv d0 d' /\ job_ok d' job
      /\ match res with inr (id, _) => on_file (cn_HotelID (ij_cc job)) id d' | inl _ => True end).
  { apply ens_attempt. eapply ens_post; [apply process_ens | |]; cbn.
    - intros [id k] d' [Ha Hf]%booked_aside. split; [eapply aside_inv; eassumption|]. split; [|exact Hf].
      unfold job_ok. destruct Ha as [-> _]. exact Hj.
    - intros e d' ->. auto. }
  clear HI Hj. intros res d1 (HI & Hj & Hres). apply ens_then_now. intros t. destruct res as [e|[id k]].
  - eapply ens_bind with (Q1 := fun _ d' => channel_inv d0 d'); [|intros _ d' H; now apply ens_throw].
    apply ens_attempt_update; [exact HI|]. intros d' H. eapply update_delivery_inv; [exact HI | | exact H].
    intros r Hr _. cbn. split; [repeat split|]. split; [intros [E|E]; discriminate E|].
    intros i Ei. eapply dl_stays; [apply HI | exact Hr | exact Ei].
  - eapply ens_bind with (Q1 := fun _ d' => channel_inv d0 d').
    + apply ens_attempt_update; [exact HI|]. intros d' H. eapply update_delivery_inv; [exact HI | | exact H].
      intros r Hr Hid. cbn. split; [repeat split|]. split; [eexists; reflexivity|]. intros i [= <-].
      destruct Hj as (r2 & Hr2 & E1 & E2). apply N.eqb_eq in Hid.
      assert (r = r2) as -> by (apply (dl_keys _ (ci_ok _ _ HI)); auto; left; congruence). rewrite E2. exact Hres.
    + clear. intros _ d1 HI. apply ens_then_now. intros t. eapply ens_bind with (Q1 := fun _ d' => channel_inv d0 d'); [|intros _ d' H; now apply ens_ret].
      apply ens_attempt, ens_exec; [exact HI|]. cbn. eapply aside_inv; [|exact HI]. now apply aside_same.
Qed.
Lemma authenticated_ens c d :
  ensures (authenticated c) d (fun cc d' => d' = d /\ verifySignature (cq_body c) (cn_APIKey cc) (cq_signature c) = true
      /\ exists row, In row (channel_connections d) /\ cc_id row = cn_ID cc /\ cc_hotel_id row = cn_HotelID cc)
    (fun r d' => d' = d).
Proof.
  unfold authenticated, lookupConnection. apply ens_then_option; [auto|]. intros id _.
  eapply ens_bind with (Q1 := fun cc d' => d' = d /\ exists row, In row (channel_connections d) /\ cc_id row = cn_ID cc /\ cc_hotel_id row = cn_HotelID cc).
  - apply ens_on_err. unfold query_row. eapply ens_bind with (Q1 := fun row d' => d' = d /\ In row (channel_connections d)).
    + eapply ens_bind; [apply ens_query with (Q := fun o d' => d' = d /\ o = find_row (fun r => ueq (cc_id r) id) (channel_connections d)); auto|].
      intros o d' [-> ->]. apply ens_of_option. destruct (find_row _ _) as [row|] eqn:Ef; [|reflexivity]. apply find_row_some in Ef. tauto.
    + intros row d' [-> Hrow]. apply ens_ret. split; [reflexivity|]. exists row. auto.
  - intros cc d' [-> Hrow]. apply ens_then_throw_if; [auto|]. intros Hs%negb_false_iff. apply ens_ret. auto.
Qed.

Lemma Ingest_ens d0 c d : channel_inv d0 d ->
  ensures (Ingest c) d (fun ro d' => channel_inv d0 d' /\ forall job, snd ro = Some job -> job_ok d' job) (fun _ d' => channel_inv d0 d').
Proof.
  intros HI. unfold Ingest.
  eapply ens_bind; [eapply ens_post; [apply authenticated_ens | intros cc d' H; exact H | intros r d' ->; exact HI]|].
  intros cc d' (-> & _ & _). apply ens_then_throw_if; [auto|]; intros _. apply ens_then_option; [auto|]; intros p _.
  apply ens_then_throw_if; [auto|]; intros _. apply ens_then_uuid. intros n. apply ens_then_now. intros t.
  match goal with |- context [store_delivery ?row] => set (fresh := row) end.
  eapply ens_bind with (Q1 := fun r d' => channel_inv d0 d' /\ In r (channel_bookings d') /\ cb_hotel_id r = cn_HotelID cc).
  - apply ens_on_err, ens_exec; [exact HI|]. destruct (store_delivery fresh d) as [e|[r d']] eqn:Es; [exact HI|].
    destruct (store_inv d0 d fresh r d' HI eq_refl eq_refl Es) as [H1 H2]. split; [exact H1|]. split; [exact H2|].
    revert Es. unfold store_delivery. destruct (find_row _ _) eqn:Ef; [|destruct (exists_row _ _); [discriminate|]]; intros [= <- _]; [|reflexivity].
    apply find_row_some in Ef as [_ Hk]. apply andb_true_iff in Hk as [[Hk%N.eqb_eq _]%andb_true_iff _]. exact Hk.
  - intros r d' (H1 & H2 & H3). destruct (cb_status r =s "processed"); apply ens_ret; (split; [exact H1|]); cbn; [discriminate|].
    intros job [= <-]. exists r. auto.
Qed.

Lemma DeliveryStatus_ens c d : ensures (DeliveryStatus c) d (fun _ d' => d' = d) (fun _ d' => d' = d).
Proof.
  unfold DeliveryStatus. eapply ens_bind; [eapply ens_post; [apply authenticated_ens | intros cc d' H; exact H | auto]|].
  intros cc d' (-> & _). apply ens_then_throw_if; [auto|]; intros _. apply ens_then_row; [auto|]. intros r _. now apply ens_ret.
Qed.

(** Postings and room changes leave deliveries and stays alone. *)
Lemma keeps_aside_exec {A} d c (f : DB -> GoErr + (A * DB)) :
  (forall x a x', f x = inr (a, x') -> aside x x') -> keeps (aside d) (exec c f).
Proof. intros Hf. apply keeps_exec. intros x a x' H E. eapply aside_trans; [exact H | eapply Hf, E]. Qed.

Lemma keeps_aside_reverse d h r desc : keeps (aside d) (reverseJournalsByReference Pool h r desc).
Proof.
  assert (Hx : forall {A} c (f : DB -> A * DB), (forall x, aside x (snd (f x))) -> keeps (aside d) (exec c (fun x => inr (f x)))).
  { intros A c f Hf. apply keeps_aside_exec. intros x a x' [= E]. specialize (Hf x). rewrite E in Hf. exact Hf. }
  unfold reverseJournalsByReference, numbered, nextVoucherNo, insert_entry, insert_line. keeps_go; try (apply Hx; intros x; now apply aside_same).
  - apply Hx. intros x. unfold bump_counter. destruct (find_row _ _); now apply aside_same.
  - apply keeps_aside_exec. intros x y x'. destruct (exists_row _ _); [discriminate|]. intros [= <- <-]. now apply aside_same.
Qed.

Lemma keeps_aside_soft d h id why fee by_ : keeps (aside d) (SoftCancelStay Pool h id why fee by_).
Proof.
  unfold SoftCancelStay. keeps_go. apply keeps_exec_n. intros x H. cbn [snd]. eapply aside_trans; [exact H|]. split; [reflexivity|].
  intros h' i (s & Hs & E1 & E2).
  match goal with |- on_file _ _ (x <| guest_stays ::= update_rows ?p ?f |>) => exists (if p s then f s else s) end.
  split; [apply in_update_rows; eauto|]. destruct (_ && _); auto.
Qed.
Lemma keeps_aside_room d h id st : keeps (aside d) (UpdateRoomStatus Pool h id st).
Proof. unfold UpdateRoomStatus. keeps_go. apply keeps_exec_n. intros x H. eapply aside_trans; [exact H | now apply aside_same]. Qed.
Lemma keeps_aside_booking {E} d cc r no : keeps (aside d) (reverse_booking cc r no : M E unit).
Proof. pose proof (keeps_aside_reverse d). unfold reverse_booking. keeps_go. Qed.

Lemma inert_soft h id why fee by_ : inert Pool (SoftCancelStay Pool h id why fee by_).
Proof. unfold SoftCancelStay. inert_go. Qed.
Lemma inert_room h id st : inert Pool (UpdateRoomStatus Pool h id st).
Proof. unfold UpdateRoomStatus. inert_go. Qed.
Lemma inert_reverse h r desc : inert Pool (reverseJournalsByReference Pool h r desc).
Proof. unfold reverseJournalsByReference, numbered, nextVoucherNo, insert_entry, insert_line. inert_go. Qed.
Lemma inert_booking {E} cc r no : inert Pool (reverse_booking cc r no : M E unit).
Proof. pose proof inert_reverse. unfold reverse_booking. inert_go. Qed.

Lemma ens_aside {E A B} (m : M E A) (k : A -> M E B) d d1 Q (R : E -> DB -> Prop) :
  aside d d1 -> keeps (aside d) m -> inert Pool m -> (forall e d', aside d d' -> R e d') ->
  (forall a d', aside d d' -> ensures (k a) d' Q R) -> ensures (m ≫= k) d1 Q R.
Proof.
  intros H Hk Hi HR HQ. eapply ens_bind; [eapply ens_post; [apply (ens_keeps (aside d)); assumption | intros a d' Ha; exact Ha | exact HR]|].
  cbn. intros a d' Ha. apply HQ, Ha.
Qed.

Lemma Cancel_ens d0 c d : channel_inv d0 d ->
  ensures (Cancel c) d (fun _ d' => channel_inv d0 d') (fun _ d' => channel_inv d0 d').
Proof.
  intros HI. assert (Hsafe : forall d', aside d d' -> channel_inv d0 d') by (intros; eapply aside_inv; eassumption).
  unfold Cancel. eapply ens_bind; [eapply ens_post; [apply authenticated_ens | intros cc d' H; exact H | intros r d' ->; exact HI]|].
  intros cc d' (-> & _ & _). apply ens_then_option; [auto|]; intros p _. apply ens_then_throw_if; [auto|]; intros _.
  apply ens_then_row; [auto|]. intros row Hrow. apply ens_then_option; [auto|]. intros sid Hsid.
  apply find_row_some in Hrow as [Hrow Hkey].
  eapply ens_bind with (Q1 := fun _ d' => d' = d).
  { apply ens_on_err. unfold FindStayByID. eapply ens_bind; [apply ens_query with (Q := fun _ d' => d' = d); auto|].
    intros o d' ->. apply ens_of_option. destruct o; auto. }
  intros stay d' ->. apply ens_then_throw_if; [auto|]; intros _.
  apply (ens_aside _ _ d d); [apply aside_refl | apply stable_on_err, keeps_aside_soft | apply inert_on_err, inert_soft | auto|]. intros [] d1 H1.
  apply (ens_aside _ _ d d1); [exact H1 | unfold RoomHasActiveStay; keeps_go | unfold RoomHasActiveStay; inert_go | auto|]. intros active d2 H2.
  apply (ens_aside _ _ d d2); [exact H2 | | | auto|].
  { pose proof (keeps_aside_room d). keeps_go. }
  { pose proof inert_room. inert_go. }
  intros [] d3 H3. apply (ens_aside _ _ d d3); [exact H3 | | | auto|].
  { destruct (_ !=s _); [apply keeps_aside_booking | apply stable_ret]. }
  { destruct (_ !=s _); [apply inert_booking | apply inert_ret]. }
  intros [] d4 H4. apply ens_then_now. intros t. eapply ens_bind; [|intros a d' H; apply ens_ret; exact H].
  apply ens_attempt_update; [auto|]. intros d' H. eapply update_delivery_inv; [apply Hsafe, H4 | | exact H].
  destruct H4 as [Eb Hs]. rewrite Eb. intros r Hr Hk. cbn. split; [repeat split|].
  assert (r = row) as ->.
  { apply (dl_keys _ (ci_ok _ _ HI)); auto. right. unfold delivery_key, ueq in Hk, Hkey.
    apply andb_true_iff in Hk as [[K1%N.eqb_eq K2%String.eqb_eq]%andb_true_iff K3%String.eqb_eq].
    apply andb_true_iff in Hkey as [[L1%N.eqb_eq L2%String.eqb_eq]%andb_true_iff L3%String.eqb_eq]. repeat split; congruence. }
  rewrite Hsid. split; [eauto|]. intros i [= <-]. apply Hs. apply (dl_stays _ (ci_ok _ _ HI)); assumption.
Qed.
End Invariant.

(** ** The server *)

Local Open Scope list_scope.

(** Jobs handed over and not finished. *)
Definition running (l : @Loop ingestJob) : list (@Job ingestJob) := match l with Executing job => [job] | _ => [] end.
Definition in_flight (p : @Process ingestJob) : list (@Job ingestJob) :=
  from_option (fun q => jobs q ++ flat_map running (loops q)) [] (Default p) ++ detached p.

Lemma running_insert ls i l (j : @Job ingestJob) : In j (flat_map running (<[i := l]> ls)) -> In j (running l) \/ In j (flat_map running ls).
Proof.
  revert i. induction ls as [|x ls IH]; intros [|i] H; cbn in *; auto; apply in_app_iff in H as [H|H]; auto; [right; apply in_app_iff; auto..|].
  destruct (IH i H); auto. right. apply in_app_iff. auto.
Qed.

(** No event invents a job. *)
Lemma fires_jobs e q q' (j : @Job ingestJob) : fires e q q' -> In j (jobs q' ++ flat_map running (loops q')) ->
  e = Send j \/ In j (jobs q ++ flat_map running (loops q)).
Proof.
  rewrite !in_app_iff. destruct 1 as [j' p Ec Hl|j' p Ec Hl|n p E|i j' rest p E Ej|i j' p E|i j' o p E Ho|i p E Ej Ec|p]; cbn; auto.
  - rewrite in_app_iff. cbn. intuition congruence.
  - rewrite Ej. cbn. intros [H|H]; [auto|]. apply running_insert in H as [[->|[]]|H]; auto.
  - intros [H|H]; [auto|]. apply running_insert in H as [[]|H]; auto.
  - intros [H|H]; [auto|]. apply running_insert in H as [[]|H]; auto.
  - rewrite Ej. intros [[]|H]. apply running_insert in H as [[]|H]; auto.
Qed.

Lemma move_jobs m p p' j : move m p = Some p' -> In j (in_flight p') -> m = Call j \/ In j (in_flight p).
Proof.
  unfold in_flight. rewrite !in_app_iff. destruct m as [j'|i|e]; cbn [move].
  - unfold SubmitOrRun. destruct (Default p) as [q|] eqn:Ed; cbn [mbind option_bind].
    + destruct (fire (Send j') q) as [q'|] eqn:Ef; [|discriminate]. apply fire_fires in Ef. pose proof (fires_jobs _ _ _ j Ef) as Hf.
      destruct (Submit q) eqn:Es; intros [= <-]; cbn; rewrite ?in_app_iff in *; cbn in *; intuition congruence.
    + intros [= <-]; cbn; rewrite ?Ed, ?in_app_iff in *; cbn in *; intuition congruence.
  - destruct (detached p !! i) as [j'|] eqn:Ed; [|discriminate]. cbn. intros [= <-]. cbn. intros [H|H]; [auto|].
    right. right. rewrite (delete_Permutation _ _ _ Ed). right. exact H.
  - destruct e; try discriminate; (destruct (Default p) as [q|] eqn:Ed; [|discriminate]); cbn [mbind option_bind];
      (destruct (fire _ q) as [q'|] eqn:Ef; [|discriminate]); intros [= <-]; cbn; (intros [H|H]; [|auto]);
      apply fire_fires in Ef; (destruct (fires_jobs _ _ _ j Ef H) as [E|E]; [discriminate E|auto]).
Qed.

Record server_ok {env : Env} (d0 : DB) (s : Server) : Prop := {
  so_quiet : w_tx (sv_world s) = NoTx;
  so_inv : channel_inv d0 (w_db (sv_world s));
  so_jobs : forall j, In j (in_flight (sv_process s)) -> job_ok (w_db (sv_world s)) (Run j) }.

Section Steps.
Context {env : Env} {json : Json} (d0 : DB).

Lemma channel_inv_refl d : deliveries_ok d -> channel_inv d d.
Proof. intros H. split; [exact H | apply persists_refl, delivery_after_refl | auto]. Qed.

(** What a request or a job needs of the server, and what it leaves. *)
Lemma ens_server {E A} (m : M E A) (s : Server) (Q : A -> DB -> Prop) (R : E -> DB -> Prop) :
  server_ok d0 s ->
  (forall d, channel_inv d0 d -> ensures m d (fun a d' => channel_inv d d' /\ Q a d') (fun e d' => channel_inv d d' /\ R e d')) ->
  match m (sv_world s) with
  | (inr a, w) => w_tx w = NoTx /\ channel_inv d0 (w_db w) /\ channel_inv (w_db (sv_world s)) (w_db w) /\ Q a (w_db w)
  | (inl e, w) => w_tx w = NoTx /\ channel_inv d0 (w_db w) /\ channel_inv (w_db (sv_world s)) (w_db w) /\ R e (w_db w)
  end.
Proof.
  intros [H1 H2 H3] Hm. specialize (Hm _ H2 (sv_world s) (conj H1 eq_refl)).
  assert (Htr : forall d', channel_inv (w_db (sv_world s)) d' -> channel_inv d0 d').
  { intros d' [A1 A2 A3]. split; [exact A1 | eapply persists_trans; [apply delivery_after_trans | apply H2 | exact A2] | intros; apply A3, H2; assumption]. }
  destruct (m (sv_world s)) as [[e|a] w]; destruct Hm as (T & V & W); auto.
Qed.

Lemma jobs_after w w' (js : list (@Job ingestJob)) : channel_inv (w_db w) (w_db w') ->
  (forall j, In j js -> job_ok (w_db w) (Run j)) -> forall j, In j js -> job_ok (w_db w') (Run j).
Proof. intros H Hj j Hin. eapply job_ok_after; [apply H | auto]. Qed.

Lemma hand_over_jobs o p j : In j (in_flight (hand_over o p)) ->
  (exists job, o = Some job /\ Run j = job) \/ In j (in_flight p).
Proof.
  unfold hand_over. destruct o as [job|]; [|auto]. intros H.
  destruct (SubmitOrRun _ p) as [p'|] eqn:E; cbn in H; [|auto].
  destruct (move_jobs (Call {| Name := "channel.ingest"; Run := job |}) p p' j E H) as [[= <-]|H']; eauto.
Qed.

Lemma run_job_ok job s : server_ok d0 s -> job_ok (w_db (sv_world s)) job ->
  let w := snd (run_job job (sv_world s)) in
  w_tx w = NoTx /\ channel_inv d0 (w_db w) /\ channel_inv (w_db (sv_world s)) (w_db w).
Proof.
  intros Hs Hj. unfold run_job.
  pose proof (run_ingest_ens (w_db (sv_world s)) job (w_db (sv_world s)) (channel_inv_refl _ (ci_ok _ _ (so_inv _ _ Hs))) Hj) as H.
  destruct Hs as [H1 H2 H3]. specialize (H (sv_world s) (conj H1 eq_refl)).
  assert (Htr : forall d', channel_inv (w_db (sv_world s)) d' -> channel_inv d0 d').
  { intros d' [A1 A2 A3]. split; [exact A1 | eapply persists_trans; [apply delivery_after_trans | apply H2 | exact A2] | intros; apply A3, H2; assumption]. }
  destruct (run_ingest job (sv_world s)) as [[e|a] w]; cbn; destruct H; auto.
Qed.

Lemma worker_keeps_jobs m p : (forall job, m <> Call job) -> forall j, In j (in_flight (default p (move m p))) -> In j (in_flight p).
Proof.
  intros Hm j. destruct (move m p) as [p'|] eqn:E; cbn; [|auto]. intros H. destruct (move_jobs _ _ _ _ E H) as [->|]; [|assumption]. now destruct (Hm j).
Qed.

Lemma channel_step_ok e s : server_ok d0 s -> server_ok d0 (channel_step e s).
Proof.
  intros Hs. assert (Hself : forall d, channel_inv d0 d -> channel_inv d d) by (intros d [H _ _]; now apply channel_inv_refl).
  destruct e as [c|c|c|i|i|e]; cbn [channel_step].
  - pose proof (ens_server (Ingest c) s (fun ro d' => forall job, snd ro = Some job -> job_ok d' job) (fun _ _ => True) Hs) as H.
    destruct (Ingest c (sv_world s)) as [[r|[r o]] w]; destruct H as (T & V & W & Q);
      try (intros d Hd; eapply ens_post; [apply Ingest_ens; exact (Hself d Hd) | intros; assumption | auto]).
    + split; cbn; [exact T | exact V | exact (jobs_after _ _ _ W (so_jobs _ _ Hs))].
    + split; cbn; [exact T | exact V |]. intros j [(job & -> & <-)|Hj]%hand_over_jobs; [now apply Q | exact (jobs_after _ _ _ W (so_jobs _ _ Hs) j Hj)].
  - pose proof (ens_server (DeliveryStatus c) s (fun _ _ => True) (fun _ _ => True) Hs) as H. unfold serve.
    destruct (DeliveryStatus c (sv_world s)) as [[r|r] w]; destruct H as (T & V & W & _);
      try (intros d Hd; eapply ens_post; [apply DeliveryStatus_ens | cbn; intros ? ? ->; auto | cbn; intros ? ? ->; auto]);
      (split; cbn; [reflexivity | exact V | exact (jobs_after _ _ _ W (so_jobs _ _ Hs))]).
  - pose proof (ens_server (Cancel c) s (fun _ _ => True) (fun _ _ => True) Hs) as H. unfold serve.
    destruct (Cancel c (sv_world s)) as [[r|r] w]; destruct H as (T & V & W & _);
      try (intros d Hd; eapply ens_post; [apply Cancel_ens; exact (Hself d Hd) | auto | auto]);
      (split; cbn; [reflexivity | exact V | exact (jobs_after _ _ _ W (so_jobs _ _ Hs))]).
  - destruct (Default (sv_process s)) as [p|] eqn:Ed; [|exact Hs]. destruct (loops p !! i) as [[|job|]|] eqn:El; try exact Hs.
    assert (Hj : In job (in_flight (sv_process s))).
    { unfold in_flight. rewrite Ed. cbn. rewrite !in_app_iff. left. right. apply list_elem_of_lookup_2 in El. apply list_elem_of_In in El.
      apply in_flat_map. exists (Executing job). split; [exact El | left; reflexivity]. }
    pose proof (run_job_ok (Run job) s Hs (so_jobs _ _ Hs _ Hj)) as H. destruct (run_job (Run job) (sv_world s)) as [o w]. cbn in H.
    destruct H as (T & V & W). split; cbn -[move]; [exact T | exact V |]. intros j Hj'. apply worker_keeps_jobs in Hj'; [|discriminate].
    exact (jobs_after _ _ _ W (so_jobs _ _ Hs) j Hj').
  - destruct (detached (sv_process s) !! i) as [job|] eqn:El; [|exact Hs].
    assert (Hj : In job (in_flight (sv_process s))).
    { unfold in_flight. rewrite !in_app_iff. right. apply list_elem_of_lookup_2 in El. now apply list_elem_of_In in El. }
    destruct (run_job_ok (Run job) s Hs (so_jobs _ _ Hs _ Hj)) as (T & V & W). split; cbn -[move]; [exact T | exact V |].
    intros j Hj'. apply worker_keeps_jobs in Hj'; [|discriminate]. exact (jobs_after _ _ _ W (so_jobs _ _ Hs) j Hj').
  - assert (Hw : server_ok d0 (s <| sv_process := default (sv_process s) (move (Worker e) (sv_process s)) |>)).
    { destruct Hs as [H1 H2 H3]. split; cbn -[move]; auto. intros j Hj%worker_keeps_jobs; [auto | discriminate]. }
    destruct e; exact Hw || exact Hs.
Qed.

Lemma channel_steps_ok es s : server_ok d0 s -> server_ok d0 (channel_steps es s).
Proof.
  unfold channel_steps. revert s. induction es as [|e es IH]; cbn; intros s Hs; [exact Hs|]. apply IH, channel_step_ok, Hs.
Qed.
End Steps.

(** ** Claims *)

Local Close Scope list_scope.

(** The webhook secret and signature of the request address a connection. *)
Definition authentic {env : Env} (c : ChannelRequest) (d : DB) : Prop :=
  exists id row, uuid_parse (cq_connectionID c) = Some id /\ find_row (fun r => ueq (cc_id r) id) (channel_connections d) = Some row
    /\ verifySignature (cq_body c) (default "" (cc_api_key row)) (cq_signature c) = true.

(** Signatures round trip: what a channel computes with the secret of its
    connection over the body it sends is accepted, bare or after "sha256=" and
    with any blanks the header picked up, and nothing else is; an empty secret
    accepts nothing. *)
Theorem signature_round_trip body secret provided :
  (verifySignature body secret provided = true <->
     secret <> "" /\ TrimPrefix (TrimSpace provided) "sha256=" = hex_mac secret body)
  /\ (secret <> "" -> verifySignature body secret (hex_mac secret body) = true
                      /\ verifySignature body secret ("sha256=" ++ hex_mac secret body) = true).
Proof.
  assert (Hiff : forall p, verifySignature body secret p = true <-> secret <> "" /\ TrimPrefix (TrimSpace p) "sha256=" = hex_mac secret body).
  { intros p. unfold verifySignature. fold (hex_mac secret body). cbv zeta. destruct (String.eqb_spec secret "") as [|Hs]; cbn [orb]; [split; [discriminate | tauto]|].
    destruct (String.eqb_spec (TrimPrefix (TrimSpace p) "sha256=") "") as [E|].
    - rewrite E. split; [discriminate|]. intros [_ H]. symmetry in H. now apply hex_mac_not_blank in H.
    - rewrite String.eqb_eq. split; [intros ->; auto | intros [_ ->]; reflexivity]. }
  split; [apply Hiff|]. intros Hs. split; apply Hiff; (split; [exact Hs|]).
  - rewrite TrimSpace_solid by apply hex_mac_solid. apply TrimPrefix_other, hex_mac_no. reflexivity.
  - rewrite TrimSpace_solid; [apply TrimPrefix_app|]. cbn. apply hex_mac_solid.
Qed.

Section Authentication.
Context {env : Env} {json : Json}.

Definition refusal (r : Resp ChannelBody) : Prop :=
  r = RespError 401 "unauthorized channel" \/ r = RespError 400 "invalid channel connection id".

Lemma authenticated_refuses c w : ~ authentic c (w_db w) ->
  exists r w', authenticated c w = (inl r, w') /\ refusal r /\ w_db w' = w_db w /\ w_tx w' = w_tx w.
Proof.
  intros Hbad. unfold authenticated, refusal. destruct (uuid_parse (cq_connectionID c)) as [id|] eqn:Eid; [|cbn; eauto 10].
  unfold lookupConnection, query_row, query, mbind, M_bind, on_err, of_option, exec. cbn. destruct (db_fault _); cbn; [eauto 10|].
  destruct (find_row (fun r => ueq (cc_id r) id) (channel_connections (w_db w))) as [row|] eqn:Ef; cbn.
  2:{ do 2 eexists. split; [reflexivity|]. cbn. split; [auto|]. split; [reflexivity|]. destruct (w_tx w); reflexivity. }
  destruct (verifySignature (cq_body c) (default "" (cc_api_key row)) (cq_signature c)) eqn:Ev; cbn.
  - destruct Hbad. exists id, row. auto.
  - do 2 eexists. split; [reflexivity|]. cbn. split; [auto|]. split; [reflexivity|]. destruct (w_tx w); reflexivity.
Qed.
End Authentication.

(** Only the holder of the connection's secret gets anything from the webhook:
    a request that names no connection, or whose signature is not that of its
    body, is refused on all three endpoints (with one answer for both cases),
    hands nothing to the workers and leaves the database alone, whatever else
    fails. *)
Theorem unsigned_requests_refused (env : Env) (json : Json) c w (Hbad : ~ authentic c (w_db w)) :
  (exists r w', Ingest c w = (inl r, w') /\ refusal r /\ w_db w' = w_db w)
  /\ (exists r w', DeliveryStatus c w = (inl r, w') /\ refusal r /\ w_db w' = w_db w)
  /\ (exists r w', ChannelIngest.Cancel c w = (inl r, w') /\ refusal r /\ w_db w' = w_db w).
Proof.
  destruct (authenticated_refuses c w Hbad) as (r & w' & E & Hr & Hd & _).
  unfold Ingest, DeliveryStatus, ChannelIngest.Cancel, mbind, M_bind. rewrite E. repeat split; eauto.
Qed.

Section Answers.
Context {env : Env} {json : Json}.

Lemma authenticated_runs c d row id : uuid_parse (cq_connectionID c) = Some id ->
  find_row (fun r => ueq (cc_id r) id) (channel_connections d) = Some row ->
  verifySignature (cq_body c) (default "" (cc_api_key row)) (cq_signature c) = true ->
  runs Pool (authenticated c) d (fun cc d' => d' = d /\ cc = {| cn_ID := cc_id row; cn_HotelID := cc_hotel_id row;
      cn_Name := cc_channel_name row; cn_APIKey := default "" (cc_api_key row); cn_Active := cc_connected row |}) (fun _ => False).
Proof.
  intros Hid Hrow Hsig. unfold authenticated, lookupConnection. rewrite Hid.
  eapply runs_bind; [apply runs_ret with (Q := fun a d' => a = id /\ d' = d); auto | intros; inert_go|]. intros a d' [-> ->].
  eapply runs_bind; [apply runs_on_err with (Q := fun cc d' => d' = d /\ cc = {| cn_ID := cc_id row; cn_HotelID := cc_hotel_id row;
      cn_Name := cc_channel_name row; cn_APIKey := default "" (cc_api_key row); cn_Active := cc_connected row |}) | intros; inert_go|].
  - apply runs_then_query_row; [intros; inert_go|]. rewrite Hrow. now apply runs_ret.
  - intros cc d' [-> ->]. cbn [cn_APIKey]. rewrite Hsig. apply runs_then_throw_if; [inert_go|]. now apply runs_ret.
Qed.
End Answers.

(** The connection as the handlers hold it. *)
Definition scan_connection (row : ChannelConnectionRow) : channelConnection :=
  {| cn_ID := cc_id row; cn_HotelID := cc_hotel_id row; cn_Name := cc_channel_name row;
     cn_APIKey := default "" (cc_api_key row); cn_Active := cc_connected row |}.

(** What a signed delivery is answered, no statement failing.  The first of
    its reference is stored as it came, before anything is made of it, and
    accepted; one whose booking is done is answered with the reservation it
    became and changes nothing; any other (not processed yet, failed, or
    cancelled) is accepted again.  A job is handed over exactly when the answer
    is "accepted", and it names the one record of that reference. *)
Theorem delivery_answers (env : Env) (json : Json) c d id conn p
  (Hid : uuid_parse (cq_connectionID c) = Some id)
  (Hconn : find_row (fun r => ueq (cc_id r) id) (channel_connections d) = Some conn)
  (Hsig : verifySignature (cq_body c) (default "" (cc_api_key conn)) (cq_signature c) = true)
  (Hactive : cc_connected conn = true) (Hjson : unmarshal_booking (cq_body c) = Some p) (Href : ref p <> "") :
  runs Pool (Ingest c) d (fun ro d' =>
    let job rec := {| ij_cc := scan_connection conn; ij_payload := p; ij_ref := ref p; ij_record := rec |} in
    match find_row (delivery_key (cc_hotel_id conn) (cc_channel_name conn) (ref p)) (channel_bookings d) with
    | Some row =>
        d' = d /\ if cb_status row =s "processed"
                  then ro = (RespOK (CB_duplicate (ref p) (cb_guest_stay_id row)), None)
                  else ro = (RespAccepted (CB_accepted (ref p) (cb_id row)), Some (job (cb_id row)))
    | None =>
        exists row, d' = d <| channel_bookings ::= insert_row row |> /\ cb_payload row = cq_body c /\ cb_status row = "received"
          /\ delivery_key (cc_hotel_id conn) (cc_channel_name conn) (ref p) row = true
          /\ ro = (RespAccepted (CB_accepted (ref p) (cb_id row)), Some (job (cb_id row)))
    end) (fun r => r = RespError 500 "failed to record delivery").
Proof.
  unfold Ingest. eapply runs_bind; [eapply runs_weaken; [eapply authenticated_runs; eassumption | intros cc d' H; exact H | intros e []] | intros; inert_go|].
  intros cc d' [-> ->]. cbn [cn_Active cn_HotelID cn_ID cn_Name]. rewrite Hactive, Hjson. apply runs_then_throw_if; [inert_go|].
  eapply runs_bind; [apply runs_ret with (Q := fun a d' => a = p /\ d' = d); auto | intros; inert_go|]. intros a d' [-> ->].
  apply runs_then_throw_if; [inert_go|]. apply String.eqb_neq in Href. rewrite Href.
  apply runs_uuid; [intros; inert_go|]. intros n. apply runs_now; [intros; inert_go|]. intros t.
  match goal with |- context [store_delivery ?row] => set (fresh := row) end.
  eapply runs_bind; [apply runs_on_err, runs_exec with (Q := fun r d' => store_delivery fresh d = inr (r, d')); destruct (store_delivery fresh d) as [|[? ?]]; auto | intros; inert_go|].
  intros r d'. unfold store_delivery. cbn [fresh cb_hotel_id cb_channel_name cb_external_ref cb_id].
  destruct (find_row (delivery_key _ _ _) _) as [row|] eqn:Ef.
  - intros [= <- <-]. unfold scan_connection; rewrite Hactive; destruct (cb_status row =s "processed"); apply runs_ret; auto.
  - destruct (exists_row _ _); [discriminate|]. intros [= <- <-]. cbn [fresh cb_status String.eqb]. apply runs_ret. exists fresh.
    unfold scan_connection; rewrite Hactive. repeat split. unfold delivery_key, ueq. cbn. now rewrite N.eqb_refl, !String.eqb_refl.
Qed.

(** C13: nothing a channel delivers is lost or doubled in the records: through any
    requests, with the worker pool running their jobs in any order and any
    statements failing, there is one record per reference of a channel; a record
    once stored is there for ever with the payload as it arrived; and a delivery
    marked processed or cancelled names a reservation of its hotel that is on
    file. *)
Theorem deliveries_kept (env : Env) (json : Json) es s (Hquiet : w_tx (sv_world s) = NoTx)
  (Hok : deliveries_ok (w_db (sv_world s))) (Hidle : in_flight (sv_process s) = []%list) :
  let d := w_db (sv_world s) in let d' := w_db (sv_world (channel_steps es s)) in
  exclusive same_delivery (channel_bookings d')
  /\ (forall r, In r (channel_bookings d) -> exists r', In r' (channel_bookings d') /\ delivery_after r r')
  /\ (forall r, In r (channel_bookings d') -> cb_status r = "processed" \/ cb_status r = "cancelled" ->
        exists id, cb_guest_stay_id r = Some id /\ on_file (cb_hotel_id r) id d').
Proof.
  intros d d'. assert (Hs : server_ok d s).
  { split; [exact Hquiet | now apply channel_inv_refl | rewrite Hidle; intros j []]. }
  destruct (channel_steps_ok d es s Hs) as [_ [[H1 H2 H3] H4 _] _]. split; [exact H1|]. split; [exact H4|].
  intros r Hr Hd. destruct (H2 r Hr Hd) as [id E]. eauto.
Qed.

(** ** What a processed booking leaves in the books *)

(** The sale moves T to the channel's receivable, the commission K. *)
Record booking_posted (d d' : DB) (T K : Z) : Prop := {
  bp_lines : exists sale cost, journal_lines d' = (journal_lines d ++ sale ++ cost)%list
     /\ in_balance sale /\ total_debit sale = T /\ in_balance cost /\ total_debit cost = K;
  bp_vouchers : vouchers_ok d' }.

Section Books.
Context {env : Env} {laws : EnvLaws env}.

Lemma booking_books cc guest r no q T X :
  QPayable q = cents T -> BaseTotal q = cents (T - X) -> QTaxAmount q = cents X ->
  Z.abs T <= MAXC -> Z.abs X <= MAXC -> Z.abs (T - X) <= MAXC ->
  books (fun c => postJournal c (cn_HotelID cc) (cn_Name cc ++ " booking — " ++ guest ++ " (" ++ r ++ ")") ("FOLIO " ++ no)
    [ dr "1200" (QPayable q) ("Receivable — " ++ cn_Name cc); cr "4000" (round2 (BaseTotal q)) ("Room revenue (" ++ cn_Name cc ++ ")");
      cr "2100" (QTaxAmount q) "GST on room revenue" ]) (cn_HotelID cc) (cn_Name cc ++ " booking — " ++ guest ++ " (" ++ r ++ ")") ("FOLIO " ++ no) T.
Proof.
  intros -> -> -> HT HX HTX. rewrite round2_cents by assumption. books_with [(T, 0); (0, T - X); (0, X)]%list.
Qed.
Lemma commission_books cc r no K : Z.abs K <= MAXC ->
  books (fun c => postJournal c (cn_HotelID cc) (cn_Name cc ++ " commission — " ++ r) ("COMM " ++ no)
    [ dr "5100" (cents K) (cn_Name cc ++ " commission"); cr "2000" (cents K) ("Payable to " ++ cn_Name cc) ])
    (cn_HotelID cc) (cn_Name cc ++ " commission — " ++ r) ("COMM " ++ no) K.
Proof. intros HK. books_with [(K, 0); (0, K)]%list. Qed.

Lemma post_ota_runs cc p r no q d T X K :
  QPayable q = cents T -> BaseTotal q = cents (T - X) -> QTaxAmount q = cents X ->
  Z.abs T <= MAXC -> Z.abs X <= MAXC -> Z.abs (T - X) <= MAXC -> 0 <= K <= MAXC ->
  vouchers_ok d -> customers_ok d ->
  runs Tx (post_ota Tx cc p r no q (cents K)) d (fun _ d' => settles_only d d'
    /\ ((exists_row (has_reference (cn_HotelID cc) ("FOLIO " ++ no)) (journal_entries d) = true /\ d' = d) \/ booking_posted d d' T K))
    (fun _ => True).
Proof.
  intros ET EB EX HT HX HTX HK Hv Hc. unfold post_ota.
  eapply runs_bind; [apply alreadyPosted_runs | intros; inert_go; auto using inert_post_booking, inert_post_commission|].
  intros b d0 [-> ->]. destruct (exists_row _ _) eqn:Ep.
  { apply runs_ret. split; [apply settles_only_refl | auto]. }
  eapply runs_bind; [apply runs_on_err, ensureCustomer_runs; [exact Hc | exact I] | intros; inert_go; auto using inert_post_booking, inert_post_commission|].
  intros cu d1 (Hcu & _). pose proof (settles_customers _ _ Hcu) as S1. destruct Hcu as [cs ->].
  assert (Hv1 : vouchers_ok (d <| customers := cs |>)) by (eapply vouchers_ok_ext; [| |exact Hv]; reflexivity).
  unfold post_booking. eapply runs_bind with (Q1 := fun _ d' => exists nl, ledger_only (d <| customers := cs |>) d'
      /\ journal_lines d' = (journal_lines d ++ nl)%list /\ in_balance nl /\ total_debit nl = T /\ vouchers_ok d').
  - eapply runs_bind; [apply runs_on_err; eapply runs_weaken; [exact (booking_books cc (name p) r no q T X ET EB EX HT HX HTX Tx _ Hv1) | intros e d' H; exact H | intros e []] | intros; inert_go|].
    intros e d2 (nl & [Hfr _ Hl _] & Hb & Ht & Hv2). apply runs_ret. exists nl. auto.
  - intros; inert_go; auto using inert_post_commission.
  - intros [] d2 (nl & Hfr & Hl & Hb & Ht & Hv2). pose proof (settles_trans _ _ _ S1 (settles_ledger _ _ Hfr)) as S2.
    rewrite <- cents_0, flt_cents by (unfold MAXC in *; lia). destruct (Z.ltb_spec 0 K) as [HK0|HK0].
    + unfold post_commission. eapply runs_bind; [apply runs_on_err; eapply runs_weaken; [exact (commission_books cc r no K ltac:(lia) Tx _ Hv2) | intros e d' H; exact H | intros e []] | intros; inert_go|].
      intros e d3 (nl2 & [Hfr2 _ Hl2 _] & Hb2 & Ht2 & Hv3). apply runs_ret. split; [exact (settles_trans _ _ _ S2 (settles_ledger _ _ Hfr2))|]. right.
      split; [|exact Hv3]. exists nl, nl2. rewrite Hl2, Hl, <- app_assoc. auto.
    + apply runs_ret. split; [exact S2|]. right. split; [|exact Hv2]. exists nl, []%list. rewrite app_nil_r.
      assert (K = 0) as -> by lia. repeat split; auto.
Qed.
End Books.

(** The room is free for the dates, fit to sell, and of the type asked for. *)
Definition bookable (cc : channelConnection) (p : channelBookingPayload) (ci co : Time) (d : DB) (roomID : uuid) : Prop :=
  exists rm, In rm (rooms d) /\ rm_id rm = roomID /\ rm_hotel_id rm = cn_HotelID cc
    /\ ~ In (rm_status rm) NonSellableRoomStatusSQL
    /\ (TrimSpace (ToLower (p_RoomType p)) <> "" -> ToLower (TrimSpace (rm_room_type rm)) = ToLower (TrimSpace (ToLower (p_RoomType p))))
    /\ forall s, In s (guest_stays d) -> gs_room_id s = roomID -> gs_hotel_id s = cn_HotelID cc ->
         ranges_overlap (gs_check_in_date s) (gs_check_out_date s) ci co = false.

Lemma taken_bookable {env : Env} cc p ci co d room : taken cc p ci co d room -> bookable cc p ci co d (R_ID room).
Proof.
  unfold taken, choose_room, scanRooms. intros H. apply List.find_some in H as [Hin Ht]. apply in_map_iff in Hin as (rm & <- & Hin).
  apply in_order_by, in_select in Hin as [Hin Hk].
  apply andb_true_iff in Hk as [[Hh%N.eqb_eq Hst%negb_true_iff]%andb_true_iff Hfree%negb_true_iff].
  exists rm. split; [exact Hin|]. split; [reflexivity|]. split; [exact Hh|]. split; [|split].
  - intros Hns. assert (E : existsb (String.eqb (rm_status rm)) NonSellableRoomStatusSQL = true) by (apply existsb_exists; exists (rm_status rm); split; [exact Hns | apply String.eqb_refl]). congruence.
  - intros Hw. apply String.eqb_neq in Hw. rewrite Hw in Ht. cbn in Ht. now apply String.eqb_eq in Ht.
  - intros s Hs Hr Hhs. rewrite exists_row_false in Hfree. specialize (Hfree s Hs). unfold blocks_listing, ueq in Hfree.
    change (rm_id rm) with (R_ID (scanRoom rm)) in Hfree. rewrite Hhs, Hr, Hh, !N.eqb_refl in Hfree. exact Hfree.
Qed.

(** *** Claims, continued *)

(** C14: what processing a delivery leaves, no statement failing, for a channel
    that names its price in whole paise: one confirmed stay in a room of the
    wanted type that nothing overlaps, for the dates and under the name of the
    payload; the channel's total splits into base and tax exactly; and (unless
    that confirmation number was posted before) the ledger gains a balanced
    entry moving the whole total to the receivable and a balanced one for the
    commission, if any.  Otherwise the job fails and, as always, nothing of the
    booking is kept. *)
Theorem ota_booking_recorded (env : Env) (laws : EnvLaws env) cc p r d ci co T X K
  (Hname : name p <> "") (Hreach : email p <> "" \/ phone p <> "")
  (Hci : parse_date (checkIn p) = Some ci) (Hco : parse_date (checkOut p) = Some co) (Hlen : After co ci = true)
  (HT : total p = cents T) (HX : p_TaxAmount p = cents X) (HK : p_Commission p = cents K)
  (BT : 0 < T <= 10 ^ 12) (BX : 0 <= X <= T) (BK : 0 <= K <= 10 ^ 12) (Hv : vouchers_ok d) (Hc : customers_ok d) :
  runs Pool (process cc p r) d (fun res d' => exists row g d1,
      snd res = cents K /\ gs_id row = fst res /\ gs_hotel_id row = cn_HotelID cc /\ gs_status row = "confirmed"
      /\ gs_guest_name row = name p /\ gs_check_in_date row = ci /\ gs_check_out_date row = co
      /\ bookable cc p ci co d (gs_room_id row)
      /\ gs_total_amount row = Some (T - X) /\ gs_tax_amount row = X
      /\ d1 = d <| guests := g |> <| guest_stays ::= insert_row row |> /\ settles_only d1 d'
      /\ ((exists no, gs_confirmation_no row = Some no
              /\ exists_row (has_reference (cn_HotelID cc) ("FOLIO " ++ no)) (journal_entries d) = true /\ d' = d1)
          \/ booking_posted d d' T K)) (fun _ => True)
  /\ ensures (process cc p r) d (fun _ _ => True) (fun _ d' => d' = d).
Proof.
  split; [|eapply ens_post; [apply process_ens | auto | auto]].
  assert (HQ : forall rate room, let q := channel_quote p (priceStay (R_PricePerNight room) ci co rate 0) in
      QPayable q = cents T /\ BaseTotal q = cents (T - X) /\ QTaxAmount q = cents X).
  { intros rate room. unfold channel_quote. rewrite HT, HX. rewrite <- cents_0, flt_cents by (unfold MAXC; lia).
    destruct (Z.ltb_spec 0 T); [|lia]. cbn -[cents round2]. rewrite !round2_cents, round2_sub by (unfold MAXC; lia). auto. }
  unfold process. apply runs_then_throw_if; [inert_go|]. apply String.eqb_neq in Hname. rewrite Hname.
  apply runs_then_throw_if; [inert_go|]. replace ((email p =s "") && (phone p =s "")) with false
    by (symmetry; apply andb_false_iff; destruct Hreach as [H|H]; apply String.eqb_neq in H; auto).
  apply runs_then_of_option; [intros; inert_go|]. rewrite Hci. apply runs_then_of_option; [intros; inert_go|]. rewrite Hco.
  apply runs_then_throw_if; [inert_go|]. rewrite Hlen. cbn [negb]. rewrite HK, round2_cents by (unfold MAXC; lia).
  eapply runs_bind; [apply runs_WithTenantTx, (process_tx_runs cc p r ci co (cents K) d (fun no q d1 d' => settles_only d1 d' /\
      ((exists_row (has_reference (cn_HotelID cc) ("FOLIO " ++ no)) (journal_entries d1) = true /\ d' = d1) \/ booking_posted d1 d' T K))) | intros; inert_go|].
  - intros no room rate g row d1 q. destruct (HQ rate room) as (E1 & E2 & E3).
    apply (post_ota_runs cc p r no q d1 T X K E1 E2 E3);
      first [unfold MAXC; lia | exact Hc | eapply vouchers_ok_ext; [| |exact Hv]; reflexivity].
  - intros id d1 (room & rate & n & now & g & no & Ht & _ & -> & Hset & Hp). apply runs_ret. cbn [fst snd].
    destruct (HQ rate room) as (E1 & E2 & E3).
    exists (stay_row (uuid_new n) (cn_HotelID cc) now (ota_stay cc p room ci co (channel_quote p (priceStay (R_PricePerNight room) ci co rate 0)) no)), g.
    eexists. do 7 (split; [reflexivity|]).
    split; [exact (taken_bookable _ _ _ _ _ _ Ht)|].
    cbn [gs_total_amount gs_tax_amount stay_row TotalAmount TaxAmount ota_stay fmap option_fmap option_map].
    rewrite E2, E3, !num_enc_cents by (unfold MAXC; lia). split; [reflexivity|]. split; [reflexivity|]. split; [reflexivity|].
    split; [exact Hset|]. destruct Hp as [[H1 H2]|[H1 H2]]; [left; exists no; auto | right; split; assumption].
Qed.

(** *** A booking engine pushes B-77 *)

Definition demo_body : string := "B-77".
Definition demo_payload : channelBookingPayload :=
  {| p_ExternalRef := ""; p_ReservationID := demo_body; p_BookingID := ""; p_Ref := ""; p_GuestName := ""; p_FirstName := "Asha";
     p_LastName := "Rao"; p_GuestEmail := ""; p_Email := "asha@example.com"; p_GuestPhone := ""; p_Phone := "98111 22333";
     p_CheckIn := "2026-05-01"; p_CheckInDate := ""; p_CheckOut := ""; p_CheckOutDate := "2026-05-03"; p_RoomType := "Deluxe";
     p_Adults := 2; p_Children := 0; p_Total := cents 1120000; p_TotalPrice := 0; p_TaxAmount := cents 120000;
     p_Commission := cents 168000; p_Currency := "INR"; p_Notes := "" |}.
Definition demo_json : Json := {| unmarshal_booking := fun b => if b =s demo_body then Some demo_payload else None |}.
Definition free_room (id : uuid) (no : string) : RoomRow :=
  {| rm_id := id; rm_hotel_id := 1; rm_room_number := no; rm_room_type := "deluxe"; rm_floor := 2; rm_capacity := 2;
     rm_price_per_night := 450000; rm_status := "available"; rm_amenities := []%list; rm_created_at := Date 2026 1 1 0 0 0;
     rm_updated_at := Date 2026 1 1 0 0 0 |}.
Definition oyo : ChannelConnectionRow :=
  {| cc_id := 7; cc_hotel_id := 1; cc_channel_name := "OYO"; cc_api_key := Some "s3cret"; cc_connected := true; cc_last_sync_at := None |}.
Definition connected_hotel : DB :=
  empty_db <| hotels := [ {| ho_id := 1; ho_name := "Serene"; ho_slug := "serene"; ho_gst_rate := Some 1200; ho_is_active := true; ho_plan_tier := "premium"; ho_modules := []; ho_address := None; ho_settings := []; ho_identity := no_identity |} ]%list |>
           <| rooms := [free_room 201 "201"; free_room 202 "202"]%list |>
           <| channel_connections := [oyo]%list |>.
Definition push (body : string) : ChannelRequest :=
  {| cq_connectionID := "7"; cq_ref := ""; cq_body := body; cq_signature := "sha256=" ++ hex_mac "s3cret" body |}.
Definition web_server : Server :=
  {| sv_world := start connected_hotel; sv_process := {| Default := Some (started 8 1024 30000000000); detached := []%list |} |}.

Definition retried_early : list ChannelEvent :=
  [ Deliver (push demo_body); Deliver (push demo_body); PoolEvent (Receive 0); PoolEvent (Receive 1); JobReturns 0; JobReturns 1 ]%list.
Definition retried_after_cancel : list ChannelEvent :=
  [ Deliver (push demo_body); PoolEvent (Receive 0); JobReturns 0; CancelBooking (push demo_body);
    Deliver (push demo_body); PoolEvent (Receive 0); JobReturns 0 ]%list.
Definition after (es : list ChannelEvent) : DB := w_db (sv_world (channel_steps (env := calm) (json := demo_json) es web_server)).
Definition stays_of (d : DB) : list (string * uuid * string) := map (fun s => (gs_guest_name s, gs_room_id s, gs_status s)) (guest_stays d).

(** Redelivery is idempotent only once the booking is done.  A delivery
    repeated while the first is still in the queue is accepted as a job of its
    own, and the guest of one reference ends up with two rooms; one repeated
    after the channel cancelled books the guest in again.  The records still
    hold a single delivery. *)
Theorem redelivery_books_again :
  (stays_of (after retried_early) = [("Asha Rao", 201%N, "confirmed"); ("Asha Rao", 202%N, "confirmed")]%list
   /\ map cb_external_ref (channel_bookings (after retried_early)) = ["B-77"]%list)
  /\ stays_of (after retried_after_cancel) = [("Asha Rao", 201%N, "cancelled"); ("Asha Rao", 202%N, "confirmed")]%list
  /\ map cb_status (channel_bookings (after retried_after_cancel)) = ["processed"]%list.
Proof. vm_compute. repeat split. Qed.

Lemma signature_round_trip_witness :
  verifySignature "B-77" "s3cret" " sha256=b0" = false
  /\ verifySignature "B-77" "s3cret" ("sha256=" ++ hex_mac "s3cret" "B-77") = true.
Proof.
  split; [vm_compute; reflexivity|]. exact (proj2 (proj2 (signature_round_trip "B-77" "s3cret" "") ltac:(discriminate))).
Defined.

(** The same push with another body under the first one's signature. *)
Definition forged : ChannelRequest := (push demo_body) <| cq_body := "B-78" |>.
Lemma unsigned_requests_refused_witness :
  ~ authentic (env := calm) forged connected_hotel
  /\ exists r w', Ingest (env := calm) (json := demo_json) forged (start connected_hotel) = (inl r, w')
       /\ refusal r /\ w_db w' = connected_hotel.
Proof.
  assert (Hf : ~ authentic (env := calm) forged connected_hotel).
  { intros (id & row & Hid & Hrow & Hsig). vm_compute in Hid. injection Hid as <-. vm_compute in Hrow. injection Hrow as <-.
    vm_compute in Hsig. discriminate. }
  split; [exact Hf|]. exact (proj1 (unsigned_requests_refused calm demo_json forged (start connected_hotel) Hf)).
Defined.

(** B-77 has become stay 90. *)
Definition done_delivery : ChannelBookingRow :=
  {| cb_id := 80; cb_hotel_id := 1; cb_connection_id := Some 7%N; cb_channel_name := "OYO"; cb_external_ref := demo_body;
     cb_payload := demo_body; cb_status := "processed"; cb_guest_stay_id := Some 90%N; cb_commission := 168000; cb_error := None;
     cb_received_at := Date 2026 4 1 0 0 0; cb_processed_at := None |}.
Definition done_hotel : DB := connected_hotel <| channel_bookings := [done_delivery]%list |>.
Lemma delivery_answers_witness :
  runs (env := calm) Pool (Ingest (env := calm) (json := demo_json) (push demo_body)) done_hotel
    (fun ro d' => d' = done_hotel /\ ro = (RespOK (CB_duplicate "B-77" (Some 90%N)), None)) (fun r => r = RespError 500 "failed to record delivery").
Proof.
  exact (delivery_answers calm demo_json (push demo_body) done_hotel 7 oyo demo_payload eq_refl eq_refl
    ltac:(vm_compute; reflexivity) eq_refl eq_refl ltac:(discriminate)).
Defined.

Lemma web_server_ok : deliveries_ok connected_hotel.
Proof. split; [intros a b [] | intros r [] | intros r id []]. Qed.
Lemma deliveries_kept_witness :
  let d' := after retried_after_cancel in
  length (channel_bookings d') = 1%nat
  /\ forall r, In r (channel_bookings d') -> cb_status r = "processed" \/ cb_status r = "cancelled" ->
       exists id, cb_guest_stay_id r = Some id /\ on_file (cb_hotel_id r) id d'.
Proof.
  intros d'. split; [vm_compute; reflexivity|].
  exact (proj2 (proj2 (deliveries_kept calm demo_json retried_after_cancel web_server eq_refl web_server_ok eq_refl))).
Defined.

Definition demo_connection : channelConnection :=
  {| cn_ID := 7; cn_HotelID := 1; cn_Name := "OYO"; cn_APIKey := "s3cret"; cn_Active := true |}.
Lemma ota_booking_recorded_witness :
  runs (env := calm) Pool (process (env := calm) demo_connection demo_payload "B-77") connected_hotel
    (fun res d' => exists row, In row (guest_stays d') /\ gs_guest_name row = "Asha Rao" /\ gs_total_amount row = Some 1000000
       /\ (exists sale cost, journal_lines d' = (sale ++ cost)%list /\ total_debit sale = 1120000 /\ total_debit cost = 168000))
    (fun _ => True).
Proof.
  eapply runs_post.
  - eapply (proj1 (ota_booking_recorded calm calm_laws demo_connection demo_payload "B-77" connected_hotel
      (Date 2026 5 1 0 0 0) (Date 2026 5 3 0 0 0) 1120000 120000 168000
      ltac:(vm_compute; discriminate) ltac:(left; vm_compute; discriminate) ltac:(vm_compute; reflexivity) ltac:(vm_compute; reflexivity)
      ltac:(vm_compute; reflexivity) ltac:(vm_compute; reflexivity) ltac:(vm_compute; reflexivity) ltac:(vm_compute; reflexivity)
      ltac:(lia) ltac:(lia) ltac:(lia) ltac:(split; cbn; intros; contradiction) ltac:(intros r []))).
  - intros res d' (row & g & d1 & _ & _ & _ & _ & Hn & _ & _ & _ & Ht & _ & -> & Hset & Hbooks). exists row.
    destruct Hset as (a1 & a2 & a3 & a4 & a5 & a6 & a7 & a8 & E). split; [rewrite E; apply in_insert_row; right; reflexivity|].
    split; [rewrite Hn; vm_compute; reflexivity|]. split; [exact Ht|].
    destruct Hbooks as [(no & _ & Hx & _)|[(sale & cost & El & _ & H1 & _ & H2) _]]; [discriminate Hx|]. exists sale, cost. auto.
Defined.
