(* ===== verification/PaymentRepo.v ===== *)
(** PaymentRepo: internal/repository/postgres/payment_repository.go and the
    payment entities of internal/domain.  Payments and the gateway settings of
    the hotel [DemoHotelID], which this repository is written for. *)

From S2P Require Import Prelude GoLib Schema Binary64 World Domain RoomRepo Ledger Settlement.
From Stdlib Require Import QArith.
Local Open Scope string_scope.
Local Open Scope Z_scope.

Definition PaymentStatusPending := "pending".
Definition PaymentStatusCompleted := "completed".

Record PaymentGuestStaySummary := {
  ps_GuestName : string; ps_GuestID : option uuid; ps_RoomID : option uuid; ps_Room : option string }.
Record Payment := {
  pm_ID : uuid; pm_HotelID : uuid; pm_PaymentNumber : string; pm_GuestStayID : option uuid; pm_Amount : Q;
  pm_PaymentMethod : string; pm_Status : string; pm_ProcessedBy : option uuid; pm_Notes : option string;
  pm_GuestStay : option PaymentGuestStaySummary }.

Record PaymentGatewayConfig := {
  gc_HotelID : uuid; gc_ActiveGateway : string; gc_DefaultCurrency : string; gc_GatewayMode : string;
  gc_StripeEnabled : bool; gc_StripeAccountID : option string; gc_StripePublishableKey : option string;
  gc_StripeSecretKeyEncrypted : option string; gc_StripeWebhookSecretEncrypted : option string;
  gc_RazorpayEnabled : bool; gc_RazorpayKeyID : option string; gc_RazorpayKeySecretEncrypted : option string;
  gc_CashEnabled : bool; gc_CardEnabled : bool; gc_BankTransferEnabled : bool }.

Definition payment_key (id : uuid) (p : PaymentRow) : bool := ueq (pay_hotel_id p) DemoHotelID && ueq (pay_id p) id.

Section PaymentRepo.
Context {env : Env}.

Definition scan_payment (p : PaymentRow) : Payment :=
  {| pm_ID := pay_id p; pm_HotelID := pay_hotel_id p; pm_PaymentNumber := pay_number p;
     pm_GuestStayID := pay_guest_stay_id p; pm_Amount := num_dec (pay_amount p); pm_PaymentMethod := pay_method p;
     pm_Status := pay_status p; pm_ProcessedBy := pay_processed_by p; pm_Notes := pay_notes p; pm_GuestStay := None |}.

(** The columns of the LEFT JOINs on guest_stays and rooms. *)
Definition stay_summary (d : DB) (p : PaymentRow) : option PaymentGuestStaySummary :=
  id ← pay_guest_stay_id p;
  gs ← find_row (fun s => ueq (gs_id s) id) (guest_stays d);
  Some {| ps_GuestName := gs_guest_name gs; ps_GuestID := gs_guest_id gs; ps_RoomID := Some (gs_room_id gs);
          ps_Room := rs_RoomNumber <$> room_summary d (gs_room_id gs) |}.

Definition payment_row (id : uuid) (p : Payment) : PaymentRow :=
  {| pay_id := id; pay_hotel_id := DemoHotelID; pay_number := pm_PaymentNumber p;
     pay_guest_stay_id := pm_GuestStayID p; pay_amount := num_enc (pm_Amount p); pay_method := pm_PaymentMethod p;
     pay_status := pm_Status p; pay_upi_id := None; pay_transaction_ref := None; pay_card_last4 := None;
     pay_auth_code := None; pay_cash_received := None; pay_change_given := None;
     pay_processed_by := pm_ProcessedBy p; pay_notes := pm_Notes p; pay_category := None |}.

Definition PaymentRepo_Create (p : Payment) : M GoErr Payment :=
  id ← new_uuid; now ← time_now;
  exec Pool (insert_payment (payment_row id p)) onerr Wrap "paymentRepo.Create" ;;
  mret (scan_payment (payment_row id p)).

Definition PaymentRepo_FindByID (id : uuid) : M GoErr Payment :=
  o ← query Pool (fun d => (fun p => (scan_payment p) <| pm_GuestStay := stay_summary d p |>) <$> find_row (payment_key id) (payments d))
    onerr Wrap "paymentRepo.FindByID";
  of_option o ErrNotFound.

Definition update_payment (id : uuid) (f : PaymentRow -> PaymentRow) : M GoErr unit :=
  exec Pool (fun d => inr (tt, d <| payments ::= update_rows (payment_key id) f |>)).
Definition PaymentRepo_UpdateStatus (id : uuid) (status method : string) : M GoErr unit :=
  update_payment id (fun p => p <| pay_status := status |> <| pay_method := method |>).
Definition PaymentRepo_UpdateAmountAndNotes (id : uuid) (amount : Q) (method notes : string) : M GoErr unit :=
  update_payment id (fun p => p <| pay_amount := num_enc amount |> <| pay_method := method |>
                                <| pay_status := "pending" |> <| pay_notes := Some notes |>).
Definition PaymentRepo_Delete (id : uuid) : M GoErr unit :=
  exec Pool (fun d => inr (tt, d <| payments ::= delete_rows (payment_key id) |>)).

Definition scan_gateway (g : PaymentConfigRow) : PaymentGatewayConfig :=
  {| gc_HotelID := pg_hotel_id g; gc_ActiveGateway := pg_active_gateway g;
     gc_DefaultCurrency := default "USD" (pg_default_currency g); gc_GatewayMode := pg_gateway_mode g;
     gc_StripeEnabled := pg_stripe_enabled g; gc_StripeAccountID := pg_stripe_account_id g;
     gc_StripePublishableKey := pg_stripe_publishable_key g; gc_StripeSecretKeyEncrypted := pg_stripe_secret_key_encrypted g;
     gc_StripeWebhookSecretEncrypted := pg_stripe_webhook_secret_encrypted g; gc_RazorpayEnabled := pg_razorpay_enabled g;
     gc_RazorpayKeyID := pg_razorpay_key_id g; gc_RazorpayKeySecretEncrypted := pg_razorpay_key_secret_encrypted g;
     gc_CashEnabled := pg_cash_enabled g; gc_CardEnabled := pg_card_enabled g; gc_BankTransferEnabled := pg_bank_transfer_enabled g |}.
Definition FindGatewayConfig : M GoErr PaymentGatewayConfig :=
  o ← query Pool (fun d => scan_gateway <$> find_row (fun g => ueq (pg_hotel_id g) DemoHotelID) (payment_configs d))
    onerr Wrap "paymentRepo.FindGatewayConfig";
  of_option o ErrNotFound.
End PaymentRepo.
