(* ===== verification/Gateway.v ===== *)
(** Gateway: internal/service/payment_service.go, and encryptSetting of
    internal/handler/operations_handler.go.  Online bookings that are held, or
    paid through Stripe or Razorpay: pricing in the payer's currency, the room
    taken while the guest pays, the gateway's order or session, and the checks
    that complete a payment.

    The gateways, the exchange-rate service and Redis answer as [Outside] says,
    arbitrarily and in view of every call made before; their JSON is read by
    [GatewayJson]. *)

From S2P Require Import Prelude GoLib GoCrypto GoAes GoText Schema Binary64 World Domain RoomRepo PaymentRepo.
From Stdlib Require Import QArith.
Local Open Scope string_scope.
Local Open Scope Z_scope.

(** ** The world outside *)

Class Outside := {
  setnx_reply : list OutCall -> string -> GoErr + bool;           (* Redis SET NX *)
  cache_reply : list OutCall -> string -> GoErr + string;         (* Redis GET *)
  http_reply : list OutCall -> HttpRequest -> GoErr + (Z * string) (* status code and body *) }.

Record razorpayOrder := { ro_ID : string; ro_Amount : Z; ro_Currency : string }.
Record razorpayCapture := { rc_ID : string; rc_OrderID : string; rc_Status : string; rc_Amount : Z; rc_Currency : string }.
Record stripeSession := { ss_ID : string; ss_URL : string }.
(** json.Unmarshal of the answers; None when the body is not such JSON. *)
Class GatewayJson := {
  unmarshal_rate : string -> option Q;
  unmarshal_order : string -> option razorpayOrder;
  unmarshal_capture : string -> option razorpayCapture;
  unmarshal_session : string -> option stripeSession;
  unmarshal_payment_status : string -> option string;
  unmarshal_charges_enabled : string -> option bool }.

(** Of config.Config: Stripe.SecretKey, Stripe.PublishableKey and Auth.AccessTokenSecret. *)
Record Config := { cf_StripeSecretKey : string; cf_StripePublishableKey : string; cf_AccessTokenSecret : string }.

(** ** Requests and results *)

Record BookingCheckoutRequest := {
  bc_RoomID : uuid; bc_RoomType : string; bc_UserID : uuid; bc_Currency : string; bc_CheckInDate : Time;
  bc_CheckOutDate : Time; bc_GuestName : string; bc_GuestEmail : string; bc_GuestPhone : string;
  bc_Country : string; bc_OriginURL : string }.
Record CheckoutResult := { cr_CheckoutURL : string; cr_SessionID : string; cr_StayID : uuid; cr_PaymentID : uuid }.
Record RazorpayOrderResult := {
  or_OrderID : string; or_KeyID : string; or_PaymentID : uuid; or_StayID : uuid; or_Amount : Z; or_Currency : string;
  or_Name : string; or_Description : string }.
Record RazorpayVerifyRequest := {
  rv_PaymentID : uuid; rv_RazorpayOrderID : string; rv_RazorpayPaymentID : string; rv_RazorpaySignature : string }.
Record stripeSessionParams := {
  sp_Currency : string; sp_Amount : Q; sp_GuestEmail : string; sp_StayID : uuid; sp_PaymentID : uuid; sp_RoomID : uuid;
  sp_Country : string; sp_ProductName : string; sp_Description : string; sp_SuccessURL : string; sp_CancelURL : string;
  sp_IdempotencyKey : string }.
Record GatewayView := {
  gv_stripe_configured : bool; gv_active_gateway : string; gv_default_currency : string; gv_gateway_mode : string;
  gv_mode : string; gv_publishable_mode : string; gv_mode_matches : bool; gv_razorpay_configured : bool;
  gv_razorpay_key_id : string }.

(** ** Amounts *)

Definition zeroDecimalCurrencies : list string :=
  ["BIF"; "CLP"; "DJF"; "GNF"; "JPY"; "KMF"; "KRW"; "MGA"; "PYG"; "RWF"; "UGX"; "VND"; "VUV"; "XAF"; "XOF"; "XPF"].

Definition roundTo2 (f : Q) : Q := fdiv (of_int (to_int64 (fadd (fmul f 100) (1 # 2)))) 100.
Definition razorpayMinorAmount (amount : Q) : Z :=
  let v := to_int64 (fadd (fmul amount 100) (1 # 2)) in if v <? 1 then 1 else v.
Definition stripeMinorAmount (amount : Q) (currency : string) : Z :=
  if existsb (String.eqb (ToUpper currency)) zeroDecimalCurrencies
  then let v := to_int64 amount in if v <? 1 then 1 else v
  else let v := to_int64 (fmul amount 100) in if v <? 1 then 1 else v.

(** ** Names and keys *)

Definition normalizedRoomType (roomType : string) : string := ToLower (TrimSpace roomType).
Definition bookingNights (checkIn checkOut : Time) : Z :=
  let nights := CalendarNights checkIn checkOut in if nights <? 1 then 1 else nights.
(** An ASCII word with a capital. *)
Definition capitalise (part : string) : string := ToUpper (take_str 1 (ToLower part)) ++ drop_str 1 (ToLower part).
Definition roomTypeLabel (roomType : string) : string :=
  match Fields (replace_char "_" " " (TrimSpace roomType)) with
  | [] => "Selected"
  | parts => Join " " (map capitalise parts)
  end.

(** ** Stored secrets *)

Definition setting_cipher (secret : string) : list Z -> list Z :=
  aes256 (sha256 (bytes (if secret =s "" then "hotelops-local-development-secret" else secret))).

(** What encryptSetting stores, given the nonce crypto/rand yields. *)
Definition encryptSetting (secret : string) (nonce : list Z) (value : option string) : option string :=
  match value with
  | None => None
  | Some v =>
      if TrimSpace v =s "" then None
      else Some ("v1:" ++ b64_encode nonce ++ ":" ++ b64_encode (gcm_seal (setting_cipher secret) nonce (bytes (TrimSpace v))))
  end.

(** Open panics on a nonce that is not 12 bytes long. *)
Definition decryptSetting (secret : string) (value : option string) : GoErr + string :=
  match value with
  | None => inr ""
  | Some v =>
      if TrimSpace v =s "" then inr ""
      else match Split ":" (TrimSpace v) with
           | [version; n; c] =>
               if version !=s "v1" then inl (Errorf "unsupported encrypted setting format")
               else match b64_decode n, b64_decode c with
                    | Some nonce, Some ciphertext =>
                        if negb (Nat.eqb (length nonce) 12) then inl (GoPanic "crypto/cipher: incorrect nonce length given to GCM")
                        else match gcm_open (setting_cipher secret) nonce ciphertext with
                             | Some plain => inr (string_of_bytes plain)
                             | None => inl (Errorf "cipher: message authentication failed")
                             end
                    | _, _ => inl (Errorf "illegal base64 data")
                    end
           | _ => inl (Errorf "unsupported encrypted setting format")
           end
  end.

Definition TenantKey (hotelID suffix : string) : string := "t:" ++ hotelID ++ ":" ++ suffix.
Definition KeyDashboardStats (hotelID : string) : string := TenantKey hotelID "dashboard:stats".
Definition KeyRoomList (hotelID status : string) : string := TenantKey hotelID ("rooms:list:" ++ status).
Definition KeyExchangeRate (b t : string) : string := "fx:" ++ b ++ ":" ++ t.

Section Service.
Context {env : Env} {out : Outside} {json : GatewayJson}.
Variable cfg : Config.

(** ** Calls *)

Definition cache_delete {E} (keys : list string) : M E unit := call_out (fun _ => tt) (CallDelete keys).
Definition cache_set {E} (key value : string) : M E unit := call_out (fun _ => tt) (CallSet key value).
Definition cache_get {E} (key : string) : M E (GoErr + string) := call_out (fun past => cache_reply past key) (CallGet key).
Definition cache_SetNX {E} (key : string) : M E (GoErr + bool) := call_out (fun past => setnx_reply past key) (CallSetNX key).
Definition http_do {E} (r : HttpRequest) : M E (GoErr + (Z * string)) := call_out (fun past => http_reply past r) (CallHTTP r).

(** m, then c whatever m yields (defer) *)
Definition deferred {E A} (m : M E A) (c : M E unit) : M E A := fun w => let (r, w') := m w in (r, snd (c w')).
(** Taking the lock; when Redis cannot answer the work goes on without it. *)
Definition with_lock {A} (key busy : string) (body : M GoErr A) : M GoErr A :=
  locked ← cache_SetNX key;
  match locked with
  | inl _ => body
  | inr false => throw (Errorf busy)
  | inr true => deferred body (cache_delete [key])
  end.
(** The error as a value, a panic unwinding further. *)
Definition no_panic {A} (r : GoErr + A) : M GoErr (GoErr + A) :=
  match r with inl (GoPanic m) => throw (GoPanic m) | _ => mret r end.
Definition recovered {A} (m : M GoErr A) : M GoErr (GoErr + A) := r ← attempt m; no_panic r.
(** _ = m *)
Definition ignore {A} (m : M GoErr A) : M GoErr unit := attempt m ;; mret tt.

Definition demo_keys : list string :=
  let h := uuid_string DemoHotelID in
  [KeyDashboardStats h; KeyRoomList h "all"; KeyRoomList h RoomStatusAvailable; KeyRoomList h RoomStatusOccupied].

(** ** Credentials *)

Definition stripeSecretKey : M GoErr string :=
  g ← attempt FindGatewayConfig;
  stored ← match g with
           | inl _ => mret None
           | inr gatewayCfg =>
               let active := gc_ActiveGateway gatewayCfg in
               throw_if ((active !=s "") && (active !=s "stripe") && (active !=s "none"))
                 (Errorf (active ++ " is the active payment gateway; Stripe checkout is not enabled")) ;;
               if (active =s "stripe") || gc_StripeEnabled gatewayCfg
               then s ← no_panic (decryptSetting (cf_AccessTokenSecret cfg) (gc_StripeSecretKeyEncrypted gatewayCfg));
                    mret (match s with inr key => if HasPrefix key "sk_" then Some key else None | inl _ => None end)
               else mret None
           end;
  match stored with
  | Some key => mret key
  | None => if HasPrefix (cf_StripeSecretKey cfg) "sk_" then mret (cf_StripeSecretKey cfg)
            else throw (Errorf "Stripe secret key is not configured")
  end.

Definition razorpay_key_id (g : PaymentGatewayConfig) : string :=
  match gc_RazorpayKeyID g with Some k => TrimSpace k | None => "" end.
Definition razorpayCredentials : M GoErr (PaymentGatewayConfig * string * string) :=
  g ← FindGatewayConfig onerr (fun _ => Errorf "Razorpay gateway is not configured");
  throw_if (gc_ActiveGateway g !=s "razorpay")
    (Errorf (gc_ActiveGateway g ++ " is the active payment gateway; Razorpay checkout is not enabled")) ;;
  throw_if (negb (gc_RazorpayEnabled g)) (Errorf "Razorpay is disabled in payment settings") ;;
  let keyID := razorpay_key_id g in
  r ← no_panic (decryptSetting (cf_AccessTokenSecret cfg) (gc_RazorpayKeySecretEncrypted g));
  keySecret ← match r with inr s => mret s | inl _ => throw (Errorf "Razorpay secret could not be decrypted") end;
  throw_if ((keyID =s "") || (keySecret =s "")) (Errorf "Razorpay key id and secret are required") ;;
  let mode := ToLower (TrimSpace (gc_GatewayMode g)) in
  (if (mode =s "") || (mode =s "test")
   then throw_if (negb (HasPrefix keyID "rzp_test_")) (Errorf "Razorpay test mode requires an rzp_test key id")
   else if mode =s "live"
   then throw_if (negb (HasPrefix keyID "rzp_live_")) (Errorf "Razorpay live mode requires an rzp_live key id")
   else throw (Errorf "Razorpay gateway mode must be test or live")) ;;
  mret (g, keyID, keySecret).

(** ** The gateways *)

Definition stripe_url (path : string) : string := "https://api.stripe.com/v1/" ++ path.
Definition razorpay_url (path : string) : string := "https://api.razorpay.com/v1/" ++ path.
(** The header SetBasicAuth makes, before its base64. *)
Definition basic_auth (id secret : string) : string := "Basic " ++ id ++ ":" ++ secret.
Definition get_request (url auth : string) : HttpRequest :=
  {| hr_method := "GET"; hr_url := url; hr_auth := auth; hr_idempotency_key := None; hr_fields := [] |}.

Definition GetExchangeRate (base target : string) : M GoErr Q :=
  let base := ToUpper base in let target := ToUpper target in
  if base =s target then mret 1%Q else
  let cacheKey := KeyExchangeRate base target in
  v ← cache_get cacheKey;
  match (match v with inr s => Sscanf_f s | inl _ => None end) with
  | Some rate => mret rate
  | None =>
      resp ← http_do (get_request ("https://api.frankfurter.dev/v2/rate/" ++ base ++ "/" ++ target) "");
      match resp with
      | inl e => throw (Wrap "exchange rate fetch" e)
      | inr (_, body) =>
          match unmarshal_rate body with
          | Some rate =>
              throw_if (feq rate 0) (Errorf "exchange rate: invalid response") ;;
              cache_set cacheKey (fmt_6f rate) ;; mret rate
          | None => throw (Errorf "exchange rate: invalid response")
          end
      end
  end.

Definition createRazorpayOrder (keyID keySecret : string) (amount : Z) (currency receipt : string) (notes : list (string * string))
  : M GoErr string :=
  resp ← http_do {| hr_method := "POST"; hr_url := razorpay_url "orders"; hr_auth := basic_auth keyID keySecret;
                    hr_idempotency_key := None;
                    hr_fields := ("amount", fmt_d amount) :: ("currency", currency) :: ("receipt", receipt) :: notes |};
  match resp with
  | inl e => throw e
  | inr (status, body) =>
      throw_if (negb ((status =? 200) || (status =? 201))) (Errorf ("razorpay error " ++ fmt_d status ++ ": " ++ body)) ;;
      match unmarshal_order body with
      | None => throw (Errorf "razorpay: invalid order response")
      | Some o =>
          throw_if (TrimSpace (ro_ID o) =s "") (Errorf "razorpay: invalid order response") ;;
          throw_if (negb (ro_Amount o =? amount) || (ToUpper (ro_Currency o) !=s currency))
            (Errorf "razorpay: order amount or currency mismatch") ;;
          mret (ro_ID o)
      end
  end.

Definition verifyRazorpayPaymentCapture (keyID keySecret : string) (req : RazorpayVerifyRequest) (payment : Payment) : M GoErr unit :=
  resp ← http_do (get_request (razorpay_url ("payments/" ++ rv_RazorpayPaymentID req)) (basic_auth keyID keySecret));
  match resp with
  | inl e => throw (Wrap "unable to verify Razorpay payment status" e)
  | inr (status, body) =>
      throw_if (negb (status =? 200)) (Errorf ("Razorpay payment status check failed: " ++ body)) ;;
      match unmarshal_capture body with
      | None => throw (Errorf "Razorpay payment status response was invalid")
      | Some r =>
          throw_if ((rc_OrderID r !=s rv_RazorpayOrderID req) || (rc_ID r !=s rv_RazorpayPaymentID req))
            (Errorf "Razorpay payment does not match the verified order") ;;
          throw_if (rc_Status r !=s "captured") (Errorf ("Razorpay payment is " ++ rc_Status r ++ ", not captured yet")) ;;
          throw_if (negb (rc_Amount r =? razorpayMinorAmount (pm_Amount payment)) || (ToUpper (rc_Currency r) !=s "INR"))
            (Errorf "Razorpay payment amount or currency mismatch")
      end
  end.

Definition session_fields (p : stripeSessionParams) : list (string * string) :=
  [ ("mode", "payment"); ("payment_method_types[0]", "card"); ("success_url", sp_SuccessURL p); ("cancel_url", sp_CancelURL p);
    ("customer_email", sp_GuestEmail p); ("client_reference_id", uuid_string (sp_StayID p)); ("line_items[0][quantity]", "1");
    ("line_items[0][price_data][currency]", ToLower (sp_Currency p));
    ("line_items[0][price_data][unit_amount]", fmt_d (stripeMinorAmount (sp_Amount p) (sp_Currency p)));
    ("line_items[0][price_data][product_data][name]", sp_ProductName p);
    ("line_items[0][price_data][product_data][description]", sp_Description p);
    ("metadata[stay_id]", uuid_string (sp_StayID p)); ("metadata[payment_id]", uuid_string (sp_PaymentID p));
    ("metadata[room_id]", uuid_string (sp_RoomID p)); ("metadata[currency]", sp_Currency p); ("metadata[country]", sp_Country p);
    ("payment_intent_data[metadata][stay_id]", uuid_string (sp_StayID p));
    ("payment_intent_data[metadata][payment_id]", uuid_string (sp_PaymentID p)) ].
Definition createStripeSession (p : stripeSessionParams) : M GoErr stripeSession :=
  secretKey ← stripeSecretKey;
  resp ← http_do {| hr_method := "POST"; hr_url := stripe_url "checkout/sessions"; hr_auth := "Bearer " ++ secretKey;
                    hr_idempotency_key := Some (sp_IdempotencyKey p); hr_fields := session_fields p |};
  match resp with
  | inl e => throw e
  | inr (status, body) =>
      throw_if (negb (status =? 200)) (Errorf ("stripe error " ++ fmt_d status ++ ": " ++ body)) ;;
      of_option (unmarshal_session body) (Errorf "stripe: invalid session response")
  end.

Definition ensureStripeChargesEnabled : M GoErr unit :=
  resp ← http_do (get_request (stripe_url "account") ("Bearer " ++ cf_StripeSecretKey cfg));
  match resp with
  | inl e => throw (Wrap "unable to verify Stripe account status" e)
  | inr (status, body) =>
      throw_if (negb (status =? 200)) (Errorf ("Stripe account status check failed: " ++ body)) ;;
      match unmarshal_charges_enabled body with
      | None => throw (Errorf "Stripe account status response was invalid")
      | Some enabled =>
          throw_if (negb enabled)
            (Errorf "Stripe live payments are not enabled on this account yet. Complete Stripe account activation / KYC in the Stripe dashboard before accepting card payments")
      end
  end.

(** ** Rooms and records *)

Definition bookingRoomLockKey (req : BookingCheckoutRequest) : GoErr + string :=
  if negb (ueq (bc_RoomID req) uuid_nil) then inr (uuid_string (bc_RoomID req))
  else let roomType := normalizedRoomType (bc_RoomType req) in
       if roomType =s "" then inl (Errorf "room type is required") else inr ("type:" ++ roomType).
Definition allocation_key (req : BookingCheckoutRequest) : M GoErr string :=
  match bookingRoomLockKey req with inl e => throw e | inr k => mret k end.
Definition lock_key (prefix : string) (req : BookingCheckoutRequest) (allocationKey : string) : string :=
  prefix ++ uuid_string (bc_UserID req) ++ ":" ++ allocationKey ++ ":" ++ fmt_date (bc_CheckInDate req) ++ ":"
         ++ fmt_date (bc_CheckOutDate req).

Definition resolveBookingRoom (req : BookingCheckoutRequest) : M GoErr Room :=
  let gone := Errorf "selected room type is no longer available" in
  room ← (if negb (ueq (bc_RoomID req) uuid_nil)
          then FindRoomByID Pool DemoHotelID (bc_RoomID req) onerr (fun _ => gone)
          else let roomType := normalizedRoomType (bc_RoomType req) in
               throw_if (roomType =s "") (Errorf "room type is required") ;;
               FindAvailableRoom Pool DemoHotelID (Some roomType) onerr (fun _ => gone));
  throw_if (R_Status room !=s RoomStatusAvailable) gone ;;
  mret room.

(** The stay of a booking, before it has an ID. *)
Definition booking_stay (req : BookingCheckoutRequest) (room : Room) (guestName : string) (usdAmount : Q) (notes : string) : GuestStay :=
  {| ID := uuid_nil; HotelID := uuid_nil; GuestID := Some (bc_UserID req); RoomID := R_ID room; GuestName := guestName;
     GuestEmail := Some (bc_GuestEmail req); GuestPhone := Some (bc_GuestPhone req); CheckInDate := bc_CheckInDate req;
     CheckOutDate := bc_CheckOutDate req; ActualCheckIn := None; ActualCheckOut := None; TotalAmount := Some usdAmount;
     Notes := Some notes; Source := None; CreatedBy := Some (bc_UserID req);
     CreatedAt := {| t_ns := 0; t_off := 0 |}; UpdatedAt := {| t_ns := 0; t_off := 0 |}; SRoom := None; Status := "";
     ConfirmationNo := None; CancelledAt := None; CancellationReason := None; CancellationFee := 0; Adults := 0; Children := 0;
     ApproachType := ""; DiscountAmount := 0; TaxAmount := 0; PromoCode := None |}.
Definition booking_payment (req : BookingCheckoutRequest) (stay : GuestStay) (number : string) (amount : Q) (method notes : string) : Payment :=
  {| pm_ID := uuid_nil; pm_HotelID := uuid_nil; pm_PaymentNumber := number; pm_GuestStayID := Some (ID stay); pm_Amount := amount;
     pm_PaymentMethod := method; pm_Status := PaymentStatusPending; pm_ProcessedBy := Some (bc_UserID req);
     pm_Notes := Some notes; pm_GuestStay := None |}.
Definition payment_number (now : Time) (stay : GuestStay) : string :=
  "PAY-" ++ fmt_hms now ++ "-" ++ ToUpper (take_str 6 (uuid_string (ID stay))).

Definition occupy_room (room : Room) : M GoErr unit :=
  ignore (UpdateRoomStatus Pool DemoHotelID (R_ID room) RoomStatusOccupied) ;; cache_delete demo_keys.
(** Undoing a booking whose gateway refused it. *)
Definition release_booking (paymentID : uuid) (stay : GuestStay) (room : Room) : M GoErr unit :=
  ignore (PaymentRepo_Delete paymentID) ;; ignore (DeleteStay Pool DemoHotelID (ID stay)) ;;
  ignore (UpdateRoomStatus Pool DemoHotelID (R_ID room) RoomStatusAvailable).

Definition nights_text (n : Z) : string := fmt_d n ++ " night(s)".
Definition checkout_notes (gateway country currency : string) (rate : Q) : string :=
  gateway ++ " checkout pending. Country: " ++ country ++ ". Currency: " ++ currency ++ ". Rate: " ++ fmt_6f rate.

(** ** Bookings *)

Definition booking_checkout_locked (req : BookingCheckoutRequest) : M GoErr CheckoutResult :=
  let currency := if ToUpper (bc_Currency req) =s "" then "USD" else ToUpper (bc_Currency req) in
  let nights := bookingNights (bc_CheckInDate req) (bc_CheckOutDate req) in
  room ← resolveBookingRoom req;
  let usdAmount := fmul (R_PricePerNight room) (of_int nights) in
  rate ← GetExchangeRate "USD" currency onerr Wrap ("unable to price booking in " ++ currency);
  let convertedAmount := roundTo2 (fmul usdAmount rate) in
  let guestName := if bc_GuestName req =s "" then "Guest" else bc_GuestName req in
  stay ← CreateStay Pool DemoHotelID
           (booking_stay req room guestName usdAmount (checkout_notes "Stripe" (bc_Country req) currency rate)) onerr Wrap "create stay";
  now ← time_now;
  let roomType := roomTypeLabel (R_RoomType room) in
  payment ← PaymentRepo_Create (booking_payment req stay (payment_number now stay) convertedAmount "stripe"
              (roomType ++ " room booking for " ++ nights_text nights ++ " in " ++ currency ++ ". Assigned room: " ++ R_RoomNumber room))
            onerr Wrap "create payment";
  occupy_room room ;;
  let sid := uuid_string (ID stay) in let pid := uuid_string (pm_ID payment) in
  session ← recovered (createStripeSession
    {| sp_Currency := currency; sp_Amount := convertedAmount; sp_GuestEmail := bc_GuestEmail req; sp_StayID := ID stay;
       sp_PaymentID := pm_ID payment; sp_RoomID := R_ID room; sp_Country := bc_Country req;
       sp_ProductName := "Hotel " ++ roomType ++ " Room Booking";
       sp_Description := roomType ++ " room - " ++ nights_text nights ++ ". Room number assigned after booking.";
       sp_SuccessURL := bc_OriginURL req ++ "/guest?booking=success&stay_id=" ++ sid ++ "&payment_id=" ++ pid ++ "&session_id={CHECKOUT_SESSION_ID}";
       sp_CancelURL := bc_OriginURL req ++ "/guest?booking=cancelled&stay_id=" ++ sid; sp_IdempotencyKey := sid |});
  match session with
  | inl e => release_booking (pm_ID payment) stay room ;; throw (Wrap "Stripe checkout failed" e)
  | inr s => mret {| cr_CheckoutURL := ss_URL s; cr_SessionID := ss_ID s; cr_StayID := ID stay; cr_PaymentID := pm_ID payment |}
  end.
Definition BookingCheckout (req : BookingCheckoutRequest) : M GoErr CheckoutResult :=
  stripeSecretKey ;; ensureStripeChargesEnabled ;;
  allocationKey ← allocation_key req;
  with_lock (lock_key "lock:booking:" req allocationKey) "booking is already being processed" (booking_checkout_locked req).

Definition inr_only : GoErr := Errorf "Razorpay checkout is configured for INR. Select India (INR) before paying online".
Definition razorpay_currency (asked : string) (g : PaymentGatewayConfig) : string :=
  let c1 := ToUpper (TrimSpace asked) in
  let c2 := if c1 =s "" then ToUpper (TrimSpace (gc_DefaultCurrency g)) else c1 in
  if c2 =s "" then "INR" else c2.

Definition razorpay_booking_locked (gatewayCfg : PaymentGatewayConfig) (keyID keySecret : string) (req : BookingCheckoutRequest)
  : M GoErr RazorpayOrderResult :=
  let currency := razorpay_currency (bc_Currency req) gatewayCfg in
  throw_if (currency !=s "INR") inr_only ;;
  room ← resolveBookingRoom req;
  let nights := bookingNights (bc_CheckInDate req) (bc_CheckOutDate req) in
  let usdAmount := fmul (R_PricePerNight room) (of_int nights) in
  rate ← GetExchangeRate "USD" currency onerr Wrap ("unable to price booking in " ++ currency);
  let convertedAmount := roundTo2 (fmul usdAmount rate) in
  let minorAmount := razorpayMinorAmount convertedAmount in
  let guestName := if TrimSpace (bc_GuestName req) =s "" then "Guest" else TrimSpace (bc_GuestName req) in
  let roomType := roomTypeLabel (R_RoomType room) in
  stay ← CreateStay Pool DemoHotelID
           (booking_stay req room guestName usdAmount
              (checkout_notes "Razorpay" (bc_Country req) currency rate ++ ". Room number assigned after booking.")) onerr Wrap "create stay";
  now ← time_now;
  let payNotes := "Razorpay checkout pending. " ++ roomType ++ " room booking for " ++ nights_text nights ++ " in " ++ currency
                  ++ ". Assigned room: " ++ R_RoomNumber room in
  p ← attempt (PaymentRepo_Create (booking_payment req stay (payment_number now stay) convertedAmount "razorpay" payNotes));
  payment ← match p with
            | inl e => ignore (DeleteStay Pool DemoHotelID (ID stay)) ;; throw (Wrap "create payment" e)
            | inr payment => mret payment
            end;
  occupy_room room ;;
  order ← attempt (createRazorpayOrder keyID keySecret minorAmount currency (uuid_string (pm_ID payment))
    [ ("notes[payment_id]", uuid_string (pm_ID payment)); ("notes[stay_id]", uuid_string (ID stay));
      ("notes[room_id]", uuid_string (R_ID room)); ("notes[guest_id]", uuid_string (bc_UserID req)) ]);
  match order with
  | inl e => release_booking (pm_ID payment) stay room ;; throw (Wrap "Razorpay order failed" e)
  | inr orderID =>
      ignore (PaymentRepo_UpdateAmountAndNotes (pm_ID payment) convertedAmount "razorpay" (payNotes ++ ". Razorpay order: " ++ orderID)) ;;
      mret {| or_OrderID := orderID; or_KeyID := keyID; or_PaymentID := pm_ID payment; or_StayID := ID stay; or_Amount := minorAmount;
              or_Currency := currency; or_Name := "Hotel Room Booking";
              or_Description := roomType ++ " room - " ++ nights_text nights ++ ". Room number assigned after booking." |}
  end.
Definition CreateRazorpayBookingOrder (req : BookingCheckoutRequest) : M GoErr RazorpayOrderResult :=
  '(gatewayCfg, keyID, keySecret) ← razorpayCredentials;
  allocationKey ← allocation_key req;
  with_lock (lock_key "lock:razorpay-booking:" req allocationKey) "booking is already being processed"
    (razorpay_booking_locked gatewayCfg keyID keySecret req).

Definition hold_booking_locked (req : BookingCheckoutRequest) : M GoErr CheckoutResult :=
  room ← resolveBookingRoom req;
  let nights := bookingNights (bc_CheckInDate req) (bc_CheckOutDate req) in
  let usdAmount := fmul (R_PricePerNight room) (of_int nights) in
  let guestName := if bc_GuestName req =s "" then "Guest" else bc_GuestName req in
  let roomType := roomTypeLabel (R_RoomType room) in
  stay ← CreateStay Pool DemoHotelID
           (booking_stay req room guestName usdAmount
              ("Guest portal hold. Country: " ++ bc_Country req ++ ". Requested type: " ++ roomType ++ ". Room number assigned after booking."))
         onerr Wrap "create stay";
  now ← time_now;
  p ← attempt (PaymentRepo_Create (booking_payment req stay (payment_number now stay) usdAmount "hold"
                 (roomType ++ " room hold for " ++ nights_text nights ++ ". Assigned room: " ++ R_RoomNumber room)));
  payment ← match p with
            | inl e => ignore (DeleteStay Pool DemoHotelID (ID stay)) ;; throw (Wrap "create payment" e)
            | inr payment => mret payment
            end;
  occupy_room room ;;
  mret {| cr_CheckoutURL := ""; cr_SessionID := ""; cr_StayID := ID stay; cr_PaymentID := pm_ID payment |}.
Definition HoldBooking (req : BookingCheckoutRequest) : M GoErr CheckoutResult :=
  allocationKey ← allocation_key req;
  with_lock (lock_key "lock:hold:" req allocationKey) "booking is already being processed" (hold_booking_locked req).

(** ** Payments of bookings already made *)

Definition room_number_of (stay : GuestStay) : string := match SRoom stay with Some r => rs_RoomNumber r | None => "" end.

Definition razorpay_payment_locked (gatewayCfg : PaymentGatewayConfig) (keyID keySecret : string) (paymentID : uuid)
  (currency0 country : string) : M GoErr RazorpayOrderResult :=
  let currency := razorpay_currency currency0 gatewayCfg in
  throw_if (currency !=s "INR") inr_only ;;
  payment ← PaymentRepo_FindByID paymentID onerr (fun _ => Errorf "payment not found");
  throw_if (pm_Status payment =s PaymentStatusCompleted) (Errorf "payment is already completed") ;;
  '(stayID, usdAmount, description) ← match pm_GuestStayID payment with
    | None => mret (uuid_nil, pm_Amount payment, "Hotel payment")
    | Some stayID =>
        stay ← FindStayByID Pool DemoHotelID stayID onerr (fun _ => Errorf "booking not found");
        mret (stayID, default (pm_Amount payment) (TotalAmount stay), "Room " ++ room_number_of stay ++ " booking payment")
    end;
  rate ← GetExchangeRate "USD" currency onerr Wrap ("unable to price payment in " ++ currency);
  let convertedAmount := roundTo2 (fmul usdAmount rate) in
  let minorAmount := razorpayMinorAmount convertedAmount in
  orderID ← createRazorpayOrder keyID keySecret minorAmount currency (uuid_string paymentID)
              [ ("notes[payment_id]", uuid_string paymentID); ("notes[stay_id]", uuid_string stayID) ] onerr Wrap "Razorpay order failed";
  ignore (PaymentRepo_UpdateAmountAndNotes paymentID convertedAmount "razorpay"
            (checkout_notes "Razorpay" country currency rate ++ ". Razorpay order: " ++ orderID)) ;;
  mret {| or_OrderID := orderID; or_KeyID := keyID; or_PaymentID := paymentID; or_StayID := stayID; or_Amount := minorAmount;
          or_Currency := currency; or_Name := "Hotel Payment"; or_Description := description |}.
Definition CreateRazorpayPaymentOrder (paymentID : uuid) (currency country : string) : M GoErr RazorpayOrderResult :=
  '(gatewayCfg, keyID, keySecret) ← razorpayCredentials;
  with_lock ("lock:razorpay-payment:" ++ uuid_string paymentID) "payment checkout is already being processed"
    (razorpay_payment_locked gatewayCfg keyID keySecret paymentID currency country).

Definition payment_checkout_locked (paymentID : uuid) (currency0 country originURL : string) : M GoErr CheckoutResult :=
  let currency := if ToUpper currency0 =s "" then "USD" else ToUpper currency0 in
  payment ← PaymentRepo_FindByID paymentID onerr (fun _ => Errorf "payment not found");
  throw_if (pm_Status payment =s PaymentStatusCompleted) (Errorf "payment is already completed") ;;
  stayID ← of_option (pm_GuestStayID payment) (Errorf "booking not found for this payment");
  stay ← FindStayByID Pool DemoHotelID stayID onerr (fun _ => Errorf "booking not found");
  let usdAmount := default (pm_Amount payment) (TotalAmount stay) in
  rate ← GetExchangeRate "USD" currency onerr Wrap ("unable to price payment in " ++ currency);
  let convertedAmount := roundTo2 (fmul usdAmount rate) in
  ignore (PaymentRepo_UpdateAmountAndNotes paymentID convertedAmount "stripe" (checkout_notes "Stripe" country currency rate)) ;;
  let sid := uuid_string (ID stay) in let pid := uuid_string paymentID in
  session ← recovered (createStripeSession
    {| sp_Currency := currency; sp_Amount := convertedAmount; sp_GuestEmail := opt_str (GuestEmail stay); sp_StayID := ID stay;
       sp_PaymentID := paymentID; sp_RoomID := uuid_nil; sp_Country := country;
       sp_ProductName := "Hotel Room " ++ room_number_of stay ++ " Booking Payment";
       sp_Description := "Room " ++ room_number_of stay ++ " payment";
       sp_SuccessURL := originURL ++ "/guest?booking=success&stay_id=" ++ sid ++ "&payment_id=" ++ pid ++ "&session_id={CHECKOUT_SESSION_ID}";
       sp_CancelURL := originURL ++ "/guest?booking=cancelled&stay_id=" ++ sid ++ "&payment_id=" ++ pid;
       sp_IdempotencyKey := "pay-" ++ pid |});
  match session with
  | inl e => throw (Wrap "Stripe checkout failed" e)
  | inr s => mret {| cr_CheckoutURL := ss_URL s; cr_SessionID := ss_ID s; cr_StayID := ID stay; cr_PaymentID := paymentID |}
  end.
Definition PaymentCheckout (paymentID : uuid) (currency country originURL : string) : M GoErr CheckoutResult :=
  stripeSecretKey ;; ensureStripeChargesEnabled ;;
  with_lock ("lock:payment:" ++ uuid_string paymentID) "payment checkout is already being processed"
    (payment_checkout_locked paymentID currency country originURL).

(** ** Completing a payment *)

Definition complete (paymentID : uuid) (method : string) : M GoErr unit :=
  PaymentRepo_UpdateStatus paymentID PaymentStatusCompleted method ;; cache_delete [KeyDashboardStats (uuid_string DemoHotelID)].

Definition CompletePayment (paymentID : uuid) (sessionID : string) : M GoErr unit :=
  secretKey ← stripeSecretKey;
  resp ← http_do (get_request (stripe_url ("checkout/sessions/" ++ sessionID)) ("Bearer " ++ secretKey));
  match resp with
  | inl e => throw (Wrap "unable to verify Stripe payment" e)
  | inr (_, body) =>
      throw_if (negb (bool_decide (unmarshal_payment_status body = Some "paid"))) (Errorf "Stripe payment is not paid yet") ;;
      complete paymentID "stripe"
  end.

Definition razorpay_signature (keySecret orderID paymentID : string) : string := hex_mac keySecret (orderID ++ "|" ++ paymentID).
Definition VerifyRazorpayPayment (req : RazorpayVerifyRequest) : M GoErr unit :=
  '(_, keyID, keySecret) ← razorpayCredentials;
  throw_if (ueq (rv_PaymentID req) uuid_nil || (TrimSpace (rv_RazorpayOrderID req) =s "") || (TrimSpace (rv_RazorpayPaymentID req) =s "")
            || (TrimSpace (rv_RazorpaySignature req) =s "")) (Errorf "Razorpay payment verification data is incomplete") ;;
  payment ← PaymentRepo_FindByID (rv_PaymentID req) onerr (fun _ => Errorf "payment not found");
  if pm_Status payment =s PaymentStatusCompleted then mret tt else
  throw_if (negb (match pm_Notes payment with Some n => Contains n (rv_RazorpayOrderID req) | None => false end))
    (Errorf "Razorpay order does not match this payment") ;;
  throw_if (ToLower (razorpay_signature keySecret (rv_RazorpayOrderID req) (rv_RazorpayPaymentID req))
            !=s ToLower (rv_RazorpaySignature req)) (Errorf "Razorpay payment signature is invalid") ;;
  verifyRazorpayPaymentCapture keyID keySecret req payment ;;
  complete (rv_PaymentID req) "razorpay".

(** ** Settings shown *)

Definition key_mode (prefix key : string) : string :=
  if HasPrefix key (prefix ++ "live_") then "live" else if HasPrefix key (prefix ++ "test_") then "test" else "".
Definition gateway_view (active currency gatewayMode secret pub : string) (razorpay : bool) (keyID : string) : GatewayView :=
  let mode := key_mode "sk_" secret in let pubMode := key_mode "pk_" pub in
  {| gv_stripe_configured := HasPrefix secret "sk_"; gv_active_gateway := active; gv_default_currency := currency;
     gv_gateway_mode := gatewayMode; gv_mode := mode; gv_publishable_mode := pubMode;
     gv_mode_matches := (mode !=s "") && (pubMode !=s "") && (mode =s pubMode);
     gv_razorpay_configured := razorpay; gv_razorpay_key_id := keyID |}.
Definition not_blank (o : option string) : bool := TrimSpace (opt_str o) !=s "".

Definition GetConfig : M GoErr GatewayView :=
  g ← attempt FindGatewayConfig;
  match g with
  | inl _ => mret (gateway_view "stripe" "USD" "" (cf_StripeSecretKey cfg) (cf_StripePublishableKey cfg) false "")
  | inr g =>
      s ← no_panic (decryptSetting (cf_AccessTokenSecret cfg) (gc_StripeSecretKeyEncrypted g));
      let secret := match s with inr k => if k =s "" then cf_StripeSecretKey cfg else k | inl _ => cf_StripeSecretKey cfg end in
      let pub := if not_blank (gc_StripePublishableKey g) then TrimSpace (opt_str (gc_StripePublishableKey g))
                 else cf_StripePublishableKey cfg in
      mret (gateway_view (gc_ActiveGateway g) (gc_DefaultCurrency g) (gc_GatewayMode g) secret pub
              (gc_RazorpayEnabled g && not_blank (gc_RazorpayKeyID g) && not_blank (gc_RazorpayKeySecretEncrypted g))
              (razorpay_key_id g))
  end.
End Service.
