(* ===== verification/PaymentDesk.v ===== *)
(** PaymentDesk: internal/handler/payment_handler.go.  The endpoints of online
    booking and payment: authentication, reading the payload, and the statuses
    the service's errors are answered with. *)

From S2P Require Import Prelude GoLib GoText Schema Binary64 World Auth Domain Gateway.
From Stdlib Require Import QArith.
Local Open Scope string_scope.
Local Open Scope Z_scope.

Record bookingCheckoutRequest := {
  bq_RoomID : string; bq_RoomType : string; bq_UserID : string; bq_Currency : string; bq_CheckInDate : string;
  bq_CheckOutDate : string; bq_GuestName : string; bq_GuestEmail : string; bq_GuestPhone : string; bq_Country : string }.
Record paymentCheckoutRequest := { cq_PaymentID : string; cq_Currency : string; cq_Country : string }.
Record completePaymentRequest := { mq_PaymentID : string; mq_SessionID : string }.
Record razorpayVerifyRequest := {
  vq_PaymentID : string; vq_RazorpayOrderID : string; vq_RazorpayPaymentID : string; vq_RazorpaySignature : string }.

(** An endpoint and its body, None when BodyParser refuses it. *)
Inductive GatewayOp :=
  | Op_Config
  | Op_ExchangeRate (base target : option string)
  | Op_BookingCheckout (body : option bookingCheckoutRequest)
  | Op_HoldBooking (body : option bookingCheckoutRequest)
  | Op_RazorpayBookingOrder (body : option bookingCheckoutRequest)
  | Op_PaymentCheckout (body : option paymentCheckoutRequest)
  | Op_RazorpayPaymentOrder (body : option paymentCheckoutRequest)
  | Op_CompletePayment (body : option completePaymentRequest)
  | Op_RazorpayVerify (body : option razorpayVerifyRequest).

Inductive GatewayBody :=
  | GB_config (v : GatewayView)
  | GB_rate (base target : string) (rate : Q)
  | GB_checkout (r : CheckoutResult)
  | GB_order (r : RazorpayOrderResult)
  | GB_completed.

(** A request: its context, the Origin header, and what it asks. *)
Record GatewayRequest := { gq_ctx : Ctx; gq_origin : string; gq_op : GatewayOp }.

Definition parseDate (value : string) : option Time :=
  match parse_date value with Some t => Some t | None => parse_rfc3339 value end.
Definition origin (header : string) : string := if header !=s "" then header else "http://localhost:8080".

Section PaymentDesk.
Context {env : Env} {out : Outside} {json : GatewayJson} {jwt : Jwt}.
Variable cfg : Config.

Definition bad (msg : string) : Resp GatewayBody := RespError 400 msg.

Definition parseBookingPayload (originHeader : string) (body : option bookingCheckoutRequest)
  : M (Resp GatewayBody) BookingCheckoutRequest :=
  req ← of_option body (bad "invalid request body");
  roomID ← (if TrimSpace (bq_RoomID req) !=s "" then of_option (uuid_parse (bq_RoomID req)) (bad "invalid room id") else mret uuid_nil);
  throw_if (ueq roomID uuid_nil && (TrimSpace (bq_RoomType req) =s "")) (bad "room type is required") ;;
  userID ← of_option (uuid_parse (bq_UserID req)) (bad "invalid user id");
  checkIn ← of_option (parseDate (bq_CheckInDate req)) (bad "invalid check-in date");
  checkOut ← of_option (parseDate (bq_CheckOutDate req)) (bad "invalid check-out date");
  mret {| bc_RoomID := roomID; bc_RoomType := bq_RoomType req; bc_UserID := userID; bc_Currency := bq_Currency req;
          bc_CheckInDate := checkIn; bc_CheckOutDate := checkOut; bc_GuestName := bq_GuestName req;
          bc_GuestEmail := bq_GuestEmail req; bc_GuestPhone := bq_GuestPhone req; bc_Country := bq_Country req;
          bc_OriginURL := origin originHeader |}.

(** The service's error under a status; a panic is the recover middleware's 500. *)
Definition service_refusal (status : Z) (e : GoErr) : Resp GatewayBody :=
  match e with GoPanic msg => RespError 500 msg | _ => RespError status (err_text e) end.
Definition answer {A} (status : Z) (body : A -> GatewayBody) (m : M GoErr A) : M (Resp GatewayBody) (Resp GatewayBody) :=
  a ← m onerr service_refusal status; mret (RespOK (body a)).

Definition ConfigHandler : M (Resp GatewayBody) (Resp GatewayBody) := answer 500 GB_config (GetConfig cfg).
Definition ExchangeRate (base target : option string) : M (Resp GatewayBody) (Resp GatewayBody) :=
  let base := default "USD" base in let target := default "USD" target in
  answer 502 (GB_rate base target) (GetExchangeRate base target).

Definition booking_endpoint {A} (c : GatewayRequest) (req : option bookingCheckoutRequest) (body : A -> GatewayBody)
  (service : BookingCheckoutRequest -> M GoErr A) : M (Resp GatewayBody) (Resp GatewayBody) :=
  guard (requireAuthenticatedRequest (gq_ctx c) (cf_AccessTokenSecret cfg)) ;;
  bookingReq ← parseBookingPayload (gq_origin c) req;
  answer 400 body (service bookingReq).

Definition payment_endpoint {R A} (c : GatewayRequest) (body : option R) (id : R -> string) (k : R -> uuid -> M (Resp GatewayBody) A)
  : M (Resp GatewayBody) A :=
  guard (requireAuthenticatedRequest (gq_ctx c) (cf_AccessTokenSecret cfg)) ;;
  req ← of_option body (bad "invalid request body");
  paymentID ← of_option (uuid_parse (id req)) (bad "invalid payment id");
  k req paymentID.

Definition gateway_handle (c : GatewayRequest) : M (Resp GatewayBody) (Resp GatewayBody) :=
  match gq_op c with
  | Op_Config => ConfigHandler
  | Op_ExchangeRate base target => ExchangeRate base target
  | Op_BookingCheckout body => booking_endpoint c body GB_checkout (BookingCheckout cfg)
  | Op_HoldBooking body => booking_endpoint c body GB_checkout HoldBooking
  | Op_RazorpayBookingOrder body => booking_endpoint c body GB_order (CreateRazorpayBookingOrder cfg)
  | Op_PaymentCheckout body => payment_endpoint c body cq_PaymentID (fun req id =>
      answer 400 GB_checkout (PaymentCheckout cfg id (cq_Currency req) (cq_Country req) (origin (gq_origin c))))
  | Op_RazorpayPaymentOrder body => payment_endpoint c body cq_PaymentID (fun req id =>
      answer 400 GB_order (CreateRazorpayPaymentOrder cfg id (cq_Currency req) (cq_Country req)))
  | Op_CompletePayment body => payment_endpoint c body mq_PaymentID (fun req id =>
      answer 409 (fun _ => GB_completed) (CompletePayment cfg id (mq_SessionID req)))
  | Op_RazorpayVerify body => payment_endpoint c body vq_PaymentID (fun req id =>
      answer 409 (fun _ => GB_completed) (VerifyRazorpayPayment cfg
        {| rv_PaymentID := id; rv_RazorpayOrderID := vq_RazorpayOrderID req; rv_RazorpayPaymentID := vq_RazorpayPaymentID req;
           rv_RazorpaySignature := vq_RazorpaySignature req |}))
  end.
End PaymentDesk.
