(* ===== verification/GatewaySpec.v ===== *)
(** GatewaySpec: what the payment code keeps.  Stored secrets decrypt to what was
    saved; amounts reach the gateways; a Razorpay payment is completed only on
    the gateway's own word; an online booking is made whole or not at all. *)

From S2P Require Import Prelude GoLib GoCrypto GoAes GoText Schema Binary64 World Auth Guards Domain RoomRepo Settlement PaymentRepo Gateway PaymentDesk.
From Stdlib Require Import QArith Qabs Lqa.
Local Open Scope string_scope.
Local Open Scope Z_scope.

(** ** Stored secrets *)

Lemma solid_b64 l : Forall byte l -> solid (b64_encode l) = true.
Proof. apply b64_encode_chars. vm_compute. reflexivity. Qed.
Lemma without_colon_b64 l : Forall byte l -> without ":" (b64_encode l) = true.
Proof. apply b64_encode_chars. vm_compute. reflexivity. Qed.

Lemma setting_cipher_length secret b : length (setting_cipher secret b) = 16%nat.
Proof. apply aes256_length. Qed.
Lemma setting_cipher_bytes secret b : Forall byte (setting_cipher secret b).
Proof. apply aes256_bytes, sha256_bytes. Qed.

(** C19: a gateway secret saved in the settings is decrypted to what was typed,
    without the spaces around it, whatever nonce encrypted it; and no secret is
    no secret. *)
Theorem stored_secret_round_trip secret nonce (value : option string)
  (Hbytes : Forall byte nonce) (Hlength : length nonce = 12%nat) :
  decryptSetting secret (encryptSetting secret nonce value) = inr (TrimSpace (opt_str value)).
Proof.
  destruct value as [v|]; [|reflexivity]. unfold encryptSetting. change (opt_str (Some v)) with v.
  destruct (TrimSpace v =s "") eqn:Ev; [apply String.eqb_eq in Ev; now rewrite Ev|].
  set (c := gcm_seal (setting_cipher secret) nonce (bytes (TrimSpace v))).
  assert (Hc : Forall byte c) by (apply gcm_seal_bytes; [apply setting_cipher_bytes | apply bytes_of_string]).
  unfold decryptSetting. rewrite TrimSpace_solid.
  2:{ unfold solid. rewrite !forall_string_app. fold (solid (b64_encode nonce)) (solid (b64_encode c)). rewrite !solid_b64 by assumption. reflexivity. }
  change ("v1:" ++ b64_encode nonce ++ ":" ++ b64_encode c) with ("v1" ++ String ":" (b64_encode nonce ++ String ":" (b64_encode c))).
  rewrite !Split_app by (reflexivity || now apply without_colon_b64). rewrite Split_without by now apply without_colon_b64.
  change ("v1" !=s "v1") with false. change ("v1" +:+ String ":" ?[r] =s "") with false. cbv iota.
  rewrite !b64_round_trip, Hlength by assumption. cbn [negb Nat.eqb].
  unfold c. rewrite gcm_open_seal by apply setting_cipher_length. now rewrite string_of_bytes_of_string.
Qed.

(** ** Amounts in minor units *)

Lemma to_int64_floor x n : 0 <= n < 2 ^ 62 -> (inject_Z n <= x)%Q -> (x < inject_Z (n + 1))%Q -> to_int64 x = n.
Proof.
  intros Hn. unfold Qle, Qlt, to_int64. cbn [Qnum Qden inject_Z]. rewrite !Z.mul_1_r. intros Hl Hu.
  assert (E : Z.quot (Qnum x) (Zpos (Qden x)) = n).
  { rewrite Z.quot_div_nonneg by lia. symmetry. apply Z.div_unique with (r := Qnum x - Zpos (Qden x) * n); lia. }
  rewrite E. destruct (_ && _) eqn:B; [reflexivity|]. lia.
Qed.
Lemma cents_times_100 k : Z.abs k <= MAXC ->
  (inject_Z k - (1 # 25) <= fmul (cents k) 100 /\ fmul (cents k) 100 <= inject_Z k + (1 # 25))%Q.
Proof.
  intros Hk. pose proof (cents_near k Hk) as H. rewrite near_iff in H. destruct H as [Hl Hu].
  apply inject_abs_le in Hk. change (inject_Z MAXC) with 100000000000000%Q in Hk. change (inject_Z 1) with 1%Q in *.
  assert (Hx : (Qabs (cents k * 100) <= 100000000000001)%Q) by (apply Qabs_le_iff; split; lra).
  apply rnd_err_le in Hx. unfold fmul.
  assert (Hc : (100000000000001 * (1 # 2 ^ 53) + tiny <= 1 # 50)%Q) by (vm_compute; discriminate).
  apply (Qle_trans _ _ _ Hx), Qabs_le_iff in Hc as [? ?]. split; lra.
Qed.
(** x*100 + 0.5, then the integer part: the amount in hundredths *)
Lemma half_up_cents k : 0 <= k <= MAXC -> to_int64 (fadd (fmul (cents k) 100) (1 # 2)) = k.
Proof.
  intros Hk. assert (Ha : Z.abs k <= MAXC) by lia. pose proof (cents_times_100 k Ha) as [Hl Hu].
  apply inject_abs_le in Ha. change (inject_Z MAXC) with 100000000000000%Q in Ha.
  assert (Hx : (Qabs (fmul (cents k) 100 + (1 # 2)) <= 100000000000001)%Q) by (apply Qabs_le_iff; split; lra).
  apply rnd_err_le in Hx. unfold fadd.
  assert (Hc : (100000000000001 * (1 # 2 ^ 53) + tiny <= 1 # 50)%Q) by (vm_compute; discriminate).
  apply (Qle_trans _ _ _ Hx), Qabs_le_iff in Hc as [? ?].
  apply to_int64_floor; [unfold MAXC in Hk; lia | lra |]. rewrite inject_Z_plus. change (inject_Z 1) with 1%Q. lra.
Qed.
Lemma of_int_cents k : 0 <= k <= MAXC -> fdiv (of_int k) 100 = cents k.
Proof. intros Hk. unfold fdiv, cents. apply rnd_Proper. now rewrite of_int_exact by (unfold MAXC in Hk; lia). Qed.

(** An amount of whole paise reaches the gateways as whole minor units.
    Razorpay is asked for exactly the amount, and the amount recorded is the one
    priced; Stripe, whose conversion cuts where the other rounds, is asked for the
    amount or one minor unit less, and for 19.99 it is one less. *)
Theorem gateway_amounts k currency
  (Hk : 1 <= k <= MAXC) (Hcurrency : ~ In (ToUpper currency) zeroDecimalCurrencies) :
  razorpayMinorAmount (cents k) = k /\ roundTo2 (cents k) = cents k
  /\ Z.max 1 (k - 1) <= stripeMinorAmount (cents k) currency <= k
  /\ stripeMinorAmount (cents 1999) "USD" = 1998.
Proof.
  assert (H0 : 0 <= k <= MAXC) by lia. split; [unfold razorpayMinorAmount; rewrite half_up_cents by exact H0; destruct (Z.ltb_spec k 1); lia|].
  split; [unfold roundTo2; rewrite half_up_cents by exact H0; now apply of_int_cents|]. split; [|vm_compute; reflexivity].
  assert (Hz : existsb (String.eqb (ToUpper currency)) zeroDecimalCurrencies = false).
  { apply not_true_is_false. intros (c & Hc & E%String.eqb_eq)%existsb_exists. subst c. contradiction. }
  unfold stripeMinorAmount. rewrite Hz. pose proof (cents_times_100 k ltac:(lia)) as [Hl Hu].
  set (x := fmul (cents k) 100) in *. assert (Hr : k - 1 <= to_int64 x <= k).
  { destruct (Qlt_le_dec x (inject_Z k)) as [H|H].
    - rewrite (to_int64_floor x (k - 1)); [lia | unfold MAXC in Hk; lia | |]; [|now replace (k - 1 + 1) with k by lia].
      unfold Z.sub. rewrite inject_Z_plus. change (inject_Z (- (1))) with (- (1))%Q. lra.
    - rewrite (to_int64_floor x k); [lia | unfold MAXC in Hk; lia | exact H |].
      rewrite inject_Z_plus. change (inject_Z 1) with 1%Q. lra. }
  destruct (Z.ltb_spec (to_int64 x) 1); lia.
Qed.

(** ** Completing a payment *)

Section Completing.
Context {env : Env} {out : Outside} {json : GatewayJson} {jwt : Jwt} (cfg : Config).

(** The computation leaves the database alone, and yields something of P. *)
Definition learns {A} (m : M GoErr A) (d : DB) (P : A -> Prop) : Prop :=
  ensures m d (fun a d' => d' = d /\ P a) (fun _ d' => d' = d).

Lemma learns_ret {A} (a : A) d (P : A -> Prop) : P a -> learns (mret a) d P.
Proof. intros H. apply ens_ret. auto. Qed.
Lemma learns_throw {A} e d (P : A -> Prop) : learns (throw e) d P.
Proof. now apply ens_throw. Qed.
Lemma learns_bind {A B} (m : M GoErr A) (k : A -> M GoErr B) d P1 P :
  learns m d P1 -> (forall a, P1 a -> learns (k a) d P) -> learns (m ≫= k) d P.
Proof. intros Hm Hk. eapply ens_bind; [exact Hm|]. intros a d' [-> H]. now apply Hk. Qed.
Lemma learns_on_err {A} (m : M GoErr A) h d P : learns m d P -> learns (on_err m h) d P.
Proof. intros H. now apply ens_on_err. Qed.
Lemma learns_option {A} (o : option A) e d : learns (of_option o e) d (fun a => o = Some a).
Proof. apply ens_of_option. destruct o; auto. Qed.
Lemma learns_query {A} (f : DB -> A) d : learns (query Pool f) d (fun a => a = f d).
Proof. apply ens_query; auto. Qed.
Lemma learns_unless {B} (b : bool) e (k : unit -> M GoErr B) d P :
  (b = false -> learns (k tt) d P) -> learns (u ← throw_if b e; k u) d P.
Proof. intros H. apply ens_then_throw_if; [auto | exact H]. Qed.
Lemma learns_weaken {A} (m : M GoErr A) d (P P' : A -> Prop) : learns m d P -> (forall a, P a -> P' a) -> learns m d P'.
Proof. intros H HP. eapply ens_post; [exact H | intros a d' [-> Ha]; auto | auto]. Qed.
Lemma learns_call_out {A} (answer : list OutCall -> A) c d : learns (call_out answer c) d (fun a => exists past, a = answer past).
Proof. apply ens_call_out. eauto. Qed.
Lemma learns_no_panic {A} (r : GoErr + A) d : learns (no_panic r) d (fun r' => r' = r).
Proof. destruct r as [[]|]; first [apply learns_throw | now apply learns_ret]. Qed.

Lemma learns_FindGateway d : learns FindGatewayConfig d (fun g => exists row,
  find_row (fun r => ueq (pg_hotel_id r) DemoHotelID) (payment_configs d) = Some row /\ g = scan_gateway row).
Proof.
  unfold FindGatewayConfig. eapply learns_bind; [apply learns_on_err, learns_query|]. intros o ->.
  eapply learns_weaken; [apply learns_option|]. intros g H. destruct (find_row _ _) as [row|]; [|discriminate].
  injection H as <-. eauto.
Qed.
Lemma learns_FindPayment id d : learns (PaymentRepo_FindByID id) d (fun p => exists row,
  find_row (payment_key id) (payments d) = Some row /\ p = (scan_payment row) <| pm_GuestStay := stay_summary d row |>).
Proof.
  unfold PaymentRepo_FindByID. eapply learns_bind; [apply learns_on_err, learns_query|]. intros o ->.
  eapply learns_weaken; [apply learns_option|]. intros g H. destruct (find_row _ _) as [row|]; [|discriminate].
  injection H as <-. eauto.
Qed.

(** The hotel's Razorpay key and secret, as its settings in d hold them. *)
Definition razorpay_account (d : DB) (keyID keySecret : string) : Prop := exists g,
  find_row (fun r => ueq (pg_hotel_id r) DemoHotelID) (payment_configs d) = Some g
  /\ pg_active_gateway g = "razorpay" /\ pg_razorpay_enabled g = true
  /\ keyID = TrimSpace (opt_str (pg_razorpay_key_id g)) /\ keySecret <> ""
  /\ decryptSetting (cf_AccessTokenSecret cfg) (pg_razorpay_key_secret_encrypted g) = inr keySecret.

Lemma learns_credentials d : learns (razorpayCredentials cfg) d (fun '(g, keyID, keySecret) => razorpay_account d keyID keySecret).
Proof.
  unfold razorpayCredentials. eapply learns_bind; [apply learns_on_err, learns_FindGateway|].
  intros g (row & Hrow & ->). apply learns_unless. intros Ha%negb_false_iff%String.eqb_eq.
  apply learns_unless. intros He%negb_false_iff. eapply learns_bind; [apply learns_no_panic|]. intros r ->.
  eapply learns_bind with (P1 := fun s => decryptSetting (cf_AccessTokenSecret cfg) (pg_razorpay_key_secret_encrypted row) = inr s).
  { cbn. destruct (decryptSetting _ _); [apply learns_throw | now apply learns_ret]. }
  intros s Hs. apply learns_unless. intros [Hk Hne%String.eqb_neq]%orb_false_iff.
  eapply learns_bind with (P1 := fun _ => True).
  { set (m := ToLower _). destruct (_ || _); [|destruct (m =s "live")]; try apply learns_throw;
      unfold throw_if; destruct (negb _); first [apply learns_throw | now apply learns_ret]. }
  intros _ _. apply learns_ret. exists row. repeat split; try assumption. cbn. unfold razorpay_key_id. cbn.
  destruct (pg_razorpay_key_id row); reflexivity.
Qed.

(** The gateway's own word on a payment: captured, for this order and amount. *)
Definition captured (keyID keySecret : string) (req : RazorpayVerifyRequest) (amount : Q) : Prop := exists past body r,
  http_reply past (get_request (razorpay_url ("payments/" ++ rv_RazorpayPaymentID req)) (basic_auth keyID keySecret)) = inr (200, body)
  /\ unmarshal_capture body = Some r /\ rc_ID r = rv_RazorpayPaymentID req /\ rc_OrderID r = rv_RazorpayOrderID req
  /\ rc_Status r = "captured" /\ rc_Amount r = razorpayMinorAmount amount /\ ToUpper (rc_Currency r) = "INR".

Lemma learns_capture keyID keySecret req p d :
  learns (verifyRazorpayPaymentCapture keyID keySecret req p) d (fun _ => captured keyID keySecret req (pm_Amount p)).
Proof.
  unfold verifyRazorpayPaymentCapture. eapply learns_bind; [apply learns_call_out|]. intros r [past Hr].
  destruct r as [e|[status body]]; [apply learns_throw|]. apply learns_unless. intros Hs%negb_false_iff%Z.eqb_eq. subst status.
  destruct (unmarshal_capture body) as [c|] eqn:Ec; [|apply learns_throw].
  apply learns_unless. intros [Ho%negb_false_iff%String.eqb_eq Hi%negb_false_iff%String.eqb_eq]%orb_false_iff.
  apply learns_unless. intros Hst%negb_false_iff%String.eqb_eq.
  destruct (negb _ || _) eqn:Ea; [apply learns_throw|]. apply learns_ret.
  apply orb_false_iff in Ea as [Ha%negb_false_iff%Z.eqb_eq Hc%negb_false_iff%String.eqb_eq].
  exists past, body, c. repeat split; auto.
Qed.

Definition completed_by (method : string) (id : uuid) (d : DB) : DB :=
  d <| payments ::= update_rows (payment_key id) (fun p => p <| pay_status := "completed" |> <| pay_method := method |>) |>.
Lemma ens_complete id method d : ensures (complete id method) d (fun _ d' => d' = completed_by method id d) (fun _ d' => d' = d).
Proof.
  unfold complete, PaymentRepo_UpdateStatus, update_payment. eapply ens_bind with (Q1 := fun _ d' => d' = completed_by method id d).
  - apply ens_exec; reflexivity.
  - intros [] d' ->. now apply ens_call_out.
Qed.

(** What must hold of a payment that a verification newly completes. *)
Definition verified (d : DB) (row : PaymentRow) (req : RazorpayVerifyRequest) : Prop := exists keyID keySecret notes,
  razorpay_account d keyID keySecret
  /\ pay_notes row = Some notes /\ Contains notes (rv_RazorpayOrderID req) = true
  /\ ToLower (rv_RazorpaySignature req)
     = ToLower (hex_mac keySecret (rv_RazorpayOrderID req ++ "|" ++ rv_RazorpayPaymentID req))
  /\ captured keyID keySecret req (num_dec (pay_amount row)).

(** The outcome of a verification that is not refused. *)
Definition verification (d : DB) (req : RazorpayVerifyRequest) (d' : DB) : Prop := exists row,
  find_row (payment_key (rv_PaymentID req)) (payments d) = Some row
  /\ ((pay_status row = "completed" /\ d' = d)
      \/ (pay_status row <> "completed" /\ verified d row req /\ d' = completed_by "razorpay" (rv_PaymentID req) d)).

Lemma ens_Verify req d : ensures (VerifyRazorpayPayment cfg req) d (fun _ d' => verification d req d') (fun _ d' => d' = d).
Proof.
  unfold VerifyRazorpayPayment. eapply ens_bind; [apply learns_credentials|]. intros [[g keyID] keySecret] d' [-> Hacc].
  apply ens_then_throw_if; [auto|]. intros _.
  eapply ens_bind; [apply learns_on_err, learns_FindPayment|]. intros p d' [-> (row & Hrow & ->)].
  destruct (pm_Status _ =s PaymentStatusCompleted) eqn:Est; cbn in Est.
  { apply ens_ret. exists row. split; [exact Hrow|]. left. now apply String.eqb_eq in Est. }
  apply String.eqb_neq in Est. apply ens_then_throw_if; [auto|]. intros Hn%negb_false_iff. cbn in Hn.
  apply ens_then_throw_if; [auto|]. intros Hs%negb_false_iff%String.eqb_eq.
  eapply ens_bind; [apply learns_capture|]. intros _ d' [-> Hc]. eapply ens_post; [apply ens_complete| |auto].
  intros _ d' ->. exists row. split; [exact Hrow|]. right. split; [exact Est|]. split; [|reflexivity].
  destruct (pay_notes row) as [n|] eqn:En; [|discriminate]. exists keyID, keySecret, n. repeat split; auto.
Qed.

Lemma ens_guard {B} v d (Q : unit -> DB -> Prop) (R : Resp B -> DB -> Prop) :
  (v = None -> Q tt d) -> (forall s m, R (RespError s m) d) -> ensures (guard v : M (Resp B) unit) d Q R.
Proof. intros HQ HR. destruct v as [[s m]|]; [now apply ens_throw | apply ens_ret; auto]. Qed.

(** An endpoint on one payment refuses without a trace, or does what the service does. *)
Lemma ens_payment_endpoint {R A} c (body : option R) id status ok (m : R -> uuid -> M GoErr A) d (Q : A -> DB -> Prop) :
  (forall req pid, body = Some req -> uuid_parse (id req) = Some pid -> ensures (m req pid) d Q (fun _ d' => d' = d)) ->
  ensures (payment_endpoint cfg c body id (fun req pid => answer status ok (m req pid))) d
    (fun r d' => exists a req pid, body = Some req /\ uuid_parse (id req) = Some pid /\ r = RespOK (ok a) /\ Q a d')
    (fun r d' => d' = d /\ exists s msg, r = RespError s msg).
Proof.
  intros Hm. unfold payment_endpoint. eapply ens_bind with (Q1 := fun _ d' => d' = d); [apply ens_guard; eauto|]. intros [] d' ->.
  apply ens_then_option; [unfold bad; eauto|]. intros req Hb. apply ens_then_option; [unfold bad; eauto|]. intros pid Hp.
  unfold answer. eapply ens_bind; [apply ens_on_err; eapply ens_post; [exact (Hm req pid Hb Hp) | intros a d' H; exact H|]|].
  - intros e d' ->. split; [reflexivity|]. destruct e; eexists _, _; reflexivity.
  - intros a d' H. apply ens_ret. exists a, req, pid. auto.
Qed.
End Completing.

(** C17: whatever fails and whatever the gateway answers, a call of the Razorpay
    verification endpoint either is refused with an error and changes nothing,
    or finds the payment already completed and changes nothing, or the hotel's
    secret signed this order and payment, the payment was made for this order,
    and the gateway itself reported it captured for exactly the recorded amount:
    then that one payment becomes completed and nothing else changes. *)
Theorem razorpay_completes_only_captured (env : Env) (out : Outside) (json : GatewayJson) (jwt : Jwt) cfg c header body d :
  ensures (gateway_handle cfg {| gq_ctx := c; gq_origin := header; gq_op := Op_RazorpayVerify body |}) d
    (fun r d' => exists b id, body = Some b /\ uuid_parse (vq_PaymentID b) = Some id /\ r = RespOK GB_completed
       /\ verification cfg d {| rv_PaymentID := id; rv_RazorpayOrderID := vq_RazorpayOrderID b;
            rv_RazorpayPaymentID := vq_RazorpayPaymentID b; rv_RazorpaySignature := vq_RazorpaySignature b |} d')
    (fun r d' => d' = d /\ exists status msg, r = RespError status msg).
Proof.
  eapply ens_post.
  - unfold gateway_handle. cbn [gq_op]. apply ens_payment_endpoint with (Q := fun (_ : unit) d' => exists b id, body = Some b
      /\ uuid_parse (vq_PaymentID b) = Some id /\ verification cfg d {| rv_PaymentID := id; rv_RazorpayOrderID := vq_RazorpayOrderID b;
            rv_RazorpayPaymentID := vq_RazorpayPaymentID b; rv_RazorpaySignature := vq_RazorpaySignature b |} d').
    intros req pid Hb Hp. eapply ens_post; [apply ens_Verify | intros [] d' H; eauto | auto].
  - intros r d' (_ & _ & _ & _ & _ & -> & b & id & Hb & Hp & H). exists b, id. auto.
  - auto.
Qed.

(** ** A paid session *)

Section Stripe.
Context {env : Env} {out : Outside} {json : GatewayJson} {jwt : Jwt} (cfg : Config).

(** Stripe's key is in the configuration, and no other gateway is active. *)
Definition stripe_ready (d : DB) : Prop :=
  HasPrefix (cf_StripeSecretKey cfg) "sk_" = true
  /\ forall g, find_row (fun r => ueq (pg_hotel_id r) DemoHotelID) (payment_configs d) = Some g ->
       In (pg_active_gateway g) [""; "stripe"; "none"]
       /\ exists s, decryptSetting (cf_AccessTokenSecret cfg) (pg_stripe_secret_key_encrypted g) = inr s.
(** Stripe reports the checkout session as paid, whoever asks and whenever. *)
Definition session_paid (sessionID : string) : Prop := forall past auth, exists status body,
  http_reply past (get_request (stripe_url ("checkout/sessions/" ++ sessionID)) auth) = inr (status, body)
  /\ unmarshal_payment_status body = Some "paid".

Lemma runs_attempt_gateway {E} d (Q : GoErr + PaymentGatewayConfig -> DB -> Prop) (R : E -> Prop) :
  Q (match find_row (fun r => ueq (pg_hotel_id r) DemoHotelID) (payment_configs d) with
     | Some g => inr (scan_gateway g) | None => inl ErrNotFound end) d ->
  runs Pool (attempt FindGatewayConfig) d Q R.
Proof.
  intros H w [Ht <-]. unfold attempt, FindGatewayConfig, on_err, query, mbind, M_bind, exec; cbn.
  destruct (db_fault (w_stmts w)) eqn:Ef; cbn; [right; split; [eexists; exact Ef | exact Ht]|].
  destruct (find_row _ _); cbn; left; exists (w_db w); rewrite ?Ht; auto.
Qed.

Lemma runs_stripeSecretKey d : stripe_ready d -> runs Pool (stripeSecretKey cfg) d (fun _ d' => d' = d) (fun _ => False).
Proof.
  intros [Hkey Hg]. unfold stripeSecretKey.
  eapply runs_bind with (Q1 := fun r d' => d' = d /\ forall g, r = inr g -> In (gc_ActiveGateway g) [""; "stripe"; "none"]
      /\ exists s, decryptSetting (cf_AccessTokenSecret cfg) (gc_StripeSecretKeyEncrypted g) = inr s).
  - apply runs_attempt_gateway. split; [reflexivity|]. intros g Eg. destruct (find_row _ _) as [row|] eqn:E; [|discriminate].
    injection Eg as <-. cbn. now apply Hg.
  - intros r. unfold no_panic. inert_go.
  - intros r d' [-> Hr]. eapply runs_bind with (Q1 := fun _ d' => d' = d); [|intros; inert_go|].
    + destruct r as [e|g]; [now apply runs_ret|]. destruct (Hr g eq_refl) as [Ha [s Hs]].
      apply runs_then_throw_if; [unfold no_panic; inert_go|].
      replace (_ && _) with false by (destruct Ha as [<-|[<-|[<-|[]]]]; reflexivity).
      destruct (_ || _); [|now apply runs_ret]. rewrite Hs. cbn. now apply runs_ret.
    + intros stored d' ->. destruct stored; [now apply runs_ret|]. rewrite Hkey. now apply runs_ret.
Qed.

Lemma runs_CompletePayment id sessionID d : stripe_ready d -> session_paid sessionID ->
  runs Pool (CompletePayment cfg id sessionID) d (fun _ d' => d' = completed_by "stripe" id d) (fun _ => False).
Proof.
  intros Hr Hp. unfold CompletePayment. eapply runs_bind; [now apply runs_stripeSecretKey | |].
  { intros. unfold complete, PaymentRepo_UpdateStatus, update_payment, http_do, cache_delete. inert_go. }
  intros key d' ->. eapply runs_bind with (Q1 := fun r d' => d' = d /\ exists status body, r = inr (status, body) /\ unmarshal_payment_status body = Some "paid").
  - apply runs_call_out. intros past. split; [reflexivity | apply Hp].
  - intros. unfold complete, PaymentRepo_UpdateStatus, update_payment, cache_delete. inert_go.
  - intros r d' [-> (status & body & -> & Hb)]. rewrite Hb. rewrite bool_decide_true by reflexivity.
    unfold complete, PaymentRepo_UpdateStatus, update_payment.
    change (runs Pool (exec Pool (fun d => inr (tt, completed_by "stripe" id d)) ;; cache_delete [KeyDashboardStats (uuid_string DemoHotelID)])
              d (fun _ d' => d' = completed_by "stripe" id d) (fun _ => False)).
    apply runs_then_exec; [intros; unfold cache_delete; inert_go|]. apply runs_call_out. reflexivity.
Qed.
End Stripe.

(** A paid checkout session is not tied to a payment: no statement failing,
    a caller with any valid token completes any two payments, of whatever amounts,
    by naming the same session that Stripe reports as paid. *)
Theorem one_session_pays_many (env : Env) (out : Outside) (json : GatewayJson) (jwt : Jwt) cfg c header sessionID pa pb a b d
  (Hauth : requireAuthenticatedRequest c (cf_AccessTokenSecret cfg) = None)
  (Ha : uuid_parse pa = Some a) (Hb : uuid_parse pb = Some b)
  (Hready : stripe_ready cfg d) (Hpaid : session_paid sessionID)
  (request := fun p => {| gq_ctx := c; gq_origin := header;
      gq_op := Op_CompletePayment (Some {| mq_PaymentID := p; mq_SessionID := sessionID |}) |}) :
  runs Pool (ra ← gateway_handle cfg (request pa); rb ← gateway_handle cfg (request pb); mret (ra, rb)) d
    (fun r d' => r = (RespOK GB_completed, RespOK GB_completed)
       /\ forall p, In p (payments d') -> pay_hotel_id p = DemoHotelID -> pay_id p = a \/ pay_id p = b -> pay_status p = "completed")
    (fun _ => False).
Proof.
  assert (Hrun : forall p id d, uuid_parse p = Some id -> stripe_ready cfg d ->
    runs Pool (gateway_handle cfg (request p)) d (fun r d' => r = RespOK GB_completed /\ d' = completed_by "stripe" id d) (fun _ => False)).
  { intros p id d0 Hp Hr. unfold gateway_handle, request, payment_endpoint. cbn [gq_op gq_ctx]. rewrite Hauth. cbn.
    change (runs Pool (req ← of_option (uuid_parse p) (bad "invalid payment id"); answer 409 (fun _ : unit => GB_completed) (CompletePayment cfg req sessionID))
      d0 (fun r d' => r = RespOK GB_completed /\ d' = completed_by "stripe" id d0) (fun _ => False)).
    rewrite Hp. cbn. unfold answer.
    change (runs Pool (a ← CompletePayment cfg id sessionID onerr service_refusal 409; mret (RespOK GB_completed))
      d0 (fun r d' => r = RespOK GB_completed /\ d' = completed_by "stripe" id d0) (fun _ => False)).
    eapply runs_bind; [apply runs_on_err, runs_CompletePayment; assumption | intros; inert_go|].
    intros u d' ->. now apply runs_ret. }
  assert (Hi : forall p, inert Pool (gateway_handle cfg (request p))).
  { intros p. unfold gateway_handle, request, payment_endpoint, answer, CompletePayment, stripeSecretKey, FindGatewayConfig, complete,
      PaymentRepo_UpdateStatus, update_payment, no_panic, http_do, cache_delete, guard. cbn [gq_op gq_ctx]. inert_go. }
  eapply runs_bind; [apply Hrun; eassumption | intros; inert_go; apply Hi|]. intros ra d1 [-> ->].
  eapply runs_bind; [apply Hrun; [eassumption|exact Hready] | intros; inert_go|]. intros rb d2 [-> ->]. apply runs_ret.
  split; [reflexivity|]. cbn [payments completed_by set]. intros p (p1 & (p0 & _ & ->)%in_update_rows & ->)%in_update_rows Hh Hid.
  assert (Hs : forall q id, payment_key id q = true \/ (pay_status q = "completed" \/ ~ (pay_hotel_id q = DemoHotelID /\ pay_id q = id)) ).
  { intros q id. unfold payment_key, ueq. destruct (N.eqb_spec (pay_hotel_id q) DemoHotelID), (N.eqb_spec (pay_id q) id); intuition. }
  destruct (Hs p0 a) as [E|E], (Hs p0 b) as [E'|E']; revert Hh Hid;
    repeat match goal with |- context [payment_key ?i p0] => destruct (payment_key i p0) eqn:? end; cbn;
    repeat match goal with |- context [payment_key ?i ?q] => destruct (payment_key i q) eqn:? end; cbn; intuition (congruence || auto).
Qed.

(** ** Booking online *)

Lemma Contains_suffix a b : Contains (a ++ b) b = true.
Proof.
  unfold Contains. destruct (String.index 0 b (a ++ b)) as [n|] eqn:E; [reflexivity|]. exfalso. revert E.
  induction a as [|c a IH].
  - change ("" ++ b) with b. destruct b as [|c b]; [discriminate|]. pose proof (prefix_app (String c b) "") as Hp.
    rewrite string_app_nil_r in Hp. cbn [String.index]. rewrite Hp. discriminate.
  - change (String c a ++ b) with (String c (a ++ b)). destruct b as [|x b]; [discriminate|]. cbn [String.index].
    destruct (String.prefix _ _); [discriminate|]. destruct (String.index 0 _ _); [discriminate | exact (fun _ => IH eq_refl)].
Qed.

Section Booking.
Context {env : Env} {out : Outside} {json : GatewayJson} {jwt : Jwt} (cfg : Config).
Hypothesis calm_sea : forall n, db_fault n = false.

Lemma calm_exec {A} (f : DB -> GoErr + (A * DB)) d (Q : A -> DB -> Prop) (R : GoErr -> DB -> Prop) :
  match f d with inl e => R e d | inr (a, d') => Q a d' end -> ensures (exec Pool f) d Q R.
Proof.
  intros H w [Ht <-]. unfold exec. rewrite calm_sea. cbn. destruct (f (w_db w)) as [e|[a d']]; cbn; [auto|]. rewrite Ht. auto.
Qed.
Lemma ens_ignore {A} (m : M GoErr A) d (P : DB -> Prop) : ensures m d (fun _ => P) (fun _ => P) -> ensures (ignore m) d (fun _ => P) (fun _ _ => False).
Proof. intros H. unfold ignore. eapply ens_bind; [apply ens_attempt; exact H|]. intros r d' HP. now apply ens_ret. Qed.

Definition with_stay (s : StayRow) (d : DB) : DB := d <| guest_stays ::= insert_row s |>.
Definition with_payment (p : PaymentRow) (d : DB) : DB := d <| payments ::= insert_row p |>.
Definition room_status (id : uuid) (status : string) (now : Time) (d : DB) : DB :=
  d <| rooms ::= update_rows (room_key DemoHotelID id) (fun r => r <| rm_status := status |> <| rm_updated_at := now |>) |>.

Lemma calm_CreateStay s d : ensures (CreateStay Pool DemoHotelID s) d
  (fun g d' => exists row id now, row = stay_row id DemoHotelID now s /\ d' = with_stay row d /\ g = scan_stay row
     /\ exists_row (excluded_pair row) (guest_stays d) = false /\ forall o, In o (guest_stays d) -> gs_id o <> id) (fun _ d' => d' = d).
Proof.
  unfold CreateStay. apply ens_then_uuid. intros n. apply ens_then_now. intros t.
  eapply ens_bind with (Q1 := fun row d' => row = stay_row (uuid_new n) DemoHotelID t s /\ d' = with_stay row d
     /\ exists_row (excluded_pair row) (guest_stays d) = false /\ forall o, In o (guest_stays d) -> gs_id o <> uuid_new n).
  - apply calm_exec. unfold insert_stay. destruct (stay_violation _ _) eqn:E; [reflexivity|]. split; [reflexivity|]. split; [reflexivity|].
    split; [unfold stay_violation in E; repeat (destruct (negb _) || destruct (exists_row _ _); try discriminate); reflexivity|].
    intros o Ho Heq. unfold stay_violation in E. destruct (negb _); [discriminate|].
    destruct (exists_row (fun o => ueq (gs_id o) _) _) eqn:Ex; [discriminate|]. rewrite exists_row_false in Ex.
    specialize (Ex o Ho). cbn in Ex. apply N.eqb_neq in Ex. contradiction.
  - intros row d' (-> & -> & H). apply ens_ret. eexists _, _, _. eauto 6.
Qed.
Lemma calm_CreatePayment p d : ensures (PaymentRepo_Create p) d
  (fun q d' => exists id, d' = with_payment (payment_row id p) d /\ q = scan_payment (payment_row id p)
     /\ forall o, In o (payments d) -> pay_id o <> id) (fun _ d' => d' = d).
Proof.
  unfold PaymentRepo_Create. apply ens_then_uuid. intros n. apply ens_then_now. intros t.
  eapply ens_bind with (Q1 := fun _ d' => d' = with_payment (payment_row (uuid_new n) p) d
     /\ forall o, In o (payments d) -> pay_id o <> uuid_new n).
  - apply ens_on_err, calm_exec. unfold insert_payment. cbn [negb payment_row_ok payment_row pay_card_last4].
    destruct (exists_row _ _) eqn:Ex; [reflexivity|]. split; [reflexivity|].
    intros o Ho Heq. rewrite exists_row_false in Ex. specialize (Ex o Ho). cbn in Ex.
    apply orb_false_iff in Ex as [Ex%N.eqb_neq _]. contradiction.
  - intros [] d' (-> & H). apply ens_ret. eauto.
Qed.
Lemma calm_room_status id status d : ensures (ignore (UpdateRoomStatus Pool DemoHotelID id status)) d
  (fun _ d' => exists now, d' = room_status id status now d) (fun _ _ => False).
Proof.
  apply (ens_ignore _ d (fun d' => exists now, d' = room_status id status now d)). unfold UpdateRoomStatus. apply ens_then_now. intros t.
  eapply ens_bind with (Q1 := fun _ d' => d' = room_status id status t d); [apply calm_exec; reflexivity|].
  intros n d' ->. apply ens_throw_if. destruct (Nat.eqb n 0); eauto.
Qed.

Lemma delete_new_stay row d : gs_hotel_id row = DemoHotelID -> (forall o, In o (guest_stays d) -> gs_id o <> gs_id row) ->
  (with_stay row d) <| guest_stays ::= delete_rows (stay_key DemoHotelID (gs_id row)) |> = d.
Proof.
  intros Hh Hf. unfold with_stay.
  change (d <| guest_stays := delete_rows (stay_key DemoHotelID (gs_id row)) (insert_row row (guest_stays d)) |> = d).
  rewrite delete_rows_insert; [destruct d; reflexivity | |].
  - unfold stay_key, ueq. now rewrite Hh, !N.eqb_refl.
  - intros o Ho. unfold stay_key, ueq. specialize (Hf o Ho). apply N.eqb_neq in Hf. now rewrite Hf.
Qed.
Lemma delete_new_payment row d : pay_hotel_id row = DemoHotelID -> (forall o, In o (payments d) -> pay_id o <> pay_id row) ->
  (with_payment row d) <| payments ::= delete_rows (payment_key (pay_id row)) |> = d.
Proof.
  intros Hh Hf. unfold with_payment.
  change (d <| payments := delete_rows (payment_key (pay_id row)) (insert_row row (payments d)) |> = d).
  rewrite delete_rows_insert; [destruct d; reflexivity | |].
  - unfold payment_key, ueq. now rewrite Hh, !N.eqb_refl.
  - intros o Ho. unfold payment_key, ueq. specialize (Hf o Ho). apply N.eqb_neq in Hf. now rewrite Hf, andb_false_r.
Qed.

Lemma ens_with_lock {A} key busy (body : M GoErr A) d Q (R : GoErr -> DB -> Prop) :
  R (Errorf busy) d -> ensures body d Q R -> ensures (with_lock key busy body) d Q R.
Proof.
  intros Hb Hm. unfold with_lock. eapply ens_bind with (Q1 := fun _ d' => d' = d); [now apply ens_call_out|].
  intros [e|[]] d' ->; [exact Hm | | now apply ens_throw].
  intros w Hw. specialize (Hm w Hw). unfold deferred. destruct (body w) as [[e|a] w']; exact Hm.
Qed.

Lemma learns_rate base target d : learns (GetExchangeRate base target) d (fun _ => True).
Proof.
  unfold GetExchangeRate. cbv zeta. destruct (_ =s _); [now apply learns_ret|].
  eapply learns_bind; [apply learns_call_out|]. intros v _. destruct (match v with inl _ => _ | inr _ => _ end); [now apply learns_ret|].
  eapply learns_bind; [apply learns_call_out|]. intros [e|[st body]] _; [apply learns_throw|].
  destruct (unmarshal_rate body) as [q|]; [|apply learns_throw]. apply learns_unless. intros _.
  eapply learns_bind; [apply learns_call_out|]. intros. now apply learns_ret.
Qed.

(** A room of the hotel that is free to sell. *)
Definition free_room (d : DB) (row : RoomRow) : Prop :=
  In row (rooms d) /\ rm_hotel_id row = DemoHotelID /\ rm_status row = "available".
Lemma in_take_1 {A} (l : list A) x : In x (take 1 l) -> In x l.
Proof. destruct l; [exact id | intros [->|[]]; now left]. Qed.
Lemma learns_room req d : learns (resolveBookingRoom req) d (fun room => exists row, room = scanRoom row /\ free_room d row).
Proof.
  unfold resolveBookingRoom.
  assert (Hhead : forall l, (forall r, In r l -> In r (rooms d) /\ rm_hotel_id r = DemoHotelID) ->
    learns (of_option (head (scanRooms l)) ErrNotFound) d (fun room => exists row, room = scanRoom row /\ In row (rooms d) /\ rm_hotel_id row = DemoHotelID)).
  { intros l Hl. eapply learns_weaken; [apply learns_option|]. intros room H. destruct l as [|r l]; [discriminate|].
    injection H as <-. exists r. split; [reflexivity|]. apply Hl. now left. }
  eapply learns_bind with (P1 := fun room => exists row, room = scanRoom row /\ In row (rooms d) /\ rm_hotel_id row = DemoHotelID).
  - destruct (negb _).
    + apply learns_on_err. eapply learns_bind; [apply learns_query|]. intros rs ->. apply Hhead.
      intros r [Hr [Hh%N.eqb_eq _]%andb_true_iff]%in_select. auto.
    + apply learns_unless. intros _. apply learns_on_err. eapply learns_bind; [apply learns_query|]. intros rs ->. apply Hhead.
      intros r Hr. apply in_take_1, in_order_by, in_select in Hr as [Hr [[Hh%N.eqb_eq _]%andb_true_iff _]%andb_true_iff]. auto.
  - intros room (row & -> & Hin & Hh). apply learns_unless. intros Hs%negb_false_iff%String.eqb_eq. apply learns_ret.
    exists row. repeat split; assumption.
Qed.

(** Razorpay's own order, for the amount asked. *)
Definition ordered (amount : Z) (orderID : string) : Prop := exists past rq status body o,
  http_reply past rq = inr (status, body) /\ unmarshal_order body = Some o /\ ro_ID o = orderID /\ ro_Amount o = amount.
Lemma learns_order keyID keySecret amount currency receipt notes d :
  learns (createRazorpayOrder keyID keySecret amount currency receipt notes) d (ordered amount).
Proof.
  unfold createRazorpayOrder. set (rq := Build_HttpRequest _ _ _ _ _). eapply learns_bind; [apply learns_call_out|]. intros r [past Hr].
  destruct r as [e|[status body]]; [apply learns_throw|]. apply learns_unless. intros _.
  destruct (unmarshal_order body) as [o|] eqn:Eo; [|apply learns_throw]. apply learns_unless. intros _. apply learns_unless.
  intros [Ha%negb_false_iff%Z.eqb_eq _]%orb_false_iff. apply learns_ret. exists past, rq, status, body, o. auto.
Qed.

(** Rooms with the time of their last update forgotten. *)
Definition undated (r : RoomRow) : RoomRow := r <| rm_updated_at := {| t_ns := 0; t_off := 0 |} |>.
(** Nothing has changed but the time some room was updated. *)
Definition nothing_booked (d d' : DB) : Prop := exists rs, d' = d <| rooms := rs |> /\ map undated rs = map undated (rooms d).

Lemma nothing_booked_refl d : nothing_booked d d.
Proof. exists (rooms d). split; [destruct d; reflexivity | reflexivity]. Qed.

(** A room occupied and made available again. *)
Lemma room_released d row t1 t2 :
  (forall r, In r (rooms d) -> rm_id r = rm_id row -> r = row) -> rm_status row = "available" ->
  nothing_booked d (room_status (rm_id row) "available" t2 (room_status (rm_id row) "occupied" t1 d)).
Proof.
  intros Hu Hs. set (k := room_key DemoHotelID (rm_id row)).
  exists (update_rows k (fun r => r <| rm_status := "available" |> <| rm_updated_at := t2 |>)
            (update_rows k (fun r => r <| rm_status := "occupied" |> <| rm_updated_at := t1 |>) (rooms d))).
  split; [reflexivity|]. unfold update_rows, k. rewrite !map_map.
  apply map_ext_in. intros r Hr. destruct (room_key DemoHotelID (rm_id row) r) eqn:Ek.
  - change (room_key DemoHotelID (rm_id row) (r <| rm_status := "occupied" |> <| rm_updated_at := t1 |>)) with (room_key DemoHotelID (rm_id row) r).
    rewrite Ek. apply andb_true_iff in Ek as [_ Ek%N.eqb_eq]. rewrite (Hu r Hr Ek). unfold undated. cbn. rewrite <- Hs. destruct row; reflexivity.
  - rewrite Ek. reflexivity.
Qed.

(** What an online booking leaves: one stay in a room that was free, overlapping
    no live stay of that room; one payment awaiting it, for the amount the gateway
    was asked for and naming its order; and the room occupied. *)
Definition booked (req : BookingCheckoutRequest) (d : DB) (o : RazorpayOrderResult) (d' : DB) : Prop :=
  exists room stay pay now amount notes,
    free_room d room
    /\ d' = room_status (rm_id room) "occupied" now (with_payment pay (with_stay stay d))
    /\ gs_id stay = or_StayID o /\ gs_room_id stay = rm_id room /\ gs_status stay = "confirmed"
    /\ gs_check_in_date stay = bc_CheckInDate req /\ gs_check_out_date stay = bc_CheckOutDate req
    /\ exists_row (excluded_pair stay) (guest_stays d) = false
    /\ pay_id pay = or_PaymentID o /\ pay_guest_stay_id pay = Some (gs_id stay) /\ pay_status pay = "pending"
    /\ pay_amount pay = num_enc amount /\ or_Amount o = razorpayMinorAmount amount /\ ordered (or_Amount o) (or_OrderID o)
    /\ pay_notes pay = Some notes /\ Contains notes (or_OrderID o) = true.

Lemma ens_release room stay pay t d :
  (forall r, In r (rooms d) -> rm_id r = rm_id room -> r = room) -> rm_status room = "available" ->
  gs_hotel_id stay = DemoHotelID -> (forall o, In o (guest_stays d) -> gs_id o <> gs_id stay) ->
  pay_hotel_id pay = DemoHotelID -> (forall o, In o (payments d) -> pay_id o <> pay_id pay) ->
  ensures (release_booking (pay_id pay) (scan_stay stay) (scanRoom room)) (room_status (rm_id room) "occupied" t (with_payment pay (with_stay stay d)))
    (fun _ d' => nothing_booked d d') (fun _ _ => False).
Proof.
  intros Hu Hs H1 H2 H3 H4. unfold release_booking.
  eapply ens_bind with (Q1 := fun _ d' => d' = room_status (rm_id room) "occupied" t (with_stay stay d)).
  { apply (ens_ignore _ _ (fun d' => d' = room_status (rm_id room) "occupied" t (with_stay stay d))), calm_exec.
    rewrite <- (delete_new_payment pay (with_stay stay d) H3 H4) at 2. reflexivity. }
  intros [] d1 ->. eapply ens_bind with (Q1 := fun _ d' => d' = room_status (rm_id room) "occupied" t d).
  { apply (ens_ignore _ _ (fun d' => d' = room_status (rm_id room) "occupied" t d)), calm_exec.
    rewrite <- (delete_new_stay stay d H1 H2) at 2. reflexivity. }
  intros [] d2 ->. eapply ens_post; [apply calm_room_status | intros [] d' [now ->]; now apply room_released | auto].
Qed.

Lemma ens_occupy room d : ensures (occupy_room (scanRoom room)) d (fun _ d' => exists now, d' = room_status (rm_id room) "occupied" now d) (fun _ _ => False).
Proof.
  unfold occupy_room. eapply ens_bind; [apply calm_room_status|]. intros [] d' H. now apply ens_call_out.
Qed.

Lemma ens_attempt_cases {E A} (m : M GoErr A) d Q (R : GoErr -> DB -> Prop) (R' : E -> DB -> Prop) :
  ensures m d Q R -> ensures (attempt m) d (fun r => match r with inr a => Q a | inl e => R e end) R'.
Proof. intros H. apply ens_attempt. exact H. Qed.
Lemma ens_drop_stay stay d : gs_hotel_id stay = DemoHotelID -> (forall o, In o (guest_stays d) -> gs_id o <> gs_id stay) ->
  ensures (ignore (DeleteStay Pool DemoHotelID (gs_id stay))) (with_stay stay d) (fun _ d' => d' = d) (fun _ _ => False).
Proof.
  intros H1 H2. apply (ens_ignore _ _ (fun d' => d' = d)), calm_exec. rewrite <- (delete_new_stay stay d H1 H2) at 2. reflexivity.
Qed.
(** The order's number goes into the payment just made. *)
Definition noted (amount : Q) (notes : string) (p : PaymentRow) : PaymentRow :=
  p <| pay_amount := num_enc amount |> <| pay_method := "razorpay" |> <| pay_status := "pending" |> <| pay_notes := Some notes |>.
Lemma ens_note_order id now pay amount notes d :
  pay_hotel_id pay = DemoHotelID -> (forall o, In o (payments d) -> pay_id o <> pay_id pay) ->
  ensures (ignore (PaymentRepo_UpdateAmountAndNotes (pay_id pay) amount "razorpay" notes)) (room_status id "occupied" now (with_payment pay d))
    (fun _ d' => d' = room_status id "occupied" now (with_payment (noted amount notes pay) d)) (fun _ _ => False).
Proof.
  intros Hh Hf. apply (ens_ignore _ _ (fun d' => d' = room_status id "occupied" now (with_payment (noted amount notes pay) d))), calm_exec.
  change (room_status id "occupied" now (d <| payments := update_rows (payment_key (pay_id pay)) (noted amount notes) (insert_row pay (payments d)) |>)
          = room_status id "occupied" now (with_payment (noted amount notes pay) d)).
  rewrite update_rows_insert; [reflexivity | unfold payment_key, ueq; now rewrite Hh, !N.eqb_refl |].
  intros o Ho. unfold payment_key, ueq. specialize (Hf o Ho). apply N.eqb_neq in Hf. now rewrite Hf, andb_false_r.
Qed.

Lemma ens_razorpay_booking g keyID keySecret req d
  (Hrooms : forall r1 r2, In r1 (rooms d) -> In r2 (rooms d) -> rm_id r1 = rm_id r2 -> r1 = r2) :
  ensures (razorpay_booking_locked g keyID keySecret req) d (fun o => booked req d o) (fun _ => nothing_booked d).
Proof.
  assert (Hsame : forall d', d' = d -> nothing_booked d d') by (intros d' ->; apply nothing_booked_refl).
  unfold razorpay_booking_locked. cbv zeta. apply ens_then_throw_if; [auto using nothing_booked_refl|]. intros _.
  eapply ens_bind; [eapply ens_post; [apply learns_room | intros a d' H; exact H | auto]|]. intros room d' [-> (row & -> & Hfree)].
  eapply ens_bind; [eapply ens_post; [apply learns_on_err, learns_rate | intros a d' H; exact H | auto]|]. intros rate d' [-> _].
  set (converted := roundTo2 _).
  eapply ens_bind; [apply ens_on_err; eapply ens_post; [apply calm_CreateStay | intros a d' H; exact H | auto]|].
  intros stay d1 (srow & sid & snow & Hsrow & -> & -> & Hex & Hsf). apply ens_then_now. intros now.
  set (notes := "Razorpay checkout pending. " ++ _).
  eapply ens_bind; [apply ens_attempt_cases, calm_CreatePayment|]. intros [e|p] d2; cbv beta iota.
  { intros ->. eapply ens_bind with (Q1 := fun _ _ => False); [|intros _ _ []].
    eapply ens_bind with (Q1 := fun _ d' => d' = d); [|intros [] d' ->; apply ens_throw, nothing_booked_refl].
    eapply ens_post; [subst srow; apply (ens_drop_stay (stay_row sid DemoHotelID snow _)) | auto | intros _ _ []]; [reflexivity | exact Hsf]. }
  intros (pid & -> & -> & Hpf). set (prow := payment_row pid _).
  eapply ens_bind with (Q1 := fun pay d' => pay = scan_payment prow /\ d' = with_payment prow (with_stay srow d)); [now apply ens_ret|].
  intros pay d3 [-> ->]. eapply ens_bind; [eapply ens_post; [apply ens_occupy | intros a d' H; exact H | intros _ _ []]|].
  intros [] d4 [onow ->].
  assert (Hfr : forall r, In r (rooms d) -> rm_id r = rm_id row -> r = row) by (intros r Hr; apply (Hrooms r row Hr), Hfree).
  eapply ens_bind; [apply ens_attempt_cases, learns_order|]. intros [e|orderID] d5; cbv beta iota; [intros -> | intros [-> Hord]].
  - eapply ens_bind with (Q1 := fun _ => nothing_booked d); [|intros [] d' H; now apply ens_throw].
    eapply ens_post; [apply (ens_release row srow prow onow d Hfr) | intros a d' H; exact H | intros _ _ []];
      [apply Hfree | subst srow; reflexivity | subst srow; exact Hsf | reflexivity | exact Hpf].
  - eapply ens_bind; [eapply ens_post; [apply (ens_note_order (rm_id row) onow prow); [reflexivity | exact Hpf] | intros a d' H; exact H | intros _ _ []]|].
    intros [] d6 ->. apply ens_ret. exists row, srow, (noted converted (notes ++ ". Razorpay order: " ++ orderID) prow), onow, converted,
      (notes ++ ". Razorpay order: " ++ orderID).
    split; [exact Hfree|]. split; [reflexivity|]. subst srow. repeat (split; [first [reflexivity | exact Hex | exact Hord]|]).
    cbn. rewrite <- string_app_assoc. apply Contains_suffix.
Qed.
End Booking.

(** C18: online booking through Razorpay, no statement failing, whatever the
    gateway and the exchange-rate service answer: either the booking is made whole
    (a confirmed stay in a free room with no overlapping live stay, a pending
    payment for the amount of the order that Razorpay confirmed, naming that
    order, and the room occupied), or the request is refused and stays,
    payments and room statuses are as before. *)
Theorem online_booking_whole_or_nothing (env : Env) (out : Outside) (json : GatewayJson) (jwt : Jwt) cfg c header body d
  (Hcalm : forall n, db_fault n = false)
  (Hrooms : forall r1 r2, In r1 (rooms d) -> In r2 (rooms d) -> rm_id r1 = rm_id r2 -> r1 = r2) :
  ensures (gateway_handle cfg {| gq_ctx := c; gq_origin := header; gq_op := Op_RazorpayBookingOrder body |}) d
    (fun r d' => exists req o, r = RespOK (GB_order o) /\ booked req d o d')
    (fun r d' => nothing_booked d d' /\ exists status msg, r = RespError status msg).
Proof.
  unfold gateway_handle, booking_endpoint. cbn [gq_op gq_ctx gq_origin].
  eapply ens_bind with (Q1 := fun _ d' => d' = d); [apply ens_guard; eauto using nothing_booked_refl|]. intros [] d' ->.
  eapply ens_bind with (Q1 := fun _ d' => d' = d).
  { unfold parseBookingPayload, bad. apply ens_then_option; [eauto using nothing_booked_refl|]. intros req _.
    eapply ens_bind with (Q1 := fun _ d' => d' = d).
    { destruct (_ !=s _); [apply ens_of_option; destruct (uuid_parse _); eauto using nothing_booked_refl | now apply ens_ret]. }
    intros room d' ->. apply ens_then_throw_if; [eauto using nothing_booked_refl|]. intros _.
    do 3 (apply ens_then_option; [eauto using nothing_booked_refl|]; intros ? _). now apply ens_ret. }
  intros req d' ->. unfold answer. eapply ens_bind with (Q1 := fun o d' => booked req d o d').
  - apply ens_on_err. eapply ens_post with (R := fun _ => nothing_booked d); [|intros o d' H; exact H|].
    2:{ intros e d' H. split; [exact H|]. destruct e; eexists _, _; reflexivity. }
    unfold CreateRazorpayBookingOrder.
    eapply ens_bind; [eapply ens_post; [apply learns_credentials | intros a d' H; exact H | intros e d' ->; apply nothing_booked_refl]|].
    intros [[g keyID] keySecret] d' [-> _]. eapply ens_bind with (Q1 := fun _ d' => d' = d).
    { unfold allocation_key. destruct (bookingRoomLockKey req); [apply ens_throw, nothing_booked_refl | now apply ens_ret]. }
    intros k d' ->. apply ens_with_lock; [apply nothing_booked_refl | now apply ens_razorpay_booking].
  - intros o d' H. apply ens_ret. exists req, o. auto.
Qed.

(** ** A hotel that takes Razorpay

    The gateway confirms every order and reports every payment as captured for
    the order's amount, 453180 paise here; the exchange-rate service quotes 83. *)
Definition order_amount (rq : HttpRequest) : string :=
  match hr_fields rq with (_, v) :: _ => v | [] => "" end.
#[local] Instance demo_outside : Outside := {|
  setnx_reply := fun _ _ => inr true; cache_reply := fun _ _ => inl (Errorf "redis: nil");
  http_reply := fun _ rq => inr (200, if hr_method rq =s "POST" then order_amount rq else "{}") |}.
#[local] Instance demo_json : GatewayJson := {|
  unmarshal_rate := fun _ => Some 83%Q;
  unmarshal_order := fun body => Some {| ro_ID := "order_1"; ro_Amount := dec_val 0 body; ro_Currency := "INR" |};
  unmarshal_capture := fun _ => Some {| rc_ID := "pay_1"; rc_OrderID := "order_1"; rc_Status := "captured";
                                        rc_Amount := 453180; rc_Currency := "INR" |};
  unmarshal_session := fun _ => Some {| ss_ID := "cs_1"; ss_URL := "https://checkout" |};
  unmarshal_payment_status := fun _ => Some "paid"; unmarshal_charges_enabled := fun _ => Some true |}.
Definition demo_config : Config := {| cf_StripeSecretKey := "sk_test_1"; cf_StripePublishableKey := "pk_test_1"; cf_AccessTokenSecret := "secret" |}.
Definition demo_gateway (active : string) : PaymentConfigRow :=
  {| pg_hotel_id := DemoHotelID; pg_active_gateway := active; pg_default_currency := Some "INR"; pg_gateway_mode := "test";
     pg_stripe_enabled := false; pg_stripe_account_id := None; pg_stripe_publishable_key := None; pg_stripe_secret_key_encrypted := None;
     pg_stripe_webhook_secret_encrypted := None; pg_razorpay_enabled := true; pg_razorpay_key_id := Some "rzp_test_k";
     pg_razorpay_key_secret_encrypted := encryptSetting "secret" (map Z.of_nat (seq 1 12)) (Some "rzp-secret");
     pg_cash_enabled := true; pg_card_enabled := true; pg_bank_transfer_enabled := false |}.
Definition demo_noon : Time := {| t_ns := 0; t_off := 0 |}.
Definition one_room : DB := empty_db
  <| rooms := [ {| rm_id := 301; rm_hotel_id := DemoHotelID; rm_room_number := "301"; rm_room_type := "deluxe_suite"; rm_floor := 3;
                   rm_capacity := 2; rm_price_per_night := 1820; rm_status := "available"; rm_amenities := []; rm_created_at := demo_noon;
                   rm_updated_at := demo_noon |} ] |>
  <| payment_configs := [demo_gateway "razorpay"] |>.
Definition demo_booking : bookingCheckoutRequest :=
  {| bq_RoomID := ""; bq_RoomType := "Deluxe_Suite"; bq_UserID := "7"; bq_Currency := "inr"; bq_CheckInDate := "2026-04-01";
     bq_CheckOutDate := "2026-04-04"; bq_GuestName := "Asha"; bq_GuestEmail := "a@x"; bq_GuestPhone := ""; bq_Country := "IN" |}.
Definition gateway_request (op : GatewayOp) : GatewayRequest :=
  {| gq_ctx := demo_request "guest@1" ""; gq_origin := ""; gq_op := op |}.
Definition demo_serve (op : GatewayOp) (w : World) : Resp GatewayBody * World :=
  serve (gateway_handle (env := calm) (jwt := demo_jwt) demo_config (gateway_request op)) w.

Definition after_booking : World := snd (demo_serve (Op_RazorpayBookingOrder (Some demo_booking)) (start one_room)).
Definition demo_verify (signature : string) : GatewayOp := Op_RazorpayVerify (Some
  {| vq_PaymentID := "1001"; vq_RazorpayOrderID := "order_1"; vq_RazorpayPaymentID := "pay_1"; vq_RazorpaySignature := signature |}).

(** Three nights at 18.20 dollars, at 83: 4531.80.  The payment is completed by
    the signature the hotel's secret makes, and not by another. *)
Example booked_then_verified :
  map (fun p => (pay_amount p, pay_status p)) (payments (w_db after_booking)) = [(453180, "pending")]
  /\ map rm_status (rooms (w_db after_booking)) = ["occupied"]
  /\ fst (demo_serve (demo_verify (hex_mac "rzp-guess" "order_1|pay_1")) after_booking) = RespError 409 "Razorpay payment signature is invalid"
  /\ (let (r, w) := demo_serve (demo_verify (hex_mac "rzp-secret" "order_1|pay_1")) after_booking in
      r = RespOK GB_completed /\ map pay_status (payments (w_db w)) = ["completed"]).
Proof. vm_compute. repeat split; reflexivity. Qed.

Lemma stored_secret_round_trip_witness :
  length (map Z.of_nat (seq 1 12)) = 12%nat
  /\ decryptSetting "secret" (encryptSetting "secret" (map Z.of_nat (seq 1 12)) (Some " rzp-secret ")) = inr "rzp-secret".
Proof.
  split; [reflexivity|]. apply (stored_secret_round_trip "secret" (map Z.of_nat (seq 1 12)) (Some " rzp-secret ")); [|reflexivity].
  repeat (apply List.Forall_cons; [unfold byte; lia|]). apply List.Forall_nil.
Defined.

Lemma gateway_amounts_witness :
  1 <= 453180 <= MAXC /\ razorpayMinorAmount (cents 453180) = 453180 /\ 453179 <= stripeMinorAmount (cents 453180) "inr" <= 453180.
Proof.
  assert (H : 1 <= 453180 <= MAXC) by (unfold MAXC; lia). split; [exact H|].
  destruct (gateway_amounts 453180 "inr" H) as (H1 & _ & H2 & _); [vm_compute; intuition discriminate|].
  split; [exact H1 | lia].
Defined.

Lemma online_booking_whole_or_nothing_witness :
  map rm_id (rooms one_room) = [301%N]
  /\ ensures (gateway_handle (env := calm) (jwt := demo_jwt) demo_config
       (gateway_request (Op_RazorpayBookingOrder (Some demo_booking)))) one_room
    (fun r d' => exists req o, r = RespOK (GB_order o) /\ booked (env := calm) req one_room o d')
    (fun r d' => nothing_booked one_room d' /\ exists status msg, r = RespError status msg).
Proof.
  split; [reflexivity|].
  apply (online_booking_whole_or_nothing calm demo_outside demo_json demo_jwt demo_config (demo_request "guest@1" "") "" (Some demo_booking) one_room).
  - reflexivity.
  - intros r1 r2 [<-|[]] [<-|[]] _. reflexivity.
Defined.

(** A bill of one rupee and one of a lakh, both paid by the session cs_1. *)
Definition pending (id : uuid) (amount : Z) : PaymentRow :=
  {| pay_id := id; pay_hotel_id := DemoHotelID; pay_number := "PAY-" ++ fmt_0d 3 (Z.of_N id); pay_guest_stay_id := None;
     pay_amount := amount; pay_method := "stripe"; pay_status := "pending"; pay_upi_id := None; pay_transaction_ref := None;
     pay_card_last4 := None; pay_auth_code := None; pay_cash_received := None; pay_change_given := None; pay_processed_by := None;
     pay_notes := None; pay_category := None |}.
Definition two_pending : DB := empty_db <| payments := [pending 501 100; pending 502 10000000] |> <| payment_configs := [demo_gateway "stripe"] |>.
Lemma one_session_pays_many_witness :
  map pay_status (payments two_pending) = ["pending"; "pending"]
  /\ let request p := gateway_request (Op_CompletePayment (Some {| mq_PaymentID := p; mq_SessionID := "cs_1" |})) in
  runs (env := calm) Pool (ra ← gateway_handle (env := calm) (jwt := demo_jwt) demo_config (request "501");
       rb ← gateway_handle (env := calm) (jwt := demo_jwt) demo_config (request "502"); mret (ra, rb)) two_pending
    (fun r d' => r = (RespOK GB_completed, RespOK GB_completed)
       /\ forall p, In p (payments d') -> pay_hotel_id p = DemoHotelID -> pay_id p = 501%N \/ pay_id p = 502%N -> pay_status p = "completed")
    (fun _ => False).
Proof.
  split; [reflexivity|].
  apply (one_session_pays_many calm demo_outside demo_json demo_jwt demo_config (demo_request "guest@1" "") "" "cs_1" "501" "502" 501%N 502%N two_pending);
    [reflexivity | reflexivity | reflexivity | |].
  - split; [reflexivity|]. intros g Eg. injection Eg as <-. split; [cbn; auto|]. exists "". reflexivity.
  - intros past auth. eexists _, _. split; reflexivity.
Defined.
