(* ===== verification/Booking.v ===== *)
(** Booking: the rest of internal/handler/booking_handler.go.  Availability by
    the day, the search for rooms, and rate plans (its promotion endpoints are in
    Promo).

    The dates of a search reach the query as text compared with TIMESTAMPTZ
    columns: what the server reads them as is a parameter, as [date_in] is. *)

From stdpp Require Import pretty.
From S2P Require Import Prelude GoLib Schema Binary64 World Auth Domain RoomRepo Accounting.
From Stdlib Require Import QArith.
Local Open Scope string_scope.
Local Open Scope Z_scope.

(** text::timestamptz in the session's time zone; None when it is refused *)
Class TimestampText := { timestamptz_in : string -> option Time }.

(** ** Data *)

Record availabilityResponse := { av_Date : string; av_Available : Z; av_Total : Z }.
Record searchRoomsRequest := { sr_CheckIn : string; sr_CheckOut : string; sr_Guests : Z; sr_RoomType : string }.
Record searchRoomItem := {
  si_ID : uuid; si_RoomNumber : string; si_RoomType : string; si_Floor : Z; si_MaxGuests : Z; si_BaseRate : Q;
  si_TotalNights : Z; si_TotalEstimate : Q }.
Record ratePlanResponse := {
  rl_ID : uuid; rl_HotelID : uuid; rl_Name : string; rl_Description : string; rl_DiscountType : option string;
  rl_DiscountValue : Q; rl_MinStayNights : Z; rl_IsActive : bool; rl_CreatedAt : Time }.
Record createRatePlanRequest := {
  np_Name : string; np_Description : string; np_DiscountType : string; np_DiscountValue : Q; np_MinStayNights : Z }.
Record updateRatePlanRequest := {
  up_Name : option string; up_Description : option string; up_DiscountType : option string;
  up_DiscountValue : option Q; up_MinStayNights : option Z; up_IsActive : option bool }.

Inductive BookingBody :=
  | BB_days (l : list availabilityResponse) | BB_rooms (l : list searchRoomItem) | BB_plans (l : list ratePlanResponse)
  | BB_plan (id : uuid) (name : string) | BB_plan_id (id : uuid) | BB_status (s : string).

(** ** Queries *)

Section Queries.
Context {env : Env} {tz : TimestampText}.

(** A day of generate_series over dates, as text: midnight of the session's zone. *)
Definition zone_text (off : Z) : string :=
  (if off <? 0 then "-" else "+") ++ zpad 2 (Z.abs off / 3600)
  ++ (if Z.abs off mod 3600 =? 0 then "" else ":" ++ zpad 2 (Z.abs off / 60 mod 60)).
Definition day_text (day : Z) : string :=
  fmt_date {| t_ns := day * 86400 * ns_per_s; t_off := 0 |} ++ " 00:00:00" ++ zone_text db_off.

Definition sellable_in (h : uuid) (r : RoomRow) : bool :=
  ueq (rm_hotel_id r) h && negb (existsb (String.eqb (rm_status r)) NonSellableRoomStatusSQL).
(** gs.status <> 'cancelled' AND d.date >= gs.check_in_date::date AND d.date < gs.check_out_date::date *)
Definition covers (h : uuid) (day : Z) (s : StayRow) : bool :=
  ueq (gs_hotel_id s) h && live s
  && (local_day (db_date (gs_check_in_date s)) <=? day) && (day <? local_day (db_date (gs_check_out_date s))).
Definition day_row (h : uuid) (d : DB) (day : Z) : availabilityResponse :=
  {| av_Date := day_text day;
     av_Available := Z.of_nat (rows_affected (sellable_in h) (rooms d)) - Z.of_nat (rows_affected (covers h day) (guest_stays d));
     av_Total := Z.of_nat (rows_affected (fun r => ueq (rm_hotel_id r) h) (rooms d)) |}.
(** generate_series($2::date, $3::date - 1, '1 day') *)
Definition day_series (first last : Time) : list Z := seqZ (local_day first) (local_day last - local_day first).

(** The stay predicate of the search: a live stay of the room, from check-in
    before the requested check-out to check-out after the requested check-in. *)
Definition holds_room (rm : RoomRow) (checkIn checkOut : Time) (s : StayRow) : bool :=
  live s && blocks_listing rm checkIn checkOut s.
Definition found_room (h : uuid) (req : searchRoomsRequest) (checkIn checkOut : Time) (d : DB) (rm : RoomRow) : bool :=
  sellable_in h rm
  && negb (exists_row (holds_room rm checkIn checkOut) (guest_stays d))
  && (negb (0 <? sr_Guests req) || (sr_Guests req <=? rm_capacity rm))
  && ((sr_RoomType req =s "") || (rm_room_type rm =s sr_RoomType req)).
Definition search_rows (h : uuid) (req : searchRoomsRequest) (d : DB) : GoErr + (list RoomRow * DB) :=
  if (0 <? sr_Guests req) && negb (int_fits (sr_Guests req)) then inl (Errorf "greater than maximum value for int4")
  else match timestamptz_in (sr_CheckIn req), timestamptz_in (sr_CheckOut req) with
       | Some i, Some o =>
           inr (order_by (fun a b => String.leb (rm_room_number a) (rm_room_number b)) (select (found_room h req i o d) (rooms d)), d)
       | _, _ => inl (ErrPg "22007")
       end.

Definition plan_key (id h : uuid) (p : RatePlanRow) : bool := ueq (rp_id p) id && ueq (rp_hotel_id p) h.
(** NUMERIC(10,2), in hundredths *)
Definition plan_value_fits (k : Z) : bool := Z.abs k <? 10 ^ 10.
(** VARCHAR(100) and VARCHAR(20) *)
Definition plan_text_fits (p : RatePlanRow) : bool :=
  Nat.leb (String.length (rp_name p)) 100 && Nat.leb (String.length (opt_str (rp_discount_type p))) 20.
Definition insert_plan (row : RatePlanRow) (d : DB) : GoErr + (unit * DB) :=
  if negb (plan_value_fits (default 0 (rp_discount_value row)) && int_fits (rp_min_stay_nights row)) then inl (ErrPg "22003")
  else if negb (plan_text_fits row) then inl (ErrPg "22001")
  else if exists_row (fun p => ueq (rp_id p) (rp_id row)) (rate_plans d) then inl (ErrPg "23505")
  else if exists_row (fun r => ueq (ho_id r) (rp_hotel_id row)) (hotels d) then inr (tt, d <| rate_plans ::= insert_row row |>)
  else inl (ErrPg "23503").
Definition set_plan (req : updateRatePlanRequest) (now : Time) (p : RatePlanRow) : RatePlanRow :=
  p <| rp_name := default (rp_name p) (up_Name req) |>
    <| rp_description := match up_Description req with Some _ => up_Description req | None => rp_description p end |>
    <| rp_discount_type := match up_DiscountType req with Some _ => up_DiscountType req | None => rp_discount_type p end |>
    <| rp_discount_value := match up_DiscountValue req with Some v => Some (num_enc v) | None => rp_discount_value p end |>
    <| rp_min_stay_nights := default (rp_min_stay_nights p) (up_MinStayNights req) |>
    <| rp_is_active := default (rp_is_active p) (up_IsActive req) |> <| rp_updated_at := now |>.
Definition update_plan (id h : uuid) (req : updateRatePlanRequest) (now : Time) (d : DB) : GoErr + (nat * DB) :=
  if negb (int_fits (default 0 (up_MinStayNights req)))
     || (exists_row (plan_key id h) (rate_plans d) && negb (plan_value_fits (default 0 (num_enc <$> up_DiscountValue req))))
  then inl (ErrPg "22003")
  else if exists_row (fun p => plan_key id h p && negb (plan_text_fits (set_plan req now p))) (rate_plans d) then inl (ErrPg "22001")
  else inr (rows_affected (plan_key id h) (rate_plans d), d <| rate_plans ::= update_rows (plan_key id h) (set_plan req now) |>).
Definition scan_plan (p : RatePlanRow) : ratePlanResponse :=
  {| rl_ID := rp_id p; rl_HotelID := rp_hotel_id p; rl_Name := rp_name p; rl_Description := opt_str (rp_description p);
     rl_DiscountType := rp_discount_type p; rl_DiscountValue := num_dec (default 0 (rp_discount_value p));
     rl_MinStayNights := rp_min_stay_nights p; rl_IsActive := rp_is_active p; rl_CreatedAt := scan_time (rp_created_at p) |}.
End Queries.

Section Booking.
Context {env : Env} {tz : TimestampText}.

Definition booking_500 {A} (m : M GoErr A) : M (Resp BookingBody) A := on_err m (fun e => RespError 500 (err_text e)).
Definition booking_400 {A} (m : M GoErr A) : M (Resp BookingBody) A := on_err m (fun e => RespError 400 (err_text e)).

(** ** Availability and search *)

Definition CheckAvailability (c : Ctx) : M (Resp BookingBody) (Resp BookingBody) :=
  let checkIn := c_query c "check_in" in
  let checkOut := c_query c "check_out" in
  throw_if ((checkIn =s "") || (checkOut =s "")) (RespError 400 "check_in and check_out are required") ;;
  items ← booking_500 (exec Pool (fun d =>
    match date_in checkIn, date_in checkOut with
    | Some first, Some last => inr (map (day_row (tenantHotelID c) d) (day_series first last), d)
    | _, _ => inl (ErrPg "22007")
    end));
  mret (RespOK (BB_days items)).

(** time.Time{} *)
Definition ZeroTime : Time := Date 1 1 1 0 0 0.
Definition search_item (totalNights : Z) (r : RoomRow) : searchRoomItem :=
  let baseRate := num_dec (rm_price_per_night r) in
  {| si_ID := rm_id r; si_RoomNumber := rm_room_number r; si_RoomType := rm_room_type r; si_Floor := rm_floor r;
     si_MaxGuests := rm_capacity r; si_BaseRate := baseRate; si_TotalNights := totalNights;
     si_TotalEstimate := fmul baseRate (of_int totalNights) |}.
Definition SearchRooms (c : Ctx) (body : option searchRoomsRequest) : M (Resp BookingBody) (Resp BookingBody) :=
  req ← of_option body (RespError 400 "invalid request body");
  throw_if ((sr_CheckIn req =s "") || (sr_CheckOut req =s "")) (RespError 400 "check_in and check_out are required") ;;
  rows ← booking_500 (exec Pool (search_rows (tenantHotelID c) req));
  let totalNights := CalendarNights (default ZeroTime (parse_date (sr_CheckIn req))) (default ZeroTime (parse_date (sr_CheckOut req))) in
  mret (RespOK (BB_rooms (map (search_item totalNights) rows))).

(** ** Rate plans *)

Definition ListRatePlans (c : Ctx) : M (Resp BookingBody) (Resp BookingBody) :=
  l ← booking_500 (query Pool (fun d => map scan_plan (order_by (fun a b => t_ns (rp_created_at b) <=? t_ns (rp_created_at a))
        (select (fun p => ueq (rp_hotel_id p) (tenantHotelID c)) (rate_plans d)))));
  mret (RespOK (BB_plans l)).

Definition CreateRatePlan (c : Ctx) (body : option createRatePlanRequest) : M (Resp BookingBody) (Resp BookingBody) :=
  req ← of_option body (RespError 400 "invalid request body");
  let name := TrimSpace (np_Name req) in
  throw_if (name =s "") (RespError 400 "name is required") ;;
  throw_if ((np_DiscountType req !=s "") && (np_DiscountType req !=s "percentage") && (np_DiscountType req !=s "fixed"))
    (RespError 400 "discount_type must be percentage or fixed") ;;
  throw_if ((np_DiscountType req =s "percentage") && flt 100 (np_DiscountValue req))
    (RespError 400 "percentage discount cannot exceed 100") ;;
  id ← new_uuid; now ← time_now;
  booking_400 (exec Pool (insert_plan
    {| rp_id := id; rp_hotel_id := tenantHotelID c; rp_name := name; rp_description := Some (np_Description req);
       rp_discount_type := nullif (np_DiscountType req); rp_discount_value := Some (num_enc (np_DiscountValue req));
       rp_min_stay_nights := Z.max 1 (np_MinStayNights req); rp_is_active := true; rp_created_at := now; rp_updated_at := now |})) ;;
  mret (RespCreated (BB_plan id name)).

Definition UpdateRatePlan (c : Ctx) (body : option updateRatePlanRequest) : M (Resp BookingBody) (Resp BookingBody) :=
  id ← of_option (uuid_parse (c_params c "id")) (RespError 400 "invalid rate plan id");
  req ← of_option body (RespError 400 "invalid request body");
  throw_if (match up_Name req, up_Description req, up_DiscountType req, up_DiscountValue req, up_MinStayNights req, up_IsActive req with
            | None, None, None, None, None, None => true | _, _, _, _, _, _ => false end) (RespError 400 "no fields to update") ;;
  now ← time_now;
  n ← booking_400 (exec Pool (update_plan id (tenantHotelID c) req now));
  throw_if (Nat.eqb n 0) (RespError 404 "rate plan not found") ;;
  mret (RespOK (BB_plan_id id)).

Definition DeleteRatePlan (c : Ctx) : M (Resp BookingBody) (Resp BookingBody) :=
  id ← of_option (uuid_parse (c_params c "id")) (RespError 400 "invalid rate plan id");
  n ← booking_400 (exec_n Pool (fun d => (rows_affected (plan_key id (tenantHotelID c)) (rate_plans d),
        d <| rate_plans ::= delete_rows (plan_key id (tenantHotelID c)) |>)));
  throw_if (Nat.eqb n 0) (RespError 404 "rate plan not found") ;;
  mret (RespOK (BB_status "deleted")).
End Booking.
