(* ===== verification/FolioDesk.v ===== *)
(** FolioDesk: internal/handler/billing_handler.go, the cashier's page: folios and
    their balances, charges and payments posted on them, and tax invoices.

    folios and payments keep no created_at: their order is that of insertion. *)

From S2P Require Import Prelude GoLib Schema Binary64 World Auth Ledger Settlement RoomRepo FolioCharge.
From Stdlib Require Import QArith.
Local Open Scope string_scope.
Local Open Scope Z_scope.

(** ** Data *)

Record chargeItem := {
  ch_ID : uuid; ch_FolioID : uuid; ch_Description : string; ch_ChargeType : string; ch_Amount : Q; ch_TaxAmount : Q;
  ch_ReferenceID : option uuid; ch_PostedAt : Time; ch_PostedBy : option uuid }.
Record folioItem := {
  fv_ID : uuid; fv_BookingID : uuid; fv_GuestID : uuid; fv_Status : string; fv_Currency : string; fv_GuestName : string;
  fv_RoomID : uuid; fv_RoomNumber : string; fv_TotalCharges : Q; fv_TotalPaid : Q; fv_Balance : Q; fv_ClosedAt : option Time }.
Record paymentItem := {
  pi_ID : uuid; pi_PaymentNumber : string; pi_Amount : Q; pi_Method : string; pi_Status : string; pi_Notes : option string;
  pi_ProcessedBy : option uuid }.
Record folioDetail := {
  fd_folio : FolioRow; fd_guest_name : string; fd_room_id : uuid; fd_room_number : string;
  fd_total_charges : Q; fd_total_tax : Q; fd_total_paid : Q; fd_balance : Q;
  fd_charges : list chargeItem; fd_payments : list paymentItem }.
Record invoiceItem := {
  iv_ID : uuid; iv_FolioID : uuid; iv_InvoiceNumber : string; iv_Status : string; iv_Subtotal : Q; iv_TaxTotal : Q;
  iv_Total : Q; iv_Currency : string; iv_Notes : option string; iv_GuestName : string; iv_CreatedAt : Time;
  iv_UpdatedAt : Time; iv_SentAt : option Time; iv_PaidAt : option Time }.
Record invLine := { vl_Description : string; vl_Amount : Q; vl_TaxAmount : Q }.
Record txItem := {
  tx_payment : paymentItem; tx_GuestStayID : uuid; tx_GuestName : string; tx_RoomNumber : string }.

Record createFolioRequest := { cf_BookingID : string; cf_GuestID : string; cf_Currency : string }.
Record addChargeRequest := {
  ac_Description : string; ac_ChargeType : string; ac_Amount : Q; ac_TaxAmount : Q; ac_ReferenceID : option string }.
Record recordPaymentRequest := { rp_Amount : Q; rp_PaymentMethod : string; rp_Notes : string }.
Record generateInvoiceRequest := { gi_FolioID : string; gi_Notes : string }.

Inductive FolioBody :=
  | FB_charges (l : list (chargeItem * (string * string)))
  | FB_folios (l : list folioItem)
  | FB_folio (v : folioDetail)
  | FB_opened (row : FolioRow)
  | FB_charged (id folioID : uuid) (description charge_type : string) (amount tax_amount : Q) (reference : option uuid)
  | FB_paid (id : uuid) (number : string) (folioID stayID : uuid) (amount : Q) (method : string) (notes : option string)
            (journal : option uuid)
  | FB_invoices (l : list invoiceItem)
  | FB_drafted (id folioID : uuid) (number : string) (subtotal tax total : Q) (currency : string) (lines : list invLine)
               (notes : option string)
  | FB_invoice (hotelID : uuid) (v : invoiceItem)
  | FB_emailed (id : uuid) (number : string)
  | FB_transactions (l : list txItem).

(** ** Queries *)

Definition stay_by_id (id : uuid) (s : StayRow) : bool := ueq (gs_id s) id.
Definition folio_by_id (id : uuid) (f : FolioRow) : bool := ueq (fo_id f) id.
(** JOIN guest_stays gs ON gs.id = f.booking_id *)
Definition stay_of (f : FolioRow) (d : DB) : option StayRow := find_row (stay_by_id (fo_booking_id f)) (guest_stays d).
(** LEFT JOIN rooms r ON r.id = gs.room_id; COALESCE(r.room_number, '') *)
Definition stay_room_number (s : StayRow) (d : DB) : string :=
  default "" (rm_room_number <$> find_row (fun r => ueq (rm_id r) (gs_room_id s)) (rooms d)).
(** SELECT pf.id FROM folios pf WHERE pf.booking_id = $2 ORDER BY pf.created_at, pf.id LIMIT 1 *)
Definition canonical_folio (bookingID : uuid) (d : DB) : option uuid :=
  fo_id <$> find_row (fun f => ueq (fo_booking_id f) bookingID) (folios d).
Definition is_canonical (f : FolioRow) (d : DB) : bool := oueq (canonical_folio (fo_booking_id f) d) (fo_id f).
Definition paid_on (bookingID : uuid) (p : PaymentRow) : bool :=
  oueq (pay_guest_stay_id p) bookingID && (pay_status p =s "completed").
(** What the list attributes to the folio: the booking's payments, or nothing. *)
Definition attributed (f : FolioRow) (d : DB) : Z :=
  if is_canonical f d then sum_rows (paid_on (fo_booking_id f)) pay_amount (payments d) else 0.

(** AND f.status = $2 AND gs.guest_name ILIKE $3, each where the parameter is given *)
Definition filter_status (given actual : string) : bool := (given =s "") || (actual =s given).
Definition filter_name (search name : string) : bool := (search =s "") || ilike name ("%" ++ search ++ "%").

(** [UNIQUE (hotel_id, invoice_number)], the primary key, and the NUMERIC(12,2) amounts *)
Definition insert_folio_invoice (row : FolioInvoiceRow) (d : DB) : GoErr + (unit * DB) :=
  if negb (money_fits (fi_subtotal row) && money_fits (fi_tax_total row) && money_fits (fi_total row)) then inl (ErrPg "22003")
  else if negb (exists_row (folio_by_id (fi_folio_id row)) (folios d)) then inl (ErrPg "23503")
  else if exists_row (fun i => ueq (fi_id i) (fi_id row) || (ueq (fi_hotel_id i) (fi_hotel_id row) && (fi_number i =s fi_number row)))
            (folio_invoices d)
  then inl (ErrPg "23505") else inr (tt, d <| folio_invoices ::= insert_row row |>).

(** NUMERIC(10,2), VARCHAR(50), and the folio: of any hotel *)
Definition insert_charge (row : FolioChargeRow) (d : DB) : GoErr + (unit * DB) :=
  if 50 <? slen (fc_charge_type row) then inl (ErrPg "22001")
  else if negb ((Z.abs (fc_amount row) <? 10 ^ 10) && (Z.abs (fc_tax_amount row) <? 10 ^ 10)) then inl (ErrPg "22003")
  else if negb (exists_row (folio_by_id (fc_folio_id row)) (folios d)) then inl (ErrPg "23503")
  else inr (tt, d <| folio_charges ::= insert_row row |>).

Definition nullableBillingText (value : string) : option string := nullif (TrimSpace value).

Section FolioDesk.
Context {env : Env} {jwt : Jwt} (secret : string).

Definition scan_charge (c : FolioChargeRow) : chargeItem :=
  {| ch_ID := fc_id c; ch_FolioID := fc_folio_id c; ch_Description := fc_description c; ch_ChargeType := fc_charge_type c;
     ch_Amount := num_dec (fc_amount c); ch_TaxAmount := num_dec (fc_tax_amount c); ch_ReferenceID := fc_reference_id c;
     ch_PostedAt := scan_time (fc_posted_at c); ch_PostedBy := fc_posted_by c |}.
Definition scan_paymentItem (p : PaymentRow) : paymentItem :=
  {| pi_ID := pay_id p; pi_PaymentNumber := pay_number p; pi_Amount := num_dec (pay_amount p); pi_Method := pay_method p;
     pi_Status := pay_status p; pi_Notes := pay_notes p; pi_ProcessedBy := pay_processed_by p |}.
Definition scan_invoice (guest : string) (i : FolioInvoiceRow) : invoiceItem :=
  {| iv_ID := fi_id i; iv_FolioID := fi_folio_id i; iv_InvoiceNumber := fi_number i; iv_Status := fi_status i;
     iv_Subtotal := num_dec (fi_subtotal i); iv_TaxTotal := num_dec (fi_tax_total i); iv_Total := num_dec (fi_total i);
     iv_Currency := fi_currency i; iv_Notes := fi_notes i; iv_GuestName := guest; iv_CreatedAt := scan_time (fi_created_at i);
     iv_UpdatedAt := scan_time (fi_updated_at i); iv_SentAt := scan_time <$> fi_sent_at i; iv_PaidAt := scan_time <$> fi_paid_at i |}.

(** A NULL guest_id does not scan into a uuid.UUID. *)
Definition scan_folio (d : DB) (f : FolioRow) (s : StayRow) : option folioItem :=
  guest ← fo_guest_id f;
  let charged := num_dec (folio_charged (fo_id f) d) in
  let paid := num_dec (attributed f d) in
  Some {| fv_ID := fo_id f; fv_BookingID := fo_booking_id f; fv_GuestID := guest; fv_Status := fo_status f;
          fv_Currency := fo_currency f; fv_GuestName := gs_guest_name s; fv_RoomID := gs_room_id s;
          fv_RoomNumber := stay_room_number s d; fv_TotalCharges := charged; fv_TotalPaid := paid;
          fv_Balance := fsub charged paid; fv_ClosedAt := scan_time <$> fo_closed_at f |}.

(** The rows of the folio list, newest first. *)
Definition folio_rows (h : uuid) (status search : string) (d : DB) : list (option folioItem) :=
  rev (omap (fun f => s ← stay_of f d;
               if filter_name search (gs_guest_name s) then Some (scan_folio d f s) else None)
         (select (fun f => ueq (fo_hotel_id f) h && filter_status status (fo_status f)) (folios d))).

Definition posted_order (a b : FolioChargeRow) : bool := t_ns (fc_posted_at a) <=? t_ns (fc_posted_at b).
Definition charges_of (folioID : uuid) (d : DB) : list FolioChargeRow :=
  order_by posted_order (select (fun c => ueq (fc_folio_id c) folioID) (folio_charges d)).
Definition failing {A} (status : Z) (msg : string) (m : M GoErr A) : M (Resp FolioBody) A :=
  on_err m (fun _ => RespError status msg).
Definition failing_text {A} (status : Z) (m : M GoErr A) : M (Resp FolioBody) A :=
  on_err m (fun e => RespError status (err_text e)).
Definition path_folio (c : Ctx) : M (Resp FolioBody) uuid :=
  of_option (uuid_parse (c_params c "id")) (RespError 400 "invalid folio id").
Definition body_of {A} (b : option A) : M (Resp FolioBody) A := of_option b (RespError 400 "invalid request body").

(** The error of the INSERT is dropped. *)
Definition desk_audit {E} (user : option uuid) (action resource : string) (id : uuid) : M E unit :=
  a ← new_uuid;
  attempt (exec Pool (fun d => inr (tt, d <| audit_logs ::= insert_row
    {| au_id := a; au_user_id := user; au_action := action; au_table := resource; au_record_id := id |} |>))) ;;
  mret tt.

(** ** Folios *)

Definition ListAllCharges (c : Ctx) : M (Resp FolioBody) (Resp FolioBody) :=
  l ← failing 500 "failed to list charges" (query Pool (fun d =>
        omap (fun ch => f ← find_row (folio_by_id (fc_folio_id ch)) (folios d);
                        s ← stay_of f d;
                        Some (scan_charge ch, (fo_status f, gs_guest_name s)))
          (order_by (fun a b => posted_order b a) (select (fun ch => ueq (fc_hotel_id ch) (hotelID secret c)) (folio_charges d)))));
  mret (RespOK (FB_charges l)).

Definition ListFolios (c : Ctx) : M (Resp FolioBody) (Resp FolioBody) :=
  rows ← failing 500 "failed to list folios"
           (query Pool (folio_rows (hotelID secret c) (c_query c "status") (c_query c "search")));
  items ← of_option (mapM id rows) (RespError 500 "failed to scan folio row");
  mret (RespOK (FB_folios items)).

Definition found_folio (id h : uuid) (d : DB) : option (FolioRow * StayRow * string) :=
  f ← find_row (fun f => folio_by_id id f && ueq (fo_hotel_id f) h) (folios d);
  s ← stay_of f d;
  _ ← fo_guest_id f;
  Some (f, s, stay_room_number s d).

Definition GetFolio (c : Ctx) : M (Resp FolioBody) (Resp FolioBody) :=
  id ← path_folio c;
  found ← failing 404 "folio not found" (query_row Pool (found_folio id (hotelID secret c)));
  let '(f, s, room) := found in
  charges ← failing 500 "failed to load charges" (query Pool (fun d => map scan_charge (charges_of id d)));
  canonical ← failing 500 "failed to resolve folio payments" (query Pool (is_canonical f));
  payments ← failing 500 "failed to load payments" (query Pool (fun d => map scan_paymentItem
               (rev (select (fun p => oueq (pay_guest_stay_id p) (fo_booking_id f) && ueq (pay_hotel_id p) (hotelID secret c))
                       (payments d)))));
  let totalCharges := total_of (map ch_Amount charges) in
  let totalTax := total_of (map ch_TaxAmount charges) in
  let totalPaid := total_of (map pi_Amount (List.filter (fun p => (pi_Status p =s "completed") && canonical) payments)) in
  mret (RespOK (FB_folio {| fd_folio := f; fd_guest_name := gs_guest_name s; fd_room_id := gs_room_id s;
    fd_room_number := room; fd_total_charges := totalCharges; fd_total_tax := totalTax; fd_total_paid := totalPaid;
    fd_balance := fsub (fadd totalCharges totalTax) totalPaid; fd_charges := charges; fd_payments := payments |})).

(** Neither the booking nor the guest is looked for in the hotel. *)
Definition CreateFolio (c : Ctx) (body : option createFolioRequest) : M (Resp FolioBody) (Resp FolioBody) :=
  req ← body_of body;
  bookingID ← of_option (uuid_parse (TrimSpace (cf_BookingID req))) (RespError 422 "booking_id is required and must be a valid UUID");
  guestID ← of_option (uuid_parse (TrimSpace (cf_GuestID req))) (RespError 422 "guest_id is required and must be a valid UUID");
  let cur := ToUpper (TrimSpace (cf_Currency req)) in
  id ← new_uuid;
  let row := {| fo_id := id; fo_hotel_id := hotelID secret c; fo_booking_id := bookingID; fo_guest_id := Some guestID;
                fo_status := "open"; fo_currency := if cur =s "" then "INR" else cur; fo_closed_at := None |} in
  failing_text 400 (exec Pool (insert_folio row)) ;;
  desk_audit (Some guestID) "CREATE" "folios" id ;;
  mret (RespCreated (FB_opened row)).

(** Nor is the folio, here. *)
Definition AddCharge (c : Ctx) (body : option addChargeRequest) : M (Resp FolioBody) (Resp FolioBody) :=
  folioID ← path_folio c;
  req ← body_of body;
  throw_if (TrimSpace (ac_Description req) =s "") (RespError 422 "description is required") ;;
  throw_if (fle (ac_Amount req) 0) (RespError 422 "amount must be positive") ;;
  let refID := s ← ac_ReferenceID req; uuid_parse (TrimSpace s) in
  let kind := if TrimSpace (ac_ChargeType req) =s "" then "other" else TrimSpace (ac_ChargeType req) in
  id ← new_uuid; now ← time_now;
  failing_text 400 (exec Pool (insert_charge
    {| fc_id := id; fc_folio_id := folioID; fc_hotel_id := hotelID secret c; fc_description := TrimSpace (ac_Description req);
       fc_charge_type := kind; fc_amount := num_enc (ac_Amount req); fc_tax_amount := num_enc (ac_TaxAmount req);
       fc_reference_id := refID; fc_posted_by := None; fc_posted_at := now |})) ;;
  desk_audit None "CREATE" "folio_charges" id ;;
  mret (RespCreated (FB_charged id folioID (TrimSpace (ac_Description req)) kind (ac_Amount req) (ac_TaxAmount req) refID)).

(** fmt.Sprintf("%s-%s-%d", prefix, today in UTC, time.Now().UnixMilli()%100000) *)
Definition desk_number {E} (prefix : string) : M E string :=
  t1 ← time_now; t2 ← time_now;
  mret (prefix ++ "-" ++ fmt_date_compact (UTC t1) ++ "-" ++ fmt_d (Z.rem (unix_milli t2) 100000)).

(** journalID, _ := postRoomRevenue(...) *)
Definition post_folio_payment {E} (h : uuid) (method number : string) (amount : Q) : M E (option uuid) :=
  r ← attempt (postRoomRevenue Pool h method 0 amount ("PAY " ++ number) ("Room folio payment " ++ number));
  mret (match r with inr j => if ueq j uuid_nil then None else Some j | inl _ => None end).

Definition RecordPayment (c : Ctx) (body : option recordPaymentRequest) : M (Resp FolioBody) (Resp FolioBody) :=
  folioID ← path_folio c;
  req ← body_of body;
  throw_if (fle (rp_Amount req) 0) (RespError 422 "amount must be positive") ;;
  let m := ToLower (TrimSpace (rp_PaymentMethod req)) in
  let method := if m =s "" then "cash" else m in
  stayID ← failing 404 "folio not found" (query_row Pool (fun d => fo_booking_id <$>
             find_row (fun f => folio_by_id folioID f && ueq (fo_hotel_id f) (tenantHotelID c)) (folios d)));
  id ← new_uuid;
  number ← desk_number "PAY";
  let notes := nullableBillingText (rp_Notes req) in
  failing_text 400 (exec Pool (insert_payment
    {| pay_id := id; pay_hotel_id := tenantHotelID c; pay_number := number; pay_guest_stay_id := Some stayID;
       pay_amount := num_enc (rp_Amount req); pay_method := method; pay_status := "completed"; pay_upi_id := None;
       pay_transaction_ref := None; pay_card_last4 := None; pay_auth_code := None; pay_cash_received := None;
       pay_change_given := None; pay_processed_by := None; pay_notes := notes; pay_category := None |})) ;;
  desk_audit None "CREATE" "payments" id ;;
  journal ← post_folio_payment (tenantHotelID c) method number (rp_Amount req);
  mret (RespCreated (FB_paid id number folioID stayID (rp_Amount req) method notes journal)).

(** ** Invoices *)

(** CREATE TABLE IF NOT EXISTS *)
Definition ensureInvoiceSchema : M (Resp FolioBody) unit := failing_text 500 (exec Pool (fun d => inr (tt, d))).

(** FROM invoices i JOIN folios f JOIN guest_stays gs *)
Definition invoice_guest (i : FolioInvoiceRow) (d : DB) : option StayRow :=
  f ← find_row (folio_by_id (fi_folio_id i)) (folios d); stay_of f d.
Definition invoice_key (id h : uuid) (i : FolioInvoiceRow) : bool := ueq (fi_id i) id && ueq (fi_hotel_id i) h.
Definition found_invoice (id h : uuid) (d : DB) : option (FolioInvoiceRow * StayRow) :=
  i ← find_row (invoice_key id h) (folio_invoices d); s ← invoice_guest i d; Some (i, s).
Definition path_invoice (c : Ctx) : M (Resp FolioBody) uuid :=
  of_option (uuid_parse (c_params c "id")) (RespError 400 "invalid invoice id").

Definition ListInvoices (c : Ctx) : M (Resp FolioBody) (Resp FolioBody) :=
  ensureInvoiceSchema ;;
  l ← failing 500 "failed to list invoices" (query Pool (fun d =>
        rev (omap (fun i => s ← invoice_guest i d;
                     if filter_name (c_query c "search") (gs_guest_name s) then Some (scan_invoice (gs_guest_name s) i) else None)
               (select (fun i => ueq (fi_hotel_id i) (tenantHotelID c) && filter_status (c_query c "status") (fi_status i))
                  (folio_invoices d)))));
  mret (RespOK (FB_invoices l)).

Definition invoice_line (ch : FolioChargeRow) : invLine :=
  {| vl_Description := fc_description ch; vl_Amount := num_dec (fc_amount ch); vl_TaxAmount := num_dec (fc_tax_amount ch) |}.

Definition GenerateInvoice (c : Ctx) (body : option generateInvoiceRequest) : M (Resp FolioBody) (Resp FolioBody) :=
  ensureInvoiceSchema ;;
  req ← body_of body;
  folioID ← of_option (uuid_parse (TrimSpace (gi_FolioID req))) (RespError 422 "folio_id is required and must be a valid UUID");
  found ← failing 404 "folio not found" (query_row Pool (fun d =>
            f ← find_row (fun f => folio_by_id folioID f && ueq (fo_hotel_id f) (tenantHotelID c)) (folios d);
            guest ← fo_guest_id f; Some (fo_currency f, guest)));
  let '(currency, guestID) := found in
  lines ← failing 500 "failed to load charges" (query Pool (fun d => map invoice_line (charges_of folioID d)));
  let subtotal := total_of (map vl_Amount lines) in
  let taxTotal := total_of (map vl_TaxAmount lines) in
  let total := fadd subtotal taxTotal in
  id ← new_uuid;
  number ← desk_number "INV";
  now ← time_now;
  let notes := nullableBillingText (gi_Notes req) in
  failing_text 400 (exec Pool (insert_folio_invoice
    {| fi_id := id; fi_hotel_id := tenantHotelID c; fi_folio_id := folioID; fi_number := number; fi_status := "draft";
       fi_subtotal := num_enc subtotal; fi_tax_total := num_enc taxTotal; fi_total := num_enc total; fi_currency := currency;
       fi_notes := notes; fi_created_at := now; fi_updated_at := now; fi_sent_at := None; fi_paid_at := None |})) ;;
  desk_audit (Some guestID) "CREATE" "invoices" id ;;
  mret (RespCreated (FB_drafted id folioID number subtotal taxTotal total currency lines notes)).

Definition GetInvoice (c : Ctx) : M (Resp FolioBody) (Resp FolioBody) :=
  ensureInvoiceSchema ;;
  id ← path_invoice c;
  found ← failing 404 "invoice not found" (query_row Pool (found_invoice id (tenantHotelID c)));
  mret (RespOK (FB_invoice (fi_hotel_id (fst found)) (scan_invoice (gs_guest_name (snd found)) (fst found)))).

Definition mark_sent (now : Time) (i : FolioInvoiceRow) : FolioInvoiceRow :=
  i <| fi_status := "sent" |> <| fi_sent_at := Some now |> <| fi_updated_at := now |>.

Definition EmailInvoice (c : Ctx) : M (Resp FolioBody) (Resp FolioBody) :=
  ensureInvoiceSchema ;;
  id ← path_invoice c;
  found ← failing 404 "invoice not found" (query_row Pool (found_invoice id (tenantHotelID c)));
  let '(i, s) := found in
  now ← time_now;
  failing 500 "failed to update invoice" (exec Pool (fun d =>
    inr (tt, d <| folio_invoices ::= update_rows (fun i => ueq (fi_id i) id) (mark_sent now) |>))) ;;
  desk_audit None "EMAIL" "invoices" id ;;
  today ← time_now;
  send {| nt_job := "email.invoice"; nt_to := opt_str (gs_guest_email s);
          nt_fields := [gs_guest_name s; "Grand Hotel Mumbai"; fi_number i; fmt_2f (num_dec (fi_total i)); fmt_date today] |} ;;
  mret (RespOK (FB_emailed id (fi_number i))).

(** ** Payment history *)

Definition transaction (d : DB) (search : string) (p : PaymentRow) : option txItem :=
  stay ← pay_guest_stay_id p;
  s ← find_row (stay_by_id stay) (guest_stays d);
  if filter_name search (gs_guest_name s)
  then Some {| tx_payment := scan_paymentItem p; tx_GuestStayID := stay; tx_GuestName := gs_guest_name s;
               tx_RoomNumber := stay_room_number s d |}
  else None.

Definition TransactionHistory (c : Ctx) : M (Resp FolioBody) (Resp FolioBody) :=
  l ← failing 500 "failed to load transactions" (query Pool (fun d =>
        rev (omap (transaction d (c_query c "search"))
               (select (fun p => ueq (pay_hotel_id p) (tenantHotelID c) && filter_status (c_query c "method") (pay_method p)
                                 && filter_status (c_query c "status") (pay_status p)) (payments d)))));
  mret (RespOK (FB_transactions l)).

(** ** The routes, behind authGate *)

Inductive FolioOp :=
  | Op_ListFolios | Op_GetFolio | Op_CreateFolio (b : option createFolioRequest) | Op_AddCharge (b : option addChargeRequest)
  | Op_RecordPayment (b : option recordPaymentRequest) | Op_ListInvoices
  | Op_GenerateInvoice (b : option generateInvoiceRequest) | Op_GetInvoice | Op_EmailInvoice | Op_TransactionHistory
  | Op_ListAllCharges.
Definition folio_route (op : FolioOp) (c : Ctx) : M (Resp FolioBody) (Resp FolioBody) :=
  match op with
  | Op_ListFolios => ListFolios c | Op_GetFolio => GetFolio c | Op_CreateFolio b => CreateFolio c b
  | Op_AddCharge b => AddCharge c b | Op_RecordPayment b => RecordPayment c b | Op_ListInvoices => ListInvoices c
  | Op_GenerateInvoice b => GenerateInvoice c b | Op_GetInvoice => GetInvoice c | Op_EmailInvoice => EmailInvoice c
  | Op_TransactionHistory => TransactionHistory c | Op_ListAllCharges => ListAllCharges c
  end.
Record FolioRequest := { fq_ctx : Ctx; fq_op : FolioOp }.
Definition folio_handle (rq : FolioRequest) : M (Resp FolioBody) (Resp FolioBody) :=
  match authGate secret (fq_ctx rq) with
  | inl (status, msg) => throw (RespError status msg)
  | inr c => folio_route (fq_op rq) c
  end.
Definition folio_serve_all (rqs : list FolioRequest) (w : World) : World :=
  foldl (fun w rq => snd (serve (folio_handle rq) w)) w rqs.
End FolioDesk.
