(* ===== verification/FolioSpec.v ===== *)
(** FolioSpec: what the cashier's page (FolioDesk) promises.  The balance of a
    folio is the same in the list and in the detail, and a booking's payments are
    counted on one folio; a payment is recorded once and booked; an invoice states
    its folio; and nothing a request wrote is ever taken back. *)

From Stdlib Require Import QArith Qabs Lqa Permutation.
From S2P Require Import Prelude GoLib Schema Binary64 World Auth Guards Ledger Settlement RoomRepo FolioCharge AccountingSpec FolioDesk Lifecycle.
Local Open Scope string_scope.
Local Open Scope Z_scope.

(** ** Sums of columns *)

Section Columns.
Context {R : Type}.
Implicit Types (p q : R -> bool) (f : R -> Z) (t : list R).

Lemma sum_rows_column p f t : sum_rows p f t = sum_cents (map f (select p t)).
Proof. unfold sum_rows, sum_cents. induction (select p t) as [|r l IH]; cbn; [reflexivity | now rewrite IH]. Qed.
Lemma sum_cents_plus (f g : R -> Z) t : sum_cents (map (fun r => f r + g r) t) = sum_cents (map f t) + sum_cents (map g t).
Proof. unfold sum_cents. induction t as [|r t IH]; cbn; [reflexivity | rewrite IH; lia]. Qed.
Lemma sum_rows_ext p f g t : (forall r, In r t -> p r = true -> f r = g r) -> sum_rows p f t = sum_rows p g t.
Proof.
  intros H. rewrite !sum_rows_as_sum. f_equal. apply List.map_ext_in. intros r Hr.
  destruct (p r) eqn:E; [now apply H | reflexivity].
Qed.
Lemma sum_rows_none p f t : (forall r, In r t -> p r = true -> f r = 0) -> sum_rows p f t = 0.
Proof.
  intros H. rewrite (sum_rows_ext p f (fun _ => 0)) by exact H. rewrite sum_rows_as_sum. unfold sumZ.
  induction t as [|r t IH]; [reflexivity|]. cbn. rewrite IH by (intros; apply H; [now right | assumption]). now destruct (p r).
Qed.
Lemma select_ext p q t : (forall r, In r t -> p r = q r) -> select p t = select q t.
Proof. apply List.filter_ext_in. Qed.
Lemma select_select p q t : select p (select q t) = select (fun r => q r && p r) t.
Proof.
  unfold select. induction t as [|r t IH]; [reflexivity|]. cbn. destruct (q r); cbn; [|exact IH]. destruct (p r); now rewrite IH.
Qed.
Lemma abs_cents_all f t x : In x t -> Z.abs (f x) <= abs_cents (map f t).
Proof.
  induction t as [|r t IH]; [contradiction|]. cbn [map]. rewrite abs_cents_cons. pose proof (abs_cents_nonneg (map f t)).
  intros [->|H1]; [lia | specialize (IH H1); lia].
Qed.
End Columns.

Section Amounts.
Context {env : Env} {laws : EnvLaws env}.

Lemma decoded l : abs_cents l <= SUMC -> map num_dec l = map cents l.
Proof.
  intros H. apply List.map_ext_in. intros k Hk. apply num_dec_cents.
  pose proof (abs_cents_all (fun k => k) l k Hk) as Hb. rewrite List.map_id in Hb. unfold MAXC, SUMC in *. lia.
Qed.
Lemma decoded_total l : abs_cents l <= SUMC -> Z.of_nat (length l) <= 10000 -> near 3 (total_of (map num_dec l)) (sum_cents l).
Proof. intros H1 H2. rewrite decoded by exact H1. now apply total_near. Qed.

(** What a few operations away from whole paise stores them. *)
Lemma stored_near n x k : near n x k -> n <= 12 -> Z.abs k <= 10 ^ 13 -> num_enc x = k.
Proof.
  intros Hn Hle Hk. pose proof (num_enc_near x) as He. apply near_iff in Hn as [Hl Hu]. apply inject_le in Hle.
  apply inject_abs_le in Hk as [Hk1 Hk2]. change (inject_Z 12) with 12%Q in Hle. change (inject_Z (10 ^ 13)) with 10000000000000%Q in *.
  assert (Hx : (Qabs x <= 100000000001)%Q) by (apply Qabs_le_iff; split; lra).
  assert (Ht : (tiny <= 1 # 100)%Q) by (vm_compute; discriminate).
  change (1 # 2 ^ 40)%Q with (1 # 1099511627776)%Q in He. apply Qabs_le_iff in He as [He1 He2].
  assert (H : (inject_Z (num_enc x) < inject_Z (k + 1) /\ inject_Z (k - 1) < inject_Z (num_enc x))%Q).
  { unfold Z.sub. rewrite !inject_Z_plus. change (inject_Z 1) with 1%Q. change (inject_Z (-(1))) with (- (1))%Q. split; lra. }
  rewrite <- !Zlt_Qlt in H. lia.
Qed.
End Amounts.

(** ** Balances *)

(** What the folio owes: its charges and taxes, less what is attributed to it. *)
Definition folio_balance (f : FolioRow) (d : DB) : Z := folio_charged (fo_id f) d - attributed f d.

Record folios_sound (d : DB) : Prop := {
  fs_ids : NoDup (map fo_id (folios d));
  fs_guests : forall f, In f (folios d) -> is_Some (fo_guest_id f) }.
(** The bookings of the hotel's folios were paid to the hotel alone. *)
Definition own_payments (h : uuid) (d : DB) : Prop := forall f p, In f (folios d) -> fo_hotel_id f = h -> In p (payments d) ->
  oueq (pay_guest_stay_id p) (fo_booking_id f) = true -> pay_hotel_id p = h.

(** At most ten thousand charges and payments, of ten crore rupees in all. *)
Definition charge_rows (f : FolioRow) (d : DB) : list FolioChargeRow := select (fun c => ueq (fc_folio_id c) (fo_id f)) (folio_charges d).
Definition payment_rows (f : FolioRow) (d : DB) : list PaymentRow := select (paid_on (fo_booking_id f)) (payments d).
Record measured (d : DB) (f : FolioRow) : Prop := {
  me_charges : Z.of_nat (length (charge_rows f d)) <= 10000;
  me_payments : Z.of_nat (length (payment_rows f d)) <= 10000;
  me_sum : abs_cents (map fc_amount (charge_rows f d)) + abs_cents (map fc_tax_amount (charge_rows f d))
           + abs_cents (map pay_amount (payment_rows f d)) <= SUMC }.

Definition charged_net (f : FolioRow) (d : DB) : Z := sum_cents (map fc_amount (charge_rows f d)).
Definition charged_tax (f : FolioRow) (d : DB) : Z := sum_cents (map fc_tax_amount (charge_rows f d)).

Lemma charged_parts f d : folio_charged (fo_id f) d = charged_net f d + charged_tax f d.
Proof. unfold folio_charged. rewrite sum_rows_column. apply sum_cents_plus. Qed.
Lemma attributed_parts f d : attributed f d = if is_canonical f d then sum_cents (map pay_amount (payment_rows f d)) else 0.
Proof. unfold attributed. now rewrite sum_rows_column. Qed.

Lemma measured_bounds d f : measured d f ->
  Z.abs (charged_net f d) <= SUMC /\ Z.abs (charged_tax f d) <= SUMC /\ Z.abs (attributed f d) <= SUMC
  /\ Z.abs (folio_charged (fo_id f) d) <= SUMC /\ Z.abs (folio_balance f d) <= SUMC.
Proof.
  intros [_ _ H]. pose proof (sum_le_abs (map fc_amount (charge_rows f d))). pose proof (sum_le_abs (map fc_tax_amount (charge_rows f d))).
  pose proof (sum_le_abs (map pay_amount (payment_rows f d))). unfold folio_balance. rewrite charged_parts, attributed_parts.
  unfold charged_net, charged_tax. destruct (is_canonical f d); unfold SUMC in *; lia.
Qed.

(** The first folio of a booking is the one that counts its payments. *)
Lemma sum_on_first b P (l : list FolioRow) f0 :
  NoDup (map fo_id l) -> find_row (fun f => ueq (fo_booking_id f) b) l = Some f0 ->
  sum_rows (fun f => ueq (fo_booking_id f) b) (fun f => if ueq (fo_id f0) (fo_id f) then P else 0) l = P.
Proof.
  induction l as [|f l IH]; intros Hd Hf; [discriminate|]. apply list.NoDup_cons in Hd as [Hn Hd].
  unfold sum_rows, select in *; cbn in *. destruct (ueq (fo_booking_id f) b) eqn:E; cbn; [|exact (IH Hd Hf)].
  injection Hf as <-. unfold ueq at 1. rewrite N.eqb_refl.
  enough (H : sum_rows (fun f => ueq (fo_booking_id f) b) (fun f' => if ueq (fo_id f) (fo_id f') then P else 0) l = 0).
  { unfold sum_rows, select in H. rewrite H. lia. }
  apply sum_rows_none. intros f' Hf' _. destruct (ueq (fo_id f) (fo_id f')) eqn:E2; [|reflexivity].
  apply N.eqb_eq in E2. destruct Hn. rewrite E2. now apply list_elem_of_In, List.in_map.
Qed.
Lemma counted_once b d : NoDup (map fo_id (folios d)) ->
  sum_rows (fun f => ueq (fo_booking_id f) b) (fun f => attributed f d) (folios d)
  = if exists_row (fun f => ueq (fo_booking_id f) b) (folios d) then sum_rows (paid_on b) pay_amount (payments d) else 0.
Proof.
  intros Hd. destruct (find_row (fun f => ueq (fo_booking_id f) b) (folios d)) as [f0|] eqn:E.
  - replace (exists_row _ _) with true by (symmetry; apply exists_row_true; exists f0; exact (find_row_some _ _ _ E)).
    rewrite <- (sum_on_first b (sum_rows (paid_on b) pay_amount (payments d)) (folios d) f0 Hd E).
    apply sum_rows_ext. intros f _ Hb%N.eqb_eq. unfold attributed, is_canonical, canonical_folio. rewrite Hb, E. reflexivity.
  - replace (exists_row _ _) with false by (symmetry; apply exists_row_false; intros f Hf; exact (find_row_none _ _ f E Hf)).
    apply sum_rows_none. intros f Hf Hb. rewrite (find_row_none _ _ f E Hf) in Hb. discriminate.
Qed.

(** *** The two views *)

Section Views.
Context {env : Env} {laws : EnvLaws env} {jwt : Jwt} (secret : string).

Lemma list_balance d f s it : measured d f -> scan_folio d f s = Some it ->
  fv_ID it = fo_id f /\ round2 (fv_Balance it) = cents (folio_balance f d) /\ round2 (fv_TotalPaid it) = cents (attributed f d).
Proof.
  intros Hm. destruct (measured_bounds d f Hm) as (_ & _ & Ha & Hc & _). unfold scan_folio.
  destruct (fo_guest_id f); [|discriminate]. intros [= <-]. cbn.
  rewrite !num_dec_cents by (unfold MAXC, SUMC in *; lia). split; [reflexivity|].
  split; [apply round2_sub; unfold MAXC, SUMC in *; lia | apply round2_cents; unfold MAXC, SUMC in *; lia].
Qed.

Lemma folio_rows_in h st se d o : In o (folio_rows h st se d) ->
  exists f s, In f (folios d) /\ fo_hotel_id f = h /\ stay_of f d = Some s /\ o = scan_folio d f s.
Proof.
  unfold folio_rows. rewrite <- List.in_rev, <- list_elem_of_In, list_elem_of_omap. intros (f & Hf%list_elem_of_In & Ho).
  apply in_select in Hf as [Hf Hp]. apply andb_true_iff in Hp as [Hh%N.eqb_eq _].
  destruct (stay_of f d) as [s|] eqn:Es; cbn in Ho; [|discriminate]. destruct (filter_name _ _); [|discriminate].
  injection Ho as <-. eauto 6.
Qed.
Lemma scanned_rows (rows : list (option folioItem)) : Forall is_Some rows -> exists items, mapM id rows = Some items /\ Forall2 (fun o it => o = Some it) rows items.
Proof.
  induction 1 as [|o rows [it ->] _ (items & E & H)]; [exists []; split; constructor|].
  exists (it :: items). cbn. rewrite E. split; [reflexivity | now constructor].
Qed.

(** The payments the detail adds up. *)
Lemma detail_payments d f h : own_payments h d -> In f (folios d) -> fo_hotel_id f = h ->
  map pi_Amount (List.filter (fun p => (pi_Status p =s "completed") && is_canonical f d)
    (map scan_paymentItem (rev (select (fun p => oueq (pay_guest_stay_id p) (fo_booking_id f) && ueq (pay_hotel_id p) h) (payments d)))))
  = map num_dec (if is_canonical f d then rev (map pay_amount (payment_rows f d)) else []).
Proof.
  intros Hown Hf <-. destruct (is_canonical f d).
  2:{ cbn. generalize (map scan_paymentItem (rev (select (fun p => oueq (pay_guest_stay_id p) (fo_booking_id f)
        && ueq (pay_hotel_id p) (fo_hotel_id f)) (payments d)))). intros l.
      induction l as [|p l IH]; [reflexivity|]. cbn. now rewrite andb_false_r. }
  assert (E : forall l, map pi_Amount (List.filter (fun p => (pi_Status p =s "completed") && true) (map scan_paymentItem l))
                      = map num_dec (map pay_amount (select (fun p => pay_status p =s "completed") l))).
  { induction l as [|p l IH]; [reflexivity|]. cbn. rewrite andb_true_r. destruct (pay_status p =s "completed"); cbn; now rewrite IH. }
  rewrite E. f_equal. rewrite <- List.map_rev. f_equal. unfold payment_rows, select. rewrite List.filter_rev. f_equal.
  fold (select (R := PaymentRow)). change (select (fun p => pay_status p =s "completed") (select (fun p => oueq (pay_guest_stay_id p) (fo_booking_id f)
     && ueq (pay_hotel_id p) (fo_hotel_id f)) (payments d)) = select (paid_on (fo_booking_id f)) (payments d)).
  rewrite select_select. apply select_ext. intros p Hp. unfold paid_on.
  destruct (oueq (pay_guest_stay_id p) (fo_booking_id f)) eqn:Eb; [|reflexivity].
  unfold ueq. rewrite (Hown f p Hf eq_refl Hp Eb), N.eqb_refl. reflexivity.
Qed.

Lemma detail_charges {A} (g : chargeItem -> A) (k : FolioChargeRow -> A) d f : (forall c, g (scan_charge c) = k c) ->
  map g (map scan_charge (charges_of (fo_id f) d)) = map k (order_by posted_order (charge_rows f d)).
Proof. intros H. rewrite List.map_map. apply List.map_ext. exact H. Qed.

Lemma ordered_total (k : FolioChargeRow -> Z) d f : abs_cents (map k (charge_rows f d)) <= SUMC -> Z.of_nat (length (charge_rows f d)) <= 10000 ->
  near 3 (total_of (map (fun c => num_dec (k c)) (order_by posted_order (charge_rows f d)))) (sum_cents (map k (charge_rows f d))).
Proof.
  intros H1 H2. pose proof (Permutation_map k (order_by_Permutation posted_order (charge_rows f d))) as HP.
  rewrite <- (sum_cents_perm _ _ HP). rewrite <- (abs_cents_perm _ _ HP) in H1.
  replace (map (fun c => num_dec (k c)) (order_by posted_order (charge_rows f d)))
    with (map num_dec (map k (order_by posted_order (charge_rows f d)))) by apply List.map_map.
  apply decoded_total; [exact H1|]. rewrite (Permutation_length HP), List.length_map. exact H2.
Qed.

Lemma found_in_hotel d f : folios_sound d -> In f (folios d) ->
  find_row (fun f' => folio_by_id (fo_id f) f' && ueq (fo_hotel_id f') (fo_hotel_id f)) (folios d) = Some f.
Proof.
  intros [Hd _] Hf. destruct (find_row _ (folios d)) as [f'|] eqn:E.
  - apply find_row_some in E as [Hf' Hp]. apply andb_true_iff in Hp as [Hi%N.eqb_eq _]. f_equal.
    revert Hd Hf Hf' Hi. generalize (folios d). intros l. induction l as [|a l IH]; [contradiction|].
    cbn [map]. intros [Hn Hd]%list.NoDup_cons [->|Hf] [->|Hf'] Hi; [reflexivity | exfalso.. | now apply IH];
      apply Hn; [rewrite <- Hi | rewrite Hi]; now apply list_elem_of_In, List.in_map.
  - pose proof (find_row_none _ _ f E Hf) as H. cbn in H. unfold folio_by_id, ueq in H. rewrite !N.eqb_refl in H. discriminate.
Qed.

Lemma GetFolio_runs d f s c : folios_sound d -> own_payments (fo_hotel_id f) d -> measured d f -> In f (folios d) -> stay_of f d = Some s ->
  hotelID secret c = fo_hotel_id f -> uuid_parse (c_params c "id") = Some (fo_id f) ->
  runs Pool (GetFolio secret c) d (fun r d' => d' = d /\ exists v, r = RespOK (FB_folio v) /\ fd_folio v = f
     /\ round2 (fd_total_charges v) = cents (charged_net f d) /\ round2 (fd_total_tax v) = cents (charged_tax f d)
     /\ round2 (fd_total_paid v) = cents (attributed f d) /\ round2 (fd_balance v) = cents (folio_balance f d)) (fun _ => False).
Proof.
  intros Hs Hown Hm Hf Est Eh Eid. destruct (measured_bounds d f Hm) as (Bn & Bt & Ba & Bc & Bb).
  destruct Hm as [Lc Lp HS]. pose proof (abs_cents_nonneg (map fc_amount (charge_rows f d))).
  pose proof (abs_cents_nonneg (map fc_tax_amount (charge_rows f d))). pose proof (abs_cents_nonneg (map pay_amount (payment_rows f d))).
  assert (Hget : found_folio (fo_id f) (fo_hotel_id f) d = Some (f, s, stay_room_number s d)).
  { unfold found_folio. rewrite (found_in_hotel d f Hs Hf). cbn. rewrite Est. cbn. now destruct (fs_guests d Hs f Hf) as [g ->]. }
  unfold GetFolio, path_folio, failing. rewrite Eid, Eh.
  eapply runs_bind with (Q1 := fun i d' => i = fo_id f /\ d' = d); [now apply runs_ret | intros; inert_go|]. intros i d1 [-> ->].
  eapply runs_bind with (Q1 := fun v d' => v = (f, s, stay_room_number s d) /\ d' = d); [apply runs_on_err, runs_query_row; rewrite Hget; auto | intros; inert_go|].
  intros v d1 [-> ->]. cbn beta iota.
  eapply runs_bind with (Q1 := fun v d' => v = map scan_charge (charges_of (fo_id f) d) /\ d' = d); [apply runs_on_err, runs_query; auto | intros; inert_go|]. intros cs d1 [-> ->].
  eapply runs_bind with (Q1 := fun v d' => v = is_canonical f d /\ d' = d); [apply runs_on_err, runs_query; auto | intros; inert_go|]. intros b d1 [-> ->].
  eapply runs_bind; [apply runs_on_err, runs_query with (Q := fun v d' => v = map scan_paymentItem (rev (select (fun p => oueq (pay_guest_stay_id p) (fo_booking_id f)
     && ueq (pay_hotel_id p) (fo_hotel_id f)) (payments d))) /\ d' = d); auto | intros; inert_go|]. intros ps d1 [-> ->].
  apply runs_ret. split; [reflexivity|]. eexists. split; [reflexivity|]. split; [reflexivity|]. cbn.
  rewrite (detail_charges ch_Amount (fun c => num_dec (fc_amount c))) by reflexivity.
  rewrite (detail_charges ch_TaxAmount (fun c => num_dec (fc_tax_amount c))) by reflexivity.
  rewrite (detail_payments d f (fo_hotel_id f) Hown Hf eq_refl).
  pose proof (ordered_total fc_amount d f ltac:(lia) Lc) as Ha. pose proof (ordered_total fc_tax_amount d f ltac:(lia) Lc) as Ht.
  fold (charged_net f d) in Ha. fold (charged_tax f d) in Ht.
  assert (Hp : near 3 (total_of (map num_dec (if is_canonical f d then rev (map pay_amount (payment_rows f d)) else []))) (attributed f d)).
  { rewrite attributed_parts. destruct (is_canonical f d); [|apply (near_weaken 0); [apply zero_near | lia]].
    pose proof (Permutation_rev (map pay_amount (payment_rows f d))) as HP. rewrite (sum_cents_perm _ _ HP).
    apply decoded_total; [rewrite <- (abs_cents_perm _ _ HP); lia|]. rewrite List.length_rev, List.length_map. exact Lp. }
  unfold SUMC, MAXC in *.
  split; [apply (round2_near 3); [exact Ha | lia | unfold MAXC; lia]|]. split; [apply (round2_near 3); [exact Ht | lia | unfold MAXC; lia]|].
  split; [apply (round2_near 3); [exact Hp | lia | unfold MAXC; lia]|].
  apply (round2_near 11); [|lia | unfold MAXC; lia]. unfold folio_balance. rewrite charged_parts.
  apply (fsub_near 7 3); [|exact Hp | | lia].
  - apply (fadd_near 3 3); [exact Ha | exact Ht | unfold MAXC; lia | lia].
  - unfold folio_balance in Bb. rewrite charged_parts in Bb. unfold MAXC; lia.
Qed.
End Views.

(** ** Payments *)

Section Payments.
Context {env : Env} {laws : EnvLaws env} {jwt : Jwt} (secret : string).

(** Nothing but the audit log. *)
Definition but_audit (d d' : DB) : Prop := exists al, d' = d <| audit_logs := al |>.
Lemma desk_audit_ens {E} u a t i d (R : E -> DB -> Prop) : ensures (desk_audit u a t i) d (fun _ => but_audit d) R.
Proof.
  unfold desk_audit. apply ens_then_uuid. intros n. eapply ens_bind with (Q1 := fun _ => but_audit d).
  - apply ens_attempt, ens_exec; [exists (audit_logs d); destruct d; reflexivity | eexists; reflexivity].
  - intros _ d' H. now apply ens_ret.
Qed.
Lemma desk_audit_runs {E} u a t i d Q (R : E -> Prop) : (forall al, Q tt (d <| audit_logs := al |>)) -> runs Pool (desk_audit u a t i) d Q R.
Proof.
  intros H. unfold desk_audit. apply runs_uuid; [intros; inert_go|]. intros n.
  apply runs_then_attempt_exec; [intros; inert_go|]. apply runs_ret. apply H.
Qed.
Lemma desk_audit_inert {E} u a t i : inert Pool (desk_audit u a t i : M E unit).
Proof. unfold desk_audit. inert_go. Qed.
Lemma desk_number_inert {E} p : inert Pool (desk_number p : M E string).
Proof. unfold desk_number. inert_go. Qed.
Lemma post_folio_payment_inert {E} h m n a : inert Pool (post_folio_payment h m n a : M E _).
Proof. unfold post_folio_payment, postRoomRevenue. inert_go. Qed.
Hint Resolve desk_audit_inert desk_number_inert post_folio_payment_inert : keeps.

(** The tables a cashier reads are not the ledger's. *)
Definition desk_same (d d' : DB) : Prop :=
  folios d' = folios d /\ folio_charges d' = folio_charges d /\ payments d' = payments d /\ folio_invoices d' = folio_invoices d.
Lemma desk_same_ledger d d1 d2 : ledger_only d1 d2 -> desk_same d d1 -> desk_same d d2.
Proof. intros (? & ? & ? & ? & ->) H. exact H. Qed.
Lemma post_payment_ens {E} h m n a d (R : E -> DB -> Prop) : ensures (post_folio_payment h m n a) d (fun _ => desk_same d) R.
Proof.
  unfold post_folio_payment. eapply ens_bind with (Q1 := fun _ => desk_same d).
  - apply ens_attempt, (ens_keeps (desk_same d)); [apply keeps_postJournal, desk_same_ledger | unfold postRoomRevenue; inert_go | repeat split].
  - intros r d' H. now apply ens_ret.
Qed.

Definition desk_payment (h stay id : uuid) (number method : string) (k : Z) (notes : option string) : PaymentRow :=
  {| pay_id := id; pay_hotel_id := h; pay_number := number; pay_guest_stay_id := Some stay; pay_amount := k;
     pay_method := method; pay_status := "completed"; pay_upi_id := None; pay_transaction_ref := None;
     pay_card_last4 := None; pay_auth_code := None; pay_cash_received := None; pay_change_given := None;
     pay_processed_by := None; pay_notes := notes; pay_category := None |}.

(** What a recorded payment leaves on the page: one completed payment, and the
    folio that counts the booking's payments owes that much less. *)
Definition payment_recorded (h folioID : uuid) (k : Z) (d d' : DB) : Prop :=
  folios d' = folios d /\ folio_charges d' = folio_charges d /\ folio_invoices d' = folio_invoices d
  /\ exists f id number method notes, In f (folios d) /\ fo_id f = folioID /\ fo_hotel_id f = h
     /\ payments d' = insert_row (desk_payment h (fo_booking_id f) id number method k notes) (payments d)
     /\ forall f', folio_balance f' d' = folio_balance f' d - (if ueq (fo_booking_id f') (fo_booking_id f) && is_canonical f' d then k else 0).

Lemma recorded_intro h fid f id number method k notes d d' :
  find_row (fun f => folio_by_id fid f && ueq (fo_hotel_id f) h) (folios d) = Some f ->
  desk_same (d <| payments := insert_row (desk_payment h (fo_booking_id f) id number method k notes) (payments d) |>) d' ->
  payment_recorded h fid k d d'.
Proof.
  intros Hf (Ef & Ec & Ep & Ei). cbn in *. apply find_row_some in Hf as [Hin Hk]. apply andb_true_iff in Hk as [Hi%N.eqb_eq Hh%N.eqb_eq].
  repeat (split; [assumption|]). exists f, id, number, method, notes. repeat (split; [assumption|]).
  intros f'. unfold folio_balance, folio_charged, attributed, is_canonical, canonical_folio. rewrite Ef, Ec, Ep, sum_rows_insert.
  destruct (oueq _ (fo_id f')); [|rewrite andb_false_r; lia]. rewrite andb_true_r.
  unfold paid_on at 2. cbn. rewrite andb_true_r. unfold ueq. rewrite (N.eqb_sym (fo_booking_id f)).
  destruct (N.eqb (fo_booking_id f') (fo_booking_id f)); lia.
Qed.

(** Whatever fails, a payment is refused leaving no trace or recorded once. *)
Lemma RecordPayment_ens c body d :
  ensures (RecordPayment c body) d
    (fun r d' => exists req id number fid f method notes journal, body = Some req /\ uuid_parse (c_params c "id") = Some fid
       /\ find_row (fun f => folio_by_id fid f && ueq (fo_hotel_id f) (tenantHotelID c)) (folios d) = Some f
       /\ r = RespCreated (FB_paid id number fid (fo_booking_id f) (rp_Amount req) method notes journal)
       /\ payment_recorded (tenantHotelID c) fid (num_enc (rp_Amount req)) d d')
    (fun r d' => d' = d /\ exists s m, r = RespError s m).
Proof.
  unfold RecordPayment, path_folio, body_of, failing, failing_text.
  apply ens_then_option; [eauto|]. intros fid Efid. apply ens_then_option; [eauto|]. intros req Ereq.
  apply ens_then_throw_if; [eauto|]. intros _. cbv zeta. apply ens_then_row; [eauto|]. intros stay Hstay.
  destruct (find_row _ (folios d)) as [f|] eqn:Ef; cbn in Hstay; [|discriminate]. injection Hstay as <-.
  apply ens_then_uuid. intros n. unfold desk_number.
  eapply ens_bind with (Q1 := fun _ d' => d' = d); [apply ens_then_now; intros t1; apply ens_then_now; intros t2; now apply ens_ret|].
  intros number d1 ->. eapply ens_bind with (Q1 := fun _ d' => d' = d <| payments ::= insert_row
     (desk_payment (tenantHotelID c) (fo_booking_id f) (uuid_new n) number
       (if ToLower (TrimSpace (rp_PaymentMethod req)) =s "" then "cash" else ToLower (TrimSpace (rp_PaymentMethod req)))
       (num_enc (rp_Amount req)) (nullableBillingText (rp_Notes req))) |>).
  { apply ens_on_err, ens_exec; [eauto|]. unfold insert_payment. destruct (negb _); [eauto|]. destruct (exists_row _ _); [eauto|]. reflexivity. }
  intros _ d1 ->. eapply ens_bind; [apply desk_audit_ens|]. intros _ d1 [al ->].
  eapply ens_bind; [apply post_payment_ens|]. intros j d1 Hd1. apply ens_ret.
  exists req. do 7 eexists. split; [exact Ereq|]. split; [exact Efid|]. split; [exact Ef|]. split; [reflexivity|].
  eapply recorded_intro; [exact Ef|]. exact Hd1.
Qed.

(** With no statement failing, it is booked too. *)
Lemma RecordPayment_runs c req fid f k d : vouchers_ok d -> 0 < k <= MAXC -> rp_Amount req = cents k ->
  uuid_parse (c_params c "id") = Some fid -> find_row (fun f => folio_by_id fid f && ueq (fo_hotel_id f) (tenantHotelID c)) (folios d) = Some f ->
  runs Pool (RecordPayment c (Some req)) d
    (fun r d' => exists id number method notes entry nl, r = RespCreated (FB_paid id number fid (fo_booking_id f) (rp_Amount req) method notes (Some entry))
       /\ posted (d <| payments ::= insert_row (desk_payment (tenantHotelID c) (fo_booking_id f) id number method k notes) |>
                    <| audit_logs := audit_logs d' |>) d' (tenantHotelID c) entry
            ("Room folio payment " ++ number) ("PAY " ++ number) "PAY" nl
       /\ in_balance nl /\ total_debit nl = k)
    (fun r => r = RespError 400 (driver_text "23505") /\ payments d <> []).
Proof.
  intros Hv Hk Ek Efid Ef. unfold RecordPayment, path_folio, body_of, failing, failing_text. rewrite Efid.
  eapply runs_bind with (Q1 := fun i d' => i = fid /\ d' = d); [now apply runs_ret | intros; inert_go|]. intros i d1 [-> ->].
  eapply runs_bind with (Q1 := fun i d' => i = req /\ d' = d); [now apply runs_ret | intros; inert_go|]. intros i d1 [-> ->].
  assert (Hpos : fle (rp_Amount req) 0 = false).
  { rewrite Ek, <- cents_0, fle_cents by (unfold MAXC in *; lia). apply Z.leb_gt. lia. }
  rewrite Hpos. cbn [throw_if].
  eapply runs_bind with (Q1 := fun _ d' => d' = d); [now apply runs_ret | intros; inert_go|]. intros _ d1 ->.
  cbv zeta. eapply runs_bind with (Q1 := fun v d' => v = fo_booking_id f /\ d' = d);
    [apply runs_on_err, runs_query_row; rewrite Ef; cbn; auto | intros; inert_go|]. intros i d1 [-> ->].
  apply runs_uuid; [intros; inert_go|]. intros n.
  eapply runs_bind with (Q1 := fun _ d' => d' = d); [unfold desk_number; apply runs_now; [intros; inert_go|]; intros; apply runs_now; [intros; inert_go|]; intros; now apply runs_ret | intros; inert_go|].
  intros number d1 ->. set (method := if _ =s "" then "cash" else _). set (notes := nullableBillingText _).
  eapply runs_bind with (Q1 := fun _ d' => d' = d <| payments ::= insert_row (desk_payment (tenantHotelID c) (fo_booking_id f) (uuid_new n) number method k notes) |>);
    [|intros; inert_go|].
  { apply runs_on_err, runs_exec. unfold insert_payment. cbn [payment_row_ok pay_card_last4 negb].
    destruct (exists_row _ _) eqn:E; [split; [reflexivity | intros E0; rewrite E0 in E; discriminate]|].
    rewrite Ek, num_enc_cents by (unfold MAXC in *; lia). reflexivity. }
  intros _ d1 ->. eapply runs_bind with (Q1 := fun _ d' => exists al, d' = d <| payments ::= insert_row (desk_payment (tenantHotelID c) (fo_booking_id f) (uuid_new n) number method k notes) |> <| audit_logs := al |>);
    [apply desk_audit_runs; eauto | intros; inert_go|].
  intros _ d1 [al ->]. unfold post_folio_payment, postRoomRevenue.
  assert (Hcash : chart_code (cashAccount method) = true) by (unfold cashAccount; repeat case_match; reflexivity).
  assert (Hz : round2 0 = cents 0) by (rewrite <- cents_0 at 1; apply round2_cents; unfold MAXC; lia).
  assert (Hrev : round2 (fsub (rp_Amount req) 0) = cents (k - 0)) by (rewrite Ek, <- cents_0; apply round2_sub; unfold MAXC in *; lia).
  rewrite Hz, Hrev, Ek, round2_cents by (unfold MAXC in *; lia).
  eapply runs_bind; [eapply runs_bind; [apply runs_attempt_ok, (postJournal_whole Pool) with (ks := [(k, 0); (0, k - 0); (0, 0)]) (T := k) | intros; inert_go |] | intros; inert_go |].
  - destruct Hv; split; assumption.
  - unfold MAXC in *. repeat (first [apply Forall2_cons_2 | apply Forall2_nil_2]); first [apply in_paise_dr | apply in_paise_cr]; first [assumption | reflexivity | unfold MAXC; lia].
  - unfold sumZ; cbn [map foldr fst snd]; lia.
  - unfold sumZ; cbn [map foldr fst snd]; lia.
  - intros r d1 (e & -> & (nl & Hp & Hbal & Htot & _) & Hdrawn). apply runs_ret.
    instantiate (1 := fun j d1 => exists e nl, j = Some e /\
      posted (d <| payments ::= insert_row (desk_payment (tenantHotelID c) (fo_booking_id f) (uuid_new n) number method k notes) |> <| audit_logs := al |>)
        d1 (tenantHotelID c) e ("Room folio payment " ++ number) ("PAY " ++ number) (voucherTypeFor ("PAY " ++ number)) nl /\ in_balance nl /\ total_debit nl = k).
    destruct Hdrawn as [m ->]. exists (uuid_new m), nl. unfold ueq. rewrite (proj2 (N.eqb_neq _ _) (uuid_new_not_nil m)). auto.
  - intros j d1 (e & nl & -> & Hp & Hbal & Htot). apply runs_ret.
    assert (Ea : audit_logs d1 = al) by (destruct Hp as [(? & ? & ? & ? & ->) _ _ _]; reflexivity).
    assert (Ev : voucherTypeFor ("PAY " ++ number) = "PAY") by (destruct number; reflexivity). rewrite Ev in Hp.
    do 6 eexists. split; [reflexivity|]. rewrite Ea. eauto.
Qed.
End Payments.

(** ** Invoices *)

Section Invoices.
Context {env : Env} {laws : EnvLaws env} {jwt : Jwt} (secret : string).
Hint Resolve desk_audit_inert desk_number_inert : keeps.

Lemma line_totals (g : invLine -> Q) (k : FolioChargeRow -> Z) d f : (forall c, g (invoice_line c) = num_dec (k c)) ->
  abs_cents (map k (charge_rows f d)) <= SUMC -> Z.of_nat (length (charge_rows f d)) <= 10000 ->
  near 3 (total_of (map g (map invoice_line (charges_of (fo_id f) d)))) (sum_cents (map k (charge_rows f d))).
Proof.
  intros Hg H1 H2. rewrite List.map_map. erewrite List.map_ext by (intros c; apply Hg). now apply ordered_total.
Qed.

(** The draft states what the folio has been charged, to the paisa. *)
Definition drafted (h : uuid) (f : FolioRow) (id : uuid) (number : string) (notes : option string) (now : Time) (d : DB) : FolioInvoiceRow :=
  {| fi_id := id; fi_hotel_id := h; fi_folio_id := fo_id f; fi_number := number; fi_status := "draft";
     fi_subtotal := charged_net f d; fi_tax_total := charged_tax f d; fi_total := folio_charged (fo_id f) d;
     fi_currency := fo_currency f; fi_notes := notes; fi_created_at := now; fi_updated_at := now; fi_sent_at := None; fi_paid_at := None |}.

Lemma GenerateInvoice_runs c req f d : folios_sound d -> measured d f -> In f (folios d) -> tenantHotelID c = fo_hotel_id f ->
  uuid_parse (TrimSpace (gi_FolioID req)) = Some (fo_id f) ->
  runs Pool (GenerateInvoice c (Some req)) d
    (fun r d' => exists id number lines now sub tax total,
       r = RespCreated (FB_drafted id (fo_id f) number sub tax total (fo_currency f) lines (nullableBillingText (gi_Notes req)))
       /\ round2 total = cents (folio_charged (fo_id f) d)
       /\ folio_invoices d' = insert_row (drafted (tenantHotelID c) f id number (nullableBillingText (gi_Notes req)) now d) (folio_invoices d)
       /\ folios d' = folios d /\ folio_charges d' = folio_charges d /\ payments d' = payments d)
    (fun r => r = RespError 400 (driver_text "23505") /\ folio_invoices d <> []).
Proof.
  intros Hs Hm Hf Eh Eid. destruct (measured_bounds d f Hm) as (Bn & Bt & Ba & Bc & Bb). destruct Hm as [Lc Lp HS].
  pose proof (abs_cents_nonneg (map fc_amount (charge_rows f d))). pose proof (abs_cents_nonneg (map fc_tax_amount (charge_rows f d))).
  pose proof (abs_cents_nonneg (map pay_amount (payment_rows f d))).
  unfold GenerateInvoice, ensureInvoiceSchema, body_of, failing, failing_text. rewrite Eh.
  eapply runs_bind with (Q1 := fun _ d' => d' = d); [apply runs_on_err, runs_exec; reflexivity | intros; inert_go|]. intros _ d1 ->.
  eapply runs_bind with (Q1 := fun i d' => i = req /\ d' = d); [now apply runs_ret | intros; inert_go|]. intros i d1 [-> ->]. rewrite Eid.
  eapply runs_bind with (Q1 := fun i d' => i = fo_id f /\ d' = d); [now apply runs_ret | intros; inert_go|]. intros i d1 [-> ->].
  destruct (fs_guests d Hs f Hf) as [g Hg].
  eapply runs_bind with (Q1 := fun v d' => v = (fo_currency f, g) /\ d' = d).
  { apply runs_on_err, runs_query_row. rewrite (found_in_hotel d f Hs Hf). cbn. rewrite Hg. cbn. auto. }
  { intros; inert_go. }
  intros v d1 [-> ->]. cbn beta iota.
  eapply runs_bind with (Q1 := fun v d' => v = map invoice_line (charges_of (fo_id f) d) /\ d' = d); [apply runs_on_err, runs_query; auto | intros; inert_go|].
  intros lines d1 [-> ->]. cbv zeta.
  pose proof (line_totals vl_Amount fc_amount d f ltac:(reflexivity) ltac:(lia) Lc) as Ha.
  pose proof (line_totals vl_TaxAmount fc_tax_amount d f ltac:(reflexivity) ltac:(lia) Lc) as Ht.
  fold (charged_net f d) in Ha. fold (charged_tax f d) in Ht.
  set (sub := total_of (map vl_Amount _)) in *. set (tax := total_of (map vl_TaxAmount _)) in *.
  assert (Hsum : near 7 (fadd sub tax) (folio_charged (fo_id f) d)).
  { rewrite charged_parts in *. apply (fadd_near 3 3); [exact Ha | exact Ht | unfold MAXC, SUMC in *; lia | lia]. }
  apply runs_uuid; [intros; inert_go|]. intros n.
  eapply runs_bind with (Q1 := fun _ d' => d' = d); [unfold desk_number; apply runs_now; [intros; inert_go|]; intros; apply runs_now; [intros; inert_go|]; intros; now apply runs_ret | intros; inert_go|].
  intros number d1 ->. apply runs_now; [intros; inert_go|]. intros now.
  rewrite (stored_near _ _ _ Ha) by (unfold SUMC in *; lia). rewrite (stored_near _ _ _ Ht) by (unfold SUMC in *; lia).
  rewrite (stored_near _ _ _ Hsum) by (unfold SUMC in *; lia).
  eapply runs_bind with (Q1 := fun _ d' => d' = d <| folio_invoices ::= insert_row (drafted (fo_hotel_id f) f (uuid_new n) number (nullableBillingText (gi_Notes req)) now d) |>);
    [|intros; inert_go|].
  { apply runs_on_err, runs_exec. unfold insert_folio_invoice, money_fits. cbn [fi_subtotal fi_tax_total fi_total fi_folio_id fi_id fi_hotel_id fi_number].
    unfold SUMC in *. rewrite !(proj2 (Z.ltb_lt _ _)) by lia. cbn [andb negb].
    replace (exists_row (folio_by_id (fo_id f)) (folios d)) with true
      by (symmetry; apply exists_row_true; exists f; split; [exact Hf | apply N.eqb_refl]).
    cbn [negb]. destruct (exists_row _ _) eqn:E; [|reflexivity]. split; [reflexivity|]. intros E0. rewrite E0 in E. discriminate. }
  intros _ d1 ->. eapply runs_bind; [apply desk_audit_runs with (Q := fun _ d' => exists al, d' = (d <| folio_invoices ::= insert_row (drafted (fo_hotel_id f) f (uuid_new n) number (nullableBillingText (gi_Notes req)) now d) |>) <| audit_logs := al |>); eauto | intros; inert_go|].
  intros _ d1 [al ->]. apply runs_ret. do 7 eexists. split; [reflexivity|]. split; [|repeat split].
  apply (round2_near 7); [exact Hsum | lia | unfold MAXC, SUMC in *; lia].
Qed.
End Invoices.

(** ** What requests may do to what is on file *)

(** An invoice is only ever marked as sent. *)
Definition invoice_after (i j : FolioInvoiceRow) : Prop :=
  j = i \/ exists t, j = i <| fi_status := "sent" |> <| fi_sent_at := Some t |> <| fi_updated_at := t |>.
Definition unpaid_invoice (i : FolioInvoiceRow) : Prop := (fi_status i = "draft" \/ fi_status i = "sent") /\ fi_paid_at i = None.
Definition invoice_numbers (d : DB) : list (uuid * string) := map (fun i => (fi_hotel_id i, fi_number i)) (folio_invoices d).

(** d' is d with folios, charges, payments and invoices added, and invoices sent. *)
Record desk_history (d d' : DB) : Prop := {
  dh_folios : exists new, folios d' = (folios d ++ new)%list /\ Forall (fun f => fo_status f = "open" /\ is_Some (fo_guest_id f)) new;
  dh_charges : exists new, folio_charges d' = (folio_charges d ++ new)%list;
  dh_payments : exists new, payments d' = (payments d ++ new)%list /\ Forall (fun p => pay_status p = "completed") new;
  dh_invoices : exists old new, folio_invoices d' = (old ++ new)%list /\ Forall2 invoice_after (folio_invoices d) old
                  /\ Forall unpaid_invoice new;
  dh_numbers : NoDup (invoice_numbers d) -> NoDup (invoice_numbers d') }.

Lemma invoice_after_refl i : invoice_after i i.
Proof. now left. Qed.
Lemma invoice_after_trans i j k : invoice_after i j -> invoice_after j k -> invoice_after i k.
Proof. intros [-> |[t ->]] [-> |[u ->]]; unfold invoice_after; eauto. Qed.
Lemma invoice_after_unpaid i j : invoice_after i j -> unpaid_invoice i -> unpaid_invoice j.
Proof. intros [-> |[t ->]] [H1 H2]; [split; assumption | split; [now right | exact H2]]. Qed.
Lemma invoices_after_refl l : Forall2 invoice_after l l.
Proof. induction l; constructor; auto using invoice_after_refl. Qed.
Lemma Forall2_app_split {A B} (P : A -> B -> Prop) l1 l2 r : Forall2 P (l1 ++ l2) r -> exists r1 r2, r = (r1 ++ r2)%list /\ Forall2 P l1 r1 /\ Forall2 P l2 r2.
Proof. intros H. apply Forall2_app_inv_l in H as (r1 & r2 & H1 & H2 & ->). eauto. Qed.

Lemma desk_history_refl d : desk_history d d.
Proof.
  split; [exists []; rewrite app_nil_r; auto | exists []; now rewrite app_nil_r | exists []; rewrite app_nil_r; auto | | auto].
  exists (folio_invoices d), []. rewrite app_nil_r. split; [reflexivity|]. split; [apply invoices_after_refl | constructor].
Qed.
Lemma desk_history_trans d1 d2 d3 : desk_history d1 d2 -> desk_history d2 d3 -> desk_history d1 d3.
Proof.
  intros [(f1 & Ef1 & Hf1) (c1 & Ec1) (p1 & Ep1 & Hp1) (o1 & n1 & Ei1 & Ho1 & Hn1) U1]
         [(f2 & Ef2 & Hf2) (c2 & Ec2) (p2 & Ep2 & Hp2) (o2 & n2 & Ei2 & Ho2 & Hn2) U2]. split.
  - exists (f1 ++ f2)%list. rewrite Ef2, Ef1, app_assoc. split; [reflexivity | now apply Forall_app].
  - exists (c1 ++ c2)%list. now rewrite Ec2, Ec1, app_assoc.
  - exists (p1 ++ p2)%list. rewrite Ep2, Ep1, app_assoc. split; [reflexivity | now apply Forall_app].
  - rewrite Ei1 in Ho2. apply Forall2_app_split in Ho2 as (a & b & -> & Ha & Hb).
    exists a, (b ++ n2)%list. rewrite Ei2, app_assoc. split; [reflexivity|]. split.
    + clear -Ho1 Ha. revert a Ha. induction Ho1; intros a0 Ha; inversion Ha; subst; constructor; eauto using invoice_after_trans.
    + apply Forall_app. split; [|exact Hn2]. revert Hn1. clear -Hb. induction Hb; intros H0; [constructor|].
      inversion H0; subst. constructor; eauto using invoice_after_unpaid.
  - auto.
Qed.
Lemma desk_history_same d d' : desk_same d d' -> desk_history d d'.
Proof.
  intros (E1 & E2 & E3 & E4). destruct (desk_history_refl d) as [H1 H2 H3 H4 H5].
  split; unfold invoice_numbers in *; rewrite ?E1, ?E2, ?E3, ?E4; assumption.
Qed.

Lemma new_number d row : exists_row (fun i => ueq (fi_id i) (fi_id row) || (ueq (fi_hotel_id i) (fi_hotel_id row) && (fi_number i =s fi_number row)))
    (folio_invoices d) = false -> NoDup (invoice_numbers d) -> NoDup (map (fun i => (fi_hotel_id i, fi_number i)) (insert_row row (folio_invoices d))).
Proof.
  intros Hx Hn. unfold insert_row. rewrite List.map_app. apply list.NoDup_app. split; [exact Hn|]. split; [|cbn; apply list.NoDup_singleton].
  intros k Hk Hk'. apply list_elem_of_In in Hk, Hk'. destruct Hk' as [<-|[]]. apply List.in_map_iff in Hk as (i & E & Hi). injection E as Eh En.
  pose proof (proj1 (exists_row_false _ _) Hx i Hi) as H. unfold ueq in H. rewrite Eh, En, N.eqb_refl, String.eqb_refl, orb_true_r in H. discriminate.
Qed.

Section History.
Context {env : Env} {jwt : Jwt} (secret : string) (d0 : DB).
Abbreviation kept := (desk_history d0).

Lemma kept_exec {A} c (f : DB -> GoErr + (A * DB)) : (forall d a d', f d = inr (a, d') -> desk_history d d') -> keeps kept (exec c f).
Proof. intros H. apply keeps_exec. intros d a d' Hd E. exact (desk_history_trans _ _ _ Hd (H d a d' E)). Qed.

Lemma history_folio row d u d' : fo_status row = "open" -> insert_folio row d = inr (u, d') -> desk_history d d'.
Proof.
  intros Ho. destruct (fo_guest_id row) eqn:Eg; [|unfold insert_folio; rewrite Eg; discriminate].
  intros ->%insert_folio_inr. destruct (desk_history_refl d) as [_ H2 H3 H4 H5]. split; try assumption.
  exists [row]. split; [reflexivity|]. repeat constructor; [exact Ho | rewrite Eg; eauto].
Qed.
Lemma history_charge row d u d' : insert_charge row d = inr (u, d') -> desk_history d d'.
Proof.
  unfold insert_charge. repeat (case_match; try discriminate). intros [= _ <-]. destruct (desk_history_refl d) as [K1 _ K3 K4 K5].
  split; try assumption. eexists. reflexivity.
Qed.
Lemma history_payment row d u d' : pay_status row = "completed" -> insert_payment row d = inr (u, d') -> desk_history d d'.
Proof.
  intros Hp. unfold insert_payment. repeat (case_match; try discriminate). intros [= _ <-]. destruct (desk_history_refl d) as [K1 K2 _ K4 K5].
  split; try assumption. exists [row]. split; [reflexivity | repeat constructor; exact Hp].
Qed.
Lemma history_invoice row d u d' : unpaid_invoice row -> insert_folio_invoice row d = inr (u, d') -> desk_history d d'.
Proof.
  intros Hu. unfold insert_folio_invoice. do 2 (case_match; [discriminate|]). destruct (exists_row _ (folio_invoices d)) eqn:E; [discriminate|].
  intros [= _ <-]. destruct (desk_history_refl d) as [K1 K2 K3 _ _]. split; try assumption.
  - exists (folio_invoices d), [row]. split; [reflexivity|]. split; [apply invoices_after_refl | constructor; [exact Hu | constructor]].
  - exact (new_number d row E).
Qed.
Lemma history_sent id t d : desk_history d (d <| folio_invoices ::= update_rows (fun i => ueq (fi_id i) id) (mark_sent t) |>).
Proof.
  destruct (desk_history_refl d) as [K1 K2 K3 _ _]. split; try assumption.
  - exists (update_rows (fun i => ueq (fi_id i) id) (mark_sent t) (folio_invoices d)), []. rewrite app_nil_r. split; [reflexivity|].
    split; [|constructor]. unfold update_rows. induction (folio_invoices d) as [|i l IH]; [constructor|]. cbn. constructor; [|exact IH].
    destruct (ueq _ _); [right; exists t; reflexivity | now left].
  - unfold invoice_numbers, update_rows; cbn. rewrite List.map_map. intros H. erewrite List.map_ext; [exact H|].
    intros i. cbn. now destruct (ueq (fi_id i) id).
Qed.

Ltac desk_go :=
  repeat first [ keeps_step
    | apply keeps_postJournal; intros ? ? Hl Hk; eapply desk_history_trans; [exact Hk | apply desk_history_same, (desk_same_ledger _ _ _ Hl); repeat split]
    | apply kept_exec; intros ? ? ?;
      first [ apply history_folio; reflexivity | apply history_charge | apply history_payment; reflexivity
            | apply history_invoice; split; [left; reflexivity | reflexivity]
            | intros [= _ <-]; first [apply history_sent | apply desk_history_same; repeat split] ] ].

Lemma keeps_folio_handle rq : keeps kept (folio_handle secret rq).
Proof.
  unfold folio_handle. destruct (authGate secret (fq_ctx rq)) as [[s m]|c]; [keeps_go|].
  destruct (fq_op rq); cbn [folio_route];
    unfold ListAllCharges, ListFolios, GetFolio, CreateFolio, AddCharge, RecordPayment, ListInvoices, GenerateInvoice, GetInvoice,
      EmailInvoice, TransactionHistory, ensureInvoiceSchema, path_folio, path_invoice, body_of, failing, failing_text, desk_audit,
      desk_number, post_folio_payment, postRoomRevenue; cbv zeta; desk_go.
Qed.
Lemma folio_serve_history rqs w : w_tx w = NoTx -> kept (w_db w) ->
  kept (w_db (folio_serve_all secret rqs w)) /\ w_tx (folio_serve_all secret rqs w) = NoTx.
Proof.
  unfold folio_serve_all. revert w. induction rqs as [|rq rqs IH]; intros w Ht Hw; [auto|]. cbn. apply IH.
  - unfold serve. destruct (folio_handle secret rq w) as [[|] ?]; reflexivity.
  - apply keeps_serve; [apply keeps_folio_handle | split; [exact Hw | rewrite Ht; exact I]].
Qed.
End History.

(** ** Claims *)

(** C33: as long as the bookings of a hotel's folios were paid to that hotel alone,
    then for every folio its page lists, the detail shows the same amount paid and
    the same balance to the paisa, which is what was charged less the completed
    payments of the booking; and of all the folios of a booking exactly one, the
    first, counts them.  Folios have distinct ids and a guest, and no more than ten
    thousand charges and payments, of ten crore rupees in all; a page is served or
    a statement failed.  The condition is needed: the list adds up the payments of
    every hotel and the detail those of its own ([folio_views_differ]). *)
Theorem folio_views_agree (env : Env) (laws : EnvLaws env) (jwt : Jwt) secret c d
  (Hs : folios_sound d) (Hown : own_payments (hotelID secret c) d) (Hm : forall f, In f (folios d) -> measured d f) :
  runs Pool (ListFolios secret c) d (fun r d1 => d1 = d /\ exists items, r = RespOK (FB_folios items)
    /\ Forall (fun it => exists f, In f (folios d) /\ fo_id f = fv_ID it /\ fo_hotel_id f = hotelID secret c
         /\ round2 (fv_Balance it) = cents (folio_balance f d)
         /\ forall c', hotelID secret c' = hotelID secret c -> uuid_parse (c_params c' "id") = Some (fo_id f) ->
            runs Pool (GetFolio secret c') d (fun r' d2 => d2 = d /\ exists v, r' = RespOK (FB_folio v) /\ fd_folio v = f
               /\ round2 (fd_total_paid v) = round2 (fv_TotalPaid it) /\ round2 (fd_balance v) = round2 (fv_Balance it)) (fun _ => False))
         items) (fun _ => False)
  /\ forall b, sum_rows (fun f => ueq (fo_booking_id f) b) (fun f => attributed f d) (folios d)
       = if exists_row (fun f => ueq (fo_booking_id f) b) (folios d) then sum_rows (paid_on b) pay_amount (payments d) else 0.
Proof.
  split; [|intros b; apply counted_once, Hs].
  unfold ListFolios, failing. eapply runs_bind with (Q1 := fun rows d' => rows = folio_rows (hotelID secret c) (c_query c "status") (c_query c "search") d /\ d' = d);
    [apply runs_on_err, runs_query; auto | intros; inert_go|].
  intros rows d1 [-> ->]. set (rows := folio_rows _ _ _ d).
  assert (Hrows : forall o, In o rows -> exists f s, In f (folios d) /\ fo_hotel_id f = hotelID secret c /\ stay_of f d = Some s /\ o = scan_folio d f s)
    by (intros o; apply folio_rows_in).
  destruct (scanned_rows rows) as (items & E & Hitems).
  { apply List.Forall_forall. intros o Ho. destruct (Hrows o Ho) as (f & s & Hf & _ & _ & ->). unfold scan_folio.
    destruct (fs_guests d Hs f Hf) as [g ->]. eauto. }
  rewrite E. eapply runs_bind with (Q1 := fun i d' => i = items /\ d' = d); [now apply runs_ret | intros; inert_go|]. intros i d1 [-> ->].
  apply runs_ret. split; [reflexivity|]. eexists. split; [reflexivity|].
  clear E. apply List.Forall_forall. intros it Hit. assert (Hr : In (Some it) rows).
  { clear -Hitems Hit. induction Hitems as [|o it' ? ? ->]; [contradiction|]. destruct Hit as [->|Hit]; [now left | right; auto]. }
  destruct (Hrows _ Hr) as (f & s & Hf & Hh & Est & Esc). destruct (list_balance d f s it (Hm f Hf) (eq_sym Esc)) as (Hid & Hb & Hp).
  exists f. split; [exact Hf|]. split; [congruence|]. split; [exact Hh|]. split; [exact Hb|]. intros c' Hc' Hid'.
  eapply runs_post; [apply (GetFolio_runs secret d f s c' Hs ltac:(rewrite Hh; exact Hown) (Hm f Hf) Hf Est); congruence|].
  intros r' d2 (-> & v & -> & Hv & _ & _ & Hvp & Hvb). split; [reflexivity|]. exists v. rewrite Hb, Hp. auto.
Qed.

(** C34: whatever fails, a payment taken on a folio is either refused, leaving no
    trace, or recorded as exactly one completed payment, after which the balance of
    the booking's first folio, and of no other, is lower by that amount; with no
    statement failing it is also booked, as one balanced entry of the amount. *)
Theorem payment_settles_folio (env : Env) (laws : EnvLaws env) (jwt : Jwt) c req fid f k d
  (Hv : vouchers_ok d) (Hk : 0 < k <= MAXC) (Ek : rp_Amount req = cents k) (Hid : uuid_parse (c_params c "id") = Some fid)
  (Hf : find_row (fun f => folio_by_id fid f && ueq (fo_hotel_id f) (tenantHotelID c)) (folios d) = Some f) :
  ensures (RecordPayment c (Some req)) d
    (fun r d' => (exists id number method notes journal, r = RespCreated (FB_paid id number fid (fo_booking_id f) (cents k) method notes journal))
       /\ payment_recorded (tenantHotelID c) fid k d d')
    (fun r d' => d' = d /\ exists s m, r = RespError s m)
  /\ runs Pool (RecordPayment c (Some req)) d
    (fun r d' => exists id number method notes entry nl, r = RespCreated (FB_paid id number fid (fo_booking_id f) (cents k) method notes (Some entry))
       /\ posted (d <| payments ::= insert_row (desk_payment (tenantHotelID c) (fo_booking_id f) id number method k notes) |>
                    <| audit_logs := audit_logs d' |>) d' (tenantHotelID c) entry
            ("Room folio payment " ++ number) ("PAY " ++ number) "PAY" nl
       /\ in_balance nl /\ total_debit nl = k)
    (fun r => r = RespError 400 (driver_text "23505") /\ payments d <> []).
Proof.
  split.
  - eapply ens_post; [apply RecordPayment_ens | | auto]. intros r d' H. cbv beta in H.
    destruct H as (req' & id & number & fid' & f' & method & notes & journal & [= <-] & Hid' & Hf' & -> & Hr).
    rewrite Hid in Hid'. injection Hid' as <-. rewrite Hf in Hf'. injection Hf' as <-.
    rewrite Ek, num_enc_cents in Hr by (unfold MAXC in *; lia). rewrite Ek. split; [|exact Hr]. do 5 eexists. reflexivity.
  - rewrite <- Ek. now apply RecordPayment_runs.
Qed.

(** Through any requests to the cashier's page, whatever fails, folios,
    charges and payments are only added, every payment as completed; no invoice is
    lost, and none changes but by being marked as sent, so that its number and
    amounts stand; and numbers stay unique within a hotel. *)
Theorem desk_only_adds (env : Env) (jwt : Jwt) secret rqs w (Ht : w_tx w = NoTx) :
  desk_history (w_db w) (w_db (folio_serve_all secret rqs w)) /\ w_tx (folio_serve_all secret rqs w) = NoTx.
Proof. apply folio_serve_history; [exact Ht | apply desk_history_refl]. Qed.

(** With no statement failing, an invoice states its folio to the paisa: the
    subtotal and tax are the sums of the charges, and the total what was charged;
    payments are not deducted. *)
Theorem invoice_states_folio (env : Env) (laws : EnvLaws env) (jwt : Jwt) c req f d
  (Hs : folios_sound d) (Hm : measured d f) (Hf : In f (folios d)) (Hh : tenantHotelID c = fo_hotel_id f)
  (Hid : uuid_parse (TrimSpace (gi_FolioID req)) = Some (fo_id f)) :
  runs Pool (GenerateInvoice c (Some req)) d
    (fun r d' => exists id number lines now sub tax total,
       r = RespCreated (FB_drafted id (fo_id f) number sub tax total (fo_currency f) lines (nullableBillingText (gi_Notes req)))
       /\ round2 total = cents (folio_charged (fo_id f) d)
       /\ folio_invoices d' = insert_row (drafted (tenantHotelID c) f id number (nullableBillingText (gi_Notes req)) now d) (folio_invoices d)
       /\ folios d' = folios d /\ folio_charges d' = folio_charges d /\ payments d' = payments d)
    (fun r => r = RespError 400 (driver_text "23505") /\ folio_invoices d <> []).
Proof. now apply GenerateInvoice_runs. Qed.

(** The folio a charge is posted on is not looked for in the hotel: staff of any
    hotel raise the balance of any folio. *)
Theorem charge_crosses_hotels (env : Env) (laws : EnvLaws env) (jwt : Jwt) secret c req f k t d
  (Hf : In f (folios d)) (Hid : uuid_parse (c_params c "id") = Some (fo_id f)) (Hdesc : TrimSpace (ac_Description req) <> "")
  (Hkind : slen (TrimSpace (ac_ChargeType req)) <= 50)
  (Ek : ac_Amount req = cents k) (Hk : 0 < k < 10 ^ 10) (Et : ac_TaxAmount req = cents t) (Ht : 0 <= t < 10 ^ 10) :
  runs Pool (AddCharge secret c (Some req)) d
    (fun _ d' => folio_balance f d' = folio_balance f d + k + t /\ folios d' = folios d) (fun _ => False).
Proof.
  unfold AddCharge, path_folio, body_of, failing_text. rewrite Hid.
  pose proof (fun u a t i => @desk_audit_inert env (Resp FolioBody) u a t i).
  eapply runs_bind with (Q1 := fun i d' => i = fo_id f /\ d' = d); [now apply runs_ret | intros; repeat (first [now auto | inert_step])|]. intros i d1 [-> ->].
  eapply runs_bind with (Q1 := fun i d' => i = req /\ d' = d); [now apply runs_ret | intros; repeat (first [now auto | inert_step])|]. intros i d1 [-> ->].
  assert (Hpos : fle (ac_Amount req) 0 = false) by (rewrite Ek, <- cents_0, fle_cents by (unfold MAXC; lia); apply Z.leb_gt; lia).
  rewrite Hpos, (proj2 (String.eqb_neq _ _) Hdesc).
  eapply runs_bind with (Q1 := fun _ d' => d' = d); [now apply runs_ret | intros; repeat (first [now auto | inert_step])|]. intros _ d1 ->.
  eapply runs_bind with (Q1 := fun _ d' => d' = d); [now apply runs_ret | intros; repeat (first [now auto | inert_step])|]. intros _ d1 ->.
  cbv zeta. apply runs_uuid; [intros; repeat (first [now auto | inert_step])|]. intros n. apply runs_now; [intros; repeat (first [now auto | inert_step])|]. intros now.
  set (row := {| fc_id := _ |}). eapply runs_bind with (Q1 := fun _ d' => d' = d <| folio_charges ::= insert_row row |>); [|intros; repeat (first [now auto | inert_step])|].
  { apply runs_on_err, runs_exec. unfold insert_charge. cbn [row fc_charge_type fc_amount fc_tax_amount fc_folio_id].
    rewrite Ek, Et, !num_enc_cents by (unfold MAXC; lia).
    replace (50 <? slen (if TrimSpace (ac_ChargeType req) =s "" then "other" else TrimSpace (ac_ChargeType req))) with false
      by (symmetry; apply Z.ltb_ge; destruct (_ =s _); [discriminate | exact Hkind]).
    rewrite !(proj2 (Z.ltb_lt _ _)) by lia. cbn [andb negb].
    replace (exists_row (folio_by_id (fo_id f)) (folios d)) with true
      by (symmetry; apply exists_row_true; exists f; split; [exact Hf | apply N.eqb_refl]). reflexivity. }
  intros _ d1 ->. eapply runs_bind; [apply desk_audit_runs with (Q := fun _ d' => exists al, d' = d <| folio_charges ::= insert_row row |> <| audit_logs := al |>); eauto | intros; inert_go|].
  intros _ d1 [al ->]. apply runs_ret. split; [|reflexivity]. unfold folio_balance.
  match goal with |- folio_charged _ ?x - attributed _ ?x = _ => change (attributed f x) with (attributed f d); set (d2 := x) end.
  assert (E : folio_charged (fo_id f) d2 = folio_charged (fo_id f) d + (k + t)); [|lia].
  unfold folio_charged. change (folio_charges d2) with (insert_row row (folio_charges d)). rewrite sum_rows_insert.
  replace (ueq (fc_folio_id row) (fo_id f)) with true by (symmetry; apply N.eqb_refl).
  cbn [row fc_amount fc_tax_amount]. now rewrite Ek, Et, !num_enc_cents by (unfold MAXC; lia).
Qed.

(** In the shared database a folio cannot be opened for a CRM guest: guest_id
    refers to users, so the check-in that opens one fails. *)
Theorem crm_guest_opens_no_folio (env : Env) c h b g cur d (Hshared : db_shared = true) (Hg : g <> uuid_nil)
  (Hnone : find_row (fun f => ueq (fo_hotel_id f) h && ueq (fo_booking_id f) b) (folios d) = None)
  (Hcrm : exists_row (fun u => ueq (us_id u) g) (users d) = false) :
  runs c (EnsureFolioForBooking c h b g cur) d (fun _ _ => False) (fun e => exists code, root_cause e = ErrPg code).
Proof.
  unfold EnsureFolioForBooking. unfold ueq at 1. rewrite (proj2 (N.eqb_neq _ _) Hg).
  apply runs_then_attempt_row; [intros; inert_go|]. rewrite Hnone. cbn. apply runs_uuid; [intros; inert_go|]. intros n.
  eapply runs_bind; [apply runs_on_err, runs_exec with (Q := fun _ _ => False) | intros; inert_go | contradiction].
  unfold insert_folio. cbn [fo_guest_id]. rewrite Hshared, Hcrm. cbn [negb andb].
  repeat case_match; try discriminate; simplify_eq; cbn; eauto.
Qed.

(** *** A booking with two folios *)

Definition folio_of (id : uuid) : FolioRow :=
  {| fo_id := id; fo_hotel_id := 1; fo_booking_id := 301; fo_guest_id := Some 7%N; fo_status := "open"; fo_currency := "INR"; fo_closed_at := None |}.
Definition dinner : FolioChargeRow :=
  {| fc_id := 601; fc_folio_id := 501; fc_hotel_id := 1; fc_description := "Dinner"; fc_charge_type := "restaurant"; fc_amount := 120000;
     fc_tax_amount := 6000; fc_reference_id := None; fc_posted_by := None; fc_posted_at := {| t_ns := 0; t_off := 0 |} |}.
Definition two_folios : DB :=
  empty_db <| guest_stays := [Lifecycle.booked_stay] |> <| folios := [folio_of 501; folio_of 502] |> <| folio_charges := [dinner] |>
    <| payments := [desk_payment 1 301 701 "PAY-1" "cash" 50000 None] |>.
Definition cashier (id : string) : Ctx := demo_request "receptionist@1" id.

Lemma two_folios_sound : folios_sound two_folios.
Proof. split; [apply NoDup_ListNoDup; repeat constructor; cbn; intuition discriminate | intros f [<-|[<-|[]]]; cbn; eauto]. Qed.
Lemma two_folios_measured f : In f (folios two_folios) -> measured two_folios f.
Proof. intros [<-|[<-|[]]]; split; vm_compute; discriminate. Qed.
Lemma two_folios_vouchers : vouchers_ok two_folios.
Proof. split; cbn; contradiction. Qed.

Lemma folio_views_agree_witness :
  exists items, fst (serve (ListFolios (env := calm) (jwt := demo_jwt) "secret" (cashier "501")) (start two_folios)) = RespOK (FB_folios items)
  /\ map (fun it => to_cents (fv_Balance it)) items = [0; 76000]
  /\ runs (env := calm) Pool (GetFolio (env := calm) (jwt := demo_jwt) "secret" (cashier "501")) two_folios (fun r _ => exists v,
       r = RespOK (FB_folio v) /\ round2 (fd_balance v) = cents 76000) (fun _ => False).
Proof.
  eexists. split; [vm_compute; reflexivity|]. split; [vm_compute; reflexivity|].
  destruct (folio_views_agree calm calm_laws demo_jwt "secret" (cashier "501") two_folios two_folios_sound) as [H _].
  { intros f p [<-|[<-|[]]] _ [<-|[]] _; reflexivity. }
  { exact two_folios_measured. }
  specialize (H (start two_folios) (conj eq_refl eq_refl)).
  destruct (ListFolios "secret" (cashier "501") (start two_folios)) as [[e|r] w'].
  - destruct H as [[[] _]|[[[n Hn] _]|[[] _]]]. discriminate Hn.
  - destruct H as [(d' & _ & -> & items & _ & Hall)|[[n Hn] _]]; [|discriminate Hn].
    eapply runs_post; [apply (GetFolio_runs (laws := calm_laws) "secret" two_folios (folio_of 501) Lifecycle.booked_stay (cashier "501") two_folios_sound);
      [intros f p [<-|[<-|[]]] _ [<-|[]] _; reflexivity | apply two_folios_measured; now left | now left | reflexivity | reflexivity | reflexivity]|].
    intros r' d2 (_ & v & -> & _ & _ & _ & _ & Hb). exists v. split; [reflexivity | exact Hb].
Defined.

(** Hotel 2 takes 500.00 for the booking of hotel 1: the list of hotel 1 shows it as
    paid, the detail does not. *)
Theorem folio_views_differ :
  let d := two_folios <| payments := [desk_payment 2 301 701 "PAY-1" "cash" 50000 None] |> in
  match fst (serve (ListFolios (env := calm) (jwt := demo_jwt) "secret" (cashier "501")) (start d)),
        fst (serve (GetFolio (env := calm) (jwt := demo_jwt) "secret" (cashier "501")) (start d)) with
  | RespOK (FB_folios items), RespOK (FB_folio v) =>
      map (fun it => (fv_ID it, to_cents (fv_Balance it))) items = [(502%N, 0); (501%N, 76000)] /\ to_cents (fd_balance v) = 126000
  | _, _ => False
  end.
Proof. vm_compute. split; reflexivity. Qed.

Definition four_hundred : recordPaymentRequest := {| rp_Amount := cents 40000; rp_PaymentMethod := " Card "; rp_Notes := "" |}.
Lemma payment_settles_folio_witness :
  ensures (RecordPayment (env := calm) (cashier "502") (Some four_hundred)) two_folios
    (fun _ d' => folio_balance (folio_of 502) d' = 0 /\ folio_balance (folio_of 501) d' = 36000) (fun _ d' => d' = two_folios).
Proof.
  destruct (payment_settles_folio calm calm_laws demo_jwt (cashier "502") four_hundred 502 (folio_of 502) 40000 two_folios) as [H _].
  - exact two_folios_vouchers.
  - unfold MAXC; lia.
  - reflexivity.
  - reflexivity.
  - reflexivity.
  - eapply ens_post; [exact H | | intros r d' [E _]; exact E]. intros r d' [_ (Ef & _ & _ & f & id & nu & me & no & Hin & Hid & _ & _ & Hb)].
    rewrite !Hb. assert (E : f = folio_of 502) by (destruct Hin as [<-|[<-|[]]]; [discriminate Hid | reflexivity]). subst f.
    split; vm_compute; reflexivity.
Defined.

Lemma desk_only_adds_witness :
  let w := folio_serve_all (env := calm) (jwt := demo_jwt) "secret"
    [ {| fq_ctx := cashier "501"; fq_op := Op_RecordPayment (Some four_hundred) |};
      {| fq_ctx := cashier ""; fq_op := Op_GenerateInvoice (Some {| gi_FolioID := "501"; gi_Notes := "" |}) |};
      {| fq_ctx := cashier "1016"; fq_op := Op_EmailInvoice |} ] (start two_folios) in
  map fi_status (folio_invoices (w_db w)) = ["sent"] /\ map fi_total (folio_invoices (w_db w)) = [126000]
  /\ desk_history two_folios (w_db w).
Proof.
  cbv zeta. split; [vm_compute; reflexivity|]. split; [vm_compute; reflexivity|].
  match goal with |- desk_history _ (w_db (folio_serve_all _ ?rqs _)) =>
    exact (proj1 (desk_only_adds calm demo_jwt "secret" rqs (start two_folios) eq_refl)) end.
Defined.

(** A receptionist of hotel 9 charges a folio of hotel 1. *)
Lemma charge_crosses_hotels_witness :
  let c := demo_request "receptionist@9" "501" in
  hotelID (env := calm) (jwt := demo_jwt) "secret" c = 9%N
  /\ runs (env := calm) Pool (AddCharge (env := calm) (jwt := demo_jwt) "secret" c
       (Some {| ac_Description := "Spa"; ac_ChargeType := ""; ac_Amount := cents 500; ac_TaxAmount := cents 0; ac_ReferenceID := None |})) two_folios
       (fun _ d' => folio_balance (folio_of 501) d' = 76500) (fun _ => False).
Proof.
  cbv zeta. split; [reflexivity|].
  eapply runs_post; [apply (charge_crosses_hotels calm calm_laws demo_jwt "secret" _ _ (folio_of 501) 500 0 two_folios)|].
  - now left.
  - reflexivity.
  - discriminate.
  - discriminate.
  - reflexivity.
  - lia.
  - reflexivity.
  - lia.
  - intros r d' [-> _]. reflexivity.
Defined.

Lemma invoice_states_folio_witness :
  runs (env := calm) Pool (GenerateInvoice (env := calm) (cashier "") (Some {| gi_FolioID := "501"; gi_Notes := "" |})) two_folios
    (fun _ d' => map fi_total (folio_invoices d') = [126000]) (fun _ => True).
Proof.
  eapply runs_weaken; [apply (invoice_states_folio calm calm_laws demo_jwt (cashier "") _ (folio_of 501) two_folios two_folios_sound)| |auto].
  - apply two_folios_measured. now left.
  - now left.
  - reflexivity.
  - reflexivity.
  - intros r d' (id & nu & li & now & s & t & tot & _ & _ & -> & _). reflexivity.
Defined.
