(* ===== verification/Waitlist.v ===== *)
(** Waitlist: internal/handler/pos_waitlist.go.  The parties waiting for a table
    of the restaurant. *)

From S2P Require Import Prelude GoLib Schema Binary64 World Auth RoomRepo Accounting DineIn.
Local Open Scope string_scope.
Local Open Scope Z_scope.

Record waitlistResponse := {
  ww_ID : uuid; ww_Name : string; ww_PartySize : Z; ww_Section : string; ww_Phone : string; ww_QuotedWait : option Z;
  ww_Status : string; ww_CreatedAt : Time }.
Record addWaitlistRequest := {
  aw_Name : string; aw_PartySize : Z; aw_Section : string; aw_Phone : string; aw_QuotedWait : option Z }.
Record updateWaitlistRequest := { uw_Status : option string; uw_Section : option string }.
Inductive WaitBody := WB_list (l : list waitlistResponse) | WB_added (id : uuid) (name : string) | WB_updated (id : uuid) | WB_status (s : string).

Definition waitStaff : list string := ["admin"; "hotel_admin"; "super_admin"; "receptionist"; "food_manager"; "waiter"; "platform_admin"].
Definition waitStatuses : list string := ["waiting"; "notified"; "seated"; "left"].
Definition wait_key (id h : uuid) (w : WaitlistRow) : bool := ueq (wl_id w) id && ueq (wl_hotel_id w) h.
Definition still_waiting (h : uuid) (w : WaitlistRow) : bool :=
  ueq (wl_hotel_id w) h && ((wl_status w =s "waiting") || (wl_status w =s "notified")).
Definition insert_wait (row : WaitlistRow) (d : DB) : GoErr + (unit * DB) :=
  if negb (int_fits (wl_party_size row) && int_fits (default 0 (wl_quoted_wait row))) then inl (ErrPg "22003")
  else if exists_row (fun w => ueq (wl_id w) (wl_id row)) (waitlists d) then inl (ErrPg "23505")
  else if exists_row (fun r => ueq (ho_id r) (wl_hotel_id row)) (hotels d) then inr (tt, d <| waitlists ::= insert_row row |>)
  else inl (ErrPg "23503").
Definition set_wait (req : updateWaitlistRequest) (now : Time) (w : WaitlistRow) : WaitlistRow :=
  w <| wl_status := default (wl_status w) (uw_Status req) |>
    <| wl_section := match uw_Section req with Some s => nullif s | None => wl_section w end |> <| wl_updated_at := now |>.

Section Waitlist.
Context {env : Env} {jwt : Jwt} (secret : string).

Definition wait_error {A} (status : Z) (m : M GoErr A) : M (Resp WaitBody) A := on_err m (fun e => RespError status (err_text e)).

Definition scan_wait (w : WaitlistRow) : waitlistResponse :=
  {| ww_ID := wl_id w; ww_Name := wl_name w; ww_PartySize := wl_party_size w; ww_Section := opt_str (wl_section w);
     ww_Phone := opt_str (wl_phone w); ww_QuotedWait := wl_quoted_wait w; ww_Status := wl_status w; ww_CreatedAt := scan_time (wl_created_at w) |}.
Definition ListWaitlist (c : Ctx) : M (Resp WaitBody) (Resp WaitBody) :=
  l ← wait_error 500 (query Pool (fun d => map scan_wait (order_by (fun a b => t_ns (wl_created_at a) <=? t_ns (wl_created_at b))
        (select (still_waiting (hotelID secret c)) (waitlists d)))));
  mret (RespOK (WB_list l)).

Definition AddWaitlist (c : Ctx) (body : option addWaitlistRequest) : M (Resp WaitBody) (Resp WaitBody) :=
  guard (requireRoles secret c waitStaff) ;;
  req ← of_option body (RespError 400 "invalid request body");
  let name := TrimSpace (aw_Name req) in
  throw_if (name =s "") (RespError 422 "guest name is required") ;;
  id ← new_uuid; now ← time_now;
  wait_error 400 (exec Pool (insert_wait
    {| wl_id := id; wl_hotel_id := hotelID secret c; wl_name := name; wl_party_size := Z.max 1 (aw_PartySize req);
       wl_section := nullif (TrimSpace (aw_Section req)); wl_phone := nullif (TrimSpace (aw_Phone req)); wl_quoted_wait := aw_QuotedWait req;
       wl_status := "waiting"; wl_created_at := now; wl_updated_at := now |})) ;;
  mret (RespCreated (WB_added id name)).

Definition UpdateWaitlist (c : Ctx) (body : option updateWaitlistRequest) : M (Resp WaitBody) (Resp WaitBody) :=
  guard (requireRoles secret c waitStaff) ;;
  id ← of_option (uuid_parse (c_params c "id")) (RespError 400 "invalid waitlist id");
  req ← of_option body (RespError 400 "invalid request body");
  throw_if (match uw_Status req with Some s => negb (existsb (String.eqb s) waitStatuses) | None => false end) (RespError 422 "invalid status") ;;
  throw_if (match uw_Status req, uw_Section req with None, None => true | _, _ => false end) (RespError 400 "no fields to update") ;;
  now ← time_now;
  let p := wait_key id (hotelID secret c) in
  n ← wait_error 400 (exec_n Pool (fun d => (rows_affected p (waitlists d), d <| waitlists ::= update_rows p (set_wait req now) |>)));
  throw_if (Nat.eqb n 0) (RespError 404 "waitlist entry not found") ;;
  mret (RespOK (WB_updated id)).

Definition DeleteWaitlist (c : Ctx) : M (Resp WaitBody) (Resp WaitBody) :=
  guard (requireRoles secret c waitStaff) ;;
  id ← of_option (uuid_parse (c_params c "id")) (RespError 400 "invalid waitlist id");
  let p := wait_key id (hotelID secret c) in
  n ← wait_error 400 (exec_n Pool (fun d => (rows_affected p (waitlists d), d <| waitlists ::= delete_rows p |>)));
  throw_if (Nat.eqb n 0) (RespError 404 "waitlist entry not found") ;;
  mret (RespOK (WB_status "removed")).

Inductive WaitOp := Wait_list | Wait_add (b : option addWaitlistRequest) | Wait_update (b : option updateWaitlistRequest) | Wait_delete.
Definition wait_route (op : WaitOp) (c : Ctx) : M (Resp WaitBody) (Resp WaitBody) :=
  match op with
  | Wait_list => ListWaitlist c | Wait_add b => AddWaitlist c b | Wait_update b => UpdateWaitlist c b | Wait_delete => DeleteWaitlist c
  end.

(** ** What the waitlist holds *)

(** Every entry has a name, a party of at least one, and one of the four statuses. *)
Definition wait_ok (w : WaitlistRow) : Prop := wl_name w <> "" /\ 1 <= wl_party_size w /\ In (wl_status w) waitStatuses.
Definition waitlist_ok (d : DB) : Prop := forall w, In w (waitlists d) -> wait_ok w.

(** What a request may do: keep the waitlist well-formed, and change at most one
    entry of it. *)
Definition one_entry (d : DB) (_ : Resp WaitBody) (d' : DB) : Prop :=
  waitlist_ok d' /\ exists id, forall w, wl_id w <> id -> In w (waitlists d') <-> In w (waitlists d).

Lemma one_entry_refl d r : waitlist_ok d -> one_entry d r d.
Proof. intros Hd. split; [exact Hd | exists 0%N; reflexivity]. Qed.
Hint Resolve one_entry_refl : core.
Lemma ens_wait_guard c d : waitlist_ok d ->
  ensures (guard (B := WaitBody) (requireRoles secret c waitStaff)) d (fun _ d' => d' = d) (one_entry d).
Proof. unfold guard. intros Hd. destruct (requireRoles _ _ _) as [[]|]; [apply ens_throw; auto | now apply ens_ret]. Qed.

(** A write that makes the change, then its count checked and its answer given. *)
Lemma wait_write_ens {A} (m : M GoErr A) (k : A -> M (Resp WaitBody) (Resp WaitBody)) status d :
  ensures m d (fun _ d' => forall r, one_entry d r d') (fun _ d' => forall r, one_entry d r d') ->
  (forall a d', (forall r, one_entry d r d') -> ensures (k a) d' (one_entry d) (one_entry d)) ->
  ensures (a ← wait_error status m; k a) d (one_entry d) (one_entry d).
Proof.
  intros Hm Hk. unfold wait_error.
  eapply ens_bind with (Q1 := fun _ d' => forall r, one_entry d r d'); [|exact Hk].
  apply ens_on_err. eapply ens_post; [exact Hm | auto | intros e d' H; apply H].
Qed.
Lemma wait_answer_ens (n : nat) msg b d d' : (forall r, one_entry d r d') ->
  ensures (throw_if (Nat.eqb n 0) (RespError 404 msg) ;; mret (RespOK b)) d' (one_entry d) (one_entry d).
Proof.
  intros H. eapply ens_bind; [apply ens_throw_if with (Q := fun _ d2 => d2 = d'); destruct (Nat.eqb n 0); auto|].
  intros _ d2 ->. apply ens_ret, H.
Qed.

Lemma insert_wait_one row d : waitlist_ok d -> wl_name row <> "" -> 1 <= wl_party_size row -> In (wl_status row) waitStatuses ->
  forall r, match insert_wait row d with inl _ => True | inr (_, d') => one_entry d r d' end.
Proof.
  intros Hd H1 H2 H3 r. unfold insert_wait. destruct (negb _); [exact I|]. destruct (exists_row _ (waitlists d)); [exact I|].
  destruct (exists_row _ (hotels d)); [|exact I]. split; cbn [waitlists set]; [refine (forall_insert wait_ok (waitlists d) row Hd _); repeat split; auto|].
  exists (wl_id row). intros w Hw. rewrite in_insert_row. split; [intros [H'| ->]; [exact H' | now destruct Hw] | now left].
Qed.
Lemma update_wait_one id h req now d r : waitlist_ok d -> (forall s, uw_Status req = Some s -> In s waitStatuses) ->
  one_entry d r (d <| waitlists ::= update_rows (wait_key id h) (set_wait req now) |>).
Proof.
  intros Hd Hst. split; cbn [waitlists set].
  - refine (forall_update wait_ok (waitlists d) _ _ Hd _). intros w Hw _. destruct (Hd w Hw) as (H1 & H2 & H3). split; [exact H1|]. split; [exact H2|].
    cbn. destruct (uw_Status req); [now apply Hst | exact H3].
  - exists id. intros w Hw. rewrite in_update_rows.
    assert (Hk : forall v, wait_key id h v = true -> wl_id v = id) by (intros v [E _]%andb_true_iff; now apply N.eqb_eq).
    split; [intros (w0 & H0 & ->) | intros H0; exists w; split; [exact H0|]].
    + destruct (wait_key _ _ w0) eqn:E; [|exact H0]. apply Hk in E. now destruct Hw.
    + destruct (wait_key _ _ w) eqn:E; [|reflexivity]. apply Hk in E. now destruct Hw.
Qed.
Lemma delete_wait_one id h d r : waitlist_ok d -> one_entry d r (d <| waitlists ::= delete_rows (wait_key id h) |>).
Proof.
  intros Hd. split; cbn [waitlists set]; [intros w [Hw _]%in_delete_rows; auto|].
  exists id. intros w Hw. rewrite in_delete_rows. split; [now intros []|]. intros H0. split; [exact H0|].
  unfold wait_key. apply andb_false_iff. left. apply N.eqb_neq, Hw.
Qed.

(** Kept by every request, whatever fails. *)
Theorem waitlist_kept op c d : waitlist_ok d -> ensures (wait_route op c) d (one_entry d) (one_entry d).
Proof.
  intros Hd. destruct op as [|b|b|]; cbn [wait_route]; unfold ListWaitlist, AddWaitlist, UpdateWaitlist, DeleteWaitlist; cbv zeta.
  - apply wait_write_ens; [apply ens_query; auto|]. intros l d' H. apply ens_ret, H.
  - eapply ens_bind; [now apply ens_wait_guard|]. intros _ d1 ->.
    eapply ens_bind; [apply ens_of_option with (Q := fun _ d' => d' = d); destruct b; auto|]. intros req d1 ->.
    eapply ens_bind with (Q1 := fun _ d' => d' = d /\ TrimSpace (aw_Name req) <> "").
    { apply ens_throw_if. destruct (String.eqb_spec (TrimSpace (aw_Name req)) ""); auto. }
    intros _ d1 [-> Hname].
    eapply ens_bind; [now apply ens_uuid with (Q := fun _ d' => d' = d)|]. intros id d1 ->.
    eapply ens_bind; [now apply ens_now with (Q := fun _ d' => d' = d)|]. intros now d1 ->.
    apply wait_write_ens; [|intros [] d1 H; apply ens_ret, H].
    apply ens_exec; [auto|]. set (row := {| wl_id := id |}).
    pose proof (insert_wait_one row d Hd Hname ltac:(cbn; lia) (or_introl eq_refl)) as H.
    destruct (insert_wait row d) as [e|[a d']]; auto.
  - eapply ens_bind; [now apply ens_wait_guard|]. intros _ d1 ->.
    eapply ens_bind; [apply ens_of_option with (Q := fun _ d' => d' = d); destruct (uuid_parse _); auto|]. intros id d1 ->.
    eapply ens_bind; [apply ens_of_option with (Q := fun _ d' => d' = d); destruct b; auto|]. intros req d1 ->.
    eapply ens_bind with (Q1 := fun _ d' => d' = d /\ forall s, uw_Status req = Some s -> In s waitStatuses).
    { apply ens_throw_if. destruct (uw_Status req) as [s|] eqn:Es; [|split; [reflexivity | discriminate]].
      destruct (existsb (String.eqb s) waitStatuses) eqn:E; cbn [negb]; [|auto]. split; [reflexivity|].
      intros ? [= <-]. apply existsb_exists in E as (x & Hx & Exs%String.eqb_eq). now subst. }
    intros _ d1 [-> Hst].
    eapply ens_bind; [apply ens_throw_if with (Q := fun _ d' => d' = d); destruct (uw_Status req), (uw_Section req); auto|]. intros _ d1 ->.
    eapply ens_bind; [now apply ens_now with (Q := fun _ d' => d' = d)|]. intros now d1 ->.
    apply wait_write_ens; [apply ens_exec_n; [auto | intros r; now apply update_wait_one] | intros n d1 H; now apply wait_answer_ens].
  - eapply ens_bind; [now apply ens_wait_guard|]. intros _ d1 ->.
    eapply ens_bind; [apply ens_of_option with (Q := fun _ d' => d' = d); destruct (uuid_parse _); auto|]. intros id d1 ->.
    apply wait_write_ens; [apply ens_exec_n; [auto | intros r; now apply delete_wait_one] | intros n d1 H; now apply wait_answer_ens].
Qed.
End Waitlist.
