(* ===== verification/Crm.v ===== *)
(** Crm: internal/handler/crm_handler.go.  The guest book, loyalty tiers, members
    and their points, and marketing campaigns.

    preferences and benefits are JSONB: the text a column makes of what is sent,
    or its refusal, is a parameter. *)

From S2P Require Import Prelude GoLib Schema Binary64 World Auth RoomRepo Accounting.
From Stdlib Require Import QArith.
Local Open Scope string_scope.
Local Open Scope Z_scope.

Class JsonColumn := { jsonb_in : string -> option string }.

(** ** Data *)

Record createGuestRequest := { ng_FullName : string; ng_Email : string; ng_Phone : string }.
Record updateGuestRequest := { ug_Preferences : string; ug_Notes : string; ug_VipStatus : string }.
Record guestSummaryResponse := {
  su_ID : uuid; su_FullName : string; su_Email : option string; su_Phone : option string; su_VipStatus : string;
  su_TotalStays : Z; su_LoyaltyPts : Z }.
Record staySummary := { ys_ID : uuid; ys_RoomNumber : string; ys_CheckIn : Time; ys_CheckOut : Time; ys_Total : Q }.
Record loyaltyTxItem := {
  lt_ID : uuid; lt_Type : string; lt_Points : Z; lt_Reference : option string; lt_Description : option string; lt_CreatedAt : Time }.
Record guestDetailResponse := {
  gd_ID : uuid; gd_FullName : string; gd_Email : option string; gd_Phone : option string; gd_VipStatus : string;
  gd_Preferences : option string; gd_Notes : option string; gd_TotalStays : Z; gd_LoyaltyPts : Z;
  gd_Stays : list staySummary; gd_LoyaltyTx : list loyaltyTxItem }.

Record createLoyaltyTierRequest := { nt_Name : string; nt_MinPoints : Z; nt_Multiplier : Q; nt_Benefits : option string }.
Record updateLoyaltyTierRequest := {
  ut_Name : string; ut_MinPoints : option Z; ut_Multiplier : option Q; ut_Benefits : option string }.
Record loyaltyTierResponse := {
  tr_ID : uuid; tr_HotelID : uuid; tr_Name : string; tr_MinPoints : Z; tr_Multiplier : Q; tr_Benefits : option string; tr_CreatedAt : Time }.
Record loyaltyMemberResponse := {
  mr_ID : uuid; mr_GuestID : uuid; mr_GuestName : string; mr_TierName : string; mr_Points : Z; mr_LifetimePts : Z; mr_EnrolledAt : Time }.
(** pointsAwardRequest and pointsRedeemRequest *)
Record pointsRequest := { pq_GuestID : string; pq_Points : Z; pq_Reference : string; pq_Description : string }.

Record campaignResponse := {
  ca_ID : uuid; ca_Name : string; ca_Audience : string; ca_Channel : string; ca_Status : string;
  ca_Sent : Z; ca_Opens : Z; ca_Clicks : Z; ca_Revenue : Q; ca_CreatedAt : Time }.
Record createCampaignRequest := { nc_Name : string; nc_Audience : string; nc_Channel : string; nc_Status : string }.
Record updateCampaignRequest := {
  uc_Name : option string; uc_Audience : option string; uc_Channel : option string; uc_Status : option string }.

Inductive CrmBody :=
  | CB_guests (l : list guestSummaryResponse) | CB_guest (g : guestDetailResponse) | CB_status (s : string)
  | CB_tiers (l : list loyaltyTierResponse) | CB_tier (id : uuid) (name : string) | CB_members (l : list loyaltyMemberResponse)
  | CB_points (transaction member : uuid) (points : Z) (type : string)
  | CB_campaigns (l : list campaignResponse) | CB_campaign (id : uuid) (name status : string) | CB_campaign_updated (id : uuid).

(** ** Queries and statements *)

Definition guest_key (id h : uuid) (g : GuestRow) : bool := ueq (gu_id g) id && ueq (gu_hotel_id g) h.
(** The same e-mail or the same phone, NULL matching nothing. *)
Definition same_text (a b : option string) : bool := match a, b with Some x, Some y => x =s y | _, _ => false end.
Definition stay_of_guest (g : GuestRow) (s : StayRow) : bool :=
  ueq (gs_hotel_id s) (gu_hotel_id g)
  && (same_text (gu_email g) (gs_guest_email s) || same_text (gu_phone g) (gs_guest_phone s)).
(** COUNT(DISTINCT gs.id) FILTER (WHERE gs.actual_check_out IS NOT NULL) *)
Definition total_stays (g : GuestRow) (d : DB) : Z :=
  Z.of_nat (rows_affected (fun s => stay_of_guest g s && match gs_actual_check_out s with Some _ => true | None => false end) (guest_stays d)).
Definition member_key (guest h : uuid) (m : LoyaltyMemberRow) : bool := ueq (lm_guest_id m) guest && ueq (lm_hotel_id m) h.
(** COALESCE(lm.points, 0) *)
Definition points_of (g : GuestRow) (d : DB) : Z :=
  default 0 (lm_points <$> find_row (member_key (gu_id g) (gu_hotel_id g)) (loyalty_members d)).
Definition vip_of (g : GuestRow) : string := default "standard" (gu_vip_status g).

Definition guest_summary (d : DB) (g : GuestRow) : guestSummaryResponse :=
  {| su_ID := gu_id g; su_FullName := gu_full_name g; su_Email := gu_email g; su_Phone := gu_phone g; su_VipStatus := vip_of g;
     su_TotalStays := total_stays g d; su_LoyaltyPts := points_of g d |}.
Definition listed_guest (h : uuid) (vip search : string) (g : GuestRow) : bool :=
  ueq (gu_hotel_id g) h
  && ((vip =s "") || match gu_vip_status g with Some v => v =s vip | None => false end)
  && ((search =s "") || ilike (gu_full_name g) ("%" ++ search ++ "%")
      || match gu_email g with Some e => ilike e ("%" ++ search ++ "%") | None => false end).

Definition fk_hotel (h : uuid) (d : DB) : bool := exists_row (fun r => ueq (ho_id r) h) (hotels d).
Definition fk_guest (g : uuid) (d : DB) : bool := exists_row (fun r => ueq (gu_id r) g) (guests d).

(** NUMERIC(5,2) *)
Definition multiplier_fits (k : Z) : bool := Z.abs k <? 10 ^ 5.
Definition tier_key (id h : uuid) (t : LoyaltyTierRow) : bool := ueq (ty_id t) id && ueq (ty_hotel_id t) h.
(** what a JSONB parameter stores: NULL when there is none *)
Definition json_param {col : JsonColumn} (v : option string) : GoErr + option string :=
  match v with
  | None => inr None
  | Some s => match jsonb_in s with Some t => inr (Some t) | None => inl (ErrPg "22P02") end
  end.

(** INSERT INTO loyalty_members ... ON CONFLICT (guest_id, hotel_id) DO UPDATE ... RETURNING id *)
Definition award_points (n : Z) (m : LoyaltyMemberRow) : LoyaltyMemberRow :=
  m <| lm_points := lm_points m + n |> <| lm_lifetime_points := lm_lifetime_points m + n |>.
Definition upsert_member (row : LoyaltyMemberRow) (n : Z) (d : DB) : GoErr + (uuid * DB) :=
  if negb (int_fits n) then inl (ErrPg "22003")
  else
    let p := member_key (lm_guest_id row) (lm_hotel_id row) in
    match find_row p (loyalty_members d) with
    | Some m =>
        if int_fits (lm_points m + n) && int_fits (lm_lifetime_points m + n)
        then inr (lm_id m, d <| loyalty_members ::= update_rows p (award_points n) |>)
        else inl (ErrPg "22003")
    | None =>
        if exists_row (fun m => ueq (lm_id m) (lm_id row)) (loyalty_members d) then inl (ErrPg "23505")
        else if fk_guest (lm_guest_id row) d && fk_hotel (lm_hotel_id row) d
        then inr (lm_id row, d <| loyalty_members ::= insert_row row |>) else inl (ErrPg "23503")
    end.
Definition insert_points (row : LoyaltyTransactionRow) (d : DB) : GoErr + (unit * DB) :=
  if negb (int_fits (lx_points row)) then inl (ErrPg "22003")
  else if exists_row (fun x => ueq (lx_id x) (lx_id row)) (loyalty_transactions d) then inl (ErrPg "23505")
  else if exists_row (fun m => ueq (lm_id m) (lx_member_id row)) (loyalty_members d)
  then inr (tt, d <| loyalty_transactions ::= insert_row row |>) else inl (ErrPg "23503").
(** UPDATE loyalty_members SET points = points - $1 WHERE id = $2 AND hotel_id = $3 *)
Definition spend_points (n : Z) (m : LoyaltyMemberRow) : LoyaltyMemberRow := m <| lm_points := lm_points m - n |>.
Definition member_row (id h : uuid) (m : LoyaltyMemberRow) : bool := ueq (lm_id m) id && ueq (lm_hotel_id m) h.
Definition deduct_points (id h : uuid) (n : Z) (d : DB) : GoErr + (unit * DB) :=
  if negb (int_fits n) || exists_row (fun m => member_row id h m && negb (int_fits (lm_points m - n))) (loyalty_members d)
  then inl (ErrPg "22003")
  else inr (tt, d <| loyalty_members ::= update_rows (member_row id h) (spend_points n) |>).

Definition campaign_key (id h : uuid) (m : CampaignRow) : bool := ueq (cm_id m) id && ueq (cm_hotel_id m) h.
Definition nullableText (value : string) : option string := nullif (TrimSpace value).
Definition validVip : list string := ["standard"; "silver"; "gold"; "platinum"].

Section Crm.
Context {env : Env} {jwt : Jwt} {col : JsonColumn} (secret : string).

Definition failing {A} (status : Z) (msg : string) (m : M GoErr A) : M (Resp CrmBody) A :=
  on_err m (fun _ => RespError status msg).
Definition failing_text {A} (status : Z) (m : M GoErr A) : M (Resp CrmBody) A :=
  on_err m (fun e => RespError status (err_text e)).
Definition path_id (c : Ctx) (msg : string) : M (Resp CrmBody) uuid := of_option (uuid_parse (c_params c "id")) (RespError 400 msg).
Definition body_of {A} (b : option A) : M (Resp CrmBody) A := of_option b (RespError 400 "invalid request body").

(** ** Guests *)

Definition ListGuests (c : Ctx) : M (Resp CrmBody) (Resp CrmBody) :=
  l ← failing_text 500 (query Pool (fun d => map (guest_summary d)
        (order_by (fun a b => String.leb (gu_full_name a) (gu_full_name b))
           (select (listed_guest (hotelID secret c) (c_query c "vip_status") (c_query c "search")) (guests d)))));
  mret (RespOK (CB_guests l)).

Definition scan_summary (d : DB) (s : StayRow) : staySummary :=
  {| ys_ID := gs_id s; ys_RoomNumber := default "—" (rm_room_number <$> find_row (fun r => ueq (rm_id r) (gs_room_id s)) (rooms d));
     ys_CheckIn := scan_time (gs_check_in_date s); ys_CheckOut := scan_time (gs_check_out_date s);
     ys_Total := num_dec (default 0 (gs_total_amount s)) |}.
Definition scan_points (x : LoyaltyTransactionRow) : loyaltyTxItem :=
  {| lt_ID := lx_id x; lt_Type := lx_type x; lt_Points := lx_points x; lt_Reference := lx_reference x;
     lt_Description := lx_description x; lt_CreatedAt := scan_time (lx_created_at x) |}.
(** loyalty_transactions lt JOIN loyalty_members lm ON lm.id = lt.member_id *)
Definition points_history (guest h : uuid) (d : DB) : list LoyaltyTransactionRow :=
  take 50 (order_by (fun a b => t_ns (lx_created_at b) <=? t_ns (lx_created_at a))
    (select (fun x => exists_row (fun m => ueq (lm_id m) (lx_member_id x) && member_key guest h m) (loyalty_members d))
       (loyalty_transactions d))).

Definition GetGuest (c : Ctx) : M (Resp CrmBody) (Resp CrmBody) :=
  id ← path_id c "invalid guest id";
  let h := hotelID secret c in
  found ← failing 404 "guest not found" (query_row Pool (fun d =>
            (fun g => (g, guest_summary d g)) <$> find_row (guest_key id h) (guests d)));
  let '(g, s) := found in
  stays ← attempt (query Pool (fun d => map (scan_summary d)
            (order_by (fun a b => t_ns (gs_check_in_date b) <=? t_ns (gs_check_in_date a))
               (select (fun s => ueq (gs_hotel_id s) h
                  && (same_text (gu_email g) (gs_guest_email s) || same_text (gu_phone g) (gs_guest_phone s)))
                  (guest_stays d)))));
  txs ← attempt (query Pool (fun d => map scan_points (points_history id h d)));
  mret (RespOK (CB_guest {| gd_ID := gu_id g; gd_FullName := gu_full_name g; gd_Email := gu_email g; gd_Phone := gu_phone g;
    gd_VipStatus := su_VipStatus s; gd_Preferences := gu_preferences g; gd_Notes := gu_notes g;
    gd_TotalStays := su_TotalStays s; gd_LoyaltyPts := su_LoyaltyPts s;
    gd_Stays := match stays with inr l => l | inl _ => [] end; gd_LoyaltyTx := match txs with inr l => l | inl _ => [] end |})).

(** ON CONFLICT DO NOTHING: a taken id inserts nothing. *)
Definition CreateGuest (c : Ctx) (body : option createGuestRequest) : M (Resp CrmBody) (Resp CrmBody) :=
  req ← body_of body;
  throw_if (ng_FullName req =s "") (RespError 400 "full_name is required") ;;
  id ← new_uuid;
  let row := {| gu_id := id; gu_hotel_id := hotelID secret c; gu_full_name := ng_FullName req; gu_email := nullif (ng_Email req);
                gu_phone := nullif (ng_Phone req); gu_id_type := None; gu_id_number := None;
                gu_vip_status := Some "standard"; gu_preferences := Some "{}"; gu_notes := None |} in
  failing_text 500 (exec Pool (fun d =>
    if fk_guest id d then inr (tt, d)
    else if fk_hotel (hotelID secret c) d then inr (tt, d <| guests ::= insert_row row |>) else inl (ErrPg "23503"))) ;;
  mret (RespCreated (CB_guest {| gd_ID := id; gd_FullName := ng_FullName req; gd_Email := gu_email row; gd_Phone := gu_phone row;
    gd_VipStatus := "standard"; gd_Preferences := None; gd_Notes := None; gd_TotalStays := 0; gd_LoyaltyPts := 0;
    gd_Stays := []; gd_LoyaltyTx := [] |})).

Definition set_guest (prefs notes vip : option string) (g : GuestRow) : GuestRow :=
  g <| gu_preferences := match prefs with Some _ => prefs | None => gu_preferences g end |>
    <| gu_notes := match notes with Some _ => notes | None => gu_notes g end |>
    <| gu_vip_status := match vip with Some _ => vip | None => gu_vip_status g end |>.
Definition UpdateGuest (c : Ctx) (body : option updateGuestRequest) : M (Resp CrmBody) (Resp CrmBody) :=
  id ← path_id c "invalid guest id";
  req ← body_of body;
  throw_if ((ug_VipStatus req !=s "") && negb (existsb (String.eqb (ug_VipStatus req)) validVip))
    (RespError 400 "vip_status must be standard, silver, gold, or platinum") ;;
  throw_if ((ug_Preferences req =s "") && (ug_Notes req =s "") && (ug_VipStatus req =s "")) (RespError 400 "no fields to update") ;;
  let p := guest_key id (hotelID secret c) in
  n ← failing_text 400 (exec Pool (fun d =>
        match json_param (nullif (ug_Preferences req)) with
        | inl e => inl e
        | inr prefs => inr (rows_affected p (guests d),
            d <| guests ::= update_rows p (set_guest prefs (nullif (ug_Notes req)) (nullif (ug_VipStatus req))) |>)
        end));
  throw_if (Nat.eqb n 0) (RespError 404 "guest not found") ;;
  mret (RespOK (CB_status "updated")).

(** ** Tiers *)

Definition scan_tier (t : LoyaltyTierRow) : loyaltyTierResponse :=
  {| tr_ID := ty_id t; tr_HotelID := ty_hotel_id t; tr_Name := ty_name t; tr_MinPoints := ty_min_points t;
     tr_Multiplier := num_dec (ty_multiplier t); tr_Benefits := ty_benefits t; tr_CreatedAt := scan_time (ty_created_at t) |}.
Definition ListLoyaltyTiers (c : Ctx) : M (Resp CrmBody) (Resp CrmBody) :=
  l ← failing_text 500 (query Pool (fun d => map scan_tier (order_by (fun a b => ty_min_points a <=? ty_min_points b)
        (select (fun t => ueq (ty_hotel_id t) (hotelID secret c)) (loyalty_tiers d)))));
  mret (RespOK (CB_tiers l)).

Definition insert_tier (row : LoyaltyTierRow) (benefits : option string) (d : DB) : GoErr + (unit * DB) :=
  if negb (int_fits (ty_min_points row)) || negb (multiplier_fits (ty_multiplier row)) then inl (ErrPg "22003")
  else match json_param benefits with
       | inl e => inl e
       | inr b => if fk_hotel (ty_hotel_id row) d then inr (tt, d <| loyalty_tiers ::= insert_row (row <| ty_benefits := b |>) |>)
                  else inl (ErrPg "23503")
       end.
Definition CreateLoyaltyTier (c : Ctx) (body : option createLoyaltyTierRequest) : M (Resp CrmBody) (Resp CrmBody) :=
  req ← body_of body;
  throw_if ((nt_Name req =s "") || (nt_MinPoints req <? 0)) (RespError 400 "name is required and min_points must be >= 0") ;;
  tierID ← new_uuid; now ← time_now;
  failing_text 400 (exec Pool (insert_tier
    {| ty_id := tierID; ty_hotel_id := hotelID secret c; ty_name := nt_Name req; ty_min_points := nt_MinPoints req;
       ty_multiplier := num_enc (nt_Multiplier req); ty_benefits := None; ty_created_at := now |} (nt_Benefits req))) ;;
  mret (RespCreated (CB_tier tierID (nt_Name req))).

Definition set_tier (req : updateLoyaltyTierRequest) (benefits : option string) (t : LoyaltyTierRow) : LoyaltyTierRow :=
  t <| ty_name := if ut_Name req =s "" then ty_name t else ut_Name req |>
    <| ty_min_points := default (ty_min_points t) (ut_MinPoints req) |>
    <| ty_multiplier := default (ty_multiplier t) (num_enc <$> ut_Multiplier req) |>
    <| ty_benefits := match benefits with Some _ => benefits | None => ty_benefits t end |>.
Definition update_tier (id h : uuid) (req : updateLoyaltyTierRequest) (d : DB) : GoErr + (nat * DB) :=
  if negb (int_fits (default 0 (ut_MinPoints req))) || negb (multiplier_fits (default 0 (num_enc <$> ut_Multiplier req)))
  then inl (ErrPg "22003")
  else match json_param (ut_Benefits req) with
       | inl e => inl e
       | inr b => inr (rows_affected (tier_key id h) (loyalty_tiers d),
                       d <| loyalty_tiers ::= update_rows (tier_key id h) (set_tier req b) |>)
       end.
Definition UpdateLoyaltyTier (c : Ctx) (body : option updateLoyaltyTierRequest) : M (Resp CrmBody) (Resp CrmBody) :=
  id ← path_id c "invalid tier id";
  req ← body_of body;
  throw_if (default 0 (ut_MinPoints req) <? 0) (RespError 400 "min_points must be >= 0") ;;
  throw_if ((ut_Name req =s "") && match ut_MinPoints req, ut_Multiplier req, ut_Benefits req with None, None, None => true | _, _, _ => false end)
    (RespError 400 "no fields to update") ;;
  n ← failing_text 400 (exec Pool (update_tier id (hotelID secret c) req));
  throw_if (Nat.eqb n 0) (RespError 404 "tier not found") ;;
  mret (RespOK (CB_status "updated")).

(** ** Members and points *)

(** JOIN guests g ON g.id = lm.guest_id LEFT JOIN loyalty_tiers lt *)
Definition scan_member (d : DB) (m : LoyaltyMemberRow) : option loyaltyMemberResponse :=
  g ← find_row (fun g => ueq (gu_id g) (lm_guest_id m)) (guests d);
  Some {| mr_ID := lm_id m; mr_GuestID := lm_guest_id m; mr_GuestName := gu_full_name g;
          mr_TierName := default "Standard" (t ← lm_tier_id m; ty_name <$> find_row (fun x => ueq (ty_id x) t) (loyalty_tiers d));
          mr_Points := lm_points m; mr_LifetimePts := lm_lifetime_points m; mr_EnrolledAt := scan_time (lm_enrolled_at m) |}.
(** A tier_id that is not a UUID is refused by the driver. *)
Definition ListLoyaltyMembers (c : Ctx) : M (Resp CrmBody) (Resp CrmBody) :=
  let v := c_query c "tier_id" in
  tier ← failing_text 500 (if v =s "" then mret None
           else match uuid_parse v with Some t => mret (Some t) | None => throw (Errorf "cannot parse UUID") end);
  l ← failing_text 500 (query Pool (fun d => omap (scan_member d) (order_by (fun a b => lm_points b <=? lm_points a)
        (select (fun m => ueq (lm_hotel_id m) (hotelID secret c)
                          && match tier with Some t => oueq (lm_tier_id m) t | None => true end) (loyalty_members d)))));
  mret (RespOK (CB_members l)).

(** The checks both requests begin with. *)
Definition points_request (body : option pointsRequest) : M (Resp CrmBody) (pointsRequest * uuid) :=
  req ← body_of body;
  guestID ← of_option (uuid_parse (pq_GuestID req)) (RespError 400 "invalid guest_id");
  throw_if (pq_Points req <=? 0) (RespError 400 "points must be positive") ;;
  mret (req, guestID).
(** The line of the member's history both requests end with. *)
Definition record_points (member : uuid) (type : string) (req : pointsRequest) : M (Resp CrmBody) (Resp CrmBody) :=
  txID ← new_uuid; now ← time_now;
  failing_text 400 (exec Pool (insert_points
    {| lx_id := txID; lx_member_id := member; lx_type := type; lx_points := pq_Points req;
       lx_reference := nullableText (pq_Reference req); lx_description := nullableText (pq_Description req); lx_created_at := now |})) ;;
  mret (RespCreated (CB_points txID member (pq_Points req) type)).

Definition AwardPoints (c : Ctx) (body : option pointsRequest) : M (Resp CrmBody) (Resp CrmBody) :=
  rg ← points_request body;
  let '(req, guestID) := rg in
  id ← new_uuid; now ← time_now;
  member ← failing_text 400 (exec Pool (upsert_member
    {| lm_id := id; lm_hotel_id := tenantHotelID c; lm_guest_id := guestID; lm_tier_id := None; lm_points := pq_Points req;
       lm_lifetime_points := pq_Points req; lm_enrolled_at := now |} (pq_Points req)));
  record_points member "earn" req.

(** The two halves of a redemption: reading the balance, and spending from it. *)
Definition redeem_check (c : Ctx) (req : pointsRequest) (guestID : uuid) : M (Resp CrmBody) uuid :=
  m ← failing 404 "loyalty member not found" (query_row Pool (fun d =>
        (fun m => (lm_id m, lm_points m)) <$> find_row (member_key guestID (tenantHotelID c)) (loyalty_members d)));
  let '(memberID, currentPoints) := m in
  throw_if (currentPoints <? pq_Points req)
    (RespError 400 ("insufficient points: have " ++ fmt_d currentPoints ++ ", need " ++ fmt_d (pq_Points req))) ;;
  mret memberID.
Definition redeem_spend (c : Ctx) (req : pointsRequest) (memberID : uuid) : M (Resp CrmBody) (Resp CrmBody) :=
  failing_text 400 (exec Pool (deduct_points memberID (tenantHotelID c) (pq_Points req))) ;;
  record_points memberID "redeem" req.
Definition RedeemPoints (c : Ctx) (body : option pointsRequest) : M (Resp CrmBody) (Resp CrmBody) :=
  rg ← points_request body;
  let '(req, guestID) := rg in
  memberID ← redeem_check c req guestID;
  redeem_spend c req memberID.

(** ** Campaigns *)

Definition scan_campaign (m : CampaignRow) : campaignResponse :=
  {| ca_ID := cm_id m; ca_Name := cm_name m; ca_Audience := opt_str (cm_audience m); ca_Channel := cm_channel m;
     ca_Status := cm_status m; ca_Sent := cm_sent m; ca_Opens := cm_opens m; ca_Clicks := cm_clicks m;
     ca_Revenue := num_dec (cm_revenue m); ca_CreatedAt := scan_time (cm_created_at m) |}.
Definition ListCampaigns (c : Ctx) : M (Resp CrmBody) (Resp CrmBody) :=
  l ← failing_text 500 (query Pool (fun d => map scan_campaign
        (order_by (fun a b => t_ns (cm_created_at b) <=? t_ns (cm_created_at a))
           (select (fun m => ueq (cm_hotel_id m) (tenantHotelID c)) (campaigns d)))));
  mret (RespOK (CB_campaigns l)).

Definition or_default (s def : string) : string := let v := TrimSpace s in if v =s "" then def else v.
Definition CreateCampaign (c : Ctx) (body : option createCampaignRequest) : M (Resp CrmBody) (Resp CrmBody) :=
  req ← body_of body;
  let name := TrimSpace (nc_Name req) in
  throw_if (name =s "") (RespError 422 "campaign name is required") ;;
  let status := or_default (nc_Status req) "draft" in
  id ← new_uuid; now ← time_now;
  failing_text 400 (exec Pool (fun d =>
    if fk_hotel (tenantHotelID c) d then inr (tt, d <| campaigns ::= insert_row
      {| cm_id := id; cm_hotel_id := tenantHotelID c; cm_name := name; cm_audience := nullif (TrimSpace (nc_Audience req));
         cm_channel := or_default (nc_Channel req) "email"; cm_status := status; cm_sent := 0; cm_opens := 0; cm_clicks := 0;
         cm_revenue := 0; cm_created_at := now; cm_updated_at := now |} |>)
    else inl (ErrPg "23503"))) ;;
  mret (RespCreated (CB_campaign id name status)).

Definition set_campaign (req : updateCampaignRequest) (now : Time) (m : CampaignRow) : CampaignRow :=
  m <| cm_name := default (cm_name m) (uc_Name req) |>
    <| cm_audience := match uc_Audience req with Some a => nullif a | None => cm_audience m end |>
    <| cm_channel := default (cm_channel m) (uc_Channel req) |> <| cm_status := default (cm_status m) (uc_Status req) |>
    <| cm_updated_at := now |>.
Definition UpdateCampaign (c : Ctx) (body : option updateCampaignRequest) : M (Resp CrmBody) (Resp CrmBody) :=
  id ← path_id c "invalid campaign id";
  req ← body_of body;
  throw_if (match uc_Name req, uc_Audience req, uc_Channel req, uc_Status req with None, None, None, None => true | _, _, _, _ => false end)
    (RespError 400 "no fields to update") ;;
  now ← time_now;
  let p := campaign_key id (tenantHotelID c) in
  n ← failing_text 400 (exec_n Pool (fun d => (rows_affected p (campaigns d), d <| campaigns ::= update_rows p (set_campaign req now) |>)));
  throw_if (Nat.eqb n 0) (RespError 404 "campaign not found") ;;
  mret (RespOK (CB_campaign_updated id)).
Definition DeleteCampaign (c : Ctx) : M (Resp CrmBody) (Resp CrmBody) :=
  id ← path_id c "invalid campaign id";
  let p := campaign_key id (tenantHotelID c) in
  n ← failing_text 400 (exec_n Pool (fun d => (rows_affected p (campaigns d), d <| campaigns ::= delete_rows p |>)));
  throw_if (Nat.eqb n 0) (RespError 404 "campaign not found") ;;
  mret (RespOK (CB_status "deleted")).

(** ** The routes, behind authGate *)

Inductive CrmOp :=
  | Op_ListGuests | Op_CreateGuest (b : option createGuestRequest) | Op_GetGuest | Op_UpdateGuest (b : option updateGuestRequest)
  | Op_ListLoyaltyTiers | Op_CreateLoyaltyTier (b : option createLoyaltyTierRequest)
  | Op_UpdateLoyaltyTier (b : option updateLoyaltyTierRequest) | Op_ListLoyaltyMembers
  | Op_AwardPoints (b : option pointsRequest) | Op_RedeemPoints (b : option pointsRequest)
  | Op_ListCampaigns | Op_CreateCampaign (b : option createCampaignRequest)
  | Op_UpdateCampaign (b : option updateCampaignRequest) | Op_DeleteCampaign.
Definition crm_route (op : CrmOp) (c : Ctx) : M (Resp CrmBody) (Resp CrmBody) :=
  match op with
  | Op_ListGuests => ListGuests c | Op_CreateGuest b => CreateGuest c b | Op_GetGuest => GetGuest c | Op_UpdateGuest b => UpdateGuest c b
  | Op_ListLoyaltyTiers => ListLoyaltyTiers c | Op_CreateLoyaltyTier b => CreateLoyaltyTier c b
  | Op_UpdateLoyaltyTier b => UpdateLoyaltyTier c b | Op_ListLoyaltyMembers => ListLoyaltyMembers c
  | Op_AwardPoints b => AwardPoints c b | Op_RedeemPoints b => RedeemPoints c b
  | Op_ListCampaigns => ListCampaigns c | Op_CreateCampaign b => CreateCampaign c b
  | Op_UpdateCampaign b => UpdateCampaign c b | Op_DeleteCampaign => DeleteCampaign c
  end.
Record CrmRequest := { cq_ctx : Ctx; cq_op : CrmOp }.
Definition crm_handle (rq : CrmRequest) : M (Resp CrmBody) (Resp CrmBody) :=
  match authGate secret (cq_ctx rq) with
  | inl (status, msg) => throw (RespError status msg)
  | inr c => crm_route (cq_op rq) c
  end.
Definition crm_serve_all (rqs : list CrmRequest) (w : World) : World :=
  foldl (fun w rq => snd (serve (crm_handle rq) w)) w rqs.
End Crm.
