(* ===== verification/CrmSpec.v ===== *)
(** CrmSpec: what the guest book and the loyalty points (Crm) promise: a member's
    points are accounted for whatever fails, and what an award and a redemption
    leave in every outcome. *)

From S2P Require Import Prelude GoLib Schema Binary64 World Auth Guards RoomRepo Accounting Crm.
Local Open Scope string_scope.
Local Open Scope Z_scope.

(** ** The books of a member *)

Definition moved (type : string) (member : uuid) (x : LoyaltyTransactionRow) : bool := ueq (lx_member_id x) member && (lx_type x =s type).
(** What the member's history shows as earned, or as redeemed. *)
Definition logged (type : string) (member : uuid) (d : DB) : Z := sum_rows (moved type member) lx_points (loyalty_transactions d).
Definition spent (m : LoyaltyMemberRow) : Z := lm_lifetime_points m - lm_points m.

(** One member per guest and hotel, and per id; points never negative nor more
    than were ever awarded; the history shows nothing that did not happen. *)
Record loyal (d : DB) : Prop := {
  lo_ids : forall a b, In a (loyalty_members d) -> In b (loyalty_members d) ->
    lm_id a = lm_id b \/ (lm_guest_id a = lm_guest_id b /\ lm_hotel_id a = lm_hotel_id b) -> a = b;
  lo_points : forall m, In m (loyalty_members d) -> 0 <= lm_points m <= lm_lifetime_points m;
  lo_earned : forall m, In m (loyalty_members d) -> logged "earn" (lm_id m) d <= lm_lifetime_points m;
  lo_spent : forall m, In m (loyalty_members d) -> logged "redeem" (lm_id m) d <= spent m;
  lo_moves : forall x, In x (loyalty_transactions d) ->
    0 < lx_points x /\ (lx_type x = "earn" \/ lx_type x = "redeem") /\ exists m, In m (loyalty_members d) /\ lm_id m = lx_member_id x }.

(** Members stay, what they earned and what they spent only grow, and history is
    only added to. *)
Definition member_after (m m' : LoyaltyMemberRow) : Prop :=
  lm_id m' = lm_id m /\ lm_guest_id m' = lm_guest_id m /\ lm_hotel_id m' = lm_hotel_id m
  /\ lm_lifetime_points m <= lm_lifetime_points m' /\ spent m <= spent m'.
Definition points_kept (d d' : DB) : Prop :=
  (forall m, In m (loyalty_members d) -> exists m', In m' (loyalty_members d') /\ member_after m m')
  /\ exists new, loyalty_transactions d' = (loyalty_transactions d ++ new)%list.

Lemma member_after_refl m : member_after m m.
Proof. repeat split; lia. Qed.
Lemma member_after_trans a b c : member_after a b -> member_after b c -> member_after a c.
Proof. intros (? & ? & ? & ? & ?) (? & ? & ? & ? & ?). repeat split; first [congruence | lia]. Qed.
Lemma points_kept_refl d : points_kept d d.
Proof. split; [intros m Hm; exists m; split; [exact Hm | apply member_after_refl] | exists []; now rewrite app_nil_r]. Qed.
Lemma points_kept_trans d1 d2 d3 : points_kept d1 d2 -> points_kept d2 d3 -> points_kept d1 d3.
Proof.
  intros [M1 [n1 E1]] [M2 [n2 E2]]. split.
  - intros m Hm. destruct (M1 m Hm) as (m2 & H2 & A2). destruct (M2 m2 H2) as (m3 & H3 & A3).
    exists m3. split; [exact H3 | exact (member_after_trans _ _ _ A2 A3)].
  - exists (n1 ++ n2)%list. now rewrite E2, E1, app_assoc.
Qed.

(** The tables the points live in. *)
Definition points_same (d d' : DB) : Prop := loyalty_members d' = loyalty_members d /\ loyalty_transactions d' = loyalty_transactions d.
Lemma loyal_same d d' : points_same d d' -> loyal d -> loyal d'.
Proof. intros [E1 E2] [H1 H2 H3 H4 H5]. unfold logged in *. split; unfold logged; rewrite ?E1, ?E2; assumption. Qed.
Lemma kept_same d d' : points_same d d' -> points_kept d d'.
Proof. intros [E1 E2]. destruct (points_kept_refl d) as [H1 H2]. split; rewrite ?E1, ?E2; assumption. Qed.

Lemma logged_none d type m : (forall x, In x (loyalty_transactions d) -> lx_member_id x <> m) -> logged type m d = 0.
Proof.
  intros H. unfold logged, sum_rows. replace (select _ _) with (@nil LoyaltyTransactionRow); [reflexivity|].
  symmetry. destruct (select _ _) as [|x l] eqn:E; [reflexivity|]. assert (Hx : In x (select (moved type m) (loyalty_transactions d))) by (rewrite E; now left).
  apply in_select in Hx as [Hx Hm]. unfold moved, ueq in Hm. apply andb_true_iff in Hm as [Hm%N.eqb_eq _]. destruct (H x Hx Hm).
Qed.
Lemma logged_nonneg d type m : loyal d -> 0 <= logged type m d.
Proof.
  intros Hl. unfold logged, sum_rows. assert (H : forall x, In x (select (moved type m) (loyalty_transactions d)) -> 0 < lx_points x).
  { intros x [Hx _]%in_select. apply (lo_moves d Hl x Hx). }
  induction (select _ _) as [|x l IH]; cbn; [lia|]. pose proof (H x ltac:(now left)). specialize (IH ltac:(intros; apply H; now right)). lia.
Qed.

(** ** Changing one member *)

(** The rows p selects become [f] of themselves, identity kept and books no lower. *)
Lemma update_member p f d : loyal d ->
  (forall m, In m (loyalty_members d) -> p m = true -> member_after m (f m) /\ 0 <= lm_points (f m)) ->
  loyal (d <| loyalty_members ::= update_rows p f |>) /\ points_kept d (d <| loyalty_members ::= update_rows p f |>).
Proof.
  intros [H1 H2 H3 H4 H5] Hf. set (g := fun m => if p m then f m else m).
  assert (Hg : forall m, In m (loyalty_members d) -> member_after m (g m) /\ 0 <= lm_points (g m)).
  { intros m Hm. unfold g. destruct (p m) eqn:E; [now apply Hf|]. split; [apply member_after_refl | apply (H2 m Hm)]. }
  assert (Hb : forall m', In m' (map g (loyalty_members d)) -> exists m, In m (loyalty_members d) /\ m' = g m /\ member_after m m' /\ 0 <= lm_points m').
  { intros m' (m & <- & Hm)%List.in_map_iff. exists m. destruct (Hg m Hm). auto. }
  split; [split; cbn; change (update_rows p f (loyalty_members d)) with (map g (loyalty_members d))|split; cbn].
  - intros a' b' Ha Hb' E. destruct (Hb a' Ha) as (a & Ia & -> & (Ea1 & Ea2 & Ea3 & _) & _).
    destruct (Hb b' Hb') as (b & Ib & -> & (Eb1 & Eb2 & Eb3 & _) & _). f_equal. apply H1; auto. rewrite Ea1, Ea2, Ea3, Eb1, Eb2, Eb3 in E. exact E.
  - intros m' Hm'. destruct (Hb m' Hm') as (m & Im & -> & (_ & _ & _ & Hl & Hs) & Hp). specialize (H2 m Im). unfold spent in Hs. lia.
  - intros m' Hm'. destruct (Hb m' Hm') as (m & Im & -> & (E & _ & _ & Hl & _) & _). rewrite E. specialize (H3 m Im). change (logged "earn" (lm_id m) d <= lm_lifetime_points (g m)). lia.
  - intros m' Hm'. destruct (Hb m' Hm') as (m & Im & -> & (E & _ & _ & _ & Hs) & _). rewrite E. specialize (H4 m Im). change (logged "redeem" (lm_id m) d <= spent (g m)). lia.
  - intros x Hx. destruct (H5 x Hx) as (Hp & Ht & m & Im & Em). split; [exact Hp|]. split; [exact Ht|]. exists (g m). split; [now apply List.in_map|].
    destruct (Hg m Im) as [(E & _) _]. congruence.
  - intros m Hm. exists (g m). split; [change (In (g m) (map g (loyalty_members d))); now apply List.in_map | apply (Hg m Hm)].
  - exists []. now rewrite app_nil_r.
Qed.

(** *** Awarding *)

Definition new_member (id h guest : uuid) (n : Z) (now : Time) : LoyaltyMemberRow :=
  {| lm_id := id; lm_hotel_id := h; lm_guest_id := guest; lm_tier_id := None; lm_points := n; lm_lifetime_points := n; lm_enrolled_at := now |}.

Lemma upsert_loyal row n d u d1 : loyal d -> 0 < n -> lm_points row = n -> lm_lifetime_points row = n ->
  upsert_member row n d = inr (u, d1) ->
  loyal d1 /\ points_kept d d1 /\ exists m, In m (loyalty_members d1) /\ lm_id m = u /\ logged "earn" u d1 + n <= lm_lifetime_points m.
Proof.
  intros Hl Hn Ep El. unfold upsert_member. destruct (int_fits n); cbn [negb]; [|discriminate].
  destruct (find_row _ _) as [m|] eqn:Ef.
  - destruct (_ && _); [|discriminate]. intros [= <- <-]. apply find_row_some in Ef as [Hm Hk].
    destruct (update_member (member_key (lm_guest_id row) (lm_hotel_id row)) (award_points n) d Hl) as [K1 K2].
    { intros m' Hm' _. pose proof (lo_points d Hl m' Hm'). split; [|cbn; lia]. repeat split; cbn; unfold spent; cbn; lia. }
    split; [exact K1|]. split; [exact K2|]. exists (award_points n m). split.
    + cbn. apply in_update_rows. exists m. rewrite Hk. auto.
    + split; [reflexivity|]. pose proof (lo_earned d Hl m Hm). change (logged "earn" (lm_id m) d + n <= lm_lifetime_points m + n). lia.
  - destruct (exists_row _ _) eqn:Ex; [discriminate|]. destruct (_ && _); [|discriminate]. intros [= <- <-].
    rewrite exists_row_false in Ex. pose proof (fun r => find_row_none _ _ r Ef) as Hnone.
    destruct Hl as [H1 H2 H3 H4 H5].
    assert (Hz : forall type, logged type (lm_id row) d = 0).
    { intros type. apply logged_none. intros x Hx E. destruct (H5 x Hx) as (_ & _ & m & Hm & Em). specialize (Ex m Hm).
      unfold ueq in Ex. rewrite Em, E, N.eqb_refl in Ex. discriminate. }
    assert (Hdiff : forall m, In m (loyalty_members d) -> ~ (lm_id m = lm_id row \/ (lm_guest_id m = lm_guest_id row /\ lm_hotel_id m = lm_hotel_id row))).
    { intros m Hm [E|[E1 E2]].
      - specialize (Ex m Hm). unfold ueq in Ex. rewrite E, N.eqb_refl in Ex. discriminate.
      - specialize (Hnone m Hm). unfold member_key, ueq in Hnone. rewrite E1, E2, !N.eqb_refl in Hnone. discriminate. }
    split; [split; cbn|split; [split; cbn|]].
    + intros a b [Ha| ->]%in_insert_row [Hb| ->]%in_insert_row E; [now apply H1 | exfalso; eapply Hdiff; eauto | | reflexivity].
      exfalso. apply (Hdiff b Hb). intuition congruence.
    + intros m [Hm| ->]%in_insert_row; [now apply H2 | lia].
    + intros m [Hm| ->]%in_insert_row; [now apply H3 | change (logged "earn" (lm_id row) d <= lm_lifetime_points row); rewrite Hz; lia].
    + intros m [Hm| ->]%in_insert_row; [now apply H4 | change (logged "redeem" (lm_id row) d <= spent row); rewrite Hz; unfold spent; lia].
    + intros x Hx. destruct (H5 x Hx) as (Hp & Ht & m & Hm & Em). split; [exact Hp|]. split; [exact Ht|]. exists m. split; [apply in_insert_row; now left | exact Em].
    + intros m Hm. exists m. split; [apply in_insert_row; now left | apply member_after_refl].
    + exists []. now rewrite app_nil_r.
    + exists row. split; [cbn; apply in_insert_row; now right|]. split; [reflexivity|]. change (logged "earn" (lm_id row) d + n <= lm_lifetime_points row). rewrite Hz. lia.
Qed.

(** *** Logging *)

Lemma log_loyal row d u d1 m : loyal d -> insert_points row d = inr (u, d1) -> 0 < lx_points row ->
  In m (loyalty_members d) -> lm_id m = lx_member_id row ->
  (lx_type row = "earn" /\ logged "earn" (lm_id m) d + lx_points row <= lm_lifetime_points m
   \/ lx_type row = "redeem" /\ logged "redeem" (lm_id m) d + lx_points row <= spent m) ->
  loyal d1 /\ points_kept d d1 /\ d1 = d <| loyalty_transactions ::= insert_row row |>.
Proof.
  intros [H1 H2 H3 H4 H5] E Hp Hm Em Ht. unfold insert_points in E. destruct (negb _); [discriminate|].
  destruct (exists_row _ _); [discriminate|]. destruct (exists_row _ _); [|discriminate]. injection E as _ <-.
  split; [|split; [split; [intros m' Hm'; exists m'; split; [exact Hm' | apply member_after_refl] | now eexists] | reflexivity]].
  assert (Hadd : forall type k, logged type k (d <| loyalty_transactions ::= insert_row row |>)
            = logged type k d + (if moved type k row then lx_points row else 0)) by (intros; apply sum_rows_insert).
  split; try assumption.
  - intros m' Hm'. rewrite Hadd. specialize (H3 m' Hm'). unfold moved. destruct (ueq _ _) eqn:Eu; cbn [andb]; [|lia]. apply N.eqb_eq in Eu.
    assert (m' = m) by (apply H1; auto; left; congruence). subst m'.
    destruct (String.eqb_spec (lx_type row) "earn") as [Et|Et]; [|lia]. destruct Ht as [[_ Ht]|[Et' _]]; [exact Ht | congruence].
  - intros m' Hm'. rewrite Hadd. specialize (H4 m' Hm'). unfold moved. destruct (ueq _ _) eqn:Eu; cbn [andb]; [|lia]. apply N.eqb_eq in Eu.
    assert (m' = m) by (apply H1; auto; left; congruence). subst m'.
    destruct (String.eqb_spec (lx_type row) "redeem") as [Et|Et]; [|lia]. destruct Ht as [[Et' _]|[_ Ht]]; [congruence | exact Ht].
  - cbn. intros x [Hx| ->]%in_insert_row; [auto|]. split; [exact Hp|]. split; [tauto | eauto].
Qed.

Lemma spend_loyal id h n d u d1 m : loyal d -> 0 < n -> In m (loyalty_members d) -> lm_id m = id -> lm_hotel_id m = h -> n <= lm_points m ->
  deduct_points id h n d = inr (u, d1) ->
  loyal d1 /\ points_kept d d1 /\ (exists m1, In m1 (loyalty_members d1) /\ lm_id m1 = id /\ logged "redeem" id d1 + n <= spent m1)
  /\ d1 = d <| loyalty_members ::= update_rows (member_row id h) (spend_points n) |>.
Proof.
  intros Hl Hn Hm Ei Eh Hle. unfold deduct_points. destruct (_ || _); [discriminate|]. intros [= _ <-].
  assert (Honly : forall x, In x (loyalty_members d) -> member_row id h x = true -> x = m).
  { intros x Hx [E%N.eqb_eq _]%andb_true_iff. apply (lo_ids d Hl); auto. left. congruence. }
  destruct (update_member (member_row id h) (spend_points n) d Hl) as [K1 K2].
  { intros x Hx Hp. rewrite (Honly x Hx Hp). pose proof (lo_points d Hl m Hm). split; [|cbn; lia].
    repeat split; unfold spent; cbn; lia. }
  split; [exact K1|]. split; [exact K2|]. split; [|reflexivity]. exists (spend_points n m). split.
  - cbn. apply in_update_rows. exists m. unfold member_row, ueq. rewrite Ei, Eh, !N.eqb_refl. auto.
  - split; [exact Ei|]. pose proof (lo_spent d Hl m Hm) as H. rewrite Ei in H.
    change (logged "redeem" id d + n <= lm_lifetime_points m - (lm_points m - n)). unfold spent in H. lia.
Qed.

(** ** Requests *)

Definition refused (r : Resp CrmBody) : Prop := exists status msg, r = RespError status msg.
Lemma refused_intro status msg : refused (RespError status msg).
Proof. do 2 eexists. reflexivity. Qed.
#[export] Hint Resolve refused_intro : core.

(** The line of history a request leaves. *)
Definition history_line (id member : uuid) (type : string) (req : pointsRequest) (now : Time) : LoyaltyTransactionRow :=
  {| lx_id := id; lx_member_id := member; lx_type := type; lx_points := pq_Points req; lx_reference := nullableText (pq_Reference req);
     lx_description := nullableText (pq_Description req); lx_created_at := now |}.
(** The members after n points were given to a guest. *)
Definition awarded (row : LoyaltyMemberRow) (n : Z) (d : DB) : DB :=
  let p := member_key (lm_guest_id row) (lm_hotel_id row) in
  if exists_row p (loyalty_members d) then d <| loyalty_members ::= update_rows p (award_points n) |>
  else d <| loyalty_members ::= insert_row row |>.

Section Requests.
Context {env : Env} {jwt : Jwt} {col : JsonColumn} (secret : string).

Lemma upsert_awarded row n d u d1 : upsert_member row n d = inr (u, d1) -> d1 = awarded row n d.
Proof.
  unfold upsert_member, awarded. destruct (negb _); [discriminate|]. destruct (find_row _ _) as [m|] eqn:E.
  - replace (exists_row _ _) with true by (symmetry; apply exists_row_true; exists m; exact (find_row_some _ _ _ E)).
    destruct (_ && _); [|discriminate]. now intros [= _ <-].
  - replace (exists_row (member_key _ _) _) with false by (symmetry; apply exists_row_false; intros x Hx; exact (find_row_none _ _ x E Hx)).
    destruct (exists_row _ _); [discriminate|]. destruct (_ && _); [|discriminate]. now intros [= _ <-].
Qed.

Lemma ens_then_exec {A B} st (f : DB -> GoErr + (A * DB)) (k : A -> M (Resp CrmBody) B) d Q (R : Resp CrmBody -> DB -> Prop) :
  (forall s m, R (RespError s m) d) -> (forall a d', f d = inr (a, d') -> ensures (k a) d' Q R) ->
  ensures (a ← failing_text st (exec Pool f); k a) d Q R.
Proof.
  intros HR Hk. eapply ens_bind with (Q1 := fun a d' => f d = inr (a, d')); [|exact Hk].
  apply ens_on_err, ens_exec; [apply HR|]. destruct (f d) as [e|[a d']]; [apply HR | reflexivity].
Qed.

(** The last statement of both requests. *)
Lemma ens_points_record member type req d (Q : Resp CrmBody -> DB -> Prop) R :
  (forall s m, R (RespError s m) d) ->
  (forall id now d', insert_points (history_line id member type req now) d = inr (tt, d') ->
     Q (RespCreated (CB_points id member (pq_Points req) type)) d') ->
  ensures (record_points member type req) d Q R.
Proof.
  intros HR HQ. unfold record_points. apply ens_then_uuid. intros n. apply ens_then_now. intros now.
  apply ens_then_exec; [exact HR|]. intros [] d' E. now apply ens_ret, (HQ _ now).
Qed.

(** A request that asks for points that are not positive, or for no guest, is refused. *)
Lemma ens_points_request {B} body (k : pointsRequest * uuid -> M (Resp CrmBody) B) d Q (R : Resp CrmBody -> DB -> Prop) :
  (forall s m, R (RespError s m) d) ->
  (forall req guest, body = Some req -> uuid_parse (pq_GuestID req) = Some guest -> 0 < pq_Points req -> ensures (k (req, guest)) d Q R) ->
  ensures (rg ← points_request body; k rg) d Q R.
Proof.
  intros HR Hk. eapply ens_bind with (Q1 := fun rg d' => d' = d /\ body = Some (fst rg) /\ uuid_parse (pq_GuestID (fst rg)) = Some (snd rg) /\ 0 < pq_Points (fst rg)).
  - unfold points_request, body_of. apply ens_then_option; [intros _; apply HR|]. intros req E. apply ens_then_option; [intros _; apply HR|].
    intros guest Eg. apply ens_then_throw_if; [intros _; apply HR|]. intros Hp%Z.leb_gt. now apply ens_ret.
  - intros [req guest] d' (-> & E & Eg & Hp). now apply Hk.
Qed.

(** The outcomes of an award: refused, granted and recorded, or granted without
    the line of history when the second statement fails. *)
Lemma AwardPoints_ens c body d : loyal d ->
  ensures (AwardPoints c body) d
    (fun r d' => loyal d' /\ points_kept d d' /\ exists req guest row id now member, body = Some req /\ uuid_parse (pq_GuestID req) = Some guest
       /\ lm_guest_id row = guest /\ lm_hotel_id row = tenantHotelID c /\ lm_points row = pq_Points req /\ 0 < pq_Points req
       /\ r = RespCreated (CB_points id member (pq_Points req) "earn")
       /\ d' = (awarded row (pq_Points req) d) <| loyalty_transactions ::= insert_row (history_line id member "earn" req now) |>)
    (fun r d' => loyal d' /\ points_kept d d' /\ refused r /\ (d' = d \/ exists row n, 0 < n /\ d' = awarded row n d)).
Proof.
  intros Hl. unfold AwardPoints. apply ens_points_request.
  { intros s m. split; [exact Hl|]. split; [apply points_kept_refl | auto]. }
  intros req guest Eb Eg Hn. apply ens_then_uuid. intros n. apply ens_then_now. intros now. cbv zeta.
  set (row := Build_LoyaltyMemberRow _ _ _ _ _ _ _).
  apply ens_then_exec; [intros s m; split; [exact Hl|]; split; [apply points_kept_refl | auto]|].
  intros member d1 E. destruct (upsert_loyal row (pq_Points req) d member d1 Hl Hn eq_refl eq_refl E) as (L1 & K1 & m & Hm & Em & Hs).
  pose proof (upsert_awarded _ _ _ _ _ E) as Ed1. apply ens_points_record.
  - intros s msg. split; [exact L1|]. split; [exact K1|]. split; [auto|]. right. eauto.
  - intros id t d2 E2. destruct (log_loyal _ _ _ _ m L1 E2) as (L2 & K2 & Ed2); [exact Hn | exact Hm | exact Em | left; split; [reflexivity | rewrite Em; exact Hs]|].
    split; [exact L2|]. split; [exact (points_kept_trans _ _ _ K1 K2)|].
    exists req, guest, row, id, t, member. rewrite Ed2, Ed1. repeat split; first [assumption | reflexivity].
Qed.

(** The members after a redemption. *)
Definition redeemed (id h : uuid) (n : Z) (d : DB) : DB := d <| loyalty_members ::= update_rows (member_row id h) (spend_points n) |>.

(** The outcomes of a redemption: refused when the guest is no member or has too
    few points, or because a statement failed; taken and recorded; or taken
    without the line of history when the last statement fails. *)
Lemma RedeemPoints_ens c body d : loyal d ->
  ensures (RedeemPoints c body) d
    (fun r d' => loyal d' /\ points_kept d d' /\ exists req guest m id now, body = Some req /\ uuid_parse (pq_GuestID req) = Some guest
       /\ In m (loyalty_members d) /\ member_key guest (tenantHotelID c) m = true /\ 0 < pq_Points req <= lm_points m
       /\ r = RespCreated (CB_points id (lm_id m) (pq_Points req) "redeem")
       /\ d' = (redeemed (lm_id m) (tenantHotelID c) (pq_Points req) d)
                <| loyalty_transactions ::= insert_row (history_line id (lm_id m) "redeem" req now) |>)
    (fun r d' => loyal d' /\ points_kept d d' /\ refused r
       /\ (d' = d \/ exists m n, In m (loyalty_members d) /\ 0 < n <= lm_points m /\ d' = redeemed (lm_id m) (lm_hotel_id m) n d)).
Proof.
  intros Hl. assert (Hstop : forall s m, loyal d /\ points_kept d d /\ refused (RespError s m)
    /\ (d = d \/ exists m n, In m (loyalty_members d) /\ 0 < n <= lm_points m /\ d = redeemed (lm_id m) (lm_hotel_id m) n d)).
  { intros s m. split; [exact Hl|]. split; [apply points_kept_refl | auto]. }
  unfold RedeemPoints. apply ens_points_request; [exact Hstop|]. intros req guest Eb Eg Hn. cbv beta iota.
  eapply ens_bind with (Q1 := fun u d' => d' = d /\ exists m, In m (loyalty_members d) /\ member_key guest (tenantHotelID c) m = true
    /\ u = lm_id m /\ pq_Points req <= lm_points m).
  { unfold redeem_check, failing. apply ens_then_row; [intros e; apply Hstop|]. intros [u pts] Ef.
    destruct (find_row _ _) as [m|] eqn:E; [|discriminate]. injection Ef as <- <-. apply find_row_some in E as [Hm Hk].
    apply ens_then_throw_if; [intros _; apply Hstop|]. intros Hp%Z.ltb_ge. apply ens_ret. eauto 10. }
  intros u d' (-> & m & Hm & Hk & -> & Hp). unfold redeem_spend.
  assert (Hh : lm_hotel_id m = tenantHotelID c) by (apply andb_true_iff in Hk as [_ Hk%N.eqb_eq]; exact Hk).
  apply ens_then_exec; [exact Hstop|]. intros [] d1 E.
  destruct (spend_loyal (lm_id m) (tenantHotelID c) (pq_Points req) d tt d1 m Hl Hn Hm eq_refl Hh Hp E) as (L1 & K1 & (m1 & Hm1 & Em1 & Hs) & Ed1).
  apply ens_points_record.
  - intros s msg. split; [exact L1|]. split; [exact K1|]. split; [auto|]. right. exists m, (pq_Points req). rewrite Hh. auto.
  - intros id t d2 E2. destruct (log_loyal _ _ _ _ m1 L1 E2) as (L2 & K2 & Ed2);
      [exact Hn | exact Hm1 | exact Em1 | right; split; [reflexivity | rewrite Em1; exact Hs]|].
    split; [exact L2|]. split; [exact (points_kept_trans _ _ _ K1 K2)|].
    exists req, guest, m, id, t. rewrite Ed2, Ed1. repeat split; first [assumption | reflexivity].
Qed.

(** Every other request leaves the points alone. *)
Lemma keeps_same d0 {A} c (f : DB -> GoErr + (A * DB)) :
  (forall d a d', f d = inr (a, d') -> points_same d d') -> keeps (points_same d0) (exec c f).
Proof. intros Hf. apply keeps_exec. intros d a d' [E1 E2] E. destruct (Hf d a d' E) as [H1 H2]. split; congruence. Qed.

Definition moves_points (op : CrmOp) : bool := match op with Op_AwardPoints _ | Op_RedeemPoints _ => true | _ => false end.
Lemma crm_route_same d0 op c : moves_points op = false -> keeps (points_same d0) (crm_route secret op c) /\ inert Pool (crm_route secret op c).
Proof.
  intros Ho. destruct op; try discriminate; cbn [crm_route];
    unfold ListGuests, GetGuest, CreateGuest, UpdateGuest, ListLoyaltyTiers, CreateLoyaltyTier, UpdateLoyaltyTier, ListLoyaltyMembers,
      ListCampaigns, CreateCampaign, UpdateCampaign, DeleteCampaign, path_id, body_of, failing, failing_text, exec_n; cbv zeta;
    (split; [|repeat first [inert_step | case_match]]).
  all: repeat first [ keeps_step | apply keeps_same; intros ? ? ?; unfold insert_tier, update_tier; repeat case_match;
                      intros E; first [discriminate E | injection E as _ <-; split; reflexivity] ].
Qed.

Lemma crm_handle_ens rq d : loyal d ->
  ensures (crm_handle secret rq) d (fun _ d' => loyal d' /\ points_kept d d') (fun _ d' => loyal d' /\ points_kept d d').
Proof.
  intros Hl. unfold crm_handle. destruct (authGate secret (cq_ctx rq)) as [[s m]|c]; [apply ens_throw; auto using points_kept_refl|].
  destruct (moves_points (cq_op rq)) eqn:Em.
  - destruct (cq_op rq); try discriminate; cbn [crm_route].
    + eapply ens_post; [apply AwardPoints_ens, Hl | |]; intros ? ? (? & ? & _); auto.
    + eapply ens_post; [apply RedeemPoints_ens, Hl | |]; intros ? ? (? & ? & _); auto.
  - destruct (crm_route_same d (cq_op rq) c Em) as [Hk Hi].
    eapply ens_post; [apply (ens_keeps (points_same d) _ d Hk Hi); split; reflexivity | |];
      intros ? d' Hs; split; [exact (loyal_same d d' Hs Hl) | exact (kept_same d d' Hs) | exact (loyal_same d d' Hs Hl) | exact (kept_same d d' Hs)].
Qed.
End Requests.

(** ** Claims *)

(** C37: through any sequence of CRM requests, whatever fails, every member of the
    loyalty scheme is kept, one per guest and hotel; points are never negative nor
    more than were ever awarded; what was earned and what was spent only grow; the
    history is only added to, and shows no more earned than was awarded and no
    more redeemed than was spent.  A further redemption is refused, or takes at
    most what the member has, which is then lower by exactly that, with one line
    of history; when it is answered with an error, the points may be gone without
    that line, and nothing else has changed. *)
Theorem loyalty_points_accounted (env : Env) (jwt : Jwt) (col : JsonColumn) secret rqs w
  (Ht : w_tx w = NoTx) (Hl : loyal (w_db w)) (d := w_db (crm_serve_all secret rqs w)) :
  loyal d /\ points_kept (w_db w) d
  /\ forall c body, ensures (RedeemPoints c body) d
       (fun r d' => exists req guest m id now, body = Some req /\ uuid_parse (pq_GuestID req) = Some guest
          /\ In m (loyalty_members d) /\ member_key guest (tenantHotelID c) m = true /\ 0 < pq_Points req <= lm_points m
          /\ r = RespCreated (CB_points id (lm_id m) (pq_Points req) "redeem")
          /\ d' = (redeemed (lm_id m) (tenantHotelID c) (pq_Points req) d)
                   <| loyalty_transactions ::= insert_row (history_line id (lm_id m) "redeem" req now) |>)
       (fun r d' => refused r /\ (d' = d \/ exists m n, In m (loyalty_members d) /\ 0 < n <= lm_points m
                                            /\ d' = redeemed (lm_id m) (lm_hotel_id m) n d)).
Proof.
  assert (H : loyal d /\ points_kept (w_db w) d /\ w_tx (crm_serve_all secret rqs w) = NoTx).
  { unfold d, crm_serve_all. clear d. revert w Ht Hl. induction rqs as [|rq rqs IH]; intros w Ht Hl; [split; [exact Hl | split; [apply points_kept_refl | exact Ht]]|].
    cbn [foldl]. destruct (serve_ensures (crm_handle secret rq) (w_db w) (fun _ d' => loyal d' /\ points_kept (w_db w) d') w) as [[L K] T];
      [split; [exact Ht | reflexivity] | now apply crm_handle_ens |].
    destruct (IH _ T L) as (L2 & K2 & T2). split; [exact L2|]. split; [exact (points_kept_trans _ _ _ K K2) | exact T2]. }
  destruct H as (L & K & _). split; [exact L|]. split; [exact K|]. intros c body.
  eapply ens_post; [apply RedeemPoints_ens, L | |]; intros r d' (_ & _ & H); exact H.
Qed.

#[export] Instance plain_json : JsonColumn := {| jsonb_in := fun s => if s =s "" then None else Some s |}.
Definition guest_book : DB :=
  empty_db <| hotels := map (fun i => {| ho_id := i; ho_name := "Serene"; ho_slug := "serene"; ho_gst_rate := None; ho_is_active := true;
                ho_plan_tier := "premium"; ho_modules := []; ho_address := None; ho_settings := []; ho_identity := no_identity |}) [1; 2]%N |>
    <| guests := map (fun p => {| gu_id := fst p; gu_hotel_id := snd p; gu_full_name := "Asha Rao"; gu_email := None; gu_phone := Some "9876543210";
                gu_id_type := None; gu_id_number := None; gu_vip_status := None; gu_preferences := None; gu_notes := None |}) [(51, 1); (52, 2)]%N |>.
Definition points (n : Z) (guest : string) : pointsRequest :=
  {| pq_GuestID := guest; pq_Points := n; pq_Reference := ""; pq_Description := "stay" |}.
Definition desk (op : CrmOp) : CrmRequest := {| cq_ctx := demo_request "receptionist@1" ""; cq_op := op |}.
(** 100 points awarded, 120 refused, 30 redeemed. *)
Definition loyal_guest : list CrmRequest :=
  [desk (Op_AwardPoints (Some (points 100 "51"))); desk (Op_RedeemPoints (Some (points 120 "51"))); desk (Op_RedeemPoints (Some (points 30 "51")))].
Lemma guest_book_loyal : loyal guest_book.
Proof. split; cbn; intros; contradiction. Qed.

Lemma loyalty_points_accounted_witness :
  let d := w_db (crm_serve_all (env := calm) (jwt := demo_jwt) (col := plain_json) "secret" loyal_guest (start guest_book)) in
  map (fun m => (lm_points m, lm_lifetime_points m)) (loyalty_members d) = [(70, 100)]
  /\ map (fun x => (lx_type x, lx_points x)) (loyalty_transactions d) = [("earn", 100); ("redeem", 30)]
  /\ loyal d /\ points_kept guest_book d.
Proof.
  intros d. split; [vm_compute; reflexivity|]. split; [vm_compute; reflexivity|].
  destruct (loyalty_points_accounted calm demo_jwt plain_json "secret" loyal_guest (start guest_book) eq_refl guest_book_loyal) as (L & K & _).
  exact (conj L K).
Defined.

(** Three departures from what the code intends.  Two redemptions of 60 that read
    the balance of 100 before either spends both succeed, and leave it at -20.  An
    award enrols a guest of another hotel, whose name the list of members then
    shows.  When the second statement of an award fails, the points are granted
    behind an error, and repeating the request grants them again. *)
Theorem points_departures (jwt := demo_jwt) (col := plain_json) (c := (demo_request "receptionist@1" "") <| c_hotel_id := Some "1" |>)
  (g := {| lm_id := 700; lm_hotel_id := 1; lm_guest_id := 51; lm_tier_id := None; lm_points := 100; lm_lifetime_points := 100;
           lm_enrolled_at := Date 2026 1 1 0 0 0 |}%N) :
  (let d := guest_book <| loyalty_members := [g] |> in let req := points 60 "51" in
   let '(r1, w1) := redeem_check (env := calm) c req 51%N (start d) in
   let '(r2, w2) := redeem_check (env := calm) c req 51%N w1 in
   match r1, r2 with
   | inr m1, inr m2 =>
       let '(s1, w3) := redeem_spend (env := calm) c req m1 w2 in
       let '(s2, w4) := redeem_spend (env := calm) c req m2 w3 in
       (exists id, s1 = inr (RespCreated (CB_points id 700%N 60 "redeem"))) /\ (exists id, s2 = inr (RespCreated (CB_points id 700%N 60 "redeem")))
       /\ map lm_points (loyalty_members (w_db w4)) = [-20]
   | _, _ => False
   end)
  /\ (let '(r, w) := AwardPoints (env := calm) c (Some (points 10 "52")) (start guest_book) in
      (exists tx m, r = inr (RespCreated (CB_points tx m 10 "earn")))
      /\ exists l, fst (ListLoyaltyMembers (env := calm) (jwt := demo_jwt) "secret" (demo_request "receptionist@1" "") w) = inr (RespOK (CB_members l))
           /\ map mr_GuestName l = ["Asha Rao"] /\ map mr_GuestID l = [52]%N /\ map gu_hotel_id (select (fun g => ueq (gu_id g) 52) (guests guest_book)) = [2]%N)
  /\ (let lost := demo_env (fun n => Nat.eqb n 1) in
      let '(r, w) := AwardPoints (env := lost) c (Some (points 10 "51")) (start guest_book) in
      (exists msg, r = inl (RespError 400 msg)) /\ map lm_points (loyalty_members (w_db w)) = [10] /\ loyalty_transactions (w_db w) = []
      /\ map lm_points (loyalty_members (w_db (snd (AwardPoints (env := lost) c (Some (points 10 "51")) w)))) = [20]).
Proof. vm_compute. repeat (split || eexists). Qed.
