(* ===== verification/RoomDesk.v ===== *)
(** RoomDesk: internal/handler/room_handler.go.  The rooms of a hotel, and the
    lists of them kept in the cache.

    What the cache answers to a Get, after the calls made of it, and the JSON of
    a list of rooms are parameters. *)

From S2P Require Import Prelude GoLib Schema Binary64 World Auth Domain RoomRepo Gateway.
From Stdlib Require Import QArith.
Local Open Scope string_scope.
Local Open Scope Z_scope.

Class RoomCache := { list_reply : list OutCall -> string -> GoErr + string }.
Class RoomJson := { rooms_marshal : list Room -> option string; rooms_unmarshal : string -> option (list Room) }.

Record createRoomRequest := {
  cr_RoomNumber : string; cr_RoomType : string; cr_Floor : Z; cr_Capacity : Z; cr_PricePerNight : Q; cr_Status : string;
  cr_Amenities : option (list string) }.
Inductive RoomBody := RB_room (r : Room) | RB_rooms (l : list Room) | RB_status (s : string).

Section RoomDesk.
Context {env : Env} {cache : RoomCache} {json : RoomJson}.

Definition cache_get_list {E} (key : string) : M E (GoErr + string) := call_out (fun past => list_reply past key) (CallGet key).

(** The keys a change of rooms drops. *)
Definition room_keys (hid : string) : list string :=
  [ KeyDashboardStats hid; KeyRoomList hid "all"; KeyRoomList hid RoomStatusAvailable; KeyRoomList hid RoomStatusOccupied;
    KeyRoomList hid RoomStatusCleaning; KeyRoomList hid RoomStatusMaintenance ].
Definition invalidateRooms {E} (c : Ctx) : M E unit := cache_delete (room_keys (uuid_string (tenantHotelID c))).

Definition room_id (c : Ctx) : M (Resp RoomBody) uuid := of_option (uuid_parse (c_params c "id")) (RespError 400 "invalid room id").
Definition room_error {A} (status : Z) (m : M GoErr A) : M (Resp RoomBody) A := on_err m (fun e => RespError status (err_text e)).

Definition Rooms_Update (c : Ctx) (fields : option (list RoomField)) : M (Resp RoomBody) (Resp RoomBody) :=
  id ← room_id c;
  fields ← of_option fields (RespError 400 "invalid request body");
  room ← room_error 400 (UpdateRoom Pool (tenantHotelID c) id fields);
  invalidateRooms c ;;
  mret (RespOK (RB_room room)).

Definition Rooms_Delete (c : Ctx) : M (Resp RoomBody) (Resp RoomBody) :=
  id ← room_id c;
  room_error 400 (DeleteRoom Pool (tenantHotelID c) id) ;;
  invalidateRooms c ;;
  mret (RespOK (RB_status "deleted")).

(** The list of a status, or of all rooms under the key "all". *)
Definition Rooms_List (c : Ctx) : M (Resp RoomBody) (Resp RoomBody) :=
  let raw := c_query c "status" in
  let status := nullif raw in
  let cacheKey := KeyRoomList (uuid_string (tenantHotelID c)) (if raw =s "" then "all" else raw) in
  cached ← cache_get_list cacheKey;
  match match cached with inr v => rooms_unmarshal v | inl _ => None end with
  | Some rooms => mret (RespOK (RB_rooms rooms))
  | None =>
      rooms ← room_error 500 (ListRooms Pool (tenantHotelID c) status);
      match rooms_marshal rooms with Some b => cache_set cacheKey b | None => mret tt end ;;
      mret (RespOK (RB_rooms rooms))
  end.

Definition ListAvailable (c : Ctx) : M (Resp RoomBody) (Resp RoomBody) :=
  let rawIn := c_query c "check_in" in
  let rawOut := c_query c "check_out" in
  throw_if ((rawIn =s "") || (rawOut =s "")) (RespError 400 "check_in and check_out are required (YYYY-MM-DD)") ;;
  checkIn ← of_option (parse_date rawIn) (RespError 400 "invalid check_in, expected YYYY-MM-DD");
  checkOut ← of_option (parse_date rawOut) (RespError 400 "invalid check_out, expected YYYY-MM-DD");
  throw_if (negb (After checkOut checkIn)) (RespError 400 "check_out must be after check_in") ;;
  rooms ← room_error 500 (ListRoomsAvailableBetween Pool (tenantHotelID c) checkIn checkOut);
  mret (RespOK (RB_rooms rooms)).

Definition room_of (req : createRoomRequest) : Room :=
  {| R_ID := uuid_nil; R_HotelID := uuid_nil; R_RoomNumber := cr_RoomNumber req; R_RoomType := cr_RoomType req;
     R_Floor := cr_Floor req; R_Capacity := cr_Capacity req; R_PricePerNight := cr_PricePerNight req;
     R_Status := if cr_Status req =s "" then RoomStatusAvailable else cr_Status req; R_Amenities := cr_Amenities req;
     R_CreatedAt := Date 1 1 1 0 0 0; R_UpdatedAt := Date 1 1 1 0 0 0 |}.
Definition Rooms_Create (c : Ctx) (body : option createRoomRequest) : M (Resp RoomBody) (Resp RoomBody) :=
  req ← of_option body (RespError 400 "invalid request body");
  room ← room_error 400 (CreateRoom Pool (tenantHotelID c) (room_of req));
  invalidateRooms c ;;
  mret (RespCreated (RB_room room)).

Definition Rooms_UpdateStatus (c : Ctx) (body : option string) : M (Resp RoomBody) (Resp RoomBody) :=
  id ← room_id c;
  status ← of_option body (RespError 400 "invalid request body");
  throw_if (negb (RoomStatus_Valid status))
    (RespError 400 ("invalid status, expected one of: " ++ String.concat ", " RoomStatusValues)) ;;
  on_err (UpdateRoomStatus Pool (tenantHotelID c) id status)
    (fun e => if errors_is e ErrNotFound then RespError 404 "room not found" else RespError 400 (err_text e)) ;;
  invalidateRooms c ;;
  mret (RespOK (RB_status "updated")).

Inductive RoomOp :=
  | Op_List | Op_ListAvailable | Op_Create (b : option createRoomRequest) | Op_UpdateStatus (b : option string)
  | Op_Update (b : option (list RoomField)) | Op_Delete.
Definition room_route (op : RoomOp) (c : Ctx) : M (Resp RoomBody) (Resp RoomBody) :=
  match op with
  | Op_List => Rooms_List c | Op_ListAvailable => ListAvailable c | Op_Create b => Rooms_Create c b | Op_UpdateStatus b => Rooms_UpdateStatus c b
  | Op_Update b => Rooms_Update c b | Op_Delete => Rooms_Delete c
  end.
Record RoomRequest := { rq_ctx : Ctx; rq_op : RoomOp }.
Definition room_serve_all (rqs : list RoomRequest) (w : World) : World :=
  foldl (fun w rq => snd (serve (room_route (rq_op rq) (rq_ctx rq)) w)) w rqs.
End RoomDesk.
