(* ===== verification/RoomSpec.v ===== *)
(** RoomSpec: the cached lists of rooms are the hotel's rooms.  A request that
    changes rooms drops the lists it may have changed before it is answered, so a
    list served from the cache is the one the database holds. *)

From stdpp Require Import countable.
From S2P Require Import Prelude GoLib Schema Binary64 World Auth Domain RoomRepo Gateway RoomDesk.
From Stdlib Require Import QArith.
Local Open Scope string_scope.
Local Open Scope Z_scope.

(** ** What a cache that keeps what it is told holds *)

Definition after_call (key : string) (held : option string) (call : OutCall) : option string :=
  match call with
  | CallSet k v => if k =s key then Some v else held
  | CallDelete ks => if existsb (String.eqb key) ks then None else held
  | _ => held
  end.
Definition kept (calls : list OutCall) (key : string) : option string := foldl (after_call key) None calls.
(** A Get answers nothing but the value last set and not deleted since; it may
    fail or have forgotten it.  This takes every Delete as carried out, where
    invalidateRooms drops the error of one that is not ([room_desk_departures]). *)
Definition honest (cache : RoomCache) : Prop := forall past key v, list_reply past key = inr v -> kept past key = Some v.
Definition json_round_trip (json : RoomJson) : Prop := forall l v, rooms_marshal l = Some v -> rooms_unmarshal v = Some l.
Definition plain_ids (env : Env) : Prop :=
  (forall a b, uuid_string a = uuid_string b -> a = b) /\ (forall a, forall_string (fun x => negb (Ascii.eqb x ":")) (uuid_string a) = true).

Lemma kept_snoc calls c key : kept (calls ++ [c]) key = after_call key (kept calls key) c.
Proof. unfold kept. now rewrite foldl_app. Qed.

(** ** Keys *)

Lemma colon_split a b s t :
  forall_string (fun x => negb (Ascii.eqb x ":")) a = true -> forall_string (fun x => negb (Ascii.eqb x ":")) b = true ->
  a ++ String ":" s = b ++ String ":" t -> a = b /\ s = t.
Proof.
  revert b. induction a as [|x a IH]; intros [|y b]; cbn; intros Ha Hb E.
  - now injection E.
  - injection E as <- _. discriminate.
  - injection E as -> _. discriminate.
  - injection E as <- E. apply andb_true_iff in Ha as [_ Ha], Hb as [_ Hb]. destruct (IH b Ha Hb E) as [-> ->]. auto.
Qed.
Lemma KeyRoomList_inj (env : Env) (Hk : plain_ids env) h1 h2 s1 s2 :
  KeyRoomList (uuid_string h1) s1 = KeyRoomList (uuid_string h2) s2 -> h1 = h2 /\ s1 = s2.
Proof.
  destruct Hk as [Hi Hc]. unfold KeyRoomList, TenantKey. intros E. injection E as E.
  apply colon_split in E as [E1 E2]; [|apply Hc..]. split; [now apply Hi|]. now injection E2.
Qed.

(** ** The lists of the rooms *)

Definition tracked : list string := ["all"; RoomStatusAvailable; RoomStatusOccupied; RoomStatusCleaning; RoomStatusMaintenance].
(** The rooms of a hotel, of one status or all, by floor and number. *)
Definition room_list {env : Env} (h : uuid) (status : option string) (d : DB) : list Room :=
  scanRooms (order_by by_floor_number
    (select (fun r => ueq (rm_hotel_id r) h && match status with Some s => rm_status r =s s | None => true end) (rooms d))).
Definition listed_as (key : string) : option string := if key =s "all" then None else Some key.

Section Fresh.
Context {env : Env} {cache : RoomCache} {json : RoomJson} (Hcache : honest cache) (Hjson : json_round_trip json) (Hk : plain_ids env).

(** Every kept list of a tracked key is the list of its hotel, except for hotel x. *)
Definition fresh_but (x : option uuid) (d : DB) (calls : list OutCall) : Prop :=
  forall h k v, In k tracked -> x <> Some h -> kept calls (KeyRoomList (uuid_string h) k) = Some v ->
  rooms_unmarshal v = Some (room_list h (listed_as k) d).
Definition fresh := fresh_but None.

(** ** Computations, with the calls they make *)

Definition goes {E A} (m : M E A) (d : DB) (cs : list OutCall) (Q : A -> DB -> list OutCall -> Prop) (R : E -> DB -> list OutCall -> Prop) : Prop :=
  forall w, sees Pool w d -> w_calls w = cs ->
    match m w with
    | (inr a, w') => w_tx w' = NoTx /\ Q a (w_db w') (w_calls w')
    | (inl e, w') => w_tx w' = NoTx /\ R e (w_db w') (w_calls w')
    end.

Lemma goes_ret {E A} (a : A) d cs (Q : A -> DB -> _ -> Prop) (R : E -> DB -> _ -> Prop) : Q a d cs -> goes (mret a) d cs Q R.
Proof. intros H w [Ht <-] <-. split; assumption. Qed.
Lemma goes_throw {E A} (e : E) d cs (Q : A -> DB -> _ -> Prop) (R : E -> DB -> _ -> Prop) : R e d cs -> goes (throw e) d cs Q R.
Proof. intros H w [Ht <-] <-. split; assumption. Qed.
Lemma goes_bind {E A B} (m : M E A) (k : A -> M E B) d cs Q1 Q R :
  goes m d cs Q1 R -> (forall a d' cs', Q1 a d' cs' -> goes (k a) d' cs' Q R) -> goes (m ≫= k) d cs Q R.
Proof.
  intros Hm Hk' w Hw Hc. specialize (Hm w Hw Hc). unfold mbind, M_bind. destruct (m w) as [[e|a] w']; [exact Hm|].
  destruct Hm as [Ht HQ]. exact (Hk' a _ _ HQ w' (conj Ht eq_refl) eq_refl).
Qed.
Lemma goes_on_err {E A} (m : M GoErr A) (h : GoErr -> E) d cs Q (R : E -> DB -> _ -> Prop) :
  goes m d cs Q (fun e => R (h e)) -> goes (on_err m h) d cs Q R.
Proof. intros Hm w Hw Hc. specialize (Hm w Hw Hc). unfold on_err. destruct (m w) as [[e|a] w']; exact Hm. Qed.
Lemma goes_exec {A} (f : DB -> GoErr + (A * DB)) d cs (Q : A -> DB -> _ -> Prop) (R : GoErr -> DB -> _ -> Prop) :
  R ErrConn d cs -> match f d with inl e => R e d cs | inr (a, d') => Q a d' cs end -> goes (exec Pool f) d cs Q R.
Proof.
  intros Hc H w [Ht <-] <-. unfold exec. destruct (db_fault _); cbn; [auto|].
  destruct (f (w_db w)) as [e|[a d']]; cbn; [auto|]. rewrite Ht. auto.
Qed.
Lemma goes_call {E A} (answer : list OutCall -> A) c d cs (Q : A -> DB -> _ -> Prop) (R : E -> DB -> _ -> Prop) :
  Q (answer cs) d (cs ++ [c])%list -> goes (call_out answer c) d cs Q R.
Proof. intros H w [Ht <-] <-. split; [exact Ht | exact H]. Qed.
(** A step that makes no calls and changes nothing. *)
Lemma goes_ens {E A} (m : M E A) d cs (Q : A -> Prop) (R : E -> DB -> _ -> Prop) :
  (forall w, w_calls (snd (m w)) = w_calls w) -> ensures m d (fun a d' => d' = d /\ Q a) (fun e d' => d' = d /\ R e d cs) ->
  goes m d cs (fun a d' cs' => d' = d /\ cs' = cs /\ Q a) R.
Proof.
  intros Hn Hm w Hw <-. specialize (Hm w Hw). specialize (Hn w). destruct (m w) as [[e|a] w']; cbn in Hn; rewrite Hn; [|tauto].
  destruct Hm as (Ht & -> & HR). auto.
Qed.
Lemma goes_option {E A} (o : option A) (e : E) d cs (R : E -> DB -> _ -> Prop) :
  (o = None -> R e d cs) -> goes (of_option o e) d cs (fun a d' cs' => d' = d /\ cs' = cs /\ o = Some a) R.
Proof. intros H. destruct o; [apply goes_ret | apply goes_throw]; auto. Qed.
Lemma goes_throw_if {E} (b : bool) (e : E) d cs (R : E -> DB -> _ -> Prop) :
  (b = true -> R e d cs) -> goes (throw_if b e) d cs (fun _ d' cs' => d' = d /\ cs' = cs /\ b = false) R.
Proof. intros H. destruct b; [apply goes_throw | apply goes_ret]; auto. Qed.

(** ** The invariant through a write, a drop and a list *)

Lemma fresh_weaken x d cs : fresh d cs -> fresh_but x d cs.
Proof. intros H h k v Hk' _. apply H; [exact Hk' | discriminate]. Qed.
Lemma fresh_get d cs key : fresh d cs -> fresh d (cs ++ [CallGet key])%list.
Proof. intros H h k v Hk' Hx. rewrite kept_snoc. now apply H. Qed.

Lemma fresh_write h d d' cs :
  fresh d cs -> (forall h' s, h' <> h -> room_list h' s d' = room_list h' s d) -> fresh_but (Some h) d' cs.
Proof. intros H Hd h' k v Hk' Hx Hv. rewrite Hd by congruence. apply H; [exact Hk' | discriminate | exact Hv]. Qed.

Lemma fresh_drop h d cs : fresh_but (Some h) d cs -> fresh d (cs ++ [CallDelete (room_keys (uuid_string h))])%list.
Proof.
  intros H h' k v Hk' _. rewrite kept_snoc. cbn [after_call]. destruct (existsb _ _) eqn:E; [discriminate|].
  apply H; [exact Hk'|]. intros [= ->]. apply not_true_iff_false in E. apply E, existsb_exists.
  exists (KeyRoomList (uuid_string h') k). split; [|apply String.eqb_refl].
  unfold tracked in Hk'. cbn in Hk' |- *. intuition (subst; auto 10).
Qed.

Lemma fresh_set h raw d cs v :
  fresh d cs -> raw <> "all" -> rooms_marshal (room_list h (nullif raw) d) = Some v ->
  fresh d (cs ++ [CallSet (KeyRoomList (uuid_string h) (if raw =s "" then "all" else raw)) v])%list.
Proof.
  intros H Hraw Hv h' k v' Hk' _. rewrite kept_snoc. cbn [after_call].
  destruct (String.eqb_spec (KeyRoomList (uuid_string h) (if raw =s "" then "all" else raw)) (KeyRoomList (uuid_string h') k)) as [E|E];
    [|now apply H].
  intros [= <-]. apply KeyRoomList_inj in E as [-> <-]; [|exact Hk]. rewrite (Hjson _ _ Hv). f_equal.
  unfold nullif, listed_as. destruct (String.eqb_spec raw "") as [->|Hne]; [reflexivity|].
  apply String.eqb_neq in Hraw. now rewrite Hraw.
Qed.

(** *** Writes touch the hotel's own rooms *)

Lemma select_update_others {R} (p q : R -> bool) f t :
  (forall r, q r = true -> p r = false /\ p (f r) = false) -> select p (update_rows q f t) = select p t.
Proof.
  intros H. unfold select, update_rows. induction t as [|r t IH]; [reflexivity|]. cbn.
  destruct (q r) eqn:E; [|cbn; now rewrite IH]. destruct (H r E) as [-> ->]. exact IH.
Qed.
Lemma select_delete_others {R} (p q : R -> bool) t : (forall r, q r = true -> p r = false) -> select p (delete_rows q t) = select p t.
Proof.
  intros H. unfold select, delete_rows. induction t as [|r t IH]; [reflexivity|]. cbn.
  destruct (q r) eqn:E; cbn; [now rewrite (H r E), IH | now rewrite IH].
Qed.
Lemma select_insert_others {R} (p : R -> bool) r t : p r = false -> select p (insert_row r t) = select p t.
Proof. intros H. unfold select, insert_row. rewrite List.filter_app. cbn. now rewrite H, app_nil_r. Qed.

Definition other_lists (h : uuid) (d d' : DB) : Prop := forall h' s, h' <> h -> room_list h' s d' = room_list h' s d.

Lemma update_others h id f d :
  (forall r, rm_hotel_id (f r) = rm_hotel_id r) -> other_lists h d (d <| rooms ::= update_rows (room_key h id) f |>).
Proof.
  intros Hf h' s Hne. unfold room_list. cbn [rooms set]. rewrite select_update_others; [reflexivity|].
  intros r [E _]%andb_true_iff. apply N.eqb_eq in E. rewrite Hf, E. unfold ueq.
  rewrite (proj2 (N.eqb_neq h h')) by congruence. auto.
Qed.
Lemma set_field_hotel set r : rm_hotel_id (foldl set_room_field r set) = rm_hotel_id r.
Proof. revert r. induction set as [|x set IH]; intros r; [reflexivity|]. cbn [foldl]. rewrite IH. now destruct x. Qed.
Lemma delete_others h id d d' : delete_room h id d = inr (tt, d') -> other_lists h d d'.
Proof.
  unfold delete_room. destruct (exists_row _ (rooms d)); [|now intros [= <-]]. destruct (exists_row _ _); [discriminate|].
  intros [= <-] h' s Hne. unfold room_list. cbn [rooms set]. rewrite select_delete_others; [reflexivity|].
  intros r [E _]%andb_true_iff. apply N.eqb_eq in E. rewrite E. unfold ueq. now rewrite (proj2 (N.eqb_neq h h')) by congruence.
Qed.
Lemma insert_others row d r d' : insert_room row d = inr (r, d') -> other_lists (rm_hotel_id row) d d'.
Proof.
  unfold insert_room. destruct (negb _); [discriminate|]. destruct (exists_row _ (rooms d)); [discriminate|].
  destruct (exists_row _ _); [|discriminate]. intros [= _ <-] h' s Hne. unfold room_list. cbn [rooms set].
  rewrite select_insert_others; [reflexivity|]. unfold ueq. now rewrite (proj2 (N.eqb_neq _ h')) by congruence.
Qed.

(** ** The requests *)

Lemma goes_now {E} d cs (R : E -> DB -> list OutCall -> Prop) : goes time_now d cs (fun _ d' cs' => d' = d /\ cs' = cs) R.
Proof. intros w [Ht <-] <-. split; [exact Ht | split; reflexivity]. Qed.
Lemma goes_uuid {E} d cs (R : E -> DB -> list OutCall -> Prop) : goes new_uuid d cs (fun _ d' cs' => d' = d /\ cs' = cs) R.
Proof. intros w [Ht <-] <-. split; [exact Ht | split; reflexivity]. Qed.

(** A change of hotel h's rooms, or none and an error. *)
Definition changes {A} (h : uuid) (m : M GoErr A) d cs : Prop :=
  goes m d cs (fun _ d' cs' => cs' = cs /\ other_lists h d d') (fun _ d' cs' => d' = d /\ cs' = cs).

Lemma changes_UpdateRoom h id fields d cs : changes h (UpdateRoom Pool h id fields) d cs.
Proof.
  unfold changes, UpdateRoom. destruct (Nat.eqb _ 0); [apply goes_throw; auto|].
  eapply goes_bind; [apply goes_now|]. intros now d1 cs1 [-> ->].
  eapply goes_bind with (Q1 := fun rs d' cs' => cs' = cs /\ match rs with [] => d' = d | _ => other_lists h d d' end).
  - apply goes_exec; [auto|]. unfold update_room. destruct (existsb _ _); [auto|].
    destruct (find_row _ _); [|auto]. destruct (negb _); [auto|]. destruct (exists_row _ _); [auto|].
    split; [reflexivity|]. apply update_others. intros r'. cbn. apply set_field_hotel.
  - intros [|r rs] d1 cs1 [-> H]; [apply goes_throw | apply goes_ret]; auto.
Qed.
Lemma changes_DeleteRoom h id d cs : changes h (DeleteRoom Pool h id) d cs.
Proof.
  apply goes_exec; [auto|]. destruct (delete_room h id d) as [e|[[] d']] eqn:E; [auto|]. split; [reflexivity|]. eapply delete_others, E.
Qed.
Lemma changes_CreateRoom h rm d cs : changes h (CreateRoom Pool h rm) d cs.
Proof.
  eapply goes_bind; [apply goes_uuid|]. intros id d1 cs1 [-> ->]. eapply goes_bind; [apply goes_now|]. intros now d1 cs1 [-> ->].
  apply goes_exec; [auto|]. destruct (R_Amenities rm); [|auto].
  destruct (insert_room _ d) as [e|[r d']] eqn:E; [auto|]. split; [reflexivity|]. apply (insert_others _ _ _ _ E).
Qed.
Lemma changes_UpdateRoomStatus h id s d cs : changes h (UpdateRoomStatus Pool h id s) d cs.
Proof.
  unfold changes, UpdateRoomStatus. eapply goes_bind; [apply goes_now|]. intros now d1 cs1 [-> ->].
  eapply goes_bind with (Q1 := fun n d' cs' => cs' = cs /\ other_lists h d d' /\ (n = 0%nat -> d' = d)).
  - apply goes_exec; [auto|]. split; [reflexivity|]. split; [now apply update_others|].
    intros H0. cbn [set]. unfold set. cbn. rewrite update_rows_none by exact H0. now destruct d.
  - intros n d1 cs1 (-> & H1 & H2). destruct n; [apply goes_throw | apply goes_ret]; auto.
Qed.

(** A change, then its lists dropped, then the answer. *)
Lemma change_and_drop {A} c (m : M GoErr A) (e : GoErr -> Resp RoomBody) (k : A -> Resp RoomBody) d cs :
  fresh d cs -> changes (tenantHotelID c) m d cs ->
  goes (a ← on_err m e; invalidateRooms c ;; mret (k a)) d cs (fun _ d' cs' => fresh d' cs') (fun _ d' cs' => fresh d' cs').
Proof.
  intros Hf Hm. eapply goes_bind with (Q1 := fun _ d' cs' => cs' = cs /\ other_lists (tenantHotelID c) d d').
  - apply goes_on_err. intros w Hw Hc. specialize (Hm w Hw Hc). destruct (m w) as [[x|a] w']; [|exact Hm].
    destruct Hm as (Ht & -> & ->). auto.
  - intros a d' cs' [-> Ho]. eapply goes_bind with (Q1 := fun _ d2 cs2 => fresh d2 cs2); [|intros _ d2 cs2 H; apply goes_ret, H].
    apply goes_call. apply fresh_drop. eapply fresh_write; eauto.
Qed.

Definition list_status (c : Ctx) : option string := nullif (c_query c "status").
Lemma List_goes c d cs : c_query c "status" <> "all" -> fresh d cs ->
  goes (Rooms_List c) d cs
    (fun r d' cs' => d' = d /\ fresh d' cs'
       /\ (In (c_query c "status") ("" :: tracked) -> r = RespOK (RB_rooms (room_list (tenantHotelID c) (list_status c) d))))
    (fun r d' cs' => d' = d /\ fresh d' cs' /\ exists msg, r = RespError 500 msg).
Proof.
  intros Hraw Hf. unfold Rooms_List, list_status. cbv zeta. set (h := tenantHotelID c). set (raw := c_query c "status") in *.
  set (key := if raw =s "" then "all" else raw).
  assert (Hkey : listed_as key = nullif raw).
  { unfold listed_as, key, nullif. destruct (String.eqb_spec raw "") as [->|]; [reflexivity|]. apply String.eqb_neq in Hraw. now rewrite Hraw. }
  assert (Htr : In raw ("" :: tracked) -> In key tracked).
  { unfold key. intros [<-|H]; [now left|]. destruct (raw =s ""); [now left | exact H]. }
  eapply goes_bind with (Q1 := fun v d' cs' => d' = d /\ fresh d cs' /\ v = list_reply cs (KeyRoomList (uuid_string h) key)).
  { apply goes_call. split; [reflexivity|]. split; [now apply fresh_get | reflexivity]. }
  intros v d1 cs1 (-> & Hf1 & Ev). destruct (match v with inr x => rooms_unmarshal x | inl _ => None end) as [rooms|] eqn:E.
  - apply goes_ret. split; [reflexivity|]. split; [exact Hf1|]. intros Hin. destruct v as [|x]; [discriminate|].
    specialize (Hf h key x (Htr Hin) ltac:(discriminate) (Hcache _ _ _ (eq_sym Ev))). rewrite Hkey in Hf. congruence.
  - eapply goes_bind with (Q1 := fun l d' cs' => d' = d /\ cs' = cs1 /\ l = room_list h (nullif raw) d).
    { apply goes_on_err. unfold ListRooms. apply goes_on_err, goes_exec; [eauto 6|]. auto. }
    intros l d2 cs2 (-> & -> & ->).
    eapply goes_bind with (Q1 := fun _ d' cs' => d' = d /\ fresh d cs').
    { destruct (rooms_marshal _) as [b|] eqn:Eb; [apply goes_call | apply goes_ret]; (split; [reflexivity|]); [|exact Hf1].
      now apply fresh_set. }
    intros _ d3 cs3 [-> Hf3]. apply goes_ret. auto.
Qed.

Lemma room_route_fresh op c d cs : (op = Op_List -> c_query c "status" <> "all") -> fresh d cs ->
  goes (room_route op c) d cs (fun _ d' cs' => fresh d' cs') (fun _ d' cs' => fresh d' cs').
Proof.
  intros Hop Hf. destruct op as [| |b|b|b|]; cbn [room_route].
  - intros w Hw Hc. pose proof (List_goes c d cs (Hop eq_refl) Hf w Hw Hc) as H. destruct (Rooms_List c w) as [[r|r] w']; tauto.
  - unfold ListAvailable. eapply goes_bind; [apply goes_throw_if; auto|]. intros _ d1 cs1 (-> & -> & _).
    eapply goes_bind; [apply goes_option; auto|]. intros i d1 cs1 (-> & -> & _).
    eapply goes_bind; [apply goes_option; auto|]. intros o d1 cs1 (-> & -> & _).
    eapply goes_bind; [apply goes_throw_if; auto|]. intros _ d1 cs1 (-> & -> & _).
    eapply goes_bind with (Q1 := fun _ d' cs' => d' = d /\ cs' = cs); [|intros l d2 cs2 [-> ->]; now apply goes_ret].
    apply goes_on_err, goes_on_err, goes_exec; auto.
  - unfold Rooms_Create. eapply goes_bind; [apply goes_option; auto|]. intros req d1 cs1 (-> & -> & _).
    apply change_and_drop; [exact Hf | apply changes_CreateRoom].
  - unfold Rooms_UpdateStatus, room_id. eapply goes_bind; [apply goes_option; auto|]. intros id d1 cs1 (-> & -> & _).
    eapply goes_bind; [apply goes_option; auto|]. intros s d1 cs1 (-> & -> & _).
    eapply goes_bind; [apply goes_throw_if; auto|]. intros _ d1 cs1 (-> & -> & _).
    apply (change_and_drop c _ _ (fun _ => RespOK (RB_status "updated"))); [exact Hf | apply changes_UpdateRoomStatus].
  - unfold Rooms_Update, room_id. eapply goes_bind; [apply goes_option; auto|]. intros id d1 cs1 (-> & -> & _).
    eapply goes_bind; [apply goes_option; auto|]. intros fields d1 cs1 (-> & -> & _).
    apply change_and_drop; [exact Hf | apply changes_UpdateRoom].
  - unfold Rooms_Delete, room_id. eapply goes_bind; [apply goes_option; auto|]. intros id d1 cs1 (-> & -> & _).
    apply (change_and_drop c _ _ (fun _ => RespOK (RB_status "deleted"))); [exact Hf | apply changes_DeleteRoom].
Qed.
End Fresh.

(** ** Claims *)

(** C40: with a cache that carries out what it is told and answers nothing else,
    through any sequence of room requests of any hotels, none of which asks for the
    list of a status named "all", a list of all the rooms of a hotel, or of those
    available, occupied, being cleaned or in maintenance, shows, cached or not, the
    rooms the database then holds, or is an error; and it writes nothing.  Rooms are
    read back from their JSON, ids print apart and without a colon, and at the start
    the cache holds no other rooms than the database.  A
    request for the status "all" empties the list of all rooms, and a Delete the
    cache lost leaves an old list ([room_desk_departures]). *)
Theorem room_lists_fresh (env : Env) (cache : RoomCache) (json : RoomJson) rqs w c
  (Hcache : honest cache) (Hjson : json_round_trip json) (Hk : plain_ids env)
  (Ht : w_tx w = NoTx) (H0 : fresh (w_db w) (w_calls w))
  (Hall : forall rq, In rq rqs -> rq_op rq = Op_List -> c_query (rq_ctx rq) "status" <> "all")
  (Hst : In (c_query c "status") ["" ; RoomStatusAvailable; RoomStatusOccupied; RoomStatusCleaning; RoomStatusMaintenance])
  (w1 := room_serve_all rqs w) :
  let '(r, w2) := serve (Rooms_List c) w1 in
  w_db w2 = w_db w1
  /\ (r = RespOK (RB_rooms (room_list (tenantHotelID c) (nullif (c_query c "status")) (w_db w1))) \/ exists msg, r = RespError 500 msg).
Proof.
  assert (H : w_tx w1 = NoTx /\ fresh (w_db w1) (w_calls w1)).
  { unfold w1, room_serve_all. clear w1. revert w Ht H0. induction rqs as [|rq rqs IH]; intros w Ht H0; [auto|]. cbn [foldl].
    assert (Hs := room_route_fresh Hcache Hjson Hk (rq_op rq) (rq_ctx rq) _ _ (Hall rq (or_introl eq_refl)) H0 w (conj Ht eq_refl) eq_refl).
    apply IH; [intros rq' Hin; apply Hall; now right | unfold serve; destruct (room_route _ _ w) as [[]]; reflexivity |].
    unfold serve. destruct (room_route _ _ w) as [[r|r] w']; cbn; apply Hs. }
  destruct H as [Ht1 Hf1].
  assert (Hraw : c_query c "status" <> "all") by (intros E; rewrite E in Hst; cbn in Hst; intuition discriminate).
  assert (Hin : In (c_query c "status") ("" :: tracked)) by (unfold tracked; cbn in Hst |- *; tauto).
  pose proof (List_goes Hcache Hjson Hk c _ _ Hraw Hf1 w1 (conj Ht1 eq_refl) eq_refl) as H. unfold serve.
  destruct (Rooms_List c w1) as [[r|r] w2]; cbn in *; destruct H as (_ & Hd & _ & Hr); (split; [exact Hd|]); [now right | left; now apply Hr].
Qed.

(** *** A concrete cache and encoding

    The cache keeps everything; a list of rooms is encoded as the bits of its code
    number, and so are identifiers. *)
#[export] Instance keeping_cache : RoomCache :=
  {| list_reply := fun past key => match kept past key with Some v => inr v | None => inl (Errorf "redis: nil") end |}.
Lemma keeping_honest : honest keeping_cache.
Proof. intros past key v. cbn. destruct (kept past key); [now intros [= <-] | discriminate]. Qed.

Fixpoint bits (p : positive) : string :=
  match p with xH => "" | xO q => String "0" (bits q) | xI q => String "1" (bits q) end.
Fixpoint of_bits (s : string) : positive :=
  match s with String "0" s' => xO (of_bits s') | String _ s' => xI (of_bits s') | EmptyString => xH end.
Lemma of_bits_bits p : of_bits (bits p) = p.
Proof. induction p as [p IH|p IH|]; cbn; [now rewrite IH..|reflexivity]. Qed.
Lemma bits_plain p : forall_string (fun x => negb (Ascii.eqb x ":")) (bits p) = true.
Proof. now induction p. Qed.

Definition leaf (x : Z + string) : gen_tree (Z + string) := GenLeaf x.
Definition time_tree (t : Time) : gen_tree (Z + string) := GenNode 0 [leaf (inl (t_ns t)); leaf (inl (t_off t))].
Definition tree_time (t : gen_tree (Z + string)) : option Time :=
  match t with GenNode _ [GenLeaf (inl a); GenLeaf (inl b)] => Some {| t_ns := a; t_off := b |} | _ => None end.
Definition room_tree (r : Room) : gen_tree (Z + string) :=
  GenNode 0 [ leaf (inl (Z.of_N (R_ID r))); leaf (inl (Z.of_N (R_HotelID r))); leaf (inr (R_RoomNumber r)); leaf (inr (R_RoomType r));
    leaf (inl (R_Floor r)); leaf (inl (R_Capacity r)); leaf (inl (Qnum (R_PricePerNight r))); leaf (inl (Zpos (Qden (R_PricePerNight r))));
    leaf (inr (R_Status r));
    match R_Amenities r with Some l => GenNode 1 (map (fun s => leaf (inr s)) l) | None => GenNode 0 [] end;
    time_tree (R_CreatedAt r); time_tree (R_UpdatedAt r) ].
Definition tree_room (t : gen_tree (Z + string)) : option Room :=
  match t with
  | GenNode _ [ GenLeaf (inl i); GenLeaf (inl h); GenLeaf (inr no); GenLeaf (inr ty); GenLeaf (inl fl); GenLeaf (inl ca); GenLeaf (inl n);
                GenLeaf (inl m); GenLeaf (inr st); GenNode a l; t1; t2 ] =>
      t1 ← tree_time t1; t2 ← tree_time t2;
      Some {| R_ID := Z.to_N i; R_HotelID := Z.to_N h; R_RoomNumber := no; R_RoomType := ty; R_Floor := fl; R_Capacity := ca;
              R_PricePerNight := n # Z.to_pos m; R_Status := st;
              R_Amenities := match a with S _ => Some (omap (fun x => match x with GenLeaf (inr s) => Some s | _ => None end) l) | O => None end;
              R_CreatedAt := t1; R_UpdatedAt := t2 |}
  | _ => None
  end.
Lemma tree_room_tree r : tree_room (room_tree r) = Some r.
Proof.
  destruct r as [i h no ty fl ca [n m] st am [a b] [x y]]. cbn. rewrite !N2Z.id. destruct am as [l|]; [|reflexivity].
  do 3 f_equal. induction l as [|s l IH]; cbn in *; [reflexivity|]. congruence.
Qed.
Definition rooms_bits (l : list Room) : string := bits (encode (map room_tree l)).
Definition bits_rooms (s : string) : option (list Room) := l ← decode (A := list (gen_tree (Z + string))) (of_bits s); mapM tree_room l.
#[export] Instance bits_json : RoomJson := {| rooms_marshal := fun l => Some (rooms_bits l); rooms_unmarshal := bits_rooms |}.
Lemma bits_round_trip : json_round_trip bits_json.
Proof.
  intros l v E. injection E as <-. change (bits_rooms (rooms_bits l) = Some l). unfold bits_rooms, rooms_bits.
  rewrite of_bits_bits, decode_encode. exact (mapM_fmap_Forall_Some tree_room room_tree l (Forall_true _ _ tree_room_tree)).
Qed.

(** An environment whose identifiers are written in bits. *)
Definition bits_env : Env := {|
  db_fault := fun _ => false; uuid_new := fun n => (1000 + N.of_nat n)%N; uuid_parse := demo_parse; db_shared := false;
  uuid_string := fun u => bits (N.succ_pos u); clock := clock (Env := calm); server_off := 0; db_off := 0;
  driver_text := driver_text (Env := calm); num_enc := to_cents; num_dec := cents; date_in := parse_date |}.
Lemma bits_ids : plain_ids bits_env.
Proof.
  split; [|intros a; apply bits_plain]. intros a b E. apply (f_equal of_bits) in E. cbn in E. rewrite !of_bits_bits in E. lia.
Qed.

Definition of_hotel (h query id : string) : Ctx :=
  {| c_authorization := ""; c_session_cookie := ""; c_branch_header := ""; c_params := fun _ => id;
     c_query := fun k => if k =s "status" then query else ""; c_user_id := None; c_hotel_id := Some h; c_branch_id := None |}.
Definition lodge : DB :=
  empty_db <| hotels := [{| ho_id := 1%N; ho_name := "Serene"; ho_slug := "serene"; ho_gst_rate := None; ho_is_active := true;
                ho_plan_tier := "premium"; ho_modules := []; ho_address := None; ho_settings := []; ho_identity := no_identity |}] |>
    <| rooms := map (fun p => {| rm_id := fst p; rm_hotel_id := 1%N; rm_room_number := snd p; rm_room_type := "deluxe"; rm_floor := 1; rm_capacity := 2;
         rm_price_per_night := 450000; rm_status := "available"; rm_amenities := []; rm_created_at := Date 2026 1 1 0 0 0;
         rm_updated_at := Date 2026 1 1 0 0 0 |}) [(101%N, "101"); (102%N, "102")] |>.
Definition shown {A} (f : Room -> A) (r : Resp RoomBody) : list A := match r with RespOK (RB_rooms l) => map f l | _ => [] end.
Definition ask (op : RoomOp) (query id : string) : RoomRequest := {| rq_ctx := of_hotel "1" query id; rq_op := op |}.

(** All rooms listed, 101 sent to cleaning, all rooms listed twice: the last list
    comes from the cache and shows 101 being cleaned. *)
Lemma room_lists_fresh_witness :
  let rqs := [ask Op_List "" ""; ask (Op_UpdateStatus (Some "cleaning")) "" "101"; ask Op_List "" ""] in
  let w := room_serve_all (env := bits_env) rqs (start lodge) in
  let '(r, w') := serve (Rooms_List (env := bits_env) (of_hotel "1" "" "")) w in
  shown (fun x => (R_RoomNumber x, R_Status x)) r = [("101", "cleaning"); ("102", "available")]
  /\ w_stmts w' = w_stmts w /\ w_db w' = w_db w.
Proof.
  intros rqs w.
  pose proof (room_lists_fresh bits_env keeping_cache bits_json rqs (start lodge) (of_hotel "1" "" "") keeping_honest bits_round_trip bits_ids
    eq_refl ltac:(intros h k v _ _ [=]) ltac:(intros rq [<-|[<-|[<-|[]]]] _; discriminate) (or_introl eq_refl)) as H.
  cbv zeta in H. change (room_serve_all rqs (start lodge)) with w in H.
  assert (E : let x := serve (Rooms_List (env := bits_env) (of_hotel "1" "" "")) w in
              shown (fun x => (R_RoomNumber x, R_Status x)) (fst x) = [("101", "cleaning"); ("102", "available")]
              /\ w_stmts (snd x) = w_stmts w) by (vm_compute; split; reflexivity).
  set (x := serve (Rooms_List (env := bits_env) (of_hotel "1" "" "")) w) in H, E |- *. clearbody x. destruct x as [r w'].
  destruct H as [Hd _], E as [E1 E2]. exact (conj E1 (conj E2 Hd)).
Defined.

(** A cache that every Delete is lost on the way to. *)
Definition deaf_cache : RoomCache :=
  {| list_reply := fun past key =>
       match kept (List.filter (fun c => match c with CallDelete _ => false | _ => true end) past) key with
       | Some v => inr v | None => inl (Errorf "redis: nil") end |}.

(** Departures from what the code intends.  A list of the status "all" is kept
    under the key of all rooms, so the next list of all rooms is empty.  A Delete
    whose error is dropped leaves a list that no longer holds.  The list
    of rooms out of order is kept but never dropped: it still shows a room put back
    on sale.  A room can be given any status by an update.  And a room sent without
    amenities is refused. *)
Theorem room_desk_departures (env := bits_env) :
  (let w := room_serve_all [ask Op_List "all" ""] (start lodge) in
   shown R_RoomNumber (fst (serve (Rooms_List (of_hotel "1" "" "")) w)) = [] /\ length (rooms (w_db w)) = 2%nat)
  /\ (let w := room_serve_all (cache := deaf_cache) [ask Op_List "" ""; ask (Op_UpdateStatus (Some "cleaning")) "" "101"] (start lodge) in
      shown R_Status (fst (serve (Rooms_List (cache := deaf_cache) (of_hotel "1" "" "")) w)) = ["available"; "available"]
      /\ map rm_status (rooms (w_db w)) = ["cleaning"; "available"])
  /\ (let w := room_serve_all [ask (Op_UpdateStatus (Some "out_of_order")) "" "101"; ask Op_List "out_of_order" "";
                               ask (Op_UpdateStatus (Some "available")) "" "101"] (start lodge) in
      shown R_RoomNumber (fst (serve (Rooms_List (of_hotel "1" "out_of_order" "")) w)) = ["101"]
      /\ map rm_status (rooms (w_db w)) = ["available"; "available"])
  /\ map rm_status (rooms (w_db (room_serve_all [ask (Op_Update (Some [RF_status "sold"])) "" "101"] (start lodge)))) = ["sold"; "available"]
  /\ (exists msg, fst (serve (Rooms_Create (of_hotel "1" "" "")
         (Some {| cr_RoomNumber := "103"; cr_RoomType := "deluxe"; cr_Floor := 1; cr_Capacity := 2; cr_PricePerNight := 4500; cr_Status := ""; cr_Amenities := None |}))
         (start lodge)) = RespError 400 msg).
Proof. vm_compute. repeat (split || eexists). Qed.
